(* ===== verification/_CoqProject ===== *)
-Q . S2P
Prelude.v
RBTree.v
RBModel.v
RBRep.v
RBInsert.v
RBErase.v
RBSpec.v
KeyedTree.v
HevList.v
MappedDNS.v
DnsMessage.v
Authenticator.v
Buffers.v
SocksAddr.v
TreeTheorems.v
DnsTheorems.v
AuthTheorems.v
BufferTheorems.v
TaskSocket.v
TaskMsg.v
Socks5Client.v
Socks5Server.v
Socks5Udp.v
AddrTheorems.v
Handshake.v
UdpFrames.v
HandshakeSafe.v
UdpDatagrams.v
ClientSafe.v
HandshakeTheorems.v
UdpTheorems.v
SpliceLoop.v
Splice.v
PipeSplice.v
SpliceTheorems.v
Config.v
ConfigWf.v
ConfigTheorems.v
TunnelSync.v
TunnelTheorems.v
SessionTcp.v
SessionTcpInv.v
SessionTcpLive.v
SessionTcpTheorems.v
TunnelSessions.v
SessionSetTheorems.v
TunnelInit.v
TunnelInitTheorems.v
SessionUdp.v
SessionUdpInv.v
SessionUdpFlow.v
SessionUdpTheorems.v
SliceAlloc.v
SliceInv.v
SliceTheorems.v
CachedTree.v
Sched.v
SchedSpec.v
SchedInv.v
SchedRep.v
SchedLive.v
SchedTheorems.v
Timer.v
TimerSpec.v
TimerRep.v
TimerLive.v
TimerTheorems.v
TaskMutex.v
TaskCond.v
DnsProxy.v
DnsProxyInv.v
DnsProxySteps.v
DnsProxyLive.v
DnsProxyTheorems.v
SessionRun.v
SessionRunTheorems.v
SessionLife.v
TunnelIO.v
TunnelIOTheorems.v
TunnelDns.v
