(* ===== verification/Prelude.v ===== *)
(** * Verification of hev-socks5-tunnel

    The native part of the application is a tunnel (src/hev-socks5-tunnel): it reads
    the packets of a virtual network device, lets an embedded TCP/IP stack (lwip)
    turn them into connections and datagrams, and carries each of these as a task
    through a SOCKS5 server.  This development models the C code of the tunnel, of
    the SOCKS5 library it is built on (src/core) and of the parts of the task system
    that move bytes, and proves what makes each of them correct.  Paths below are
    relative to src/hev-socks5-tunnel.

    ** How C is modelled

    A routine that reads or writes memory is a function [M S A], explicit state
    passing that fails ([None]) where the C standard leaves behaviour undefined: a
    NULL or dangling dereference, an access outside an object, the overflow of a
    signed number, a read of an unassigned variable.  A theorem that ends in [Some]
    is therefore also one of memory safety.  Integers are [Z] with conversions to
    their width written out ([u8], [u16], [u32], [u64], [i32]); memory is a finite map
    from addresses to records or a list of bytes.  What the system, the scheduler,
    the allocator and the peers do is an oracle: a list of coming events or answers,
    or a function of the state.  Calls that may suspend a task are points where the
    oracle acts.  Loops that do not recurse on data take fuel, the theorems give
    bounds that are enough.

    ** The parts

    - [Prelude]: the monad, integers, bytes in memory, a weakest precondition, frames.
    - The red-black tree (src/core/src/hev-rbtree.c), at pointer level with the
      parent and colour in one word: [RBTree] has the routines, [RBModel] the
      functional trees and zippers, [RBRep] the representation predicate, [RBInsert]
      and [RBErase] the rebalancing, [RBSpec] the contracts, [KeyedTree] trees that
      are sorted by a key in another heap.  [HevList] is the intrusive list
      (src/misc/hev-list.c).  [TreeTheorems]: insertion and removal keep a sorted
      red-black tree, searches are logarithmic, the iterators visit every node.
    - [MappedDNS] (src/hev-mapped-dns.c), the cache that hands out addresses for
      names, over the tree, the list and an index array, refines an abstract LRU
      cache; [DnsMessage] is its handler of DNS messages.  [DnsTheorems]: refinement,
      safety on every message, answers that map back.
    - [Authenticator] (src/core/src/hev-socks5-authenticator.c, -user.c, and the
      reference counts) refines a finite map.  [AuthTheorems].
    - [Buffers] (src/misc/hev-ring-buffer.c and the circular buffer of the task
      system): both implement the class [ByteFifo], against which the splices are
      proved.  [BufferTheorems]: first in, first out.
    - [SocksAddr] (the addresses of src/core/src/hev-socks5-misc.c and
      src/misc/hev-utils.c).  [AddrTheorems]: round trips, and what long names do.
    - [TaskSocket], [TaskMsg] (hev-task-io-socket.c): the loops around partial
      transfers.
    - [Socks5Client], [Socks5Server] (src/core/src/hev-socks5-client*.c, -server.c,
      hev-socks5.c): the handshakes, their allocations and descriptors.  [Handshake]
      has the messages and the successful runs, [HandshakeSafe] and [ClientSafe] the
      invariants that hold on any bytes.  [HandshakeTheorems]: both ends agree, a
      login is decided by the registry, no peer makes either end fault.
    - [Socks5Udp] (hev-socks5-udp.c): datagrams framed in a stream or sent as they
      are; [UdpFrames] and [UdpDatagrams] have the two formats.  [UdpTheorems].
    - [SpliceLoop] (hev-task-io.c, hev-socks5-tcp.c): two streams copied into each other,
      against an interface for what a direction keeps its bytes in; [Splice] is the build
      with circular buffers, [PipeSplice] the default one with pipes.  [SpliceTheorems]:
      in both it ends, and delivers everything.
    - [Config] (src/hev-config.c): from the nodes of a YAML document to the settings;
      [ConfigWf] the invariant.  [ConfigTheorems]: accepted settings are well formed.
    - [SliceAlloc] (third-part/hev-task-system: mem/slice, mem/api): the allocator with
      a chain of free blocks per size; [SliceInv] its invariant.  [SliceTheorems]: to any
      client it is [malloc] and [free], it keeps a bounded number of free blocks, and
      what happens with sizes whose class is no [int].
    - [CachedTree] (third-part/hev-task-system: lib/rbtree/hev-rbtree-cached.c), a tree
      that knows its first node, is a sorted list.  [Sched] (kern/core/
      hev-task-system-schedule.c, kern/task/hev-task.c) is the scheduler on top of it;
      [SchedSpec] the sorted list of tasks it implements, [SchedInv] the invariant of
      that list, [SchedRep] the refinement, [SchedLive] how long a task waits.
      [SchedTheorems]: every run refines the list, and no task starves another unless
      its priority is 0.  [Timer] (kern/time/hev-task-timer.c) adds the sleeping tasks,
      [TimerSpec] their sorted list, [TimerRep] the refinement, [TimerLive] what comes
      before a sleeper.  [TimerTheorems]: a sleep ends, and says how much of it is left.
    - [TaskMutex] and [TaskCond] (kern/sync) are the mutex and the condition of tasks, a call
      that waits cut in two; a condition refines the list of waiting tasks, except that
      the latest of several loses the others when its time is up.  [DnsProxy] (lib/dns, kern/aide/hev-task-aide.c) is the proxy through which
      tasks ask the resolver of the C library in another thread; every interleaving of
      the tasks, the thread and the reactor is a sequence of its steps.  [DnsProxyInv]
      has its specification, a set of questions with their answers, and its invariant,
      [DnsProxySteps] shows that every step keeps it, [DnsProxyLive] measures what is left
      to do.  [DnsProxyTheorems]: no step faults, every call returns the answer to its
      own question, and no wake-up is lost.
    - [TunnelSync] (src/hev-socks5-tunnel.c): the protocol between the thread of the
      tunnel and those that stop it, as interleaved atomic steps.  [TunnelTheorems]:
      no write to a closed socket in any interleaving, and no lost stop.
    - [SessionTcp] (src/hev-socks5-session-tcp.c): a connection of lwip relayed
      through the socket; [SessionTcpInv] its invariant, [SessionTcpLive] progress.
      [SessionTcpTheorems]: the session ends, the stream of the application arrives unchanged, and so does that of the
      server where lwip takes every write; after a refused write at most one piece of it is missing.
    - [SessionRun] (src/hev-socks5-session.c) puts the client, the handshake and the
      session together: its task connects to the server, logs in, and runs the splicer
      of its class.  [SessionRunTheorems]: the run never faults, nothing of the application is
      relayed before the server has accepted the request, and with a server that answers and a stack that refuses
      nothing everything is delivered.  [SessionLife] adds its birth, from the addresses of lwip, and
      its destruction: every descriptor opened is closed once, whatever fails; the address block is freed unless the
      handshake fails.
    - [SessionUdp] (src/hev-socks5-session-udp.c): the datagrams of a flow of lwip,
      queued by its callback as frames of an intrusive list, and the two directions of
      the association; [SessionUdpInv] who owns which object, [SessionUdpFlow] what
      each direction does.  [SessionUdpTheorems]: as long as the server cuts no frame, both directions keep the order and
      the payloads, the queue is bounded, and the destructor frees everything.
    - [TunnelSessions] (src/hev-socks5-tunnel.c): the set of sessions with its cap,
      the callbacks of the stack that add sessions, the tasks that run and remove
      them, and the end of a run.  [SessionSetTheorems]: any admissible sequence of
      these refines a list of sessions in the order of their activity, and a stop empties it; the cap only ends the first
      session and does not bound the list, and what happens without memory for a task is a theorem of its own.
    - [TunnelIO] (src/hev-tunnel.h, src/hev-socks5-tunnel.c): the task that reads packets from
      the device and hands them to lwip, the callback that writes those of lwip, the
      counters, and the task of the timers.  [TunnelIOTheorems]: every packet gets through once and in
      order, what is written can be read back, and where the task spins.  [TunnelDns] is
      the callback for datagrams to the mapped DNS, and the way of a name from the question to the
      request of a session.
    - [TunnelInit] (src/hev-socks5-tunnel.c): every step that sets the tunnel up and
      takes it down, over a ledger of open resources.  [TunnelInitTheorems]: whatever
      fails, nothing is released twice, and nothing leaks but the pcb that a failing [tcp_listen] was given.

    ** Bounds and fuel

    The fuel of a loop over a tree or list is its number of nodes plus one or two; of
    a splice, the bytes and events that are left; of a session, in addition the
    number of sleeps after which its surroundings are quiet and one receive window
    ([TCP_WND]); of the task that reads the device, the events of the device and the turns without memory.  A task waits at most 16 turns for each task there can be; keys of tasks
    grow by 15 in a turn at most, which bounds the turns before they overflow.  Ring
    buffers are at most one receive window, which [ConfigTheorems] shows the
    configuration ensures.

    ** Not modelled

    System calls themselves, the resolver, the allocator, the YAML parser and lwip
    are parameters or oracles; the device and the stack are what they answer and what
    they call back.  Of the stack only [pbuf_free_header] is modelled, and
    the calls into it as far as the session relies on them; the session assumes of
    lwip what [SessionTcpInv.event_ok] and [SessionUdpInv.uev_ok] say.  The lock around the calls into lwip is
    never contended, because no task suspends itself while it holds it: it is a flag
    in [TunnelSessions], where taking it twice in one task is a fault, and left out of
    [SessionTcp].  The other parts see the scheduler as the oracle that lets others act
    where a task suspends itself; [Sched] models which task runs, not how stacks are
    switched nor the reactor.  [DnsProxy] assumes a socket pair whose ends are open and that
    takes one byte.  Conditions and channels of tasks are not used by the tunnel; channels are left out.  The class tables, logging, what the device back ends do with the system, the
    command line, the JNI entry and the Kotlin application are left out. *)

From stdpp Require Export base tactics numbers option sets gmap list.

#[export] Set Warnings "-clear-no-such-hyp".

(** ** Scopes and notations *)

Declare Scope cmem_scope.
Delimit Scope cmem_scope with cmem.

#[global] Open Scope Z_scope.

(** ** State and failure

    Every routine of the C code that reads or writes shared memory is a
    function [M S A := S -> option (A * S)].  [None] stands for behaviour the C
    standard leaves undefined (a NULL or dangling dereference, an access outside
    an object) and for a loop that has used up its fuel, so a theorem that ends
    in [Some _] says at once that the routine is memory safe and terminates. *)

Definition M (S A : Type) : Type := S -> option (A * S).

Definition ret {S A} (a : A) : M S A := fun s => Some (a, s).

Definition bind {S A B} (m : M S A) (f : A -> M S B) : M S B :=
  fun s => match m s with
           | Some (a, s') => f a s'
           | None => None
           end.

Definition fail {S A} : M S A := fun _ => None.

Definition gets {S A} (f : S -> A) : M S A := fun s => Some (f s, s).

Definition modify {S} (f : S -> S) : M S unit := fun s => Some (tt, f s).

(** [lift_opt o]: a lookup that must succeed. *)
Definition lift_opt {S A} (o : option A) : M S A :=
  fun s => match o with Some a => Some (a, s) | None => None end.

(** Run a routine on a component of a larger state. *)
Definition zoom {S T A} (get : T -> S) (put : S -> T -> T) (m : M S A) : M T A :=
  fun t => match m (get t) with
           | Some (a, s') => Some (a, put s' t)
           | None => None
           end.

Notation "'let*' x ':=' c1 'in' c2" := (bind c1 (fun x => c2))
  (at level 10, x pattern, c1 at level 99, c2 at level 200) : cmem_scope.
Notation "c1 ;; c2" := (bind c1 (fun _ => c2))
  (at level 100, right associativity) : cmem_scope.
Notation "'when' b 'do' c" := (if b then c else ret tt)
  (at level 99, b at level 9, c at level 99) : cmem_scope.

#[global] Open Scope cmem_scope.

Lemma bind_Some {S A B} (m : M S A) (f : A -> M S B) s a s' :
  m s = Some (a, s') -> bind m f s = f a s'.
Proof. intros H. unfold bind. by rewrite H. Qed.

Lemma bind_Some_inv {S A B} (m : M S A) (f : A -> M S B) s b s'' :
  bind m f s = Some (b, s'') ->
  exists a s', m s = Some (a, s') /\ f a s' = Some (b, s'').
Proof. unfold bind. destruct (m s) as [[a s']|] eqn:E; [|done]. eauto. Qed.

Lemma bind_ret {S A B} (a : A) (f : A -> M S B) s : bind (ret a) f s = f a s.
Proof. done. Qed.

Lemma bind_assoc {S A B C} (m : M S A) (f : A -> M S B) (g : B -> M S C) s :
  bind (bind m f) g s = bind m (fun a => bind (f a) g) s.
Proof. unfold bind. by destruct (m s) as [[a s']|]. Qed.

(** ** Machine integers

    Values are kept in [Z]; a conversion to a narrower type is written out. *)

Definition u8 (x : Z) : Z := x mod 256.
Definition u16 (x : Z) : Z := x mod 65536.
Definition u32 (x : Z) : Z := x mod 4294967296.
Definition u64 (x : Z) : Z := x mod 18446744073709551616.
(** Conversion to a two's-complement [int]. *)
Definition i32 (x : Z) : Z := (x + 2147483648) mod 4294967296 - 2147483648.

Lemma u16_small x : 0 <= x < 65536 -> u16 x = x.
Proof. apply Z.mod_small. Qed.

Definition byte_ok (b : Z) : Prop := 0 <= b < 256.
Definition bytes_ok (l : list Z) : Prop := Forall byte_ok l.

#[global] Instance byte_ok_dec b : Decision (byte_ok b).
Proof. unfold byte_ok. apply _. Defined.
#[global] Instance bytes_ok_dec l : Decision (bytes_ok l).
Proof. unfold bytes_ok. apply _. Defined.

(** A byte under a shifted word. *)
Lemma lor_shift_byte a b : byte_ok b -> Z.lor (Z.shiftl a 8) b = a * 256 + b.
Proof.
  intros Hb. rewrite Z.shiftl_mul_pow2 by lia. change (2 ^ 8) with 256.
  pose proof (Z.add_lor_land (a * 256) b) as H.
  assert (Z.land (a * 256) b = 0) as Hl; [|lia].
  assert (b = Z.land (Z.ones 8) b) as Heq.
  { rewrite Z.land_comm, Z.land_ones by lia. symmetry. apply Z.mod_small. exact Hb. }
  rewrite Heq, Z.land_assoc, Z.land_ones by lia. change (2 ^ 8) with 256.
  by rewrite Z.mod_mul by lia.
Qed.

Lemma filter_all {A} (P : A -> Prop) `{!forall x, Decision (P x)} (l : list A) :
  Forall P l -> filter P l = l.
Proof. induction 1 as [|x l Hx _ IH]; [done|]. rewrite filter_cons, decide_True by done. by rewrite IH. Qed.

(** ** Bytes in memory *)

(** Byte order conversion on a little-endian host. *)
Definition ntohs (x : Z) : Z := Z.lor (Z.shiftl (Z.land x 255) 8) (Z.shiftr x 8).
Definition htons (x : Z) : Z := ntohs (u16 x).

(** A 16-bit integer as the host reads it from its two bytes. *)
Definition ld16 (b0 b1 : Z) : Z := Z.lor b0 (Z.shiftl b1 8).

(** The two bytes a 16-bit integer is stored as. *)
Definition st16 (v : Z) : list Z := [Z.land v 255; Z.shiftr v 8].

Lemma ntohs_range b0 b1 : byte_ok b0 -> byte_ok b1 -> ntohs (ld16 b0 b1) = b0 * 256 + b1.
Proof.
  intros H0 H1. unfold ntohs, ld16.
  rewrite (Z.lor_comm b0), (lor_shift_byte b1 b0) by done. unfold byte_ok in *.
  replace (Z.land (b1 * 256 + b0) 255) with b0.
  2:{ change 255 with (Z.ones 8). rewrite Z.land_ones by lia. change (2 ^ 8) with 256.
      rewrite Z.add_comm, Z.mod_add by lia. symmetry. apply Z.mod_small. lia. }
  replace (Z.shiftr (b1 * 256 + b0) 8) with b1.
  2:{ rewrite Z.shiftr_div_pow2 by lia. change (2 ^ 8) with 256. apply Z.div_unique with b0; lia. }
  by apply lor_shift_byte.
Qed.

Lemma st16_bytes y :
  0 <= y < 65536 -> Z.land (ntohs y) 255 = y / 256 /\ Z.shiftr (ntohs y) 8 = y mod 256 /\
  Z.land y 255 = y mod 256 /\ Z.shiftr y 8 = y / 256.
Proof.
  intros Hy. assert (byte_ok (y / 256)) as Hh.
  { split; [apply Z.div_pos; lia|apply Z.div_lt_upper_bound; lia]. }
  assert (forall z, Z.land z 255 = z mod 256) as Hland.
  { intros z. change 255 with (Z.ones 8). by rewrite Z.land_ones by lia. }
  unfold ntohs. rewrite !Hland, !Z.shiftr_div_pow2 by lia. change (2 ^ 8) with 256.
  rewrite lor_shift_byte by done. split_and!; try done.
  - rewrite Z.add_comm, Z.mod_add by lia. by apply Z.mod_small.
  - symmetry. apply Z.div_unique with (y / 256); [left; exact Hh|lia].
Qed.

(** A C string in memory: its bytes up to the first NUL. *)
Fixpoint c_str (l : list Z) : option (list Z) :=
  match l with
  | [] => None
  | b :: l => if b =? 0 then Some [] else s ← c_str l; Some (b :: s)
  end.

(** Blocks of memory as byte lists: reading and writing a range of a block. *)
Definition peek (l : list Z) (off n : Z) : option (list Z) :=
  if (0 <=? off) && (0 <=? n) && (off + n <=? Z.of_nat (length l))
  then Some (take (Z.to_nat n) (drop (Z.to_nat off) l)) else None.

Definition peek1 (l : list Z) (off : Z) : option Z :=
  b ← peek l off 1; head b.

Definition poke (l : list Z) (off : Z) (bs : list Z) : option (list Z) :=
  if (0 <=? off) && (off + Z.of_nat (length bs) <=? Z.of_nat (length l))
  then Some (take (Z.to_nat off) l ++ bs ++ drop (Z.to_nat off + length bs) l) else None.

Lemma peek_app pre mid post off n :
  off = Z.of_nat (length pre) -> n = Z.of_nat (length mid) -> peek (pre ++ mid ++ post) off n = Some mid.
Proof.
  intros -> ->. unfold peek. rewrite !length_app.
  rewrite !(proj2 (Z.leb_le _ _)) by lia. cbn [andb]. rewrite !Nat2Z.id, drop_app_length, take_app_length. done.
Qed.

Lemma poke_app pre old post off bs :
  off = Z.of_nat (length pre) -> length bs = length old ->
  poke (pre ++ old ++ post) off bs = Some (pre ++ bs ++ post).
Proof.
  intros -> Hl. unfold poke. rewrite !length_app, Hl.
  rewrite !(proj2 (Z.leb_le _ _)) by lia. cbn [andb].
  rewrite Nat2Z.id, take_app_length, <-drop_drop, drop_app_length, drop_app_length. done.
Qed.

Lemma peek_length l off n bs : peek l off n = Some bs -> Z.of_nat (length bs) = n.
Proof.
  unfold peek. destruct (Z.leb_spec 0 off), (Z.leb_spec 0 n), (Z.leb_spec (off + n) (Z.of_nat (length l)));
    cbn [andb]; intros [= <-]; rewrite ?length_take, ?length_drop; lia.
Qed.

Lemma st16_length v : length (st16 v) = 2%nat.
Proof. done. Qed.

(** A 16-bit integer survives a store and a load. *)
Lemma ld16_st16 v : 0 <= v < 65536 -> ld16 (Z.land v 255) (Z.shiftr v 8) = v.
Proof.
  intros Hv. destruct (st16_bytes v Hv) as (_ & _ & -> & ->). unfold ld16.
  rewrite Z.lor_comm, lor_shift_byte by (apply Z.mod_pos_bound; lia).
  rewrite Z.mul_comm. symmetry. apply Z.div_mod. lia.
Qed.

Lemma ntohs_bound v : 0 <= v < 65536 -> 0 <= ntohs v < 65536.
Proof.
  intros Hv. destruct (st16_bytes v Hv) as (_ & _ & Hl & Hh).
  unfold ntohs. rewrite Hl, Hh, lor_shift_byte; [|split; [apply Z.div_pos; lia|apply Z.div_lt_upper_bound; lia]].
  pose proof (Z.mod_pos_bound v 256). assert (0 <= v / 256 < 256); [|lia].
  split; [apply Z.div_pos; lia|apply Z.div_lt_upper_bound; lia].
Qed.

Lemma ntohs_involutive v : 0 <= v < 65536 -> ntohs (ntohs v) = v.
Proof.
  intros Hv. destruct (st16_bytes v Hv) as (Hl & Hh & _ & _).
  unfold ntohs at 1. rewrite Hl, Hh, lor_shift_byte by (apply Z.mod_pos_bound; lia).
  rewrite Z.mul_comm. symmetry. apply Z.div_mod. lia.
Qed.

(** The same with the cut of the block given apart. *)
Lemma peek_at l off n pre mid post :
  l = pre ++ mid ++ post -> off = Z.of_nat (length pre) -> n = Z.of_nat (length mid) -> peek l off n = Some mid.
Proof. intros ->. apply peek_app. Qed.

Lemma poke_at l off bs pre old post :
  l = pre ++ old ++ post -> off = Z.of_nat (length pre) -> length bs = length old ->
  poke l off bs = Some (pre ++ bs ++ post).
Proof. intros ->. apply poke_app. Qed.

Lemma peek1_at l off b pre post :
  l = pre ++ b :: post -> off = Z.of_nat (length pre) -> peek1 l off = Some b.
Proof. intros -> ->. unfold peek1. by erewrite (peek_at _ _ _ pre [b] post). Qed.

(** ** Weakest preconditions

    [wp m Q s]: from [s] the routine [m] ends without a fault, with a value and a
    state that satisfy [Q]. *)
Definition wp {S A} (m : M S A) (Q : A -> S -> Prop) (s : S) : Prop :=
  match m s with Some (a, s') => Q a s' | None => False end.

Lemma wp_intro {S A} (m : M S A) Q s a s' : m s = Some (a, s') -> Q a s' -> wp m Q s.
Proof. unfold wp. by intros ->. Qed.

Lemma wp_elim {S A} (m : M S A) Q s : wp m Q s -> exists a s', m s = Some (a, s') /\ Q a s'.
Proof. unfold wp. destruct (m s) as [[a s']|]; [eauto|done]. Qed.

Lemma wp_ret {S A} (a : A) (Q : A -> S -> Prop) s : Q a s -> wp (ret a) Q s.
Proof. done. Qed.

Lemma wp_bind {S A B} (m : M S A) (f : A -> M S B) Q s :
  wp m (fun a s' => wp (f a) Q s') s -> wp (bind m f) Q s.
Proof. unfold wp, bind. by destruct (m s) as [[a s']|]. Qed.

Lemma wp_gets {S A} (f : S -> A) (Q : A -> S -> Prop) s : Q (f s) s -> wp (gets f) Q s.
Proof. done. Qed.

Lemma wp_modify {S} (f : S -> S) (Q : unit -> S -> Prop) s : Q tt (f s) -> wp (modify f) Q s.
Proof. done. Qed.

Lemma wp_conseq {S A} (m : M S A) (P Q : A -> S -> Prop) s :
  wp m P s -> (forall a s', P a s' -> Q a s') -> wp m Q s.
Proof. unfold wp. destruct (m s) as [[a s']|]; eauto. Qed.

Lemma wp_lift_opt {S A} (o : option A) (Q : A -> S -> Prop) s a : o = Some a -> Q a s -> wp (lift_opt o) Q s.
Proof. by intros ->. Qed.

Create HintDb wp.
#[export] Hint Resolve wp_ret wp_gets wp_modify : wp.

(** One step through the monad. *)
Ltac wp_step :=
  lazymatch goal with
  | |- wp (bind _ _) _ _ => apply wp_bind
  | |- wp (ret _) _ _ => apply wp_ret
  | |- wp (gets _) _ _ => apply wp_gets
  | |- wp (modify _) _ _ => apply wp_modify
  end.

Lemma wp_zoom {S T A} (get : T -> S) (put : S -> T -> T) (m : M S A) (Q : A -> T -> Prop) t :
  wp m (fun a s' => Q a (put s' t)) (get t) -> wp (zoom get put m) Q t.
Proof. unfold wp, zoom. by destruct (m (get t)) as [[a s']|]. Qed.

(** Branch on the next test. *)
Ltac wp_case :=
  lazymatch goal with
  | |- wp (if negb (?x =? ?y) then _ else _) _ _ => destruct (Z.eqb_spec x y); cbn [negb]
  | |- wp (if ?x =? ?y then _ else _) _ _ => destruct (Z.eqb_spec x y)
  | |- wp (if ?x <? ?y then _ else _) _ _ => destruct (Z.ltb_spec x y)
  | |- wp (if ?x <=? ?y then _ else _) _ _ => destruct (Z.leb_spec x y)
  end.

(** The end of a path. *)
Ltac wp_end := wp_step; simpl; split_and?; try done; eauto with wp.

(** ** Frames

    A routine leaves [f] of the state at [x].  What it reads of [f] is then known. *)

Section frame.
Context {S X : Type} (f : S -> X).

Definition leaves {A} (x : X) (m : M S A) : Prop := forall s r s', f s = x -> m s = Some (r, s') -> f s' = x.

Lemma leaves_ret {A} x (a : A) : leaves x (ret a).
Proof. by intros s r s' H [= <- <-]. Qed.
Lemma leaves_fail {A} x : leaves x (fail : M S A).
Proof. by intros s r s'. Qed.
Lemma leaves_gets {A} x (g : S -> A) : leaves x (gets g).
Proof. by intros s r s' H [= <- <-]. Qed.
Lemma leaves_lift {A} x (o : option A) : leaves x (lift_opt o).
Proof. intros s r s' H. unfold lift_opt. destruct o; [|done]. by intros [= <- <-]. Qed.
Lemma leaves_modify x (g : S -> S) : (forall s, f s = x -> f (g s) = x) -> leaves x (modify g).
Proof. intros Hg s r s' H [= <- <-]. by apply Hg. Qed.
Lemma leaves_bind {A B} x (m : M S A) (k : A -> M S B) : leaves x m -> (forall a, leaves x (k a)) -> leaves x (bind m k).
Proof. intros Hm Hk s r s' H (a & s1 & E1 & E2)%bind_Some_inv. by eapply Hk, E2; eapply Hm, E1. Qed.
Lemma leaves_bind_gets {A B} x (g : S -> A) (k : A -> M S B) : (forall s, f s = x -> leaves x (k (g s))) -> leaves x (bind (gets g) k).
Proof. intros Hk s r s' H (a & s1 & [= <- <-] & E2)%bind_Some_inv. by eapply Hk, E2. Qed.
Lemma leaves_zoom {T A} x (get : S -> T) (put : T -> S -> S) (m : M T A) :
  (forall s t, f s = x -> f (put t s) = x) -> leaves x (zoom get put m).
Proof. intros Hp s r s' H. unfold zoom. destruct (m (get s)) as [[a t]|]; [|done]. intros [= <- <-]. by apply Hp. Qed.
End frame.

Create HintDb leaves.
#[export] Hint Resolve leaves_ret leaves_fail leaves_gets leaves_lift : leaves.

Ltac leaves_step :=
  first [ solve [eauto with leaves]
        | apply leaves_bind; [|intros]
        | apply leaves_modify; by intros
        | apply leaves_zoom; by intros
        | match goal with
          | |- leaves _ _ (let '(_, _) := ?x in _) => destruct x
          | |- leaves _ _ (match ?x with _ => _ end) => destruct x
          end ].

Ltac leaves_auto := repeat leaves_step.

(** ** Blocks of received bytes *)

Lemma byte_range b : byte_ok b -> 0 <= b < 256.
Proof. done. Qed.

Lemma peek1_recv l n i :
  bytes_ok l -> Z.of_nat (length l) = n -> 0 <= i < n -> exists b, peek1 l i = Some b /\ byte_ok b.
Proof.
  intros Hb Hl Hi. destruct (lookup_lt_is_Some_2 l (Z.to_nat i)) as [b Hlk]; [lia|].
  exists b. split; [|by eapply Forall_lookup_1].
  apply (peek1_at _ _ _ (take (Z.to_nat i) l) (drop (S (Z.to_nat i)) l)).
  - by rewrite take_drop_middle.
  - rewrite length_take. lia.
Qed.

Lemma wp_peek1 {S} l n i (Q : Z -> S -> Prop) s :
  bytes_ok l -> Z.of_nat (length l) = n -> 0 <= i < n -> (forall b, byte_ok b -> Q b s) -> wp (lift_opt (peek1 l i)) Q s.
Proof. intros Hb Hl Hi HQ. destruct (peek1_recv l n i Hb Hl Hi) as (b & Hp & Hok). eapply wp_lift_opt; [exact Hp|auto]. Qed.
