(* ===== verification/RBTree.v ===== *)
(** * Red-black tree with parent pointers (core/src/hev-rbtree.c, hev-rbtree.h)

    The C code at pointer level: a heap of nodes whose first word packs the
    parent address with the colour in bit 0, the tree header with its root
    pointer, and every routine as a state-passing function on the two.  Loops
    carry a fuel argument; the exported routines start them with the number of
    nodes of the heap plus one. *)

From S2P Require Import Prelude.

(** ** Data *)

Definition NULL : Z := 0.

Definition HEV_RBTREE_RED : Z := 0.
Definition HEV_RBTREE_BLACK : Z := 1.

(** [struct _HevRBTreeNode]; the address of the node is its key in the heap. *)
Record rbnode := RBNode { nd_pc : Z; nd_right : Z; nd_left : Z }.

(** [struct _HevRBTree] together with the nodes it can reach. *)
Record rbmem := RBMem { rb_root : Z; rb_nodes : gmap Z rbnode }.

(** A [HevRBTreeNode **]: the root field or a child field of a node. *)
Inductive rblink :=
  | LinkRoot
  | LinkLeft (n : Z)
  | LinkRight (n : Z).

#[global] Instance rbnode_eq_dec : EqDecision rbnode.
Proof. solve_decision. Defined.
#[global] Instance rblink_eq_dec : EqDecision rblink.
Proof. solve_decision. Defined.

Abbreviation RB := (M rbmem).

(** ** Memory access *)

Definition load (n : Z) : RB rbnode :=
  fun m => match rb_nodes m !! n with Some nd => Some (nd, m) | None => None end.

Definition store (n : Z) (nd : rbnode) : RB unit :=
  fun m => match rb_nodes m !! n with
           | Some _ => Some (tt, RBMem (rb_root m) (<[n := nd]> (rb_nodes m)))
           | None => None
           end.

Definition get_pc (n : Z) : RB Z := let* nd := load n in ret (nd_pc nd).
Definition get_left (n : Z) : RB Z := let* nd := load n in ret (nd_left nd).
Definition get_right (n : Z) : RB Z := let* nd := load n in ret (nd_right nd).
Definition set_pc (n v : Z) : RB unit :=
  let* nd := load n in store n (RBNode v (nd_right nd) (nd_left nd)).
Definition set_left (n v : Z) : RB unit :=
  let* nd := load n in store n (RBNode (nd_pc nd) (nd_right nd) v).
Definition set_right (n v : Z) : RB unit :=
  let* nd := load n in store n (RBNode (nd_pc nd) v (nd_left nd)).
Definition get_root : RB Z := gets rb_root.
Definition set_root (v : Z) : RB unit := modify (fun m => RBMem v (rb_nodes m)).

Definition read_link (l : rblink) : RB Z :=
  match l with
  | LinkRoot => get_root
  | LinkLeft n => get_left n
  | LinkRight n => get_right n
  end.

Definition write_link (l : rblink) (v : Z) : RB unit :=
  match l with
  | LinkRoot => set_root v
  | LinkLeft n => set_left n v
  | LinkRight n => set_right n v
  end.

(** ** Packed parent and colour *)

Definition hev_rbtree_node_color (node : Z) : RB Z :=
  let* pc := get_pc node in ret (Z.land pc 1).

Definition hev_rbtree_node_is_red (node : Z) : RB bool :=
  let* c := hev_rbtree_node_color node in ret (Z.land c HEV_RBTREE_BLACK =? 0).

Definition hev_rbtree_node_is_black (node : Z) : RB bool :=
  let* c := hev_rbtree_node_color node in ret (negb (Z.land c HEV_RBTREE_BLACK =? 0)).

Definition _hev_rbtree_node_is_black (pc : Z) : bool :=
  negb (Z.land pc HEV_RBTREE_BLACK =? 0).

Definition _hev_rbtree_node_parent (pc : Z) : Z := Z.land pc (Z.lnot 3).

Definition hev_rbtree_node_empty (node : Z) : RB bool :=
  let* pc := get_pc node in ret (pc =? node).

Definition hev_rbtree_node_parent (node : Z) : RB Z :=
  let* pc := get_pc node in ret (Z.land pc (Z.lnot 3)).

Definition hev_rbtree_node_red_parent (node : Z) : RB Z := get_pc node.

Definition hev_rbtree_node_set_black (node : Z) : RB unit :=
  let* pc := get_pc node in set_pc node (Z.lor pc HEV_RBTREE_BLACK).

Definition hev_rbtree_node_set_parent (node parent : Z) : RB unit :=
  let* c := hev_rbtree_node_color node in set_pc node (Z.lor c parent).

Definition hev_rbtree_node_set_parent_color (node parent color : Z) : RB unit :=
  set_pc node (Z.lor parent color).

(** The node's memory exists already (it is embedded in the caller's object),
    with arbitrary contents. *)
Definition hev_rbtree_node_link (node parent : Z) (link : rblink) : RB unit :=
  set_pc node parent;;
  set_right node NULL;;
  set_left node NULL;;
  write_link link node.

Definition hev_rbtree_change_child (old new parent : Z) : RB unit :=
  if negb (parent =? NULL) then
    let* l := get_left parent in
    if l =? old then set_left parent new else set_right parent new
  else set_root new.

Definition hev_rbtree_rotate_set_parents (old new color : Z) : RB unit :=
  let* parent := hev_rbtree_node_parent old in
  let* pc := get_pc old in
  set_pc new pc;;
  hev_rbtree_node_set_parent_color old new color;;
  hev_rbtree_change_child old new parent.

(** ** Traversal *)

Fixpoint leftmost (fuel : nat) (n : Z) : RB Z :=
  match fuel with
  | O => fail
  | S fuel =>
    let* l := get_left n in
    if l =? NULL then ret n else leftmost fuel l
  end.

Fixpoint rightmost (fuel : nat) (n : Z) : RB Z :=
  match fuel with
  | O => fail
  | S fuel =>
    let* r := get_right n in
    if r =? NULL then ret n else rightmost fuel r
  end.

(** [while ((parent = parent (node)) && node == parent->left) node = parent;] *)
Fixpoint climb_left (fuel : nat) (node : Z) : RB Z :=
  match fuel with
  | O => fail
  | S fuel =>
    let* parent := hev_rbtree_node_parent node in
    if parent =? NULL then ret parent else
    let* l := get_left parent in
    if node =? l then climb_left fuel parent else ret parent
  end.

Fixpoint climb_right (fuel : nat) (node : Z) : RB Z :=
  match fuel with
  | O => fail
  | S fuel =>
    let* parent := hev_rbtree_node_parent node in
    if parent =? NULL then ret parent else
    let* r := get_right parent in
    if node =? r then climb_right fuel parent else ret parent
  end.

(** Fuel of every loop: one more than the number of nodes. *)
Definition rb_fuel (m : rbmem) : nat := S (size (rb_nodes m)).

Definition hev_rbtree_node_prev (node : Z) : RB Z :=
  let* fuel := gets rb_fuel in
  let* e := hev_rbtree_node_empty node in
  if e then ret NULL else
  let* l := get_left node in
  if negb (l =? NULL) then rightmost fuel l else climb_left fuel node.

Definition hev_rbtree_node_next (node : Z) : RB Z :=
  let* fuel := gets rb_fuel in
  let* e := hev_rbtree_node_empty node in
  if e then ret NULL else
  let* r := get_right node in
  if negb (r =? NULL) then leftmost fuel r else climb_right fuel node.

Definition hev_rbtree_first : RB Z :=
  let* fuel := gets rb_fuel in
  let* n := get_root in
  if n =? NULL then ret NULL else leftmost fuel n.

Definition hev_rbtree_last : RB Z :=
  let* fuel := gets rb_fuel in
  let* n := get_root in
  if n =? NULL then ret NULL else rightmost fuel n.

(** ** Insertion *)

(** One turn of the [while (1)] of [hev_rbtree_insert_color]: [None] is
    [break], [Some (node, parent)] is [continue] with the new locals. *)
Definition insert_color_body (node parent : Z) : RB (option (Z * Z)) :=
  if parent =? NULL then
    hev_rbtree_node_set_parent_color node NULL HEV_RBTREE_BLACK;;
    ret None
  else
  let* black := hev_rbtree_node_is_black parent in
  if black then ret None else
  let* gparent := hev_rbtree_node_red_parent parent in
  let* tmp := get_right gparent in
  if negb (parent =? tmp) then
    let* uncle_red := (if tmp =? NULL then ret false else hev_rbtree_node_is_red tmp) in
    if uncle_red then
      hev_rbtree_node_set_parent_color tmp gparent HEV_RBTREE_BLACK;;
      hev_rbtree_node_set_parent_color parent gparent HEV_RBTREE_BLACK;;
      let* parent' := hev_rbtree_node_parent gparent in
      hev_rbtree_node_set_parent_color gparent parent' HEV_RBTREE_RED;;
      ret (Some (gparent, parent'))
    else
    let* tmp := get_right parent in
    let* (parent, tmp) :=
      (if node =? tmp then
         let* tmp := get_left node in
         set_right parent tmp;;
         set_left node parent;;
         (when (negb (tmp =? NULL)) do
            hev_rbtree_node_set_parent_color tmp parent HEV_RBTREE_BLACK);;
         hev_rbtree_node_set_parent_color parent node HEV_RBTREE_RED;;
         let* tmp := get_right node in
         ret (node, tmp)
       else ret (parent, tmp)) in
    set_left gparent tmp;;
    set_right parent gparent;;
    (when (negb (tmp =? NULL)) do
       hev_rbtree_node_set_parent_color tmp gparent HEV_RBTREE_BLACK);;
    hev_rbtree_rotate_set_parents gparent parent HEV_RBTREE_RED;;
    ret None
  else
    let* tmp := get_left gparent in
    let* uncle_red := (if tmp =? NULL then ret false else hev_rbtree_node_is_red tmp) in
    if uncle_red then
      hev_rbtree_node_set_parent_color tmp gparent HEV_RBTREE_BLACK;;
      hev_rbtree_node_set_parent_color parent gparent HEV_RBTREE_BLACK;;
      let* parent' := hev_rbtree_node_parent gparent in
      hev_rbtree_node_set_parent_color gparent parent' HEV_RBTREE_RED;;
      ret (Some (gparent, parent'))
    else
    let* tmp := get_left parent in
    let* (parent, tmp) :=
      (if node =? tmp then
         let* tmp := get_right node in
         set_left parent tmp;;
         set_right node parent;;
         (when (negb (tmp =? NULL)) do
            hev_rbtree_node_set_parent_color tmp parent HEV_RBTREE_BLACK);;
         hev_rbtree_node_set_parent_color parent node HEV_RBTREE_RED;;
         let* tmp := get_left node in
         ret (node, tmp)
       else ret (parent, tmp)) in
    set_right gparent tmp;;
    set_left parent gparent;;
    (when (negb (tmp =? NULL)) do
       hev_rbtree_node_set_parent_color tmp gparent HEV_RBTREE_BLACK);;
    hev_rbtree_rotate_set_parents gparent parent HEV_RBTREE_RED;;
    ret None.

Fixpoint insert_color_loop (fuel : nat) (node parent : Z) : RB unit :=
  match fuel with
  | O => fail
  | S fuel =>
    let* r := insert_color_body node parent in
    match r with
    | None => ret tt
    | Some (node, parent) => insert_color_loop fuel node parent
    end
  end.

Definition hev_rbtree_insert_color (node : Z) : RB unit :=
  let* fuel := gets rb_fuel in
  let* parent := hev_rbtree_node_red_parent node in
  insert_color_loop fuel node parent.

Definition hev_rbtree_replace (victim new : Z) : RB unit :=
  let* parent := hev_rbtree_node_parent victim in
  let* nd := load victim in
  store new nd;;
  let* l := get_left victim in
  (when (negb (l =? NULL)) do hev_rbtree_node_set_parent l new);;
  let* r := get_right victim in
  (when (negb (r =? NULL)) do hev_rbtree_node_set_parent r new);;
  hev_rbtree_change_child victim new parent.

(** ** Erasure *)

(** The [do ... while (tmp)] walk to the leftmost node under the right child:
    returns [(parent, successor)]. *)
Fixpoint erase_successor (fuel : nat) (successor tmp : Z) : RB (Z * Z) :=
  match fuel with
  | O => fail
  | S fuel =>
    let parent := successor in
    let successor := tmp in
    let* tmp := get_left tmp in
    if negb (tmp =? NULL) then erase_successor fuel successor tmp
    else ret (parent, successor)
  end.

Definition _hev_rbtree_erase (node : Z) : RB Z :=
  let* fuel := gets rb_fuel in
  let* child := get_right node in
  let* tmp := get_left node in
  if tmp =? NULL then
    let* pc := get_pc node in
    let parent := _hev_rbtree_node_parent pc in
    hev_rbtree_change_child node child parent;;
    if negb (child =? NULL) then set_pc child pc;; ret NULL
    else ret (if _hev_rbtree_node_is_black pc then parent else NULL)
  else if child =? NULL then
    let* pc := get_pc node in
    set_pc tmp pc;;
    let parent := _hev_rbtree_node_parent pc in
    hev_rbtree_change_child node tmp parent;;
    ret NULL
  else
    let successor := child in
    let* tmp := get_left child in
    let* (parent, successor, child2) :=
      (if tmp =? NULL then
         let* child2 := get_right successor in
         ret (successor, successor, child2)
       else
         let* (parent, successor) := erase_successor fuel successor tmp in
         let* child2 := get_right successor in
         set_left parent child2;;
         set_right successor child;;
         hev_rbtree_node_set_parent child successor;;
         ret (parent, successor, child2)) in
    let* tmp := get_left node in
    set_left successor tmp;;
    hev_rbtree_node_set_parent tmp successor;;
    let* pc := get_pc node in
    let tmp := _hev_rbtree_node_parent pc in
    hev_rbtree_change_child node successor tmp;;
    let* rebalance :=
      (if negb (child2 =? NULL) then
         hev_rbtree_node_set_parent_color child2 parent HEV_RBTREE_BLACK;;
         ret NULL
       else
         let* b := hev_rbtree_node_is_black successor in
         ret (if b then parent else NULL)) in
    set_pc successor pc;;
    ret rebalance.

(** [!tmp || is_black (tmp)] *)
Definition null_or_black (tmp : Z) : RB bool :=
  if tmp =? NULL then ret true else hev_rbtree_node_is_black tmp.

(** One turn of the [while (1)] of [_hev_rbtree_erase_color]. *)
Definition erase_color_body (node parent : Z) : RB (option (Z * Z)) :=
  let* sibling := get_right parent in
  if negb (node =? sibling) then
    let* red := hev_rbtree_node_is_red sibling in
    let* sibling :=
      (if red then
         let* tmp1 := get_left sibling in
         set_right parent tmp1;;
         set_left sibling parent;;
         hev_rbtree_node_set_parent_color tmp1 parent HEV_RBTREE_BLACK;;
         hev_rbtree_rotate_set_parents parent sibling HEV_RBTREE_RED;;
         ret tmp1
       else ret sibling) in
    let* tmp1 := get_right sibling in
    let* b1 := null_or_black tmp1 in
    let* tmp2 := (if b1 then get_left sibling else ret NULL) in
    let* b2 := (if b1 then null_or_black tmp2 else ret false) in
    if b1 && b2 then
      hev_rbtree_node_set_parent_color sibling parent HEV_RBTREE_RED;;
      let* pred := hev_rbtree_node_is_red parent in
      if pred then
        hev_rbtree_node_set_black parent;; ret None
      else
        let node := parent in
        let* parent := hev_rbtree_node_parent node in
        ret (if negb (parent =? NULL) then Some (node, parent) else None)
    else
    let* (tmp1, sibling) :=
      (if b1 then
         let* tmp1 := get_right tmp2 in
         set_left sibling tmp1;;
         set_right tmp2 sibling;;
         set_right parent tmp2;;
         (when (negb (tmp1 =? NULL)) do
            hev_rbtree_node_set_parent_color tmp1 sibling HEV_RBTREE_BLACK);;
         ret (sibling, tmp2)
       else ret (tmp1, sibling)) in
    let* tmp2 := get_left sibling in
    set_right parent tmp2;;
    set_left sibling parent;;
    hev_rbtree_node_set_parent_color tmp1 sibling HEV_RBTREE_BLACK;;
    (when (negb (tmp2 =? NULL)) do hev_rbtree_node_set_parent tmp2 parent);;
    hev_rbtree_rotate_set_parents parent sibling HEV_RBTREE_BLACK;;
    ret None
  else
    let* sibling := get_left parent in
    let* red := hev_rbtree_node_is_red sibling in
    let* sibling :=
      (if red then
         let* tmp1 := get_right sibling in
         set_left parent tmp1;;
         set_right sibling parent;;
         hev_rbtree_node_set_parent_color tmp1 parent HEV_RBTREE_BLACK;;
         hev_rbtree_rotate_set_parents parent sibling HEV_RBTREE_RED;;
         ret tmp1
       else ret sibling) in
    let* tmp1 := get_left sibling in
    let* b1 := null_or_black tmp1 in
    let* tmp2 := (if b1 then get_right sibling else ret NULL) in
    let* b2 := (if b1 then null_or_black tmp2 else ret false) in
    if b1 && b2 then
      hev_rbtree_node_set_parent_color sibling parent HEV_RBTREE_RED;;
      let* pred := hev_rbtree_node_is_red parent in
      if pred then
        hev_rbtree_node_set_black parent;; ret None
      else
        let node := parent in
        let* parent := hev_rbtree_node_parent node in
        ret (if negb (parent =? NULL) then Some (node, parent) else None)
    else
    let* (tmp1, sibling) :=
      (if b1 then
         let* tmp1 := get_left tmp2 in
         set_right sibling tmp1;;
         set_left tmp2 sibling;;
         set_left parent tmp2;;
         (when (negb (tmp1 =? NULL)) do
            hev_rbtree_node_set_parent_color tmp1 sibling HEV_RBTREE_BLACK);;
         ret (sibling, tmp2)
       else ret (tmp1, sibling)) in
    let* tmp2 := get_right sibling in
    set_left parent tmp2;;
    set_right sibling parent;;
    hev_rbtree_node_set_parent_color tmp1 sibling HEV_RBTREE_BLACK;;
    (when (negb (tmp2 =? NULL)) do hev_rbtree_node_set_parent tmp2 parent);;
    hev_rbtree_rotate_set_parents parent sibling HEV_RBTREE_BLACK;;
    ret None.

Fixpoint erase_color_loop (fuel : nat) (node parent : Z) : RB unit :=
  match fuel with
  | O => fail
  | S fuel =>
    let* r := erase_color_body node parent in
    match r with
    | None => ret tt
    | Some (node, parent) => erase_color_loop fuel node parent
    end
  end.

Definition _hev_rbtree_erase_color (parent : Z) : RB unit :=
  let* fuel := gets rb_fuel in
  erase_color_loop fuel NULL parent.

Definition hev_rbtree_erase (node : Z) : RB unit :=
  let* rebalance := _hev_rbtree_erase node in
  when (negb (rebalance =? NULL)) do _hev_rbtree_erase_color rebalance.
