(* ===== verification/RBModel.v ===== *)
(** * The abstract red-black tree behind hev-rbtree.c

    Functional trees over node addresses, their zippers, the red-black
    invariant, and the representation predicate that ties a pointer heap to a
    tree.  The in-order sequence of addresses is the interface that the clients
    of the tree reason with. *)

From S2P Require Import Prelude RBTree.

(** ** Trees and zippers *)

Inductive color := Red | Black.
Inductive dir := L | R.
Inductive tree := E | T (c : color) (l : tree) (x : Z) (r : tree).

#[global] Instance color_eq_dec : EqDecision color.
Proof. solve_decision. Defined.
#[global] Instance dir_eq_dec : EqDecision dir.
Proof. solve_decision. Defined.
#[global] Instance tree_eq_dec : EqDecision tree.
Proof. solve_decision. Defined.

Definition opp (d : dir) : dir := match d with L => R | R => L end.

(** [mk d c a x b]: the node [x] with [a] on side [d] and [b] on the other. *)
Definition mk (d : dir) (c : color) (a : tree) (x : Z) (b : tree) : tree :=
  match d with L => T c a x b | R => T c b x a end.

(** A frame: the hole is the [f_dir] child of [f_x], whose colour is [f_col];
    [f_sib] is the other child. *)
Record frame := Fr { f_dir : dir; f_col : color; f_x : Z; f_sib : tree }.
Abbreviation ctx := (list frame).

Fixpoint plug (k : ctx) (t : tree) : tree :=
  match k with
  | [] => t
  | Fr d c x s :: k => plug k (mk d c t x s)
  end.

Fixpoint inorder (t : tree) : list Z :=
  match t with
  | E => []
  | T _ l x r => inorder l ++ x :: inorder r
  end.

(** The addresses of the context left and right of the hole. *)
Fixpoint before (k : ctx) : list Z :=
  match k with
  | [] => []
  | Fr L _ _ _ :: k => before k
  | Fr R _ x s :: k => before k ++ inorder s ++ [x]
  end.

Fixpoint after (k : ctx) : list Z :=
  match k with
  | [] => []
  | Fr L _ x s :: k => x :: inorder s ++ after k
  | Fr R _ _ _ :: k => after k
  end.

Definition cptrs (k : ctx) : list Z := before k ++ after k.

Definition tree_color (t : tree) : color :=
  match t with E => Black | T c _ _ _ => c end.

Definition recolor (c : color) (t : tree) : tree :=
  match t with E => E | T _ l x r => T c l x r end.

Definition ptr (t : tree) : Z := match t with E => NULL | T _ _ x _ => x end.
Definition par (k : ctx) : Z := match k with [] => NULL | f :: _ => f_x f end.

Fixpoint height (t : tree) : nat :=
  match t with
  | E => 0
  | T _ l _ r => S (Nat.max (height l) (height r))
  end.

(** ** The red-black invariant *)

(** Every path to a leaf of [t] meets [n] black nodes. *)
Fixpoint bh (n : nat) (t : tree) : Prop :=
  match t with
  | E => n = 0%nat
  | T Red l _ r => bh n l /\ bh n r
  | T Black l _ r => match n with O => False | S n => bh n l /\ bh n r end
  end.

(** No red node has a red child. *)
Fixpoint nored (t : tree) : Prop :=
  match t with
  | E => True
  | T c l _ r =>
    (c = Red -> tree_color l = Black /\ tree_color r = Black) /\ nored l /\ nored r
  end.

Definition RBT (t : tree) : Prop :=
  tree_color t = Black /\ nored t /\ exists n, bh n t.

(** The colour above the hole; the root of a tree hangs under a red-like
    place, since it has to be black. *)
Definition top (k : ctx) : color := match k with [] => Red | f :: _ => f_col f end.

(** The context of a red-black tree whose hole has black height [n]. *)
Fixpoint cok (n : nat) (k : ctx) : Prop :=
  match k with
  | [] => True
  | Fr _ Red _ s :: k =>
    bh n s /\ nored s /\ tree_color s = Black /\ top k = Black /\ cok n k
  | Fr _ Black _ s :: k => bh n s /\ nored s /\ cok (S n) k
  end.

(** ** Lemmas on plugging *)

Lemma inorder_mk d c a x b :
  inorder (mk d c a x b) =
  match d with L => inorder a ++ x :: inorder b | R => inorder b ++ x :: inorder a end.
Proof. by destruct d. Qed.

Lemma inorder_plug k t : inorder (plug k t) = before k ++ inorder t ++ after k.
Proof.
  revert t. induction k as [|[[] c x s] k IH]; intros t; simpl.
  - by rewrite app_nil_r.
  - rewrite IH. simpl. by rewrite <-!app_assoc.
  - rewrite IH. simpl. by rewrite <-!app_assoc.
Qed.

Lemma inorder_recolor c t : inorder (recolor c t) = inorder t.
Proof. by destruct t. Qed.

Lemma ptr_recolor c t : ptr (recolor c t) = ptr t.
Proof. by destruct t. Qed.

Lemma ptr_mk d c a x b : ptr (mk d c a x b) = x.
Proof. by destruct d. Qed.

Lemma recolor_same t : recolor (tree_color t) t = t.
Proof. by destruct t. Qed.

Lemma plug_app k1 k2 t : plug (k1 ++ k2) t = plug k2 (plug k1 t).
Proof. revert t. induction k1 as [|[d c x s] k1 IH]; intros t; simpl; auto. Qed.

Lemma opp_opp d : opp (opp d) = d.
Proof. by destruct d. Qed.

Lemma mk_opp d c a x b : mk (opp d) c a x b = mk d c b x a.
Proof. by destruct d. Qed.

(** ** The invariant through a context *)

Lemma bh_mk n d c a x b :
  bh n (mk d c a x b) <->
  match c with
  | Red => bh n a /\ bh n b
  | Black => match n with O => False | S n => bh n a /\ bh n b end
  end.
Proof. destruct d, c, n; simpl; tauto. Qed.

Lemma nored_mk d c a x b :
  nored (mk d c a x b) <->
  (c = Red -> tree_color a = Black /\ tree_color b = Black) /\ nored a /\ nored b.
Proof. destruct d; simpl; tauto. Qed.

Lemma tree_color_mk d c a x b : tree_color (mk d c a x b) = c.
Proof. by destruct d. Qed.

(** A well-formed context and a well-formed subtree make a red-black tree. *)
Lemma plug_RBT n k t :
  cok n k -> bh n t -> nored t -> (top k = Red -> tree_color t = Black) ->
  RBT (plug k t).
Proof.
  revert n t. induction k as [|[d c x s] k IH]; intros n t; simpl.
  - intros _ Hb Hn Hc. split_and!; auto. by exists n.
  - destruct c.
    + intros (Hs & Hns & Hcs & Ht & Hk) Hb Hn Hc. apply (IH n); auto.
      * rewrite bh_mk. auto.
      * rewrite nored_mk. split_and!; auto.
      * rewrite Ht. discriminate.
    + intros (Hs & Hns & Hk) Hb Hn _. apply (IH (S n)); auto.
      * rewrite bh_mk. auto.
      * rewrite nored_mk. split_and!; auto. discriminate.
      * intros _. apply tree_color_mk.
Qed.

Lemma RBT_plug k t :
  RBT (plug k t) ->
  exists n, cok n k /\ bh n t /\ nored t /\ (top k = Red -> tree_color t = Black).
Proof.
  revert t. induction k as [|[d c x s] k IH]; intros t; simpl.
  - intros (Hc & Hn & n & Hb). eauto 10.
  - intros H. destruct (IH _ H) as (n & Hk & Hb & Hn & Hc).
    rewrite bh_mk in Hb. rewrite nored_mk in Hn. rewrite tree_color_mk in Hc.
    destruct c.
    + destruct Hn as (Hcc & Hn & Hns). destruct (Hcc eq_refl), Hb.
      exists n. split_and!; auto. destruct (top k); [|done]. by specialize (Hc eq_refl).
    + destruct n; [done|]. destruct Hn as (_ & Hn & Hns), Hb.
      exists n. split_and!; auto. discriminate.
Qed.

(** ** Packed words *)

Definition colz (c : color) : Z := match c with Red => HEV_RBTREE_RED | Black => HEV_RBTREE_BLACK end.

(** A node address: not NULL and with the two low bits clear. *)
Definition okp (x : Z) : Prop := 0 < x /\ Z.land x 3 = 0.

Definition pack (p : Z) (c : color) : Z := Z.lor p (colz c).

Lemma low_bits_clear p : Z.land p 3 = 0 -> Z.testbit p 0 = false /\ Z.testbit p 1 = false.
Proof.
  intros H.
  assert (H0 : Z.testbit (Z.land p 3) 0 = false) by (rewrite H; apply Z.bits_0).
  assert (H1 : Z.testbit (Z.land p 3) 1 = false) by (rewrite H; apply Z.bits_0).
  rewrite Z.land_spec in H0, H1.
  change (Z.testbit 3 0) with true in H0. change (Z.testbit 3 1) with true in H1.
  by rewrite andb_true_r in H0, H1.
Qed.

Lemma pack_parent p c : Z.land p 3 = 0 -> Z.land (pack p c) (Z.lnot 3) = p.
Proof.
  intros H. destruct (low_bits_clear p H) as [H0 H1].
  apply Z.bits_inj'. intros i Hi. unfold pack.
  rewrite Z.land_spec, Z.lor_spec, Z.lnot_spec by done.
  destruct (decide (i = 0)) as [->|]; [by rewrite H0, andb_false_r|].
  destruct (decide (i = 1)) as [->|]; [by rewrite H1, andb_false_r|].
  assert (forall x, 0 <= x <= 3 -> Z.testbit x i = false) as Hx.
  { intros x Hx. destruct (decide (x = 0)) as [->|]; [apply Z.bits_0|].
    apply Z.bits_above_log2; [lia|].
    assert (Z.log2 x <= Z.log2 3) by (apply Z.log2_le_mono; lia).
    change (Z.log2 3) with 1 in *. lia. }
  rewrite (Hx 3) by lia. rewrite (Hx (colz c)) by (destruct c; compute; split; discriminate).
  by rewrite orb_false_r, andb_true_r.
Qed.

Lemma pack_color p c : Z.land p 3 = 0 -> Z.land (pack p c) 1 = colz c.
Proof.
  intros H. destruct (low_bits_clear p H) as [H0 _].
  unfold pack. rewrite Z.land_lor_distr_l.
  replace (Z.land p 1) with 0; [by destruct c|].
  symmetry. change 1 with (Z.ones 1). rewrite Z.land_ones by lia.
  change (2 ^ 1) with 2. rewrite <-Z.bit0_mod, H0. done.
Qed.

Lemma pack_red p : pack p Red = p.
Proof. apply Z.lor_0_r. Qed.

(** ** The functional counterpart of the insertion loop *)

Definition child (d : dir) (t : tree) : tree :=
  match t with E => E | T _ l _ r => match d with L => l | R => r end end.

(** Cases 2 and 3 of [hev_rbtree_insert_color]: the uncle is black. *)
Definition ins_rotate (d1 d2 : dir) (c2 : color) (t : tree) (p : Z) (s1 : tree) (g : Z) (u : tree) : tree :=
  if decide (d1 = d2) then mk d2 c2 t p (mk d2 Red s1 g u)
  else mk d2 c2 (mk d2 Red s1 p (child d2 t)) (ptr t) (mk d2 Red (child d1 t) g u).

Fixpoint ins_up (k : ctx) (t : tree) : tree :=
  match k with
  | [] => recolor Black t
  | Fr d1 Red p s1 :: (Fr d2 c2 g u :: k2) =>
    match tree_color u with
    | Red => ins_up k2 (mk d2 Red (mk d1 Black t p s1) g (recolor Black u))
    | Black => plug k2 (ins_rotate d1 d2 c2 t p s1 g u)
    end
  | _ => plug k t
  end.

(** Induction that peels two frames at a time. *)
Lemma ctx_ind2 (P : ctx -> Prop) :
  P [] -> (forall f, P [f]) -> (forall f g k, P k -> P (f :: g :: k)) -> forall k, P k.
Proof.
  intros H0 H1 H2 k.
  enough (P k /\ forall f, P (f :: k)) by tauto.
  induction k as [|g k [IH1 IH2]]; split; auto.
Qed.

Lemma mk_child d t : t <> E -> mk d (tree_color t) (child d t) (ptr t) (child (opp d) t) = t.
Proof. by destruct t, d. Qed.

Lemma inorder_ins_rotate d1 d2 c2 t p s1 g u :
  t <> E ->
  inorder (ins_rotate d1 d2 c2 t p s1 g u) = inorder (mk d2 c2 (mk d1 Red t p s1) g u).
Proof.
  intros Ht. unfold ins_rotate. destruct t as [|c a n b]; [done|].
  destruct d1, d2; simpl; rewrite <-?app_assoc; simpl; rewrite <-?app_assoc; done.
Qed.

Lemma ins_up_inorder k t :
  t <> E -> inorder (ins_up k t) = before k ++ inorder t ++ after k.
Proof.
  revert t. induction k as [|f|f g k IH] using ctx_ind2; intros t Ht.
  - simpl. by rewrite inorder_recolor, app_nil_r.
  - destruct f as [d c p s]. rewrite <-inorder_plug. by destruct c.
  - destruct f as [d1 c1 p s1], g as [d2 c2 g u]. rewrite <-inorder_plug.
    destruct c1; [|done]. simpl. destruct (tree_color u) eqn:Hu.
    + rewrite IH by (by destruct d2). rewrite inorder_plug.
      by destruct d1, d2; simpl; rewrite ?inorder_recolor.
    + by rewrite !inorder_plug, inorder_ins_rotate.
Qed.

Lemma nored_red_children d t :
  nored t -> tree_color t = Red ->
  tree_color (child d t) = Black /\ nored (child d t).
Proof. destruct t as [|c l x r]; [done|]. simpl. intros (H & ? & ?) ->. destruct H, d; auto. Qed.

Lemma bh_red_child n d t : bh n t -> tree_color t = Red -> bh n (child d t).
Proof. destruct t as [|c l x r]; [done|]. simpl. intros H ->. destruct H, d; auto. Qed.

Lemma bh_recolor_black n t : bh n t -> tree_color t = Red -> bh (S n) (recolor Black t).
Proof. destruct t as [|c l x r]; [done|]. simpl. by intros H ->. Qed.

Lemma nored_recolor_black t : nored t -> nored (recolor Black t).
Proof. destruct t; simpl; [done|]. intros (_ & ? & ?). by split_and!. Qed.

Lemma tree_color_recolor_black t : tree_color (recolor Black t) = Black.
Proof. by destruct t. Qed.

Lemma ins_rotate_ok n d1 d2 t p s1 g u :
  bh n t -> nored t -> tree_color t = Red ->
  bh n s1 -> nored s1 -> tree_color s1 = Black ->
  bh n u -> nored u -> tree_color u = Black ->
  let t' := ins_rotate d1 d2 Black t p s1 g u in
  bh (S n) t' /\ nored t' /\ tree_color t' = Black.
Proof.
  intros Ht Hn Hc Hs Hns Hcs Hu Hnu Hcu t'. subst t'. unfold ins_rotate.
  pose proof (bh_red_child n d1 t Ht Hc). pose proof (bh_red_child n d2 t Ht Hc).
  destruct (nored_red_children d1 t Hn Hc), (nored_red_children d2 t Hn Hc).
  case_decide; rewrite ?tree_color_mk, !bh_mk, !nored_mk, ?tree_color_mk;
    split_and!; auto; discriminate.
Qed.

(** Rebalancing after an insertion restores the red-black invariant. *)
Lemma ins_up_RBT n k t :
  cok n k -> bh n t -> nored t -> tree_color t = Red -> RBT (ins_up k t).
Proof.
  revert n t. induction k as [|f|f g k IH] using ctx_ind2; intros n t Hk Hb Hn Hc.
  - simpl. split_and!; [apply tree_color_recolor_black|by apply nored_recolor_black|].
    exists (S n). by apply bh_recolor_black.
  - destruct f as [d [] p s]; simpl in Hk; [by destruct Hk as (_ & _ & _ & ? & _)|].
    apply (plug_RBT n [Fr d Black p s]); auto. discriminate.
  - destruct f as [d1 [] p s1], g as [d2 c2 g u]; simpl in Hk;
      [|apply (plug_RBT n (Fr d1 Black p s1 :: Fr d2 c2 g u :: k)); auto; discriminate].
    destruct Hk as (Hs & Hns & Hcs & -> & Hu & Hnu & Hk). simpl.
    destruct (tree_color u) eqn:Hcu.
    + apply (IH (S n)); auto.
      * rewrite bh_mk, bh_mk. split_and!; auto. by apply bh_recolor_black.
      * rewrite nored_mk, nored_mk, tree_color_mk.
        split_and!; auto using tree_color_recolor_black, nored_recolor_black; discriminate.
      * apply tree_color_mk.
    + destruct (ins_rotate_ok n d1 d2 t p s1 g u) as (? & ? & ?); auto.
      apply (plug_RBT (S n)); auto.
Qed.

(** ** The functional counterpart of the erase loop *)

(** [t], on side [d] of [p], is one black node short. *)
Definition del_black (d : dir) (cp : color) (t : tree) (p : Z) (s : tree) : tree :=
  let near := child d s in
  let far := child (opp d) s in
  match tree_color far with
  | Red => mk d cp (mk d Black t p near) (ptr s) (recolor Black far)
  | Black =>
    mk d cp (mk d Black t p (child d near)) (ptr near)
       (mk d Black (child (opp d) near) (ptr s) far)
  end.

Definition all_black (s : tree) : bool :=
  bool_decide (tree_color (child L s) = Black) && bool_decide (tree_color (child R s) = Black).

Fixpoint del_up (k : ctx) (t : tree) : tree :=
  match k with
  | [] => t
  | Fr d cp p s :: k =>
    match tree_color s with
    | Red =>
      let near := child d s in
      let p' := if all_black near then mk d Black t p (recolor Red near)
                else del_black d Red t p near in
      plug k (mk d cp p' (ptr s) (child (opp d) s))
    | Black =>
      if all_black s then
        match cp with
        | Red => plug k (mk d Black t p (recolor Red s))
        | Black => del_up k (mk d Black t p (recolor Red s))
        end
      else plug k (del_black d cp t p s)
    end
  end.

Lemma all_black_spec s :
  all_black s = true <-> forall d, tree_color (child d s) = Black.
Proof.
  unfold all_black. rewrite andb_true_iff, !bool_decide_eq_true. split.
  - by intros [? ?] [].
  - auto.
Qed.

Lemma all_black_false s d :
  all_black s = false -> tree_color (child (opp d) s) = Black ->
  tree_color (child d s) = Red.
Proof.
  unfold all_black. rewrite andb_false_iff, !bool_decide_eq_false.
  destruct d; simpl; destruct (tree_color (child L s)), (tree_color (child R s)); intros [?|?] ?; congruence.
Qed.

Lemma bh_black_child n d s :
  bh (S n) s -> tree_color s = Black -> bh n (child d s) /\ s <> E.
Proof.
  destruct s as [|c l x r]; [done|]. simpl. intros H ->. by destruct H, d.
Qed.

Lemma nored_child d s : nored s -> nored (child d s).
Proof. destruct s; [done|]. simpl. intros (_ & ? & ?). by destruct d. Qed.

Lemma tree_color_red_nonempty t : tree_color t = Red -> t <> E.
Proof. by destruct t. Qed.

Lemma inorder_child d s :
  s <> E ->
  inorder s = match d with
              | L => inorder (child L s) ++ ptr s :: inorder (child R s)
              | R => inorder (child (opp R) s) ++ ptr s :: inorder (child R s)
              end.
Proof. by destruct s, d. Qed.

Lemma inorder_del_black d cp t p s :
  s <> E -> all_black s = false ->
  inorder (del_black d cp t p s) = inorder (mk d cp t p s).
Proof.
  intros Hs Ha. unfold del_black. destruct s as [|c l x r]; [done|].
  destruct (tree_color (child (opp d) (T c l x r))) eqn:Hf.
  - destruct d; simpl; rewrite inorder_recolor, <-?app_assoc; done.
  - pose proof (all_black_false _ _ Ha Hf) as Hn.
    apply tree_color_red_nonempty in Hn.
    destruct d; simpl in *.
    + destruct l; [done|]. simpl. rewrite <-?app_assoc. simpl. by rewrite <-?app_assoc.
    + destruct r; [done|]. simpl. rewrite <-?app_assoc. simpl. by rewrite <-?app_assoc.
Qed.

Lemma del_black_ok n d cp t p s :
  bh n t -> nored t -> bh (S n) s -> nored s -> tree_color s = Black ->
  all_black s = false ->
  let t' := del_black d cp t p s in
  bh (match cp with Red => S n | Black => S (S n) end) t' /\ nored t' /\ tree_color t' = cp.
Proof.
  intros Ht Hnt Hs Hns Hcs Ha t'. subst t'. unfold del_black.
  destruct (bh_black_child n d s) as [Hbn _]; [done..|].
  destruct (bh_black_child n (opp d) s) as [Hbf _]; [done..|].
  pose proof (nored_child d s Hns) as Hnn. pose proof (nored_child (opp d) s Hns) as Hnf.
  destruct (tree_color (child (opp d) s)) eqn:Hf.
  - pose proof (bh_recolor_black _ _ Hbf Hf). pose proof (nored_recolor_black _ Hnf).
    rewrite tree_color_mk. destruct cp; rewrite !bh_mk, !nored_mk, ?tree_color_mk, ?tree_color_recolor_black;
      split_and!; auto; discriminate.
  - pose proof (all_black_false _ _ Ha Hf) as Hr.
    pose proof (bh_red_child _ d _ Hbn Hr). pose proof (bh_red_child _ (opp d) _ Hbn Hr).
    destruct (nored_red_children d _ Hnn Hr), (nored_red_children (opp d) _ Hnn Hr).
    rewrite tree_color_mk. destruct cp; rewrite !bh_mk, !nored_mk, ?tree_color_mk;
      split_and!; auto; discriminate.
Qed.

Lemma bh_recolor_red n s : bh (S n) s -> tree_color s = Black -> bh n (recolor Red s).
Proof. destruct s as [|c l x r]; [done|]. simpl. by intros H ->. Qed.

Lemma nored_recolor_red s : nored s -> all_black s = true -> nored (recolor Red s).
Proof.
  destruct s as [|c l x r]; [done|]. simpl. intros (_ & ? & ?) Ha.
  pose proof (proj1 (all_black_spec _) Ha L). pose proof (proj1 (all_black_spec _) Ha R).
  by split_and!.
Qed.

Lemma del_flip_ok n d t p s :
  bh n t -> nored t -> bh (S n) s -> nored s -> tree_color s = Black -> all_black s = true ->
  bh (S n) (mk d Black t p (recolor Red s)) /\ nored (mk d Black t p (recolor Red s)).
Proof.
  intros. rewrite bh_mk, nored_mk.
  split_and!; auto using bh_recolor_red, nored_recolor_red; discriminate.
Qed.

Lemma cok_sib n d c x s k : cok n (Fr d c x s :: k) -> bh n s /\ nored s.
Proof. destruct c; simpl; tauto. Qed.

Lemma del_up_inorder n k t :
  cok (S n) k -> inorder (del_up k t) = before k ++ inorder t ++ after k.
Proof.
  revert n t. induction k as [|[d cp p s] k IH]; intros n t Hk.
  - simpl. by rewrite app_nil_r.
  - rewrite <-inorder_plug. simpl.
    destruct (cok_sib _ _ _ _ _ _ Hk) as [Hs Hns].
    destruct (tree_color s) eqn:Hc.
    + pose proof (tree_color_red_nonempty _ Hc) as Hne.
      pose proof (bh_red_child _ d _ Hs Hc) as Hb.
      destruct (nored_red_children d s Hns Hc) as [Hcn _].
      destruct (bh_black_child n d _ Hb Hcn) as [_ Hne2].
      rewrite !inorder_plug. f_equal. f_equal. destruct s as [|c l x r]; [done|].
      destruct (all_black (child d (T c l x r))) eqn:Ha.
      * destruct d; simpl; rewrite inorder_recolor, <-?app_assoc; simpl; by rewrite <-?app_assoc.
      * rewrite inorder_mk, inorder_del_black by done.
        destruct d; simpl; rewrite <-?app_assoc; simpl; by rewrite <-?app_assoc.
    + destruct (bh_black_child n d s Hs Hc) as [_ Hne].
      destruct (all_black s) eqn:Ha.
      * destruct cp.
        -- rewrite !inorder_plug, !inorder_mk, inorder_recolor. done.
        -- rewrite (IH (S n)) by apply Hk.
           rewrite inorder_plug, !inorder_mk, inorder_recolor. done.
      * by rewrite !inorder_plug, inorder_del_black.
Qed.

(** Rebalancing after an erasure restores the red-black invariant. *)
Lemma del_up_RBT n k t :
  cok (S n) k -> bh n t -> nored t -> tree_color t = Black -> RBT (del_up k t).
Proof.
  revert n t. induction k as [|[d cp p s] k IH]; intros n t Hk Hb Hn Hc.
  - simpl. split_and!; eauto.
  - simpl. destruct (tree_color s) eqn:Hcs.
    + destruct cp; [destruct Hk as (_ & _ & ? & _); congruence|]. destruct Hk as (Hs & Hns & Hk).
      pose proof (bh_red_child _ d _ Hs Hcs) as Hbn.
      pose proof (bh_red_child _ (opp d) _ Hs Hcs) as Hbf.
      destruct (nored_red_children d s Hns Hcs) as [Hcn Hnn].
      destruct (nored_red_children (opp d) s Hns Hcs) as [_ Hnf].
      destruct (all_black (child d s)) eqn:Ha.
      * destruct (del_flip_ok n d t p (child d s)); auto.
        apply (plug_RBT (S (S n))); auto.
        -- rewrite bh_mk. auto.
        -- rewrite nored_mk. split_and!; auto. discriminate.
        -- intros _. apply tree_color_mk.
      * destruct (del_black_ok n d Red t p (child d s)) as (? & ? & ?); auto.
        apply (plug_RBT (S (S n))); auto.
        -- rewrite bh_mk. auto.
        -- rewrite nored_mk. split_and!; auto. discriminate.
        -- intros _. apply tree_color_mk.
    + destruct (all_black s) eqn:Ha.
      * destruct cp.
        -- destruct Hk as (Hs & Hns & _ & Ht & Hk).
           destruct (del_flip_ok n d t p s); auto.
           apply (plug_RBT (S n)); auto. intros _. apply tree_color_mk.
        -- destruct Hk as (Hs & Hns & Hk).
           destruct (del_flip_ok n d t p s); auto.
           apply (IH (S n)); auto. apply tree_color_mk.
      * destruct cp.
        -- destruct Hk as (Hs & Hns & _ & Ht & Hk).
           destruct (del_black_ok n d Red t p s) as (? & ? & ?); auto.
           apply (plug_RBT (S n)); auto. by rewrite Ht.
        -- destruct Hk as (Hs & Hns & Hk).
           destruct (del_black_ok n d Black t p s) as (? & ? & ?); auto.
           apply (plug_RBT (S (S n))); auto.
Qed.
