(* ===== verification/RBRep.v ===== *)
(** * Representation of a red-black tree in a pointer heap

    [rep] says that a heap holds the nodes of a functional tree, [repc] that it
    holds the nodes of a zipper context; both are stable under writes to other
    addresses.  The single-field accesses of hev-rbtree.c are restated as
    equations on heaps, with the two mirror images of the C code folded into a
    direction. *)

From S2P Require Import Prelude RBTree RBModel.

(** A node record with its [d] child first. *)
Definition mknd (pc : Z) (d : dir) (a b : Z) : rbnode :=
  match d with L => RBNode pc b a | R => RBNode pc a b end.
Arguments mknd : simpl never.

Fixpoint rep (h : gmap Z rbnode) (p : Z) (t : tree) : Prop :=
  match t with
  | E => True
  | T c l x r =>
    h !! x = Some (mknd (pack p c) L (ptr l) (ptr r)) /\ rep h x l /\ rep h x r
  end.

Fixpoint repc (root : Z) (h : gmap Z rbnode) (k : ctx) (q : Z) : Prop :=
  match k with
  | [] => root = q
  | Fr d c x s :: k =>
    h !! x = Some (mknd (pack (par k) c) d q (ptr s)) /\ rep h x s /\ repc root h k x
  end.

(** The tree header and its heap represent [t]. *)
Definition tree_rep (m : rbmem) (t : tree) : Prop :=
  rb_root m = ptr t /\ rep (rb_nodes m) NULL t.

(** Distinct, well-formed node addresses. *)
Definition addrs_ok (l : list Z) : Prop := NoDup l /\ Forall okp l.

(** The two heaps agree outside [l]. *)
Definition same_off (l : list Z) (h h' : gmap Z rbnode) : Prop :=
  forall y, y ∉ l -> h' !! y = h !! y.

(** ** Structure *)

Lemma mknd_opp pc d a b : mknd pc (opp d) a b = mknd pc d b a.
Proof. by destruct d. Qed.

Lemma rep_mk h p d c a x b :
  rep h p (mk d c a x b) <->
  h !! x = Some (mknd (pack p c) d (ptr a) (ptr b)) /\ rep h x a /\ rep h x b.
Proof. destruct d; simpl; tauto. Qed.

Lemma rep_plug h root k t :
  rep h NULL (plug k t) /\ root = ptr (plug k t) <->
  rep h (par k) t /\ repc root h k (ptr t).
Proof.
  revert t. induction k as [|[d c x s] k IH]; intros t; simpl; [tauto|].
  rewrite IH, rep_mk, ptr_mk. tauto.
Qed.

Lemma tree_rep_plug m k t :
  tree_rep m (plug k t) <->
  rep (rb_nodes m) (par k) t /\ repc (rb_root m) (rb_nodes m) k (ptr t).
Proof. rewrite <-rep_plug. unfold tree_rep. tauto. Qed.

Lemma rep_same h h' p t :
  (forall y, y ∈ inorder t -> h' !! y = h !! y) -> rep h p t -> rep h' p t.
Proof.
  revert p. induction t as [|c l IHl x r IHr]; intros p Hs; simpl; [done|].
  simpl in Hs. intros (Hx & Hl & Hr). split_and!.
  - rewrite Hs; [done|set_solver].
  - apply IHl; [|done]. intros; apply Hs; set_solver.
  - apply IHr; [|done]. intros; apply Hs; set_solver.
Qed.

Lemma repc_same root h h' k q :
  (forall y, y ∈ cptrs k -> h' !! y = h !! y) -> repc root h k q -> repc root h' k q.
Proof.
  revert q. induction k as [|[d c x s] k IH]; intros q Hs; [done|].
  simpl. intros (Hx & Hsib & Hk).
  assert (x ∈ cptrs (Fr d c x s :: k)) as Hxin by (destruct d; set_solver).
  split_and!.
  - by rewrite Hs.
  - eapply rep_same; [|done]. intros y Hy. apply Hs. destruct d; set_solver.
  - apply IH; [|done]. intros y Hy. apply Hs.
    unfold cptrs in *. destruct d; set_solver.
Qed.

Lemma rep_insert h p t y nd : y ∉ inorder t -> rep h p t -> rep (<[y := nd]> h) p t.
Proof. intros Hy. apply rep_same. intros z Hz. rewrite lookup_insert_ne; [done|set_solver]. Qed.

Lemma repc_insert root h k q y nd :
  y ∉ cptrs k -> repc root h k q -> repc root (<[y := nd]> h) k q.
Proof. intros Hy. apply repc_same. intros z Hz. rewrite lookup_insert_ne; [done|set_solver]. Qed.

Lemma rep_off l h h' p t :
  same_off l h h' -> (forall y, y ∈ inorder t -> y ∉ l) -> rep h p t -> rep h' p t.
Proof. intros Hs Hd. apply rep_same. intros y Hy. apply Hs, Hd, Hy. Qed.

Lemma cptrs_cons y d c x s k :
  y ∈ cptrs (Fr d c x s :: k) <-> y = x \/ y ∈ inorder s \/ y ∈ cptrs k.
Proof. unfold cptrs. destruct d; set_solver. Qed.

Lemma elem_of_mk y d c a x b :
  y ∈ inorder (mk d c a x b) <-> y = x \/ y ∈ inorder a \/ y ∈ inorder b.
Proof. destruct d; set_solver. Qed.

Lemma ptr_in t : t <> E -> ptr t ∈ inorder t.
Proof. destruct t; set_solver. Qed.

Lemma ptr_null t : Forall okp (inorder t) -> ptr t = NULL <-> t = E.
Proof.
  destruct t as [|c l x r]; [done|]. simpl. rewrite Forall_app, Forall_cons.
  intros (_ & [? _] & _). unfold NULL. split; [lia|done].
Qed.

(** ** Address bookkeeping *)

Definition disj (A B : list Z) : Prop := forall y, y ∈ A -> y ∉ B.

Lemma addrs_plug k t :
  addrs_ok (inorder (plug k t)) <->
  addrs_ok (inorder t) /\ addrs_ok (cptrs k) /\ disj (inorder t) (cptrs k).
Proof.
  unfold addrs_ok, cptrs, disj. rewrite inorder_plug, !NoDup_app, !Forall_app. set_solver.
Qed.

Lemma addrs_mk d c a x b :
  addrs_ok (inorder (mk d c a x b)) <->
  addrs_ok (inorder a) /\ addrs_ok (inorder b) /\ okp x /\
  (x ∉ inorder a) /\ (x ∉ inorder b) /\ disj (inorder a) (inorder b).
Proof.
  unfold addrs_ok, disj. destruct d; simpl; rewrite !NoDup_app, !NoDup_cons, !Forall_app, !Forall_cons; set_solver.
Qed.

Lemma addrs_frame d c x s k :
  addrs_ok (cptrs (Fr d c x s :: k)) <->
  addrs_ok (inorder s) /\ addrs_ok (cptrs k) /\ okp x /\
  (x ∉ inorder s) /\ (x ∉ cptrs k) /\ disj (inorder s) (cptrs k).
Proof.
  unfold addrs_ok, cptrs, disj. destruct d; simpl;
    rewrite ?NoDup_app, ?NoDup_cons, ?NoDup_app, ?Forall_app, ?Forall_cons, ?Forall_app.
  - set_solver.
  - rewrite Forall_nil. set_solver by eauto using NoDup_nil_2.
Qed.

(** ** Accesses as equations on heaps *)

Definition get_child (d : dir) (n : Z) : RB Z :=
  match d with L => get_left n | R => get_right n end.
Definition set_child (d : dir) (n v : Z) : RB unit :=
  match d with L => set_left n v | R => set_right n v end.

Lemma get_child_eq d n root h pc a b :
  h !! n = Some (mknd pc d a b) ->
  get_child d n (RBMem root h) = Some (a, RBMem root h).
Proof.
  intros H. destruct d; unfold get_child, get_left, get_right, bind, load; simpl; by rewrite H.
Qed.

Lemma get_other_eq d n root h pc a b :
  h !! n = Some (mknd pc d a b) ->
  get_child (opp d) n (RBMem root h) = Some (b, RBMem root h).
Proof. intros H. eapply get_child_eq. by rewrite mknd_opp. Qed.

Lemma set_child_eq d n v root h pc a b :
  h !! n = Some (mknd pc d a b) ->
  set_child d n v (RBMem root h) = Some (tt, RBMem root (<[n := mknd pc d v b]> h)).
Proof.
  intros H. destruct d; unfold set_child, set_left, set_right, bind, load, store; simpl;
    rewrite H; simpl; by rewrite H.
Qed.

Lemma set_other_eq d n v root h pc a b :
  h !! n = Some (mknd pc d a b) ->
  set_child (opp d) n v (RBMem root h) = Some (tt, RBMem root (<[n := mknd pc d a v]> h)).
Proof. intros H. rewrite <-mknd_opp. eapply set_child_eq. by rewrite mknd_opp. Qed.

Lemma get_pc_eq d n root h pc a b :
  h !! n = Some (mknd pc d a b) -> get_pc n (RBMem root h) = Some (pc, RBMem root h).
Proof. intros H. unfold get_pc, bind, load. simpl. rewrite H. by destruct d. Qed.

Lemma set_pc_eq d n v root h pc a b :
  h !! n = Some (mknd pc d a b) ->
  set_pc n v (RBMem root h) = Some (tt, RBMem root (<[n := mknd v d a b]> h)).
Proof. intros H. unfold set_pc, bind, load, store. simpl. rewrite H. simpl. rewrite H. by destruct d. Qed.

Lemma set_parent_color_eq d n p c root h pc a b :
  h !! n = Some (mknd pc d a b) ->
  hev_rbtree_node_set_parent_color n p (colz c) (RBMem root h) =
  Some (tt, RBMem root (<[n := mknd (pack p c) d a b]> h)).
Proof. apply set_pc_eq. Qed.

Lemma node_parent_eq d n root h p c a b :
  h !! n = Some (mknd (pack p c) d a b) -> Z.land p 3 = 0 ->
  hev_rbtree_node_parent n (RBMem root h) = Some (p, RBMem root h).
Proof.
  intros H Hp. unfold hev_rbtree_node_parent. erewrite bind_Some by (by eapply get_pc_eq).
  unfold ret. by rewrite pack_parent.
Qed.

Lemma red_parent_eq d n root h p a b :
  h !! n = Some (mknd (pack p Red) d a b) ->
  hev_rbtree_node_red_parent n (RBMem root h) = Some (p, RBMem root h).
Proof. intros H. unfold hev_rbtree_node_red_parent. erewrite get_pc_eq by done. by rewrite pack_red. Qed.

Lemma node_color_eq d n root h p c a b :
  h !! n = Some (mknd (pack p c) d a b) -> Z.land p 3 = 0 ->
  hev_rbtree_node_color n (RBMem root h) = Some (colz c, RBMem root h).
Proof.
  intros H Hp. unfold hev_rbtree_node_color. erewrite bind_Some by (by eapply get_pc_eq).
  unfold ret. by rewrite pack_color.
Qed.

Lemma is_black_eq d n root h p c a b :
  h !! n = Some (mknd (pack p c) d a b) -> Z.land p 3 = 0 ->
  hev_rbtree_node_is_black n (RBMem root h) = Some (bool_decide (c = Black), RBMem root h).
Proof.
  intros H Hp. unfold hev_rbtree_node_is_black. erewrite bind_Some by (by eapply node_color_eq).
  by destruct c.
Qed.

Lemma is_red_eq d n root h p c a b :
  h !! n = Some (mknd (pack p c) d a b) -> Z.land p 3 = 0 ->
  hev_rbtree_node_is_red n (RBMem root h) = Some (bool_decide (c = Red), RBMem root h).
Proof.
  intros H Hp. unfold hev_rbtree_node_is_red. erewrite bind_Some by (by eapply node_color_eq).
  by destruct c.
Qed.

Lemma set_parent_eq d n q root h p c a b :
  h !! n = Some (mknd (pack p c) d a b) -> Z.land p 3 = 0 ->
  hev_rbtree_node_set_parent n q (RBMem root h) =
  Some (tt, RBMem root (<[n := mknd (pack q c) d a b]> h)).
Proof.
  intros H Hp. unfold hev_rbtree_node_set_parent. erewrite bind_Some by (by eapply node_color_eq).
  unfold pack. rewrite Z.lor_comm. by apply set_pc_eq with (pc := pack p c).
Qed.

Lemma set_black_eq d n root h p a b :
  h !! n = Some (mknd (pack p Red) d a b) ->
  hev_rbtree_node_set_black n (RBMem root h) =
  Some (tt, RBMem root (<[n := mknd (pack p Black) d a b]> h)).
Proof.
  intros H. unfold hev_rbtree_node_set_black. erewrite bind_Some by (by eapply get_pc_eq).
  erewrite set_pc_eq by done. by rewrite pack_red.
Qed.

(** ** Whole subtrees: giving a subtree a new parent *)

(** [if (tmp) set_parent_color (tmp, q, c)] *)
Lemma adopt_color root h p q c t :
  rep h p t -> addrs_ok (inorder t) ->
  exists h',
    (when (negb (ptr t =? NULL)) do hev_rbtree_node_set_parent_color (ptr t) q (colz c)) (RBMem root h)
      = Some (tt, RBMem root h') /\
    rep h' q (recolor c t) /\ same_off (inorder t) h h'.
Proof.
  intros Hr Ha. destruct t as [|c0 l x r]; simpl in *.
  - exists h. split_and!; [done..|by intros ?].
  - destruct Hr as (Hx & Hl & Hr).
    apply (addrs_mk L c0) in Ha. destruct Ha as (_ & _ & [Hx0 _] & Hxl & Hxr & _).
    rewrite (proj2 (Z.eqb_neq x NULL)) by (unfold NULL; lia). simpl.
    eexists. split; [by eapply set_parent_color_eq|]. split_and!.
    + apply lookup_insert_eq.
    + by apply rep_insert.
    + by apply rep_insert.
    + intros y Hy. rewrite lookup_insert_ne; [done|set_solver].
Qed.

(** [if (tmp) set_parent (tmp, q)] *)
Lemma adopt_parent root h p q t :
  rep h p t -> addrs_ok (inorder t) -> Z.land p 3 = 0 ->
  exists h',
    (when (negb (ptr t =? NULL)) do hev_rbtree_node_set_parent (ptr t) q) (RBMem root h)
      = Some (tt, RBMem root h') /\
    rep h' q t /\ same_off (inorder t) h h'.
Proof.
  intros Hr Ha Hp. destruct t as [|c0 l x r]; simpl in *.
  - exists h. split_and!; [done..|by intros ?].
  - destruct Hr as (Hx & Hl & Hr).
    apply (addrs_mk L c0) in Ha. destruct Ha as (_ & _ & [Hx0 _] & Hxl & Hxr & _).
    rewrite (proj2 (Z.eqb_neq x NULL)) by (unfold NULL; lia). simpl.
    eexists. split; [by eapply set_parent_eq|]. split_and!.
    + apply lookup_insert_eq.
    + by apply rep_insert.
    + by apply rep_insert.
    + intros y Hy. rewrite lookup_insert_ne; [done|set_solver].
Qed.

(** [hev_rbtree_change_child]: the hole of a context takes another pointer. *)
Lemma change_child_eq root h k old new :
  repc root h k old -> addrs_ok (cptrs k) -> okp old -> old ∉ cptrs k ->
  exists root' h',
    hev_rbtree_change_child old new (par k) (RBMem root h) = Some (tt, RBMem root' h') /\
    repc root' h' k new /\ same_off (cptrs k) h h'.
Proof.
  intros Hk Ha [Ho _] Hno. destruct k as [|[d c x s] k].
  - exists new, h. split_and!; [done..|]. by intros ?.
  - apply addrs_frame in Ha. destruct Ha as (Has & Hak & [Hx0 _] & Hxs & Hxk & Hsk).
    destruct Hk as (Hx & Hs & Hk). simpl. unfold hev_rbtree_change_child.
    rewrite (proj2 (Z.eqb_neq x NULL)) by (unfold NULL; lia). simpl.
    exists root, (<[x := mknd (pack (par k) c) d new (ptr s)]> h). split_and!.
    + destruct d.
      * erewrite bind_Some by (by eapply (get_child_eq L)). rewrite Z.eqb_refl.
        by apply (set_child_eq L) with (a := old).
      * erewrite bind_Some by (by eapply (get_other_eq R)).
        rewrite (proj2 (Z.eqb_neq (ptr s) old)).
        -- by apply (set_child_eq R) with (a := old).
        -- intros <-. apply Hno, cptrs_cons. right. left. apply ptr_in.
           intros ->. unfold ptr, NULL in *. lia.
    + apply lookup_insert_eq.
    + by apply rep_insert.
    + by apply repc_insert.
    + intros y Hy. rewrite lookup_insert_ne; [done|]. intros ->. apply Hy, cptrs_cons. by left.
Qed.

(** [hev_rbtree_rotate_set_parents]: [new] takes the place of [old]. *)
Lemma rotate_eq root h k c d a b pc' d' a' b' old new c' :
  h !! old = Some (mknd (pack (par k) c) d a b) ->
  h !! new = Some (mknd pc' d' a' b') ->
  repc root h k old -> addrs_ok (cptrs k) -> okp old ->
  old <> new -> old ∉ cptrs k -> new ∉ cptrs k ->
  exists root' h',
    hev_rbtree_rotate_set_parents old new (colz c') (RBMem root h) = Some (tt, RBMem root' h') /\
    h' !! old = Some (mknd (pack new c') d a b) /\
    h' !! new = Some (mknd (pack (par k) c) d' a' b') /\
    repc root' h' k new /\
    (forall y, y ∉ cptrs k -> y <> old -> y <> new -> h' !! y = h !! y).
Proof.
  intros Ho Hn Hk Ha Hok Hne Hoc Hnc.
  assert (Z.land (par k) 3 = 0) as Hp.
  { destruct k as [|[dk ck x s] k]; [done|].
    apply addrs_frame in Ha. apply Ha. }
  unfold hev_rbtree_rotate_set_parents.
  erewrite bind_Some by (by eapply node_parent_eq).
  erewrite bind_Some by (by eapply get_pc_eq).
  erewrite bind_Some by (by eapply set_pc_eq).
  erewrite bind_Some by (eapply set_parent_color_eq; rewrite lookup_insert_ne by done; done).
  edestruct (change_child_eq root) as (root' & h' & -> & Hk' & Hs);
    [by do 2 (apply repc_insert; [done|])|done..|].
  exists root', h'. split_and!; [done|..|done|].
  - by rewrite Hs, lookup_insert_eq.
  - by rewrite Hs, lookup_insert_ne, lookup_insert_eq.
  - intros y Hyc Hyo Hyn. by rewrite Hs, !lookup_insert_ne.
Qed.

(** ** Automation *)

Lemma okp_par k : addrs_ok (cptrs k) -> Z.land (par k) 3 = 0.
Proof.
  destruct k as [|[d c x s] k]; [done|]. intros Ha. apply addrs_frame in Ha. apply Ha.
Qed.

Lemma notin_mk y d c a x b :
  y ∉ inorder (mk d c a x b) <-> y <> x /\ (y ∉ inorder a) /\ (y ∉ inorder b).
Proof. rewrite elem_of_mk. tauto. Qed.

Lemma notin_frame y d c x s k :
  y ∉ cptrs (Fr d c x s :: k) <-> y <> x /\ (y ∉ inorder s) /\ (y ∉ cptrs k).
Proof. rewrite cptrs_cons. tauto. Qed.

Lemma notin_plug y k t : y ∉ inorder (plug k t) <-> (y ∉ inorder t) /\ (y ∉ cptrs k).
Proof. rewrite inorder_plug. unfold cptrs. set_solver. Qed.

Lemma disj_mk_l d c a x b B :
  disj (inorder (mk d c a x b)) B <-> (x ∉ B) /\ disj (inorder a) B /\ disj (inorder b) B.
Proof. unfold disj. setoid_rewrite elem_of_mk. set_solver. Qed.

Lemma disj_mk_r d c a x b A :
  disj A (inorder (mk d c a x b)) <-> (x ∉ A) /\ disj A (inorder a) /\ disj A (inorder b).
Proof. unfold disj. setoid_rewrite elem_of_mk. set_solver. Qed.

Lemma disj_frame_r d c x s k A :
  disj A (cptrs (Fr d c x s :: k)) <-> (x ∉ A) /\ disj A (inorder s) /\ disj A (cptrs k).
Proof. unfold disj. setoid_rewrite cptrs_cons. set_solver. Qed.

Lemma disj_plug_l k t B :
  disj (inorder (plug k t)) B <-> disj (inorder t) B /\ disj (cptrs k) B.
Proof. unfold disj, cptrs. rewrite inorder_plug. set_solver. Qed.

Lemma disj_plug_r k t A :
  disj A (inorder (plug k t)) <-> disj A (inorder t) /\ disj A (cptrs k).
Proof. unfold disj, cptrs. rewrite inorder_plug. set_solver. Qed.

Lemma ptr_ne x t : okp x -> x ∉ inorder t -> x <> ptr t.
Proof.
  intros [Hx _] Hn ->. destruct t; [simpl in Hx; unfold NULL in Hx; lia|].
  apply Hn. by apply ptr_in.
Qed.

Lemma elem_okp l x : addrs_ok l -> x ∈ l -> okp x.
Proof. intros [_ Hf]. rewrite Forall_forall in Hf. auto. Qed.

Lemma ptr_okp t : addrs_ok (inorder t) -> t <> E -> okp (ptr t).
Proof. intros Ha Hne. eapply elem_okp; [done|]. by apply ptr_in. Qed.

(** Break the hypotheses on addresses down to atomic facts: [x <> y],
    [x ∉ inorder t], [x ∉ cptrs k] and [disj] of atomic lists. *)
Ltac addrs_split :=
  repeat match goal with
  | H : _ /\ _ |- _ => destruct H
  | H : context [inorder (recolor _ _)] |- _ => rewrite inorder_recolor in H
  | H : addrs_ok (inorder (plug _ _)) |- _ => apply addrs_plug in H
  | H : addrs_ok (inorder (mk _ _ _ _ _)) |- _ => apply addrs_mk in H
  | H : addrs_ok (inorder (T ?c _ _ _)) |- _ => apply (addrs_mk L c) in H
  | H : addrs_ok (cptrs (Fr _ _ _ _ :: _)) |- _ => apply addrs_frame in H
  | H : disj (inorder (plug _ _)) _ |- _ => apply disj_plug_l in H
  | H : disj _ (inorder (plug _ _)) |- _ => apply disj_plug_r in H
  | H : disj (inorder (mk _ _ _ _ _)) _ |- _ => apply disj_mk_l in H
  | H : disj (inorder (T ?c _ _ _)) _ |- _ => apply (disj_mk_l L c) in H
  | H : disj _ (inorder (mk _ _ _ _ _)) |- _ => apply disj_mk_r in H
  | H : disj _ (inorder (T ?c _ _ _)) |- _ => apply (disj_mk_r L c) in H
  | H : disj _ (cptrs (Fr _ _ _ _ :: _)) |- _ => apply disj_frame_r in H
  | H : _ ∉ inorder (plug _ _) |- _ => apply notin_plug in H
  | H : _ ∉ inorder (mk _ _ _ _ _) |- _ => apply notin_mk in H
  | H : _ ∉ inorder (T ?c _ _ _) |- _ => apply (notin_mk _ L c) in H
  | H : _ ∉ cptrs (Fr _ _ _ _ :: _) |- _ => apply notin_frame in H
  end.

(** Distinctness goals from those atomic facts. *)
Ltac dj :=
  repeat match goal with
  | |- _ /\ _ => split
  | |- _ ∉ inorder (plug _ _) => apply notin_plug
  | |- _ ∉ inorder (recolor _ _) => rewrite inorder_recolor
  | |- _ ∉ inorder (mk _ _ _ _ _) => apply notin_mk
  | |- _ ∉ inorder (T ?c _ _ _) => apply (notin_mk _ L c)
  | |- _ ∉ cptrs (Fr _ _ _ _ :: _) => apply notin_frame
  end;
  first
    [ assumption
    | congruence
    | let H := fresh in intros H; subst;
      match goal with
      | N : ?y <> ?y |- _ => by destruct N
      | N : ?y ∉ ?A, I : ?y ∈ ?A |- _ => by destruct (N I)
      | D : disj ?A ?B, I : ?y ∈ ?A, J : ?y ∈ ?B |- _ => by destruct (D y I J)
      end ].

(** Reading through writes to other addresses. *)
Ltac look :=
  repeat first
    [ eassumption
    | apply lookup_insert_eq
    | rewrite lookup_insert_ne by dj ].

(** Alignment of an address known to be a node. *)
Ltac okl :=
  first [ assumption
        | match goal with H : okp ?x |- Z.land ?x 3 = 0 => apply H end
        | apply okp_par; assumption ].

(** Give a name to the heap the next access runs on. *)
Ltac name_heap h' :=
  match goal with |- context [bind _ _ (RBMem _ ?H)] => set (h' := H) in * end.

Ltac rb_step lem := erewrite bind_Some by (eapply lem; first [okl | look]).

Lemma okp_eqb x : okp x -> (x =? NULL) = false.
Proof. intros [? _]. apply Z.eqb_neq. unfold NULL. lia. Qed.

Lemma rep_size h p t : rep h p t -> NoDup (inorder t) -> (length (inorder t) <= size h)%nat.
Proof.
  intros Hr Hn.
  rewrite <-(size_list_to_set (C := gset Z)) by done. rewrite <-size_dom.
  apply subseteq_size. intros x. rewrite elem_of_list_to_set, elem_of_dom. clear Hn.
  revert p Hr. induction t as [|c l IHl y r IHr]; simpl; intros p Hr Hx; [set_solver|].
  destruct Hr as (Hy & Hl & Hr).
  apply elem_of_app in Hx as [Hx|Hx]; [by eauto|].
  apply elem_of_cons in Hx as [->|Hx]; [by eauto|]. by eauto.
Qed.

Lemma ctx_length k : (length k <= length (cptrs k))%nat.
Proof.
  unfold cptrs. induction k as [|[[] c x s] k IH]; simpl; [lia|..];
    rewrite ?length_app in *; simpl in *; rewrite ?length_app in *; simpl; lia.
Qed.

Lemma rep_fuel m k t :
  tree_rep m (plug k t) -> addrs_ok (inorder (plug k t)) -> (length k < rb_fuel m)%nat.
Proof.
  intros [_ Hr] [Hn _]. pose proof (rep_size _ _ _ Hr Hn) as Hs.
  rewrite inorder_plug, !length_app in Hs. pose proof (ctx_length k) as Hc.
  unfold cptrs, rb_fuel in *. rewrite length_app in Hc. lia.
Qed.

Lemma same_off_trans l l' h h' h'' :
  same_off l h h' -> same_off l' h' h'' -> (forall y, y ∈ l' -> y ∈ l) -> same_off l h h''.
Proof. intros H1 H2 Hi y Hy. rewrite H2, H1; [done..|]. intros ?. by apply Hy, Hi. Qed.

Lemma tree_rep_ctx m k t :
  tree_rep m (plug k t) ->
  exists root h, m = RBMem root h /\ rep h (par k) t /\ repc root h k (ptr t).
Proof. intros H. apply tree_rep_plug in H. destruct m. eauto. Qed.

Lemma okp_tree_eqb t : addrs_ok (inorder t) -> (ptr t =? NULL) = bool_decide (t = E).
Proof.
  intros [_ Ha]. destruct (decide (t = E)) as [->|Hne]; [done|].
  rewrite bool_decide_false by done. apply Z.eqb_neq. by rewrite ptr_null.
Qed.
