(* ===== verification/RBInsert.v ===== *)
(** * Correctness of hev_rbtree_insert_color

    The pointer code computes the functional rebalancing [ins_up] of the
    zipper at the linked node: it never dereferences a bad pointer, stops, keeps
    the in-order sequence and restores the red-black invariant. *)

From S2P Require Import Prelude RBTree RBModel RBRep.

(** The loop body with its two mirror halves folded into a direction: [d] is the
    side of the grandparent on which the parent hangs. *)
Definition insert_tail (d : dir) (gparent parent tmp : Z) : RB (option (Z * Z)) :=
  set_child d gparent tmp;;
  set_child (opp d) parent gparent;;
  (when (negb (tmp =? NULL)) do
     hev_rbtree_node_set_parent_color tmp gparent HEV_RBTREE_BLACK);;
  hev_rbtree_rotate_set_parents gparent parent HEV_RBTREE_RED;;
  ret None.

Definition insert_side (d : dir) (node parent gparent tmp : Z) : RB (option (Z * Z)) :=
  let* uncle_red := (if tmp =? NULL then ret false else hev_rbtree_node_is_red tmp) in
  if uncle_red then
    hev_rbtree_node_set_parent_color tmp gparent HEV_RBTREE_BLACK;;
    hev_rbtree_node_set_parent_color parent gparent HEV_RBTREE_BLACK;;
    let* parent' := hev_rbtree_node_parent gparent in
    hev_rbtree_node_set_parent_color gparent parent' HEV_RBTREE_RED;;
    ret (Some (gparent, parent'))
  else
  let* tmp := get_child (opp d) parent in
  let* (parent, tmp) :=
    (if node =? tmp then
       let* tmp := get_child d node in
       set_child (opp d) parent tmp;;
       set_child d node parent;;
       (when (negb (tmp =? NULL)) do
          hev_rbtree_node_set_parent_color tmp parent HEV_RBTREE_BLACK);;
       hev_rbtree_node_set_parent_color parent node HEV_RBTREE_RED;;
       let* tmp := get_child (opp d) node in
       ret (node, tmp)
     else ret (parent, tmp)) in
  insert_tail d gparent parent tmp.

Lemma insert_color_body_sides node parent :
  insert_color_body node parent =
  if parent =? NULL then
    hev_rbtree_node_set_parent_color node NULL HEV_RBTREE_BLACK;; ret None
  else
  let* black := hev_rbtree_node_is_black parent in
  if black then ret None else
  let* gparent := hev_rbtree_node_red_parent parent in
  let* tmp := get_right gparent in
  if negb (parent =? tmp) then insert_side L node parent gparent tmp
  else let* tmp := get_left gparent in insert_side R node parent gparent tmp.
Proof. reflexivity. Qed.

(** ** Case 3: the rotation at the grandparent *)

Lemma insert_tail_eq root h k c d g q A s u w pcq q' :
  h !! g = Some (mknd (pack (par k) c) d w (ptr u)) ->
  h !! q = Some (mknd pcq d (ptr A) (ptr s)) ->
  rep h q A -> rep h q' s -> rep h g u -> repc root h k g ->
  tree_color s = Black ->
  addrs_ok (inorder (plug k (mk d c A q (mk d Red s g u)))) ->
  exists m', insert_tail d g q (ptr s) (RBMem root h) = Some (None, m') /\
    tree_rep m' (plug k (mk d c A q (mk d Red s g u))) /\
    same_off (inorder (plug k (mk d c A q (mk d Red s g u)))) h (rb_nodes m').
Proof.
  intros Hg Hq HA Hs Hu Hk Hcs Ha. addrs_split.
  unfold insert_tail.
  rb_step set_child_eq. rb_step set_other_eq. name_heap h1.
  edestruct (adopt_color root h1 q' g Black s) as (h2 & Heq & Hs2 & Hoff2);
    [by do 2 (apply rep_insert; [dj|])|done|].
  rewrite <-Hcs, recolor_same in Hs2.
  erewrite bind_Some by exact Heq. clear Heq.
  assert (forall y, y <> g -> y <> q -> y ∉ inorder s -> h2 !! y = h !! y) as Hoff.
  { intros y ???. rewrite Hoff2 by done. subst h1. by look. }
  edestruct (rotate_eq root h2 k c d (ptr s) (ptr u) pcq d (ptr A) g g q Red)
    as (root' & h3 & Heq & Hg3 & Hq3 & Hk3 & Hoff3);
    [by rewrite Hoff2; subst h1; look|by rewrite Hoff2; subst h1; look| |done..|].
  { eapply repc_same; [|done]. intros y Hy. apply Hoff; dj. }
  erewrite bind_Some by exact Heq. eexists. split; [done|]. split.
  - apply tree_rep_plug. rewrite rep_mk, rep_mk, !ptr_mk. simpl. split_and!; try done.
    + eapply rep_same; [|done]. intros y Hy. rewrite Hoff3, Hoff; dj.
    + eapply rep_same; [|done]. intros y Hy. rewrite Hoff3; dj.
    + eapply rep_same; [|done]. intros y Hy. rewrite Hoff3, Hoff; dj.
  - intros y Hy. addrs_split. rewrite Hoff3, Hoff; dj.
Qed.

(** ** Cases 2 and 3: the uncle is black *)

Lemma insert_side_rotate root h k c2 d1 d2 t p s1 g u :
  t <> E -> nored t -> tree_color t = Red -> tree_color s1 = Black -> tree_color u = Black ->
  rep h p t -> repc root h (Fr d1 Red p s1 :: Fr d2 c2 g u :: k) (ptr t) ->
  addrs_ok (inorder (plug (Fr d1 Red p s1 :: Fr d2 c2 g u :: k) t)) ->
  exists m', insert_side d2 (ptr t) p g (ptr u) (RBMem root h) = Some (None, m') /\
    tree_rep m' (plug k (ins_rotate d1 d2 c2 t p s1 g u)) /\
    same_off (inorder (plug k (ins_rotate d1 d2 c2 t p s1 g u))) h (rb_nodes m').
Proof.
  intros Hne Hn Hc Hcs Hcu Ht (Hp & Hs1 & Hg & Hu & Hk) Ha.
  assert (addrs_ok (inorder (plug k (ins_rotate d1 d2 c2 t p s1 g u)))) as Ha'.
  { revert Ha. simpl. by rewrite !inorder_plug, inorder_ins_rotate. }
  revert Ha'. simpl in Ha. addrs_split. intros Ha'.
  unfold insert_side.
  erewrite bind_Some with (a := false) (s' := RBMem root h).
  2:{ rewrite okp_tree_eqb by done. case_bool_decide as Hu0; [done|].
      destruct u as [|cu lu xu ru]; [done|]. simpl in *. subst cu. destruct Hu as [Hxu _].
      by erewrite is_red_eq by first [done | okl]. }
  destruct (decide (d1 = d2)) as [->|Hd].
  - rb_step get_other_eq.
    rewrite (proj2 (Z.eqb_neq (ptr t) (ptr s1))).
    2:{ pose proof (ptr_in t Hne). apply ptr_ne; [by apply ptr_okp|dj]. }
    rewrite bind_ret.
    unfold ins_rotate in *. rewrite decide_True in * by done.
    by eapply insert_tail_eq.
  - assert (d1 = opp d2) as -> by (by destruct d1, d2).
    rewrite mknd_opp in Hp.
    rb_step get_other_eq. rewrite Z.eqb_refl.
    unfold ins_rotate in *. rewrite decide_False in * by done.
    destruct (nored_red_children d2 t Hn Hc) as [Hca _].
    destruct (nored_red_children (opp d2) t Hn Hc) as [Hcb _].
    pose proof (mk_child d2 t Hne) as Hmk. rewrite Hc in Hmk.
    generalize dependent (child d2 t). intros a. generalize dependent (child (opp d2) t). intros b.
    generalize dependent (ptr t). intros n. intros.
    subst t. rewrite rep_mk in Ht. destruct Ht as (Hn' & Hra & Hrb).
    revert Ha'. addrs_split. intros Ha'.
    unfold bind at 1.
    rb_step get_child_eq. rb_step set_other_eq. rb_step set_child_eq. name_heap h1.
    edestruct (adopt_color root h1 n p Black a) as (h2 & Heq & Ha2 & Hoff2);
      [by do 2 (apply rep_insert; [dj|])|done|].
    rewrite <-Hca, recolor_same in Ha2.
    erewrite bind_Some by exact Heq. clear Heq.
    assert (h2 !! p = Some (mknd (pack g Red) d2 (ptr s1) (ptr a))) as Hp2
      by (rewrite Hoff2 by done; subst h1; look).
    assert (h2 !! n = Some (mknd (pack p Red) d2 p (ptr b))) as Hn2
      by (rewrite Hoff2 by done; subst h1; look).
    erewrite bind_Some by (eapply set_parent_color_eq with (c := Red); look).
    rb_step get_other_eq. simpl.
    set (h3 := <[p:=_]> h2).
    assert (forall y, y <> p -> y <> n -> y ∉ inorder a -> h3 !! y = h !! y) as Hoff3.
    { intros y ???. subst h3. rewrite lookup_insert_ne, Hoff2 by done. subst h1. by look. }
    edestruct (insert_tail_eq root h3 k c2 d2 g n (mk d2 Red s1 p a) b u p (pack p Red) n)
      as (m' & -> & Hrep & Hoff4); try done.
    + by rewrite Hoff3.
    + rewrite ptr_mk. subst h3. by look.
    + rewrite rep_mk. split_and!; [by apply lookup_insert_eq|..].
      * eapply rep_same; [|done]. intros y Hy. apply Hoff3; dj.
      * eapply rep_insert; done.
    + eapply rep_same; [|done]. intros y Hy. apply Hoff3; dj.
    + eapply rep_same; [|done]. intros y Hy. apply Hoff3; dj.
    + eapply repc_same; [|done]. intros y Hy. apply Hoff3; dj.
    + eexists. split; [done|]. split; [done|].
      intros y Hy. rewrite Hoff4 by done. addrs_split. apply Hoff3; dj.
Qed.

(** ** Case 1: the uncle is red *)

Lemma insert_side_flip root h k c2 d1 d2 t p s1 g u :
  tree_color u = Red -> rep h p t ->
  repc root h (Fr d1 Red p s1 :: Fr d2 c2 g u :: k) (ptr t) ->
  addrs_ok (inorder (plug (Fr d1 Red p s1 :: Fr d2 c2 g u :: k) t)) ->
  exists m', insert_side d2 (ptr t) p g (ptr u) (RBMem root h) = Some (Some (g, par k), m') /\
    tree_rep m' (plug k (mk d2 Red (mk d1 Black t p s1) g (recolor Black u))) /\
    same_off (inorder (plug (Fr d1 Red p s1 :: Fr d2 c2 g u :: k) t)) h (rb_nodes m').
Proof.
  intros Hcu Ht (Hp & Hs1 & Hg & Hu & Hk) Ha. simpl in Ha. addrs_split.
  destruct u as [|cu lu xu ru]; [done|]. simpl in Hcu. subst cu.
  simpl in Hu. destruct Hu as (Hxu & Hlu & Hru). addrs_split.
  unfold insert_side.
  erewrite bind_Some with (a := true) (s' := RBMem root h).
  2:{ simpl. rewrite okp_eqb by done. by erewrite is_red_eq by first [done | okl]. }
  simpl.
  erewrite bind_Some by (eapply set_parent_color_eq with (c := Black); look).
  erewrite bind_Some by (eapply set_parent_color_eq with (c := Black); look).
  erewrite bind_Some by (eapply node_parent_eq; [look|okl]).
  erewrite bind_Some by (eapply set_parent_color_eq with (c := Red); look).
  eexists. split; [done|]. split.
  - apply tree_rep_plug. rewrite !rep_mk, !ptr_mk. simpl. split_and!.
    + by look.
    + by look.
    + do 3 (apply rep_insert; [dj|]). done.
    + do 3 (apply rep_insert; [dj|]). done.
    + by look.
    + do 3 (apply rep_insert; [dj|]). done.
    + do 3 (apply rep_insert; [dj|]). done.
    + do 3 (apply repc_insert; [dj|]). done.
  - intros y Hy. simpl in Hy. addrs_split. simpl. by rewrite !lookup_insert_ne by dj.
Qed.

(** ** The loop *)

(** The parent is found on the side of the frame. *)
Lemma insert_color_body_red root h k c2 d1 d2 t p s1 g u :
  t <> E -> rep h p t ->
  repc root h (Fr d1 Red p s1 :: Fr d2 c2 g u :: k) (ptr t) ->
  addrs_ok (inorder (plug (Fr d1 Red p s1 :: Fr d2 c2 g u :: k) t)) ->
  insert_color_body (ptr t) p (RBMem root h) = insert_side d2 (ptr t) p g (ptr u) (RBMem root h).
Proof.
  intros Hne Ht (Hp & Hs1 & Hg & Hu & Hk) Ha. simpl in Ha. addrs_split.
  rewrite insert_color_body_sides, okp_eqb by done.
  rb_step is_black_eq. rewrite bool_decide_false by done. rb_step red_parent_eq.
  simpl. destruct d2.
  - erewrite bind_Some by (by eapply (get_other_eq L)).
    rewrite (proj2 (Z.eqb_neq p (ptr u))) by (apply ptr_ne; [done|dj]). done.
  - erewrite bind_Some by (by eapply (get_child_eq R)). rewrite Z.eqb_refl. simpl.
    by erewrite bind_Some by (by eapply (get_other_eq R)).
Qed.

Lemma insert_color_loop_eq fuel n k t m :
  (length k < fuel)%nat ->
  cok n k -> nored t -> tree_color t = Red ->
  tree_rep m (plug k t) -> addrs_ok (inorder (plug k t)) ->
  exists m', insert_color_loop fuel (ptr t) (par k) m = Some (tt, m') /\
    tree_rep m' (ins_up k t) /\ same_off (inorder (plug k t)) (rb_nodes m) (rb_nodes m').
Proof.
  revert n k t m. induction fuel as [|fuel IH]; intros n k t m Hf Hk Hn Hc Hm Ha; [lia|].
  apply tree_rep_ctx in Hm as (root & h & -> & Ht & Hctx).
  pose proof (tree_color_red_nonempty t Hc) as Hne. simpl.
  destruct k as [|[d1 c1 p s1] k].
  - destruct t as [|c a x b]; [done|]. simpl in *. destruct Ht as (Hx & Hl & Hr). subst root.
    unfold insert_color_body. simpl. apply (addrs_mk L c a x b) in Ha. addrs_split.
    erewrite bind_Some; [|erewrite bind_Some by (eapply set_parent_color_eq with (c := Black); look); done].
    eexists. split; [done|]. split; [split|]; simpl.
    + done.
    + split_and!; [by look|by apply rep_insert..].
    + intros y Hy. apply (notin_mk y L c a x b) in Hy. addrs_split.
      simpl. by rewrite lookup_insert_ne by dj.
  - destruct c1.
    + destruct k as [|[d2 c2 g u] k]; [by destruct Hk as (_ & _ & _ & ? & _)|].
      simpl in Hk. destruct Hk as (Hs & Hns & Hcs & -> & Hu & Hnu & Hk). simpl.
      destruct (tree_color u) eqn:Hcu.
      * destruct (insert_side_flip root h k Black d1 d2 t p s1 g u) as (m1 & Heq & Hrep & Hoff); [done..|].
        erewrite bind_Some by (by erewrite insert_color_body_red).
        destruct (IH (S n) k (mk d2 Red (mk d1 Black t p s1) g (recolor Black u)) m1)
          as (m2 & Heq2 & Hrep2 & Hoff2); try done.
        -- simpl in Hf. lia.
        -- rewrite nored_mk, nored_mk, tree_color_mk.
           split_and!; auto using tree_color_recolor_black, nored_recolor_black; discriminate.
        -- apply tree_color_mk.
        -- revert Ha. simpl. by rewrite !inorder_plug, !inorder_mk, inorder_recolor.
        -- rewrite ptr_mk in Heq2. eexists. split; [done|]. split; [done|].
           eapply same_off_trans; [done..|].
           intros y. simpl. by rewrite !inorder_plug, !inorder_mk, inorder_recolor.
      * destruct (insert_side_rotate root h k Black d1 d2 t p s1 g u) as (m1 & Heq & Hrep & Hoff); [done..|].
        erewrite bind_Some by (by erewrite insert_color_body_red).
        eexists. split; [done|]. split; [done|].
        simpl. revert Hoff. by rewrite !inorder_plug, inorder_ins_rotate.
    + destruct Hctx as (Hp & Hs1 & Hctx).
      simpl in Ha. addrs_split. simpl. rewrite insert_color_body_sides, okp_eqb by done.
      erewrite bind_Some; [|rb_step is_black_eq; done].
      eexists. split; [done|]. split; [|by intros ?].
      apply (tree_rep_plug _ (Fr d1 Black p s1 :: k)). by split.
Qed.

(** ** The theorem *)

Theorem insert_color_correct k t m :
  RBT (plug k E) -> t = T Red E (ptr t) E ->
  tree_rep m (plug k t) -> addrs_ok (inorder (plug k t)) ->
  exists m', hev_rbtree_insert_color (ptr t) m = Some (tt, m') /\
    tree_rep m' (ins_up k t) /\ RBT (ins_up k t) /\
    inorder (ins_up k t) = before k ++ ptr t :: after k /\
    same_off (inorder (plug k t)) (rb_nodes m) (rb_nodes m').
Proof.
  intros HR Ht Hm Ha. apply RBT_plug in HR as (n & Hk & Hb & _ & _).
  simpl in Hb. subst n.
  assert (tree_color t = Red) as Hc by (by rewrite Ht).
  assert (nored t) as Hn by (by rewrite Ht).
  assert (bh 0 t) as Hb by (by rewrite Ht).
  pose proof (rep_fuel _ _ _ Hm Ha) as Hf.
  destruct (insert_color_loop_eq (rb_fuel m) 0 k t m) as (m' & Heq & Hrep & Hoff); [done..|].
  exists m'. split_and!; [|done|by eapply ins_up_RBT| |done].
  - apply tree_rep_ctx in Hm as (root & h & -> & Hrt & _).
    unfold hev_rbtree_insert_color. erewrite bind_Some by done.
    rewrite Ht in Hrt. simpl in Hrt. destruct Hrt as [Hx _].
    erewrite bind_Some by (by eapply red_parent_eq). done.
  - rewrite ins_up_inorder by (by rewrite Ht). by rewrite Ht.
Qed.
