(* ===== verification/RBErase.v ===== *)
(** * Correctness of hev_rbtree_erase

    Unlinking a node and the rebalancing loop compute the functional [erase_at]
    and [del_up]: no bad dereference, termination, the in-order sequence loses
    exactly the erased node, and the red-black invariant is restored. *)

From S2P Require Import Prelude RBTree RBModel RBRep.

(** ** The two mirror halves of the loop body as one *)

(** Case 4: rotation at the parent. *)
Definition erase_tail (d : dir) (parent tmp1 sibling : Z) : RB (option (Z * Z)) :=
  let* tmp2 := get_child d sibling in
  set_child (opp d) parent tmp2;;
  set_child d sibling parent;;
  hev_rbtree_node_set_parent_color tmp1 sibling HEV_RBTREE_BLACK;;
  (when (negb (tmp2 =? NULL)) do hev_rbtree_node_set_parent tmp2 parent);;
  hev_rbtree_rotate_set_parents parent sibling HEV_RBTREE_BLACK;;
  ret None.

(** Cases 2 to 4: the sibling is black. *)
Definition erase_rest (d : dir) (parent sibling : Z) : RB (option (Z * Z)) :=
  let* tmp1 := get_child (opp d) sibling in
  let* b1 := null_or_black tmp1 in
  let* tmp2 := (if b1 then get_child d sibling else ret NULL) in
  let* b2 := (if b1 then null_or_black tmp2 else ret false) in
  if b1 && b2 then
    hev_rbtree_node_set_parent_color sibling parent HEV_RBTREE_RED;;
    let* pred := hev_rbtree_node_is_red parent in
    if pred then
      hev_rbtree_node_set_black parent;; ret None
    else
      let node := parent in
      let* parent := hev_rbtree_node_parent node in
      ret (if negb (parent =? NULL) then Some (node, parent) else None)
  else
  let* (tmp1, sibling) :=
    (if b1 then
       let* tmp1 := get_child (opp d) tmp2 in
       set_child d sibling tmp1;;
       set_child (opp d) tmp2 sibling;;
       set_child (opp d) parent tmp2;;
       (when (negb (tmp1 =? NULL)) do
          hev_rbtree_node_set_parent_color tmp1 sibling HEV_RBTREE_BLACK);;
       ret (sibling, tmp2)
     else ret (tmp1, sibling)) in
  erase_tail d parent tmp1 sibling.

Definition erase_side (d : dir) (parent sibling : Z) : RB (option (Z * Z)) :=
  let* red := hev_rbtree_node_is_red sibling in
  let* sibling :=
    (if red then
       let* tmp1 := get_child d sibling in
       set_child (opp d) parent tmp1;;
       set_child d sibling parent;;
       hev_rbtree_node_set_parent_color tmp1 parent HEV_RBTREE_BLACK;;
       hev_rbtree_rotate_set_parents parent sibling HEV_RBTREE_RED;;
       ret tmp1
     else ret sibling) in
  erase_rest d parent sibling.

Lemma erase_color_body_sides node parent :
  erase_color_body node parent =
  let* sibling := get_right parent in
  if negb (node =? sibling) then erase_side L parent sibling
  else let* sibling := get_left parent in erase_side R parent sibling.
Proof. reflexivity. Qed.

(** ** Case 4 *)

Lemma erase_tail_eq root h k cp d t p near q far w pcq q1 q2 :
  h !! p = Some (mknd (pack (par k) cp) d (ptr t) w) ->
  h !! q = Some (mknd pcq d (ptr near) (ptr far)) ->
  rep h p t -> rep h q1 near -> Z.land q1 3 = 0 -> rep h q2 far -> far <> E ->
  repc root h k p ->
  addrs_ok (inorder (plug k (mk d cp (mk d Black t p near) q far))) ->
  exists m', erase_tail d p (ptr far) q (RBMem root h) = Some (None, m') /\
    tree_rep m' (plug k (mk d cp (mk d Black t p near) q (recolor Black far))) /\
    same_off (inorder (plug k (mk d cp (mk d Black t p near) q far))) h (rb_nodes m').
Proof.
  intros Hp Hq Ht Hnear Hq1 Hfar Hne Hk Ha. addrs_split.
  unfold erase_tail. rb_step get_child_eq. rb_step set_other_eq. rb_step set_child_eq. name_heap h1.
  edestruct (adopt_color root h1 q2 q Black far) as (h2 & Heq & Hfar2 & Hoff2);
    [by do 2 (apply rep_insert; [dj|])|done|].
  rewrite okp_tree_eqb, bool_decide_false in Heq by done. simpl in Heq.
  erewrite bind_Some by exact Heq. clear Heq.
  edestruct (adopt_parent root h2 q1 p near) as (h3 & Heq & Hnear3 & Hoff3); [|done..|].
  { eapply rep_same; [|done]. intros y Hy. rewrite Hoff2 by dj. subst h1. by rewrite !lookup_insert_ne by dj. }
  erewrite bind_Some by exact Heq. clear Heq.
  assert (forall y, y <> p -> y <> q -> y ∉ inorder far -> y ∉ inorder near -> h3 !! y = h !! y) as Hoff.
  { intros y ????. rewrite Hoff3, Hoff2 by done. subst h1. by rewrite !lookup_insert_ne by dj. }
  edestruct (rotate_eq root h3 k cp d (ptr t) (ptr near) pcq d p (ptr far) p q Black)
    as (root' & h4 & Heq & Hp4 & Hq4 & Hk4 & Hoff4);
    [rewrite Hoff3, Hoff2 by dj; subst h1; by look|rewrite Hoff3, Hoff2 by dj; subst h1; by look|..]; try done; try dj.
  { eapply repc_same; [|done]. intros y Hy. apply Hoff; dj. }
  erewrite bind_Some by exact Heq. eexists. split; [done|]. split.
  - apply tree_rep_plug. rewrite !rep_mk, !ptr_mk, ptr_recolor. simpl. split_and!; try done.
    + eapply rep_same; [|done]. intros y Hy. rewrite Hoff4, Hoff; dj.
    + eapply rep_same; [|done]. intros y Hy. rewrite Hoff4; dj.
    + eapply rep_same; [|done]. intros y Hy. rewrite inorder_recolor in Hy. rewrite Hoff4, Hoff3; dj.
  - intros y Hy. addrs_split. rewrite Hoff4, Hoff; dj.
Qed.

(** ** Cases 2 to 4: the sibling is black *)

Lemma null_or_black_eq root h p t :
  rep h p t -> addrs_ok (inorder t) -> Z.land p 3 = 0 ->
  null_or_black (ptr t) (RBMem root h) = Some (bool_decide (tree_color t = Black), RBMem root h).
Proof.
  intros Hr Ha Hp. unfold null_or_black. rewrite okp_tree_eqb by done.
  destruct t as [|c l x r]; [done|]. rewrite bool_decide_false by done.
  destruct Hr as [Hx _]. by eapply is_black_eq.
Qed.

(** The tests that open the black-sibling cases. *)
Lemma erase_rest_tests {A} (f : Z -> bool -> Z -> bool -> RB A) root h d q near far pcq :
  h !! q = Some (mknd pcq d (ptr near) (ptr far)) ->
  rep h q near -> rep h q far -> addrs_ok (inorder near) -> addrs_ok (inorder far) ->
  Z.land q 3 = 0 ->
  (let* tmp1 := get_child (opp d) q in
   let* b1 := null_or_black tmp1 in
   let* tmp2 := (if b1 then get_child d q else ret NULL) in
   let* b2 := (if b1 then null_or_black tmp2 else ret false) in
   f tmp1 b1 tmp2 b2) (RBMem root h) =
  match tree_color far with
  | Red => f (ptr far) false NULL false (RBMem root h)
  | Black => f (ptr far) true (ptr near) (bool_decide (tree_color near = Black)) (RBMem root h)
  end.
Proof.
  intros Hq Hn Hf Han Haf Hq3. rb_step get_other_eq.
  erewrite bind_Some by (by eapply null_or_black_eq).
  destruct (tree_color far); simpl; [done|].
  rb_step get_child_eq. by erewrite bind_Some by (by eapply null_or_black_eq).
Qed.

Lemma erase_rest_flip root h k cp d t p near q far :
  tree_color near = Black -> tree_color far = Black ->
  rep h p t -> repc root h (Fr d cp p (mk d Black near q far) :: k) (ptr t) ->
  addrs_ok (inorder (plug k (mk d cp t p (mk d Black near q far)))) ->
  exists m', erase_rest d p q (RBMem root h) =
      Some (match cp with
            | Red => None
            | Black => if negb (par k =? NULL) then Some (p, par k) else None
            end, m') /\
    tree_rep m' (plug k (mk d Black t p (mk d Red near q far))) /\
    same_off (inorder (plug k (mk d cp t p (mk d Black near q far)))) h (rb_nodes m').
Proof.
  intros Hcn Hcf Ht (Hp & Hs & Hk) Ha. addrs_split.
  rewrite rep_mk in Hs. destruct Hs as (Hq & Hn & Hf). rewrite ptr_mk in Hp.
  unfold erase_rest. rewrite (erase_rest_tests _ root h d q near far (pack p Black)); try done; try okl.
  rewrite Hcf, Hcn. simpl.
  erewrite bind_Some by (eapply set_parent_color_eq with (c := Red); look). name_heap h1.
  assert (h1 !! p = Some (mknd (pack (par k) cp) d (ptr t) q)) as Hp1 by (subst h1; look).
  rb_step is_red_eq. destruct cp; simpl.
  - rb_step set_black_eq. eexists. split; [done|]. split.
    + apply tree_rep_plug. rewrite !rep_mk, !ptr_mk. simpl. subst h1.
      split_and!; try (by look); try by do 2 (apply rep_insert; [dj|]).
      by do 2 (apply repc_insert; [dj|]).
    + intros y Hy. addrs_split. simpl. subst h1. by rewrite !lookup_insert_ne by dj.
  - rb_step node_parent_eq. eexists. split; [done|]. split.
    + apply tree_rep_plug. rewrite !rep_mk, !ptr_mk. simpl. subst h1.
      split_and!; try (by look); try by (apply rep_insert; [dj|]).
      by apply repc_insert; [dj|].
    + intros y Hy. addrs_split. simpl. subst h1. by rewrite !lookup_insert_ne by dj.
Qed.

Lemma inorder_rot d c1 c2 c3 c4 t p near q far :
  inorder (mk d c1 (mk d c2 t p near) q far) = inorder (mk d c3 t p (mk d c4 near q far)).
Proof. destruct d; simpl; rewrite <-?app_assoc; done. Qed.

(** Case 3 (a red nephew on the near side is first rotated up), then case 4. *)
Lemma erase_rest_rotate root h k cp d t p near q far :
  all_black (mk d Black near q far) = false -> nored near ->
  rep h p t -> repc root h (Fr d cp p (mk d Black near q far) :: k) (ptr t) ->
  addrs_ok (inorder (plug k (mk d cp t p (mk d Black near q far)))) ->
  exists m', erase_rest d p q (RBMem root h) = Some (None, m') /\
    tree_rep m' (plug k (del_black d cp t p (mk d Black near q far))) /\
    same_off (inorder (plug k (mk d cp t p (mk d Black near q far)))) h (rb_nodes m').
Proof.
  intros Hab Hnn Ht (Hp & Hs & Hk) Ha.
  assert (child d (mk d Black near q far) = near /\ child (opp d) (mk d Black near q far) = far)
    as [Hcd Hco] by (by destruct d).
  pose proof (all_black_false _ d Hab) as Hred. rewrite Hcd, Hco in Hred.
  unfold del_black. rewrite Hcd, Hco, ptr_mk.
  rewrite rep_mk in Hs. destruct Hs as (Hq & Hn & Hf). rewrite ptr_mk in Hp.
  assert (addrs_ok (inorder (plug k (mk d cp (mk d Black t p near) q far)))) as Ha1.
  { revert Ha. by rewrite !inorder_plug, (inorder_rot d cp Black cp Black). }
  revert Ha1. addrs_split. intros Ha1.
  unfold erase_rest. rewrite (erase_rest_tests _ root h d q near far (pack p Black)); try done; try okl.
  destruct (tree_color far) eqn:Hcf.
  - simpl. rewrite bind_ret.
    edestruct (erase_tail_eq root h k cp d t p near q far) as (m' & Heq & Hrep & Hoff); try done; try okl.
    + by apply tree_color_red_nonempty.
    + eexists. split; [done|]. split; [done|]. revert Hoff. by rewrite !inorder_plug, (inorder_rot d cp Black cp Black).
  - specialize (Hred eq_refl). rewrite bool_decide_false by (by rewrite Hred). simpl.
    pose proof (mk_child d near) as Hmk. rewrite Hred in Hmk.
    specialize (Hmk (tree_color_red_nonempty _ Hred)).
    destruct (nored_red_children d near Hnn Hred) as [Hca _].
    destruct (nored_red_children (opp d) near Hnn Hred) as [Hcb _].
    generalize dependent (child d near). intros a. generalize dependent (child (opp d) near). intros b.
    generalize dependent (ptr near). intros y. intros. subst near.
    assert (addrs_ok (inorder (plug k (mk d cp (mk d Black t p a) y (mk d Black b q far))))) as Ha2.
    { revert Ha1. rewrite !inorder_plug, !inorder_mk.
      destruct d; by repeat (simpl; rewrite <-!app_assoc). }
    clear Ha1. revert Ha2.
    rewrite rep_mk in Hn. destruct Hn as (Hy & Hra & Hrb). addrs_split. intros Ha2.
    unfold bind at 1.
    rb_step get_other_eq. rb_step set_child_eq. rb_step set_other_eq. rb_step set_other_eq. name_heap h1.
    edestruct (adopt_color root h1 y q Black b) as (h2 & Heq & Hb2 & Hoff2);
      [subst h1; by do 3 (apply rep_insert; [dj|])|done|].
    rewrite <-Hcb, recolor_same in Hb2.
    erewrite bind_Some by exact Heq. clear Heq. unfold ret at 1. simpl.
    assert (forall z, z <> p -> z <> q -> z <> y -> z ∉ inorder b -> h2 !! z = h !! z) as Hoff.
    { intros z ????. rewrite Hoff2 by done. subst h1. by look. }
    edestruct (erase_tail_eq root h2 k cp d t p a y (mk d Black b q far))
      as (m' & Heq & Hrep & Hoff3).
    + rewrite Hoff2 by dj. subst h1. by look.
    + rewrite ptr_mk, Hoff2 by dj. subst h1. by look.
    + eapply rep_same; [|done]. intros z Hz. apply Hoff; dj.
    + eapply rep_same; [|done]. intros z Hz. apply Hoff; dj.
    + okl.
    + rewrite rep_mk. split_and!.
      * rewrite Hoff2 by dj. subst h1. by look.
      * done.
      * eapply rep_same; [|done]. intros z Hz. apply Hoff; dj.
    + by destruct d.
    + eapply repc_same; [|done]. intros z Hz. apply Hoff; dj.
    + done.
    + rewrite ptr_mk in Heq. eexists. split; [done|]. split.
      * revert Hrep. by destruct d.
      * intros z Hz. rewrite Hoff3.
        -- addrs_split. apply Hoff; dj.
        -- addrs_split. dj.
Qed.

(** ** Case 1: a red sibling is rotated up *)

Lemma erase_side_red root h k cp d t p near q far :
  near <> E -> tree_color near = Black ->
  rep h p t -> repc root h (Fr d cp p (mk d Red near q far) :: k) (ptr t) ->
  addrs_ok (inorder (plug k (mk d cp t p (mk d Red near q far)))) ->
  exists m', erase_side d p q (RBMem root h) = erase_rest d p (ptr near) m' /\
    tree_rep m' (plug (Fr d Red p near :: Fr d cp q far :: k) t) /\
    same_off (inorder (plug k (mk d cp t p (mk d Red near q far)))) h (rb_nodes m').
Proof.
  intros Hne Hcn Ht (Hp & Hs & Hk) Ha. addrs_split.
  rewrite rep_mk in Hs. destruct Hs as (Hq & Hn & Hf). rewrite ptr_mk in Hp.
  unfold erase_side. rb_step is_red_eq. simpl. unfold bind at 1.
  rb_step get_child_eq. rb_step set_other_eq. rb_step set_child_eq. name_heap h1.
  edestruct (adopt_color root h1 q p Black near) as (h2 & Heq & Hn2 & Hoff2);
    [subst h1; by do 2 (apply rep_insert; [dj|])|done|].
  rewrite okp_tree_eqb, bool_decide_false in Heq by done. simpl in Heq.
  rewrite <-Hcn, recolor_same in Hn2.
  erewrite bind_Some by exact Heq. clear Heq.
  assert (forall z, z <> p -> z <> q -> z ∉ inorder near -> h2 !! z = h !! z) as Hoff.
  { intros z ???. rewrite Hoff2 by done. subst h1. by look. }
  edestruct (rotate_eq root h2 k cp d (ptr t) (ptr near) (pack p Red) d p (ptr far) p q Red)
    as (root' & h3 & Heq & Hp3 & Hq3 & Hk3 & Hoff3);
    [rewrite Hoff2 by dj; subst h1; by look|rewrite Hoff2 by dj; subst h1; by look|..]; try done; try dj.
  { eapply repc_same; [|done]. intros y Hy. apply Hoff; dj. }
  erewrite bind_Some by exact Heq. unfold ret at 1. eexists. split; [done|]. split.
  - apply tree_rep_plug. rewrite !rep_mk, !ptr_mk. simpl. split_and!; try done.
    + eapply rep_same; [|done]. intros y Hy. rewrite Hoff3, Hoff; dj.
    + eapply rep_same; [|done]. intros y Hy. rewrite Hoff3; dj.
    + eapply rep_same; [|done]. intros y Hy. rewrite Hoff3, Hoff; dj.
  - intros y Hy. addrs_split. simpl. rewrite Hoff3, Hoff; dj.
Qed.

Lemma erase_side_black root h p d s :
  s <> E -> tree_color s = Black -> rep h p s -> Z.land p 3 = 0 ->
  erase_side d p (ptr s) (RBMem root h) = erase_rest d p (ptr s) (RBMem root h).
Proof.
  intros Hne Hc Hs Hp. destruct s as [|c l x r]; [done|]. simpl in Hc. subst c.
  destruct Hs as (Hx & _). unfold erase_side. simpl. by rb_step is_red_eq.
Qed.

(** The loop body finds the sibling of a proper frame. *)
Lemma erase_color_body_eq root h k cp d t p s :
  s <> E -> repc root h (Fr d cp p s :: k) (ptr t) ->
  addrs_ok (inorder (plug k (mk d cp t p s))) ->
  erase_color_body (ptr t) p (RBMem root h) = erase_side d p (ptr s) (RBMem root h).
Proof.
  intros Hne (Hp & _) Ha. addrs_split. rewrite erase_color_body_sides.
  assert (ptr t <> ptr s) as Hneq.
  { pose proof (ptr_okp s ltac:(done) Hne) as Hok. pose proof (ptr_in s Hne).
    apply not_eq_sym, ptr_ne; [done|dj]. }
  destruct d.
  - erewrite bind_Some by (by eapply (get_other_eq L)).
    by rewrite (proj2 (Z.eqb_neq _ _) Hneq).
  - erewrite bind_Some by (by eapply (get_child_eq R)). rewrite Z.eqb_refl. simpl.
    by erewrite bind_Some by (by eapply (get_other_eq R)).
Qed.

(** ** The loop *)

Lemma erase_rest_eq root h k cp d t p s :
  s <> E -> tree_color s = Black -> nored s ->
  rep h p t -> repc root h (Fr d cp p s :: k) (ptr t) ->
  addrs_ok (inorder (plug k (mk d cp t p s))) ->
  exists m', erase_rest d p (ptr s) (RBMem root h) =
      Some (match cp with
            | Black => if all_black s && negb (par k =? NULL) then Some (p, par k) else None
            | Red => None
            end, m') /\
    tree_rep m' (plug k (if all_black s then mk d Black t p (recolor Red s)
                         else del_black d cp t p s)) /\
    same_off (inorder (plug k (mk d cp t p s))) h (rb_nodes m').
Proof.
  intros Hne Hc Hn Ht Hctx Ha.
  assert (exists near far, s = mk d Black near (ptr s) far) as (near & far & Hmk).
  { rewrite <-Hc. eauto using eq_sym, mk_child. }
  generalize dependent (ptr s). intros q ->. apply nored_mk in Hn as (_ & Hnn & Hnf).
  destruct (all_black (mk d Black near q far)) eqn:Hab.
  - pose proof (proj1 (all_black_spec _) Hab) as Hbl.
    edestruct (erase_rest_flip root h k cp d t p near q far) as (m' & Heq & Hrep & Hoff); try done.
    + specialize (Hbl d). by destruct d.
    + specialize (Hbl (opp d)). by destruct d.
    + exists m'. split; [exact Heq|]. split; [|done]. revert Hrep. by destruct d.
  - edestruct (erase_rest_rotate root h k cp d t p near q far) as (m' & Heq & Hrep & Hoff); try done.
    exists m'. by destruct cp.
Qed.

Lemma par_null k : addrs_ok (cptrs k) -> (par k =? NULL) = bool_decide (k = []).
Proof.
  destruct k as [|[d c x s] k]; intros Ha; [done|]. addrs_split.
  rewrite bool_decide_false by done. by apply okp_eqb.
Qed.

(** One turn: either the tree is [del_up] already, or the shortage has moved up
    by one frame. *)
Lemma erase_color_body_step root h n k cp d t p s :
  cok (S n) (Fr d cp p s :: k) -> rep h p t -> repc root h (Fr d cp p s :: k) (ptr t) ->
  addrs_ok (inorder (plug k (mk d cp t p s))) ->
  exists r m', erase_color_body (ptr t) p (RBMem root h) = Some (r, m') /\
    same_off (inorder (plug k (mk d cp t p s))) h (rb_nodes m') /\
    match r with
    | None => tree_rep m' (del_up (Fr d cp p s :: k) t)
    | Some (node, parent) =>
      let t' := mk d Black t p (recolor Red s) in
      node = p /\ parent = par k /\ k <> [] /\ cok (S (S n)) k /\
      tree_rep m' (plug k t') /\ del_up (Fr d cp p s :: k) t = del_up k t'
    end.
Proof.
  intros Hk Ht Hctx Ha. destruct (cok_sib _ _ _ _ _ _ Hk) as [Hs Hns].
  assert (addrs_ok (cptrs k)) as Hak by (apply addrs_plug in Ha; tauto).
  destruct (tree_color s) eqn:Hc.
  - pose proof (tree_color_red_nonempty _ Hc) as Hne.
    pose proof (bh_red_child _ d _ Hs Hc) as Hb.
    destruct (nored_red_children d s Hns Hc) as [Hcn Hnn].
    destruct (bh_black_child n d _ Hb Hcn) as [_ Hne2].
    pose proof (mk_child d s Hne) as Hmk. rewrite Hc in Hmk.
    assert (inorder (plug k (mk d cp t p s)) = inorder
      (plug k (mk d cp (mk d Red t p (child d s)) (ptr s) (child (opp d) s)))) as Hin.
    { rewrite !inorder_plug, (inorder_rot d cp Red cp Red). by rewrite Hmk. }
    rewrite (erase_color_body_eq _ _ k cp d t p s) by done.
    edestruct (erase_side_red root h k cp d t p (child d s) (ptr s) (child (opp d) s))
      as (m1 & -> & Hm1 & Hoff1); try (by rewrite ?Hmk).
    rewrite Hmk in Hoff1. apply tree_rep_ctx in Hm1 as (root1 & h1 & -> & Ht1 & Hctx1).
    destruct (erase_rest_eq root1 h1 (Fr d cp (ptr s) (child (opp d) s) :: k) Red d t p (child d s))
      as (m2 & -> & Hm2 & Hoff2); try done.
    + simpl. by rewrite <-Hin.
    + eexists _, m2. split; [done|]. split.
      * eapply same_off_trans; [exact Hoff1|exact Hoff2|]. intros y. simpl. by rewrite <-Hin.
      * simpl in *. by rewrite Hc.
  - destruct (bh_black_child n d s Hs Hc) as [_ Hne].
    rewrite (erase_color_body_eq _ _ k cp d t p s) by done.
    rewrite erase_side_black; [|done..|apply Hctx|].
    2:{ apply addrs_plug in Ha. destruct Ha as (Ha & _). apply addrs_mk in Ha. apply Ha. }
    destruct (erase_rest_eq root h k cp d t p s) as (m2 & Heq & Hm2 & Hoff2); try done.
    rewrite Heq. eexists _, m2. split; [done|]. split; [done|].
    rewrite par_null by done. simpl. rewrite Hc.
    destruct cp, (all_black s); simpl; try done. case_bool_decide as Hk0; simpl.
    + by subst k.
    + split_and!; try done. apply Hk.
Qed.

Lemma erase_color_loop_eq fuel n k t m :
  (length k < fuel)%nat -> k <> [] -> cok (S n) k ->
  tree_rep m (plug k t) -> addrs_ok (inorder (plug k t)) ->
  exists m', erase_color_loop fuel (ptr t) (par k) m = Some (tt, m') /\
    tree_rep m' (del_up k t) /\ same_off (inorder (plug k t)) (rb_nodes m) (rb_nodes m').
Proof.
  revert n k t m. induction fuel as [|fuel IH]; intros n k t m Hf Hk0 Hk Hm Ha; [lia|].
  destruct k as [|[d cp p s] k]; [done|]. clear Hk0.
  apply tree_rep_ctx in Hm as (root & h & -> & Ht & Hctx).
  destruct (erase_color_body_step root h n k cp d t p s)
    as (r & m' & Heq & Hoff & Hr); try done.
  cbn [erase_color_loop par f_x]. erewrite bind_Some by done.
  destruct r as [[node parent]|]; [|by eauto].
  destruct Hr as (-> & -> & Hk0 & Hk' & Hm' & ->).
  destruct (IH (S n) k (mk d Black t p (recolor Red s)) m') as (m2 & Heq2 & Hm2 & Hoff2); try done.
  - simpl in Hf. lia.
  - revert Ha. simpl. by rewrite !inorder_plug, !inorder_mk, inorder_recolor.
  - rewrite ptr_mk in Heq2. exists m2. split_and!; [done..|].
    eapply same_off_trans; [done..|]. intros y.
    simpl. by rewrite !inorder_plug, !inorder_mk, inorder_recolor.
Qed.

(** ** The functional counterpart of unlinking *)

(** The leftmost node under [t], with the frames above it inside [t]. *)
Fixpoint min_zip (t : tree) (k : ctx) : ctx * (color * Z * tree) :=
  match t with
  | E => (k, (Black, NULL, E))
  | T c l x r =>
    match l with
    | E => (k, (c, x, r))
    | _ => min_zip l (Fr L c x r :: k)
    end
  end.

(** Unlinking [T c l z r] under [k]: whether the hole is one black node short,
    the context of the hole and the tree in it. *)
Definition unlink (k : ctx) (c : color) (l r : tree) : bool * ctx * tree :=
  match l, r with
  | E, E => (bool_decide (c = Black), k, E)
  | E, _ => (false, k, recolor c r)
  | _, E => (false, k, recolor c l)
  | _, _ =>
    let '(kr, (cs, s, rs)) := min_zip r [] in
    (bool_decide (rs = E /\ cs = Black), kr ++ Fr R c s l :: k, recolor Black rs)
  end.

Definition erase_at (k : ctx) (c : color) (l r : tree) : tree :=
  let '(short, k', t) := unlink k c l r in
  if short then del_up k' t else plug k' t.

Lemma min_zip_app t k :
  min_zip t k = let '(kr, s) := min_zip t [] in (kr ++ k, s).
Proof.
  revert k. induction t as [|c l IHl x r IHr]; intros k; simpl; [done|].
  destruct l as [|c' l' x' r']; [done|].
  rewrite IHl, (IHl [Fr L c x r]). destruct (min_zip (T c' l' x' r') []).
  by rewrite <-app_assoc.
Qed.

Lemma min_zip_plug t k kr cs s rs :
  t <> E -> min_zip t k = (kr, (cs, s, rs)) -> plug kr (T cs E s rs) = plug k t.
Proof.
  revert k. induction t as [|c l IHl x r IHr]; intros k Hne; simpl; [done|].
  destruct l as [|c' l' x' r']; [by intros [= -> -> -> ->]|].
  intros H. by apply IHl in H.
Qed.

(** ** Inner contexts *)

(** [repk h k q p]: the frames of [k] with [q] in the hole, hanging under [p]. *)
Definition parp (k : ctx) (p : Z) : Z := match k with [] => p | f :: _ => f_x f end.

Fixpoint rootp (k : ctx) (q : Z) : Z :=
  match k with [] => q | f :: k => rootp k (f_x f) end.

Fixpoint repk (h : gmap Z rbnode) (k : ctx) (q p : Z) : Prop :=
  match k with
  | [] => True
  | Fr d c x s :: k =>
    h !! x = Some (mknd (pack (parp k p) c) d q (ptr s)) /\ rep h x s /\ repk h k x p
  end.

Lemma rootp_plug k t : ptr (plug k t) = rootp k (ptr t).
Proof. revert t. induction k as [|[d c x s] k IH]; intros t; simpl; [done|]. by rewrite IH, ptr_mk. Qed.

Lemma rep_plug_in h p k t :
  rep h p (plug k t) <-> rep h (parp k p) t /\ repk h k (ptr t) p.
Proof.
  revert t. induction k as [|[d c x s] k IH]; intros t; simpl; [tauto|].
  rewrite IH, rep_mk, ptr_mk. tauto.
Qed.

Lemma parp_app k1 k2 : parp k1 (par k2) = par (k1 ++ k2).
Proof. by destruct k1. Qed.

Lemma repc_app root h k1 k2 q :
  repc root h (k1 ++ k2) q <-> repk h k1 q (par k2) /\ repc root h k2 (rootp k1 q).
Proof.
  revert q. induction k1 as [|[d c x s] k1 IH]; intros q; simpl; [tauto|].
  rewrite IH, parp_app. tauto.
Qed.

Lemma repk_same h h' k q p :
  (forall y, y ∈ cptrs k -> h' !! y = h !! y) -> repk h k q p -> repk h' k q p.
Proof.
  revert q. induction k as [|[d c x s] k IH]; intros q Hs; [done|].
  simpl. intros (Hx & Hsib & Hk). split_and!.
  - rewrite Hs; [done|]. apply cptrs_cons. auto.
  - eapply rep_same; [|done]. intros y Hy. apply Hs, cptrs_cons. auto.
  - apply IH; [|done]. intros y Hy. apply Hs, cptrs_cons. auto.
Qed.

(** A new parent for the outermost frame. *)
Lemma adopt_ctx root h k q p p' :
  repk h k q p -> k <> [] -> addrs_ok (cptrs k) -> Z.land p 3 = 0 ->
  exists h', hev_rbtree_node_set_parent (rootp k q) p' (RBMem root h) = Some (tt, RBMem root h') /\
    repk h' k q p' /\ same_off (cptrs k) h h'.
Proof.
  revert q. induction k as [|[d c x s] k IH]; intros q Hk Hne Ha Hp; [done|].
  destruct Hk as (Hx & Hs & Hk). addrs_split. destruct k as [|g k].
  - simpl in *. eexists. split; [by eapply set_parent_eq|]. split_and!.
    + apply lookup_insert_eq.
    + by apply rep_insert.
    + done.
    + intros y Hy. addrs_split. by rewrite lookup_insert_ne by dj.
  - destruct (IH x) as (h' & Heq & Hk' & Hoff); try done.
    exists h'. split; [done|]. split; [split_and!|].
    + by rewrite Hoff.
    + eapply rep_same; [|done]. intros y Hy. apply Hoff. dj.
    + done.
    + intros y Hy. addrs_split. apply Hoff. dj.
Qed.

(** ** Unlinking *)

Lemma erase_successor_eq fuel root h p k c l x r kr cs s rs :
  rep h p (T c l x r) -> l <> E -> addrs_ok (inorder (T c l x r)) ->
  min_zip (T c l x r) k = (kr, (cs, s, rs)) -> (length kr <= fuel + length k)%nat ->
  erase_successor fuel x (ptr l) (RBMem root h) = Some ((par kr, s), RBMem root h).
Proof.
  revert fuel p k c x r. induction l as [|c' l' IHl x' r' _];
    intros fuel p k c x r Hr Hne Ha Hz Hf; [done|].
  change (min_zip (T c' l' x' r') (Fr L c x r :: k) = (kr, (cs, s, rs))) in Hz.
  destruct Hr as (_ & (Hx' & Hl' & Hr') & _). addrs_split.
  destruct fuel as [|fuel].
  { rewrite min_zip_app in Hz. destruct (min_zip (T c' l' x' r') []).
    inversion Hz; subst. rewrite length_app in Hf. simpl in Hf. lia. }
  simpl. erewrite bind_Some by (by eapply (get_child_eq L)).
  rewrite okp_tree_eqb by done. case_bool_decide as Hl0; simpl.
  - subst l'. simpl in Hz. by inversion Hz; subst.
  - eapply (IHl fuel x (Fr L c x r :: k) c' x' r'); try done.
    + by apply (addrs_mk L).
    + simpl. lia.
Qed.

Lemma min_zip_dirs t k kr cs s rs d c x sib k2 :
  min_zip t k = (kr, (cs, s, rs)) -> (forall f, f ∈ k -> f_dir f = L) ->
  kr = Fr d c x sib :: k2 -> d = L.
Proof.
  revert k. induction t as [|c' l IHl x' r IHr]; intros k; simpl.
  - intros [= -> _ _ _] Hk ->. by specialize (Hk _ (list_elem_of_here _ _)).
  - destruct l as [|c'' l' x'' r'].
    + intros [= -> _ _ _] Hk ->. by specialize (Hk _ (list_elem_of_here _ _)).
    + intros H Hk. eapply IHl; [done|]. intros f Hf.
      apply elem_of_cons in Hf as [->|Hf]; auto.
Qed.

(** Taking the successor [s] out of the right subtree: it keeps its colour and
    parent word, its right child becomes the rest of that subtree. *)
Definition erase_detach (fuel : nat) (child : Z) : RB (Z * Z * Z) :=
  let successor := child in
  let* tmp := get_left child in
  if tmp =? NULL then
    let* child2 := get_right successor in
    ret (successor, successor, child2)
  else
    let* (parent, successor) := erase_successor fuel successor tmp in
    let* child2 := get_right successor in
    set_left parent child2;;
    set_right successor child;;
    hev_rbtree_node_set_parent child successor;;
    ret (parent, successor, child2).

Lemma erase_detach_eq fuel root h z r kr cs s rs :
  rep h z r -> r <> E -> Z.land z 3 = 0 -> addrs_ok (inorder r) ->
  min_zip r [] = (kr, (cs, s, rs)) -> (length kr <= fuel)%nat ->
  exists h' pc, erase_detach fuel (ptr r) (RBMem root h) = Some ((parp kr s, s, ptr rs), RBMem root h') /\
    repk h' kr (ptr rs) s /\
    h' !! s = Some (mknd (pack pc cs) L NULL (rootp kr (ptr rs))) /\ Z.land pc 3 = 0 /\
    rep h' s rs /\ same_off (inorder r) h h'.
Proof.
  intros Hr Hne Hz Ha Hm Hf. unfold erase_detach.
  pose proof (min_zip_plug _ _ _ _ _ _ Hne Hm) as Hpl. simpl in Hpl.
  destruct r as [|c l x rr]; [done|]. pose proof Hr as (Hx & _).
  simpl ptr. erewrite bind_Some by (by eapply (get_child_eq L)).
  assert (addrs_ok (inorder l)) as Hal by (by apply (addrs_mk L c) in Ha as (? & _)).
  rewrite okp_tree_eqb by done. case_bool_decide as Hl.
  - subst l. simpl in Hm. inversion Hm; subst. clear Hm Hpl. destruct Hr as (_ & _ & Hr).
    erewrite bind_Some by (by eapply (get_other_eq L)).
    eexists _, z. split; [done|]. simpl. split_and!; try done.
  - erewrite bind_Some by (eapply erase_successor_eq; [done..|simpl; lia]).
    assert (exists c1 x1 s1 k1, kr = Fr L c1 x1 s1 :: k1) as (c1 & x1 & s1 & k1 & ->).
    { destruct kr as [|[d c1 x1 s1] k1].
      - destruct l as [|c' l' x' r']; [done|].
        change (min_zip (T c' l' x' r') [Fr L c x rr] = ([], (cs, s, rs))) in Hm.
        rewrite min_zip_app in Hm. destruct (min_zip (T c' l' x' r') []) as [[] ?]; simplify_eq/=.
      - assert (d = L) as -> by (eapply min_zip_dirs; [exact Hm|set_solver|done]). eauto. }
    assert (x = rootp k1 x1) as Hroot.
    { change x with (ptr (T c l x rr)). rewrite <-Hpl, rootp_plug. done. }
    rewrite <-Hpl in Hr, Ha |- *. clear Hx Hal Hl Hm Hne.
    rewrite rep_plug_in in Hr. destruct Hr as [(Hs & _ & Hrs) (Hx1 & Hs1 & Hk1)].
    apply addrs_plug in Ha. addrs_split.
    erewrite bind_Some by (by eapply (get_other_eq L)).
    erewrite bind_Some by (eapply (set_child_eq L); look).
    erewrite bind_Some by (eapply (set_other_eq L); rewrite lookup_insert_ne by done; exact Hs). name_heap h1.
    edestruct (adopt_ctx root h1 (Fr L c1 x1 s1 :: k1) (ptr rs) z s) as (h2 & Heq & Hk2 & Hoff2); try done.
    { simpl. subst h1. split_and!.
      - look.
      - do 2 (apply rep_insert; [dj|]). done.
      - eapply repk_same; [|done]. intros y Hy. by rewrite !lookup_insert_ne by dj. }
    { by apply addrs_frame. }
    simpl in Heq. rewrite <-Hroot in Heq. erewrite bind_Some by exact Heq.
    eexists _, (par (Fr L c1 x1 s1 :: k1)). split; [done|]. split_and!; try done.
    + simpl. rewrite <-Hroot, Hoff2 by dj. subst h1. by look.
    + simpl. okl.
    + eapply rep_same; [|done]. intros y Hy. rewrite Hoff2 by dj. subst h1. by rewrite !lookup_insert_ne by dj.
    + intros y Hy. addrs_split. rewrite Hoff2 by dj. subst h1. simpl. by rewrite !lookup_insert_ne by dj.
Qed.

Lemma pc_black p c : Z.land p 3 = 0 -> _hev_rbtree_node_is_black (pack p c) = bool_decide (c = Black).
Proof.
  intros Hp. unfold _hev_rbtree_node_is_black, HEV_RBTREE_BLACK. rewrite (pack_color p c Hp). by destruct c.
Qed.

(** A child moves up into the place of its parent, with the parent's word. *)
Lemma adopt_pc root h p k c t :
  rep h p t -> t <> E -> addrs_ok (inorder t) ->
  exists h', set_pc (ptr t) (pack (par k) c) (RBMem root h) = Some (tt, RBMem root h') /\
    rep h' (par k) (recolor c t) /\ same_off (inorder t) h h'.
Proof.
  intros Hr Hne Ha. destruct (adopt_color root h p (par k) c t) as (h' & Heq & H1 & H2); try done.
  rewrite okp_tree_eqb, bool_decide_false in Heq by done. eauto.
Qed.

Lemma unlink_no_left root h k c z r :
  rep h (par k) (T c E z r) -> repc root h k z -> addrs_ok (inorder (plug k (T c E z r))) ->
  exists m', _hev_rbtree_erase z (RBMem root h) =
      Some (if bool_decide (r = E /\ c = Black) then par k else NULL, m') /\
    tree_rep m' (plug k (recolor c r)) /\
    same_off (inorder (plug k (T c E z r))) h (rb_nodes m').
Proof.
  intros (Hz & _ & Hr) Hk Ha. addrs_split. unfold _hev_rbtree_erase. erewrite bind_Some by done.
  erewrite bind_Some by (by eapply (get_other_eq L)).
  erewrite bind_Some by (by eapply (get_child_eq L)). simpl.
  rb_step get_pc_eq. unfold _hev_rbtree_node_parent. rewrite pack_parent by okl.
  destruct (change_child_eq root h k z (ptr r)) as (root' & h1 & Heq & Hk1 & Hoff1); try done.
  erewrite bind_Some by exact Heq. rewrite okp_tree_eqb by done. case_bool_decide as Hr0; simpl.
  - subst r. unfold ret. rewrite pc_black by okl. eexists. split; [|split].
    + f_equal. f_equal. destruct c; [by rewrite !bool_decide_false by naive_solver|].
      by rewrite !bool_decide_true.
    + apply tree_rep_plug. by split.
    + intros y Hy. addrs_split. apply Hoff1. dj.
  - destruct (adopt_pc root' h1 z k c r) as (h2 & Heq2 & Hr2 & Hoff2); try done.
    { eapply rep_same; [|done]. intros y Hy. apply Hoff1. dj. }
    erewrite bind_Some by exact Heq2. rewrite bool_decide_false by tauto.
    eexists. split; [done|]. split.
    + apply tree_rep_plug. split; [done|]. simpl. rewrite ptr_recolor.
      eapply repc_same; [|done]. intros y Hy. apply Hoff2. dj.
    + intros y Hy. addrs_split. simpl. rewrite Hoff2, Hoff1; dj.
Qed.

Lemma unlink_left_only root h k c l z :
  l <> E ->
  rep h (par k) (T c l z E) -> repc root h k z -> addrs_ok (inorder (plug k (T c l z E))) ->
  exists m', _hev_rbtree_erase z (RBMem root h) = Some (NULL, m') /\
    tree_rep m' (plug k (recolor c l)) /\
    same_off (inorder (plug k (T c l z E))) h (rb_nodes m').
Proof.
  intros Hne (Hz & Hl & _) Hk Ha. addrs_split. unfold _hev_rbtree_erase. erewrite bind_Some by done.
  erewrite bind_Some by (by eapply (get_other_eq L)).
  erewrite bind_Some by (by eapply (get_child_eq L)).
  rewrite okp_tree_eqb, bool_decide_false by done. simpl.
  rb_step get_pc_eq. unfold _hev_rbtree_node_parent. rewrite pack_parent by okl.
  destruct (adopt_pc root h z k c l) as (h1 & Heq1 & Hl1 & Hoff1); try done.
  erewrite bind_Some by exact Heq1.
  destruct (change_child_eq root h1 k z (ptr l)) as (root' & h2 & Heq & Hk2 & Hoff2); try done.
  { eapply repc_same; [|done]. intros y Hy. apply Hoff1. dj. }
  erewrite bind_Some by exact Heq. eexists. split; [done|]. split.
  - apply tree_rep_plug. rewrite ptr_recolor. split; [|done].
    eapply rep_same; [|done]. intros y Hy. rewrite inorder_recolor in Hy. apply Hoff2. dj.
  - intros y Hy. addrs_split. simpl. rewrite Hoff2, Hoff1; dj.
Qed.

(** The detached successor takes the place of the erased node. *)
Definition erase_relink (node parent successor child2 : Z) : RB Z :=
  let* tmp := get_left node in
  set_left successor tmp;;
  hev_rbtree_node_set_parent tmp successor;;
  let* pc := get_pc node in
  let tmp := _hev_rbtree_node_parent pc in
  hev_rbtree_change_child node successor tmp;;
  let* rebalance :=
    (if negb (child2 =? NULL) then
       hev_rbtree_node_set_parent_color child2 parent HEV_RBTREE_BLACK;;
       ret NULL
     else
       let* b := hev_rbtree_node_is_black successor in
       ret (if b then parent else NULL)) in
  set_pc successor pc;;
  ret rebalance.

Lemma erase_two_children m root h node l r pc :
  m = RBMem root h -> h !! node = Some (mknd pc L l r) -> l <> NULL -> r <> NULL ->
  _hev_rbtree_erase node m =
  (let* (parent, successor, child2) := erase_detach (rb_fuel m) r in
   erase_relink node parent successor child2) m.
Proof.
  intros -> Hn Hl Hr. unfold _hev_rbtree_erase. erewrite bind_Some by done.
  erewrite bind_Some by (by eapply (get_other_eq L)).
  erewrite bind_Some by (by eapply (get_child_eq L)).
  rewrite (proj2 (Z.eqb_neq l NULL)), (proj2 (Z.eqb_neq r NULL)) by done.
  unfold erase_detach. by rewrite bind_assoc.
Qed.

Lemma erase_relink_eq root h k c l z kr s rs pcr pcs cs :
  h !! z = Some (mknd (pack (par k) c) L (ptr l) pcr) -> l <> E -> rep h z l -> repc root h k z ->
  repk h kr (ptr rs) s -> h !! s = Some (mknd (pack pcs cs) L NULL (rootp kr (ptr rs))) ->
  Z.land pcs 3 = 0 -> rep h s rs ->
  addrs_ok (inorder (plug k (T c l z (plug kr (T cs E s rs))))) ->
  exists m', erase_relink z (parp kr s) s (ptr rs) (RBMem root h) =
      Some (if bool_decide (rs = E /\ cs = Black) then parp kr s else NULL, m') /\
    tree_rep m' (plug (kr ++ Fr R c s l :: k) (recolor Black rs)) /\
    same_off (inorder (plug k (T c l z (plug kr (T cs E s rs))))) h (rb_nodes m').
Proof.
  intros Hz Hne Hl Hk Hkr Hs Hpcs Hrs Ha. addrs_split. unfold erase_relink.
  erewrite bind_Some by (by eapply (get_child_eq L)).
  erewrite bind_Some by (by eapply (set_child_eq L)). name_heap h1.
  destruct (adopt_parent root h1 z s l) as (h2 & Heq2 & Hl2 & Hoff2); try done; try okl.
  { by apply rep_insert. }
  rewrite okp_tree_eqb, bool_decide_false in Heq2 by done. simpl in Heq2.
  erewrite bind_Some by exact Heq2.
  assert (forall y, y <> s -> y ∉ inorder l -> h2 !! y = h !! y) as Hoff21.
  { intros y ??. rewrite Hoff2 by done. subst h1. by look. }
  erewrite bind_Some by (eapply (get_pc_eq L); rewrite Hoff21 by dj; exact Hz).
  unfold _hev_rbtree_node_parent. rewrite pack_parent by okl.
  destruct (change_child_eq root h2 k z s) as (root3 & h3 & Heq3 & Hk3 & Hoff3); try done.
  { eapply repc_same; [|done]. intros y Hy. apply Hoff21; dj. }
  erewrite bind_Some by exact Heq3.
  assert (h3 !! s = Some (mknd (pack pcs cs) L (ptr l) (rootp kr (ptr rs)))) as Hs3.
  { rewrite Hoff3, Hoff2 by dj. subst h1. by look. }
  assert (exists h4, (if negb (ptr rs =? NULL) then
       hev_rbtree_node_set_parent_color (ptr rs) (parp kr s) HEV_RBTREE_BLACK;; ret NULL
     else let* b := hev_rbtree_node_is_black s in ret (if b then parp kr s else NULL)) (RBMem root3 h3) =
     Some (if bool_decide (rs = E /\ cs = Black) then parp kr s else NULL, RBMem root3 h4) /\
     rep h4 (parp kr s) (recolor Black rs) /\ same_off (inorder rs) h3 h4) as (h4 & Heq4 & Hrs4 & Hoff4).
  { destruct (adopt_color root3 h3 s (parp kr s) Black rs) as (h4 & Heq4 & Hrs4 & Hoff4); try done.
    - eapply rep_same; [|done]. intros y Hy. rewrite Hoff3, Hoff21; dj.
    - rewrite okp_tree_eqb in * by done. destruct (decide (rs = E)) as [->|Hne0].
      + exists h3. split; [|by split]. simpl. rb_step is_black_eq. unfold ret.
        destruct cs; [by rewrite !bool_decide_false by naive_solver|by rewrite !bool_decide_true].
      + exists h4. rewrite (bool_decide_false (_ /\ _)) by tauto. rewrite bool_decide_false in * by done.
        simpl in *. by erewrite bind_Some by exact Heq4. }
  erewrite bind_Some by exact Heq4.
  erewrite bind_Some by (eapply (set_pc_eq L); rewrite Hoff4 by dj; exact Hs3).
  eexists. split; [done|].
  assert (forall y, y <> s -> y ∉ inorder l -> y ∉ inorder rs -> y ∉ cptrs k -> h4 !! y = h !! y) as Hoff41.
  { intros y ????. by rewrite Hoff4, Hoff3, Hoff21. }
  split.
  - apply tree_rep_plug. rewrite <-parp_app, ptr_recolor. simpl. split; [|apply repc_app; simpl; split_and!].
    + apply rep_insert; [dj|done].
    + eapply repk_same; [|done]. intros y Hy. rewrite lookup_insert_ne by dj. apply Hoff41; dj.
    + rewrite lookup_insert_eq. by rewrite <-mknd_opp.
    + apply rep_insert; [dj|]. eapply rep_same; [|done]. intros y Hy. rewrite Hoff4, Hoff3; dj.
    + apply repc_insert; [dj|]. eapply repc_same; [|done]. intros y Hy. apply Hoff4. dj.
  - intros y Hy. addrs_split. simpl. rewrite lookup_insert_ne by dj. apply Hoff41; dj.
Qed.

Lemma parp_app_cons k1 d c s l k : parp k1 s = par (k1 ++ Fr d c s l :: k).
Proof. by destruct k1. Qed.

Lemma unlink_eq m k c l z r :
  tree_rep m (plug k (T c l z r)) -> addrs_ok (inorder (plug k (T c l z r))) ->
  let '(short, k', t) := unlink k c l r in
  exists m', _hev_rbtree_erase z m = Some (if short then par k' else NULL, m') /\
    tree_rep m' (plug k' t) /\
    same_off (inorder (plug k (T c l z r))) (rb_nodes m) (rb_nodes m').
Proof.
  intros Hm Ha. pose proof Hm as Hm0. apply tree_rep_ctx in Hm as (root & h & -> & Ht & Hk).
  destruct (decide (l = E)) as [->|Hl].
  - destruct (unlink_no_left root h k c z r) as (m' & Heq & Hrep & Hoff); try done.
    destruct r as [|cr lr xr rr]; simpl; exists m'; split_and!; try done.
    rewrite Heq. destruct c; [by rewrite !bool_decide_false by naive_solver|by rewrite !bool_decide_true].
  - destruct (decide (r = E)) as [->|Hr].
    + destruct (unlink_left_only root h k c l z) as (m' & Heq & Hrep & Hoff); try done.
      destruct l as [|cl ll xl rl]; [done|]. simpl. eauto.
    + destruct (min_zip r []) as [kr [[cs s] rs]] eqn:Hz.
      assert (unlink k c l r =
        (bool_decide (rs = E /\ cs = Black), kr ++ Fr R c s l :: k, recolor Black rs)) as ->.
      { destruct l, r; try done. unfold unlink. by rewrite Hz. }
      pose proof (min_zip_plug _ _ _ _ _ _ Hr Hz) as Hpl. simpl in Hpl.
      destruct Ht as (Hzz & Htl & Htr).
      assert (length kr <= rb_fuel (RBMem root h))%nat as Hfuel.
      { pose proof (rep_fuel (RBMem root h) (kr ++ Fr R c z l :: k) (T cs E s rs)) as Hf.
        rewrite plug_app, Hpl, length_app in Hf. simpl in Hf. specialize (Hf Hm0 Ha). lia. }
      rewrite <-Hpl in Ha. pose proof Ha as Ha'. revert Ha'. addrs_split. intros Ha'.
      assert (addrs_ok (inorder r)) as Har.
      { apply addrs_plug in Ha' as (Ha' & _). apply (addrs_mk L c) in Ha'. rewrite <-Hpl. apply Ha'. }
      destruct (erase_detach_eq (rb_fuel (RBMem root h)) root h z r kr cs s rs)
        as (h1 & pc & Heq1 & Hkr & Hs & Hpc & Hrs & Hoff1); try done; try okl.
      destruct (erase_relink_eq root h1 k c l z kr s rs (ptr r) pc cs)
        as (m' & Heq2 & Hrep & Hoff2); try done.
      * rewrite Hoff1; [done|]. rewrite <-Hpl. dj.
      * eapply rep_same; [|done]. intros y Hy. apply Hoff1. rewrite <-Hpl. dj.
      * eapply repc_same; [|done]. intros y Hy. apply Hoff1. rewrite <-Hpl. dj.
      * exists m'. split_and!; [|done|].
        -- rewrite (erase_two_children _ root h z (ptr l) (ptr r) (pack (par k) c)); try done.
           ++ erewrite bind_Some by exact Heq1. rewrite <-parp_app_cons. exact Heq2.
           ++ rewrite ptr_null; [done|]. by match goal with H : addrs_ok (inorder l) |- _ => apply H end.
           ++ by rewrite ptr_null by apply Har.
        -- intros y Hy. rewrite <-Hpl in Hy. rewrite Hoff2 by done.
           rewrite Hoff1; [done|]. rewrite <-Hpl. addrs_split. dj.
Qed.

(** ** The invariant *)

(** What [unlink] leaves: a tree that is one black node short at the hole, or a
    red-black tree. *)
Definition unlinked (short : bool) (k : ctx) (t : tree) : Prop :=
  if short then exists n, cok (S n) k /\ bh n t /\ nored t /\ tree_color t = Black
  else RBT (plug k t).

(** A node with at most one child. *)
Lemma unlinked_single k c d z r :
  RBT (plug k (mk d c E z r)) ->
  unlinked (bool_decide (r = E /\ c = Black)) k (recolor c r).
Proof.
  intros H. apply RBT_plug in H as (n & Hk & Hb & Hn & Hc).
  rewrite bh_mk in Hb. rewrite nored_mk in Hn. rewrite tree_color_mk in Hc. destruct Hn as (Hcc & _ & Hnr).
  destruct (decide (r = E)) as [->|Hr].
  - destruct c; simpl in Hb.
    + rewrite bool_decide_false by naive_solver. destruct Hb as [-> _].
      by apply (plug_RBT 0).
    + rewrite bool_decide_true by done. destruct n as [|n]; [done|]. destruct Hb as [-> _].
      by exists 0%nat.
  - rewrite bool_decide_false by tauto.
    assert (tree_color r = Red /\ c = Black /\ n = 1%nat /\ bh 0 r) as (Hcr & -> & -> & Hb0).
    { destruct c; [|destruct n as [|n]; [done|]]; destruct Hb as [Hb0 Hb]; simpl in Hb0; subst n;
        (destruct r as [|[] lr xr rr]; [done| |done]); [|done].
      by destruct (Hcc eq_refl). }
    apply (plug_RBT 1); auto using bh_recolor_black, nored_recolor_black.
    intros _. apply tree_color_recolor_black.
Qed.

Lemma cok_rename n k1 d c x y s k2 :
  cok n (k1 ++ Fr d c x s :: k2) -> cok n (k1 ++ Fr d c y s :: k2).
Proof.
  revert n. induction k1 as [|[d1 c1 x1 s1] k1 IH]; intros n; simpl; [done|].
  destruct c1.
  - intros (? & ? & ? & Ht & Hk). split_and!; auto. by destruct k1.
  - intros (? & ? & Hk). split_and!; auto.
Qed.

Lemma RBT_rename k1 d c x y s k2 t :
  RBT (plug (k1 ++ Fr d c x s :: k2) t) -> RBT (plug (k1 ++ Fr d c y s :: k2) t).
Proof.
  intros H. apply RBT_plug in H as (n & Hk & Hb & Hn & Hc).
  apply (plug_RBT n); auto; [by eapply cok_rename|]. by destruct k1.
Qed.

Lemma unlink_ok k c l z r :
  RBT (plug k (T c l z r)) ->
  let '(short, k', t) := unlink k c l r in unlinked short k' t.
Proof.
  intros H. destruct (decide (l = E)) as [->|Hl].
  - pose proof (unlinked_single k c L z r H) as Hu. destruct r as [|cr lr xr rr]; simpl; [|done].
    revert Hu. by destruct c.
  - destruct (decide (r = E)) as [->|Hr].
    + pose proof (unlinked_single k c R z l H) as Hu. destruct l as [|cl ll xl rl]; [done|]. exact Hu.
    + destruct (min_zip r []) as [kr [[cs s] rs]] eqn:Hz.
      pose proof (min_zip_plug _ _ _ _ _ _ Hr Hz) as Hpl. simpl in Hpl.
      assert (unlink k c l r =
        (bool_decide (rs = E /\ cs = Black), kr ++ Fr R c s l :: k, recolor Black rs)) as ->.
      { destruct l, r; try done. unfold unlink. by rewrite Hz. }
      assert (RBT (plug (kr ++ Fr R c s l :: k) (mk L cs E s rs))) as H'.
      { apply (RBT_rename _ _ _ z). rewrite plug_app. simpl. by rewrite Hpl. }
      pose proof (unlinked_single _ _ _ _ _ H') as Hu.
      destruct (decide (rs = E)) as [->|Hrs]; [done|].
      destruct cs; [|done].
      apply RBT_plug in H' as (n & _ & Hb & Hn & _). simpl in Hb, Hn.
      destruct Hb as [-> Hb], Hn as (Hcc & _). destruct (Hcc eq_refl) as [_ Hcr].
      destruct rs as [|[] ? ? ?]; done.
Qed.

Lemma before_app k1 k2 : before (k1 ++ k2) = before k2 ++ before k1.
Proof.
  induction k1 as [|[[] c x s] k1 IH]; simpl; [by rewrite app_nil_r|done|].
  by rewrite IH, <-app_assoc.
Qed.

Lemma after_app k1 k2 : after (k1 ++ k2) = after k1 ++ after k2.
Proof.
  induction k1 as [|[[] c x s] k1 IH]; simpl; [done| |done]. by rewrite IH, <-app_assoc.
Qed.

Lemma min_zip_before t k kr cs s rs : min_zip t k = (kr, (cs, s, rs)) -> before kr = before k.
Proof.
  revert k. induction t as [|c l IHl x r IHr]; intros k; simpl.
  - intros ?. by simplify_eq.
  - destruct l as [|c' l' x' r']; [intros ?; by simplify_eq|]. intros H. by apply IHl in H.
Qed.

Lemma unlink_inorder k c l r :
  let '(_, k', t) := unlink k c l r in
  before k' ++ inorder t ++ after k' = before k ++ inorder l ++ inorder r ++ after k.
Proof.
  destruct (decide (l = E)) as [->|Hl]; [by destruct r|].
  destruct (decide (r = E)) as [->|Hr]; [by destruct l|].
  destruct (min_zip r []) as [kr [[cs s] rs]] eqn:Hz.
  assert (unlink k c l r =
    (bool_decide (rs = E /\ cs = Black), kr ++ Fr R c s l :: k, recolor Black rs)) as ->.
  { destruct l, r; try done. unfold unlink. by rewrite Hz. }
  pose proof (min_zip_plug _ _ _ _ _ _ Hr Hz) as Hpl. simpl in Hpl. rewrite <-Hpl.
  pose proof (min_zip_before _ _ _ _ _ _ Hz) as Hb. simpl in Hb.
  rewrite before_app, after_app, Hb, inorder_recolor, inorder_plug, Hb. simpl.
  by rewrite app_nil_r, <-!app_assoc.
Qed.

Lemma erase_at_RBT k c l z r :
  RBT (plug k (T c l z r)) ->
  RBT (erase_at k c l r) /\
  inorder (erase_at k c l r) = before k ++ inorder l ++ inorder r ++ after k.
Proof.
  intros H. pose proof (unlink_ok _ _ _ _ _ H) as Hu. pose proof (unlink_inorder k c l r) as Hi.
  unfold erase_at. destruct (unlink k c l r) as [[short k'] t]. rewrite <-Hi.
  destruct short.
  - destruct Hu as (n & ? & ? & ? & ?). split; [by eapply del_up_RBT|by eapply del_up_inorder].
  - split; [done|apply inorder_plug].
Qed.

(** ** The whole routine *)

Lemma erase_correct m k c l z r :
  RBT (plug k (T c l z r)) ->
  tree_rep m (plug k (T c l z r)) -> addrs_ok (inorder (plug k (T c l z r))) ->
  exists m', hev_rbtree_erase z m = Some (tt, m') /\
    tree_rep m' (erase_at k c l r) /\ RBT (erase_at k c l r) /\
    inorder (erase_at k c l r) = before k ++ inorder l ++ inorder r ++ after k /\
    same_off (inorder (plug k (T c l z r))) (rb_nodes m) (rb_nodes m').
Proof.
  intros HR Hm Ha. destruct (erase_at_RBT _ _ _ _ _ HR) as [HR' Hi'].
  pose proof (unlink_eq m k c l z r Hm Ha) as He. pose proof (unlink_ok _ _ _ _ _ HR) as Hu.
  pose proof (unlink_inorder k c l r) as Hi.
  unfold erase_at in *. destruct (unlink k c l r) as [[short k'] t] eqn:Hul.
  destruct He as (m1 & Heq & Hm1 & Hoff).
  assert (forall y, y ∈ inorder (plug k' t) -> y ∈ inorder (plug k (T c l z r))) as Hin.
  { intros y. rewrite inorder_plug, Hi, inorder_plug. simpl. set_solver. }
  assert (addrs_ok (inorder (plug k' t))) as Ha'.
  { rewrite inorder_plug, Hi. revert Ha. rewrite inorder_plug. simpl.
    unfold addrs_ok. rewrite !Forall_app, !NoDup_app, Forall_cons, NoDup_cons. set_solver. }
  unfold hev_rbtree_erase. erewrite bind_Some by exact Heq.
  assert (addrs_ok (cptrs k')) as Hak by (by apply addrs_plug in Ha' as (_ & ? & _)).
  destruct short; [|simpl; eauto 10].
  rewrite par_null by done. destruct (decide (k' = [])) as [->|Hk'].
  - simpl in *. eauto 10.
  - rewrite bool_decide_false by done. simpl. destruct Hu as (n & Hk & Hb & Hn & Hc).
    assert (t = E) as ->.
    { revert Hul. unfold unlink. destruct l, r; try (by intros [=]).
      destruct (min_zip _ _) as [? [[? ?] rs]]. case_bool_decide as Hrs; [|by intros [=]].
      destruct Hrs as [-> _]. by intros [=]. }
    unfold _hev_rbtree_erase_color. erewrite bind_Some by done.
    destruct (erase_color_loop_eq (rb_fuel m1) n k' E m1) as (m2 & Heq2 & Hm2 & Hoff2); try done.
    { by eapply rep_fuel. }
    exists m2. split_and!; try done. by eapply same_off_trans.
Qed.
