(* ===== verification/RBSpec.v ===== *)
(** * The contract of hev-rbtree.c towards its clients

    The tree seen through its in-order sequence of node addresses: [rb_tree m xs]
    says that the heap [m] holds a red-black tree whose nodes are, in order,
    [xs].  Linking, erasing, replacing and walking are specified on that
    sequence, and so is the search loop that the clients of the tree write
    around [hev_rbtree_node_link]. *)

From stdpp Require Import sorting.
From S2P Require Import Prelude RBTree RBModel RBRep RBInsert RBErase.

Definition rb_tree (m : rbmem) (xs : list Z) : Prop :=
  exists t, tree_rep m t /\ RBT t /\ addrs_ok xs /\ inorder t = xs.

Definition link_of (k : ctx) : rblink :=
  match k with
  | [] => LinkRoot
  | Fr L _ x _ :: _ => LinkLeft x
  | Fr R _ x _ :: _ => LinkRight x
  end.

(** [parent] and [link] denote the leaf between [xs1] and [xs2]. *)
Definition insert_point (m : rbmem) (xs1 xs2 : list Z) (parent : Z) (link : rblink) : Prop :=
  exists k, tree_rep m (plug k E) /\ RBT (plug k E) /\ addrs_ok (xs1 ++ xs2) /\
    before k = xs1 /\ after k = xs2 /\ parent = par k /\ link = link_of k.

(** The empty tree. *)
Lemma rb_tree_empty h : rb_tree (RBMem NULL h) [].
Proof.
  exists E. split_and!; [done| |split; constructor|done]. split_and!; [done..|by exists 0%nat].
Qed.

(** The nodes of the tree are in the heap, and only they matter. *)
Lemma rb_tree_frame m m' xs :
  rb_tree m xs -> rb_root m' = rb_root m ->
  (forall y, y ∈ xs -> rb_nodes m' !! y = rb_nodes m !! y) -> rb_tree m' xs.
Proof.
  intros (t & [Hr Ht] & HR & Ha & <-) Hroot Hs. exists t. split_and!; try done.
  split; [by rewrite Hroot|]. by eapply rep_same.
Qed.

Lemma rb_tree_nodup m xs : rb_tree m xs -> NoDup xs.
Proof. by intros (t & _ & _ & [H _] & _). Qed.

Lemma rb_tree_okp m xs : rb_tree m xs -> Forall okp xs.
Proof. by intros (t & _ & _ & [_ H] & _). Qed.

(** ** Zippers from positions *)

Lemma zipper_of t k z :
  z ∈ inorder t -> exists k' c l r, plug k' (T c l z r) = plug k t.
Proof.
  revert k. induction t as [|c l IHl x r IHr]; intros k Hz; simpl in Hz; [set_solver|].
  apply elem_of_app in Hz as [Hz|Hz]; [|apply elem_of_cons in Hz as [->|Hz]].
  - by destruct (IHl (Fr L c x r :: k) Hz) as (k' & c' & l' & r' & Heq); eauto.
  - by exists k, c, l, r.
  - by destruct (IHr (Fr R c x l :: k) Hz) as (k' & c' & l' & r' & Heq); eauto.
Qed.

Lemma split_unique (xs1 xs2 ys1 ys2 : list Z) z :
  NoDup (xs1 ++ z :: xs2) -> xs1 ++ z :: xs2 = ys1 ++ z :: ys2 -> xs1 = ys1 /\ xs2 = ys2.
Proof.
  revert ys1. induction xs1 as [|x xs1 IH]; intros [|y ys1]; simpl; intros Hn Heq.
  - by inversion Heq.
  - inversion Heq; subst. apply NoDup_cons in Hn as [Hn _]. set_solver.
  - inversion Heq; subst. apply NoDup_cons in Hn as [Hn _]. set_solver.
  - inversion Heq; subst. apply NoDup_cons in Hn as [_ Hn]. by destruct (IH ys1) as [-> ->].
Qed.

Lemma rb_tree_at m xs1 z xs2 :
  rb_tree m (xs1 ++ z :: xs2) ->
  exists k c l r, tree_rep m (plug k (T c l z r)) /\ RBT (plug k (T c l z r)) /\
    addrs_ok (inorder (plug k (T c l z r))) /\
    xs1 = before k ++ inorder l /\ xs2 = inorder r ++ after k.
Proof.
  intros (t & Hm & HR & Ha & Hi).
  destruct (zipper_of t [] z) as (k & c & l & r & Heq); [rewrite Hi; set_solver|].
  simpl in Heq. subst t. exists k, c, l, r. rewrite Hi. split_and!; try done;
    rewrite inorder_plug in Hi; simpl in Hi; rewrite <-app_assoc in Hi; simpl in Hi;
    rewrite app_assoc in Hi; destruct Ha as [Ha _]; by destruct (split_unique _ _ _ _ _ Ha (eq_sym Hi)).
Qed.

(** ** Insertion and erasure *)

Lemma write_link_eq root h k q n :
  repc root h k q -> addrs_ok (cptrs k) ->
  exists root' h', write_link (link_of k) n (RBMem root h) = Some (tt, RBMem root' h') /\
    repc root' h' k n /\ same_off (cptrs k) h h'.
Proof.
  intros Hk Ha. destruct k as [|[d c x s] k].
  - exists n, h. by split_and!.
  - destruct Hk as (Hx & Hs & Hk). addrs_split.
    exists root, (<[x := mknd (pack (par k) c) d n (ptr s)]> h). split; [|split; [split_and!|]].
    + destruct d; simpl; [by eapply (set_child_eq L)|by eapply (set_child_eq R)].
    + apply lookup_insert_eq.
    + by apply rep_insert.
    + by apply repc_insert.
    + intros y Hy. addrs_split. by rewrite lookup_insert_ne by dj.
Qed.

Lemma node_link_eq m k n :
  tree_rep m (plug k E) -> addrs_ok (inorder (plug k E)) ->
  okp n -> n ∉ cptrs k -> is_Some (rb_nodes m !! n) ->
  exists m', hev_rbtree_node_link n (par k) (link_of k) m = Some (tt, m') /\
    tree_rep m' (plug k (T Red E n E)) /\ same_off (n :: cptrs k) (rb_nodes m) (rb_nodes m').
Proof.
  intros Hm Ha Hok Hn [[pc r l] Hnd]. apply tree_rep_ctx in Hm as (root & h & -> & _ & Hk).
  apply addrs_plug in Ha as (_ & Ha & _). simpl in Hnd. unfold hev_rbtree_node_link.
  change (h !! n = Some (mknd pc L l r)) in Hnd.
  erewrite bind_Some by (by eapply set_pc_eq).
  erewrite bind_Some by (eapply (set_other_eq L); apply lookup_insert_eq).
  erewrite bind_Some by (eapply (set_child_eq L); apply lookup_insert_eq).
  edestruct (write_link_eq root) as (root' & h' & -> & Hk' & Hoff);
    [by do 3 (apply repc_insert; [done|])|done|].
  eexists. split; [done|]. split.
  - apply tree_rep_plug. simpl. split_and!; try done. rewrite Hoff by done.
    by rewrite lookup_insert_eq, pack_red.
  - intros y Hy. apply not_elem_of_cons in Hy as [Hy1 Hy2].
    simpl. by rewrite Hoff, !lookup_insert_ne by done.
Qed.

Lemma rb_insert m xs1 xs2 parent link n :
  insert_point m xs1 xs2 parent link ->
  okp n -> n ∉ xs1 ++ xs2 -> is_Some (rb_nodes m !! n) ->
  exists m', (hev_rbtree_node_link n parent link;; hev_rbtree_insert_color n) m = Some (tt, m') /\
    rb_tree m' (xs1 ++ n :: xs2) /\
    same_off (xs1 ++ n :: xs2) (rb_nodes m) (rb_nodes m').
Proof.
  intros (k & Hm & HR & Ha & <- & <- & -> & ->) Hok Hn Hnd.
  destruct (node_link_eq m k n) as (m1 & Heq1 & Hm1 & Hoff1); try done.
  { by rewrite inorder_plug. }
  assert (addrs_ok (before k ++ n :: after k)) as Ha1.
  { revert Ha Hn. unfold addrs_ok. rewrite !NoDup_app, !Forall_app, NoDup_cons, Forall_cons. set_solver. }
  destruct (insert_color_correct k (T Red E n E) m1) as (m2 & Heq2 & Hm2 & HR2 & Hi2 & Hoff2); try done.
  { by rewrite inorder_plug. }
  exists m2. split; [by erewrite bind_Some by exact Heq1|]. split.
  - exists (ins_up k (T Red E n E)). by split_and!.
  - rewrite inorder_plug in Hoff2. simpl in Hoff2. eapply same_off_trans; [|exact Hoff2|done].
    intros y Hy. apply Hoff1. unfold cptrs. set_solver.
Qed.

Lemma rb_erase m xs1 z xs2 :
  rb_tree m (xs1 ++ z :: xs2) ->
  exists m', hev_rbtree_erase z m = Some (tt, m') /\
    rb_tree m' (xs1 ++ xs2) /\ same_off (xs1 ++ z :: xs2) (rb_nodes m) (rb_nodes m').
Proof.
  intros H. destruct (rb_tree_at _ _ _ _ H) as (k & c & l & r & Hm & HR & Ha & -> & ->).
  destruct (erase_correct m k c l z r) as (m' & Heq & Hm' & HR' & Hi & Hoff); try done.
  exists m'. split; [done|]. rewrite inorder_plug in Ha, Hoff. simpl in Ha, Hoff.
  rewrite <-!app_assoc in *. simpl in *. split; [|done].
  exists (erase_at k c l r). split_and!; try done.
  revert Ha. unfold addrs_ok. rewrite !NoDup_app, !Forall_app, NoDup_cons, Forall_cons, !NoDup_app, !Forall_app. set_solver.
Qed.

(** ** The search loops of the clients

    [cmp n] is the comparison of the object that embeds the node [n] with the key
    looked for; it fails where the C code would read a dead object. *)

Inductive search_result :=
  | Found (node : Z)
  | NotFound (parent : Z) (link : rblink).

(** The loop that follows a pointer to a link, [new], and remembers the last
    node seen in [parent]. *)
Fixpoint rb_search (cmp : Z -> option Z) (fuel : nat) (new : rblink) (parent : Z) : RB search_result :=
  match fuel with
  | O => fail
  | S fuel =>
    let* cur := read_link new in
    if cur =? NULL then ret (NotFound parent new) else
    let* res := lift_opt (cmp cur) in
    let parent := cur in
    if res <? 0 then rb_search cmp fuel (LinkLeft cur) parent
    else if 0 <? res then rb_search cmp fuel (LinkRight cur) parent
    else ret (Found cur)
  end.

(** [while (node) { ...; node = node->left ... }]: NULL when there is none. *)
Fixpoint rb_walk (cmp : Z -> option Z) (fuel : nat) (node : Z) : RB Z :=
  match fuel with
  | O => fail
  | S fuel =>
    if node =? NULL then ret NULL else
    let* res := lift_opt (cmp node) in
    if res <? 0 then let* l := get_left node in rb_walk cmp fuel l
    else if 0 <? res then let* r := get_right node in rb_walk cmp fuel r
    else ret node
  end.

Definition rb_find_link (cmp : Z -> option Z) : RB search_result :=
  let* fuel := gets rb_fuel in rb_search cmp fuel LinkRoot NULL.

Definition rb_find (cmp : Z -> option Z) : RB Z :=
  let* fuel := gets rb_fuel in
  let* root := get_root in
  rb_walk cmp fuel root.

Section search.
Context (cmp : Z -> option Z) (sg : Z -> Z).

(** The comparisons along the sequence: positive, at most one zero, negative. *)
Definition cmp_mono (xs : list Z) : Prop :=
  Forall (fun x => cmp x = Some (sg x)) xs /\
  StronglySorted (fun a b => 0 < sg a \/ sg b < 0) xs.

Definition cmp_split (xs1 xs2 : list Z) : Prop :=
  Forall (fun x => 0 < sg x) xs1 /\ Forall (fun x => sg x < 0) xs2.

Lemma read_link_eq root h k t :
  repc root h k (ptr t) ->
  read_link (link_of k) (RBMem root h) = Some (ptr t, RBMem root h).
Proof.
  destruct k as [|[d c x s] k]; simpl; [by intros ->|]. intros (Hx & _).
  destruct d; simpl; [by eapply (get_child_eq L)|by eapply (get_child_eq R)].
Qed.

(** The sides of a node that the search does not enter. *)
Lemma cmp_mono_node l x r :
  cmp_mono (l ++ x :: r) ->
  cmp x = Some (sg x) /\ cmp_mono l /\ cmp_mono r /\
  (sg x < 0 -> Forall (fun y => sg y < 0) r) /\ (0 < sg x -> Forall (fun y => 0 < sg y) l) /\
  (sg x = 0 -> cmp_split l r).
Proof.
  intros [Hc Hs]. apply Forall_app in Hc as [Hcl Hc]. apply Forall_cons in Hc as [Hcx Hcr].
  apply StronglySorted_app in Hs as (Hlx & Hsl & Hs). apply StronglySorted_cons in Hs as [Hxr Hsr].
  rewrite Forall_forall in Hxr.
  assert (forall y, y ∈ l -> 0 < sg y \/ sg x < 0) by (intros y Hy; apply Hlx; set_solver).
  unfold cmp_split. rewrite !Forall_forall. split_and!; try done; try (intros ? y Hy).
  - destruct (Hxr y Hy); lia.
  - destruct (H y Hy); lia.
  - intros Hx0. split; intros y Hy; [destruct (H y Hy)|destruct (Hxr y Hy)]; lia.
Qed.

Lemma rb_search_zip root h fuel k t :
  (height t < fuel)%nat -> rep h (par k) t -> repc root h k (ptr t) -> addrs_ok (inorder (plug k t)) ->
  cmp_mono (inorder t) -> cmp_split (before k) (after k) ->
  exists res, rb_search cmp fuel (link_of k) (par k) (RBMem root h) = Some (res, RBMem root h) /\
    match res with
    | NotFound parent link =>
      exists k', plug k' E = plug k t /\ parent = par k' /\ link = link_of k' /\
        cmp_split (before k') (after k')
    | Found n =>
      exists k' c l r, plug k' (T c l n r) = plug k t /\ sg n = 0 /\
        cmp_split (before k' ++ inorder l) (inorder r ++ after k')
    end.
Proof.
  revert fuel k. induction t as [|c l IHl x r IHr]; intros [|fuel] k Hf Ht Hk Ha Hm [Hb Haf];
    try (simpl in Hf; lia); cbn [rb_search]; erewrite bind_Some by (by eapply read_link_eq).
  - simpl. eexists. split; [done|]. exists k. by split_and!.
  - change (ptr (T c l x r)) with x. pose proof Ha as Ha'. revert Ha'. addrs_split. intros Ha'.
    destruct (cmp_mono_node _ _ _ Hm) as (Hcx & Hml & Hmr & Hneg & Hpos & Hz).
    rewrite okp_eqb by done. erewrite bind_Some by (unfold lift_opt; by rewrite Hcx). simpl in Hf.
    destruct Ht as (Hx & Hl & Hr).
    destruct (Z.ltb_spec (sg x) 0); [|destruct (Z.ltb_spec 0 (sg x))].
    + apply (IHl fuel (Fr L c x r :: k)); try done; [lia|..].
      * split; simpl; [done|]. apply Forall_cons. rewrite Forall_app. auto.
    + apply (IHr fuel (Fr R c x l :: k)); try done; [lia|..].
      * split; simpl; [|done]. rewrite !Forall_app, Forall_singleton. auto.
    + eexists. split; [done|]. exists k, c, l, r. split_and!; [done|lia|..].
      unfold cmp_split. rewrite !Forall_app. destruct Hz; [lia|]. auto.
Qed.

Lemma read_link_pure link m cur m' : read_link link m = Some (cur, m') -> m' = m.
Proof.
  destruct link; simpl; unfold get_root, get_left, get_right, gets, bind, load, ret.
  - by intros [= _ <-].
  - by destruct (rb_nodes m !! n); intros [= <- <-].
  - by destruct (rb_nodes m !! n); intros [= <- <-].
Qed.

(** The two ways the loop is written agree. *)
Lemma rb_walk_search fuel link parent m cur res :
  read_link link m = Some (cur, m) ->
  rb_search cmp fuel link parent m = Some (res, m) ->
  rb_walk cmp fuel cur m = Some (match res with Found n => n | NotFound _ _ => NULL end, m).
Proof.
  revert link parent cur. induction fuel as [|fuel IH]; intros link parent cur Hl; [done|].
  cbn [rb_search rb_walk]. erewrite bind_Some by exact Hl.
  destruct (cur =? NULL); [by intros [= <-]|].
  unfold lift_opt. destruct (cmp cur) as [z|]; [|done]. cbn.
  assert (forall link', rb_search cmp fuel link' cur m = Some (res, m) ->
    (let* n := read_link link' in rb_walk cmp fuel n) m =
    Some (match res with Found n => n | NotFound _ _ => NULL end, m)) as Hgo.
  { intros link' Hs. destruct fuel as [|fuel]; [done|]. pose proof Hs as Hs'. cbn [rb_search] in Hs'.
    apply bind_Some_inv in Hs' as (cur' & m' & Hl' & _).
    pose proof (read_link_pure _ _ _ _ Hl'). subst m'.
    erewrite bind_Some by exact Hl'. by apply (IH link' cur cur'). }
  destruct (z <? 0); [apply (Hgo (LinkLeft cur))|].
  destruct (0 <? z); [apply (Hgo (LinkRight cur))|by intros [= <-]].
Qed.

Lemma height_inorder t : (height t <= length (inorder t))%nat.
Proof. induction t; simpl; [lia|]. rewrite length_app. simpl. lia. Qed.

Lemma rb_find_link_spec m xs :
  rb_tree m xs -> cmp_mono xs ->
  exists res, rb_find_link cmp m = Some (res, m) /\
    match res with
    | Found n => exists xs1 xs2, xs = xs1 ++ n :: xs2 /\ sg n = 0 /\ cmp_split xs1 xs2
    | NotFound parent link =>
      exists xs1 xs2, xs = xs1 ++ xs2 /\ cmp_split xs1 xs2 /\ insert_point m xs1 xs2 parent link
    end.
Proof.
  intros (t & Hm & HR & Ha & <-) Hc. destruct m as [root h]. pose proof Hm as [Hroot Ht].
  destruct (rb_search_zip root h (rb_fuel (RBMem root h)) [] t) as (res & Heq & Hres); try done.
  - pose proof (rep_size _ _ _ Ht (proj1 Ha)). pose proof (height_inorder t). unfold rb_fuel. simpl in *. lia.
  - exists res. split; [by unfold rb_find_link; erewrite bind_Some by done|]. simpl in Hres.
    destruct res as [n|parent link].
    + destruct Hres as (k & c & l & r & <- & Hn & Hs).
      eexists _, _. split; [|by split]. rewrite inorder_plug. simpl. by rewrite <-!app_assoc.
    + destruct Hres as (k & Hpl & -> & -> & Hs). exists (before k), (after k). subst t.
      split_and!; try done; [by rewrite inorder_plug|].
      rewrite inorder_plug in Ha. exists k. by split_and!.
Qed.

Lemma rb_find_spec m xs :
  rb_tree m xs -> cmp_mono xs ->
  exists n, rb_find cmp m = Some (n, m) /\
    ((n = NULL /\ Forall (fun x => sg x <> 0) xs) \/
     exists xs1 xs2, xs = xs1 ++ n :: xs2 /\ sg n = 0 /\ okp n /\ cmp_split xs1 xs2).
Proof.
  intros Hm Hc. destruct (rb_find_link_spec m xs Hm Hc) as (res & Heq & Hres).
  unfold rb_find_link in Heq. erewrite bind_Some in Heq by done.
  eexists. split.
  - unfold rb_find. erewrite bind_Some by done. erewrite bind_Some by done.
    by eapply (rb_walk_search _ LinkRoot).
  - destruct res as [n|parent link].
    + right. destruct Hres as (xs1 & xs2 & -> & Hn & Hs). exists xs1, xs2. split_and!; try done.
      pose proof (rb_tree_okp _ _ Hm) as Hok. rewrite Forall_app, Forall_cons in Hok. apply Hok.
    + left. split; [done|]. destruct Hres as (xs1 & xs2 & -> & [Hp Hq] & _).
      apply Forall_app. split; eapply Forall_impl; try done; simpl; lia.
Qed.
End search.

(** ** Walking *)

(** Both mirror images of the two inner loops. *)
Fixpoint extreme (d : dir) (fuel : nat) (n : Z) : RB Z :=
  match fuel with
  | O => fail
  | S fuel =>
    let* l := get_child d n in
    if l =? NULL then ret n else extreme d fuel l
  end.

Fixpoint climb (d : dir) (fuel : nat) (node : Z) : RB Z :=
  match fuel with
  | O => fail
  | S fuel =>
    let* parent := hev_rbtree_node_parent node in
    if parent =? NULL then ret parent else
    let* l := get_child d parent in
    if node =? l then climb d fuel parent else ret parent
  end.

(** Equal continuations. *)
Lemma bind_ext {S A B} (m : M S A) (f g : A -> M S B) s :
  (forall a s', f a s' = g a s') -> bind m f s = bind m g s.
Proof. intros H. unfold bind. destruct (m s) as [[a s']|]; auto. Qed.

Lemma leftmost_extreme fuel n m : leftmost fuel n m = extreme L fuel n m.
Proof.
  revert n m. induction fuel as [|fuel IH]; intros n m; [done|].
  apply bind_ext. intros l m'. by destruct (l =? NULL).
Qed.

Lemma rightmost_extreme fuel n m : rightmost fuel n m = extreme R fuel n m.
Proof.
  revert n m. induction fuel as [|fuel IH]; intros n m; [done|].
  apply bind_ext. intros l m'. by destruct (l =? NULL).
Qed.

Lemma climb_left_climb fuel n m : climb_left fuel n m = climb L fuel n m.
Proof.
  revert n m. induction fuel as [|fuel IH]; intros n m; [done|].
  apply bind_ext. intros p m'. destruct (p =? NULL); [done|].
  apply bind_ext. intros l m''. by destruct (n =? l).
Qed.

Lemma climb_right_climb fuel n m : climb_right fuel n m = climb R fuel n m.
Proof.
  revert n m. induction fuel as [|fuel IH]; intros n m; [done|].
  apply bind_ext. intros p m'. destruct (p =? NULL); [done|].
  apply bind_ext. intros l m''. by destruct (n =? l).
Qed.

Definition edge (d : dir) (xs : list Z) : Z :=
  default NULL (match d with L => head xs | R => last xs end).

(** What lies next to the hole of a context, on the left or on the right. *)
Definition beside (d : dir) (k : ctx) : Z :=
  match d with L => edge R (before k) | R => edge L (after k) end.

Lemma extreme_eq root h p d fuel t :
  t <> E -> (height t <= fuel)%nat -> rep h p t -> addrs_ok (inorder t) ->
  extreme d fuel (ptr t) (RBMem root h) = Some (edge d (inorder t), RBMem root h).
Proof.
  revert fuel p. induction t as [|c l IHl x r IHr]; intros fuel p Hne Hf Hr Ha; [done|].
  destruct fuel as [|fuel]; [simpl in Hf; lia|]. simpl in Hf. destruct Hr as (Hx & Hl & Hr). addrs_split.
  cbn [extreme ptr]. destruct d.
  - erewrite bind_Some by (by eapply (get_child_eq L)). rewrite okp_tree_eqb by done.
    case_bool_decide as Hl0; [by subst|]. rewrite (IHl fuel x) by (done || lia).
    unfold edge. simpl. destruct l; [done|]. simpl. by destruct (inorder l1).
  - erewrite bind_Some by (by eapply (get_other_eq L)). rewrite okp_tree_eqb by done.
    case_bool_decide as Hr0; [subst; unfold edge; simpl; by rewrite last_snoc|].
    rewrite (IHr fuel x) by (done || lia).
    unfold edge. simpl. rewrite last_app, last_cons. destruct r; [done|].
    simpl. rewrite last_app, last_cons. by destruct (last (inorder r2)).
Qed.

Lemma climb_eq root h d fuel k t :
  t <> E -> (length k < fuel)%nat -> rep h (par k) t -> repc root h k (ptr t) ->
  addrs_ok (inorder (plug k t)) ->
  climb d fuel (ptr t) (RBMem root h) = Some (beside d k, RBMem root h).
Proof.
  revert fuel t. induction k as [|[d' c x s] k IH]; intros fuel t Hne Hf Ht Hk Ha;
    (destruct fuel as [|fuel]; [simpl in Hf; lia|]); cbn [climb];
    (destruct t as [|ct lt xt rt]; [done|]); destruct Ht as (Hxt & Htt).
  - erewrite bind_Some by (by eapply node_parent_eq). by destruct d.
  - pose proof Ha as Ha'. revert Ha'. simpl in Ha. simpl. addrs_split. intros Ha'.
    destruct Hk as (Hx & Hs & Hk).
    erewrite bind_Some by (eapply node_parent_eq; [exact Hxt|okl]).
    simpl. rewrite okp_eqb by done.
    destruct (decide (d' = d)) as [->|Hd].
    + erewrite bind_Some by (by eapply get_child_eq). rewrite Z.eqb_refl.
      pose proof (IH fuel (mk d c (T ct lt xt rt) x s)) as IH'. rewrite ptr_mk in IH'. rewrite IH'.
      * by destruct d.
      * by destruct d.
      * simpl in Hf. lia.
      * rewrite rep_mk. by split_and!.
      * done.
      * done.
    + assert (d' = opp d) as -> by (by destruct d, d'). rewrite mknd_opp in Hx.
      erewrite bind_Some by (by eapply get_child_eq).
      rewrite (proj2 (Z.eqb_neq xt (ptr s))) by (apply ptr_ne; [done|dj]).
      unfold ret, beside, edge. destruct d; simpl; [|done]. by rewrite app_assoc, last_snoc.
Qed.

Lemma rb_first m xs : rb_tree m xs -> hev_rbtree_first m = Some (edge L xs, m).
Proof.
  intros (t & Hm & _ & Ha & <-). destruct m as [root h], Hm as [Hroot Ht]. simpl in Hroot. subst root.
  unfold hev_rbtree_first. do 2 (erewrite bind_Some by done). cbn [rb_root]. rewrite okp_tree_eqb by done.
  case_bool_decide as Ht0; [by subst|].
  pose proof (rep_size _ _ _ Ht (proj1 Ha)). pose proof (height_inorder t).
  rewrite leftmost_extreme. eapply extreme_eq; try done. unfold rb_fuel. simpl in *. lia.
Qed.

Lemma rb_last m xs : rb_tree m xs -> hev_rbtree_last m = Some (edge R xs, m).
Proof.
  intros (t & Hm & _ & Ha & <-). destruct m as [root h], Hm as [Hroot Ht]. simpl in Hroot. subst root.
  unfold hev_rbtree_last. do 2 (erewrite bind_Some by done). cbn [rb_root]. rewrite okp_tree_eqb by done.
  case_bool_decide as Ht0; [by subst|].
  pose proof (rep_size _ _ _ Ht (proj1 Ha)). pose proof (height_inorder t).
  rewrite rightmost_extreme. eapply extreme_eq; try done. unfold rb_fuel. simpl in *. lia.
Qed.

(** A linked node is not marked empty: its parent word is not its own address. *)
Lemma node_empty_eq root h d n p c a b :
  h !! n = Some (mknd (pack p c) d a b) -> Z.land p 3 = 0 -> okp n -> n <> p ->
  hev_rbtree_node_empty n (RBMem root h) = Some (false, RBMem root h).
Proof.
  intros Hn Hp [_ Hok] Hne. unfold hev_rbtree_node_empty. erewrite bind_Some by (by eapply get_pc_eq).
  unfold ret. do 2 f_equal. apply Z.eqb_neq. intros Heq. apply Hne.
  rewrite <-(pack_parent p c Hp), Heq.
  by rewrite <-(pack_red n), pack_parent, pack_red by (by rewrite ?pack_red).
Qed.


(** The neighbour of a node: the near end of its own subtree on that side, or
    what lies beside it in its context. *)
Lemma edge_app_L xs ys : edge L (xs ++ ys) = match xs with [] => edge L ys | _ => edge L xs end.
Proof. by destruct xs. Qed.

Lemma edge_app_R xs ys : edge R (xs ++ ys) = match ys with [] => edge R xs | _ => edge R ys end.
Proof.
  unfold edge. rewrite last_app. destruct ys as [|y ys]; [done|]. by rewrite last_cons; destruct (last ys).
Qed.

Lemma inorder_nil t : inorder t = [] -> t = E.
Proof. destruct t; [done|]. simpl. by destruct (inorder t1). Qed.

(** The three facts that both directions of stepping use. *)
Lemma step_setup m k c l z r :
  tree_rep m (plug k (T c l z r)) -> addrs_ok (inorder (plug k (T c l z r))) ->
  exists root h, m = RBMem root h /\
    h !! z = Some (mknd (pack (par k) c) L (ptr l) (ptr r)) /\
    hev_rbtree_node_empty z m = Some (false, m) /\
    (forall t d, t = l \/ t = r ->
       (t = E -> ptr t = NULL) /\
       (t <> E -> (ptr t =? NULL) = false /\ extreme d (rb_fuel m) (ptr t) m = Some (edge d (inorder t), m))) /\
    (forall d, climb d (rb_fuel m) z m = Some (beside d k, m)).
Proof.
  intros Hm Ha. pose proof (rep_fuel _ _ _ Hm Ha) as Hf. pose proof Hm as [_ Hall].
  pose proof (rep_size _ _ _ Hall (proj1 Ha)) as Hs. rewrite inorder_plug, !length_app in Hs. simpl in Hs.
  rewrite length_app in Hs. simpl in Hs. clear Hall.
  apply tree_rep_ctx in Hm as (root & h & -> & Ht & Hk). pose proof Ht as (Hz & Hl & Hr).
  pose proof Ha as Ha'. revert Ha'. addrs_split. intros Ha'.
  exists root, h. split_and!; try done.
  - eapply node_empty_eq; [done|okl|done|]. destruct k as [|[d' c' x' s'] k]; simpl; [|by addrs_split].
    unfold okp, NULL in *. lia.
  - intros t d Ht'. split; [by intros ->|]. intros Hne.
    assert (rep h z t /\ addrs_ok (inorder t) /\ (length (inorder t) <= size h)%nat) as (Hrt & Hat & Hlt).
    { cbn [rb_nodes] in Hs. destruct Ht' as [-> | ->]; split_and!; try done; lia. }
    rewrite okp_tree_eqb, bool_decide_false by done. split; [done|].
    eapply extreme_eq; try done. pose proof (height_inorder t). unfold rb_fuel. simpl. lia.
  - intros d. by apply (climb_eq root h d (rb_fuel (RBMem root h)) k (T c l z r)).
Qed.

Lemma rb_next m xs1 z xs2 :
  rb_tree m (xs1 ++ z :: xs2) -> hev_rbtree_node_next z m = Some (edge L xs2, m).
Proof.
  intros H. destruct (rb_tree_at _ _ _ _ H) as (k & c & l & r & Hm & HR & Ha & -> & ->).
  destruct (step_setup m k c l z r) as (root & h & -> & Hz & He & Hsub & Hcl); try done.
  unfold hev_rbtree_node_next. erewrite bind_Some by done. erewrite bind_Some by exact He. cbv iota.
  erewrite bind_Some by (by eapply (get_other_eq L)).
  destruct (Hsub r L) as [H0 H1]; [auto|]. rewrite edge_app_L.
  destruct (decide (r = E)) as [->|Hr].
  - rewrite H0 by done. cbn [negb Z.eqb NULL]. rewrite climb_right_climb. apply Hcl.
  - destruct (H1 Hr) as [-> Hex]. cbn [negb]. rewrite leftmost_extreme, Hex.
    destruct (inorder r) eqn:Hi; [by apply inorder_nil in Hi|done].
Qed.

Lemma rb_prev m xs1 z xs2 :
  rb_tree m (xs1 ++ z :: xs2) -> hev_rbtree_node_prev z m = Some (edge R xs1, m).
Proof.
  intros H. destruct (rb_tree_at _ _ _ _ H) as (k & c & l & r & Hm & HR & Ha & -> & ->).
  destruct (step_setup m k c l z r) as (root & h & -> & Hz & He & Hsub & Hcl); try done.
  unfold hev_rbtree_node_prev. erewrite bind_Some by done. erewrite bind_Some by exact He. cbv iota.
  erewrite bind_Some by (by eapply (get_child_eq L)).
  destruct (Hsub l R) as [H0 H1]; [auto|]. rewrite edge_app_R.
  destruct (decide (l = E)) as [->|Hl].
  - rewrite H0 by done. cbn [negb Z.eqb NULL]. rewrite climb_left_climb. apply Hcl.
  - destruct (H1 Hl) as [-> Hex]. cbn [negb]. rewrite rightmost_extreme, Hex.
    destruct (inorder l) eqn:Hi; [by apply inorder_nil in Hi|done].
Qed.

(** ** Replacement *)

Lemma RBT_rename_node k c l x y r :
  RBT (plug k (T c l x r)) -> RBT (plug k (T c l y r)).
Proof. intros H. apply RBT_plug in H as (n & Hk & Hb & Hn & Hc). by apply (plug_RBT n). Qed.

Lemma rb_replace m xs1 v xs2 n :
  rb_tree m (xs1 ++ v :: xs2) -> okp n -> n ∉ xs1 ++ v :: xs2 -> is_Some (rb_nodes m !! n) ->
  exists m', hev_rbtree_replace v n m = Some (tt, m') /\
    rb_tree m' (xs1 ++ n :: xs2) /\ same_off (n :: xs1 ++ v :: xs2) (rb_nodes m) (rb_nodes m').
Proof.
  intros H Hok Hn [nd Hnd]. destruct (rb_tree_at _ _ _ _ H) as (k & c & l & r & Hm & HR & Ha & -> & ->).
  assert (before k ++ inorder l ++ v :: inorder r ++ after k = inorder (plug k (T c l v r))) as Hi.
  { rewrite inorder_plug. simpl. by rewrite <-!app_assoc. }
  rewrite <-!app_assoc in *. rewrite Hi in Hn |- *.
  assert (addrs_ok (inorder (plug k (T c l n r)))) as Ha2.
  { revert Ha Hn. rewrite !inorder_plug. simpl. unfold addrs_ok.
    rewrite !NoDup_app, !Forall_app, !NoDup_cons, !Forall_cons. set_solver. }
  apply tree_rep_ctx in Hm as (root & h & -> & Ht & Hk). destruct Ht as (Hv & Hl & Hr).
  simpl in Hnd. pose proof Ha2 as Ha2'. revert Ha2'. addrs_split. intros Ha2'.
  unfold hev_rbtree_replace. rb_step node_parent_eq.
  erewrite bind_Some by (unfold load; simpl; by rewrite Hv).
  erewrite bind_Some by (unfold store; simpl; by rewrite Hnd).
  cbn [rb_root rb_nodes]. name_heap h1.
  assert (h1 !! v = Some (mknd (pack (par k) c) L (ptr l) (ptr r))) as Hv1 by (subst h1; by look).
  erewrite bind_Some by (by eapply (get_child_eq L)).
  destruct (adopt_parent root h1 v n l) as (h2 & Heq2 & Hl2 & Hoff2); [by apply rep_insert|done|okl|].
  erewrite bind_Some by exact Heq2.
  assert (h2 !! v = Some (mknd (pack (par k) c) L (ptr l) (ptr r))) as Hv2 by (by rewrite Hoff2).
  erewrite bind_Some by (by eapply (get_other_eq L)).
  destruct (adopt_parent root h2 v n r) as (h3 & Heq3 & Hr3 & Hoff3); [|done|okl|].
  { eapply rep_same; [|done]. intros y Hy. rewrite Hoff2 by dj. subst h1. by look. }
  erewrite bind_Some by exact Heq3.
  destruct (change_child_eq root h3 k v n) as (root4 & h4 & Heq4 & Hk4 & Hoff4); try done.
  { eapply repc_same; [|done]. intros y Hy. rewrite Hoff3, Hoff2 by dj. subst h1. by look. }
  rewrite Heq4. eexists. split; [done|]. split.
  - exists (plug k (T c l n r)). split_and!.
    + apply tree_rep_plug. simpl. split_and!; try done.
      * rewrite Hoff4, Hoff3, Hoff2 by dj. subst h1. by look.
      * eapply rep_same; [|done]. intros y Hy. rewrite Hoff4, Hoff3; dj.
      * eapply rep_same; [|done]. intros y Hy. rewrite Hoff4; dj.
    + by eapply RBT_rename_node.
    + revert Ha2'. rewrite inorder_plug. simpl. by rewrite <-!app_assoc.
    + rewrite inorder_plug. simpl. by rewrite <-!app_assoc.
  - intros y Hy. apply not_elem_of_cons in Hy as [Hy1 Hy2]. addrs_split.
    simpl. rewrite Hoff4, Hoff3, Hoff2 by dj. subst h1. by rewrite lookup_insert_ne by dj.
Qed.

Lemma insert_point_frame m m' xs1 xs2 parent link :
  insert_point m xs1 xs2 parent link -> rb_root m' = rb_root m ->
  (forall y, y ∈ xs1 ++ xs2 -> rb_nodes m' !! y = rb_nodes m !! y) ->
  insert_point m' xs1 xs2 parent link.
Proof.
  intros (k & [Hr Ht] & HR & Ha & <- & <- & -> & ->) Hroot Hs. exists k. split_and!; try done.
  split; [by rewrite Hroot|]. eapply rep_same; [|done]. intros y Hy.
  rewrite inorder_plug in Hy. by apply Hs.
Qed.
