(* ===== verification/KeyedTree.v ===== *)
(** * Red-black trees ordered by a key

    The clients of hev-rbtree.c embed the node in an object with a key, keep the
    tree sorted by it in descending order and search it with a three-way
    comparison.  [KeyOrder] is what such a comparison has to promise; the two
    comparisons of the code, [strcmp] on names and length-then-[memcmp] on
    counted strings, are its instances. *)

From stdpp Require Import sorting.
From S2P Require Import Prelude RBTree RBModel RBRep RBSpec.

(** ** Comparisons *)

(** [kcmp a b] has the sign of the comparison; [kvalid] are the keys it is meant
    for. *)
Class KeyOrder {K : Type} (kvalid : K -> Prop) (kcmp : K -> K -> Z) := {
  kcmp_eq a b : kvalid a -> kvalid b -> kcmp a b = 0 <-> a = b;
  kcmp_sym a b : kvalid a -> kvalid b -> 0 < kcmp a b <-> kcmp b a < 0;
  kcmp_trans a b c : kvalid a -> kvalid b -> kvalid c ->
    0 < kcmp a b -> 0 <= kcmp b c -> 0 < kcmp a c
}.

(** [strcmp] on the bytes before the terminating NUL: the difference of the first
    bytes that differ. *)
Fixpoint strcmp (a b : list Z) : Z :=
  match a, b with
  | [], [] => 0
  | [], y :: _ => 0 - y
  | x :: _, [] => x - 0
  | x :: a, y :: b => if x =? y then strcmp a b else x - y
  end.

(** The bytes of a C string. *)
Definition cstr (a : list Z) : Prop := Forall (fun b => 0 < b < 256) a.

#[global] Instance cstr_dec a : Decision (cstr a).
Proof. unfold cstr. apply _. Defined.

(** [memcmp (a, b, n)]; fails when an operand is shorter than [n]. *)
Fixpoint memcmp (n : nat) (a b : list Z) : option Z :=
  match n with
  | O => Some 0
  | S n =>
    match a, b with
    | x :: a, y :: b => if x =? y then memcmp n a b else Some (x - y)
    | _, _ => None
    end
  end.

#[global] Instance strcmp_order : KeyOrder cstr strcmp.
Proof.
  split.
  - intros a. induction a as [|x a IH]; intros [|y b] Ha Hb; simpl; try done.
    + apply Forall_cons in Hb as [? _]. split; [lia|done].
    + apply Forall_cons in Ha as [? _]. split; [lia|done].
    + apply Forall_cons in Ha as [? Ha]. apply Forall_cons in Hb as [? Hb].
      destruct (Z.eqb_spec x y) as [->|Hne].
      * rewrite IH by done. split; [by intros ->|by intros [=]].
      * split; [lia|]. by intros [=].
  - intros a. induction a as [|x a IH]; intros [|y b] Ha Hb; simpl; try lia.
    apply Forall_cons in Ha as [? Ha]. apply Forall_cons in Hb as [? Hb].
    rewrite (Z.eqb_sym y x). destruct (Z.eqb_spec x y); [by apply IH|lia].
  - intros a. induction a as [|x a IH]; intros [|y b] [|z c] Ha Hb Hc; simpl; try lia;
      repeat match goal with H : cstr (_ :: _) |- _ => apply Forall_cons in H as [? H] end; try lia.
    + destruct (Z.eqb_spec x y), (Z.eqb_spec y z), (Z.eqb_spec x z); subst; try lia; try by apply IH.
Qed.

Lemma c_str_app n post : cstr n -> c_str (n ++ 0 :: post) = Some n.
Proof.
  induction 1 as [|b n Hb _ IH]; [done|]. simpl. rewrite (proj2 (Z.eqb_neq b 0)) by lia. by rewrite IH.
Qed.

(** ** Sorted trees *)

Section keyed.
Context {K : Type} (kvalid : K -> Prop) (kcmp : K -> K -> Z) `{!KeyOrder kvalid kcmp}.
Implicit Types (key : Z -> option K) (xs : list Z) (t : K).

Definition above key (a b : Z) : Prop :=
  exists ka kb, key a = Some ka /\ key b = Some kb /\ 0 < kcmp ka kb.

Definition sorted_by key xs : Prop :=
  Forall (fun x => exists k, key x = Some k /\ kvalid k) xs /\ StronglySorted (above key) xs.

Definition cmp_with key t (x : Z) : option Z := k ← key x; Some (kcmp k t).

Definition sign_with key t (x : Z) : Z := default 0 (cmp_with key t x).

(** [cmp] may be written differently, as long as it agrees on the nodes. *)
Lemma sorted_cmp_mono cmp key xs t :
  (forall x, x ∈ xs -> cmp x = cmp_with key t x) ->
  sorted_by key xs -> kvalid t -> cmp_mono cmp (sign_with key t) xs.
Proof.
  intros Hcmp [Hk Hs] Ht. split.
  - rewrite Forall_forall in Hk |- *. intros x Hin. rewrite Hcmp by done. destruct (Hk x Hin) as (k & Hx & _).
    unfold sign_with, cmp_with. by rewrite Hx.
  - clear Hcmp. induction xs as [|x xs IH]; [constructor|].
    apply Forall_cons in Hk as [(kx & Hx & Hvx) Hk]. apply StronglySorted_cons in Hs as [Hxs Hs].
    apply StronglySorted_cons. split; [|auto]. rewrite Forall_forall in Hk, Hxs |- *.
    intros y Hy. destruct (Hk y Hy) as (ky & Hky & Hvy). destruct (Hxs y Hy) as (kx' & ky' & Hx' & Hy' & Hlt).
    rewrite Hx in Hx'. rewrite Hky in Hy'. simplify_eq. unfold sign_with, cmp_with. rewrite Hx, Hky. simpl.
    destruct (decide (kcmp ky' t < 0)); [by right|left]. eapply (kcmp_trans kx' ky' t); auto; lia.
Qed.

Lemma sorted_by_ext key key' xs :
  (forall x, x ∈ xs -> key' x = key x) -> sorted_by key xs -> sorted_by key' xs.
Proof.
  intros Hx [Hk Hs]. split.
  - rewrite Forall_forall in *. intros x Hin. rewrite Hx by done. auto.
  - induction xs as [|x xs IH]; [constructor|]. apply Forall_cons in Hk as [_ Hk].
    apply StronglySorted_cons in Hs as [Hxs Hs]. apply StronglySorted_cons. split.
    + rewrite Forall_forall in *. intros y Hy. unfold above. rewrite !Hx by set_solver. by apply Hxs.
    + apply IH; [|done..]. intros y Hy. apply Hx. set_solver.
Qed.

Lemma sorted_by_drop key xs1 n xs2 :
  sorted_by key (xs1 ++ n :: xs2) -> sorted_by key (xs1 ++ xs2).
Proof.
  intros [Hk Hs]. rewrite Forall_app, Forall_cons in Hk. rewrite StronglySorted_app, StronglySorted_cons in Hs.
  split; [rewrite Forall_app; tauto|]. apply StronglySorted_app. destruct Hs as (Hd & ? & ? & ?).
  split_and!; try done. intros x1 x2 Hi1 Hi2. apply Hd; [done|]. set_solver.
Qed.

(** A new node between the greater and the smaller keys. *)
Lemma sorted_by_add key xs1 n xs2 t :
  sorted_by key (xs1 ++ xs2) -> kvalid t -> key n = Some t ->
  cmp_split (sign_with key t) xs1 xs2 -> sorted_by key (xs1 ++ n :: xs2).
Proof.
  intros [Hk Hs] Ht Hn [Hp Hq]. pose proof Hk as Hk'. rewrite Forall_forall in Hk'.
  split.
  - rewrite Forall_app in *. rewrite Forall_cons. destruct Hk. eauto 10.
  - rewrite StronglySorted_app in *. rewrite StronglySorted_cons. destruct Hs as (Hd & Hs1 & Hs2).
    rewrite Forall_forall in Hp, Hq |- *.
    assert (forall x, x ∈ xs1 ++ xs2 -> exists k, key x = Some k /\ kvalid k /\ sign_with key t x = kcmp k t) as Hsg.
    { intros x Hx. destruct (Hk' x Hx) as (k & Hkx & Hv). exists k. split_and!; try done.
      unfold sign_with, cmp_with. by rewrite Hkx. }
    split_and!; try done.
    + intros x1 x2 H1 H2. apply elem_of_cons in H2 as [->|H2]; [|by apply Hd].
      destruct (Hsg x1) as (k & Hkx & Hv & Hk1); [set_solver|]. specialize (Hp x1 H1). simpl in Hp.
      exists k, t. rewrite Hk1 in Hp. done.
    + intros x Hx. destruct (Hsg x) as (k & Hkx & Hv & Hk1); [set_solver|]. specialize (Hq x Hx). simpl in Hq.
      exists t, k. split_and!; try done. apply kcmp_sym; auto. lia.
Qed.

Lemma keyed_find_link cmp m xs key t :
  (forall x, x ∈ xs -> cmp x = cmp_with key t x) ->
  rb_tree m xs -> sorted_by key xs -> kvalid t ->
  exists res, rb_find_link cmp m = Some (res, m) /\
    match res with
    | Found n => exists xs1 xs2, xs = xs1 ++ n :: xs2 /\ key n = Some t
    | NotFound parent link =>
      exists xs1 xs2, xs = xs1 ++ xs2 /\ insert_point m xs1 xs2 parent link /\
        (forall x, x ∈ xs -> key x <> Some t) /\
        (forall key' n, (forall x, x ∈ xs -> key' x = key x) -> key' n = Some t ->
           sorted_by key' (xs1 ++ n :: xs2))
    end.
Proof.
  intros Hcmp Hm Hs Ht. pose proof (sorted_cmp_mono cmp key xs t Hcmp Hs Ht) as Hmono.
  destruct (rb_find_link_spec cmp (sign_with key t) m xs Hm Hmono) as (res & Heq & Hres).
  exists res. split; [done|]. pose proof Hs as [Hk _]. rewrite Forall_forall in Hk.
  destruct res as [n|parent link].
  - destruct Hres as (xs1 & xs2 & -> & Hn & _). exists xs1, xs2. split; [done|].
    destruct (Hk n) as (k & Hkn & Hv); [set_solver|].
    unfold sign_with, cmp_with in Hn. rewrite Hkn in *. simpl in Hn. f_equal. by apply kcmp_eq.
  - destruct Hres as (xs1 & xs2 & -> & Hsp & Hip). exists xs1, xs2. split_and!; try done.
    + intros x Hx Hkx. destruct Hsp as [Hp Hq]. rewrite Forall_forall in Hp, Hq.
      assert (sign_with key t x = 0) as H0.
      { unfold sign_with, cmp_with. rewrite Hkx. simpl. by apply kcmp_eq. }
      apply elem_of_app in Hx as [Hx|Hx]; [specialize (Hp x Hx)|specialize (Hq x Hx)]; simpl in *; lia.
    + intros key' n Hx Hn. eapply sorted_by_add; eauto; [by eapply sorted_by_ext|].
      assert (forall x, x ∈ xs1 ++ xs2 -> sign_with key' t x = sign_with key t x) as Hsg.
      { intros x Hxin. unfold sign_with, cmp_with. by rewrite Hx. }
      destruct Hsp as [Hp Hq]. rewrite Forall_forall in Hp, Hq.
      split; apply Forall_forall; intros x Hin; simpl; rewrite Hsg by set_solver; [by apply Hp|by apply Hq].
Qed.

Lemma keyed_find cmp m xs key t :
  (forall x, x ∈ xs -> cmp x = cmp_with key t x) ->
  rb_tree m xs -> sorted_by key xs -> kvalid t ->
  exists n, rb_find cmp m = Some (n, m) /\
    ((n = NULL /\ forall x, x ∈ xs -> key x <> Some t) \/
     exists xs1 xs2, xs = xs1 ++ n :: xs2 /\ key n = Some t /\ okp n).
Proof.
  intros Hcmp Hm Hs Ht. pose proof (sorted_cmp_mono cmp key xs t Hcmp Hs Ht) as Hmono.
  destruct (rb_find_spec cmp (sign_with key t) m xs Hm Hmono) as (n & Heq & Hres).
  exists n. split; [done|]. pose proof Hs as [Hk _]. rewrite Forall_forall in Hk.
  destruct Hres as [[-> Hnz]|(xs1 & xs2 & -> & Hn & Hok & _)].
  - left. split; [done|]. intros x Hx Hkx. rewrite Forall_forall in Hnz. apply (Hnz x Hx).
    unfold sign_with, cmp_with. rewrite Hkx. simpl. by apply kcmp_eq.
  - right. exists xs1, xs2. split_and!; try done.
    destruct (Hk n) as (k & Hkn & Hv); [set_solver|].
    unfold sign_with, cmp_with in Hn. rewrite Hkn in *. simpl in Hn. f_equal. by apply kcmp_eq.
Qed.

(** Keys determine nodes. *)
Lemma sorted_by_inj key xs x y k :
  sorted_by key xs -> x ∈ xs -> y ∈ xs -> key x = Some k -> key y = Some k -> x = y.
Proof.
  intros [Hk Hs] Hx Hy Hkx Hky. revert Hx Hy. induction Hs as [|z xs Hs IH Hz]; [set_solver|].
  apply Forall_cons in Hk as [(kz & Hkz & Hvz) Hk]. rewrite Forall_forall in Hz.
  assert (forall w, w ∈ xs -> key z = Some k -> key w = Some k -> False) as Hno.
  { intros w Hw Hz' Hw'. destruct (Hz w Hw) as (a & b & Ha & Hb & Hlt).
    assert (kz = b) by congruence. assert (a = b) by congruence. subst a kz.
    pose proof (proj2 (kcmp_eq b b Hvz Hvz) eq_refl). lia. }
  intros Hx Hy. apply elem_of_cons in Hx as [->|Hx], Hy as [->|Hy]; try done; [..|by apply IH];
    exfalso; eauto.
Qed.
End keyed.
