(* ===== verification/HevList.v ===== *)
(** * The intrusive doubly linked list (misc/hev-list.c, misc/hev-list.h)

    The list header with its two ends and a heap of nodes; [list_rep m xs] says
    that the list holds the nodes [xs] in order.  [hev_list_add_tail] and
    [hev_list_del] are proved to be snoc and removal on that sequence. *)

From S2P Require Import Prelude RBTree.

(** ** Data and operations *)

(** [struct _HevListNode] *)
Record lnode := LNode { ln_next : Z; ln_prev : Z }.

(** [struct _HevList] with the nodes that can be linked to it. *)
Record lmem := LMem { l_head : Z; l_tail : Z; l_nodes : gmap Z lnode }.

Abbreviation LM := (M lmem).

Definition lload (n : Z) : LM lnode :=
  fun m => match l_nodes m !! n with Some nd => Some (nd, m) | None => None end.

Definition lstore (n : Z) (nd : lnode) : LM unit :=
  fun m => match l_nodes m !! n with
           | Some _ => Some (tt, LMem (l_head m) (l_tail m) (<[n := nd]> (l_nodes m)))
           | None => None
           end.

Definition lset_next (n v : Z) : LM unit := let* nd := lload n in lstore n (LNode v (ln_prev nd)).
Definition lset_prev (n v : Z) : LM unit := let* nd := lload n in lstore n (LNode (ln_next nd) v).
Definition lset_head (v : Z) : LM unit := modify (fun m => LMem v (l_tail m) (l_nodes m)).
Definition lset_tail (v : Z) : LM unit := modify (fun m => LMem (l_head m) v (l_nodes m)).

Definition hev_list_node_prev (node : Z) : LM Z := let* nd := lload node in ret (ln_prev nd).
Definition hev_list_node_next (node : Z) : LM Z := let* nd := lload node in ret (ln_next nd).
Definition hev_list_first : LM Z := gets l_head.
Definition hev_list_last : LM Z := gets l_tail.

Definition hev_list_add_tail (new_ : Z) : LM unit :=
  let* tail := gets l_tail in
  lset_prev new_ tail;;
  lset_next new_ NULL;;
  (if negb (tail =? NULL) then lset_next tail new_ else lset_head new_);;
  lset_tail new_.

Definition hev_list_del (node : Z) : LM unit :=
  let* prev := hev_list_node_prev node in
  let* next := hev_list_node_next node in
  (if negb (prev =? NULL) then lset_next prev next else lset_head next);;
  let* next := hev_list_node_next node in
  let* prev := hev_list_node_prev node in
  if negb (next =? NULL) then lset_prev next prev else lset_tail prev.

(** ** Representation *)

Definition first_or (xs : list Z) (n : Z) : Z := default n (head xs).
Definition last_or (xs : list Z) (p : Z) : Z := default p (last xs).

(** The nodes [xs] linked in a row between [p] and [n]. *)
Fixpoint lseg (h : gmap Z lnode) (p : Z) (xs : list Z) (n : Z) : Prop :=
  match xs with
  | [] => True
  | x :: xs => h !! x = Some (LNode (first_or xs n) p) /\ lseg h x xs n
  end.

Definition list_rep (m : lmem) (xs : list Z) : Prop :=
  l_head m = first_or xs NULL /\ l_tail m = last_or xs NULL /\
  lseg (l_nodes m) NULL xs NULL /\ NoDup xs /\ Forall (fun x => x <> NULL) xs.

Definition lsame_off (xs : list Z) (h h' : gmap Z lnode) : Prop :=
  forall y, y ∉ xs -> h' !! y = h !! y.

Lemma first_or_app xs ys n : first_or (xs ++ ys) n = first_or xs (first_or ys n).
Proof. by destruct xs. Qed.

Lemma last_or_app xs ys p : last_or (xs ++ ys) p = last_or ys (last_or xs p).
Proof. unfold last_or. rewrite last_app. by destruct (last ys). Qed.

Lemma last_or_cons x xs p : last_or (x :: xs) p = last_or xs x.
Proof. unfold last_or. rewrite last_cons. by destruct (last xs). Qed.

Lemma lseg_app h p xs ys n :
  lseg h p (xs ++ ys) n <-> lseg h p xs (first_or ys n) /\ lseg h (last_or xs p) ys n.
Proof.
  revert p. induction xs as [|x xs IH]; intros p; simpl; [tauto|].
  rewrite IH, first_or_app, last_or_cons. tauto.
Qed.

Lemma lseg_same h h' p xs n :
  (forall y, y ∈ xs -> h' !! y = h !! y) -> lseg h p xs n -> lseg h' p xs n.
Proof.
  revert p. induction xs as [|x xs IH]; intros p Hs; simpl; [done|].
  intros [Hx Hl]. split; [rewrite Hs by set_solver; done|]. apply IH; [set_solver|done].
Qed.

Lemma lseg_insert h p xs n y nd : y ∉ xs -> lseg h p xs n -> lseg (<[y := nd]> h) p xs n.
Proof. intros Hy. apply lseg_same. intros z Hz. rewrite lookup_insert_ne; [done|set_solver]. Qed.

Lemma list_rep_empty h : list_rep (LMem NULL NULL h) [].
Proof. split_and!; try done; constructor. Qed.

Lemma list_rep_frame m m' xs :
  list_rep m xs -> l_head m' = l_head m -> l_tail m' = l_tail m ->
  (forall y, y ∈ xs -> l_nodes m' !! y = l_nodes m !! y) -> list_rep m' xs.
Proof.
  intros (H1 & H2 & H3 & H4 & H5) Hh Ht Hs. split_and!; try congruence. by eapply lseg_same.
Qed.

Lemma list_rep_first m xs : list_rep m xs -> hev_list_first m = Some (first_or xs NULL, m).
Proof. intros (<- & _). done. Qed.

Lemma list_rep_last m xs : list_rep m xs -> hev_list_last m = Some (last_or xs NULL, m).
Proof. intros (_ & <- & _). done. Qed.

Lemma last_or_in xs p : xs <> [] -> last_or xs p ∈ xs.
Proof.
  destruct xs as [|x xs _] using rev_ind; [done|]. intros _. unfold last_or. rewrite last_snoc. set_solver.
Qed.

(** ** Adding at the tail *)

Lemma list_add_tail m xs n :
  list_rep m xs -> n <> NULL -> n ∉ xs -> is_Some (l_nodes m !! n) ->
  exists m', hev_list_add_tail n m = Some (tt, m') /\ list_rep m' (xs ++ [n]) /\
    lsame_off (xs ++ [n]) (l_nodes m) (l_nodes m').
Proof.
  intros (Hh & Ht & Hs & Hnd & Hnz) Hn0 Hnx [[nx pv] Hn]. destruct m as [hd tl h]. simpl in *. subst hd tl.
  assert (NoDup (xs ++ [n])) as Hnd'.
  { apply NoDup_app. split_and!; [done|set_solver|]. apply NoDup_singleton. }
  assert (Forall (fun x => x <> NULL) (xs ++ [n])) as Hnz' by (by apply Forall_app; split; [|constructor]).
  unfold hev_list_add_tail, lset_prev, lset_next, lload, lstore, bind, gets. simpl.
  rewrite Hn. simpl. rewrite Hn. simpl. rewrite lookup_insert_eq. simpl. rewrite lookup_insert_eq. simpl.
  rewrite insert_insert_eq.
  destruct xs as [|x xs _] using rev_ind.
  - change (last_or [] NULL) with NULL. simpl.
    eexists. split; [done|]. split; [|intros y Hy; simpl; rewrite lookup_insert_ne; [done|set_solver]].
    split_and!; try done. simpl. by rewrite lookup_insert_eq.
  - assert (last_or (xs ++ [x]) NULL = x) as Hlast by (by rewrite last_or_app). rewrite Hlast.
    assert (x <> n /\ x ∉ xs) as [Hxn Hxxs].
    { apply NoDup_app in Hnd as (_ & Hd & _). split; [set_solver|]. intros Hx. by apply (Hd x Hx), list_elem_of_here. }
    rewrite (proj2 (Z.eqb_neq x NULL)) by (rewrite Forall_app, Forall_singleton in Hnz; tauto). simpl.
    rewrite lseg_app in Hs. simpl in Hs. destruct Hs as (Hs & Hx & _).
    rewrite lookup_insert_ne, Hx by done. simpl. rewrite lookup_insert_ne, Hx by done. simpl.
    eexists. split; [done|]. split.
    + split_and!; try done.
      * simpl. by rewrite !first_or_app.
      * simpl. by rewrite last_or_app.
      * simpl. rewrite lseg_app, lseg_app. simpl. rewrite !last_or_app. simpl. split_and!; try done.
        -- by do 2 (apply lseg_insert; [set_solver|]).
        -- by rewrite lookup_insert_eq.
        -- rewrite lookup_insert_ne by done. rewrite lookup_insert_eq. done.
    + intros y Hy. simpl. rewrite !lookup_insert_ne; [done|set_solver..].
Qed.

(** ** Removal *)

(** The first half of [hev_list_del]: the previous node, or the head, skips the
    removed one. *)
Lemma del_prev_side hd tl h xs1 n0 n :
  lseg h NULL xs1 n0 -> NoDup xs1 -> Forall (fun x => x <> NULL) xs1 ->
  exists hd' h', (if negb (last_or xs1 NULL =? NULL) then lset_next (last_or xs1 NULL) n else lset_head n)
      (LMem hd tl h) = Some (tt, LMem hd' tl h') /\
    lseg h' NULL xs1 n /\ (hd = first_or xs1 n0 -> hd' = first_or xs1 n) /\ lsame_off xs1 h h'.
Proof.
  intros Hs Hn Hz. destruct xs1 as [|x xs _] using rev_ind.
  - exists n, h. by split_and!.
  - assert (last_or (xs ++ [x]) NULL = x) as -> by (by rewrite last_or_app).
    rewrite Forall_app, Forall_singleton in Hz. destruct Hz as [_ Hz].
    apply NoDup_app in Hn as (_ & Hd & _). rewrite (proj2 (Z.eqb_neq x NULL)) by done. simpl.
    apply lseg_app in Hs as [Hs [Hx _]]. unfold lset_next, lload, lstore, bind. simpl. rewrite Hx. simpl. rewrite Hx.
    eexists _, _. split; [done|]. split_and!.
    + apply lseg_app. split; [|by simpl; rewrite lookup_insert_eq].
      apply lseg_insert; [|done]. intros Hi. by apply (Hd x Hi), list_elem_of_here.
    + intros ->. by rewrite !first_or_app.
    + intros y Hy. rewrite lookup_insert_ne; [done|set_solver].
Qed.

(** The second half: the next node, or the tail. *)
Lemma del_next_side hd tl h xs2 p0 p :
  lseg h p0 xs2 NULL -> NoDup xs2 -> Forall (fun x => x <> NULL) xs2 ->
  exists tl' h', (if negb (first_or xs2 NULL =? NULL) then lset_prev (first_or xs2 NULL) p else lset_tail p)
      (LMem hd tl h) = Some (tt, LMem hd tl' h') /\
    lseg h' p xs2 NULL /\ (tl = last_or xs2 p0 -> tl' = last_or xs2 p) /\ lsame_off xs2 h h'.
Proof.
  intros Hs Hn Hz. destruct xs2 as [|x xs].
  - exists p, h. by split_and!.
  - apply Forall_cons in Hz as [Hz _]. apply NoDup_cons in Hn as [Hn _]. destruct Hs as [Hx Hs].
    change (first_or (x :: xs) NULL) with x. rewrite (proj2 (Z.eqb_neq x NULL)) by done. simpl.
    unfold lset_prev, lload, lstore, bind. simpl. rewrite Hx. simpl. rewrite Hx.
    eexists _, _. split; [done|]. split_and!.
    + by rewrite lookup_insert_eq.
    + by apply lseg_insert.
    + intros ->. by rewrite !last_or_cons.
    + intros y Hy. rewrite lookup_insert_ne; [done|set_solver].
Qed.

Lemma list_node_links m xs1 n xs2 :
  list_rep m (xs1 ++ n :: xs2) ->
  l_nodes m !! n = Some (LNode (first_or xs2 NULL) (last_or xs1 NULL)).
Proof. intros (_ & _ & Hs & _). apply lseg_app in Hs as [_ [Hn _]]. done. Qed.

Lemma list_del m xs1 n xs2 :
  list_rep m (xs1 ++ n :: xs2) ->
  exists m', hev_list_del n m = Some (tt, m') /\ list_rep m' (xs1 ++ xs2) /\
    lsame_off (xs1 ++ xs2) (l_nodes m) (l_nodes m').
Proof.
  intros Hm. pose proof (list_node_links _ _ _ _ Hm) as Hn. destruct Hm as (Hh & Ht & Hs & Hnd & Hnz).
  destruct m as [hd tl h]. simpl in *.
  apply lseg_app in Hs as [Hs1 [_ Hs2]]. simpl in Hs1.
  apply NoDup_app in Hnd as (Hnd1 & Hd & Hnd2). apply NoDup_cons in Hnd2 as [Hn2 Hnd2].
  apply Forall_app in Hnz as [Hnz1 Hnz2]. apply Forall_cons in Hnz2 as [Hn0 Hnz2].
  assert (forall h', h' !! n = h !! n -> forall hd tl,
    hev_list_node_prev n (LMem hd tl h') = Some (last_or xs1 NULL, LMem hd tl h') /\
    hev_list_node_next n (LMem hd tl h') = Some (first_or xs2 NULL, LMem hd tl h')) as Hget.
  { intros h' Heq hd' tl'. unfold hev_list_node_prev, hev_list_node_next, bind, lload. simpl. by rewrite Heq, Hn. }
  unfold hev_list_del. destruct (Hget h eq_refl hd tl) as [Hp Hx].
  erewrite bind_Some by exact Hp. erewrite bind_Some by exact Hx.
  destruct (del_prev_side hd tl h xs1 n (first_or xs2 NULL)) as (hd' & h1 & Heq1 & Hl1 & Hhd & Hoff1); try done.
  erewrite bind_Some by exact Heq1.
  destruct (Hget h1 (Hoff1 n ltac:(intros Hi; by apply (Hd n Hi), list_elem_of_here)) hd' tl) as [Hp1 Hx1].
  erewrite bind_Some by exact Hx1. erewrite bind_Some by exact Hp1.
  destruct (del_next_side hd' tl h1 xs2 n (last_or xs1 NULL)) as (tl' & h2 & Heq2 & Hl2 & Htl & Hoff2); try done.
  { eapply lseg_same; [|done]. intros y Hy. apply Hoff1. set_solver. }
  rewrite Heq2. eexists. split; [done|]. split; [split_and!|]; simpl.
  - rewrite first_or_app in *. auto.
  - rewrite last_or_app, last_or_cons in Ht. rewrite last_or_app. auto.
  - apply lseg_app. split; [|done]. eapply lseg_same; [|done]. intros y Hy. apply Hoff2. set_solver.
  - apply NoDup_app. split_and!; try done. set_solver.
  - by apply Forall_app.
  - intros y Hy. rewrite Hoff2, Hoff1; set_solver.
Qed.

(** Moving a node to the tail, as the caches and session sets do. *)
Lemma list_move_tail m xs1 n xs2 :
  list_rep m (xs1 ++ n :: xs2) ->
  exists m', (hev_list_del n;; hev_list_add_tail n) m = Some (tt, m') /\
    list_rep m' (xs1 ++ xs2 ++ [n]) /\
    lsame_off (xs1 ++ n :: xs2) (l_nodes m) (l_nodes m').
Proof.
  intros Hm. destruct (list_del m xs1 n xs2 Hm) as (m1 & Heq1 & Hm1 & Hoff1).
  pose proof (list_node_links _ _ _ _ Hm) as Hn. destruct Hm as (_ & _ & _ & Hnd & Hnz).
  apply NoDup_app in Hnd as (Hnd1 & Hd & Hnd2). apply NoDup_cons in Hnd2 as [Hn2 Hnd2].
  apply Forall_app in Hnz as [_ Hnz]. apply Forall_cons in Hnz as [Hnz _].
  assert (n ∉ xs1 ++ xs2) as Hni by (intros Hi; apply elem_of_app in Hi as [Hi|Hi]; set_solver).
  destruct (list_add_tail m1 (xs1 ++ xs2) n) as (m2 & Heq2 & Hm2 & Hoff2); try done.
  { rewrite Hoff1 by done. eauto. }
  exists m2. split; [by erewrite bind_Some by exact Heq1|]. rewrite <-app_assoc in Hm2. split; [done|].
  intros y Hy. rewrite Hoff2, Hoff1; set_solver.
Qed.

Lemma list_rep_live m xs y : list_rep m xs -> y ∈ xs -> is_Some (l_nodes m !! y).
Proof.
  intros Hm Hy. apply list_elem_of_split in Hy as (xs1 & xs2 & ->).
  rewrite (list_node_links _ _ _ _ Hm). by eexists.
Qed.

(** Linking and unlinking neither adds nor removes a node of the heap. *)
Lemma lsame_off_dom xs h h' :
  lsame_off xs h h' -> (forall x, x ∈ xs -> is_Some (h !! x)) -> (forall x, x ∈ xs -> is_Some (h' !! x)) -> dom h' = dom h.
Proof.
  intros Hoff H1 H2. apply set_eq. intros x. rewrite !elem_of_dom. destruct (decide (x ∈ xs)) as [Hx|Hx]; [naive_solver|].
  by rewrite (Hoff x Hx).
Qed.

Lemma list_add_tail_dom m xs n :
  list_rep m xs -> n <> NULL -> n ∉ xs -> is_Some (l_nodes m !! n) ->
  exists m', hev_list_add_tail n m = Some (tt, m') /\ list_rep m' (xs ++ [n]) /\ dom (l_nodes m') = dom (l_nodes m).
Proof.
  intros Hm H0 Hx Hn. destruct (list_add_tail m xs n Hm H0 Hx Hn) as (m' & E & Hm' & Hoff). exists m'. split_and!; try done.
  apply (lsame_off_dom _ _ _ Hoff); intros x Hxx; [|by eapply list_rep_live].
  apply elem_of_app in Hxx as [Hxx|Hxx%list_elem_of_singleton]; [by eapply list_rep_live|by subst].
Qed.

Lemma list_del_dom m xs1 n xs2 :
  list_rep m (xs1 ++ n :: xs2) ->
  exists m', hev_list_del n m = Some (tt, m') /\ list_rep m' (xs1 ++ xs2) /\ dom (l_nodes m') = dom (l_nodes m).
Proof.
  intros Hm. destruct (list_del m xs1 n xs2 Hm) as (m' & E & Hm' & Hoff). exists m'. split_and!; try done.
  apply (lsame_off_dom _ _ _ Hoff); intros x Hxx; [|by eapply list_rep_live].
  eapply list_rep_live; [done|]. set_solver.
Qed.

Lemma list_move_dom m xs1 n xs2 :
  list_rep m (xs1 ++ n :: xs2) ->
  exists m', (hev_list_del n;; hev_list_add_tail n) m = Some (tt, m') /\ list_rep m' (xs1 ++ xs2 ++ [n]) /\ dom (l_nodes m') = dom (l_nodes m).
Proof.
  intros Hm. destruct (list_move_tail m xs1 n xs2 Hm) as (m' & E & Hm' & Hoff). exists m'. split_and!; try done.
  apply (lsame_off_dom _ _ _ Hoff); intros x Hxx; (eapply list_rep_live; [done|]); set_solver.
Qed.
