(* ===== verification/MappedDNS.v ===== *)
(** * Mapped DNS (hev-mapped-dns.c)

    A bounded cache that gives every looked-up name an address inside a private
    network: names are found through a red-black tree, recency is kept in a
    linked list, and the address index leads back to the name through an array.
    The concrete state is the C object with its three heaps; the abstract one is
    the list of (name, index) pairs from the least to the most recently used. *)

From S2P Require Import Prelude RBTree RBModel RBRep RBSpec KeyedTree HevList.

(** ** State *)

(** [struct _HevMappedDNSNode] without its two links, which live in the tree and
    list heaps under the same address: [container_of] is the identity here. *)
Record mnode := MNode { mn_name : option (list Z); mn_idx : Z }.

(** [struct _HevMappedDNS] *)
Record mdns := MDns {
  md_use : Z; md_max : Z; md_net : Z; md_mask : Z;
  md_list : lmem; md_tree : rbmem; md_nodes : gmap Z mnode; md_records : list Z
}.

Abbreviation MD := (M mdns).

Definition with_list (l : lmem) (s : mdns) : mdns :=
  MDns (md_use s) (md_max s) (md_net s) (md_mask s) l (md_tree s) (md_nodes s) (md_records s).
Definition with_tree (t : rbmem) (s : mdns) : mdns :=
  MDns (md_use s) (md_max s) (md_net s) (md_mask s) (md_list s) t (md_nodes s) (md_records s).
Definition with_nodes (ns : gmap Z mnode) (s : mdns) : mdns :=
  MDns (md_use s) (md_max s) (md_net s) (md_mask s) (md_list s) (md_tree s) ns (md_records s).
Definition with_records (rs : list Z) (s : mdns) : mdns :=
  MDns (md_use s) (md_max s) (md_net s) (md_mask s) (md_list s) (md_tree s) (md_nodes s) rs.
Definition with_use (u : Z) (s : mdns) : mdns :=
  MDns u (md_max s) (md_net s) (md_mask s) (md_list s) (md_tree s) (md_nodes s) (md_records s).

Definition on_list {A} (c : LM A) : MD A := zoom md_list with_list c.
Definition on_tree {A} (c : RB A) : MD A := zoom md_tree with_tree c.

Definition load_node (n : Z) : MD mnode :=
  fun s => match md_nodes s !! n with Some nd => Some (nd, s) | None => None end.
Definition store_node (n : Z) (nd : mnode) : MD unit :=
  modify (fun s => with_nodes (<[n := nd]> (md_nodes s)) s).

(** [self->records[idx]] *)
Definition get_record (idx : Z) : MD Z :=
  fun s => if (0 <=? idx) then
    match md_records s !! Z.to_nat idx with Some n => Some (n, s) | None => None end else None.
Definition set_record (idx n : Z) : MD unit :=
  fun s => if (0 <=? idx) && (idx <? Z.of_nat (length (md_records s))) then
    Some (tt, with_records (<[Z.to_nat idx := n]> (md_records s)) s) else None.

(** ** Nodes *)

(** The memory of a node, as [hev_malloc0] gives it, and its release. *)
Definition node_malloc0 (n : Z) : MD unit :=
  modify (fun s =>
    with_nodes (<[n := MNode None 0]> (md_nodes s))
      (with_list (LMem (l_head (md_list s)) (l_tail (md_list s)) (<[n := LNode NULL NULL]> (l_nodes (md_list s))))
        (with_tree (RBMem (rb_root (md_tree s)) (<[n := RBNode NULL NULL NULL]> (rb_nodes (md_tree s)))) s))).

Definition release_state (n : Z) (s : mdns) : mdns :=
  with_nodes (delete n (md_nodes s))
    (with_list (LMem (l_head (md_list s)) (l_tail (md_list s)) (delete n (l_nodes (md_list s))))
      (with_tree (RBMem (rb_root (md_tree s)) (delete n (rb_nodes (md_tree s)))) s)).

Definition node_release (n : Z) : MD unit := modify (release_state n).

(** [addr] is what the allocator returns, [dup] whether [strdup] succeeds. *)
Definition hev_mapped_dns_node_alloc (addr : Z) (dup : bool) (name : list Z) : MD Z :=
  if addr =? NULL then ret NULL else
  node_malloc0 addr;;
  if dup then store_node addr (MNode (Some name) 0);; ret addr
  else node_release addr;; ret NULL.

Definition hev_mapped_dns_node_free (node : Z) : MD unit :=
  load_node node;; node_release node.

(** ** Finding and looking up *)

Definition node_key (ns : gmap Z mnode) (n : Z) : option (list Z) := ns !! n ≫= mn_name.

Definition hev_mapped_dns_find (addr : Z) (dup : bool) (name : list Z) : MD Z :=
  let* idx := gets md_use in
  let* ns := gets md_nodes in
  let* res := on_tree (rb_find_link (cmp_with strcmp (node_key ns) name)) in
  match res with
  | Found node =>
    on_list (hev_list_del node);;
    on_list (hev_list_add_tail node);;
    let* nd := load_node node in ret (mn_idx nd)
  | NotFound parent new =>
    let* node := hev_mapped_dns_node_alloc addr dup name in
    if node =? NULL then ret (-1) else
    on_tree (hev_rbtree_node_link node parent new);;
    on_tree (hev_rbtree_insert_color node);;
    on_list (hev_list_add_tail node);;
    let* use := gets md_use in
    let* max := gets md_max in
    let* idx :=
      (if use <? max then modify (with_use (use + 1));; ret idx
       else
         let* nf := on_list hev_list_first in
         let* nd := load_node nf in
         let idx := mn_idx nd in
         on_tree (hev_rbtree_erase nf);;
         on_list (hev_list_del nf);;
         hev_mapped_dns_node_free nf;;
         ret idx) in
    set_record idx node;;
    let* nd := load_node node in
    store_node node (MNode (mn_name nd) idx);;
    let* nd := load_node node in ret (mn_idx nd)
  end.

Definition hev_mapped_dns_lookup (ip : Z) : MD (option (list Z)) :=
  let* mask := gets md_mask in
  let* max := gets md_max in
  let idx := Z.land ip (Z.lnot mask) in
  if max <=? idx then ret None else
  let* node := get_record idx in
  if node =? NULL then ret None else
  on_list (hev_list_del node);;
  on_list (hev_list_add_tail node);;
  let* nd := load_node node in ret (mn_name nd).

(** [hev_mapped_dns_new] after a successful [hev_malloc0], with
    [hev_mapped_dns_construct]: [None] when it returns an error. *)
Definition hev_mapped_dns_construct (net mask max : Z) : option mdns :=
  if Z.lnot mask <? max then None
  else Some (MDns 0 max net mask (LMem NULL NULL ∅) (RBMem NULL ∅) ∅ (replicate (Z.to_nat max) NULL)).

(** The loop of [hev_mapped_dns_destruct]. *)
Fixpoint destruct_loop (fuel : nat) (n : Z) : MD unit :=
  match fuel with
  | O => fail
  | S fuel =>
    if n =? NULL then ret tt else
    let t := n in
    let* n := on_list (hev_list_node_next n) in
    hev_mapped_dns_node_free t;;
    destruct_loop fuel n
  end.

Definition hev_mapped_dns_destruct : MD unit :=
  let* fuel := gets (fun s => S (size (md_nodes s))) in
  let* n := on_list hev_list_first in
  destruct_loop fuel n.

(** ** The abstract cache *)

Abbreviation entries := (list (list Z * Z)).

Fixpoint entry_idx (name : list Z) (es : entries) : option Z :=
  match es with
  | [] => None
  | (n, i) :: es => if decide (n = name) then Some i else entry_idx name es
  end.

Fixpoint entry_name (i : Z) (es : entries) : option (list Z) :=
  match es with
  | [] => None
  | (n, j) :: es => if decide (j = i) then Some n else entry_name i es
  end.

Definition drop_name (name : list Z) (es : entries) : entries :=
  filter (fun e => e.1 <> name) es.

Definition spec_find (max : Z) (name : list Z) (es : entries) : Z * entries :=
  match entry_idx name es with
  | Some i => (i, drop_name name es ++ [(name, i)])
  | None =>
    if Z.of_nat (length es) <? max then
      (Z.of_nat (length es), es ++ [(name, Z.of_nat (length es))])
    else match es with
         | (_, i) :: es => (i, es ++ [(name, i)])
         | [] => (-1, [])
         end
  end.

Definition spec_lookup (i : Z) (es : entries) : option (list Z) * entries :=
  match entry_name i es with
  | Some name => (Some name, drop_name name es ++ [(name, i)])
  | None => (None, es)
  end.

(** ** Tree and list in step *)

Lemma zoom_Some {S T A} (get : T -> S) put (c : M S A) t a s' :
  c (get t) = Some (a, s') -> zoom get put c t = Some (a, put s' t).
Proof. intros H. unfold zoom. by rewrite H. Qed.

(** The tree holds the nodes of the list, sorted by name. *)
Definition md_core (s : mdns) (lru : list Z) : Prop :=
  list_rep (md_list s) lru /\
  exists xs, xs ≡ₚ lru /\ rb_tree (md_tree s) xs /\ sorted_by cstr strcmp (node_key (md_nodes s)) xs.

(** Everything but the two links and the nodes. *)
Definition same_rest (s s' : mdns) : Prop :=
  md_use s' = md_use s /\ md_max s' = md_max s /\ md_net s' = md_net s /\
  md_mask s' = md_mask s /\ md_records s' = md_records s.

Lemma core_nodup s lru : md_core s lru -> NoDup lru.
Proof. intros [(_ & _ & _ & H & _) _]. done. Qed.

Lemma core_nz s lru n : md_core s lru -> n ∈ lru -> n <> NULL.
Proof. intros [(_ & _ & _ & _ & H) _]. rewrite Forall_forall in H. by apply H. Qed.

Lemma core_inj s lru n n' name :
  md_core s lru -> n ∈ lru -> n' ∈ lru ->
  node_key (md_nodes s) n = Some name -> node_key (md_nodes s) n' = Some name -> n = n'.
Proof.
  intros [_ (xs & Hp & _ & Hs)] Hn Hn'. rewrite <-Hp in Hn, Hn'. intros.
  by eapply (sorted_by_inj cstr strcmp _ xs).
Qed.

Lemma core_key s lru n :
  md_core s lru -> n ∈ lru -> exists name, node_key (md_nodes s) n = Some name /\ cstr name.
Proof.
  intros [_ (xs & Hp & _ & Hk & _)] Hn. rewrite <-Hp in Hn. rewrite Forall_forall in Hk. auto.
Qed.

(** Changes to the nodes that keep the names. *)
Lemma core_names s lru ns :
  md_core s lru -> (forall n, n ∈ lru -> node_key ns n = node_key (md_nodes s) n) ->
  md_core (with_nodes ns s) lru.
Proof.
  intros [Hl (xs & Hp & Ht & Hs)] Hk. split; [done|]. exists xs. split_and!; try done.
  eapply (sorted_by_ext cstr strcmp); [|done]. intros x Hx. apply Hk. by rewrite <-Hp.
Qed.

(** [hev_list_del; hev_list_add_tail] *)
Lemma core_touch s l1 n l2 :
  md_core s (l1 ++ n :: l2) ->
  exists s1 s', on_list (hev_list_del n) s = Some (tt, s1) /\
    on_list (hev_list_add_tail n) s1 = Some (tt, s') /\
    md_core s' (l1 ++ l2 ++ [n]) /\ md_nodes s' = md_nodes s /\ same_rest s s'.
Proof.
  intros [Hl Ht]. destruct (list_move_tail _ _ _ _ Hl) as (m & Heq & Hm & _).
  apply bind_Some_inv in Heq as ([] & m1 & Heq1 & Heq2).
  exists (with_list m1 s), (with_list m s).
  split; [by apply zoom_Some|]. split; [exact (zoom_Some md_list with_list _ (with_list m1 s) _ _ Heq2)|].
  split; [|by split_and!]. split; [done|]. destruct Ht as (xs & Hp & Hxs). exists xs. split; [|done].
  rewrite Hp. apply Permutation_app_head, Permutation_cons_append.
Qed.

(** The state after a successful allocation. *)
Definition alloc_state (a : Z) (name : list Z) (s : mdns) : mdns :=
  with_nodes (<[a := MNode (Some name) 0]> (md_nodes s))
    (with_list (LMem (l_head (md_list s)) (l_tail (md_list s)) (<[a := LNode NULL NULL]> (l_nodes (md_list s))))
      (with_tree (RBMem (rb_root (md_tree s)) (<[a := RBNode NULL NULL NULL]> (rb_nodes (md_tree s)))) s)).

Lemma node_alloc_eq a name s :
  okp a -> hev_mapped_dns_node_alloc a true name s = Some (a, alloc_state a name s).
Proof.
  intros Hok. unfold hev_mapped_dns_node_alloc. rewrite okp_eqb by done.
  unfold node_malloc0, store_node, modify, bind, ret. cbn [with_nodes with_list with_tree md_nodes].
  by rewrite insert_insert_eq.
Qed.

(** Linking a freshly allocated node. *)
Lemma core_add s lru parent link xs1 xs2 a name :
  md_core s lru -> xs1 ++ xs2 ≡ₚ lru -> insert_point (md_tree s) xs1 xs2 parent link ->
  (forall key' n, (forall x, x ∈ xs1 ++ xs2 -> key' x = node_key (md_nodes s) x) ->
     key' n = Some name -> sorted_by cstr strcmp key' (xs1 ++ n :: xs2)) ->
  okp a -> a ∉ lru ->
  exists s1 s2 s3 s', hev_mapped_dns_node_alloc a true name s = Some (a, s1) /\
    on_tree (hev_rbtree_node_link a parent link) s1 = Some (tt, s2) /\
    on_tree (hev_rbtree_insert_color a) s2 = Some (tt, s3) /\
    on_list (hev_list_add_tail a) s3 = Some (tt, s') /\
    md_core s' (lru ++ [a]) /\ md_nodes s' = <[a := MNode (Some name) 0]> (md_nodes s) /\ same_rest s s'.
Proof.
  intros [Hl _] Hp Hip Hsort Hok Ha. set (s1 := alloc_state a name s).
  assert (a ∉ xs1 ++ xs2) as Hax by (by rewrite Hp).
  destruct (rb_insert (md_tree s1) xs1 xs2 parent link a) as (m' & Heq & Hm' & _); try done.
  { eapply insert_point_frame; [exact Hip|done|].
    intros y Hy. simpl. rewrite lookup_insert_ne; [reflexivity|set_solver]. }
  { simpl. rewrite lookup_insert_eq. by eexists. }
  destruct (list_add_tail (md_list s1) lru a) as (l' & Heq3 & Hl' & _); try done.
  { eapply list_rep_frame; [exact Hl|done|done|].
    intros y Hy. simpl. rewrite lookup_insert_ne; [reflexivity|set_solver]. }
  { destruct Hok. unfold NULL. lia. } { simpl. rewrite lookup_insert_eq. by eexists. }
  apply bind_Some_inv in Heq as ([] & m1 & Heq1 & Heq2).
  exists s1, (with_tree m1 s1), (with_tree m' s1), (with_list l' (with_tree m' s1)).
  split; [by apply node_alloc_eq|].
  split; [exact (zoom_Some md_tree with_tree _ s1 _ _ Heq1)|].
  split; [exact (zoom_Some md_tree with_tree _ (with_tree m1 s1) _ _ Heq2)|].
  split; [exact (zoom_Some md_list with_list _ (with_tree m' s1) _ _ Heq3)|].
  split; [|by split_and!]. split; [done|].
  exists (xs1 ++ a :: xs2). split_and!; try done.
  - rewrite <-Hp, <-Permutation_middle, Permutation_cons_append. done.
  - apply Hsort.
    + intros x Hx. unfold node_key. simpl. rewrite lookup_insert_ne; [done|set_solver].
    + unfold node_key. simpl. by rewrite lookup_insert_eq.
Qed.

(** Evicting the least recently used node. *)
Lemma core_evict s f rest :
  md_core s (f :: rest) ->
  exists s1 s2 s', on_tree (hev_rbtree_erase f) s = Some (tt, s1) /\
    on_list (hev_list_del f) s1 = Some (tt, s2) /\
    hev_mapped_dns_node_free f s2 = Some (tt, s') /\
    md_core s' rest /\ md_nodes s' = delete f (md_nodes s) /\ same_rest s s'.
Proof.
  intros Hc. pose proof (core_nodup _ _ Hc) as Hnd. apply NoDup_cons in Hnd as [Hf _].
  destruct (core_key s (f :: rest) f Hc) as (name & Hk & _); [set_solver|].
  destruct Hc as [Hl (xs & Hp & Ht & Hs)].
  assert (exists xs1 xs2, xs = xs1 ++ f :: xs2) as (xs1 & xs2 & ->).
  { apply list_elem_of_split. rewrite Hp. set_solver. }
  assert (xs1 ++ xs2 ≡ₚ rest) as Hp'.
  { rewrite <-Permutation_middle in Hp. by apply (Permutation.Permutation_cons_inv (a := f)) in Hp. }
  destruct (rb_erase _ _ _ _ Ht) as (m' & Heq1 & Hm' & _).
  destruct (list_del _ [] f rest Hl) as (l' & Heq2 & Hl' & _). simpl in Hl'.
  set (s2 := with_list l' (with_tree m' s)).
  exists (with_tree m' s), s2. eexists.
  split; [by apply zoom_Some|].
  split; [exact (zoom_Some md_list with_list _ (with_tree m' s) _ _ Heq2)|].
  unfold hev_mapped_dns_node_free, load_node, bind. simpl.
  unfold node_key in Hk. destruct (md_nodes s !! f) as [nd|] eqn:Hnd; [|done].
  split; [done|]. split; [|by split_and!]. split.
  - eapply list_rep_frame; [exact Hl'|done..|]. intros y Hy. simpl. rewrite lookup_delete_ne; [done|set_solver].
  - simpl. exists (xs1 ++ xs2). split_and!; try done.
    + eapply rb_tree_frame; [exact Hm'|done|]. intros y Hy. simpl. rewrite lookup_delete_ne; [done|].
      rewrite Hp' in Hy. set_solver.
    + eapply (sorted_by_ext cstr strcmp); [|by eapply (sorted_by_drop cstr strcmp)].
      intros x Hx. unfold node_key. simpl.
      rewrite lookup_delete_ne; [done|]. rewrite Hp' in Hx. set_solver.
Qed.

(** ** The invariant and the abstraction *)

Record md_inv (s : mdns) (lru : list Z) : Prop := {
  mi_core : md_core s lru;
  mi_use : md_use s = Z.of_nat (length lru);
  mi_max : 0 < md_max s /\ md_use s <= md_max s;
  mi_len : length (md_records s) = Z.to_nat (md_max s);
  mi_idx n : n ∈ lru -> exists nd i, md_nodes s !! n = Some nd /\ mn_idx nd = Z.of_nat i /\
    (i < length lru)%nat /\ md_records s !! i = Some n;
  mi_rec i : (i < length lru)%nat -> exists n nd, md_records s !! i = Some n /\ n ∈ lru /\
    md_nodes s !! n = Some nd /\ mn_idx nd = Z.of_nat i;
  mi_none i : (length lru <= i < length (md_records s))%nat -> md_records s !! i = Some NULL
}.

Definition entry_of (ns : gmap Z mnode) (n : Z) : list Z * Z :=
  match ns !! n with
  | Some nd => (default [] (mn_name nd), mn_idx nd)
  | None => ([], -1)
  end.

Definition abs (s : mdns) (lru : list Z) : entries := map (entry_of (md_nodes s)) lru.

Lemma md_inv_perm s lru s' lru' :
  md_inv s lru -> lru' ≡ₚ lru -> md_core s' lru' -> md_nodes s' = md_nodes s -> same_rest s s' ->
  md_inv s' lru'.
Proof.
  intros [Hc Hu Hm Hl Hi Hr Hn] Hp Hc' Hns (Eu & Em & _ & _ & Er).
  pose proof (Permutation_length Hp) as Hlen.
  split; rewrite ?Hns, ?Eu, ?Em, ?Er, ?Hlen; try done.
  - intros n Hin. rewrite Hp in Hin. auto.
  - intros i Hi'. destruct (Hr i Hi') as (n & nd & ? & ? & ?). exists n, nd. by rewrite Hp.
Qed.

Lemma entry_idx_at name i es1 es2 :
  Forall (fun e => e.1 <> name) es1 -> entry_idx name (es1 ++ (name, i) :: es2) = Some i.
Proof.
  induction 1 as [|[n j] es1 Hx _ IH]; simpl; [by rewrite decide_True|]. by rewrite decide_False.
Qed.

Lemma entry_idx_none name es : Forall (fun e => e.1 <> name) es -> entry_idx name es = None.
Proof. induction 1 as [|[n j] es Hx _ IH]; simpl; [done|]. by rewrite decide_False. Qed.

Lemma drop_name_at name i es1 es2 :
  Forall (fun e => e.1 <> name) es1 -> Forall (fun e => e.1 <> name) es2 ->
  drop_name name (es1 ++ (name, i) :: es2) = es1 ++ es2.
Proof.
  intros H1 H2. unfold drop_name. rewrite filter_app, filter_cons, decide_False by (simpl; tauto).
  by rewrite !filter_all.
Qed.

Lemma entry_name_at name i es1 es2 :
  Forall (fun e => e.2 <> i) es1 -> entry_name i (es1 ++ (name, i) :: es2) = Some name.
Proof.
  induction 1 as [|[n j] es1 Hx _ IH]; simpl; [by rewrite decide_True|]. by rewrite decide_False.
Qed.

Lemma entry_name_none i es : Forall (fun e => e.2 <> i) es -> entry_name i es = None.
Proof. induction 1 as [|[n j] es Hx _ IH]; simpl; [done|]. by rewrite decide_False. Qed.

(** The entry of a cached node, and of the other ones. *)
Lemma entry_of_key s lru n name nd :
  md_core s lru -> n ∈ lru -> md_nodes s !! n = Some nd -> node_key (md_nodes s) n = Some name ->
  entry_of (md_nodes s) n = (name, mn_idx nd).
Proof. intros _ _ Hn Hk. unfold entry_of, node_key in *. rewrite Hn in *. simpl in Hk. by rewrite Hk. Qed.

Lemma abs_names_ne s lru l name :
  md_core s lru -> (forall n, n ∈ l -> n ∈ lru /\ node_key (md_nodes s) n <> Some name) ->
  Forall (fun e => e.1 <> name) (abs s l).
Proof.
  intros Hc Hl. apply Forall_forall. intros e He. apply list_elem_of_fmap in He as (n & -> & Hn).
  destruct (Hl n Hn) as [Hin Hne]. destruct (core_key _ _ _ Hc Hin) as (nm & Hk & _).
  unfold node_key, entry_of in *. destruct (md_nodes s !! n) as [nd|]; [|done].
  simpl in *. rewrite Hk. simpl. congruence.
Qed.

(** ** Refinement: touching *)

(** A cached node [n] in a recency list, as the abstract entries see it. *)
Lemma abs_split s l1 n l2 name nd :
  md_core s (l1 ++ n :: l2) -> md_nodes s !! n = Some nd -> node_key (md_nodes s) n = Some name ->
  abs s (l1 ++ n :: l2) = abs s l1 ++ (name, mn_idx nd) :: abs s l2 /\
  Forall (fun e => e.1 <> name) (abs s l1) /\ Forall (fun e => e.1 <> name) (abs s l2).
Proof.
  intros Hc Hn Hk. pose proof (core_nodup _ _ Hc) as Hnd.
  apply NoDup_app in Hnd as (_ & Hd & Hnd). apply NoDup_cons in Hnd as [Hn2 _].
  split; [|split].
  - unfold abs. rewrite map_app. simpl. by rewrite (entry_of_key s (l1 ++ n :: l2) n name nd) by (done || set_solver).
  - eapply abs_names_ne; [done|]. intros n' Hn'. split; [set_solver|]. intros Hk'.
    assert (n' = n) as -> by (eapply core_inj; [done|set_solver|set_solver|done..]). set_solver.
  - eapply abs_names_ne; [done|]. intros n' Hn'. split; [set_solver|]. intros Hk'.
    assert (n' = n) as -> by (eapply core_inj; [done|set_solver|set_solver|done..]). set_solver.
Qed.

Lemma abs_same s s' lru : md_nodes s' = md_nodes s -> abs s' lru = abs s lru.
Proof. intros H. unfold abs. by rewrite H. Qed.

(** Moving a cached node to the back, common to a hit of [find] and to [lookup]. *)
Lemma touch_ok s lru n nd name :
  md_inv s lru -> n ∈ lru -> md_nodes s !! n = Some nd -> mn_name nd = Some name ->
  exists s1 s' lru', on_list (hev_list_del n) s = Some (tt, s1) /\
    on_list (hev_list_add_tail n) s1 = Some (tt, s') /\
    md_inv s' lru' /\ lru' ≡ₚ lru /\ md_nodes s' = md_nodes s /\ same_rest s s' /\
    entry_idx name (abs s lru) = Some (mn_idx nd) /\
    abs s' lru' = drop_name name (abs s lru) ++ [(name, mn_idx nd)].
Proof.
  intros Hi Hn Hnd Hname. apply list_elem_of_split in Hn as (l1 & l2 & ->).
  pose proof (mi_core _ _ Hi) as Hc.
  destruct (core_touch _ _ _ _ Hc) as (s1 & s' & Heq1 & Heq2 & Hc' & Hns & Hr).
  assert (node_key (md_nodes s) n = Some name) as Hk by (unfold node_key; by rewrite Hnd).
  destruct (abs_split s l1 n l2 name nd) as (Habs & H1 & H2); try done.
  assert (l1 ++ l2 ++ [n] ≡ₚ l1 ++ n :: l2) as Hp.
  { apply Permutation_app_head. symmetry. apply Permutation_cons_append. }
  exists s1, s', (l1 ++ l2 ++ [n]). split_and!; try done; try apply Hr.
  - by eapply md_inv_perm.
  - by rewrite Habs, entry_idx_at.
  - rewrite (abs_same s s') by done. rewrite Habs, drop_name_at by done.
    unfold abs. rewrite !map_app. simpl.
    rewrite (entry_of_key s (l1 ++ n :: l2) n name nd) by (done || set_solver). by rewrite <-app_assoc.
Qed.

(** ** Refinement: [hev_mapped_dns_find] *)

(** The search of the name tree. *)
Lemma find_search s lru name :
  md_inv s lru -> cstr name ->
  exists res, on_tree (rb_find_link (cmp_with strcmp (node_key (md_nodes s)) name)) s = Some (res, s) /\
    match res with
    | Found n => n ∈ lru /\ node_key (md_nodes s) n = Some name
    | NotFound parent link =>
      entry_idx name (abs s lru) = None /\
      exists xs1 xs2, xs1 ++ xs2 ≡ₚ lru /\ insert_point (md_tree s) xs1 xs2 parent link /\
        forall key' n, (forall x, x ∈ xs1 ++ xs2 -> key' x = node_key (md_nodes s) x) ->
          key' n = Some name -> sorted_by cstr strcmp key' (xs1 ++ n :: xs2)
    end.
Proof.
  intros Hi Hname. pose proof (mi_core _ _ Hi) as Hc. pose proof Hc as [_ (xs & Hp & Ht & Hs)].
  destruct (keyed_find_link cstr strcmp _ _ _ _ name (fun _ _ => eq_refl) Ht Hs Hname) as (res & Heq & Hres).
  exists res. split.
  - unfold on_tree, zoom. rewrite Heq. by destruct s.
  - destruct res as [n|parent link].
    + destruct Hres as (xs1 & xs2 & -> & Hk). split; [|done]. rewrite <-Hp. set_solver.
    + destruct Hres as (xs1 & xs2 & -> & Hip & Hno & Hsort). split; [|by exists xs1, xs2].
      apply entry_idx_none. eapply abs_names_ne; [done|]. intros n Hn. split; [done|].
      apply Hno. by rewrite Hp.
Qed.

Lemma find_hit s lru a dup name :
  md_inv s lru -> cstr name -> entry_idx name (abs s lru) <> None ->
  exists i s' lru', hev_mapped_dns_find a dup name s = Some (i, s') /\ md_inv s' lru' /\
    lru' ≡ₚ lru /\ same_rest s s' /\ entry_idx name (abs s lru) = Some i /\
    abs s' lru' = drop_name name (abs s lru) ++ [(name, i)].
Proof.
  intros Hi Hname Hhit. destruct (find_search s lru name Hi Hname) as (res & Heq & Hres).
  destruct res as [n|parent link]; [|by destruct Hres].
  destruct Hres as [Hn Hk]. destruct (mi_idx _ _ Hi n Hn) as (nd & i & Hnd & _).
  unfold node_key in Hk. rewrite Hnd in Hk. simpl in Hk.
  destruct (touch_ok s lru n nd name) as (s1 & s' & lru' & Heq1 & Heq2 & Hi' & Hp & Hns & Hr & He & Habs); try done.
  exists (mn_idx nd), s', lru'. split_and!; try done; try apply Hr.
  unfold hev_mapped_dns_find. erewrite bind_Some by done. erewrite bind_Some by done.
  erewrite bind_Some by exact Heq. cbv iota. erewrite bind_Some by exact Heq1. erewrite bind_Some by exact Heq2.
  unfold load_node, bind. by rewrite Hns, Hnd.
Qed.

(** A miss of the abstract cache is a miss of the tree. *)
Lemma cached_entry s lru n name :
  md_inv s lru -> n ∈ lru -> node_key (md_nodes s) n = Some name -> entry_idx name (abs s lru) <> None.
Proof.
  intros Hi Hn Hk. destruct (mi_idx _ _ Hi n Hn) as (nd & i & Hnd & _).
  unfold node_key in Hk. rewrite Hnd in Hk.
  destruct (touch_ok s lru n nd name) as (? & ? & ? & _ & _ & _ & _ & _ & _ & He & _); try done. congruence.
Qed.

(** The tail of a miss: the record and the node take the index. *)
Lemma set_record_eq s i n :
  (i < length (md_records s))%nat ->
  set_record (Z.of_nat i) n s = Some (tt, with_records (<[i := n]> (md_records s)) s).
Proof.
  intros Hi. unfold set_record. rewrite (proj2 (Z.leb_le _ _)), (proj2 (Z.ltb_lt _ _)) by lia.
  by rewrite Nat2Z.id.
Qed.

(** The abstraction only looks at the nodes of the list. *)
Lemma abs_ext s s' lru :
  (forall n, n ∈ lru -> md_nodes s' !! n = md_nodes s !! n) -> abs s' lru = abs s lru.
Proof.
  intros H. unfold abs. apply map_ext_in. intros n Hn. apply list_elem_of_In in Hn.
  unfold entry_of. by rewrite H.
Qed.

(** Giving the new node [a] the slot [i], in a core that already holds it. *)
Lemma assign_ok s lru i a name use :
  md_core s (lru ++ [a]) -> md_nodes s !! a = Some (MNode (Some name) 0) ->
  (i <= length lru)%nat -> use = Z.of_nat (S (length lru)) -> use <= md_max s ->
  length (md_records s) = Z.to_nat (md_max s) ->
  (forall n, n ∈ lru -> exists nd j, md_nodes s !! n = Some nd /\ mn_idx nd = Z.of_nat j /\
     (j <= length lru)%nat /\ j <> i /\ md_records s !! j = Some n) ->
  (forall j, (j <= length lru)%nat -> j <> i -> exists n nd, md_records s !! j = Some n /\ n ∈ lru /\
     md_nodes s !! n = Some nd /\ mn_idx nd = Z.of_nat j) ->
  (forall j, (length lru < j < length (md_records s))%nat -> md_records s !! j = Some NULL) ->
  let s' := with_nodes (<[a := MNode (Some name) (Z.of_nat i)]> (md_nodes s))
              (with_use use (with_records (<[i := a]> (md_records s)) s)) in
  md_inv s' (lru ++ [a]) /\ abs s' (lru ++ [a]) = abs s lru ++ [(name, Z.of_nat i)].
Proof.
  intros Hc Ha Hi -> Hmax Hlen Hidx Hrec Hnone s'.
  pose proof (core_nodup _ _ Hc) as Hnd. apply NoDup_app in Hnd as (_ & Hd & _).
  assert (a ∉ lru) as Hal by (intros Hin; by apply (Hd a Hin), list_elem_of_here).
  assert ((i < length (md_records s))%nat) by lia.
  split.
  - split; simpl; rewrite ?length_app; simpl; try lia.
    + apply (core_names _ _ (<[a := MNode (Some name) (Z.of_nat i)]> (md_nodes s)) Hc). intros n Hn. unfold node_key.
      destruct (decide (n = a)) as [->|Hne]; [by rewrite lookup_insert_eq, Ha|by rewrite lookup_insert_ne].
    + by rewrite length_insert.
    + intros n Hn. apply elem_of_app in Hn as [Hn|Hn].
      * destruct (Hidx n Hn) as (nd & j & Hnd & Hj & Hjl & Hji & Hr). exists nd, j.
        rewrite lookup_insert_ne by set_solver. rewrite list_lookup_insert_ne by done. split_and!; try done. lia.
      * apply list_elem_of_singleton in Hn as ->. exists (MNode (Some name) (Z.of_nat i)), i.
        rewrite lookup_insert_eq, list_lookup_insert_eq by done. split_and!; try done. lia.
    + intros j Hj. destruct (decide (j = i)) as [->|Hji].
      * exists a, (MNode (Some name) (Z.of_nat i)). rewrite lookup_insert_eq, list_lookup_insert_eq by done.
        split_and!; try done. set_solver.
      * destruct (Hrec j) as (n & nd & Hr & Hn & Hnd & Hj'); [lia|done|]. exists n, nd.
        rewrite list_lookup_insert_ne, lookup_insert_ne by set_solver. split_and!; try done. set_solver.
    + intros j. rewrite length_insert. intros Hj. rewrite list_lookup_insert_ne by lia. apply Hnone. lia.
  - unfold abs. rewrite map_app. simpl. f_equal.
    + apply (abs_ext s s' lru). intros n Hn. simpl. rewrite lookup_insert_ne; [done|set_solver].
    + unfold entry_of. by rewrite lookup_insert_eq.
Qed.

(** What follows the choice of the index. *)
Lemma assign_run s i a nd :
  (i < length (md_records s))%nat -> md_nodes s !! a = Some nd ->
  (set_record (Z.of_nat i) a;;
   let* nd := load_node a in
   store_node a (MNode (mn_name nd) (Z.of_nat i));;
   let* nd := load_node a in ret (mn_idx nd)) s =
  Some (Z.of_nat i,
    with_nodes (<[a := MNode (mn_name nd) (Z.of_nat i)]> (md_nodes s))
      (with_records (<[i := a]> (md_records s)) s)).
Proof.
  intros Hi Ha. erewrite bind_Some by (by apply set_record_eq).
  unfold load_node, store_node, modify, bind. simpl. rewrite Ha. simpl. by rewrite lookup_insert_eq.
Qed.

Lemma find_room s lru a name :
  md_inv s lru -> cstr name -> entry_idx name (abs s lru) = None ->
  okp a -> a ∉ lru -> md_use s < md_max s ->
  exists s', hev_mapped_dns_find a true name s = Some (Z.of_nat (length lru), s') /\
    md_inv s' (lru ++ [a]) /\
    abs s' (lru ++ [a]) = abs s lru ++ [(name, Z.of_nat (length lru))] /\
    md_max s' = md_max s /\ md_net s' = md_net s /\ md_mask s' = md_mask s.
Proof.
  intros Hi Hname Hmiss Hok Ha Huse. destruct (find_search s lru name Hi Hname) as (res & Heq & Hres).
  destruct res as [n|parent link].
  { destruct Hres as [Hn Hk]. by destruct (cached_entry s lru n name Hi Hn Hk). }
  destruct Hres as (_ & xs1 & xs2 & Hp & Hip & Hsort). destruct Hi as [Hc Hu Hm Hlen Hidx Hrec Hnone].
  destruct (core_add s lru parent link xs1 xs2 a name) as (s1 & s2 & s3 & s4 & E1 & E2 & E3 & E4 & Hc4 & Hns & Hr);
    try done.
  destruct Hr as (Ru & Rm & Rn & Rk & Rr).
  assert (md_nodes s4 !! a = Some (MNode (Some name) 0)) as Ha4 by (rewrite Hns; apply lookup_insert_eq).
  assert (forall n, n ∈ lru -> md_nodes s4 !! n = md_nodes s !! n) as Hsame.
  { intros n Hn. rewrite Hns, lookup_insert_ne; [done|set_solver]. }
  destruct (assign_ok s4 lru (length lru) a name (md_use s + 1)) as [Hi' Habs]; try done; try lia.
  - congruence.
  - intros n Hn. destruct (Hidx n Hn) as (nd & j & Hnd & Hj & Hjl & Hrj). exists nd, j.
    rewrite Hsame, Rr by done. split_and!; try done; lia.
  - intros j Hj Hji. destruct (Hrec j) as (n & nd & Hrj & Hn & Hnd & Hj'); [lia|]. exists n, nd.
    rewrite Hsame, Rr by done. done.
  - intros j Hj. rewrite Rr in Hj |- *. apply Hnone. lia.
  - eexists. split_and!; [|exact Hi'| |simpl; congruence..].
    + unfold hev_mapped_dns_find. do 2 (erewrite bind_Some by done).
      erewrite bind_Some by exact Heq. cbv iota. erewrite bind_Some by exact E1. rewrite okp_eqb by done. cbv iota.
      erewrite bind_Some by exact E2. erewrite bind_Some by exact E3. erewrite bind_Some by exact E4.
      do 2 (erewrite bind_Some by done). rewrite Ru, Rm, (proj2 (Z.ltb_lt _ _)) by done. cbv iota.
      erewrite bind_Some by done. rewrite Hu.
      rewrite (assign_run _ (length lru) a (MNode (Some name) 0)); [done| |done].
      simpl. rewrite Rr, Hlen. lia.
    + rewrite Habs. f_equal. by apply abs_ext.
Qed.

Lemma find_evict s lru a name :
  md_inv s lru -> cstr name -> entry_idx name (abs s lru) = None ->
  okp a -> a ∉ lru -> md_max s <= md_use s ->
  exists f rest i s', lru = f :: rest /\ (entry_of (md_nodes s) f).2 = i /\
    hev_mapped_dns_find a true name s = Some (i, s') /\ md_inv s' (rest ++ [a]) /\
    abs s' (rest ++ [a]) = abs s rest ++ [(name, i)] /\
    md_max s' = md_max s /\ md_net s' = md_net s /\ md_mask s' = md_mask s.
Proof.
  intros Hi Hname Hmiss Hok Ha Huse. destruct (find_search s lru name Hi Hname) as (res & Heq & Hres).
  destruct res as [n|parent link].
  { destruct Hres as [Hn Hk]. by destruct (cached_entry s lru n name Hi Hn Hk). }
  destruct Hres as (_ & xs1 & xs2 & Hp & Hip & Hsort). destruct Hi as [Hc Hu Hm Hlen Hidx Hrec Hnone].
  destruct lru as [|f rest]; [simpl in Hu; lia|]. simpl in Hu.
  destruct (core_add s (f :: rest) parent link xs1 xs2 a name)
    as (s1 & s2 & s3 & s4 & E1 & E2 & E3 & E4 & Hc4 & Hns & Hr); try done.
  destruct (core_evict s4 f (rest ++ [a])) as (s5 & s6 & s7 & E5 & E6 & E7 & Hc7 & Hns7 & Hr7); try done.
  destruct Hr as (Ru & Rm & Rn & Rk & Rr), Hr7 as (Ru7 & Rm7 & Rn7 & Rk7 & Rr7).
  pose proof (core_nodup _ _ Hc) as Hnd. apply NoDup_cons in Hnd as [Hf _].
  destruct (Hidx f) as (ndf & i & Hndf & Hif & Hil & Hrf); [set_solver|]. simpl in Hil.
  assert (f <> a) as Hfa by set_solver.
  assert (md_nodes s7 !! a = Some (MNode (Some name) 0)) as Ha7.
  { rewrite Hns7, lookup_delete_ne, Hns by done. apply lookup_insert_eq. }
  assert (forall n, n ∈ rest -> md_nodes s7 !! n = md_nodes s !! n) as Hsame.
  { intros n Hn. rewrite Hns7, lookup_delete_ne, Hns, lookup_insert_ne; [done|set_solver..]. }
  destruct (assign_ok s7 rest i a name (md_use s7)) as [Hi' Habs]; try done; try lia.
  - congruence.
  - intros n Hn. destruct (Hidx n) as (nd & j & Hnd & Hj & Hjl & Hrj); [set_solver|]. simpl in Hjl. exists nd, j.
    rewrite Hsame, Rr7, Rr by done. split_and!; try done; [lia|]. intros ->. set_solver.
  - intros j Hj Hji. destruct (Hrec j) as (n & nd & Hrj & Hn & Hnd & Hj'); [simpl; lia|]. exists n, nd.
    apply elem_of_cons in Hn as [->|Hn]; [simplify_eq; lia|].
    rewrite Hsame, Rr7, Rr by done. done.
  - intros j Hj. rewrite Rr7, Rr in Hj |- *. apply Hnone. simpl. lia.
  - exists f, rest, (Z.of_nat i). eexists. split_and!; [done| | |exact Hi'| |simpl; congruence..].
    + unfold entry_of. by rewrite Hndf.
    + unfold hev_mapped_dns_find. do 2 (erewrite bind_Some by done).
      erewrite bind_Some by exact Heq. cbv iota. erewrite bind_Some by exact E1. rewrite okp_eqb by done. cbv iota.
      erewrite bind_Some by exact E2. erewrite bind_Some by exact E3. erewrite bind_Some by exact E4.
      do 2 (erewrite bind_Some by done). rewrite Ru, Rm, (proj2 (Z.ltb_ge _ _)) by done. cbv iota.
      erewrite bind_Some.
      2:{ erewrite bind_Some. 2:{ apply zoom_Some. apply list_rep_first. apply Hc4. }
          change (first_or ((f :: rest) ++ [a]) NULL) with f.
          assert (with_list (md_list s4) s4 = s4) as -> by (by destruct s4).
          erewrite bind_Some. 2:{ unfold load_node. rewrite Hns, lookup_insert_ne, Hndf by done. done. }
          erewrite bind_Some by exact E5. erewrite bind_Some by exact E6. erewrite bind_Some by exact E7. done. }
      rewrite Hif. rewrite (assign_run _ i a (MNode (Some name) 0)); [|rewrite Rr7, Rr, Hlen; lia|done].
      by destruct s7.
    + rewrite Habs. f_equal. by apply abs_ext.
Qed.

Lemma abs_length s lru : length (abs s lru) = length lru.
Proof. apply length_map. Qed.

(** [find] implements the abstract cache. *)
Lemma find_ok s lru a name :
  md_inv s lru -> cstr name -> okp a -> a ∉ lru ->
  exists i s' lru', hev_mapped_dns_find a true name s = Some (i, s') /\ md_inv s' lru' /\
    spec_find (md_max s) name (abs s lru) = (i, abs s' lru') /\
    (forall n, n ∈ lru' -> n = a \/ n ∈ lru) /\
    md_max s' = md_max s /\ md_net s' = md_net s /\ md_mask s' = md_mask s.
Proof.
  intros Hi Hname Hok Ha. unfold spec_find. rewrite abs_length, <-(mi_use _ _ Hi).
  destruct (entry_idx name (abs s lru)) as [i|] eqn:He.
  - destruct (find_hit s lru a true name) as (i' & s' & lru' & Heq & Hi' & Hp & Hr & He' & Habs); try done; [congruence|].
    exists i', s', lru'. simplify_eq. destruct Hr as (_ & ? & ? & ? & _).
    split_and!; try done; [by rewrite Habs|]. intros n Hn. right. by rewrite <-Hp.
  - destruct (Z.ltb_spec (md_use s) (md_max s)) as [Hlt|Hge].
    + destruct (find_room s lru a name) as (s' & Heq & Hi' & Habs & Hr); try done.
      exists (Z.of_nat (length lru)), s', (lru ++ [a]). rewrite (mi_use _ _ Hi), Habs.
      split_and!; try done; try apply Hr. set_solver.
    + destruct (find_evict s lru a name) as (f & rest & i & s' & -> & Hif & Heq & Hi' & Habs & Hr); try done.
      exists i, s', (rest ++ [a]). rewrite Habs. split_and!; try done; try apply Hr. 2: set_solver.
      simpl. revert Hif. destruct (entry_of (md_nodes s) f) as [nm j]. simpl. by intros ->.
Qed.

(** Out of memory on a miss: an error and the same cache. *)
Lemma find_oom s lru a dup name :
  md_inv s lru -> cstr name -> entry_idx name (abs s lru) = None ->
  a = NULL \/ (dup = false /\ okp a /\ md_nodes s !! a = None /\
    l_nodes (md_list s) !! a = None /\ rb_nodes (md_tree s) !! a = None) ->
  hev_mapped_dns_find a dup name s = Some (-1, s).
Proof.
  intros Hi Hname Hmiss Ha. destruct (find_search s lru name Hi Hname) as (res & Heq & Hres).
  unfold hev_mapped_dns_find. do 2 (erewrite bind_Some by done). erewrite bind_Some by exact Heq. cbv iota.
  destruct res as [n|parent link].
  { destruct Hres as [Hn Hk]. by destruct (cached_entry s lru n name Hi Hn Hk). }
  destruct Ha as [->|(-> & Hok & Hn & Hl & Ht)]; [done|].
  unfold hev_mapped_dns_node_alloc. rewrite okp_eqb by done.
  unfold node_malloc0, node_release, release_state, modify, bind, ret. simpl. destruct s as [u mx net mask [hd tl lh] [root th] ns rs].
  simpl in *. by rewrite !delete_insert_id by done.
Qed.

(** ** Refinement: [hev_mapped_dns_lookup] *)

Lemma abs_idx_ne s lru l n nd :
  md_inv s lru -> n ∈ lru -> md_nodes s !! n = Some nd ->
  (forall n', n' ∈ l -> n' ∈ lru /\ n' <> n) -> Forall (fun e => e.2 <> mn_idx nd) (abs s l).
Proof.
  intros Hi Hn Hnd Hl. apply Forall_forall. intros e He. apply list_elem_of_fmap in He as (n' & -> & Hn').
  destruct (Hl n' Hn') as [Hin Hne]. destruct (mi_idx _ _ Hi n' Hin) as (nd' & j & Hnd' & Hj & _ & Hrj).
  destruct (mi_idx _ _ Hi n Hn) as (nd0 & j0 & Hnd0 & Hj0 & _ & Hrj0). rewrite Hnd in Hnd0. simplify_eq.
  unfold entry_of. rewrite Hnd'. simpl. rewrite Hj, Hj0. intros Heq. apply Nat2Z.inj in Heq as ->.
  congruence.
Qed.

Lemma entry_name_node s lru n nd name :
  md_inv s lru -> n ∈ lru -> md_nodes s !! n = Some nd -> mn_name nd = Some name ->
  entry_name (mn_idx nd) (abs s lru) = Some name.
Proof.
  intros Hi Hn Hnd Hname. pose proof Hn as Hn0. apply list_elem_of_split in Hn as (l1 & l2 & ->).
  pose proof (core_nodup _ _ (mi_core _ _ Hi)) as Hnod. apply NoDup_app in Hnod as (_ & Hd & _).
  destruct (abs_split s l1 n l2 name nd) as (-> & _); [apply Hi|done|unfold node_key; by rewrite Hnd|].
  apply entry_name_at. eapply abs_idx_ne; [done|exact Hn0|done|]. intros n' Hn'. split; [set_solver|].
  intros ->. by apply (Hd n Hn'), list_elem_of_here.
Qed.

Lemma entry_name_beyond s lru i :
  md_inv s lru -> md_use s <= i -> entry_name i (abs s lru) = None.
Proof.
  intros Hi Hge. apply entry_name_none, Forall_forall. intros e He.
  apply list_elem_of_fmap in He as (n & -> & Hn). destruct (mi_idx _ _ Hi n Hn) as (nd & j & Hnd & Hj & Hjl & _).
  unfold entry_of. rewrite Hnd. simpl. rewrite Hj. pose proof (mi_use _ _ Hi). lia.
Qed.

Lemma lookup_ok s lru ip :
  md_inv s lru -> md_max s <= Z.lnot (md_mask s) ->
  exists r s' lru', hev_mapped_dns_lookup ip s = Some (r, s') /\ md_inv s' lru' /\
    spec_lookup (Z.land ip (Z.lnot (md_mask s))) (abs s lru) = (r, abs s' lru') /\ same_rest s s'.
Proof.
  intros Hi Hmask. pose proof (mi_max _ _ Hi) as [Hmax Huse]. pose proof (mi_use _ _ Hi) as Hu.
  set (idx := Z.land ip (Z.lnot (md_mask s))).
  assert (0 <= idx) as Hidx0 by (apply Z.land_nonneg; right; lia).
  unfold hev_mapped_dns_lookup. do 2 (erewrite bind_Some by done). fold idx. unfold spec_lookup.
  destruct (Z.leb_spec (md_max s) idx) as [Hge|Hlt].
  { rewrite (entry_name_beyond s lru idx) by (done || lia). exists None, s, lru. by split_and!. }
  assert ((Z.to_nat idx < length (md_records s))%nat) as Hin by (rewrite (mi_len _ _ Hi); lia).
  destruct (lookup_lt_is_Some_2 (md_records s) (Z.to_nat idx) Hin) as [n Hn].
  erewrite bind_Some by (unfold get_record; rewrite (proj2 (Z.leb_le _ _)), Hn by done; done).
  destruct (decide (md_use s <= idx)) as [Hnone|Hsome].
  { rewrite (mi_none _ _ Hi) in Hn by lia. simplify_eq. rewrite (entry_name_beyond s lru idx) by done.
    exists None, s, lru. by split_and!. }
  destruct (mi_rec _ _ Hi (Z.to_nat idx)) as (n' & nd & Hr & Hn' & Hnd & Hj); [lia|].
  rewrite Hn in Hr. simplify_eq. rewrite Z2Nat.id in Hj by done.
  rewrite (proj2 (Z.eqb_neq n' NULL)) by (eapply core_nz; [apply Hi|done]). cbv iota.
  destruct (core_key _ _ _ (mi_core _ _ Hi) Hn') as (name & Hk & _).
  unfold node_key in Hk. rewrite Hnd in Hk. simpl in Hk.
  destruct (touch_ok s lru n' nd name) as (s1 & s' & lru' & E1 & E2 & Hi' & _ & Hns & Hsr & He & Habs); try done.
  exists (Some name), s', lru'. rewrite Hj in Habs. split_and!; try done; try apply Hsr.
  - erewrite bind_Some by exact E1. erewrite bind_Some by exact E2.
    unfold load_node, bind. by rewrite Hns, Hnd, <-Hk.
  - rewrite <-Hj. rewrite (entry_name_node s lru n' nd name) by done. by rewrite Hj, Habs.
Qed.

(** ** The abstract cache keeps recent names *)

(** [name] has index [i] and at most [k] entries are more recent. *)
Definition recent (name : list Z) (i : Z) (k : nat) (es : entries) : Prop :=
  exists es1 es2, es = es1 ++ (name, i) :: es2 /\ (length es2 <= k)%nat /\
    Forall (fun e => e.1 <> name) es1 /\ Forall (fun e => e.1 <> name) es2.

Lemma Forall_drop_name (P : list Z * Z -> Prop) nm es : Forall P es -> Forall P (drop_name nm es).
Proof.
  rewrite !Forall_forall. intros H e He. apply list_elem_of_filter in He as [_ He]. auto.
Qed.

Lemma recent_idx name i k es : recent name i k es -> entry_idx name es = Some i.
Proof. intros (es1 & es2 & -> & _ & H & _). by apply entry_idx_at. Qed.

Lemma recent_step max name i k nm es :
  recent name i k es -> Z.of_nat (S k) < max -> recent name i (S k) (spec_find max nm es).2.
Proof.
  intros (es1 & es2 & -> & Hk & H1 & H2) Hmax. unfold spec_find.
  destruct (decide (nm = name)) as [->|Hne].
  { rewrite entry_idx_at, drop_name_at by done. exists (es1 ++ es2), []. simpl.
    split_and!; [done|lia|by apply Forall_app|done]. }
  assert (forall x, Forall (fun e : list Z * Z => e.1 <> name) [(nm, x)]) as Hx by (intros; by constructor).
  destruct (entry_idx nm _) as [j|].
  { exists (drop_name nm es1), (drop_name nm es2 ++ [(nm, j)]). simpl. split_and!.
    - unfold drop_name. rewrite filter_app, filter_cons, decide_True by (simpl; congruence).
      by rewrite <-app_assoc.
    - rewrite length_app. simpl. pose proof (length_filter (fun e : list Z * Z => e.1 <> nm) es2).
      unfold drop_name. lia.
    - by apply Forall_drop_name.
    - apply Forall_app. split; [by apply Forall_drop_name|done]. }
  destruct (Z.ltb_spec (Z.of_nat (length (es1 ++ (name, i) :: es2))) max) as [Hlt|Hge].
  { exists es1, (es2 ++ [(nm, Z.of_nat (length (es1 ++ (name, i) :: es2)))]). simpl.
    split_and!; [by rewrite <-app_assoc|rewrite length_app; simpl; lia|done|by apply Forall_app]. }
  destruct es1 as [|[n0 i0] es1]; [simpl in Hge; lia|]. apply Forall_cons in H1 as [_ H1].
  exists es1, (es2 ++ [(nm, i0)]). simpl.
  split_and!; [by rewrite <-app_assoc|rewrite length_app; simpl; lia|done|by apply Forall_app].
Qed.

Definition spec_finds (max : Z) (names : list (list Z)) (es : entries) : entries :=
  foldl (fun es nm => (spec_find max nm es).2) es names.

Lemma recent_finds max name i k names es :
  recent name i k es -> Z.of_nat (k + length names) < max ->
  recent name i (k + length names) (spec_finds max names es).
Proof.
  revert k es. induction names as [|nm names IH]; intros k es Hr Hk; simpl.
  - by rewrite Nat.add_0_r.
  - rewrite Nat.add_succ_r, <-Nat.add_succ_l in *. apply IH; [|simpl in *; lia].
    apply recent_step; [done|simpl in *; lia].
Qed.

Lemma abs_names_filter name es : Forall (fun e : list Z * Z => e.1 <> name) (drop_name name es).
Proof.
  unfold drop_name. apply Forall_forall. intros e He. apply list_elem_of_filter in He. tauto.
Qed.

Lemma entry_idx_None_inv name es : entry_idx name es = None -> Forall (fun e => e.1 <> name) es.
Proof.
  induction es as [|[n i] es IH]; simpl; [constructor|]. case_decide; [done|]. constructor; auto.
Qed.

(** A name just found is the most recent entry. *)
Lemma find_recent max name es i es' :
  0 < max -> spec_find max name es = (i, es') -> recent name i 0 es'.
Proof.
  intros Hmax. unfold spec_find. destruct (entry_idx name es) as [j|] eqn:He.
  - intros [= <- <-]. exists (drop_name name es), []. split_and!; try done; [apply abs_names_filter].
  - apply entry_idx_None_inv in He. case_match eqn:Hlt.
    + intros [= <- <-]. exists es, []. by split_and!.
    + destruct es as [|[n0 i0] es]; [simpl in Hlt; apply Z.ltb_ge in Hlt; lia|].
      intros [= <- <-]. apply Forall_cons in He as [_ He]. exists es, []. by split_and!.
Qed.

(** ** Sequences of queries on the concrete cache *)

Fixpoint find_all (qs : list (Z * list Z)) : MD (list Z) :=
  match qs with
  | [] => ret []
  | (a, name) :: qs =>
    let* i := hev_mapped_dns_find a true name in
    let* ixs := find_all qs in ret (i :: ixs)
  end.

(** The allocator hands out well-formed addresses that are not in use. *)
Definition allocs_ok (lru : list Z) (qs : list (Z * list Z)) : Prop :=
  NoDup qs.*1 /\ Forall (fun q => okp q.1 /\ (q.1 ∉ lru) /\ cstr q.2) qs.

Lemma find_all_ok s lru qs :
  md_inv s lru -> allocs_ok lru qs ->
  exists ixs s' lru', find_all qs s = Some (ixs, s') /\ md_inv s' lru' /\
    abs s' lru' = spec_finds (md_max s) qs.*2 (abs s lru) /\
    md_max s' = md_max s /\ md_net s' = md_net s /\ md_mask s' = md_mask s.
Proof.
  revert s lru. induction qs as [|[a name] qs IH]; intros s lru Hi [Hnd Hf].
  - exists [], s, lru. by split_and!.
  - simpl in Hnd. apply NoDup_cons in Hnd as [Ha Hnd]. apply Forall_cons in Hf as [(Hok & Hal & Hname) Hf].
    destruct (find_ok s lru a name) as (i & s1 & lru1 & Heq & Hi1 & Hsp & Hin & Hmax & Hnet & Hmask); try done.
    destruct (IH s1 lru1) as (ixs & s' & lru' & Heq' & Hi' & Habs & Hmax' & Hnet' & Hmask'); [done|..].
    { split; [done|]. rewrite Forall_forall in Hf |- *. intros q Hq. destruct (Hf q Hq) as (? & ? & ?).
      split_and!; try done. intros Hq1. destruct (Hin _ Hq1) as [Hqa|?]; [|done].
      apply Ha. rewrite <-Hqa. by apply list_elem_of_fmap_2. }
    exists (i :: ixs), s', lru'. split_and!; try done; try congruence.
    + simpl. erewrite bind_Some by exact Heq. by erewrite bind_Some by exact Heq'.
    + simpl. rewrite Habs, Hmax, Hsp. done.
Qed.

(** ** Construction and destruction *)

Lemma construct_ok net mask max s :
  hev_mapped_dns_construct net mask max = Some s -> 0 < max ->
  md_inv s [] /\ md_max s = max /\ md_net s = net /\ md_mask s = mask /\ max <= Z.lnot mask.
Proof.
  unfold hev_mapped_dns_construct. destruct (Z.ltb_spec (Z.lnot mask) max); [done|].
  intros [= <-] Hmax. split_and!; try done. split; simpl; try done; try lia.
  - split; [apply list_rep_empty|]. exists []. split_and!; [done|apply rb_tree_empty|]. split; constructor.
  - by rewrite length_replicate.
  - intros n Hn. by apply not_elem_of_nil in Hn.
  - intros i. rewrite length_replicate. intros Hi. rewrite lookup_replicate_2; [done|lia].
Qed.

Lemma destruct_loop_ok fuel s p xs :
  (length xs < fuel)%nat -> lseg (l_nodes (md_list s)) p xs NULL -> NoDup xs ->
  Forall (fun x => x <> NULL /\ is_Some (md_nodes s !! x)) xs ->
  exists s', destruct_loop fuel (first_or xs NULL) s = Some (tt, s') /\
    (forall n, md_nodes s' !! n = if decide (n ∈ xs) then None else md_nodes s !! n).
Proof.
  revert s p xs. induction fuel as [|fuel IH]; intros s p xs Hf Hl Hnd Hx; [lia|].
  destruct xs as [|x xs]; simpl.
  - exists s. by split.
  - apply Forall_cons in Hx as [[Hx0 [nd Hx]] Hxs]. apply NoDup_cons in Hnd as [Hxn Hnd].
    destruct Hl as [Hlx Hl]. change (first_or (x :: xs) NULL) with x.
    rewrite (proj2 (Z.eqb_neq x NULL)) by done.
    assert (on_list (hev_list_node_next x) s = Some (first_or xs NULL, s)) as Hnext.
    { unfold on_list, zoom, hev_list_node_next, bind, lload. rewrite Hlx. by destruct s. }
    erewrite bind_Some by exact Hnext. 
    erewrite bind_Some by (unfold hev_mapped_dns_node_free, load_node, bind; rewrite Hx; reflexivity).
    destruct (IH (release_state x s) x xs) as (s' & -> & Hs').
    + simpl in Hf. lia.
    + simpl. eapply lseg_same; [|exact Hl]. intros y Hy. rewrite lookup_delete_ne; [done|set_solver].
    + done.
    + simpl. rewrite Forall_forall in Hxs |- *. intros y Hy. rewrite lookup_delete_ne by set_solver. auto.
    + exists s'. split; [done|]. intros n. rewrite Hs'. simpl.
      destruct (decide (n = x)) as [->|Hne].
      * rewrite lookup_delete_eq, (decide_True (P := x ∈ x :: xs)) by set_solver. by destruct (decide (x ∈ xs)).
      * rewrite lookup_delete_ne by done. destruct (decide (n ∈ xs)).
        -- by rewrite decide_True by set_solver.
        -- by rewrite decide_False by set_solver.
Qed.

Lemma destruct_ok s lru :
  md_inv s lru ->
  exists s', hev_mapped_dns_destruct s = Some (tt, s') /\
    (forall n, md_nodes s' !! n = if decide (n ∈ lru) then None else md_nodes s !! n).
Proof.
  intros Hi. pose proof (mi_core _ _ Hi) as [(Hh & _ & Hl & Hnd & Hnz) _].
  assert (forall n, n ∈ lru -> is_Some (md_nodes s !! n)) as Hin.
  { intros n Hn. destruct (mi_idx _ _ Hi n Hn) as (nd & _ & -> & _). by eexists. }
  unfold hev_mapped_dns_destruct. erewrite bind_Some by done.
  assert (on_list hev_list_first s = Some (first_or lru NULL, s)) as Hfirst.
  { unfold on_list, zoom. erewrite list_rep_first by apply Hi. by destruct s. }
  erewrite bind_Some by exact Hfirst. eapply destruct_loop_ok; [|done..|].
  - rewrite <-size_dom. rewrite <-(size_list_to_set (C := gset Z)) by done. apply Nat.lt_succ_r, subseteq_size.
    intros n. rewrite elem_of_list_to_set, elem_of_dom. apply Hin.
  - rewrite Forall_forall in Hnz |- *. auto.
Qed.

(** ** Index and name determine each other *)

Lemma entry_idx_name s lru name i :
  md_inv s lru -> entry_idx name (abs s lru) = Some i -> entry_name i (abs s lru) = Some name /\ 0 <= i < md_use s.
Proof.
  intros Hi He.
  assert (exists n, n ∈ lru /\ entry_of (md_nodes s) n = (name, i)) as (n & Hn & Hen).
  { clear Hi. unfold abs in He. induction lru as [|n lru IH]; [done|]. simpl in He.
    destruct (entry_of (md_nodes s) n) as [nm j] eqn:Hen. case_decide; [simplify_eq; exists n; set_solver|].
    destruct (IH He) as (n' & Hn' & Hen'). exists n'. set_solver. }
  destruct (mi_idx _ _ Hi n Hn) as (nd & j & Hnd & Hj & Hjl & _).
  destruct (core_key _ _ _ (mi_core _ _ Hi) Hn) as (nm & Hk & _).
  unfold node_key, entry_of in *. rewrite Hnd in *. simpl in Hk. rewrite Hk in Hen. simplify_eq/=.
  split; [by eapply entry_name_node|]. pose proof (mi_use _ _ Hi). lia.
Qed.

Lemma land_host net i k :
  Z.land net (2 ^ k - 1) = 0 -> 0 <= k -> 0 <= i < 2 ^ k -> Z.land (Z.lor net i) (2 ^ k - 1) = i.
Proof.
  intros Hn Hk Hi. rewrite Z.land_lor_distr_l, Hn, Z.lor_0_l.
  replace (2 ^ k - 1) with (Z.ones k) by (rewrite Z.ones_equiv; lia).
  rewrite Z.land_ones by done. by apply Z.mod_small.
Qed.

(** ** Any outcome of the allocator *)

Lemma core_release s lru a : md_core s lru -> a ∉ lru -> md_core (release_state a s) lru.
Proof.
  intros [Hl (xs & Hp & Ht & Hs)] Ha. split.
  - eapply list_rep_frame; [exact Hl|done..|]. intros y Hy. simpl. rewrite lookup_delete_ne; [done|set_solver].
  - exists xs. split_and!; try done.
    + eapply rb_tree_frame; [exact Ht|done|]. intros y Hy. rewrite Hp in Hy. simpl.
      rewrite lookup_delete_ne; [done|set_solver].
    + eapply (sorted_by_ext cstr strcmp); [|exact Hs]. intros x Hx. rewrite Hp in Hx. unfold node_key. simpl.
      rewrite lookup_delete_ne; [done|set_solver].
Qed.

Lemma release_ok s lru a : md_inv s lru -> a ∉ lru -> md_inv (release_state a s) lru.
Proof.
  intros [Hc Hu Hm Hl Hi Hr Hn] Ha. split; try done; simpl.
  - by apply core_release.
  - intros n Hin. rewrite lookup_delete_ne by set_solver. auto.
  - intros i Hlt. destruct (Hr i Hlt) as (n & nd & ? & ? & ? & ?). exists n, nd.
    rewrite lookup_delete_ne by set_solver. done.
Qed.

Lemma spec_find_range max name es i es' :
  0 < max -> Forall (fun e => 0 <= e.2 < max) es -> spec_find max name es = (i, es') -> 0 <= i < max.
Proof.
  intros Hmax Hes. unfold spec_find. destruct (entry_idx name es) as [j|] eqn:He.
  - intros [= <- _]. induction Hes as [|[n k] es Hx _ IH]; [done|]. simpl in He. case_decide; [|auto].
    by simplify_eq.
  - case_match eqn:Hlt; [intros [= <- _]; apply Z.ltb_lt in Hlt; lia|].
    destruct es as [|[n k] es]; [apply Z.ltb_ge in Hlt; simpl in Hlt; lia|].
    intros [= <- _]. by apply Forall_cons in Hes as [? _].
Qed.

Lemma abs_range s lru : md_inv s lru -> Forall (fun e => 0 <= e.2 < md_max s) (abs s lru).
Proof.
  intros Hi. apply Forall_forall. intros e He. apply list_elem_of_fmap in He as (n & -> & Hn).
  destruct (mi_idx _ _ Hi n Hn) as (nd & j & Hnd & Hj & Hjl & _). unfold entry_of. rewrite Hnd. simpl.
  rewrite Hj. pose proof (mi_use _ _ Hi). pose proof (mi_max _ _ Hi). lia.
Qed.

Lemma find_total s lru a dup name :
  md_inv s lru -> cstr name -> a = NULL \/ (okp a /\ a ∉ lru) ->
  exists i s' lru', hev_mapped_dns_find a dup name s = Some (i, s') /\ md_inv s' lru' /\
    -1 <= i < md_max s /\ (forall n, n ∈ lru' -> n = a \/ n ∈ lru) /\
    md_max s' = md_max s /\ md_net s' = md_net s /\ md_mask s' = md_mask s.
Proof.
  intros Hi Hname Ha. pose proof (mi_max _ _ Hi) as [Hmax _].
  destruct (entry_idx name (abs s lru)) as [j|] eqn:He.
  - destruct (find_hit s lru a dup name) as (i' & s' & lru' & Heq & Hi' & Hp & Hr & He' & Habs); try done; [congruence|].
    exists i', s', lru'. destruct Hr as (_ & ? & ? & ? & _). split_and!; try done.
    + destruct (entry_idx_name s lru name i'); [done..|]. lia.
    + destruct (entry_idx_name s lru name i'); [done..|]. pose proof (mi_max _ _ Hi). lia.
    + intros n Hn. right. by rewrite <-Hp.
  - destruct (decide (a = NULL)) as [->|Hnz].
    { exists (-1), s, lru. split_and!; try done; try lia; [|auto]. eapply find_oom; eauto. }
    destruct Ha as [?|[Hok Ha]]; [done|]. destruct dup.
    + destruct (find_ok s lru a name) as (i & s' & lru' & Heq & Hi' & Hsp & Hin & Hr); try done.
      exists i, s', lru'. pose proof (spec_find_range _ _ _ _ _ Hmax (abs_range _ _ Hi) Hsp).
      split_and!; try done; try apply Hr; lia.
    + destruct (find_search s lru name Hi Hname) as (res & Heq & Hres).
      exists (-1), (release_state a s), lru. split_and!; try done; try lia; [|by apply release_ok|auto].
      unfold hev_mapped_dns_find. do 2 (erewrite bind_Some by done). erewrite bind_Some by exact Heq. cbv iota.
      destruct res as [n|parent link].
      { destruct Hres as [Hn Hk]. by destruct (cached_entry s lru n name Hi Hn Hk). }
      unfold hev_mapped_dns_node_alloc. rewrite okp_eqb by done.
      unfold node_malloc0, node_release, modify, bind, ret, release_state. simpl. by rewrite !delete_insert_eq.
Qed.
