(* ===== verification/DnsMessage.v ===== *)
(** * Answering DNS queries (hev_mapped_dns_handle of hev-mapped-dns.c)

    The request and response buffers are byte lists and every access outside
    them fails.  The handler rewrites the name of each question into a dotted C
    string in place, asks the cache for its index and appends an A record per
    answered question to the copy of the request. *)

From S2P Require Import Prelude RBTree RBModel RBRep RBSpec KeyedTree HevList MappedDNS.

(** ** State *)

(** The two buffers, the cache and the results of the allocations to come. *)
Record hst := HSt { h_req : list Z; h_res : list Z; h_dns : mdns; h_mem : list (Z * bool) }.

Abbreviation HM := (M hst).

Definition in_buf (l : list Z) (i : Z) : bool := (0 <=? i) && (i <? Z.of_nat (length l)).
Definition buf_get (l : list Z) (i : Z) : Z := nth (Z.to_nat i) l 0.
Definition buf_set (l : list Z) (i v : Z) : list Z := <[Z.to_nat i := v]> l.

Definition get_req (i : Z) : HM Z :=
  fun s => if in_buf (h_req s) i then Some (buf_get (h_req s) i, s) else None.
Definition set_req (i v : Z) : HM unit :=
  fun s => if in_buf (h_req s) i
           then Some (tt, HSt (buf_set (h_req s) i v) (h_res s) (h_dns s) (h_mem s)) else None.
Definition get_res (i : Z) : HM Z :=
  fun s => if in_buf (h_res s) i then Some (buf_get (h_res s) i, s) else None.
Definition set_res (i v : Z) : HM unit :=
  fun s => if in_buf (h_res s) i
           then Some (tt, HSt (h_req s) (buf_set (h_res s) i v) (h_dns s) (h_mem s)) else None.

(** [memcpy (res, req, n)] *)
Definition copy_req (n : Z) : HM unit :=
  fun s => if (0 <=? n) && (n <=? Z.of_nat (length (h_req s))) && (n <=? Z.of_nat (length (h_res s)))
           then Some (tt, HSt (h_req s) (take (Z.to_nat n) (h_req s) ++ drop (Z.to_nat n) (h_res s))
                              (h_dns s) (h_mem s))
           else None.

Definition get_str (i : Z) : HM (list Z) :=
  fun s => if 0 <=? i then
             match c_str (drop (Z.to_nat i) (h_req s)) with Some n => Some (n, s) | None => None end
           else None.

(** [hev_mapped_dns_find] with the next results of the allocator. *)
Definition dns_find (name : list Z) : HM Z :=
  fun s => let '(a, dup) := default (NULL, false) (head (h_mem s)) in
           match hev_mapped_dns_find a dup name (h_dns s) with
           | Some (i, d) => Some (i, HSt (h_req s) (h_res s) d (tail (h_mem s)))
           | None => None
           end.

(** ** Integers in messages *)

Definition read_u16 (p0 p1 : Z) : Z := Z.lor (Z.shiftl p0 8) p1.

Definition write_u16 (off v : Z) : HM unit :=
  set_res off (u8 (Z.shiftr (u16 v) 8));;
  set_res (off + 1) (u8 (u16 v)).

Definition write_u32 (off v : Z) : HM unit :=
  set_res off (u8 (Z.shiftr (u32 v) 24));;
  set_res (off + 1) (u8 (Z.shiftr (u32 v) 16));;
  set_res (off + 2) (u8 (Z.shiftr (u32 v) 8));;
  set_res (off + 3) (u8 (u32 v)).

Definition st16_req (off v : Z) : HM unit := set_req off (Z.land v 255);; set_req (off + 1) (Z.shiftr v 8).
Definition st16_res (off v : Z) : HM unit := set_res off (Z.land v 255);; set_res (off + 1) (Z.shiftr v 8).

(** ** The handler *)

(** [while (rb[off])]: [None] is [return -1]. *)
Fixpoint skip_name (fuel : nat) (qlen off : Z) : HM (option Z) :=
  match fuel with
  | O => fail
  | S fuel =>
    let* b := get_req off in
    if b =? 0 then ret (Some off) else
    let poff := off in
    let off := off + (1 + b) in
    if qlen <=? off then ret None else
    set_req poff 46;;
    skip_name fuel qlen off
  end.

(** One turn of the question loop; [ips] holds the first [ipn] elements of the
    two arrays, as pairs (offset, address). *)
Definition handle_question (qlen off : Z) (ips : list (Z * Z)) : HM (option (Z * list (Z * Z))) :=
  if (32 <=? length ips)%nat then fail else
  let ipo := off in
  if qlen <=? off then ret None else
  let* r := skip_name (S (Z.to_nat qlen)) qlen off in
  match r with
  | None => ret None
  | Some off =>
    let off := off + 1 in
    if qlen <=? off + 3 then ret None else
    let* b0 := get_req (off + 0) in
    let* b1 := get_req (off + 1) in
    let* b2 := get_req (off + 2) in
    let* b3 := get_req (off + 3) in
    if (read_u16 b0 b1 =? 1) && (read_u16 b2 b3 =? 1) then
      let* name := get_str (ipo + 1) in
      let* idx := dns_find name in
      let* net := gets (fun s => md_net (h_dns s)) in
      ret (Some (off + 4, if 0 <=? idx then ips ++ [(ipo, Z.lor net idx)] else ips))
    else ret (Some (off + 4, ips))
  end.

Fixpoint questions (n : nat) (qlen off : Z) (ips : list (Z * Z)) : HM (option (Z * list (Z * Z))) :=
  match n with
  | O => ret (Some (off, ips))
  | S n =>
    let* r := handle_question qlen off ips in
    match r with
    | None => ret None
    | Some (off, ips) => questions n qlen off ips
    end
  end.

Fixpoint answers (slen off : Z) (ips : list (Z * Z)) : HM (option Z) :=
  match ips with
  | [] => ret (Some off)
  | (ipo, ip) :: ips =>
    if slen <=? off + 15 then ret None else
    write_u16 (off + 0) (Z.lor 49152 ipo);;
    write_u16 (off + 2) 1;;
    write_u16 (off + 4) 1;;
    write_u32 (off + 6) 1;;
    write_u16 (off + 10) 4;;
    write_u32 (off + 12) ip;;
    answers slen (off + 16) ips
  end.

Definition hev_mapped_dns_handle (qlen slen : Z) : HM Z :=
  if slen <? qlen then ret (-1) else
  if u64 qlen <? 12 then ret (-1) else
  copy_req qlen;;
  let* q4 := get_req 4 in
  let* q5 := get_req 5 in
  let qd := ntohs (ld16 q4 q5) in
  st16_req 4 qd;;
  let* s2 := get_res 2 in
  let* s3 := get_res 3 in
  let fl := ntohs (ld16 s2 s3) in
  st16_res 2 fl;;
  st16_res 8 0;;
  st16_res 6 0;;
  st16_res 10 0;;
  if 32 <? qd then ret (-1) else
  let* r := questions (Z.to_nat qd) qlen 12 [] in
  match r with
  | None => ret (-1)
  | Some (off, ips) =>
    let* r := answers slen off ips in
    match r with
    | None => ret (-1)
    | Some off =>
      let* s2 := get_res 2 in
      let* s3 := get_res 3 in
      let fl := ld16 s2 s3 in
      st16_res 2 (htons (Z.lor (Z.lor fl 32768) (Z.shiftr (Z.land fl 256) 1)));;
      st16_res 6 (htons (Z.of_nat (length ips)));;
      ret off
    end
  end.

(** ** Buffers *)

Lemma in_buf_true l i : in_buf l i = true <-> 0 <= i < Z.of_nat (length l).
Proof. unfold in_buf. rewrite andb_true_iff, Z.leb_le, Z.ltb_lt. lia. Qed.

Lemma buf_set_length l i v : length (buf_set l i v) = length l.
Proof. apply length_insert. Qed.

Lemma buf_get_byte l i : bytes_ok l -> 0 <= i < Z.of_nat (length l) -> byte_ok (buf_get l i).
Proof.
  intros Hb Hi. unfold buf_get. unfold bytes_ok in Hb. rewrite Forall_forall in Hb. apply Hb.
  apply list_elem_of_In, nth_In. lia.
Qed.

Lemma buf_set_bytes l i v : bytes_ok l -> byte_ok v -> bytes_ok (buf_set l i v).
Proof. intros Hl Hv. by apply Forall_insert. Qed.

Lemma buf_get_set_eq l i v : 0 <= i < Z.of_nat (length l) -> buf_get (buf_set l i v) i = v.
Proof.
  intros Hi. unfold buf_get, buf_set. rewrite nth_lookup, list_lookup_insert_eq by lia. done.
Qed.

Lemma buf_get_set_ne l i j v : 0 <= i -> 0 <= j -> i <> j -> buf_get (buf_set l i v) j = buf_get l j.
Proof.
  intros Hi Hj Hne. unfold buf_get, buf_set. rewrite !nth_lookup, list_lookup_insert_ne by lia. done.
Qed.

Lemma c_str_found l i :
  bytes_ok l -> (i < length l)%nat -> nth i l 0 = 0 -> exists n, c_str l = Some n /\ cstr n.
Proof.
  revert i. induction l as [|b l IH]; intros i Hb Hi Hz; [simpl in Hi; lia|].
  apply Forall_cons in Hb as [Hb0 Hb]. simpl. destruct (Z.eqb_spec b 0) as [->|Hne]; [exists []; split; [done|constructor]|].
  destruct i as [|i]; [done|]. simpl in Hz, Hi. destruct (IH i) as (n & -> & Hn); [done|lia|done|].
  exists (b :: n). split; [done|]. constructor; [unfold byte_ok in Hb0; lia|done].
Qed.

Lemma read_u16_eq p0 p1 : byte_ok p0 -> byte_ok p1 -> read_u16 p0 p1 = p0 * 256 + p1.
Proof. intros _ H1. by apply lor_shift_byte. Qed.

(** ** Safety *)

(** The heap of the cache is sound, the allocator is honest and the buffers keep
    their sizes. *)
Record handle_ok (nq ns : Z) (s : hst) : Prop := {
  ho_req : Z.of_nat (length (h_req s)) = nq;
  ho_res : Z.of_nat (length (h_res s)) = ns;
  ho_bytes : bytes_ok (h_req s);
  ho_dns : exists lru, md_inv (h_dns s) lru /\
    NoDup (h_mem s).*1 /\ Forall (fun q => okp q.1 /\ q.1 ∉ lru) (h_mem s)
}.

Lemma set_req_ok nq ns s i v :
  handle_ok nq ns s -> 0 <= i < nq -> byte_ok v ->
  exists s', set_req i v s = Some (tt, s') /\ handle_ok nq ns s' /\ h_res s' = h_res s /\
    h_dns s' = h_dns s /\ h_req s' = buf_set (h_req s) i v.
Proof.
  intros [Hq Hs Hb Hd] Hi Hv. unfold set_req. rewrite (proj2 (in_buf_true _ _)) by lia.
  eexists. split; [done|]. split_and!; try done. split; simpl; try done.
  - by rewrite buf_set_length.
  - by apply buf_set_bytes.
Qed.

Lemma get_req_ok nq ns s i :
  handle_ok nq ns s -> 0 <= i < nq ->
  get_req i s = Some (buf_get (h_req s) i, s) /\ byte_ok (buf_get (h_req s) i).
Proof.
  intros [Hq Hs Hb Hd] Hi. unfold get_req. rewrite (proj2 (in_buf_true _ _)) by lia.
  split; [done|]. apply buf_get_byte; [done|lia].
Qed.

Lemma set_res_ok nq ns s i v :
  handle_ok nq ns s -> 0 <= i < ns ->
  exists s', set_res i v s = Some (tt, s') /\ handle_ok nq ns s' /\ h_dns s' = h_dns s.
Proof.
  intros [Hq Hs Hb Hd] Hi. unfold set_res. rewrite (proj2 (in_buf_true _ _)) by lia.
  eexists. split; [done|]. split_and!; try done. split; simpl; try done. by rewrite buf_set_length.
Qed.

Lemma get_res_ok nq ns s i :
  handle_ok nq ns s -> 0 <= i < ns -> exists v, get_res i s = Some (v, s).
Proof.
  intros [Hq Hs Hb Hd] Hi. unfold get_res. rewrite (proj2 (in_buf_true _ _)) by lia. eauto.
Qed.

(** The name loop stops, stays inside the message and ends on a NUL. *)
Lemma skip_name_ok nq ns fuel qlen off s :
  handle_ok nq ns s -> qlen <= nq -> 0 <= off < qlen -> qlen - off < Z.of_nat fuel ->
  exists r s', skip_name fuel qlen off s = Some (r, s') /\ handle_ok nq ns s' /\
    h_res s' = h_res s /\ h_dns s' = h_dns s /\
    match r with
    | None => True
    | Some off' => off <= off' < qlen /\ buf_get (h_req s') off' = 0 /\
                   (forall i, off' <= i -> buf_get (h_req s') i = buf_get (h_req s) i)
    end.
Proof.
  revert off s. induction fuel as [|fuel IH]; intros off s Hs Hq Hoff Hf; [lia|].
  destruct (get_req_ok _ _ _ off Hs) as [Hg Hb]; [lia|]. cbn [skip_name].
  erewrite bind_Some by exact Hg. destruct (Z.eqb_spec (buf_get (h_req s) off) 0) as [Hz|Hnz].
  { exists (Some off), s. split_and!; done || lia. }
  set (b := buf_get (h_req s) off) in *. unfold byte_ok in Hb.
  destruct (Z.leb_spec qlen (off + (1 + b))) as [Hge|Hlt].
  { exists None, s. by split_and!. }
  destruct (set_req_ok _ _ _ off 46 Hs) as (s1 & E1 & Hs1 & Hr1 & Hd1 & Hq1); [lia|unfold byte_ok; lia|].
  erewrite bind_Some by exact E1.
  destruct (IH (off + (1 + b)) s1) as (r & s' & E2 & Hs' & Hr' & Hd' & Hres); [done|lia..|].
  exists r, s'. split_and!; try done; try congruence. destruct r as [off'|]; [|done].
  destruct Hres as (Ho & Hz & Hsame). split_and!; try done; try lia.
  intros i Hi. rewrite Hsame, Hq1 by lia. apply buf_get_set_ne; lia.
Qed.

Lemma get_str_ok nq ns s i j :
  handle_ok nq ns s -> 0 <= i <= j -> j < nq -> buf_get (h_req s) j = 0 ->
  exists n, get_str i s = Some (n, s) /\ cstr n.
Proof.
  intros Hs Hi Hj Hz. unfold get_str. rewrite (proj2 (Z.leb_le _ _)) by lia.
  destruct (c_str_found (drop (Z.to_nat i) (h_req s)) (Z.to_nat (j - i))) as (n & -> & Hn).
  - apply Forall_drop, Hs.
  - rewrite length_drop. pose proof (ho_req _ _ _ Hs). lia.
  - rewrite nth_lookup, lookup_drop. unfold buf_get in Hz. rewrite nth_lookup in Hz.
    by replace (Z.to_nat i + Z.to_nat (j - i))%nat with (Z.to_nat j) by lia.
  - eauto.
Qed.

Lemma dns_find_ok nq ns s name :
  handle_ok nq ns s -> cstr name ->
  exists i s', dns_find name s = Some (i, s') /\ handle_ok nq ns s' /\ -1 <= i /\
    h_req s' = h_req s /\ h_res s' = h_res s.
Proof.
  intros [Hq Hs Hb (lru & Hi & Hnd & Hf)] Hname. unfold dns_find.
  destruct (h_mem s) as [|[a dup] mem] eqn:Hm; simpl.
  - destruct (find_total (h_dns s) lru NULL false name) as (i & d & lru' & -> & Hi' & Hr & Hin & _); try done; [auto|].
    eexists _, _. split; [done|]. split_and!; try done; [|lia]. split; simpl; try done. exists lru'.
    by split_and!.
  - simpl in Hnd. apply NoDup_cons in Hnd as [Ha Hnd]. apply Forall_cons in Hf as [[Hok Hal] Hf]. simpl in *.
    destruct (find_total (h_dns s) lru a dup name) as (i & d & lru' & -> & Hi' & Hr & Hin & _); try done; [auto|].
    eexists _, _. split; [done|]. split_and!; try done; [|lia]. split; simpl; try done. exists lru'.
    split_and!; try done. rewrite Forall_forall in Hf |- *. intros q Hq'. destruct (Hf q Hq') as [? Hql].
    split; [done|]. intros Hl'. destruct (Hin _ Hl') as [Heq|?]; [|done].
    apply Ha. rewrite <-Heq. by apply list_elem_of_fmap_2.
Qed.

(** Run one write and go on with the state it leaves. *)
Definition write_ok (nq ns : Z) (c : HM unit) (s : hst) : Prop :=
  exists s', c s = Some (tt, s') /\ handle_ok nq ns s'.

Lemma write_ok_res nq ns s i v : handle_ok nq ns s -> 0 <= i < ns -> write_ok nq ns (set_res i v) s.
Proof. intros Hs Hi. destruct (set_res_ok _ _ _ i v Hs Hi) as (s' & ? & ? & _). by exists s'. Qed.

Lemma write_ok_req nq ns s i v :
  handle_ok nq ns s -> 0 <= i < nq -> byte_ok v -> write_ok nq ns (set_req i v) s.
Proof. intros Hs Hi Hv. destruct (set_req_ok _ _ _ i v Hs Hi Hv) as (s' & ? & ? & _). by exists s'. Qed.

Lemma write_ok_seq nq ns (c1 c2 : HM unit) s :
  write_ok nq ns c1 s -> (forall s', handle_ok nq ns s' -> write_ok nq ns c2 s') ->
  write_ok nq ns (c1;; c2) s.
Proof.
  intros (s1 & E1 & Hs1) H2. destruct (H2 s1 Hs1) as (s2 & E2 & Hs2).
  exists s2. split; [|done]. by erewrite bind_Some by exact E1.
Qed.

Ltac write_tac :=
  intros; first [ apply write_ok_res; [assumption|lia]
                | apply write_ok_seq; [write_tac|write_tac] ].

Lemma write_ok_u16 nq ns s off v :
  handle_ok nq ns s -> 0 <= off -> off + 1 < ns -> write_ok nq ns (write_u16 off v) s.
Proof. unfold write_u16. write_tac. Qed.

Lemma write_ok_u32 nq ns s off v :
  handle_ok nq ns s -> 0 <= off -> off + 3 < ns -> write_ok nq ns (write_u32 off v) s.
Proof. unfold write_u32. write_tac. Qed.

Lemma write_ok_st16 nq ns s off v :
  handle_ok nq ns s -> 0 <= off -> off + 1 < ns -> write_ok nq ns (st16_res off v) s.
Proof. unfold st16_res. write_tac. Qed.

Lemma write_ok_st16_req nq ns s off v :
  handle_ok nq ns s -> 0 <= off -> off + 1 < nq -> 0 <= v < 65536 ->
  write_ok nq ns (st16_req off v) s.
Proof.
  intros Hs H0 H1 Hv. unfold st16_req. apply write_ok_seq; [|intros s' Hs']; apply write_ok_req; try done; try lia.
  - unfold byte_ok. change 255 with (Z.ones 8). rewrite Z.land_ones by lia. change (2 ^ 8) with 256.
    apply Z.mod_pos_bound. lia.
  - unfold byte_ok. rewrite Z.shiftr_div_pow2 by lia. change (2 ^ 8) with 256.
    split; [apply Z.div_pos; lia|apply Z.div_lt_upper_bound; lia].
Qed.

Ltac run_write lem :=
  match goal with
  | |- context [bind ?c _ ?st] =>
    let s' := fresh "st" in let E := fresh "E" in let H := fresh "Hst" in
    eassert (write_ok _ _ c st) as (s' & E & H); [eapply lem; [eassumption|lia..]|];
    erewrite (bind_Some c) by exact E
  end.

Ltac run_read i :=
  match goal with
  | H : handle_ok _ _ ?st |- context [bind (get_res i) _ ?st] =>
    let v := fresh "v" in let E := fresh "E" in
    destruct (get_res_ok _ _ st i H) as [v E]; [lia|]; erewrite (bind_Some (get_res i)) by exact E
  end.

Lemma handle_question_ok nq ns s qlen off ips :
  handle_ok nq ns s -> qlen <= nq -> 0 <= off <= qlen -> (length ips < 32)%nat ->
  exists r s', handle_question qlen off ips s = Some (r, s') /\ handle_ok nq ns s' /\
    match r with
    | None => True
    | Some (off', ips') => off < off' <= qlen /\ (length ips' <= S (length ips))%nat
    end.
Proof.
  intros Hs Hq Hoff Hn. unfold handle_question. rewrite (proj2 (Nat.leb_gt _ _)) by done.
  destruct (Z.leb_spec qlen off) as [Hge|Hlt]; [by exists None, s|].
  destruct (skip_name_ok nq ns (S (Z.to_nat qlen)) qlen off s)
    as (r & s1 & E1 & Hs1 & _ & _ & Hr); [done|done|lia|lia|].
  erewrite bind_Some by exact E1. destruct r as [o|]; [|by exists None, s1].
  destruct Hr as (Ho & Hz & _). destruct (Z.leb_spec qlen (o + 1 + 3)) as [Hge|Hlt4]; [by exists None, s1|].
  destruct (get_req_ok nq ns s1 (o + 1 + 0) Hs1) as [G0 B0]; [lia|]. erewrite bind_Some by exact G0.
  destruct (get_req_ok nq ns s1 (o + 1 + 1) Hs1) as [G1 B1]; [lia|]. erewrite bind_Some by exact G1.
  destruct (get_req_ok nq ns s1 (o + 1 + 2) Hs1) as [G2 B2]; [lia|]. erewrite bind_Some by exact G2.
  destruct (get_req_ok nq ns s1 (o + 1 + 3) Hs1) as [G3 B3]; [lia|]. erewrite bind_Some by exact G3.
  case_match eqn:Htype; [|exists (Some (o + 1 + 4, ips)), s1; split_and!; done || lia].
  apply andb_true_iff in Htype as [Ht _]. apply Z.eqb_eq in Ht. rewrite read_u16_eq in Ht by done.
  assert (exists j, off + 1 <= j < nq /\ buf_get (h_req s1) j = 0) as (j & Hj & Hzj).
  { destruct (decide (o = off)) as [->|Hne]; [exists (off + 1 + 0)|exists o]; split; try lia; try done.
    unfold byte_ok in *. lia. }
  destruct (get_str_ok nq ns s1 (off + 1) j) as (name & Gn & Hname); [done|lia|lia|done|].
  erewrite bind_Some by exact Gn.
  destruct (dns_find_ok nq ns s1 name) as (i & s2 & Gf & Hs2 & _); [done..|].
  erewrite bind_Some by exact Gf. erewrite bind_Some by done.
  eexists (Some (_, _)), s2. split; [done|]. split; [done|]. split; [lia|].
  case_match; [rewrite length_app; simpl; lia|lia].
Qed.

Lemma questions_ok nq ns n qlen s off ips :
  handle_ok nq ns s -> qlen <= nq -> 0 <= off <= qlen -> (length ips + n <= 32)%nat ->
  exists r s', questions n qlen off ips s = Some (r, s') /\ handle_ok nq ns s' /\
    match r with None => True | Some (off', _) => off <= off' <= qlen end.
Proof.
  revert s off ips. induction n as [|n IH]; intros s off ips Hs Hq Hoff Hn; cbn [questions].
  - exists (Some (off, ips)), s. split_and!; done || lia.
  - destruct (handle_question_ok nq ns s qlen off ips) as (r & s1 & E1 & Hs1 & Hr); [done|done|lia|lia|].
    erewrite bind_Some by exact E1. destruct r as [[off' ips']|]; [|by exists None, s1].
    destruct (IH s1 off' ips') as (r & s2 & -> & Hs2 & Hr2); [done|done|lia|lia|].
    exists r, s2. split_and!; try done. destruct r as [[? ?]|]; [lia|done].
Qed.

Lemma answers_ok nq ns slen s off ips :
  handle_ok nq ns s -> slen <= ns -> 0 <= off <= slen ->
  exists r s', answers slen off ips s = Some (r, s') /\ handle_ok nq ns s' /\
    match r with None => True | Some off' => off' = off + 16 * Z.of_nat (length ips) /\ off' <= slen end.
Proof.
  revert s off. induction ips as [|[ipo ip] ips IH]; intros s off Hs Hns Hoff; cbn [answers].
  - exists (Some off), s. simpl. split_and!; done || lia.
  - destruct (Z.leb_spec slen (off + 15)); [by exists None, s|].
    do 3 run_write write_ok_u16. run_write write_ok_u32. run_write write_ok_u16. run_write write_ok_u32.
    match goal with |- context [answers _ _ _ ?st] =>
      destruct (IH st (off + 16)) as (r & s' & -> & Hs' & Hr); [done|done|lia|] end.
    exists r, s'. split_and!; try done. destruct r; [|done]. simpl. lia.
Qed.

Ltac give_minus_one := eexists (-1), _; split; [reflexivity|]; split; [eassumption|left; reflexivity].

(** The handler never touches memory outside the message and the response
    buffer, whatever the message holds, and keeps the cache sound. *)
Lemma handle_safe qlen slen s :
  0 <= qlen < 2147483648 -> handle_ok qlen slen s ->
  exists r s', hev_mapped_dns_handle qlen slen s = Some (r, s') /\ handle_ok qlen slen s' /\
    (r = -1 \/ 12 <= r <= slen).
Proof.
  intros Hq Hs. unfold hev_mapped_dns_handle.
  destruct (Z.ltb_spec slen qlen); [by give_minus_one|].
  assert (u64 qlen = qlen) as -> by (apply Z.mod_small; lia).
  destruct (Z.ltb_spec qlen 12); [by give_minus_one|].
  pose proof Hs as [Hlq Hls Hb Hd].
  erewrite bind_Some.
  2:{ unfold copy_req. rewrite !(proj2 (Z.leb_le _ _)) by lia. done. }
  set (s1 := HSt _ _ _ _).
  assert (handle_ok qlen slen s1) as Hs1.
  { split; try done. simpl. rewrite length_app, length_take, length_drop. lia. }
  destruct (get_req_ok _ _ s1 4 Hs1) as [G4 B4]; [lia|]. erewrite bind_Some by exact G4.
  destruct (get_req_ok _ _ s1 5 Hs1) as [G5 B5]; [lia|]. erewrite bind_Some by exact G5.
  rewrite ntohs_range by done. set (qd := buf_get _ 4 * 256 + buf_get _ 5).
  assert (0 <= qd < 65536) as Hqd by (unfold byte_ok in *; subst qd; lia).
  run_write write_ok_st16_req.
  run_read 2. run_read 3.
  do 4 run_write write_ok_st16.
  destruct (Z.ltb_spec 32 qd); [by give_minus_one|].
  match goal with |- context [bind (questions _ _ _ _) _ ?st] =>
    destruct (questions_ok qlen slen (Z.to_nat qd) qlen st 12 []) as (r & s3 & E' & Hs3 & Hr);
      [done|lia|lia|simpl; lia|] end.
  erewrite bind_Some by exact E'. destruct r as [[off ips]|]; [|by give_minus_one].
  destruct (answers_ok qlen slen slen s3 off ips) as (r & s4 & Ea & Hs4 & Hr4); [done|lia|lia|].
  erewrite bind_Some by exact Ea. destruct r as [off'|]; [|by give_minus_one].
  run_read 2. run_read 3.
  do 2 run_write write_ok_st16. eexists off', _. split; [done|]. split; [done|]. right. lia.
Qed.

(** ** The reply to a query *)

Definition enc_labels (ls : list (list Z)) : list Z := concat (map (fun l => Z.of_nat (length l) :: l) ls).
Definition dot_labels (ls : list (list Z)) : list Z := concat (map (fun l => 46 :: l) ls).

(** The presentation form of a name. *)
Definition dotted (ls : list (list Z)) : list Z :=
  match ls with [] => [] | l :: ls => l ++ dot_labels ls end.

Definition label_ok (l : list Z) : Prop := l <> [] /\ (length l < 256)%nat /\ cstr l.

(** A message with one question of type A, class IN. *)
Definition dns_query (i0 i1 f0 f1 : Z) (counts : list Z) (ls : list (list Z)) : list Z :=
  [i0; i1; f0; f1; 0; 1] ++ counts ++ enc_labels ls ++ [0; 0; 1; 0; 1].

Definition be32 (v : Z) : list Z :=
  [u8 (Z.shiftr (u32 v) 24); u8 (Z.shiftr (u32 v) 16); u8 (Z.shiftr (u32 v) 8); u8 (u32 v)].

(** QR is set and RD is copied to RA. *)
Definition reply_flags (fl : Z) : Z := u16 (Z.lor (Z.lor fl 32768) (Z.shiftr (Z.land fl 256) 1)).

(** The reply: one answer that points at the question, with a time to live of
    one second and the mapped address. *)
Definition dns_reply (i0 i1 f0 f1 : Z) (ls : list (list Z)) (ip : Z) : list Z :=
  let fl := reply_flags (f0 * 256 + f1) in
  [i0; i1; fl / 256; fl mod 256; 0; 1; 0; 1; 0; 0; 0; 0] ++ enc_labels ls ++ [0; 0; 1; 0; 1] ++
  [192; 12; 0; 1; 0; 1; 0; 0; 0; 1; 0; 4] ++ be32 ip.

(** Accesses at known contents. *)
Lemma get_req_at s i v :
  0 <= i -> h_req s !! Z.to_nat i = Some v -> get_req i s = Some (v, s).
Proof.
  intros Hi Hv. unfold get_req. pose proof (lookup_lt_Some _ _ _ Hv).
  rewrite (proj2 (in_buf_true _ _)) by lia. unfold buf_get. by rewrite nth_lookup, Hv.
Qed.

Lemma get_res_at s i v :
  0 <= i -> h_res s !! Z.to_nat i = Some v -> get_res i s = Some (v, s).
Proof.
  intros Hi Hv. unfold get_res. pose proof (lookup_lt_Some _ _ _ Hv).
  rewrite (proj2 (in_buf_true _ _)) by lia. unfold buf_get. by rewrite nth_lookup, Hv.
Qed.

Lemma set_req_at q r d m i v (j : nat) :
  i = Z.of_nat j -> (j < length q)%nat ->
  set_req i v (HSt q r d m) = Some (tt, HSt (<[j := v]> q) r d m).
Proof.
  intros -> Hj. unfold set_req. rewrite (proj2 (in_buf_true _ _)) by (simpl; lia).
  unfold buf_set. by rewrite Nat2Z.id.
Qed.

Lemma set_res_at q r d m i v (j : nat) :
  i = Z.of_nat j -> (j < length r)%nat ->
  set_res i v (HSt q r d m) = Some (tt, HSt q (<[j := v]> r) d m).
Proof.
  intros -> Hj. unfold set_res. rewrite (proj2 (in_buf_true _ _)) by (simpl; lia).
  unfold buf_set. by rewrite Nat2Z.id.
Qed.

(** The name loop turns length bytes into dots. *)
Lemma skip_labels pre ls post r d m fuel qlen :
  Forall label_ok ls -> (length (enc_labels ls) < fuel)%nat ->
  Z.of_nat (length pre + length (enc_labels ls)) < qlen ->
  skip_name fuel qlen (Z.of_nat (length pre)) (HSt (pre ++ enc_labels ls ++ 0 :: post) r d m) =
  Some (Some (Z.of_nat (length pre + length (enc_labels ls))), HSt (pre ++ dot_labels ls ++ 0 :: post) r d m).
Proof.
  revert pre fuel. induction ls as [|l ls IH]; intros pre fuel Hl Hf Hq; (destruct fuel as [|fuel]; [lia|]);
    cbn [skip_name].
  - erewrite bind_Some.
    2:{ apply get_req_at; [lia|]. simpl. rewrite lookup_app_r by lia.
        replace (Z.to_nat (Z.of_nat (length pre)) - length pre)%nat with 0%nat by lia. done. }
    simpl. unfold ret. by rewrite Nat.add_0_r.
  - apply Forall_cons in Hl as [(Hne & Hlen & Hc) Hl].
    assert (0 < length l)%nat by (destruct l; [done|simpl; lia]).
    change (enc_labels (l :: ls)) with ((Z.of_nat (length l) :: l) ++ enc_labels ls) in *.
    change (dot_labels (l :: ls)) with ((46 :: l) ++ dot_labels ls) in *.
    rewrite !length_app in *. simpl length in *.
    erewrite bind_Some.
    2:{ apply get_req_at; [lia|]. simpl. rewrite lookup_app_r by lia.
        replace (Z.to_nat (Z.of_nat (length pre)) - length pre)%nat with 0%nat by lia. done. }
    rewrite (proj2 (Z.eqb_neq _ 0)) by lia. rewrite (proj2 (Z.leb_gt _ _)) by lia.
    erewrite bind_Some. 2:{ eapply set_req_at; [done|]. rewrite !length_app. simpl. lia. }
    replace (Z.of_nat (length pre) + (1 + Z.of_nat (length l)))
      with (Z.of_nat (length (pre ++ 46 :: l))) by (rewrite length_app; simpl; lia).
    replace (<[length pre := 46]> (pre ++ ((Z.of_nat (length l) :: l) ++ enc_labels ls) ++ 0 :: post))
      with ((pre ++ 46 :: l) ++ enc_labels ls ++ 0 :: post).
    2:{ rewrite insert_app_r_alt, Nat.sub_diag by lia. simpl. rewrite <-!app_assoc. done. }
    rewrite IH; [|done|lia|rewrite length_app; simpl; lia].
    rewrite length_app. simpl. rewrite <-!app_assoc. simpl. do 3 f_equal. lia.
Qed.

Lemma cstr_dot_labels ls : Forall label_ok ls -> cstr (dot_labels ls).
Proof.
  unfold cstr, dot_labels. induction 1 as [|l ls (_ & _ & Hl) _ IH]; simpl; [constructor|].
  constructor; [lia|]. by apply Forall_app.
Qed.

Lemma dot_enc_length ls : length (dot_labels ls) = length (enc_labels ls).
Proof.
  unfold dot_labels, enc_labels. induction ls as [|l ls IH]; [done|]. simpl. rewrite !length_app. lia.
Qed.

(** The question of a query. *)
Lemma question_reply hdr ls r d m a d' i qlen :
  length hdr = 12%nat -> Forall label_ok ls -> ls <> [] ->
  hev_mapped_dns_find a true (dotted ls) d = Some (i, d') -> 0 <= i ->
  qlen = Z.of_nat (17 + length (enc_labels ls)) ->
  handle_question qlen 12 [] (HSt (hdr ++ enc_labels ls ++ [0; 0; 1; 0; 1]) r d ((a, true) :: m)) =
  Some (Some (qlen, [(12, Z.lor (md_net d') i)]),
        HSt (hdr ++ dot_labels ls ++ [0; 0; 1; 0; 1]) r d' m).
Proof.
  intros Hh Hl Hne Hf Hi Hq. unfold handle_question. simpl (_ <=? _)%nat. cbv iota.
  rewrite (proj2 (Z.leb_gt _ _)) by lia.
  erewrite bind_Some.
  2:{ change 12 with (Z.of_nat 12). rewrite <-Hh. apply skip_labels; [done|lia|lia]. }
  rewrite Hh. cbv iota. rewrite (proj2 (Z.leb_gt _ _)) by lia.
  assert (forall k v, [0; 1; 0; 1] !! k = Some v ->
    forall j, j = Z.of_nat (12 + length (enc_labels ls)) + 1 + Z.of_nat k ->
    get_req j (HSt (hdr ++ dot_labels ls ++ [0; 0; 1; 0; 1]) r d ((a, true) :: m)) =
    Some (v, HSt (hdr ++ dot_labels ls ++ [0; 0; 1; 0; 1]) r d ((a, true) :: m))) as Hget.
  { intros k v Hk j ->. apply get_req_at; [lia|]. simpl. rewrite lookup_app_r by lia.
    rewrite lookup_app_r by (rewrite dot_enc_length; lia). rewrite dot_enc_length, Hh.
    replace (Z.to_nat _ - 12 - length (enc_labels ls))%nat with (S k) by lia. done. }
  erewrite bind_Some by (eapply (Hget 0%nat 0); [done|lia]).
  erewrite bind_Some by (eapply (Hget 1%nat 1); [done|lia]).
  erewrite bind_Some by (eapply (Hget 2%nat 0); [done|lia]).
  erewrite bind_Some by (eapply (Hget 3%nat 1); [done|lia]).
  change ((read_u16 0 1 =? 1) && (read_u16 0 1 =? 1)) with true. cbv iota.
  destruct ls as [|l ls]; [done|]. apply Forall_cons in Hl as [(_ & _ & Hc) Hl].
  erewrite bind_Some.
  2:{ unfold get_str. simpl (0 <=? _). cbv iota. cbn [h_req]. change (Z.to_nat (12 + 1)) with 13%nat.
      change (dot_labels (l :: ls)) with ((46 :: l) ++ dot_labels ls).
      replace (drop 13 _) with ((l ++ dot_labels ls) ++ 0 :: [0; 1; 0; 1]).
      2:{ do 13 (destruct hdr as [|? hdr]; [done|]). done. }
      rewrite c_str_app by (apply Forall_app; split; [done|by apply cstr_dot_labels]). done. }
  erewrite bind_Some. 2:{ unfold dns_find. simpl. simpl in Hf. by rewrite Hf. }
  erewrite bind_Some by done. rewrite (proj2 (Z.leb_le 0 i)) by done.
  by replace (Z.of_nat (12 + length (enc_labels (l :: ls))) + 1 + 4) with qlen by lia.
Qed.

(** Writes behind a prefix. *)
Lemma set_res_app q pre l d m k v (j : nat) :
  k = Z.of_nat (length pre) + Z.of_nat j -> (j < length l)%nat ->
  set_res k v (HSt q (pre ++ l) d m) = Some (tt, HSt q (pre ++ <[j := v]> l) d m).
Proof.
  intros -> Hj. rewrite (set_res_at _ _ _ _ _ _ (length pre + j)) by (rewrite ?length_app; lia).
  by rewrite insert_app_r.
Qed.

Lemma write_u16_app q pre l d m k v (j : nat) :
  k = Z.of_nat (length pre) + Z.of_nat j -> (S j < length l)%nat ->
  write_u16 k v (HSt q (pre ++ l) d m) =
  Some (tt, HSt q (pre ++ <[S j := u8 (u16 v)]> (<[j := u8 (Z.shiftr (u16 v) 8)]> l)) d m).
Proof.
  intros -> Hj. unfold write_u16. erewrite bind_Some by (apply (set_res_app _ _ _ _ _ _ _ j); lia).
  apply set_res_app; [lia|]. by rewrite length_insert.
Qed.

Lemma write_u32_app q pre l d m k v (j : nat) :
  k = Z.of_nat (length pre) + Z.of_nat j -> (S (S (S j)) < length l)%nat ->
  write_u32 k v (HSt q (pre ++ l) d m) =
  Some (tt, HSt q (pre ++ <[S (S (S j)) := u8 (u32 v)]> (<[S (S j) := u8 (Z.shiftr (u32 v) 8)]>
    (<[S j := u8 (Z.shiftr (u32 v) 16)]> (<[j := u8 (Z.shiftr (u32 v) 24)]> l)))) d m).
Proof.
  intros -> Hj. unfold write_u32. erewrite bind_Some by (apply (set_res_app _ _ _ _ _ _ _ j); lia).
  erewrite bind_Some by (apply (set_res_app _ _ _ _ _ _ _ (S j)); [lia|rewrite !length_insert; lia]).
  erewrite bind_Some by (apply (set_res_app _ _ _ _ _ _ _ (S (S j))); [lia|rewrite !length_insert; lia]).
  apply set_res_app; [lia|]. by rewrite !length_insert.
Qed.

(** The answer record, after a copied question. *)
Lemma answer_reply q pre tl d m ip slen :
  (16 <= length tl)%nat -> slen = Z.of_nat (length pre + length tl) ->
  answers slen (Z.of_nat (length pre)) [(12, ip)] (HSt q (pre ++ tl) d m) =
  Some (Some (Z.of_nat (length pre) + 16),
        HSt q (pre ++ [192; 12; 0; 1; 0; 1; 0; 0; 0; 1; 0; 4] ++ be32 ip ++ drop 16 tl) d m).
Proof.
  intros Ht ->. cbn [answers]. rewrite (proj2 (Z.leb_gt _ _)) by lia.
  do 16 (destruct tl as [|? tl]; [simpl in Ht; lia|]). clear Ht.
  erewrite bind_Some by (apply (write_u16_app _ _ _ _ _ _ _ 0); [lia|simpl; lia]). cbn [insert list_insert].
  erewrite bind_Some by (apply (write_u16_app _ _ _ _ _ _ _ 2); [lia|simpl; lia]). cbn [insert list_insert].
  erewrite bind_Some by (apply (write_u16_app _ _ _ _ _ _ _ 4); [lia|simpl; lia]). cbn [insert list_insert].
  erewrite bind_Some by (apply (write_u32_app _ _ _ _ _ _ _ 6); [lia|simpl; lia]). cbn [insert list_insert].
  erewrite bind_Some by (apply (write_u16_app _ _ _ _ _ _ _ 10); [lia|simpl; lia]). cbn [insert list_insert].
  erewrite bind_Some by (apply (write_u32_app _ _ _ _ _ _ _ 12); [lia|simpl; lia]). cbn [insert list_insert].
  reflexivity.
Qed.

(** A header field of the response, whose first bytes are known. *)
Ltac hdr_write j :=
  erewrite bind_Some;
  [|unfold st16_res;
    erewrite bind_Some by (apply (set_res_at _ _ _ _ _ _ j); [reflexivity|simpl; lia]);
    apply (set_res_at _ _ _ _ _ _ (S j)); [reflexivity|simpl; lia]];
  cbn [insert list_insert].

(** The reply to a query for one name is the A record of its mapped address. *)
Lemma handle_reply i0 i1 f0 f1 c0 c1 c2 c3 c4 c5 ls res d lru a :
  let q := dns_query i0 i1 f0 f1 [c0; c1; c2; c3; c4; c5] ls in
  Forall label_ok ls -> ls <> [] -> byte_ok f0 -> byte_ok f1 ->
  md_inv d lru -> okp a -> a ∉ lru ->
  (length q + 16 <= length res)%nat -> Z.of_nat (length q) < 2147483648 ->
  exists i d' lru' q' rest,
    hev_mapped_dns_handle (Z.of_nat (length q)) (Z.of_nat (length res)) (HSt q res d [(a, true)]) =
    Some (Z.of_nat (length q) + 16,
          HSt q' (dns_reply i0 i1 f0 f1 ls (Z.lor (md_net d) i) ++ rest) d' []) /\
    hev_mapped_dns_find a true (dotted ls) d = Some (i, d') /\ md_inv d' lru' /\
    spec_find (md_max d) (dotted ls) (abs d lru) = (i, abs d' lru').
Proof.
  intros q Hls Hne Hf0 Hf1 Hi Hok Ha Hlen Hmax.
  destruct (find_ok d lru a (dotted ls)) as (i & d' & lru' & Hf & Hi' & Hsp & _ & _ & Hnet & _); try done.
  { destruct ls as [|l ls]; [done|]. apply Forall_cons in Hls as [(_ & _ & ?) ?].
    apply Forall_app. split; [done|]. by apply cstr_dot_labels. }
  assert (0 <= i) as Hi0.
  { pose proof (mi_max _ _ Hi) as [? _]. pose proof (spec_find_range _ _ _ _ _ ltac:(done) (abs_range _ _ Hi) Hsp). lia. }
  assert (length q = 17 + length (enc_labels ls))%nat as Hql.
  { subst q. unfold dns_query. rewrite !length_app. simpl. lia. }
  exists i, d', lru'. eexists _, (drop 16 (drop (length q) res)). split; [|done].
  unfold hev_mapped_dns_handle. rewrite (proj2 (Z.ltb_ge _ _)) by lia.
  assert (u64 (Z.of_nat (length q)) = Z.of_nat (length q)) as -> by (apply Z.mod_small; lia).
  rewrite (proj2 (Z.ltb_ge _ _)) by lia.
  erewrite bind_Some. 2:{ unfold copy_req. cbn [h_req h_res]. rewrite !(proj2 (Z.leb_le _ _)) by lia. done. }
  cbn [h_req h_res h_dns h_mem]. rewrite Nat2Z.id, firstn_all.
  assert (Z.of_nat (length res) = Z.of_nat (length q + length (drop (length q) res))) as Hsl
    by (rewrite length_drop; lia).
  assert (16 <= length (drop (length q) res))%nat as Htl by (rewrite length_drop; lia).
  revert Hsl Htl. generalize (drop (length q) res) as tl. intros tl Hsl Htl.
  rewrite Hsl. clear Hsl Hlen. revert Hql. generalize (length q) as n. intros n Hql.
  pose proof (ntohs_range 0 1 ltac:(split; lia) ltac:(split; lia)) as Hqd. simpl in Hqd.
  pose proof (st16_bytes (f0 * 256 + f1) ltac:(unfold byte_ok in *; lia)) as (_ & _ & Hfl & Hfh).
  assert (ld16 ((f0 * 256 + f1) mod 256) ((f0 * 256 + f1) / 256) = f0 * 256 + f1) as Hld.
  { unfold ld16. rewrite Z.lor_comm, lor_shift_byte by (apply Z.mod_pos_bound; lia).
    pose proof (Z.div_mod (f0 * 256 + f1) 256). lia. }
  subst q. unfold dns_query. cbn [app].
  do 2 (erewrite bind_Some by (apply get_req_at; [lia|reflexivity])).
  rewrite ntohs_range by (split; lia). change (0 * 256 + 1) with 1.
  erewrite bind_Some.
  2:{ unfold st16_req. erewrite bind_Some by (apply (set_req_at _ _ _ _ _ _ 4); [done|simpl; lia]).
      apply (set_req_at _ _ _ _ _ _ 5); [done|simpl; lia]. }
  cbn [insert list_insert].
  do 2 (erewrite bind_Some by (apply get_res_at; [lia|reflexivity])).
  rewrite ntohs_range by done.
  hdr_write 2%nat. rewrite Hfl, Hfh. hdr_write 8%nat. hdr_write 6%nat. hdr_write 10%nat.
  change (32 <? 1) with false. cbv iota. change (Z.to_nat 1) with 1%nat. cbn [questions].
  erewrite bind_Some.
  2:{ erewrite bind_Some.
      2:{ apply (question_reply [i0; i1; f0; f1; Z.land 1 255; Z.shiftr 1 8; c0; c1; c2; c3; c4; c5] ls _ d [] a d' i);
            try done. by rewrite Hql. }
      cbv iota. reflexivity. }
  cbv iota. rewrite Hnet.
  erewrite bind_Some.
  2:{ pose proof (answer_reply ([i0; i1; f0; f1; Z.land 1 255; Z.shiftr 1 8; c0; c1; c2; c3; c4; c5] ++
         dot_labels ls ++ [0; 0; 1; 0; 1])
         ([i0; i1; (f0 * 256 + f1) mod 256; (f0 * 256 + f1) / 256; 0; 1; 0; 0; 0; 0; 0; 0] ++ enc_labels ls ++ [0; 0; 1; 0; 1])
         tl d' [] (Z.lor (md_net d) i) (Z.of_nat (n + length tl))) as Hans.
      rewrite !length_app in Hans. cbn [length] in Hans. rewrite Nat.add_assoc in Hans.
      replace (12 + length (enc_labels ls) + 5)%nat with n in Hans by lia.
      rewrite <-(app_assoc _ _ tl) in Hans. apply Hans; done. }
  cbv iota. cbn [app].
  do 2 (erewrite bind_Some by (apply get_res_at; [lia|reflexivity])).
  rewrite Hld. unfold htons. fold (reply_flags (f0 * 256 + f1)).
  hdr_write 2%nat. hdr_write 6%nat. unfold ret. do 2 f_equal. f_equal.
  unfold dns_reply. rewrite <-!app_assoc. cbn [app].
  destruct (st16_bytes (reply_flags (f0 * 256 + f1))) as (-> & -> & _); [apply Z.mod_pos_bound; lia|].
  destruct (st16_bytes (u16 1)) as (E1 & E2 & _); [apply Z.mod_pos_bound; lia|].
  cbn [length]. change (Z.of_nat 1) with 1. rewrite E1, E2. reflexivity.
Qed.
