(* ===== verification/Authenticator.v ===== *)
(** * Users and their registry (core/src/hev-socks5-user.c, hev-socks5-authenticator.c)

    A user is a reference-counted object with a name, a password and a tree node;
    the authenticator keeps the users in a red-black tree ordered by the length
    and then the bytes of the name.  The registry is proved to implement a finite
    map from names to users. *)

From stdpp Require Import sorting.
From S2P Require Import Prelude RBTree RBModel RBRep RBSpec KeyedTree.

(** ** State *)

(** [struct _HevSocks5User] with the reference count of its base object; [us_name]
    and [us_pass] are the allocated strings, with their final NUL. *)
Record user := User {
  us_ref : Z; us_name : list Z; us_pass : list Z; us_name_len : Z; us_pass_len : Z
}.

(** The tree of the authenticator and all user objects that are alive; the tree
    node embedded in a user has the address of the user. *)
Record auth := Auth { au_tree : rbmem; au_users : gmap Z user }.

Abbreviation AM := (M auth).

Definition with_tree (t : rbmem) (s : auth) : auth := Auth t (au_users s).
Definition with_users (us : gmap Z user) (s : auth) : auth := Auth (au_tree s) us.
Definition on_tree {A} (c : RB A) : AM A := zoom au_tree with_tree c.

Definition load_user (p : Z) : AM user :=
  fun s => match au_users s !! p with Some u => Some (u, s) | None => None end.

(** ** Users *)

(** [memcpy] of a counted string into a fresh buffer with a final NUL. *)
Definition dup_counted (b : list Z) (n : Z) : option (list Z) :=
  if (0 <=? n) && (n <=? Z.of_nat (length b)) then Some (take (Z.to_nat n) b ++ [0]) else None.

(** [hev_socks5_user_construct]; the flags are the results of the two [malloc]s. *)
Definition hev_socks5_user_construct (m1 m2 : bool) (name : list Z) (name_len : Z)
    (pass : list Z) (pass_len : Z) : option (option user) :=
  if negb m1 then Some None else
  nm ← dup_counted name name_len;
  if negb m2 then Some None else
  pw ← dup_counted pass pass_len;
  Some (Some (User 1 nm pw name_len pass_len)).

(** [hev_socks5_user_new]: [addr] is the result of [calloc]; NULL on failure. *)
Definition hev_socks5_user_new (addr : Z) (m1 m2 : bool) (name : list Z) (name_len : Z)
    (pass : list Z) (pass_len : Z) : AM Z :=
  if addr =? NULL then ret NULL else
  let* r := lift_opt (hev_socks5_user_construct m1 m2 name name_len pass pass_len) in
  match r with
  | None => ret NULL
  | Some u =>
    modify (fun s => Auth (RBMem (rb_root (au_tree s)) (<[addr := RBNode NULL NULL NULL]> (rb_nodes (au_tree s))))
                          (<[addr := u]> (au_users s)));;
    ret addr
  end.

Definition hev_socks5_user_checker (u : user) (pass : list Z) (pass_len : Z) : option Z :=
  if negb (us_pass_len u =? pass_len) then Some (-1) else
  r ← memcmp (Z.to_nat pass_len) (us_pass u) pass;
  Some (if negb (r =? 0) then -1 else 0).

(** [hev_socks5_user_destruct]: the strings and the object are freed. *)
Definition hev_socks5_user_destruct (p : Z) : AM unit :=
  modify (fun s => Auth (RBMem (rb_root (au_tree s)) (delete p (rb_nodes (au_tree s)))) (delete p (au_users s))).

(** [hev_object_ref] and [hev_object_unref] of an atomic object. *)
Definition hev_object_ref (p : Z) : AM unit :=
  let* u := load_user p in
  modify (fun s => with_users (<[p := User (u32 (us_ref u + 1)) (us_name u) (us_pass u) (us_name_len u) (us_pass_len u)]> (au_users s)) s).

Definition hev_object_unref (p : Z) : AM unit :=
  let* u := load_user p in
  let rc := us_ref u in
  modify (fun s => with_users (<[p := User (u32 (rc - 1)) (us_name u) (us_pass u) (us_name_len u) (us_pass_len u)]> (au_users s)) s);;
  if 1 <? rc then ret tt else hev_socks5_user_destruct p.

(** ** The registry *)

(** The comparison of the three search loops. *)
Definition user_cmp (us : gmap Z user) (name : list Z) (name_len : Z) (p : Z) : option Z :=
  u ← us !! p;
  if us_name_len u <? name_len then Some (-1)
  else if name_len <? us_name_len u then Some 1
  else memcmp (Z.to_nat name_len) (us_name u) name.

Definition hev_socks5_authenticator_add (user : Z) : AM Z :=
  let* u := load_user user in
  let* us := gets au_users in
  let* res := on_tree (rb_find_link (user_cmp us (us_name u) (us_name_len u))) in
  match res with
  | Found _ => ret (-1)
  | NotFound parent new =>
    on_tree (hev_rbtree_node_link user parent new);;
    on_tree (hev_rbtree_insert_color user);;
    ret 0
  end.

Definition hev_socks5_authenticator_del (name : list Z) (name_len : Z) : AM Z :=
  let* us := gets au_users in
  let* node := on_tree (rb_find (user_cmp us name name_len)) in
  if node =? NULL then ret (-1) else
  on_tree (hev_rbtree_erase node);;
  hev_object_unref node;;
  ret 0.

Definition hev_socks5_authenticator_get (name : list Z) (name_len : Z) : AM Z :=
  let* us := gets au_users in
  on_tree (rb_find (user_cmp us name name_len)).

Fixpoint clear_loop (fuel : nat) : AM unit :=
  match fuel with
  | O => fail
  | S fuel =>
    let* n := on_tree hev_rbtree_first in
    if n =? NULL then ret tt else
    on_tree (hev_rbtree_erase n);;
    hev_object_unref n;;
    clear_loop fuel
  end.

Definition hev_socks5_authenticator_clear : AM unit :=
  let* fuel := gets (fun s => rb_fuel (au_tree s)) in clear_loop fuel.

(** ** The order on counted strings *)

Fixpoint bytes_cmp (a b : list Z) : Z :=
  match a, b with
  | x :: a, y :: b => if x =? y then bytes_cmp a b else x - y
  | _, _ => 0
  end.

Definition name_cmp (a b : list Z) : Z :=
  if (length a <? length b)%nat then -1
  else if (length b <? length a)%nat then 1
  else bytes_cmp a b.

Lemma bytes_cmp_spec a b c :
  length a = length b -> length b = length c ->
  (bytes_cmp a b = 0 <-> a = b) /\ (0 < bytes_cmp a b <-> bytes_cmp b a < 0) /\
  (0 < bytes_cmp a b -> 0 <= bytes_cmp b c -> 0 < bytes_cmp a c).
Proof.
  revert b c. induction a as [|x a IH]; intros [|y b] [|z c] H1 H2; simpl in *; try lia.
  - split_and!; [done|lia|lia].
  - destruct (IH b c) as (I1 & I2 & I3); [lia..|]. rewrite (Z.eqb_sym y x).
    destruct (Z.eqb_spec x y), (Z.eqb_spec y z), (Z.eqb_spec x z); subst; try lia; try done;
      try (split_and!; [rewrite I1; split; [by intros ->|by intros [=]]|tauto|try tauto; lia]);
      (split_and!; [split; [lia|by intros [=]]|lia|lia]).
Qed.

#[global] Instance name_order : KeyOrder (fun _ : list Z => True) name_cmp.
Proof.
  split.
  - intros a b _ _. unfold name_cmp. case_match eqn:E1; [apply Nat.ltb_lt in E1; split; [lia|intros ->; lia]|].
    case_match eqn:E2; [apply Nat.ltb_lt in E2; split; [lia|intros ->; lia]|].
    apply Nat.ltb_ge in E1, E2. by apply (bytes_cmp_spec a b b); lia.
  - intros a b _ _. unfold name_cmp. destruct (Nat.ltb_spec (length a) (length b)), (Nat.ltb_spec (length b) (length a));
      try lia. apply (bytes_cmp_spec a b b); lia.
  - intros a b c _ _ _. unfold name_cmp.
    destruct (Nat.ltb_spec (length a) (length b)), (Nat.ltb_spec (length b) (length a)),
      (Nat.ltb_spec (length b) (length c)), (Nat.ltb_spec (length c) (length b)),
      (Nat.ltb_spec (length a) (length c)), (Nat.ltb_spec (length c) (length a)); try lia.
    apply (bytes_cmp_spec a b c); lia.
Qed.

(** A user whose strings are as [hev_socks5_user_construct] made them. *)
Definition user_ok (u : user) : Prop :=
  exists nm pw, us_name u = nm ++ [0] /\ us_name_len u = Z.of_nat (length nm) /\
    us_pass u = pw ++ [0] /\ us_pass_len u = Z.of_nat (length pw) /\ 1 <= us_ref u < 4294967296.

Definition user_name (u : user) : list Z := take (Z.to_nat (us_name_len u)) (us_name u).

Definition user_key (us : gmap Z user) (p : Z) : option (list Z) := user_name <$> us !! p.

Lemma memcmp_app n a b a' b' :
  length a = n -> length b = n -> memcmp n (a ++ a') (b ++ b') = Some (bytes_cmp a b).
Proof.
  revert a b. induction n as [|n IH]; intros [|x a] [|y b] Ha Hb; simpl in *; try lia; [done|].
  destruct (x =? y); [apply IH; lia|done].
Qed.

(** The comparison in memory is the comparison of names. *)
Lemma user_cmp_eq us name name_len p u :
  us !! p = Some u -> user_ok u -> 0 <= name_len <= Z.of_nat (length name) ->
  user_cmp us name name_len p = cmp_with name_cmp (user_key us) (take (Z.to_nat name_len) name) p.
Proof.
  intros Hp (nm & pw & Hn & Hl & _) Hlen. unfold user_cmp, cmp_with, user_key. rewrite Hp. simpl.
  unfold user_name. rewrite Hl, Hn, Nat2Z.id, take_app_length. unfold name_cmp. rewrite length_take.
  destruct (Z.ltb_spec (Z.of_nat (length nm)) name_len), (Nat.ltb_spec (length nm) (Nat.min (Z.to_nat name_len) (length name))); try lia; [done|].
  destruct (Z.ltb_spec name_len (Z.of_nat (length nm))), (Nat.ltb_spec (Nat.min (Z.to_nat name_len) (length name)) (length nm)); try lia; [done|].
  rewrite <-(take_drop (Z.to_nat name_len) name) at 1. apply memcmp_app; [lia|]. rewrite length_take. lia.
Qed.

(** ** The registry as a finite map *)

Abbreviation sorted_users := (sorted_by (fun _ : list Z => True) name_cmp).

Definition au_rep (s : auth) (xs : list Z) (reg : gmap (list Z) Z) : Prop :=
  rb_tree (au_tree s) xs /\ sorted_users (user_key (au_users s)) xs /\
  (forall p, p ∈ xs -> exists u, au_users s !! p = Some u /\ user_ok u) /\
  (forall nm p, reg !! nm = Some p <-> p ∈ xs /\ user_key (au_users s) p = Some nm).

Definition au_inv (s : auth) (reg : gmap (list Z) Z) : Prop := exists xs, au_rep s xs reg.

Lemma au_inv_empty us h : au_inv (Auth (RBMem NULL h) us) ∅.
Proof.
  exists []. split_and!; [apply rb_tree_empty|split; constructor|set_solver|].
  intros nm p. rewrite lookup_empty. set_solver.
Qed.

(** The registry sees the key that a node carries. *)
Lemma au_rep_reg s xs reg p nm :
  au_rep s xs reg -> p ∈ xs -> user_key (au_users s) p = Some nm -> reg !! nm = Some p.
Proof. intros (_ & _ & _ & H) Hp Hk. by apply H. Qed.

Lemma au_rep_miss s xs reg nm :
  au_rep s xs reg -> (forall x, x ∈ xs -> user_key (au_users s) x <> Some nm) -> reg !! nm = None.
Proof.
  intros (_ & _ & _ & H) Hno. destruct (reg !! nm) as [p|] eqn:Hp; [|done].
  apply H in Hp as [Hp Hk]. by destruct (Hno p Hp).
Qed.

Lemma au_cmp s xs reg name name_len :
  au_rep s xs reg -> 0 <= name_len <= Z.of_nat (length name) ->
  forall x, x ∈ xs -> user_cmp (au_users s) name name_len x =
    cmp_with name_cmp (user_key (au_users s)) (take (Z.to_nat name_len) name) x.
Proof. intros (_ & _ & Hok & _) Hl x Hx. destruct (Hok x Hx) as (u & Hu & Huo). by eapply user_cmp_eq. Qed.

(** Taking a node out of the tree and changing the users off the tree. *)
Lemma au_rep_remove s xs1 p xs2 reg nm tree' us' :
  au_rep s (xs1 ++ p :: xs2) reg -> user_key (au_users s) p = Some nm ->
  rb_tree tree' (xs1 ++ xs2) -> (forall x, x ∈ xs1 ++ xs2 -> us' !! x = au_users s !! x) ->
  au_rep (Auth tree' us') (xs1 ++ xs2) (delete nm reg).
Proof.
  intros (Ht & Hs & Hok & Hreg) Hk Ht' Hus.
  assert (forall x, x ∈ xs1 ++ xs2 -> user_key us' x = user_key (au_users s) x) as Hkeys.
  { intros x Hx. unfold user_key. by rewrite Hus. }
  pose proof (rb_tree_nodup _ _ Ht) as Hnd. apply NoDup_app in Hnd as (_ & Hd & Hnd). apply NoDup_cons in Hnd as [Hp2 _].
  assert (p ∉ xs1 ++ xs2) as Hp12 by (intros Hin; apply elem_of_app in Hin as [Hin|Hin]; set_solver).
  split_and!; simpl.
  - done.
  - eapply (sorted_by_ext (fun _ => True) name_cmp); [exact Hkeys|].
    by eapply (sorted_by_drop (fun _ => True) name_cmp).
  - intros x Hx. rewrite Hus by done. apply Hok. set_solver.
  - intros nm' q. rewrite lookup_delete_Some, Hreg. split.
    + intros (Hne & Hq & Hkq). assert (q <> p) by congruence.
      assert (q ∈ xs1 ++ xs2) by set_solver. split; [done|]. by rewrite Hkeys.
    + intros [Hq Hkq]. rewrite Hkeys in Hkq by done. split_and!; [|set_solver|done].
      intros ->. apply Hp12.
      assert (q = p) as ->; [|done].
      eapply (sorted_by_inj (fun _ => True) name_cmp _ (xs1 ++ p :: xs2)); [done|set_solver|set_solver|done|done].
Qed.

Lemma on_tree_eq {A} (c : RB A) s a m :
  c (au_tree s) = Some (a, m) -> on_tree c s = Some (a, with_tree m s).
Proof. intros H. unfold on_tree, zoom. by rewrite H. Qed.

Lemma on_tree_same {A} (c : RB A) s a :
  c (au_tree s) = Some (a, au_tree s) -> on_tree c s = Some (a, s).
Proof. intros H. unfold on_tree, zoom. rewrite H. by destruct s. Qed.

(** [add] is insertion of a new name. *)
Lemma add_ok s reg p u :
  au_inv s reg -> au_users s !! p = Some u -> user_ok u -> okp p -> is_Some (rb_nodes (au_tree s) !! p) ->
  exists s', hev_socks5_authenticator_add p s =
      Some (if decide (reg !! user_name u = None) then 0 else -1, s') /\
    au_inv s' (if decide (reg !! user_name u = None) then <[user_name u := p]> reg else reg) /\
    au_users s' = au_users s.
Proof.
  intros (xs & Hrep) Hu Huo Hok Hnode. pose proof Hrep as (Ht & Hs & Hall & Hreg).
  assert (0 <= us_name_len u <= Z.of_nat (length (us_name u))) as Hlen.
  { destruct Huo as (nm & pw & -> & -> & _). rewrite length_app. lia. }
  pose proof (au_cmp _ _ _ _ _ Hrep Hlen) as Hcmp. fold (user_name u) in Hcmp.
  destruct (keyed_find_link (fun _ => True) name_cmp _ _ _ _ (user_name u) Hcmp Ht Hs I) as (res & Heq & Hres).
  unfold hev_socks5_authenticator_add. erewrite bind_Some by (unfold load_user; by rewrite Hu).
  erewrite bind_Some by done. erewrite bind_Some by (by apply on_tree_same).
  destruct res as [n|parent link].
  - destruct Hres as (xs1 & xs2 & -> & Hk).
    rewrite (au_rep_reg _ _ _ n _ Hrep) by (done || set_solver). rewrite !decide_False by done.
    exists s. split_and!; try done. by exists (xs1 ++ n :: xs2).
  - destruct Hres as (xs1 & xs2 & -> & Hip & Hno & Hsort).
    assert (user_key (au_users s) p = Some (user_name u)) as Hkp by (unfold user_key; by rewrite Hu).
    rewrite (au_rep_miss _ _ _ _ Hrep Hno). rewrite !decide_True by done.
    destruct (rb_insert _ _ _ _ _ p Hip) as (m' & Hins & Ht' & _); try done.
    { intros Hin. by destruct (Hno p Hin). }
    apply bind_Some_inv in Hins as ([] & m1 & E1 & E2).
    erewrite bind_Some by (by apply on_tree_eq).
    erewrite bind_Some by (exact (on_tree_eq _ (with_tree m1 s) _ _ E2)).
    eexists. split; [done|]. split; [|done]. exists (xs1 ++ p :: xs2). split_and!; simpl.
    + done.
    + by apply Hsort.
    + intros q Hq. destruct (decide (q = p)) as [->|Hne]; [eauto|]. apply Hall. set_solver.
    + intros nm q. rewrite lookup_insert_Some, Hreg. split.
      * intros [[<- <-]|(Hne & Hq & Hk)]; split; try done; set_solver.
      * intros [Hq Hk]. destruct (decide (q = p)) as [->|Hne]; [left; split; [congruence|done]|].
        right. assert (q ∈ xs1 ++ xs2) as Hq' by set_solver. split_and!; try done.
        intros <-. by destruct (Hno q Hq').
Qed.

(** [get] is lookup. *)
Lemma get_ok s reg name name_len :
  au_inv s reg -> 0 <= name_len <= Z.of_nat (length name) ->
  hev_socks5_authenticator_get name name_len s =
  Some (default NULL (reg !! take (Z.to_nat name_len) name), s).
Proof.
  intros (xs & Hrep) Hlen. pose proof Hrep as (Ht & Hs & Hall & Hreg).
  destruct (keyed_find (fun _ => True) name_cmp _ _ _ _ (take (Z.to_nat name_len) name)
    (au_cmp _ _ _ _ _ Hrep Hlen) Ht Hs I) as (n & Heq & Hres).
  unfold hev_socks5_authenticator_get. erewrite bind_Some by done. rewrite (on_tree_same _ _ _ Heq). do 2 f_equal.
  destruct Hres as [[-> Hno]|(xs1 & xs2 & -> & Hk & _)].
  - by rewrite (au_rep_miss _ _ _ _ Hrep Hno).
  - by rewrite (au_rep_reg _ _ _ n _ Hrep) by (done || set_solver).
Qed.

(** Dropping the registry's reference. *)
Lemma unref_users s p u :
  au_users s !! p = Some u -> user_ok u ->
  exists s', hev_object_unref p s = Some (tt, s') /\
    (forall q, q <> p -> au_users s' !! q = au_users s !! q /\ rb_nodes (au_tree s') !! q = rb_nodes (au_tree s) !! q) /\
    rb_root (au_tree s') = rb_root (au_tree s) /\
    au_users s' !! p = (if decide (us_ref u = 1) then None
                        else Some (User (us_ref u - 1) (us_name u) (us_pass u) (us_name_len u) (us_pass_len u))).
Proof.
  intros Hu (nm & pw & _ & _ & _ & _ & Href). unfold hev_object_unref. erewrite bind_Some by (unfold load_user; by rewrite Hu).
  erewrite bind_Some by done. destruct (Z.ltb_spec 1 (us_ref u)).
  - eexists. split; [done|]. simpl. rewrite decide_False by lia. split_and!; try done.
    + intros q Hq. by rewrite lookup_insert_ne.
    + rewrite lookup_insert_eq. unfold u32. by rewrite Z.mod_small by lia.
  - eexists. split; [done|]. simpl. rewrite decide_True by lia. split_and!; try done.
    + intros q Hq. by rewrite !lookup_delete_ne, lookup_insert_ne.
    + apply lookup_delete_eq.
Qed.

(** A user that outlives the registry [xs]: alive, and referenced from elsewhere
    too when it is registered. *)
Definition held (xs : list Z) (q : Z) (s : auth) : Prop :=
  exists u, au_users s !! q = Some u /\ (q ∈ xs -> 1 < us_ref u).

(** Erasing a node of the tree and releasing its user. *)
Lemma erase_unref s xs1 p xs2 reg nm :
  au_rep s (xs1 ++ p :: xs2) reg -> user_key (au_users s) p = Some nm ->
  exists s1 s', on_tree (hev_rbtree_erase p) s = Some (tt, s1) /\ hev_object_unref p s1 = Some (tt, s') /\
    au_rep s' (xs1 ++ xs2) (delete nm reg) /\
    (forall q, held (xs1 ++ p :: xs2) q s -> held (xs1 ++ xs2) q s').
Proof.
  intros Hrep Hk. pose proof Hrep as (Ht & Hs & Hall & Hreg).
  destruct (rb_erase _ _ _ _ Ht) as (m' & E1 & Ht' & _).
  destruct (Hall p) as (u & Hu & Huo); [set_solver|].
  destruct (unref_users (with_tree m' s) p u) as (s' & E2 & Hoff & Hroot & Hpp); [done..|].
  exists (with_tree m' s), s'. split; [by apply on_tree_eq|]. split; [done|].
  pose proof (rb_tree_nodup _ _ Ht) as Hnd. apply NoDup_app in Hnd as (_ & Hd & Hnd). apply NoDup_cons in Hnd as [Hp2 _].
  assert (p ∉ xs1 ++ xs2) as Hp12 by (intros Hin; apply elem_of_app in Hin as [Hin|Hin]; set_solver).
  split.
  2:{ intros q (v & Hv & Hq). destruct (decide (q = p)) as [->|Hne].
      - assert (v = u) as -> by congruence. rewrite decide_False in Hpp by (assert (1 < us_ref u); [set_solver|lia]).
        eexists. split; [exact Hpp|]. done.
      - exists v. rewrite (proj1 (Hoff q Hne)). split; [done|]. set_solver. }
  destruct s' as [tree' us']. eapply au_rep_remove; [done..| |].
  - eapply rb_tree_frame; [exact Ht'|done|]. intros y Hy. apply (Hoff y). set_solver.
  - intros x Hx. apply (Hoff x). set_solver.
Qed.

(** [del] is deletion. *)
Lemma del_ok s reg name name_len :
  au_inv s reg -> 0 <= name_len <= Z.of_nat (length name) ->
  let nm := take (Z.to_nat name_len) name in
  exists s', hev_socks5_authenticator_del name name_len s =
      Some (if decide (reg !! nm = None) then -1 else 0, s') /\
    au_inv s' (delete nm reg).
Proof.
  intros (xs & Hrep) Hlen nm. pose proof Hrep as (Ht & Hs & Hall & Hreg).
  destruct (keyed_find (fun _ => True) name_cmp _ _ _ _ nm
    (au_cmp _ _ _ _ _ Hrep Hlen) Ht Hs I) as (n & Heq & Hres).
  unfold hev_socks5_authenticator_del. erewrite bind_Some by done.
  erewrite bind_Some by (by apply on_tree_same).
  destruct Hres as [[-> Hno]|(xs1 & xs2 & -> & Hk & Hok)].
  - rewrite (au_rep_miss _ _ _ _ Hrep Hno). rewrite decide_True by done. exists s. split; [done|].
    rewrite delete_id by (by eapply au_rep_miss). by exists xs.
  - rewrite okp_eqb by done. rewrite (au_rep_reg _ _ _ n _ Hrep) by (done || set_solver).
    rewrite decide_False by done. destruct (erase_unref _ _ _ _ _ _ Hrep Hk) as (s1 & s' & E1 & E2 & Hrep' & _).
    exists s'. erewrite bind_Some by exact E1. erewrite bind_Some by exact E2. split; [done|]. by exists (xs1 ++ xs2).
Qed.

(** [clear] empties the registry. *)
Lemma clear_loop_ok fuel s xs reg :
  au_rep s xs reg -> (length xs < fuel)%nat ->
  exists s', clear_loop fuel s = Some (tt, s') /\ au_inv s' ∅ /\ (forall q, held xs q s -> held [] q s').
Proof.
  revert s xs reg. induction fuel as [|fuel IH]; intros s xs reg Hrep Hf; [lia|].
  pose proof Hrep as (Ht & Hs & Hall & Hreg). cbn [clear_loop].
  erewrite bind_Some by (apply on_tree_same; by apply rb_first).
  destruct xs as [|p xs].
  - exists s. split; [done|]. split; [|done]. exists []. split_and!; try done.
    intros nm p. rewrite lookup_empty. split; [done|]. intros [Hp _]. set_solver.
  - change (edge L (p :: xs)) with p.
    rewrite okp_eqb by (pose proof (rb_tree_okp _ _ Ht) as H; by apply Forall_cons in H as [? _]).
    destruct (Hall p) as (u & Hu & _); [set_solver|].
    destruct (erase_unref s [] p xs reg (user_name u)) as (s1 & s' & E1 & E2 & Hrep' & Hk1); [done|unfold user_key; by rewrite Hu|].
    erewrite bind_Some by exact E1. erewrite bind_Some by exact E2.
    destruct (IH s' xs _ Hrep') as (s2 & E3 & Hi2 & Hk2); [simpl in *; lia|]. exists s2. auto.
Qed.

Lemma clear_ok s reg :
  au_inv s reg -> exists s', hev_socks5_authenticator_clear s = Some (tt, s') /\ au_inv s' ∅ /\
    (forall q u, au_users s !! q = Some u -> 1 < us_ref u -> is_Some (au_users s' !! q)).
Proof.
  intros (xs & Hrep). unfold hev_socks5_authenticator_clear. erewrite bind_Some by done.
  destruct (clear_loop_ok (rb_fuel (au_tree s)) s xs reg Hrep) as (s' & E & Hi' & Hk).
  { destruct Hrep as ((t & [_ Hr] & _ & [Hnd _] & Hi) & _).
    rewrite <-Hi in Hnd. pose proof (rep_size _ _ _ Hr Hnd). rewrite <-Hi. unfold rb_fuel. lia. }
  exists s'. split_and!; [done..|]. intros q u Hu Hr. destruct (Hk q) as (v & Hv & _); [by exists u|]. by exists v.
Qed.

(** ** Passwords *)

Definition user_pass (u : user) : list Z := take (Z.to_nat (us_pass_len u)) (us_pass u).

(** A constructed user carries copies of exactly the given bytes. *)
Lemma construct_user name name_len pass pass_len :
  0 <= name_len <= Z.of_nat (length name) -> 0 <= pass_len <= Z.of_nat (length pass) ->
  exists u, hev_socks5_user_construct true true name name_len pass pass_len = Some (Some u) /\
    user_ok u /\ user_name u = take (Z.to_nat name_len) name /\ user_pass u = take (Z.to_nat pass_len) pass /\
    us_ref u = 1.
Proof.
  intros Hn Hp. unfold hev_socks5_user_construct, dup_counted.
  rewrite !(proj2 (andb_true_iff _ _)) by (rewrite !Z.leb_le; lia). simpl. eexists. split; [done|].
  unfold user_name, user_pass. simpl. split_and!; try done.
  - exists (take (Z.to_nat name_len) name), (take (Z.to_nat pass_len) pass). simpl.
    rewrite !length_take. split_and!; try done; lia.
  - rewrite take_app_le by (rewrite length_take; lia). rewrite take_take. f_equal. lia.
  - rewrite take_app_le by (rewrite length_take; lia). rewrite take_take. f_equal. lia.
Qed.

(** The checker accepts exactly the password. *)
Lemma checker_ok u pass pass_len :
  user_ok u -> 0 <= pass_len <= Z.of_nat (length pass) ->
  hev_socks5_user_checker u pass pass_len =
  Some (if decide (take (Z.to_nat pass_len) pass = user_pass u) then 0 else -1).
Proof.
  intros (nm & pw & _ & _ & Hp & Hl & _) Hlen. unfold hev_socks5_user_checker, user_pass. rewrite Hp, Hl, Nat2Z.id, take_app_length.
  destruct (Z.eqb_spec (Z.of_nat (length pw)) pass_len) as [<-|Hne]; simpl.
  - rewrite Nat2Z.id. rewrite <-(take_drop (length pw) pass) at 1.
    rewrite memcmp_app by (done || rewrite length_take; lia). simpl. f_equal.
    destruct (bytes_cmp_spec pw (take (length pw) pass) pw) as (Heq & _); [rewrite length_take; lia..|].
    case_decide as Hd.
    + rewrite (proj2 (Z.eqb_eq _ 0)); [done|]. apply Heq. by symmetry.
    + rewrite (proj2 (Z.eqb_neq _ 0)); [done|]. rewrite Heq. congruence.
  - rewrite decide_False; [done|]. intros Heq. apply (f_equal length) in Heq. rewrite length_take in Heq. lia.
Qed.
