(* ===== verification/Buffers.v ===== *)
(** * Byte buffers (misc/hev-ring-buffer.c and hev-circular-buffer.c)

    The two cyclic buffers that carry stream data.  Both hand out their free and
    their filled space as at most two I/O vectors.  The ring buffer also keeps
    bytes that were read but not yet released (TCP segments in flight refer to
    them), so its contents are a pair of byte sequences: in flight and readable.
    [ByteFifo] is what the splice loops rely on; both buffers implement it. *)

From S2P Require Import Prelude.

(** ** Cyclic windows *)

(** An I/O vector into the data area: offset and length. *)
Abbreviation iovec := (Z * Z)%type.

Definition byte_at (data : list Z) (i : Z) : Z := nth (Z.to_nat i) data 0.

(** The [n] bytes from position [p] on, cyclically. *)
Definition window (max : Z) (data : list Z) (p : Z) (n : nat) : list Z :=
  map (fun k => byte_at data ((p + Z.of_nat k) mod max)) (seq 0 n).

(** The positions that I/O vectors cover, in order. *)
Definition iov_positions (iov : list iovec) : list Z :=
  concat (map (fun v => map (fun k => v.1 + Z.of_nat k) (seq 0 (Z.to_nat v.2))) iov).

Definition iov_len (iov : list iovec) : Z := foldr (fun v n => v.2 + n) 0 iov.

(** What a gathering write sends, and a scattering read of [w]. *)
Definition iov_gather (data : list Z) (iov : list iovec) : list Z :=
  map (byte_at data) (iov_positions iov).

Definition put_bytes (data : list Z) (ps : list Z) (w : list Z) : list Z :=
  foldl (fun d '(p, b) => <[Z.to_nat p := b]> d) data (zip ps w).

Definition iov_scatter (data : list Z) (iov : list iovec) (w : list Z) : list Z :=
  put_bytes data (iov_positions iov) w.

(** ** The ring buffer *)

(** [struct _HevRingBuffer] *)
Record ring := Ring { r_rp : Z; r_wp : Z; r_rda : Z; r_use : Z; r_max : Z; r_data : list Z }.

(** [hev_ring_buffer_alloca]; the data area has arbitrary contents. *)
Definition hev_ring_buffer_alloca (s : Z) (data : list Z) : ring := Ring 0 0 0 0 s data.

Definition hev_ring_buffer_get_max_size (self : ring) : Z := r_max self.
Definition hev_ring_buffer_get_use_size (self : ring) : Z := r_use self.

Definition hev_ring_buffer_reading (self : ring) : list iovec :=
  if 0 =? r_rda self then [] else
  let upper_size := u64 (r_max self - r_rp self) in
  if r_rda self <=? upper_size then [(r_rp self, r_rda self)]
  else [(r_rp self, upper_size); (0, u64 (r_rda self - upper_size))].

Definition hev_ring_buffer_read_finish (self : ring) (size : Z) : ring :=
  Ring (u64 (r_rp self + size) mod r_max self) (r_wp self) (u64 (r_rda self - size))
       (r_use self) (r_max self) (r_data self).

Definition hev_ring_buffer_read_release (self : ring) (size : Z) : ring :=
  let use := u64 (r_use self - size) in
  if use =? 0 then Ring 0 0 (r_rda self) use (r_max self) (r_data self)
  else Ring (r_rp self) (r_wp self) (r_rda self) use (r_max self) (r_data self).

Definition hev_ring_buffer_writing (self : ring) : list iovec :=
  if r_use self =? r_max self then [] else
  let upper_size := u64 (r_max self - r_wp self) in
  let spc_size := u64 (r_max self - r_use self) in
  if spc_size <=? upper_size then [(r_wp self, spc_size)]
  else [(r_wp self, upper_size); (0, u64 (spc_size - upper_size))].

Definition hev_ring_buffer_write_finish (self : ring) (size : Z) : ring :=
  Ring (r_rp self) (u64 (r_wp self + size) mod r_max self) (u64 (r_rda self + size))
       (u64 (r_use self + size)) (r_max self) (r_data self).

(** ** The circular buffer *)

(** [struct _HevCircularBuffer] *)
Record circ := Circ { c_rp : Z; c_use : Z; c_max : Z; c_ref : Z; c_data : list Z }.

Definition hev_circular_buffer_new (max_size : Z) (data : list Z) : circ := Circ 0 0 max_size 1 data.

Definition hev_circular_buffer_ref (self : circ) : circ :=
  Circ (c_rp self) (c_use self) (c_max self) (u32 (c_ref self + 1)) (c_data self).

(** [None]: the buffer was freed. *)
Definition hev_circular_buffer_unref (self : circ) : option circ :=
  let ref := u32 (c_ref self - 1) in
  if negb (ref =? 0) then Some (Circ (c_rp self) (c_use self) (c_max self) ref (c_data self)) else None.

Definition hev_circular_buffer_get_max_size (self : circ) : Z := c_max self.
Definition hev_circular_buffer_get_use_size (self : circ) : Z := c_use self.

Definition hev_circular_buffer_reading (self : circ) : list iovec :=
  let upper_size := u64 (c_max self - c_rp self) in
  if 0 =? c_use self then [] else
  if c_use self <=? upper_size then [(c_rp self, c_use self)]
  else [(c_rp self, upper_size); (0, u64 (c_use self - upper_size))].

Definition hev_circular_buffer_read_finish (self : circ) (size : Z) : circ :=
  Circ (u64 (c_rp self + size) mod c_max self) (u64 (c_use self - size)) (c_max self) (c_ref self) (c_data self).

Definition hev_circular_buffer_writing (self : circ) : list iovec :=
  let wp := u64 (c_rp self + c_use self) mod c_max self in
  let upper_size := u64 (c_max self - wp) in
  let spc_size := u64 (c_max self - c_use self) in
  if c_use self =? c_max self then [] else
  if spc_size <=? upper_size then [(wp, spc_size)]
  else [(wp, upper_size); (0, u64 (spc_size - upper_size))].

Definition hev_circular_buffer_write_finish (self : circ) (size : Z) : circ :=
  Circ (c_rp self) (u64 (c_use self + size)) (c_max self) (c_ref self) (c_data self).

(** ** Windows and vectors *)

(** The vectors that both buffers compute for [n] bytes from [p]. *)
Definition iov_of (max p n : Z) : list iovec :=
  if n =? 0 then [] else
  if n <=? max - p then [(p, n)] else [(p, max - p); (0, n - (max - p))].

Lemma seq_offset n m : seq n m = map (Nat.add n) (seq 0 m).
Proof. pose proof (fmap_add_seq n 0 m) as H. rewrite Nat.add_0_r in H. by rewrite <-H. Qed.

Section windows.
Context (max : Z) (Hmax : 0 < max).

Lemma window_app data p n m :
  window max data p (n + m) = window max data p n ++ window max data (p + Z.of_nat n) m.
Proof.
  unfold window. rewrite seq_app, map_app. f_equal. simpl.
  rewrite (seq_offset n m), map_map.
  apply map_ext. intros k. f_equal. f_equal. lia.
Qed.

Lemma window_mod data p q n : p mod max = q mod max -> window max data p n = window max data q n.
Proof.
  intros H. unfold window. apply map_ext. intros k. f_equal.
  rewrite (Z.add_mod p), (Z.add_mod q), H by lia. done.
Qed.

Lemma window_length data p n : length (window max data p n) = n.
Proof. unfold window. by rewrite length_map, length_seq. Qed.

Lemma iov_of_positions p n :
  0 <= p < max -> 0 <= n <= max ->
  iov_positions (iov_of max p n) = map (fun k => (p + Z.of_nat k) mod max) (seq 0 (Z.to_nat n)).
Proof.
  intros Hp Hn. unfold iov_of, iov_positions.
  destruct (Z.eqb_spec n 0) as [->|Hn0]; [done|].
  destruct (Z.leb_spec n (max - p)); simpl; rewrite app_nil_r.
  - apply map_ext_in. intros k Hk. apply in_seq in Hk. rewrite Z.mod_small by lia. done.
  - replace (Z.to_nat n) with (Z.to_nat (max - p) + Z.to_nat (n - (max - p)))%nat by lia.
    rewrite seq_app, map_app. f_equal.
    + apply map_ext_in. intros k Hk. apply in_seq in Hk. rewrite Z.mod_small by lia. done.
    + rewrite (seq_offset (0 + Z.to_nat (max - p))), map_map. apply map_ext_in. intros k Hk. apply in_seq in Hk.
      replace (p + Z.of_nat (0 + Z.to_nat (max - p) + k)) with (Z.of_nat k + 1 * max) by lia.
      rewrite Z.mod_add, Z.mod_small by lia. lia.
Qed.

Lemma iov_of_gather data p n :
  0 <= p < max -> 0 <= n <= max -> iov_gather data (iov_of max p n) = window max data p (Z.to_nat n).
Proof. intros Hp Hn. unfold iov_gather. rewrite iov_of_positions by done. by rewrite map_map. Qed.

Lemma iov_of_len p n : 0 <= p < max -> 0 <= n <= max -> iov_len (iov_of max p n) = n.
Proof.
  intros Hp Hn. unfold iov_of. destruct (Z.eqb_spec n 0); [simpl; lia|].
  destruct (Z.leb_spec n (max - p)); simpl; lia.
Qed.

(** Positions of a window never exceed the data area. *)
Lemma iov_of_bounds p n :
  0 <= p < max -> 0 <= n <= max -> Forall (fun v => 0 <= v.1 /\ 0 < v.2 /\ v.1 + v.2 <= max) (iov_of max p n).
Proof.
  intros Hp Hn. unfold iov_of. destruct (Z.eqb_spec n 0); [constructor|].
  destruct (Z.leb_spec n (max - p)); repeat constructor; simpl; lia.
Qed.
End windows.

Section scatter.
Context (max : Z) (Hmax : 0 < max).

Fixpoint scatter_from (data : list Z) (p : Z) (w : list Z) : list Z :=
  match w with
  | [] => data
  | b :: w => scatter_from (<[Z.to_nat (p mod max) := b]> data) (p + 1) w
  end.

Lemma put_scatter data p n w :
  (length w <= n)%nat ->
  put_bytes data (map (fun k => (p + Z.of_nat k) mod max) (seq 0 n)) w = scatter_from data p w.
Proof.
  revert data p n. induction w as [|b w IH]; intros data p n Hw; simpl in Hw.
  - unfold put_bytes. by rewrite zip_with_nil_r.
  - destruct n as [|n]; [lia|]. cbn [seq map]. unfold put_bytes. cbn [zip zip_with foldl].
    rewrite Z.add_0_r. fold (put_bytes (<[Z.to_nat (p mod max) := b]> data)).
    rewrite (seq_offset 1 n), map_map. cbn [scatter_from]. rewrite <-(IH _ (p + 1) n) by lia.
    unfold put_bytes. do 2 f_equal. apply map_ext. intros k. f_equal. lia.
Qed.

Lemma scatter_length data p w : length (scatter_from data p w) = length data.
Proof.
  revert data p. induction w as [|b w IH]; intros data p; simpl; [done|]. by rewrite IH, length_insert.
Qed.

Lemma window_insert data s n b :
  (Z.of_nat n < max) -> length data = Z.to_nat max ->
  window max (<[Z.to_nat ((s + Z.of_nat n) mod max) := b]> data) s (S n) = window max data s n ++ [b].
Proof.
  intros Hn Hl. rewrite <-Nat.add_1_r, window_app. f_equal.
  - unfold window. apply map_ext_in. intros k Hk. apply in_seq in Hk. unfold byte_at.
    rewrite !nth_lookup. rewrite list_lookup_insert_ne; [done|]. intros Heq.
    assert ((s + Z.of_nat n) mod max = (s + Z.of_nat k) mod max) as Hm.
    { pose proof (Z.mod_pos_bound (s + Z.of_nat n) max). pose proof (Z.mod_pos_bound (s + Z.of_nat k) max). lia. }
    assert ((Z.of_nat n - Z.of_nat k) mod max = 0) as Hz.
    { replace (Z.of_nat n - Z.of_nat k) with ((s + Z.of_nat n) - (s + Z.of_nat k)) by lia.
      rewrite Zminus_mod, Hm, Z.sub_diag. by apply Z.mod_0_l; lia. }
    rewrite Z.mod_small in Hz by lia. lia.
  - unfold window. simpl. rewrite Z.add_0_r. unfold byte_at. rewrite nth_lookup, list_lookup_insert_eq; [done|].
    rewrite Hl. pose proof (Z.mod_pos_bound (s + Z.of_nat n) max). lia.
Qed.

(** Writing behind a window extends it. *)
Lemma window_scatter data s n p w :
  p mod max = (s + Z.of_nat n) mod max -> Z.of_nat (n + length w) <= max -> length data = Z.to_nat max ->
  window max (scatter_from data p w) s (n + length w) = window max data s n ++ w.
Proof.
  revert data n p. induction w as [|b w IH]; intros data n p Hp Hn Hl; simpl in *.
  - by rewrite Nat.add_0_r, app_nil_r.
  - rewrite Nat.add_succ_r, <-Nat.add_succ_l, IH.
    + rewrite Hp. rewrite window_insert by lia. by rewrite <-app_assoc.
    + rewrite Z.add_mod, Hp, <-Z.add_mod by lia. f_equal. lia.
    + lia.
    + by rewrite length_insert.
Qed.
End scatter.

(** ** The contract *)

(** [bf_rep b u q]: the buffer holds [u], read but not released, then [q],
    readable.  [bf_fill] is a scattering read into the free space. *)
Class ByteFifo (B : Type) := {
  bf_rep : B -> list Z -> list Z -> Prop;
  bf_max : B -> Z;
  bf_data : B -> list Z;
  bf_set_data : B -> list Z -> B;
  bf_reading : B -> list iovec;
  bf_writing : B -> list iovec;
  bf_read_finish : B -> Z -> B;
  bf_write_finish : B -> Z -> B;
  bf_release : list Z -> list Z;
  bf_reading_ok b u q : bf_rep b u q ->
    iov_gather (bf_data b) (bf_reading b) = q /\ iov_len (bf_reading b) = Z.of_nat (length q) /\
    Forall (fun v => 0 <= v.1 /\ 0 < v.2 /\ v.1 + v.2 <= Z.of_nat (length (bf_data b))) (bf_reading b);
  bf_writing_ok b u q : bf_rep b u q ->
    iov_len (bf_writing b) = bf_max b - Z.of_nat (length u + length q) /\ 0 <= iov_len (bf_writing b) /\
    Forall (fun v => 0 <= v.1 /\ 0 < v.2 /\ v.1 + v.2 <= Z.of_nat (length (bf_data b))) (bf_writing b);
  bf_read_finish_ok b u q n : bf_rep b u q -> (n <= length q)%nat ->
    bf_rep (bf_read_finish b (Z.of_nat n)) (bf_release (u ++ take n q)) (drop n q) /\
    bf_max (bf_read_finish b (Z.of_nat n)) = bf_max b;
  bf_write_finish_ok b u q w : bf_rep b u q -> Z.of_nat (length w) <= iov_len (bf_writing b) ->
    bf_rep (bf_write_finish (bf_set_data b (iov_scatter (bf_data b) (bf_writing b) w)) (Z.of_nat (length w)))
           u (q ++ w) /\
    bf_max (bf_write_finish (bf_set_data b (iov_scatter (bf_data b) (bf_writing b) w)) (Z.of_nat (length w))) = bf_max b
}.

(** ** The ring buffer implements it *)

Record ring_rep (r : ring) (u q : list Z) : Prop := {
  rr_max : 0 < r_max r /\ 2 * r_max r < 18446744073709551616;
  rr_len : length (r_data r) = Z.to_nat (r_max r);
  rr_rp : 0 <= r_rp r < r_max r;
  rr_wp : r_wp r = (r_rp r + Z.of_nat (length q)) mod r_max r;
  rr_rda : r_rda r = Z.of_nat (length q);
  rr_use : r_use r = Z.of_nat (length u + length q) /\ r_use r <= r_max r;
  rr_win : window (r_max r) (r_data r) (r_rp r - Z.of_nat (length u)) (length u + length q) = u ++ q
}.

Lemma u64_small x : 0 <= x < 18446744073709551616 -> u64 x = x.
Proof. apply Z.mod_small. Qed.

Lemma ring_reading_eq r u q : ring_rep r u q -> hev_ring_buffer_reading r = iov_of (r_max r) (r_rp r) (r_rda r).
Proof.
  intros [Hm Hl Hrp Hwp Hrda [Huse Hle] _]. unfold hev_ring_buffer_reading, iov_of. rewrite (Z.eqb_sym 0).
  destruct (r_rda r =? 0); [done|]. rewrite (u64_small (r_max r - _)) by lia.
  destruct (Z.leb_spec (r_rda r) (r_max r - r_rp r)); [done|]. by rewrite u64_small by lia.
Qed.

Lemma ring_wp_range r u q : ring_rep r u q -> 0 <= r_wp r < r_max r.
Proof. intros H. rewrite (rr_wp _ _ _ H). apply Z.mod_pos_bound, (rr_max _ _ _ H). Qed.

Lemma ring_writing_eq r u q :
  ring_rep r u q -> hev_ring_buffer_writing r = iov_of (r_max r) (r_wp r) (r_max r - r_use r).
Proof.
  intros H. pose proof (ring_wp_range _ _ _ H) as Hwp. destruct H as [Hm Hl Hrp _ Hrda [Huse Hle] _].
  unfold hev_ring_buffer_writing, iov_of.
  destruct (Z.eqb_spec (r_use r) (r_max r)), (Z.eqb_spec (r_max r - r_use r) 0); try lia; [done|].
  rewrite !(u64_small (r_max r - _)) by lia.
  destruct (Z.leb_spec (r_max r - r_use r) (r_max r - r_wp r)); [done|]. by rewrite u64_small by lia.
Qed.

Lemma ring_alloca_rep s data :
  0 < s -> 2 * s < 18446744073709551616 -> length data = Z.to_nat s ->
  ring_rep (hev_ring_buffer_alloca s data) [] [].
Proof. intros H1 H2 H3. split; simpl; try done; try lia. Qed.

Lemma ring_read_finish_rep r u q n :
  ring_rep r u q -> (n <= length q)%nat ->
  ring_rep (hev_ring_buffer_read_finish r (Z.of_nat n)) (u ++ take n q) (drop n q).
Proof.
  intros [Hm Hl Hrp Hwp Hrda [Huse Hle] Hw] Hn.
  assert (length (u ++ take n q) + length (drop n q) = length u + length q)%nat as Hlen.
  { rewrite length_app, length_take, length_drop. lia. }
  split; simpl; try done; rewrite ?Hlen, ?length_drop; try done.
  - apply Z.mod_pos_bound. lia.
  - rewrite Hwp, u64_small by lia. rewrite Zplus_mod_idemp_l. f_equal. lia.
  - rewrite u64_small; lia.
  - rewrite <-app_assoc, take_drop, <-Hw. apply window_mod; [lia|].
    rewrite u64_small by lia. rewrite Zminus_mod_idemp_l, length_app, length_take. f_equal. lia.
Qed.

Lemma ring_release_rep r u q n :
  ring_rep r u q -> (n <= length u)%nat ->
  ring_rep (hev_ring_buffer_read_release r (Z.of_nat n)) (drop n u) q.
Proof.
  intros [Hm Hl Hrp Hwp Hrda [Huse Hle] Hw] Hn. unfold hev_ring_buffer_read_release.
  rewrite u64_small by lia. destruct (Z.eqb_spec (r_use r - Z.of_nat n) 0) as [Hz|Hnz].
  - assert (q = [] /\ drop n u = []) as [-> ->].
    { split; apply length_zero_iff_nil; rewrite ?length_drop; lia. }
    split; simpl in *; try done; lia.
  - split; simpl; try done; rewrite ?length_drop; try lia.
    replace (r_rp r - Z.of_nat (length u - n)) with (r_rp r - Z.of_nat (length u) + Z.of_nat n) by lia.
    replace (length u + length q)%nat with (n + (length u - n + length q))%nat in Hw by lia.
    rewrite window_app in Hw. rewrite <-(take_drop n u) in Hw at 4. rewrite <-app_assoc in Hw.
    apply app_inj_1 in Hw as [_ Hw]; [done|]. rewrite window_length, length_take. lia.
Qed.

Lemma ring_write_rep r u q w :
  ring_rep r u q -> Z.of_nat (length w) <= r_max r - r_use r ->
  ring_rep (hev_ring_buffer_write_finish
    (Ring (r_rp r) (r_wp r) (r_rda r) (r_use r) (r_max r) (iov_scatter (r_data r) (hev_ring_buffer_writing r) w))
    (Z.of_nat (length w))) u (q ++ w).
Proof.
  intros H Hw. pose proof (ring_wp_range _ _ _ H) as Hwpr. rewrite (ring_writing_eq _ _ _ H).
  destruct H as [Hm Hl Hrp Hwp Hrda [Huse Hle] Hwin].
  unfold iov_scatter. rewrite iov_of_positions by lia. rewrite put_scatter by lia.
  split; simpl; try done; rewrite ?length_app.
  - by rewrite scatter_length.
  - rewrite u64_small by lia. rewrite Hwp, Zplus_mod_idemp_l. f_equal. lia.
  - rewrite u64_small; lia.
  - rewrite u64_small; lia.
  - rewrite Nat.add_assoc, window_scatter; [by rewrite Hwin, <-app_assoc|lia| |lia|done].
    rewrite Hwp, Zmod_mod. f_equal. lia.
Qed.

#[global] Program Instance ring_fifo : ByteFifo ring := {|
  bf_rep := ring_rep;
  bf_max := r_max;
  bf_data := r_data;
  bf_set_data r d := Ring (r_rp r) (r_wp r) (r_rda r) (r_use r) (r_max r) d;
  bf_reading := hev_ring_buffer_reading;
  bf_writing := hev_ring_buffer_writing;
  bf_read_finish := hev_ring_buffer_read_finish;
  bf_write_finish := hev_ring_buffer_write_finish;
  bf_release u := u
|}.
Next Obligation.
  intros r u q H. rewrite (ring_reading_eq _ _ _ H). destruct H as [Hm Hl Hrp Hwp Hrda [Huse Hle] Hw].
  split_and!.
  - rewrite iov_of_gather, Hrda, Nat2Z.id by lia. rewrite window_app in Hw.
    apply app_inj_1 in Hw as [_ Hw]; [|by rewrite window_length].
    etransitivity; [|exact Hw]. f_equal. lia.
  - rewrite iov_of_len; lia.
  - rewrite Hl, Z2Nat.id by lia. apply iov_of_bounds; lia.
Qed.
Next Obligation.
  intros r u q H. rewrite (ring_writing_eq _ _ _ H). pose proof (ring_wp_range _ _ _ H).
  destruct H as [Hm Hl Hrp Hwp Hrda [Huse Hle] Hw]. rewrite iov_of_len by lia.
  split_and!; try lia. rewrite Hl, Z2Nat.id by lia. apply iov_of_bounds; lia.
Qed.
Next Obligation. intros r u q n H Hn. split; [by apply ring_read_finish_rep|done]. Qed.
Next Obligation.
  intros r u q w H Hw. split; [|done]. apply ring_write_rep; [done|]. revert Hw.
  rewrite (ring_writing_eq _ _ _ H). pose proof (ring_wp_range _ _ _ H). destruct H as [Hm Hl Hrp Hwp Hrda [Huse Hle] _].
  rewrite iov_of_len by lia. done.
Qed.

(** ** The circular buffer implements it, with nothing held back *)

Record circ_rep (c : circ) (u q : list Z) : Prop := {
  cr_none : u = [];
  cr_max : 0 < c_max c /\ 2 * c_max c < 18446744073709551616;
  cr_len : length (c_data c) = Z.to_nat (c_max c);
  cr_rp : 0 <= c_rp c < c_max c;
  cr_use : c_use c = Z.of_nat (length q) /\ c_use c <= c_max c;
  cr_win : window (c_max c) (c_data c) (c_rp c) (length q) = q
}.

Definition circ_wp (c : circ) : Z := (c_rp c + c_use c) mod c_max c.

Lemma circ_reading_eq c u q : circ_rep c u q -> hev_circular_buffer_reading c = iov_of (c_max c) (c_rp c) (c_use c).
Proof.
  intros [_ Hm Hl Hrp [Huse Hle] _]. unfold hev_circular_buffer_reading, iov_of. rewrite (Z.eqb_sym 0).
  destruct (c_use c =? 0); [done|]. rewrite (u64_small (c_max c - _)) by lia.
  destruct (Z.leb_spec (c_use c) (c_max c - c_rp c)); [done|]. by rewrite u64_small by lia.
Qed.

Lemma circ_writing_eq c u q :
  circ_rep c u q -> hev_circular_buffer_writing c = iov_of (c_max c) (circ_wp c) (c_max c - c_use c).
Proof.
  intros [_ Hm Hl Hrp [Huse Hle] _]. unfold hev_circular_buffer_writing, iov_of.
  rewrite (u64_small (c_rp c + _)) by lia. fold (circ_wp c).
  assert (0 <= circ_wp c < c_max c) by (apply Z.mod_pos_bound; lia).
  destruct (Z.eqb_spec (c_use c) (c_max c)), (Z.eqb_spec (c_max c - c_use c) 0); try lia; [done|].
  rewrite !(u64_small (c_max c - _)) by lia.
  destruct (Z.leb_spec (c_max c - c_use c) (c_max c - circ_wp c)); [done|]. by rewrite u64_small by lia.
Qed.

#[global] Program Instance circ_fifo : ByteFifo circ := {|
  bf_rep := circ_rep;
  bf_max := c_max;
  bf_data := c_data;
  bf_set_data c d := Circ (c_rp c) (c_use c) (c_max c) (c_ref c) d;
  bf_reading := hev_circular_buffer_reading;
  bf_writing := hev_circular_buffer_writing;
  bf_read_finish := hev_circular_buffer_read_finish;
  bf_write_finish := hev_circular_buffer_write_finish;
  bf_release _ := []
|}.
Next Obligation.
  intros c u q H. rewrite (circ_reading_eq _ _ _ H). destruct H as [_ Hm Hl Hrp [Huse Hle] Hw].
  split_and!.
  - by rewrite iov_of_gather, Huse, Nat2Z.id by lia.
  - rewrite iov_of_len; lia.
  - rewrite Hl, Z2Nat.id by lia. apply iov_of_bounds; lia.
Qed.
Next Obligation.
  intros c u q H. rewrite (circ_writing_eq _ _ _ H). destruct H as [-> Hm Hl Hrp [Huse Hle] Hw].
  assert (0 <= circ_wp c < c_max c) by (apply Z.mod_pos_bound; lia).
  rewrite iov_of_len by lia. split_and!; simpl; try lia. rewrite Hl, Z2Nat.id by lia. apply iov_of_bounds; lia.
Qed.
Next Obligation.
  intros c u q n [-> Hm Hl Hrp [Huse Hle] Hw] Hn. split; [|done].
  split; simpl; try done; rewrite ?length_drop.
  - apply Z.mod_pos_bound. lia.
  - rewrite u64_small; lia.
  - rewrite u64_small by lia. rewrite <-Hw at 2. replace (length q) with (n + (length q - n))%nat at 2 by lia.
    rewrite window_app, drop_app_ge, window_length by (rewrite window_length; lia). rewrite Nat.sub_diag. simpl.
    apply window_mod; [lia|]. apply Zmod_mod.
Qed.
Next Obligation.
  intros c u q w H Hw. split; [|done]. revert Hw. rewrite (circ_writing_eq _ _ _ H).
  destruct H as [-> Hm Hl Hrp [Huse Hle] Hwin].
  assert (0 <= circ_wp c < c_max c) by (apply Z.mod_pos_bound; lia).
  rewrite iov_of_len by lia. intros Hw. unfold iov_scatter. rewrite iov_of_positions, put_scatter by lia.
  split; simpl; try done; rewrite ?length_app.
  - by rewrite scatter_length.
  - rewrite u64_small; lia.
  - rewrite window_scatter; [by rewrite Hwin|lia| |lia|done].
    unfold circ_wp. rewrite Zmod_mod. by rewrite Huse.
Qed.

Lemma circ_new_rep s data :
  0 < s -> 2 * s < 18446744073709551616 -> length data = Z.to_nat s ->
  circ_rep (hev_circular_buffer_new s data) [] [].
Proof. intros H1 H2 H3. split; simpl; try done; lia. Qed.

(** Blocks of a buffer that are not empty have room. *)
Lemma iov_len_pos (iov : list iovec) n :
  Forall (fun v => 0 <= v.1 /\ 0 < v.2 /\ v.1 + v.2 <= n) iov -> iov <> [] -> 0 < iov_len iov.
Proof.
  intros Hv Hne. destruct Hv as [|v iov (_ & ? & _) Hv]; [done|]. simpl.
  assert (0 <= iov_len iov) as ?; [|unfold iov_len in *; lia]. clear -Hv. unfold iov_len.
  induction Hv as [|x l (_ & ? & _) _ IH]; simpl; lia.
Qed.
