(* ===== verification/SocksAddr.v ===== *)
(** * SOCKS5 addresses (core/src/hev-socks5-proto.h, core/src/hev-socks5-misc.c, misc/hev-utils.c)

    A [HevSocks5Addr] is a block of memory, read and written at the offsets of
    its packed fields: the type at 0, an IPv4 address at 1 with its port at 5, an
    IPv6 address at 1 with its port at 17, the length of a name at 1 and its
    bytes from 2, followed by the port.  Ports are kept as the 16-bit integers
    the host holds, in network byte order; the host is little-endian. *)

From S2P Require Import Prelude RBTree KeyedTree HevList MappedDNS.

(** ** Constants *)

Definition HEV_SOCKS5_ADDR_TYPE_IPV4 : Z := 1.
Definition HEV_SOCKS5_ADDR_TYPE_IPV6 : Z := 4.
Definition HEV_SOCKS5_ADDR_TYPE_NAME : Z := 3.

Definition AF_UNSPEC : Z := 0.
Definition AF_INET : Z := 2.
Definition AF_INET6 : Z := 10.
Definition HEV_SOCKS5_ADDR_FAMILY_IPV4 : Z := AF_INET.
Definition HEV_SOCKS5_ADDR_FAMILY_IPV6 : Z := AF_INET6.
Definition HEV_SOCKS5_ADDR_FAMILY_UNSPEC : Z := AF_UNSPEC.

(** [sizeof (HevSocks5Addr)] *)
Definition sizeof_addr : nat := 260.

(** ** Building addresses *)

Definition hev_socks5_addr_len (addr : list Z) : option Z :=
  atype ← peek1 addr 0;
  if atype =? HEV_SOCKS5_ADDR_TYPE_IPV4 then Some 7
  else if atype =? HEV_SOCKS5_ADDR_TYPE_IPV6 then Some 19
  else if atype =? HEV_SOCKS5_ADDR_TYPE_NAME then len ← peek1 addr 1; Some (4 + len)
  else Some (-1).

(** [strncpy (dst, name, n)]: exactly [n] bytes, padded with zeros and without a
    final NUL when the name has [n] bytes or more. *)
Definition strncpy (name : list Z) (n : nat) : list Z := take n (name ++ replicate n 0).

(** The block after the call and the value returned; a name is given without its
    final NUL. *)
Definition hev_socks5_addr_from_name (addr name : list Z) (_port : Z) : option (list Z * Z) :=
  let port := u16 _port in
  addr ← poke addr 0 [HEV_SOCKS5_ADDR_TYPE_NAME];
  addr ← poke addr 2 (strncpy name 256);
  s ← c_str (drop 2 addr);
  let len := u8 (Z.of_nat (length s)) in
  addr ← poke addr 1 [len];
  addr ← poke addr (2 + len) (st16 port);
  Some (addr, 4 + len).

Definition hev_socks5_addr_from_ipv4 (addr ipv4 : list Z) (port : Z) : option (list Z * Z) :=
  addr ← poke addr 0 [HEV_SOCKS5_ADDR_TYPE_IPV4];
  b ← peek ipv4 0 4;
  addr ← poke addr 1 b;
  addr ← poke addr 5 (st16 (u16 port));
  Some (addr, 7).

Definition hev_socks5_addr_from_ipv6 (addr ipv6 : list Z) (port : Z) : option (list Z * Z) :=
  addr ← poke addr 0 [HEV_SOCKS5_ADDR_TYPE_IPV6];
  b ← peek ipv6 0 16;
  addr ← poke addr 1 b;
  addr ← poke addr 17 (st16 (u16 port));
  Some (addr, 19).

(** ** Socket addresses *)

(** [struct sockaddr_in6], the fields the code uses. *)
Record sockaddr_in6 := SockAddr6 { sin6_family : Z; sin6_port : Z; sin6_addr : list Z }.

(** [memset (&saddr, 0, sizeof (saddr))] *)
Definition sockaddr_zero : sockaddr_in6 := SockAddr6 0 0 (replicate 16 0).

Definition v4mapped_prefix : list Z := replicate 10 0 ++ [255; 255].

Definition IN6_IS_ADDR_V4MAPPED (a : list Z) : bool := bool_decide (take 12 a = v4mapped_prefix).

Definition hev_socks5_addr_from_sockaddr6 (addr : list Z) (saddr : sockaddr_in6) : option (list Z * Z) :=
  if IN6_IS_ADDR_V4MAPPED (sin6_addr saddr) then
    addr ← poke addr 0 [HEV_SOCKS5_ADDR_TYPE_IPV4];
    addr ← poke addr 5 (st16 (sin6_port saddr));
    b ← peek (sin6_addr saddr) 12 4;
    addr ← poke addr 1 b;
    Some (addr, 7)
  else
    addr ← poke addr 0 [HEV_SOCKS5_ADDR_TYPE_IPV6];
    addr ← poke addr 17 (st16 (sin6_port saddr));
    b ← peek (sin6_addr saddr) 0 16;
    addr ← poke addr 1 b;
    Some (addr, 19).

(** A 16-bit field of a block. *)
Definition peek16 (l : list Z) (off : Z) : option Z :=
  b ← peek l off 2;
  match b with [b0; b1] => Some (ld16 b0 b1) | _ => None end.

Definition hev_socks5_ipv4_into_sockaddr6 (addr : list Z) (saddr : sockaddr_in6) : option sockaddr_in6 :=
  port ← peek16 addr 5;
  a ← poke (sin6_addr saddr) 0 (replicate 10 0);
  a ← poke a 10 [255];
  a ← poke a 11 [255];
  b ← peek addr 1 4;
  a ← poke a 12 b;
  Some (SockAddr6 AF_INET6 port a).

Definition hev_socks5_ipv6_into_sockaddr6 (addr : list Z) (saddr : sockaddr_in6) : option sockaddr_in6 :=
  port ← peek16 addr 17;
  b ← peek addr 1 16;
  a ← poke (sin6_addr saddr) 0 b;
  Some (SockAddr6 AF_INET6 port a).

(** ** Resolution *)

Section resolve.
(** [inet_pton] for both families: the bytes of a numeric address, if the string
    is one.  [getaddrinfo]: the first result for a name and a family hint, as its
    family and address bytes. *)
Context (inet_pton4 inet_pton6 : list Z -> option (list Z)).
Context (getaddrinfo : list Z -> Z -> option (Z * list Z)).

Definition hev_socks5_name_resolve_ipv4 (name : list Z) (saddr : sockaddr_in6) : option (Z * sockaddr_in6) :=
  a ← poke (sin6_addr saddr) 0 (replicate 10 0);
  match inet_pton4 name with
  | None => Some (-1, SockAddr6 (sin6_family saddr) (sin6_port saddr) a)
  | Some b =>
    a ← poke a 12 b;
    a ← poke a 10 [255];
    a ← poke a 11 [255];
    Some (0, SockAddr6 (sin6_family saddr) (sin6_port saddr) a)
  end.

Definition hev_socks5_name_resolve_ipv6 (name : list Z) (saddr : sockaddr_in6) : option (Z * sockaddr_in6) :=
  match inet_pton6 name with
  | None => Some (-1, saddr)
  | Some b =>
    a ← poke (sin6_addr saddr) 0 b;
    Some (0, SockAddr6 (sin6_family saddr) (sin6_port saddr) a)
  end.

(** The third component is the family after the call. *)
Definition hev_socks5_name_resolve_name (name : list Z) (saddr : sockaddr_in6) (family : Z) :
    option (Z * sockaddr_in6 * Z) :=
  match getaddrinfo name family with
  | None => Some (-1, saddr, family)
  | Some (ai_family, b) =>
    if ai_family =? AF_INET then
      a ← poke (sin6_addr saddr) 0 (replicate 10 0);
      a ← poke a 10 [255];
      a ← poke a 11 [255];
      b ← peek b 0 4;
      a ← poke a 12 b;
      Some (0, SockAddr6 (sin6_family saddr) (sin6_port saddr) a, HEV_SOCKS5_ADDR_FAMILY_IPV4)
    else if ai_family =? AF_INET6 then
      b ← peek b 0 16;
      a ← poke (sin6_addr saddr) 0 b;
      Some (0, SockAddr6 (sin6_family saddr) (sin6_port saddr) a, HEV_SOCKS5_ADDR_FAMILY_IPV6)
    else Some (-1, saddr, family)
  end.

Definition hev_socks5_name_into_sockaddr6 (name : list Z) (port : Z) (saddr : sockaddr_in6) (family : Z) :
    option (Z * sockaddr_in6 * Z) :=
  let saddr := SockAddr6 AF_INET6 (htons port) (sin6_addr saddr) in
  r ← hev_socks5_name_resolve_ipv4 name saddr;
  let '(res, saddr) := r in
  if res =? 0 then Some (0, saddr, HEV_SOCKS5_ADDR_FAMILY_IPV4) else
  r ← hev_socks5_name_resolve_ipv6 name saddr;
  let '(res, saddr) := r in
  if res =? 0 then Some (0, saddr, HEV_SOCKS5_ADDR_FAMILY_IPV6) else
  hev_socks5_name_resolve_name name saddr family.

Definition hev_socks5_addr_into_sockaddr6 (addr : list Z) (saddr : sockaddr_in6) (family : Z) :
    option (Z * sockaddr_in6 * Z) :=
  atype ← peek1 addr 0;
  if atype =? HEV_SOCKS5_ADDR_TYPE_IPV4 then
    saddr ← hev_socks5_ipv4_into_sockaddr6 addr saddr;
    Some (0, saddr, HEV_SOCKS5_ADDR_FAMILY_IPV4)
  else if atype =? HEV_SOCKS5_ADDR_TYPE_IPV6 then
    saddr ← hev_socks5_ipv6_into_sockaddr6 addr saddr;
    Some (0, saddr, HEV_SOCKS5_ADDR_FAMILY_IPV6)
  else if atype =? HEV_SOCKS5_ADDR_TYPE_NAME then
    len ← peek1 addr 1;
    b ← peek addr 2 len;
    name ← c_str (b ++ [0]);
    port ← peek16 addr (2 + len);
    hev_socks5_name_into_sockaddr6 name (ntohs port) saddr family
  else Some (-1, saddr, family).
End resolve.

(** ** Addresses of the network stack *)

(** [ip_addr_t] of lwip: the bytes of its address union and its type. *)
Record ip_addr := IpAddr { ip_bytes : list Z; ip_type : Z }.
Definition IPADDR_TYPE_V4 : Z := 0.
Definition IPADDR_TYPE_V6 : Z := 6.
Definition IPADDR_TYPE_ANY : Z := 46.

(** [ntohl] of the first four bytes, as an [int]. *)
Definition ntohl_bytes (l : list Z) : option Z :=
  b ← peek l 0 4;
  match b with
  | [b0; b1; b2; b3] => Some (i32 (((b0 * 256 + b1) * 256 + b2) * 256 + b3))
  | _ => None
  end.

(** [dns] says whether there is a mapped DNS; the state is its cache. *)
Definition hev_socks5_addr_from_lwip (dns : bool) (addr : list Z) (ip : ip_addr) (port : Z) : MD (list Z * Z) :=
  if ip_type ip =? IPADDR_TYPE_V4 then
    let* name :=
      (if dns then
         let* a := lift_opt (ntohl_bytes (ip_bytes ip)) in
         hev_mapped_dns_lookup a
       else ret None) in
    match name with
    | Some name =>
      let* (addr, _) := lift_opt (hev_socks5_addr_from_name addr name (htons port)) in ret (addr, 0)
    | None =>
      let* (addr, _) := lift_opt (hev_socks5_addr_from_ipv4 addr (ip_bytes ip) (htons port)) in ret (addr, 0)
    end
  else if ip_type ip =? IPADDR_TYPE_V6 then
    let* (addr, _) := lift_opt (hev_socks5_addr_from_ipv6 addr (ip_bytes ip) (htons port)) in ret (addr, 0)
  else ret (addr, -1).

(** The address and port written, and the value returned. *)
Definition hev_socks5_addr_into_lwip (addr : list Z) (ip : ip_addr) (port : Z) : option (ip_addr * Z * Z) :=
  atype ← peek1 addr 0;
  if atype =? HEV_SOCKS5_ADDR_TYPE_IPV4 then
    b ← peek addr 1 4;
    bytes ← poke (ip_bytes ip) 0 b;
    p ← peek16 addr 5;
    Some (IpAddr bytes IPADDR_TYPE_V4, ntohs p, 0)
  else if atype =? HEV_SOCKS5_ADDR_TYPE_IPV6 then
    b ← peek addr 1 16;
    bytes ← poke (ip_bytes ip) 0 b;
    p ← peek16 addr 17;
    Some (IpAddr bytes IPADDR_TYPE_V6, ntohs p, 0)
  else Some (ip, port, -1).

(** ** Wire encodings *)

Definition enc_ipv4 (a : list Z) (port : Z) : list Z := [HEV_SOCKS5_ADDR_TYPE_IPV4] ++ a ++ st16 port.
Definition enc_ipv6 (a : list Z) (port : Z) : list Z := [HEV_SOCKS5_ADDR_TYPE_IPV6] ++ a ++ st16 port.
Definition enc_name (n : list Z) (port : Z) : list Z :=
  [HEV_SOCKS5_ADDR_TYPE_NAME; Z.of_nat (length n)] ++ n ++ st16 port.

(** A block is cut where a field starts. *)
Lemma block_split (l : list Z) (n : nat) :
  (n <= length l)%nat -> exists a b, l = a ++ b /\ length a = n /\ length b = (length l - n)%nat.
Proof.
  intros Hn. exists (take n l), (drop n l). rewrite take_drop, length_take, length_drop. split_and!; lia || done.
Qed.

Lemma u8_small x : 0 <= x < 256 -> u8 x = x.
Proof. apply Z.mod_small. Qed.

Lemma from_name_ok addr name port :
  length addr = sizeof_addr -> cstr name -> (length name <= 255)%nat -> 0 <= port < 65536 ->
  exists rest, hev_socks5_addr_from_name addr name port = Some (enc_name name port ++ rest, 4 + Z.of_nat (length name)) /\
    length (enc_name name port ++ rest) = sizeof_addr.
Proof.
  intros Hl Hn Hlen Hp. destruct addr as [|a0 [|a1 l]]; [done|done|]. unfold sizeof_addr in Hl. simpl in Hl.
  destruct (block_split l 256) as (mid & tl & -> & Hm & Ht); [lia|]. rewrite length_app in Hl, Ht.
  unfold hev_socks5_addr_from_name. rewrite u16_small by done.
  rewrite (poke_at _ _ _ [] [a0] (a1 :: mid ++ tl)) by done. cbn [mbind option_bind app].
  assert (strncpy name 256 = name ++ replicate (256 - length name) 0) as Hs.
  { unfold strncpy. rewrite take_app_ge by lia. rewrite take_replicate. do 2 f_equal. lia. }
  rewrite Hs. rewrite (poke_at _ _ _ [HEV_SOCKS5_ADDR_TYPE_NAME; a1] mid tl) by (done || rewrite length_app, length_replicate; lia).
  cbn [mbind option_bind app drop].
  replace (256 - length name)%nat with (S (255 - length name)) by lia. cbn [replicate].
  rewrite <-app_assoc. cbn [app]. rewrite drop_0, c_str_app by done. cbn [mbind option_bind].
  rewrite u8_small by lia.
  erewrite (poke_at _ _ _ [HEV_SOCKS5_ADDR_TYPE_NAME] [a1]) by done. cbn [mbind option_bind app].
  assert (exists z tl', 0 :: replicate (255 - length name) 0 ++ tl = z ++ tl' /\ length z = 2%nat) as (z & tl' & Hz & Hz2).
  { destruct (block_split (0 :: replicate (255 - length name) 0 ++ tl) 2) as (z & tl' & ? & ? & _); [|eauto].
    simpl. rewrite length_app, length_replicate. lia. }
  rewrite Hz.
  rewrite (poke_at _ _ _ ([HEV_SOCKS5_ADDR_TYPE_NAME; Z.of_nat (length name)] ++ name) z tl')
    by (rewrite ?length_app, ?st16_length; simpl; rewrite ?app_assoc; done || lia).
  cbn [mbind option_bind]. exists tl'. unfold enc_name. rewrite <-!app_assoc. split; [done|].
  apply (f_equal length) in Hz. simpl in Hz. rewrite !length_app, length_replicate in Hz.
  rewrite !length_app. unfold sizeof_addr in *. simpl. lia.
Qed.

(** A name of 256 bytes or more is not encoded: the length byte wraps around to
    0 or 1, or the string is read beyond the block. *)
Lemma from_name_long addr name port r :
  length addr = sizeof_addr -> cstr name -> (256 <= length name)%nat ->
  hev_socks5_addr_from_name addr name port = Some r -> r.2 = 4 \/ r.2 = 5.
Proof.
  intros Hl Hn Hlen. destruct addr as [|a0 [|a1 l]]; [done|done|]. unfold sizeof_addr in Hl. simpl in Hl.
  destruct (block_split l 256) as (mid & tl & -> & Hm & Ht); [lia|]. rewrite length_app in Hl, Ht.
  unfold hev_socks5_addr_from_name.
  rewrite (poke_at _ _ _ [] [a0] (a1 :: mid ++ tl)) by done. cbn [mbind option_bind app].
  assert (strncpy name 256 = take 256 name) as Hs by (unfold strncpy; by rewrite take_app_le by lia).
  rewrite Hs.
  rewrite (poke_at _ _ _ [HEV_SOCKS5_ADDR_TYPE_NAME; a1] mid tl) by (done || rewrite length_take; lia).
  cbn [mbind option_bind app drop]. rewrite drop_0.
  destruct tl as [|t0 [|t1 [|]]]; simpl in Hl; try lia.
  assert (forall n t, cstr n -> c_str (n ++ t) = s ← c_str t; Some (n ++ s)) as Happ.
  { intros n t. induction 1 as [|b n Hb _ IH]; simpl; [by destruct (c_str t)|].
    rewrite (proj2 (Z.eqb_neq b 0)) by lia. rewrite IH. by destruct (c_str t). }
  rewrite Happ by (by apply Forall_take). cbn [c_str].
  assert (length (take 256 name) = 256%nat) as H256 by (rewrite length_take; lia).
  destruct (t0 =? 0); [|destruct (t1 =? 0)]; cbn [mbind option_bind]; [| |done].
  - rewrite length_app, H256. cbn [length Nat.add]. change (u8 (Z.of_nat 256)) with 0.
    destruct (poke _ 1 _) as [addr1|]; [|done]. cbn [mbind option_bind].
    destruct (poke _ _ _); [|done]. intros [= <-]. by left.
  - rewrite length_app, H256. cbn [length Nat.add]. change (u8 (Z.of_nat 257)) with 1.
    destruct (poke _ 1 _) as [addr1|]; [|done]. cbn [mbind option_bind].
    destruct (poke _ _ _); [|done]. intros [= <-]. by right.
Qed.

Lemma from_ipv4_ok addr ipv4 port :
  (7 <= length addr)%nat -> (4 <= length ipv4)%nat -> 0 <= port < 65536 ->
  hev_socks5_addr_from_ipv4 addr ipv4 port = Some (enc_ipv4 (take 4 ipv4) port ++ drop 7 addr, 7).
Proof.
  intros Hl Ha Hp. do 7 (destruct addr as [|? addr]; [simpl in Hl; lia|]).
  do 4 (destruct ipv4 as [|? ipv4]; [simpl in Ha; lia|]). simpl in Hl.
  unfold hev_socks5_addr_from_ipv4. rewrite u16_small by done.
  erewrite (poke_at _ _ _ [] [z]) by done. cbn [mbind option_bind app].
  rewrite (peek_at _ _ _ [] [z6; z7; z8; z9] ipv4) by done. cbn [mbind option_bind].
  rewrite (poke_at _ _ _ [HEV_SOCKS5_ADDR_TYPE_IPV4] [z0; z1; z2; z3] (z4 :: z5 :: addr)) by done.
  cbn [mbind option_bind app].
  by rewrite (poke_at _ _ _ [HEV_SOCKS5_ADDR_TYPE_IPV4; z6; z7; z8; z9] [z4; z5] addr) by done.
Qed.

Lemma list_16 (l : list Z) : (16 <= length l)%nat -> exists a b, l = a ++ b /\ length a = 16%nat /\ take 16 l = a.
Proof.
  intros H. destruct (block_split l 16) as (a & b & -> & Ha & _); [done|]. exists a, b.
  by rewrite <-Ha, take_app_length.
Qed.

Lemma from_ipv6_ok addr ipv6 port :
  (19 <= length addr)%nat -> (16 <= length ipv6)%nat -> 0 <= port < 65536 ->
  hev_socks5_addr_from_ipv6 addr ipv6 port = Some (enc_ipv6 (take 16 ipv6) port ++ drop 19 addr, 19).
Proof.
  intros Hl Ha Hp. destruct addr as [|a0 addr]; [simpl in Hl; lia|]. simpl in Hl.
  destruct (block_split addr 16) as (mid & tl & -> & Hm & Ht); [lia|]. rewrite length_app in Hl, Ht.
  do 2 (destruct tl as [|? tl]; [simpl in *; lia|]).
  destruct (list_16 ipv6 Ha) as (b & c & -> & Hb & ->).
  unfold hev_socks5_addr_from_ipv6. rewrite u16_small by done.
  erewrite (poke_at _ _ _ [] [a0]) by done. cbn [mbind option_bind app].
  rewrite (peek_at _ _ _ [] b c) by (done || lia). cbn [mbind option_bind].
  rewrite (poke_at _ _ _ [HEV_SOCKS5_ADDR_TYPE_IPV6] mid (z :: z0 :: tl)) by (done || lia).
  cbn [mbind option_bind app].
  rewrite (poke_at _ _ _ ([HEV_SOCKS5_ADDR_TYPE_IPV6] ++ b) [z; z0] tl) by (done || simpl; lia).
  cbn [mbind option_bind]. unfold enc_ipv6. rewrite <-!app_assoc. cbn [app drop].
  rewrite drop_app_ge by lia. replace (18 - length mid)%nat with 2%nat by lia. done.
Qed.

(** ** Socket addresses and back *)

Definition enc_sockaddr (s : sockaddr_in6) : list Z :=
  if IN6_IS_ADDR_V4MAPPED (sin6_addr s) then enc_ipv4 (drop 12 (sin6_addr s)) (sin6_port s)
  else enc_ipv6 (sin6_addr s) (sin6_port s).

Definition family_of (s : sockaddr_in6) : Z :=
  if IN6_IS_ADDR_V4MAPPED (sin6_addr s) then HEV_SOCKS5_ADDR_FAMILY_IPV4 else HEV_SOCKS5_ADDR_FAMILY_IPV6.

Definition sockaddr_ok (s : sockaddr_in6) : Prop :=
  length (sin6_addr s) = 16%nat /\ 0 <= sin6_port s < 65536.

Lemma list_2 {A} (l : list A) : length l = 2%nat -> exists a b, l = [a; b].
Proof. destruct l as [|a [|b [|]]]; try done. eauto. Qed.

Lemma from_sockaddr6_ok addr s :
  (19 <= length addr)%nat -> sockaddr_ok s ->
  exists rest, hev_socks5_addr_from_sockaddr6 addr s =
    Some (enc_sockaddr s ++ rest, Z.of_nat (length (enc_sockaddr s))).
Proof.
  intros Hl [Hs Hp]. destruct addr as [|a0 addr]; [simpl in Hl; lia|]. simpl in Hl.
  unfold hev_socks5_addr_from_sockaddr6, enc_sockaddr. destruct (IN6_IS_ADDR_V4MAPPED _).
  - destruct (block_split addr 4) as (mid & tl & -> & Hm & Ht); [lia|]. rewrite length_app in Hl, Ht.
    destruct (block_split tl 2) as (p & tl' & -> & Hp2 & _); [lia|].
    destruct (block_split (sin6_addr s) 12) as (pre & b & Hb & Hpre & Hbl); [lia|].
    rewrite Hb, <-Hpre, drop_app_length. rewrite Hs in Hbl.
    erewrite (poke_at _ _ _ [] [a0]) by done. cbn [mbind option_bind app].
    rewrite (poke_at _ _ _ ([HEV_SOCKS5_ADDR_TYPE_IPV4] ++ mid) p tl') by (done || simpl; lia).
    cbn [mbind option_bind].
    rewrite (peek_at _ _ _ pre b []) by (rewrite ?app_nil_r; done || lia). cbn [mbind option_bind].
    rewrite (poke_at _ _ _ [HEV_SOCKS5_ADDR_TYPE_IPV4] mid (st16 (sin6_port s) ++ tl')) by (done || simpl; lia).
    exists tl'. unfold enc_ipv4. rewrite <-!app_assoc. cbn [mbind option_bind]. rewrite !length_app, Hbl. done.
  - destruct (block_split addr 16) as (mid & tl & -> & Hm & Ht); [lia|]. rewrite length_app in Hl, Ht.
    destruct (block_split tl 2) as (p & tl' & -> & Hp2 & _); [lia|].
    erewrite (poke_at _ _ _ [] [a0]) by done. cbn [mbind option_bind app].
    rewrite (poke_at _ _ _ ([HEV_SOCKS5_ADDR_TYPE_IPV6] ++ mid) p tl') by (done || simpl; lia).
    cbn [mbind option_bind].
    rewrite (peek_at _ _ _ [] (sin6_addr s) []) by (rewrite ?app_nil_r; done || lia). cbn [mbind option_bind].
    rewrite (poke_at _ _ _ [HEV_SOCKS5_ADDR_TYPE_IPV6] mid (st16 (sin6_port s) ++ tl')) by (done || simpl; lia).
    exists tl'. unfold enc_ipv6. rewrite <-!app_assoc. cbn [mbind option_bind]. rewrite !length_app, Hs. done.
Qed.

Lemma peek16_at l off pre post v :
  l = pre ++ st16 v ++ post -> off = Z.of_nat (length pre) -> 0 <= v < 65536 -> peek16 l off = Some v.
Proof.
  intros -> -> Hv. unfold peek16. rewrite (peek_at _ _ _ pre (st16 v) post) by done.
  cbn [mbind option_bind st16]. by rewrite ld16_st16.
Qed.

(** Equations between concatenations and their lengths. *)
Ltac wire :=
  unfold enc_ipv4, enc_ipv6, enc_name; rewrite ?length_app, <-?app_assoc, ?app_nil_r; cbn [app length];
  first [reflexivity | assumption | simpl in *; lia].

Section into.
Context (inet_pton4 inet_pton6 : list Z -> option (list Z)).
Context (getaddrinfo : list Z -> Z -> option (Z * list Z)).
Abbreviation into := (hev_socks5_addr_into_sockaddr6 inet_pton4 inet_pton6 getaddrinfo).

Lemma into_ipv4 a port rest saddr family :
  length a = 4%nat -> 0 <= port < 65536 -> length (sin6_addr saddr) = 16%nat ->
  into (enc_ipv4 a port ++ rest) saddr family =
  Some (0, SockAddr6 AF_INET6 port (v4mapped_prefix ++ a), HEV_SOCKS5_ADDR_FAMILY_IPV4).
Proof.
  intros Ha Hp Hs. unfold hev_socks5_addr_into_sockaddr6.
  rewrite (peek1_at _ 0 HEV_SOCKS5_ADDR_TYPE_IPV4 [] (a ++ st16 port ++ rest)) by wire.
  cbn [mbind option_bind]. rewrite Z.eqb_refl. unfold hev_socks5_ipv4_into_sockaddr6.
  rewrite (peek16_at _ _ ([HEV_SOCKS5_ADDR_TYPE_IPV4] ++ a) rest port)
    by wire.
  cbn [mbind option_bind].
  destruct (block_split (sin6_addr saddr) 10) as (b1 & b2 & Hb & Hb1 & Hb2); [lia|].
  rewrite Hs in Hb2. destruct b2 as [|c0 [|c1 b2]]; try done.
  rewrite (poke_at _ _ _ [] b1 (c0 :: c1 :: b2)) by (done || rewrite length_replicate; lia).
  cbn [mbind option_bind app].
  rewrite (poke_at _ _ _ (replicate 10 0) [c0] (c1 :: b2)) by done. cbn [mbind option_bind].
  rewrite (poke_at _ _ _ (replicate 10 0 ++ [255]) [c1] b2) by done. cbn [mbind option_bind].
  rewrite (peek_at _ _ _ [HEV_SOCKS5_ADDR_TYPE_IPV4] a (st16 port ++ rest))
    by wire.
  cbn [mbind option_bind].
  rewrite (poke_at _ _ _ v4mapped_prefix b2 []) by (rewrite ?app_nil_r; done || (simpl in *; lia)).
  cbn [mbind option_bind]. by rewrite app_nil_r.
Qed.

Lemma into_ipv6 a port rest saddr family :
  length a = 16%nat -> 0 <= port < 65536 -> length (sin6_addr saddr) = 16%nat ->
  into (enc_ipv6 a port ++ rest) saddr family = Some (0, SockAddr6 AF_INET6 port a, HEV_SOCKS5_ADDR_FAMILY_IPV6).
Proof.
  intros Ha Hp Hs. unfold hev_socks5_addr_into_sockaddr6.
  rewrite (peek1_at _ 0 HEV_SOCKS5_ADDR_TYPE_IPV6 [] (a ++ st16 port ++ rest))
    by wire.
  cbn [mbind option_bind]. change (HEV_SOCKS5_ADDR_TYPE_IPV6 =? HEV_SOCKS5_ADDR_TYPE_IPV4) with false.
  rewrite Z.eqb_refl. cbv iota. unfold hev_socks5_ipv6_into_sockaddr6.
  rewrite (peek16_at _ _ ([HEV_SOCKS5_ADDR_TYPE_IPV6] ++ a) rest port)
    by wire.
  cbn [mbind option_bind].
  rewrite (peek_at _ _ _ [HEV_SOCKS5_ADDR_TYPE_IPV6] a (st16 port ++ rest))
    by wire.
  cbn [mbind option_bind].
  rewrite (poke_at _ _ _ [] (sin6_addr saddr) []) by (rewrite ?app_nil_r; done || lia).
  cbn [mbind option_bind app]. by rewrite app_nil_r.
Qed.

Lemma into_name n port rest saddr family :
  cstr n -> (length n <= 255)%nat -> 0 <= port < 65536 ->
  into (enc_name n port ++ rest) saddr family =
  hev_socks5_name_into_sockaddr6 inet_pton4 inet_pton6 getaddrinfo n (ntohs port) saddr family.
Proof.
  intros Hn Hl Hp. unfold hev_socks5_addr_into_sockaddr6.
  rewrite (peek1_at _ 0 HEV_SOCKS5_ADDR_TYPE_NAME [] (Z.of_nat (length n) :: n ++ st16 port ++ rest))
    by wire.
  cbn [mbind option_bind]. change (HEV_SOCKS5_ADDR_TYPE_NAME =? HEV_SOCKS5_ADDR_TYPE_IPV4) with false.
  change (HEV_SOCKS5_ADDR_TYPE_NAME =? HEV_SOCKS5_ADDR_TYPE_IPV6) with false. rewrite Z.eqb_refl. cbv iota.
  rewrite (peek1_at _ 1 (Z.of_nat (length n)) [HEV_SOCKS5_ADDR_TYPE_NAME] (n ++ st16 port ++ rest))
    by wire.
  cbn [mbind option_bind].
  rewrite (peek_at _ _ _ [HEV_SOCKS5_ADDR_TYPE_NAME; Z.of_nat (length n)] n (st16 port ++ rest))
    by wire.
  cbn [mbind option_bind]. rewrite c_str_app by done. cbn [mbind option_bind].
  by rewrite (peek16_at _ _ ([HEV_SOCKS5_ADDR_TYPE_NAME; Z.of_nat (length n)] ++ n) rest port)
    by wire.
Qed.

Lemma into_sockaddr s rest saddr family :
  sockaddr_ok s -> sin6_family s = AF_INET6 -> length (sin6_addr saddr) = 16%nat ->
  into (enc_sockaddr s ++ rest) saddr family = Some (0, s, family_of s).
Proof.
  intros [Hl Hp] Hf Hs. unfold enc_sockaddr, family_of. destruct (IN6_IS_ADDR_V4MAPPED (sin6_addr s)) eqn:E.
  - rewrite into_ipv4 by (rewrite ?length_drop; done || lia). unfold IN6_IS_ADDR_V4MAPPED in E.
    apply bool_decide_eq_true in E. rewrite <-E, take_drop. destruct s; simpl in *; subst; done.
  - rewrite into_ipv6 by done. destruct s; simpl in *; subst; done.
Qed.
End into.
