(* ===== verification/TreeTheorems.v ===== *)
(** * Theorems on the red-black tree and the list (hev-rbtree.c, hev-list.c)

    The properties the clients of the two intrusive containers rely on: keyed
    insertion and erasure keep a sorted red-black tree, a search is logarithmic,
    the iterators enumerate the nodes in order, a node can be swapped for
    another one in place, and the list operations refine operations on sequences
    of addresses.  Each is shown on a concrete heap after its statement. *)

From S2P Require Import Prelude RBTree RBModel RBRep RBInsert RBErase RBSpec KeyedTree HevList.

(** ** Logarithmic depth *)

Lemma bh_size n t : bh n t -> (2 ^ n <= S (length (inorder t)))%nat.
Proof.
  revert n. induction t as [|c l IHl x r IHr]; intros n; simpl.
  - by intros ->.
  - rewrite length_app. simpl. destruct c.
    + intros [Hl Hr]. specialize (IHl _ Hl). lia.
    + destruct n as [|n]; [done|]. intros [Hl Hr]. specialize (IHl _ Hl). specialize (IHr _ Hr). simpl. lia.
Qed.

Lemma nored_height n t :
  bh n t -> nored t -> (height t <= 2 * n + match tree_color t with Red => 1 | Black => 0 end)%nat.
Proof.
  revert n. induction t as [|c l IHl x r IHr]; intros n; simpl; [lia|].
  destruct c.
  - intros [Hl Hr] (Hc & Hnl & Hnr). destruct (Hc eq_refl) as [Hcl Hcr].
    specialize (IHl _ Hl Hnl). specialize (IHr _ Hr Hnr). rewrite Hcl in IHl. rewrite Hcr in IHr. lia.
  - destruct n as [|n]; [done|]. intros [Hl Hr] (_ & Hnl & Hnr).
    specialize (IHl _ Hl Hnl). specialize (IHr _ Hr Hnr).
    destruct (tree_color l), (tree_color r); lia.
Qed.

Lemma RBT_height t : RBT t -> (height t <= 2 * Nat.log2 (S (length (inorder t))))%nat.
Proof.
  intros (Hc & Hn & n & Hb). pose proof (nored_height n t Hb Hn) as Hh. rewrite Hc in Hh.
  pose proof (Nat.log2_le_mono _ _ (bh_size n t Hb)) as Hl. rewrite Nat.log2_pow2 in Hl by lia. lia.
Qed.

Lemma search_total cmp root h fuel k t :
  (height t < fuel)%nat -> rep h (par k) t -> repc root h k (ptr t) -> Forall okp (inorder t) ->
  Forall (fun x => is_Some (cmp x)) (inorder t) ->
  exists res, rb_search cmp fuel (link_of k) (par k) (RBMem root h) = Some (res, RBMem root h).
Proof.
  revert fuel k. induction t as [|c l IHl x r IHr]; intros [|fuel] k Hf Ht Hk Ha Hc;
    try (simpl in Hf; lia); cbn [rb_search]; erewrite bind_Some by (by eapply read_link_eq).
  - by eexists.
  - simpl in Hf, Ha, Hc. rewrite Forall_app, Forall_cons in Ha, Hc.
    destruct Ha as (Hal & Hx & Har), Hc as (Hcl & [v Hv] & Hcr), Ht as (Hxn & Hl & Hr).
    change (ptr (T c l x r)) with x. rewrite okp_eqb by done.
    erewrite bind_Some by (unfold lift_opt; by rewrite Hv).
    destruct (v <? 0); [|destruct (0 <? v)].
    + apply (IHl fuel (Fr L c x r :: k)); try done; lia.
    + apply (IHr fuel (Fr R c x l :: k)); try done; lia.
    + by eexists.
Qed.

(** ** Enumeration *)

(** [for (n = first (tree); n; n = next (n)) visit (n);] *)
Fixpoint visit (step : Z -> RB Z) (fuel : nat) (n : Z) : RB (list Z) :=
  if n =? NULL then ret [] else
  match fuel with
  | O => fail
  | S fuel =>
    let* n' := step n in
    let* ns := visit step fuel n' in
    ret (n :: ns)
  end.

Lemma visit_next m xs1 xs2 fuel :
  rb_tree m (xs1 ++ xs2) -> (length xs2 <= fuel)%nat ->
  visit hev_rbtree_node_next fuel (edge L xs2) m = Some (xs2, m).
Proof.
  revert xs1 fuel. induction xs2 as [|x xs2 IH]; intros xs1 fuel Hm Hf; [by destruct fuel|].
  destruct fuel as [|fuel]; [simpl in Hf; lia|].
  pose proof (rb_tree_okp _ _ Hm) as Hok. rewrite Forall_app, Forall_cons in Hok. destruct Hok as (_ & Hx & _).
  cbn [visit]. change (edge L (x :: xs2)) with x. rewrite okp_eqb by done.
  erewrite bind_Some by (by eapply rb_next).
  erewrite bind_Some; [done|]. apply (IH (xs1 ++ [x])); [by rewrite <-app_assoc|simpl in Hf; lia].
Qed.

Lemma visit_prev m xs1 xs2 fuel :
  rb_tree m (xs1 ++ xs2) -> (length xs1 <= fuel)%nat ->
  visit hev_rbtree_node_prev fuel (edge R xs1) m = Some (rev xs1, m).
Proof.
  revert xs2 fuel. induction xs1 as [|x xs1 IH] using rev_ind; intros xs2 fuel Hm Hf; [by destruct fuel|].
  rewrite length_app in Hf. simpl in Hf. destruct fuel as [|fuel]; [lia|].
  rewrite <-app_assoc in Hm. simpl in Hm.
  pose proof (rb_tree_okp _ _ Hm) as Hok. rewrite Forall_app, Forall_cons in Hok. destruct Hok as (_ & Hx & _).
  cbn [visit]. replace (edge R (xs1 ++ [x])) with x by (unfold edge; by rewrite last_snoc).
  rewrite okp_eqb by done. erewrite bind_Some by (by eapply rb_prev).
  erewrite bind_Some by (apply (IH (x :: xs2)); [done|lia]). by rewrite rev_app_distr.
Qed.

(** ** Sequences of list operations *)

Inductive list_op := AddTail (n : Z) | Del (n : Z).

Definition list_op_node (o : list_op) : Z := match o with AddTail n => n | Del n => n end.

Definition list_exec (o : list_op) : LM unit :=
  match o with AddTail n => hev_list_add_tail n | Del n => hev_list_del n end.

Fixpoint list_run (os : list list_op) : LM unit :=
  match os with [] => ret tt | o :: os => list_exec o;; list_run os end.

(** What they do to the sequence of nodes; [None] where the caller would break
    the rules: a node that is linked already, or one that is not. *)
Definition list_op_spec (o : list_op) (xs : list Z) : option (list Z) :=
  match o with
  | AddTail n => if decide (n ∈ xs) then None else Some (xs ++ [n])
  | Del n => if decide (n ∈ xs) then Some (filter (fun x => x <> n) xs) else None
  end.

Fixpoint list_spec (os : list list_op) (xs : list Z) : option (list Z) :=
  match os with [] => Some xs | o :: os => xs ← list_op_spec o xs; list_spec os xs end.

Lemma list_op_live m m' xs ys y :
  list_rep m' ys -> lsame_off xs (l_nodes m) (l_nodes m') -> (forall z, z ∈ xs -> z ∈ ys) ->
  is_Some (l_nodes m !! y) -> is_Some (l_nodes m' !! y).
Proof.
  intros Hm' Hoff Hsub Hy. destruct (decide (y ∈ xs)) as [Hi|Hi].
  - eapply list_rep_live; eauto.
  - by rewrite Hoff.
Qed.

Lemma filter_ne_app (xs1 xs2 : list Z) n :
  NoDup (xs1 ++ n :: xs2) -> filter (fun x => x <> n) (xs1 ++ n :: xs2) = xs1 ++ xs2.
Proof.
  intros Hn. apply NoDup_app in Hn as (_ & Hd & Hn). apply NoDup_cons in Hn as [Hn _].
  rewrite filter_app, filter_cons_False by tauto.
  rewrite !filter_all; [done|apply Forall_forall; set_solver..].
Qed.

Lemma list_exec_ok m xs o ys :
  list_rep m xs -> list_op_node o <> NULL -> is_Some (l_nodes m !! list_op_node o) ->
  list_op_spec o xs = Some ys ->
  exists m', list_exec o m = Some (tt, m') /\ list_rep m' ys /\
    forall y, is_Some (l_nodes m !! y) -> is_Some (l_nodes m' !! y).
Proof.
  intros Hm Hz Hl. destruct o as [n|n]; simpl in *; case_decide as Hi; intros [= <-].
  - destruct (list_add_tail m xs n) as (m' & Heq & Hm' & Hoff); try done.
    exists m'. split_and!; try done. intros y. eapply list_op_live; eauto.
  - apply list_elem_of_split in Hi as (xs1 & xs2 & ->).
    rewrite filter_ne_app by apply Hm.
    destruct (list_del m xs1 n xs2 Hm) as (m' & Heq & Hm' & Hoff).
    exists m'. split_and!; try done. intros y. eapply list_op_live; eauto.
Qed.

Lemma list_run_ok os m xs ys :
  list_rep m xs ->
  Forall (fun o => list_op_node o <> NULL /\ is_Some (l_nodes m !! list_op_node o)) os ->
  list_spec os xs = Some ys ->
  exists m', list_run os m = Some (tt, m') /\ list_rep m' ys.
Proof.
  revert m xs. induction os as [|o os IH]; intros m xs Hm Hos; simpl.
  - intros [= <-]. by exists m.
  - apply Forall_cons in Hos as [[Hz Hl] Hos]. intros Hs.
    destruct (list_op_spec o xs) as [zs|] eqn:Ho; [|done]. simpl in Hs.
    destruct (list_exec_ok m xs o zs) as (m1 & Heq & Hm1 & Hlive); try done.
    erewrite bind_Some by exact Heq. apply (IH m1 zs); try done.
    eapply Forall_impl; [exact Hos|]. intros o' [? ?]. eauto.
Qed.

(** ** The theorems *)

(** The caller's insertion: search for the key, link the node at the link the
    search ended at, rebalance. *)
Definition keyed_insert (cmp : Z -> option Z) (node : Z) : RB bool :=
  let* r := rb_find_link cmp in
  match r with
  | Found _ => ret false
  | NotFound parent link =>
    hev_rbtree_node_link node parent link;;
    hev_rbtree_insert_color node;;
    ret true
  end.

(** C12: In a red-black tree sorted by key, the caller's insertion of a fresh
    node either finds a node with the same key and leaves the heap as it was, or
    links the node and rebalances so that the result is again a red-black tree
    sorted by key that holds exactly the old nodes and the new one; it ends
    without touching memory outside the tree. *)
Theorem rbtree_insert_sorted {K : Type} (kvalid : K -> Prop) (kcmp : K -> K -> Z)
    (HK : KeyOrder kvalid kcmp) m xs (key : Z -> option K) t n :
  rb_tree m xs -> sorted_by kvalid kcmp key xs -> kvalid t ->
  okp n -> n ∉ xs -> is_Some (rb_nodes m !! n) -> key n = Some t ->
  (keyed_insert (cmp_with kcmp key t) n m = Some (false, m) /\ exists x, x ∈ xs /\ key x = Some t) \/
  (exists m' xs1 xs2, xs = xs1 ++ xs2 /\
     keyed_insert (cmp_with kcmp key t) n m = Some (true, m') /\
     rb_tree m' (xs1 ++ n :: xs2) /\ sorted_by kvalid kcmp key (xs1 ++ n :: xs2) /\
     same_off (xs1 ++ n :: xs2) (rb_nodes m) (rb_nodes m')).
Proof.
  intros Hm Hs Ht Hok Hn Hl Hkn.
  destruct (keyed_find_link kvalid kcmp (cmp_with kcmp key t) m xs key t) as (res & Heq & Hres); try done.
  unfold keyed_insert. erewrite !bind_Some by exact Heq. destruct res as [x|parent link].
  - left. destruct Hres as (xs1 & xs2 & -> & Hx). split; [done|]. exists x. split; [set_solver|done].
  - right. destruct Hres as (xs1 & xs2 & -> & Hip & _ & Hsort).
    destruct (rb_insert m xs1 xs2 parent link n) as (m' & Hrun & Hm' & Hoff); try done.
    exists m', xs1, xs2. split_and!; try done; [|by apply Hsort].
    rewrite <-bind_assoc. by erewrite bind_Some by exact Hrun.
Qed.

(** Three names in a tree of three nodes, and a fourth node to insert. *)
Definition sample_tree : tree := T Black (T Red E 8 E) 16 (T Red E 24 E).
Definition sample_heap : rbmem :=
  RBMem 16 (list_to_map [(8, RBNode 16 0 0); (16, RBNode 1 24 8); (24, RBNode 16 0 0); (32, RBNode 7 7 7)]).
Definition sample_key (n : Z) : option (list Z) :=
  match n with 8 => Some [99] | 16 => Some [98] | 24 => Some [97] | 32 => Some [98; 98] | _ => None end.

Lemma okp_sample : Forall okp [8; 16; 24; 32].
Proof. repeat constructor. Qed.

Lemma sample_rb_tree : rb_tree sample_heap [8; 16; 24].
Proof.
  exists sample_tree. split_and!; [|by repeat (split || exists 1%nat)| |done].
  - split; [done|]. vm_compute. by repeat split.
  - split; [|by repeat constructor]. by apply (bool_decide_unpack _).
Qed.

Lemma sample_sorted : sorted_by cstr strcmp sample_key [8; 16; 24].
Proof.
  split.
  - repeat constructor; eexists; (split; [reflexivity|by repeat constructor]).
  - repeat constructor; eexists _, _; (split_and!; [reflexivity..|]); done.
Qed.

Lemma rbtree_insert_sorted_witness :
  exists m' xs1 xs2, [8; 16; 24] = xs1 ++ xs2 /\
    keyed_insert (cmp_with strcmp sample_key [98; 98]) 32 sample_heap = Some (true, m') /\
    rb_tree m' (xs1 ++ 32 :: xs2) /\ sorted_by cstr strcmp sample_key (xs1 ++ 32 :: xs2) /\
    same_off (xs1 ++ 32 :: xs2) (rb_nodes sample_heap) (rb_nodes m').
Proof.
  destruct (rbtree_insert_sorted cstr strcmp _ sample_heap [8; 16; 24] sample_key [98; 98] 32
    sample_rb_tree sample_sorted) as [[Hno _]|Hyes]; [| | | | |vm_compute in Hno; discriminate|exact Hyes].
  - by repeat constructor.
  - by repeat constructor.
  - by apply (bool_decide_unpack _).
  - by eexists.
  - done.
Defined.

(** C13: Erasing any node of a sorted red-black tree ends without a fault and
    leaves a red-black tree, sorted by the same keys, of exactly the other
    nodes; memory outside the tree is untouched. *)
Theorem rbtree_erase_sorted {K : Type} (kvalid : K -> Prop) (kcmp : K -> K -> Z)
    (HK : KeyOrder kvalid kcmp) m xs1 n xs2 (key : Z -> option K) :
  rb_tree m (xs1 ++ n :: xs2) -> sorted_by kvalid kcmp key (xs1 ++ n :: xs2) ->
  exists m', hev_rbtree_erase n m = Some (tt, m') /\
    rb_tree m' (xs1 ++ xs2) /\ sorted_by kvalid kcmp key (xs1 ++ xs2) /\
    same_off (xs1 ++ n :: xs2) (rb_nodes m) (rb_nodes m').
Proof.
  intros Hm Hs. destruct (rb_erase m xs1 n xs2 Hm) as (m' & Heq & Hm' & Hoff).
  exists m'. split; [done|]. split; [done|]. split; [|done].
  exact (sorted_by_drop kvalid kcmp key xs1 n xs2 Hs).
Qed.

Lemma rbtree_erase_sorted_witness :
  exists m', hev_rbtree_erase 16 sample_heap = Some (tt, m') /\
    rb_tree m' [8; 24] /\ sorted_by cstr strcmp sample_key [8; 24] /\
    same_off [8; 16; 24] (rb_nodes sample_heap) (rb_nodes m').
Proof. exact (rbtree_erase_sorted cstr strcmp _ sample_heap [8] 16 [24] sample_key sample_rb_tree sample_sorted). Defined.

(** The search loop of the callers, whatever comparison they use on the
    nodes, ends within 2 log2 (n + 1) + 1 turns on a tree of n nodes and does
    not change the heap. *)
Theorem rbtree_search_depth m xs (cmp : Z -> option Z) :
  rb_tree m xs -> Forall (fun x => is_Some (cmp x)) xs ->
  exists res, rb_search cmp (2 * Nat.log2 (S (length xs)) + 1) LinkRoot NULL m = Some (res, m).
Proof.
  intros (t & [Hr Ht] & HR & [_ Ha] & <-) Hc. destruct m as [root h].
  apply (search_total cmp root h _ [] t); try done. pose proof (RBT_height t HR). lia.
Qed.

Lemma rbtree_search_depth_witness :
  exists res, rb_search (fun x => Some (x - 24)) 5 LinkRoot NULL sample_heap = Some (res, sample_heap).
Proof.
  apply (rbtree_search_depth sample_heap [8; 16; 24] (fun x => Some (x - 24)) sample_rb_tree).
  repeat constructor; by eexists.
Defined.

(** Walking from the first node with next, and from the last node with prev,
    visits every node of the tree exactly once, in order and in reverse order,
    and ends; the heap is unchanged. *)
Theorem rbtree_enumerates m xs :
  rb_tree m xs ->
  (let* n := hev_rbtree_first in visit hev_rbtree_node_next (length xs) n) m = Some (xs, m) /\
  (let* n := hev_rbtree_last in visit hev_rbtree_node_prev (length xs) n) m = Some (rev xs, m).
Proof.
  intros Hm. split.
  - erewrite bind_Some by (by apply rb_first). by apply (visit_next m [] xs).
  - erewrite bind_Some by (by apply rb_last). apply (visit_prev m xs []); [by rewrite app_nil_r|done].
Qed.

Lemma rbtree_enumerates_witness :
  (let* n := hev_rbtree_first in visit hev_rbtree_node_next 3 n) sample_heap = Some ([8; 16; 24], sample_heap) /\
  (let* n := hev_rbtree_last in visit hev_rbtree_node_prev 3 n) sample_heap = Some ([24; 16; 8], sample_heap).
Proof. exact (rbtree_enumerates sample_heap [8; 16; 24] sample_rb_tree). Defined.

(** Replacing a node by a fresh one puts the new node at the same place of
    the in-order sequence, keeps the tree red-black, and touches only the nodes
    of the tree and the new one. *)
Theorem rbtree_replace_in_place m xs1 victim xs2 n :
  rb_tree m (xs1 ++ victim :: xs2) -> okp n -> n ∉ xs1 ++ victim :: xs2 -> is_Some (rb_nodes m !! n) ->
  exists m', hev_rbtree_replace victim n m = Some (tt, m') /\
    rb_tree m' (xs1 ++ n :: xs2) /\
    same_off (n :: xs1 ++ victim :: xs2) (rb_nodes m) (rb_nodes m').
Proof. apply rb_replace. Qed.

Lemma rbtree_replace_in_place_witness :
  exists m', hev_rbtree_replace 16 32 sample_heap = Some (tt, m') /\ rb_tree m' [8; 32; 24] /\
    same_off [32; 8; 16; 24] (rb_nodes sample_heap) (rb_nodes m').
Proof.
  apply (rbtree_replace_in_place sample_heap [8] 16 [24] 32 sample_rb_tree).
  - by repeat constructor.
  - by apply (bool_decide_unpack _).
  - by eexists.
Defined.

(** Any sequence of additions at the tail and removals that respects the
    rules of the list (a node added is not linked, a node removed is) runs
    without a fault and leaves a well-formed doubly linked list of exactly the
    nodes, in the order, that the sequence specification gives. *)
Theorem list_refines_sequence os m xs ys :
  list_rep m xs ->
  Forall (fun o => list_op_node o <> NULL /\ is_Some (l_nodes m !! list_op_node o)) os ->
  list_spec os xs = Some ys ->
  exists m', list_run os m = Some (tt, m') /\ list_rep m' ys.
Proof. apply list_run_ok. Qed.

Lemma list_refines_sequence_witness :
  exists m', list_run [AddTail 1; AddTail 2; AddTail 3; Del 2; AddTail 2; Del 1]
    (LMem NULL NULL (list_to_map [(1, LNode 9 9); (2, LNode 9 9); (3, LNode 9 9)])) = Some (tt, m') /\
    list_rep m' [3; 2].
Proof.
  eapply (list_refines_sequence _ _ []); [apply list_rep_empty| |reflexivity].
  repeat (apply Forall_cons; split; [split; [done|by eexists]|]). by apply Forall_nil.
Defined.
