(* ===== verification/DnsTheorems.v ===== *)
(** * Theorems on the mapped DNS (hev-mapped-dns.c)

    The cache refines its abstract specification operation by operation, an
    address handed out leads back to its name as long as the cache has room for
    the names asked for since, the message handler is memory safe on any input
    and answers a query with the mapped address, and destruction frees exactly
    the cached nodes. *)

From S2P Require Import Prelude RBTree RBModel RBRep RBSpec KeyedTree HevList MappedDNS DnsMessage.

(** ** Shared facts *)

Lemma spec_finds_lookup max name i es names es' :
  0 < max -> spec_find max name es = (i, es') -> Z.of_nat (length names) < max ->
  entry_idx name (spec_finds max names es') = Some i.
Proof.
  intros Hmax Hf Hl. eapply recent_idx, (recent_finds max name i 0); [by eapply find_recent|lia].
Qed.

(** The address of an index whose name is in the cache. *)
Lemma lookup_mapped s lru name i net k :
  md_inv s lru -> Z.lnot (md_mask s) = 2 ^ k - 1 -> 0 <= k -> md_max s <= 2 ^ k - 1 ->
  Z.land net (2 ^ k - 1) = 0 -> entry_idx name (abs s lru) = Some i ->
  exists s' lru', hev_mapped_dns_lookup (Z.lor net i) s = Some (Some name, s') /\ md_inv s' lru'.
Proof.
  intros Hi Hmask Hk Hmax Hnet He.
  destruct (entry_idx_name s lru name i Hi He) as [Hn Hr]. pose proof (mi_max _ _ Hi) as [_ Hu].
  destruct (lookup_ok s lru (Z.lor net i) Hi) as (r & s' & lru' & Heq & Hi' & Hsp & _); [lia|].
  rewrite Hmask, land_host in Hsp by lia. unfold spec_lookup in Hsp. rewrite Hn in Hsp. simplify_eq.
  by exists s', lru'.
Qed.

(** ** The cache *)

(** C1: Finding a name implements the abstract cache: on a sound state, with a
    fresh address from the allocator, the C routine ends without a fault, keeps
    the invariant that ties the tree, the recency list and the index array
    together, returns the index the specification gives (the old one on a hit,
    the next free one while there is room, the least recently used one after
    that) and leaves the entries the specification leaves. *)
Theorem mapped_dns_find_refines s lru a name :
  md_inv s lru -> cstr name -> okp a -> a ∉ lru ->
  exists i s' lru', hev_mapped_dns_find a true name s = Some (i, s') /\ md_inv s' lru' /\
    spec_find (md_max s) name (abs s lru) = (i, abs s' lru') /\
    md_max s' = md_max s /\ md_net s' = md_net s /\ md_mask s' = md_mask s.
Proof.
  intros Hi Hn Hok Ha. destruct (find_ok s lru a name) as (i & s' & lru' & Heq & Hi' & Hsp & _ & Hr); try done.
  by exists i, s', lru'.
Qed.

Definition sample_net : Z := 1681915904.
Definition sample_mask : Z := -256.
Definition sample_dns : mdns :=
  MDns 0 2 sample_net sample_mask (LMem NULL NULL ∅) (RBMem NULL ∅) ∅ (replicate 2 NULL).

Lemma sample_dns_inv : md_inv sample_dns [].
Proof. by apply (construct_ok sample_net sample_mask 2). Qed.

Lemma mapped_dns_find_refines_witness :
  exists i s' lru', hev_mapped_dns_find 64 true [97; 46; 98] sample_dns = Some (i, s') /\ md_inv s' lru' /\
    spec_find 2 [97; 46; 98] [] = (i, abs s' lru') /\
    md_max s' = 2 /\ md_net s' = sample_net /\ md_mask s' = sample_mask.
Proof.
  apply (mapped_dns_find_refines sample_dns [] 64 [97; 46; 98] sample_dns_inv).
  - by repeat constructor.
  - by repeat constructor.
  - apply not_elem_of_nil.
Defined.

(** When the allocator fails, or strdup does, on a name that is not cached,
    finding it returns -1 and the state is exactly what it was. *)
Theorem mapped_dns_find_no_memory s lru a dup name :
  md_inv s lru -> cstr name -> entry_idx name (abs s lru) = None ->
  a = NULL \/ (dup = false /\ okp a /\ md_nodes s !! a = None /\
    l_nodes (md_list s) !! a = None /\ rb_nodes (md_tree s) !! a = None) ->
  hev_mapped_dns_find a dup name s = Some (-1, s).
Proof. apply find_oom. Qed.

Lemma mapped_dns_find_no_memory_witness :
  hev_mapped_dns_find 64 false [97] sample_dns = Some (-1, sample_dns).
Proof.
  apply (mapped_dns_find_no_memory sample_dns [] 64 false [97] sample_dns_inv).
  - by repeat constructor.
  - reflexivity.
  - right. split_and!; [done|by repeat constructor|done..].
Defined.

(** Looking an address up implements the abstract cache, for every address:
    the name whose index the host part holds is returned and becomes the most
    recent entry, and an address with no name gives NULL and changes nothing. *)
Theorem mapped_dns_lookup_refines s lru ip :
  md_inv s lru -> md_max s <= Z.lnot (md_mask s) ->
  exists r s' lru', hev_mapped_dns_lookup ip s = Some (r, s') /\ md_inv s' lru' /\
    spec_lookup (Z.land ip (Z.lnot (md_mask s))) (abs s lru) = (r, abs s' lru').
Proof.
  intros Hi Hm. destruct (lookup_ok s lru ip Hi Hm) as (r & s' & lru' & Heq & Hi' & Hsp & _).
  by exists r, s', lru'.
Qed.

Lemma mapped_dns_lookup_refines_witness :
  exists r s' lru', hev_mapped_dns_lookup (sample_net + 77) sample_dns = Some (r, s') /\ md_inv s' lru' /\
    spec_lookup 77 [] = (r, abs s' lru').
Proof. apply (mapped_dns_lookup_refines sample_dns [] (sample_net + 77) sample_dns_inv). vm_compute. discriminate. Defined.

(** C25: The address handed out for a name leads back to it: after a name is
    found, and then fewer other names than the cache holds are found, whatever
    they are, looking up network | index returns the name, for any netmask of k
    host bits and a network address with none of them set. *)
Theorem mapped_dns_round_trip s lru a name i s1 qs k :
  md_inv s lru -> allocs_ok lru ((a, name) :: qs) -> Z.of_nat (length qs) < md_max s ->
  Z.lnot (md_mask s) = 2 ^ k - 1 -> 0 <= k -> md_max s <= 2 ^ k - 1 ->
  Z.land (md_net s) (2 ^ k - 1) = 0 ->
  hev_mapped_dns_find a true name s = Some (i, s1) ->
  exists ixs s2 s3, find_all qs s1 = Some (ixs, s2) /\
    hev_mapped_dns_lookup (Z.lor (md_net s) i) s2 = Some (Some name, s3).
Proof.
  intros Hi Hal Hlen Hmask Hk Hmax Hnet Hfind.
  destruct Hal as [Hnd Hf]. apply NoDup_cons in Hnd as [Ha Hnd]. apply Forall_cons in Hf as [(Hok & Hal & Hname) Hf].
  destruct (find_ok s lru a name) as (i' & s1' & lru1 & Heq & Hi1 & Hsp & Hin & Hm1 & Hn1 & Hk1); try done.
  simpl in Heq. rewrite Hfind in Heq. simplify_eq.
  destruct (find_all_ok s1' lru1 qs Hi1) as (ixs & s2 & lru2 & Heq2 & Hi2 & Habs & Hm2 & Hn2 & Hk2).
  { split; [done|]. rewrite Forall_forall in Hf |- *. intros q Hq. destruct (Hf q Hq) as (? & ? & ?).
    split_and!; try done. intros Hq1. destruct (Hin _ Hq1) as [Hqa|?]; [|done].
    apply Ha. simpl. simpl in Hqa. rewrite <-Hqa. by apply list_elem_of_fmap_2. }
  assert (entry_idx name (abs s2 lru2) = Some i') as Hidx.
  { rewrite Habs, Hm1. eapply spec_finds_lookup; [apply Hi|exact Hsp|]. by rewrite length_fmap. }
  destruct (lookup_mapped s2 lru2 name i' (md_net s) k) as (s3 & lru3 & Hl & _); try done; [congruence|lia|].
  exists ixs, s2, s3. done.
Qed.

Lemma sample_found : exists s1, hev_mapped_dns_find 64 true [97] sample_dns = Some (0, s1).
Proof. eexists. vm_compute. reflexivity. Qed.

Lemma mapped_dns_round_trip_witness :
  exists s1, hev_mapped_dns_find 64 true [97] sample_dns = Some (0, s1) /\
  exists ixs s2 s3, find_all [(128, [98])] s1 = Some (ixs, s2) /\
    hev_mapped_dns_lookup (Z.lor sample_net 0) s2 = Some (Some [97], s3).
Proof.
  destruct sample_found as (s1 & E). exists s1. split; [exact E|].
  apply (mapped_dns_round_trip sample_dns [] 64 [97] 0 s1 [(128, [98])] 8 sample_dns_inv);
    [|done..|vm_compute; discriminate|done|exact E].
  split; [by apply (bool_decide_unpack _)|].
  repeat constructor; apply not_elem_of_nil.
Defined.

(** The life of a cache does not leak: a constructed cache is sound, any
    sequence of queries keeps it so, and destruction then frees every node the
    cache holds and no other memory, without touching freed memory. *)
Theorem mapped_dns_life_cycle net mask max s0 qs :
  hev_mapped_dns_construct net mask max = Some s0 -> 0 < max -> allocs_ok [] qs ->
  exists ixs s lru s', find_all qs s0 = Some (ixs, s) /\ md_inv s lru /\
    abs s lru = spec_finds max qs.*2 [] /\
    hev_mapped_dns_destruct s = Some (tt, s') /\
    (forall n, md_nodes s' !! n = if decide (n ∈ lru) then None else md_nodes s !! n).
Proof.
  intros Hc Hmax Hq. destruct (construct_ok _ _ _ _ Hc Hmax) as (Hi & <- & _).
  destruct (find_all_ok s0 [] qs Hi Hq) as (ixs & s & lru & Heq & Hi' & Habs & _).
  destruct (destruct_ok s lru Hi') as (s' & Hd & Hfree). by exists ixs, s, lru, s'.
Qed.

Lemma mapped_dns_life_cycle_witness :
  exists ixs s lru s', find_all [(64, [97]); (128, [98]); (192, [99])] sample_dns = Some (ixs, s) /\ md_inv s lru /\
    abs s lru = spec_finds 2 [[97]; [98]; [99]] [] /\
    hev_mapped_dns_destruct s = Some (tt, s') /\
    (forall n, md_nodes s' !! n = if decide (n ∈ lru) then None else md_nodes s !! n).
Proof.
  apply (mapped_dns_life_cycle sample_net sample_mask 2 sample_dns [(64, [97]); (128, [98]); (192, [99])]);
    [reflexivity|done|].
  split; [by apply (bool_decide_unpack _)|].
  repeat constructor; apply not_elem_of_nil.
Defined.

(** ** Messages *)

(** C7: The DNS handler is safe on every message: whatever the bytes, and
    whether or not allocations succeed, it ends, reads and writes only inside
    the request and response buffers, keeps the cache sound, and returns -1 or a
    length of at least a header that fits the response buffer. *)
Theorem dns_handle_safe qlen slen s :
  0 <= qlen < 2147483648 -> handle_ok qlen slen s ->
  exists r s', hev_mapped_dns_handle qlen slen s = Some (r, s') /\ handle_ok qlen slen s' /\
    (r = -1 \/ 12 <= r <= slen).
Proof. apply handle_safe. Qed.

(** A message whose only question has a label that runs past its end. *)
Lemma dns_handle_safe_witness :
  exists r s', hev_mapped_dns_handle 14 20 (HSt [1; 2; 1; 0; 0; 1; 0; 0; 0; 0; 0; 0; 63; 97] (replicate 20 0) sample_dns [(64, true)]) =
    Some (r, s') /\ handle_ok 14 20 s' /\ (r = -1 \/ 12 <= r <= 20).
Proof.
  apply (dns_handle_safe 14 20); [lia|]. split; [done|done|by apply (bool_decide_unpack _)|].
  exists []. split; [exact sample_dns_inv|]. split; [by apply (bool_decide_unpack _)|].
  repeat constructor; apply not_elem_of_nil.
Defined.

(** End to end, a query of type A for one name is answered with exactly the
    reply message that carries the mapped address (flags, counts, a pointer to
    the question, a time to live of one second), and looking that address up
    right after gives back the dotted name of the query. *)
Theorem dns_answer_maps_back i0 i1 f0 f1 c0 c1 c2 c3 c4 c5 ls res d lru a k :
  let q := dns_query i0 i1 f0 f1 [c0; c1; c2; c3; c4; c5] ls in
  Forall label_ok ls -> ls <> [] -> byte_ok f0 -> byte_ok f1 ->
  md_inv d lru -> okp a -> a ∉ lru ->
  (length q + 16 <= length res)%nat -> Z.of_nat (length q) < 2147483648 ->
  Z.lnot (md_mask d) = 2 ^ k - 1 -> 0 <= k -> md_max d <= 2 ^ k - 1 -> Z.land (md_net d) (2 ^ k - 1) = 0 ->
  exists ip d' q' rest d'',
    hev_mapped_dns_handle (Z.of_nat (length q)) (Z.of_nat (length res)) (HSt q res d [(a, true)]) =
    Some (Z.of_nat (length q) + 16, HSt q' (dns_reply i0 i1 f0 f1 ls ip ++ rest) d' []) /\
    hev_mapped_dns_lookup ip d' = Some (Some (dotted ls), d'').
Proof.
  intros q Hls Hne Hf0 Hf1 Hi Hok Ha Hlen Hmax Hmask Hk Hmx Hnet.
  destruct (handle_reply i0 i1 f0 f1 c0 c1 c2 c3 c4 c5 ls res d lru a) as (i & d' & lru' & q' & rest & Hh & Hf & Hi' & Hsp); try done.
  destruct (find_ok d lru a (dotted ls)) as (i2 & d2 & lru2 & Hf2 & _ & _ & _ & Hm & Hn & Hmk); try done.
  { destruct ls as [|l ls]; [done|]. apply Forall_cons in Hls as [(_ & _ & ?) ?].
    apply Forall_app. split; [done|]. by apply cstr_dot_labels. }
  rewrite Hf in Hf2. symmetry in Hf2. simplify_eq.
  destruct (lookup_mapped d' lru' (dotted ls) i (md_net d) k) as (d'' & lru'' & Hl & _); try done;
    [congruence|lia| |].
  { change (abs d' lru') with (spec_finds (md_max d) [] (abs d' lru')).
    eapply spec_finds_lookup; [apply Hi|exact Hsp|]. apply Hi. }
  exists (Z.lor (md_net d) i), d', q', rest, d''. done.
Qed.

Lemma dns_answer_maps_back_witness :
  let q := dns_query 18 52 1 0 [0; 0; 0; 0; 0; 0] [[97; 98]; [99]] in
  exists ip d' q' rest d'',
    hev_mapped_dns_handle 22 40 (HSt q (replicate 40 0) sample_dns [(64, true)]) =
    Some (38, HSt q' (dns_reply 18 52 1 0 [[97; 98]; [99]] ip ++ rest) d' []) /\
    hev_mapped_dns_lookup ip d' = Some (Some [97; 98; 46; 99], d'').
Proof.
  apply (dns_answer_maps_back 18 52 1 0 0 0 0 0 0 0 [[97; 98]; [99]] (replicate 40 0) sample_dns [] 64 8);
    try done; try lia.
  - by repeat constructor.
  - exact sample_dns_inv.
  - apply not_elem_of_nil.
  - simpl. lia.
Defined.
