(* ===== verification/AuthTheorems.v ===== *)
(** * Theorems on users and their registry (hev-socks5-user.c, hev-socks5-authenticator.c)

    The registry refines a finite map from names to users, a user object lives
    exactly as long as someone holds it, and a password is accepted exactly when
    it is the one the user was made with. *)

From S2P Require Import Prelude RBTree RBModel RBRep RBSpec KeyedTree Authenticator.

(** C31: The authenticator is a finite map from names to users.  On a sound
    state, adding a live user registers it unless the name is taken (then -1 and
    no change), getting a name returns its user or NULL, deleting a name removes
    it (-1 when it is not there), clearing removes every name; all of them end
    without a fault and keep the sorted red-black tree sound. *)
Theorem authenticator_refines_map s reg :
  au_inv s reg ->
  (forall p u, au_users s !! p = Some u -> user_ok u -> okp p -> is_Some (rb_nodes (au_tree s) !! p) ->
     exists s', hev_socks5_authenticator_add p s =
         Some (if decide (reg !! user_name u = None) then 0 else -1, s') /\
       au_inv s' (if decide (reg !! user_name u = None) then <[user_name u := p]> reg else reg)) /\
  (forall name name_len, 0 <= name_len <= Z.of_nat (length name) ->
     hev_socks5_authenticator_get name name_len s =
     Some (default NULL (reg !! take (Z.to_nat name_len) name), s)) /\
  (forall name name_len, 0 <= name_len <= Z.of_nat (length name) ->
     exists s', hev_socks5_authenticator_del name name_len s =
         Some (if decide (reg !! take (Z.to_nat name_len) name = None) then -1 else 0, s') /\
       au_inv s' (delete (take (Z.to_nat name_len) name) reg)) /\
  (exists s', hev_socks5_authenticator_clear s = Some (tt, s') /\ au_inv s' ∅).
Proof.
  intros Hi. split_and!.
  - intros p u Hu Ho Hok Hl. destruct (add_ok s reg p u) as (s' & Heq & Hi' & _); eauto.
  - intros name n Hn. by apply get_ok.
  - intros name n Hn. by apply del_ok.
  - destruct (clear_ok s reg Hi) as (s' & Heq & Hi' & _). eauto.
Qed.

(** One registered user, alice, and one more, bob, that is alive and not registered. *)
Definition alice : user := User 2 [97; 108; 0] [112; 119; 0] 2 2.
Definition bob : user := User 1 [98; 111; 98; 0] [120; 0] 3 1.
Definition sample_auth : auth :=
  Auth (RBMem 64 (list_to_map [(64, RBNode 1 0 0); (128, RBNode 0 0 0)])) (list_to_map [(64, alice); (128, bob)]).

Lemma alice_ok : user_ok alice.
Proof. by exists [97; 108], [112; 119]. Qed.

Lemma sample_auth_inv : au_inv sample_auth {[ [97; 108] := 64 ]}.
Proof.
  exists [64]. split_and!.
  - exists (T Black E 64 E). split_and!; [by repeat split|by repeat (split || exists 1%nat)| |done].
    split; [by apply (bool_decide_unpack _)|by repeat constructor].
  - split; [|repeat constructor]. repeat constructor. by eexists.
  - intros p ->%list_elem_of_singleton. exists alice. split; [done|apply alice_ok].
  - intros nm p. rewrite lookup_singleton_Some, list_elem_of_singleton. split.
    + by intros [<- <-].
    + intros [-> [= <-]]. done.
Qed.

Lemma authenticator_refines_map_witness :
  exists s', hev_socks5_authenticator_del [97; 108; 99] 2 sample_auth = Some (0, s') /\ au_inv s' ∅.
Proof.
  destruct (proj1 (proj2 (proj2 (authenticator_refines_map _ _ sample_auth_inv))) [97; 108; 99] 2) as (s' & Heq & Hi).
  - simpl. lia.
  - exists s'. split; [exact Heq|]. by change (delete _ _) with (∅ : gmap (list Z) Z) in Hi.
Defined.

(** Unreferencing a user frees it exactly when the last reference goes: with
    other holders only the count drops, and no other user or tree node is
    touched in either case. *)
Theorem user_unref_frees_last s p u :
  au_users s !! p = Some u -> user_ok u ->
  exists s', hev_object_unref p s = Some (tt, s') /\
    (forall q, q <> p -> au_users s' !! q = au_users s !! q /\
                         rb_nodes (au_tree s') !! q = rb_nodes (au_tree s) !! q) /\
    rb_root (au_tree s') = rb_root (au_tree s) /\
    au_users s' !! p =
      (if decide (us_ref u = 1) then None
       else Some (User (us_ref u - 1) (us_name u) (us_pass u) (us_name_len u) (us_pass_len u))).
Proof. apply unref_users. Qed.

Lemma user_unref_frees_last_witness :
  exists s', hev_object_unref 64 sample_auth = Some (tt, s') /\
    (forall q, q <> 64 -> au_users s' !! q = au_users sample_auth !! q /\
                         rb_nodes (au_tree s') !! q = rb_nodes (au_tree sample_auth) !! q) /\
    rb_root (au_tree s') = 64 /\ au_users s' !! 64 = Some (User 1 [97; 108; 0] [112; 119; 0] 2 2).
Proof. exact (user_unref_frees_last sample_auth 64 alice eq_refl alice_ok). Defined.

(** A user made from a name and a password holds exactly those bytes, and the
    checker accepts exactly the password: it returns 0 when the bytes presented
    are the ones the user was made with and -1 otherwise, whatever lies in the
    buffers beyond the given lengths. *)
Theorem user_password_check name name_len pass pass_len given given_len :
  0 <= name_len <= Z.of_nat (length name) -> 0 <= pass_len <= Z.of_nat (length pass) ->
  0 <= given_len <= Z.of_nat (length given) ->
  exists u, hev_socks5_user_construct true true name name_len pass pass_len = Some (Some u) /\
    user_name u = take (Z.to_nat name_len) name /\
    hev_socks5_user_checker u given given_len =
    Some (if decide (take (Z.to_nat given_len) given = take (Z.to_nat pass_len) pass) then 0 else -1).
Proof.
  intros Hn Hp Hg. destruct (construct_user name name_len pass pass_len Hn Hp) as (u & Hc & Ho & Hnm & Hpw & _).
  exists u. split_and!; try done. rewrite <-Hpw. by apply checker_ok.
Qed.

Lemma user_password_check_witness :
  exists u, hev_socks5_user_construct true true [97; 98; 99] 2 [112; 119] 2 = Some (Some u) /\
    user_name u = [97; 98] /\ hev_socks5_user_checker u [112; 119; 9] 2 = Some 0.
Proof. apply (user_password_check [97; 98; 99] 2 [112; 119] 2 [112; 119; 9] 2); simpl; lia. Defined.
