(* ===== verification/BufferTheorems.v ===== *)
(** * Theorems on the byte buffers (misc/hev-ring-buffer.c, io/buffer/hev-circular-buffer.c)

    Any sequence of scattering reads into a buffer and gathering writes out of
    it is first in, first out: nothing is lost, duplicated or reordered, the
    I/O vectors stay inside the data area and nothing that is still to be
    acknowledged is overwritten. *)

From S2P Require Import Prelude Buffers.

(** ** Sequences of operations on the ring buffer *)

(** [RFill w]: the bytes [w] arrive in the free space; [RTake n]: [n] bytes are
    handed on; [RRelease n]: the peer acknowledges [n] bytes. *)
Inductive ring_op := RFill (w : list Z) | RTake (n : nat) | RRelease (n : nat).

(** The callers' use of the routines: fill what [writing] gives, hand on the
    first bytes of what [reading] gives. *)
Definition ring_exec (o : ring_op) (r : ring) : ring * list Z :=
  match o with
  | RFill w =>
    (hev_ring_buffer_write_finish
       (Ring (r_rp r) (r_wp r) (r_rda r) (r_use r) (r_max r)
             (iov_scatter (r_data r) (hev_ring_buffer_writing r) w)) (Z.of_nat (length w)), [])
  | RTake n =>
    (hev_ring_buffer_read_finish r (Z.of_nat n),
     take n (iov_gather (r_data r) (hev_ring_buffer_reading r)))
  | RRelease n => (hev_ring_buffer_read_release r (Z.of_nat n), [])
  end.

(** Each operation stays within what the vectors offer. *)
Definition ring_fits (o : ring_op) (r : ring) (u q : list Z) : Prop :=
  match o with
  | RFill w => Z.of_nat (length w) <= iov_len (hev_ring_buffer_writing r)
  | RTake n => Z.of_nat n <= iov_len (hev_ring_buffer_reading r)
  | RRelease n => (n <= length u)%nat
  end.

(** The queue: bytes waiting for an acknowledgement, readable bytes. *)
Definition queue_exec (o : ring_op) (s : list Z * list Z) : (list Z * list Z) * list Z :=
  let '(u, q) := s in
  match o with
  | RFill w => ((u, q ++ w), [])
  | RTake n => ((u ++ take n q, drop n q), take n q)
  | RRelease n => ((drop n u, q), [])
  end.
Arguments queue_exec !o s /.

Lemma ring_exec_ok o r u q :
  ring_rep r u q -> ring_fits o r u q ->
  ring_rep (ring_exec o r).1 (queue_exec o (u, q)).1.1 (queue_exec o (u, q)).1.2 /\
  (ring_exec o r).2 = (queue_exec o (u, q)).2 /\ r_max (ring_exec o r).1 = r_max r.
Proof.
  intros Hr. destruct (@bf_reading_ok ring ring_fifo r u q Hr) as (Hg & Hgl & _), (@bf_writing_ok ring ring_fifo r u q Hr) as (Hw & _ & _).
  simpl in *. destruct o as [w|n|n]; simpl.
  - intros Hf. split_and!; try done. apply ring_write_rep; [done|]. rewrite Hw in Hf.
    destruct (rr_use _ _ _ Hr). lia.
  - intros Hf. rewrite Hg. split_and!; try done. apply ring_read_finish_rep; [done|lia].
  - intros Hf. split_and!; try done; [by apply ring_release_rep|].
    unfold hev_ring_buffer_read_release. by destruct (_ =? 0).
Qed.

Fixpoint ring_run (os : list ring_op) (r : ring) : ring * list Z :=
  match os with
  | [] => (r, [])
  | o :: os => let '(r, out) := ring_exec o r in let '(r, outs) := ring_run os r in (r, out ++ outs)
  end.

Fixpoint queue_run (os : list ring_op) (s : list Z * list Z) : (list Z * list Z) * list Z :=
  match os with
  | [] => (s, [])
  | o :: os => let '(s, out) := queue_exec o s in let '(s, outs) := queue_run os s in (s, out ++ outs)
  end.

(** Every operation of the sequence fits when its turn comes. *)
Fixpoint ring_runs_fit (os : list ring_op) (r : ring) (s : list Z * list Z) : Prop :=
  match os with
  | [] => True
  | o :: os => ring_fits o r s.1 s.2 /\ ring_runs_fit os (ring_exec o r).1 (queue_exec o s).1
  end.

Lemma ring_run_ok os r u q :
  ring_rep r u q -> ring_runs_fit os r (u, q) ->
  ring_rep (ring_run os r).1 (queue_run os (u, q)).1.1 (queue_run os (u, q)).1.2 /\
  (ring_run os r).2 = (queue_run os (u, q)).2.
Proof.
  revert r u q. induction os as [|o os IH]; intros r u q Hr Hf; simpl; [done|].
  destruct Hf as [Ho Hf]. destruct (ring_exec_ok o r u q Hr Ho) as (Hr' & Hout & _).
  destruct (ring_exec o r) as [r1 out] eqn:E1, (queue_exec o (u, q)) as [[u1 q1] out'] eqn:E2. simpl in *. subst out'.
  destruct (IH r1 u1 q1 Hr' Hf) as [Hr2 Ho2].
  destruct (ring_run os r1) as [r2 outs], (queue_run os (u1, q1)) as [[u2 q2] outs']. simpl in *. subst. split; done.
Qed.

Definition filled (os : list ring_op) : list Z := concat (map (fun o => match o with RFill w => w | _ => [] end) os).

Lemma queue_run_fifo os u q :
  (queue_run os (u, q)).2 ++ (queue_run os (u, q)).1.2 = q ++ filled os.
Proof.
  revert u q. induction os as [|o os IH]; intros u q; simpl; [by rewrite app_nil_r|].
  destruct o as [w|n|n]; simpl.
  - specialize (IH u (q ++ w)). destruct (queue_run os (u, q ++ w)) as [[u' q'] outs]. simpl in *.
    rewrite IH. unfold filled. simpl. by rewrite <-app_assoc.
  - specialize (IH (u ++ take n q) (drop n q)). destruct (queue_run os _) as [[u' q'] outs]. simpl in *.
    rewrite <-app_assoc, IH. unfold filled. simpl. by rewrite app_assoc, take_drop.
  - specialize (IH (drop n u) q). destruct (queue_run os _) as [[u' q'] outs]. simpl in *. by rewrite IH.
Qed.

(** ** The theorems *)

(** The ring buffer of a TCP session is a queue with an unacknowledged
    prefix.  Whatever sequence of fills, hand-overs and acknowledgements runs on
    it, within what the I/O vectors offer at each step, the bytes handed on,
    followed by the bytes still readable, are exactly the bytes that arrived, in
    order; and the bytes handed on but not acknowledged are still intact in the
    buffer. *)
Theorem ring_buffer_is_fifo size data os :
  0 < size -> 2 * size < 18446744073709551616 -> length data = Z.to_nat size ->
  ring_runs_fit os (hev_ring_buffer_alloca size data) ([], []) ->
  let '(r, out) := ring_run os (hev_ring_buffer_alloca size data) in
  exists u q, ring_rep r u q /\ (u, q) = (queue_run os ([], [])).1 /\ out ++ q = filled os.
Proof.
  intros H1 H2 H3 Hf. pose proof (ring_alloca_rep size data H1 H2 H3) as Hr.
  destruct (ring_run_ok os _ [] [] Hr Hf) as [Hr' Hout].
  destruct (ring_run os _) as [r out]. simpl in *. exists (queue_run os ([], [])).1.1, (queue_run os ([], [])).1.2.
  split; [done|]. split; [by destruct (queue_run os ([], [])) as [[? ?] ?]|].
  rewrite Hout. by rewrite queue_run_fifo.
Qed.

Lemma ring_buffer_is_fifo_witness :
  let os := [RFill [1; 2; 3]; RTake 2; RRelease 2; RFill [4; 5; 6]; RTake 4] in
  let '(r, out) := ring_run os (hev_ring_buffer_alloca 4 [0; 0; 0; 0]) in
  exists u q, ring_rep r u q /\ (u, q) = (queue_run os ([], [])).1 /\ out ++ q = filled os.
Proof.
  apply (ring_buffer_is_fifo 4 [0; 0; 0; 0] [RFill [1; 2; 3]; RTake 2; RRelease 2; RFill [4; 5; 6]; RTake 4]);
    [lia|lia|reflexivity|].
  simpl. repeat split; vm_compute; try lia; discriminate.
Defined.

(** What a turn of the splice does with a circular buffer: [None] is a gathering
    write of [n] bytes, [Some w] a scattering read of [w]. *)
Fixpoint fifo_run {B} `{!ByteFifo B} (os : list (list Z + nat)) (b : B) : B * list Z :=
  match os with
  | [] => (b, [])
  | inl w :: os =>
    fifo_run os (bf_write_finish (bf_set_data b (iov_scatter (bf_data b) (bf_writing b) w)) (Z.of_nat (length w)))
  | inr n :: os =>
    let out := take n (iov_gather (bf_data b) (bf_reading b)) in
    let '(b, outs) := fifo_run os (bf_read_finish b (Z.of_nat n)) in (b, out ++ outs)
  end.

Fixpoint fifo_fits {B} `{!ByteFifo B} (os : list (list Z + nat)) (b : B) : Prop :=
  match os with
  | [] => True
  | inl w :: os =>
    Z.of_nat (length w) <= iov_len (bf_writing b) /\
    fifo_fits os (bf_write_finish (bf_set_data b (iov_scatter (bf_data b) (bf_writing b) w)) (Z.of_nat (length w)))
  | inr n :: os => Z.of_nat n <= iov_len (bf_reading b) /\ fifo_fits os (bf_read_finish b (Z.of_nat n))
  end.

Definition inputs (os : list (list Z + nat)) : list Z :=
  concat (map (fun o => match o with inl w => w | inr _ => [] end) os).

Lemma fifo_run_ok {B} `{!ByteFifo B} os (b : B) u q :
  bf_rep b u q -> fifo_fits os b ->
  exists u' q', bf_rep (fifo_run os b).1 u' q' /\ (fifo_run os b).2 ++ q' = q ++ inputs os.
Proof.
  revert b u q. induction os as [|[w|n] os IH]; intros b u q Hb Hf; simpl in *.
  - exists u, q. split; [done|]. by rewrite app_nil_r.
  - destruct Hf as [Hw Hf]. destruct (bf_write_finish_ok b u q w Hb Hw) as [Hb' _].
    destruct (IH _ _ _ Hb' Hf) as (u' & q' & Hr & Heq). exists u', q'. split; [done|]. rewrite Heq.
    unfold inputs. simpl. by rewrite <-app_assoc.
  - destruct Hf as [Hn Hf]. destruct (bf_reading_ok b u q Hb) as (Hg & Hl & _). rewrite Hl in Hn.
    destruct (bf_read_finish_ok b u q n Hb) as [Hb' _]; [lia|].
    destruct (IH _ _ _ Hb' Hf) as (u' & q' & Hr & Heq). destruct (fifo_run os _) as [b' outs]. simpl in *.
    exists u', q'. split; [done|]. rewrite Hg, <-app_assoc, Heq, app_assoc, take_drop. done.
Qed.

(** The circular buffer of the generic splice is first in, first out: for
    any sequence of scattering reads and gathering writes within the vectors the
    buffer offers, the bytes written out followed by the bytes still inside are
    exactly the bytes read in, in order, for every capacity and wrap-around. *)
Theorem circular_buffer_is_fifo size data os :
  0 < size -> 2 * size < 18446744073709551616 -> length data = Z.to_nat size ->
  fifo_fits os (hev_circular_buffer_new size data) ->
  let '(c, out) := fifo_run os (hev_circular_buffer_new size data) in
  exists q, circ_rep c [] q /\ out ++ q = inputs os.
Proof.
  intros H1 H2 H3 Hf. pose proof (circ_new_rep size data H1 H2 H3) as Hc.
  destruct (@fifo_run_ok circ circ_fifo os _ [] [] Hc Hf) as (u & q & Hr & Heq).
  destruct (fifo_run os _) as [c out]. simpl in *. pose proof (cr_none _ _ _ Hr) as ->. by exists q.
Qed.

Lemma circular_buffer_is_fifo_witness :
  let os := [inl [1; 2; 3]; inr 2%nat; inl [4; 5; 6]; inr 3%nat] in
  let '(c, out) := fifo_run os (hev_circular_buffer_new 4 [0; 0; 0; 0]) in
  exists q, circ_rep c [] q /\ out ++ q = inputs os.
Proof.
  apply (circular_buffer_is_fifo 4 [0; 0; 0; 0] [inl [1; 2; 3]; inr 2%nat; inl [4; 5; 6]; inr 3%nat]);
    [lia|lia|reflexivity|].
  simpl. repeat split; vm_compute; try lia; discriminate.
Defined.
