(* ===== verification/TaskSocket.v ===== *)
(** * Socket I/O of a task (third-part/hev-task-system/src/lib/io/socket/hev-task-io-socket.c)

    The system calls are an oracle: the state of a socket holds the outcomes that
    the kernel will give, one event per call, and the bytes it has accepted.  A
    call that would block is an event of its own, split by what the yielder of
    the task answers: go on, or give up (a timeout).  The loops of the library
    are functions on that state, so that a theorem for all event lists is a
    theorem for every behaviour of the kernel and of the peer. *)

From S2P Require Import Prelude.

(** ** State *)

(** What [recv] finds: bytes, nothing yet (and the yielder continues or gives
    up), the end of the stream, an error. *)
Inductive rx_event := RxData (bs : list Z) | RxAgain | RxTimeout | RxEof | RxErr.

(** What [send] does: accept up to [k] bytes, or one of the same failures. *)
Inductive tx_event := TxSome (k : Z) | TxAgain | TxTimeout | TxErr.

(** What [connect] does. *)
Inductive cx_event := CxOk | CxInProgress | CxTimeout | CxIsConn | CxErr.

(** A socket: after the listed events the peer has closed, and the kernel accepts
    everything.  [sk_out] is what was sent so far. *)
Record sock := Sock { sk_rx : list rx_event; sk_tx : list tx_event; sk_out : list Z }.

Abbreviation SK := (M sock).

(** [flags], as far as the loops look at them. *)
Record msg_flags := Flags { f_waitall : bool; f_dontwait : bool }.
Definition MSG_WAITALL : msg_flags := Flags true false.
Definition MSG_NONE : msg_flags := Flags false false.

(** [size ? size : s] *)
Definition or_size (size s : Z) : Z := if negb (size =? 0) then size else s.

(** ** Receiving *)

(** The loop of [hev_task_io_socket_recv]: the result, the bytes stored in the
    buffer and the events left. *)
Fixpoint recv_loop (fl : msg_flags) (len size : Z) (buf : list Z) (evs : list rx_event) :
    Z * list Z * list rx_event :=
  match evs with
  | [] | RxEof :: _ => (if f_waitall fl then or_size size 0 else 0, buf, evs)
  | RxErr :: evs => (if f_waitall fl then or_size size (-1) else -1, buf, evs)
  | RxAgain :: evs =>
    if f_dontwait fl then (if f_waitall fl then or_size size (-1) else -1, buf, evs)
    else recv_loop fl len size buf evs
  | RxTimeout :: evs =>
    if f_dontwait fl then (if f_waitall fl then or_size size (-1) else -1, buf, evs)
    else (or_size size (-2), buf, evs)
  | RxData bs :: evs =>
    let s := Z.min (len - size) (Z.of_nat (length bs)) in
    let got := take (Z.to_nat s) bs in
    let left := match drop (Z.to_nat s) bs with [] => evs | rest => RxData rest :: evs end in
    if negb (f_waitall fl) then (s, buf ++ got, left) else
    if s <=? 0 then (or_size size s, buf, left) else
    if size + s <? len then recv_loop fl len (size + s) (buf ++ got) evs
    else (size + s, buf ++ got, left)
  end.

(** The value returned and the bytes stored. *)
Definition hev_task_io_socket_recv (len : Z) (fl : msg_flags) : SK (Z * list Z) :=
  fun s => let '(r, buf, evs) := recv_loop fl len 0 [] (sk_rx s) in
           Some ((r, buf), Sock evs (sk_tx s) (sk_out s)).

(** ** Sending *)

Fixpoint send_loop (fl : msg_flags) (buf : list Z) (len size : Z) (out : list Z) (evs : list tx_event) :
    Z * list Z * list tx_event :=
  match evs with
  | [] => (if f_waitall fl then or_size (size + Z.of_nat (length buf)) 0 else Z.of_nat (length buf), out ++ buf, [])
  | TxErr :: evs => (if f_waitall fl then or_size size (-1) else -1, out, evs)
  | TxAgain :: evs =>
    if f_dontwait fl then (if f_waitall fl then or_size size (-1) else -1, out, evs)
    else send_loop fl buf len size out evs
  | TxTimeout :: evs =>
    if f_dontwait fl then (if f_waitall fl then or_size size (-1) else -1, out, evs)
    else (or_size size (-2), out, evs)
  | TxSome k :: evs =>
    let s := Z.max 0 (Z.min k (Z.of_nat (length buf))) in
    let out := out ++ take (Z.to_nat s) buf in
    if negb (f_waitall fl) then (s, out, evs) else
    if s <=? 0 then (or_size size s, out, evs) else
    if size + s <? len then send_loop fl (drop (Z.to_nat s) buf) len (size + s) out evs
    else (size + s, out, evs)
  end.

Definition hev_task_io_socket_send (buf : list Z) (fl : msg_flags) : SK Z :=
  fun s => let '(r, out, evs) := send_loop fl buf (Z.of_nat (length buf)) 0 (sk_out s) (sk_tx s) in
           Some (r, Sock (sk_rx s) evs out).

(** The vectors after [s] bytes were taken: the loop over [mh.msg_iov]. *)
Fixpoint iov_advance (s : Z) (iov : list (list Z)) : list (list Z) :=
  match iov with
  | [] => []
  | v :: iov' =>
    if s <? Z.of_nat (length v) then drop (Z.to_nat s) v :: iov'
    else iov_advance (s - Z.of_nat (length v)) iov'
  end.

(** The loop of [hev_task_io_socket_sendmsg] on its copy of the vectors. *)
Fixpoint sendmsg_loop (fl : msg_flags) (iov : list (list Z)) (len size : Z) (out : list Z) (evs : list tx_event) :
    Z * list Z * list tx_event :=
  match evs with
  | [] =>
    (if f_waitall fl then or_size (size + Z.of_nat (length (concat iov))) 0 else Z.of_nat (length (concat iov)),
     out ++ concat iov, [])
  | TxErr :: evs => (if f_waitall fl then or_size size (-1) else -1, out, evs)
  | TxAgain :: evs =>
    if f_dontwait fl then (if f_waitall fl then or_size size (-1) else -1, out, evs)
    else sendmsg_loop fl iov len size out evs
  | TxTimeout :: evs =>
    if f_dontwait fl then (if f_waitall fl then or_size size (-1) else -1, out, evs)
    else (or_size size (-2), out, evs)
  | TxSome k :: evs =>
    let s := Z.max 0 (Z.min k (Z.of_nat (length (concat iov)))) in
    let out := out ++ take (Z.to_nat s) (concat iov) in
    if negb (f_waitall fl) then (s, out, evs) else
    if s <=? 0 then (or_size size s, out, evs) else
    if size + s <? len then sendmsg_loop fl (iov_advance s iov) len (size + s) out evs
    else (size + s, out, evs)
  end.

Definition hev_task_io_socket_sendmsg (iov : list (list Z)) (fl : msg_flags) : SK Z :=
  fun s => let '(r, out, evs) := sendmsg_loop fl iov (Z.of_nat (length (concat iov))) 0 (sk_out s) (sk_tx s) in
           Some (r, Sock (sk_rx s) evs out).

(** ** Connecting *)

Fixpoint hev_task_io_socket_connect (evs : list cx_event) : Z :=
  match evs with
  | [] | CxOk :: _ => 0
  | CxInProgress :: evs => hev_task_io_socket_connect evs
  | CxTimeout :: _ => -2
  | CxIsConn :: _ => 0
  | CxErr :: _ => -1
  end.

(** ** Streams *)

(** The bytes that can still be received before the stream ends or fails, when
    the reader is willing to wait. *)
Fixpoint rx_stream (evs : list rx_event) : list Z :=
  match evs with
  | RxData bs :: evs => bs ++ rx_stream evs
  | RxAgain :: evs => rx_stream evs
  | _ => []
  end.

(** The kernel delivers bytes, and never zero of them from a stream that goes on. *)
Definition rx_ok (evs : list rx_event) : Prop :=
  Forall (fun e => match e with RxData bs => bs <> [] /\ bytes_ok bs | _ => True end) evs.

Lemma or_size_pos size s : 0 < size -> or_size size s = size.
Proof. intros H. unfold or_size. by rewrite (proj2 (Z.eqb_neq _ _)) by lia. Qed.

Lemma or_size_short size len z : 0 <= size < len -> z <= 0 -> or_size size z < len.
Proof. intros Hs Hz. unfold or_size. destruct (Z.eqb_spec size 0); simpl; lia. Qed.

(** Receiving with MSG_WAITALL: all the bytes asked for when the stream has them,
    and otherwise fewer; what is received is a prefix of the stream. *)
Lemma recv_loop_ok len size buf evs :
  rx_ok evs -> 0 <= size < len ->
  exists r got evs', recv_loop MSG_WAITALL len size buf evs = (r, buf ++ got, evs') /\ rx_ok evs' /\ bytes_ok got /\
    (if decide (len - size <= Z.of_nat (length (rx_stream evs)))
     then r = len /\ got ++ rx_stream evs' = rx_stream evs /\ Z.of_nat (length got) = len - size
     else r < len).
Proof.
  revert size buf. induction evs as [|ev evs IH]; intros size buf Hd Hs.
  - exists (or_size size 0), [], []. rewrite app_nil_r. split_and!; try done; [by apply Forall_nil|].
    rewrite decide_False by (simpl; lia). by apply or_size_short.
  - apply Forall_cons in Hd as [Hev Hd].
    destruct ev as [bs| | | |]; cbn [recv_loop rx_stream f_waitall f_dontwait MSG_WAITALL negb] in *.
    + destruct Hev as [Hbs Hby]. assert (0 < Z.of_nat (length bs)) as Hb0 by (destruct bs; simpl in *; [done|lia]).
      remember (Z.min (len - size) (Z.of_nat (length bs))) as s eqn:Es.
      rewrite (proj2 (Z.leb_gt s 0)) by lia. rewrite length_app, Nat2Z.inj_add.
      destruct (Z.ltb_spec (size + s) len) as [Hlt|Hge].
      * assert (s = Z.of_nat (length bs)) as -> by lia. rewrite Nat2Z.id, firstn_all.
        destruct (IH (size + Z.of_nat (length bs)) (buf ++ bs) Hd) as (r & got & evs' & -> & Hd' & Hg & Hr); [lia|].
        exists r, (bs ++ got), evs'. rewrite app_assoc. split_and!; try done; [by apply Forall_app|].
        case_decide; [rewrite decide_True by lia|by rewrite decide_False by lia].
        destruct Hr as (-> & <- & Hl). rewrite length_app, Nat2Z.inj_add, <-app_assoc. split_and!; [done..|lia].
      * assert (s = len - size) as -> by lia. eexists _, _, _. split; [done|]. split; [|split; [by apply Forall_take|]].
        { destruct (drop _ bs) eqn:Ed; [done|]. apply Forall_cons. split; [|done]. split; [done|].
          rewrite <-Ed. by apply Forall_drop. }
        rewrite decide_True by lia. split_and!; [lia| |rewrite length_take; lia].
        rewrite <-(take_drop (Z.to_nat (len - size)) bs) at 3.
        destruct (drop (Z.to_nat (len - size)) bs); simpl; by rewrite <-?app_assoc, ?app_nil_r.
    + by apply IH.
    + eexists _, [], _. rewrite app_nil_r. split_and!; [done|done|by apply Forall_nil|].
      rewrite decide_False by (simpl; lia). by apply or_size_short.
    + eexists _, [], _. rewrite app_nil_r. split_and!; [done|by apply Forall_cons|by apply Forall_nil|].
      rewrite decide_False by (simpl; lia). by apply or_size_short.
    + eexists _, [], _. rewrite app_nil_r. split_and!; [done|done|by apply Forall_nil|].
      rewrite decide_False by (simpl; lia). by apply or_size_short.
Qed.

(** Asking for nothing stores nothing. *)
Lemma recv_loop_zero buf evs :
  rx_ok evs -> exists r evs', recv_loop MSG_WAITALL 0 0 buf evs = (r, buf, evs') /\ rx_ok evs'.
Proof.
  revert buf. induction evs as [|ev evs IH]; intros buf Hok; simpl; [by eexists _, _|].
  pose proof Hok as Hok'. apply Forall_cons in Hok as [Hev Hok]. destruct ev as [bs| | | |].
  - rewrite Z.min_l by lia. simpl. rewrite drop_0. eexists _, _. split; [done|]. by destruct bs.
  - by apply IH.
  - by eexists _, _.
  - by eexists _, _.
  - by eexists _, _.
Qed.

(** ** Sending as a whole *)

(** A kernel that accepts what it is given sooner or later. *)
Definition tx_ok (evs : list tx_event) : Prop :=
  Forall (fun e => match e with TxSome k => 0 < k | TxAgain => True | _ => False end) evs.

Lemma send_loop_ok buf len size out evs :
  tx_ok evs -> 0 <= size -> len = size + Z.of_nat (length buf) -> 0 < len -> (0 < length buf)%nat ->
  exists evs', send_loop MSG_WAITALL buf len size out evs = (len, out ++ buf, evs') /\ tx_ok evs'.
Proof.
  revert buf size out. induction evs as [|ev evs IH]; intros buf size out Ht Hs Hl Hp Hb.
  - exists []. simpl. rewrite or_size_pos by lia. by subst len.
  - apply Forall_cons in Ht as [He Ht]. destruct ev as [k| | |]; try done; cbn [send_loop f_waitall f_dontwait MSG_WAITALL negb].
    + remember (Z.max 0 (Z.min k (Z.of_nat (length buf)))) as s eqn:Es.
      rewrite (proj2 (Z.leb_gt s 0)) by lia. destruct (Z.ltb_spec (size + s) len) as [Hlt|Hge].
      * destruct (IH (drop (Z.to_nat s) buf) (size + s) (out ++ take (Z.to_nat s) buf)) as (evs' & -> & Ht');
          [done|lia|rewrite length_drop; lia|done|rewrite length_drop; lia|].
        exists evs'. by rewrite <-app_assoc, take_drop.
      * exists evs. assert (s = Z.of_nat (length buf)) as -> by lia. rewrite Nat2Z.id, firstn_all. by subst len.
    + by apply IH.
Qed.

(** Whatever the kernel does, what was sent is a prefix, and a positive result is
    its length. *)
Lemma send_loop_prefix buf len size out evs r out' evs' :
  0 <= size -> send_loop MSG_WAITALL buf len size out evs = (r, out', evs') ->
  exists n, out' = out ++ take n buf /\ (0 < r -> r = size + Z.of_nat (length (take n buf))).
Proof.
  assert (forall size z, 0 <= size -> z <= 0 -> 0 < or_size size z -> or_size size z = size) as Hor.
  { intros sz z H1 H2. unfold or_size. destruct (Z.eqb_spec sz 0); simpl; lia. }
  revert buf size out. induction evs as [|ev evs IH]; intros buf size out Hs; simpl.
  - intros [= <- <- <-]. exists (length buf). rewrite firstn_all. split; [done|].
    unfold or_size. destruct (Z.eqb_spec (size + Z.of_nat (length buf)) 0); simpl; lia.
  - destruct ev as [k| | |]; simpl.
    + remember (Z.max 0 (Z.min k (Z.of_nat (length buf)))) as s eqn:Es.
      destruct (Z.leb_spec s 0) as [Hs0|Hs0].
      { intros [= <- <- <-]. exists 0%nat. assert (s = 0) as -> by lia. simpl. split; [done|].
        intros Hp. rewrite (Hor size 0) by (done || lia). lia. }
      destruct (Z.ltb_spec (size + s) len) as [Hlt|Hge].
      * intros Heq. apply IH in Heq as (n & -> & Hr); [|lia]. exists (Z.to_nat s + n)%nat.
        rewrite <-app_assoc. split; [f_equal; by rewrite take_take_drop|].
        intros Hp. rewrite (Hr Hp), !length_take, length_drop. lia.
      * intros [= <- <- <-]. exists (Z.to_nat s). split; [done|]. rewrite length_take. lia.
    + apply IH. done.
    + intros [= <- <- <-]. exists 0%nat. simpl. rewrite app_nil_r. split; [done|]. intros Hp.
      rewrite (Hor size (-2)) by (done || lia). lia.
    + intros [= <- <- <-]. exists 0%nat. simpl. rewrite app_nil_r. split; [done|]. intros Hp.
      rewrite (Hor size (-1)) by (done || lia). lia.
Qed.

(** ** Vectors *)

Lemma iov_advance_concat s iov :
  0 <= s -> concat (iov_advance s iov) = drop (Z.to_nat s) (concat iov).
Proof.
  revert s. induction iov as [|v iov IH]; intros s Hs; simpl; [by rewrite drop_nil|].
  destruct (Z.ltb_spec s (Z.of_nat (length v))) as [Hlt|Hge]; simpl.
  - by rewrite drop_app_le by lia.
  - rewrite IH by lia. rewrite drop_app_ge by lia. f_equal. lia.
Qed.

(** Sending a vector is sending its bytes. *)
Lemma sendmsg_send fl iov len size out evs :
  sendmsg_loop fl iov len size out evs = send_loop fl (concat iov) len size out evs.
Proof.
  revert iov size out. induction evs as [|ev evs IH]; intros iov size out; simpl; [done|].
  destruct ev as [k| | |]; simpl; [|by rewrite IH|done..].
  rewrite IH, iov_advance_concat by lia. done.
Qed.

(** ** The calls as seen by their callers *)

Lemma recv_ok n s :
  rx_ok (sk_rx s) -> 0 < n ->
  exists r got evs, hev_task_io_socket_recv n MSG_WAITALL s = Some ((r, got), Sock evs (sk_tx s) (sk_out s)) /\
    rx_ok evs /\ bytes_ok got /\
    (if decide (n <= Z.of_nat (length (rx_stream (sk_rx s))))
     then r = n /\ got ++ rx_stream evs = rx_stream (sk_rx s) /\ Z.of_nat (length got) = n
     else r < n).
Proof.
  intros Hrx Hn. destruct (recv_loop_ok n 0 [] (sk_rx s) Hrx) as (r & got & evs & Heq & Hok & Hg & Hr); [lia|].
  exists r, got, evs. unfold hev_task_io_socket_recv. rewrite Heq. rewrite Z.sub_0_r in Hr. done.
Qed.

(** The stream begins with [b], which is what is asked for. *)
Lemma recv_exact b rest s n :
  rx_ok (sk_rx s) -> rx_stream (sk_rx s) = b ++ rest -> n = Z.of_nat (length b) -> 0 < n ->
  exists evs, hev_task_io_socket_recv n MSG_WAITALL s = Some ((n, b), Sock evs (sk_tx s) (sk_out s)) /\
    rx_ok evs /\ rx_stream evs = rest.
Proof.
  intros Hrx Hst -> Hb. destruct (recv_ok (Z.of_nat (length b)) s Hrx Hb) as (r & got & evs & Heq & Hok & _ & Hr).
  rewrite Hst, length_app, decide_True in Hr by lia. destruct Hr as (-> & Happ & Hl).
  apply app_inj_1 in Happ as [-> <-]; [|lia]. by exists evs.
Qed.

Lemma send_ok buf s :
  tx_ok (sk_tx s) -> buf <> [] ->
  exists evs, hev_task_io_socket_send buf MSG_WAITALL s =
    Some (Z.of_nat (length buf), Sock (sk_rx s) evs (sk_out s ++ buf)) /\ tx_ok evs.
Proof.
  intros Ht Hb. assert (0 < length buf)%nat by (destruct buf; simpl; [done|lia]).
  destruct (send_loop_ok buf (Z.of_nat (length buf)) 0 (sk_out s) (sk_tx s)) as (evs & Heq & Ht'); [done|lia..|].
  exists evs. unfold hev_task_io_socket_send. by rewrite Heq.
Qed.

Lemma sendmsg_ok iov s :
  tx_ok (sk_tx s) -> concat iov <> [] ->
  exists evs, hev_task_io_socket_sendmsg iov MSG_WAITALL s =
    Some (Z.of_nat (length (concat iov)), Sock (sk_rx s) evs (sk_out s ++ concat iov)) /\ tx_ok evs.
Proof.
  intros Ht Hb. destruct (send_ok (concat iov) s Ht Hb) as (evs & Heq & Ht'). exists evs. split; [|done].
  unfold hev_task_io_socket_sendmsg. rewrite sendmsg_send. exact Heq.
Qed.

(** The call never fails, and a result equal to the length means a full buffer. *)
Lemma recv_total n s :
  rx_ok (sk_rx s) -> 0 <= n ->
  exists r got evs, hev_task_io_socket_recv n MSG_WAITALL s = Some ((r, got), Sock evs (sk_tx s) (sk_out s)) /\
    rx_ok evs /\ bytes_ok got /\ (r = n -> Z.of_nat (length got) = n).
Proof.
  intros Hrx Hn. destruct (decide (n = 0)) as [->|Hnz].
  - destruct (recv_loop_zero [] (sk_rx s) Hrx) as (r & evs & Heq & Hok). exists r, [], evs.
    unfold hev_task_io_socket_recv. rewrite Heq. split_and!; try done. by apply Forall_nil.
  - destruct (recv_ok n s Hrx) as (r & got & evs & Heq & Hok & Hg & Hr); [lia|].
    exists r, got, evs. split_and!; try done. intros ->. case_decide; [tauto|lia].
Qed.

Lemma send_total buf s :
  exists r evs out, hev_task_io_socket_send buf MSG_WAITALL s = Some (r, Sock (sk_rx s) evs out).
Proof. unfold hev_task_io_socket_send. destruct (send_loop _ _ _ _ _ _) as [[r out] evs]. by exists r, evs, out. Qed.

Lemma sendmsg_total iov s :
  exists r evs out, hev_task_io_socket_sendmsg iov MSG_WAITALL s = Some (r, Sock (sk_rx s) evs out).
Proof. unfold hev_task_io_socket_sendmsg. destruct (sendmsg_loop _ _ _ _ _ _) as [[r out] evs]. by exists r, evs, out. Qed.

(** The same for a client that only has to keep going. *)
Lemma wp_sock_recv n (Q : Z * list Z -> sock -> Prop) s :
  rx_ok (sk_rx s) -> 0 <= n ->
  (forall r got k, rx_ok (sk_rx k) -> bytes_ok got -> (r = n -> Z.of_nat (length got) = n) -> Q (r, got) k) ->
  wp (hev_task_io_socket_recv n MSG_WAITALL) Q s.
Proof.
  intros Hrx Hn HQ. destruct (recv_total n s Hrx Hn) as (r & got & evs & Heq & Hok & Hb & Hl).
  eapply wp_intro; [exact Heq|]. by apply HQ.
Qed.

Lemma wp_sock_send buf (Q : Z -> sock -> Prop) s :
  rx_ok (sk_rx s) -> (forall r k, rx_ok (sk_rx k) -> Q r k) -> wp (hev_task_io_socket_send buf MSG_WAITALL) Q s.
Proof.
  intros Hrx HQ. destruct (send_total buf s) as (r & evs & out & Heq). eapply wp_intro; [exact Heq|]. by apply HQ.
Qed.

Lemma wp_sock_sendmsg iov (Q : Z -> sock -> Prop) s :
  rx_ok (sk_rx s) -> (forall r k, rx_ok (sk_rx k) -> Q r k) -> wp (hev_task_io_socket_sendmsg iov MSG_WAITALL) Q s.
Proof.
  intros Hrx HQ. destruct (sendmsg_total iov s) as (r & evs & out & Heq). eapply wp_intro; [exact Heq|]. by apply HQ.
Qed.
