(* ===== verification/TaskMsg.v ===== *)
(** * Scattered reads and batches of datagrams (hev-task-io-socket.c)

    [recvmsg] into several buffers, and the calls that move several datagrams at
    once.  As in TaskSocket, the kernel is an oracle of events. *)

From S2P Require Import Prelude TaskSocket.

(** ** Scattered reads *)

Definition total (lens : list Z) : Z := foldr Z.add 0 lens.

(** The lengths left after [s] bytes were stored. *)
Fixpoint lens_advance (s : Z) (lens : list Z) : list Z :=
  match lens with
  | [] => []
  | n :: lens' => if s <? n then (n - s) :: lens' else lens_advance (s - n) lens'
  end.

(** The loop of [hev_task_io_socket_recvmsg], with the bytes stored so far in the
    order of the vectors. *)
Fixpoint recvmsg_loop (fl : msg_flags) (lens : list Z) (len size : Z) (buf : list Z) (evs : list rx_event) :
    Z * list Z * list rx_event :=
  match evs with
  | [] | RxEof :: _ => (if f_waitall fl then or_size size 0 else 0, buf, evs)
  | RxErr :: evs => (if f_waitall fl then or_size size (-1) else -1, buf, evs)
  | RxAgain :: evs =>
    if f_dontwait fl then (if f_waitall fl then or_size size (-1) else -1, buf, evs)
    else recvmsg_loop fl lens len size buf evs
  | RxTimeout :: evs =>
    if f_dontwait fl then (if f_waitall fl then or_size size (-1) else -1, buf, evs)
    else (or_size size (-2), buf, evs)
  | RxData bs :: evs =>
    let s := Z.min (total lens) (Z.of_nat (length bs)) in
    let got := take (Z.to_nat s) bs in
    let left := match drop (Z.to_nat s) bs with [] => evs | rest => RxData rest :: evs end in
    if negb (f_waitall fl) then (s, buf ++ got, left) else
    if s <=? 0 then (or_size size s, buf, left) else
    if size + s <? len then recvmsg_loop fl (lens_advance s lens) len (size + s) (buf ++ got) evs
    else (size + s, buf ++ got, left)
  end.

Definition hev_task_io_socket_recvmsg (lens : list Z) (fl : msg_flags) : SK (Z * list Z) :=
  fun s => let '(r, buf, evs) := recvmsg_loop fl lens (total lens) 0 [] (sk_rx s) in
           Some ((r, buf), Sock evs (sk_tx s) (sk_out s)).

(** Where the bytes go: each segment of a block takes its share. *)
Fixpoint scatter (blk : list Z) (segs : list (Z * Z)) (bs : list Z) : option (list Z) :=
  match segs with
  | [] => Some blk
  | (off, n) :: segs =>
    blk ← poke blk off (take (Z.to_nat n) bs);
    scatter blk segs (drop (Z.to_nat n) bs)
  end.

Lemma lens_advance_total s lens : 0 <= s <= total lens -> total (lens_advance s lens) = total lens - s.
Proof.
  revert s. induction lens as [|n lens IH]; intros s Hs; simpl in *; [lia|].
  destruct (Z.ltb_spec s n); simpl; [lia|]. rewrite IH; lia.
Qed.

(** Reading into vectors is reading as many bytes. *)
Lemma recvmsg_recv fl lens len size buf evs :
  0 <= total lens -> total lens = len - size ->
  recvmsg_loop fl lens len size buf evs = recv_loop fl len size buf evs.
Proof.
  revert lens size buf. induction evs as [|ev evs IH]; intros lens size buf Ht Hl; simpl; [done|].
  destruct ev as [bs| | | |]; simpl; try done.
  - rewrite Hl. repeat case_match; try done.
    match goal with H : (_ <=? 0) = false |- _ => apply Z.leb_gt in H end.
    rewrite IH; [done| |]; rewrite lens_advance_total; lia.
  - by rewrite IH.
Qed.

Lemma recvmsg_as_recv lens fl s :
  0 <= total lens -> hev_task_io_socket_recvmsg lens fl s = hev_task_io_socket_recv (total lens) fl s.
Proof.
  intros H. unfold hev_task_io_socket_recvmsg, hev_task_io_socket_recv.
  rewrite recvmsg_recv by lia. done.
Qed.

(** ** Datagrams *)

Section datagrams.
Context {A : Type}.

(** What [recvmmsg] finds: a batch, each datagram with the address of its sender. *)
Inductive drx_event := DrBatch (ds : list (A * list Z)) | DrAgain | DrTimeout | DrErr.

(** What [sendmmsg] does: accept up to [k] datagrams. *)
Inductive dtx_event := DtSome (k : Z) | DtAgain | DtTimeout | DtErr.

(** A datagram socket: the datagrams sent so far, each with its destination when it
    has one. *)
Record dsock := DSock { dk_rx : list drx_event; dk_tx : list dtx_event; dk_out : list (option A * list Z) }.

(** The loop of [hev_task_io_socket_recvmmsg]: up to [n] datagrams. *)
Fixpoint recvmmsg_loop (fl : msg_flags) (n c : Z) (acc : list (A * list Z)) (evs : list drx_event) :
    Z * list (A * list Z) * list drx_event :=
  match evs with
  | [] => (if f_waitall fl then or_size c (-1) else -1, acc, [])
  | DrErr :: evs => (if f_waitall fl then or_size c (-1) else -1, acc, evs)
  | DrAgain :: evs =>
    if f_dontwait fl then (if f_waitall fl then or_size c (-1) else -1, acc, evs)
    else recvmmsg_loop fl n c acc evs
  | DrTimeout :: evs =>
    if f_dontwait fl then (if f_waitall fl then or_size c (-1) else -1, acc, evs)
    else (or_size c (-2), acc, evs)
  | DrBatch ds :: evs =>
    let r := Z.min (n - c) (Z.of_nat (length ds)) in
    let got := take (Z.to_nat r) ds in
    let left := match drop (Z.to_nat r) ds with [] => evs | rest => DrBatch rest :: evs end in
    if negb (f_waitall fl) then (r, acc ++ got, left) else
    if r <=? 0 then (or_size c r, acc, left) else
    if c + r <? n then recvmmsg_loop fl n (c + r) (acc ++ got) evs
    else (c + r, acc ++ got, left)
  end.

Definition hev_task_io_socket_recvmmsg (n : Z) (fl : msg_flags) : M dsock (Z * list (A * list Z)) :=
  fun s => let '(r, ds, evs) := recvmmsg_loop fl n 0 [] (dk_rx s) in
           Some ((r, ds), DSock evs (dk_tx s) (dk_out s)).

(** The loop of [hev_task_io_socket_sendmmsg] on the datagrams not yet sent. *)
Fixpoint sendmmsg_loop {D} (fl : msg_flags) (msgs : list D) (n c : Z) (out : list D) (evs : list dtx_event) :
    Z * list D * list dtx_event :=
  match evs with
  | [] => (if f_waitall fl then or_size (c + Z.of_nat (length msgs)) 0 else Z.of_nat (length msgs), out ++ msgs, [])
  | DtErr :: evs => (if f_waitall fl then or_size c (-1) else -1, out, evs)
  | DtAgain :: evs =>
    if f_dontwait fl then (if f_waitall fl then or_size c (-1) else -1, out, evs)
    else sendmmsg_loop fl msgs n c out evs
  | DtTimeout :: evs =>
    if f_dontwait fl then (if f_waitall fl then or_size c (-1) else -1, out, evs)
    else (or_size c (-2), out, evs)
  | DtSome k :: evs =>
    let r := Z.max 0 (Z.min k (Z.of_nat (length msgs))) in
    let out := out ++ take (Z.to_nat r) msgs in
    if negb (f_waitall fl) then (r, out, evs) else
    if r <=? 0 then (or_size c r, out, evs) else
    if c + r <? n then sendmmsg_loop fl (drop (Z.to_nat r) msgs) n (c + r) out evs
    else (c + r, out, evs)
  end.

Definition hev_task_io_socket_sendmmsg (msgs : list (option A * list Z)) (fl : msg_flags) : M dsock Z :=
  fun s => let '(r, out, evs) := sendmmsg_loop fl msgs (Z.of_nat (length msgs)) 0 (dk_out s) (dk_tx s) in
           Some (r, DSock (dk_rx s) evs out).

(** What was sent is a prefix of the batch, and a positive result is its length. *)
Lemma sendmmsg_loop_prefix {D} (msgs : list D) n c out evs r out' evs' :
  0 <= c -> sendmmsg_loop MSG_WAITALL msgs n c out evs = (r, out', evs') ->
  exists j, out' = out ++ take j msgs /\ (0 < r -> r = c + Z.of_nat (length (take j msgs))).
Proof.
  assert (forall c z, 0 <= c -> z <= 0 -> 0 < or_size c z -> or_size c z = c) as Hor.
  { intros sz z H1 H2. unfold or_size. destruct (Z.eqb_spec sz 0); simpl; lia. }
  revert msgs c out. induction evs as [|ev evs IH]; intros msgs c out Hs; simpl.
  - intros [= <- <- <-]. exists (length msgs). rewrite firstn_all. split; [done|].
    unfold or_size. destruct (Z.eqb_spec (c + Z.of_nat (length msgs)) 0); simpl; lia.
  - destruct ev as [k| | |]; simpl.
    + remember (Z.max 0 (Z.min k (Z.of_nat (length msgs)))) as s eqn:Es.
      destruct (Z.leb_spec s 0) as [Hs0|Hs0].
      { intros [= <- <- <-]. exists 0%nat. assert (s = 0) as -> by lia. simpl. split; [done|].
        intros Hp. rewrite (Hor c 0) by (done || lia). lia. }
      destruct (Z.ltb_spec (c + s) n) as [Hlt|Hge].
      * intros Heq. apply IH in Heq as (j & -> & Hr); [|lia]. exists (Z.to_nat s + j)%nat.
        rewrite <-app_assoc. split; [f_equal; by rewrite take_take_drop|].
        intros Hp. rewrite (Hr Hp), !length_take, length_drop. lia.
      * intros [= <- <- <-]. exists (Z.to_nat s). split; [done|]. rewrite length_take. lia.
    + apply IH. done.
    + intros [= <- <- <-]. exists 0%nat. simpl. rewrite app_nil_r. split; [done|]. intros Hp.
      rewrite (Hor c (-2)) by (done || lia). lia.
    + intros [= <- <- <-]. exists 0%nat. simpl. rewrite app_nil_r. split; [done|]. intros Hp.
      rewrite (Hor c (-1)) by (done || lia). lia.
Qed.

(** A call that does not wait takes at most what it asked for. *)
Lemma recvmmsg_dontwait n evs :
  0 <= n ->
  exists r ds evs', recvmmsg_loop (Flags false true) n 0 [] evs = (r, ds, evs') /\ r <= n /\
    (0 <= r -> r = Z.of_nat (length ds)) /\ (r < 0 -> ds = []).
Proof.
  intros Hn. destruct evs as [|[ds| | |] evs]; simpl;
    eexists _, _, _; (split; [reflexivity|]); split_and!; rewrite ?length_take; try done; try lia.
Qed.

End datagrams.
Arguments drx_event : clear implicits.
Arguments dsock : clear implicits.
