(* ===== verification/Socks5Client.v ===== *)
(** * The SOCKS5 client (core/src/hev-socks5.c, hev-socks5-client.c, hev-socks5-client-tcp.c,
    hev-socks5-client-udp.c)

    The client object with its socket, and the messages it writes and reads
    during the handshake, standard and pipelined.  The outcome of every call the
    object makes outside (allocation, socket creation, binding, connecting,
    resolving) is part of an environment, so that the theorems quantify over
    it. *)

From S2P Require Import Prelude KeyedTree SocksAddr TaskSocket.

(** ** Constants *)

Definition HEV_SOCKS5_VERSION_5 : Z := 5.
Definition HEV_SOCKS5_AUTH_METHOD_NONE : Z := 0.
Definition HEV_SOCKS5_AUTH_METHOD_USER : Z := 2.
Definition HEV_SOCKS5_AUTH_METHOD_DENY : Z := 255.
Definition HEV_SOCKS5_AUTH_VERSION_1 : Z := 1.
Definition HEV_SOCKS5_REQ_CMD_CONNECT : Z := 1.
Definition HEV_SOCKS5_REQ_CMD_UDP_ASC : Z := 3.
Definition HEV_SOCKS5_REQ_CMD_FWD_UDP : Z := 5.
Definition HEV_SOCKS5_RES_REP_SUCC : Z := 0.
Definition HEV_SOCKS5_RES_REP_FAIL : Z := 1.
Definition HEV_SOCKS5_RES_REP_HOST : Z := 4.
Definition HEV_SOCKS5_RES_REP_IMPL : Z := 7.
Definition HEV_SOCKS5_RES_REP_ADDR : Z := 8.

(** [HevSocks5Type] *)
Inductive socks5_type := TYPE_NONE | TYPE_TCP | TYPE_UDP_IN_TCP | TYPE_UDP_IN_UDP.

#[global] Instance socks5_type_eq_dec : EqDecision socks5_type.
Proof. solve_decision. Defined.

(** ** The base object *)

(** [struct _HevSocks5] without its object header. *)
Record socks5 := Socks5 {
  s5_fd : Z; s5_timeout : Z; s5_type : socks5_type; s5_udp_associated : bool; s5_addr_family : Z
}.

Definition hev_socks5_get_timeout (s : socks5) : Z := s5_timeout s.

(** A timeout of zero marks a terminated session and stays. *)
Definition hev_socks5_set_timeout (timeout : Z) (s : socks5) : socks5 :=
  if negb (s5_timeout s =? 0)
  then Socks5 (s5_fd s) timeout (s5_type s) (s5_udp_associated s) (s5_addr_family s) else s.

Definition hev_socks5_get_addr_family (s : socks5) : Z := s5_addr_family s.

Definition hev_socks5_set_addr_family (family : Z) (s : socks5) : socks5 :=
  Socks5 (s5_fd s) (s5_timeout s) (s5_type s) (s5_udp_associated s) family.

Definition hev_socks5_construct (type : socks5_type) : socks5 :=
  Socks5 (-1) (-1) type false HEV_SOCKS5_ADDR_FAMILY_UNSPEC.

(** The file descriptors a destructor closes. *)
Definition hev_socks5_destruct (s : socks5) : list Z := if 0 <=? s5_fd s then [s5_fd s] else [].

(** ** The client *)

(** The timeouts of hev-socks5-misc.c. *)
Record timeouts := Timeouts { connect_timeout : Z; tcp_timeout : Z; udp_timeout : Z }.

(** What the outside answers: allocation, the new socket ([-1] on failure), the
    binder, [connect], the resolver. *)
Record cenv := CEnv {
  e_times : timeouts; e_malloc : bool; e_socket : Z; e_bind : Z; e_connect : list cx_event;
  e_pton4 : list Z -> option (list Z); e_pton6 : list Z -> option (list Z);
  e_gai : list Z -> Z -> option (Z * list Z)
}.

(** The class of the object: HevSocks5ClientTCP or HevSocks5ClientUDP. *)
Inductive client_class := ClientTCP | ClientUDP.

(** [cl_addr] is the destination of a TCP client and [cl_ufd] the datagram socket
    of a UDP client; [cl_live] counts the address blocks allocated and not freed,
    [cl_closed] lists the descriptors closed so far. *)
Record client := Client {
  cl_base : socks5; cl_class : client_class; cl_user : option (list Z); cl_pass : option (list Z);
  cl_addr : option (list Z); cl_ufd : Z; cl_sock : sock; cl_live : Z; cl_closed : list Z
}.

Abbreviation CM := (M client).

Definition with_base (f : socks5 -> socks5) (c : client) : client :=
  Client (f (cl_base c)) (cl_class c) (cl_user c) (cl_pass c) (cl_addr c) (cl_ufd c) (cl_sock c) (cl_live c) (cl_closed c).
Definition with_sock (s : sock) (c : client) : client :=
  Client (cl_base c) (cl_class c) (cl_user c) (cl_pass c) (cl_addr c) (cl_ufd c) s (cl_live c) (cl_closed c).
Definition with_addr (a : option (list Z)) (c : client) : client :=
  Client (cl_base c) (cl_class c) (cl_user c) (cl_pass c) a (cl_ufd c) (cl_sock c) (cl_live c) (cl_closed c).
Definition with_live (n : Z) (c : client) : client :=
  Client (cl_base c) (cl_class c) (cl_user c) (cl_pass c) (cl_addr c) (cl_ufd c) (cl_sock c) n (cl_closed c).
Definition with_ufd (fd : Z) (c : client) : client :=
  Client (cl_base c) (cl_class c) (cl_user c) (cl_pass c) (cl_addr c) fd (cl_sock c) (cl_live c) (cl_closed c).
Definition with_closed (fds : list Z) (c : client) : client :=
  Client (cl_base c) (cl_class c) (cl_user c) (cl_pass c) (cl_addr c) (cl_ufd c) (cl_sock c) (cl_live c) fds.

Definition on_sock {A} (c : SK A) : CM A := zoom cl_sock with_sock c.

(** ** Writing *)

Definition hev_socks5_client_write_auth_methods : CM Z :=
  let* user := gets cl_user in
  let* pass := gets cl_pass in
  let method :=
    match user, pass with
    | Some _, Some _ => HEV_SOCKS5_AUTH_METHOD_USER
    | _, _ => HEV_SOCKS5_AUTH_METHOD_NONE
    end in
  let* res := on_sock (hev_task_io_socket_send [HEV_SOCKS5_VERSION_5; 1; method] MSG_WAITALL) in
  if res <=? 0 then ret (-1) else ret 0.

(** The lengths are stored in bytes, and the vectors carry as many bytes. *)
Definition hev_socks5_client_write_auth_creds : CM Z :=
  let* user := gets cl_user in
  let* pass := gets cl_pass in
  match user, pass with
  | Some user, Some pass =>
    let ub1 := u8 (Z.of_nat (length user)) in
    let ub2 := u8 (Z.of_nat (length pass)) in
    let* res := on_sock (hev_task_io_socket_sendmsg
      [[HEV_SOCKS5_AUTH_VERSION_1; ub1]; take (Z.to_nat ub1) user; [ub2]; take (Z.to_nat ub2) pass] MSG_WAITALL) in
    if res <=? 0 then ret (-1) else ret 0
  | _, _ => ret 0
  end.

(** [klass->get_upstream_addr]: NULL is [None]. *)
Definition hev_socks5_client_tcp_get_upstream_addr : CM (option (list Z)) :=
  let* addr := gets cl_addr in
  modify (with_addr None);;
  ret addr.

Definition hev_socks5_client_udp_get_upstream_addr (e : cenv) : CM (option (list Z)) :=
  let* family := gets (fun c => hev_socks5_get_addr_family (cl_base c)) in
  let* live := gets cl_live in
  if family =? HEV_SOCKS5_ADDR_FAMILY_IPV4 then
    if e_malloc e then modify (with_live (live + 1));; ret (Some (HEV_SOCKS5_ADDR_TYPE_IPV4 :: replicate 6 0))
    else ret None
  else if family =? HEV_SOCKS5_ADDR_FAMILY_IPV6 then
    if e_malloc e then modify (with_live (live + 1));; ret (Some (HEV_SOCKS5_ADDR_TYPE_IPV6 :: replicate 18 0))
    else ret None
  else ret None.

Definition get_upstream_addr (e : cenv) : CM (option (list Z)) :=
  let* k := gets cl_class in
  match k with
  | ClientTCP => hev_socks5_client_tcp_get_upstream_addr
  | ClientUDP => hev_socks5_client_udp_get_upstream_addr e
  end.

Definition free_addr : CM unit := modify (fun c => with_live (cl_live c - 1) c).

Definition req_cmd (t : socks5_type) : option Z :=
  match t with
  | TYPE_TCP => Some HEV_SOCKS5_REQ_CMD_CONNECT
  | TYPE_UDP_IN_TCP => Some HEV_SOCKS5_REQ_CMD_FWD_UDP
  | TYPE_UDP_IN_UDP => Some HEV_SOCKS5_REQ_CMD_UDP_ASC
  | TYPE_NONE => None
  end.

Definition hev_socks5_client_write_request (e : cenv) : CM Z :=
  let* type := gets (fun c => s5_type (cl_base c)) in
  match req_cmd type with
  | None => ret (-1)
  | Some cmd =>
    let* addr := get_upstream_addr e in
    let* addr := lift_opt addr in
    let* atype := lift_opt (peek1 addr 0) in
    let* addrlen :=
      (if atype =? HEV_SOCKS5_ADDR_TYPE_IPV4 then ret (Some 7)
       else if atype =? HEV_SOCKS5_ADDR_TYPE_IPV6 then ret (Some 19)
       else if atype =? HEV_SOCKS5_ADDR_TYPE_NAME then
         let* len := lift_opt (peek1 addr 1) in ret (Some (4 + len))
       else ret None) in
    match addrlen with
    | None => ret (-1)
    | Some addrlen =>
      let* body := lift_opt (peek addr 0 addrlen) in
      let* r := on_sock (hev_task_io_socket_sendmsg [[HEV_SOCKS5_VERSION_5; cmd; 0]; body] MSG_WAITALL) in
      if r <=? 0 then ret (-1) else
      free_addr;;
      ret 0
    end
  end.

(** ** Reading *)

Definition hev_socks5_client_read_auth_method : CM Z :=
  let* (res, auth) := on_sock (hev_task_io_socket_recv 2 MSG_WAITALL) in
  if negb (res =? 2) then ret (-1) else
  let* ver := lift_opt (peek1 auth 0) in
  if negb (ver =? HEV_SOCKS5_VERSION_5) then ret (-1) else
  lift_opt (peek1 auth 1).

Definition hev_socks5_client_read_auth_creds : CM Z :=
  let* (r, res) := on_sock (hev_task_io_socket_recv 2 MSG_WAITALL) in
  if negb (r =? 2) then ret (-1) else
  let* ver := lift_opt (peek1 res 0) in
  if negb (ver =? HEV_SOCKS5_AUTH_VERSION_1) then ret (-1) else
  let* rep := lift_opt (peek1 res 1) in
  if negb (rep =? HEV_SOCKS5_RES_REP_SUCC) then ret (-1) else
  ret 0.

(** [hev_socks5_socket], [binder] and [connect] of a new socket, which is closed
    when a later step fails. *)
Definition close_fd (fd : Z) : CM unit := modify (fun c => with_closed (cl_closed c ++ [fd]) c).

Definition hev_socks5_client_tcp_set_upstream_addr : CM Z := ret 0.

Definition hev_socks5_client_udp_set_upstream_addr (e : cenv) (addr : list Z) : CM Z :=
  let* type := gets (fun c => s5_type (cl_base c)) in
  if negb (bool_decide (type = TYPE_UDP_IN_UDP)) then ret 0 else
  let* family := gets (fun c => hev_socks5_get_addr_family (cl_base c)) in
  let* (res, saddr, family) :=
    lift_opt (hev_socks5_addr_into_sockaddr6 (e_pton4 e) (e_pton6 e) (e_gai e) addr sockaddr_zero family) in
  if res <? 0 then ret (-1) else
  let fd := e_socket e in
  if fd <? 0 then ret (-1) else
  if e_bind e <? 0 then close_fd fd;; ret (-1) else
  if hev_task_io_socket_connect (e_connect e) <? 0 then close_fd fd;; ret (-1) else
  modify (with_base (fun b => Socks5 (s5_fd b) (s5_timeout b) (s5_type b) true (s5_addr_family b)));;
  modify (with_ufd fd);;
  ret 0.

Definition set_upstream_addr (e : cenv) (addr : list Z) : CM Z :=
  let* k := gets cl_class in
  match k with
  | ClientTCP => hev_socks5_client_tcp_set_upstream_addr
  | ClientUDP => hev_socks5_client_udp_set_upstream_addr e addr
  end.

Definition hev_socks5_client_read_response (e : cenv) : CM Z :=
  let* (r, res) := on_sock (hev_task_io_socket_recv 4 MSG_WAITALL) in
  if negb (r =? 4) then ret (-1) else
  let* ver := lift_opt (peek1 res 0) in
  if negb (ver =? HEV_SOCKS5_VERSION_5) then ret (-1) else
  let* rep := lift_opt (peek1 res 1) in
  if negb (rep =? HEV_SOCKS5_RES_REP_SUCC) then ret (-1) else
  let* atype := lift_opt (peek1 res 3) in
  let addrlen :=
    if atype =? HEV_SOCKS5_ADDR_TYPE_IPV4 then Some 6
    else if atype =? HEV_SOCKS5_ADDR_TYPE_IPV6 then Some 18 else None in
  match addrlen with
  | None => ret (-1)
  | Some addrlen =>
    let* (r, body) := on_sock (hev_task_io_socket_recv addrlen MSG_WAITALL) in
    if negb (r =? addrlen) then ret (-1) else
    let* r := set_upstream_addr e (atype :: body) in
    if r <? 0 then ret (-1) else ret 0
  end.

(** ** Connecting to the server *)

Definition hev_socks5_client_connect (e : cenv) (addr : list Z) (port : Z) : CM Z :=
  modify (with_base (hev_socks5_set_timeout (connect_timeout (e_times e))));;
  let* family := gets (fun c => hev_socks5_get_addr_family (cl_base c)) in
  let* (res, saddr, family) :=
    lift_opt (hev_socks5_name_into_sockaddr6 (e_pton4 e) (e_pton6 e) (e_gai e) addr port sockaddr_zero family) in
  if res <? 0 then ret (-1) else
  let fd := e_socket e in
  if fd <? 0 then ret (-1) else
  if e_bind e <? 0 then close_fd fd;; ret (-1) else
  if hev_task_io_socket_connect (e_connect e) <? 0 then close_fd fd;; ret (-1) else
  modify (with_base (fun b => Socks5 fd (s5_timeout b) (s5_type b) (s5_udp_associated b) (s5_addr_family b)));;
  modify (with_base (hev_socks5_set_addr_family family));;
  ret 0.

(** ** The handshake *)

Definition hev_socks5_client_handshake_standard (e : cenv) : CM Z :=
  let* res := hev_socks5_client_write_auth_methods in
  if res <? 0 then ret (-1) else
  let* res := hev_socks5_client_read_auth_method in
  if res <? 0 then ret (-1) else
  let* ok :=
    (if res =? HEV_SOCKS5_AUTH_METHOD_USER then
       let* res := hev_socks5_client_write_auth_creds in
       if res <? 0 then ret false else
       let* res := hev_socks5_client_read_auth_creds in
       if res <? 0 then ret false else ret true
     else ret (res =? HEV_SOCKS5_AUTH_METHOD_NONE)) in
  if negb ok then ret (-1) else
  let* res := hev_socks5_client_write_request e in
  if res <? 0 then ret (-1) else
  let* res := hev_socks5_client_read_response e in
  if res <? 0 then ret (-1) else
  ret 0.

Definition hev_socks5_client_handshake_pipeline (e : cenv) : CM Z :=
  let* res := hev_socks5_client_write_auth_methods in
  if res <? 0 then ret (-1) else
  let* res := hev_socks5_client_write_auth_creds in
  if res <? 0 then ret (-1) else
  let* res := hev_socks5_client_write_request e in
  if res <? 0 then ret (-1) else
  let* res := hev_socks5_client_read_auth_method in
  if res <? 0 then ret (-1) else
  let* ok :=
    (if res =? HEV_SOCKS5_AUTH_METHOD_USER then
       let* res := hev_socks5_client_read_auth_creds in
       if res <? 0 then ret false else ret true
     else ret (res =? HEV_SOCKS5_AUTH_METHOD_NONE)) in
  if negb ok then ret (-1) else
  let* res := hev_socks5_client_read_response e in
  if res <? 0 then ret (-1) else
  ret 0.

Definition hev_socks5_client_handshake (e : cenv) (pipeline : bool) : CM Z :=
  modify (with_base (hev_socks5_set_timeout (tcp_timeout (e_times e))));;
  let* res := (if pipeline then hev_socks5_client_handshake_pipeline e
               else hev_socks5_client_handshake_standard e) in
  let* type := gets (fun c => s5_type (cl_base c)) in
  (match type with
   | TYPE_UDP_IN_TCP | TYPE_UDP_IN_UDP => modify (with_base (hev_socks5_set_timeout (udp_timeout (e_times e))))
   | _ => ret tt
   end);;
  ret res.

Definition hev_socks5_client_set_auth (user pass : option (list Z)) : CM unit :=
  modify (fun c => Client (cl_base c) (cl_class c) user pass (cl_addr c) (cl_ufd c) (cl_sock c) (cl_live c) (cl_closed c)).

(** ** Construction and destruction *)

(** [None] is a failed construction; the address is copied with its own length.
    A negative length becomes, as a [size_t], more than any allocator serves. *)
Definition hev_socks5_client_tcp_construct (malloc : bool) (s : sock) (addr : list Z) : option (option client) :=
  len ← hev_socks5_addr_len addr;
  if negb malloc || (len <? 0) then Some None else
  a ← peek addr 0 len;
  Some (Some (Client (hev_socks5_construct TYPE_TCP) ClientTCP None None (Some a) (-1) s 1 [])).

Definition hev_socks5_client_udp_construct (s : sock) (type : socks5_type) : client :=
  Client (hev_socks5_construct type) ClientUDP None None None (-1) s 0 [].

Definition hev_socks5_client_tcp_destruct : CM unit :=
  let* addr := gets cl_addr in
  (match addr with Some _ => free_addr | None => ret tt end);;
  modify (fun c => with_closed (cl_closed c ++ hev_socks5_destruct (cl_base c)) c).

Definition hev_socks5_client_udp_destruct : CM unit :=
  let* ufd := gets cl_ufd in
  (when (0 <=? ufd) do close_fd ufd);;
  modify (fun c => with_closed (cl_closed c ++ hev_socks5_destruct (cl_base c)) c).

Definition hev_socks5_client_udp_get_fd (c : client) : Z :=
  match s5_type (cl_base c) with
  | TYPE_UDP_IN_TCP => s5_fd (cl_base c)
  | TYPE_UDP_IN_UDP => cl_ufd c
  | _ => -1
  end.
