(* ===== verification/Socks5Server.v ===== *)
(** * The SOCKS5 server (core/src/hev-socks5-server.c)

    The server side of the handshake: choosing the method, checking the
    credentials against the registry of users, reading the request, connecting
    or binding, answering.  The object keeps either the authenticator or, after a
    login, the user in the same word. *)

From S2P Require Import Prelude RBTree KeyedTree Authenticator SocksAddr TaskSocket Socks5Client.

(** ** State *)

(** The union of [obj], [user] and [auth]. *)
Inductive server_obj := ObjNone | ObjAuth | ObjUser (p : Z).

(** What the outside answers: the descriptors of the sockets created, the results
    of the option, of the two binders and of [connect], the names of the sockets,
    the resolver. *)
Record senv := SEnv {
  se_times : timeouts; se_socket1 : Z; se_socket2 : Z; se_reuse : Z; se_bind : Z; se_connect : list cx_event;
  se_tcpname : option sockaddr_in6; se_udpbind : Z; se_udpname : option sockaddr_in6;
  se_pton4 : list Z -> option (list Z); se_pton6 : list Z -> option (list Z);
  se_gai : list Z -> Z -> option (Z * list Z)
}.

(** [struct _HevSocks5Server] with its socket, the registry with its reference
    count, and the descriptors closed. *)
Record server := Server {
  sv_base : socks5; sv_fd0 : Z; sv_fd1 : Z; sv_obj : server_obj;
  sv_auth : auth; sv_auth_ref : Z; sv_sock : sock; sv_closed : list Z
}.

Abbreviation SM := (M server).

Definition upd_base (f : socks5 -> socks5) (s : server) : server :=
  Server (f (sv_base s)) (sv_fd0 s) (sv_fd1 s) (sv_obj s) (sv_auth s) (sv_auth_ref s) (sv_sock s) (sv_closed s).
Definition upd_fds (fd0 fd1 : Z) (s : server) : server :=
  Server (sv_base s) fd0 fd1 (sv_obj s) (sv_auth s) (sv_auth_ref s) (sv_sock s) (sv_closed s).
Definition upd_obj (o : server_obj) (s : server) : server :=
  Server (sv_base s) (sv_fd0 s) (sv_fd1 s) o (sv_auth s) (sv_auth_ref s) (sv_sock s) (sv_closed s).
Definition upd_auth (a : auth) (s : server) : server :=
  Server (sv_base s) (sv_fd0 s) (sv_fd1 s) (sv_obj s) a (sv_auth_ref s) (sv_sock s) (sv_closed s).
Definition upd_ref (n : Z) (s : server) : server :=
  Server (sv_base s) (sv_fd0 s) (sv_fd1 s) (sv_obj s) (sv_auth s) n (sv_sock s) (sv_closed s).
Definition upd_sock (k : sock) (s : server) : server :=
  Server (sv_base s) (sv_fd0 s) (sv_fd1 s) (sv_obj s) (sv_auth s) (sv_auth_ref s) k (sv_closed s).
Definition upd_closed (l : list Z) (s : server) : server :=
  Server (sv_base s) (sv_fd0 s) (sv_fd1 s) (sv_obj s) (sv_auth s) (sv_auth_ref s) (sv_sock s) l.

Definition on_io {A} (c : SK A) : SM A := zoom sv_sock upd_sock c.
Definition on_auth {A} (c : AM A) : SM A := zoom sv_auth upd_auth c.
Definition server_close (fd : Z) : SM unit := modify (fun s => upd_closed (sv_closed s ++ [fd]) s).

(** ** References *)

(** [hev_object_unref] of the authenticator clears the registry with the last
    reference. *)
Definition auth_unref : SM unit :=
  let* n := gets sv_auth_ref in
  modify (upd_ref (n - 1));;
  if 1 <? n then ret tt else on_auth hev_socks5_authenticator_clear.

Definition obj_unref (o : server_obj) : SM unit :=
  match o with
  | ObjNone => ret tt
  | ObjAuth => auth_unref
  | ObjUser p => on_auth (hev_object_unref p)
  end.

Definition hev_socks5_server_set_auth : SM unit :=
  let* o := gets sv_obj in
  obj_unref o;;
  modify (fun s => upd_ref (sv_auth_ref s + 1) s);;
  modify (upd_obj ObjAuth).

(** ** Authentication *)

(** [self->auth] is not NULL. *)
Definition has_auth (o : server_obj) : bool := match o with ObjNone => false | _ => true end.

Definition hev_socks5_server_read_auth_method : SM Z :=
  let* (res, a) := on_io (hev_task_io_socket_recv 2 MSG_WAITALL) in
  if negb (res =? 2) then ret (-1) else
  let* ver := lift_opt (peek1 a 0) in
  if negb (ver =? HEV_SOCKS5_VERSION_5) then ret (-1) else
  let* method_len := lift_opt (peek1 a 1) in
  let* (res, methods) := on_io (hev_task_io_socket_recv method_len MSG_WAITALL) in
  if negb (res =? method_len) then ret (-1) else
  let* o := gets sv_obj in
  let method := if has_auth o then HEV_SOCKS5_AUTH_METHOD_USER else HEV_SOCKS5_AUTH_METHOD_NONE in
  ret (if existsb (Z.eqb method) (take (Z.to_nat method_len) methods) then method else -1).

Definition hev_socks5_server_write_auth_method (auth_method : Z) : SM Z :=
  let* res := on_io (hev_task_io_socket_send [HEV_SOCKS5_VERSION_5; u8 auth_method] MSG_WAITALL) in
  if res <=? 0 then ret (-1) else ret 0.

(** The registry is asked through [self->auth], which has to be one. *)
Definition hev_socks5_server_read_auth_user : SM Z :=
  let* (res, hd) := on_io (hev_task_io_socket_recv 2 MSG_WAITALL) in
  if negb (res =? 2) then ret (-1) else
  let* ver := lift_opt (peek1 hd 0) in
  if negb (ver =? 1) then ret (-1) else
  let* nlen := lift_opt (peek1 hd 1) in
  if nlen =? 0 then ret (-1) else
  let* (res, name) := on_io (hev_task_io_socket_recv (nlen + 1) MSG_WAITALL) in
  if negb (res =? nlen + 1) then ret (-1) else
  let* plen := lift_opt (peek1 name nlen) in
  if plen =? 0 then ret (-1) else
  let* (res, pass) := on_io (hev_task_io_socket_recv plen MSG_WAITALL) in
  if negb (res =? plen) then ret (-1) else
  let* o := gets sv_obj in
  (match o with ObjAuth => ret tt | _ => fail end);;
  let* user := on_auth (hev_socks5_authenticator_get name nlen) in
  if user =? NULL then ret (-1) else
  let* u := on_auth (load_user user) in
  let* res := lift_opt (hev_socks5_user_checker u pass plen) in
  if res <? 0 then ret (-1) else
  on_auth (hev_object_ref user);;
  auth_unref;;
  modify (upd_obj (ObjUser user));;
  ret 0.

Definition hev_socks5_server_write_auth_user (auth_res : Z) : SM Z :=
  let* res := on_io (hev_task_io_socket_send [1; u8 auth_res] MSG_WAITALL) in
  if res <=? 0 then ret (-1) else ret 0.

Definition hev_socks5_server_auth : SM Z :=
  let* method := hev_socks5_server_read_auth_method in
  let* res := hev_socks5_server_write_auth_method method in
  if res <? 0 then ret (-1) else
  if method =? HEV_SOCKS5_AUTH_METHOD_NONE then ret 0
  else if method =? HEV_SOCKS5_AUTH_METHOD_USER then
    let* res := hev_socks5_server_read_auth_user in
    let* res2 := hev_socks5_server_write_auth_user res in
    if Z.lor res res2 <? 0 then ret (-1) else ret 0
  else ret (-1).

(** ** The request *)

(** The locals [cmd], [rep] and [addr] of the handshake after the call. *)
Definition hev_socks5_server_read_request (e : senv) (rep : Z) (addr : sockaddr_in6) :
    SM (Z * (option Z * Z * sockaddr_in6)) :=
  let* (res, req) := on_io (hev_task_io_socket_recv 5 MSG_WAITALL) in
  if negb (res =? 5) then ret (-1, (None, rep, addr)) else
  let* ver := lift_opt (peek1 req 0) in
  if negb (ver =? HEV_SOCKS5_VERSION_5) then ret (0, (None, HEV_SOCKS5_RES_REP_FAIL, addr)) else
  let* atype := lift_opt (peek1 req 3) in
  let* first := lift_opt (peek1 req 4) in
  let addrlen :=
    if atype =? HEV_SOCKS5_ADDR_TYPE_IPV4 then Some 5
    else if atype =? HEV_SOCKS5_ADDR_TYPE_IPV6 then Some 17
    else if atype =? HEV_SOCKS5_ADDR_TYPE_NAME then Some (2 + first) else None in
  match addrlen with
  | None => ret (0, (None, HEV_SOCKS5_RES_REP_ADDR, addr))
  | Some addrlen =>
    let* (res, body) := on_io (hev_task_io_socket_recv addrlen MSG_WAITALL) in
    if negb (res =? addrlen) then ret (0, (None, HEV_SOCKS5_RES_REP_ADDR, addr)) else
    let* family := gets (fun s => hev_socks5_get_addr_family (sv_base s)) in
    let* (res, addr, family) :=
      lift_opt (hev_socks5_addr_into_sockaddr6 (se_pton4 e) (se_pton6 e) (se_gai e) (atype :: first :: body) addr family) in
    if res <? 0 then ret (0, (None, HEV_SOCKS5_RES_REP_ADDR, addr)) else
    modify (upd_base (hev_socks5_set_addr_family family));;
    let* cmd := lift_opt (peek1 req 1) in
    ret (0, (Some cmd, rep, addr))
  end.

Definition hev_socks5_server_write_response (rep : Z) (addr : sockaddr_in6) : SM Z :=
  let* (body, len) := lift_opt (hev_socks5_addr_from_sockaddr6 (replicate sizeof_addr 0) addr) in
  let* body := lift_opt (peek body 0 len) in
  let* r := on_io (hev_task_io_socket_send ([HEV_SOCKS5_VERSION_5; u8 rep; 0] ++ body) MSG_WAITALL) in
  if r <=? 0 then ret (-1) else ret 0.

Definition hev_socks5_server_connect (e : senv) (addr : sockaddr_in6) : SM Z :=
  let fd := se_socket1 e in
  if fd <? 0 then ret (-1) else
  if se_bind e <? 0 then server_close fd;; ret (-1) else
  modify (upd_base (hev_socks5_set_timeout (connect_timeout (se_times e))));;
  if hev_task_io_socket_connect (se_connect e) <? 0 then server_close fd;; ret (-1) else
  modify (upd_base (hev_socks5_set_timeout (tcp_timeout (se_times e))));;
  modify (fun s => upd_fds fd (sv_fd1 s) s);;
  ret 0.

(** The binder of the class: the name of the control connection with a fresh
    port, and the address of the new socket. *)
Definition hev_socks5_server_udp_bind (e : senv) (src : sockaddr_in6) : Z * sockaddr_in6 :=
  match se_tcpname e with
  | None => (-1, src)
  | Some name =>
    let src := SockAddr6 (sin6_family name) 0 (sin6_addr name) in
    if se_udpbind e <? 0 then (-1, src) else
    match se_udpname e with
    | None => (-1, src)
    | Some src => (0, src)
    end
  end.

(** [addr] is NULL when the datagrams are forwarded in the control connection. *)
Definition hev_socks5_server_bind (e : senv) (addr : option sockaddr_in6) : SM (Z * option sockaddr_in6) :=
  let fd := se_socket1 e in
  if fd <? 0 then ret (-1, addr) else
  modify (fun s => upd_fds fd (sv_fd1 s) s);;
  match addr with
  | None => ret (0, None)
  | Some src =>
    let fd := se_socket2 e in
    if fd <? 0 then ret (-1, Some src) else
    if se_reuse e <? 0 then server_close fd;; ret (-1, Some src) else
    let '(res, src) := hev_socks5_server_udp_bind e src in
    if res <? 0 then server_close fd;; ret (-1, Some src) else
    modify (fun s => upd_fds (sv_fd0 s) fd s);;
    ret (0, Some src)
  end.

Definition set_type (t : socks5_type) (b : socks5) : socks5 :=
  Socks5 (s5_fd b) (s5_timeout b) t (s5_udp_associated b) (s5_addr_family b).

(** The switch on the command: the reply code and the address to announce. *)
Definition server_dispatch (e : senv) (cmd : Z) (addr : sockaddr_in6) : SM (Z * sockaddr_in6) :=
  if cmd =? HEV_SOCKS5_REQ_CMD_CONNECT then
    let* res := hev_socks5_server_connect e addr in
    modify (upd_base (set_type TYPE_TCP));;
    ret (if res <? 0 then HEV_SOCKS5_RES_REP_HOST else HEV_SOCKS5_RES_REP_SUCC, addr)
  else if cmd =? HEV_SOCKS5_REQ_CMD_UDP_ASC then
    let* (res, a) := hev_socks5_server_bind e (Some addr) in
    modify (upd_base (set_type TYPE_UDP_IN_UDP));;
    ret (if res <? 0 then HEV_SOCKS5_RES_REP_FAIL else HEV_SOCKS5_RES_REP_SUCC, default addr a)
  else if cmd =? HEV_SOCKS5_REQ_CMD_FWD_UDP then
    let* (res, a) := hev_socks5_server_bind e None in
    modify (upd_base (set_type TYPE_UDP_IN_TCP));;
    ret (if res <? 0 then HEV_SOCKS5_RES_REP_FAIL else HEV_SOCKS5_RES_REP_SUCC, addr)
  else ret (HEV_SOCKS5_RES_REP_IMPL, addr).

Definition hev_socks5_server_handshake (e : senv) : SM Z :=
  modify (upd_base (hev_socks5_set_timeout (tcp_timeout (se_times e))));;
  let* res := hev_socks5_server_auth in
  if res <? 0 then ret (-1) else
  let* (res, (cmd, rep, addr)) := hev_socks5_server_read_request e HEV_SOCKS5_RES_REP_SUCC sockaddr_zero in
  if res <? 0 then ret (-1) else
  let* (rep, addr) :=
    (if rep =? HEV_SOCKS5_RES_REP_SUCC then
       let* cmd := lift_opt cmd in server_dispatch e cmd addr
     else ret (rep, addr)) in
  let* res := hev_socks5_server_write_response rep addr in
  if (res <? 0) || negb (rep =? HEV_SOCKS5_RES_REP_SUCC) then ret (-1) else ret 0.

(** ** The service and the life of the object *)

(** Which splicer runs, and on which descriptor. *)
Inductive service := SpliceTCP (fd : Z) | SpliceUDP (fd : Z).

Definition hev_socks5_server_service (e : senv) : SM (Z * option service) :=
  let* type := gets (fun s => s5_type (sv_base s)) in
  let* fd := gets sv_fd0 in
  match type with
  | TYPE_TCP => ret (0, Some (SpliceTCP fd))
  | TYPE_UDP_IN_UDP | TYPE_UDP_IN_TCP =>
    modify (upd_base (hev_socks5_set_timeout (udp_timeout (se_times e))));;
    ret (0, Some (SpliceUDP fd))
  | TYPE_NONE => ret (-1, None)
  end.

Definition hev_socks5_server_run (e : senv) : SM (Z * option service) :=
  let* res := hev_socks5_server_handshake e in
  if res <? 0 then ret (-1, None) else
  let* (res, sv) := hev_socks5_server_service e in
  if res <? 0 then ret (-1, sv) else ret (0, sv).

Definition hev_socks5_server_get_fd (s : server) : Z :=
  match s5_type (sv_base s) with
  | TYPE_UDP_IN_TCP => s5_fd (sv_base s)
  | TYPE_UDP_IN_UDP => sv_fd1 s
  | _ => -1
  end.

Definition hev_socks5_server_construct (fd : Z) (k : sock) (a : auth) (ref : Z) : server :=
  Server (Socks5 fd (-1) TYPE_NONE false HEV_SOCKS5_ADDR_FAMILY_UNSPEC) (-1) (-1) ObjNone a ref k [].

Definition hev_socks5_server_destruct : SM unit :=
  let* fd0 := gets sv_fd0 in
  let* fd1 := gets sv_fd1 in
  (when (0 <=? fd0) do server_close fd0);;
  (when (0 <=? fd1) do server_close fd1);;
  let* o := gets sv_obj in
  obj_unref o;;
  modify (fun s => upd_closed (sv_closed s ++ hev_socks5_destruct (sv_base s)) s).
