(* ===== verification/Socks5Udp.v ===== *)
(** * UDP over SOCKS5 (core/src/hev-socks5-udp.c)

    Datagrams travel either framed in the control connection, each frame with its
    lengths, or as datagrams with a SOCKS5 header.  The two framings, the two
    parsers, and the loops that forward datagrams between a client and the
    outside. *)

From S2P Require Import Prelude SocksAddr TaskSocket TaskMsg Socks5Client.

Definition UDP_BUF_SIZE : Z := 1500.

(** ** State *)

(** [struct _HevSocks5UDPMsg] of a message to send: the memory at [addr] and at
    [buf], and [len]. *)
Record send_msg := SendMsg { sm_addr : list Z; sm_buf : list Z; sm_len : Z }.

(** The field [addr] of a message to receive: never assigned, NULL, or an offset in
    the block of the message. *)
Inductive addr_ptr := AddrUnset | AddrNull | AddrAt (off : Z).

#[global] Instance addr_ptr_eq_dec : EqDecision addr_ptr.
Proof. solve_decision. Defined.

(** The same structure of a message to receive: [buf] points [rm_off] bytes into
    its block. *)
Record recv_msg := RecvMsg { rm_block : list Z; rm_off : Z; rm_len : Z; rm_addr : addr_ptr }.

(** The object with its sockets: the control connection, the datagram socket of the
    association, and the socket to the outside. *)
Record udp := Udp {
  ud_base : socks5; ud_stream : sock; ud_dgram : dsock sockaddr_in6; ud_out : dsock sockaddr_in6; ud_bound : bool
}.

Abbreviation UM := (M udp).

Definition up_base (f : socks5 -> socks5) (u : udp) : udp := Udp (f (ud_base u)) (ud_stream u) (ud_dgram u) (ud_out u) (ud_bound u).
Definition up_stream (k : sock) (u : udp) : udp := Udp (ud_base u) k (ud_dgram u) (ud_out u) (ud_bound u).
Definition up_dgram (k : dsock sockaddr_in6) (u : udp) : udp := Udp (ud_base u) (ud_stream u) k (ud_out u) (ud_bound u).
Definition up_out (k : dsock sockaddr_in6) (u : udp) : udp := Udp (ud_base u) (ud_stream u) (ud_dgram u) k (ud_bound u).
Definition up_bound (u : udp) : udp := Udp (ud_base u) (ud_stream u) (ud_dgram u) (ud_out u) true.

Definition on_stream {A} (c : SK A) : UM A := zoom ud_stream up_stream c.
Definition on_dgram {A} (c : M (dsock sockaddr_in6) A) : UM A := zoom ud_dgram up_dgram c.
Definition on_out {A} (c : M (dsock sockaddr_in6) A) : UM A := zoom ud_out up_out c.

(** ** Waiting *)

(** [HevTaskYieldType] *)
Inductive yield_type := HEV_TASK_YIELD | HEV_TASK_WAITIO.

(** The yielder of every task: [slept] is what [hev_task_sleep] returns. *)
Definition hev_socks5_task_io_yielder (type : yield_type) (slept : Z) (s : socks5) : Z :=
  match type with
  | HEV_TASK_YIELD => 0
  | HEV_TASK_WAITIO => if s5_timeout s <? 0 then 0 else if slept <=? 0 then -1 else 0
  end.

(** What a peek at the control connection finds. *)
Inductive ctl_state := CtlData | CtlAgain | CtlClosed | CtlErr.

(** The yielder of this file also watches the control connection of a datagram
    association, and ends the session with it. *)
Definition task_io_yielder (type : yield_type) (ctl : ctl_state) (slept : Z) (s : socks5) : Z * socks5 :=
  match s5_type s, ctl with
  | TYPE_UDP_IN_UDP, CtlClosed | TYPE_UDP_IN_UDP, CtlErr => (-1, hev_socks5_set_timeout 0 s)
  | _, _ => (hev_socks5_task_io_yielder type slept s, s)
  end.

(** ** Sending *)

(** [htons] of a [size_t], the length byte, and the memory each vector points to. *)
Definition udp_hdr (datlen hdrlen : Z) : list Z := st16 datlen ++ [u8 hdrlen].

(** The loop that fills the vectors: base and length of each; [None] when an
    address has no length. *)
Fixpoint udp_tcp_iov (msgv : list send_msg) : option (option (list (list Z * Z))) :=
  match msgv with
  | [] => Some (Some [])
  | m :: msgv =>
    addrlen ← hev_socks5_addr_len (sm_addr m);
    if addrlen <=? 0 then Some None else
    rest ← udp_tcp_iov msgv;
    Some (match rest with
          | None => None
          | Some iov => Some ([(udp_hdr (htons (sm_len m)) (3 + addrlen), 3); (sm_addr m, addrlen); (sm_buf m, sm_len m)] ++ iov)
          end)
  end.

(** The bytes of the vectors. *)
Definition gather (iov : list (list Z * Z)) : option (list (list Z)) := mapM (fun v => peek v.1 0 v.2) iov.

Definition hev_socks5_udp_sendmmsg_tcp (msgv : list send_msg) : SK Z :=
  let* iov := lift_opt (udp_tcp_iov msgv) in
  match iov with
  | None => ret (-1)
  | Some iov =>
    let* iov := lift_opt (gather iov) in
    let* res := hev_task_io_socket_sendmsg iov MSG_WAITALL in
    if res <=? 0 then ret (-1) else ret (Z.of_nat (length msgv))
  end.

Fixpoint udp_udp_iov (msgv : list send_msg) : option (option (list (list (list Z * Z)))) :=
  match msgv with
  | [] => Some (Some [])
  | m :: msgv =>
    addrlen ← hev_socks5_addr_len (sm_addr m);
    if addrlen <=? 0 then Some None else
    rest ← udp_udp_iov msgv;
    Some (match rest with
          | None => None
          | Some mvec => Some ([(udp_hdr 0 0, 3); (sm_addr m, addrlen); (sm_buf m, sm_len m)] :: mvec)
          end)
  end.

Definition hev_socks5_udp_sendmmsg_udp (msgv : list send_msg) : M (dsock sockaddr_in6) Z :=
  let* mvec := lift_opt (udp_udp_iov msgv) in
  match mvec with
  | None => ret (-1)
  | Some mvec =>
    let* mvec := lift_opt (mapM gather mvec) in
    hev_task_io_socket_sendmmsg ((fun iov => (None, concat iov)) <$> mvec) MSG_WAITALL
  end.

Definition hev_socks5_udp_sendmmsg (msgv : list send_msg) : UM Z :=
  let* type := gets (fun u => s5_type (ud_base u)) in
  match type with
  | TYPE_UDP_IN_TCP => on_stream (hev_socks5_udp_sendmmsg_tcp msgv)
  | TYPE_UDP_IN_UDP => on_dgram (hev_socks5_udp_sendmmsg_udp msgv)
  | _ => ret (-1)
  end.

(** ** Receiving *)

Definition recv_flags (nonblock : bool) : msg_flags := Flags false nonblock.

(** The five bytes of a frame that come first; a short read is completed. *)
Definition udp_recv_head (nonblock : bool) : SK (Z * list Z) :=
  let* (res, h) := hev_task_io_socket_recv 5 (recv_flags nonblock) in
  if (0 <? res) && (res <? 5) then
    let* (res2, h2) := hev_task_io_socket_recv (5 - res) MSG_WAITALL in
    ret (res + res2, h ++ h2)
  else ret (res, h).

(** The loop of [hev_socks5_udp_recvmmsg_tcp]: the result, and the messages of the
    caller, those already handled first. *)
Fixpoint recvmmsg_tcp_loop (nonblock : bool) (rlen : Z) (fin msgv : list recv_msg) : SK (Z * list recv_msg) :=
  match msgv with
  | [] => ret (rlen, fin)
  | m :: rest =>
    let* (res, h) := udp_recv_head nonblock in
    if negb (res =? 5) then ret (if 0 <? rlen then rlen else res, fin ++ msgv) else
    let* d0 := lift_opt (peek1 h 0) in
    let* d1 := lift_opt (peek1 h 1) in
    let* hdrlen := lift_opt (peek1 h 2) in
    let* at_len := lift_opt (peek h 3 2) in
    if hdrlen <? 5 then ret (-1, fin ++ msgv) else
    let addrlen := hdrlen - 3 in
    let datlen := ntohs (ld16 d0 d1) in
    if u64 (rm_len m - addrlen) <? datlen then ret (-1, fin ++ msgv) else
    let* (res, bs) := hev_task_io_socket_recvmsg [addrlen - 2; datlen] MSG_WAITALL in
    let* blk := lift_opt (scatter (rm_block m) [(rm_off m + 2, addrlen - 2); (rm_off m + addrlen, datlen)] bs) in
    if negb (res =? addrlen - 2 + datlen) then
      ret (res, fin ++ RecvMsg blk (rm_off m) (rm_len m) (rm_addr m) :: rest)
    else
    let* blk := lift_opt (poke blk (rm_off m) at_len) in
    recvmmsg_tcp_loop nonblock (rlen + 1)
      (fin ++ [RecvMsg blk (rm_off m + addrlen) datlen (AddrAt (rm_off m))]) rest
  end.

Definition hev_socks5_udp_recvmmsg_tcp (nonblock : bool) (msgv : list recv_msg) : SK (Z * list recv_msg) :=
  recvmmsg_tcp_loop nonblock 0 [] msgv.

(** The kernel stores each datagram in the vector of its message, cut to the
    vector's length; the result is [msg_len]. *)
Definition store_dgram (m : recv_msg) (d : list Z) : option (recv_msg * Z) :=
  let d := take (Z.to_nat (rm_len m)) d in
  blk ← poke (rm_block m) (rm_off m) d;
  Some (RecvMsg blk (rm_off m) (rm_len m) (rm_addr m), Z.of_nat (length d)).

Fixpoint store_dgrams (msgv : list recv_msg) (ds : list (list Z)) : option (list recv_msg * list Z) :=
  match ds, msgv with
  | [], _ => Some (msgv, [])
  | d :: ds, m :: msgv =>
    '(m, n) ← store_dgram m d;
    '(rest, ns) ← store_dgrams msgv ds;
    Some (m :: rest, n :: ns)
  | _ :: _, [] => None
  end.

(** The loop over the datagrams received and their lengths: whether it ended, and
    the messages of the caller. *)
Fixpoint parse_dgrams (fin msgv : list recv_msg) (lens : list Z) : option (bool * list recv_msg) :=
  match lens, msgv with
  | [], _ => Some (true, fin ++ msgv)
  | _ :: _, [] => None
  | len :: lens, m :: rest =>
    addrlen ← hev_socks5_addr_len (drop (Z.to_nat (rm_off m) + 3) (rm_block m));
    if len <? 4 then
      parse_dgrams (fin ++ [RecvMsg (rm_block m) (rm_off m) 0 AddrNull]) rest lens
    else if addrlen <=? 0 then Some (false, fin ++ RecvMsg (rm_block m) (rm_off m) len (rm_addr m) :: rest) else
    let doff := 3 + addrlen in
    if len <? doff then Some (false, fin ++ RecvMsg (rm_block m) (rm_off m) len (rm_addr m) :: rest) else
    parse_dgrams (fin ++ [RecvMsg (rm_block m) (rm_off m + doff) (len - doff) (AddrAt (rm_off m + 3))]) rest lens
  end.

(** [conn] is the result of [connect] to the first sender, which ties the socket
    to it. *)
Definition hev_socks5_udp_recvmmsg_udp (conn : Z) (nonblock : bool) (msgv : list recv_msg) : UM (Z * list recv_msg) :=
  let* (res, ds) := on_dgram (hev_task_io_socket_recvmmsg (Z.of_nat (length msgv)) (recv_flags nonblock)) in
  if res <=? 0 then ret (res, msgv) else
  let* (msgv, lens) := lift_opt (store_dgrams msgv (snd <$> ds)) in
  let* assoc := gets (fun u => s5_udp_associated (ud_base u)) in
  if negb assoc && (conn <? 0) then ret (-1, msgv) else
  modify (up_base (fun b => Socks5 (s5_fd b) (s5_timeout b) (s5_type b) true (s5_addr_family b)));;
  let* (ok, msgv) := lift_opt (parse_dgrams [] msgv lens) in
  ret (if ok : bool then res else -1, msgv).

Definition hev_socks5_udp_recvmmsg (conn : Z) (nonblock : bool) (msgv : list recv_msg) : UM (Z * list recv_msg) :=
  let* type := gets (fun u => s5_type (ud_base u)) in
  match type with
  | TYPE_UDP_IN_TCP => on_stream (hev_socks5_udp_recvmmsg_tcp nonblock msgv)
  | TYPE_UDP_IN_UDP => hev_socks5_udp_recvmmsg_udp conn nonblock msgv
  | _ => ret (-1, msgv)
  end.

(** ** Forwarding *)

(** What the outside answers to one round of forwarding: [connect] of the
    association, the binder, whether [errno] is EAGAIN where no call of this round
    decides it, and the resolver. *)
Record uenv := UEnv {
  ue_conn : Z; ue_bind : Z; ue_stale : bool;
  ue_pton4 : list Z -> option (list Z); ue_pton6 : list Z -> option (list Z);
  ue_gai : list Z -> Z -> option (Z * list Z)
}.

(** [errno == EAGAIN] right after a receiving call that returned -1, given the
    events it found; an old value otherwise. *)
Definition rx_again (evs : list rx_event) (stale : bool) : bool :=
  match evs with
  | RxAgain :: _ | RxTimeout :: _ => true
  | RxErr :: _ => false
  | _ => stale
  end.

Definition drx_again {A} (evs : list (drx_event A)) (stale : bool) : bool :=
  match evs with
  | DrAgain :: _ | DrTimeout :: _ => true
  | DrErr :: _ => false
  | _ => stale
  end.

(** The same for [hev_socks5_udp_recvmmsg] on the socket of its type. *)
Definition recv_again (u : udp) (stale : bool) : bool :=
  match s5_type (ud_base u) with
  | TYPE_UDP_IN_TCP => rx_again (sk_rx (ud_stream u)) stale
  | TYPE_UDP_IN_UDP => drx_again (dk_rx (ud_dgram u)) stale
  | _ => stale
  end.

(** The structures on the stack of the caller, with the memory as it was. *)
Definition fresh_msgs (blks : list (list Z)) : list recv_msg :=
  (fun b => RecvMsg b 0 UDP_BUF_SIZE AddrUnset) <$> blks.

(** The memory at the address of a message: reading a field that was never assigned
    is a fault. *)
Definition msg_addr (m : recv_msg) : option (option (list Z)) :=
  match rm_addr m with
  | AddrUnset => None
  | AddrNull => Some None
  | AddrAt off => Some (Some (drop (Z.to_nat off) (rm_block m)))
  end.

(** The destinations and payloads of the first [n] messages; [None] inside when a
    message is refused. *)
Fixpoint forward_vec (e : uenv) (family : Z) (svec : list recv_msg) (n : nat) {struct n} :
    option (option (list (option sockaddr_in6 * list Z))) :=
  match n, svec with
  | O, _ => Some (Some [])
  | S _, [] => None
  | S n, m :: svec =>
    if rm_len m =? 0 then Some None else
    a ← msg_addr m;
    match a with
    | None => Some None
    | Some a =>
      '(r, sa, _) ← hev_socks5_addr_into_sockaddr6 (ue_pton4 e) (ue_pton6 e) (ue_gai e) a sockaddr_zero family;
      if r <? 0 then Some None else
      d ← peek (rm_block m) (rm_off m) (rm_len m);
      rest ← forward_vec e family svec n;
      Some (match rest with Some l => Some ((Some sa, d) :: l) | None => None end)
    end
  end.

(** From the client to the outside. *)
Definition hev_socks5_udp_fwd_f (e : uenv) (blks : list (list Z)) : UM Z :=
  let* again := gets (fun u => recv_again u (ue_stale e)) in
  let* (res, svec) := hev_socks5_udp_recvmmsg (ue_conn e) true (fresh_msgs blks) in
  if 0 <? res then
    let* family := gets (fun u => hev_socks5_get_addr_family (ud_base u)) in
    let* dvec := lift_opt (forward_vec e family svec (Z.to_nat res)) in
    match dvec with
    | None => ret (-1)
    | Some dvec =>
      let* bound := gets ud_bound in
      if negb bound && (ue_bind e <? 0) then ret (-1) else
      modify up_bound;;
      let* res := on_out (hev_task_io_socket_sendmmsg dvec MSG_WAITALL) in
      if res <=? 0 then ret (if (res =? -1) && ue_stale e then 0 else -1) else ret 1
    end
  else ret (if (res =? -1) && again then 0 else -1).

(** From the outside to the client; the buffers of the caller are as long as the
    largest datagram taken. *)
Definition hev_socks5_udp_fwd_b (e : uenv) (num : Z) (saddrs : list (list Z)) : UM Z :=
  let* again := gets (fun u => drx_again (dk_rx (ud_out u)) (ue_stale e)) in
  let* (res, ds) := on_out (hev_task_io_socket_recvmmsg num (recv_flags true)) in
  if 0 <? res then
    let* dvec := lift_opt (mapM (fun '(a, (from, d)) =>
      '(a, _) ← hev_socks5_addr_from_sockaddr6 a from;
      let d := take (Z.to_nat UDP_BUF_SIZE) d in
      Some (SendMsg a d (Z.of_nat (length d)))) (zip saddrs ds)) in
    let* res := hev_socks5_udp_sendmmsg dvec in
    if res <=? 0 then ret (if (res =? -1) && ue_stale e then 0 else -1) else ret 1
  else ret (if (res =? -1) && again then 0 else -1).

(** One round of the splicer: the answers of the outside to its two directions, the
    memory of its buffers, and what its yielder sees. *)
Record around := Round {
  ro_f : uenv; ro_b : uenv; ro_bufs : list (list Z); ro_saddrs : list (list Z); ro_ctl : ctl_state; ro_slept : Z
}.

(** The loop of [hev_socks5_udp_splicer] over the rounds that happen. *)
Fixpoint udp_splice_loop (rounds : list around) (res_f res_b : Z) : UM unit :=
  match rounds with
  | [] => ret tt
  | r :: rounds =>
    let* res_f := (if 0 <=? res_f then hev_socks5_udp_fwd_f (ro_f r) (ro_bufs r) else ret res_f) in
    let* res_b := (if 0 <=? res_b then hev_socks5_udp_fwd_b (ro_b r) (Z.of_nat (length (ro_saddrs r))) (ro_saddrs r) else ret res_b) in
    let next (type : yield_type) : UM unit :=
      let* (y, b) := gets (fun u => task_io_yielder type (ro_ctl r) (ro_slept r) (ud_base u)) in
      modify (up_base (fun _ => b));;
      if negb (y =? 0) then ret tt else udp_splice_loop rounds res_f res_b in
    if (0 <? res_f) || (0 <? res_b) then next HEV_TASK_YIELD
    else if Z.land res_f res_b =? 0 then next HEV_TASK_WAITIO
    else ret tt
  end.

(** [malloc]: whether the buffers could be allocated. *)
Definition hev_socks5_udp_splicer (malloc : bool) (rounds : list around) : UM Z :=
  if negb malloc then ret (-1) else
  udp_splice_loop rounds 1 1;;
  ret 0.
