(* ===== verification/AddrTheorems.v ===== *)
(** * Theorems on SOCKS5 addresses (hev-socks5-misc.c, hev-utils.c)

    Socket addresses, stack addresses and names survive the trip through the
    packed SOCKS5 address; resolution tries the numeric forms before the
    resolver; and the address the mapped DNS handed out becomes the name it
    stands for when a connection to it is made. *)

From S2P Require Import Prelude RBTree RBModel RBRep RBSpec KeyedTree HevList MappedDNS DnsMessage DnsTheorems SocksAddr.

(** ** Shared facts *)

(** The documented contract of the resolver functions: the number of bytes of an
    address. *)
Definition resolver_ok (inet_pton4 inet_pton6 : list Z -> option (list Z))
    (getaddrinfo : list Z -> Z -> option (Z * list Z)) : Prop :=
  (forall n b, inet_pton4 n = Some b -> length b = 4%nat) /\
  (forall n b, inet_pton6 n = Some b -> length b = 16%nat) /\
  (forall n f g b, getaddrinfo n f = Some (g, b) ->
     (g = AF_INET -> length b = 4%nat) /\ (g = AF_INET6 -> length b = 16%nat)).

Lemma poke_v4mapped a b :
  length a = 16%nat -> length b = 4%nat ->
  (a ← poke a 0 (replicate 10 0); a ← poke a 10 [255]; a ← poke a 11 [255]; poke a 12 b) =
  Some (v4mapped_prefix ++ b).
Proof.
  intros Ha Hb. destruct (block_split a 10) as (b1 & b2 & -> & Hb1 & Hb2); [lia|].
  rewrite Ha in Hb2. destruct b2 as [|c0 [|c1 b2]]; try done. simpl in Hb2.
  rewrite (poke_at _ _ _ [] b1 (c0 :: c1 :: b2)) by wire. cbn [mbind option_bind app].
  rewrite (poke_at _ _ _ (replicate 10 0) [c0] (c1 :: b2)) by wire. cbn [mbind option_bind].
  rewrite (poke_at _ _ _ (replicate 10 0 ++ [255]) [c1] b2) by wire. cbn [mbind option_bind].
  rewrite (poke_at _ _ _ v4mapped_prefix b2 []) by (unfold v4mapped_prefix; wire). by rewrite app_nil_r.
Qed.

(** What resolving a name gives, without the memory. *)
Definition resolve_spec (inet_pton4 inet_pton6 : list Z -> option (list Z))
    (getaddrinfo : list Z -> Z -> option (Z * list Z)) (name : list Z) (family : Z) : option (list Z * Z) :=
  match inet_pton4 name with
  | Some b => Some (v4mapped_prefix ++ b, AF_INET)
  | None =>
    match inet_pton6 name with
    | Some b => Some (b, AF_INET6)
    | None =>
      match getaddrinfo name family with
      | Some (g, b) =>
        if g =? AF_INET then Some (v4mapped_prefix ++ b, AF_INET)
        else if g =? AF_INET6 then Some (b, AF_INET6) else None
      | None => None
      end
    end
  end.

(** The block after the attempt at a numeric IPv4 address. *)
Lemma resolve_ipv4_run p4 name s :
  length (sin6_addr s) = 16%nat -> (forall b, p4 name = Some b -> length b = 4%nat) ->
  exists a, length a = 16%nat /\
    hev_socks5_name_resolve_ipv4 p4 name s =
    Some (match p4 name with
          | Some b => (0, SockAddr6 (sin6_family s) (sin6_port s) (v4mapped_prefix ++ b))
          | None => (-1, SockAddr6 (sin6_family s) (sin6_port s) a)
          end).
Proof.
  intros Hs Hp. unfold hev_socks5_name_resolve_ipv4.
  destruct (block_split (sin6_addr s) 10) as (b1 & b2 & Hb & Hb1 & Hb2); [lia|]. rewrite Hs in Hb2. rewrite Hb.
  rewrite (poke_at _ _ _ [] b1 b2) by wire. cbn [mbind option_bind app].
  exists (replicate 10 0 ++ b2). split; [rewrite length_app; simpl; lia|].
  destruct (p4 name) as [b|]; [|done]. specialize (Hp b eq_refl).
  destruct b2 as [|c0 [|c1 b2]]; try (simpl in *; lia).
  rewrite (poke_at _ _ _ (replicate 10 0 ++ [c0; c1]) b2 []) by wire. cbn [mbind option_bind]. rewrite app_nil_r.
  rewrite (poke_at _ _ _ (replicate 10 0) [c0] (c1 :: b)) by wire. cbn [mbind option_bind].
  by rewrite (poke_at _ _ _ (replicate 10 0 ++ [255]) [c1] b) by wire.
Qed.

Lemma name_into_ok p4 p6 gai name port s family :
  resolver_ok p4 p6 gai -> length (sin6_addr s) = 16%nat ->
  exists a, length a = 16%nat /\
  hev_socks5_name_into_sockaddr6 p4 p6 gai name port s family =
  Some (match resolve_spec p4 p6 gai name family with
        | Some (b, g) => (0, SockAddr6 AF_INET6 (htons port) b, g)
        | None => (-1, SockAddr6 AF_INET6 (htons port) a, family)
        end).
Proof.
  intros (H4 & H6 & Hg) Hs. unfold hev_socks5_name_into_sockaddr6, resolve_spec.
  destruct (resolve_ipv4_run p4 name (SockAddr6 AF_INET6 (htons port) (sin6_addr s)) Hs (H4 name)) as (a & Ha & ->).
  exists a. split; [done|]. cbn [mbind option_bind sin6_family sin6_port].
  destruct (p4 name) as [b|]; [done|]. change (-1 =? 0) with false. cbv iota.
  unfold hev_socks5_name_resolve_ipv6. destruct (p6 name) as [b|] eqn:E6.
  { cbn [mbind option_bind sin6_addr]. rewrite (poke_at _ _ _ [] a []) by (rewrite ?app_nil_r; rewrite ?(H6 _ _ E6); done).
    cbn [mbind option_bind app]. by rewrite app_nil_r. }
  cbn [mbind option_bind]. change (-1 =? 0) with false. cbv iota.
  unfold hev_socks5_name_resolve_name. destruct (gai name family) as [[g b]|] eqn:Eg; [|done].
  destruct (Hg _ _ _ _ Eg) as [Hg4 Hg6]. cbn [sin6_addr sin6_family sin6_port].
  destruct (Z.eqb_spec g AF_INET) as [->|].
  { pose proof (poke_v4mapped a b Ha (Hg4 eq_refl)) as Hp.
    destruct (poke a 0 _) as [a1|]; [|done]. cbn [mbind option_bind] in *.
    destruct (poke a1 10 _) as [a2|]; [|done]. cbn [mbind option_bind] in *.
    destruct (poke a2 11 _) as [a3|]; [|done]. cbn [mbind option_bind] in *.
    rewrite (peek_at b _ _ [] b []) by (rewrite ?app_nil_r, ?Hg4; done). cbn [mbind option_bind].
    by rewrite Hp. }
  destruct (Z.eqb_spec g AF_INET6) as [->|]; [|done].
  rewrite (peek_at b _ _ [] b []) by (rewrite ?app_nil_r, ?Hg6; done). cbn [mbind option_bind].
  rewrite (poke_at a _ _ [] a []) by (rewrite ?app_nil_r, ?Hg6; done). cbn [mbind option_bind app]. by rewrite app_nil_r.
Qed.

Lemma addr_len_enc s rest :
  length (sin6_addr s) = 16%nat ->
  hev_socks5_addr_len (enc_sockaddr s ++ rest) = Some (Z.of_nat (length (enc_sockaddr s))).
Proof.
  intros Hl. unfold hev_socks5_addr_len, enc_sockaddr. destruct (IN6_IS_ADDR_V4MAPPED _).
  - erewrite (peek1_at _ 0 HEV_SOCKS5_ADDR_TYPE_IPV4 []) by done. cbn [mbind option_bind]. rewrite Z.eqb_refl.
    unfold enc_ipv4. rewrite !length_app, length_drop, Hl. done.
  - erewrite (peek1_at _ 0 HEV_SOCKS5_ADDR_TYPE_IPV6 []) by done. cbn [mbind option_bind].
    change (HEV_SOCKS5_ADDR_TYPE_IPV6 =? HEV_SOCKS5_ADDR_TYPE_IPV4) with false. rewrite Z.eqb_refl. cbv iota.
    unfold enc_ipv6. rewrite !length_app, Hl. done.
Qed.

Lemma addr_len_name n port rest :
  hev_socks5_addr_len (enc_name n port ++ rest) = Some (4 + Z.of_nat (length n)).
Proof.
  unfold hev_socks5_addr_len. erewrite (peek1_at _ 0 HEV_SOCKS5_ADDR_TYPE_NAME []) by done. cbn [mbind option_bind].
  change (HEV_SOCKS5_ADDR_TYPE_NAME =? HEV_SOCKS5_ADDR_TYPE_IPV4) with false.
  change (HEV_SOCKS5_ADDR_TYPE_NAME =? HEV_SOCKS5_ADDR_TYPE_IPV6) with false. rewrite Z.eqb_refl. cbv iota.
  by erewrite (peek1_at _ 1 (Z.of_nat (length n)) [HEV_SOCKS5_ADDR_TYPE_NAME]) by done.
Qed.

Lemma htons_bound p : 0 <= htons p < 65536.
Proof. apply ntohs_bound, Z.mod_pos_bound. lia. Qed.

Lemma ntohs_htons p : 0 <= p < 65536 -> ntohs (htons p) = p.
Proof. intros Hp. unfold htons. rewrite u16_small by done. by apply ntohs_involutive. Qed.

(** ** The theorems *)

(** Every socket address survives the packed form: encoding it gives a block
    whose announced length is the one returned, and decoding the block gives the
    same family, port and address bytes back, with the family of a mapped IPv4
    address reported as IPv4, whatever the target held before. *)
Theorem addr_sockaddr_round_trip p4 p6 gai addr s saddr family :
  (19 <= length addr)%nat -> sockaddr_ok s -> sin6_family s = AF_INET6 -> length (sin6_addr saddr) = 16%nat ->
  exists addr' n, hev_socks5_addr_from_sockaddr6 addr s = Some (addr', n) /\
    hev_socks5_addr_len addr' = Some n /\
    hev_socks5_addr_into_sockaddr6 p4 p6 gai addr' saddr family = Some (0, s, family_of s).
Proof.
  intros Hl Hs Hf Hsa. destruct (from_sockaddr6_ok addr s Hl Hs) as (rest & Heq).
  exists (enc_sockaddr s ++ rest), (Z.of_nat (length (enc_sockaddr s))). split; [done|].
  split; [apply addr_len_enc, Hs|by apply into_sockaddr].
Qed.

Lemma addr_sockaddr_round_trip_witness :
  exists addr' n, hev_socks5_addr_from_sockaddr6 (replicate 19 7) (SockAddr6 10 80 (v4mapped_prefix ++ [1; 2; 3; 4])) = Some (addr', n) /\
    hev_socks5_addr_len addr' = Some n /\
    hev_socks5_addr_into_sockaddr6 (fun _ => None) (fun _ => None) (fun _ _ => None) addr' sockaddr_zero 0 =
    Some (0, SockAddr6 10 80 (v4mapped_prefix ++ [1; 2; 3; 4]), 2).
Proof.
  apply (addr_sockaddr_round_trip (fun _ => None) (fun _ => None) (fun _ _ => None) (replicate 19 7)
    (SockAddr6 10 80 (v4mapped_prefix ++ [1; 2; 3; 4])) sockaddr_zero 0); simpl; try done; lia.
Defined.

(** A name of at most 255 bytes is encoded exactly, with its length and port,
    and decoding resolves exactly that name and port: the numeric IPv4 form is
    tried first, then the numeric IPv6 form, then the resolver with the family
    asked for; a name that cannot be resolved gives -1. *)
Theorem addr_name_round_trip p4 p6 gai addr name port saddr family :
  resolver_ok p4 p6 gai -> length addr = sizeof_addr -> cstr name -> (length name <= 255)%nat ->
  0 <= port < 65536 -> length (sin6_addr saddr) = 16%nat ->
  exists rest a, hev_socks5_addr_from_name addr name (htons port) =
      Some (enc_name name (htons port) ++ rest, 4 + Z.of_nat (length name)) /\
    hev_socks5_addr_len (enc_name name (htons port) ++ rest) = Some (4 + Z.of_nat (length name)) /\
    hev_socks5_addr_into_sockaddr6 p4 p6 gai (enc_name name (htons port) ++ rest) saddr family =
    Some (match resolve_spec p4 p6 gai name family with
          | Some (b, g) => (0, SockAddr6 AF_INET6 (htons port) b, g)
          | None => (-1, SockAddr6 AF_INET6 (htons port) a, family)
          end).
Proof.
  intros Hr Hl Hn Hlen Hp Hs. pose proof (htons_bound port) as Hh.
  destruct (from_name_ok addr name (htons port)) as (rest & Heq & _); try done.
  destruct (name_into_ok p4 p6 gai name port saddr family Hr Hs) as (a & _ & Hinto).
  exists rest, a. split; [done|]. split; [apply addr_len_name|].
  rewrite into_name by done. by rewrite ntohs_htons.
Qed.

Lemma addr_name_round_trip_witness :
  exists rest a, hev_socks5_addr_from_name (replicate 260 9) [97; 46; 98] (htons 443) =
      Some (enc_name [97; 46; 98] (htons 443) ++ rest, 7) /\
    hev_socks5_addr_len (enc_name [97; 46; 98] (htons 443) ++ rest) = Some 7 /\
    hev_socks5_addr_into_sockaddr6 (fun _ => None) (fun _ => None) (fun _ _ => Some (2, [9; 8; 7; 6]))
      (enc_name [97; 46; 98] (htons 443) ++ rest) sockaddr_zero 0 =
    Some (match resolve_spec (fun _ => None) (fun _ => None) (fun _ _ => Some (2, [9; 8; 7; 6])) [97; 46; 98] 0 with
          | Some (b, g) => (0, SockAddr6 AF_INET6 (htons 443) b, g)
          | None => (-1, SockAddr6 AF_INET6 (htons 443) a, 0)
          end).
Proof.
  apply (addr_name_round_trip (fun _ => None) (fun _ => None) (fun _ _ => Some (2, [9; 8; 7; 6]))
    (replicate 260 9) [97; 46; 98] 443 sockaddr_zero 0); try done; [|by repeat constructor|simpl; lia].
  split; [done|]. split; [done|]. intros n f g b [= <- <-]. done.
Defined.

(** A name of 256 bytes or more is never encoded: strncpy leaves it without a
    final NUL, so that either the length is read beyond the block, or the length
    byte wraps around and the address announces a name of 0 or 1 bytes. *)
Theorem addr_name_too_long addr name port r :
  length addr = sizeof_addr -> cstr name -> (256 <= length name)%nat ->
  hev_socks5_addr_from_name addr name port = Some r -> r.2 = 4 \/ r.2 = 5.
Proof. apply from_name_long. Qed.

Lemma addr_name_too_long_witness :
  exists r, hev_socks5_addr_from_name (replicate 260 0) (replicate 300 97) 80 = Some r /\ (r.2 = 4 \/ r.2 = 5).
Proof.
  eexists. split; [vm_compute; reflexivity|].
  eapply (addr_name_too_long (replicate 260 0) (replicate 300 97) 80);
    [reflexivity|by apply (bool_decide_unpack _)|rewrite length_replicate; lia|vm_compute; reflexivity].
Defined.

(** ** Connections to mapped addresses *)

Lemma be32_value v tl :
  -2147483648 <= v < 2147483648 -> ntohl_bytes (be32 v ++ tl) = Some v.
Proof.
  intros Hv. unfold ntohl_bytes. rewrite (peek_at _ _ _ [] (be32 v) tl) by done. cbn [mbind option_bind be32].
  f_equal. assert (0 <= u32 v < 4294967296) as Hu by (apply Z.mod_pos_bound; lia).
  rewrite !Z.shiftr_div_pow2 by lia. unfold u8.
  change (2 ^ 24) with (256 * 256 * 256). change (2 ^ 16) with (256 * 256). change (2 ^ 8) with 256.
  rewrite <-!Z.div_div by lia. set (x := u32 v) in *.
  replace (((x / 256 / 256 / 256 mod 256 * 256 + x / 256 / 256 mod 256) * 256 + x / 256 mod 256) * 256 + x mod 256)
    with x.
  - unfold i32, x, u32. rewrite Zplus_mod_idemp_l, Z.mod_small by lia. lia.
  - rewrite (Z.mod_small (x / 256 / 256 / 256)).
    2:{ rewrite !Z.div_div by lia. split; [apply Z.div_pos; lia|apply Z.div_lt_upper_bound; lia]. }
    pose proof (Z.div_mod x 256). pose proof (Z.div_mod (x / 256) 256). pose proof (Z.div_mod (x / 256 / 256) 256). lia.
Qed.

Lemma lor_host net i k :
  Z.land net (2 ^ k - 1) = 0 -> 0 <= k -> 0 <= i < 2 ^ k -> Z.lor net i = net + i.
Proof.
  intros Hn Hk Hi. pose proof (Z.add_lor_land net i) as H.
  assert (Z.land net i = 0) as H0; [|lia].
  replace i with (Z.land (2 ^ k - 1) i).
  - by rewrite Z.land_assoc, Hn, Z.land_0_l.
  - replace (2 ^ k - 1) with (Z.ones k) by (rewrite Z.ones_equiv; lia).
    rewrite Z.land_comm, Z.land_ones by done. by apply Z.mod_small.
Qed.

Lemma from_lwip_name d d' addr ip tl port name :
  -2147483648 <= ip < 2147483648 -> hev_mapped_dns_lookup ip d = Some (Some name, d') ->
  length addr = sizeof_addr -> cstr name -> (length name <= 255)%nat ->
  exists rest, hev_socks5_addr_from_lwip true addr (IpAddr (be32 ip ++ tl) IPADDR_TYPE_V4) port d =
    Some ((enc_name name (htons port) ++ rest, 0), d').
Proof.
  intros Hip Hl Ha Hn Hlen. unfold hev_socks5_addr_from_lwip. cbn [ip_type ip_bytes]. rewrite Z.eqb_refl.
  destruct (from_name_ok addr name (htons port)) as (rest & Heq & _); try done; [apply htons_bound|].
  exists rest. erewrite bind_Some.
  2:{ erewrite bind_Some by (unfold lift_opt; by rewrite be32_value). exact Hl. }
  cbv iota. by erewrite bind_Some by (unfold lift_opt; by rewrite Heq).
Qed.

(** The mapped DNS works end to end.  A query for a name is answered with an
    address of the private network; a connection to the four address bytes of
    that answer is turned, through the cache, into a SOCKS5 request for exactly
    the queried name and the port of the connection, so the name is resolved by
    the proxy and not locally. *)
Theorem dns_answer_connects_by_name i0 i1 f0 f1 c0 c1 c2 c3 c4 c5 ls res d lru a k addr tl port :
  let q := dns_query i0 i1 f0 f1 [c0; c1; c2; c3; c4; c5] ls in
  Forall label_ok ls -> ls <> [] -> (length (dotted ls) <= 255)%nat -> byte_ok f0 -> byte_ok f1 ->
  md_inv d lru -> okp a -> a ∉ lru ->
  (length q + 16 <= length res)%nat -> Z.of_nat (length q) < 2147483648 ->
  Z.lnot (md_mask d) = 2 ^ k - 1 -> 0 <= k -> md_max d <= 2 ^ k - 1 -> Z.land (md_net d) (2 ^ k - 1) = 0 ->
  -2147483648 <= md_net d -> md_net d + 2 ^ k <= 2147483648 -> length addr = sizeof_addr ->
  exists ip d' q' rest d'' rest',
    hev_mapped_dns_handle (Z.of_nat (length q)) (Z.of_nat (length res)) (HSt q res d [(a, true)]) =
    Some (Z.of_nat (length q) + 16, HSt q' (dns_reply i0 i1 f0 f1 ls ip ++ rest) d' []) /\
    hev_socks5_addr_from_lwip true addr (IpAddr (be32 ip ++ tl) IPADDR_TYPE_V4) port d' =
    Some ((enc_name (dotted ls) (htons port) ++ rest', 0), d'').
Proof.
  intros q Hls Hne Hdl Hf0 Hf1 Hi Hok Ha Hlen Hmax Hmask Hk Hmx Hnet Hlo Hhi Hal.
  destruct (handle_reply i0 i1 f0 f1 c0 c1 c2 c3 c4 c5 ls res d lru a) as (i & d' & lru' & q' & rest & Hh & Hf & Hi' & Hsp); try done.
  assert (cstr (dotted ls)) as Hcs.
  { destruct ls as [|l ls]; [done|]. apply Forall_cons in Hls as [(_ & _ & ?) ?].
    apply Forall_app. split; [done|]. by apply cstr_dot_labels. }
  destruct (find_ok d lru a (dotted ls)) as (i2 & d2 & lru2 & Hf2 & _ & _ & _ & Hm & Hn & Hmk); try done.
  rewrite Hf in Hf2. symmetry in Hf2. simplify_eq.
  assert (0 <= i < md_max d) as Hir.
  { eapply (spec_find_range (md_max d) (dotted ls) (abs d lru)); [apply Hi|by apply abs_range|exact Hsp]. }
  destruct (lookup_mapped d' lru' (dotted ls) i (md_net d) k) as (d'' & lru'' & Hl & _); try done;
    [congruence|lia| |].
  { change (abs d' lru') with (spec_finds (md_max d) [] (abs d' lru')).
    eapply spec_finds_lookup; [apply Hi|exact Hsp|]. apply Hi. }
  destruct (from_lwip_name d' d'' addr (Z.lor (md_net d) i) tl port (dotted ls)) as (rest' & Heq); try done.
  { rewrite (lor_host _ _ k) by lia. lia. }
  exists (Z.lor (md_net d) i), d', q', rest, d'', rest'. done.
Qed.

Lemma dns_answer_connects_by_name_witness :
  let q := dns_query 18 52 1 0 [0; 0; 0; 0; 0; 0] [[97; 98]; [99]] in
  exists ip d' q' rest d'' rest',
    hev_mapped_dns_handle 22 40 (HSt q (replicate 40 0) sample_dns [(64, true)]) =
    Some (38, HSt q' (dns_reply 18 52 1 0 [[97; 98]; [99]] ip ++ rest) d' []) /\
    hev_socks5_addr_from_lwip true (replicate 260 7) (IpAddr (be32 ip ++ replicate 12 0) IPADDR_TYPE_V4) 443 d' =
    Some ((enc_name [97; 98; 46; 99] (htons 443) ++ rest', 0), d'').
Proof.
  apply (dns_answer_connects_by_name 18 52 1 0 0 0 0 0 0 0 [[97; 98]; [99]] (replicate 40 0) sample_dns [] 64 8
    (replicate 260 7) (replicate 12 0) 443); try done; try lia.
  - by repeat constructor.
  - simpl. lia.
  - exact sample_dns_inv.
  - apply not_elem_of_nil.
  - simpl. lia.
Defined.

(** An address of the network stack that has no name survives the trip
    through the packed form, IPv4 and IPv6 alike: decoding gives the same bytes,
    type and port; an address of another type is refused with -1 both ways. *)
Theorem addr_lwip_round_trip d addr b tl port old :
  length addr = sizeof_addr -> 0 <= port < 65536 -> length old = 16%nat ->
  (length b = 4%nat -> exists addr',
     hev_socks5_addr_from_lwip false addr (IpAddr (b ++ tl) IPADDR_TYPE_V4) port d = Some ((addr', 0), d) /\
     hev_socks5_addr_into_lwip addr' (IpAddr old 99) 0 =
       Some (IpAddr (b ++ drop 4 old) IPADDR_TYPE_V4, port, 0)) /\
  (length b = 16%nat -> exists addr',
     hev_socks5_addr_from_lwip false addr (IpAddr (b ++ tl) IPADDR_TYPE_V6) port d = Some ((addr', 0), d) /\
     hev_socks5_addr_into_lwip addr' (IpAddr old 99) 0 = Some (IpAddr b IPADDR_TYPE_V6, port, 0)) /\
  hev_socks5_addr_from_lwip false addr (IpAddr (b ++ tl) IPADDR_TYPE_ANY) port d = Some ((addr, -1), d).
Proof.
  intros Ha Hp Ho. pose proof (htons_bound port) as Hh. unfold sizeof_addr in Ha. split_and!; [| |done].
  - intros Hb. eexists. split.
    + unfold hev_socks5_addr_from_lwip. cbn [ip_type ip_bytes]. rewrite Z.eqb_refl. erewrite bind_Some by done. cbv iota.
      erewrite bind_Some by (unfold lift_opt; rewrite from_ipv4_ok by (done || rewrite ?length_app; lia); done). done.
    + replace (take 4 (b ++ tl)) with b by (by rewrite <-Hb, take_app_length). unfold hev_socks5_addr_into_lwip.
      erewrite (peek1_at _ 0 HEV_SOCKS5_ADDR_TYPE_IPV4 []) by wire. cbn [mbind option_bind]. rewrite Z.eqb_refl.
      rewrite (peek_at _ 1 4 [HEV_SOCKS5_ADDR_TYPE_IPV4] b (st16 (htons port) ++ drop 7 addr)) by wire. cbn [mbind option_bind ip_bytes].
      destruct (block_split old 4) as (o1 & o2 & -> & Ho1 & _); [lia|].
      rewrite (poke_at _ _ _ [] o1 o2) by wire. cbn [mbind option_bind].
      rewrite (peek16_at _ 5 ([HEV_SOCKS5_ADDR_TYPE_IPV4] ++ b) (drop 7 addr) (htons port)) by wire. cbn [mbind option_bind].
      rewrite ntohs_htons by done. rewrite <-Ho1, drop_app_length. done.
  - intros Hb. eexists. split.
    + unfold hev_socks5_addr_from_lwip. cbn [ip_type ip_bytes]. change (IPADDR_TYPE_V6 =? IPADDR_TYPE_V4) with false.
      rewrite Z.eqb_refl. cbv iota.
      erewrite bind_Some by (unfold lift_opt; rewrite from_ipv6_ok by (done || rewrite ?length_app; lia); done). done.
    + replace (take 16 (b ++ tl)) with b by (by rewrite <-Hb, take_app_length). unfold hev_socks5_addr_into_lwip.
      erewrite (peek1_at _ 0 HEV_SOCKS5_ADDR_TYPE_IPV6 []) by wire. cbn [mbind option_bind].
      change (HEV_SOCKS5_ADDR_TYPE_IPV6 =? HEV_SOCKS5_ADDR_TYPE_IPV4) with false. rewrite Z.eqb_refl. cbv iota.
      rewrite (peek_at _ 1 16 [HEV_SOCKS5_ADDR_TYPE_IPV6] b (st16 (htons port) ++ drop 19 addr)) by wire. cbn [mbind option_bind ip_bytes].
      rewrite (poke_at _ _ _ [] old []) by wire. cbn [mbind option_bind app].
      rewrite (peek16_at _ 17 ([HEV_SOCKS5_ADDR_TYPE_IPV6] ++ b) (drop 19 addr) (htons port)) by wire. cbn [mbind option_bind].
      rewrite ntohs_htons, app_nil_r by done. done.
Qed.

Lemma addr_lwip_round_trip_witness :
  exists addr',
    hev_socks5_addr_from_lwip false (replicate 260 7) (IpAddr ([10; 0; 0; 1] ++ replicate 12 0) IPADDR_TYPE_V4) 53 sample_dns =
      Some ((addr', 0), sample_dns) /\
    hev_socks5_addr_into_lwip addr' (IpAddr (replicate 16 3) 99) 0 =
      Some (IpAddr ([10; 0; 0; 1] ++ replicate 12 3) IPADDR_TYPE_V4, 53, 0).
Proof.
  apply (addr_lwip_round_trip sample_dns (replicate 260 7) [10; 0; 0; 1] (replicate 12 0) 53 (replicate 16 3)); done || lia.
Defined.
