(* ===== verification/Handshake.v ===== *)
(** * The two sides of the handshake

    Step lemmas: what each message routine of the client and of the server does
    to the two byte streams of its socket, when the stream holds what the
    protocol prescribes and the kernel keeps accepting bytes, whatever the
    chunks and delays; and, for the server, that no input at all makes it fault. *)

From S2P Require Import Prelude RBTree RBModel RBRep RBSpec KeyedTree Authenticator SocksAddr AddrTheorems TaskSocket Socks5Client Socks5Server.

(** ** Messages *)

Definition msg_methods (method : Z) : list Z := [HEV_SOCKS5_VERSION_5; 1; method].
Definition msg_method (method : Z) : list Z := [HEV_SOCKS5_VERSION_5; method].
Definition msg_creds (user pass : list Z) : list Z :=
  [HEV_SOCKS5_AUTH_VERSION_1; Z.of_nat (length user)] ++ user ++ [Z.of_nat (length pass)] ++ pass.
Definition msg_creds_res (r : Z) : list Z := [HEV_SOCKS5_AUTH_VERSION_1; r].
Definition msg_request (cmd : Z) (addr : list Z) : list Z := [HEV_SOCKS5_VERSION_5; cmd; 0] ++ addr.
Definition msg_response (rep : Z) (addr : list Z) : list Z := [HEV_SOCKS5_VERSION_5; rep; 0] ++ addr.

(** A complete address: as long as its type and length byte say. *)
Definition addr_wf (a : list Z) : Prop :=
  bytes_ok a /\ hev_socks5_addr_len a = Some (Z.of_nat (length a)) /\ a <> [].

(** ** Steps of the client *)

Definition stream_of (k : sock) : list Z := rx_stream (sk_rx k).

(** The socket works in both directions. *)
Definition sock_ready (k : sock) : Prop := rx_ok (sk_rx k) /\ tx_ok (sk_tx k).

(** [sent] went out and [got] came in. *)
Definition sock_step (k k' : sock) (sent got : list Z) : Prop :=
  sock_ready k' /\ sk_out k' = sk_out k ++ sent /\ stream_of k = got ++ stream_of k'.

Lemma sock_step_trans k1 k2 k3 s1 s2 g1 g2 :
  sock_step k1 k2 s1 g1 -> sock_step k2 k3 s2 g2 -> sock_step k1 k3 (s1 ++ s2) (g1 ++ g2).
Proof.
  intros (H1 & O1 & I1) (H2 & O2 & I2). split; [done|].
  rewrite O2, O1, I1, I2, !app_assoc. done.
Qed.

Lemma sock_step_refl k : sock_ready k -> sock_step k k [] [].
Proof. intros H. split; [done|]. by rewrite app_nil_r. Qed.

Lemma io_send buf k :
  sock_ready k -> buf <> [] ->
  exists k', hev_task_io_socket_send buf MSG_WAITALL k = Some (Z.of_nat (length buf), k') /\ sock_step k k' buf [].
Proof.
  intros [Hr Ht] Hb. destruct (send_ok buf k Ht Hb) as (evs & Heq & Ht').
  eexists. split; [exact Heq|]. by repeat split.
Qed.

Lemma io_sendmsg iov k :
  sock_ready k -> concat iov <> [] ->
  exists k', hev_task_io_socket_sendmsg iov MSG_WAITALL k = Some (Z.of_nat (length (concat iov)), k') /\
    sock_step k k' (concat iov) [].
Proof.
  intros [Hr Ht] Hb. destruct (sendmsg_ok iov k Ht Hb) as (evs & Heq & Ht').
  eexists. split; [exact Heq|]. by repeat split.
Qed.

Lemma io_recv b rest n k :
  sock_ready k -> stream_of k = b ++ rest -> n = Z.of_nat (length b) -> 0 < n ->
  exists k', hev_task_io_socket_recv n MSG_WAITALL k = Some ((n, b), k') /\ sock_step k k' [] b /\ stream_of k' = rest.
Proof.
  intros [Hr Ht] Hs Hn Hp. destruct (recv_exact b rest k n Hr Hs Hn Hp) as (evs & Heq & Hr' & Hrest).
  eexists. split; [exact Heq|]. unfold sock_step, stream_of, sock_ready in *. simpl.
  rewrite app_nil_r, Hs, Hrest. done.
Qed.

Lemma on_sock_run {A} (m : SK A) c a k : m (cl_sock c) = Some (a, k) -> on_sock m c = Some (a, with_sock k c).
Proof. intros H. unfold on_sock, zoom. by rewrite H. Qed.

Lemma on_io_run {A} (m : SK A) s a k : m (sv_sock s) = Some (a, k) -> on_io m s = Some (a, upd_sock k s).
Proof. intros H. unfold on_io, zoom. by rewrite H. Qed.

Definition method_of (user pass : option (list Z)) : Z :=
  match user, pass with Some _, Some _ => HEV_SOCKS5_AUTH_METHOD_USER | _, _ => HEV_SOCKS5_AUTH_METHOD_NONE end.

Lemma write_auth_methods_ok c :
  sock_ready (cl_sock c) ->
  exists k, hev_socks5_client_write_auth_methods c = Some (0, with_sock k c) /\
    sock_step (cl_sock c) k (msg_methods (method_of (cl_user c) (cl_pass c))) [].
Proof.
  intros Hr. destruct (io_send (msg_methods (method_of (cl_user c) (cl_pass c))) (cl_sock c) Hr) as (k & Heq & Hst); [done|].
  exists k. split; [|done]. unfold hev_socks5_client_write_auth_methods. do 2 (erewrite bind_Some by done).
  cbv zeta. fold (method_of (cl_user c) (cl_pass c)).
  by erewrite bind_Some by (apply on_sock_run; exact Heq).
Qed.

Lemma write_auth_creds_ok c u p :
  sock_ready (cl_sock c) -> cl_user c = Some u -> cl_pass c = Some p ->
  (length u <= 255)%nat -> (length p <= 255)%nat ->
  exists k, hev_socks5_client_write_auth_creds c = Some (0, with_sock k c) /\
    sock_step (cl_sock c) k (msg_creds u p) [].
Proof.
  intros Hr Hu Hp Hlu Hlp.
  destruct (io_sendmsg [[HEV_SOCKS5_AUTH_VERSION_1; Z.of_nat (length u)]; u; [Z.of_nat (length p)]; p] (cl_sock c) Hr)
    as (k & Heq & Hst); [done|].
  exists k. split.
  - unfold hev_socks5_client_write_auth_creds. do 2 (erewrite bind_Some by done). rewrite Hu, Hp.
    rewrite !u8_small by lia. rewrite !Nat2Z.id, !firstn_all.
    by erewrite bind_Some by (apply on_sock_run; exact Heq).
  - unfold msg_creds. simpl in *. by rewrite app_nil_r in Hst.
Qed.

(** Without credentials nothing is written. *)
Lemma write_auth_creds_none c :
  method_of (cl_user c) (cl_pass c) = HEV_SOCKS5_AUTH_METHOD_NONE ->
  hev_socks5_client_write_auth_creds c = Some (0, c).
Proof.
  unfold hev_socks5_client_write_auth_creds, method_of. intros H. do 2 (erewrite bind_Some by done).
  by destruct (cl_user c), (cl_pass c).
Qed.

Lemma addr_wf_len a :
  addr_wf a -> exists atype, peek1 a 0 = Some atype /\ peek a 0 (Z.of_nat (length a)) = Some a /\
    (atype = HEV_SOCKS5_ADDR_TYPE_IPV4 /\ length a = 7%nat \/
     atype = HEV_SOCKS5_ADDR_TYPE_IPV6 /\ length a = 19%nat \/
     atype = HEV_SOCKS5_ADDR_TYPE_NAME /\ exists len, peek1 a 1 = Some len /\ Z.of_nat (length a) = 4 + len).
Proof.
  intros (_ & Hl & Hne). unfold hev_socks5_addr_len in Hl. destruct (peek1 a 0) as [atype|] eqn:E; [|done].
  cbn [mbind option_bind] in Hl. exists atype. split; [done|].
  split; [apply (peek_at _ _ _ [] a []); [by rewrite app_nil_r|done..]|].
  destruct (Z.eqb_spec atype HEV_SOCKS5_ADDR_TYPE_IPV4); [left; simplify_eq; split; [done|lia]|].
  destruct (Z.eqb_spec atype HEV_SOCKS5_ADDR_TYPE_IPV6); [right; left; simplify_eq; split; [done|lia]|].
  destruct (Z.eqb_spec atype HEV_SOCKS5_ADDR_TYPE_NAME); [|simplify_eq; lia].
  right. right. split; [done|]. destruct (peek1 a 1) as [len|]; [|done]. cbn [mbind option_bind] in Hl.
  simplify_eq. eauto.
Qed.

(** The request of a TCP client, whatever the kernel does with it. *)
Lemma write_request_run e c a r k :
  cl_class c = ClientTCP -> s5_type (cl_base c) = TYPE_TCP -> cl_addr c = Some a -> addr_wf a ->
  hev_task_io_socket_sendmsg [[HEV_SOCKS5_VERSION_5; HEV_SOCKS5_REQ_CMD_CONNECT; 0]; a] MSG_WAITALL (cl_sock c) = Some (r, k) ->
  hev_socks5_client_write_request e c =
    Some (if r <=? 0 then (-1, with_addr None (with_sock k c))
          else (0, with_live (cl_live c - 1) (with_addr None (with_sock k c)))).
Proof.
  intros Hc Ht Ha Hwf Heq. destruct (addr_wf_len a Hwf) as (atype & H0 & Hbody & Hcase).
  unfold hev_socks5_client_write_request. erewrite bind_Some by done. rewrite Ht. cbn [req_cmd].
  erewrite bind_Some.
  2:{ unfold get_upstream_addr. erewrite bind_Some by done. rewrite Hc.
      unfold hev_socks5_client_tcp_get_upstream_addr. do 2 (erewrite bind_Some by done). reflexivity. }
  rewrite Ha. erewrite bind_Some by done. erewrite bind_Some by (unfold lift_opt; by rewrite H0).
  erewrite bind_Some.
  2:{ instantiate (1 := with_addr None c). instantiate (1 := Some (Z.of_nat (length a))).
      destruct Hcase as [[-> Hl]|[[-> Hl]|[-> (len & Hlen & Hl)]]].
      - by rewrite Hl.
      - by rewrite Hl.
      - change (HEV_SOCKS5_ADDR_TYPE_NAME =? HEV_SOCKS5_ADDR_TYPE_IPV4) with false.
        change (HEV_SOCKS5_ADDR_TYPE_NAME =? HEV_SOCKS5_ADDR_TYPE_IPV6) with false. rewrite Z.eqb_refl. cbv iota.
        erewrite bind_Some by (unfold lift_opt; by rewrite Hlen). by rewrite Hl. }
  cbv iota. erewrite bind_Some by (unfold lift_opt; by rewrite Hbody).
  erewrite bind_Some by (apply on_sock_run; exact Heq). by destruct (r <=? 0).
Qed.

(** A TCP client sends its destination once, and frees it. *)
Lemma write_request_tcp e c a :
  sock_ready (cl_sock c) -> cl_class c = ClientTCP -> s5_type (cl_base c) = TYPE_TCP ->
  cl_addr c = Some a -> addr_wf a ->
  exists k, hev_socks5_client_write_request e c =
      Some (0, with_live (cl_live c - 1) (with_addr None (with_sock k c))) /\
    sock_step (cl_sock c) k (msg_request HEV_SOCKS5_REQ_CMD_CONNECT a) [].
Proof.
  intros Hr Hc Ht Ha Hwf.
  destruct (io_sendmsg [[HEV_SOCKS5_VERSION_5; HEV_SOCKS5_REQ_CMD_CONNECT; 0]; a] (cl_sock c) Hr) as (k & Heq & Hst); [done|].
  exists k. split; [|unfold msg_request; simpl in *; by rewrite app_nil_r in Hst].
  rewrite (write_request_run e c a _ _ Hc Ht Ha Hwf Heq). rewrite (proj2 (Z.leb_gt _ 0)) by (simpl; lia). done.
Qed.

Lemma read_auth_method_ok c m rest :
  sock_ready (cl_sock c) -> stream_of (cl_sock c) = msg_method m ++ rest ->
  exists k, hev_socks5_client_read_auth_method c = Some (m, with_sock k c) /\
    sock_step (cl_sock c) k [] (msg_method m) /\ stream_of k = rest.
Proof.
  intros Hr Hs. destruct (io_recv (msg_method m) rest 2 (cl_sock c) Hr Hs) as (k & Heq & Hst); [done..|].
  exists k. split; [|done]. unfold hev_socks5_client_read_auth_method.
  by erewrite bind_Some by (apply on_sock_run; exact Heq).
Qed.

Lemma read_auth_creds_ok c r rest :
  sock_ready (cl_sock c) -> stream_of (cl_sock c) = msg_creds_res r ++ rest ->
  exists k, hev_socks5_client_read_auth_creds c = Some (if r =? 0 then 0 else -1, with_sock k c) /\
    sock_step (cl_sock c) k [] (msg_creds_res r) /\ stream_of k = rest.
Proof.
  intros Hr Hs. destruct (io_recv (msg_creds_res r) rest 2 (cl_sock c) Hr Hs) as (k & Heq & Hst); [done..|].
  exists k. split; [|done]. unfold hev_socks5_client_read_auth_creds.
  erewrite bind_Some by (apply on_sock_run; exact Heq).
  unfold lift_opt, bind. simpl. unfold HEV_SOCKS5_RES_REP_SUCC. by destruct (r =? 0).
Qed.

Lemma read_response_tcp e c sa rest :
  sock_ready (cl_sock c) -> cl_class c = ClientTCP -> length (sin6_addr sa) = 16%nat ->
  stream_of (cl_sock c) = msg_response HEV_SOCKS5_RES_REP_SUCC (enc_sockaddr sa) ++ rest ->
  exists k, hev_socks5_client_read_response e c = Some (0, with_sock k c) /\
    sock_step (cl_sock c) k [] (msg_response HEV_SOCKS5_RES_REP_SUCC (enc_sockaddr sa)) /\ stream_of k = rest.
Proof.
  intros Hr Hc Hl Hs. unfold hev_socks5_client_read_response.
  assert (exists atype body n, enc_sockaddr sa = atype :: body /\ n = Z.of_nat (length body) /\ 0 < n /\
    (if atype =? HEV_SOCKS5_ADDR_TYPE_IPV4 then Some 6
     else if atype =? HEV_SOCKS5_ADDR_TYPE_IPV6 then Some 18 else None) = Some n) as (atype & body & n & He & Hn & Hpos & Hty).
  { unfold enc_sockaddr. destruct (IN6_IS_ADDR_V4MAPPED _).
    - eexists _, _, 6. split; [done|]. split; [|done]. rewrite length_app, length_drop, Hl. done.
    - eexists _, _, 18. split; [done|]. split; [|done]. rewrite length_app, Hl. done. }
  rewrite He in *. unfold msg_response in *.
  destruct (io_recv [HEV_SOCKS5_VERSION_5; HEV_SOCKS5_RES_REP_SUCC; 0; atype] (body ++ rest) 4 (cl_sock c) Hr Hs)
    as (k1 & Heq1 & Hst1 & Hs1); [done..|].
  destruct (io_recv body rest n k1) as (k2 & Heq2 & Hst2 & Hs2); [apply Hst1|done..|].
  exists k2. split; [|split; [|done]].
  - erewrite bind_Some by (apply on_sock_run; exact Heq1).
    unfold lift_opt at 1 2 3. unfold bind at 1 2 3. simpl. rewrite Hty.
    erewrite bind_Some by (apply on_sock_run; exact Heq2). cbv beta iota. rewrite Z.eqb_refl. cbn [negb].
    unfold set_upstream_addr. erewrite bind_Some.
    2:{ erewrite bind_Some by done. simpl. rewrite Hc. reflexivity. }
    done.
  - exact (sock_step_trans _ _ _ _ _ _ _ Hst1 Hst2).
Qed.

(** ** The client as a whole *)

(** What a client sends and expects, by its credentials. *)
Definition creds_of (user pass : option (list Z)) : list Z :=
  match user, pass with Some u, Some p => msg_creds u p | _, _ => [] end.
Definition creds_res_of (user pass : option (list Z)) (r : Z) : list Z :=
  match user, pass with Some _, Some _ => msg_creds_res r | _, _ => [] end.

Definition creds_fit (user pass : option (list Z)) : Prop :=
  match user, pass with Some u, Some p => (length u <= 255)%nat /\ (length p <= 255)%nat | _, _ => True end.

(** The state after a successful handshake of a TCP client. *)
Definition client_done (e : cenv) (k : sock) (c : client) : client :=
  with_live (cl_live c - 1) (with_addr None (with_sock k (with_base (hev_socks5_set_timeout (tcp_timeout (e_times e))) c))).

Section client_run.
Context (e : cenv) (c : client) (a : list Z) (sa : sockaddr_in6) (rest : list Z).
Hypothesis Hready : sock_ready (cl_sock c).
Hypothesis Hclass : cl_class c = ClientTCP.
Hypothesis Htype : s5_type (cl_base c) = TYPE_TCP.
Hypothesis Haddr : cl_addr c = Some a.
Hypothesis Hwf : addr_wf a.
Hypothesis Hfit : creds_fit (cl_user c) (cl_pass c).
Hypothesis Hsa : length (sin6_addr sa) = 16%nat.
Hypothesis Hstream : stream_of (cl_sock c) =
  msg_method (method_of (cl_user c) (cl_pass c)) ++ creds_res_of (cl_user c) (cl_pass c) 0 ++
  msg_response HEV_SOCKS5_RES_REP_SUCC (enc_sockaddr sa) ++ rest.

Definition client_sent : list Z :=
  msg_methods (method_of (cl_user c) (cl_pass c)) ++ creds_of (cl_user c) (cl_pass c) ++
  msg_request HEV_SOCKS5_REQ_CMD_CONNECT a.

Lemma client_standard :
  exists k, hev_socks5_client_handshake_standard e c =
      Some (0, with_live (cl_live c - 1) (with_addr None (with_sock k c))) /\
    sk_out k = sk_out (cl_sock c) ++ client_sent /\ stream_of k = rest.
Proof.
  destruct (write_auth_methods_ok c Hready) as (k1 & E1 & R1 & O1 & I1).
  destruct (read_auth_method_ok (with_sock k1 c) (method_of (cl_user c) (cl_pass c))
    (creds_res_of (cl_user c) (cl_pass c) 0 ++ msg_response HEV_SOCKS5_RES_REP_SUCC (enc_sockaddr sa) ++ rest))
    as (k2 & E2 & (R2 & O2 & _) & S2); [done|by rewrite <-Hstream|].
  unfold hev_socks5_client_handshake_standard. erewrite bind_Some by exact E1. cbn [Z.ltb Z.compare].
  erewrite bind_Some by exact E2.
  assert (exists k3, (if method_of (cl_user c) (cl_pass c) =? HEV_SOCKS5_AUTH_METHOD_USER then
       let* res := hev_socks5_client_write_auth_creds in
       if res <? 0 then ret false else
       let* res := hev_socks5_client_read_auth_creds in
       if res <? 0 then ret false else ret true
     else ret (method_of (cl_user c) (cl_pass c) =? HEV_SOCKS5_AUTH_METHOD_NONE)) (with_sock k2 c) = Some (true, with_sock k3 c) /\
    sock_ready k3 /\ sk_out k3 = sk_out k2 ++ creds_of (cl_user c) (cl_pass c) /\
    stream_of k3 = msg_response HEV_SOCKS5_RES_REP_SUCC (enc_sockaddr sa) ++ rest) as (k3 & E3 & R3 & O3 & S3).
  { clear E1 E2. revert S2 Hfit. unfold method_of, creds_res_of, creds_of, creds_fit.
    destruct (cl_user c) as [u|] eqn:Eu, (cl_pass c) as [p|] eqn:Ep; intros S2 Hf;
      try (exists k2; rewrite app_nil_r; done).
    destruct (write_auth_creds_ok (with_sock k2 c) u p) as (k3 & E3 & R3 & O3 & I3); try done; [apply Hf..|].
    destruct (read_auth_creds_ok (with_sock k3 c) 0 (msg_response HEV_SOCKS5_RES_REP_SUCC (enc_sockaddr sa) ++ rest))
      as (k4 & E4 & (R4 & O4 & _) & S4); [done|by rewrite <-S2|].
    cbn [cl_sock with_sock] in O3, O4.
    exists k4. split; [|split; [done|]; rewrite O4, O3, app_nil_r; done].
    rewrite Z.eqb_refl. erewrite bind_Some by exact E3. cbn [Z.ltb Z.compare]. by erewrite bind_Some by exact E4. }
  assert ((method_of (cl_user c) (cl_pass c) <? 0) = false) as -> by (unfold method_of; by destruct (cl_user c), (cl_pass c)).
  erewrite bind_Some by exact E3. cbn [negb].
  destruct (write_request_tcp e (with_sock k3 c) a) as (k4 & E4 & R4 & O4 & I4); try done.
  erewrite bind_Some by exact E4. cbn [Z.ltb Z.compare].
  destruct (read_response_tcp e (with_live (cl_live c - 1) (with_addr None (with_sock k4 c))) sa rest)
    as (k5 & E5 & (R5 & O5 & _) & S5); try done; [by rewrite <-S3|].
  exists k5. split; [erewrite bind_Some by exact E5; done|]. split; [|done].
  cbn [cl_sock with_sock with_live with_addr] in *. rewrite O5, O4, O3, O2, O1. unfold client_sent.
  by rewrite !app_nil_r, !app_assoc.
Qed.

Lemma client_pipeline :
  exists k, hev_socks5_client_handshake_pipeline e c =
      Some (0, with_live (cl_live c - 1) (with_addr None (with_sock k c))) /\
    sk_out k = sk_out (cl_sock c) ++ client_sent /\ stream_of k = rest.
Proof.
  destruct (write_auth_methods_ok c Hready) as (k1 & E1 & R1 & O1 & I1).
  assert (exists k2, hev_socks5_client_write_auth_creds (with_sock k1 c) = Some (0, with_sock k2 c) /\
    sock_step k1 k2 (creds_of (cl_user c) (cl_pass c)) []) as (k2 & E2 & R2 & O2 & I2).
  { revert Hfit. unfold creds_of, creds_fit.
    destruct (cl_user c) as [u|] eqn:Eu, (cl_pass c) as [p|] eqn:Ep; intros Hf;
      try (exists k1; split; [|by apply sock_step_refl];
           rewrite write_auth_creds_none; [done|unfold method_of; cbn [with_sock cl_user cl_pass]; by rewrite Eu, ?Ep]).
    destruct Hf. destruct (write_auth_creds_ok (with_sock k1 c) u p) as (k2 & E2 & H2); try done. by exists k2. }
  destruct (write_request_tcp e (with_sock k2 c) a) as (k3 & E3 & R3 & O3 & I3); try done.
  destruct (read_auth_method_ok (with_live (cl_live c - 1) (with_addr None (with_sock k3 c))) (method_of (cl_user c) (cl_pass c))
    (creds_res_of (cl_user c) (cl_pass c) 0 ++ msg_response HEV_SOCKS5_RES_REP_SUCC (enc_sockaddr sa) ++ rest))
    as (k4 & E4 & (R4 & O4 & _) & S4); [done| |].
  { etransitivity; [|exact Hstream]. symmetry. rewrite I1. cbn [app]. rewrite I2. exact I3. }
  unfold hev_socks5_client_handshake_pipeline. erewrite bind_Some by exact E1. cbn [Z.ltb Z.compare].
  erewrite bind_Some by exact E2. cbn [Z.ltb Z.compare].
  erewrite bind_Some by exact E3. cbn [Z.ltb Z.compare].
  erewrite bind_Some by exact E4.
  assert ((method_of (cl_user c) (cl_pass c) <? 0) = false) as -> by (unfold method_of; by destruct (cl_user c), (cl_pass c)).
  set (c4 := with_sock k4 (with_live (cl_live c - 1) (with_addr None (with_sock k3 c)))).
  assert (exists k5, (if method_of (cl_user c) (cl_pass c) =? HEV_SOCKS5_AUTH_METHOD_USER then
       let* res := hev_socks5_client_read_auth_creds in
       if res <? 0 then ret false else ret true
     else ret (method_of (cl_user c) (cl_pass c) =? HEV_SOCKS5_AUTH_METHOD_NONE)) c4 = Some (true, with_sock k5 c4) /\
    sock_ready k5 /\ sk_out k5 = sk_out k4 /\
    stream_of k5 = msg_response HEV_SOCKS5_RES_REP_SUCC (enc_sockaddr sa) ++ rest) as (k5 & E5 & R5 & O5 & S5).
  { revert S4. unfold method_of, creds_res_of. destruct (cl_user c) as [u|] eqn:Eu, (cl_pass c) as [p|] eqn:Ep; intros S4;
      try (exists k4; done).
    destruct (read_auth_creds_ok c4 0 (msg_response HEV_SOCKS5_RES_REP_SUCC (enc_sockaddr sa) ++ rest))
      as (k5 & E5 & (R5 & O5 & _) & S5); [done|done|].
    cbn [cl_sock with_sock c4] in O5.
    exists k5. split; [|split; [done|]; rewrite O5, app_nil_r; done].
    rewrite Z.eqb_refl. by erewrite bind_Some by exact E5. }
  erewrite bind_Some by exact E5. cbn [negb].
  destruct (read_response_tcp e (with_sock k5 c4) sa rest) as (k6 & E6 & (R6 & O6 & _) & S6); try done.
  exists k6. split; [erewrite bind_Some by exact E6; done|]. split; [|done].
  cbn [cl_sock with_sock with_live with_addr c4] in *. rewrite O6, O5, O4, O3, O2, O1. unfold client_sent.
  by rewrite !app_nil_r, !app_assoc.
Qed.
End client_run.

(** Both handshakes of a TCP client with a server that accepts. *)
Lemma client_run_ok e c a sa rest pipeline :
  sock_ready (cl_sock c) -> cl_class c = ClientTCP -> s5_type (cl_base c) = TYPE_TCP -> cl_addr c = Some a -> addr_wf a ->
  creds_fit (cl_user c) (cl_pass c) -> length (sin6_addr sa) = 16%nat ->
  stream_of (cl_sock c) = msg_method (method_of (cl_user c) (cl_pass c)) ++ creds_res_of (cl_user c) (cl_pass c) 0 ++
    msg_response HEV_SOCKS5_RES_REP_SUCC (enc_sockaddr sa) ++ rest ->
  exists k, hev_socks5_client_handshake e pipeline c = Some (0, client_done e k c) /\
    sk_out k = sk_out (cl_sock c) ++ client_sent c a /\ stream_of k = rest.
Proof.
  intros Hcr Hcc Hct Hca Hwf Hfit Hsa Hcs. set (c0 := with_base (hev_socks5_set_timeout (tcp_timeout (e_times e))) c).
  assert (s5_type (cl_base c0) = TYPE_TCP) as Hct0 by (unfold c0, hev_socks5_set_timeout; simpl; by destruct (negb _)).
  assert (exists k, (if pipeline then hev_socks5_client_handshake_pipeline e else hev_socks5_client_handshake_standard e) c0 =
      Some (0, with_live (cl_live c0 - 1) (with_addr None (with_sock k c0))) /\
    sk_out k = sk_out (cl_sock c0) ++ client_sent c0 a /\ stream_of k = rest) as (k & Ec & Oc & Sc).
  { destruct pipeline; [by apply (client_pipeline e c0 a sa rest)|by apply (client_standard e c0 a sa rest)]. }
  exists k. split; [|done]. unfold hev_socks5_client_handshake. erewrite bind_Some by done. fold c0.
  erewrite bind_Some by exact Ec. erewrite bind_Some by done. cbn [cl_base with_live with_addr with_sock]. rewrite Hct0. done.
Qed.

(** ** Steps of the server *)

Definition server_method (o : server_obj) : Z :=
  if has_auth o then HEV_SOCKS5_AUTH_METHOD_USER else HEV_SOCKS5_AUTH_METHOD_NONE.

Lemma server_read_method_ok s ms rest :
  sock_ready (sv_sock s) -> (0 < length ms <= 255)%nat ->
  stream_of (sv_sock s) = [HEV_SOCKS5_VERSION_5; Z.of_nat (length ms)] ++ ms ++ rest ->
  exists k, hev_socks5_server_read_auth_method s =
      Some (if existsb (Z.eqb (server_method (sv_obj s))) ms then server_method (sv_obj s) else -1, upd_sock k s) /\
    sock_ready k /\ sk_out k = sk_out (sv_sock s) /\ stream_of k = rest.
Proof.
  intros Hr Hl Hs.
  destruct (io_recv [HEV_SOCKS5_VERSION_5; Z.of_nat (length ms)] (ms ++ rest) 2 (sv_sock s) Hr Hs) as (k1 & E1 & (R1 & O1 & _) & S1); [done..|].
  destruct (io_recv ms rest (Z.of_nat (length ms)) k1 R1 S1) as (k2 & E2 & (R2 & O2 & _) & S2); [done|lia|].
  exists k2. rewrite O2, O1, !app_nil_r. split_and!; try done.
  unfold hev_socks5_server_read_auth_method. erewrite bind_Some by (apply on_io_run; exact E1).
  unfold lift_opt, bind at 1 2. simpl.
  erewrite bind_Some by (apply on_io_run; exact E2). cbv beta iota. rewrite Z.eqb_refl. cbn [negb].
  by rewrite Nat2Z.id, firstn_all.
Qed.

Lemma server_write_ok s buf (m : SM Z) :
  (forall s, m s = (let* res := on_io (hev_task_io_socket_send buf MSG_WAITALL) in
                    if res <=? 0 then ret (-1) else ret 0) s) ->
  sock_ready (sv_sock s) -> buf <> [] ->
  exists k, m s = Some (0, upd_sock k s) /\
    sock_ready k /\ sk_out k = sk_out (sv_sock s) ++ buf /\ stream_of k = stream_of (sv_sock s).
Proof.
  intros Hm Hr Hb. destruct (io_send buf (sv_sock s) Hr Hb) as (k & E & (R & O & I)).
  exists k. split_and!; try done. rewrite Hm. erewrite bind_Some by (apply on_io_run; exact E).
  rewrite (proj2 (Z.leb_gt _ 0)); [done|]. destruct buf; [done|simpl; lia].
Qed.

(** The user a name and a password log in. *)
Definition login_user (a : auth) (reg : gmap (list Z) Z) (name pass : list Z) : option Z :=
  q ← reg !! name;
  u ← au_users a !! q;
  if decide (pass = user_pass u) then Some q else None.

(** Reference counts are far from wrapping around. *)
Definition refs_low (a : auth) : Prop := map_Forall (fun _ u => us_ref u < 4294967295) (au_users a).

Lemma object_ref_ok a reg p u :
  au_inv a reg -> au_users a !! p = Some u -> user_ok u -> us_ref u < 4294967295 ->
  exists a' u', hev_object_ref p a = Some (tt, a') /\ au_inv a' reg /\ au_users a' !! p = Some u' /\ 1 < us_ref u'.
Proof.
  intros (xs & Ht & Hs & Hall & Hreg) Hu (nm & pw & Hn & Hnl & Hp & Hpl & Hr) Hlow. unfold hev_object_ref.
  erewrite bind_Some by (unfold load_user; by rewrite Hu). eexists _, _. split; [done|].
  set (u' := User _ _ _ _ _). assert (us_ref u' = us_ref u + 1) as Href by (apply Z.mod_small; lia).
  split; [|split; [apply lookup_insert_eq|change (1 < us_ref u'); lia]].
  assert (forall q, user_key (<[p:=u']> (au_users a)) q = user_key (au_users a) q) as Hkey.
  { intros q. unfold user_key. destruct (decide (q = p)) as [->|Hne]; [|by rewrite lookup_insert_ne].
    by rewrite lookup_insert_eq, Hu. }
  exists xs. split_and!; simpl; try done.
  - eapply (sorted_by_ext (fun _ => True) name_cmp); [|exact Hs]. intros q _. apply Hkey.
  - intros q Hq. destruct (decide (q = p)) as [->|Hne]; [|rewrite lookup_insert_ne by done; auto].
    rewrite lookup_insert_eq. exists u'. split; [done|]. exists nm, pw. rewrite Href. split_and!; try done; lia.
  - intros nm' q. rewrite Hkey. apply Hreg.
Qed.

Lemma on_auth_run {A} (m : AM A) s x a : m (sv_auth s) = Some (x, a) -> on_auth m s = Some (x, upd_auth a s).
Proof. intros H. unfold on_auth, zoom. by rewrite H. Qed.

(** Dropping a reference to the authenticator: the registry may be emptied. *)
Lemma auth_unref_ok s reg :
  au_inv (sv_auth s) reg ->
  exists a n, auth_unref s = Some (tt, upd_ref n (upd_auth a s)) /\ (exists reg', au_inv a reg') /\
    (forall q u, au_users (sv_auth s) !! q = Some u -> 1 < us_ref u -> is_Some (au_users a !! q)).
Proof.
  intros Hi. unfold auth_unref. do 2 (erewrite bind_Some by done). destruct (1 <? sv_auth_ref s).
  - exists (sv_auth s), (sv_auth_ref s - 1). split; [by destruct s|eauto].
  - destruct (clear_ok (sv_auth s) reg Hi) as (a & Heq & Hi' & Hk).
    exists a, (sv_auth_ref s - 1). split; [|eauto].
    erewrite (on_auth_run _ (upd_ref (sv_auth_ref s - 1) s)) by exact Heq. done.
Qed.

(** The second half of the user check: the registry is asked. *)
Definition check_user (name pass : list Z) (nlen plen : Z) : SM Z :=
  let* o := gets sv_obj in
  (match o with ObjAuth => ret tt | _ => fail end);;
  let* user := on_auth (hev_socks5_authenticator_get name nlen) in
  if user =? NULL then ret (-1) else
  let* u := on_auth (load_user user) in
  let* res := lift_opt (hev_socks5_user_checker u pass plen) in
  if res <? 0 then ret (-1) else
  on_auth (hev_object_ref user);;
  auth_unref;;
  modify (upd_obj (ObjUser user));;
  ret 0.

Lemma check_user_ok s reg name pass nlen plen :
  au_inv (sv_auth s) reg -> refs_low (sv_auth s) -> sv_obj s = ObjAuth ->
  0 <= nlen <= Z.of_nat (length name) -> 0 <= plen <= Z.of_nat (length pass) ->
  match login_user (sv_auth s) reg (take (Z.to_nat nlen) name) (take (Z.to_nat plen) pass) with
  | Some q => exists a n, check_user name pass nlen plen s = Some (0, upd_obj (ObjUser q) (upd_ref n (upd_auth a s))) /\
                (exists reg', au_inv a reg') /\ is_Some (au_users a !! q)
  | None => check_user name pass nlen plen s = Some (-1, s)
  end.
Proof.
  intros Hi Hlow Ho Hn Hp. unfold check_user, login_user. erewrite bind_Some by done. rewrite Ho. erewrite bind_Some by done.
  erewrite bind_Some by (apply on_auth_run, get_ok; done).
  assert (upd_auth (sv_auth s) s = s) as -> by (by destruct s).
  destruct (reg !! take (Z.to_nat nlen) name) as [q|] eqn:Eq; cbn [mbind option_bind default]; [|done].
  destruct Hi as (xs & Hrep). pose proof Hrep as (Ht & Hs & Hall & Hreg). apply Hreg in Eq as [Hq Hk].
  pose proof (rb_tree_okp _ _ Ht) as Hok. rewrite Forall_forall in Hok. rewrite okp_eqb by auto.
  destruct (Hall q Hq) as (u & Hu & Huo). rewrite Hu. cbn [mbind option_bind]. change (id q) with q.
  erewrite bind_Some by (apply on_auth_run; unfold load_user; by rewrite Hu).
  assert (upd_auth (sv_auth s) s = s) as -> by (by destruct s).
  erewrite bind_Some by (unfold lift_opt; rewrite checker_ok by done; reflexivity).
  case_decide; [|done]. change (0 <? 0) with false. cbv iota.
  destruct (object_ref_ok (sv_auth s) reg q u) as (a1 & u' & E1 & Hi1 & Hu' & Href); try done; [by exists xs|by apply (Hlow q)|].
  erewrite bind_Some by (apply on_auth_run; exact E1).
  destruct (auth_unref_ok (upd_auth a1 s) reg Hi1) as (a2 & n & E2 & Hi2 & Hk2).
  erewrite bind_Some by exact E2. exists a2, n. split; [done|]. split; [exact Hi2|by eapply Hk2].
Qed.

Lemma read_auth_user_ok s reg u p rest :
  sock_ready (sv_sock s) -> au_inv (sv_auth s) reg -> refs_low (sv_auth s) -> sv_obj s = ObjAuth ->
  (0 < length u <= 255)%nat -> (0 < length p <= 255)%nat ->
  stream_of (sv_sock s) = msg_creds u p ++ rest ->
  exists k, sock_ready k /\ sk_out k = sk_out (sv_sock s) /\ stream_of k = rest /\
    match login_user (sv_auth s) reg u p with
    | Some q => exists a n, hev_socks5_server_read_auth_user s =
                    Some (0, upd_obj (ObjUser q) (upd_ref n (upd_auth a (upd_sock k s)))) /\
                  (exists reg', au_inv a reg') /\ is_Some (au_users a !! q)
    | None => hev_socks5_server_read_auth_user s = Some (-1, upd_sock k s)
    end.
Proof.
  intros Hr Hi Hlow Ho Hlu Hlp Hs. unfold msg_creds in Hs. rewrite <-!app_assoc in Hs.
  destruct (io_recv [HEV_SOCKS5_AUTH_VERSION_1; Z.of_nat (length u)] (u ++ [Z.of_nat (length p)] ++ p ++ rest) 2 (sv_sock s) Hr Hs)
    as (k1 & E1 & (R1 & O1 & _) & S1); [done..|].
  destruct (io_recv (u ++ [Z.of_nat (length p)]) (p ++ rest) (Z.of_nat (length u) + 1) k1 R1) as (k2 & E2 & (R2 & O2 & _) & S2);
    [by rewrite S1, <-!app_assoc|rewrite length_app; simpl; lia|lia|].
  destruct (io_recv p rest (Z.of_nat (length p)) k2 R2 S2) as (k3 & E3 & (R3 & O3 & _) & S3); [done|lia|].
  exists k3. rewrite O3, O2, O1, !app_nil_r. split_and!; try done.
  pose proof (check_user_ok (upd_sock k3 (upd_sock k2 (upd_sock k1 s))) reg (u ++ [Z.of_nat (length p)]) p
    (Z.of_nat (length u)) (Z.of_nat (length p)) Hi Hlow Ho) as Hchk.
  rewrite !Nat2Z.id, take_app_length, firstn_all in Hchk.
  assert (hev_socks5_server_read_auth_user s =
    check_user (u ++ [Z.of_nat (length p)]) p (Z.of_nat (length u)) (Z.of_nat (length p)) (upd_sock k3 s)) as ->.
  { unfold hev_socks5_server_read_auth_user. erewrite bind_Some by (apply on_io_run; exact E1).
    unfold lift_opt at 1 2. unfold bind at 1 2. simpl.
    rewrite (proj2 (Z.eqb_neq (Z.of_nat (length u)) 0)) by lia.
    erewrite bind_Some by (apply on_io_run; exact E2). cbv beta iota. rewrite Z.eqb_refl. cbn [negb].
    erewrite bind_Some by (unfold lift_opt; rewrite (peek1_at _ _ (Z.of_nat (length p)) u []) by done; reflexivity).
    rewrite (proj2 (Z.eqb_neq (Z.of_nat (length p)) 0)) by lia.
    erewrite bind_Some by (apply on_io_run; exact E3). cbv beta iota. rewrite Z.eqb_refl. cbn [negb].
    unfold check_user. done. }
  change (sv_auth (upd_sock k3 (upd_sock k2 (upd_sock k1 s)))) with (sv_auth s) in Hchk.
  change (upd_sock k3 (upd_sock k2 (upd_sock k1 s))) with (upd_sock k3 s) in Hchk.
  apply Hchk; rewrite ?length_app; simpl; lia.
Qed.

(** ** The request on the server *)

Lemma addr_wf_cons a :
  addr_wf a -> exists atype first body, a = atype :: first :: body /\ body <> [] /\
    (if atype =? HEV_SOCKS5_ADDR_TYPE_IPV4 then Some 5
     else if atype =? HEV_SOCKS5_ADDR_TYPE_IPV6 then Some 17
     else if atype =? HEV_SOCKS5_ADDR_TYPE_NAME then Some (2 + first) else None) = Some (Z.of_nat (length body)).
Proof.
  intros Hwf. pose proof Hwf as (Hb & _ & _).
  destruct (addr_wf_len a Hwf) as (atype & H0 & _ & Hcase).
  destruct a as [|a0 [|a1 body]]; [done| |].
  { destruct Hcase as [[_ Hl]|[[_ Hl]|[_ (len & Hl1 & _)]]]; done. }
  rewrite (peek1_at _ 0 a0 [] (a1 :: body)) in H0 by done. injection H0 as <-. exists a0, a1, body. split; [done|].
  apply Forall_cons in Hb as [_ Hb]. apply Forall_cons in Hb as [Hb1 _].
  destruct Hcase as [[-> Hl]|[[-> Hl]|[-> (len & Hl1 & Hl)]]]; simpl in Hl.
  - injection Hl as Hl. rewrite Hl. split; [|done]. by destruct body.
  - injection Hl as Hl. rewrite Hl. split; [|done]. by destruct body.
  - rewrite (peek1_at _ 1 a1 [HEV_SOCKS5_ADDR_TYPE_NAME] body) in Hl1 by done. injection Hl1 as <-. split.
    + destruct body; [simpl in Hl; unfold byte_ok in Hb1; lia|done].
    + simpl. f_equal. lia.
Qed.

Lemma server_read_request_ok e s cmd a rest rep sa fam :
  sock_ready (sv_sock s) -> addr_wf a -> stream_of (sv_sock s) = msg_request cmd a ++ rest ->
  hev_socks5_addr_into_sockaddr6 (se_pton4 e) (se_pton6 e) (se_gai e) a sockaddr_zero (s5_addr_family (sv_base s)) =
    Some (0, sa, fam) ->
  exists k, hev_socks5_server_read_request e rep sockaddr_zero s =
      Some ((0, (Some cmd, rep, sa)), upd_base (hev_socks5_set_addr_family fam) (upd_sock k s)) /\
    sock_ready k /\ sk_out k = sk_out (sv_sock s) /\ stream_of k = rest.
Proof.
  intros Hr Hwf Hs Hinto. destruct (addr_wf_cons a Hwf) as (atype & first & body & -> & Hne & Hty).
  assert (0 < Z.of_nat (length body)) as Hpos by (destruct body; simpl; [done|lia]).
  destruct (io_recv [HEV_SOCKS5_VERSION_5; cmd; 0; atype; first] (body ++ rest) 5 (sv_sock s) Hr Hs)
    as (k1 & E1 & (R1 & O1 & _) & S1); [done..|].
  destruct (io_recv body rest (Z.of_nat (length body)) k1 R1 S1) as (k2 & E2 & (R2 & O2 & _) & S2); [done..|].
  exists k2. rewrite O2, O1, !app_nil_r. split_and!; try done.
  unfold hev_socks5_server_read_request. erewrite bind_Some by (apply on_io_run; exact E1). cbv beta iota.
  change (negb (5 =? 5)) with false. cbv iota.
  erewrite bind_Some by (unfold lift_opt; reflexivity). cbv zeta.
  change (negb (HEV_SOCKS5_VERSION_5 =? HEV_SOCKS5_VERSION_5)) with false. cbv iota.
  do 2 (erewrite bind_Some by (unfold lift_opt; reflexivity)). cbv zeta. rewrite Hty.
  erewrite bind_Some by (apply on_io_run; exact E2). cbv beta iota. rewrite Z.eqb_refl. cbn [negb].
  erewrite bind_Some by done.
  erewrite bind_Some by (unfold lift_opt; change (hev_socks5_get_addr_family _) with (s5_addr_family (sv_base s)); by rewrite Hinto).
  done.
Qed.

Lemma server_write_response_ok s rep sa :
  sock_ready (sv_sock s) -> sockaddr_ok sa -> 0 <= rep < 256 ->
  exists k, hev_socks5_server_write_response rep sa s = Some (0, upd_sock k s) /\
    sock_ready k /\ sk_out k = sk_out (sv_sock s) ++ msg_response rep (enc_sockaddr sa) /\
    stream_of k = stream_of (sv_sock s).
Proof.
  intros Hr Hsa Hrep. destruct (from_sockaddr6_ok (replicate sizeof_addr 0) sa) as (rest & Heq);
    [rewrite length_replicate; unfold sizeof_addr; lia|done|].
  destruct (io_send (msg_response rep (enc_sockaddr sa)) (sv_sock s) Hr) as (k & E & (R & O & I)); [done|].
  exists k. split_and!; try done. unfold hev_socks5_server_write_response.
  erewrite bind_Some by (unfold lift_opt; by rewrite Heq). cbv beta iota.
  erewrite bind_Some by (unfold lift_opt; rewrite (peek_at _ _ _ [] (enc_sockaddr sa) rest) by done; reflexivity).
  rewrite u8_small by done. erewrite bind_Some by (apply on_io_run; exact E).
  rewrite (proj2 (Z.leb_gt _ 0)); [done|]. simpl. lia.
Qed.

(** ** Authentication on the server *)

Lemma server_write_method_ok s m :
  sock_ready (sv_sock s) -> 0 <= m < 256 ->
  exists k, hev_socks5_server_write_auth_method m s = Some (0, upd_sock k s) /\
    sock_ready k /\ sk_out k = sk_out (sv_sock s) ++ msg_method m /\ stream_of k = stream_of (sv_sock s).
Proof.
  intros Hr Hm. apply (server_write_ok s (msg_method m)); [|done|done].
  intros s'. unfold hev_socks5_server_write_auth_method. by rewrite u8_small.
Qed.

Lemma server_write_user_ok s r :
  sock_ready (sv_sock s) ->
  exists k, hev_socks5_server_write_auth_user r s = Some (0, upd_sock k s) /\
    sock_ready k /\ sk_out k = sk_out (sv_sock s) ++ msg_creds_res (u8 r) /\ stream_of k = stream_of (sv_sock s).
Proof. intros Hr. by apply (server_write_ok s (msg_creds_res (u8 r))). Qed.

Lemma server_auth_none s rest :
  sock_ready (sv_sock s) -> sv_obj s = ObjNone ->
  stream_of (sv_sock s) = msg_methods HEV_SOCKS5_AUTH_METHOD_NONE ++ rest ->
  exists k, hev_socks5_server_auth s = Some (0, upd_sock k s) /\
    sock_ready k /\ sk_out k = sk_out (sv_sock s) ++ msg_method HEV_SOCKS5_AUTH_METHOD_NONE /\ stream_of k = rest.
Proof.
  intros Hr Ho Hs.
  destruct (server_read_method_ok s [HEV_SOCKS5_AUTH_METHOD_NONE] rest Hr) as (k1 & E1 & R1 & O1 & S1); [simpl; lia|done|].
  rewrite Ho in E1.
  destruct (server_write_method_ok (upd_sock k1 s) HEV_SOCKS5_AUTH_METHOD_NONE R1) as (k2 & E2 & R2 & O2 & S2); [done|].
  exists k2. cbn [sv_sock upd_sock] in *. rewrite O2, O1, S2. split_and!; try done.
  unfold hev_socks5_server_auth. erewrite bind_Some by exact E1. by erewrite bind_Some by exact E2.
Qed.

Lemma server_auth_user s reg u p rest :
  sock_ready (sv_sock s) -> au_inv (sv_auth s) reg -> refs_low (sv_auth s) -> sv_obj s = ObjAuth ->
  (0 < length u <= 255)%nat -> (0 < length p <= 255)%nat ->
  stream_of (sv_sock s) = msg_methods HEV_SOCKS5_AUTH_METHOD_USER ++ msg_creds u p ++ rest ->
  exists k, sock_ready k /\ stream_of k = rest /\
    match login_user (sv_auth s) reg u p with
    | Some q =>
      sk_out k = sk_out (sv_sock s) ++ msg_method HEV_SOCKS5_AUTH_METHOD_USER ++ msg_creds_res 0 /\
      exists a n, hev_socks5_server_auth s = Some (0, upd_sock k (upd_obj (ObjUser q) (upd_ref n (upd_auth a s)))) /\
        (exists reg', au_inv a reg') /\ is_Some (au_users a !! q)
    | None =>
      sk_out k = sk_out (sv_sock s) ++ msg_method HEV_SOCKS5_AUTH_METHOD_USER ++ msg_creds_res 255 /\
      hev_socks5_server_auth s = Some (-1, upd_sock k s)
    end.
Proof.
  intros Hr Hi Hlow Ho Hlu Hlp Hs.
  destruct (server_read_method_ok s [HEV_SOCKS5_AUTH_METHOD_USER] (msg_creds u p ++ rest) Hr) as (k1 & E1 & R1 & O1 & S1); [simpl; lia|done|].
  assert (hev_socks5_server_read_auth_method s = Some (HEV_SOCKS5_AUTH_METHOD_USER, upd_sock k1 s)) as E1'
    by (rewrite E1, Ho; done). clear E1. rename E1' into E1.
  destruct (server_write_method_ok (upd_sock k1 s) HEV_SOCKS5_AUTH_METHOD_USER R1) as (k2 & E2 & R2 & O2 & S2); [done|].
  cbn [sv_sock upd_sock] in *.
  destruct (read_auth_user_ok (upd_sock k2 s) reg u p rest) as (k3 & R3 & O3 & S3 & Hlog); try done; [by rewrite <-S1|].
  change (sv_auth (upd_sock k2 s)) with (sv_auth s) in Hlog. cbn [sv_sock upd_sock] in *.
  destruct (login_user (sv_auth s) reg u p) as [q|].
  - destruct Hlog as (a & n & E3 & Hi').
    destruct (server_write_user_ok (upd_obj (ObjUser q) (upd_ref n (upd_auth a (upd_sock k3 (upd_sock k2 s))))) 0 R3)
      as (k4 & E4 & R4 & O4 & S4).
    cbn [sv_sock upd_sock upd_obj upd_ref upd_auth] in *.
    exists k4. rewrite O4, O3, O2, O1, S4, <-!app_assoc. split_and!; try done.
    exists a, n. split; [|done]. unfold hev_socks5_server_auth. erewrite bind_Some by exact E1.
    erewrite bind_Some by exact E2. change (0 <? 0) with false. cbv iota.
    change (HEV_SOCKS5_AUTH_METHOD_USER =? HEV_SOCKS5_AUTH_METHOD_NONE) with false. rewrite Z.eqb_refl. cbv iota.
    erewrite bind_Some by exact E3. by erewrite bind_Some by exact E4.
  - destruct (server_write_user_ok (upd_sock k3 (upd_sock k2 s)) (-1) R3) as (k4 & E4 & R4 & O4 & S4).
    cbn [sv_sock upd_sock] in *. exists k4. rewrite O4, O3, O2, O1, S4, <-!app_assoc. split_and!; try done.
    unfold hev_socks5_server_auth. erewrite bind_Some by exact E1.
    erewrite bind_Some by exact E2. change (0 <? 0) with false. cbv iota.
    change (HEV_SOCKS5_AUTH_METHOD_USER =? HEV_SOCKS5_AUTH_METHOD_NONE) with false. rewrite Z.eqb_refl. cbv iota.
    erewrite bind_Some by exact Hlog. by erewrite bind_Some by exact E4.
Qed.

(** ** The server as a whole *)

(** Everything after authentication, for a CONNECT request that goes through. *)
Lemma server_connect_ok e s a rest sa fam :
  sock_ready (sv_sock s) -> addr_wf a -> sockaddr_ok sa ->
  stream_of (sv_sock s) = msg_request HEV_SOCKS5_REQ_CMD_CONNECT a ++ rest ->
  hev_socks5_addr_into_sockaddr6 (se_pton4 e) (se_pton6 e) (se_gai e) a sockaddr_zero (s5_addr_family (sv_base s)) =
    Some (0, sa, fam) ->
  0 <= se_socket1 e -> 0 <= se_bind e -> hev_task_io_socket_connect (se_connect e) = 0 ->
  exists k s', (let* (res, (cmd, rep, addr)) := hev_socks5_server_read_request e HEV_SOCKS5_RES_REP_SUCC sockaddr_zero in
    if res <? 0 then ret (-1) else
    let* (rep, addr) :=
      (if rep =? HEV_SOCKS5_RES_REP_SUCC then
         let* cmd := lift_opt cmd in server_dispatch e cmd addr
       else ret (rep, addr)) in
    let* res := hev_socks5_server_write_response rep addr in
    if (res <? 0) || negb (rep =? HEV_SOCKS5_RES_REP_SUCC) then ret (-1) else ret 0) s = Some (0, s') /\
    sv_sock s' = k /\ sk_out k = sk_out (sv_sock s) ++ msg_response HEV_SOCKS5_RES_REP_SUCC (enc_sockaddr sa) /\
    stream_of k = rest /\ s5_type (sv_base s') = TYPE_TCP /\ sv_fd0 s' = se_socket1 e /\ sv_obj s' = sv_obj s /\
    sv_closed s' = sv_closed s.
Proof.
  intros Hr Hwf Hsa Hs Hinto Hso Hbi Hco.
  destruct (server_read_request_ok e s _ a rest HEV_SOCKS5_RES_REP_SUCC sa fam Hr Hwf Hs Hinto) as (k1 & E1 & R1 & O1 & S1).
  erewrite bind_Some by exact E1. cbv beta iota. change (0 <? 0) with false. rewrite Z.eqb_refl. cbv iota.
  erewrite bind_Some.
  2:{ erewrite bind_Some by done. unfold server_dispatch. rewrite Z.eqb_refl.
      erewrite bind_Some.
      2:{ unfold hev_socks5_server_connect. rewrite (proj2 (Z.ltb_ge _ _)) by done. rewrite (proj2 (Z.ltb_ge (se_bind e) 0)) by done.
          erewrite bind_Some by done. rewrite Hco. change (0 <? 0) with false. cbv iota.
          do 2 (erewrite bind_Some by done). reflexivity. }
      erewrite bind_Some by done. reflexivity. }
  cbv beta iota. change (0 <? 0) with false. cbv iota.
  match goal with |- context [bind _ _ ?st] =>
    destruct (server_write_response_ok st HEV_SOCKS5_RES_REP_SUCC sa) as (k2 & E2 & R2 & O2 & S2); [exact R1|done|done|] end.
  erewrite bind_Some by exact E2. eexists k2, _. split; [done|].
  split_and!; try done; [by rewrite O2, <-O1|by rewrite S2].
Qed.
