(* ===== verification/UdpFrames.v ===== *)
(** * Frames of UDP in TCP

    What the sender writes, and how the receiver takes the same stream apart,
    whatever chunks it arrives in. *)

From S2P Require Import Prelude SocksAddr AddrTheorems TaskSocket TaskMsg Socks5Client Socks5Udp Handshake.

(** ** Messages and their frames *)

(** An address block and a payload that fit a frame and the receiver's buffer. *)
Definition fits (m : list Z * list Z) : Prop :=
  addr_wf m.1 /\ (length m.1 <= 252)%nat /\ bytes_ok m.2 /\ Z.of_nat (length m.1 + length m.2) <= UDP_BUF_SIZE.

Definition to_send (m : list Z * list Z) : send_msg := SendMsg m.1 m.2 (Z.of_nat (length m.2)).

Definition frame (m : list Z * list Z) : list Z :=
  udp_hdr (htons (Z.of_nat (length m.2))) (3 + Z.of_nat (length m.1)) ++ m.1 ++ m.2.

Definition frames (ms : list (list Z * list Z)) : list Z := concat (frame <$> ms).

Lemma addr_wf_long a : addr_wf a -> (4 <= length a)%nat.
Proof.
  intros Hwf. destruct (addr_wf_len a Hwf) as (ty & _ & _ & [[_ ->]|[[_ ->]|[_ (len & Hl & H)]]]); [lia..|].
  destruct Hwf as (Hb & _). assert (0 <= len) as Hlen; [|lia].
  unfold peek1, peek in Hl. case_match; [|done]. cbn [mbind option_bind] in Hl.
  destruct (take _ _) as [|x l] eqn:E; [done|]. injection Hl as <-.
  assert (byte_ok x) as Hx; [|apply Hx]. 
  assert (Forall byte_ok (x :: l)) as Hxl by (rewrite <-E; by apply Forall_take, Forall_drop). by apply Forall_cons in Hxl as [? _].
Qed.

Lemma peek_all (l : list Z) : peek l 0 (Z.of_nat (length l)) = Some l.
Proof. apply (peek_at _ _ _ [] l []); by rewrite ?app_nil_r. Qed.

Lemma peek1_app l t i b : peek1 l i = Some b -> peek1 (l ++ t) i = Some b.
Proof.
  unfold peek1, peek. intros H. case_match eqn:E; [|done]. apply andb_prop in E as [E1 E2]. apply andb_prop in E1 as [E0 E1].
  apply Z.leb_le in E0, E1, E2. rewrite length_app, !(proj2 (Z.leb_le _ _)) by lia. cbn [andb].
  rewrite <-H. do 2 f_equal. rewrite drop_app_le by lia. rewrite take_app_le; [done|]. rewrite length_drop. lia.
Qed.

Lemma addr_len_app l t n : hev_socks5_addr_len l = Some n -> hev_socks5_addr_len (l ++ t) = Some n.
Proof.
  unfold hev_socks5_addr_len. intros H. apply option.bind_Some in H as (ty & E & H).
  rewrite (peek1_app _ t _ _ E). cbn [mbind option_bind]. repeat case_match; try done.
  apply option.bind_Some in H as (len & E2 & H). by rewrite (peek1_app _ t _ _ E2).
Qed.

(** The sender looks only at the first bytes of an address block; what is sent of a
    block and a payload. *)
Definition msg_of (r : list Z * list Z) : list Z * list Z := (take (Z.to_nat (default 0 (hev_socks5_addr_len r.1))) r.1, r.2).

Definition raw_ok (r : list Z * list Z) : Prop :=
  hev_socks5_addr_len r.1 = Some (Z.of_nat (length (msg_of r).1)) /\
  peek r.1 0 (Z.of_nat (length (msg_of r).1)) = Some (msg_of r).1 /\ (4 <= length (msg_of r).1)%nat.

Lemma raw_tail m tail : addr_wf m.1 -> raw_ok (m.1 ++ tail, m.2) /\ msg_of (m.1 ++ tail, m.2) = m.
Proof.
  intros Hwf. pose proof (addr_wf_long _ Hwf) as Hl. destruct Hwf as (_ & Hlen & _).
  assert (msg_of (m.1 ++ tail, m.2) = m) as E.
  { unfold msg_of. cbn [fst snd]. rewrite (addr_len_app _ _ _ Hlen). simpl. rewrite Nat2Z.id, take_app_length. by destruct m. }
  split; [|done]. unfold raw_ok. rewrite E. split_and!; [by apply addr_len_app| |done].
  by apply (peek_at _ _ _ [] m.1 tail).
Qed.

Lemma wf_raw m : addr_wf m.1 -> raw_ok m.
Proof. intros H. destruct (raw_tail m [] H) as [Hr _]. rewrite app_nil_r in Hr. by destruct m. Qed.

Lemma wf_msg m : addr_wf m.1 -> msg_of m = m.
Proof. intros H. destruct (raw_tail m [] H) as [_ Hr]. rewrite app_nil_r in Hr. by destruct m. Qed.

(** The sender writes the frames of its messages, one after the other. *)
Lemma tcp_iov_raw rs :
  Forall raw_ok rs ->
  exists iov vs, udp_tcp_iov (to_send <$> rs) = Some (Some iov) /\ gather iov = Some vs /\ concat vs = frames (msg_of <$> rs).
Proof.
  induction 1 as [|r rs (Hlen & Hpk & Hl2) _ (iov & vs & E1 & E2 & E3)]; [by exists [], []|].
  eexists _, _. split_and!.
  - cbn [udp_tcp_iov fmap list_fmap to_send sm_addr]. rewrite Hlen. cbn [mbind option_bind]. rewrite (proj2 (Z.leb_gt _ 0)) by lia.
    fold (to_send <$> rs). rewrite E1. reflexivity.
  - unfold gather in *. unfold to_send at 1 2. cbn [mapM app fst snd sm_buf sm_len].
    rewrite (peek_all (udp_hdr _ _)), Hpk, peek_all. cbn [mbind option_bind]. rewrite E2. reflexivity.
  - unfold frames. cbn [concat fmap list_fmap app]. rewrite E3. unfold frame. simpl. by rewrite !app_assoc.
Qed.

Lemma sendmmsg_tcp_raw rs s :
  sock_ready s -> Forall raw_ok rs -> rs <> [] ->
  exists k, hev_socks5_udp_sendmmsg_tcp (to_send <$> rs) s = Some (Z.of_nat (length rs), k) /\
    sock_step s k (frames (msg_of <$> rs)) [].
Proof.
  intros Hr Hms Hne. destruct (tcp_iov_raw rs Hms) as (iov & vs & E1 & E2 & E3).
  assert (frames (msg_of <$> rs) <> []) as Hf by (destruct rs as [|m rs]; [done|]; unfold frames; simpl; done).
  destruct (io_sendmsg vs s Hr) as (k & E4 & Hst); [by rewrite E3|]. exists k. rewrite E3 in *. split; [|done].
  unfold hev_socks5_udp_sendmmsg_tcp. erewrite bind_Some by (unfold lift_opt; by rewrite E1). cbv beta iota.
  erewrite bind_Some by (unfold lift_opt; by rewrite E2). erewrite bind_Some by exact E4.
  rewrite (proj2 (Z.leb_gt _ 0)) by (destruct (frames _); simpl; [done|lia]). by rewrite length_fmap.
Qed.

Lemma sendmmsg_tcp_ok ms s :
  sock_ready s -> Forall (fun m => addr_wf m.1) ms -> ms <> [] ->
  exists k, hev_socks5_udp_sendmmsg_tcp (to_send <$> ms) s = Some (Z.of_nat (length ms), k) /\
    sock_step s k (frames ms) [].
Proof.
  intros Hr Hms Hne. assert (msg_of <$> ms = ms) as Heq.
  { rewrite <-(list_fmap_id ms) at 2. apply list_fmap_ext. intros i m Hm. apply wf_msg. by eapply Forall_lookup_1 in Hms. }
  destruct (sendmmsg_tcp_raw ms s Hr) as (k & E & Hs); [by eapply Forall_impl; [exact Hms|apply wf_raw]|done|].
  exists k. by rewrite Heq in Hs.
Qed.

(** ** A stream that only makes the reader wait *)

Definition rx_live (evs : list rx_event) : Prop :=
  Forall (fun e => match e with RxData bs => bs <> [] /\ bytes_ok bs | RxAgain => True | _ => False end) evs.

Lemma rx_live_ok evs : rx_live evs -> rx_ok evs.
Proof. intros H. eapply Forall_impl; [exact H|]. by intros []. Qed.

Lemma recv_loop_live fl len size buf evs r b evs' :
  rx_live evs -> recv_loop fl len size buf evs = (r, b, evs') -> rx_live evs'.
Proof.
  revert size buf. induction evs as [|ev evs IH]; intros size buf Hl; simpl; [by intros [= <- <- <-]|].
  apply Forall_cons in Hl as [He Hl]. destruct ev as [bs| | | |]; try done.
  - assert (forall n, rx_live (match drop n bs with [] => evs | rest => RxData rest :: evs end)) as Hd.
    { intros n. destruct (drop n bs) as [|x l] eqn:E; [done|]. apply Forall_cons. split; [|done].
      split; [done|]. rewrite <-E. by apply Forall_drop, He. }
    specialize (Hd (Z.to_nat (Z.min (len - size) (Z.of_nat (length bs))))).
    set (left := match drop _ bs with [] => evs | z :: l => RxData (z :: l) :: evs end) in *. clearbody left.
    repeat case_match; intros Heq; try (by injection Heq as <- <- <-); by eapply IH.
  - repeat case_match; intros Heq; try (by injection Heq as <- <- <-); by eapply IH.
Qed.

(** Reading exactly what the stream begins with. *)
Lemma recv_live b rest s n :
  rx_live (sk_rx s) -> stream_of s = b ++ rest -> n = Z.of_nat (length b) -> 0 < n ->
  exists evs, hev_task_io_socket_recv n MSG_WAITALL s = Some ((n, b), Sock evs (sk_tx s) (sk_out s)) /\
    rx_live evs /\ rx_stream evs = rest.
Proof.
  intros Hl Hs Hn Hp. destruct (recv_exact b rest s n (rx_live_ok _ Hl) Hs Hn Hp) as (evs & E & _ & Hr).
  exists evs. split_and!; try done. unfold hev_task_io_socket_recv in E.
  destruct (recv_loop _ _ _ _ _) as [[r' b'] evs'] eqn:El. injection E as <- <- <-. by eapply recv_loop_live.
Qed.

(** The head of a frame: nothing yet, or all of it. *)
Lemma head_step h tail s :
  rx_live (sk_rx s) -> stream_of s = h ++ tail -> length h = 5%nat ->
  (exists evs, sk_rx s = RxAgain :: evs /\ udp_recv_head true s = Some ((-1, []), Sock evs (sk_tx s) (sk_out s))) \/
  (exists evs, udp_recv_head true s = Some ((5, h), Sock evs (sk_tx s) (sk_out s)) /\
     rx_live evs /\ rx_stream evs = tail).
Proof.
  intros Hl Hs Hh. unfold udp_recv_head. destruct s as [[|ev evs] tx out]; simpl in *.
  { unfold stream_of in Hs. simpl in Hs. by destruct h. }
  apply Forall_cons in Hl as [He Hl]. destruct ev as [bs| | | |]; try done; [right|left; by exists evs].
  destruct He as [Hne Hb]. unfold stream_of in Hs. simpl in Hs.
  remember (Z.min (5 - 0) (Z.of_nat (length bs))) as s eqn:Es.
  assert (0 < s <= 5) as Hs5 by (destruct bs; simpl in *; [done|lia]).
  erewrite bind_Some by (unfold hev_task_io_socket_recv; simpl; rewrite <-Es; reflexivity). cbv beta iota.
  rewrite (proj2 (Z.ltb_lt 0 s)) by lia. cbn [andb].
  set (left := match drop (Z.to_nat s) bs with [] => evs | rest => RxData rest :: evs end).
  assert (rx_live left /\ rx_stream left = drop (Z.to_nat s) bs ++ rx_stream evs) as [Hll Hls].
  { unfold left. destruct (drop (Z.to_nat s) bs) eqn:E; [done|]. split; [|done]. apply Forall_cons. split; [|done].
    split; [done|]. rewrite <-E. by apply Forall_drop. }
  assert (h = take (Z.to_nat s) bs ++ drop (Z.to_nat s) h /\ rx_stream left = drop (Z.to_nat s) h ++ tail) as [Hh1 Hh2].
  { assert (take (Z.to_nat s) (bs ++ rx_stream evs) = take (Z.to_nat s) (h ++ tail)) as Ht by (by rewrite Hs).
    rewrite !take_app_le in Ht by lia. rewrite Ht, take_drop. split; [done|].
    rewrite Hls. rewrite <-!drop_app_le by lia. by rewrite Hs. }
  destruct (Z.ltb_spec s 5) as [Hlt|Hge].
  - destruct (recv_live (drop (Z.to_nat s) h) tail (Sock left tx out) (5 - s)) as (evs2 & E & Hl2 & Hr2); try done;
      [rewrite length_drop; lia|lia|].
    exists evs2. erewrite bind_Some by exact E. split; [|done]. unfold ret. rewrite <-Hh1. do 3 f_equal. lia.
  - assert (s = 5) as -> by lia. exists left. rewrite Hh2, drop_ge by (simpl; lia). simpl.
    split; [|done]. rewrite drop_ge in Hh1 by (simpl; lia). rewrite app_nil_r in Hh1. by rewrite <-Hh1.
Qed.

(** ** The receiver *)

(** A message as the receiver hands it out. *)
Definition delivered (r : recv_msg) (m : list Z * list Z) : Prop :=
  exists tail, rm_block r = m.1 ++ m.2 ++ tail /\ rm_off r = Z.of_nat (length m.1) /\
    rm_len r = Z.of_nat (length m.2) /\ rm_addr r = AddrAt 0 /\
    Z.of_nat (length (rm_block r)) = UDP_BUF_SIZE.

(** Storing the rest of a frame, then the first two bytes of its address. *)
Lemma scatter_frame b a0 a1 a d :
  Z.of_nat (length b) = UDP_BUF_SIZE -> Z.of_nat (length (a0 :: a1 :: a) + length d) <= UDP_BUF_SIZE ->
  exists b' tail, scatter b [(0 + 2, Z.of_nat (length (a0 :: a1 :: a)) - 2); (0 + Z.of_nat (length (a0 :: a1 :: a)), Z.of_nat (length d))] (a ++ d) = Some b' /\
    poke b' 0 [a0; a1] = Some ((a0 :: a1 :: a) ++ d ++ tail) /\
    length ((a0 :: a1 :: a) ++ d ++ tail) = length b.
Proof.
  unfold UDP_BUF_SIZE. intros Hb Hl. simpl in Hl.
  destruct (block_split b 2) as (h & b2 & -> & Hh & _); [lia|]. rewrite length_app, Hh in Hb.
  destruct (block_split b2 (length a)) as (x & b3 & -> & Hx & _); [lia|]. rewrite length_app, Hx in Hb.
  destruct (block_split b3 (length d)) as (y & tail & -> & Hy & _); [lia|].
  exists (h ++ a ++ d ++ tail), tail.
  assert (Z.to_nat (Z.of_nat (length (a0 :: a1 :: a)) - 2) = length a) as Hta by (simpl; lia).
  split_and!.
  - cbn [scatter]. rewrite Hta, take_app_length, drop_app_length, Nat2Z.id, firstn_all.
    rewrite (poke_at _ _ _ h x (y ++ tail)) by (done || lia). cbn [mbind option_bind].
    rewrite (poke_at _ _ _ (h ++ a) y tail) by (rewrite ?length_app, <-?app_assoc; simpl; done || lia). cbn [mbind option_bind].
    by rewrite <-!app_assoc.
  - rewrite (poke_at _ _ _ [] h (a ++ d ++ tail)) by done. done.
  - rewrite !length_app. simpl. lia.
Qed.

(** After the head of a frame that fits, the body is read as the head says. *)
Lemma frame_body b a0 a1 n dl rlen fin rest s s1 :
  udp_recv_head true s = Some ((5, udp_hdr (htons dl) (3 + n) ++ [a0; a1]), s1) ->
  4 <= n <= 252 -> 0 <= dl -> n + dl <= UDP_BUF_SIZE ->
  recvmmsg_tcp_loop true rlen fin (RecvMsg b 0 UDP_BUF_SIZE AddrUnset :: rest) s =
  (let* (res, bs) := hev_task_io_socket_recvmsg [n - 2; dl] MSG_WAITALL in
   let* blk := lift_opt (scatter b [(0 + 2, n - 2); (0 + n, dl)] bs) in
   if negb (res =? n - 2 + dl) then
     ret (res, fin ++ RecvMsg blk 0 UDP_BUF_SIZE AddrUnset :: rest)
   else
   let* blk := lift_opt (poke blk 0 [a0; a1]) in
   recvmmsg_tcp_loop true (rlen + 1) (fin ++ [RecvMsg blk (0 + n) dl (AddrAt 0)]) rest) s1.
Proof.
  unfold UDP_BUF_SIZE at 1. intros E Hn Hd Ht. cbn [recvmmsg_tcp_loop]. erewrite bind_Some by exact E. cbv beta iota.
  change (negb (5 =? 5)) with false. cbv iota.
  do 4 (erewrite bind_Some by reflexivity). cbv beta. rewrite u8_small by lia.
  rewrite (proj2 (Z.ltb_ge (3 + n) 5)) by lia. cbv zeta. replace (3 + n - 3) with n by lia.
  cbn [rm_len rm_block rm_off rm_addr]. rewrite (ld16_st16 (htons dl)) by apply htons_bound. rewrite ntohs_htons by lia.
  unfold u64. rewrite Z.mod_small by (unfold UDP_BUF_SIZE; lia). rewrite (proj2 (Z.ltb_ge _ dl)) by (unfold UDP_BUF_SIZE; lia).
  done.
Qed.

(** A frame that is there as a whole becomes a message. *)
Lemma frame_taken b m rlen fin rest s s1 s2 :
  fits m -> Z.of_nat (length b) = UDP_BUF_SIZE ->
  udp_recv_head true s = Some ((5, take 5 (frame m)), s1) ->
  hev_task_io_socket_recv (Z.of_nat (length (drop 5 (frame m)))) MSG_WAITALL s1 = Some ((Z.of_nat (length (drop 5 (frame m))), drop 5 (frame m)), s2) ->
  exists r, delivered r m /\
    recvmmsg_tcp_loop true rlen fin (RecvMsg b 0 UDP_BUF_SIZE AddrUnset :: rest) s = recvmmsg_tcp_loop true (rlen + 1) (fin ++ [r]) rest s2.
Proof.
  destruct m as [a d]. intros (Hwf & Hla & Hbd & Htot) Hb E E2. cbn [fst snd] in *.
  pose proof (addr_wf_long a Hwf) as Hl2. destruct a as [|a0 [|a1 a]]; [simpl in Hl2; lia..|].
  change (take 5 (frame (a0 :: a1 :: a, d))) with (udp_hdr (htons (Z.of_nat (length d))) (3 + Z.of_nat (length (a0 :: a1 :: a))) ++ [a0; a1]) in E.
  change (drop 5 (frame (a0 :: a1 :: a, d))) with (a ++ d) in E2.
  destruct (scatter_frame b a0 a1 a d Hb Htot) as (b' & tail & Hsc & Hpk & Hlen).
  set (n := Z.of_nat (length (a0 :: a1 :: a))) in *. set (dl := Z.of_nat (length d)) in *.
  assert (n <= 252 /\ n + dl <= 1500 /\ 4 <= n /\ 0 <= dl /\ Z.of_nat (length (a ++ d)) = n - 2 + (dl + 0)) as (Hn1 & Hn2 & Hn3 & Hn4 & Hn5)
    by (unfold UDP_BUF_SIZE in Htot; unfold n, dl; rewrite length_app; cbn [length] in *; lia).
  exists (RecvMsg ((a0 :: a1 :: a) ++ d ++ tail) (0 + n) dl (AddrAt 0)). split; [exists tail; cbn [rm_block fst snd]; by rewrite Hlen|].
  rewrite (frame_body _ _ _ _ _ _ _ _ _ _ E) by (unfold UDP_BUF_SIZE; lia).
  rewrite Hn5 in E2. erewrite bind_Some by (rewrite recvmsg_as_recv by (simpl; lia); exact E2). cbv beta iota.
  erewrite bind_Some by (unfold lift_opt; rewrite Hsc; reflexivity). cbv beta.
  rewrite Z.add_0_r, Z.eqb_refl. cbn [negb]. by erewrite bind_Some by (unfold lift_opt; rewrite Hpk; reflexivity).
Qed.

(** The rest of the frame is read, waiting for it. *)
Lemma body_step m rest s :
  fits m -> rx_live (sk_rx s) -> stream_of s = drop 5 (frame m) ++ rest ->
  exists evs, hev_task_io_socket_recv (Z.of_nat (length (drop 5 (frame m)))) MSG_WAITALL s =
      Some ((Z.of_nat (length (drop 5 (frame m))), drop 5 (frame m)), Sock evs (sk_tx s) (sk_out s)) /\ rx_live evs /\ rx_stream evs = rest.
Proof.
  intros (Hwf & _) Hl Hs. apply recv_live; try done. pose proof (addr_wf_long _ Hwf). rewrite length_drop. unfold frame. rewrite !length_app. simpl. lia.
Qed.

Lemma frame_split m : fits m -> length (take 5 (frame m)) = 5%nat /\ frame m = take 5 (frame m) ++ drop 5 (frame m).
Proof.
  intros (Hwf & _). pose proof (addr_wf_long _ Hwf). split; [|by rewrite take_drop]. rewrite length_take. apply Nat.min_l. unfold frame. rewrite !length_app. simpl. lia.
Qed.

(** A batch of frames is received message by message: until the buffers are used
    up, or the stream has no frame ready yet. *)
Lemma recv_frames blks ms rest rlen fin s :
  rx_live (sk_rx s) -> stream_of s = frames ms ++ rest -> Forall fits ms -> (length blks <= length ms)%nat ->
  Forall (fun b => Z.of_nat (length b) = UDP_BUF_SIZE) blks -> 0 <= rlen ->
  exists j got s', (j <= length blks)%nat /\ length got = j /\
    recvmmsg_tcp_loop true rlen fin (fresh_msgs blks) s =
      Some ((if decide (j = length blks) then rlen + Z.of_nat j
             else if 0 <? rlen + Z.of_nat j then rlen + Z.of_nat j else -1, fin ++ got ++ fresh_msgs (drop j blks)), s') /\
    Forall2 delivered got (take j ms) /\ rx_live (sk_rx s') /\ stream_of s' = frames (drop j ms) ++ rest /\
    sk_out s' = sk_out s /\ (j <> length blks -> j <> 0%nat \/ exists evs, sk_rx s = RxAgain :: evs).
Proof.
  revert ms rlen fin s. induction blks as [|b blks IH]; intros ms rlen fin s Hl Hs Hfit Hle Hb Hr.
  { exists 0%nat, [], s. simpl. split_and!; try done; try lia. unfold ret. by rewrite app_nil_r, Z.add_0_r. }
  destruct ms as [|m ms]; [simpl in Hle; lia|]. apply Forall_cons in Hb as [Hb1 Hb]. apply Forall_cons in Hfit as [Hf Hfit].
  destruct (frame_split m Hf) as [H5 Hsp]. unfold frames in Hs. cbn [concat fmap list_fmap] in Hs. fold (frames ms) in Hs.
  destruct (head_step (take 5 (frame m)) (drop 5 (frame m) ++ frames ms ++ rest) s Hl) as [(evs & Hev & E)|(evs & E & Hl1 & Hs1)]; [|done| |].
  { rewrite Hs. rewrite Hsp at 1. by rewrite <-!app_assoc. }
  - exists 0%nat, [], (Sock evs (sk_tx s) (sk_out s)). split_and!; try done; [lia| | | |].
    + cbn [recvmmsg_tcp_loop fresh_msgs fmap list_fmap]. erewrite bind_Some by exact E. cbv beta iota.
      change (negb (-1 =? 5)) with true. cbv iota. rewrite decide_False by done. rewrite Z.add_0_r. done.
    + simpl. unfold rx_live in Hl. rewrite Hev in Hl. by apply Forall_cons in Hl as [_ Hl].
    + unfold stream_of in *. rewrite Hev in Hs. exact Hs.
    + intros _. right. by exists evs.
  - destruct (body_step m (frames ms ++ rest) (Sock evs (sk_tx s) (sk_out s)) Hf Hl1 Hs1) as (evs2 & E2 & Hl2 & Hs2). cbn [sk_tx sk_out] in E2.
    destruct (frame_taken b m rlen fin (fresh_msgs blks) s _ _ Hf Hb1 E E2) as (r & Hdr & Est).
    destruct (IH ms (rlen + 1) (fin ++ [r]) (Sock evs2 (sk_tx s) (sk_out s))) as (j & got & s' & Hj & Hg & E3 & Hd & Hl' & Hs' & Ho & Hag);
      try done; [simpl in *; lia|lia|].
    exists (S j), (r :: got), s'. split_and!; try done; [simpl; lia|simpl; lia| |by constructor|by left].
    cbn [fresh_msgs fmap list_fmap]. fold (fresh_msgs blks). rewrite Est, E3.
    replace (rlen + 1 + Z.of_nat j) with (rlen + Z.of_nat (S j)) by lia. rewrite <-app_assoc. simpl app. rewrite (proj2 (Z.ltb_lt 0 (rlen + Z.of_nat (S j)))) by lia.
    do 3 f_equal. destruct (decide (j = length blks)), (decide (S j = length (b :: blks))); simpl in *; try lia; done.
Qed.

(** ** A stream that carries whole frames *)

(** Between two frames anything can happen: the stream makes the reader wait, its wait runs out, a call fails, or the
    stream ends; while a frame is read, and this may come in any pieces, the stream only makes the reader wait. *)
Inductive rx_whole : list rx_event -> list (list Z * list Z) -> Prop :=
| whole_nil : rx_whole [] []
| whole_eof evs : rx_ok evs -> rx_whole (RxEof :: evs) []
| whole_pause e evs xs : e = RxAgain \/ e = RxTimeout \/ e = RxErr -> rx_whole evs xs -> rx_whole (e :: evs) xs
| whole_frames evs xs t ys : rx_live evs -> rx_stream evs = frames xs -> Forall fits xs -> xs <> [] -> rx_whole t ys -> rx_whole (evs ++ t) (xs ++ ys).

Lemma whole_app evs xs t ys : rx_live evs -> rx_stream evs = frames xs -> Forall fits xs -> rx_whole t ys -> rx_whole (evs ++ t) (xs ++ ys).
Proof.
  intros Hl Hs Hf Ht. destruct (decide (xs = [])) as [->|]; [|by constructor]. clear Hf. cbn [app]. induction Hl as [|ev evs He Hl IH]; [done|].
  destruct ev as [bs| | | |]; try done; [destruct He as [Hne _]; by destruct bs|]. apply whole_pause; [by left|by apply IH].
Qed.

Lemma rx_whole_ok evs xs : rx_whole evs xs -> rx_ok evs.
Proof.
  unfold rx_ok. induction 1 as [|evs|e evs xs He _ IH|evs xs t ys Hl _ _ _ _ IH]; [done|by constructor|constructor; [by destruct He as [->|[->| ->]]|done]|].
  apply Forall_app. split; [by apply rx_live_ok|done].
Qed.

(** What is behind does not matter to a reader that finds enough. *)
Lemma recv_loop_app len size buf evs t r b evs' :
  rx_live evs -> 0 <= size < len -> len - size <= Z.of_nat (length (rx_stream evs)) ->
  recv_loop MSG_WAITALL len size buf evs = (r, b, evs') -> recv_loop MSG_WAITALL len size buf (evs ++ t) = (r, b, evs' ++ t).
Proof.
  revert size buf. induction evs as [|ev evs IH]; intros size buf Hl Hs Hn E; [simpl in Hn; lia|].
  apply Forall_cons in Hl as [He Hl]. destruct ev as [bs| | | |]; try done; simpl in *; [|by apply IH].
  destruct He as [Hne _]. assert (0 < Z.of_nat (length bs)) by (destruct bs; simpl in *; [done|lia]). rewrite length_app, Nat2Z.inj_add in Hn.
  rewrite (proj2 (Z.leb_gt _ 0)) in * by lia. destruct (Z.ltb_spec (size + Z.min (len - size) (Z.of_nat (length bs))) len) as [Hlt|Hge].
  - apply IH; try done; lia.
  - injection E as <- <- <-. by destruct (drop _ bs).
Qed.

Lemma recv_app n evs t tx out r b s' :
  rx_live evs -> 0 < n -> n <= Z.of_nat (length (rx_stream evs)) ->
  hev_task_io_socket_recv n MSG_WAITALL (Sock evs tx out) = Some ((r, b), s') ->
  hev_task_io_socket_recv n MSG_WAITALL (Sock (evs ++ t) tx out) = Some ((r, b), Sock (sk_rx s' ++ t) tx out).
Proof.
  unfold hev_task_io_socket_recv. cbn [sk_rx sk_tx sk_out]. intros Hl Hn Hle E. destruct (recv_loop _ n 0 [] evs) as [[r1 b1] evs'] eqn:El. injection E as <- <- <-.
  rewrite (recv_loop_app n 0 [] evs t _ _ _ Hl ltac:(lia) ltac:(lia) El). done.
Qed.

Lemma head_app bs evs t tx out z h s' :
  rx_live (RxData bs :: evs) -> (5 <= length (bs ++ rx_stream evs))%nat ->
  udp_recv_head true (Sock (RxData bs :: evs) tx out) = Some ((z, h), s') ->
  udp_recv_head true (Sock (RxData bs :: evs ++ t) tx out) = Some ((z, h), Sock (sk_rx s' ++ t) tx out).
Proof.
  intros Hl Hn. apply Forall_cons in Hl as [[Hne Hb] Hl]. assert (0 < Z.of_nat (length bs)) by (destruct bs; simpl in *; [done|lia]). rewrite length_app in Hn.
  unfold udp_recv_head, bind. unfold hev_task_io_socket_recv at 1 3. simpl.
  remember (Z.min (5 - 0) (Z.of_nat (length bs))) as k eqn:Ekk. set (left := match drop (Z.to_nat k) bs with [] => evs | z :: l => RxData (z :: l) :: evs end).
  assert (match drop (Z.to_nat k) bs with [] => evs ++ t | z :: l => RxData (z :: l) :: evs ++ t end = left ++ t) as -> by (unfold left; by destruct (drop _ bs)).
  destruct ((0 <? k) && (k <? 5)) eqn:Ek; [|by intros [= <- <- <-]]. apply andb_prop in Ek as [_ Ek%Z.ltb_lt].
  assert (left = evs) as Hlf by (unfold left; by rewrite drop_ge by lia). rewrite Hlf.
  destruct (hev_task_io_socket_recv (5 - k) MSG_WAITALL (Sock evs tx out)) as [[[r b] s1]|] eqn:E; [|done]. intros [= <- <- <-].
  by rewrite (recv_app (5 - k) evs t tx out r b s1 Hl ltac:(lia) ltac:(lia) E).
Qed.

(** What the reader finds: nothing, or a whole frame. *)
Lemma whole_step s xs :
  rx_whole (sk_rx s) xs ->
  (exists z evs, udp_recv_head true s = Some ((z, []), Sock evs (sk_tx s) (sk_out s)) /\ -1 <= z <= 0 /\ rx_whole evs xs) \/
  exists m ms s1 evs, xs = m :: ms /\ fits m /\ udp_recv_head true s = Some ((5, take 5 (frame m)), s1) /\
    hev_task_io_socket_recv (Z.of_nat (length (drop 5 (frame m)))) MSG_WAITALL s1 =
      Some ((Z.of_nat (length (drop 5 (frame m))), drop 5 (frame m)), Sock evs (sk_tx s) (sk_out s)) /\ rx_whole evs ms.
Proof.
  destruct s as [rx tx out]. cbn [sk_rx sk_tx sk_out]. intros Hw. inversion Hw as [|evs Hok|e evs xs' He Hw'|evs ms0 t ys Hl Hs Hf Hne Hw']; subst.
  - left. by exists 0, [].
  - left. exists 0, (RxEof :: evs). split; [reflexivity|]. split; [lia|by constructor].
  - left. exists (-1), evs. by destruct He as [->|[->| ->]].
  - destruct ms0 as [|m ms]; [done|]. apply Forall_cons in Hf as [Hm Hf]. destruct (frame_split m Hm) as [H5 Hsp].
    unfold frames in Hs. cbn [concat fmap list_fmap] in Hs. fold (frames ms) in Hs.
    destruct (head_step (take 5 (frame m)) (drop 5 (frame m) ++ frames ms) (Sock evs tx out) Hl) as [(evs' & Hev & E)|(evs' & E & Hl1 & Hs1)]; [|done| |].
    { unfold stream_of. simpl. rewrite Hs. rewrite Hsp at 1. by rewrite <-!app_assoc. }
    + left. simpl in Hev. subst evs. exists (-1), (evs' ++ t). split; [reflexivity|]. split; [lia|]. apply Forall_cons in Hl as [_ Hl].
      apply (whole_app evs' (m :: ms)); try done. by constructor.
    + right. destruct evs as [|[bs| | | |] evs]; try (by apply Forall_cons in Hl as [? _]); [apply (f_equal length) in Hs; rewrite Hsp, !length_app, H5 in Hs; simpl in Hs; lia|].
      destruct (body_step m (frames ms) (Sock evs' tx out) Hm Hl1 Hs1) as (evs2 & E2 & Hl2 & Hs2).
      eexists m, (ms ++ ys), _, (evs2 ++ t). split; [done|]. split; [done|]. split; [apply (head_app bs evs t); [done| |exact E]|].
      { change (bs ++ rx_stream evs = frame m ++ frames ms) in Hs. rewrite Hs, Hsp, !length_app. lia. }
      split; [|by apply whole_app]. apply (recv_app _ evs' t tx out _ _ _ Hl1) in E2; [done| |].
      * destruct Hm as (Hwf & _). pose proof (addr_wf_long _ Hwf). rewrite length_drop. unfold frame. rewrite !length_app. simpl. lia.
      * rewrite Hs1, length_app. lia.
Qed.

(** A batch is received message by message, until the buffers are used up or no frame is ready. *)
Lemma recv_whole blks xs rlen fin s :
  rx_whole (sk_rx s) xs -> Forall (fun b => Z.of_nat (length b) = UDP_BUF_SIZE) blks -> 0 <= rlen ->
  exists j got s' z, (j <= length blks)%nat /\ length got = j /\
    recvmmsg_tcp_loop true rlen fin (fresh_msgs blks) s =
      Some ((if decide (j = length blks) then rlen + Z.of_nat j
             else if 0 <? rlen + Z.of_nat j then rlen + Z.of_nat j else z, fin ++ got ++ fresh_msgs (drop j blks)), s') /\
    Forall2 delivered got (take j xs) /\ Forall fits (take j xs) /\ rx_whole (sk_rx s') (drop j xs) /\
    sk_out s' = sk_out s /\ sk_tx s' = sk_tx s /\ -1 <= z <= 0.
Proof.
  revert xs rlen fin s. induction blks as [|b blks IH]; intros xs rlen fin s Hw Hb Hr.
  { exists 0%nat, [], s, 0. simpl. split_and!; try done; try lia. unfold ret. by rewrite app_nil_r, Z.add_0_r. }
  apply Forall_cons in Hb as [Hb1 Hb]. destruct (whole_step s xs Hw) as [(z & evs & E & Hz & Hw')|(m & ms & s1 & evs & -> & Hm & E & E2 & Hw')].
  - exists 0%nat, [], (Sock evs (sk_tx s) (sk_out s)), z. split_and!; try done; [lia| |lia..].
    cbn [recvmmsg_tcp_loop fresh_msgs fmap list_fmap]. erewrite bind_Some by exact E. cbv beta iota.
    rewrite (proj2 (Z.eqb_neq z 5)) by lia. cbv iota. rewrite decide_False by done. by rewrite Z.add_0_r.
  - destruct (frame_taken b m rlen fin (fresh_msgs blks) s _ _ Hm Hb1 E E2) as (r & Hdr & Est).
    destruct (IH ms (rlen + 1) (fin ++ [r]) (Sock evs (sk_tx s) (sk_out s)) Hw' Hb ltac:(lia)) as (j & got & s' & z & Hj & Hg & E3 & Hd & Hft & Hws & Ho & Htx & Hz).
    exists (S j), (r :: got), s', z. split_and!; try done; [simpl; lia|simpl; lia| |by constructor|by constructor|lia..].
    cbn [fresh_msgs fmap list_fmap]. fold (fresh_msgs blks). rewrite Est, E3.
    replace (rlen + 1 + Z.of_nat j) with (rlen + Z.of_nat (S j)) by lia. rewrite <-app_assoc. simpl app. rewrite (proj2 (Z.ltb_lt 0 (rlen + Z.of_nat (S j)))) by lia.
    do 3 f_equal. destruct (decide (j = length blks)), (decide (S j = length (b :: blks))); simpl in *; try lia; done.
Qed.

(** ** A stream that ends early *)

(** Asking for more than the stream has gives all of it. *)
Lemma recv_loop_short n size buf evs :
  rx_live evs -> 0 <= size -> size + Z.of_nat (length (rx_stream evs)) < n ->
  recv_loop MSG_WAITALL n size buf evs = (size + Z.of_nat (length (rx_stream evs)), buf ++ rx_stream evs, []).
Proof.
  revert size buf. induction evs as [|ev evs IH]; intros size buf Hl Hs Hn; simpl in *.
  - rewrite app_nil_r, Z.add_0_r. unfold or_size. by destruct (Z.eqb_spec size 0) as [->|].
  - apply Forall_cons in Hl as [He Hl]. destruct ev as [bs| | | |]; try done; simpl in *; [|by apply IH].
    destruct He as [Hne _]. rewrite length_app, Nat2Z.inj_add in *.
    assert (0 < Z.of_nat (length bs)) by (destruct bs; simpl in *; [done|lia]).
    rewrite Z.min_r by lia. rewrite Nat2Z.id, firstn_all.
    rewrite (proj2 (Z.leb_gt _ 0)) by lia. rewrite (proj2 (Z.ltb_lt _ n)) by lia.
    rewrite IH by (done || lia). by rewrite Z.add_assoc, app_assoc.
Qed.

Lemma recv_short n s :
  rx_live (sk_rx s) -> Z.of_nat (length (stream_of s)) < n ->
  hev_task_io_socket_recv n MSG_WAITALL s =
    Some ((Z.of_nat (length (stream_of s)), stream_of s), Sock [] (sk_tx s) (sk_out s)).
Proof. intros Hl Hn. unfold hev_task_io_socket_recv. by rewrite recv_loop_short by (done || lia). Qed.

(** A head cut short gives its length as the number of messages. *)
Lemma head_short bs evs tx out :
  rx_live (RxData bs :: evs) -> (length (bs ++ rx_stream evs) < 5)%nat ->
  exists h, udp_recv_head true (Sock (RxData bs :: evs) tx out) = Some ((Z.of_nat (length (bs ++ rx_stream evs)), h), Sock [] tx out).
Proof.
  intros Hl Hn. apply Forall_cons in Hl as [[Hne _] Hl]. rewrite length_app in *.
  assert (0 < Z.of_nat (length bs)) by (destruct bs; simpl in *; [done|lia]).
  unfold udp_recv_head. erewrite bind_Some by (unfold hev_task_io_socket_recv; simpl; rewrite Z.min_r by lia; reflexivity).
  cbv beta iota. rewrite (proj2 (Z.ltb_lt 0 _)), (proj2 (Z.ltb_lt _ 5)) by lia. cbn [andb].
  rewrite Nat2Z.id, drop_all.
  erewrite bind_Some by (apply recv_short; [done|unfold stream_of; simpl; lia]). cbv beta iota.
  eexists. unfold ret. rewrite Nat2Z.inj_add. reflexivity.
Qed.

Lemma poke_fits l off bs : 0 <= off -> off + Z.of_nat (length bs) <= Z.of_nat (length l) -> exists l', poke l off bs = Some l' /\ length l' = length l.
Proof.
  intros H0 H1. unfold poke. rewrite !(proj2 (Z.leb_le _ _)) by lia. cbn [andb]. eexists. split; [done|].
  rewrite !length_app, length_take, length_drop. lia.
Qed.

(** A frame cut short: the number of its bytes that came after the head, or all of
    them when the head itself is cut, is returned as the number of messages,
    and no message was filled. *)
Lemma truncated_frame m k bs evs tx out blks :
  fits m -> rx_live (RxData bs :: evs) -> bs ++ rx_stream evs = take k (frame m) ->
  (0 < k < length (frame m))%nat -> k <> 5%nat ->
  Forall (fun b => Z.of_nat (length b) = UDP_BUF_SIZE) blks -> blks <> [] ->
  exists r b rest s', hev_socks5_udp_recvmmsg_tcp true (fresh_msgs blks) (Sock (RxData bs :: evs) tx out) =
      Some ((r, RecvMsg b 0 UDP_BUF_SIZE AddrUnset :: rest), s') /\ 0 < r.
Proof.
  intros Hfit Hl Hs Hk Hk5 Hb Hne. destruct blks as [|b blks]; [done|]. apply Forall_cons in Hb as [Hb _].
  assert (length (bs ++ rx_stream evs) = k) as Hlen by (rewrite Hs, length_take; lia).
  unfold hev_socks5_udp_recvmmsg_tcp. cbn [fresh_msgs fmap list_fmap].
  destruct (decide (k < 5)%nat) as [Hlt|Hge].
  - destruct (head_short bs evs tx out Hl) as (h & E); [lia|]. cbn [recvmmsg_tcp_loop]. erewrite bind_Some by exact E. cbv beta iota.
    rewrite (proj2 (Z.eqb_neq _ 5)) by lia. change (0 <? 0) with false. cbv iota. eexists _, _, _, _. split; [reflexivity|lia].
  - destruct m as [a d]. destruct Hfit as (Hwf & Hla & Hbd & Htot). cbn [fst snd] in *.
    pose proof (addr_wf_long a Hwf) as Hl2. destruct a as [|a0 [|a1 a]]; [simpl in Hl2; lia..|].
    set (h := udp_hdr (htons (Z.of_nat (length d))) (3 + Z.of_nat (length (a0 :: a1 :: a))) ++ [a0; a1]).
    assert (frame (a0 :: a1 :: a, d) = h ++ a ++ d) as Hfr by done.
    assert (length (h ++ a ++ d) = 5 + length a + length d)%nat as Hfl
      by (rewrite (length_app h), (length_app a); change (length h) with 5%nat; lia).
    rewrite Hfr in *. rewrite take_app_ge in Hs by (simpl; lia). change (length h) with 5%nat in *.
    destruct (head_step h (take (k - 5) (a ++ d)) (Sock (RxData bs :: evs) tx out) Hl Hs) as [(? & ? & _)|(evs1 & E & Hl1 & Hs1)]; [done|done|].
    assert (length (rx_stream evs1) = k - 5)%nat as Hl5 by (rewrite Hs1, length_take, length_app; lia).
    rewrite (frame_body _ _ _ _ _ _ _ _ _ _ E) by (unfold UDP_BUF_SIZE in *; simpl in *; lia).
    erewrite bind_Some by (rewrite recvmsg_as_recv by (simpl; lia); apply recv_short; [done|unfold stream_of; simpl in *; lia]).
    cbv beta iota. unfold stream_of. cbn [sk_rx].
    set (got := rx_stream evs1) in *. set (n := Z.of_nat (length (a0 :: a1 :: a))) in *.
    destruct (poke_fits b (0 + 2) (take (Z.to_nat (n - 2)) got)) as (b1 & Ep1 & Hb1); [lia|rewrite length_take; unfold UDP_BUF_SIZE, n in *; simpl in *; lia|].
    destruct (poke_fits b1 (0 + n) (take (Z.to_nat (Z.of_nat (length d))) (drop (Z.to_nat (n - 2)) got))) as (b2 & Ep2 & _);
      [lia|rewrite length_take, length_drop; unfold UDP_BUF_SIZE, n in *; simpl in *; lia|].
    erewrite bind_Some by (unfold lift_opt; cbn [scatter]; rewrite Ep1; cbn [mbind option_bind]; rewrite Ep2; reflexivity).
    cbv beta. rewrite (proj2 (Z.eqb_neq _ _)) by (unfold n in *; simpl in *; lia). cbn [negb].
    eexists _, _, _, _. split; [reflexivity|lia].
Qed.
