(* ===== verification/HandshakeSafe.v ===== *)
(** * The server never faults

    Whatever bytes arrive, in whatever chunks, and whatever the kernel, the
    resolver and the user registry answer, every message routine of the server
    ends, reads only what it has received, and leaves the registry sound. *)

From S2P Require Import Prelude RBTree RBModel RBRep RBSpec KeyedTree Authenticator SocksAddr AddrTheorems TaskSocket Socks5Client Socks5Server Handshake.

(** ** Blocks of received bytes *)

Lemma st16_ld16 b0 b1 : byte_ok b0 -> byte_ok b1 -> st16 (ld16 b0 b1) = [b0; b1] /\ 0 <= ld16 b0 b1 < 65536.
Proof.
  intros H0 H1. unfold ld16. rewrite Z.lor_comm, lor_shift_byte by done. unfold byte_ok in *.
  assert (0 <= b1 * 256 + b0 < 65536) as Hr by lia. split; [|done].
  destruct (st16_bytes (b1 * 256 + b0) Hr) as (_ & _ & El & Eh). unfold st16. rewrite El, Eh.
  f_equal; [|f_equal].
  - rewrite Z.add_comm, Z.mod_add by lia. apply Z.mod_small. lia.
  - symmetry. apply Z.div_unique with b0; lia.
Qed.

Lemma c_str_total l : exists n, c_str (l ++ [0]) = Some n.
Proof.
  induction l as [|b l [n IH]]; simpl; [eauto|]. destruct (b =? 0); [eauto|]. rewrite IH. simpl. eauto.
Qed.

Lemma list_snoc2 (l : list Z) n : length l = (n + 2)%nat -> exists a b0 b1, l = a ++ [b0; b1] /\ length a = n.
Proof.
  intros Hl. destruct (block_split l n) as (a & b & -> & Ha & Hb); [lia|]. rewrite length_app in *.
  destruct (list_2 b) as (b0 & b1 & ->); [lia|]. eauto.
Qed.

(** A resolved name is an IPv6 address. *)
Lemma resolve_spec_len p4 p6 gai nm family b g :
  resolver_ok p4 p6 gai -> resolve_spec p4 p6 gai nm family = Some (b, g) -> length b = 16%nat.
Proof.
  intros (H4 & H6 & Hg). unfold resolve_spec.
  destruct (p4 nm) as [c|] eqn:E4; [intros [= <- _]; specialize (H4 _ _ E4); simpl; lia|].
  destruct (p6 nm) as [c|] eqn:E6; [intros [= <- _]; by apply (H6 _ _ E6)|].
  destruct (gai nm family) as [[f c]|] eqn:Eg; [|done]. destruct (Hg _ _ _ _ Eg) as [Hg4 Hg6].
  destruct (Z.eqb_spec f AF_INET); [intros [= <- _]; simpl; rewrite Hg4; done|].
  destruct (Z.eqb_spec f AF_INET6); [intros [= <- _]; auto|done].
Qed.

(** Any complete address is decoded without a fault, into a proper socket
    address, whatever follows it in memory. *)
Lemma into_total_app p4 p6 gai atype first body tail n saddr family :
  resolver_ok p4 p6 gai -> byte_ok first -> bytes_ok body -> Z.of_nat (length body) = n ->
  length (sin6_addr saddr) = 16%nat ->
  (if atype =? HEV_SOCKS5_ADDR_TYPE_IPV4 then Some 5
   else if atype =? HEV_SOCKS5_ADDR_TYPE_IPV6 then Some 17
   else if atype =? HEV_SOCKS5_ADDR_TYPE_NAME then Some (2 + first) else None) = Some n ->
  exists r sa fam, hev_socks5_addr_into_sockaddr6 p4 p6 gai (atype :: first :: body ++ tail) saddr family = Some (r, sa, fam) /\
    sockaddr_ok sa.
Proof.
  intros Hres Hf Hb Hl Hs Hty.
  destruct (Z.eqb_spec atype HEV_SOCKS5_ADDR_TYPE_IPV4) as [->|].
  { injection Hty as <-. destruct (list_snoc2 body 3) as (a & b0 & b1 & -> & Ha); [lia|].
    apply Forall_app in Hb as [_ Hb]. apply Forall_cons in Hb as [H0 Hb]. apply Forall_cons in Hb as [H1 _].
    destruct (st16_ld16 b0 b1 H0 H1) as [Hst Hp].
    pose proof (into_ipv4 p4 p6 gai (first :: a) (ld16 b0 b1) tail saddr family) as Hi.
    unfold enc_ipv4 in Hi. rewrite Hst in Hi. simpl in Hi. rewrite <-app_assoc in *. simpl in *. rewrite Hi by (done || lia).
    eexists _, _, _. split; [done|]. split; [|done]. simpl. rewrite Ha. done. }
  destruct (Z.eqb_spec atype HEV_SOCKS5_ADDR_TYPE_IPV6) as [->|].
  { injection Hty as <-. destruct (list_snoc2 body 15) as (a & b0 & b1 & -> & Ha); [lia|].
    apply Forall_app in Hb as [_ Hb]. apply Forall_cons in Hb as [H0 Hb]. apply Forall_cons in Hb as [H1 _].
    destruct (st16_ld16 b0 b1 H0 H1) as [Hst Hp].
    pose proof (into_ipv6 p4 p6 gai (first :: a) (ld16 b0 b1) tail saddr family) as Hi.
    unfold enc_ipv6 in Hi. rewrite Hst in Hi. simpl in Hi. rewrite <-app_assoc in *. simpl in *. rewrite Hi by (done || lia).
    eexists _, _, _. split; [done|]. split; [|done]. simpl. rewrite Ha. done. }
  destruct (Z.eqb_spec atype HEV_SOCKS5_ADDR_TYPE_NAME) as [->|]; [|done].
  injection Hty as <-. apply byte_range in Hf. destruct (list_snoc2 body (Z.to_nat first)) as (a & b0 & b1 & -> & Ha); [lia|].
  apply Forall_app in Hb as [_ Hb]. apply Forall_cons in Hb as [H0 Hb]. apply Forall_cons in Hb as [H1 _].
  unfold hev_socks5_addr_into_sockaddr6. rewrite <-app_assoc. simpl app.
  rewrite (peek1_at _ 0 HEV_SOCKS5_ADDR_TYPE_NAME [] (first :: a ++ b0 :: b1 :: tail)) by done. cbn [mbind option_bind].
  change (HEV_SOCKS5_ADDR_TYPE_NAME =? HEV_SOCKS5_ADDR_TYPE_IPV4) with false.
  change (HEV_SOCKS5_ADDR_TYPE_NAME =? HEV_SOCKS5_ADDR_TYPE_IPV6) with false. rewrite Z.eqb_refl. cbv iota.
  rewrite (peek1_at _ 1 first [HEV_SOCKS5_ADDR_TYPE_NAME] (a ++ b0 :: b1 :: tail)) by done. cbn [mbind option_bind].
  rewrite (peek_at _ _ _ [HEV_SOCKS5_ADDR_TYPE_NAME; first] a (b0 :: b1 :: tail)) by (done || lia). cbn [mbind option_bind].
  destruct (c_str_total a) as [nm ->]. cbn [mbind option_bind].
  destruct (st16_ld16 b0 b1 H0 H1) as [Hst Hp].
  rewrite (peek16_at _ _ ([HEV_SOCKS5_ADDR_TYPE_NAME; first] ++ a) tail (ld16 b0 b1))
    by (rewrite ?Hst; done || (simpl; lia)).
  cbn [mbind option_bind].
  destruct (name_into_ok p4 p6 gai nm (ntohs (ld16 b0 b1)) saddr family Hres Hs) as (x & Hx & ->).
  pose proof (fun b g => resolve_spec_len p4 p6 gai nm family b g Hres) as Hrl.
  destruct (resolve_spec p4 p6 gai nm family) as [[b g]|]; eexists _, _, _; (split; [done|]); split; simpl;
    try apply htons_bound; eauto.
Qed.

Lemma into_total p4 p6 gai atype first body n saddr family :
  resolver_ok p4 p6 gai -> byte_ok first -> bytes_ok body -> Z.of_nat (length body) = n ->
  length (sin6_addr saddr) = 16%nat ->
  (if atype =? HEV_SOCKS5_ADDR_TYPE_IPV4 then Some 5
   else if atype =? HEV_SOCKS5_ADDR_TYPE_IPV6 then Some 17
   else if atype =? HEV_SOCKS5_ADDR_TYPE_NAME then Some (2 + first) else None) = Some n ->
  exists r sa fam, hev_socks5_addr_into_sockaddr6 p4 p6 gai (atype :: first :: body) saddr family = Some (r, sa, fam) /\
    sockaddr_ok sa.
Proof. intros. rewrite <-(app_nil_r body). by eapply into_total_app. Qed.

(** ** The invariant of the server *)

(** The stream delivers bytes, the registry is sound, a user kept is alive. *)
Definition sv_inv (s : server) : Prop :=
  rx_ok (sk_rx (sv_sock s)) /\ (exists reg, au_inv (sv_auth s) reg) /\
  match sv_obj s with ObjUser q => is_Some (au_users (sv_auth s) !! q) | _ => True end.

(** Before a login. *)
Definition sv_fresh (s : server) : Prop :=
  sv_inv s /\ refs_low (sv_auth s) /\ match sv_obj s with ObjUser _ => False | _ => True end.

(** What the environment answers is well-formed. *)
Definition senv_ok (e : senv) : Prop :=
  resolver_ok (se_pton4 e) (se_pton6 e) (se_gai e) /\
  (forall n, se_tcpname e = Some n -> sockaddr_ok n) /\ (forall n, se_udpname e = Some n -> sockaddr_ok n).

(** ** One step *)

Lemma wp_recv n (Q : Z * list Z -> server -> Prop) s :
  rx_ok (sk_rx (sv_sock s)) -> 0 <= n ->
  (forall r got k, rx_ok (sk_rx k) -> bytes_ok got -> (r = n -> Z.of_nat (length got) = n) -> Q (r, got) (upd_sock k s)) ->
  wp (on_io (hev_task_io_socket_recv n MSG_WAITALL)) Q s.
Proof. intros Hrx Hn HQ. apply wp_zoom. by apply wp_sock_recv. Qed.

Lemma wp_send buf (Q : Z -> server -> Prop) s :
  rx_ok (sk_rx (sv_sock s)) -> (forall r k, rx_ok (sk_rx k) -> Q r (upd_sock k s)) ->
  wp (on_io (hev_task_io_socket_send buf MSG_WAITALL)) Q s.
Proof. intros Hrx HQ. apply wp_zoom. by apply wp_sock_send. Qed.

(** ** The messages *)

(** Only the socket moved. *)
Definition moved (s s' : server) : Prop := exists k, s' = upd_sock k s /\ rx_ok (sk_rx k).

Lemma moved_refl s : rx_ok (sk_rx (sv_sock s)) -> moved s s.
Proof. intros H. exists (sv_sock s). split; [by destruct s|done]. Qed.

Lemma moved_upd s k : rx_ok (sk_rx k) -> moved s (upd_sock k s).
Proof. by exists k. Qed.

Lemma moved_upd2 s k k' : rx_ok (sk_rx k') -> moved s (upd_sock k' (upd_sock k s)).
Proof. by exists k'. Qed.

Lemma moved_upd3 s k k' k'' : rx_ok (sk_rx k'') -> moved s (upd_sock k'' (upd_sock k' (upd_sock k s))).
Proof. by exists k''. Qed.

#[export] Hint Resolve moved_refl moved_upd moved_upd2 moved_upd3 : wp.

Lemma read_auth_method_safe s :
  rx_ok (sk_rx (sv_sock s)) ->
  wp hev_socks5_server_read_auth_method
    (fun r s' => moved s s' /\ (r = HEV_SOCKS5_AUTH_METHOD_USER -> has_auth (sv_obj s) = true)) s.
Proof.
  intros Hr. unfold hev_socks5_server_read_auth_method.
  wp_step. apply wp_recv; [done..|]. intros r a k Hk Ha Hl.
  wp_case; [|wp_end]. specialize (Hl e).
  wp_step. eapply (wp_peek1 a); [done..|]. intros ver _. wp_case; [|wp_end].
  wp_step. eapply (wp_peek1 a); [done..|]. intros n Hn. apply byte_range in Hn.
  wp_step. apply wp_recv; [done|lia|]. intros r' ms k' Hk' _ _. wp_case; [|wp_end].
  do 2 wp_step. wp_step. split; [eauto with wp|]. simpl. case_match; [|done]. by destruct (has_auth (sv_obj s)).
Qed.

Lemma write_auth_method_safe s m :
  rx_ok (sk_rx (sv_sock s)) -> wp (hev_socks5_server_write_auth_method m) (fun _ s' => moved s s') s.
Proof.
  intros Hr. unfold hev_socks5_server_write_auth_method. wp_step. apply wp_send; [done|]. intros r k Hk.
  wp_case; wp_end.
Qed.

Lemma write_auth_user_safe s m :
  rx_ok (sk_rx (sv_sock s)) -> wp (hev_socks5_server_write_auth_user m) (fun _ s' => moved s s') s.
Proof.
  intros Hr. unfold hev_socks5_server_write_auth_user. wp_step. apply wp_send; [done|]. intros r k Hk.
  wp_case; wp_end.
Qed.

Lemma moved_inv s s' : sv_inv s -> moved s s' -> sv_inv s'.
Proof. intros (_ & Hi) (k & -> & Hk). by split. Qed.

Lemma moved_fresh s s' : sv_fresh s -> moved s s' -> sv_fresh s'.
Proof. intros [Hi Hf] Hm. split; [by eapply moved_inv|]. by destruct Hm as (k & -> & _). Qed.

#[export] Hint Resolve moved_inv moved_fresh : wp.

(** The registry is asked for a login without a fault. *)
Lemma check_user_safe s name pass nlen plen :
  sv_fresh s -> has_auth (sv_obj s) = true ->
  0 <= nlen <= Z.of_nat (length name) -> 0 <= plen <= Z.of_nat (length pass) ->
  wp (check_user name pass nlen plen) (fun _ s' => sv_inv s') s.
Proof.
  intros [Hinv [Hlow Hnu]] Ha Hn Hp. pose proof Hinv as (Hr & (reg & Hi) & _).
  assert (sv_obj s = ObjAuth) as Ho by (destruct (sv_obj s); done).
  pose proof (check_user_ok s reg name pass nlen plen Hi Hlow Ho Hn Hp) as Hc.
  destruct (login_user _ _ _ _) as [q|]; [|by eapply wp_intro].
  destruct Hc as (a & n & Heq & Hi' & Hq). eapply wp_intro; [exact Heq|]. by split.
Qed.

Lemma read_auth_user_safe s :
  sv_fresh s -> has_auth (sv_obj s) = true ->
  wp hev_socks5_server_read_auth_user (fun _ s' => sv_inv s') s.
Proof.
  intros Hf Ha. pose proof Hf as [Hinv _]. pose proof Hinv as [Hr _]. unfold hev_socks5_server_read_auth_user.
  wp_step. apply wp_recv; [done..|]. intros r hd k Hk Hb Hl. wp_case; [|wp_end]. specialize (Hl e).
  wp_step. eapply (wp_peek1 hd); [done..|]. intros ver _. wp_case; [|wp_end].
  wp_step. eapply (wp_peek1 hd); [done..|]. intros nlen Hn. apply byte_range in Hn.
  wp_case; [wp_end|].
  wp_step. apply wp_recv; [done|lia|]. intros r' name k' Hk' Hb' Hl'. wp_case; [|wp_end]. specialize (Hl' e1).
  wp_step. eapply (wp_peek1 name); [done|exact Hl'|lia|]. intros plen Hp. apply byte_range in Hp.
  wp_case; [wp_end|].
  wp_step. apply wp_recv; [done|lia|]. intros r'' pass k'' Hk'' _ Hl''. wp_case; [|wp_end]. specialize (Hl'' e2).
  apply check_user_safe; [eauto with wp|done|lia|lia].
Qed.

Lemma server_auth_safe s : sv_fresh s -> wp hev_socks5_server_auth (fun _ s' => sv_inv s') s.
Proof.
  intros Hf. pose proof Hf as [Hinv _]. unfold hev_socks5_server_auth.
  wp_step. eapply wp_conseq; [apply read_auth_method_safe, Hinv|]. intros m s1 [H1 Hm].
  assert (sv_fresh s1) as Hf1 by eauto with wp. assert (has_auth (sv_obj s1) = has_auth (sv_obj s)) as Ho1 by (by destruct H1 as (k & -> & _)).
  wp_step. eapply wp_conseq; [apply write_auth_method_safe, Hf1|]. intros r s2 H2.
  assert (sv_fresh s2) as Hf2 by eauto with wp. assert (has_auth (sv_obj s2) = has_auth (sv_obj s1)) as Ho2 by (by destruct H2 as (k & -> & _)).
  wp_case; [wp_step; apply Hf2|]. wp_case; [wp_step; apply Hf2|]. wp_case; [|wp_step; apply Hf2].
  wp_step. eapply wp_conseq; [apply read_auth_user_safe; [done|]; rewrite Ho2, Ho1; auto|]. intros r1 s3 H3.
  wp_step. eapply wp_conseq; [apply write_auth_user_safe, H3|]. intros r2 s4 H4.
  wp_case; wp_end.
Qed.

(** ** The request *)

Lemma inv_base f s : sv_inv s -> sv_inv (upd_base f s).
Proof. done. Qed.

Lemma read_request_safe e rep addr s :
  sv_inv s -> senv_ok e -> sockaddr_ok addr ->
  wp (hev_socks5_server_read_request e rep addr)
    (fun r s' => sv_inv s' /\ sockaddr_ok (snd (snd r)) /\
       (0 <= fst r -> snd (fst (snd r)) = HEV_SOCKS5_RES_REP_SUCC -> is_Some (fst (fst (snd r))))) s.
Proof.
  intros Hinv He Hsa. pose proof Hinv as [Hr _]. unfold hev_socks5_server_read_request.
  wp_step. apply wp_recv; [done..|]. intros r req k Hk Hb Hl. wp_case; [|wp_end].
  specialize (Hl e0).
  wp_step. eapply (wp_peek1 req); [done..|]. intros ver _. wp_case; [|wp_end].
  wp_step. eapply (wp_peek1 req); [done..|]. intros atype _.
  wp_step. eapply (wp_peek1 req); [done..|]. intros first Hfi.
  destruct (if atype =? HEV_SOCKS5_ADDR_TYPE_IPV4 then _ else _) as [n|] eqn:Hty; [|wp_end].
  assert (0 <= n) as Hn by (apply byte_range in Hfi; repeat case_match; simplify_eq; lia).
  wp_step. apply wp_recv; [done..|]. intros r' body k' Hk' Hb' Hl'. wp_case; [|wp_end].
  specialize (Hl' e2). do 2 wp_step. wp_step.
  destruct (into_total (se_pton4 e) (se_pton6 e) (se_gai e) atype first body n addr
    (hev_socks5_get_addr_family (sv_base (upd_sock k' (upd_sock k s))))) as (ri & sa & fam & Heq & Hok); try done; [apply He|apply Hsa|].
  eapply wp_lift_opt; [exact Heq|]. cbv beta iota. wp_case; [wp_end|].
  wp_step. wp_step. wp_step. eapply (wp_peek1 req); [done..|]. intros cmd _. wp_step. simpl.
  split_and!; [apply inv_base; eauto with wp|done|eauto].
Qed.

Lemma udp_bind_ok e src : senv_ok e -> sockaddr_ok src -> sockaddr_ok (snd (hev_socks5_server_udp_bind e src)).
Proof.
  intros (_ & Htcp & Hudp) Hs. unfold hev_socks5_server_udp_bind. destruct (se_tcpname e) as [tn|]; [|done].
  specialize (Htcp tn eq_refl). destruct (se_udpbind e <? 0); [split; simpl; [apply Htcp|lia]|].
  destruct (se_udpname e) as [un|]; [by apply Hudp|split; simpl; [apply Htcp|lia]].
Qed.

Lemma dispatch_safe e cmd addr s :
  sv_inv s -> senv_ok e -> sockaddr_ok addr ->
  wp (server_dispatch e cmd addr) (fun r s' => sv_inv s' /\ sockaddr_ok (snd r)) s.
Proof.
  intros Hinv He Hsa. unfold server_dispatch. repeat wp_case.
  - wp_step. unfold hev_socks5_server_connect, server_close. repeat (wp_case || wp_step); by split.
  - wp_step. unfold hev_socks5_server_bind, server_close. pose proof (udp_bind_ok e addr He Hsa) as Hb.
    destruct (hev_socks5_server_udp_bind e addr) as [res src]. repeat (wp_case || wp_step); by split.
  - wp_step. unfold hev_socks5_server_bind. repeat (wp_case || wp_step); by split.
  - wp_step. by split.
Qed.

Lemma write_response_safe rep addr s :
  sv_inv s -> sockaddr_ok addr -> wp (hev_socks5_server_write_response rep addr) (fun _ s' => sv_inv s') s.
Proof.
  intros Hinv Hsa. unfold hev_socks5_server_write_response.
  destruct (from_sockaddr6_ok (replicate sizeof_addr 0) addr) as (rest & Heq);
    [rewrite length_replicate; unfold sizeof_addr; lia|done|].
  wp_step. eapply wp_lift_opt; [exact Heq|]. cbv beta iota.
  wp_step. eapply wp_lift_opt; [by apply (peek_at _ _ _ [] (enc_sockaddr addr) rest)|].
  wp_step. apply wp_send; [apply Hinv|]. intros r k Hk. wp_case; wp_end.
Qed.

(** ** The handshake, and the end of the object *)

Lemma handshake_safe e s :
  sv_fresh s -> senv_ok e -> wp (hev_socks5_server_handshake e) (fun _ s' => sv_inv s') s.
Proof.
  intros Hf He. unfold hev_socks5_server_handshake. do 2 wp_step. wp_step.
  eapply wp_conseq; [apply server_auth_safe; exact Hf|]. intros r s1 H1. wp_case; [by wp_step|].
  wp_step. eapply wp_conseq; [apply (read_request_safe e HEV_SOCKS5_RES_REP_SUCC sockaddr_zero); [done..|by split]|].
  intros [res [[cmd rep] addr]] s2 (H2 & Ha & Hc). simpl in Ha, Hc. cbv beta iota. wp_case; [by wp_step|].
  wp_step. apply (wp_conseq _ (fun r s' => sv_inv s' /\ sockaddr_ok (snd r))).
  - wp_case; [|by wp_step]. destruct Hc as [c ->]; [lia|done|]. wp_step. eapply wp_lift_opt; [done|].
    by apply dispatch_safe.
  - intros [rep' addr'] s3 [H3 Ha3]. cbv beta iota. wp_step.
    eapply wp_conseq; [by apply write_response_safe|]. intros r3 s4 H4.
    destruct (_ || _); by wp_step.
Qed.

(** The object can always be destroyed. *)
Lemma destruct_safe s : sv_inv s -> wp hev_socks5_server_destruct (fun _ _ => True) s.
Proof.
  intros (Hr & (reg & Hi) & Ho). unfold hev_socks5_server_destruct, server_close. do 4 wp_step.
  assert (forall (b : bool) f (Q : unit -> server -> Prop) s, (forall l, Q tt (upd_closed l s)) -> Q tt s ->
    wp (if b then modify (fun s => upd_closed (f s) s) else ret tt) Q s) as Hcl.
  { intros [] f Q s' H1 H2; wp_step; auto. }
  assert (forall s', sv_auth s' = sv_auth s -> sv_obj s' = sv_obj s ->
    wp (let* o := gets sv_obj in obj_unref o;; modify (fun s => upd_closed (sv_closed s ++ hev_socks5_destruct (sv_base s)) s))
      (fun _ _ => True) s') as Hlast.
  { intros s' Ea Eo. do 2 wp_step. wp_step. apply (wp_conseq _ (fun _ _ => True)); [|intros [] s2 _; by wp_step].
    rewrite Eo. destruct (sv_obj s) as [| |q]; simpl; [done| |].
    - destruct (auth_unref_ok s' reg) as (a & n & Heq & _); [by rewrite Ea|]. by eapply wp_intro.
    - destruct Ho as [u Hu]. unfold wp, on_auth, zoom, hev_object_unref, bind, load_user. rewrite Ea, Hu. simpl.
      by destruct (1 <? us_ref u). }
  wp_step. apply Hcl; intros; wp_step; (apply Hcl; intros; by apply Hlast).
Qed.
