(* ===== verification/UdpDatagrams.v ===== *)
(** * Datagrams with a SOCKS5 header

    How the parser splits what it is given: every datagram is cut inside its own
    bytes or refused, and a datagram that was put together by the sender is split
    into the address and the payload it was made of. *)

From S2P Require Import Prelude SocksAddr AddrTheorems TaskSocket TaskMsg Socks5Client Socks5Udp Handshake HandshakeSafe UdpFrames.

(** ** One datagram *)

Definition block_ok (b : list Z) : Prop := Z.of_nat (length b) = UDP_BUF_SIZE /\ bytes_ok b.

(** The part of a datagram that was stored. *)
Definition stored (d : list Z) : list Z := take (Z.to_nat UDP_BUF_SIZE) d.

(** A message after parsing its datagram. *)
Definition parsed (m : recv_msg) (d : list Z) : Prop :=
  block_ok (rm_block m) /\ take (length (stored d)) (rm_block m) = stored d /\
  (rm_addr m = AddrNull /\ rm_len m = 0 /\ (length d < 4)%nat \/
   exists n, hev_socks5_addr_len (drop 3 (rm_block m)) = Some n /\ 0 < n /\
     rm_addr m = AddrAt 3 /\ rm_off m = 3 + n /\ rm_len m = Z.of_nat (length (stored d)) - (3 + n) /\ 0 <= rm_len m).

Lemma store_ok b d :
  block_ok b -> bytes_ok d ->
  exists b', store_dgram (RecvMsg b 0 UDP_BUF_SIZE AddrUnset) d =
      Some (RecvMsg b' 0 UDP_BUF_SIZE AddrUnset, Z.of_nat (length (stored d))) /\
    block_ok b' /\ b' = stored d ++ drop (length (stored d)) b.
Proof.
  intros [Hl Hb] Hd. unfold store_dgram. cbn [rm_len rm_block rm_off rm_addr]. fold (stored d).
  assert (length (stored d) <= length b)%nat as Hsl by (unfold stored, UDP_BUF_SIZE in *; rewrite length_take; lia).
  rewrite (poke_at _ _ _ [] (take (length (stored d)) b) (drop (length (stored d)) b));
    [|by rewrite take_drop|done|rewrite length_take; lia].
  cbn [mbind option_bind app]. eexists. split; [done|]. split; [|done]. split.
  - rewrite length_app, length_drop. lia.
  - apply Forall_app. split; [by apply Forall_take|by apply Forall_drop].
Qed.

Lemma addr_len_total b : block_ok b -> exists n, hev_socks5_addr_len (drop 3 b) = Some n.
Proof.
  intros [Hl Hb]. unfold UDP_BUF_SIZE in Hl.
  destruct (peek1_recv (drop 3 b) (Z.of_nat (length (drop 3 b))) 0) as (ty & E0 & _); [by apply Forall_drop|done|rewrite length_drop; lia|].
  destruct (peek1_recv (drop 3 b) (Z.of_nat (length (drop 3 b))) 1) as (len & E1 & _); [by apply Forall_drop|done|rewrite length_drop; lia|].
  unfold hev_socks5_addr_len. rewrite E0. cbn [mbind option_bind]. rewrite E1. cbn [mbind option_bind].
  repeat case_match; eauto.
Qed.

(** A datagram whose address lies inside what is stored. *)
Definition proper (d : list Z) : Prop :=
  exists n, hev_socks5_addr_len (drop 3 (stored d)) = Some n /\ 0 < n /\ 3 + n <= Z.of_nat (length (stored d)).

(** ** A batch *)

Lemma store_dgrams_ok blks ds :
  Forall block_ok blks -> Forall bytes_ok ds -> (length ds <= length blks)%nat ->
  exists bs, store_dgrams (fresh_msgs blks) ds =
      Some (fresh_msgs (bs ++ drop (length ds) blks), (fun d => Z.of_nat (length (stored d))) <$> ds) /\
    Forall2 (fun b d => block_ok b /\ exists b0, b = stored d ++ drop (length (stored d)) b0) bs ds.
Proof.
  intros Hb Hd. revert blks Hb. induction Hd as [|d ds Hd Hds IH]; intros blks Hb Hl; [by exists []; destruct blks|].
  destruct blks as [|b blks]; [simpl in Hl; lia|]. apply Forall_cons in Hb as [Hb Hbs].
  destruct (store_ok b d Hb Hd) as (b' & E & Hb' & Hv). destruct (IH blks Hbs) as (bs & E2 & HF); [simpl in Hl; lia|].
  exists (b' :: bs). split; [|constructor; eauto]. cbn [store_dgrams fresh_msgs fmap list_fmap]. rewrite E. cbn [mbind option_bind].
  unfold fresh_msgs in E2. rewrite E2. done.
Qed.

(** The parser splits every datagram inside its own bytes, or refuses the batch. *)
Lemma parse_ok fin bs ds rest :
  Forall2 (fun b d => block_ok b /\ exists b0, b = stored d ++ drop (length (stored d)) b0) bs ds ->
  exists ok msgs, parse_dgrams fin (fresh_msgs (bs ++ rest)) ((fun d => Z.of_nat (length (stored d))) <$> ds) = Some (ok, fin ++ msgs) /\
    (ok = true -> exists ms, msgs = ms ++ fresh_msgs rest /\ Forall2 parsed ms ds) /\
    (Forall proper ds -> ok = true).
Proof.
  intros HF. revert fin. induction HF as [|b d bs ds (Hb & b0 & Hv) HF IH]; intros fin.
  { exists true, (fresh_msgs rest). split_and!; [by destruct rest| |done]. intros _. exists []. by split; [|constructor]. }
  destruct (addr_len_total b Hb) as [n Hn]. cbn [parse_dgrams fresh_msgs app fmap list_fmap]. cbn [rm_off rm_block rm_addr].
  change (Z.to_nat 0 + 3)%nat with 3%nat. rewrite Hn. cbn [mbind option_bind].
  assert (take (length (stored d)) b = stored d) as Htk by (rewrite Hv; by rewrite take_app_length).
  assert (proper d -> 0 < n /\ 3 + n <= Z.of_nat (length (stored d))) as Hpr.
  { intros (n' & Hn' & Hp & Hle). rewrite Hv, drop_app_le in Hn by lia. rewrite (addr_len_app _ _ _ Hn') in Hn. by simplify_eq. }
  assert (forall m, parsed m d -> exists ok msgs,
    parse_dgrams (fin ++ [m]) (fresh_msgs (bs ++ rest)) ((fun d => Z.of_nat (length (stored d))) <$> ds) = Some (ok, fin ++ msgs) /\
    (ok = true -> exists ms, msgs = ms ++ fresh_msgs rest /\ Forall2 parsed ms (d :: ds)) /\ (Forall proper (d :: ds) -> ok = true)) as Hgo.
  { intros m Hm. destruct (IH (fin ++ [m])) as (ok & msgs & E & Hok & Hpok). exists ok, (m :: msgs).
    split_and!; [rewrite E; by rewrite <-app_assoc| |by intros [_ ?]%Forall_cons; auto].
    intros Ht. destruct (Hok Ht) as (ms & -> & HF'). exists (m :: ms). split; [done|by constructor]. }
  destruct (Z.ltb_spec (Z.of_nat (length (stored d))) 4) as [H4|H4].
  { apply Hgo. split; [done|]. split; [done|]. left. split_and!; try done.
    unfold stored, UDP_BUF_SIZE in H4. rewrite length_take in H4. lia. }
  destruct (Z.leb_spec n 0); [eexists false, _; split_and!; [done|done|intros [?%Hpr _]%Forall_cons; lia]|].
  destruct (Z.ltb_spec (Z.of_nat (length (stored d))) (3 + n));
    [eexists false, _; split_and!; [done|done|intros [?%Hpr _]%Forall_cons; lia]|].
  apply Hgo. split; [done|]. split; [done|]. right. exists n. split_and!; try done. simpl. lia.
Qed.

(** ** The receiver and the forwarder *)

Definition drx_ok (evs : list (drx_event sockaddr_in6)) : Prop :=
  Forall (fun e => match e with DrBatch ds => Forall (fun d => bytes_ok d.2) ds | _ => True end) evs.

(** A batch: as many datagrams as there are buffers are taken, and all of them are
    split when every address lies inside its datagram. *)
Lemma recv_batch conn u blks ds evs :
  dk_rx (ud_dgram u) = DrBatch ds :: evs -> Forall (fun d => bytes_ok d.2) ds -> Forall block_ok blks ->
  exists r msgs u', hev_socks5_udp_recvmmsg_udp conn true (fresh_msgs blks) u = Some ((r, msgs), u') /\
    (0 < r -> exists ms rest, msgs = ms ++ fresh_msgs rest /\ Forall2 parsed ms (take (Z.to_nat r) (snd <$> ds)) /\
      r = Z.min (Z.of_nat (length blks)) (Z.of_nat (length ds))) /\
    (s5_udp_associated (ud_base u) = true \/ 0 <= conn -> Forall proper (snd <$> ds) ->
      r = Z.min (Z.of_nat (length blks)) (Z.of_nat (length ds))) /\
    dk_rx (ud_dgram u') = match drop (length blks) ds with [] => evs | l => DrBatch l :: evs end.
Proof.
  intros Erx Hds Hb. unfold hev_socks5_udp_recvmmsg_udp, fresh_msgs. rewrite length_fmap. fold (fresh_msgs blks).
  erewrite bind_Some by (unfold on_dgram, zoom, hev_task_io_socket_recvmmsg; rewrite Erx; cbn; reflexivity). cbv beta iota.
  rewrite Z.sub_0_r. set (r := Z.min (Z.of_nat (length blks)) (Z.of_nat (length ds))) in *.
  assert (drop (Z.to_nat r) ds = drop (length blks) ds) as Hdr.
  { destruct (decide (length blks <= length ds)%nat); [by replace (Z.to_nat r) with (length blks) by lia|].
    rewrite !drop_ge by lia. done. }
  rewrite Hdr. destruct (Z.leb_spec r 0); [eexists _, _, _; split_and!; [reflexivity|lia|done|done]|].
  set (ds' := snd <$> take (Z.to_nat r) ds).
  assert (length ds' = Z.to_nat r) as Hl by (unfold ds'; rewrite length_fmap, length_take; lia).
  destruct (store_dgrams_ok blks ds') as (bs & E & HF); [done| |lia|].
  { unfold ds'. apply Forall_fmap. apply Forall_take. exact Hds. }
  erewrite bind_Some by (unfold lift_opt; rewrite E; reflexivity). cbv beta iota. erewrite bind_Some by done.
  destruct (_ && _) eqn:Eas.
  { apply andb_prop in Eas as [E1%negb_true_iff E2%Z.ltb_lt]. cbn in E1.
    eexists _, _, _; split_and!; [reflexivity|lia| |done]. intros [|]; [congruence|lia]. }
  erewrite bind_Some by done.
  destruct (parse_ok [] bs ds' (drop (length ds') blks) HF) as (ok & msgs & E2 & Hok & Hpr).
  erewrite bind_Some by (unfold lift_opt; rewrite E2; reflexivity). cbv beta iota.
  eexists _, _, _. split; [reflexivity|]. split_and!; [| |done].
  - destruct ok; [|lia]. intros _. destruct (Hok eq_refl) as (ms & -> & HF2).
    exists ms, (drop (length ds') blks). split_and!; [done| |lia]. unfold ds' in HF2. by rewrite fmap_take in HF2.
  - intros _ Hp. rewrite Hpr; [done|]. unfold ds'. rewrite fmap_take. by apply Forall_take.
Qed.

Lemma recv_udp_ok conn u blks :
  drx_ok (dk_rx (ud_dgram u)) -> Forall block_ok blks ->
  exists r msgs u', hev_socks5_udp_recvmmsg_udp conn true (fresh_msgs blks) u = Some ((r, msgs), u') /\
    (0 < r -> exists ms ds rest, msgs = ms ++ fresh_msgs rest /\ Forall2 parsed ms ds /\ r = Z.of_nat (length ds)).
Proof.
  intros Hev Hb. destruct (dk_rx (ud_dgram u)) as [|[ds| | |] evs] eqn:Erx.
  2:{ apply Forall_cons in Hev as [Hds _].
      destruct (recv_batch conn u blks ds evs Erx Hds Hb) as (r & msgs & u' & E & Hr & _).
      exists r, msgs, u'. split; [exact E|]. intros Hp. destruct (Hr Hp) as (ms & rest & -> & HF & Hle).
      eexists ms, _, rest. split_and!; [done|exact HF|]. rewrite length_take, length_fmap. lia. }
  all: unfold hev_socks5_udp_recvmmsg_udp;
    erewrite bind_Some by (unfold on_dgram, zoom, hev_task_io_socket_recvmmsg; rewrite Erx; reflexivity);
    eexists _, _, _; split; [reflexivity|]; done.
Qed.

(** The length of an address whose length is known. *)
Lemma addr_len_inv atype first body n :
  hev_socks5_addr_len (atype :: first :: body) = Some n -> 0 < n -> byte_ok first ->
  0 <= n - 2 <= 257 /\
  (if atype =? HEV_SOCKS5_ADDR_TYPE_IPV4 then Some 5
   else if atype =? HEV_SOCKS5_ADDR_TYPE_IPV6 then Some 17
   else if atype =? HEV_SOCKS5_ADDR_TYPE_NAME then Some (2 + first) else None) = Some (n - 2).
Proof.
  unfold hev_socks5_addr_len. rewrite (peek1_at _ 0 atype [] (first :: body)) by done. cbn [mbind option_bind].
  intros Hn Hp Hf. apply byte_range in Hf. rewrite (peek1_at _ 1 first [atype] body) in Hn by done. cbn [mbind option_bind] in Hn.
  repeat case_match; simplify_eq; (split; [lia|]); try done; f_equal; lia.
Qed.

(** The destinations of what was split are computed without a fault. *)
Lemma forward_vec_ok e family ms ds rest :
  resolver_ok (ue_pton4 e) (ue_pton6 e) (ue_gai e) -> Forall2 parsed ms ds ->
  exists v, forward_vec e family (ms ++ rest) (length ms) = Some v.
Proof.
  intros Hres HF. induction HF as [|m d ms ds (Hb & _ & Hm) HF [v IH]]; [eexists; reflexivity|].
  cbn [forward_vec app length]. destruct Hm as [(_ & -> & _)|(n & Hn & Hp & Ha & Ho & Hl & Hge)]; [by eexists|].
  destruct (rm_len m =? 0); [by eexists|]. unfold msg_addr. rewrite Ha. cbn [mbind option_bind].
  change (Z.to_nat 3) with 3%nat. destruct Hb as [Hbl Hbb]. unfold UDP_BUF_SIZE in Hbl.
  assert (length (drop 3 (rm_block m)) = 1497)%nat as Hd by (rewrite length_drop; lia).
  assert (length (stored d) <= 1500)%nat as Hsl by (unfold stored, UDP_BUF_SIZE; rewrite length_take; lia).
  assert (bytes_ok (drop 3 (rm_block m))) as Hdb by (by apply Forall_drop).
  assert (exists v, peek (rm_block m) (rm_off m) (rm_len m) = Some v) as [dat Hdat].
  { unfold peek. rewrite !(proj2 (Z.leb_le _ _)) by lia. cbn [andb]. eauto. }
  destruct (drop 3 (rm_block m)) as [|atype [|first body]] eqn:Eb; [simpl in Hd; lia..|].
  apply Forall_cons in Hdb as [_ Hdb]. apply Forall_cons in Hdb as [Hfi Hdb].
  destruct (addr_len_inv _ _ _ _ Hn Hp Hfi) as [Hn2 Hty].
  destruct (into_total_app (ue_pton4 e) (ue_pton6 e) (ue_gai e) atype first (take (Z.to_nat (n - 2)) body)
    (drop (Z.to_nat (n - 2)) body) (n - 2) sockaddr_zero family) as (r & sa & fam & E & _); try done.
  { by apply Forall_take. }
  { rewrite length_take. simpl in Hd. lia. }
  rewrite take_drop in E.
  rewrite E. cbn [mbind option_bind]. destruct (r <? 0); [by eexists|]. rewrite Hdat. cbn [mbind option_bind].
  rewrite IH. cbn [mbind option_bind]. by eexists.
Qed.

(** ** Datagrams of the sender *)

Definition dgram (m : list Z * list Z) : list Z := [0; 0; 0] ++ m.1 ++ m.2.

Lemma udp_iov_raw rs :
  Forall raw_ok rs ->
  exists mv vs, udp_udp_iov (to_send <$> rs) = Some (Some mv) /\ mapM gather mv = Some vs /\
    (@concat Z) <$> vs = (fun r => dgram (msg_of r)) <$> rs.
Proof.
  induction 1 as [|r rs (Hlen & Hpk & Hl2) _ (mv & vs & E1 & E2 & E3)]; [by exists [], []|].
  eexists _, ([udp_hdr 0 0; (msg_of r).1; r.2] :: vs). split_and!.
  - cbn [udp_udp_iov fmap list_fmap to_send sm_addr]. rewrite Hlen. cbn [mbind option_bind].
    rewrite (proj2 (Z.leb_gt _ 0)) by lia. fold (to_send <$> rs). rewrite E1. reflexivity.
  - cbn [mapM]. unfold to_send at 1 2. cbn [sm_buf sm_len fst snd].
    assert (gather [(udp_hdr 0 0, 3); (r.1, Z.of_nat (length (msg_of r).1)); (r.2, Z.of_nat (length r.2))] = Some [udp_hdr 0 0; (msg_of r).1; r.2]) as ->.
    { unfold gather. cbn [mapM fst snd]. pose proof (peek_all (udp_hdr 0 0)) as Hp. change (Z.of_nat (length (udp_hdr 0 0))) with 3 in Hp. by rewrite Hp, Hpk, peek_all. }
    cbn [mbind option_bind]. rewrite E2. reflexivity.
  - cbn [fmap list_fmap]. fold ((@concat Z) <$> vs) ((fun r => dgram (msg_of r)) <$> rs). rewrite E3. unfold dgram at 1. cbn [concat fst snd].
    by rewrite app_nil_r.
Qed.

Lemma udp_iov_ok ms :
  Forall (fun m : list Z * list Z => addr_wf m.1) ms ->
  exists mv vs, udp_udp_iov (to_send <$> ms) = Some (Some mv) /\ mapM gather mv = Some vs /\
    (@concat Z) <$> vs = dgram <$> ms.
Proof.
  intros Hms. destruct (udp_iov_raw ms) as (mv & vs & E1 & E2 & E3); [by eapply Forall_impl; [exact Hms|apply wf_raw]|].
  exists mv, vs. split_and!; try done. rewrite E3. apply list_fmap_ext. intros i m Hm. f_equal. apply wf_msg. by eapply Forall_lookup_1 in Hms.
Qed.

(** A datagram that fits is split into what it was made of. *)
Lemma parsed_dgram m a d :
  parsed m (dgram (a, d)) -> addr_wf a -> Z.of_nat (3 + length a + length d) <= UDP_BUF_SIZE ->
  rm_addr m = AddrAt 3 /\ rm_len m = Z.of_nat (length d) /\ take (length a) (drop 3 (rm_block m)) = a /\
  peek (rm_block m) (rm_off m) (rm_len m) = Some d.
Proof.
  intros (Hb & Htk & Hm) Hwf Hfit. pose proof (addr_wf_long a Hwf) as Hl2.
  assert (stored (dgram (a, d)) = dgram (a, d)) as Hst.
  { unfold stored. apply take_ge. unfold dgram. rewrite !length_app. simpl. unfold UDP_BUF_SIZE in *. lia. }
  rewrite Hst in *. assert (length (dgram (a, d)) = 3 + length a + length d)%nat as Hdl by (unfold dgram; rewrite !length_app; simpl; lia).
  rewrite Hdl in *. destruct Hm as [(_ & _ & Hlt)|(n & Hn & Hp & Ha & Ho & Hlen & _)]; [lia|].
  remember (drop (3 + length a + length d) (rm_block m)) as tail eqn:Etl.
  assert (rm_block m = [0; 0; 0] ++ a ++ d ++ tail) as Eb.
  { rewrite <-(take_drop (3 + length a + length d) (rm_block m)), Htk, <-Etl. unfold dgram. cbn [fst snd]. by rewrite <-!app_assoc. }
  rewrite Eb in Hn |- *. clear Htk Eb Etl. simpl drop in *.
  destruct a as [|a0 [|a1 a]]; [simpl in Hl2; lia..|].
  assert (n = Z.of_nat (length (a0 :: a1 :: a))) as ->.
  { destruct Hwf as (_ & Hal & _). unfold hev_socks5_addr_len in *. cbn [app] in Hn.
    rewrite (peek1_at _ 0 a0 [] (a1 :: a ++ d ++ tail)) in Hn by done.
    rewrite (peek1_at _ 0 a0 [] (a1 :: a)) in Hal by done. cbn [mbind option_bind] in *.
    rewrite (peek1_at _ 1 a1 [a0] (a ++ d ++ tail)) in Hn by done.
    rewrite (peek1_at _ 1 a1 [a0] a) in Hal by done. cbn [mbind option_bind] in *. congruence. }
  split_and!; [done|rewrite Hlen; lia|exact (take_app_length (a0 :: a1 :: a) (d ++ tail))|].
  apply (peek_at _ _ _ ([0; 0; 0] ++ a0 :: a1 :: a) d tail); [by rewrite <-!app_assoc|rewrite Ho, length_app; simpl; lia|lia].
Qed.

(** A message and a datagram that was put together by the sender. *)
Definition dgram_fits (m : list Z * list Z) : Prop :=
  addr_wf m.1 /\ bytes_ok m.2 /\ Z.of_nat (3 + length m.1 + length m.2) <= UDP_BUF_SIZE.

(** What the parser hands out for it. *)
Definition dgram_delivered (r : recv_msg) (m : list Z * list Z) : Prop :=
  rm_addr r = AddrAt 3 /\ rm_len r = Z.of_nat (length m.2) /\ take (length m.1) (drop 3 (rm_block r)) = m.1 /\
  peek (rm_block r) (rm_off r) (rm_len r) = Some m.2.

Lemma dgram_stored m : dgram_fits m -> stored (dgram m) = dgram m /\ bytes_ok (dgram m) /\ proper (dgram m).
Proof.
  destruct m as [a d]. intros (Hwf & Hd & Hl). cbn [fst snd] in *.
  assert (length (dgram (a, d)) = 3 + length a + length d)%nat as Hdl by (unfold dgram; rewrite !length_app; simpl; lia).
  assert (stored (dgram (a, d)) = dgram (a, d)) as Hst by (apply take_ge; unfold UDP_BUF_SIZE in *; lia).
  pose proof (addr_wf_long a Hwf). destruct Hwf as (Hb & Hal & _). split_and!; [done| |].
  - unfold dgram. cbn [fst snd]. apply Forall_app. split; [by repeat constructor|by apply Forall_app].
  - unfold proper. rewrite Hst. exists (Z.of_nat (length a)). split_and!; [by apply addr_len_app|lia|lia].
Qed.

Lemma delivered_all got ms : Forall2 parsed got (dgram <$> ms) -> Forall dgram_fits ms -> Forall2 dgram_delivered got ms.
Proof.
  revert got. induction ms as [|[a d] ms IH]; intros got HF Hfit; inv HF; [constructor|].
  apply Forall_cons in Hfit as [(Hwf & Hd & Hl) Hfit]. constructor; [|by apply IH]. by apply parsed_dgram.
Qed.
