(* ===== verification/ClientSafe.v ===== *)
(** * The client never faults

    Whatever a server answers, the handshake of a client ends and reads only what
    it has received, and a handshake that succeeds has freed every address block
    it allocated or took over. *)

From S2P Require Import Prelude KeyedTree SocksAddr AddrTheorems TaskSocket Socks5Client Handshake HandshakeSafe.

(** ** Accounting of the address blocks *)

(** The block the object itself still holds, and the blocks nobody holds. *)
Definition owned (c : client) : Z := match cl_addr c with Some _ => 1 | None => 0 end.
Definition balance (c : client) : Z := cl_live c - owned c.

Definition cl_rx (c : client) : Prop := rx_ok (sk_rx (cl_sock c)).

(** What a request needs: a destination, or memory for one. *)
Definition can_request (e : cenv) (c : client) : Prop :=
  match cl_class c with
  | ClientTCP => exists a, cl_addr c = Some a /\ addr_wf a
  | ClientUDP => cl_addr c = None /\ e_malloc e = true /\ (s5_addr_family (cl_base c) = HEV_SOCKS5_ADDR_FAMILY_IPV4 \/
                  s5_addr_family (cl_base c) = HEV_SOCKS5_ADDR_FAMILY_IPV6)
  end.

(** Only the socket moved. *)
Definition cl_moved (c c' : client) : Prop := exists k, c' = with_sock k c /\ rx_ok (sk_rx k).

Lemma cl_moved_rx c c' : cl_moved c c' -> cl_rx c'.
Proof. by intros (k & -> & Hk). Qed.
Lemma cl_moved_can e c c' : cl_moved c c' -> can_request e c -> can_request e c'.
Proof. by intros (k & -> & Hk). Qed.
Lemma cl_moved_balance c c' : cl_moved c c' -> balance c' = balance c.
Proof. by intros (k & -> & Hk). Qed.
Lemma cl_moved_with c k : rx_ok (sk_rx k) -> cl_moved c (with_sock k c).
Proof. by exists k. Qed.
Lemma cl_moved_with2 c k k' : rx_ok (sk_rx k') -> cl_moved c (with_sock k' (with_sock k c)).
Proof. by exists k'. Qed.
Lemma cl_moved_refl c : cl_rx c -> cl_moved c c.
Proof. intros H. exists (cl_sock c). split; [by destruct c|done]. Qed.

#[export] Hint Resolve cl_moved_rx cl_moved_can cl_moved_with cl_moved_with2 cl_moved_refl : wp.

(** ** One step *)

Lemma wp_cl_recv n (Q : Z * list Z -> client -> Prop) c :
  cl_rx c -> 0 <= n ->
  (forall r got k, rx_ok (sk_rx k) -> bytes_ok got -> (r = n -> Z.of_nat (length got) = n) -> Q (r, got) (with_sock k c)) ->
  wp (on_sock (hev_task_io_socket_recv n MSG_WAITALL)) Q c.
Proof. intros Hrx Hn HQ. apply wp_zoom. by apply wp_sock_recv. Qed.

Lemma wp_cl_send buf (Q : Z -> client -> Prop) c :
  cl_rx c -> (forall r k, rx_ok (sk_rx k) -> Q r (with_sock k c)) ->
  wp (on_sock (hev_task_io_socket_send buf MSG_WAITALL)) Q c.
Proof. intros Hrx HQ. apply wp_zoom. by apply wp_sock_send. Qed.

Lemma wp_cl_sendmsg iov (Q : Z -> client -> Prop) c :
  cl_rx c -> (forall r k, rx_ok (sk_rx k) -> Q r (with_sock k c)) ->
  wp (on_sock (hev_task_io_socket_sendmsg iov MSG_WAITALL)) Q c.
Proof. intros Hrx HQ. apply wp_zoom. by apply wp_sock_sendmsg. Qed.

(** ** The messages *)

Lemma write_methods_safe c : cl_rx c -> wp hev_socks5_client_write_auth_methods (fun _ c' => cl_moved c c') c.
Proof.
  intros Hr. unfold hev_socks5_client_write_auth_methods. do 5 wp_step. apply wp_cl_send; [done|]. intros r k Hk.
  wp_case; wp_end.
Qed.

Lemma write_creds_safe c : cl_rx c -> wp hev_socks5_client_write_auth_creds (fun _ c' => cl_moved c c') c.
Proof.
  intros Hr. unfold hev_socks5_client_write_auth_creds. do 4 wp_step.
  destruct (cl_user c), (cl_pass c); try (by wp_end). wp_step. apply wp_cl_sendmsg; [done|]. intros r k Hk.
  wp_case; wp_end.
Qed.

Lemma read_method_safe c : cl_rx c -> wp hev_socks5_client_read_auth_method (fun _ c' => cl_moved c c') c.
Proof.
  intros Hr. unfold hev_socks5_client_read_auth_method. wp_step. apply wp_cl_recv; [done..|]. intros r a k Hk Hb Hl.
  wp_case; [|wp_end]. specialize (Hl e). wp_step. eapply (wp_peek1 a); [done..|]. intros ver _. wp_case; [|wp_end].
  eapply (wp_peek1 a); [done..|]. eauto with wp.
Qed.

Lemma read_creds_safe c : cl_rx c -> wp hev_socks5_client_read_auth_creds (fun _ c' => cl_moved c c') c.
Proof.
  intros Hr. unfold hev_socks5_client_read_auth_creds. wp_step. apply wp_cl_recv; [done..|]. intros r a k Hk Hb Hl.
  wp_case; [|wp_end]. specialize (Hl e). wp_step. eapply (wp_peek1 a); [done..|]. intros ver _. wp_case; [|wp_end].
  wp_step. eapply (wp_peek1 a); [done..|]. intros rep _. wp_case; wp_end.
Qed.

(** The tail of the request, on a complete address that was handed over. *)
Lemma send_request_safe c0 c a cmd :
  cl_rx c -> addr_wf a -> cl_addr c = None -> cl_live c = balance c0 + 1 ->
  wp (let* atype := lift_opt (peek1 a 0) in
      let* addrlen :=
        (if atype =? HEV_SOCKS5_ADDR_TYPE_IPV4 then ret (Some 7)
         else if atype =? HEV_SOCKS5_ADDR_TYPE_IPV6 then ret (Some 19)
         else if atype =? HEV_SOCKS5_ADDR_TYPE_NAME then
           let* len := lift_opt (peek1 a 1) in ret (Some (4 + len))
         else ret None) in
      match addrlen with
      | None => ret (-1)
      | Some addrlen =>
        let* body := lift_opt (peek a 0 addrlen) in
        let* r := on_sock (hev_task_io_socket_sendmsg [[HEV_SOCKS5_VERSION_5; cmd; 0]; body] MSG_WAITALL) in
        if r <=? 0 then ret (-1) else
        free_addr;;
        ret 0
      end) (fun r c' => cl_rx c' /\ (0 <= r -> balance c' = balance c0)) c.
Proof.
  intros Hr Hwf Hn Hl. destruct (addr_wf_len a Hwf) as (atype & H0 & Hb & Hcase).
  wp_step. eapply wp_lift_opt; [exact H0|].
  wp_step. apply (wp_conseq _ (fun l c' => l = Some (Z.of_nat (length a)) /\ c' = c)).
  { destruct Hcase as [[-> El]|[[-> El]|[-> (len & Hlen & El)]]]; [by rewrite El|by rewrite El|].
    change (HEV_SOCKS5_ADDR_TYPE_NAME =? HEV_SOCKS5_ADDR_TYPE_IPV4) with false.
    change (HEV_SOCKS5_ADDR_TYPE_NAME =? HEV_SOCKS5_ADDR_TYPE_IPV6) with false. rewrite Z.eqb_refl. cbv iota.
    wp_step. eapply wp_lift_opt; [exact Hlen|]. wp_step. by rewrite El. }
  intros l c' [-> ->]. wp_step. eapply wp_lift_opt; [exact Hb|].
  wp_step. apply wp_cl_sendmsg; [done|]. intros r k Hk. wp_case; [by wp_end|].
  unfold free_addr. do 3 wp_step. split; [done|]. intros _. unfold balance at 1, owned. simpl. rewrite Hn, Hl. lia.
Qed.

Lemma write_request_safe e c :
  cl_rx c -> can_request e c ->
  wp (hev_socks5_client_write_request e) (fun r c' => cl_rx c' /\ (0 <= r -> balance c' = balance c)) c.
Proof.
  intros Hr Hcan. unfold hev_socks5_client_write_request. do 2 wp_step.
  destruct (req_cmd _) as [cmd|]; [|by wp_end]. wp_step. unfold get_upstream_addr. do 2 wp_step.
  unfold can_request in Hcan. destruct (cl_class c) eqn:Ec.
  - destruct Hcan as (a & Ha & Hwf). unfold hev_socks5_client_tcp_get_upstream_addr.
    do 5 wp_step. wp_step. rewrite Ha. eapply wp_lift_opt; [done|].
    apply (send_request_safe c); try done. unfold balance, owned. rewrite Ha. simpl. lia.
  - destruct Hcan as (Hn & Hm & Hfam). unfold hev_socks5_client_udp_get_upstream_addr. do 4 wp_step.
    unfold hev_socks5_get_addr_family. rewrite Hm.
    destruct Hfam as [-> | ->]; repeat (wp_case; try done); do 4 wp_step; (eapply wp_lift_opt; [done|]);
      apply (send_request_safe c); try done; try (unfold balance, owned; simpl; rewrite Hn; lia);
      (split; [by apply (bool_decide_unpack _)|done]).
Qed.

Lemma read_response_safe e c :
  cl_rx c -> resolver_ok (e_pton4 e) (e_pton6 e) (e_gai e) ->
  wp (hev_socks5_client_read_response e) (fun _ c' => cl_rx c' /\ balance c' = balance c) c.
Proof.
  intros Hr Hres. unfold hev_socks5_client_read_response. wp_step. apply wp_cl_recv; [done..|]. intros r res k Hk Hb Hl.
  wp_case; [|wp_end]. specialize (Hl e0). wp_step. eapply (wp_peek1 res); [done..|]. intros ver _. wp_case; [|wp_end].
  wp_step. eapply (wp_peek1 res); [done..|]. intros rep _. wp_case; [|wp_end].
  wp_step. eapply (wp_peek1 res); [done..|]. intros atype _.
  destruct (if atype =? HEV_SOCKS5_ADDR_TYPE_IPV4 then _ else _) as [n|] eqn:Hty; [|wp_end].
  assert (1 <= n /\ (if atype =? HEV_SOCKS5_ADDR_TYPE_IPV4 then Some 5
   else if atype =? HEV_SOCKS5_ADDR_TYPE_IPV6 then Some 17 else None) = Some (n - 1)) as [Hn Hty']
   by (repeat case_match; simplify_eq; done).
  wp_step. apply wp_cl_recv; [done|lia|]. intros r' body k' Hk' Hb' Hl'. wp_case; [|wp_end]. specialize (Hl' e3).
  wp_step. apply (wp_conseq _ (fun _ c' => cl_rx c' /\ balance c' = balance c)); [|intros r2 c2 H2; wp_case; by wp_step].
  unfold set_upstream_addr, hev_socks5_client_tcp_set_upstream_addr. do 2 wp_step. simpl. destruct (cl_class c); [by wp_end|].
  unfold hev_socks5_client_udp_set_upstream_addr. do 2 wp_step. simpl. destruct (negb _); [by wp_end|]. do 2 wp_step.
  destruct body as [|first body]; [simpl in Hl'; lia|]. apply Forall_cons in Hb' as [Hfi Hb'].
  destruct (into_total (e_pton4 e) (e_pton6 e) (e_gai e) atype first body (n - 1) sockaddr_zero
    (hev_socks5_get_addr_family (cl_base (with_sock k' (with_sock k c))))) as (ri & sa & fam & Heq & _); try done;
    [simpl in Hl'; lia|revert Hty'; do 2 (destruct (_ =? _); [done|]); done|].
  wp_step. eapply wp_lift_opt; [exact Heq|]. cbv beta iota. unfold close_fd. repeat (wp_case || wp_step); done.
Qed.

(** ** The handshakes *)

Abbreviation finished c := (fun r c' => cl_rx c' /\ (0 <= r -> balance c' = balance c)).

(** Continue after a message that moved only the socket. *)
Lemma wp_moved (m : CM Z) c (Q : Z -> client -> Prop) :
  wp m (fun _ c' => cl_moved c c') c -> (forall r k, rx_ok (sk_rx k) -> Q r (with_sock k c)) -> wp m Q c.
Proof. intros Hm HQ. eapply wp_conseq; [exact Hm|]. intros r c' (k & -> & Hk). auto. Qed.

Lemma standard_safe e c :
  cl_rx c -> can_request e c -> resolver_ok (e_pton4 e) (e_pton6 e) (e_gai e) ->
  wp (hev_socks5_client_handshake_standard e) (finished c) c.
Proof.
  intros Hr Hcan Hres. unfold hev_socks5_client_handshake_standard.
  wp_step. apply wp_moved; [by apply write_methods_safe|]. intros r1 k1 Hk1. wp_case; [wp_step; by split; [|lia]|].
  wp_step. apply wp_moved; [by apply read_method_safe|]. intros r2 k2 Hk2. wp_case; [wp_step; by split; [|lia]|].
  wp_step. apply (wp_conseq _ (fun _ c' => cl_moved c c')).
  - wp_case; [|wp_step; by exists k2].
    wp_step. apply wp_moved; [by apply write_creds_safe|]. intros r3 k3 Hk3. wp_case; [wp_step; by exists k3|].
    wp_step. apply wp_moved; [by apply read_creds_safe|]. intros r4 k4 Hk4. wp_case; wp_step; by exists k4.
  - intros ok c' (k3 & -> & Hk3). destruct ok; cbn [negb]; [|wp_step; by split; [|lia]].
    wp_step. eapply wp_conseq; [by apply write_request_safe|]. intros r5 c5 [Hk5 B5].
    wp_case; [wp_step; split; [done|lia]|].
    wp_step. eapply wp_conseq; [by apply read_response_safe|]. intros r6 c6 [Hk6 B6].
    wp_case; wp_step; (split; [done|]); [lia|]. intros _. rewrite B6. by apply B5.
Qed.

Lemma pipeline_safe e c :
  cl_rx c -> can_request e c -> resolver_ok (e_pton4 e) (e_pton6 e) (e_gai e) ->
  wp (hev_socks5_client_handshake_pipeline e) (finished c) c.
Proof.
  intros Hr Hcan Hres. unfold hev_socks5_client_handshake_pipeline.
  wp_step. apply wp_moved; [by apply write_methods_safe|]. intros r1 k1 Hk1. wp_case; [wp_step; by split; [|lia]|].
  wp_step. apply wp_moved; [by apply write_creds_safe|]. intros r2 k2 Hk2. wp_case; [wp_step; by split; [|lia]|].
  wp_step. eapply wp_conseq; [by apply write_request_safe|]. intros r3 c3 [Hk3 B3].
  wp_case; [wp_step; split; [done|lia]|].
  wp_step. apply wp_moved; [by apply read_method_safe|]. intros r4 k4 Hk4. wp_case; [wp_step; by split; [|lia]|].
  wp_step. apply (wp_conseq _ (fun _ c' => cl_moved c3 c')).
  - wp_case; [|wp_step; by exists k4].
    wp_step. apply wp_moved; [by apply read_creds_safe|]. intros r5 k5 Hk5. wp_case; wp_step; by exists k5.
  - intros ok c' (k5 & -> & Hk5). destruct ok; cbn [negb]; [|wp_step; by split; [|lia]].
    wp_step. eapply wp_conseq; [by apply read_response_safe|]. intros r6 c6 [Hk6 B6].
    wp_case; wp_step; (split; [done|]); [lia|]. intros _. rewrite B6. by apply B3.
Qed.

Lemma client_handshake_ends e c pipeline :
  cl_rx c -> can_request e c -> resolver_ok (e_pton4 e) (e_pton6 e) (e_gai e) ->
  wp (hev_socks5_client_handshake e pipeline) (finished c) c.
Proof.
  intros Hr Hcan Hres. unfold hev_socks5_client_handshake. do 2 wp_step.
  set (c0 := with_base _ c). assert (can_request e c0) as Hcan0.
  { unfold can_request, c0, hev_socks5_set_timeout in *. simpl. by destruct (negb _). }
  wp_step. apply (wp_conseq _ (finished c0)).
  - destruct pipeline; [by apply pipeline_safe|by apply standard_safe].
  - intros r c' [Hr' B]. do 2 wp_step. wp_step.
    destruct (s5_type (cl_base c')); do 2 wp_step; done.
Qed.

(** Destroying the object frees the block it holds. *)
Lemma client_destruct_balance c :
  wp (match cl_class c with ClientTCP => hev_socks5_client_tcp_destruct | ClientUDP => hev_socks5_client_udp_destruct end)
    (fun _ c' => cl_class c = ClientTCP -> cl_live c' = balance c) c.
Proof.
  destruct (cl_class c) eqn:Ec.
  - unfold hev_socks5_client_tcp_destruct, free_addr. do 2 wp_step. unfold balance, owned.
    destruct (cl_addr c); repeat wp_step; simpl; lia.
  - unfold hev_socks5_client_udp_destruct, close_fd. do 2 wp_step. destruct (0 <=? cl_ufd c); repeat wp_step; done.
Qed.

(** When the kernel refuses the request at once, its address block is lost. *)
Lemma write_request_leaks e c a evs :
  cl_class c = ClientTCP -> s5_type (cl_base c) = TYPE_TCP -> cl_addr c = Some a -> addr_wf a ->
  sk_tx (cl_sock c) = TxErr :: evs ->
  exists c', hev_socks5_client_write_request e c = Some (-1, c') /\ balance c' = balance c + 1 /\ cl_class c' = ClientTCP.
Proof.
  intros Hc Ht Ha Hwf Htx.
  erewrite write_request_run by (try done; unfold hev_task_io_socket_sendmsg; rewrite Htx; reflexivity).
  eexists. split; [done|]. split; [|done]. unfold balance, owned. simpl. rewrite Ha. lia.
Qed.
