(* ===== verification/HandshakeTheorems.v ===== *)
(** * Theorems on the SOCKS5 handshake and on socket I/O

    The two ends of the handshake agree, a login decides, no input makes either
    end fault; the calls under them deliver and take exactly the bytes they
    report. *)

From S2P Require Import Prelude RBTree RBModel RBRep RBSpec KeyedTree Authenticator AuthTheorems SocksAddr AddrTheorems.
From S2P Require Import TaskSocket Socks5Client Socks5Server Handshake HandshakeSafe ClientSafe.

(** ** The server as a whole *)

(** The server takes these credentials. *)
Definition accepts (s : server) (reg : gmap (list Z) Z) (user pass : option (list Z)) : Prop :=
  match user, pass with
  | Some u, Some p => sv_obj s = ObjAuth /\ (0 < length u <= 255)%nat /\ (0 < length p <= 255)%nat /\
                      is_Some (login_user (sv_auth s) reg u p)
  | _, _ => sv_obj s = ObjNone
  end.

(** What a server sends that accepts everything. *)
Definition server_sent (user pass : option (list Z)) (sa : sockaddr_in6) : list Z :=
  msg_method (method_of user pass) ++ creds_res_of user pass 0 ++ msg_response HEV_SOCKS5_RES_REP_SUCC (enc_sockaddr sa).

Lemma server_auth_ok s reg user pass rest :
  sock_ready (sv_sock s) -> au_inv (sv_auth s) reg -> refs_low (sv_auth s) -> accepts s reg user pass ->
  stream_of (sv_sock s) = msg_methods (method_of user pass) ++ creds_of user pass ++ rest ->
  exists s', hev_socks5_server_auth s = Some (0, s') /\ sock_ready (sv_sock s') /\
    sk_out (sv_sock s') = sk_out (sv_sock s) ++ msg_method (method_of user pass) ++ creds_res_of user pass 0 /\
    stream_of (sv_sock s') = rest /\ sv_base s' = sv_base s /\ sv_closed s' = sv_closed s.
Proof.
  intros Hr Hi Hlow Hacc Hs.
  assert (sv_obj s = ObjNone -> method_of user pass = HEV_SOCKS5_AUTH_METHOD_NONE -> creds_of user pass = [] -> creds_res_of user pass 0 = [] ->
    exists s', hev_socks5_server_auth s = Some (0, s') /\ sock_ready (sv_sock s') /\
    sk_out (sv_sock s') = sk_out (sv_sock s) ++ msg_method (method_of user pass) ++ creds_res_of user pass 0 /\
    stream_of (sv_sock s') = rest /\ sv_base s' = sv_base s /\ sv_closed s' = sv_closed s) as Hnone.
  { intros Ho Hm Hc Hcr. rewrite Hm, Hc in Hs. rewrite Hm, Hcr.
    destruct (server_auth_none s rest Hr Ho Hs) as (k & E & Rk & Ok & Sk).
    exists (upd_sock k s). rewrite app_nil_r. done. }
  destruct user as [u|], pass as [p|]; try (by apply Hnone). clear Hnone.
  destruct Hacc as (Ho & Hlu & Hlp & [q Hq]).
  destruct (server_auth_user s reg u p rest Hr Hi Hlow Ho Hlu Hlp Hs) as (k & Rk & Sk & Hres).
  rewrite Hq in Hres. destruct Hres as (Ok & a & n & E & _). eexists. split; [exact E|]. done.
Qed.

Lemma server_run_ok e s reg user pass a sa fam rest :
  sock_ready (sv_sock s) -> au_inv (sv_auth s) reg -> refs_low (sv_auth s) -> accepts s reg user pass ->
  addr_wf a -> sockaddr_ok sa ->
  stream_of (sv_sock s) = msg_methods (method_of user pass) ++ creds_of user pass ++
    msg_request HEV_SOCKS5_REQ_CMD_CONNECT a ++ rest ->
  hev_socks5_addr_into_sockaddr6 (se_pton4 e) (se_pton6 e) (se_gai e) a sockaddr_zero (s5_addr_family (sv_base s)) =
    Some (0, sa, fam) ->
  0 <= se_socket1 e -> 0 <= se_bind e -> hev_task_io_socket_connect (se_connect e) = 0 ->
  exists s', hev_socks5_server_handshake e s = Some (0, s') /\
    sk_out (sv_sock s') = sk_out (sv_sock s) ++ server_sent user pass sa /\ stream_of (sv_sock s') = rest /\
    s5_type (sv_base s') = TYPE_TCP /\ sv_fd0 s' = se_socket1 e /\ sv_closed s' = sv_closed s.
Proof.
  intros Hr Hi Hlow Hacc Hwf Hsa Hs Hinto H1 H2 H3.
  unfold hev_socks5_server_handshake. erewrite bind_Some by done.
  set (s0 := upd_base _ s).
  destruct (server_auth_ok s0 reg user pass _ Hr Hi Hlow Hacc Hs) as (s1 & E1 & R1 & O1 & S1 & B1 & C1).
  erewrite bind_Some by exact E1. change (0 <? 0) with false. cbv iota.
  destruct (server_connect_ok e s1 a rest sa fam) as (k & s2 & E2 & <- & O2 & S2 & T2 & F2 & _ & C2); try done.
  { rewrite B1. unfold s0, hev_socks5_set_timeout. simpl. by destruct (negb _). }
  exists s2. rewrite O2, O1, C2, C1. unfold server_sent. rewrite <-!app_assoc. done.
Qed.

(** ** The theorems *)

(** C4: The two ends of the handshake agree.  When each end receives what the
    other sends (in any chunks, with any delays, and followed by any payload), the
    server accepts the credentials and reaches the destination, the client, plain
    or pipelined, and the server both return 0; they send exactly the messages of
    the protocol, consume nothing of the payload, the client has freed its
    destination and the server splices the new connection as TCP. *)
Theorem handshake_agree e se c s reg pipeline a sa fam down up :
  sock_ready (cl_sock c) -> cl_class c = ClientTCP -> s5_type (cl_base c) = TYPE_TCP ->
  cl_addr c = Some a -> addr_wf a -> creds_fit (cl_user c) (cl_pass c) ->
  sock_ready (sv_sock s) -> au_inv (sv_auth s) reg -> refs_low (sv_auth s) -> accepts s reg (cl_user c) (cl_pass c) ->
  hev_socks5_addr_into_sockaddr6 (se_pton4 se) (se_pton6 se) (se_gai se) a sockaddr_zero (s5_addr_family (sv_base s)) =
    Some (0, sa, fam) ->
  sockaddr_ok sa ->
  0 <= se_socket1 se -> 0 <= se_bind se -> hev_task_io_socket_connect (se_connect se) = 0 ->
  stream_of (cl_sock c) = server_sent (cl_user c) (cl_pass c) sa ++ down ->
  stream_of (sv_sock s) = client_sent c a ++ up ->
  exists c' s', hev_socks5_client_handshake e pipeline c = Some (0, c') /\ hev_socks5_server_handshake se s = Some (0, s') /\
    sk_out (cl_sock c') = sk_out (cl_sock c) ++ client_sent c a /\ stream_of (cl_sock c') = down /\
    sk_out (sv_sock s') = sk_out (sv_sock s) ++ server_sent (cl_user c) (cl_pass c) sa /\ stream_of (sv_sock s') = up /\
    cl_addr c' = None /\ cl_live c' = cl_live c - 1 /\
    s5_type (sv_base s') = TYPE_TCP /\ sv_fd0 s' = se_socket1 se /\ sv_closed s' = sv_closed s.
Proof.
  intros Hcr Hcc Hct Hca Hwf Hfit Hsr Hi Hlow Hacc Hinto Hsa H1 H2 H3 Hcs Hss.
  unfold client_sent in Hss. rewrite <-!app_assoc in Hss.
  destruct (server_run_ok se s reg _ _ a sa fam up Hsr Hi Hlow Hacc Hwf Hsa Hss Hinto H1 H2 H3)
    as (s' & Es & Os & Ss & Ts & Fs & Cs).
  unfold server_sent in Hcs. rewrite <-!app_assoc in Hcs.
  destruct (client_run_ok e c a sa down pipeline) as (k & Ec & Oc & Sc); try done; [apply Hsa|].
  exists (client_done e k c), s'. by split_and!.
Qed.

(** A chunked exchange: the client logs in as alice and asks for 10.0.0.1:80. *)
Definition no_resolver4 : list Z -> option (list Z) := fun _ => None.
Definition no_gai : list Z -> Z -> option (Z * list Z) := fun _ _ => None.
Definition sample_times : timeouts := Timeouts 5000 60000 60000.
Definition sample_cenv : cenv := CEnv sample_times true 7 0 [] no_resolver4 no_resolver4 no_gai.
Definition sample_senv : senv :=
  SEnv sample_times 9 10 0 0 [CxInProgress; CxIsConn] (Some sockaddr_zero) 0 (Some sockaddr_zero) no_resolver4 no_resolver4 no_gai.
Definition sample_dest : list Z := [1; 10; 0; 0; 1; 0; 80].
Definition sample_client : client :=
  Client (hev_socks5_construct TYPE_TCP) ClientTCP (Some [97; 108]) (Some [112; 119]) (Some sample_dest) (-1)
    (Sock [RxData [5]; RxAgain; RxData [2; 1; 0; 5; 0; 0]; RxData [1; 10; 0; 0; 1; 0; 80; 72; 105]] [TxSome 2; TxAgain; TxSome 3] []) 1 [].
Definition sample_server : server :=
  upd_obj ObjAuth (hev_socks5_server_construct 5
    (Sock [RxData [5; 1]; RxData [2; 1; 2; 97; 108]; RxAgain; RxData [2; 112; 119; 5; 1; 0; 1; 10; 0; 0; 1; 0; 80]; RxData [71]] [TxSome 1] [])
    sample_auth 2).

Lemma sample_ready : sock_ready (cl_sock sample_client) /\ sock_ready (sv_sock sample_server).
Proof.
  split; split; repeat constructor; try done; by apply (bool_decide_unpack _).
Qed.

Lemma sample_dest_wf : addr_wf sample_dest.
Proof. split; [by apply (bool_decide_unpack _)|done]. Qed.

Lemma sample_refs : refs_low (sv_auth sample_server).
Proof. by apply (bool_decide_unpack _). Qed.

Lemma handshake_agree_witness :
  exists c' s', hev_socks5_client_handshake sample_cenv true sample_client = Some (0, c') /\
    hev_socks5_server_handshake sample_senv sample_server = Some (0, s') /\
    stream_of (cl_sock c') = [72; 105] /\ stream_of (sv_sock s') = [71] /\ cl_live c' = 0 /\ sv_fd0 s' = 9.
Proof.
  destruct sample_ready as [Hc Hs].
  destruct (handshake_agree sample_cenv sample_senv sample_client sample_server {[ [97; 108] := 64 ]} true sample_dest
    (SockAddr6 10 20480 (v4mapped_prefix ++ [10; 0; 0; 1])) 2 [72; 105] [71])
    as (c' & s' & E1 & E2 & _ & S1 & _ & S2 & _ & L & _ & F & _).
  - exact Hc.
  - reflexivity.
  - reflexivity.
  - reflexivity.
  - apply sample_dest_wf.
  - simpl. lia.
  - exact Hs.
  - apply sample_auth_inv.
  - apply sample_refs.
  - split_and!; [reflexivity|simpl; lia..|]. exists 64. reflexivity.
  - vm_compute. reflexivity.
  - split; [reflexivity|done].
  - done.
  - done.
  - reflexivity.
  - reflexivity.
  - reflexivity.
  - exists c', s'. split_and!; assumption.
Defined.

(** C28: A login decides.  A server that has a registry and is offered the
    user/password method reads the credentials and answers 0 and goes on exactly
    when the name is registered with that password; otherwise it answers 255,
    returns -1 and keeps the registry and its own object as they were.  A login
    leaves the logged-in user alive even when the registry is dropped with it. *)
Theorem server_login_decides s reg u p rest :
  sock_ready (sv_sock s) -> au_inv (sv_auth s) reg -> refs_low (sv_auth s) -> sv_obj s = ObjAuth ->
  (0 < length u <= 255)%nat -> (0 < length p <= 255)%nat ->
  stream_of (sv_sock s) = msg_methods HEV_SOCKS5_AUTH_METHOD_USER ++ msg_creds u p ++ rest ->
  exists k, sock_ready k /\ stream_of k = rest /\
    match login_user (sv_auth s) reg u p with
    | Some q =>
      sk_out k = sk_out (sv_sock s) ++ msg_method HEV_SOCKS5_AUTH_METHOD_USER ++ msg_creds_res 0 /\
      exists a n, hev_socks5_server_auth s = Some (0, upd_sock k (upd_obj (ObjUser q) (upd_ref n (upd_auth a s)))) /\
        (exists reg', au_inv a reg') /\ is_Some (au_users a !! q)
    | None =>
      sk_out k = sk_out (sv_sock s) ++ msg_method HEV_SOCKS5_AUTH_METHOD_USER ++ msg_creds_res 255 /\
      hev_socks5_server_auth s = Some (-1, upd_sock k s)
    end.
Proof. apply server_auth_user. Qed.

(** A wrong password. *)
Definition refused_server : server :=
  upd_sock (Sock [RxData [5; 1; 2; 1; 2; 97; 108; 3]; RxData [112; 119; 33]] [] []) sample_server.

Lemma server_login_decides_witness :
  exists k, sock_ready k /\ sk_out k = [5; 2; 1; 255] /\
    hev_socks5_server_auth refused_server = Some (-1, upd_sock k refused_server).
Proof.
  destruct (server_login_decides refused_server {[ [97; 108] := 64 ]} [97; 108] [112; 119; 33] []) as (k & Hr & _ & Hm).
  - split; repeat constructor; try done; by apply (bool_decide_unpack _).
  - apply sample_auth_inv.
  - apply sample_refs.
  - reflexivity.
  - simpl. lia.
  - simpl. lia.
  - reflexivity.
  - exists k. split; [exact Hr|]. exact Hm.
Defined.

(** C8: No input makes the server fault.  Whatever bytes a peer sends, in whatever
    chunks and with whatever failures, whatever the kernel and the resolver
    answer, the handshake ends without reading outside what was received or
    dereferencing a dead object, the registry stays sound, and the object can
    then be destroyed. *)
Theorem server_handshake_safe e s :
  sv_fresh s -> senv_ok e ->
  exists r s', hev_socks5_server_handshake e s = Some (r, s') /\ sv_inv s' /\
    exists s'', hev_socks5_server_destruct s' = Some (tt, s'').
Proof.
  intros Hf He. destruct (wp_elim _ _ _ (handshake_safe e s Hf He)) as (r & s' & E & Hinv).
  exists r, s'. split_and!; try done. destruct (wp_elim _ _ _ (destruct_safe s' Hinv)) as ([] & s'' & E2 & _). by exists s''.
Qed.

(** A request cut short, with an unknown address type. *)
Definition hostile_server : server :=
  upd_sock (Sock [RxData [5; 1; 2; 1; 2; 97; 108; 2; 112; 119]; RxAgain; RxData [5; 9; 0; 77; 200]; RxErr] [TxSome 1; TxErr] []) sample_server.

Lemma sample_senv_ok : senv_ok sample_senv.
Proof. split_and!; [by split_and!|by intros n [= <-]..]. Qed.

Lemma server_handshake_safe_witness :
  exists r s', hev_socks5_server_handshake sample_senv hostile_server = Some (r, s') /\ sv_inv s' /\
    exists s'', hev_socks5_server_destruct s' = Some (tt, s'').
Proof.
  apply (server_handshake_safe sample_senv hostile_server); [|apply sample_senv_ok].
  split; [|split; [apply sample_refs|exact I]]. split; [|split; [eexists; apply sample_auth_inv|exact I]].
  repeat constructor; try done; by apply (bool_decide_unpack _).
Defined.

(** C33: No server makes the client fault.  Whatever the server answers, the
    handshake of a client, TCP or UDP, plain or pipelined, ends without a fault;
    when it does not fail, it has freed every address block it allocated or took
    over, and destroying a TCP client then leaves none. *)
Theorem client_handshake_safe e c pipeline :
  cl_rx c -> can_request e c -> resolver_ok (e_pton4 e) (e_pton6 e) (e_gai e) -> balance c = 0 ->
  exists r c', hev_socks5_client_handshake e pipeline c = Some (r, c') /\
    (0 <= r -> balance c' = 0) /\
    exists c'', (match cl_class c' with
                 | ClientTCP => hev_socks5_client_tcp_destruct
                 | ClientUDP => hev_socks5_client_udp_destruct end) c' = Some (tt, c'') /\
      (0 <= r -> cl_class c' = ClientTCP -> cl_live c'' = 0).
Proof.
  intros Hr Hc Hres Hb. destruct (wp_elim _ _ _ (client_handshake_ends e c pipeline Hr Hc Hres)) as (r & c' & E & _ & Hbal).
  exists r, c'. rewrite Hb in Hbal. split_and!; try done.
  destruct (wp_elim _ _ _ (client_destruct_balance c')) as ([] & c'' & E2 & Hl). exists c''. split; [done|].
  intros H0 Ht. rewrite Hl by done. auto.
Qed.

Lemma client_handshake_safe_witness :
  exists r c', hev_socks5_client_handshake sample_cenv false sample_client = Some (r, c') /\
    (0 <= r -> balance c' = 0) /\
    exists c'', (match cl_class c' with
                 | ClientTCP => hev_socks5_client_tcp_destruct
                 | ClientUDP => hev_socks5_client_udp_destruct end) c' = Some (tt, c'') /\
      (0 <= r -> cl_class c' = ClientTCP -> cl_live c'' = 0).
Proof.
  apply (client_handshake_safe sample_cenv sample_client false).
  - apply sample_ready.
  - exists sample_dest. split; [reflexivity|apply sample_dest_wf].
  - by split_and!.
  - reflexivity.
Defined.

(** A request the kernel refuses loses its address block: the request returns
    -1 with one block more that nobody holds, and destroying the client does not
    free it. *)
Theorem client_request_leak e c a evs :
  cl_class c = ClientTCP -> s5_type (cl_base c) = TYPE_TCP -> cl_addr c = Some a -> addr_wf a -> cl_live c = 1 ->
  sk_tx (cl_sock c) = TxErr :: evs ->
  exists c' c'', hev_socks5_client_write_request e c = Some (-1, c') /\
    hev_socks5_client_tcp_destruct c' = Some (tt, c'') /\ cl_live c'' = 1.
Proof.
  intros Hc Ht Ha Hwf Hl Htx. destruct (write_request_leaks e c a evs Hc Ht Ha Hwf Htx) as (c' & E & Hb & Hc').
  pose proof (client_destruct_balance c') as Hd. rewrite Hc' in Hd.
  destruct (wp_elim _ _ _ Hd) as ([] & c'' & E2 & Hl2). exists c', c''. split_and!; try done.
  rewrite Hl2, Hb by done. unfold balance, owned. rewrite Ha, Hl. done.
Qed.

Lemma client_request_leak_witness :
  exists c' c'', hev_socks5_client_write_request sample_cenv (with_sock (Sock [] [TxErr] []) sample_client) = Some (-1, c') /\
    hev_socks5_client_tcp_destruct c' = Some (tt, c'') /\ cl_live c'' = 1.
Proof.
  apply (client_request_leak sample_cenv (with_sock (Sock [] [TxErr] []) sample_client) sample_dest []);
    [reflexivity..|apply sample_dest_wf|reflexivity|reflexivity].
Defined.

(** A client that is refused tells the server nothing more.  In the plain
    handshake a server that asks for an unknown method has received only the list
    of methods, and one that refuses the credentials only the list and the
    credentials; in both cases the handshake fails and the destination was not
    sent and is still held by the client. *)
Theorem client_stops_when_refused e c u p m r rest :
  sock_ready (cl_sock c) -> cl_user c = Some u -> cl_pass c = Some p ->
  (length u <= 255)%nat -> (length p <= 255)%nat -> 0 <= m -> m <> HEV_SOCKS5_AUTH_METHOD_NONE -> r <> 0 ->
  stream_of (cl_sock c) = msg_method m ++ (if m =? HEV_SOCKS5_AUTH_METHOD_USER then msg_creds_res r else []) ++ rest ->
  exists k, hev_socks5_client_handshake_standard e c = Some (-1, with_sock k c) /\
    sk_out k = sk_out (cl_sock c) ++ msg_methods HEV_SOCKS5_AUTH_METHOD_USER ++
               (if m =? HEV_SOCKS5_AUTH_METHOD_USER then msg_creds u p else []) /\
    stream_of k = rest /\ cl_addr (with_sock k c) = cl_addr c.
Proof.
  intros Hr Hu Hp Hlu Hlp Hm0 Hm1 Hnz Hs.
  destruct (write_auth_methods_ok c Hr) as (k1 & E1 & R1 & O1 & I1). rewrite Hu, Hp in O1. cbn [method_of] in O1.
  destruct (read_auth_method_ok (with_sock k1 c) m _ R1 (eq_trans (eq_sym I1) Hs)) as (k2 & E2 & (R2 & O2 & _) & S2).
  unfold hev_socks5_client_handshake_standard. erewrite bind_Some by exact E1. change (0 <? 0) with false. cbv iota.
  erewrite bind_Some by exact E2. rewrite (proj2 (Z.ltb_ge m 0)) by done. cbn [cl_sock with_sock] in *.
  destruct (Z.eqb_spec m HEV_SOCKS5_AUTH_METHOD_USER) as [->|Hne].
  - destruct (write_auth_creds_ok (with_sock k2 c) u p) as (k3 & E3 & R3 & O3 & I3); try done.
    destruct (read_auth_creds_ok (with_sock k3 c) r rest R3 (eq_trans (eq_sym I3) S2)) as (k4 & E4 & (R4 & O4 & _) & S4).
    cbn [cl_sock with_sock] in *. exists k4. split_and!; try done.
    + erewrite bind_Some; [|erewrite bind_Some by exact E3; change (0 <? 0) with false; cbv iota; erewrite bind_Some by exact E4;
        rewrite (proj2 (Z.eqb_neq r 0)) by done; reflexivity]. done.
    + rewrite O4, O3, O2, O1, !app_nil_r, <-app_assoc. done.
  - exists k2. rewrite (proj2 (Z.eqb_neq m HEV_SOCKS5_AUTH_METHOD_NONE)) by done. split_and!; try done.
    by rewrite O2, O1, !app_nil_r.
Qed.

Lemma client_stops_when_refused_witness :
  exists k, hev_socks5_client_handshake_standard sample_cenv
      (with_sock (Sock [RxData [5; 2; 1]; RxData [255]] [TxSome 1] []) sample_client) =
      Some (-1, with_sock k (with_sock (Sock [RxData [5; 2; 1]; RxData [255]] [TxSome 1] []) sample_client)) /\
    sk_out k = [5; 1; 2; 1; 2; 97; 108; 2; 112; 119].
Proof.
  destruct (client_stops_when_refused sample_cenv
    (with_sock (Sock [RxData [5; 2; 1]; RxData [255]] [TxSome 1] []) sample_client) [97; 108] [112; 119] 2 255 []) as (k & E & O & _).
  - split; repeat constructor; try done; by apply (bool_decide_unpack _).
  - reflexivity.
  - reflexivity.
  - simpl. lia.
  - simpl. lia.
  - lia.
  - done.
  - done.
  - reflexivity.
  - exists k. split; [exact E|exact O].
Defined.

(** ** Socket I/O *)

(** Receiving with MSG_WAITALL takes exactly the bytes asked for from the
    front of the stream when the stream has them, however the kernel cuts it and
    however often it makes the task wait, and leaves the rest for the next call;
    otherwise the result is less than the size asked for. *)
Theorem recv_takes_prefix n s :
  rx_ok (sk_rx s) -> 0 < n ->
  exists r got s', hev_task_io_socket_recv n MSG_WAITALL s = Some ((r, got), s') /\
    rx_ok (sk_rx s') /\ sk_out s' = sk_out s /\
    (if decide (n <= Z.of_nat (length (stream_of s)))
     then r = n /\ got = take (Z.to_nat n) (stream_of s) /\ stream_of s' = drop (Z.to_nat n) (stream_of s)
     else r < n).
Proof.
  intros Hrx Hn. destruct (recv_ok n s Hrx Hn) as (r & got & evs & E & Hok & _ & H).
  exists r, got, (Sock evs (sk_tx s) (sk_out s)). split_and!; try done. unfold stream_of. case_decide; [|done].
  destruct H as (-> & <- & Hl). assert (Z.to_nat n = length got) as -> by lia.
  by rewrite take_app_length, drop_app_length.
Qed.

Lemma recv_takes_prefix_witness :
  exists r got s', hev_task_io_socket_recv 3 MSG_WAITALL (Sock [RxAgain; RxData [1; 2]; RxAgain; RxData [3; 4]] [] []) = Some ((r, got), s') /\
    r = 3 /\ got = [1; 2; 3] /\ stream_of s' = [4].
Proof.
  destruct (recv_takes_prefix 3 (Sock [RxAgain; RxData [1; 2]; RxAgain; RxData [3; 4]] [] [])) as (r & got & s' & E & _ & _ & H).
  - repeat constructor; try done; by apply (bool_decide_unpack _).
  - lia.
  - exists r, got, s'. split; [exact E|exact H].
Defined.

(** Sending a vector of buffers is sending their concatenation: on every
    kernel behaviour the two calls return the same, what went out is a prefix
    whose length is the result when it is positive, and it is everything when
    the kernel keeps accepting bytes. *)
Theorem sendmsg_gathers iov s :
  hev_task_io_socket_sendmsg iov MSG_WAITALL s = hev_task_io_socket_send (concat iov) MSG_WAITALL s /\
  exists r n s', hev_task_io_socket_sendmsg iov MSG_WAITALL s = Some (r, s') /\
    sk_out s' = sk_out s ++ take n (concat iov) /\ (0 < r -> r = Z.of_nat (length (take n (concat iov)))) /\
    (tx_ok (sk_tx s) /\ concat iov <> [] -> sk_out s' = sk_out s ++ concat iov).
Proof.
  assert (hev_task_io_socket_sendmsg iov MSG_WAITALL s = hev_task_io_socket_send (concat iov) MSG_WAITALL s) as Heq.
  { unfold hev_task_io_socket_sendmsg, hev_task_io_socket_send. by rewrite sendmsg_send. }
  split; [done|]. rewrite Heq. unfold hev_task_io_socket_send.
  destruct (send_loop _ _ _ _ _ _) as [[r out] evs] eqn:E.
  destruct (send_loop_prefix _ _ _ _ _ _ _ _ (Z.le_refl 0) E) as (n & -> & Hr).
  exists r, n, (Sock (sk_rx s) evs (sk_out s ++ take n (concat iov))). split_and!; try done.
  intros [Htx Hne]. destruct (send_ok (concat iov) s Htx Hne) as (evs' & E' & _).
  unfold hev_task_io_socket_send in E'. rewrite E in E'. by injection E' as _ _ ->.
Qed.
