(* ===== verification/UdpTheorems.v ===== *)
(** * Theorems on UDP over SOCKS5 (hev-socks5-udp.c)

    Frames in the control connection reach the other end as they were sent;
    addresses too long for the length byte are lost; a frame cut short by the end of
    the connection is taken for a number of messages; datagrams are split as they
    were put together, and no datagram makes the parser leave its buffer. *)

From S2P Require Import Prelude SocksAddr AddrTheorems TaskSocket TaskMsg Socks5Client Socks5Udp Handshake HandshakeSafe UdpFrames UdpDatagrams.


Definition no_dgrams : dsock sockaddr_in6 := DSock [] [] [].
Definition udp_of (k : sock) : udp := Udp (Socks5 3 1000 TYPE_UDP_IN_TCP false 0) k no_dgrams no_dgrams false.




Definition plain_uenv : uenv := UEnv 0 0 false (fun _ => None) (fun _ => None) (fun _ _ => None).


(** Datagrams arrive as they were sent.  The sender puts out a prefix of its
    messages, each as one datagram, and a positive result is their number; a receiver
    that finds those datagrams, from whatever senders, takes as many as it has
    buffers, hands each out with exactly its address and payload, and leaves the
    others for the next call. *)
Theorem udp_datagram_round_trip ms u :
  Forall dgram_fits ms -> s5_type (ud_base u) = TYPE_UDP_IN_UDP ->
  exists r u' j, hev_socks5_udp_sendmmsg (to_send <$> ms) u = Some (r, u') /\
    dk_out (ud_dgram u') = dk_out (ud_dgram u) ++ ((fun m => (None, dgram m)) <$> take j ms) /\
    (0 < r -> r = Z.of_nat (length (take j ms))) /\
    forall v conn froms blks evs,
      s5_type (ud_base v) = TYPE_UDP_IN_UDP -> s5_udp_associated (ud_base v) = true \/ 0 <= conn ->
      length froms = length (take j ms) -> dk_rx (ud_dgram v) = DrBatch (zip froms (dgram <$> take j ms)) :: evs ->
      Forall block_ok blks -> blks <> [] -> take j ms <> [] ->
      exists got rest v', hev_socks5_udp_recvmmsg conn true (fresh_msgs blks) v =
          Some ((Z.of_nat (length got), got ++ fresh_msgs rest), v') /\
        length got = Nat.min (length blks) (length (take j ms)) /\
        Forall2 dgram_delivered got (take (length got) (take j ms)) /\
        dk_rx (ud_dgram v') = match drop (length blks) (zip froms (dgram <$> take j ms)) with [] => evs | l => DrBatch l :: evs end.
Proof.
  intros Hfit Ht. destruct (udp_iov_ok ms) as (mv & vs & E1 & E2 & E3); [by eapply Forall_impl; [exact Hfit|intros ? (? & _)]|].
  unfold hev_socks5_udp_sendmmsg. erewrite bind_Some by done. rewrite Ht.
  unfold on_dgram at 1, zoom, hev_socks5_udp_sendmmsg_udp. erewrite bind_Some by (unfold lift_opt; by rewrite E1). cbv beta iota.
  erewrite bind_Some by (unfold lift_opt; by rewrite E2).
  unfold hev_task_io_socket_sendmmsg. destruct (sendmmsg_loop _ _ _ _ _ _) as [[r out] evs'] eqn:El.
  apply sendmmsg_loop_prefix in El as (j & -> & Hr); [|done]. eexists r, _, j. split; [reflexivity|].
  assert ((fun iov : list (list Z) => (@None sockaddr_in6, concat iov)) <$> vs = (fun m => (None, dgram m)) <$> ms) as Ev.
  { trans ((fun d : list Z => (@None sockaddr_in6, d)) <$> ((@concat Z) <$> vs)); [by rewrite <-list_fmap_compose|].
    by rewrite E3, <-list_fmap_compose. }
  rewrite Ev, <-fmap_take, length_fmap in Hr. rewrite Ev, <-fmap_take. split; [done|]. split; [intros Hp; rewrite Hr by done; lia|].
  intros v conn froms blks evs Hv Has Hlf Hrx Hb Hbne Hne. set (ts := take j ms) in *.
  assert (Forall dgram_fits ts) as Hts by (by apply Forall_take).
  assert ((zip froms (dgram <$> ts)).*2 = dgram <$> ts) as Hz by (apply snd_zip; rewrite length_fmap; lia).
  assert (Forall proper (dgram <$> ts) /\ Forall bytes_ok (dgram <$> ts)) as [Hpr Hby].
  { split; apply Forall_fmap; (eapply Forall_impl; [exact Hts|]); intros m Hm; apply (dgram_stored m Hm). }
  destruct (recv_batch conn v blks _ evs Hrx) as (r2 & msgs & v' & E & Hok & Hrr & Hl); [|done|].
  { apply (Forall_fmap snd bytes_ok). by rewrite Hz. }
  rewrite Hz in Hok, Hrr. specialize (Hrr Has Hpr). rewrite length_zip_with, length_fmap, Hlf, Nat.min_id in Hrr.
  assert (0 < r2) as Hp.
  { destruct blks; [done|]. destruct ts; [done|]. simpl in Hrr. lia. }
  destruct (Hok Hp) as (got & rest & -> & HF & _). pose proof (Forall2_length _ _ _ HF) as Hlg.
  rewrite length_take, length_fmap in Hlg.
  exists got, rest, v'. split_and!; [|lia| |exact Hl].
  - unfold hev_socks5_udp_recvmmsg. erewrite bind_Some by done. rewrite Hv, E. do 3 f_equal. lia.
  - apply delivered_all; [|by apply Forall_take]. rewrite fmap_take. by replace (length got) with (Z.to_nat r2) by lia.
Qed.

Definition plain_dgrams : list (list Z * list Z) := [([1; 8; 8; 8; 8; 0; 53], [1; 2; 3]); ([3; 2; 97; 98; 0; 53], [7])].
Definition udp_dgrams (k : dsock sockaddr_in6) : udp := Udp (Socks5 3 1000 TYPE_UDP_IN_UDP true 0) (Sock [] [] []) k no_dgrams false.

Lemma plain_fits : Forall dgram_fits plain_dgrams.
Proof. repeat constructor; cbn; try lia; try (by apply (bool_decide_unpack _)); try done. Qed.

Lemma udp_datagram_round_trip_witness :
  exists r u' j, hev_socks5_udp_sendmmsg (to_send <$> plain_dgrams) (udp_dgrams (DSock [] [DtAgain; DtSome 1; DtSome 4] [])) = Some (r, u') /\
    dk_out (ud_dgram u') = (fun m => (None, dgram m)) <$> take j plain_dgrams.
Proof.
  destruct (udp_datagram_round_trip plain_dgrams (udp_dgrams (DSock [] [DtAgain; DtSome 1; DtSome 4] []))) as (r & u' & j & E & Ho & _).
  - apply plain_fits.
  - reflexivity.
  - exists r, u', j. split; [exact E|exact Ho].
Defined.

(** C30: No datagram makes the forwarder fault.  Whatever arrives on the datagram
    socket of an association, of any length and content, is parsed inside the
    buffers and forwarded or refused, for every answer of the resolver and of the
    sockets. *)
Theorem udp_forward_never_faults e blks u :
  s5_type (ud_base u) = TYPE_UDP_IN_UDP -> drx_ok (dk_rx (ud_dgram u)) -> Forall block_ok blks ->
  resolver_ok (ue_pton4 e) (ue_pton6 e) (ue_gai e) ->
  exists r u', hev_socks5_udp_fwd_f e blks u = Some (r, u') /\ -1 <= r <= 1.
Proof.
  intros Ht Hev Hb Hres. destruct (recv_udp_ok (ue_conn e) u blks Hev Hb) as (r & msgs & u1 & E & Hr).
  unfold hev_socks5_udp_fwd_f. erewrite bind_Some by done.
  erewrite bind_Some by (unfold hev_socks5_udp_recvmmsg; erewrite bind_Some by done; rewrite Ht; exact E). cbv beta iota.
  destruct (Z.ltb_spec 0 r) as [Hp|Hp]; [|eexists _, _; split; [reflexivity|by case_match]].
  destruct (Hr Hp) as (ms & ds & rest & -> & HF & ->). rewrite Nat2Z.id, <-(Forall2_length _ _ _ HF).
  erewrite bind_Some by done. destruct (forward_vec_ok e (s5_addr_family (ud_base u1)) ms ds (fresh_msgs rest) Hres HF) as [v Ev].
  erewrite bind_Some by (unfold lift_opt; unfold hev_socks5_get_addr_family; rewrite Ev; reflexivity). cbv beta iota.
  destruct v as [v|]; [|eexists _, _; split; [reflexivity|lia]]. erewrite bind_Some by done.
  destruct (_ && _); [eexists _, _; split; [reflexivity|lia]|]. erewrite bind_Some by done.
  unfold on_out, zoom, bind, hev_task_io_socket_sendmmsg. destruct (sendmmsg_loop _ _ _ _ _ _) as [[k out] evs'].
  destruct (k <=? 0); eexists _, _; (split; [reflexivity|]); [by case_match|lia].
Qed.

Lemma udp_forward_never_faults_witness :
  exists r u', hev_socks5_udp_fwd_f plain_uenv [replicate 1500 0]
      (udp_dgrams (DSock [DrBatch [(sockaddr_zero, [0; 0; 0; 1; 8; 8; 8; 8; 0; 53; 9])]] [] [])) = Some (r, u') /\ -1 <= r <= 1.
Proof.
  apply (udp_forward_never_faults plain_uenv).
  - reflexivity.
  - repeat constructor; by apply (bool_decide_unpack _).
  - repeat constructor; by apply (bool_decide_unpack _).
  - split_and!; done.
Defined.

(** A datagram for a name of 249 bytes or more is lost in a frame.  The sender
    reports success and writes a head whose length byte has wrapped around; for
    names of up to 253 bytes the receiver then fails on that frame and leaves the
    rest of it in the stream. *)
Theorem udp_long_name_lost m u v conn b blks rest :
  addr_wf m.1 -> (253 <= length m.1 <= 257)%nat ->
  s5_type (ud_base u) = TYPE_UDP_IN_TCP -> sock_ready (ud_stream u) ->
  s5_type (ud_base v) = TYPE_UDP_IN_TCP -> rx_live (sk_rx (ud_stream v)) ->
  stream_of (ud_stream v) = frame m ++ rest -> (forall evs, sk_rx (ud_stream v) <> RxAgain :: evs) ->
  exists u' v', hev_socks5_udp_sendmmsg [to_send m] u = Some (1, u') /\
    sk_out (ud_stream u') = sk_out (ud_stream u) ++ frame m /\
    hev_socks5_udp_recvmmsg conn true (fresh_msgs (b :: blks)) v = Some ((-1, fresh_msgs (b :: blks)), v') /\
    stream_of (ud_stream v') = drop 5 (frame m) ++ rest.
Proof.
  intros Hwf Hlen Hut Hur Hvt Hvl Hvs Hna.
  destruct (sendmmsg_tcp_ok [m] (ud_stream u) Hur) as (k & E1 & _ & O1 & _); [by constructor|done|].
  assert (frames [m] = frame m) as Hfr by (unfold frames; simpl; by rewrite app_nil_r). rewrite Hfr in O1.
  destruct m as [a d]. cbn [fst] in *. destruct a as [|a0 [|a1 a]]; [simpl in Hlen; lia..|].
  destruct (head_step (take 5 (frame (a0 :: a1 :: a, d))) (drop 5 (frame (a0 :: a1 :: a, d)) ++ rest) (ud_stream v) Hvl)
    as [(evs & Hev & _)|(evs & E & _ & Hs)].
  { by rewrite app_assoc, take_drop. }
  { done. }
  { by apply Hna in Hev. }
  exists (up_stream k u), (up_stream (Sock evs (sk_tx (ud_stream v)) (sk_out (ud_stream v))) v). split_and!; [|exact O1| |exact Hs].
  - unfold hev_socks5_udp_sendmmsg. erewrite bind_Some by done. rewrite Hut. unfold on_stream, zoom.
    change [to_send (a0 :: a1 :: a, d)] with (to_send <$> [(a0 :: a1 :: a, d)]). by rewrite E1.
  - unfold hev_socks5_udp_recvmmsg. erewrite bind_Some by done. rewrite Hvt. unfold on_stream, zoom, hev_socks5_udp_recvmmsg_tcp.
    cbn [recvmmsg_tcp_loop fresh_msgs fmap list_fmap]. erewrite bind_Some by exact E. cbv beta iota.
    change (negb (5 =? 5)) with false. cbv iota.
    do 4 (erewrite bind_Some by (unfold lift_opt; reflexivity); cbv beta).
    match goal with |- context [if ?c then _ else _] => assert (c = true) as -> end; [|reflexivity].
    cbn [fst] in Hlen. remember (length (a0 :: a1 :: a)) as n eqn:En. cbn [fst]. rewrite <-En.
    apply Z.ltb_lt. unfold u8. replace (3 + Z.of_nat n) with (Z.of_nat n - 253 + 1 * 256) by lia.
    rewrite Z.mod_add by lia. rewrite Z.mod_small; lia.
Qed.

Definition long_name : list Z := [3; 249] ++ replicate 249 97 ++ [0; 53].

Lemma udp_long_name_lost_witness :
  exists u' v', hev_socks5_udp_sendmmsg [to_send (long_name, [1])] (udp_of (Sock [] [] [])) = Some (1, u') /\
    hev_socks5_udp_recvmmsg 0 true (fresh_msgs [replicate 1500 0]) (udp_of (Sock [RxData (frame (long_name, [1]))] [] [])) =
      Some ((-1, fresh_msgs [replicate 1500 0]), v').
Proof.
  destruct (udp_long_name_lost (long_name, [1]) (udp_of (Sock [] [] [])) (udp_of (Sock [RxData (frame (long_name, [1]))] [] [])) 0
    (replicate 1500 0) [] []) as (u' & v' & E1 & _ & E2 & _).
  - split; [by apply (bool_decide_unpack _)|]. split; [reflexivity|done].
  - vm_compute. lia.
  - reflexivity.
  - split; constructor.
  - reflexivity.
  - apply Forall_cons. split; [split; [done|by apply (bool_decide_unpack _)]|by constructor].
  - reflexivity.
  - done.
  - exists u', v'. split; [exact E1|exact E2].
Defined.
