(* ===== verification/SpliceLoop.v ===== *)
(** * Splicing two streams (io/basic/hev-task-io.c and core/src/hev-socks5-tcp.c)

    A TCP session of the SOCKS5 server copies bytes both ways between the client's
    connection and the outside one, with reads and writes that never block.  What a
    direction keeps its bytes in depends on the build: a circular buffer ([Splice]), or
    a pipe of the system ([PipeSplice], the default on Linux).  The loop over both directions
    is the same: it is modelled and proved here against an interface, [Splicer] and its
    laws [SplicerOk]. *)

From S2P Require Import Prelude TaskSocket Socks5Client Socks5Udp.

(** ** System calls that do not wait *)

(** [readv] with room for [n] bytes: the result, the bytes stored, whether [errno]
    is EAGAIN, and the events left. *)
Definition readv (n : Z) (evs : list rx_event) : Z * list Z * bool * list rx_event :=
  match evs with
  | [] | RxEof :: _ => (0, [], false, evs)
  | RxErr :: evs => (-1, [], false, evs)
  | RxAgain :: evs | RxTimeout :: evs => (-1, [], true, evs)
  | RxData bs :: evs =>
    let s := Z.min n (Z.of_nat (length bs)) in
    (s, take (Z.to_nat s) bs, false,
     match drop (Z.to_nat s) bs with [] => evs | rest => RxData rest :: evs end)
  end.

(** [writev] of [bs]: the result, whether [errno] is EAGAIN, and the events left. *)
Definition writev (bs : list Z) (evs : list tx_event) : Z * bool * list tx_event :=
  match evs with
  | [] => (Z.of_nat (length bs), false, [])
  | TxErr :: evs => (-1, false, evs)
  | TxAgain :: evs | TxTimeout :: evs => (-1, true, evs)
  | TxSome k :: evs => (Z.max 0 (Z.min k (Z.of_nat (length bs))), false, evs)
  end.

(** ** One direction *)

(** [HevTaskIOSplicer] with the descriptors it works on: what the build keeps the bytes
    in (gone once released), what the input will give, what the output will accept, the
    bytes it has accepted, and whether its sending side was shut down. *)
Record dir (B : Type) := Dir { d_buf : option B; d_rx : list rx_event; d_tx : list tx_event; d_out : list Z; d_shut : bool }.
Arguments Dir {B}.
Arguments d_buf {B}.
Arguments d_rx {B}.
Arguments d_tx {B}.
Arguments d_out {B}.
Arguments d_shut {B}.

Abbreviation DM B := (M (dir B)).

Section dir.
Context {B : Type}.
Implicit Type (d : dir B).

Definition up_buf (b : option B) d : dir B := Dir b (d_rx d) (d_tx d) (d_out d) (d_shut d).
Definition up_rx (evs : list rx_event) d : dir B := Dir (d_buf d) evs (d_tx d) (d_out d) (d_shut d).
Definition up_tx (evs : list tx_event) (bs : list Z) d : dir B := Dir (d_buf d) (d_rx d) evs (d_out d ++ bs) (d_shut d).
Definition shutdown_wr d : dir B := Dir (d_buf d) (d_rx d) (d_tx d) (d_out d) true.

Definition deref_buf : DM B B := let* b := gets d_buf in lift_opt b.

End dir.

(** What a build provides: a direction made ready for a size, with what the system gives for
    it ([I]), released, and moved on. *)
Class Splicer (I B : Type) := {
  splicer_init : Z -> I -> DM B Z;
  splicer_fini : DM B unit;
  splicer_splice : DM B Z
}.

(** ** Both directions *)

Record splice2 (B : Type) := Splice2 { sp_f : dir B; sp_b : dir B }.
Arguments Splice2 {B}.
Arguments sp_f {B}.
Arguments sp_b {B}.

Definition on_f {B A} (c : DM B A) : M (splice2 B) A := zoom sp_f (fun d s => Splice2 d (sp_b s)) c.
Definition on_b {B A} (c : DM B A) : M (splice2 B) A := zoom sp_b (fun d s => Splice2 (sp_f s) d) c.

(** The answer of the yielder, which gives [slept] to the scheduler; without a
    yielder the task just yields. *)
Definition yield_with (yielder : option (yield_type -> Z -> Z)) (type : yield_type) (slept : Z) : Z :=
  match yielder with Some y => y type slept | None => 0 end.

Section loop.
Context {I B : Type} `{!Splicer I B}.

(** The loop of [hev_task_io_splice]; [slept]: what the sleeps return, positive
    once the list is used up. *)
Fixpoint io_splice_loop (fuel : nat) (yielder : option (yield_type -> Z -> Z)) (slept : list Z) (res_f res_b : Z) :
    M (splice2 B) unit :=
  match fuel with
  | O => fail
  | S fuel =>
    let* res_f := (if 0 <=? res_f then on_f splicer_splice else ret res_f) in
    let* res_b := (if 0 <=? res_b then on_b splicer_splice else ret res_b) in
    let next type :=
      if negb (yield_with yielder type (hd 1 slept) =? 0) then ret tt
      else io_splice_loop fuel yielder (tl slept) res_f res_b in
    if (0 <? res_f) || (0 <? res_b) then next HEV_TASK_YIELD
    else if Z.land res_f res_b =? 0 then next HEV_TASK_WAITIO
    else ret tt
  end.

Definition hev_task_io_splice (fuel : nat) (buf_size : Z) (mem_f mem_b : I)
    (yielder : option (yield_type -> Z -> Z)) (slept : list Z) : M (splice2 B) unit :=
  let* res := on_f (splicer_init buf_size mem_f) in
  if res <? 0 then ret tt else
  let* res := on_b (splicer_init buf_size mem_b) in
  (if res <? 0 then ret tt else
   io_splice_loop fuel yielder slept 1 1;;
   on_b splicer_fini);;
  on_f splicer_fini.

(** The splicer of a TCP session: [self] is the session, the descriptors of its
    connection and of the outside one are the two ends. *)
Definition hev_socks5_tcp_splicer (fuel : nat) (self : socks5) (mem_f mem_b : I) (slept : list Z) : M (splice2 B) Z :=
  if s5_fd self <? 0 then ret (-1) else
  hev_task_io_splice fuel 8192 mem_f mem_b (Some (fun type n => hev_socks5_task_io_yielder type n self)) slept;;
  ret 0.

End loop.

(** ** What one turn does *)

(** Everything an input will ever give. *)
Definition rx_bytes (evs : list rx_event) : list Z :=
  concat (map (fun e => match e with RxData bs => bs | _ => [] end) evs).

(** What is left to do in a direction: every byte to read counts twice, every byte
    buffered once, and every event once. *)
Definition work {B} (q : list Z) (d : dir B) : nat :=
  2 * length (rx_bytes (d_rx d)) + length (d_rx d) + length q + length (d_tx d).

Lemma readv_ok n evs s bs again evs' :
  0 < n -> readv n evs = (s, bs, again, evs') ->
  Z.of_nat (length bs) <= n /\ rx_bytes evs = bs ++ rx_bytes evs' /\
  (if 0 <? s then s = Z.of_nat (length bs) /\ (length evs' <= length evs)%nat
   else bs = [] /\ (s < 0 -> again = true -> (length evs' < length evs)%nat) /\ (length evs' <= length evs)%nat).
Proof.
  intros Hn. destruct evs as [|[b| | | |] evs]; cbn [readv]; intros [= <- <- <- <-]; simpl; try (split_and!; [lia|done..|lia]); try (split_and!; (done || lia)).
  set (k := Z.min n (Z.of_nat (length b))). rewrite length_take.
  assert (rx_bytes (RxData b :: evs) = take (Z.to_nat k) b ++
    rx_bytes (match drop (Z.to_nat k) b with [] => evs | rest => RxData rest :: evs end)) as Hb.
  { rewrite <-(take_drop (Z.to_nat k) b) at 1. destruct (drop (Z.to_nat k) b); unfold rx_bytes; simpl; by rewrite <-?app_assoc, ?app_nil_r. }
  split_and!; [lia|exact Hb|]. destruct (Z.ltb_spec 0 k).
  - split; [lia|]. case_match; simpl; lia.
  - assert (Z.to_nat k = 0%nat) as -> by lia. split; [done|]. split; [lia|]. destruct (drop 0 b); simpl; lia.
Qed.

Lemma writev_ok bs evs s again evs' :
  bs <> [] -> writev bs evs = (s, again, evs') ->
  s <= Z.of_nat (length bs) /\ (length evs' <= length evs)%nat /\
  (s <= 0 -> s < 0 /\ again = true -> (length evs' < length evs)%nat).
Proof.
  intros Hne. assert (0 < length bs)%nat by (destruct bs; simpl; [done|lia]).
  destruct evs as [|[k| | |] evs]; simpl; intros [= <- <- <-]; split_and!; simpl; try lia.
Qed.

(** A direction whose input only makes it wait before the end, and whose output
    takes something or makes it wait. *)
Definition dir_live {B} (d : dir B) : Prop :=
  Forall (fun e => match e with RxData bs => bs <> [] | RxAgain | RxTimeout => True | _ => False end) (d_rx d) /\
  Forall (fun e => match e with TxSome k => 0 < k | TxAgain | TxTimeout => True | TxErr => False end) (d_tx d).

(** Reading and writing keep a direction live; its input ends only at its end, and its output
    takes something or makes it wait. *)
Lemma live_read {B} n (d d1 : dir B) s bs again evs :
  readv n (d_rx d) = (s, bs, again, evs) -> d_rx d1 = evs -> d_tx d1 = d_tx d -> dir_live d -> dir_live d1.
Proof.
  intros Er E1 E2 [Hrx Htx]. unfold dir_live. rewrite E1, E2. split; [|done]. clear -Hrx Er.
  destruct (d_rx d) as [|[b| | | |] l]; simpl in Er; simplify_eq; try done; apply Forall_cons in Hrx as [He Hrx]; try done. case_match; [done|]. by constructor.
Qed.

Lemma live_read_end {B} n (d : dir B) s bs again evs :
  readv n (d_rx d) = (s, bs, again, evs) -> 0 < n -> s <= 0 -> (s <? 0) && again = false -> dir_live d -> evs = [].
Proof.
  intros Er Hn Hs Hna [Hrx _]. destruct (d_rx d) as [|[b| | | |] l]; simpl in Er; simplify_eq; try done; apply Forall_cons in Hrx as [He Hrx]; try done.
  destruct b; simpl in *; [done|lia].
Qed.

Lemma live_write {B} bs (d d1 : dir B) s again evs :
  writev bs (d_tx d) = (s, again, evs) -> d_rx d1 = d_rx d -> d_tx d1 = evs -> dir_live d -> dir_live d1.
Proof.
  intros Ew E1 E2 [Hrx Htx]. unfold dir_live. rewrite E1, E2. split; [done|]. clear -Htx Ew.
  destruct (d_tx d) as [|[k| | |] l]; simpl in Ew; simplify_eq; try done; by apply Forall_cons in Htx as [_ Htx].
Qed.

Lemma live_write_wait {B} bs (d : dir B) s again evs :
  writev bs (d_tx d) = (s, again, evs) -> bs <> [] -> s <= 0 -> dir_live d -> (s <? 0) && again = true.
Proof.
  intros Ew Hne Hs [_ Htx]. assert (0 < length bs)%nat by (destruct bs; simpl; [done|lia]).
  destruct (d_tx d) as [|[k| | |] l]; simpl in Ew; simplify_eq; try done; try lia; apply Forall_cons in Htx as [He Htx]; try done; lia.
Qed.

(** The buffer of a direction holds [q]; [keeps] says what that means. *)
Definition holds {B} (keeps : B -> list Z -> Prop) (d : dir B) (q : list Z) : Prop := exists b, d_buf d = Some b /\ keeps b q.

(** Between two turns: what went out, what is buffered and what is to be read are
    together what they were. *)
Record carries {B} (keeps : B -> list Z -> Prop) (d : dir B) (q : list Z) (d' : dir B) (q' : list Z) : Prop := {
  ca_hold : holds keeps d' q';
  ca_all : d_out d' ++ q' ++ rx_bytes (d_rx d') = d_out d ++ q ++ rx_bytes (d_rx d);
  ca_out : exists w, d_out d' = d_out d ++ w;
  ca_live : dir_live d -> dir_live d'
}.

Lemma carries_trans {B} keeps (d : dir B) q d1 q1 d2 q2 : carries keeps d q d1 q1 -> carries keeps d1 q1 d2 q2 -> carries keeps d q d2 q2.
Proof.
  intros [_ Ha1 [w1 Ho1] Hl1] [Hh Ha2 [w2 Ho2] Hl2]. split; [done|congruence| |auto].
  exists (w1 ++ w2). by rewrite Ho2, Ho1, <-app_assoc.
Qed.

(** What the interface promises of a build: with an answer of the system that is [spl_given]
    for the size, making a direction ready succeeds just if it is [spl_good]; from then on it
    [spl_holds] the bytes it has taken and not put out, and a turn is as described. *)
Class SplicerOk (I B : Type) `{!Splicer I B} := {
  spl_given : Z -> I -> Prop;
  spl_good : I -> bool;
  spl_keeps : B -> list Z -> Prop;
  spl_init_ok size i d : spl_given size i -> d_buf d = None ->
    if spl_good i then exists b, splicer_init size i d = Some (0, up_buf (Some b) d) /\ spl_keeps b []
    else exists r, r < 0 /\ splicer_init size i d = Some (r, d);
  spl_fini_ok b q d : spl_keeps b q -> d_buf d = Some b -> splicer_fini d = Some (tt, up_buf None d);
  spl_turn_ok b q d : spl_keeps b q -> d_buf d = Some b ->
    exists r d' q', splicer_splice d = Some (r, d') /\ carries spl_keeps d q d' q' /\ -1 <= r <= 1 /\
      (0 <= r -> (work q' d' < work q d)%nat) /\
      (d_shut d' = d_shut d \/ d_shut d' = true /\ q' = [] /\ r = -1) /\
      (r = -1 -> dir_live d -> d_shut d' = true /\ q' = [] /\ d_rx d' = [])
}.

Section laws.
Context {I B : Type} `{!Splicer I B} `{!SplicerOk I B}.
Implicit Type (d : dir B).

(** ** The loop *)

(** Turns a direction can still take. *)
Definition pend (r : Z) (q : list Z) d : nat := if 0 <=? r then S (work q d) else 0.

(** Everything was passed on, and the end too. *)
Definition finished d (q : list Z) : Prop := d_shut d = true /\ q = [] /\ d_rx d = [].

(** Over any number of turns: the end is passed on only with nothing left in the
    buffer, and a direction that is over does not move. *)
Definition splices (r : Z) d (q : list Z) d' (q' : list Z) : Prop :=
  carries spl_keeps d q d' q' /\ (d_shut d' = d_shut d \/ d_shut d' = true /\ q' = []) /\ (r < 0 -> d' = d /\ q' = q).

Lemma splices_refl r d q : holds spl_keeps d q -> splices r d q d q.
Proof. intros Hh. split; [|split; [by left|done]]. split; [done|done|exists []; by rewrite app_nil_r|done]. Qed.

Lemma turn_ok r d q :
  holds spl_keeps d q -> -1 <= r <= 1 ->
  exists r' d' q', (if 0 <=? r then splicer_splice else ret r) d = Some (r', d') /\ -1 <= r' <= 1 /\
    holds spl_keeps d' q' /\ (r < 0 -> r' = r /\ d' = d /\ q' = q) /\
    (pend r' q' d' <= pend r q d)%nat /\ (0 <= r -> (pend r' q' d' < pend r q d)%nat) /\
    (forall d2 q2, splices r' d' q' d2 q2 -> splices r d q d2 q2) /\
    (dir_live d -> dir_live d' /\ ((r < 0 -> finished d q) -> r' < 0 -> finished d' q')).
Proof.
  intros Hh Hr. unfold pend at 2 4. destruct (Z.leb_spec 0 r) as [Hp|Hn].
  - destruct Hh as (bf & Hbf & Hh). destruct (spl_turn_ok bf q d Hh Hbf) as (r' & d' & q' & E & C & Hr' & Hw & Hs & Hf). exists r', d', q'.
    assert (pend r' q' d' < S (work q d))%nat as Hpd.
    { unfold pend. destruct (Z.leb_spec 0 r') as [Hp'|]; [specialize (Hw Hp')|]; lia. }
    split_and!; try done; try lia; [by apply (ca_hold _ _ _ _ _ C)| |].
    + intros d2 q2 (C2 & Hs2 & Hst). split; [by eapply carries_trans|]. split; [|lia].
      destruct Hs as [<-|(Ht & -> & Hm)]; [done|]. destruct Hst as [-> ->]; [lia|]. by right.
    + intros Hl. split; [by apply (ca_live _ _ _ _ _ C)|]. intros _ Hneg. apply Hf; [lia|done].
  - exists r, d, q. unfold pend. rewrite (proj2 (Z.leb_gt 0 r)) by lia. split_and!; try done; try lia.
Qed.

Lemma io_splice_loop_ok fuel yielder slept s qf qb rf rb :
  holds spl_keeps (sp_f s) qf -> holds spl_keeps (sp_b s) qb -> -1 <= rf <= 1 -> -1 <= rb <= 1 ->
  (pend rf qf (sp_f s) + pend rb qb (sp_b s) < fuel)%nat ->
  exists s' qf' qb', io_splice_loop fuel yielder slept rf rb s = Some (tt, s') /\
    splices rf (sp_f s) qf (sp_f s') qf' /\ splices rb (sp_b s) qb (sp_b s') qb' /\
    ((forall type n, n = 1 \/ In n slept -> yield_with yielder type n = 0) ->
     dir_live (sp_f s) -> dir_live (sp_b s) ->
     (rf < 0 -> finished (sp_f s) qf) -> (rb < 0 -> finished (sp_b s) qb) ->
     finished (sp_f s') qf' /\ finished (sp_b s') qb').
Proof.
  revert slept s qf qb rf rb. induction fuel as [|fuel IH]; intros slept s qf qb rf rb Hf Hb Hrf Hrb Hfuel; [lia|].
  destruct s as [f b]. cbn [sp_f sp_b] in *. cbn [io_splice_loop].
  destruct (turn_ok rf f qf Hf Hrf) as (rf' & f' & qf' & Ef & Hrf' & Hf' & Hnf & Hpf & Hpf' & Hcf & Hlf).
  destruct (turn_ok rb b qb Hb Hrb) as (rb' & b' & qb' & Eb & Hrb' & Hb' & Hnb & Hpb & Hpb' & Hcb & Hlb).
  erewrite bind_Some by (destruct (0 <=? rf); [unfold on_f, zoom; cbn [sp_f sp_b]; rewrite Ef; reflexivity|injection Ef as <- <-; reflexivity]).
  erewrite bind_Some by (destruct (0 <=? rb); [unfold on_b, zoom; cbn [sp_f sp_b]; rewrite Eb; reflexivity|injection Eb as <- <-; reflexivity]).
  cbv zeta.
  assert (0 <= rf' \/ 0 <= rb' -> (pend rf' qf' f' + pend rb' qb' b' < fuel)%nat) as Hfu.
  { intros Hor. destruct (Z.ltb_spec rf 0) as [H1|H1], (Z.ltb_spec rb 0) as [H2|H2]; try (specialize (Hpf' H1)); try (specialize (Hpb' H2)); try lia.
 }
  assert (forall type, 0 <= rf' \/ 0 <= rb' ->
    exists s' qf2 qb2, (if negb (yield_with yielder type (hd 1 slept) =? 0) then ret tt
        else io_splice_loop fuel yielder (tl slept) rf' rb') (Splice2 f' b') = Some (tt, s') /\
      splices rf f qf (sp_f s') qf2 /\ splices rb b qb (sp_b s') qb2 /\
      ((forall type n, n = 1 \/ In n slept -> yield_with yielder type n = 0) -> dir_live f -> dir_live b ->
       (rf < 0 -> finished f qf) -> (rb < 0 -> finished b qb) -> finished (sp_f s') qf2 /\ finished (sp_b s') qb2)) as Hnext.
  { intros type Hor. destruct (Z.eqb_spec (yield_with yielder type (hd 1 slept)) 0) as [Hy|Hy]; cbn [negb].
    - destruct (IH (tl slept) (Splice2 f' b') qf' qb' rf' rb') as (s' & qf2 & qb2 & E & Sf & Sb & Hfin); try done; [by apply Hfu|].
      exists s', qf2, qb2. split_and!; [done|by apply Hcf|by apply Hcb|]. intros Hyl Lf Lb Ff Fb.
      destruct (Hlf Lf) as [Lf' Ff'], (Hlb Lb) as [Lb' Fb']. apply Hfin; try done; [|by apply Ff'|by apply Fb'].
      intros ty n [->|Hin]; apply Hyl; [by left|right; by destruct slept; [|right]].
    - exists (Splice2 f' b'), qf', qb'. split_and!; [done|by apply Hcf, splices_refl|by apply Hcb, splices_refl|].
      intros Hyl. destruct Hy. apply Hyl. destruct slept; [by left|right; by left]. }
  destruct (Z.ltb_spec 0 rf'), (Z.ltb_spec 0 rb'); cbn [orb]; try (apply Hnext; lia).
  assert (rf' = 0 \/ rf' = -1) as [->| ->] by lia; assert (rb' = 0 \/ rb' = -1) as [->| ->] by lia; simpl; try (apply Hnext; lia).
  exists (Splice2 f' b'), qf', qb'. split_and!; [done|by apply Hcf, splices_refl|by apply Hcb, splices_refl|].
  intros Hyl Lf Lb Ff Fb. destruct (Hlf Lf) as [Lf' Ff'], (Hlb Lb) as [Lb' Fb']. split; [by apply Ff'|by apply Fb'].
Qed.

(** ** The whole splice *)

(** What the splice did in one direction: it put out the first bytes of the input,
    in order, and it ended the output only when everything it had read was out. *)
Definition relayed d d' : Prop :=
  (exists w rest, d_out d' = d_out d ++ w /\ rx_bytes (d_rx d) = w ++ rest /\
    (d_shut d = false -> d_shut d' = true -> rest = rx_bytes (d_rx d'))).

Lemma relayed_same d d' : d_out d' = d_out d -> d_shut d' = d_shut d -> relayed d d'.
Proof. intros H1 H2. exists [], (rx_bytes (d_rx d)). split_and!; [by rewrite app_nil_r|done|congruence]. Qed.

Lemma splices_relayed r d d' q' : splices r d [] d' q' -> relayed d d'.
Proof.
  intros ([Hh Ha [w Ho] _] & Hs & _). exists w, (q' ++ rx_bytes (d_rx d')). rewrite Ho in Ha. simpl in Ha.
  rewrite <-app_assoc in Ha. apply app_inv_head in Ha. split_and!; [done|done|].
  intros H1 H2. destruct Hs as [Hs|[_ ->]]; [congruence|done].
Qed.

Lemma fini_ok d q : holds spl_keeps d q -> splicer_fini d = Some (tt, up_buf None d).
Proof. intros (b & Hb & Hk). by apply (spl_fini_ok b q). Qed.

Lemma io_splice_ok fuel size (i_f i_b : I) yielder slept (s : splice2 B) :
  spl_given size i_f -> spl_given size i_b -> d_buf (sp_f s) = None -> d_buf (sp_b s) = None ->
  (2 + work [] (sp_f s) + work [] (sp_b s) < fuel)%nat ->
  exists s', hev_task_io_splice fuel size i_f i_b yielder slept s = Some (tt, s') /\
    d_buf (sp_f s') = None /\ d_buf (sp_b s') = None /\
    relayed (sp_f s) (sp_f s') /\ relayed (sp_b s) (sp_b s') /\
    (spl_good i_f = true -> spl_good i_b = true ->
     (forall type n, n = 1 \/ In n slept -> yield_with yielder type n = 0) -> dir_live (sp_f s) -> dir_live (sp_b s) ->
     d_shut (sp_f s') = true /\ d_out (sp_f s') = d_out (sp_f s) ++ rx_bytes (d_rx (sp_f s)) /\
     d_shut (sp_b s') = true /\ d_out (sp_b s') = d_out (sp_b s) ++ rx_bytes (d_rx (sp_b s))).
Proof.
  intros Hgf Hgb Hnf Hnb Hfuel. destruct s as [f b]. cbn [sp_f sp_b] in *. unfold hev_task_io_splice, on_f, on_b.
  pose proof (spl_init_ok size i_f f Hgf Hnf) as Hif. pose proof (spl_init_ok size i_b b Hgb Hnb) as Hib.
  destruct (spl_good i_f).
  2:{ destruct Hif as (r & Hr & E). erewrite bind_Some by (unfold zoom; cbn [sp_f sp_b]; rewrite E; reflexivity). rewrite (proj2 (Z.ltb_lt r 0)) by done.
      eexists. split; [reflexivity|]. split_and!; try done; by apply relayed_same. }
  destruct Hif as (bf & E & Hkf). erewrite bind_Some by (unfold zoom; cbn [sp_f sp_b]; rewrite E; reflexivity). change (0 <? 0) with false. cbv iota.
  set (f1 := up_buf (Some bf) f) in *. assert (holds spl_keeps f1 []) as Hf by (by exists bf).
  destruct (spl_good i_b).
  2:{ destruct Hib as (r & Hr & E2). erewrite bind_Some by (unfold zoom; cbn [sp_f sp_b]; rewrite E2; reflexivity). rewrite (proj2 (Z.ltb_lt r 0)) by done.
      erewrite bind_Some by reflexivity. unfold zoom. cbn [sp_f sp_b]. rewrite (fini_ok _ _ Hf). eexists. split; [reflexivity|].
      split_and!; try done; by apply relayed_same. }
  destruct Hib as (bb & E2 & Hkb). erewrite bind_Some by (unfold zoom; cbn [sp_f sp_b]; rewrite E2; reflexivity). change (0 <? 0) with false. cbv iota.
  set (b1 := up_buf (Some bb) b) in *. assert (holds spl_keeps b1 []) as Hb by (by exists bb).
  destruct (io_splice_loop_ok fuel yielder slept (Splice2 f1 b1) [] [] 1 1) as (s' & qf & qb & E3 & Sf & Sb & Hfin); try done.
  { unfold pend. simpl. unfold work in *. simpl. lia. }
  destruct s' as [f' b']. cbn [sp_f sp_b] in *. rewrite bind_assoc. rewrite (bind_Some _ _ _ _ _ E3).
  erewrite bind_Some by (unfold zoom; cbn [sp_f sp_b]; rewrite (fini_ok _ _ (ca_hold _ _ _ _ _ (proj1 Sb))); reflexivity).
  unfold zoom. cbn [sp_f sp_b]. rewrite (fini_ok _ _ (ca_hold _ _ _ _ _ (proj1 Sf))). eexists. split; [reflexivity|].
  cbn [sp_f sp_b]. split_and!; [done..|exact (splices_relayed _ _ _ _ Sf)|exact (splices_relayed _ _ _ _ Sb)|].
  intros _ _ Hy Lf Lb. destruct (Hfin Hy Lf Lb) as [(Tf & -> & Rf) (Tb & -> & Rb)]; [lia..|].
  pose proof (ca_all _ _ _ _ _ (proj1 Sf)) as Af. pose proof (ca_all _ _ _ _ _ (proj1 Sb)) as Ab.
  rewrite Rf in Af. rewrite Rb in Ab. unfold rx_bytes at 1 in Af. unfold rx_bytes at 1 in Ab. simpl in Af, Ab.
  rewrite app_nil_r in Af, Ab. simpl. done.
Qed.

(** The splicer of a session gives the answers of its yielder; while its sleeps end in
    time it never stops the loop. *)
Lemma yielder_goes_on self slept :
  s5_timeout self < 0 \/ Forall (fun n => 0 < n) slept ->
  forall type n, n = 1 \/ In n slept -> yield_with (Some (fun type n => hev_socks5_task_io_yielder type n self)) type n = 0.
Proof.
  intros Hs type n Hn. simpl. unfold hev_socks5_task_io_yielder. destruct type; [done|].
  destruct (Z.ltb_spec (s5_timeout self) 0); [done|]. destruct Hs as [Hs|Hs]; [lia|].
  assert (0 < n) by (destruct Hn as [->|Hin]; [lia|]; rewrite Forall_forall in Hs; apply Hs; by apply list_elem_of_In).
  by rewrite (proj2 (Z.leb_gt n 0)) by lia.
Qed.

Lemma tcp_splicer_ok fuel self (i_f i_b : I) slept (s : splice2 B) :
  spl_given 8192 i_f -> spl_given 8192 i_b -> d_buf (sp_f s) = None -> d_buf (sp_b s) = None ->
  (2 + work [] (sp_f s) + work [] (sp_b s) < fuel)%nat ->
  exists s', hev_socks5_tcp_splicer fuel self i_f i_b slept s = Some (if s5_fd self <? 0 then -1 else 0, s') /\
    d_buf (sp_f s') = None /\ d_buf (sp_b s') = None /\
    relayed (sp_f s) (sp_f s') /\ relayed (sp_b s) (sp_b s') /\
    (0 <= s5_fd self -> spl_good i_f = true -> spl_good i_b = true -> s5_timeout self < 0 \/ Forall (fun n => 0 < n) slept ->
     dir_live (sp_f s) -> dir_live (sp_b s) ->
     d_out (sp_f s') = d_out (sp_f s) ++ rx_bytes (d_rx (sp_f s)) /\ d_shut (sp_f s') = true /\
     d_out (sp_b s') = d_out (sp_b s) ++ rx_bytes (d_rx (sp_b s)) /\ d_shut (sp_b s') = true).
Proof.
  intros Hgf Hgb Nf Nb Hfuel. unfold hev_socks5_tcp_splicer. destruct (Z.ltb_spec (s5_fd self) 0).
  { exists s. split_and!; try done; try (by apply relayed_same). lia. }
  destruct (io_splice_ok fuel 8192 i_f i_b (Some (fun type n => hev_socks5_task_io_yielder type n self)) slept s)
    as (s' & E & Ff & Fb & Rf & Rb & Hall); try done.
  exists s'. rewrite (bind_Some _ _ _ _ _ E). split_and!; try done. intros _ G1 G2 Hs Lf Lb.
  destruct (Hall G1 G2 (yielder_goes_on self slept Hs) Lf Lb) as (? & ? & ? & ?). done.
Qed.

End laws.
