(* ===== verification/Splice.v ===== *)
(** * The circular buffer of a splice (io/basic/hev-task-io.c, build without [splice(2)])

    A direction reads into the free part of a circular buffer and writes from its used
    part.  [circ_splicer_ok]: that is what [SpliceLoop] asks for. *)

From S2P Require Import Prelude Buffers TaskSocket Socks5Udp SpliceLoop.

Abbreviation CD := (M (dir circ)).

(** The allocation, when there is memory ([mem]: what the new block holds). *)
Definition task_io_splicer_init (buf_size : Z) (mem : option (list Z)) : CD Z :=
  match mem with
  | None => ret (-1)
  | Some data => modify (up_buf (Some (hev_circular_buffer_new buf_size data)));; ret 0
  end.

Definition task_io_splicer_fini : CD unit :=
  let* b := gets d_buf in
  match b with
  | Some c => modify (up_buf (hev_circular_buffer_unref c))
  | None => ret tt
  end.

(** The reading half of [task_io_splice]. *)
Definition splice_in : CD Z :=
  let* c := deref_buf in
  let iov := hev_circular_buffer_writing c in
  match iov with
  | [] => ret 1
  | _ =>
    let* evs := gets d_rx in
    let '(s, bs, again, evs) := readv (iov_len iov) evs in
    modify (up_rx evs);;
    if s <=? 0 then ret (if (s <? 0) && again then 0 else -1) else
    modify (up_buf (Some (hev_circular_buffer_write_finish
      (Circ (c_rp c) (c_use c) (c_max c) (c_ref c) (iov_scatter (c_data c) iov bs)) s)));;
    ret 1
  end.

(** The writing half, after the result of the reading half. *)
Definition splice_out (res : Z) : CD Z :=
  let* c := deref_buf in
  let iov := hev_circular_buffer_reading c in
  match iov with
  | [] => (when (res <? 0) do modify shutdown_wr);; ret res
  | _ =>
    let bs := iov_gather (c_data c) iov in
    let* evs := gets d_tx in
    let '(s, again, evs) := writev bs evs in
    modify (up_tx evs (take (Z.to_nat s) bs));;
    if s <=? 0 then ret (if (s <? 0) && again then 0 else -1) else
    modify (up_buf (Some (hev_circular_buffer_read_finish c s)));;
    ret 1
  end.

Definition task_io_splice : CD Z := let* res := splice_in in splice_out res.

#[export] Instance circ_splicer : Splicer (option (list Z)) circ :=
  {| splicer_init := task_io_splicer_init; splicer_fini := task_io_splicer_fini; splicer_splice := task_io_splice |}.

(** ** The laws *)

(** A block of memory for the buffers, when there is one. *)
Definition mem_ok (size : Z) (mem : option (list Z)) : Prop :=
  match mem with Some data => length data = Z.to_nat size | None => True end.

(** The buffer holds [q], and nobody else holds the buffer. *)
Definition circ_keeps (c : circ) (q : list Z) : Prop := circ_rep c [] q /\ c_ref c = 1.

Lemma holds_room d q c : holds circ_keeps d q -> d_buf d = Some c -> hev_circular_buffer_writing c = [] -> q <> [].
Proof.
  intros (c' & Hc & Hr & _) Hc2 Hw ->. rewrite Hc in Hc2. injection Hc2 as ->.
  destruct (@bf_writing_ok circ circ_fifo c [] [] Hr) as (Hl & _). simpl in Hl. rewrite Hw in Hl. simpl in Hl.
  destruct Hr as [_ [Hm _] _ _ _ _]. lia.
Qed.

(** The reading half: nothing is lost, and unless the input has ended or made it
    wait, something is buffered. *)
Lemma splice_in_ok d q :
  holds circ_keeps d q ->
  exists r d' q', splice_in d = Some (r, d') /\ carries circ_keeps d q d' q' /\ d_out d' = d_out d /\ d_tx d' = d_tx d /\
    d_shut d' = d_shut d /\ -1 <= r <= 1 /\ (work q' d' <= work q d)%nat /\
    (r = 1 -> q' <> []) /\ (r = 0 -> (work q' d' < work q d)%nat) /\
    (r = -1 -> dir_live d -> d_rx d' = []).
Proof.
  intros Hh. pose proof Hh as (c & Hc & Hr & Href). unfold splice_in, deref_buf.
  rewrite bind_assoc. erewrite bind_Some by (unfold gets; rewrite Hc; reflexivity).
  erewrite bind_Some by reflexivity. cbv beta.
  destruct (hev_circular_buffer_writing c) as [|v iov] eqn:Ew.
  { exists 1, d, q. split; [reflexivity|]. split; [split; eauto using app_nil_r; by exists []; rewrite app_nil_r|].
    split_and!; try done; try lia. intros _. by eapply holds_room. }
  rewrite <-Ew. destruct (@bf_writing_ok circ circ_fifo c [] q Hr) as (Hl & Hge & Hv). simpl in Hl, Hge, Hv.
  assert (0 < iov_len (hev_circular_buffer_writing c)) as Hp by (eapply iov_len_pos; [exact Hv|by rewrite Ew]).
  erewrite bind_Some by reflexivity. cbv beta.
  destruct (readv (iov_len (hev_circular_buffer_writing c)) (d_rx d)) as [[[s bs] again] evs] eqn:Er.
  pose proof (readv_ok _ _ _ _ _ _ Hp Er) as (Hbl & Hby & Hs).
  assert (forall d1 : dir circ, d_rx d1 = evs -> d_tx d1 = d_tx d -> dir_live d -> dir_live d1) as Hlive by (intros; by eapply live_read).
  erewrite bind_Some by reflexivity. cbv beta.
  destruct (Z.leb_spec s 0) as [Hs0|Hs0].
  - rewrite (proj2 (Z.ltb_ge 0 s)) in Hs by lia. destruct Hs as (-> & Hlt & Hle). simpl in Hby.
    assert (carries circ_keeps d q (up_rx evs d) q) as Hca.
    { split; [by exists c|simpl; by rewrite Hby|exists []; by rewrite app_nil_r|by apply Hlive]. }
    eexists _, (up_rx evs d), q. split; [reflexivity|]. split; [exact Hca|].
    assert (work q (up_rx evs d) + length (d_rx d) = work q d + length evs)%nat as Hwk by (unfold work; simpl; rewrite Hby; lia).
    split_and!; try done; try lia; try (case_match; intros; lia).
    + destruct (Z.ltb_spec s 0) as [Hneg|]; simpl; [|done]. destruct again; [|done]. specialize (Hlt Hneg eq_refl). lia.
    + intros Hm1 Hl1. simpl. apply (live_read_end _ _ _ _ _ _ Er Hp Hs0); [|done]. by destruct ((s <? 0) && again).
  - rewrite (proj2 (Z.ltb_lt 0 s)) in Hs by lia. destruct Hs as (-> & Hle).
    destruct (@bf_write_finish_ok circ circ_fifo c [] q bs Hr Hbl) as [Hr' _]. simpl in Hr'.
    erewrite bind_Some by reflexivity. cbv beta.
    eexists 1, _, (q ++ bs). split; [reflexivity|].
    split; [split; [by eexists|simpl; by rewrite Hby, <-app_assoc|exists []; by rewrite app_nil_r|by apply Hlive]|].
    split_and!; simpl; try done; try lia.
    + unfold work. simpl. rewrite Hby, !length_app. lia.
    + intros _ [_ ->]%app_eq_nil. simpl in Hs0. lia.
Qed.

(** The writing half: with something buffered the work shrinks, unless the output
    is broken; with nothing buffered the end of the input is passed on. *)
Lemma splice_out_ok d q res :
  holds circ_keeps d q -> -1 <= res <= 1 ->
  exists r d' q', splice_out res d = Some (r, d') /\ carries circ_keeps d q d' q' /\ -1 <= r <= 1 /\
    d_rx d' = d_rx d /\ (work q' d' <= work q d)%nat /\
    (q <> [] -> 0 <= r -> (work q' d' < work q d)%nat) /\ (q = [] -> r = res /\ q' = []) /\
    (d_shut d' = d_shut d /\ (r = -1 -> q = [] -> False) \/ d_shut d' = true /\ q' = [] /\ r = -1) /\
    (q <> [] -> dir_live d -> 0 <= r).
Proof.
  intros Hh Hres. pose proof Hh as (c & Hc & Hr & Href). unfold splice_out, deref_buf.
  rewrite bind_assoc. erewrite bind_Some by (unfold gets; rewrite Hc; reflexivity).
  erewrite bind_Some by reflexivity. cbv beta.
  destruct (@bf_reading_ok circ circ_fifo c [] q Hr) as (Hg & Hl & _). simpl in Hg, Hl.
  assert (carries circ_keeps d q d q) as Hrefl by (split; [done|done|exists []; by rewrite app_nil_r|done]).
  destruct (hev_circular_buffer_reading c) as [|v iov] eqn:Ei.
  { assert (q = []) as -> by (by rewrite <-Hg). clear Hrefl Hg Hl.
    destruct (Z.ltb_spec res 0) as [Hneg|Hnn].
    - exists (-1), (shutdown_wr d), []. assert (res = -1) as -> by lia. split; [reflexivity|].
      split; [split; [by exists c|done|exists []; by rewrite app_nil_r|done]|]. split_and!; try done. by right.
    - exists res, d, []. split; [reflexivity|]. split; [split; [done|done|exists []; by rewrite app_nil_r|done]|].
      split_and!; try done; try lia. left. split; [done|lia]. }
  rewrite <-Ei in *. rewrite Hg. assert (q <> []) as Hq.
  { intros ->. destruct (@bf_reading_ok circ circ_fifo c [] [] Hr) as (_ & _ & Hv). simpl in Hv, Hl.
    apply iov_len_pos in Hv; [lia|by rewrite Ei]. }
  erewrite bind_Some by reflexivity. cbv beta. destruct (writev q (d_tx d)) as [[s again] evs] eqn:Ew.
  pose proof (writev_ok _ _ _ _ _ Hq Ew) as (Hsl & Hle & Hlt).
  assert (forall d1 : dir circ, d_rx d1 = d_rx d -> d_tx d1 = evs -> dir_live d -> dir_live d1) as Hlive by (intros; by eapply live_write).
  erewrite bind_Some by reflexivity. cbv beta. destruct (Z.leb_spec s 0) as [Hs0|Hs0].
  - assert (Z.to_nat s = 0%nat) as -> by lia.
    eexists _, (up_tx evs [] d), q. split; [reflexivity|].
    split; [split; [by exists c|simpl; by rewrite app_nil_r|exists []; done|by apply Hlive]|].
    split_and!; try done; try (case_match; lia).
    + unfold work; simpl; lia.
    + intros _. destruct (Z.ltb_spec s 0); simpl; [|done]. destruct again; [|done]. specialize (Hlt Hs0 (conj H eq_refl)).
      intros _. unfold work; simpl; lia.
    + by left.
    + intros _ Hl1. by rewrite (live_write_wait _ _ _ _ _ Ew Hq Hs0 Hl1).
  - destruct (@bf_read_finish_ok circ circ_fifo c [] q (Z.to_nat s) Hr) as [Hr' _]; [lia|]. simpl in Hr'.
    rewrite Z2Nat.id in Hr' by lia. erewrite bind_Some by reflexivity. cbv beta.
    eexists 1, _, (drop (Z.to_nat s) q). split; [reflexivity|].
    split; [split; [by eexists| |by eexists|by apply Hlive]|].
    { simpl. rewrite <-app_assoc. f_equal. by rewrite app_assoc, take_drop. }
    assert (length (drop (Z.to_nat s) q) < length q)%nat by (rewrite length_drop; lia).
    split_and!; simpl; try done; try (unfold work; simpl; lia). by left.
Qed.

(** A turn of one direction. *)
Lemma splice_turn d q :
  holds circ_keeps d q ->
  exists r d' q', task_io_splice d = Some (r, d') /\ carries circ_keeps d q d' q' /\ -1 <= r <= 1 /\
    (0 <= r -> (work q' d' < work q d)%nat) /\
    (d_shut d' = d_shut d \/ d_shut d' = true /\ q' = [] /\ r = -1) /\
    (r = -1 -> dir_live d -> d_shut d' = true /\ q' = [] /\ d_rx d' = []).
Proof.
  intros Hh. destruct (splice_in_ok d q Hh) as (r1 & d1 & q1 & E1 & C1 & _ & _ & Hsh & Hr1 & Hw1 & Hq1 & Hz1 & He1).
  destruct (splice_out_ok d1 q1 r1 (ca_hold _ _ _ _ _ C1) Hr1) as (r & d2 & q2 & E2 & C2 & Hr2 & Hrx & Hw2 & Hlt & Hemp & Hs & Hl2).
  exists r, d2, q2. unfold task_io_splice. split; [by rewrite (bind_Some _ _ _ _ _ E1)|].
  split; [by eapply carries_trans|]. split; [done|].
  destruct (decide (q1 = [])) as [->|Hne].
  - destruct (Hemp eq_refl) as [-> ->]. split_and!.
    + intros Hp. assert (r1 = 0) as -> by (destruct (decide (r1 = 1)); [by destruct Hq1|lia]). specialize (Hz1 eq_refl). lia.
    + destruct Hs as [[-> _]|(? & _ & ?)]; [by left; rewrite Hsh|by right].
    + intros -> Hlive. destruct Hs as [[_ []]|(? & _)]; [done..|]. split_and!; try done. rewrite Hrx. by apply He1.
  - split_and!.
    + intros Hp. specialize (Hlt Hne Hp). lia.
    + destruct Hs as [[-> _]|(? & ? & ?)]; [by left; rewrite Hsh|by right].
    + intros -> Hlive. specialize (Hl2 Hne (ca_live _ _ _ _ _ C1 Hlive)). lia.
Qed.

#[export] Program Instance circ_splicer_ok : SplicerOk (option (list Z)) circ :=
  {| spl_given size mem := 0 < size /\ 2 * size < 18446744073709551616 /\ mem_ok size mem;
     spl_good mem := match mem with Some _ => true | None => false end;
     spl_keeps := circ_keeps |}.
Next Obligation.
  intros size [data|] d (H1 & H2 & H3) Hd.
  - exists (hev_circular_buffer_new size data). split; [done|]. split; [by apply circ_new_rep|done].
  - by exists (-1).
Qed.
Next Obligation.
  intros c q d [Hr Href] Hc. simpl. unfold task_io_splicer_fini, bind, gets. rewrite Hc. unfold hev_circular_buffer_unref. by rewrite Href.
Qed.
Next Obligation. intros c q d Hk Hc. apply splice_turn. by exists c. Qed.
