(* ===== verification/PipeSplice.v ===== *)
(** * The pipe of a splice (io/basic/hev-task-io.c, build with [splice(2)])

    The default build on Linux keeps the bytes of a direction in a pipe of the system: one
    [splice(2)] moves bytes from the input into the pipe, one from the pipe to the output, and
    [wlen] counts what is in it.  How much a pipe takes is up to the system: something if it
    is empty, and never more than its capacity.  [pipe_splicer_ok]: that is what
    [SpliceLoop] asks for. *)

From S2P Require Import Prelude TaskSocket Socks5Udp SpliceLoop.

(** ** State *)

(** [HevTaskIOSplicer] of this build, and its pipe: the bytes in it, its capacity, and what
    room the system finds in it at the next calls. *)
Record pipe := Pipe { pp_wlen : Z; pp_blen : Z; pp_bytes : list Z; pp_cap : Z; pp_room : list Z }.

Abbreviation PD := (M (dir pipe)).

(** Whether [pipe2] and the two [hev_task_add_fd] succeed, the result of [fcntl], and the pipe. *)
Record pipe_env := PipeEnv { pe_pipe : bool; pe_add0 : bool; pe_add1 : bool; pe_size : Z; pe_cap : Z; pe_room : list Z }.

(** The room of a pipe at a call. *)
Definition pipe_free (p : pipe) : Z :=
  let free := pp_cap p - Z.of_nat (length (pp_bytes p)) in
  let room := match pp_room p with [] => free | r :: _ => Z.min r free end in
  match pp_bytes p with [] => Z.max 1 room | _ => Z.max 0 room end.

(** ** Operations *)

Definition task_io_splicer_init (buf_size : Z) (e : pipe_env) : PD Z :=
  if negb (pe_pipe e) then ret (-1) else
  if negb (pe_add0 e) then ret (-1) else
  if negb (pe_add1 e) then ret (-1) else
  modify (up_buf (Some (Pipe 0 (u64 (pe_size e)) [] (pe_cap e) (pe_room e))));;
  ret 0.

Definition task_io_splicer_fini : PD unit := modify (up_buf None).

(** [splice (fd_in, NULL, self->fd[1], NULL, self->blen, ...)]: a pipe without room is EAGAIN, whatever
    the input has. *)
Definition splice_to_pipe : PD (Z * bool) :=
  let* p := deref_buf in
  let n := Z.min (pp_blen p) (pipe_free p) in
  if n <=? 0 then modify (up_buf (Some (Pipe (pp_wlen p) (pp_blen p) (pp_bytes p) (pp_cap p) (tl (pp_room p)))));; ret (-1, true) else
  let* evs := gets d_rx in
  let '(s, bs, again, evs) := readv n evs in
  modify (up_rx evs);;
  modify (up_buf (Some (Pipe (pp_wlen p) (pp_blen p) (pp_bytes p ++ bs) (pp_cap p) (tl (pp_room p)))));;
  ret (s, again).

(** [splice (self->fd[0], NULL, fd_out, NULL, self->blen, ...)] *)
Definition splice_from_pipe : PD (Z * bool) :=
  let* p := deref_buf in
  let bs := take (Z.to_nat (pp_blen p)) (pp_bytes p) in
  let* evs := gets d_tx in
  let '(s, again, evs) := writev bs evs in
  modify (up_tx evs (take (Z.to_nat s) bs));;
  modify (up_buf (Some (Pipe (pp_wlen p) (pp_blen p) (drop (Z.to_nat s) (pp_bytes p)) (pp_cap p) (pp_room p))));;
  ret (s, again).

Definition set_wlen (v : Z) : PD unit :=
  let* p := deref_buf in
  modify (up_buf (Some (Pipe v (pp_blen p) (pp_bytes p) (pp_cap p) (pp_room p)))).

(** The reading half of [task_io_splice]. *)
Definition splice_in : PD Z :=
  let* r := splice_to_pipe in
  let '(s, again) := r in
  if s <=? 0 then ret (if (s <? 0) && again then 0 else -1) else
  let* p := deref_buf in
  set_wlen (u64 (pp_wlen p + s));;
  ret 1.

(** The writing half, after the result of the reading half. *)
Definition splice_out (res : Z) : PD Z :=
  let* p := deref_buf in
  if negb (pp_wlen p =? 0) then
    let* r := splice_from_pipe in
    let '(s, again) := r in
    if s <=? 0 then ret (if (s <? 0) && again then 0 else -1) else
    let* p := deref_buf in
    set_wlen (u64 (pp_wlen p - s));;
    ret 1
  else
    (when (res <? 0) do modify shutdown_wr);; ret res.

Definition task_io_splice : PD Z := let* res := splice_in in splice_out res.

#[export] Instance pipe_splicer : Splicer pipe_env pipe :=
  {| splicer_init := task_io_splicer_init; splicer_fini := task_io_splicer_fini; splicer_splice := task_io_splice |}.

(** ** The laws *)

(** [fcntl (F_GETPIPE_SZ)] gives the capacity, or -1. *)
Definition pipe_given (e : pipe_env) : Prop := 0 < pe_cap e < 2147483648 /\ (pe_size e = pe_cap e \/ pe_size e = -1).

Record pipe_keeps (p : pipe) (q : list Z) : Prop := {
  pk_bytes : pp_bytes p = q;
  pk_wlen : pp_wlen p = Z.of_nat (length q);
  pk_cap : Z.of_nat (length q) <= pp_cap p < 2147483648;
  pk_pos : 0 < pp_cap p;
  pk_blen : pp_cap p <= pp_blen p
}.

Lemma pipe_free_ok p q : pipe_keeps p q -> 0 <= pipe_free p <= pp_cap p - Z.of_nat (length q) /\ (q = [] -> 0 < pipe_free p).
Proof. intros [<- _ H1 H2 _]. unfold pipe_free. destruct (pp_bytes p), (pp_room p); simpl in *; split; try done; lia. Qed.

Lemma pipe_in_ok d q :
  holds pipe_keeps d q ->
  exists r d' q', splice_in d = Some (r, d') /\ carries pipe_keeps d q d' q' /\ d_shut d' = d_shut d /\ -1 <= r <= 1 /\
    (work q' d' <= work q d)%nat /\ (0 <= r -> q' = [] -> (work q' d' < work q d)%nat) /\ (r = 1 -> q' <> []) /\
    (r = -1 -> dir_live d -> d_rx d' = []).
Proof.
  intros (p & Hp & Hk). pose proof Hk as [Hb Hw Hc Hpos Hbl]. destruct (pipe_free_ok p q Hk) as [Hfree Hempty].
  unfold splice_in, splice_to_pipe, set_wlen, deref_buf, bind, gets, modify, lift_opt, ret. rewrite Hp. set (n := Z.min (pp_blen p) (pipe_free p)).
  destruct (Z.leb_spec n 0) as [Hn|Hn].
  - change (-1 <=? 0) with true. cbv iota. eexists _, _, q. split; [reflexivity|].
    assert (q <> []) as Hq by (intros ->; specialize (Hempty eq_refl); lia).
    split; [split; [eexists; split; [reflexivity|by split]|done|exists []; by rewrite app_nil_r|done]|]. split_and!; try done; unfold work; simpl; lia.
  - destruct (readv n (d_rx d)) as [[[s bs] again] evs] eqn:Er. pose proof (readv_ok _ _ _ _ _ _ Hn Er) as (Hbl' & Hby & Hs).
    assert (forall d1 : dir pipe, d_rx d1 = evs -> d_tx d1 = d_tx d -> dir_live d -> dir_live d1) as Hlive by (intros; by eapply live_read).
    destruct (Z.leb_spec s 0) as [Hs0|Hs0]; simpl.
    + rewrite (proj2 (Z.ltb_ge 0 s)) in Hs by lia. destruct Hs as (-> & Hlt & Hle). simpl in Hby. rewrite app_nil_r.
      eexists _, _, q. split; [reflexivity|].
      split; [split; [eexists; split; [reflexivity|by split]|simpl; by rewrite Hby|exists []; by rewrite app_nil_r|by apply Hlive]|].
      split_and!; try done; try (case_match; lia).
      * unfold work. simpl. rewrite Hby. lia.
      * intros Hr _. unfold work. simpl. rewrite Hby. destruct (Z.ltb_spec s 0) as [Hneg|]; simpl in Hr; [|lia]. destruct again; [|lia]. specialize (Hlt Hneg eq_refl). lia.
      * intros Hm Hl1. simpl. apply (live_read_end _ _ _ _ _ _ Er Hn Hs0); [|done]. by destruct ((s <? 0) && again).
    + rewrite (proj2 (Z.ltb_lt 0 s)) in Hs by lia. destruct Hs as (-> & Hle). eexists _, _, (q ++ bs). split; [reflexivity|].
      assert (q ++ bs <> []) as Hne by (intros [_ ->]%app_eq_nil; simpl in Hs0; lia).
      split; [split; [|simpl; by rewrite Hby, <-app_assoc|exists []; by rewrite app_nil_r|by apply Hlive]|].
      { eexists. split; [reflexivity|]. split; simpl; [by rewrite Hb| |rewrite length_app; lia|done|done].
        rewrite Hw, length_app. unfold u64. rewrite Z.mod_small by lia. lia. }
      split_and!; simpl; try done; unfold work; simpl; rewrite Hby, !length_app; lia.
Qed.

Lemma pipe_out_ok d q res :
  holds pipe_keeps d q -> -1 <= res <= 1 ->
  exists r d' q', splice_out res d = Some (r, d') /\ carries pipe_keeps d q d' q' /\ -1 <= r <= 1 /\ d_rx d' = d_rx d /\
    (work q' d' <= work q d)%nat /\ (q <> [] -> 0 <= r -> (work q' d' < work q d)%nat) /\ (q = [] -> r = res /\ q' = []) /\
    (d_shut d' = d_shut d /\ (r = -1 -> q = [] -> False) \/ d_shut d' = true /\ q' = [] /\ r = -1) /\
    (q <> [] -> dir_live d -> 0 <= r).
Proof.
  intros (p & Hp & Hk) Hres. pose proof Hk as [Hb Hw Hc Hpos Hbl].
  unfold splice_out, splice_from_pipe, set_wlen, deref_buf, bind, gets, modify, lift_opt, ret. rewrite Hp, Hw.
  destruct q as [|x q'] eqn:Eq.
  { simpl. destruct (Z.ltb_spec res 0) as [Hneg|Hnn].
    - assert (res = -1) as -> by lia. eexists _, _, []. split; [reflexivity|]. split; [split; [by exists p|done|exists []; by rewrite app_nil_r|done]|]. split_and!; try done. by right.
    - eexists _, _, []. split; [reflexivity|]. split; [split; [by exists p|done|exists []; by rewrite app_nil_r|done]|]. split_and!; try done; try lia. left. split; [done|lia]. }
  rewrite <-Eq in *. assert (q <> []) as Hq by (by rewrite Eq). assert (0 < Z.of_nat (length q)) as Hlen by (rewrite Eq; simpl; lia).
  rewrite (proj2 (Z.eqb_neq _ 0)) by lia. simpl. rewrite Hp, Hb, (take_ge q) by lia.
  destruct (writev q (d_tx d)) as [[s again] evs] eqn:Ew. pose proof (writev_ok _ _ _ _ _ Hq Ew) as (Hsl & Hle & Hlt).
  assert (forall d1 : dir pipe, d_rx d1 = d_rx d -> d_tx d1 = evs -> dir_live d -> dir_live d1) as Hlive by (intros; by eapply live_write).
  destruct (Z.leb_spec s 0) as [Hs0|Hs0]; simpl.
  - assert (Z.to_nat s = 0%nat) as -> by lia. eexists _, _, q. split; [reflexivity|].
    split; [split; [eexists; split; [reflexivity|by split]|simpl; by rewrite app_nil_r|by exists []|by apply Hlive]|].
    split_and!; try done; try (case_match; lia).
    + unfold work; simpl; lia.
    + intros _ Hr. unfold work; simpl. destruct (Z.ltb_spec s 0) as [Hneg|]; simpl in Hr; [|lia]. destruct again; [|lia]. specialize (Hlt Hs0 (conj Hneg eq_refl)). lia.
    + by left.
    + intros _ Hl1. by rewrite (live_write_wait _ _ _ _ _ Ew Hq Hs0 Hl1).
  - eexists _, _, (drop (Z.to_nat s) q). split; [reflexivity|].
    assert (length (drop (Z.to_nat s) q) < length q)%nat by (rewrite length_drop; lia).
    split; [split; [|simpl; rewrite <-app_assoc; f_equal; by rewrite app_assoc, take_drop|by eexists|by apply Hlive]|].
    { eexists. split; [reflexivity|]. split; simpl; [done| |lia|done|done]. rewrite Hw, length_drop. unfold u64. rewrite Z.mod_small by lia. lia. }
    split_and!; simpl; try done; try (unfold work; simpl; lia). by left.
Qed.

#[export] Program Instance pipe_splicer_ok : SplicerOk pipe_env pipe :=
  {| spl_given _ e := pipe_given e; spl_good e := pe_pipe e && pe_add0 e && pe_add1 e; spl_keeps := pipe_keeps |}.
Next Obligation.
  intros size e d [Hc Hs] Hd. simpl. unfold task_io_splicer_init. destruct (pe_pipe e), (pe_add0 e), (pe_add1 e); simpl; try (by exists (-1)).
  eexists. split; [reflexivity|]. split; simpl; try done; try lia. destruct Hs as [-> | ->]; unfold u64; [rewrite Z.mod_small by lia|change (-1 mod 18446744073709551616) with 18446744073709551615]; lia.
Qed.
Next Obligation. done. Qed.
Next Obligation.
  intros p q d Hk Hp. destruct (pipe_in_ok d q) as (r1 & d1 & q1 & E1 & C1 & Hsh & Hr1 & Hw1 & Hz1 & Hq1 & He1); [by exists p|].
  destruct (pipe_out_ok d1 q1 r1 (ca_hold _ _ _ _ _ C1) Hr1) as (r & d2 & q2 & E2 & C2 & Hr2 & Hrx & Hw2 & Hlt & Hemp & Hs & Hl2).
  exists r, d2, q2. simpl. unfold task_io_splice. split; [by rewrite (bind_Some _ _ _ _ _ E1)|]. split; [by eapply carries_trans|]. split; [done|].
  destruct (decide (q1 = [])) as [->|Hne].
  - destruct (Hemp eq_refl) as [-> ->]. split_and!.
    + intros Hp'. specialize (Hz1 Hp' eq_refl). lia.
    + destruct Hs as [[-> _]|(? & _ & ?)]; [by left; rewrite Hsh|by right].
    + intros -> Hlive. destruct Hs as [[_ []]|(? & _)]; [done..|]. split_and!; try done. rewrite Hrx. by apply He1.
  - split_and!.
    + intros Hp'. specialize (Hlt Hne Hp'). lia.
    + destruct Hs as [[-> _]|(? & ? & ?)]; [by left; rewrite Hsh|by right].
    + intros -> Hlive. specialize (Hl2 Hne (ca_live _ _ _ _ _ C1 Hlive)). lia.
Qed.
