(* ===== verification/SpliceTheorems.v ===== *)
(** * Theorems on the splice of a TCP session (hev-task-io.c, hev-socks5-tcp.c)

    In both builds the splice ends, frees its buffers, never drops or reorders a byte, and passes
    the end of a stream on after everything that came before it. *)

From S2P Require Import Prelude Buffers TaskSocket Socks5Client Socks5Udp SpliceLoop Splice PipeSplice.

(** C26: The splice of a session always ends.  For every behaviour of the two
    connections, every answer of the scheduler and with or without memory for its
    buffers, it takes no more turns than there are bytes and events to handle, frees
    both buffers, and in each direction has put out the first bytes of the input in
    order; when it shut an output down, every byte it had read from the input was
    out. *)
Theorem tcp_splice_terminates self fuel mem_f mem_b slept (s : splice2 circ) :
  mem_ok 8192 mem_f -> mem_ok 8192 mem_b -> d_buf (sp_f s) = None -> d_buf (sp_b s) = None ->
  (2 + work [] (sp_f s) + work [] (sp_b s) < fuel)%nat ->
  exists s', hev_socks5_tcp_splicer fuel self mem_f mem_b slept s = Some (if s5_fd self <? 0 then -1 else 0, s') /\
    d_buf (sp_f s') = None /\ d_buf (sp_b s') = None /\ relayed (sp_f s) (sp_f s') /\ relayed (sp_b s) (sp_b s').
Proof.
  intros Hf Hb Nf Nb Hfuel. destruct (tcp_splicer_ok fuel self mem_f mem_b slept s) as (s' & ? & ? & ? & ? & ? & _); try done. by exists s'.
Qed.

Definition idle_socks5 : socks5 := Socks5 3 1000 TYPE_TCP false 0.
Definition blank : list Z := replicate (Z.to_nat 8192) 0.
Definition sample_f : dir circ := Dir None [RxData [1; 2; 3]; RxAgain; RxData [4]] [TxSome 2; TxAgain] [] false.
Definition sample_b : dir circ := Dir None [RxData [9]; RxErr] [TxErr] [] false.

Lemma tcp_splice_terminates_witness :
  exists s', hev_socks5_tcp_splicer 30 idle_socks5 (Some blank) (Some blank) [1; 0] (Splice2 sample_f sample_b) =
      Some (0, s') /\ d_buf (sp_f s') = None /\ d_buf (sp_b s') = None.
Proof.
  destruct (tcp_splice_terminates idle_socks5 30 (Some blank) (Some blank) [1; 0] (Splice2 sample_f sample_b))
    as (s' & E & Hf & Hb & _).
  - apply length_replicate.
  - apply length_replicate.
  - reflexivity.
  - reflexivity.
  - vm_compute. lia.
  - exists s'. split; [exact E|split; [exact Hf|exact Hb]].
Defined.

(** Everything gets through.  When the peers only make the session wait, the
    sleeps end in time and there is memory for the buffers, the splice ends with
    every byte of either connection sent to the other and both sending sides shut
    down, whatever chunks the bytes come and go in. *)
Theorem tcp_splice_delivers_all self fuel data_f data_b slept (s : splice2 circ) :
  length data_f = Z.to_nat 8192 -> length data_b = Z.to_nat 8192 -> 0 <= s5_fd self ->
  d_buf (sp_f s) = None -> d_buf (sp_b s) = None ->
  dir_live (sp_f s) -> dir_live (sp_b s) -> s5_timeout self < 0 \/ Forall (fun n => 0 < n) slept ->
  (2 + work [] (sp_f s) + work [] (sp_b s) < fuel)%nat ->
  exists s', hev_socks5_tcp_splicer fuel self (Some data_f) (Some data_b) slept s = Some (0, s') /\
    d_out (sp_f s') = d_out (sp_f s) ++ rx_bytes (d_rx (sp_f s)) /\ d_shut (sp_f s') = true /\
    d_out (sp_b s') = d_out (sp_b s) ++ rx_bytes (d_rx (sp_b s)) /\ d_shut (sp_b s') = true.
Proof.
  intros Hdf Hdb Hfd Nf Nb Lf Lb Hs Hfuel.
  destruct (tcp_splicer_ok fuel self (Some data_f) (Some data_b) slept s) as (s' & E & _ & _ & _ & _ & Hall); try done.
  rewrite (proj2 (Z.ltb_ge (s5_fd self) 0)) in E by lia. exists s'. split; [done|]. by apply Hall.
Qed.

Definition live_b : dir circ := Dir None [RxAgain; RxData [9; 8]] [] [7] false.

Lemma tcp_splice_delivers_all_witness :
  exists s', hev_socks5_tcp_splicer 40 idle_socks5 (Some blank) (Some blank) [5] (Splice2 sample_f live_b) = Some (0, s') /\
    d_out (sp_f s') = [1; 2; 3; 4] /\ d_out (sp_b s') = [7; 9; 8].
Proof.
  destruct (tcp_splice_delivers_all idle_socks5 40 blank blank [5] (Splice2 sample_f live_b))
    as (s' & E & Of & _ & Ob & _).
  - apply length_replicate.
  - apply length_replicate.
  - vm_compute. discriminate.
  - reflexivity.
  - reflexivity.
  - split; repeat constructor; done.
  - split; repeat constructor; done.
  - right. repeat constructor.
  - vm_compute. lia.
  - exists s'. split; [exact E|split; [exact Of|exact Ob]].
Defined.

(** C29: The splice of the default build, through pipes of the system.  For every behaviour of the two
    connections, of the pipes and of the scheduler it ends, closes both pipes and has put out
    the first bytes of each input in order; an output is shut down only when every
    byte read from its input is out.  When the pipes could be made, the peers only make the session wait
    and the sleeps end in time, every byte of either connection reaches the other, and both
    are shut down - however little room a pipe has, and whether or not its size is known. *)
Theorem pipe_splice_delivers_all self fuel e_f e_b slept (s : splice2 pipe) :
  pipe_given e_f -> pipe_given e_b -> d_buf (sp_f s) = None -> d_buf (sp_b s) = None ->
  (2 + work [] (sp_f s) + work [] (sp_b s) < fuel)%nat ->
  exists s', hev_socks5_tcp_splicer fuel self e_f e_b slept s = Some (if s5_fd self <? 0 then -1 else 0, s') /\
    d_buf (sp_f s') = None /\ d_buf (sp_b s') = None /\ relayed (sp_f s) (sp_f s') /\ relayed (sp_b s) (sp_b s') /\
    (0 <= s5_fd self -> pe_pipe e_f && pe_add0 e_f && pe_add1 e_f = true -> pe_pipe e_b && pe_add0 e_b && pe_add1 e_b = true ->
     s5_timeout self < 0 \/ Forall (fun n => 0 < n) slept -> dir_live (sp_f s) -> dir_live (sp_b s) ->
     d_out (sp_f s') = d_out (sp_f s) ++ rx_bytes (d_rx (sp_f s)) /\ d_shut (sp_f s') = true /\
     d_out (sp_b s') = d_out (sp_b s) ++ rx_bytes (d_rx (sp_b s)) /\ d_shut (sp_b s') = true).
Proof. intros Hf Hb Nf Nb Hfuel. exact (tcp_splicer_ok fuel self e_f e_b slept s Hf Hb Nf Nb Hfuel). Qed.

(** A pipe of four bytes that at times takes fewer, and one whose size is not known. *)
Definition pipe_f : pipe_env := PipeEnv true true true 4 4 [2; 0; 1].
Definition pipe_b : pipe_env := PipeEnv true true true (-1) 65536 [].
Definition pdir_f : dir pipe := Dir None [RxData [1; 2; 3; 4; 5; 6]; RxAgain; RxData [7]] [TxSome 1; TxAgain; TxSome 2] [] false.
Definition pdir_b : dir pipe := Dir None [RxAgain; RxData [9; 8]] [] [7] false.

Lemma pipe_splice_delivers_all_witness :
  exists s', hev_socks5_tcp_splicer 60 idle_socks5 pipe_f pipe_b [5] (Splice2 pdir_f pdir_b) = Some (0, s') /\
    d_out (sp_f s') = [1; 2; 3; 4; 5; 6; 7] /\ d_out (sp_b s') = [7; 9; 8].
Proof.
  destruct (pipe_splice_delivers_all idle_socks5 60 pipe_f pipe_b [5] (Splice2 pdir_f pdir_b))
    as (s' & E & _ & _ & _ & _ & Hall).
  - split; [split; reflexivity|by left].
  - split; [split; reflexivity|by right].
  - reflexivity.
  - reflexivity.
  - vm_compute. lia.
  - destruct Hall as (Of & _ & Ob & _).
    + vm_compute. discriminate.
    + reflexivity.
    + reflexivity.
    + right. repeat constructor.
    + split; repeat constructor; done.
    + split; repeat constructor; done.
    + exists s'. split; [exact E|split; [exact Of|exact Ob]].
Defined.
