(* ===== verification/Config.v ===== *)
(** * The configuration (hev-config.c)

    A YAML document, loaded by the library, is read into static variables: strings
    into blocks of fixed size, numbers through [strtoul], and the sizes that depend
    on each other are adjusted at the end. *)

From Stdlib Require Import Ascii String.
From S2P Require Import Prelude KeyedTree SocksAddr.

#[local] Open Scope Z_scope.

(** ** Strings and numbers of the C library *)

(** The bytes of a string literal. *)
Definition lit (s : string) : list Z := map (fun a => Z.of_nat (nat_of_ascii a)) (list_ascii_of_string s).

Definition tolower (c : Z) : Z := if (65 <=? c) && (c <=? 90) then c + 32 else c.

Definition strcasecmp (a b : list Z) : Z := strcmp (map tolower a) (map tolower b).

Definition isspace (c : Z) : bool := (c =? 32) || ((9 <=? c) && (c <=? 13)).

Definition digit_val (c : Z) : Z :=
  if (48 <=? c) && (c <=? 57) then c - 48
  else if (97 <=? c) && (c <=? 122) then c - 87
  else if (65 <=? c) && (c <=? 90) then c - 55
  else 255.

Definition ULONG_MAX : Z := 18446744073709551615.
Definition LONG_MAX : Z := 9223372036854775807.

(** The digits at the front of a string and the number they make. *)
Fixpoint digits (base acc : Z) (s : list Z) : Z :=
  match s with
  | [] => acc
  | c :: s => if digit_val c <? base then digits base (acc * base + digit_val c) s else acc
  end.

Fixpoint skip_space (s : list Z) : list Z :=
  match s with
  | c :: s' => if isspace c then skip_space s' else s
  | [] => []
  end.

(** Whether a number is negative, and its digits. *)
Definition sign_of (s : list Z) : bool * list Z :=
  match s with
  | c :: s' => if c =? 45 then (true, s') else if c =? 43 then (false, s') else (false, s)
  | [] => (false, s)
  end.

(** Base 0 looks at the prefix. *)
Definition base_of (base : Z) (s : list Z) : Z * list Z :=
  if negb (base =? 0) then (base, s) else
  match s with
  | 48 :: x :: d :: s' => if (tolower x =? 120) && (digit_val d <? 16) then (16, d :: s') else (8, s)
  | 48 :: _ => (8, s)
  | _ => (10, s)
  end.

Definition strtoul (s : list Z) (base : Z) : Z :=
  let '(neg, s) := sign_of (skip_space s) in
  let '(base, s) := base_of base s in
  let n := digits base 0 s in
  if ULONG_MAX <? n then ULONG_MAX else if neg then u64 (0 - n) else n.

Definition strtol (s : list Z) (base : Z) : Z :=
  let '(neg, s) := sign_of (skip_space s) in
  let '(base, s) := base_of base s in
  let n := digits base 0 s in
  if neg then Z.max (0 - LONG_MAX - 1) (0 - n) else Z.min LONG_MAX n.

(** [ntohl] of the four bytes of an address in memory, and the same bytes as the
    host reads them. *)
Definition ld32 (b : list Z) : Z :=
  match b with [b0; b1; b2; b3] => b0 + b1 * 256 + b2 * 65536 + b3 * 16777216 | _ => 0 end.

Definition ntohl (x : Z) : Z :=
  let x := u32 x in
  x mod 256 * 16777216 + x / 256 mod 256 * 65536 + x / 65536 mod 256 * 256 + x / 16777216.

(** Arithmetic on [int]; an overflow is undefined. *)
Definition int_ok (x : Z) : bool := (-2147483648 <=? x) && (x <=? 2147483647).
Definition int_add (x y : Z) : option Z := if int_ok (x + y) then Some (x + y) else None.
Definition int_mul (x y : Z) : option Z := if int_ok (x * y) then Some (x * y) else None.

(** ** Documents *)

(** [yaml_node_t]: the string of a scalar, or the pairs of indices of a mapping. *)
Inductive yaml_node := YScalar (value : list Z) | YSequence | YMapping (pairs : list (Z * Z)).

Abbreviation yaml_document := (list yaml_node).

Definition yaml_document_get_node (doc : yaml_document) (index : Z) : option yaml_node :=
  if (0 <? index) && (index <=? Z.of_nat (length doc)) then doc !! Z.to_nat (index - 1) else None.

Definition yaml_document_get_root_node (doc : yaml_document) : option yaml_node := head doc.

(** ** State *)

Definition TASK_STACK_SIZE : Z := 20480.
Definition CONFIG_UDP_BUF_SIZE : Z := 1500.
Definition TCP_SND_BUF : Z := 8 * 8191.

Definition HEV_LOGGER_DEBUG : Z := 0.
Definition HEV_LOGGER_INFO : Z := 1.
Definition HEV_LOGGER_WARN : Z := 2.
Definition HEV_LOGGER_ERROR : Z := 3.

(** The settings of the tunnel device: the static strings with all their bytes, and
    the numbers. *)
Record tun_conf := Tun {
  tn_name : list Z;
  tn_ipv4 : list Z;
  tn_ipv6 : list Z;
  tn_post_up : list Z;
  tn_pre_down : list Z;
  tn_mtu : Z;
  tn_multi_queue : Z;
  tn_icmp : Z
}.

(** [srv]; [sv_user] and [sv_pass]: whether the pointers refer to the static blocks
    [_user] and [_pass], which are kept here too. *)
Record server_conf := Srv {
  sv_addr : list Z;
  sv_udp_addr : list Z;
  sv_user : bool;
  sv_pass : bool;
  sv_blk_user : list Z;
  sv_blk_pass : list Z;
  sv_mark : Z;
  sv_udp_in_udp : Z;
  sv_port : Z;
  sv_pipeline : Z;
  sv_fastopen : Z
}.

(** The settings of the mapped DNS. *)
Record mapdns_conf := Mapdns {
  mp_address : Z;
  mp_port : Z;
  mp_network : Z;
  mp_netmask : Z;
  mp_cache_size : Z
}.

(** The other settings. *)
Record misc_conf := Misc {
  ms_log_file : list Z;
  ms_pid_file : list Z;
  ms_max_session_count : Z;
  ms_task_stack_size : Z;
  ms_tcp_buffer_size : Z;
  ms_udp_recv_buffer_size : Z;
  ms_udp_copy_buffer_nums : Z;
  ms_connect_timeout : Z;
  ms_tcp_read_write_timeout : Z;
  ms_udp_read_write_timeout : Z;
  ms_limit_nofile : Z;
  ms_log_level : Z
}.

(** The static variables of the file. *)
Record config := Config { cf_tun : tun_conf; cf_srv : server_conf; cf_map : mapdns_conf; cf_misc : misc_conf }.

Abbreviation CM := (M config).

(** Assignments to one variable. *)
Definition set_tn_name (v : list Z) (c : config) : config :=
  let t := cf_tun c in Config (Tun v (tn_ipv4 t) (tn_ipv6 t) (tn_post_up t) (tn_pre_down t) (tn_mtu t) (tn_multi_queue t) (tn_icmp t)) (cf_srv c) (cf_map c) (cf_misc c).
Definition set_tn_ipv4 (v : list Z) (c : config) : config :=
  let t := cf_tun c in Config (Tun (tn_name t) v (tn_ipv6 t) (tn_post_up t) (tn_pre_down t) (tn_mtu t) (tn_multi_queue t) (tn_icmp t)) (cf_srv c) (cf_map c) (cf_misc c).
Definition set_tn_ipv6 (v : list Z) (c : config) : config :=
  let t := cf_tun c in Config (Tun (tn_name t) (tn_ipv4 t) v (tn_post_up t) (tn_pre_down t) (tn_mtu t) (tn_multi_queue t) (tn_icmp t)) (cf_srv c) (cf_map c) (cf_misc c).
Definition set_tn_post_up (v : list Z) (c : config) : config :=
  let t := cf_tun c in Config (Tun (tn_name t) (tn_ipv4 t) (tn_ipv6 t) v (tn_pre_down t) (tn_mtu t) (tn_multi_queue t) (tn_icmp t)) (cf_srv c) (cf_map c) (cf_misc c).
Definition set_tn_pre_down (v : list Z) (c : config) : config :=
  let t := cf_tun c in Config (Tun (tn_name t) (tn_ipv4 t) (tn_ipv6 t) (tn_post_up t) v (tn_mtu t) (tn_multi_queue t) (tn_icmp t)) (cf_srv c) (cf_map c) (cf_misc c).
Definition set_tn_mtu (v : Z) (c : config) : config :=
  let t := cf_tun c in Config (Tun (tn_name t) (tn_ipv4 t) (tn_ipv6 t) (tn_post_up t) (tn_pre_down t) v (tn_multi_queue t) (tn_icmp t)) (cf_srv c) (cf_map c) (cf_misc c).
Definition set_tn_multi_queue (v : Z) (c : config) : config :=
  let t := cf_tun c in Config (Tun (tn_name t) (tn_ipv4 t) (tn_ipv6 t) (tn_post_up t) (tn_pre_down t) (tn_mtu t) v (tn_icmp t)) (cf_srv c) (cf_map c) (cf_misc c).
Definition set_tn_icmp (v : Z) (c : config) : config :=
  let t := cf_tun c in Config (Tun (tn_name t) (tn_ipv4 t) (tn_ipv6 t) (tn_post_up t) (tn_pre_down t) (tn_mtu t) (tn_multi_queue t) v) (cf_srv c) (cf_map c) (cf_misc c).
Definition set_sv_addr (v : list Z) (c : config) : config :=
  let t := cf_srv c in Config (cf_tun c) (Srv v (sv_udp_addr t) (sv_user t) (sv_pass t) (sv_blk_user t) (sv_blk_pass t) (sv_mark t) (sv_udp_in_udp t) (sv_port t) (sv_pipeline t) (sv_fastopen t)) (cf_map c) (cf_misc c).
Definition set_sv_udp_addr (v : list Z) (c : config) : config :=
  let t := cf_srv c in Config (cf_tun c) (Srv (sv_addr t) v (sv_user t) (sv_pass t) (sv_blk_user t) (sv_blk_pass t) (sv_mark t) (sv_udp_in_udp t) (sv_port t) (sv_pipeline t) (sv_fastopen t)) (cf_map c) (cf_misc c).
Definition set_sv_user (v : bool) (c : config) : config :=
  let t := cf_srv c in Config (cf_tun c) (Srv (sv_addr t) (sv_udp_addr t) v (sv_pass t) (sv_blk_user t) (sv_blk_pass t) (sv_mark t) (sv_udp_in_udp t) (sv_port t) (sv_pipeline t) (sv_fastopen t)) (cf_map c) (cf_misc c).
Definition set_sv_pass (v : bool) (c : config) : config :=
  let t := cf_srv c in Config (cf_tun c) (Srv (sv_addr t) (sv_udp_addr t) (sv_user t) v (sv_blk_user t) (sv_blk_pass t) (sv_mark t) (sv_udp_in_udp t) (sv_port t) (sv_pipeline t) (sv_fastopen t)) (cf_map c) (cf_misc c).
Definition set_sv_blk_user (v : list Z) (c : config) : config :=
  let t := cf_srv c in Config (cf_tun c) (Srv (sv_addr t) (sv_udp_addr t) (sv_user t) (sv_pass t) v (sv_blk_pass t) (sv_mark t) (sv_udp_in_udp t) (sv_port t) (sv_pipeline t) (sv_fastopen t)) (cf_map c) (cf_misc c).
Definition set_sv_blk_pass (v : list Z) (c : config) : config :=
  let t := cf_srv c in Config (cf_tun c) (Srv (sv_addr t) (sv_udp_addr t) (sv_user t) (sv_pass t) (sv_blk_user t) v (sv_mark t) (sv_udp_in_udp t) (sv_port t) (sv_pipeline t) (sv_fastopen t)) (cf_map c) (cf_misc c).
Definition set_sv_mark (v : Z) (c : config) : config :=
  let t := cf_srv c in Config (cf_tun c) (Srv (sv_addr t) (sv_udp_addr t) (sv_user t) (sv_pass t) (sv_blk_user t) (sv_blk_pass t) v (sv_udp_in_udp t) (sv_port t) (sv_pipeline t) (sv_fastopen t)) (cf_map c) (cf_misc c).
Definition set_sv_udp_in_udp (v : Z) (c : config) : config :=
  let t := cf_srv c in Config (cf_tun c) (Srv (sv_addr t) (sv_udp_addr t) (sv_user t) (sv_pass t) (sv_blk_user t) (sv_blk_pass t) (sv_mark t) v (sv_port t) (sv_pipeline t) (sv_fastopen t)) (cf_map c) (cf_misc c).
Definition set_sv_port (v : Z) (c : config) : config :=
  let t := cf_srv c in Config (cf_tun c) (Srv (sv_addr t) (sv_udp_addr t) (sv_user t) (sv_pass t) (sv_blk_user t) (sv_blk_pass t) (sv_mark t) (sv_udp_in_udp t) v (sv_pipeline t) (sv_fastopen t)) (cf_map c) (cf_misc c).
Definition set_sv_pipeline (v : Z) (c : config) : config :=
  let t := cf_srv c in Config (cf_tun c) (Srv (sv_addr t) (sv_udp_addr t) (sv_user t) (sv_pass t) (sv_blk_user t) (sv_blk_pass t) (sv_mark t) (sv_udp_in_udp t) (sv_port t) v (sv_fastopen t)) (cf_map c) (cf_misc c).
Definition set_sv_fastopen (v : Z) (c : config) : config :=
  let t := cf_srv c in Config (cf_tun c) (Srv (sv_addr t) (sv_udp_addr t) (sv_user t) (sv_pass t) (sv_blk_user t) (sv_blk_pass t) (sv_mark t) (sv_udp_in_udp t) (sv_port t) (sv_pipeline t) v) (cf_map c) (cf_misc c).
Definition set_mp_address (v : Z) (c : config) : config :=
  let t := cf_map c in Config (cf_tun c) (cf_srv c) (Mapdns v (mp_port t) (mp_network t) (mp_netmask t) (mp_cache_size t)) (cf_misc c).
Definition set_mp_port (v : Z) (c : config) : config :=
  let t := cf_map c in Config (cf_tun c) (cf_srv c) (Mapdns (mp_address t) v (mp_network t) (mp_netmask t) (mp_cache_size t)) (cf_misc c).
Definition set_mp_network (v : Z) (c : config) : config :=
  let t := cf_map c in Config (cf_tun c) (cf_srv c) (Mapdns (mp_address t) (mp_port t) v (mp_netmask t) (mp_cache_size t)) (cf_misc c).
Definition set_mp_netmask (v : Z) (c : config) : config :=
  let t := cf_map c in Config (cf_tun c) (cf_srv c) (Mapdns (mp_address t) (mp_port t) (mp_network t) v (mp_cache_size t)) (cf_misc c).
Definition set_mp_cache_size (v : Z) (c : config) : config :=
  let t := cf_map c in Config (cf_tun c) (cf_srv c) (Mapdns (mp_address t) (mp_port t) (mp_network t) (mp_netmask t) v) (cf_misc c).
Definition set_ms_log_file (v : list Z) (c : config) : config :=
  let t := cf_misc c in Config (cf_tun c) (cf_srv c) (cf_map c) (Misc v (ms_pid_file t) (ms_max_session_count t) (ms_task_stack_size t) (ms_tcp_buffer_size t) (ms_udp_recv_buffer_size t) (ms_udp_copy_buffer_nums t) (ms_connect_timeout t) (ms_tcp_read_write_timeout t) (ms_udp_read_write_timeout t) (ms_limit_nofile t) (ms_log_level t)).
Definition set_ms_pid_file (v : list Z) (c : config) : config :=
  let t := cf_misc c in Config (cf_tun c) (cf_srv c) (cf_map c) (Misc (ms_log_file t) v (ms_max_session_count t) (ms_task_stack_size t) (ms_tcp_buffer_size t) (ms_udp_recv_buffer_size t) (ms_udp_copy_buffer_nums t) (ms_connect_timeout t) (ms_tcp_read_write_timeout t) (ms_udp_read_write_timeout t) (ms_limit_nofile t) (ms_log_level t)).
Definition set_ms_max_session_count (v : Z) (c : config) : config :=
  let t := cf_misc c in Config (cf_tun c) (cf_srv c) (cf_map c) (Misc (ms_log_file t) (ms_pid_file t) v (ms_task_stack_size t) (ms_tcp_buffer_size t) (ms_udp_recv_buffer_size t) (ms_udp_copy_buffer_nums t) (ms_connect_timeout t) (ms_tcp_read_write_timeout t) (ms_udp_read_write_timeout t) (ms_limit_nofile t) (ms_log_level t)).
Definition set_ms_task_stack_size (v : Z) (c : config) : config :=
  let t := cf_misc c in Config (cf_tun c) (cf_srv c) (cf_map c) (Misc (ms_log_file t) (ms_pid_file t) (ms_max_session_count t) v (ms_tcp_buffer_size t) (ms_udp_recv_buffer_size t) (ms_udp_copy_buffer_nums t) (ms_connect_timeout t) (ms_tcp_read_write_timeout t) (ms_udp_read_write_timeout t) (ms_limit_nofile t) (ms_log_level t)).
Definition set_ms_tcp_buffer_size (v : Z) (c : config) : config :=
  let t := cf_misc c in Config (cf_tun c) (cf_srv c) (cf_map c) (Misc (ms_log_file t) (ms_pid_file t) (ms_max_session_count t) (ms_task_stack_size t) v (ms_udp_recv_buffer_size t) (ms_udp_copy_buffer_nums t) (ms_connect_timeout t) (ms_tcp_read_write_timeout t) (ms_udp_read_write_timeout t) (ms_limit_nofile t) (ms_log_level t)).
Definition set_ms_udp_recv_buffer_size (v : Z) (c : config) : config :=
  let t := cf_misc c in Config (cf_tun c) (cf_srv c) (cf_map c) (Misc (ms_log_file t) (ms_pid_file t) (ms_max_session_count t) (ms_task_stack_size t) (ms_tcp_buffer_size t) v (ms_udp_copy_buffer_nums t) (ms_connect_timeout t) (ms_tcp_read_write_timeout t) (ms_udp_read_write_timeout t) (ms_limit_nofile t) (ms_log_level t)).
Definition set_ms_udp_copy_buffer_nums (v : Z) (c : config) : config :=
  let t := cf_misc c in Config (cf_tun c) (cf_srv c) (cf_map c) (Misc (ms_log_file t) (ms_pid_file t) (ms_max_session_count t) (ms_task_stack_size t) (ms_tcp_buffer_size t) (ms_udp_recv_buffer_size t) v (ms_connect_timeout t) (ms_tcp_read_write_timeout t) (ms_udp_read_write_timeout t) (ms_limit_nofile t) (ms_log_level t)).
Definition set_ms_connect_timeout (v : Z) (c : config) : config :=
  let t := cf_misc c in Config (cf_tun c) (cf_srv c) (cf_map c) (Misc (ms_log_file t) (ms_pid_file t) (ms_max_session_count t) (ms_task_stack_size t) (ms_tcp_buffer_size t) (ms_udp_recv_buffer_size t) (ms_udp_copy_buffer_nums t) v (ms_tcp_read_write_timeout t) (ms_udp_read_write_timeout t) (ms_limit_nofile t) (ms_log_level t)).
Definition set_ms_tcp_read_write_timeout (v : Z) (c : config) : config :=
  let t := cf_misc c in Config (cf_tun c) (cf_srv c) (cf_map c) (Misc (ms_log_file t) (ms_pid_file t) (ms_max_session_count t) (ms_task_stack_size t) (ms_tcp_buffer_size t) (ms_udp_recv_buffer_size t) (ms_udp_copy_buffer_nums t) (ms_connect_timeout t) v (ms_udp_read_write_timeout t) (ms_limit_nofile t) (ms_log_level t)).
Definition set_ms_udp_read_write_timeout (v : Z) (c : config) : config :=
  let t := cf_misc c in Config (cf_tun c) (cf_srv c) (cf_map c) (Misc (ms_log_file t) (ms_pid_file t) (ms_max_session_count t) (ms_task_stack_size t) (ms_tcp_buffer_size t) (ms_udp_recv_buffer_size t) (ms_udp_copy_buffer_nums t) (ms_connect_timeout t) (ms_tcp_read_write_timeout t) v (ms_limit_nofile t) (ms_log_level t)).
Definition set_ms_limit_nofile (v : Z) (c : config) : config :=
  let t := cf_misc c in Config (cf_tun c) (cf_srv c) (cf_map c) (Misc (ms_log_file t) (ms_pid_file t) (ms_max_session_count t) (ms_task_stack_size t) (ms_tcp_buffer_size t) (ms_udp_recv_buffer_size t) (ms_udp_copy_buffer_nums t) (ms_connect_timeout t) (ms_tcp_read_write_timeout t) (ms_udp_read_write_timeout t) v (ms_log_level t)).
Definition set_ms_log_level (v : Z) (c : config) : config :=
  let t := cf_misc c in Config (cf_tun c) (cf_srv c) (cf_map c) (Misc (ms_log_file t) (ms_pid_file t) (ms_max_session_count t) (ms_task_stack_size t) (ms_tcp_buffer_size t) (ms_udp_recv_buffer_size t) (ms_udp_copy_buffer_nums t) (ms_connect_timeout t) (ms_tcp_read_write_timeout t) (ms_udp_read_write_timeout t) (ms_limit_nofile t) v).

(** ** Reading *)

(** [strncpy] into a static block. *)
Definition copy_to (get : config -> list Z) (set : list Z -> config -> config) (value : list Z) (n : nat) : CM unit :=
  let* blk := gets get in
  let* blk := lift_opt (poke blk 0 (strncpy value n)) in
  modify (set blk).

Definition tun_field (f : tun_conf -> list Z) (c : config) : list Z := f (cf_tun c).
Definition srv_field (f : server_conf -> list Z) (c : config) : list Z := f (cf_srv c).
Definition misc_field (f : misc_conf -> list Z) (c : config) : list Z := f (cf_misc c).

Definition eq_key (key : list Z) (s : string) : bool := 0 =? strcmp key (lit s).

(** The loop over the pairs of a mapping whose values are scalars: a pair without a
    node is skipped, and the first node of another kind ends it. *)
Fixpoint scalar_pairs {S} (doc : yaml_document) (body : list Z -> list Z -> M S unit) (pairs : list (Z * Z)) : M S unit :=
  match pairs with
  | [] => ret tt
  | (k, v) :: pairs =>
    if (k =? 0) || (v =? 0) then scalar_pairs doc body pairs else
    match yaml_document_get_node doc k with
    | Some (YScalar key) =>
      match yaml_document_get_node doc v with
      | Some (YScalar value) => body key value;; scalar_pairs doc body pairs
      | _ => ret tt
      end
    | _ => ret tt
    end
  end.

Definition hev_config_parse_tunnel_ipv4 (doc : yaml_document) (base : option yaml_node) : CM Z :=
  match base with
  | Some (YMapping pairs) =>
    scalar_pairs doc (fun key value =>
      when (eq_key key "address") do copy_to (tun_field tn_ipv4) set_tn_ipv4 value 15) pairs;;
    ret 0
  | _ => ret (-1)
  end.

Definition hev_config_parse_tunnel_ipv6 (doc : yaml_document) (base : option yaml_node) : CM Z :=
  match base with
  | Some (YMapping pairs) =>
    scalar_pairs doc (fun key value =>
      when (eq_key key "address") do copy_to (tun_field tn_ipv6) set_tn_ipv6 value 63) pairs;;
    ret 0
  | _ => ret (-1)
  end.

Definition b2z (b : bool) : Z := if b then 1 else 0.

(** One scalar setting of the tunnel. *)
Definition tunnel_scalar (key value : list Z) : CM unit :=
  if eq_key key "name" then copy_to (tun_field tn_name) set_tn_name value 63
  else if eq_key key "mtu" then modify (set_tn_mtu (u32 (strtoul value 10)))
  else if eq_key key "multi-queue" then modify (set_tn_multi_queue (strcasecmp value (lit "false")))
  else if eq_key key "ipv4" then copy_to (tun_field tn_ipv4) set_tn_ipv4 value 15
  else if eq_key key "ipv6" then copy_to (tun_field tn_ipv6) set_tn_ipv6 value 63
  else if eq_key key "icmp" then modify (set_tn_icmp (b2z (strcasecmp value (lit "reply") =? 0)))
  else if eq_key key "post-up-script" then copy_to (tun_field tn_post_up) set_tn_post_up value 1023
  else if eq_key key "pre-down-script" then copy_to (tun_field tn_pre_down) set_tn_pre_down value 1023
  else ret tt.

Fixpoint tunnel_pairs (doc : yaml_document) (pairs : list (Z * Z)) : CM unit :=
  match pairs with
  | [] => ret tt
  | (k, v) :: pairs =>
    if (k =? 0) || (v =? 0) then tunnel_pairs doc pairs else
    match yaml_document_get_node doc k with
    | Some (YScalar key) =>
      match yaml_document_get_node doc v with
      | None => ret tt
      | Some (YScalar value) => tunnel_scalar key value;; tunnel_pairs doc pairs
      | Some node =>
        (if eq_key key "ipv4" then hev_config_parse_tunnel_ipv4 doc (Some node);; ret tt
         else if eq_key key "ipv6" then hev_config_parse_tunnel_ipv6 doc (Some node);; ret tt
         else ret tt);;
        tunnel_pairs doc pairs
      end
    | _ => ret tt
    end
  end.

Definition hev_config_parse_tunnel (doc : yaml_document) (base : option yaml_node) : CM Z :=
  match base with
  | Some (YMapping pairs) => tunnel_pairs doc pairs;; ret 0
  | _ => ret (-1)
  end.

(** The local variables of [hev_config_parse_socks5], NULL at first. *)
Record s5_vars := Vars {
  va_port : option (list Z);
  va_addr : option (list Z);
  va_udpm : option (list Z);
  va_udpa : option (list Z);
  va_pipe : option (list Z);
  va_user : option (list Z);
  va_pass : option (list Z);
  va_mark : option (list Z);
  va_tfso : option (list Z)
}.

Definition vars0 : s5_vars := Vars None None None None None None None None None.

Definition set_va_port (v : list Z) (t : s5_vars) : s5_vars :=
  Vars (Some v) (va_addr t) (va_udpm t) (va_udpa t) (va_pipe t) (va_user t) (va_pass t) (va_mark t) (va_tfso t).
Definition set_va_addr (v : list Z) (t : s5_vars) : s5_vars :=
  Vars (va_port t) (Some v) (va_udpm t) (va_udpa t) (va_pipe t) (va_user t) (va_pass t) (va_mark t) (va_tfso t).
Definition set_va_udpm (v : list Z) (t : s5_vars) : s5_vars :=
  Vars (va_port t) (va_addr t) (Some v) (va_udpa t) (va_pipe t) (va_user t) (va_pass t) (va_mark t) (va_tfso t).
Definition set_va_udpa (v : list Z) (t : s5_vars) : s5_vars :=
  Vars (va_port t) (va_addr t) (va_udpm t) (Some v) (va_pipe t) (va_user t) (va_pass t) (va_mark t) (va_tfso t).
Definition set_va_pipe (v : list Z) (t : s5_vars) : s5_vars :=
  Vars (va_port t) (va_addr t) (va_udpm t) (va_udpa t) (Some v) (va_user t) (va_pass t) (va_mark t) (va_tfso t).
Definition set_va_user (v : list Z) (t : s5_vars) : s5_vars :=
  Vars (va_port t) (va_addr t) (va_udpm t) (va_udpa t) (va_pipe t) (Some v) (va_pass t) (va_mark t) (va_tfso t).
Definition set_va_pass (v : list Z) (t : s5_vars) : s5_vars :=
  Vars (va_port t) (va_addr t) (va_udpm t) (va_udpa t) (va_pipe t) (va_user t) (Some v) (va_mark t) (va_tfso t).
Definition set_va_mark (v : list Z) (t : s5_vars) : s5_vars :=
  Vars (va_port t) (va_addr t) (va_udpm t) (va_udpa t) (va_pipe t) (va_user t) (va_pass t) (Some v) (va_tfso t).
Definition set_va_tfso (v : list Z) (t : s5_vars) : s5_vars :=
  Vars (va_port t) (va_addr t) (va_udpm t) (va_udpa t) (va_pipe t) (va_user t) (va_pass t) (va_mark t) (Some v).

Definition socks5_scalar (key value : list Z) : M s5_vars unit :=
  if eq_key key "port" then modify (set_va_port value)
  else if eq_key key "address" then modify (set_va_addr value)
  else if eq_key key "udp" then modify (set_va_udpm value)
  else if eq_key key "udp-address" then modify (set_va_udpa value)
  else if eq_key key "pipeline" then modify (set_va_pipe value)
  else if eq_key key "username" then modify (set_va_user value)
  else if eq_key key "password" then modify (set_va_pass value)
  else if eq_key key "mark" then modify (set_va_mark value)
  else if eq_key key "tcp-fastopen" then modify (set_va_tfso value)
  else ret tt.

Definition is_null {A} (o : option A) : bool := match o with None => true | Some _ => false end.

(** [p && body p] for a pointer that may be NULL. *)
Definition when_set (o : option (list Z)) (body : list Z -> CM unit) : CM unit :=
  match o with Some v => body v | None => ret tt end.

(** The part after the loop. *)
Definition socks5_apply (va : s5_vars) : CM Z :=
  match va_port va, va_addr va with
  | None, _ | _, None => ret (-1)
  | Some port, Some addr =>
    if xorb (is_null (va_user va)) (is_null (va_pass va)) then ret (-1) else
    copy_to (srv_field sv_addr) set_sv_addr addr 255;;
    modify (set_sv_port (u16 (strtoul port 10)));;
    when_set (va_pipe va) (fun v => when (strcasecmp v (lit "true") =? 0) do modify (set_sv_pipeline 1));;
    when_set (va_udpm va) (fun v => when (strcasecmp v (lit "udp") =? 0) do modify (set_sv_udp_in_udp 1));;
    when_set (va_udpa va) (fun v => copy_to (srv_field sv_udp_addr) set_sv_udp_addr v 255);;
    when_set (va_user va) (fun user => when_set (va_pass va) (fun pass =>
      copy_to (srv_field sv_blk_user) set_sv_blk_user user 255;;
      copy_to (srv_field sv_blk_pass) set_sv_blk_pass pass 255;;
      modify (set_sv_user true);;
      modify (set_sv_pass true)));;
    when_set (va_mark va) (fun v => modify (set_sv_mark (u32 (strtoul v 0))));;
    when_set (va_tfso va) (fun v => modify (set_sv_fastopen (b2z (0 =? strcasecmp v (lit "true")))));;
    ret 0
  end.

Definition hev_config_parse_socks5 (doc : yaml_document) (base : option yaml_node) : CM Z :=
  match base with
  | Some (YMapping pairs) =>
    let* (_, va) := lift_opt (scalar_pairs doc socks5_scalar pairs vars0) in
    socks5_apply va
  | _ => ret (-1)
  end.

Section inet.

(** [inet_pton (AF_INET, ...)]: the four bytes of an address, when the string is
    one. *)
Variable inet_pton : list Z -> option (list Z).

Definition store_ipv4 (set : Z -> config -> config) (value : list Z) : CM unit :=
  match inet_pton value with Some b => modify (set (i32 (ld32 b))) | None => ret tt end.

Definition mapdns_scalar (key value : list Z) : CM unit :=
  if eq_key key "address" then store_ipv4 set_mp_address value
  else if eq_key key "port" then modify (set_mp_port (i32 (strtoul value 10)))
  else if eq_key key "network" then store_ipv4 set_mp_network value
  else if eq_key key "netmask" then store_ipv4 set_mp_netmask value
  else if eq_key key "cache-size" then modify (set_mp_cache_size (i32 (strtoul value 10)))
  else ret tt.

Definition hev_config_parse_mapdns (doc : yaml_document) (base : option yaml_node) : CM Z :=
  match base with
  | Some (YMapping pairs) =>
    scalar_pairs doc mapdns_scalar pairs;;
    modify (fun c => set_mp_network (i32 (ntohl (mp_network (cf_map c)))) c);;
    modify (fun c => set_mp_netmask (i32 (ntohl (mp_netmask (cf_map c)))) c);;
    ret 0
  | _ => ret (-1)
  end.

Definition hev_config_parse_log_level (value : list Z) : Z :=
  if eq_key value "debug" then HEV_LOGGER_DEBUG
  else if eq_key value "info" then HEV_LOGGER_INFO
  else if eq_key value "error" then HEV_LOGGER_ERROR
  else HEV_LOGGER_WARN.

(** The static variables with the three local timeouts. *)
Record misc_vars := MiscVars { mv_conf : config; mv_rw : Z; mv_tcp : Z; mv_udp : Z }.

Definition on_conf {A} (c : CM A) : M misc_vars A :=
  zoom mv_conf (fun c v => MiscVars c (mv_rw v) (mv_tcp v) (mv_udp v)) c.

Definition int_of (value : list Z) : Z := i32 (strtoul value 10).

Definition misc_scalar (key value : list Z) : M misc_vars unit :=
  if eq_key key "task-stack-size" then on_conf (modify (set_ms_task_stack_size (int_of value)))
  else if eq_key key "tcp-buffer-size" then on_conf (modify (set_ms_tcp_buffer_size (int_of value)))
  else if eq_key key "udp-recv-buffer-size" then on_conf (modify (set_ms_udp_recv_buffer_size (int_of value)))
  else if eq_key key "udp-copy-buffer-nums" then on_conf (modify (set_ms_udp_copy_buffer_nums (int_of value)))
  else if eq_key key "max-session-count" then on_conf (modify (set_ms_max_session_count (int_of value)))
  else if eq_key key "connect-timeout" then on_conf (modify (set_ms_connect_timeout (int_of value)))
  else if eq_key key "read-write-timeout" then modify (fun v => MiscVars (mv_conf v) (int_of value) (mv_tcp v) (mv_udp v))
  else if eq_key key "tcp-read-write-timeout" then modify (fun v => MiscVars (mv_conf v) (mv_rw v) (int_of value) (mv_udp v))
  else if eq_key key "udp-read-write-timeout" then modify (fun v => MiscVars (mv_conf v) (mv_rw v) (mv_tcp v) (int_of value))
  else if eq_key key "pid-file" then on_conf (copy_to (misc_field ms_pid_file) set_ms_pid_file value 1023)
  else if eq_key key "log-file" then on_conf (copy_to (misc_field ms_log_file) set_ms_log_file value 1023)
  else if eq_key key "log-level" then on_conf (modify (set_ms_log_level (hev_config_parse_log_level value)))
  else if eq_key key "limit-nofile" then on_conf (modify (set_ms_limit_nofile (i32 (strtol value 10))))
  else ret tt.

Definition hev_config_parse_misc (doc : yaml_document) (base : option yaml_node) : CM Z :=
  match base with
  | Some (YMapping pairs) =>
    let* c := gets id in
    let* (_, v) := lift_opt (scalar_pairs doc misc_scalar pairs (MiscVars c (-1) (-1) (-1))) in
    modify (fun _ => mv_conf v);;
    let tcp := if mv_tcp v <=? 0 then mv_rw v else mv_tcp v in
    let udp := if mv_udp v <=? 0 then mv_rw v else mv_udp v in
    (when (0 <? tcp) do modify (set_ms_tcp_read_write_timeout tcp));;
    (when (0 <? udp) do modify (set_ms_udp_read_write_timeout udp));;
    ret 0
  | _ => ret (-1)
  end.

(** ** The document *)

(** One section, by its key. *)
Definition parse_section (doc : yaml_document) (key : list Z) (node : option yaml_node) : CM Z :=
  if eq_key key "tunnel" then hev_config_parse_tunnel doc node
  else if eq_key key "socks5" then hev_config_parse_socks5 doc node
  else if eq_key key "mapdns" then hev_config_parse_mapdns doc node
  else if eq_key key "misc" then hev_config_parse_misc doc node
  else ret 0.

(** The loop over the sections: whether it went to its end. *)
Fixpoint sections (doc : yaml_document) (pairs : list (Z * Z)) : CM bool :=
  match pairs with
  | [] => ret true
  | (k, v) :: pairs =>
    if (k =? 0) || (v =? 0) then sections doc pairs else
    match yaml_document_get_node doc k with
    | Some (YScalar key) =>
      let* res := parse_section doc key (yaml_document_get_node doc v) in
      if res <? 0 then ret false else sections doc pairs
    | _ => ret true
    end
  end.

(** The sizes that follow from the settings. *)
Definition adjust_sizes : CM unit :=
  let* m := gets cf_misc in
  (when (TCP_SND_BUF <? ms_tcp_buffer_size m) do modify (set_ms_tcp_buffer_size TCP_SND_BUF));;
  let* tcp := gets (fun c => ms_tcp_buffer_size (cf_misc c)) in
  let* udp := lift_opt (int_mul CONFIG_UDP_BUF_SIZE (ms_udp_copy_buffer_nums m)) in
  let* least := lift_opt (int_add TASK_STACK_SIZE (if udp <? tcp then tcp else udp)) in
  when (ms_task_stack_size m <? least) do modify (set_ms_task_stack_size least).

Definition hev_config_parse_doc (doc : yaml_document) : CM Z :=
  match yaml_document_get_root_node doc with
  | Some (YMapping pairs) =>
    let* ok := sections doc pairs in
    if negb ok then ret (-1) else
    adjust_sizes;;
    ret 0
  | _ => ret (-1)
  end.

Definition zero_block (n : Z) : list Z := replicate (Z.to_nat n) 0.

Definition hev_config_reset (c : config) : config :=
  Config
    (Tun (zero_block 64) (zero_block 16) (zero_block 64) (zero_block 1024) (zero_block 1024) 8500 0 0)
    (Srv (zero_block 256) (zero_block 256) false false (sv_blk_user (cf_srv c)) (sv_blk_pass (cf_srv c)) 0 0 0 0 0)
    (Mapdns 0 0 0 0 0)
    (Misc (zero_block 1024) (zero_block 1024) 0 86016 65536 524288 10 10000 300000 60000 65535 HEV_LOGGER_WARN).

(** What the YAML library makes of the text: whether a parser could be set up, and
    the document. *)
Variable yaml_parser_initialize : bool.
Variable yaml_parser_load : list Z -> option yaml_document.

Definition hev_config_init_from_str (config_str : list Z) : CM Z :=
  modify hev_config_reset;;
  if negb yaml_parser_initialize then ret (-1) else
  match yaml_parser_load config_str with
  | None => ret (-1)
  | Some doc => hev_config_parse_doc doc
  end.

(** [fopen]: the contents of the file, when it can be read. *)
Definition hev_config_init_from_file (file : option (list Z)) : CM Z :=
  modify hev_config_reset;;
  if negb yaml_parser_initialize then ret (-1) else
  match file with
  | None => ret (-1)
  | Some text =>
    match yaml_parser_load text with
    | None => ret (-1)
    | Some doc => hev_config_parse_doc doc
    end
  end.

End inet.

(** ** Reading the settings back *)

(** A static string, NULL when it is empty. *)
Definition string_or_null (blk : list Z) : option (option (list Z)) :=
  b ← peek1 blk 0;
  if b =? 0 then Some None else s ← c_str blk; Some (Some s).

Definition hev_config_get_tunnel_name (c : config) := string_or_null (tn_name (cf_tun c)).
Definition hev_config_get_tunnel_mtu (c : config) : Z := tn_mtu (cf_tun c).
Definition hev_config_get_tunnel_multi_queue (c : config) : Z := tn_multi_queue (cf_tun c).
Definition hev_config_get_tunnel_icmp (c : config) : Z := tn_icmp (cf_tun c).
Definition hev_config_get_tunnel_ipv4_address (c : config) := string_or_null (tn_ipv4 (cf_tun c)).
Definition hev_config_get_tunnel_ipv6_address (c : config) := string_or_null (tn_ipv6 (cf_tun c)).
Definition hev_config_get_tunnel_post_up_script (c : config) := string_or_null (tn_post_up (cf_tun c)).
Definition hev_config_get_tunnel_pre_down_script (c : config) := string_or_null (tn_pre_down (cf_tun c)).
Definition hev_config_get_socks5_server (c : config) : server_conf := cf_srv c.
Definition hev_config_get_mapdns_address (c : config) : Z := mp_address (cf_map c).
Definition hev_config_get_mapdns_port (c : config) : Z := mp_port (cf_map c).
Definition hev_config_get_mapdns_network (c : config) : Z := mp_network (cf_map c).
Definition hev_config_get_mapdns_netmask (c : config) : Z := mp_netmask (cf_map c).
Definition hev_config_get_mapdns_cache_size (c : config) : Z := mp_cache_size (cf_map c).
Definition hev_config_get_misc_task_stack_size (c : config) : Z := ms_task_stack_size (cf_misc c).
Definition hev_config_get_misc_tcp_buffer_size (c : config) : Z := ms_tcp_buffer_size (cf_misc c).
Definition hev_config_get_misc_udp_recv_buffer_size (c : config) : Z := ms_udp_recv_buffer_size (cf_misc c).
Definition hev_config_get_misc_udp_copy_buffer_nums (c : config) : Z := ms_udp_copy_buffer_nums (cf_misc c).
Definition hev_config_get_misc_max_session_count (c : config) : Z := ms_max_session_count (cf_misc c).
Definition hev_config_get_misc_connect_timeout (c : config) : Z := ms_connect_timeout (cf_misc c).
Definition hev_config_get_misc_tcp_read_write_timeout (c : config) : Z := ms_tcp_read_write_timeout (cf_misc c).
Definition hev_config_get_misc_udp_read_write_timeout (c : config) : Z := ms_udp_read_write_timeout (cf_misc c).
Definition hev_config_get_misc_limit_nofile (c : config) : Z := ms_limit_nofile (cf_misc c).
Definition hev_config_get_misc_pid_file (c : config) := string_or_null (ms_pid_file (cf_misc c)).

Definition hev_config_get_misc_log_file (c : config) : option (option (list Z)) :=
  s ← string_or_null (ms_log_file (cf_misc c));
  match s with
  | Some s => if eq_key s "null" then Some None else Some (Some s)
  | None => Some None
  end.

Definition hev_config_get_misc_log_level (c : config) : Z := ms_log_level (cf_misc c).
