(* ===== verification/ConfigWf.v ===== *)
(** * Well-formed configurations (hev-config.c)

    Every section of every document keeps the static strings terminated inside their
    blocks and the numbers inside their types. *)

From Stdlib Require Import String.
From S2P Require Import Prelude KeyedTree SocksAddr Config.

#[local] Open Scope Z_scope.

(** ** Static strings *)

(** A block of [n] bytes whose last byte is NUL. *)
Definition blk_ok (n : nat) (l : list Z) : Prop := length l = n /\ bytes_ok l /\ l !! (n - 1)%nat = Some 0.

Lemma blk_zero n : (0 < n)%nat -> blk_ok n (replicate n 0).
Proof.
  intros Hn. split_and!; [apply length_replicate|by apply Forall_replicate|].
  apply lookup_replicate_2. lia.
Qed.

Lemma strncpy_length v k : length (strncpy v k) = k.
Proof. unfold strncpy. rewrite length_take, length_app, length_replicate. lia. Qed.

Lemma cstr_bytes v : cstr v -> bytes_ok v.
Proof. intros H. eapply Forall_impl; [exact H|]. intros b Hb. unfold byte_ok. simpl in *. lia. Qed.

Lemma strncpy_short v k : (length v <= k)%nat -> strncpy v k = v ++ replicate (k - length v) 0.
Proof.
  intros H. unfold strncpy. rewrite take_app_ge by done. f_equal. rewrite take_replicate. f_equal. lia.
Qed.

Lemma strncpy_long v k : (k <= length v)%nat -> strncpy v k = take k v.
Proof. intros H. unfold strncpy. by rewrite take_app_le. Qed.

(** Copying a string with one byte less than the block has. *)
Lemma copy_blk n l v :
  (0 < n)%nat -> blk_ok n l -> cstr v ->
  exists l', poke l 0 (strncpy v (n - 1)) = Some l' /\ blk_ok n l' /\ c_str l' = Some (take (n - 1) v).
Proof.
  intros Hn (Hl & Hb & H0) Hv. pose proof (strncpy_length v (n - 1)) as Hs.
  destruct l as [|x init _] using rev_ind; [simpl in Hl; lia|].
  rewrite length_app in Hl. simpl in Hl. replace (n - 1)%nat with (length init) in * by lia.
  rewrite list_lookup_middle in H0 by done. injection H0 as ->.
  exists (strncpy v (length init) ++ [0]). split; [|split; [split_and!|]].
  - rewrite (poke_at _ _ _ [] init [0]); try done.
  - rewrite length_app. simpl. lia.
  - apply Forall_app. split; [|by repeat constructor]. unfold strncpy. apply Forall_take, Forall_app.
    split; [by apply cstr_bytes|by apply Forall_replicate].
  - replace (n - 1)%nat with (length init) by lia. by rewrite lookup_app_r, Hs, Nat.sub_diag by lia.
  - assert (cstr (take (length init) v)) as Hc by (by apply Forall_take).
    destruct (decide (length v <= length init)%nat) as [Hle|Hgt].
    + rewrite strncpy_short by done. rewrite take_ge by done. rewrite <-app_assoc.
      destruct (length init - length v)%nat; by apply c_str_app.
    + rewrite strncpy_long by lia. by apply c_str_app.
Qed.

(** ** The invariant *)

(** The scalars of a document are C strings. *)
Definition doc_ok (doc : yaml_document) : Prop :=
  Forall (fun n => match n with YScalar v => cstr v | _ => True end) doc.

Record tun_wf (t : tun_conf) : Prop := {
  tw_name : blk_ok 64 (tn_name t); tw_ipv4 : blk_ok 16 (tn_ipv4 t); tw_ipv6 : blk_ok 64 (tn_ipv6 t);
  tw_up : blk_ok 1024 (tn_post_up t); tw_down : blk_ok 1024 (tn_pre_down t);
  tw_mtu : 0 <= tn_mtu t < 4294967296; tw_icmp : tn_icmp t = 0 \/ tn_icmp t = 1
}.

(** The two blocks of the credentials outlive every document. *)
Definition statics_ok (s : server_conf) : Prop := blk_ok 256 (sv_blk_user s) /\ blk_ok 256 (sv_blk_pass s).

Record srv_wf (s : server_conf) : Prop := {
  sw_addr : blk_ok 256 (sv_addr s); sw_udp : blk_ok 256 (sv_udp_addr s); sw_static : statics_ok s;
  sw_creds : sv_user s = sv_pass s; sw_port : 0 <= sv_port s < 65536; sw_mark : 0 <= sv_mark s < 4294967296
}.

Definition is_int (x : Z) : Prop := -2147483648 <= x <= 2147483647.

Record mapdns_wf (m : mapdns_conf) : Prop := {
  mw_address : is_int (mp_address m); mw_port : is_int (mp_port m); mw_network : is_int (mp_network m);
  mw_netmask : is_int (mp_netmask m); mw_cache : is_int (mp_cache_size m)
}.

Record misc_wf (m : misc_conf) : Prop := {
  iw_log : blk_ok 1024 (ms_log_file m); iw_pid : blk_ok 1024 (ms_pid_file m);
  iw_count : is_int (ms_max_session_count m); iw_stack : is_int (ms_task_stack_size m);
  iw_tcp : is_int (ms_tcp_buffer_size m); iw_udp : is_int (ms_udp_recv_buffer_size m);
  iw_nums : is_int (ms_udp_copy_buffer_nums m); iw_conn : is_int (ms_connect_timeout m);
  iw_tcpt : 0 < ms_tcp_read_write_timeout m <= 2147483647; iw_udpt : 0 < ms_udp_read_write_timeout m <= 2147483647;
  iw_nofile : is_int (ms_limit_nofile m); iw_level : HEV_LOGGER_DEBUG <= ms_log_level m <= HEV_LOGGER_ERROR
}.

Record config_wf (c : config) : Prop := {
  cw_tun : tun_wf (cf_tun c); cw_srv : srv_wf (cf_srv c); cw_map : mapdns_wf (cf_map c); cw_misc : misc_wf (cf_misc c)
}.

Lemma i32_int x : is_int (i32 x).
Proof. unfold is_int, i32. pose proof (Z.mod_pos_bound (x + 2147483648) 4294967296). lia. Qed.

Lemma u16_range x : 0 <= u16 x < 65536.
Proof. apply Z.mod_pos_bound. lia. Qed.

Lemma u32_range x : 0 <= u32 x < 4294967296.
Proof. apply Z.mod_pos_bound. lia. Qed.

Create HintDb config.
#[export] Hint Resolve i32_int u16_range u32_range : config.

Lemma reset_wf c : statics_ok (cf_srv c) -> config_wf (hev_config_reset c).
Proof.
  intros [Hu Hp]. unfold hev_config_reset, zero_block, HEV_LOGGER_WARN.
  split; split; simpl; try (apply blk_zero; lia); try (unfold is_int, HEV_LOGGER_DEBUG, HEV_LOGGER_ERROR; lia); done.
Qed.

(** Copying into a block of the configuration. *)
Lemma wp_copy (get : config -> list Z) set v n k (Q : unit -> config -> Prop) c :
  blk_ok n (get c) -> cstr v -> (0 < n)%nat -> k = (n - 1)%nat ->
  (forall l', blk_ok n l' -> c_str l' = Some (take k v) -> Q tt (set l' c)) -> wp (copy_to get set v k) Q c.
Proof.
  intros Hb Hv Hn -> HQ. destruct (copy_blk n (get c) v Hn Hb Hv) as (l' & E & Hl & Hc).
  unfold copy_to. apply wp_bind, wp_gets, wp_bind. eapply wp_lift_opt; [exact E|]. apply wp_modify. by apply HQ.
Qed.

(** Re-establish the invariant after one assignment. *)
Ltac wf_set :=
  match goal with H : config_wf ?c |- config_wf _ => destruct H as [[] [] [] []]; split; split; simpl; auto with config end.

(** One branch on the key. *)
Ltac key_case := lazymatch goal with |- wp (if eq_key ?k ?s then _ else _) _ _ => destruct (eq_key k s) eqn:? end.

Lemma tunnel_scalar_ok key v c : config_wf c -> cstr v -> wp (tunnel_scalar key v) (fun _ => config_wf) c.
Proof.
  intros Hc Hv. unfold tunnel_scalar.
  repeat key_case; try (apply wp_modify; wf_set; unfold b2z; case_match; auto); try (apply wp_ret; done);
    (eapply wp_copy; [apply Hc|done|lia|done|]; intros l' Hl _; wf_set).
Qed.

(** ** Sections *)

Lemma doc_scalar doc i v : doc_ok doc -> yaml_document_get_node doc i = Some (YScalar v) -> cstr v /\ YScalar v ∈ doc.
Proof.
  unfold yaml_document_get_node. intros Hd H. case_match; [|done].
  split; [exact (Forall_lookup_1 _ _ _ _ Hd H)|by eapply list_elem_of_lookup_2].
Qed.

Lemma scalar_pairs_ok {S} doc (body : list Z -> list Z -> M S unit) (I : S -> Prop) pairs s :
  doc_ok doc -> (forall key v s, cstr v -> YScalar v ∈ doc -> I s -> wp (body key v) (fun _ => I) s) ->
  I s -> wp (scalar_pairs doc body pairs) (fun _ => I) s.
Proof.
  intros Hd Hbody. revert s. induction pairs as [|[k v] pairs IH]; intros s Hs; cbn [scalar_pairs]; [by apply wp_ret|].
  destruct (_ || _); [by apply IH|].
  destruct (yaml_document_get_node doc k) as [[key| |]|]; try (by apply wp_ret).
  destruct (yaml_document_get_node doc v) as [[value| |]|] eqn:Ev; try (by apply wp_ret).
  destruct (doc_scalar _ _ _ Hd Ev) as [Hv Hin]. apply wp_bind. eapply wp_conseq; [by apply Hbody|]. intros [] s' Hs'. by apply IH.
Qed.

(** A call that reads a section: it ends, with 0 or -1. *)
Definition section_ok (m : CM Z) (I : config -> Prop) : Prop :=
  forall c, I c -> wp m (fun r c' => (r = 0 \/ r = -1) /\ I c') c.

#[local] Ltac section_start :=
  intros Hd c Hc; lazymatch goal with |- wp (?f _ ?b) _ _ => unfold f; destruct b as [[| |pairs]|] end;
  try (apply wp_ret; split; [by right|done]).

Lemma parse_ipv4_ok doc base : doc_ok doc -> section_ok (hev_config_parse_tunnel_ipv4 doc base) config_wf.
Proof.
  section_start. apply wp_bind. eapply wp_conseq; [apply (scalar_pairs_ok doc _ config_wf); try done|intros [] c' Hc'; apply wp_ret; by split; [left|]].
  intros key v s Hv _ Hs. key_case; [|by apply wp_ret]. eapply wp_copy; [apply Hs|done|lia|done|]. intros l' Hl _. wf_set.
Qed.

Lemma parse_ipv6_ok doc base : doc_ok doc -> section_ok (hev_config_parse_tunnel_ipv6 doc base) config_wf.
Proof.
  section_start. apply wp_bind. eapply wp_conseq; [apply (scalar_pairs_ok doc _ config_wf); try done|intros [] c' Hc'; apply wp_ret; by split; [left|]].
  intros key v s Hv _ Hs. key_case; [|by apply wp_ret]. eapply wp_copy; [apply Hs|done|lia|done|]. intros l' Hl _. wf_set.
Qed.

Lemma tunnel_pairs_ok doc pairs c : doc_ok doc -> config_wf c -> wp (tunnel_pairs doc pairs) (fun _ => config_wf) c.
Proof.
  intros Hd. revert c. induction pairs as [|[k v] pairs IH]; intros c Hc; cbn [tunnel_pairs]; [by apply wp_ret|].
  destruct (_ || _); [by apply IH|].
  destruct (yaml_document_get_node doc k) as [[key| |]|]; try (by apply wp_ret).
  destruct (yaml_document_get_node doc v) as [[value| |ps]|] eqn:Ev; try (by apply wp_ret); apply wp_bind.
  - destruct (doc_scalar _ _ _ Hd Ev) as [Hv _]. eapply wp_conseq; [by apply tunnel_scalar_ok|]. intros [] c' Hc'. by apply IH.
  - eapply (wp_conseq _ (fun _ => config_wf)); [|intros [] c' Hc'; by apply IH].
    key_case; [|key_case; [|by apply wp_ret]]; apply wp_bind, wp_ret, wp_ret; done.
  - eapply (wp_conseq _ (fun _ => config_wf)); [|intros [] c' Hc'; by apply IH].
    key_case; [|key_case; [|by apply wp_ret]]; apply wp_bind.
    + eapply wp_conseq; [by apply parse_ipv4_ok|]. intros r c' [_ Hc']. by apply wp_ret.
    + eapply wp_conseq; [by apply parse_ipv6_ok|]. intros r c' [_ Hc']. by apply wp_ret.
Qed.

Lemma parse_tunnel_ok doc base : doc_ok doc -> section_ok (hev_config_parse_tunnel doc base) config_wf.
Proof.
  section_start. apply wp_bind. eapply wp_conseq; [by apply tunnel_pairs_ok|]. intros [] c' Hc'. apply wp_ret. by split; [left|].
Qed.

(** The variables of the SOCKS5 section point to C strings. *)
Definition var_ok (o : option (list Z)) : Prop := match o with Some v => cstr v | None => True end.

Record vars_ok (t : s5_vars) : Prop := {
  vo_port : var_ok (va_port t); vo_addr : var_ok (va_addr t); vo_udpm : var_ok (va_udpm t); vo_udpa : var_ok (va_udpa t);
  vo_pipe : var_ok (va_pipe t); vo_user : var_ok (va_user t); vo_pass : var_ok (va_pass t); vo_mark : var_ok (va_mark t);
  vo_tfso : var_ok (va_tfso t)
}.

Lemma socks5_scalar_ok key v t : cstr v -> vars_ok t -> wp (socks5_scalar key v) (fun _ => vars_ok) t.
Proof.
  intros Hv []. unfold socks5_scalar. repeat key_case; try (apply wp_modify; by split); apply wp_ret; by split.
Qed.

(** An optional setting. *)
Lemma when_set_ok o body (Q : unit -> config -> Prop) c :
  config_wf c -> (forall v, o = Some v -> wp (body v) (fun _ => config_wf) c) ->
  (forall c', config_wf c' -> Q tt c') -> wp (when_set o body) Q c.
Proof.
  intros Hc Hb HQ. destruct o as [v|]; simpl; [|apply wp_ret; by apply HQ].
  eapply wp_conseq; [by apply Hb|]. intros [] c' Hc'. by apply HQ.
Qed.

Lemma socks5_apply_ok t : vars_ok t -> section_ok (socks5_apply t) config_wf.
Proof.
  intros Ht c Hc. unfold socks5_apply. destruct (va_port t) as [port|] eqn:Ep; [|apply wp_ret; by split; [right|]].
  destruct (va_addr t) as [addr|] eqn:Ea; [|apply wp_ret; by split; [right|]].
  destruct (xorb _ _); [apply wp_ret; by split; [right|]|].
  pose proof (vo_addr _ Ht) as Ha. rewrite Ea in Ha. simpl in Ha.
  apply wp_bind. eapply wp_copy; [apply Hc|done|lia|done|]. intros l' Hl _.
  assert (config_wf (set_sv_addr l' c)) as Hc1 by wf_set. clear Hc.
  apply wp_bind, wp_modify. assert (config_wf (set_sv_port (u16 (strtoul port 10)) (set_sv_addr l' c))) as Hc2 by wf_set.
  clear Hc1. revert Hc2. generalize (set_sv_port (u16 (strtoul port 10)) (set_sv_addr l' c)). clear c. intros c Hc.
  apply wp_bind, when_set_ok; [done| |clear c Hc; intros c Hc].
  { intros v _. destruct (_ =? 0); [apply wp_modify; wf_set|by apply wp_ret]. }
  apply wp_bind, when_set_ok; [done| |clear c Hc; intros c Hc].
  { intros v _. destruct (_ =? 0); [apply wp_modify; wf_set|by apply wp_ret]. }
  apply wp_bind, when_set_ok; [done| |clear c Hc; intros c Hc].
  { intros v Hv. pose proof (vo_udpa _ Ht) as Hu. rewrite Hv in Hu. eapply wp_copy; [apply Hc|done|lia|done|]. intros. wf_set. }
  apply wp_bind, when_set_ok; [done| |clear c Hc; intros c Hc].
  { intros u Hu. pose proof (vo_user _ Ht) as Hu'. rewrite Hu in Hu'. apply when_set_ok; [done| |done].
    intros p Hp. pose proof (vo_pass _ Ht) as Hp'. rewrite Hp in Hp'.
    apply wp_bind. eapply wp_copy; [apply Hc|done|lia|done|]. intros b1 H1 _.
    apply wp_bind. eapply wp_copy; [apply (sw_static _ (cw_srv _ Hc))|done|lia|done|]. intros b2 H2 _.
    apply wp_bind, wp_modify, wp_modify. destruct Hc as [[] [? ? [] ? ? ?] [] []]. split; split; simpl; auto. by split. }
  apply wp_bind, when_set_ok; [done| |clear c Hc; intros c Hc].
  { intros v _. apply wp_modify. wf_set. }
  apply wp_bind, when_set_ok; [done| |clear c Hc; intros c Hc].
  { intros v _. apply wp_modify. wf_set. }
  apply wp_ret. by split; [left|].
Qed.

Lemma parse_socks5_ok doc base : doc_ok doc -> section_ok (hev_config_parse_socks5 doc base) config_wf.
Proof.
  section_start. apply wp_bind.
  destruct (wp_elim _ _ _ (scalar_pairs_ok doc socks5_scalar vars_ok pairs vars0 Hd
    (fun key v s Hv _ => socks5_scalar_ok key v s Hv) ltac:(by split))) as ([] & va & E & Hva).
  eapply wp_lift_opt; [exact E|]. by apply socks5_apply_ok.
Qed.

Lemma mapdns_scalar_ok pton key v c : config_wf c -> wp (mapdns_scalar pton key v) (fun _ => config_wf) c.
Proof.
  intros Hc. unfold mapdns_scalar, store_ipv4.
  repeat key_case; try case_match; try (apply wp_modify; wf_set); by apply wp_ret.
Qed.

Lemma parse_mapdns_ok pton doc base : doc_ok doc -> section_ok (hev_config_parse_mapdns pton doc base) config_wf.
Proof.
  intros Hd c Hc. unfold hev_config_parse_mapdns. destruct base as [[| |pairs]|]; try (apply wp_ret; split; [by right|done]).
  apply wp_bind. eapply wp_conseq; [apply (scalar_pairs_ok doc _ config_wf); try done|].
  { intros key v s _ _ Hs. by apply mapdns_scalar_ok. }
  intros [] c' Hc'. apply wp_bind, wp_modify. assert (config_wf (set_mp_network (i32 (ntohl (mp_network (cf_map c')))) c')) as Hc2 by wf_set.
  apply wp_bind, wp_modify, wp_ret. split; [by left|]. revert Hc2. generalize (set_mp_network (i32 (ntohl (mp_network (cf_map c')))) c').
  intros c2 Hc2. wf_set.
Qed.

Lemma log_level_ok v : HEV_LOGGER_DEBUG <= hev_config_parse_log_level v <= HEV_LOGGER_ERROR.
Proof. unfold hev_config_parse_log_level. repeat case_match; done. Qed.

#[export] Hint Resolve log_level_ok : config.

(** The number of copy buffers is the default or comes from the document. *)
Definition nums_from (doc : yaml_document) (c : config) : Prop :=
  let n := ms_udp_copy_buffer_nums (cf_misc c) in n = 10 \/ exists v, YScalar v ∈ doc /\ n = int_of v.

Definition misc_inv (doc : yaml_document) (v : misc_vars) : Prop :=
  config_wf (mv_conf v) /\ nums_from doc (mv_conf v) /\ is_int (mv_rw v) /\ is_int (mv_tcp v) /\ is_int (mv_udp v).

Lemma misc_scalar_ok doc key value v :
  cstr value -> YScalar value ∈ doc -> misc_inv doc v -> wp (misc_scalar key value) (fun _ => misc_inv doc) v.
Proof.
  intros Hv Hin (Hc & Hn & H1 & H2 & H3). unfold misc_scalar, on_conf.
  repeat key_case; try (apply wp_modify; split_and!; try done; apply i32_int);
    try (by apply wp_ret);
    try (apply wp_zoom, wp_modify; split; [wf_set; apply i32_int|]; split; [|done]; simpl; first [done|right; by exists value]).
  - apply wp_zoom. eapply wp_copy; [apply Hc|done|lia|done|]. intros l' Hl _. split; [simpl; wf_set|done].
  - apply wp_zoom. eapply wp_copy; [apply Hc|done|lia|done|]. intros l' Hl _. split; [simpl; wf_set|done].
Qed.

Lemma parse_misc_ok doc base :
  doc_ok doc -> section_ok (hev_config_parse_misc doc base) (fun c => config_wf c /\ nums_from doc c).
Proof.
  intros Hd c [Hc Hn]. unfold hev_config_parse_misc. destruct base as [[| |pairs]|];
    try (apply wp_ret; split; [by right|done]).
  apply wp_bind, wp_gets, wp_bind.
  destruct (wp_elim _ _ _ (scalar_pairs_ok doc misc_scalar (misc_inv doc) pairs (MiscVars c (-1) (-1) (-1)) Hd
    (fun key value v Hv Hin => misc_scalar_ok doc key value v Hv Hin) ltac:(unfold misc_inv, is_int; simpl; split_and!; (done || lia))))
    as ([] & v & E & (Hc' & Hn' & H1 & H2 & H3)).
  eapply wp_lift_opt; [exact E|]. apply wp_bind, wp_modify. cbv zeta. unfold is_int in *.
  set (tcp := if mv_tcp v <=? 0 then mv_rw v else mv_tcp v). set (udp := if mv_udp v <=? 0 then mv_rw v else mv_udp v).
  assert (tcp <= 2147483647 /\ udp <= 2147483647) as [Ht Hu] by (unfold tcp, udp; repeat case_match; lia).
  clearbody tcp udp. change (id c) with c in *. clear E Hc Hn. revert Hc' Hn'. generalize (mv_conf v). clear c. intros c Hc Hn.
  apply wp_bind. eapply (wp_conseq _ (fun _ c => config_wf c /\ nums_from doc c)).
  { wp_case; [apply wp_modify; split; [wf_set|done]|by apply wp_ret]. }
  clear c Hc Hn. intros [] c [Hc Hn].
  apply wp_bind. eapply (wp_conseq _ (fun _ c => config_wf c /\ nums_from doc c)).
  { wp_case; [apply wp_modify; split; [wf_set|done]|by apply wp_ret]. }
  intros [] c' Hc'. apply wp_ret. by split; [left|].
Qed.

(** A section that never touches the settings of [misc] keeps what is known about
    them. *)
Definition keeps_misc {A} (m : CM A) : Prop := forall c, match m c with Some (_, c') => cf_misc c' = cf_misc c | None => True end.

Lemma keeps_bind {A B} (m : CM A) (f : A -> CM B) : keeps_misc m -> (forall a, keeps_misc (f a)) -> keeps_misc (bind m f).
Proof.
  intros Hm Hf c. unfold bind. specialize (Hm c). destruct (m c) as [[a c1]|]; [|done].
  specialize (Hf a c1). destruct (f a c1) as [[b c2]|]; [congruence|done].
Qed.

Lemma keeps_ret {A} (a : A) : keeps_misc (ret a).
Proof. by intros c. Qed.

Lemma keeps_modify f : (forall c, cf_misc (f c) = cf_misc c) -> keeps_misc (modify f).
Proof. intros H c. apply H. Qed.

Lemma keeps_gets {A} (f : config -> A) : keeps_misc (gets f).
Proof. by intros c. Qed.

Lemma keeps_lift {A} (o : option A) : keeps_misc (lift_opt o).
Proof. intros c. unfold lift_opt. by destruct o. Qed.

Lemma keeps_copy get set v k : (forall l c, cf_misc (set l c) = cf_misc c) -> keeps_misc (copy_to get set v k).
Proof.
  intros H. apply keeps_bind; [apply keeps_gets|]. intros b. apply keeps_bind; [apply keeps_lift|]. intros l.
  apply keeps_modify, H.
Qed.

Lemma keeps_pairs doc body pairs : (forall k v, keeps_misc (body k v)) -> keeps_misc (scalar_pairs doc body pairs).
Proof.
  intros Hb. induction pairs as [|[k v] pairs IH]; cbn [scalar_pairs]; [apply keeps_ret|].
  repeat case_match; try done; try apply keeps_ret. by apply keeps_bind.
Qed.

Create HintDb keeps.
#[export] Hint Resolve keeps_ret keeps_modify keeps_gets keeps_lift keeps_copy keeps_pairs keeps_bind : keeps.

Lemma keeps_when_set o body : (forall v, keeps_misc (body v)) -> keeps_misc (when_set o body).
Proof. intros H. destruct o; simpl; auto with keeps. Qed.

#[export] Hint Resolve keeps_when_set : keeps.

Lemma keeps_ipv4 doc base : keeps_misc (hev_config_parse_tunnel_ipv4 doc base).
Proof.
  unfold hev_config_parse_tunnel_ipv4. destruct base as [[| |ps]|]; auto with keeps.
  apply keeps_bind; [|auto with keeps]. apply keeps_pairs. intros k v. destruct (eq_key _ _); auto with keeps.
Qed.

Lemma keeps_ipv6 doc base : keeps_misc (hev_config_parse_tunnel_ipv6 doc base).
Proof.
  unfold hev_config_parse_tunnel_ipv6. destruct base as [[| |ps]|]; auto with keeps.
  apply keeps_bind; [|auto with keeps]. apply keeps_pairs. intros k v. destruct (eq_key _ _); auto with keeps.
Qed.

Lemma keeps_tunnel doc base : keeps_misc (hev_config_parse_tunnel doc base).
Proof.
  unfold hev_config_parse_tunnel. destruct base as [[| |pairs]|]; auto with keeps.
  apply keeps_bind; [|auto with keeps]. induction pairs as [|[k v] pairs IH]; cbn [tunnel_pairs]; auto with keeps.
  destruct (_ || _); [done|].
  destruct (yaml_document_get_node doc k) as [[key| |]|]; auto with keeps.
  destruct (yaml_document_get_node doc v) as [[value| |ps]|]; auto with keeps; apply keeps_bind; auto.
  - unfold tunnel_scalar. repeat (destruct (eq_key _ _); [auto with keeps|]). auto with keeps.
  - destruct (eq_key _ _); [|destruct (eq_key _ _)]; auto with keeps; apply keeps_bind; auto using keeps_ipv4, keeps_ipv6 with keeps.
  - destruct (eq_key _ _); [|destruct (eq_key _ _)]; auto with keeps; apply keeps_bind; auto using keeps_ipv4, keeps_ipv6 with keeps.
Qed.

Lemma keeps_socks5 doc base : keeps_misc (hev_config_parse_socks5 doc base).
Proof.
  unfold hev_config_parse_socks5. destruct base as [[| |pairs]|]; auto with keeps.
  apply keeps_bind; [auto with keeps|]. intros [_ va]. unfold socks5_apply.
  destruct (va_port va), (va_addr va); auto with keeps. destruct (xorb _ _); auto with keeps.
  repeat first [apply keeps_bind; [|intros []] | apply keeps_when_set; intros ? | case_match]; auto with keeps.
Qed.

Lemma keeps_mapdns pton doc base : keeps_misc (hev_config_parse_mapdns pton doc base).
Proof.
  unfold hev_config_parse_mapdns. destruct base as [[| |pairs]|]; auto with keeps.
  repeat (apply keeps_bind; [|intros []]); auto with keeps. apply keeps_pairs. intros k v.
  unfold mapdns_scalar, store_ipv4. repeat (destruct (eq_key _ _)); try case_match; auto with keeps.
Qed.
