(* ===== verification/ConfigTheorems.v ===== *)
(** * Theorems on the configuration (hev-config.c)

    Whatever the document says, the settings are well formed when it is accepted,
    and the sizes the sessions rely on hold; the section of the server is read as it
    was written. *)

From Stdlib Require Import String.
From S2P Require Import Prelude KeyedTree SocksAddr Config ConfigWf.

#[local] Open Scope Z_scope.

(** ** The whole document *)

(** What the stack of a session has to hold, and what [tcp_write] takes. *)
Definition sizes_ok (c : config) : Prop :=
  let m := cf_misc c in
  ms_tcp_buffer_size m <= TCP_SND_BUF /\
  TASK_STACK_SIZE + ms_tcp_buffer_size m <= ms_task_stack_size m /\
  TASK_STACK_SIZE + CONFIG_UDP_BUF_SIZE * ms_udp_copy_buffer_nums m <= ms_task_stack_size m.

(** The numbers of copy buffers whose size is an [int]. *)
Definition nums_fit (n : Z) : Prop := -1431655 <= n <= 1431642.

Lemma sections_ok pton doc pairs c :
  doc_ok doc -> config_wf c -> nums_from doc c ->
  wp (sections pton doc pairs) (fun _ c' => config_wf c' /\ nums_from doc c') c.
Proof.
  intros Hd. revert c. induction pairs as [|[k v] pairs IH]; intros c Hc Hn; cbn [sections]; [by apply wp_ret|].
  destruct (_ || _); [by apply IH|].
  destruct (yaml_document_get_node doc k) as [[key| |]|]; try (by apply wp_ret).
  apply wp_bind. eapply (wp_conseq _ (fun _ c' => config_wf c' /\ nums_from doc c')).
  2:{ intros r c' [Hc' Hn']. destruct (r <? 0); [by apply wp_ret|by apply IH]. }
  assert (forall m, section_ok m config_wf -> keeps_misc m -> wp m (fun _ c' => config_wf c' /\ nums_from doc c') c) as Hgo.
  { intros m Hs Hk. specialize (Hs c Hc). specialize (Hk c). unfold wp in *. destruct (m c) as [[r c']|]; [|done].
    destruct Hs as [_ Hc']. split; [done|]. unfold nums_from in *. by rewrite Hk. }
  unfold parse_section. destruct (eq_key key "tunnel"); [apply Hgo; [by apply parse_tunnel_ok|apply keeps_tunnel]|].
  destruct (eq_key key "socks5"); [apply Hgo; [by apply parse_socks5_ok|apply keeps_socks5]|].
  destruct (eq_key key "mapdns"); [apply Hgo; [by apply parse_mapdns_ok|apply keeps_mapdns]|].
  destruct (eq_key key "misc"); [|by apply wp_ret].
  eapply wp_conseq; [by apply parse_misc_ok|]. by intros r c' [_ ?].
Qed.

(** The clamped size of a buffer. *)
Definition clamped (c : config) : config :=
  if TCP_SND_BUF <? ms_tcp_buffer_size (cf_misc c) then set_ms_tcp_buffer_size TCP_SND_BUF c else c.

Lemma adjust_sizes_eq c :
  adjust_sizes c =
  let t := ms_tcp_buffer_size (cf_misc (clamped c)) in
  udp ← int_mul CONFIG_UDP_BUF_SIZE (ms_udp_copy_buffer_nums (cf_misc c));
  least ← int_add TASK_STACK_SIZE (if udp <? t then t else udp);
  Some (tt, if ms_task_stack_size (cf_misc c) <? least then set_ms_task_stack_size least (clamped c) else clamped c).
Proof.
  unfold adjust_sizes, clamped, bind, gets, modify, ret, lift_opt.
  destruct (TCP_SND_BUF <? _); (destruct (int_mul _ _) as [udp|]; [|done]); cbn [mbind option_bind];
    (destruct (int_add _ _) as [least|]; [|done]); cbn [mbind option_bind]; by case_match.
Qed.

Lemma clamped_ok c :
  config_wf c ->
  config_wf (clamped c) /\ ms_tcp_buffer_size (cf_misc (clamped c)) <= TCP_SND_BUF /\
  ms_udp_copy_buffer_nums (cf_misc (clamped c)) = ms_udp_copy_buffer_nums (cf_misc c) /\
  ms_task_stack_size (cf_misc (clamped c)) = ms_task_stack_size (cf_misc c).
Proof.
  intros Hc. unfold clamped. destruct (Z.ltb_spec TCP_SND_BUF (ms_tcp_buffer_size (cf_misc c))); [|done].
  split; [wf_set; unfold is_int, TCP_SND_BUF; lia|]. simpl. done.
Qed.

(** The sizes are adjusted, unless the memory of the copy buffers is no [int]. *)
Lemma adjust_sizes_ok c :
  config_wf c ->
  (nums_fit (ms_udp_copy_buffer_nums (cf_misc c)) -> wp adjust_sizes (fun _ c' => config_wf c' /\ sizes_ok c') c) /\
  (~ nums_fit (ms_udp_copy_buffer_nums (cf_misc c)) -> adjust_sizes c = None).
Proof.
  intros Hc. destruct (clamped_ok c Hc) as (Hc1 & Hle & Hn1 & Hs1).
  pose proof (iw_tcp _ (cw_misc _ Hc1)) as Ht. pose proof (iw_stack _ (cw_misc _ Hc)) as Hst. pose proof (iw_nums _ (cw_misc _ Hc)) as Hn.
  unfold wp. rewrite adjust_sizes_eq. cbv zeta. set (c1 := clamped c) in *. clearbody c1.
  unfold sizes_ok, int_mul, int_add, int_ok, nums_fit, is_int, TASK_STACK_SIZE, CONFIG_UDP_BUF_SIZE, TCP_SND_BUF in *.
  rewrite <-Hs1, <-Hn1 in *. set (n := ms_udp_copy_buffer_nums (cf_misc c1)) in *. set (t := ms_tcp_buffer_size (cf_misc c1)) in *.
  split; intros Hfit.
  - rewrite !(proj2 (Z.leb_le _ _)) by lia. cbn [andb mbind option_bind].
    rewrite !(proj2 (Z.leb_le _ _)) by (destruct (Z.ltb_spec (1500 * n) t); lia). cbn [andb mbind option_bind].
    set (least := 20480 + _). assert (20480 + t <= least /\ 20480 + 1500 * n <= least <= 2147483647) as Hl by (unfold least; case_match; lia).
    clearbody least. destruct (Z.ltb_spec (ms_task_stack_size (cf_misc c1)) least) as [Hlt|Hge].
    + split; [wf_set; unfold is_int; lia|]. simpl. fold t n. lia.
    + split; [done|]. fold t n. lia.
  - destruct (Z.leb_spec (-2147483648) (1500 * n)); [|done]. destruct (Z.leb_spec (1500 * n) 2147483647); [|done]. cbn [andb mbind option_bind].
    rewrite (proj2 (Z.ltb_ge (1500 * n) t)) by lia. rewrite (proj2 (Z.leb_gt (20480 + 1500 * n) 2147483647)) by lia.
    by rewrite andb_false_r.
Qed.

(** C27: A configuration that is accepted is well formed.  For every text and
    whatever document the YAML library makes of it, reading ends, with 0 or -1;
    every static string stays NUL-terminated inside its block, the credentials are
    both set or both unset, every number is in its type, and when the result is 0
    the buffer of a session fits what one [tcp_write] takes and the stack of a task
    has room for both kinds of buffers.  The one undefined case is a number of copy
    buffers in the document so large that their size overflows [int]. *)
Theorem config_load_wf pton pinit load text c :
  statics_ok (cf_srv c) -> (forall doc, load text = Some doc -> doc_ok doc) ->
  hev_config_init_from_file pton pinit load (Some text) c = hev_config_init_from_str pton pinit load text c /\
  match hev_config_init_from_str pton pinit load text c with
  | Some (r, c') => (r = 0 \/ r = -1) /\ config_wf c' /\ (r = 0 -> sizes_ok c')
  | None => exists doc v, load text = Some doc /\ YScalar v ∈ doc /\ ~ nums_fit (int_of v)
  end.
Proof.
  intros Hst Hl. split; [done|]. pose proof (reset_wf c Hst) as Hr. unfold hev_config_init_from_str.
  erewrite bind_Some by done. destruct pinit; cbn [negb]; [|split; [by right|done]].
  destruct (load text) as [doc|] eqn:El; [|split; [by right|done]]. pose proof (Hl doc eq_refl) as Hd.
  unfold hev_config_parse_doc. destruct (yaml_document_get_root_node doc) as [[| |pairs]|]; try (split; [by right|done]).
  destruct (wp_elim _ _ _ (sections_ok pton doc pairs _ Hd Hr ltac:(by left))) as (ok & c1 & E & Hc1 & Hn1).
  rewrite (bind_Some _ _ _ _ _ E). destruct ok; cbn [negb]; [|split; [by right|done]].
  destruct (adjust_sizes_ok c1 Hc1) as [Hfit Hbad]. unfold bind.
  destruct (decide (nums_fit (ms_udp_copy_buffer_nums (cf_misc c1)))) as [Hf|Hf].
  - destruct (wp_elim _ _ _ (Hfit Hf)) as ([] & c2 & -> & Hc2 & Hs2). split; [by left|done].
  - rewrite Hbad by done. destruct Hn1 as [H10|(v & Hin & Hv)]; [destruct Hf; rewrite H10; by vm_compute|].
    exists doc, v. by rewrite <-Hv.
Qed.

(** The document [misc: {tcp-buffer-size: 200000}]. *)
Definition sample_doc : yaml_document :=
  [YMapping [(2, 3)]; YScalar (lit "misc"); YMapping [(4, 5)]; YScalar (lit "tcp-buffer-size"); YScalar (lit "200000")].

Definition cold_config : config :=
  hev_config_reset (Config (Tun [] [] [] [] [] 0 0 0) (Srv [] [] false false (zero_block 256) (zero_block 256) 0 0 0 0 0)
    (Mapdns 0 0 0 0 0) (Misc [] [] 0 0 0 0 0 0 0 0 0 0)).

Lemma config_load_wf_witness :
  exists c', hev_config_init_from_str (fun _ => None) true (fun _ => Some sample_doc) [] cold_config = Some (0, c') /\
    config_wf c' /\ ms_tcp_buffer_size (cf_misc c') = 65528.
Proof.
  assert (forall doc, (fun _ : list Z => Some sample_doc) [] = Some doc -> doc_ok doc) as Hd.
  { intros doc [= <-]. repeat constructor; by apply (bool_decide_unpack _). }
  assert (statics_ok (cf_srv cold_config)) as Hs by (split; apply blk_zero; lia).
  destruct (config_load_wf (fun _ => None) true (fun _ => Some sample_doc) [] cold_config Hs Hd) as [_ H].
  revert H. unfold hev_config_init_from_str. 
  set (run := bind _ _ cold_config). assert (exists c', run = Some (0, c') /\ ms_tcp_buffer_size (cf_misc c') = 65528) as (c' & -> & Hc').
  { eexists. split; [vm_compute; reflexivity|reflexivity]. }
  intros (_ & Hw & _). exists c'. split; [reflexivity|split; [exact Hw|exact Hc']].
Defined.

(** ** The section of the server *)

(** The pairs of a mapping with the strings they stand for. *)
Definition reads_as (doc : yaml_document) (pairs : list (Z * Z)) (kvs : list (list Z * list Z)) : Prop :=
  Forall2 (fun p kv => p.1 <> 0 /\ p.2 <> 0 /\ yaml_document_get_node doc p.1 = Some (YScalar kv.1) /\
    yaml_document_get_node doc p.2 = Some (YScalar kv.2) /\ cstr kv.1 /\ cstr kv.2) pairs kvs.

(** The value of the last pair with a key. *)
Definition last_value (name : string) (kvs : list (list Z * list Z)) (d : option (list Z)) : option (list Z) :=
  fold_left (fun acc kv => if eq_key kv.1 name then Some kv.2 else acc) kvs d.

Definition values (kvs : list (list Z * list Z)) (t : s5_vars) : s5_vars :=
  Vars (last_value "port" kvs (va_port t)) (last_value "address" kvs (va_addr t)) (last_value "udp" kvs (va_udpm t))
    (last_value "udp-address" kvs (va_udpa t)) (last_value "pipeline" kvs (va_pipe t)) (last_value "username" kvs (va_user t))
    (last_value "password" kvs (va_pass t)) (last_value "mark" kvs (va_mark t)) (last_value "tcp-fastopen" kvs (va_tfso t)).

Lemma eq_key_true key s : cstr key -> cstr (lit s) -> eq_key key s = true -> key = lit s.
Proof.
  unfold eq_key. intros Hk Hs H%Z.eqb_eq. symmetry in H. by apply (kcmp_eq key (lit s) Hk Hs) in H.
Qed.

Lemma socks5_scalar_run key v t : cstr key -> socks5_scalar key v t = Some (tt, values [(key, v)] t).
Proof.
  intros Hk. unfold socks5_scalar, values, last_value. cbn [fold_left fst snd].
  repeat (match goal with |- context [if eq_key key ?s then _ else ret tt] => idtac
          | |- context [if eq_key key ?s then modify _ else _] => idtac end;
    lazymatch goal with |- (if eq_key key ?s then _ else _) _ = _ =>
      destruct (eq_key key s) eqn:?;
      [match goal with H : eq_key key ?s = true |- _ => apply eq_key_true in H; [subst key; destruct t; reflexivity|done|by apply (bool_decide_unpack _)] end|]
    end).
  by destruct t.
Qed.

Lemma scalar_pairs_values doc pairs kvs t :
  reads_as doc pairs kvs -> scalar_pairs doc socks5_scalar pairs t = Some (tt, values kvs t).
Proof.
  intros H. revert t. induction H as [|[k v] [key value] pairs kvs (Hk & Hv & Ek & Ev & Hck & _) _ IH]; intros t; [by destruct t|].
  cbn [fst snd scalar_pairs] in *. rewrite (proj2 (Z.eqb_neq k 0)), (proj2 (Z.eqb_neq v 0)) by done. cbn [orb].
  rewrite Ek, Ev, (bind_Some _ _ _ _ _ (socks5_scalar_run key value t Hck)), IH. done.
Qed.

(** What the settings of the server say after the section, given the strings of the
    section and the settings before. *)
Record server_reads (t : s5_vars) (s0 s : server_conf) : Prop := {
  sr_addr a : va_addr t = Some a -> c_str (sv_addr s) = Some (take 255 a);
  sr_port p : va_port t = Some p -> sv_port s = u16 (strtoul p 10);
  sr_creds u p : va_user t = Some u -> va_pass t = Some p ->
    sv_user s = true /\ sv_pass s = true /\ c_str (sv_blk_user s) = Some (take 255 u) /\ c_str (sv_blk_pass s) = Some (take 255 p);
  sr_open : va_user t = None -> va_pass t = None -> sv_user s = sv_user s0 /\ sv_pass s = sv_pass s0;
  sr_udpa a : va_udpa t = Some a -> c_str (sv_udp_addr s) = Some (take 255 a);
  sr_mark m : va_mark t = Some m -> sv_mark s = u32 (strtoul m 0);
  sr_pipe v : va_pipe t = Some v -> strcasecmp v (lit "true") = 0 -> sv_pipeline s = 1;
  sr_udpm v : va_udpm t = Some v -> strcasecmp v (lit "udp") = 0 -> sv_udp_in_udp s = 1
}.

(** A string as it is stored in a block of [n] bytes. *)
Definition stored_str (v : list Z) (n : nat) : list Z := strncpy v (n - 1) ++ [0].

Lemma stored_str_read v n : cstr v -> (0 < n)%nat -> c_str (stored_str v n) = Some (take (n - 1) v).
Proof.
  intros Hv Hn. destruct (copy_blk n (replicate n 0) v Hn (blk_zero n Hn) Hv) as (l' & E & _ & <-). f_equal.
  unfold stored_str. rewrite (poke_at _ _ _ [] (replicate (n - 1) 0) [0]) in E; [by injection E| |done|by rewrite strncpy_length, length_replicate].
  change [0] with (replicate 1 0). rewrite app_nil_l, <-(replicate_add (n - 1) 1). f_equal. lia.
Qed.

Lemma copy_eq (get : config -> list Z) set v n k c :
  blk_ok n (get c) -> (0 < n)%nat -> k = (n - 1)%nat -> copy_to get set v k c = Some (tt, set (stored_str v n) c).
Proof.
  intros (Hl & _ & H0) Hn ->. unfold copy_to. erewrite bind_Some by done. destruct (get c) as [|x init _] using rev_ind; [simpl in Hl; lia|].
  rewrite length_app in Hl. simpl in Hl. replace (n - 1)%nat with (length init) in H0 by lia.
  rewrite list_lookup_middle in H0 by done. injection H0 as ->. unfold stored_str.
  erewrite bind_Some; [reflexivity|]. unfold lift_opt. rewrite (poke_at _ _ _ [] init [0]); [done|done|done|].
  rewrite strncpy_length. lia.
Qed.

Lemma opt_eq (set : Z -> config -> config) (get : config -> Z) (f : list Z -> Z) o c :
  set (get c) c = c -> when_set o (fun v => modify (set (f v))) c = Some (tt, set (match o with Some v => f v | None => get c end) c).
Proof. intros H. destruct o; simpl; [done|]. by rewrite H. Qed.

Lemma opt_test_eq (set : Z -> config -> config) (get : config -> Z) (b : list Z -> bool) x o c :
  set (get c) c = c ->
  when_set o (fun v => when (b v) do modify (set x)) c =
    Some (tt, set (match o with Some v => if b v then x else get c | None => get c end) c).
Proof. intros H. destruct o as [v|]; simpl; [destruct (b v); [done|]|]; by rewrite H. Qed.

Definition or_old {A} (f : list Z -> A) (o : option (list Z)) (old : A) : A := match o with Some v => f v | None => old end.

(** The settings of the server after an accepted section. *)
Definition server_after (t : s5_vars) (port addr : list Z) (s : server_conf) : server_conf :=
  let creds := match va_user t, va_pass t with Some u, Some p => Some (u, p) | _, _ => None end in
  Srv (stored_str addr 256) (or_old (fun v => stored_str v 256) (va_udpa t) (sv_udp_addr s))
    (match creds with Some _ => true | None => sv_user s end) (match creds with Some _ => true | None => sv_pass s end)
    (match creds with Some (u, _) => stored_str u 256 | None => sv_blk_user s end)
    (match creds with Some (_, p) => stored_str p 256 | None => sv_blk_pass s end)
    (or_old (fun v => u32 (strtoul v 0)) (va_mark t) (sv_mark s))
    (or_old (fun v => if strcasecmp v (lit "udp") =? 0 then 1 else sv_udp_in_udp s) (va_udpm t) (sv_udp_in_udp s))
    (u16 (strtoul port 10))
    (or_old (fun v => if strcasecmp v (lit "true") =? 0 then 1 else sv_pipeline s) (va_pipe t) (sv_pipeline s))
    (or_old (fun v => b2z (0 =? strcasecmp v (lit "true"))) (va_tfso t) (sv_fastopen s)).

Lemma set_mark_id c : set_sv_mark (sv_mark (cf_srv c)) c = c.
Proof. by destruct c as [? [] ? ?]. Qed.

Lemma set_fastopen_id c : set_sv_fastopen (sv_fastopen (cf_srv c)) c = c.
Proof. by destruct c as [? [] ? ?]. Qed.

Lemma socks5_apply_eq t port addr c :
  config_wf c -> va_port t = Some port -> va_addr t = Some addr -> xorb (is_null (va_user t)) (is_null (va_pass t)) = false ->
  socks5_apply t c = Some (0, Config (cf_tun c) (server_after t port addr (cf_srv c)) (cf_map c) (cf_misc c)).
Proof.
  intros Hc Hp Ha Hx. destruct Hc as [_ [Haddr Hudp [Hbu Hbp] _ _ _] _ _]. unfold socks5_apply. rewrite Hp, Ha, Hx.
  destruct c as [tn [a0 u0 su sp bu bp mk uu po pi fo] mp ms]. cbn [cf_srv sv_addr sv_udp_addr sv_blk_user sv_blk_pass] in *.
  erewrite bind_Some by (eapply (copy_eq _ _ _ 256); [exact Haddr|lia|done]).
  erewrite bind_Some by reflexivity.
  erewrite bind_Some by (apply (opt_test_eq set_sv_pipeline (fun c => sv_pipeline (cf_srv c)) (fun v => strcasecmp v (lit "true") =? 0)); reflexivity).
  erewrite bind_Some by (apply (opt_test_eq set_sv_udp_in_udp (fun c => sv_udp_in_udp (cf_srv c)) (fun v => strcasecmp v (lit "udp") =? 0)); reflexivity).
  match goal with |- bind _ _ ?c = _ => set (c1 := c) end.
  assert (when_set (va_udpa t) (fun v => copy_to (srv_field sv_udp_addr) set_sv_udp_addr v 255) c1 =
    Some (tt, set_sv_udp_addr (or_old (fun v => stored_str v 256) (va_udpa t) (sv_udp_addr (cf_srv c1))) c1)) as E.
  { destruct (va_udpa t); [|reflexivity]. simpl. by apply (copy_eq _ _ _ 256); [|lia|]. }
  rewrite (bind_Some _ _ _ _ _ E). clear E.
  match goal with |- bind (when_set _ ?body) _ ?c = _ => set (c2 := c); assert (exists c3, when_set (va_user t) body c2 = Some (tt, c3) /\
    c3 = match va_user t, va_pass t with
         | Some u, Some p => set_sv_pass true (set_sv_user true (set_sv_blk_pass (stored_str p 256) (set_sv_blk_user (stored_str u 256) c2)))
         | _, _ => c2 end) as (c3 & E & Ec3) end.
  { destruct (va_user t) as [u|]; [|eexists; split; reflexivity]. destruct (va_pass t) as [p|]; [|eexists; split; reflexivity].
    simpl. erewrite bind_Some by (eapply (copy_eq _ _ _ 256); [exact Hbu|lia|done]).
    erewrite bind_Some by (eapply (copy_eq _ _ _ 256); [exact Hbp|lia|done]). eexists. split; reflexivity. }
  rewrite (bind_Some _ _ _ _ _ E). clear E.
  erewrite bind_Some by (apply (opt_eq set_sv_mark (fun c => sv_mark (cf_srv c)) (fun v => u32 (strtoul v 0))), set_mark_id).
  erewrite bind_Some by (apply (opt_eq set_sv_fastopen (fun c => sv_fastopen (cf_srv c)) (fun v => b2z (0 =? strcasecmp v (lit "true")))), set_fastopen_id).
  subst c3. unfold ret, server_after. destruct (va_user t) as [u|]; [destruct (va_pass t) as [p|]|]; reflexivity.
Qed.

(** A number written in decimal. *)
Definition decimal (ds : list Z) : list Z := map (Z.add 48) ds.
Definition number (ds : list Z) : Z := fold_left (fun a d => a * 10 + d) ds 0.

Lemma digits_decimal ds acc : Forall (fun d => 0 <= d < 10) ds -> digits 10 acc (decimal ds) = fold_left (fun a d => a * 10 + d) ds acc.
Proof.
  intros H. revert acc. induction H as [|d ds Hd _ IH]; intros acc; [done|]. cbn [decimal map digits fold_left].
  assert (digit_val (48 + d) = d) as ->.
  { unfold digit_val. rewrite !(proj2 (Z.leb_le _ _)) by lia. cbn [andb]. lia. }
  rewrite (proj2 (Z.ltb_lt d 10)) by lia. apply IH.
Qed.

Lemma strtoul_decimal ds : Forall (fun d => 0 <= d < 10) ds -> number ds <= ULONG_MAX -> strtoul (decimal ds) 10 = number ds.
Proof.
  intros H Hn. unfold strtoul. assert (sign_of (skip_space (decimal ds)) = (false, decimal ds)) as ->.
  { destruct H as [|d ds Hd _]; [done|]. cbn [decimal map skip_space]. unfold isspace.
    rewrite (proj2 (Z.eqb_neq (48 + d) 32)), (proj2 (Z.leb_gt (48 + d) 13)) by lia. rewrite andb_false_r. cbn [orb sign_of].
    by rewrite (proj2 (Z.eqb_neq (48 + d) 45)), (proj2 (Z.eqb_neq (48 + d) 43)) by lia. }
  unfold base_of. change (negb (10 =? 0)) with true. cbv iota. rewrite digits_decimal by done. fold (number ds).
  by rewrite (proj2 (Z.ltb_ge ULONG_MAX (number ds))) by lia.
Qed.

Lemma last_value_cstr name kvs d v :
  Forall (fun kv => cstr kv.2) kvs -> var_ok d -> last_value name kvs d = Some v -> cstr v.
Proof.
  intros H. revert d. induction H as [|[k x] kvs Hx _ IH]; intros d Hd; unfold last_value; simpl.
  - intros ->. exact Hd.
  - apply IH. by destruct (eq_key k name).
Qed.

Lemma after_reads t port addr s :
  vars_ok t -> va_port t = Some port -> va_addr t = Some addr -> server_reads t s (server_after t port addr s).
Proof.
  intros Ht Hp Ha. split; unfold server_after; cbn [sv_addr sv_port sv_user sv_pass sv_blk_user sv_blk_pass sv_udp_addr sv_mark sv_pipeline sv_udp_in_udp].
  - intros a Ea. rewrite Ha in Ea. injection Ea as ->. pose proof (vo_addr _ Ht) as Hc. rewrite Ha in Hc. by apply stored_str_read; [|lia].
  - intros p Ep. rewrite Hp in Ep. by injection Ep as ->.
  - intros u p Eu Ew. rewrite Eu, Ew. pose proof (vo_user _ Ht) as Hu. pose proof (vo_pass _ Ht) as Hw. rewrite Eu in Hu. rewrite Ew in Hw.
    split_and!; try done; by apply stored_str_read; [|lia].
  - intros Eu Ew. by rewrite Eu.
  - intros a Ea. rewrite Ea. pose proof (vo_udpa _ Ht) as Hc. rewrite Ea in Hc. by apply stored_str_read; [|lia].
  - intros m Em. by rewrite Em.
  - intros v Ev Hv. rewrite Ev. simpl. by rewrite Hv.
  - intros v Ev Hv. rewrite Ev. simpl. by rewrite Hv.
Qed.

Lemma values_ok doc pairs kvs : reads_as doc pairs kvs -> vars_ok (values kvs vars0).
Proof.
  intros H. assert (Forall (fun kv => cstr kv.2) kvs) as Hc.
  { induction H as [|p kv pairs kvs (_ & _ & _ & _ & _ & Hv) _ IH]; by constructor. }
  split; unfold values; cbn [va_port va_addr va_udpm va_udpa va_pipe va_user va_pass va_mark va_tfso];
    match goal with |- var_ok ?o => destruct o eqn:E; [|done]; by eapply last_value_cstr in E end.
Qed.

(** The settings of the server are what the section says.  A section of scalar
    pairs with an address, a port and either both credentials or none is accepted:
    each setting is the value of the last pair with its key, strings cut to 255
    bytes and NUL-terminated, a port written in decimal is that number, and nothing
    outside the section changes.  Any other section is refused and changes
    nothing. *)
Theorem config_socks5_reads doc pairs kvs c :
  config_wf c -> reads_as doc pairs kvs ->
  let t := values kvs vars0 in
  if bool_decide (va_port t <> None /\ va_addr t <> None /\ (va_user t = None <-> va_pass t = None)) then
    exists c', hev_config_parse_socks5 doc (Some (YMapping pairs)) c = Some (0, c') /\
      server_reads t (cf_srv c) (cf_srv c') /\
      (forall ds, Forall (fun d => 0 <= d < 10) ds -> number ds < 65536 -> va_port t = Some (decimal ds) ->
         sv_port (cf_srv c') = number ds) /\
      cf_tun c' = cf_tun c /\ cf_map c' = cf_map c /\ cf_misc c' = cf_misc c
  else hev_config_parse_socks5 doc (Some (YMapping pairs)) c = Some (-1, c).
Proof.
  intros Hc Hr t. pose proof (values_ok _ _ _ Hr) as Hv. fold t in Hv.
  unfold hev_config_parse_socks5. rewrite (scalar_pairs_values doc pairs kvs vars0 Hr). fold t.
  erewrite bind_Some by reflexivity. cbv beta iota. clearbody t. case_bool_decide as Hd.
  - destruct Hd as (Hp & Ha & Hup). destruct (va_port t) as [port|] eqn:Ep; [|done]. destruct (va_addr t) as [addr|] eqn:Ea; [|done].
    assert (xorb (is_null (va_user t)) (is_null (va_pass t)) = false) as Hx.
    { destruct (va_user t), (va_pass t); try done; destruct Hup as [H1 H2]; [by discriminate H2|by discriminate H1]. }
    rewrite (socks5_apply_eq t port addr c) by done. eexists. split; [reflexivity|]. cbn [cf_srv cf_tun cf_map cf_misc].
    split; [by apply after_reads|]. split; [|done]. intros ds Hds Hn [= ->]. cbn [server_after sv_port].
    assert (0 <= number ds) as H0.
    { clear -Hds. unfold number. assert (forall a, 0 <= a -> 0 <= fold_left (fun a d => a * 10 + d) ds a) as H; [|by apply H].
      induction Hds as [|d ds Hd _ IH]; intros a Ha; simpl; [done|]. apply IH. lia. }
    rewrite strtoul_decimal by (done || unfold ULONG_MAX; lia). unfold u16. by rewrite Z.mod_small by lia.
  - unfold socks5_apply. destruct (va_port t) as [port|] eqn:Ep; [|done]. destruct (va_addr t) as [addr|] eqn:Ea; [|done].
    destruct (xorb _ _) eqn:Ex; [done|]. destruct Hd. split; [done|]. split; [done|]. by destruct (va_user t), (va_pass t).
Qed.

(** The section [{port: 1080, address: a.b, username: u, password: pw}]. *)
Definition server_doc : yaml_document :=
  [YMapping []; YScalar (lit "port"); YScalar (lit "1080"); YScalar (lit "address"); YScalar (lit "a.b");
   YScalar (lit "username"); YScalar (lit "u"); YScalar (lit "password"); YScalar (lit "pw")].
Definition server_kvs : list (list Z * list Z) :=
  [(lit "port", lit "1080"); (lit "address", lit "a.b"); (lit "username", lit "u"); (lit "password", lit "pw")].

Lemma config_socks5_reads_witness :
  exists c', hev_config_parse_socks5 server_doc (Some (YMapping [(2, 3); (4, 5); (6, 7); (8, 9)])) cold_config = Some (0, c') /\
    sv_port (cf_srv c') = 1080 /\ c_str (sv_addr (cf_srv c')) = Some (lit "a.b").
Proof.
  assert (config_wf cold_config) as Hw by (apply reset_wf; split; apply blk_zero; lia).
  assert (reads_as server_doc [(2, 3); (4, 5); (6, 7); (8, 9)] server_kvs) as Hr.
  { repeat constructor; try done; by apply (bool_decide_unpack _). }
  pose proof (config_socks5_reads server_doc [(2, 3); (4, 5); (6, 7); (8, 9)] server_kvs cold_config Hw Hr) as H.
  cbv zeta in H. rewrite bool_decide_true in H by (split; [done|split; [done|split; discriminate]]).
  destruct H as (c' & E & Hs & Hp & _). exists c'. split; [exact E|]. split.
  - apply (Hp [1; 0; 8; 0]); [repeat constructor; lia|reflexivity|reflexivity].
  - apply (sr_addr _ _ _ Hs (lit "a.b")). reflexivity.
Defined.
