(* ===== verification/TunnelSync.v ===== *)
(** * Starting and stopping the tunnel (hev-socks5-tunnel.c)

    One thread initialises the tunnel, runs it and tears it down; any other thread
    may ask it to stop at any time.  They agree through the bits of one atomic
    variable and a socket pair whose reading end the event task waits on.  Every
    atomic operation is a step of its thread, and the steps of the threads
    interleave freely. *)

From stdpp Require Import functions.
From S2P Require Import Prelude.

(** ** State *)

Definition SYNC_SEND : Z := Z.shiftl 1 0.
Definition SYNC_SENT : Z := Z.shiftl 1 1.
Definition SYNC_WAIT : Z := Z.shiftl 1 2.
Definition SYNC_STOP : Z := Z.shiftl 1 3.

(** The shared variables: [tsync], [run], and the socket pair [event_fds] with the
    bytes that were written and not read. *)
Record shared := Shared { tsync : Z; sh_run : bool; ev_open : bool; ev_bytes : nat }.

(** [res & m] *)
Definition has (t m : Z) : bool := negb (Z.land t m =? 0).

Definition fetch_or (m : Z) (s : shared) : shared := Shared (Z.lor (tsync s) m) (sh_run s) (ev_open s) (ev_bytes s).
(** [atomic_fetch_and (&tsync, ~m)] *)
Definition fetch_and_not (m : Z) (s : shared) : shared := Shared (Z.ldiff (tsync s) m) (sh_run s) (ev_open s) (ev_bytes s).
Definition set_run (b : bool) (s : shared) : shared := Shared (tsync s) b (ev_open s) (ev_bytes s).
Definition set_event (o : bool) (n : nat) (s : shared) : shared := Shared (tsync s) (sh_run s) o n.

(** ** A thread that calls [hev_socks5_tunnel_stop] *)

(** Where it stands: outside, at the retry label, with [SYNC_WAIT] taken (and what
    it saw of [SYNC_SEND]), before the write, before the last operation. *)
Inductive stop_pc := SOut | SRetry | SHold (send : bool) | SWrite | SLeave.

(** [write (event_fds[1], ...)] and the assertion on its result. *)
Definition write_event (s : shared) : option shared :=
  if ev_open s then Some (set_event true (S (ev_bytes s)) s) else None.

Definition hev_socks5_tunnel_stop (pc : stop_pc) (s : shared) : option (stop_pc * shared) :=
  match pc with
  | SOut => Some (SRetry, s)
  | SRetry =>
    let res := tsync s in
    Some (if has res SYNC_WAIT then SRetry else SHold (has res SYNC_SEND), fetch_or SYNC_WAIT s)
  | SHold true =>
    let res := tsync s in
    Some (if has res SYNC_SENT then SLeave else SWrite, fetch_or SYNC_SENT s)
  | SHold false => Some (SLeave, fetch_or SYNC_STOP s)
  | SWrite => s ← write_event s; Some (SLeave, s)
  | SLeave => Some (SOut, fetch_and_not SYNC_WAIT s)
  end.

(** ** The thread of the tunnel *)

(** Before [init], at the end of a successful [init], at the start of [run], with
    the event task waiting, after its read, before it clears [SYNC_SENT], at the
    retry label of [fini], and behind it. *)
Inductive main_pc := MOut | MReady | MRun | MLoop | MGot | MAck | MFini | MClose.

(** [event_task_init] and the rest of [hev_socks5_tunnel_init]: whether the pair was
    opened, and whether everything succeeded. *)
Definition hev_socks5_tunnel_init (opened ok : bool) (s : shared) : main_pc * shared :=
  (if opened && ok then MReady else MFini, set_event opened 0 s).

(** The first operation of [hev_socks5_tunnel_run]. *)
Definition hev_socks5_tunnel_run (s : shared) : main_pc * shared :=
  if has (tsync s) SYNC_STOP then (MFini, fetch_and_not SYNC_STOP s)
  else (MLoop, set_run true (fetch_and_not SYNC_STOP s)).

(** The event task up to the clearing of [SYNC_SENT]; a read without a byte waits. *)
Definition event_task_entry (pc : main_pc) (s : shared) : option (main_pc * shared) :=
  match pc with
  | MLoop => match ev_bytes s with O => None | S n => Some (MGot, set_event (ev_open s) n s) end
  | MGot => Some (MAck, set_run false s)
  | MAck => Some (MFini, fetch_and_not SYNC_SENT s)
  | _ => None
  end.

Definition hev_socks5_tunnel_fini (pc : main_pc) (s : shared) : option (main_pc * shared) :=
  match pc with
  | MFini => Some (if has (tsync s) SYNC_WAIT then MFini else MClose, fetch_and_not (Z.lor SYNC_SEND SYNC_SENT) s)
  | MClose => Some (MOut, set_event false 0 s)
  | _ => None
  end.

(** One step of the thread; [None] while it waits for the event. *)
Definition main_step (opened ok : bool) (pc : main_pc) (s : shared) : option (main_pc * shared) :=
  match pc with
  | MOut => Some (hev_socks5_tunnel_init opened ok s)
  | MReady => Some (MRun, fetch_or SYNC_SEND s)
  | MRun => Some (hev_socks5_tunnel_run s)
  | MLoop | MGot | MAck => event_task_entry pc s
  | MFini | MClose => hev_socks5_tunnel_fini pc s
  end.

(** ** The system *)

(** [sys_asked]: whether a call to stop that saw [SYNC_SEND] has raised [SYNC_SENT]
    or found it raised since the last initialisation. *)
Record system := Sys { sys_sh : shared; sys_main : main_pc; sys_stop : nat -> stop_pc; sys_asked : bool }.

Inductive who := Main | Stopper (i : nat).

Definition asks (pc : stop_pc) : bool := match pc with SHold true => true | _ => false end.

Inductive step : who -> system -> system -> Prop :=
| step_main opened ok s pc sh :
    main_step opened ok (sys_main s) (sys_sh s) = Some (pc, sh) ->
    step Main s (Sys sh pc (sys_stop s) (match sys_main s with MReady => false | _ => sys_asked s end))
| step_stop i s pc sh :
    hev_socks5_tunnel_stop (sys_stop s i) (sys_sh s) = Some (pc, sh) ->
    step (Stopper i) s (Sys sh (sys_main s) (<[i := pc]> (sys_stop s)) (sys_asked s || asks (sys_stop s i))).

Definition start : system := Sys (Shared 0 false false 0) MOut (fun _ => SOut) false.

Inductive reachable : system -> Prop :=
| reach_start : reachable start
| reach_step w s s' : reachable s -> step w s s' -> reachable s'.

(** ** Bits *)

Lemma has_bit t n : 0 <= n -> has t (Z.shiftl 1 n) = Z.testbit t n.
Proof.
  intros Hn. unfold has. rewrite Z.shiftl_1_l. destruct (Z.testbit t n) eqn:E.
  - apply negb_true_iff, Z.eqb_neq. intros H. assert (Z.testbit (Z.land t (2 ^ n)) n = false) as H0 by (by rewrite H, Z.bits_0).
    rewrite Z.land_spec, E, Z.pow2_bits_true in H0 by lia. done.
  - apply negb_false_iff, Z.eqb_eq, Z.bits_inj'. intros m Hm. rewrite Z.land_spec, Z.bits_0.
    destruct (decide (m = n)) as [->|Hne]; [by rewrite E|]. rewrite Z.pow2_bits_false by lia. apply andb_false_r.
Qed.

Definition bit_send (s : shared) : bool := Z.testbit (tsync s) 0.
Definition bit_sent (s : shared) : bool := Z.testbit (tsync s) 1.
Definition bit_wait (s : shared) : bool := Z.testbit (tsync s) 2.
Definition bit_stop (s : shared) : bool := Z.testbit (tsync s) 3.

Lemma has_send s : has (tsync s) SYNC_SEND = bit_send s.
Proof. by apply has_bit. Qed.
Lemma has_sent s : has (tsync s) SYNC_SENT = bit_sent s.
Proof. by apply has_bit. Qed.
Lemma has_wait s : has (tsync s) SYNC_WAIT = bit_wait s.
Proof. by apply has_bit. Qed.
Lemma has_stop s : has (tsync s) SYNC_STOP = bit_stop s.
Proof. by apply has_bit. Qed.

(** Read the bits after the atomic operations. *)
Ltac bits :=
  rewrite ?has_send, ?has_sent, ?has_wait, ?has_stop in *;
  unfold bit_send, bit_sent, bit_wait, bit_stop, fetch_or, fetch_and_not, set_run, set_event in *;
  cbn [tsync sh_run ev_open ev_bytes] in *;
  rewrite ?Z.lor_spec, ?Z.ldiff_spec in *;
  change (Z.testbit SYNC_SEND 0) with true in *; change (Z.testbit SYNC_SEND 1) with false in *;
  change (Z.testbit SYNC_SEND 2) with false in *; change (Z.testbit SYNC_SENT 0) with false in *;
  change (Z.testbit SYNC_SENT 1) with true in *; change (Z.testbit SYNC_SENT 2) with false in *;
  change (Z.testbit SYNC_WAIT 0) with false in *; change (Z.testbit SYNC_WAIT 1) with false in *;
  change (Z.testbit SYNC_WAIT 2) with true in *; change (Z.testbit SYNC_STOP 0) with false in *;
  change (Z.testbit SYNC_STOP 1) with false in *; change (Z.testbit SYNC_STOP 2) with false in *;
  cbn [orb andb negb] in *; rewrite ?orb_false_r, ?orb_true_r, ?andb_true_r, ?andb_false_r in *.

(** ** The invariant *)

(** A stopper between its first and its last operation, and one that may write. *)
Definition inside (pc : stop_pc) : Prop := match pc with SHold _ | SWrite | SLeave => True | _ => False end.
Definition may_write (pc : stop_pc) : Prop := match pc with SHold true | SWrite => True | _ => False end.

(** The tunnel has announced itself and has not got behind the loop of [fini]. *)
Definition accepting (pc : main_pc) : Prop := match pc with MRun | MLoop | MGot | MAck | MFini => True | _ => False end.

Record inv (s : system) : Prop := {
  iv_wait i : inside (sys_stop s i) -> bit_wait (sys_sh s) = true;
  iv_one i j : inside (sys_stop s i) -> inside (sys_stop s j) -> i = j;
  iv_send : bit_send (sys_sh s) = true -> ev_open (sys_sh s) = true /\ accepting (sys_main s);
  iv_write i : may_write (sys_stop s i) -> ev_open (sys_sh s) = true /\ accepting (sys_main s);
  iv_open : match sys_main s with MRun | MLoop | MGot | MAck | MReady => ev_open (sys_sh s) = true | _ => True end;
  iv_sent0 : match sys_main s with MOut | MReady | MClose => bit_sent (sys_sh s) = false | _ => True end;
  iv_sent : match sys_main s with MRun | MLoop => bit_sent (sys_sh s) = true -> (0 < ev_bytes (sys_sh s))%nat \/ exists i, sys_stop s i = SWrite | _ => True end;
  iv_asked : match sys_main s with MRun | MLoop => sys_asked s = true -> bit_sent (sys_sh s) = true | _ => True end;
  iv_run : match sys_main s with MLoop | MGot => sh_run (sys_sh s) = true | _ => sh_run (sys_sh s) = false end
}.

Lemma start_inv : inv start.
Proof. by split. Qed.

(** Look up a stopper after a step of stopper [i]. *)
Ltac fn_case j i := destruct (decide (j = i)) as [->|?]; [rewrite fn_lookup_insert in *|rewrite fn_lookup_insert_ne in * by done].

(** A step that takes or gives up nothing. *)
Lemma inv_stop_same s i pc :
  inv s -> ~ inside (sys_stop s i) -> ~ inside pc ->
  inv (Sys (sys_sh s) (sys_main s) (<[i := pc]> (sys_stop s)) (sys_asked s)).
Proof.
  intros [Hw H1 Hs Hwr Ho H0 Hst Ha Hr] Hni Hnp. split; simpl; try done.
  - intros j. fn_case j i; [done|apply Hw].
  - intros j k. fn_case j i; [done|]. fn_case k i; [done|apply H1].
  - intros j. fn_case j i; [by destruct pc|apply Hwr].
  - destruct (sys_main s); try done; intros Hb; (destruct (Hst Hb) as [?|[j Hj]]; [by left|right; exists j]; fn_case j i; [by rewrite Hj in Hni|done]).
Qed.

(** A step of the one stopper inside. *)
Lemma inv_stop_inside s i pc sh a :
  inv s -> inside (sys_stop s i) -> inside pc ->
  bit_wait sh = bit_wait (sys_sh s) -> bit_send sh = bit_send (sys_sh s) -> ev_open sh = ev_open (sys_sh s) ->
  sh_run sh = sh_run (sys_sh s) -> (may_write pc -> may_write (sys_stop s i)) ->
  (bit_sent sh = bit_sent (sys_sh s) \/ may_write (sys_stop s i)) ->
  (bit_sent sh = true -> bit_sent (sys_sh s) = true /\ (ev_bytes (sys_sh s) <= ev_bytes sh)%nat /\ (sys_stop s i = SWrite -> (0 < ev_bytes sh)%nat) \/ pc = SWrite) ->
  (a = true -> bit_sent sh = true \/ sys_asked s = true /\ bit_sent sh = bit_sent (sys_sh s)) ->
  inv (Sys sh (sys_main s) (<[i := pc]> (sys_stop s)) a).
Proof.
  intros [Hw H1 Hs Hwr Ho H0 Hst Ha Hr] Hin Hip Ew Es Eo Er Hmw Hsent Hb Has.
  assert (forall j, j <> i -> inside (sys_stop s j) -> False) as Hno by (intros j Hne Hj; by apply Hne, H1).
  split; simpl; rewrite ?Ew, ?Es, ?Eo, ?Er; try done.
  - intros j _. by apply (Hw i).
  - intros j k. fn_case j i; [|intros Hj; by destruct (Hno j)]. fn_case k i; [done|intros _ Hk; by destruct (Hno k)].
  - intros j. fn_case j i; [intros Hm; apply (Hwr i); auto|apply Hwr].
  - destruct Hsent as [->|Hm]; [done|]. destruct (Hwr i Hm) as [_ Hacc]. by destruct (sys_main s).
  - assert (bit_sent sh = true -> (0 < ev_bytes (sys_sh s))%nat \/ (exists j, sys_stop s j = SWrite) \/ pc = SWrite ->
      (bit_sent (sys_sh s) = true -> (ev_bytes (sys_sh s) <= ev_bytes sh)%nat /\ (sys_stop s i = SWrite -> (0 < ev_bytes sh)%nat)) -> bit_sent (sys_sh s) = true \/ pc = SWrite ->
      (0 < ev_bytes sh)%nat \/ exists j, (<[i := pc]> (sys_stop s)) j = SWrite) as Hgo.
    { intros _ Hor Hle [Hb0| ->]; [|right; exists i; by rewrite fn_lookup_insert]. destruct (Hle Hb0) as [Hle1 Hle2].
      destruct Hor as [?|[[j Hj]| ->]]; [left; lia| |right; exists i; by rewrite fn_lookup_insert].
      destruct (decide (j = i)) as [->|Hne]; [left; auto|]. destruct (Hno j Hne). by rewrite Hj. }
    destruct (sys_main s); try done; intros Hbt; (destruct (Hb Hbt) as [(Hb0 & Hle & Hwr0)|Hp];
      [destruct (Hst Hb0) as [?|?]; apply Hgo; eauto|right; exists i; by rewrite fn_lookup_insert]).
  - destruct (sys_main s); try done; intros Hat; (destruct (Has Hat) as [?|[? ->]]; [done|auto]).
Qed.

Lemma stop_inv s i pc sh :
  inv s -> hev_socks5_tunnel_stop (sys_stop s i) (sys_sh s) = Some (pc, sh) ->
  inv (Sys sh (sys_main s) (<[i := pc]> (sys_stop s)) (sys_asked s || asks (sys_stop s i))).
Proof.
  intros Hi Hs. pose proof Hi as [Hw H1 Hse Hwr Ho H0 Hst Ha Hr].
  destruct (sys_stop s i) as [| |[]| |] eqn:Ei; cbn [hev_socks5_tunnel_stop asks] in Hs |- *; rewrite ?orb_false_r, ?orb_true_r.
  - injection Hs as <- <-. apply inv_stop_same; rewrite ?Ei; auto.
  - injection Hs as <- <-. rewrite has_wait, has_send. destruct (bit_wait (sys_sh s)) eqn:Ew.
    + assert (fetch_or SYNC_WAIT (sys_sh s) = sys_sh s) as ->; [|apply inv_stop_same; rewrite ?Ei; auto].
      unfold fetch_or. destruct (sys_sh s) as [t r o n]. cbn [tsync sh_run ev_open ev_bytes] in *. f_equal. apply Z.bits_inj'. intros k Hk. rewrite Z.lor_spec.
      destruct (decide (k = 2)) as [->|Hne]; [unfold bit_wait in Ew; cbn [tsync] in Ew; by rewrite Ew|].
      unfold SYNC_WAIT. rewrite Z.shiftl_1_l, Z.pow2_bits_false, orb_false_r by lia. done.
    + assert (forall j, inside (sys_stop s j) -> False) as Hno by (intros j Hj; specialize (Hw j Hj); congruence).
      split; simpl; bits; try done.
      * intros j k. fn_case j i; [|intros Hj; by destruct (Hno j)]. fn_case k i; [done|intros _ Hk; by destruct (Hno k)].
      * intros j. fn_case j i; [|apply Hwr]. cbn [may_write]. destruct (Z.testbit (tsync (sys_sh s)) 0); [auto|done].
      * destruct (sys_main s); try done; intros Hb; (destruct (Hst Hb) as [?|[j Hj]]; [by left|]; destruct (Hno j); by rewrite Hj).
  - injection Hs as <- <-. rewrite has_sent. apply inv_stop_inside; rewrite ?Ei; try done; try (by bits).
    + by destruct (bit_sent (sys_sh s)).
    + by right.
    + intros _. destruct (bit_sent (sys_sh s)) eqn:Eb; [left|by right]. split; [done|]. split; [done|discriminate].
    + intros _. left. by bits.
  - injection Hs as <- <-. apply inv_stop_inside; rewrite ?Ei; try done; try (by bits).
    + left. by bits.
    + intros Hb. left. split; [by bits|]. split; [done|discriminate].
    + intros Has. right. split; [done|by bits].
  - destruct (Hwr i) as [Hop Hacc]; [by rewrite Ei|]. unfold write_event in Hs. rewrite Hop in Hs. injection Hs as <- <-.
    apply inv_stop_inside; rewrite ?Ei; try done; try (by bits).
    + by left.
    + intros Hb. left. split; [by bits|]. simpl. split; [lia|intros; lia].
    + intros Has. right. split; [done|by bits].
  - injection Hs as <- <-. assert (forall j, j <> i -> inside (sys_stop s j) -> False) as Hno.
    { intros j Hne Hj. apply Hne, H1; [done|by rewrite Ei]. }
    split; simpl; bits; try done.
    + intros j. fn_case j i; [done|]. intros Hj. by destruct (Hno j).
    + intros j k. fn_case j i; [done|]. intros Hj. by destruct (Hno j).
    + intros j. fn_case j i; [done|apply Hwr].
    + destruct (sys_main s); try done; intros Hb; (destruct (Hst Hb) as [?|[j Hj]]; [by left|right; exists j]; fn_case j i; [congruence|done]).
Qed.

Lemma main_inv opened ok s pc sh :
  inv s -> main_step opened ok (sys_main s) (sys_sh s) = Some (pc, sh) ->
  inv (Sys sh pc (sys_stop s) (match sys_main s with MReady => false | _ => sys_asked s end)).
Proof.
  intros [Hw H1 Hs Hwr Ho H0 Hst Ha Hr] Hm. destruct s as [sh0 pm st a]. cbn [sys_sh sys_main sys_stop sys_asked] in *.
  assert (forall i, may_write (st i) -> inside (st i)) as Hmi by (intros i; by destruct (st i) as [| |[]| |]).
  destruct pm; cbn [main_step event_task_entry hev_socks5_tunnel_fini] in Hm.
  - injection Hm as <- <-. assert (bit_send sh0 = false) as Hns by (destruct (bit_send sh0) eqn:E; [by destruct (Hs eq_refl)|done]).
    assert (forall i, may_write (st i) -> False) as Hnw by (intros i Hi; by destruct (Hwr i Hi)).
    split; simpl; bits; try done; try (intros; congruence); try (intros i Hi; by destruct (Hnw i)); destruct opened, ok; try done; by bits.
  - injection Hm as <- <-. split; simpl; bits; try done; try (intros Hb; congruence); intros i Hi; by destruct (Hwr i Hi).
  - unfold hev_socks5_tunnel_run in Hm. rewrite has_stop in Hm.
    destruct (bit_stop sh0); injection Hm as <- <-; split; simpl; bits; try done; try (intros Hb; by split; [apply Hs|]);
      try (intros i Hi; split; [by destruct (Hwr i Hi)|done]); try (intros Hb; split; [by destruct (Hs Hb)|done]).
  - destruct (ev_bytes sh0) as [|n] eqn:En; [done|]. injection Hm as <- <-.
    split; simpl; bits; try done; try (intros Hb; by destruct (Hs Hb)); intros i Hi; by destruct (Hwr i Hi).
  - injection Hm as <- <-. split; simpl; bits; try done; try (intros Hb; by destruct (Hs Hb)); intros i Hi; by destruct (Hwr i Hi).
  - injection Hm as <- <-. split; simpl; bits; try done; try (intros Hb; by destruct (Hs Hb)); intros i Hi; by destruct (Hwr i Hi).
  - rewrite has_wait in Hm.
    assert (bit_send (fetch_and_not (Z.lor SYNC_SEND SYNC_SENT) sh0) = false) as E1 by (unfold bit_send; cbn [tsync fetch_and_not]; rewrite Z.ldiff_spec, Z.lor_spec; apply andb_false_r).
    assert (bit_sent (fetch_and_not (Z.lor SYNC_SEND SYNC_SENT) sh0) = false) as E2 by (unfold bit_sent; cbn [tsync fetch_and_not]; rewrite Z.ldiff_spec, Z.lor_spec; apply andb_false_r).
    assert (bit_wait (fetch_and_not (Z.lor SYNC_SEND SYNC_SENT) sh0) = bit_wait sh0) as E3 by (unfold bit_wait; cbn [tsync fetch_and_not]; rewrite Z.ldiff_spec, Z.lor_spec; apply andb_true_r).
    destruct (bit_wait sh0) eqn:Ew; injection Hm as <- <-;
      split; cbn [sys_sh sys_main sys_stop sys_asked]; rewrite ?E1, ?E2, ?E3; try done;
      intros i Hi; specialize (Hw i (Hmi i Hi)); congruence.
  - injection Hm as <- <-. assert (forall i, may_write (st i) -> False) as Hnw by (intros i Hi; by destruct (Hwr i Hi)).
    split; simpl; bits; try done; try (intros Hb; by destruct (Hs Hb)); intros i Hi; by destruct (Hnw i).
Qed.

Lemma step_inv w s s' : inv s -> step w s s' -> inv s'.
Proof. intros Hi Hst. destruct Hst; [by eapply main_inv|by apply stop_inv]. Qed.

Lemma reachable_inv s : reachable s -> inv s.
Proof. induction 1; [apply start_inv|by eapply step_inv]. Qed.

(** ** Executions *)

(** An infinite execution; a step may be idle. *)
Definition execution (tr : nat -> system) (by_whom : nat -> option who) : Prop :=
  tr 0%nat = start /\
  forall n, match by_whom n with Some w => step w (tr n) (tr (S n)) | None => tr (S n) = tr n end.

(** A thread that has to go on: a stopper that was called, and the thread of the
    tunnel unless it waits for its caller or for the event. *)
Definition must_step (w : who) (s : system) : Prop :=
  match w with
  | Main => sys_main s <> MOut /\ main_step true true (sys_main s) (sys_sh s) <> None
  | Stopper i => sys_stop s i <> SOut
  end.

(** The scheduler does not forget a thread that has to go on. *)
Definition fair (tr : nat -> system) (by_whom : nat -> option who) : Prop :=
  forall w n, exists m, (n <= m)%nat /\ (by_whom m = Some w \/ ~ must_step w (tr m)).

Lemma execution_inv tr by_whom n : execution tr by_whom -> inv (tr n).
Proof.
  intros [H0 Hst]. induction n as [|n IH]; [rewrite H0; apply start_inv|]. specialize (Hst n).
  destruct (by_whom n) as [w|]; [by eapply step_inv|congruence].
Qed.

(** What one thread brings about while the others keep its turn open. *)
Lemma leads_to tr by_whom w (P Q : system -> Prop) n :
  execution tr by_whom -> fair tr by_whom ->
  (forall s, inv s -> P s -> must_step w s) ->
  (forall s s', inv s -> P s -> step w s s' -> Q s') ->
  (forall v s s', inv s -> P s -> step v s s' -> v <> w -> P s') ->
  P (tr n) -> exists m, (n <= m)%nat /\ Q (tr m).
Proof.
  intros He Hf Hmust Hw Hv HP. destruct (Hf w n) as (k & Hk & Hor).
  assert (forall d, (exists m, (n <= m <= n + d)%nat /\ Q (tr m)) \/ P (tr (n + d)%nat) /\ forall j, (n <= j < n + d)%nat -> by_whom j <> Some w) as Hall.
  { induction d as [|d [(m & Hm & HQ)|[HPd Hno]]].
    - right. rewrite Nat.add_0_r. split; [done|lia].
    - left. exists m. split; [lia|done].
    - pose proof (proj2 He (n + d)%nat) as Hst. rewrite Nat.add_succ_r. pose proof (execution_inv _ _ (n + d) He) as Hi.
      destruct (by_whom (n + d)%nat) as [v|] eqn:Eb.
      + assert (v = w \/ v <> w) as [->|Hne] by (destruct v as [|a], w as [|b]; try (by right); [by left|];
          destruct (decide (a = b)) as [->|]; [by left|right; congruence]).
        * left. exists (S (n + d)). split; [lia|]. by eapply Hw.
        * right. split; [by eapply Hv|]. intros j Hj. destruct (decide (j = n + d)%nat) as [->|]; [rewrite Eb; congruence|apply Hno; lia].
      + right. split; [by rewrite Hst|]. intros j Hj. destruct (decide (j = n + d)%nat) as [->|]; [by rewrite Eb|apply Hno; lia]. }
  destruct (Hall (S (k - n))) as [(m & Hm & HQ)|[_ Hno]]; [exists m; split; [lia|done]|].
  destruct (Hall (k - n)%nat) as [(m & Hm & HQ)|[HPk _]]; [exists m; split; [lia|done]|].
  replace (n + (k - n))%nat with k in * by lia. destruct Hor as [Hb|Hn]; [by destruct (Hno k); [lia|]|].
  destruct Hn. apply Hmust; [by eapply execution_inv|done].
Qed.
