(* ===== verification/TunnelTheorems.v ===== *)
(** * Theorems on starting and stopping the tunnel (hev-socks5-tunnel.c)

    For any number of threads that ask the tunnel to stop, in any interleaving: no
    one writes to a socket that was closed, and a call that finds the tunnel
    announced ends the run. *)

From stdpp Require Import functions.
From S2P Require Import Prelude TunnelSync.

(** C5: Stopping never touches a closed socket.  However the calls to stop
    interleave with each other and with the initialisation, the run and the
    teardown of the tunnel, over any number of restarts, the write of a stopper
    always finds the socket pair open, at most one stopper is between its first and
    last operation, and the teardown closes the pair only when none of them can
    write. *)
Theorem tunnel_stop_safe s :
  reachable s ->
  (forall i, exists r, hev_socks5_tunnel_stop (sys_stop s i) (sys_sh s) = Some r) /\
  (forall i j, inside (sys_stop s i) -> inside (sys_stop s j) -> i = j) /\
  (sys_main s = MClose -> forall i, ~ may_write (sys_stop s i)).
Proof.
  intros Hr. pose proof (reachable_inv s Hr) as Hi. split_and!.
  - intros i. destruct (sys_stop s i) as [| |[]| |] eqn:E; simpl; try by eexists.
    destruct (iv_write _ Hi i) as [Ho _]; [by rewrite E|]. unfold write_event. rewrite Ho. by eexists.
  - apply (iv_one _ Hi).
  - intros Hm i Hw. destruct (iv_write _ Hi i Hw) as [_ Ha]. by rewrite Hm in Ha.
Qed.

(** A run that is stopped by one call: who makes each step. *)
Definition script : list who :=
  [Main; Main; Main; Stopper 0; Stopper 0; Stopper 0; Stopper 0; Stopper 0; Main; Main; Main; Main; Main].

(** The step of a thread when everything can be opened. *)
Definition advance (s : system) (w : who) : system :=
  match w with
  | Main =>
    match main_step true true (sys_main s) (sys_sh s) with
    | Some (pc, sh) => Sys sh pc (sys_stop s) (match sys_main s with MReady => false | _ => sys_asked s end)
    | None => s
    end
  | Stopper i =>
    match hev_socks5_tunnel_stop (sys_stop s i) (sys_sh s) with
    | Some (pc, sh) => Sys sh (sys_main s) (<[i := pc]> (sys_stop s)) (sys_asked s || asks (sys_stop s i))
    | None => s
    end
  end.

Definition states (n : nat) : system := fold_left advance (take n script) start.
Definition turns (n : nat) : option who := script !! n.

Lemma script_end n : (13 <= n)%nat -> states n = states 13.
Proof. intros H. unfold states. by rewrite !take_ge by (simpl; lia). Qed.

Definition can_step (w : who) (s : system) : bool :=
  match w with
  | Main => match main_step true true (sys_main s) (sys_sh s) with Some _ => true | None => false end
  | Stopper i => match hev_socks5_tunnel_stop (sys_stop s i) (sys_sh s) with Some _ => true | None => false end
  end.

Lemma advance_step w s : can_step w s = true -> step w s (advance s w).
Proof.
  destruct w as [|i]; simpl; intros H.
  - destruct (main_step true true (sys_main s) (sys_sh s)) as [[pc sh]|] eqn:E; [|done]. by eapply step_main.
  - destruct (hev_socks5_tunnel_stop (sys_stop s i) (sys_sh s)) as [[pc sh]|] eqn:E; [|done]. by apply step_stop.
Qed.

Lemma script_steps : forallb (fun n => match script !! n with Some w => can_step w (states n) | None => true end) (seq 0 13) = true.
Proof. vm_compute. reflexivity. Qed.

Lemma script_execution : execution states turns.
Proof.
  split; [done|]. intros n. unfold turns. destruct (script !! n) as [w|] eqn:E.
  - assert (states (S n) = advance (states n) w) as ->.
    { unfold states. rewrite (take_S_r _ _ _ E), fold_left_app. done. }
    apply advance_step. pose proof script_steps as H. rewrite forallb_forall in H.
    specialize (H n). rewrite E in H. apply H, in_seq. apply lookup_lt_Some in E. simpl in E. lia.
  - apply lookup_ge_None in E. simpl in E. rewrite (script_end (S n)), (script_end n) by lia. reflexivity.
Qed.

Lemma script_fair : fair states turns.
Proof.
  intros w n. exists (Nat.max n 13). split; [lia|]. right. rewrite script_end by lia.
  destruct w as [|i]; [intros [H _]; apply H; vm_compute; reflexivity|]. intros H. apply H. destruct i; vm_compute; reflexivity.
Qed.

Lemma tunnel_stop_safe_witness :
  (forall i, exists r, hev_socks5_tunnel_stop (sys_stop (states 6) i) (sys_sh (states 6)) = Some r) /\ sys_stop (states 6) 0%nat = SWrite.
Proof.
  split; [|reflexivity]. apply (tunnel_stop_safe (states 6)).
  assert (forall n, reachable (states n)) as H; [|apply H]. intros n. induction n as [|n IH]; [apply reach_start|].
  pose proof (proj2 script_execution n) as Hst. destruct (turns n) as [w|]; [exact (reach_step w _ _ IH Hst)|rewrite Hst; exact IH].
Defined.

(** ** A stop is not lost *)

Lemma main_leads tr by_whom n pc (Q : system -> Prop) :
  execution tr by_whom -> fair tr by_whom ->
  (forall s, inv s -> sys_main s = pc -> must_step Main s) ->
  (forall s s', inv s -> sys_main s = pc -> step Main s s' -> Q s') ->
  sys_main (tr n) = pc -> exists m, (n <= m)%nat /\ Q (tr m).
Proof.
  intros He Hf Hm HQ Hp. apply (leads_to tr by_whom Main (fun s => sys_main s = pc) Q n He Hf); try done.
  intros v s s' _ Hs Hst Hne. by inv Hst.
Qed.

(** Once the event task has its byte, the run ends. *)
Lemma got_ends tr by_whom n :
  execution tr by_whom -> fair tr by_whom -> sys_main (tr n) = MGot ->
  exists m, (n <= m)%nat /\ sys_main (tr m) = MFini.
Proof.
  intros He Hf Hn.
  destruct (main_leads tr by_whom n MGot (fun s => sys_main s = MAck) He Hf) as (k & Hk & Hak); [..|done|].
  { intros s _ Hs. unfold must_step. by rewrite Hs. }
  { intros s s' _ Hs Hst. inv Hst. rewrite Hs in *. by simplify_eq/=. }
  destruct (main_leads tr by_whom k MAck (fun s => sys_main s = MFini) He Hf) as (m & Hm & Hfi); [..|done|].
  { intros s _ Hs. unfold must_step. by rewrite Hs. }
  { intros s s' _ Hs Hst. inv Hst. rewrite Hs in *. by simplify_eq/=. }
  exists m. split; [lia|done].
Qed.

Lemma byte_ends tr by_whom n :
  execution tr by_whom -> fair tr by_whom -> sys_main (tr n) = MLoop -> (0 < ev_bytes (sys_sh (tr n)))%nat ->
  exists m, (n <= m)%nat /\ sys_main (tr m) = MFini.
Proof.
  intros He Hf Hn Hb.
  destruct (leads_to tr by_whom Main (fun s => sys_main s = MLoop /\ (0 < ev_bytes (sys_sh s))%nat) (fun s => sys_main s = MGot) n He Hf)
    as (k & Hk & Hg); [| | |done|].
  - intros s _ [Hs Hby]. unfold must_step. rewrite Hs. simpl. destruct (ev_bytes (sys_sh s)); [lia|done].
  - intros s s' _ [Hs Hby] Hst. inv Hst. rewrite Hs in *. simpl in *. destruct (ev_bytes (sys_sh s)); [lia|by simplify_eq].
  - intros v s s' _ [Hs Hby] Hst Hne. inv Hst; try done. split; [done|]. simpl.
    destruct (sys_stop s i) as [| |[]| |]; simpl in *; unfold write_event in *; repeat case_match; simplify_eq/=; simpl; lia.
  - destruct (got_ends tr by_whom k He Hf Hg) as (m & Hm & Hfi). exists m. split; [lia|done].
Qed.

(** C14: A stop is never lost.  In every execution in which no thread is forgotten by
    the scheduler, once a call to stop has found the tunnel announced, the run ends:
    the event task gets its byte, and the thread of the tunnel reaches the
    teardown, with the flag that keeps the sessions running cleared. *)
Theorem tunnel_stop_ends_run tr by_whom n :
  execution tr by_whom -> fair tr by_whom ->
  sys_main (tr n) = MRun \/ sys_main (tr n) = MLoop -> sys_asked (tr n) = true ->
  exists m, (n <= m)%nat /\ sys_main (tr m) = MFini /\ sh_run (sys_sh (tr m)) = false.
Proof.
  intros He Hf Hpc Has.
  assert (exists m, (n <= m)%nat /\ sys_main (tr m) = MFini) as (m & Hm & Hfi).
  2:{ exists m. split_and!; try done. pose proof (iv_run _ (execution_inv _ _ m He)) as Hr. by rewrite Hfi in Hr. }
  assert (forall n, sys_main (tr n) = MLoop -> sys_asked (tr n) = true -> exists m, (n <= m)%nat /\ sys_main (tr m) = MFini) as Hloop.
  { clear n Hpc Has. intros n Hpc Has. pose proof (execution_inv _ _ n He) as Hi. pose proof (iv_asked _ Hi) as Ha. pose proof (iv_sent _ Hi) as Hs.
    rewrite Hpc in Ha, Hs. destruct (decide (0 < ev_bytes (sys_sh (tr n)))%nat) as [Hb|Hb]; [by eapply byte_ends|].
    destruct (Hs (Ha Has)) as [?|[i Hw]]; [done|].
    destruct (leads_to tr by_whom (Stopper i) (fun s => sys_main s = MLoop /\ ev_bytes (sys_sh s) = 0%nat /\ sys_stop s i = SWrite)
      (fun s => sys_main s = MLoop /\ (0 < ev_bytes (sys_sh s))%nat) n He Hf) as (k & Hk & Hl & Hby); [| | |split_and!; (done || lia)|].
    - intros s _ (_ & _ & Hw'). unfold must_step. by rewrite Hw'.
    - intros s s' _ (Hl & _ & Hw') Hst. inv Hst. split; [done|]. rewrite Hw' in *. simpl in *. unfold write_event in *.
      case_match; [|done]. simplify_eq/=. lia.
    - intros v s s' Hi' (Hl & Hz & Hw') Hst Hne. inv Hst.
      + rewrite Hl in *. simpl in *. by rewrite Hz in *.
      + assert (i0 <> i) as Hii by congruence. simpl. rewrite fn_lookup_insert_ne by done. split; [done|]. split; [|done].
        assert (~ inside (sys_stop s i0)) as Hni by (intros Hin; apply Hii, (iv_one _ Hi'); [done|by rewrite Hw']).
        destruct (sys_stop s i0) as [| |[]| |]; simpl in *; by simplify_eq/=.
    - destruct (byte_ends tr by_whom k He Hf Hl Hby) as (m & Hm & Hfi). exists m. split; [lia|done]. }
  destruct Hpc as [Hpc|Hpc]; [|by apply Hloop].
  destruct (leads_to tr by_whom Main (fun s => sys_main s = MRun /\ sys_asked s = true)
    (fun s => sys_main s = MFini \/ sys_main s = MLoop /\ sys_asked s = true) n He Hf) as (k & Hk & Hor); [| | |done|].
  - intros s _ [Hs _]. unfold must_step. by rewrite Hs.
  - intros s s' _ [Hs Ha] Hst. inv Hst. rewrite Hs in *. simpl in *. unfold hev_socks5_tunnel_run in *.
    case_match; simplify_eq/=; [by left|by right].
  - intros v s s' _ [Hs Ha] Hst Hne. inv Hst; try done. simpl. by rewrite Ha.
  - destruct Hor as [Hfi|[Hl Ha]]; [by exists k|]. destruct (Hloop k Hl Ha) as (m & Hm & Hfi). exists m. split; [lia|done].
Qed.

Lemma tunnel_stop_ends_run_witness :
  exists m, (6 <= m)%nat /\ sys_main (states m) = MFini /\ sh_run (sys_sh (states m)) = false.
Proof.
  apply (tunnel_stop_ends_run states turns 6).
  - apply script_execution.
  - apply script_fair.
  - right. reflexivity.
  - reflexivity.
Defined.
