(* ===== verification/SessionTcp.v ===== *)
(** * A TCP session of the tunnel (hev-socks5-session-tcp.c)

    One end of the session is a connection of the TCP/IP stack (lwip), which delivers
    data, acknowledgements and failures through callbacks, the other the socket to
    the SOCKS5 server.  Towards the server the session writes out the queue of
    received packet buffers; towards the application it reads into the ring buffer,
    which [tcp_write] refers to without copying until the bytes are acknowledged.
    What lwip answers and when its callbacks run is an oracle. *)

From S2P Require Import Prelude Buffers TaskSocket Socks5Client Socks5Udp SpliceLoop.

(** ** State *)

Definition ERR_OK : Z := 0.

(** What the session sees of a [tcp_pcb]: the results of the coming calls of
    [tcp_write] and [tcp_output] (success when there are no more), the bytes
    [tcp_write] took, how many of them were acknowledged, what [tcp_recved] was
    told, and whether the sending side was shut down. *)
Record pcb := Pcb { pb_res : list Z; pb_sent : list Z; pb_acked : nat; pb_recved : Z; pb_shut : bool }.

(** [HevSocks5SessionTCP] with its socket.  A queue of packet buffers is the list of
    their payloads.  [ss_got]: all the bytes that lwip delivered. *)
Record session := Session {
  ss_base : socks5; ss_pcb : option pcb; ss_queue : list (list Z); ss_eof : bool; ss_buffer : option ring;
  ss_rx : list rx_event; ss_tx : list tx_event; ss_out : list Z; ss_shut : bool; ss_got : list Z
}.

Abbreviation TM := (M session).

Definition up_sbase b s := Session b (ss_pcb s) (ss_queue s) (ss_eof s) (ss_buffer s) (ss_rx s) (ss_tx s) (ss_out s) (ss_shut s) (ss_got s).
Definition up_pcb p s := Session (ss_base s) p (ss_queue s) (ss_eof s) (ss_buffer s) (ss_rx s) (ss_tx s) (ss_out s) (ss_shut s) (ss_got s).
Definition up_queue q s := Session (ss_base s) (ss_pcb s) q (ss_eof s) (ss_buffer s) (ss_rx s) (ss_tx s) (ss_out s) (ss_shut s) (ss_got s).
Definition up_eof s := Session (ss_base s) (ss_pcb s) (ss_queue s) true (ss_buffer s) (ss_rx s) (ss_tx s) (ss_out s) (ss_shut s) (ss_got s).
Definition up_sbuf b s := Session (ss_base s) (ss_pcb s) (ss_queue s) (ss_eof s) b (ss_rx s) (ss_tx s) (ss_out s) (ss_shut s) (ss_got s).
Definition up_srx r s := Session (ss_base s) (ss_pcb s) (ss_queue s) (ss_eof s) (ss_buffer s) r (ss_tx s) (ss_out s) (ss_shut s) (ss_got s).
Definition up_stx t bs s := Session (ss_base s) (ss_pcb s) (ss_queue s) (ss_eof s) (ss_buffer s) (ss_rx s) t (ss_out s ++ bs) (ss_shut s) (ss_got s).
Definition up_got bs s := Session (ss_base s) (ss_pcb s) (ss_queue s) (ss_eof s) (ss_buffer s) (ss_rx s) (ss_tx s) (ss_out s) (ss_shut s) (ss_got s ++ bs).
Definition up_shut s := Session (ss_base s) (ss_pcb s) (ss_queue s) (ss_eof s) (ss_buffer s) (ss_rx s) (ss_tx s) (ss_out s) true (ss_got s).

(** ** The calls into lwip *)

(** [pbuf_free_header]: drop [size] bytes, a 16-bit number, from the front. *)
Fixpoint free_header (p : list (list Z)) (free_left : Z) : list (list Z) :=
  match p with
  | [] => []
  | b :: p' =>
    if free_left =? 0 then p
    else if Z.of_nat (length b) <=? free_left then free_header p' (u16 (free_left - Z.of_nat (length b)))
    else drop (Z.to_nat free_left) b :: p'
  end.

Definition pbuf_free_header (p : list (list Z)) (size : Z) : list (list Z) := free_header p (u16 size).

(** [tcp_write (pcb, ptr, len, 0)] on the bytes at [ptr]; [len] is a 16-bit number. *)
Definition tcp_write (bs : list Z) (p : pcb) : Z * pcb :=
  let err := hd ERR_OK (pb_res p) in
  (err, Pcb (tl (pb_res p)) (if err =? ERR_OK then pb_sent p ++ take (Z.to_nat (u16 (Z.of_nat (length bs)))) bs else pb_sent p)
            (pb_acked p) (pb_recved p) (pb_shut p)).

Definition tcp_output (p : pcb) : Z * pcb :=
  (hd ERR_OK (pb_res p), Pcb (tl (pb_res p)) (pb_sent p) (pb_acked p) (pb_recved p) (pb_shut p)).

Definition tcp_recved (len : Z) (p : pcb) : pcb := Pcb (pb_res p) (pb_sent p) (pb_acked p) (pb_recved p + u16 len) (pb_shut p).

(** [tcp_shutdown (pcb, 0, 1)] *)
Definition tcp_shutdown (p : pcb) : pcb := Pcb (pb_res p) (pb_sent p) (pb_acked p) (pb_recved p) true.

(** ** The two directions *)

Definition tcp_splice_f : TM Z :=
  let* queue := gets ss_queue in
  match queue with
  | [] =>
    let* eof := gets ss_eof in
    (when eof do modify up_shut);;
    ret (if eof : bool then -1 else 0)
  | _ =>
    let bs := concat (take 64 queue) in
    let* evs := gets ss_tx in
    let '(s, again, evs) := writev bs evs in
    modify (up_stx evs (take (Z.to_nat s) bs));;
    if s <=? 0 then ret (if (s <? 0) && again then 0 else -1) else
    modify (up_queue (pbuf_free_header queue s));;
    let* p := gets ss_pcb in
    match p with
    | Some p => modify (up_pcb (Some (tcp_recved s p)));; ret 1
    | None => ret 1
    end
  end.

Definition deref_ring : TM ring := let* b := gets ss_buffer in lift_opt b.

(** The reading half of [tcp_splice_b]. *)
Definition tcp_read : TM Z :=
  let* r := deref_ring in
  let iov := hev_ring_buffer_writing r in
  match iov with
  | [] => ret 0
  | _ =>
    let* evs := gets ss_rx in
    let '(s, bs, again, evs) := readv (iov_len iov) evs in
    modify (up_srx evs);;
    if s <=? 0 then ret (if (s <? 0) && again then 0 else -1) else
    modify (up_sbuf (Some (hev_ring_buffer_write_finish
      (Ring (r_rp r) (r_wp r) (r_rda r) (r_use r) (r_max r) (iov_scatter (r_data r) iov bs)) s)));;
    ret 1
  end.

(** The loop over the vectors: the error bits and the bytes handed over. *)
Fixpoint write_vectors (data : list Z) (iov : list iovec) (err s : Z) (p : pcb) : Z * Z * pcb :=
  match iov with
  | [] => (err, s, p)
  | v :: iov =>
    let '(e, p) := tcp_write (iov_gather data [v]) p in
    write_vectors data iov (Z.lor err e) (s + v.2) p
  end.

(** The writing half, with the result of the reading half. *)
Definition tcp_handover (res : Z) : TM Z :=
  let* pcb := gets ss_pcb in
  match pcb with
  | None => ret (-1)
  | Some p =>
    let* r := deref_ring in
    let iov := hev_ring_buffer_reading r in
    match iov with
    | [] => (when (res <? 0) do modify (up_pcb (Some (tcp_shutdown p))));; ret res
    | _ =>
      let '(err, s, p) := write_vectors (r_data r) iov ERR_OK 0 p in
      modify (up_sbuf (Some (hev_ring_buffer_read_finish r s)));;
      let '(e, p) := tcp_output p in
      modify (up_pcb (Some p));;
      ret (if negb (Z.lor err e =? ERR_OK) then -1 else 1)
    end
  end.

Definition tcp_splice_b : TM Z := let* res := tcp_read in tcp_handover res.

(** ** The callbacks *)

Definition hev_socks5_session_terminate : TM unit := modify (fun s => up_sbase (hev_socks5_set_timeout 0 (ss_base s)) s).

Definition tcp_recv_handler (p : option (list (list Z))) : TM unit :=
  match p with
  | Some p => modify (fun s => up_queue (ss_queue s ++ p) s)
  | None => modify up_eof
  end.

Definition tcp_sent_handler (len : Z) : TM unit :=
  let* r := deref_ring in
  modify (up_sbuf (Some (hev_ring_buffer_read_release r len))).

Definition tcp_err_handler : TM unit := modify (up_pcb None);; hev_socks5_session_terminate.

(** What happens to the connection while the session sleeps. *)
Inductive pcb_event := EvData (p : list (list Z)) | EvFin | EvAcked (n : nat) | EvErr.

(** lwip counts the acknowledged bytes and calls back. *)
Definition pcb_acked (n : nat) (s : session) : session :=
  match ss_pcb s with
  | Some p => up_pcb (Some (Pcb (pb_res p) (pb_sent p) (pb_acked p + n) (pb_recved p) (pb_shut p))) s
  | None => s
  end.

Definition run_event (e : pcb_event) : TM unit :=
  match e with
  | EvData p => modify (up_got (concat p));; tcp_recv_handler (Some p)
  | EvFin => tcp_recv_handler None
  | EvAcked n => modify (pcb_acked n);; tcp_sent_handler (Z.of_nat n)
  | EvErr => tcp_err_handler
  end.

Fixpoint run_events (es : list pcb_event) : TM unit :=
  match es with
  | [] => ret tt
  | e :: es => run_event e;; run_events es
  end.

(** ** The session *)

(** One sleep: what happens meanwhile and what [hev_task_sleep] returns. *)
Definition nap : Type := list pcb_event * Z.

(** What the [k]-th sleep of the session is like may depend on all that happened
    before it, so on the state of the session. *)
Definition environment : Type := nat -> session -> nap.

(** The yielder, without the place of the session in the list of sessions. *)
Definition session_yielder (type : yield_type) (n : nap) : TM Z :=
  let* base := gets ss_base in
  run_events n.1;;
  ret (hev_socks5_task_io_yielder type n.2 base).

(** The loop that copies; the result is the number of sleeps so far. *)
Fixpoint tcp_splice_loop (fuel : nat) (env : environment) (k : nat) (res_f res_b : Z) : TM nat :=
  match fuel with
  | O => fail
  | S fuel =>
    let* res_f := (if 0 <=? res_f then tcp_splice_f else ret res_f) in
    let* res_b := (if 0 <=? res_b then tcp_splice_b else ret res_b) in
    let next type :=
      let* n := gets (env k) in
      let* y := session_yielder type n in
      if y <? 0 then ret (S k) else tcp_splice_loop fuel env (S k) res_f res_b in
    if (0 <? res_f) || (0 <? res_b) then next HEV_TASK_YIELD
    else if Z.land res_f res_b =? 0 then next HEV_TASK_WAITIO
    else ret k
  end.

(** The loop after it, until everything handed over is acknowledged. *)
Fixpoint tcp_drain_loop (fuel : nat) (env : environment) (k : nat) : TM unit :=
  match fuel with
  | O => fail
  | S fuel =>
    let* p := gets ss_pcb in
    match p with
    | None => ret tt
    | Some _ =>
      let* r := deref_ring in
      if hev_ring_buffer_get_use_size r =? 0 then ret tt else
      let* n := gets (env k) in
      let* y := session_yielder HEV_TASK_WAITIO n in
      if y <? 0 then ret tt else tcp_drain_loop fuel env (S k)
    end
  end.

(** [mem]: what the ring on the stack holds at first. *)
Definition hev_socks5_session_tcp_splice (fuel : nat) (tcp_buffer_size : Z) (mem : list Z) (env : environment) : TM unit :=
  let* p := gets ss_pcb in
  match p with
  | None => ret tt
  | Some _ =>
    modify (up_sbuf (Some (hev_ring_buffer_alloca tcp_buffer_size mem)));;
    let* k := tcp_splice_loop fuel env 0 1 1 in
    tcp_drain_loop fuel env k
  end.

(** The end of the session: the connection is aborted and the queue freed. *)
Definition hev_socks5_session_tcp_destruct : TM unit := modify (fun s => up_queue [] (up_pcb None s)).
