(* ===== verification/SessionTcpInv.v ===== *)
(** * What a TCP session keeps true

    The invariant of the two directions of a session, for every behaviour of the
    socket and of the TCP/IP stack within the latter's promises, and the lemmas that
    each routine and callback keeps it. *)

From S2P Require Import Prelude Buffers TaskSocket Socks5Client Socks5Udp SpliceLoop SessionTcp.

(** ** What the stack promises *)

(** The receive window of a connection (lwipopts.h): so much can be delivered
    before the session gives it back with [tcp_recved]. *)
Definition TCP_WND : Z := 8 * 8191.

(** What can happen in a state: data comes in non-empty buffers, within the window
    and before the end of the stream; only sent bytes are acknowledged, in amounts of
    16 bits; after a failure nothing happens any more. *)
Definition event_ok (s : session) (e : pcb_event) : Prop :=
  match ss_pcb s with
  | None => False
  | Some p =>
    match e with
    | EvData bufs => ss_eof s = false /\ Forall (.≠ []) bufs /\ Z.of_nat (length (concat (ss_queue s ++ bufs))) <= TCP_WND
    | EvFin => True
    | EvAcked n => (pb_acked p + n <= length (pb_sent p))%nat /\ Z.of_nat n < 65536
    | EvErr => True
    end
  end.

Fixpoint events_ok (s : session) (es : list pcb_event) : Prop :=
  match es with
  | [] => True
  | e :: es => event_ok s e /\ forall s', run_event e s = Some (tt, s') -> events_ok s' es
  end.

Definition lwip_ok (env : environment) : Prop := forall k s, events_ok s (env k s).1.

(** ** The invariant *)

(** [t] is [h], or [h] with one piece missing. *)
Definition one_gap (h t : list Z) : Prop := exists a x y, h = a ++ x ++ y /\ t = a ++ y.

Lemma one_gap_refl h : one_gap h h.
Proof. exists h, [], []. by rewrite !app_nil_r. Qed.

Lemma one_gap_app l h t : one_gap h t -> one_gap (l ++ h) (l ++ t).
Proof. intros (a & x & y & -> & ->). exists (l ++ a), x, y. by rewrite <-!app_assoc. Qed.

Lemma one_gap_length h t : one_gap h t -> (length t <= length h)%nat.
Proof. intros (a & x & y & -> & ->). rewrite !length_app. lia. Qed.

(** lwip takes every write and output from now on. *)
Definition takes_all (p : pcb) : Prop := Forall (fun e => e = ERR_OK) (pb_res p).

(** Towards the application, with [q] read from the socket and not offered yet, and [h] offered to
    the connection: [h] is what came from the socket, in order; the connection took [h], or all but one
    piece when it refused a write; the bytes [u] that the ring keeps are those of [h] behind as many as
    were acknowledged; the window was opened for what went out to the server. *)
Record handed (s0 : session) (p0 : pcb) (q u h : list Z) (s : session) (p : pcb) : Prop := {
  hd_all : h ++ q ++ rx_bytes (ss_rx s) = pb_sent p0 ++ rx_bytes (ss_rx s0);
  hd_gap : one_gap h (pb_sent p);
  hd_acked : (pb_acked p <= length (pb_sent p))%nat;
  hd_ring : u = drop (pb_acked p) h;
  hd_res : takes_all p0 -> takes_all p /\ pb_sent p = h;
  hd_recved : pb_recved p + Z.of_nat (length (ss_out s0)) = pb_recved p0 + Z.of_nat (length (ss_out s));
  hd_shut : pb_shut p = true -> q = []
}.

(** Towards the server: what went out and what is queued are what was queued and what
    arrived.  The ring holds what was offered and is not acknowledged, then [q]. *)
Record relays (size : Z) (s0 : session) (p0 : pcb) (q : list Z) (s : session) : Prop := {
  rl_f : exists w g, ss_out s = ss_out s0 ++ w /\ ss_got s = ss_got s0 ++ g /\
    concat (ss_queue s0) ++ g = w ++ concat (ss_queue s);
  rl_queue : Forall (.≠ []) (ss_queue s) /\ Z.of_nat (length (concat (ss_queue s))) <= TCP_WND;
  rl_shut : ss_shut s = true -> ss_queue s = [] /\ ss_eof s = true;
  rl_time : 0 <= s5_timeout (ss_base s);
  rl_ring : exists r u, ss_buffer s = Some r /\ r_max r = size /\ ring_rep r u q /\
    forall p, ss_pcb s = Some p -> exists h, handed s0 p0 q u h s p
}.

(** ** Queues of packet buffers *)

Lemma free_header_ok p n :
  Forall (.≠ []) p -> 0 <= n <= Z.of_nat (length (concat p)) -> n < 65536 ->
  concat (free_header p n) = drop (Z.to_nat n) (concat p) /\ Forall (.≠ []) (free_header p n).
Proof.
  intros Hp. revert n. induction Hp as [|b p Hb Hp IH]; intros n Hn Hlt; cbn [free_header concat]; [by rewrite drop_nil|].
  cbn [concat] in Hn. rewrite length_app in Hn.
  destruct (Z.eqb_spec n 0) as [->|]; [split; [done|by constructor]|].
  destruct (Z.leb_spec (Z.of_nat (length b)) n).
  - rewrite u16_small by lia. destruct (IH (n - Z.of_nat (length b))) as [-> ?]; [lia..|]. split; [|done].
    rewrite drop_app_ge by lia. f_equal. lia.
  - split; [cbn [concat]; rewrite drop_app_le by lia; done|]. constructor; [|done].
    intros H0. apply (f_equal length) in H0. rewrite length_drop in H0. simpl in H0. lia.
Qed.

Lemma concat_take_prefix (q : list (list Z)) n : concat (take n q) `prefix_of` concat q.
Proof. rewrite <-(take_drop n q) at 2. rewrite concat_app. by apply prefix_app_r. Qed.

(** ** Towards the server *)

(** A socket that takes something or makes the session wait, and one that gives
    something or makes it wait until the end of the stream. *)
Definition tx_calm (evs : list tx_event) : Prop :=
  Forall (fun e => match e with TxSome k => 0 < k | TxAgain | TxTimeout => True | TxErr => False end) evs.
Definition rx_calm (evs : list rx_event) : Prop :=
  Forall (fun e => match e with RxData bs => bs <> [] | RxAgain | RxTimeout => True | _ => False end) evs.

Lemma writev_calm bs evs n again evs' :
  bs <> [] -> writev bs evs = (n, again, evs') -> tx_calm evs -> tx_calm evs' /\ (n <= 0 -> n < 0 /\ again = true).
Proof.
  intros Hne Hw Hc. assert (0 < length bs)%nat by (destruct bs; simpl; [done|lia]).
  destruct Hc as [|e evs He Hc]; simpl in Hw; [injection Hw as <- <- <-; split; [by constructor|lia]|].
  destruct e; try done; injection Hw as <- <- <-; (split; [done|]); try lia.
Qed.

Lemma readv_calm n evs m bs again evs' :
  0 < n -> readv n evs = (m, bs, again, evs') -> rx_calm evs ->
  rx_calm evs' /\ (m <= 0 -> negb ((m <? 0) && again) = true -> evs' = []).
Proof.
  intros Hn Hr Hc. destruct Hc as [|e evs He Hc]; simpl in Hr; [injection Hr as <- <- <- <-; split; [by constructor|done]|].
  destruct e as [b| | | |]; try done; injection Hr as <- <- <- <-.
  - split; [case_match; [done|by constructor]|]. intros Hm _. destruct b; simpl in *; [done|lia].
  - by split.
  - by split.
Qed.

(** The fields that one direction leaves to the other. *)
Definition same_b (s s' : session) : Prop :=
  ss_rx s' = ss_rx s /\ ss_base s' = ss_base s /\ ss_eof s' = ss_eof s /\ ss_buffer s' = ss_buffer s /\
  (ss_pcb s = None <-> ss_pcb s' = None) /\ (forall p p', ss_pcb s = Some p -> ss_pcb s' = Some p' -> pb_shut p' = pb_shut p /\ pb_sent p' = pb_sent p /\ pb_acked p' = pb_acked p).

Lemma same_b_refl s : same_b s s.
Proof. split_and!; try done. by intros p p' -> [= ->]. Qed.

(** Bytes that go out and leave the queue, with the window opened for them. *)
Lemma relays_out size s0 p0 q s evs w queue' :
  relays size s0 p0 q s -> concat (ss_queue s) = w ++ concat queue' -> Forall (.≠ []) queue' -> w <> [] ->
  let s1 := up_queue queue' (up_stx evs w s) in
  relays size s0 p0 q (match ss_pcb s with Some p => up_pcb (Some (tcp_recved (Z.of_nat (length w)) p)) s1 | None => s1 end).
Proof.
  intros [(w0 & g & Ho & Hg & Hf) [Hne Hwnd] Hsh Ht (r & u & Hb & Hm & Hr & Hp)] Hc Hne' Hw s1.
  assert (Z.of_nat (length w) < 65536 /\ Z.of_nat (length (concat queue')) <= TCP_WND) as [Hlw Hlq].
  { apply (f_equal length) in Hc. rewrite length_app in Hc. unfold TCP_WND in *. lia. }
  assert (ss_shut s <> true) as Hns by (intros Hs; destruct (Hsh Hs) as [E _]; rewrite E in Hc; by destruct w).
  assert (concat (ss_queue s0) ++ g = (w0 ++ w) ++ concat queue') as Hf' by (by rewrite Hf, Hc, app_assoc).
  destruct (ss_pcb s) as [p|] eqn:Ep; (split; simpl; try done; [exists (w0 ++ w), g; by rewrite Ho, app_assoc|exists r, u; split_and!; try done]).
  - intros p' [= <-]. destruct (Hp p eq_refl) as (h & [H1 H2 H3 H4 H5 H6 H7]). exists h. split; simpl; try done.
    rewrite length_app, u16_small by lia. lia.
  - intros p'. simpl. congruence.
Qed.

(** A change of what the socket will accept. *)
Lemma relays_tx size s0 p0 q s evs : relays size s0 p0 q s -> relays size s0 p0 q (up_stx evs [] s).
Proof.
  intros [(w & g & Ho & Hf) Hq Hsh Ht (r & u & Hb & Hm & Hr & Hp)]. split; simpl; try done.
  - exists w, g. by rewrite app_nil_r.
  - exists r, u. split_and!; try done. intros p Hpp. destruct (Hp p Hpp) as (h & [H1 H2 H3 H4 H5 H6 H7]). exists h.
    split; simpl; try done. by rewrite app_nil_r.
Qed.

Lemma relays_shut size s0 p0 q s :
  relays size s0 p0 q s -> ss_queue s = [] -> ss_eof s = true -> relays size s0 p0 q (up_shut s).
Proof.
  intros [Hf Hq Hsh Ht (r & u & Hb & Hm & Hr & Hp)] H1 H2. split; simpl; try done. exists r, u. split_and!; try done.
  intros p Hpp. destruct (Hp p Hpp) as [h []]. by exists h.
Qed.

Lemma splice_f_ok size s0 p0 q s :
  relays size s0 p0 q s ->
  exists r s', tcp_splice_f s = Some (r, s') /\ relays size s0 p0 q s' /\ same_b s s' /\ -1 <= r <= 1 /\
    (length (concat (ss_queue s')) <= length (concat (ss_queue s)))%nat /\
    (r = 1 -> (length (concat (ss_queue s')) < length (concat (ss_queue s)))%nat) /\
    (length (ss_tx s') <= length (ss_tx s))%nat /\
    (ss_eof s = true -> r = 0 -> (length (ss_tx s') < length (ss_tx s))%nat) /\
    (tx_calm (ss_tx s) -> tx_calm (ss_tx s') /\ (r = -1 -> ss_shut s' = true)) /\
    (ss_shut s = true -> ss_shut s' = true).
Proof.
  intros Hrl. pose proof (same_b_refl s) as Hsame. unfold tcp_splice_f. erewrite bind_Some by reflexivity. cbv beta.
  destruct (ss_queue s) as [|b queue] eqn:Eq.
  { erewrite bind_Some by reflexivity. cbv beta. destruct (ss_eof s) eqn:Ee.
    - exists (-1), (up_shut s). split; [reflexivity|]. split; [by apply relays_shut|]. split; [exact Hsame|]. simpl. rewrite Eq. split_and!; try done; lia.
    - exists 0, s. split_and!; try done; rewrite ?Eq; lia || congruence. }
  rewrite <-Eq in *. set (bs := concat (take 64 (ss_queue s))) in *.
  destruct (rl_queue _ _ _ _ _ Hrl) as [Hne Hwnd].
  assert (bs <> []) as Hbs.
  { unfold bs. rewrite Eq in Hne |- *. apply Forall_cons in Hne as [Hb _]. simpl. by destruct b. }
  assert (exists tail, concat (ss_queue s) = bs ++ tail) as [tail Htl] by (destruct (concat_take_prefix (ss_queue s) 64) as [k Hk]; by exists k).
  erewrite bind_Some by reflexivity. cbv beta. destruct (writev bs (ss_tx s)) as [[n again] evs] eqn:Ew.
  destruct (writev_ok _ _ _ _ _ Hbs Ew) as (Hn & Hle & _).
  erewrite bind_Some by reflexivity. cbv beta. destruct (Z.leb_spec n 0) as [Hn0|Hn0].
  - assert (take (Z.to_nat n) bs = []) as -> by (by replace (Z.to_nat n) with 0%nat by lia).
    eexists _, _. split; [reflexivity|]. split; [by apply relays_tx|]. split; [exact Hsame|].
    destruct (writev_ok _ _ _ _ _ Hbs Ew) as (_ & _ & Hcons). specialize (Hcons Hn0).
    split; [case_match; lia|]. simpl. split; [done|]. split; [case_match; lia|]. split; [done|].
    split; [intros _; destruct (Z.ltb_spec n 0), again; simpl; try done; intros _; by apply Hcons|].
    split; [|done]. intros Hc. destruct (writev_calm _ _ _ _ _ Hbs Ew Hc) as [? Hw]. split; [done|]. by destruct (Hw Hn0) as [->%Z.ltb_lt ->].
  - destruct (free_header_ok (ss_queue s) n Hne) as [Hfh Hne']; [rewrite Htl, length_app; lia|rewrite Htl, length_app in Hwnd; unfold TCP_WND in *; lia|].
    assert (Z.of_nat (length (take (Z.to_nat n) bs)) = n) as Hlen by (rewrite length_take; lia).
    assert (pbuf_free_header (ss_queue s) n = free_header (ss_queue s) n) as Efh.
    { unfold pbuf_free_header. rewrite u16_small; [done|]. rewrite Htl, length_app in Hwnd. unfold TCP_WND in *. lia. }
    assert (concat (ss_queue s) = take (Z.to_nat n) bs ++ concat (free_header (ss_queue s) n)) as Hc.
    { rewrite Hfh, Htl. rewrite drop_app_le by lia. by rewrite app_assoc, take_drop. }
    assert (take (Z.to_nat n) bs <> []) as Hw0 by (intros H0; rewrite H0 in Hlen; simpl in Hlen; lia).
    pose proof (relays_out size s0 p0 q s evs _ _ Hrl Hc Hne' Hw0) as Hrl'. cbv zeta in Hrl'. rewrite Hlen in Hrl'.
    assert (length (concat (free_header (ss_queue s) n)) < length (concat (ss_queue s)))%nat as Hlt.
    { rewrite Hfh, length_drop, Htl, length_app. assert (0 < length bs)%nat by lia. lia. }
    erewrite bind_Some by reflexivity. rewrite Efh. erewrite bind_Some by reflexivity. cbv beta.
    replace (ss_pcb (up_queue _ _)) with (ss_pcb s) by done.
    assert (tx_calm (ss_tx s) -> tx_calm evs /\ (1 = -1 -> ss_shut s = true)) as Hcalm by (intros Hca; split; [by destruct (writev_calm _ _ _ _ _ Hbs Ew Hca)|done]).
    destruct (ss_pcb s) as [p|] eqn:Ep; (eexists 1, _; split; [reflexivity|]; split; [exact Hrl'|]; split;
      [|split; [lia|]; simpl; split_and!; try done; lia]); split_and!; simpl; try done; try congruence; rewrite Ep; try done.
    intros p1 p1' [= <-] [= <-]. done.
Qed.

(** ** Towards the application *)

Lemma iov_gather_cons data v iov : iov_gather data (v :: iov) = iov_gather data [v] ++ iov_gather data iov.
Proof. unfold iov_gather, iov_positions. simpl. by rewrite app_nil_r, map_app. Qed.

Lemma iov_gather_one data v : length (iov_gather data [v]) = Z.to_nat v.2.
Proof. unfold iov_gather, iov_positions. simpl. by rewrite app_nil_r, !length_map, length_seq. Qed.

Lemma ok_hd l : Forall (fun e => e = ERR_OK) l -> hd ERR_OK l = ERR_OK /\ Forall (fun e => e = ERR_OK) (tl l).
Proof. by intros [|x l' -> Hl]. Qed.

(** Of two vectors all is taken when nothing is refused, and otherwise all but one piece. *)
Lemma write_vectors_ok data iov p :
  (length iov <= 2)%nat -> Forall (fun v => 0 < v.2 < 65536) iov ->
  exists err res x, write_vectors data iov ERR_OK 0 p = (err, iov_len iov, Pcb res (pb_sent p ++ x) (pb_acked p) (pb_recved p) (pb_shut p)) /\
    one_gap (iov_gather data iov) x /\ (err = ERR_OK -> x = iov_gather data iov) /\
    (takes_all p -> err = ERR_OK /\ Forall (fun e => e = ERR_OK) res).
Proof.
  assert (forall v, 0 < v.2 < 65536 -> take (Z.to_nat (u16 (Z.of_nat (length (iov_gather data [v]))))) (iov_gather data [v]) = iov_gather data [v]) as Hall.
  { intros v Hv. rewrite iov_gather_one, Z2Nat.id, u16_small by lia. apply take_ge. rewrite iov_gather_one. lia. }
  assert (forall a b : list Z, one_gap (a ++ b) a /\ one_gap (a ++ b) b) as Hgap.
  { intros a b. split; [exists a, b, []; by rewrite !app_nil_r|by exists [], a, b]. }
  destruct p as [res sent acked recved sh]. unfold takes_all. destruct iov as [|v1 [|v2 [|]]]; intros Hl Hv; try (simpl in Hl; lia).
  { exists ERR_OK, res, []. cbn. rewrite app_nil_r. split_and!; try done. apply one_gap_refl. }
  all: apply Forall_cons in Hv as [H1 Hv]; cbn [write_vectors]; unfold tcp_write; cbn [pb_res pb_sent pb_acked pb_recved pb_shut];
    rewrite (Hall v1 H1); set (e1 := hd ERR_OK res).
  - exists (Z.lor ERR_OK e1), (tl res), (if e1 =? ERR_OK then iov_gather data [v1] else []). rewrite Z.lor_0_l. split_and!.
    + simpl. rewrite Z.add_0_r. by destruct (e1 =? ERR_OK); rewrite ?app_nil_r.
    + destruct (e1 =? ERR_OK); [apply one_gap_refl|]. exists [], (iov_gather data [v1]), []. by rewrite app_nil_r.
    + by intros ->.
    + intros Ha. by destruct (ok_hd _ Ha).
  - apply Forall_cons in Hv as [H2 _]. rewrite (Hall v2 H2). set (e2 := hd ERR_OK (tl res)).
    exists (Z.lor (Z.lor ERR_OK e1) e2), (tl (tl res)), ((if e1 =? ERR_OK then iov_gather data [v1] else []) ++ (if e2 =? ERR_OK then iov_gather data [v2] else [])).
    rewrite (iov_gather_cons data v1 [v2]), Z.lor_0_l. split_and!.
    + simpl. f_equal; [f_equal; lia|]. f_equal. by destruct (e1 =? ERR_OK), (e2 =? ERR_OK); rewrite ?app_nil_r, <-?app_assoc.
    + destruct (e1 =? ERR_OK), (e2 =? ERR_OK); rewrite ?app_nil_r; [apply one_gap_refl|apply Hgap|apply Hgap|].
      exists [], (iov_gather data [v1] ++ iov_gather data [v2]), []. by rewrite app_nil_r.
    + intros E. apply Z.lor_eq_0_iff in E as [-> ->]. done.
    + intros Ha. destruct (ok_hd _ Ha) as [E1 Ha1]. destruct (ok_hd _ Ha1) as [E2 Ha2]. unfold e1, e2. by rewrite E1, E2.
Qed.

(** The fields that the other direction leaves alone. *)
Definition same_f (s s' : session) : Prop :=
  ss_queue s' = ss_queue s /\ ss_base s' = ss_base s /\ ss_eof s' = ss_eof s /\ ss_got s' = ss_got s /\
  ss_out s' = ss_out s /\ ss_shut s' = ss_shut s /\ ss_tx s' = ss_tx s /\ (ss_pcb s = None <-> ss_pcb s' = None).

(** The direction goes on, with [q] read and not offered: its end was not passed on, and the connection
    took all it was offered. *)
Definition going (s0 : session) (p0 : pcb) (q : list Z) (s : session) : Prop :=
  forall p, ss_pcb s = Some p -> pb_shut p = false /\ pb_sent p ++ q ++ rx_bytes (ss_rx s) = pb_sent p0 ++ rx_bytes (ss_rx s0).

Lemma going_all s0 p0 q u h s p : going s0 p0 q s -> ss_pcb s = Some p -> handed s0 p0 q u h s p -> pb_shut p = false /\ h = pb_sent p.
Proof. intros Hg Hp Hh. destruct (Hg p Hp) as [Hs E]. split; [done|]. rewrite <-(hd_all _ _ _ _ _ _ _ Hh) in E. by apply app_inv_tail in E. Qed.

Lemma read_ok size s0 p0 q s :
  relays size s0 p0 q s -> going s0 p0 q s ->
  exists r s' q', tcp_read s = Some (r, s') /\ relays size s0 p0 q' s' /\ same_f s s' /\ going s0 p0 q' s' /\ -1 <= r <= 1 /\
    (length (rx_bytes (ss_rx s')) <= length (rx_bytes (ss_rx s)))%nat /\ (length q <= length q')%nat /\
    (q = [] -> q' <> [] -> (length (rx_bytes (ss_rx s')) < length (rx_bytes (ss_rx s)))%nat) /\ (r = 1 -> q' <> []) /\
    (length (ss_rx s') <= length (ss_rx s))%nat /\
    (forall b, ss_buffer s = Some b -> r_use b < r_max b -> r = 0 -> q' = q /\ (length (ss_rx s') < length (ss_rx s))%nat) /\
    (rx_calm (ss_rx s) -> rx_calm (ss_rx s') /\ (r = -1 -> q' = q /\ ss_rx s' = [])).
Proof.
  intros Hrl Hun. pose proof Hrl as [Hf Hq Hsh Ht (r & u & Hb & Hm & Hr & Hp)].
  unfold tcp_read, deref_ring. rewrite bind_assoc. erewrite bind_Some by (unfold gets; rewrite Hb; reflexivity).
  erewrite bind_Some by reflexivity. cbv beta.
  pose proof (@bf_writing_ok ring ring_fifo r u q Hr) as (Hl & Hge & Hv). simpl in Hl, Hge, Hv.
  destruct (hev_ring_buffer_writing r) as [|v iov] eqn:Ew.
  { exists 0, s, q. split_and!; try done. intros b Hb2. assert (b = r) as -> by congruence. simpl in Hl. destruct (rr_use _ _ _ Hr). lia. }
  rewrite <-Ew in *.
  assert (0 < iov_len (hev_ring_buffer_writing r)) as Hpos by (eapply iov_len_pos; [exact Hv|by rewrite Ew]).
  erewrite bind_Some by reflexivity. cbv beta.
  destruct (readv (iov_len (hev_ring_buffer_writing r)) (ss_rx s)) as [[[n bs] again] evs] eqn:Er.
  destruct (readv_ok _ _ _ _ _ _ Hpos Er) as (Hbl & Hby & Hs). pose proof (readv_calm _ _ _ _ _ _ Hpos Er) as Hca.
  erewrite bind_Some by reflexivity. cbv beta.
  assert (going s0 p0 (q ++ bs) (up_srx evs s)) as Hun'.
  { intros p Hpp. destruct (Hun p Hpp) as [Hs0 E]. split; [done|]. simpl. by rewrite <-E, Hby, <-!app_assoc. }
  assert (forall p, ss_pcb s = Some p -> exists h, handed s0 p0 (q ++ bs) u h (up_srx evs s) p) as Hhd.
  { intros p Hpp. destruct (Hp p Hpp) as (h & [H1 H2 H3 H4 H5 H6 H7]). exists h. split; simpl; try done.
    - by rewrite <-H1, Hby, <-!app_assoc.
    - destruct (Hun p Hpp). congruence. }
  destruct (Z.leb_spec n 0) as [Hn0|Hn0].
  - rewrite (proj2 (Z.ltb_ge 0 n)) in Hs by lia. destruct Hs as (-> & Hlt & Hle). simpl in Hby.
    rewrite app_nil_r in Hun', Hhd.
    eexists _, (up_srx evs s), q. split; [reflexivity|]. split; [split; try done; by exists r, u|].
    split; [by split_and!|]. split; [done|]. split; [case_match; lia|]. simpl. rewrite Hby. split_and!; try done; [case_match; lia|..].
    + intros _ _ _. destruct (Z.ltb_spec n 0), again; simpl; try done. intros _. split; [done|]. by apply Hlt.
    + intros Hc. destruct (Hca Hc) as [? Hend]. split; [done|]. intros Hm1. split; [done|]. apply Hend; [done|].
      by destruct ((n <? 0) && again).
  - rewrite (proj2 (Z.ltb_lt 0 n)) in Hs by lia. destruct Hs as (-> & Hle).
    erewrite bind_Some by reflexivity. cbv beta.
    destruct (@bf_write_finish_ok ring ring_fifo r u q bs Hr Hbl) as [Hr' Hm']. simpl in Hr', Hm'.
    assert (0 < length bs)%nat by lia.
    eexists 1, _, (q ++ bs). split; [reflexivity|]. split.
    { split; try done. eexists _, u. split; [reflexivity|]. split; [exact Hm|]. split; [exact Hr'|].
      intros p Hpp. destruct (Hhd p Hpp) as [h []]. by exists h. }
    simpl. rewrite Hby, !length_app. split_and!; try done; try lia.
    + by destruct q, bs.
    + intros Hc. split; [by apply Hca|done].
Qed.

Lemma reading_two r : (length (hev_ring_buffer_reading r) <= 2)%nat.
Proof. unfold hev_ring_buffer_reading. repeat case_match; simpl; lia. Qed.

(** What was read is offered.  When the connection refuses a part the direction ends. *)
Lemma handover_ok size s0 p0 q s res :
  relays size s0 p0 q s -> going s0 p0 q s -> size <= TCP_WND -> -1 <= res <= 1 ->
  exists r s', tcp_handover res s = Some (r, s') /\ same_f s s' /\ ss_rx s' = ss_rx s /\ -1 <= r <= 1 /\
    match ss_pcb s with
    | None => r = -1 /\ s' = s
    | Some p => relays size s0 p0 [] s' /\
        (q = [] -> r = res) /\ (q <> [] -> r = 1 \/ r = -1 /\ ~ takes_all p0) /\ (0 <= r -> going s0 p0 [] s') /\
        (r < 0 -> takes_all p0 -> exists p', ss_pcb s' = Some p' /\ pb_shut p' = true)
    end.
Proof.
  intros Hrl Hun Hsize Hres. pose proof Hrl as [Hf Hq Hsh Ht (r & u & Hb & Hm & Hr & Hp)].
  unfold tcp_handover. erewrite bind_Some by reflexivity. cbv beta.
  destruct (ss_pcb s) as [p|] eqn:Ep; [|by exists (-1), s; split_and!].
  destruct (Hp p eq_refl) as [h Hh]. destruct (going_all _ _ _ _ _ _ _ Hun Ep Hh) as [Hns ->]. destruct (Hun p Ep) as [_ Hall].
  unfold deref_ring. rewrite bind_assoc.
  erewrite bind_Some by (unfold gets; rewrite Hb; reflexivity). erewrite bind_Some by reflexivity. cbv beta.
  destruct (@bf_reading_ok ring ring_fifo r u q Hr) as (Hg & Hl & Hv). simpl in Hg, Hl, Hv.
  pose proof (reading_two r) as Htwo. destruct (hev_ring_buffer_reading r) as [|v iov] eqn:Ei.
  - assert (q = []) as -> by (by rewrite <-Hg).
    destruct (Z.ltb_spec res 0) as [Hneg|Hnn].
    + erewrite bind_Some by reflexivity. exists res, (up_pcb (Some (tcp_shutdown p)) s). split; [reflexivity|].
      split; [by split_and!; simpl; try done; rewrite Ep|]. split_and!; try done; try lia; [|by eexists].
      split; simpl; try done. exists r, u. split_and!; try done. intros p' [= <-].
      exists (pb_sent p). destruct Hh as [H1 H2 H3 H4 H5 H6 H7]. by split.
    + exists res, s. split; [reflexivity|]. split; [by split_and!|]. by split_and!; try done; lia.
  - rewrite <-Ei in *. assert (Hq0 : q <> []).
    { intros ->. simpl in Hl. assert (0 < iov_len (hev_ring_buffer_reading r)); [|lia]. eapply iov_len_pos; [exact Hv|by rewrite Ei]. }
    destruct (write_vectors_ok (r_data r) (hev_ring_buffer_reading r) p Htwo) as (err & rs & x & Ewv & Hgap & Hfull & Hacc).
    { eapply Forall_impl; [exact Hv|]. intros v' (? & ? & ?). simpl. split; [done|].
      assert (Z.of_nat (length (r_data r)) = size) by (rewrite (rr_len _ _ _ Hr); pose proof (rr_max _ _ _ Hr); lia).
      unfold TCP_WND in *. lia. }
    rewrite Ewv. rewrite Hg in Hgap, Hfull. rewrite Hl. erewrite bind_Some by reflexivity. cbv beta.
    unfold tcp_output. cbn [pb_res pb_sent pb_acked pb_recved pb_shut].
    erewrite bind_Some by reflexivity. set (e := hd ERR_OK rs).
    destruct (@bf_read_finish_ok ring ring_fifo r u q (length q) Hr) as [Hr' Hm']; [done|]. simpl in Hr', Hm'. rewrite firstn_all, skipn_all in Hr'.
    destruct Hh as [H1 H2 H3 H4 H5 H6 H7].
    assert (takes_all p0 -> Z.lor err e = ERR_OK /\ Forall (fun e => e = ERR_OK) (tl rs)) as Hok.
    { intros Ha. destruct (Hacc (proj1 (H5 Ha))) as [-> Hrs]. unfold e. by destruct (ok_hd _ Hrs) as [-> ?]. }
    assert (Z.lor err e = ERR_OK -> x = q) as Hx by (intros E; apply Hfull; by apply Z.lor_eq_0_iff in E as [-> _]).
    eexists (if negb (Z.lor err e =? ERR_OK) then -1 else 1), _. split; [reflexivity|]. split; [by split_and!; simpl; try done; rewrite Ep|].
    split; [done|]. split; [case_match; lia|]. split; [|split; [done|split; [|split]]].
    + split; simpl; try done. eexists _, (u ++ q). split_and!; [reflexivity|by rewrite <-Hm|exact Hr'|]. intros p' [= <-]. exists (pb_sent p ++ q).
      split; simpl; try done.
      * by rewrite <-app_assoc.
      * by apply one_gap_app.
      * rewrite length_app. lia.
      * by rewrite H4, drop_app_le.
      * intros Ha. destruct (Hok Ha) as [E ?]. by rewrite (Hx E).
    + intros _. destruct (Z.eqb_spec (Z.lor err e) ERR_OK) as [E|E]; [by left|]. right. split; [done|]. intros Ha. by destruct (Hok Ha).
    + destruct (Z.eqb_spec (Z.lor err e) ERR_OK) as [E|E]; simpl; [|lia]. intros _ p' [= <-]. simpl. split; [done|].
      by rewrite (Hx E), <-app_assoc.
    + intros Hneg Ha. destruct (Hok Ha) as [E _]. rewrite E in Hneg. simpl in Hneg. lia.
Qed.

(** Between two turns nothing is read and not handed over. *)
Definition settled (size : Z) (s0 : session) (p0 : pcb) (s : session) : Prop :=
  exists q, relays size s0 p0 q s /\ (ss_pcb s <> None -> q = []).

Definition rx_left (s : session) : nat := length (rx_bytes (ss_rx s)).
Definition queued (s : session) : nat := length (concat (ss_queue s)).

(** The ring has room. *)
Definition roomy (s : session) : Prop := forall b, ss_buffer s = Some b -> r_use b < r_max b.

(** The end of the socket's stream was passed on. *)
Definition told (s : session) : Prop := ss_rx s = [] /\ exists p, ss_pcb s = Some p /\ pb_shut p = true.

Lemma splice_b_ok size s0 p0 s :
  settled size s0 p0 s -> going s0 p0 [] s -> size <= TCP_WND ->
  exists r s', tcp_splice_b s = Some (r, s') /\ settled size s0 p0 s' /\ same_f s s' /\ -1 <= r <= 1 /\
    (rx_left s' <= rx_left s)%nat /\ (0 <= r -> going s0 p0 [] s') /\ (r = 1 -> (rx_left s' < rx_left s)%nat) /\
    (length (ss_rx s') <= length (ss_rx s))%nat /\ (roomy s -> r = 0 -> (length (ss_rx s') < length (ss_rx s))%nat) /\
    (takes_all p0 -> rx_calm (ss_rx s) -> rx_calm (ss_rx s') /\ (ss_pcb s <> None -> r = -1 -> told s')).
Proof.
  intros (q & Hrl & Hq) Hun Hsize. assert (ss_pcb s = None \/ q = []) as Hor by (destruct (ss_pcb s); [right; by apply Hq|by left]).
  assert (going s0 p0 q s) as Hun0 by (destruct Hor as [Hn| ->]; [intros p Hp; congruence|done]). clear Hor Hun. rename Hun0 into Hun.
  destruct (read_ok size s0 p0 q s Hrl Hun) as (r1 & s1 & q1 & E1 & Hrl1 & Hs1 & Hun1 & Hr1 & Hle & _ & Hlt & Hq1 & Hlen & Hroom & Hcalm).
  destruct (handover_ok size s0 p0 q1 s1 r1 Hrl1 Hun1 Hsize Hr1) as (r & s2 & E2 & Hs2 & Hrx & Hr & Hm).
  exists r, s2. unfold tcp_splice_b. split; [by rewrite (bind_Some _ _ _ _ _ E1)|].
  assert (same_f s s2) as Hs.
  { destruct Hs1 as (?&?&?&?&?&?&?&?), Hs2 as (?&?&?&?&?&?&?&?). split_and!; try congruence. naive_solver. }
  assert (ss_pcb s <> None -> ss_pcb s1 <> None) as Hpn by (destruct Hs1 as (_&_&_&_&_&_&_&Hn); naive_solver).
  unfold rx_left, told. rewrite Hrx. destruct (ss_pcb s1) as [p|] eqn:Ep.
  - destruct Hm as (Hrl2 & Hemp & Hne & Hun2 & Hsh). split; [by exists []|].
    assert (q = []) as -> by (apply Hq; intros Hn; destruct Hs1 as (_&_&_&_&_&_&_&Hn1); by apply Hn1 in Hn; congruence).
    assert (r = 0 \/ r = -1 /\ takes_all p0 -> q1 = [] /\ r1 = r) as Hback.
    { intros Hor. destruct (decide (q1 = [])) as [->|Hq1n]; [by rewrite Hemp|]. destruct (Hne Hq1n) as [->|[-> Hna]]; destruct Hor as [?|[? ?]]; done. }
    split_and!; try done; try lia.
    + intros ->. destruct (decide (q1 = [])) as [->|Hq1n]; [|by apply Hlt]. by destruct Hq1; [rewrite <-Hemp|].
    + intros Hro ->. destruct (rl_ring _ _ _ _ _ Hrl) as (b & u & Hb & _). by apply (Hroom b Hb (Hro b Hb)), Hback; left.
    + intros Ha Hc. destruct (Hcalm Hc) as [Hc' Hend]. split; [done|]. intros _ ->. split; [apply Hend, Hback; by right|by apply Hsh].
  - destruct Hm as [-> ->]. split; [exists q1; split; [done|congruence]|]. split_and!; try done; try lia.
    intros _ Hc. split; [by apply Hcalm|]. intros Hp. by destruct (Hpn Hp).
Qed.

(** ** The callbacks *)

Definition same_ends (s s' : session) : Prop :=
  ss_rx s' = ss_rx s /\ forall p', ss_pcb s' = Some p' -> exists p, ss_pcb s = Some p /\ pb_shut p' = pb_shut p /\ pb_sent p' = pb_sent p.

Lemma same_ends_going s0 p0 q s s' : same_ends s s' -> going s0 p0 q s -> going s0 p0 q s'.
Proof. intros [Hx H] Hg p' Hp'. destruct (H p' Hp') as (p & Hp & -> & ->). rewrite Hx. by apply Hg. Qed.

Lemma same_ends_trans s1 s2 s3 : same_ends s1 s2 -> same_ends s2 s3 -> same_ends s1 s3.
Proof.
  intros [Hx H] [Hx' H']. split; [congruence|]. intros p3 Hp3. destruct (H' p3 Hp3) as (p2 & Hp2 & -> & ->).
  destruct (H p2 Hp2) as (p1 & Hp1 & -> & ->). by exists p1.
Qed.

Lemma event_keeps size s0 p0 q s e :
  relays size s0 p0 q s -> event_ok s e ->
  exists s', run_event e s = Some (tt, s') /\ relays size s0 p0 q s' /\ same_ends s s' /\ (ss_pcb s' <> None -> ss_pcb s <> None).
Proof.
  intros [(w & g & Ho & Hg & Hf) [Hne Hwnd] Hsh Ht (r & u & Hb & Hm & Hr & Hp)] He.
  unfold event_ok in He. destruct (ss_pcb s) as [p|] eqn:Ep; [|done]. destruct (Hp p eq_refl) as (h & [H1 H2 H3 H4 H5 H6 H7]).
  assert (exists p1, Some p = Some p1 /\ pb_shut p = pb_shut p1 /\ pb_sent p = pb_sent p1) as Hsame by (by exists p).
  destruct e as [bufs| |n|]; cbn [run_event].
  - destruct He as (Heof & Hbufs & Hlen). eexists. split; [reflexivity|]. split; [|by split; [split; [|intros p'; simpl; rewrite Ep; intros [= <-]]|simpl; rewrite Ep]].
    split; simpl; try done.
    + exists w, (g ++ concat bufs). rewrite Ho, Hg, concat_app, !app_assoc, <-Hf, <-!app_assoc. done.
    + split; [by apply Forall_app|done].
    + intros Hs1. destruct (Hsh Hs1) as [_ ?]. congruence.
    + exists r, u. rewrite Ep. split_and!; try done. intros p' [= <-]. exists h. by split.
  - eexists. split; [reflexivity|]. split; [|by split; [split; [|intros p'; simpl; rewrite Ep; intros [= <-]]|simpl; rewrite Ep]].
    split; simpl; try done; [by exists w, g|intros Hs1; by destruct (Hsh Hs1)|].
    exists r, u. rewrite Ep. split_and!; try done. intros p' [= <-]. exists h. by split.
  - destruct He as [Hn Hn16]. pose proof (one_gap_length _ _ H2) as Hlen.
    erewrite bind_Some by reflexivity. unfold tcp_sent_handler, deref_ring, pcb_acked. rewrite Ep, bind_assoc.
    erewrite bind_Some by (unfold gets; cbn [ss_buffer up_pcb]; rewrite Hb; reflexivity).
    erewrite bind_Some by reflexivity. eexists. split; [reflexivity|]. split; [|split; [split; simpl; [done|]|done]].
    + split; simpl; try done; [by exists w, g|].
      eexists _, _. split; [reflexivity|]. split; [unfold hev_ring_buffer_read_release; by case_match|]. split.
      { apply (ring_release_rep r u q n Hr). rewrite H4, length_drop. lia. }
      intros p' [= <-]. exists h. split; simpl; try done. by rewrite H4, drop_drop.
    + intros p' [= <-]. by exists p.
  - eexists. split; [reflexivity|]. split; [|by split; [split|]].
    split; simpl; try done; [by exists w, g|unfold hev_socks5_set_timeout; by case_match|exists r, u; by split_and!].
Qed.

Lemma events_keep size s0 p0 q s es :
  relays size s0 p0 q s -> events_ok s es ->
  exists s', run_events es s = Some (tt, s') /\ relays size s0 p0 q s' /\ same_ends s s' /\ (ss_pcb s' <> None -> ss_pcb s <> None).
Proof.
  revert s. induction es as [|e es IH]; intros s Hrl He; cbn [run_events]; [exists s; split_and!; try done; by split; [|eauto]|].
  destruct He as [He Hes]. destruct (event_keeps _ _ _ _ _ _ Hrl He) as (s1 & E1 & Hrl1 & Hx1 & Hp1).
  destruct (IH s1 Hrl1 (Hes s1 E1)) as (s2 & E2 & Hrl2 & Hx2 & Hp2).
  exists s2. rewrite (bind_Some _ _ _ _ _ E1). split_and!; try done; [by eapply same_ends_trans|auto].
Qed.

Lemma nap_keeps size s0 p0 s type n :
  settled size s0 p0 s -> events_ok s n.1 ->
  exists s', session_yielder type n s = Some (hev_socks5_task_io_yielder type n.2 (ss_base s), s') /\
    settled size s0 p0 s' /\ same_ends s s'.
Proof.
  intros (q & Hrl & Hq) He. destruct (events_keep _ _ _ _ _ _ Hrl He) as (s' & E & Hrl' & Hends & Hp).
  exists s'. unfold session_yielder. erewrite bind_Some by reflexivity. rewrite (bind_Some _ _ _ _ _ E). split; [done|]. split; [|done]. exists q. auto.
Qed.

(** ** The loops *)

(** After [N] sleeps nothing happens any more and every sleep runs out. *)
Definition quiet_after (N : nat) (env : environment) : Prop := forall k s, (N <= k)%nat -> env k s = ([], 0).

Lemma settled_queued size s0 p0 s : settled size s0 p0 s -> (queued s <= Z.to_nat TCP_WND)%nat.
Proof. intros (q & Hrl & _). destruct (rl_queue _ _ _ _ _ Hrl) as [_ H]. unfold queued. lia. Qed.

(** Turns that can follow: each sleep, and after them as many as there are bytes. *)
Definition turns_left (N k : nat) (s : session) : nat :=
  (N - k) + rx_left s + (if decide (N <= k)%nat then queued s else Z.to_nat TCP_WND).

Lemma land_zero a b : -1 <= a <= 0 -> -1 <= b <= 0 -> Z.land a b = 0 <-> a = 0 \/ b = 0.
Proof. intros Ha Hb. assert (a = -1 \/ a = 0) as [->| ->] by lia; assert (b = -1 \/ b = 0) as [->| ->] by lia; vm_compute; split; intros; (tauto || naive_solver). Qed.

Lemma settled_sleep size s0 p0 s type : settled size s0 p0 s -> type = HEV_TASK_WAITIO -> hev_socks5_task_io_yielder type 0 (ss_base s) = -1.
Proof.
  intros (q & Hrl & _) ->. pose proof (rl_time _ _ _ _ _ Hrl). unfold hev_socks5_task_io_yielder.
  by rewrite (proj2 (Z.ltb_ge _ _)) by done.
Qed.

(** All that is left to do without new data from the application. *)
Definition side (s : session) : nat := length (ss_tx s) + rx_left s + length (ss_rx s).
Definition weight (s : session) : nat := queued s + side s.

(** Only waiting, and a connection. *)
Definition calm (s : session) : Prop := tx_calm (ss_tx s) /\ rx_calm (ss_rx s) /\ ss_pcb s <> None.

(** A direction ends only after it passed the end of its stream on. *)
Definition ended (rf rb : Z) (s : session) : Prop := (rf < 0 -> ss_shut s = true) /\ (rb < 0 -> told s).

Lemma half_f_ok size s0 p0 s rf :
  settled size s0 p0 s -> -1 <= rf <= 1 ->
  exists rf' s', (if 0 <=? rf then tcp_splice_f else ret rf) s = Some (rf', s') /\ settled size s0 p0 s' /\
    same_b s s' /\ -1 <= rf' <= 1 /\ (0 <= rf' -> 0 <= rf) /\ (queued s' <= queued s)%nat /\ (length (ss_tx s') <= length (ss_tx s))%nat /\
    (0 < rf' -> 0 <= rf -> (queued s' < queued s)%nat) /\
    (ss_eof s = true -> 0 <= rf' -> 0 <= rf -> (queued s' + length (ss_tx s') < queued s + length (ss_tx s))%nat) /\
    (tx_calm (ss_tx s) -> tx_calm (ss_tx s') /\ ((rf < 0 -> ss_shut s = true) -> rf' < 0 -> ss_shut s' = true)).
Proof.
  intros Hse Hrf. destruct (Z.leb_spec 0 rf) as [Hp|Hn].
  - destruct Hse as (q & Hrl & Hq).
    destruct (splice_f_ok _ _ _ _ _ Hrl) as (r & s' & E & Hrl' & Hsame & Hr & Hle & Hlt & Htx & Heof & Hcalm & Hshut).
    exists r, s'. split; [done|]. split; [exists q; split; [done|]; intros Hn; apply Hq; by destruct Hsame as (_&_&_&_&->&_)|].
    unfold queued. split_and!; try done; try (intros; lia).
    + intros He Hr0 _. destruct (decide (r = 1)); [specialize (Hlt e)|specialize (Heof He)]; lia.
    + intros Hc. destruct (Hcalm Hc) as [? Hs]. split; [done|]. intros _ Hneg. apply Hs. lia.
  - exists rf, s. split; [done|]. split; [done|]. split; [apply same_b_refl|]. split_and!; try done; try lia; auto.
Qed.

Lemma half_b_ok size s0 p0 s rb :
  settled size s0 p0 s -> (0 <= rb -> going s0 p0 [] s) -> size <= TCP_WND -> -1 <= rb <= 1 ->
  exists rb' s', (if 0 <=? rb then tcp_splice_b else ret rb) s = Some (rb', s') /\ settled size s0 p0 s' /\
    same_f s s' /\ -1 <= rb' <= 1 /\ (0 <= rb' -> 0 <= rb) /\ (0 <= rb' -> going s0 p0 [] s') /\
    (rx_left s' <= rx_left s)%nat /\ (length (ss_rx s') <= length (ss_rx s))%nat /\
    (0 < rb' -> 0 <= rb -> (rx_left s' < rx_left s)%nat) /\
    (roomy s -> 0 <= rb' -> 0 <= rb -> (rx_left s' + length (ss_rx s') < rx_left s + length (ss_rx s))%nat) /\
    (takes_all p0 -> rx_calm (ss_rx s) -> rx_calm (ss_rx s') /\ (ss_pcb s <> None -> (rb < 0 -> told s) -> rb' < 0 -> told s')).
Proof.
  intros Hse Hun Hsize Hrb. destruct (Z.leb_spec 0 rb) as [Hp|Hn].
  - destruct (splice_b_ok _ _ _ _ Hse (Hun Hp) Hsize) as (r & s' & E & Hse' & Hsame & Hr & Hle & Hun' & Hlt & Hlen & Hroom & Hcalm).
    exists r, s'. split_and!; try done; try (intros; lia).
    + intros Hro Hr0 _. destruct (decide (r = 1)); [specialize (Hlt e)|specialize (Hroom Hro)]; lia.
    + intros Ha Hc. destruct (Hcalm Ha Hc) as [? Hs]. split; [done|]. intros Hpn _ Hneg. apply Hs; [done|lia].
  - exists rb, s. split_and!; try done; try lia; auto.
Qed.

(** One turn of both directions. *)
Lemma turn_keeps size s0 p0 s rf rb :
  settled size s0 p0 s -> (0 <= rb -> going s0 p0 [] s) -> size <= TCP_WND -> -1 <= rf <= 1 -> -1 <= rb <= 1 ->
  exists rf' rb' s1 s', (if 0 <=? rf then tcp_splice_f else ret rf) s = Some (rf', s1) /\
    (if 0 <=? rb then tcp_splice_b else ret rb) s1 = Some (rb', s') /\
    settled size s0 p0 s' /\ (0 <= rb' -> going s0 p0 [] s') /\ -1 <= rf' <= 1 /\ -1 <= rb' <= 1 /\ ss_eof s' = ss_eof s /\
    (queued s' + rx_left s' <= queued s + rx_left s)%nat /\ (rx_left s' <= rx_left s)%nat /\ (side s' <= side s)%nat /\
    (0 < rf' \/ 0 < rb' -> 0 <= rf \/ 0 <= rb -> (queued s' + rx_left s' < queued s + rx_left s)%nat) /\
    (ss_eof s = true -> roomy s -> 0 <= rf' \/ 0 <= rb' -> (weight s' < weight s)%nat) /\
    (takes_all p0 -> calm s -> calm s' /\ (ended rf rb s -> ended rf' rb' s')).
Proof.
  intros Hse Hun Hsize Hrf Hrb.
  destruct (half_f_ok size s0 p0 s rf Hse Hrf) as (rf' & s1 & E1 & Hse1 & Hsame1 & Hrf' & Hf0 & Hq & Htx & Hlt1 & Hw1 & Hc1).
  destruct Hsame1 as (Hrx1 & Hba1 & Heof1 & Hbuf1 & Hpn1 & Hpp1).
  assert (0 <= rb -> going s0 p0 [] s1) as Hun1.
  { intros Hp p' Hp'. destruct (ss_pcb s) as [p|] eqn:Ep; [|by rewrite (proj1 Hpn1) in Hp'].
    destruct (Hpp1 p p' eq_refl Hp') as (-> & -> & _). rewrite Hrx1. by apply Hun. }
  destruct (half_b_ok size s0 p0 s1 rb Hse1 Hun1 Hsize Hrb) as (rb' & s' & E2 & Hse2 & Hsame2 & Hrb' & Hb0 & Hun2 & Hx & Hlen & Hlt2 & Hw2 & Hc2).
  destruct Hsame2 as (Hqu2 & _ & Heof2 & _ & _ & Hsh2 & Htx2 & Hpn2).
  exists rf', rb', s1, s'. unfold weight, side, queued, rx_left, roomy in *. rewrite Hqu2, Htx2, Hrx1 in *.
  split_and!; try done; try lia; try congruence.
  - intros He Hro Hor. rewrite Hbuf1 in Hw2. specialize (Hw1 He). specialize (Hw2 Hro). lia.
  - intros Ha (Hct & Hcr & Hp). destruct (Hc1 Hct) as [Hct1 Hs1]. destruct (Hc2 Ha Hcr) as [Hcr2 Hs2].
    split; [split_and!; [by rewrite Htx2|done|naive_solver]|]. intros [Hef Heb]. split.
    + intros Hneg. rewrite Hsh2. by apply Hs1.
    + apply Hs2; [naive_solver|]. intros Hneg. destruct (Heb Hneg) as (? & p & Hpp & Hsp). split; [congruence|].
      destruct (ss_pcb s1) as [p1|] eqn:Ep1; [|by rewrite (proj2 Hpn1) in Hpp]. exists p1. split; [done|]. by destruct (Hpp1 p p1 Hpp eq_refl) as (-> & _).
Qed.

Section loops.
Context (size : Z) (s0 : session) (p0 : pcb) (env : environment) (N : nat).
Context (Hsize : size <= TCP_WND) (Hlwip : lwip_ok env) (Hquiet : quiet_after N env).

Lemma splice_loop_ok fuel k s rf rb :
  settled size s0 p0 s -> (0 <= rb -> going s0 p0 [] s) -> -1 <= rf <= 1 -> -1 <= rb <= 1 -> 0 <= rf \/ 0 <= rb ->
  (turns_left N k s < fuel)%nat ->
  exists k' s', tcp_splice_loop fuel env k rf rb s = Some (k', s') /\ settled size s0 p0 s'.
Proof.
  revert k s rf rb. induction fuel as [|fuel IH]; intros k s rf rb Hse Hun Hrf Hrb Hor Hfuel; [lia|].
  destruct (turn_keeps size s0 p0 s rf rb Hse Hun Hsize Hrf Hrb) as (rf' & rb' & s1 & s2 & E1 & E2 & Hse2 & Hun2 & Hrf' & Hrb' & _ & Hq & Hx & _ & Hlt & _).
  cbn [tcp_splice_loop]. rewrite (bind_Some _ _ _ _ _ E1), (bind_Some _ _ _ _ _ E2). cbv zeta.
  pose proof (settled_queued _ _ _ _ Hse2) as Hqb.
  assert (forall type, 0 <= rf' \/ 0 <= rb' -> (type = HEV_TASK_YIELD -> 0 < rf' \/ 0 < rb') ->
    exists k' s', bind (gets (env k)) (fun n => bind (session_yielder type n) (fun y =>
      if y <? 0 then ret (S k) else tcp_splice_loop fuel env (S k) rf' rb')) s2 = Some (k', s') /\ settled size s0 p0 s') as Hnext.
  { intros type Hor' Hty. erewrite bind_Some by reflexivity.
    destruct (nap_keeps size s0 p0 s2 type (env k s2) Hse2 (Hlwip k s2)) as (s3 & E3 & Hse3 & Hends3). pose proof (proj1 Hends3) as Hx3.
    rewrite (bind_Some _ _ _ _ _ E3). destruct (Z.ltb_spec (hev_socks5_task_io_yielder type (env k s2).2 (ss_base s2)) 0) as [Hy|Hy].
    { by eexists _, _. }
    apply IH; try done; [intros; eapply same_ends_going; eauto|]. pose proof (settled_queued _ _ _ _ Hse3) as Hq3.
    unfold turns_left, rx_left in *. rewrite Hx3. destruct (decide (N <= k)%nat) as [HN|HN].
    - rewrite (decide_True (P := (N <= S k)%nat)) by lia.
      assert (s3 = s2) as ->.
      { unfold session_yielder in E3. rewrite (Hquiet k s2 HN) in E3. by injection E3. }
      destruct type; [|rewrite (Hquiet k s2 HN) in Hy; cbn [snd] in Hy; by rewrite (settled_sleep _ _ _ _ _ Hse2 eq_refl) in Hy].
      specialize (Hlt (Hty eq_refl) Hor). lia.
    - destruct (decide (N <= S k)%nat); lia. }
  destruct (Z.ltb_spec 0 rf'), (Z.ltb_spec 0 rb'); cbn [orb]; try (apply Hnext; lia).
  destruct (Z.eqb_spec (Z.land rf' rb') 0) as [Hz|Hz].
  - apply land_zero in Hz; [|lia..]. apply Hnext; [lia|done].
  - by eexists _, _.
Qed.

Lemma drain_loop_ok fuel k s :
  settled size s0 p0 s -> (N - k < fuel)%nat ->
  exists s', tcp_drain_loop fuel env k s = Some (tt, s') /\ settled size s0 p0 s'.
Proof.
  revert k s. induction fuel as [|fuel IH]; intros k s Hse Hfuel; [lia|]. pose proof Hse as (q & Hrl & _).
  destruct (rl_ring _ _ _ _ _ Hrl) as (r & u & Hb & _).
  cbn [tcp_drain_loop]. erewrite bind_Some by reflexivity. destruct (ss_pcb s) as [p|]; [|by exists s].
  unfold deref_ring. rewrite bind_assoc. erewrite bind_Some by (unfold gets; rewrite Hb; reflexivity).
  erewrite bind_Some by reflexivity. destruct (_ =? 0); [by exists s|]. erewrite bind_Some by reflexivity.
  destruct (nap_keeps size s0 p0 s HEV_TASK_WAITIO (env k s) Hse (Hlwip k s)) as (s1 & E1 & Hse1 & _).
  rewrite (bind_Some _ _ _ _ _ E1). destruct (Z.ltb_spec (hev_socks5_task_io_yielder HEV_TASK_WAITIO (env k s).2 (ss_base s)) 0) as [Hy|Hy].
  { by exists s1. }
  destruct (decide (N <= k)%nat) as [HN|HN]; [|apply IH; [done|lia]].
  rewrite (Hquiet k s HN) in Hy. cbn [snd] in Hy. by rewrite (settled_sleep _ _ _ _ _ Hse eq_refl) in Hy.
Qed.
End loops.
