(* ===== verification/SessionTcpLive.v ===== *)
(** * When a TCP session gets everything through

    What a session reaches when the socket only makes it wait and the application
    reads, answers and ends its stream. *)

From S2P Require Import Prelude Buffers TaskSocket Socks5Client Socks5Udp SpliceLoop SessionTcp SessionTcpInv.

(** ** An attentive application *)

(** The sleeps of the session never run out, the connection does not fail, the
    application ends its stream within [N] sleeps, and in each sleep from then on it
    has acknowledged what it was sent. *)
Record attentive (N : nat) (env : environment) : Prop := {
  at_time k s : 0 < (env k s).2;
  at_err k s : EvErr ∉ (env k s).1;
  at_fin : exists k, (k < N)%nat /\ forall s, ss_pcb s <> None -> EvFin ∈ (env k s).1;
  at_ack k s p : (N <= k)%nat -> ss_pcb s = Some p -> (pb_acked p < length (pb_sent p))%nat ->
    Z.of_nat (length (pb_sent p) - pb_acked p) < 65536 -> EvAcked (length (pb_sent p) - pb_acked p) ∈ (env k s).1
}.

Lemma event_effect e s s' p :
  run_event e s = Some (tt, s') -> e <> EvErr -> ss_pcb s = Some p ->
  exists p', ss_pcb s' = Some p' /\ pb_sent p' = pb_sent p /\ pb_shut p' = pb_shut p /\
    pb_acked p' = (pb_acked p + match e with EvAcked n => n | _ => 0 end)%nat /\
    ss_eof s' = (ss_eof s || match e with EvFin => true | _ => false end) /\
    ss_tx s' = ss_tx s /\ ss_rx s' = ss_rx s /\ ss_shut s' = ss_shut s /\
    (ss_eof s = true -> event_ok s e -> ss_queue s' = ss_queue s).
Proof.
  intros E He Hp. unfold event_ok. rewrite Hp. destruct e as [bufs| |n|]; try done; cbn [run_event] in E.
  - injection E as <-. exists p. rewrite orb_false_r, Nat.add_0_r. split_and!; try done. intros Ht (Hf & _). congruence.
  - injection E as <-. exists p. rewrite orb_true_r, Nat.add_0_r. by split_and!.
  - unfold pcb_acked in E. erewrite bind_Some in E by reflexivity. rewrite Hp in E.
    apply bind_Some_inv in E as (r & s1 & E1 & E). unfold deref_ring in E1. apply bind_Some_inv in E1 as (b & s2 & E2 & E1).
    injection E2 as <- <-. unfold lift_opt in E1. destruct (ss_buffer _); [|done]. injection E1 as <- <-. injection E as <-.
    eexists. split; [reflexivity|]. simpl. by rewrite orb_false_r.
Qed.

Lemma events_effect es s s' p :
  run_events es s = Some (tt, s') -> EvErr ∉ es -> ss_pcb s = Some p ->
  exists p', ss_pcb s' = Some p' /\ pb_sent p' = pb_sent p /\ pb_shut p' = pb_shut p /\ (pb_acked p <= pb_acked p')%nat /\
    (forall n, EvAcked n ∈ es -> (pb_acked p + n <= pb_acked p')%nat) /\
    (ss_eof s = true \/ EvFin ∈ es -> ss_eof s' = true) /\
    ss_tx s' = ss_tx s /\ ss_rx s' = ss_rx s /\ ss_shut s' = ss_shut s /\
    (ss_eof s = true -> events_ok s es -> ss_queue s' = ss_queue s).
Proof.
  revert s p. induction es as [|e es IH]; intros s p E He Hp; cbn [run_events] in E.
  { injection E as <-. exists p. split_and!; try done; intros; [by rewrite elem_of_nil in *|]. destruct H as [|H]; [done|by rewrite elem_of_nil in H]. }
  apply not_elem_of_cons in He as [He Hes]. apply bind_Some_inv in E as ([] & s1 & E1 & E).
  destruct (event_effect e s s1 p E1 (not_eq_sym He) Hp) as (p1 & Hp1 & Hse & Hsh & Hack & Heof & Htx & Hrx & Hss & Hqu).
  destruct (IH s1 p1 E Hes Hp1) as (p' & Hp' & Hse' & Hsh' & Hack' & Hall & Heof' & Htx' & Hrx' & Hss' & Hqu').
  exists p'. split_and!; try done; try congruence; try lia.
  - intros n [<-|Hin]%elem_of_cons; [lia|]. specialize (Hall n Hin). lia.
  - intros Hor. apply Heof'. rewrite Heof. destruct Hor as [->|[<-|Hin]%elem_of_cons]; [by left|left; apply orb_true_r|by right].
  - intros Ht [Hok Hoks]. rewrite Hqu'; [by apply Hqu| |by apply Hoks]. by rewrite Heof, Ht.
Qed.

(** Everything was acknowledged. *)
Definition acked (s : session) : Prop := forall p, ss_pcb s = Some p -> pb_acked p = length (pb_sent p).

(** With a connection that takes everything, the ring keeps what was sent and is not acknowledged. *)
Lemma settled_ring size s0 p0 s p : takes_all p0 -> settled size s0 p0 s -> ss_pcb s = Some p ->
  (pb_acked p <= length (pb_sent p))%nat /\
  exists r, ss_buffer s = Some r /\ r_max r = size /\ ring_rep r (drop (pb_acked p) (pb_sent p)) [].
Proof.
  intros Ha (q & Hrl & Hq) Hp. rewrite (Hq ltac:(congruence)) in Hrl. destruct (rl_ring _ _ _ _ _ Hrl) as (r & u & Hb & Hm & Hr & Hu).
  destruct (Hu p Hp) as (h & [_ _ H3 H4 H5 _ _]). destruct (H5 Ha) as [_ E]. split; [done|]. exists r. by rewrite E, <-H4.
Qed.

Lemma acked_roomy size s0 p0 s : takes_all p0 -> settled size s0 p0 s -> ss_pcb s <> None -> acked s -> roomy s /\ forall b, ss_buffer s = Some b -> r_use b = 0.
Proof.
  intros Hacc Hse Hn Ha. destruct (ss_pcb s) as [p|] eqn:Ep; [|done].
  destruct (settled_ring _ _ _ _ _ Hacc Hse Ep) as (_ & r & Hb & _ & Hr). rewrite (Ha p Ep), skipn_all in Hr.
  destruct Hr as [[Hm _] _ _ _ _ [Hus _] _]. simpl in Hus. split; intros b Hb'; assert (b = r) as -> by congruence; lia.
Qed.

Section attentive.
Context (size : Z) (s0 : session) (p0 : pcb) (env : environment) (N : nat).
Context (Hsize : size <= TCP_WND) (Hlwip : lwip_ok env) (Hat : attentive N env) (Hacc : takes_all p0).

(** A sleep: nothing ends, and late enough all is acknowledged. *)
Lemma nap_attentive s type k :
  settled size s0 p0 s -> calm s ->
  exists s', session_yielder type (env k s) s = Some (0, s') /\ settled size s0 p0 s' /\ same_ends s s' /\ calm s' /\
    (forall rf rb, ended rf rb s -> ended rf rb s') /\ side s' = side s /\
    (ss_eof s = true -> ss_eof s' = true /\ queued s' = queued s) /\
    ((forall s, ss_pcb s <> None -> EvFin ∈ (env k s).1) -> ss_eof s' = true) /\
    ((N <= k)%nat -> acked s').
Proof.
  intros Hse (Hct & Hcr & Hn). destruct (nap_keeps size s0 p0 s type (env k s) Hse (Hlwip k s)) as (s' & E & Hse' & Hends).
  pose proof E as E0. unfold session_yielder in E0. erewrite bind_Some in E0 by reflexivity. apply bind_Some_inv in E0 as ([] & s1 & E1 & E2). injection E2 as ->.
  destruct (ss_pcb s) as [p|] eqn:Ep; [|done].
  destruct (events_effect _ _ _ _ E1 (at_err _ _ Hat k s) Ep) as (p' & Hp' & Hsent & Hsh & Hack & Hall & Heof & Htx & Hrx & Hss & Hqu).
  assert (hev_socks5_task_io_yielder type (env k s).2 (ss_base s) = 0) as Hy.
  { pose proof (at_time _ _ Hat k s). unfold hev_socks5_task_io_yielder. destruct type; [done|]. case_match; [done|].
    by rewrite (proj2 (Z.leb_gt _ _)) by done. }
  exists s'. rewrite E, Hy. split; [done|]. split; [done|]. split; [done|]. unfold calm, ended, side, rx_left, told, queued. rewrite Htx, Hrx, Hss.
  split_and!; try done; try (rewrite Hp'; done).
  - intros rf rb [Hef Heb]. split; [done|]. intros Hneg. destruct (Heb Hneg) as (? & p1 & Hp1 & Hs1). split; [done|]. exists p'. split; [done|]. congruence.
  - intros Ht. split; [by apply Heof; left|]. by rewrite (Hqu Ht (Hlwip k s)).
  - intros Hfin. apply Heof. right. apply Hfin. by rewrite Ep.
  - intros Hk p1 Hp1. assert (p1 = p') as -> by congruence.
    destruct (settled_ring _ _ _ _ _ Hacc Hse' Hp') as [Hle _]. rewrite Hsent in *.
    destruct (decide (pb_acked p < length (pb_sent p))%nat) as [Hlt|]; [|lia].
    destruct (settled_ring _ _ _ _ _ Hacc Hse Ep) as (_ & r & _ & Hm & Hr). destruct (rr_use _ _ _ Hr) as [Hus Hle2].
    rewrite length_drop in Hus. unfold TCP_WND in *.
    specialize (Hall _ (at_ack _ _ Hat k s p Hk Ep Hlt ltac:(lia))). lia.
Qed.

Definition late (k : nat) (s : session) : nat :=
  (N - k) + side s + (if decide (N < k)%nat then queued s else S (Z.to_nat TCP_WND)).

Lemma splice_loop_live fuel k s rf rb :
  settled size s0 p0 s -> (0 <= rb -> going s0 p0 [] s) -> -1 <= rf <= 1 -> -1 <= rb <= 1 -> calm s -> ended rf rb s ->
  ((N <= k)%nat -> ss_eof s = true) -> ((N < k)%nat -> acked s) -> (forall j, (j < k)%nat -> (forall s, ss_pcb s <> None -> EvFin ∈ (env j s).1) -> ss_eof s = true) ->
  (late k s < fuel)%nat ->
  exists k' s', tcp_splice_loop fuel env k rf rb s = Some (k', s') /\ settled size s0 p0 s' /\ calm s' /\ ended (-1) (-1) s'.
Proof.
  revert k s rf rb. induction fuel as [|fuel IH]; intros k s rf rb Hse Hun Hrf Hrb Hc He Heof Hack Hfin Hfuel; [lia|].
  destruct (turn_keeps size s0 p0 s rf rb Hse Hun Hsize Hrf Hrb)
    as (rf' & rb' & s1 & s2 & E1 & E2 & Hse2 & Hun2 & Hrf' & Hrb' & Heof2 & Hq & Hx & Hside & _ & Hlt & Hcalm).
  destruct (Hcalm Hacc Hc) as [Hc2 He2]. specialize (He2 He).
  cbn [tcp_splice_loop]. rewrite (bind_Some _ _ _ _ _ E1), (bind_Some _ _ _ _ _ E2). cbv zeta.
  assert (forall type, 0 <= rf' \/ 0 <= rb' ->
    exists k' s', bind (gets (env k)) (fun n => bind (session_yielder type n) (fun y =>
      if y <? 0 then ret (S k) else tcp_splice_loop fuel env (S k) rf' rb')) s2 = Some (k', s') /\ settled size s0 p0 s' /\ calm s' /\ ended (-1) (-1) s') as Hnext.
  { intros type Hor. erewrite bind_Some by reflexivity.
    destruct (nap_attentive s2 type k Hse2 Hc2) as (s3 & E3 & Hse3 & Hends3 & Hc3 & He3 & Hsd3 & Hq3 & Hf3 & Ha3).
    rewrite (bind_Some _ _ _ _ _ E3). cbn [Z.ltb Z.compare].
    assert (ss_eof s2 = true -> ss_eof s3 = true) as Heof3 by (intros H; by apply Hq3).
    pose proof (settled_queued _ _ _ _ Hse3) as Hqb3. destruct (at_fin _ _ Hat) as (j & Hj & Hjf).
    assert (forall i, (i < S k)%nat -> (forall s, ss_pcb s <> None -> EvFin ∈ (env i s).1) -> ss_eof s3 = true) as Hfin3.
    { intros i Hi Hif. destruct (decide (i = k)) as [->|]; [by apply Hf3|]. apply Heof3. rewrite Heof2. apply (Hfin i); [lia|done]. }
    apply IH; try done; [intros; eapply same_ends_going; eauto|auto| |intros; apply Ha3; lia|].
    - intros Hk. apply (Hfin3 j); [lia|done].
    - unfold late in *. rewrite Hsd3. destruct (decide (N < k)%nat) as [HN|HN].
      + rewrite (decide_True (P := (N < S k)%nat)) by lia. destruct (Hq3 ltac:(rewrite Heof2; apply Heof; lia)) as [_ ->].
        assert (weight s2 < weight s)%nat as Hw.
        { apply Hlt; [apply Heof; lia| |done]. apply (acked_roomy size s0 p0 s Hacc Hse); [by destruct Hc as (_&_&?)|by apply Hack]. }
        unfold weight in Hw. lia.
      + destruct (decide (N < S k)%nat); lia. }
  destruct (Z.ltb_spec 0 rf'), (Z.ltb_spec 0 rb'); cbn [orb]; try (apply Hnext; lia).
  destruct (Z.eqb_spec (Z.land rf' rb') 0) as [Hz|Hz].
  - apply land_zero in Hz; [|lia..]. apply Hnext; lia.
  - exists k, s2. split; [done|]. split; [done|]. split; [done|]. destruct He2 as [Hef Heb]. split; intros _; [apply Hef|apply Heb];
      (destruct (decide (rf' = 0)) as [->|]; [by rewrite Z.land_0_l in Hz|]; destruct (decide (rb' = 0)) as [->|]; [by rewrite Z.land_0_r in Hz|]; lia).
Qed.

Lemma drain_loop_live fuel k s :
  settled size s0 p0 s -> calm s -> ended (-1) (-1) s -> (0 < fuel)%nat /\ acked s \/ (S (N - k) < fuel)%nat ->
  exists s', tcp_drain_loop fuel env k s = Some (tt, s') /\ settled size s0 p0 s' /\ calm s' /\ ended (-1) (-1) s' /\ acked s'.
Proof.
  revert k s. induction fuel as [|fuel IH]; intros k s Hse Hc He Hfuel; [lia|]. pose proof Hc as (_ & _ & Hn).
  cbn [tcp_drain_loop]. erewrite bind_Some by reflexivity. destruct (ss_pcb s) as [p|] eqn:Ep; [|done].
  destruct (settled_ring _ _ _ _ _ Hacc Hse Ep) as (Hle & r & Hb & _ & Hr).
  unfold deref_ring. rewrite bind_assoc. erewrite bind_Some by (unfold gets; rewrite Hb; reflexivity).
  erewrite bind_Some by reflexivity. unfold hev_ring_buffer_get_use_size. destruct (Z.eqb_spec (r_use r) 0) as [Hz|Hz].
  - exists s. split; [done|]. split; [done|]. split; [done|]. split; [done|]. intros p' Hp'. assert (p' = p) as -> by congruence.
    destruct (rr_use _ _ _ Hr) as [Hus _]. rewrite length_drop in Hus. simpl in Hus. lia.
  - erewrite bind_Some by reflexivity.
    destruct (nap_attentive s HEV_TASK_WAITIO k Hse Hc) as (s1 & E1 & Hse1 & _ & Hc1 & He1 & _ & _ & _ & Ha1).
    rewrite (bind_Some _ _ _ _ _ E1). cbn [Z.ltb Z.compare]. destruct Hfuel as [[_ Ha]|Hfuel].
    { destruct Hz. by apply (acked_roomy size s0 p0 s Hacc Hse); [by rewrite Ep|by apply Ha|]. }
    apply IH; try done; [by apply He1|]. destruct (decide (N <= k)%nat); [left; split; [lia|by apply Ha1]|right; lia].
Qed.
End attentive.
