(* ===== verification/SessionTcpTheorems.v ===== *)
(** * Theorems on TCP sessions (hev-socks5-session-tcp.c)

    A session relays both streams, keeps the memory that the TCP/IP stack refers to,
    and ends; with peers that only make it wait everything gets through; a stack that
    has no memory for a moment and refuses a write can make it send a stream with a gap. *)

From S2P Require Import Prelude Buffers TaskSocket Socks5Client Socks5Udp SpliceLoop SessionTcp SessionTcpInv SessionTcpLive.

(** A session before its splice, on a connection that nothing was sent on. *)
Record session_ready (s : session) (p : pcb) : Prop := {
  sr_pcb : ss_pcb s = Some p;
  sr_sent : pb_sent p = [] /\ pb_acked p = 0%nat /\ pb_shut p = false;
  sr_queue : Forall (.≠ []) (ss_queue s) /\ Z.of_nat (length (concat (ss_queue s))) <= TCP_WND;
  sr_shut : ss_shut s = false;
  sr_time : 0 <= s5_timeout (ss_base s)
}.

(** A size of the ring that one [tcp_write] can take, and the ring's memory. *)
Definition ring_ok (size : Z) (mem : list Z) : Prop := 0 < size <= TCP_WND /\ length mem = Z.to_nat size.

Lemma ready_settled size mem s p :
  ring_ok size mem -> session_ready s p ->
  let s1 := up_sbuf (Some (hev_ring_buffer_alloca size mem)) s in settled size s p s1 /\ going s p [] s1.
Proof.
  intros [Hsize Hmem] [Hp (Hs & Ha & Hsh) Hq Hss Ht] s1. unfold TCP_WND in Hsize. split.
  - exists []. split; [|done]. split; simpl; try done.
    + exists [], []. by rewrite !app_nil_r.
    + congruence.
    + eexists _, []. split; [reflexivity|]. split; [done|]. split; [by apply ring_alloca_rep; lia|].
      intros p' Hp'. assert (p' = p) as -> by congruence. exists (pb_sent p). split; simpl; try done; [apply one_gap_refl|lia|by rewrite Hs, Ha].
  - intros p' Hp'. simpl in Hp'. by assert (p' = p) as -> by congruence.
Qed.

(** A session relays both streams and ends.  For every behaviour of the socket
    and every sequence of deliveries, acknowledgements, failures and sleeps that the
    TCP/IP stack can produce, the splice ends; what went out to the server and what
    is still queued are, in order, what was queued and what was delivered, and the
    sending side was shut down only behind all of it; what the connection was offered
    is what came from the socket, in order, and it took all of it, or all but one piece
    when it refused a write; the offered bytes behind those acknowledged are still intact
    in the ring, and the receive window was opened for exactly the bytes that went out. *)
Theorem session_tcp_relays fuel size mem env N s p :
  ring_ok size mem -> session_ready s p -> lwip_ok env -> quiet_after N env ->
  (1 + N + length (rx_bytes (ss_rx s)) + Z.to_nat TCP_WND < fuel)%nat ->
  exists s' w g, hev_socks5_session_tcp_splice fuel size mem env s = Some (tt, s') /\
    ss_out s' = ss_out s ++ w /\ ss_got s' = ss_got s ++ g /\ concat (ss_queue s) ++ g = w ++ concat (ss_queue s') /\
    (ss_shut s' = true -> ss_queue s' = [] /\ ss_eof s' = true) /\
    forall p', ss_pcb s' = Some p' -> exists h,
      h ++ rx_bytes (ss_rx s') = rx_bytes (ss_rx s) /\ one_gap h (pb_sent p') /\ (takes_all p -> pb_sent p' = h) /\
      pb_recved p' = pb_recved p + Z.of_nat (length w) /\
      exists r, ss_buffer s' = Some r /\ ring_rep r (drop (pb_acked p') h) [].
Proof.
  intros Hring Hready Hlwip Hquiet Hfuel. destruct (ready_settled size mem s p Hring Hready) as [Hse Hun].
  destruct Hring as [[_ Hsize] _], Hready as [Hp (Hsent & _) _ _ _].
  unfold hev_socks5_session_tcp_splice. erewrite bind_Some by reflexivity. rewrite Hp. erewrite bind_Some by reflexivity.
  set (s1 := up_sbuf _ s) in *. pose proof (settled_queued _ _ _ _ Hse) as Hq.
  destruct (splice_loop_ok size s p env N Hsize Hlwip Hquiet fuel 0 s1 1 1) as (k & s2 & E2 & Hse2); try done; try lia.
  { unfold turns_left, rx_left. simpl ss_rx. destruct (decide (N <= 0)%nat); lia. }
  destruct (drain_loop_ok size s p env N Hlwip Hquiet fuel k s2 Hse2) as (s3 & E3 & q & Hrl & Hq3); [lia|].
  destruct (rl_f _ _ _ _ _ Hrl) as (w & g & Hw & Hg & Hf).
  exists s3, w, g. rewrite (bind_Some _ _ _ _ _ E2). split_and!; try done; [by apply (rl_shut _ _ _ _ _ Hrl)|].
  intros p' Hp'. assert (q = []) as -> by (apply Hq3; congruence). destruct (rl_ring _ _ _ _ _ Hrl) as (r & u & Hb & _ & Hr & Hu).
  destruct (Hu p' Hp') as (h & [H1 H2 _ H4 H5 H6 _]). rewrite Hsent in H1. exists h. split_and!; [exact H1|done|by intros Ha; apply H5| |].
  - rewrite Hw, length_app in H6. lia.
  - exists r. by rewrite <-H4.
Qed.

(** Everything gets through.  When the socket only makes the session wait, lwip takes every write, the
    application reads, acknowledges and at some point ends its stream, and no sleep
    runs out, the splice ends with every byte of either side handed to the other and
    acknowledged, and with both sending sides shut down. *)
Theorem session_tcp_delivers_all fuel size mem env N s p :
  ring_ok size mem -> session_ready s p -> takes_all p -> lwip_ok env -> attentive N env ->
  tx_calm (ss_tx s) -> rx_calm (ss_rx s) ->
  (2 + N + length (ss_tx s) + length (rx_bytes (ss_rx s)) + length (ss_rx s) + Z.to_nat TCP_WND < fuel)%nat ->
  exists s' p' g, hev_socks5_session_tcp_splice fuel size mem env s = Some (tt, s') /\
    ss_got s' = ss_got s ++ g /\ ss_out s' = ss_out s ++ concat (ss_queue s) ++ g /\ ss_shut s' = true /\
    ss_pcb s' = Some p' /\ pb_sent p' = rx_bytes (ss_rx s) /\ pb_acked p' = length (pb_sent p') /\ pb_shut p' = true.
Proof.
  intros Hring Hready Hacc Hlwip Hat Htx Hrx Hfuel. destruct (ready_settled size mem s p Hring Hready) as [Hse Hun].
  destruct Hring as [[_ Hsize] _], Hready as [Hp (Hsent & _) _ _ _].
  unfold hev_socks5_session_tcp_splice. erewrite bind_Some by reflexivity. rewrite Hp. erewrite bind_Some by reflexivity.
  set (s1 := up_sbuf _ s) in *. assert (calm s1) as Hc by (split_and!; simpl; [done|done|by rewrite Hp]).
  destruct (at_fin _ _ Hat) as (j & Hj & _).
  destruct (splice_loop_live size s p env N Hsize Hlwip Hat Hacc fuel 0 s1 1 1) as (k & s2 & E2 & Hse2 & Hc2 & He2); try done; try lia.
  { unfold late, side, rx_left. simpl ss_rx. simpl ss_tx. destruct (decide (N < 0)%nat); lia. }
  destruct (drain_loop_live size s p env N Hsize Hlwip Hat Hacc fuel k s2 Hse2 Hc2 He2) as (s3 & E3 & (q & Hrl & Hq3) & _ & [Hsh Ht] & Hack); [right; lia|].
  destruct (Ht ltac:(lia)) as [Hrx3 (p' & Hp' & Hps)]. destruct (rl_f _ _ _ _ _ Hrl) as (w & g & Hw & Hg & Hf).
  assert (q = []) as -> by (apply Hq3; congruence). destruct (rl_ring _ _ _ _ _ Hrl) as (r & u & _ & _ & _ & Hu).
  destruct (Hu p' Hp') as (h & [H1 _ _ _ H5 _ _]). destruct (H5 Hacc) as [_ <-].
  destruct (rl_shut _ _ _ _ _ Hrl (Hsh ltac:(lia))) as [Hqe _]. rewrite Hqe, app_nil_r in Hf. rewrite Hrx3, Hsent in H1. simpl in H1. rewrite app_nil_r in H1.
  exists s3, p', g. rewrite (bind_Some _ _ _ _ _ E2). split_and!; try done; [by rewrite Hw, <-Hf|by apply Hsh|by apply Hack].
Qed.

(** A stack that delivers two bytes, ends the stream, and acknowledges the rest. *)
Definition small (s : session) : bool := negb (ss_eof s) && (Z.of_nat (length (concat (ss_queue s ++ [[7; 8]]))) <=? TCP_WND).

Definition sample_event (k : nat) (s : session) (p : pcb) : list pcb_event :=
  match k with
  | O => if small s then [EvData [[7; 8]]] else []
  | 1%nat => [EvFin]
  | _ => let n := (length (pb_sent p) - pb_acked p)%nat in
         if (Z.of_nat n <? 65536) && (0 <? Z.of_nat n) then [EvAcked n] else []
  end.

Definition sample_env (k : nat) (s : session) : nap :=
  (match ss_pcb s with Some p => sample_event k s p | None => [] end, 5).
Definition tired_env (k : nat) (s : session) : nap := if (k <? 9)%nat then sample_env k s else ([], 0).

Lemma one_event_ok s e : event_ok s e -> events_ok s [e].
Proof. intros H. split; [done|]. by intros s' _. Qed.

Lemma sample_env_ok : lwip_ok sample_env.
Proof.
  intros k s. unfold sample_env. destruct (ss_pcb s) as [p|] eqn:Ep; [|done]. cbn [fst].
  destruct k as [|[|k]]; cbn [sample_event].
  - destruct (small s) eqn:Es; [|done]. apply one_event_ok. unfold event_ok. rewrite Ep.
    apply andb_true_iff in Es as [He%negb_true_iff Hl%Z.leb_le]. split_and!; try done. by repeat first [apply Forall_nil_2 | apply Forall_cons_2].
  - apply one_event_ok. unfold event_ok. by rewrite Ep.
  - destruct (andb _ _) eqn:Es; [|done]. apply one_event_ok. unfold event_ok. rewrite Ep.
    apply andb_true_iff in Es as [H1%Z.ltb_lt H2%Z.ltb_lt]. lia.
Qed.

Lemma tired_env_ok : lwip_ok tired_env.
Proof. intros k s. unfold tired_env. destruct (k <? 9)%nat; [apply sample_env_ok|done]. Qed.

Lemma sample_env_attentive : attentive 2 sample_env.
Proof.
  split.
  - done.
  - intros k s. unfold sample_env, sample_event. cbn [fst]. destruct (ss_pcb s) as [p|]; [|apply not_elem_of_nil].
    destruct k as [|[|k]]; [destruct (small s)| |destruct (andb _ _)]; repeat (apply not_elem_of_cons; split; [done|]); apply not_elem_of_nil.
  - exists 1%nat. split; [lia|]. intros s Hs. unfold sample_env. destruct (ss_pcb s); [by left|done].
  - intros k s p Hk Hp H1 H2. unfold sample_env. rewrite Hp. destruct k as [|[|k]]; [lia..|]. cbn [sample_event fst].
    rewrite (proj2 (Z.ltb_lt _ _)), (proj2 (Z.ltb_lt 0 _)) by lia. by left.
Qed.

Definition sample_pcb : pcb := Pcb [] [] 0 0 false.
Definition sample_session : session :=
  Session (Socks5 3 1000 TYPE_TCP false 0) (Some sample_pcb) [[1]; [2; 3]] false None
    [RxData [4; 5; 6]; RxAgain; RxData [9]] [TxSome 2; TxAgain] [] false [].

Lemma calling_ready : session_ready sample_session sample_pcb.
Proof. split; try done; split; [by repeat first [apply Forall_nil_2 | apply Forall_cons_2]|done]. Qed.

Lemma session_tcp_relays_witness :
  let s := sample_session in
  exists s' w g, hev_socks5_session_tcp_splice (Z.to_nat 70000) 3 [0; 0; 0] tired_env s = Some (tt, s') /\
    ss_out s' = ss_out s ++ w /\ ss_got s' = ss_got s ++ g /\ concat (ss_queue s) ++ g = w ++ concat (ss_queue s').
Proof.
  destruct (session_tcp_relays (Z.to_nat 70000) 3 [0; 0; 0] tired_env 9 sample_session sample_pcb) as (s' & w & g & H1 & H2 & H3 & H4 & _).
  - split; [unfold TCP_WND; lia|reflexivity].
  - exact calling_ready.
  - exact tired_env_ok.
  - intros k s Hk. unfold tired_env. by rewrite (proj2 (Nat.ltb_ge _ _)).
  - unfold TCP_WND. simpl length. lia.
  - exists s', w, g. split; [exact H1|]. split; [exact H2|]. split; [exact H3|exact H4].
Defined.

Lemma session_tcp_delivers_all_witness :
  let s := sample_session in
  exists s' p' g, hev_socks5_session_tcp_splice (Z.to_nat 70000) 3 [0; 0; 0] sample_env s = Some (tt, s') /\
    ss_out s' = [1; 2; 3] ++ g /\ ss_pcb s' = Some p' /\ pb_sent p' = [4; 5; 6; 9].
Proof.
  destruct (session_tcp_delivers_all (Z.to_nat 70000) 3 [0; 0; 0] sample_env 2 sample_session sample_pcb) as (s' & p' & g & H1 & H2 & H3 & _ & H5 & H6 & _).
  - split; [unfold TCP_WND; lia|reflexivity].
  - exact calling_ready.
  - constructor.
  - exact sample_env_ok.
  - exact sample_env_attentive.
  - by repeat first [apply Forall_nil_2 | apply Forall_cons_2].
  - by repeat first [apply Forall_nil_2 | apply Forall_cons_2].
  - unfold TCP_WND. simpl length. lia.
  - exists s', p', g. split; [exact H1|]. split; [exact H3|]. split; [exact H5|exact H6].
Defined.

(** C40: A refused write leaves a gap.  When the readable bytes of the ring lie in two
    pieces and the stack refuses the first of the two writes but takes the second,
    the second piece follows at once on what was sent before: the first is missing
    from the stream, and it is gone from what the ring still offers. *)
Theorem session_tcp_write_gap s p r v1 v2 e rest res :
  ss_pcb s = Some p -> ss_buffer s = Some r -> hev_ring_buffer_reading r = [v1; v2] ->
  pb_res p = e :: ERR_OK :: rest -> e <> ERR_OK -> 0 <= v2.2 < 65536 ->
  exists s' p', tcp_handover res s = Some (-1, s') /\ ss_pcb s' = Some p' /\
    pb_sent p' = pb_sent p ++ iov_gather (r_data r) [v2] /\
    ss_buffer s' = Some (hev_ring_buffer_read_finish r (v1.2 + v2.2)).
Proof.
  intros Hp Hb Hv Hres He H2. unfold tcp_handover. erewrite bind_Some by reflexivity. rewrite Hp.
  unfold deref_ring. rewrite bind_assoc. erewrite bind_Some by (unfold gets; rewrite Hb; reflexivity).
  erewrite bind_Some by reflexivity. rewrite Hv. cbn [write_vectors]. unfold tcp_write. rewrite Hres. cbn [hd tl pb_res pb_sent].
  rewrite (proj2 (Z.eqb_neq e ERR_OK)) by done. cbn [ERR_OK Z.eqb].
  rewrite iov_gather_one, Z2Nat.id, u16_small by lia. rewrite take_ge by (rewrite iov_gather_one; lia).
  erewrite bind_Some by reflexivity. unfold tcp_output. cbn [pb_res pb_sent pb_acked pb_recved pb_shut].
  erewrite bind_Some by reflexivity. eexists _, _.
  split.
  - unfold ret. rewrite !Z.lor_0_r. rewrite (proj2 (Z.eqb_neq _ ERR_OK)); [reflexivity|].
    intros H0. by apply Z.lor_eq_0_iff in H0 as [H0 _].
  - by split_and!.
Qed.

(** Three bytes at the end of the ring, then one at its start. *)
Definition wrapped : ring := Ring 1 1 4 4 4 [13; 10; 11; 12].
Definition stuck_session : session :=
  Session (Socks5 3 1000 TYPE_TCP false 0) (Some (Pcb [-1; 0; 0] [] 0 0 false)) [] false (Some wrapped) [] [] [] false [].

Lemma session_tcp_write_gap_witness :
  exists s' p', tcp_handover 1 stuck_session = Some (-1, s') /\ ss_pcb s' = Some p' /\ pb_sent p' = [13].
Proof.
  destruct (session_tcp_write_gap stuck_session (Pcb [-1; 0; 0] [] 0 0 false) wrapped (1, 3) (0, 1) (-1) [0] 1)
    as (s' & p' & H1 & H2 & H3 & _); try reflexivity; try discriminate.
  - simpl. lia.
  - exists s', p'. split; [exact H1|]. split; [exact H2|exact H3].
Defined.
