(* ===== verification/TunnelSessions.v ===== *)
(** * The sessions of the tunnel (hev-socks5-tunnel.c, hev-socks5-session.c)

    The set of live sessions, least recently active first: the callbacks of the
    TCP/IP stack put a session and its task into it, a session that is active moves
    to the end, the end of its task takes it out, and the cap on their number and the
    end of the tunnel terminate them.  Waking a task that is not started or has ended
    aborts the process, and taking the lock twice in one task never returns. *)

From S2P Require Import Prelude RBTree HevList Socks5Client.

(** ** State *)

Inductive task_state := TASK_STOPPED | TASK_RUNNING | TASK_WAITING.

(** The variables of the tunnel that concern sessions.  A session object is known by
    the address of its list node; [tn_objs] has the base of those that are alive,
    [tn_tasks] the tasks they point to.  [tn_timer] is the task of the timers of the
    TCP/IP stack, [tn_alarm] whether its wait will run out, [tn_locked] whether the
    lock around the stack is held. *)
Record tunnel := Tunnel {
  tn_run : bool; tn_set : lmem; tn_count : Z; tn_objs : gmap Z socks5; tn_tasks : gmap Z task_state;
  tn_timer : task_state; tn_alarm : bool; tn_locked : bool
}.

Abbreviation TN := (M tunnel).

Definition up_run b s := Tunnel b (tn_set s) (tn_count s) (tn_objs s) (tn_tasks s) (tn_timer s) (tn_alarm s) (tn_locked s).
Definition up_set l s := Tunnel (tn_run s) l (tn_count s) (tn_objs s) (tn_tasks s) (tn_timer s) (tn_alarm s) (tn_locked s).
Definition up_count n s := Tunnel (tn_run s) (tn_set s) n (tn_objs s) (tn_tasks s) (tn_timer s) (tn_alarm s) (tn_locked s).
Definition up_objs o s := Tunnel (tn_run s) (tn_set s) (tn_count s) o (tn_tasks s) (tn_timer s) (tn_alarm s) (tn_locked s).
Definition up_tasks t s := Tunnel (tn_run s) (tn_set s) (tn_count s) (tn_objs s) t (tn_timer s) (tn_alarm s) (tn_locked s).
Definition up_timer t a s := Tunnel (tn_run s) (tn_set s) (tn_count s) (tn_objs s) (tn_tasks s) t a (tn_locked s).
Definition up_locked b s := Tunnel (tn_run s) (tn_set s) (tn_count s) (tn_objs s) (tn_tasks s) (tn_timer s) (tn_alarm s) b.

Definition on_set {A} (c : LM A) : TN A := zoom tn_set up_set c.

Definition load_obj (a : Z) : TN socks5 := let* o := gets (fun s => tn_objs s !! a) in lift_opt o.
Definition load_task (a : Z) : TN task_state := let* t := gets (fun s => tn_tasks s !! a) in lift_opt t.

(** ** Tasks and the lock *)

(** [hev_task_wakeup]: a task that has ended aborts the process. *)
Definition hev_task_wakeup (t : task_state) : option task_state :=
  match t with TASK_STOPPED => None | _ => Some TASK_RUNNING end.

Definition wakeup_timer : TN unit :=
  let* t := gets tn_timer in
  let* t := lift_opt (hev_task_wakeup t) in
  modify (up_timer t false).

(** [hev_task_mutex_lock] in a task that may hold the lock itself. *)
Definition hev_task_mutex_lock : TN unit :=
  let* l := gets tn_locked in if l : bool then fail else modify (up_locked true).
Definition hev_task_mutex_unlock : TN unit := modify (up_locked false).

(** ** The set *)

Definition hev_socks5_session_terminate (self : Z) : TN unit :=
  let* o := load_obj self in
  modify (fun s => up_objs (<[self := hev_socks5_set_timeout 0 o]> (tn_objs s)) s);;
  let* t := load_task self in
  let* t := lift_opt (hev_task_wakeup t) in
  modify (fun s => up_tasks (<[self := t]> (tn_tasks s)) s).

(** [session_count++] on an [int]. *)
Definition count_up (n : Z) : option Z := if n <? 2147483647 then Some (n + 1) else None.

Definition hev_socks5_tunnel_insert_session (max_session_count node : Z) : TN unit :=
  on_set (hev_list_add_tail node);;
  let* n := gets tn_count in
  let* n := lift_opt (count_up n) in
  modify (up_count n);;
  if (max_session_count =? 0) || (n <? max_session_count) then ret tt else
  let* node := on_set hev_list_first in
  hev_socks5_session_terminate node.

Definition hev_socks5_tunnel_delete_session (node : Z) : TN unit :=
  on_set (hev_list_del node);;
  modify (fun s => up_count (tn_count s - 1) s).

Definition hev_socks5_tunnel_update_session (max_session_count node : Z) : TN unit :=
  if max_session_count =? 0 then ret tt else
  on_set (hev_list_del node);;
  on_set (hev_list_add_tail node).

(** ** Objects *)

(** [hev_socks5_session_tcp_new], [hev_socks5_session_udp_new]: a zeroed block with
    its base constructed, or nothing. *)
Definition session_new (alloc : option Z) (type : socks5_type) : TN Z :=
  match alloc with
  | None => ret NULL
  | Some a =>
    modify (fun s => up_objs (<[a := hev_socks5_construct type]> (tn_objs s)) s);;
    modify (fun s => up_set (LMem (l_head (tn_set s)) (l_tail (tn_set s)) (<[a := LNode NULL NULL]> (l_nodes (tn_set s)))) s);;
    ret a
  end.

(** The last [hev_object_unref]: the destructor of either kind of session takes the
    lock to let go of its connection; then the block is freed. *)
Definition session_unref (a : Z) : TN unit :=
  let* _ := load_obj a in
  hev_task_mutex_lock;;
  hev_task_mutex_unlock;;
  modify (fun s => up_objs (delete a (tn_objs s)) s);;
  modify (fun s => up_set (LMem (l_head (tn_set s)) (l_tail (tn_set s)) (delete a (l_nodes (tn_set s)))) s).

(** What follows [hev_socks5_session_run] in the entry of the task, and the end of
    the task. *)
Definition hev_socks5_session_task_entry (a : Z) : TN unit :=
  hev_socks5_tunnel_delete_session a;;
  session_unref a;;
  modify (fun s => up_tasks (delete a (tn_tasks s)) s).

(** ** The callbacks of the TCP/IP stack *)

Definition ERR_OK : Z := 0.
Definition ERR_MEM : Z := -1.
Definition ERR_RST : Z := -14.

(** [hev_socks5_session_set_task] on a new task, [hev_socks5_tunnel_insert_session]
    and [hev_task_run]; then the timers are woken. *)
Definition session_start (max_session_count a : Z) : TN unit :=
  modify (fun s => up_tasks (<[a := TASK_STOPPED]> (tn_tasks s)) s);;
  hev_socks5_tunnel_insert_session max_session_count a;;
  modify (fun s => up_tasks (<[a := TASK_RUNNING]> (tn_tasks s)) s);;
  wakeup_timer.

(** [alloc]: the new object, [task]: whether a task could be allocated. *)
Definition tcp_accept_handler (max_session_count err : Z) (alloc : option Z) (task : bool) : TN Z :=
  if negb (err =? ERR_OK) then ret err else
  let* run := gets tn_run in
  if negb run then ret ERR_RST else
  let* tcp := session_new alloc TYPE_TCP in
  if tcp =? NULL then ret ERR_MEM else
  if negb task then session_unref tcp;; ret ERR_MEM else
  session_start max_session_count tcp;;
  ret ERR_OK.

(** What becomes of the new connection of lwip. *)
Inductive udp_outcome := UdpRemoved | UdpDns | UdpSession | UdpDropped.

(** [dns]: whether names are mapped; the destination is that of the mapped DNS
    server when it is [faddr] and [fport]. *)
Definition udp_recv_handler (max_session_count : Z) (dns v4 : bool) (faddr fport addr port : Z) (type : socks5_type)
    (alloc : option Z) (task : bool) : TN udp_outcome :=
  let* run := gets tn_run in
  if negb run then ret UdpRemoved else
  if dns && v4 && ((fport =? port) && (faddr =? addr)) then ret UdpDns else
  let* udp := session_new alloc type in
  if udp =? NULL then ret UdpRemoved else
  if negb task then session_unref udp;; ret UdpDropped else
  session_start max_session_count udp;;
  ret UdpSession.

(** The task of the device hands a packet to the stack, and the stack may call back,
    with the lock held. *)
Definition with_lock {A} (callback : TN A) : TN A :=
  hev_task_mutex_lock;;
  let* a := callback in
  hev_task_mutex_unlock;;
  ret a.

(** ** The other tasks *)

(** The loop of [event_task_entry] over the sessions. *)
Fixpoint terminate_loop (fuel : nat) (node : Z) : TN unit :=
  match fuel with
  | O => fail
  | S fuel =>
    if node =? NULL then ret tt else
    hev_socks5_session_terminate node;;
    let* node := on_set (hev_list_node_next node) in
    terminate_loop fuel node
  end.

(** [event_task_entry] behind its read. *)
Definition event_task_entry : TN unit :=
  modify (up_run false);;
  let* fuel := gets (fun s => S (size (l_nodes (tn_set s)))) in
  let* node := on_set hev_list_first in
  terminate_loop fuel node.

(** Its wait for another task: one turn of [hev_task_join]. *)
Definition hev_task_join : TN unit :=
  let* t := gets tn_timer in
  match t with TASK_STOPPED => ret tt | _ => wakeup_timer end.

(** One turn of [lwip_timer_task_entry], when its task runs: behind the timers, to
    the next wait. *)
Definition lwip_timer_task_entry : TN unit :=
  let* run := gets tn_run in
  if negb run then modify (up_timer TASK_STOPPED false) else
  hev_task_mutex_lock;;
  hev_task_mutex_unlock;;
  let* node := on_set hev_list_first in
  modify (up_timer TASK_WAITING (negb (node =? NULL))).

(** ** What can happen *)

Inductive op :=
| OAccept (err : Z) (alloc : option Z) (task : bool)
| OUdp (dns v4 : bool) (faddr fport addr port : Z) (type : socks5_type) (alloc : option Z) (task : bool)
| ODone (a : Z) | OActive (a : Z) | OTimeout (a timeout : Z) | OSleep (a : Z) | OWake (a : Z)
| OTimer | OAlarm | OStop | OJoin.

(** A connection, a datagram, each with what can be allocated; the end, activity and timeout of a
    session, its sleep and its wakeup; a turn of the timers, the end of their wait;
    the stop of the tunnel and its wait for the timers. *)
Definition run_op (max : Z) (o : op) : TN unit :=
  match o with
  | OAccept err alloc task => with_lock (tcp_accept_handler max err alloc task);; ret tt
  | OUdp dns v4 faddr fport addr port type alloc task => with_lock (udp_recv_handler max dns v4 faddr fport addr port type alloc task);; ret tt
  | ODone a => hev_socks5_session_task_entry a
  | OActive a => hev_socks5_tunnel_update_session max a
  | OTimeout a t => let* o := load_obj a in modify (fun s => up_objs (<[a := hev_socks5_set_timeout t o]> (tn_objs s)) s)
  | OSleep a => let* _ := load_task a in modify (fun s => up_tasks (<[a := TASK_WAITING]> (tn_tasks s)) s)
  | OWake a => let* t := load_task a in let* t := lift_opt (hev_task_wakeup t) in modify (fun s => up_tasks (<[a := t]> (tn_tasks s)) s)
  | OTimer => let* t := gets tn_timer in match t with TASK_RUNNING => lwip_timer_task_entry | _ => ret tt end
  | OAlarm => let* t := gets tn_timer in let* a := gets tn_alarm in
              match t with TASK_WAITING => if a : bool then wakeup_timer else ret tt | _ => ret tt end
  | OStop => event_task_entry
  | OJoin => hev_task_join
  end.

Fixpoint run_ops (max : Z) (os : list op) : TN unit :=
  match os with
  | [] => ret tt
  | o :: os => run_op max o;; run_ops max os
  end.

(** ** The abstract set *)

(** Whether the tunnel runs, and the sessions, least recently active first, with
    their timeouts. *)
Record abs_tunnel := AbsTunnel { at_run : bool; at_set : list (Z * Z) }.

Definition give_timeout (t : Z) (e : Z * Z) : Z * Z := (e.1, if e.2 =? 0 then 0 else t).

Definition end_first (l : list (Z * Z)) : list (Z * Z) :=
  match l with [] => [] | e :: l => give_timeout 0 e :: l end.

(** A new session, and the oldest terminated when there are as many as the cap.  It stays in the set until
    its task has ended, and the next session terminates it again: the cap does not bound the set. *)
Definition spec_start (max a : Z) (l : list (Z * Z)) : list (Z * Z) :=
  let l := l ++ [(a, -1)] in
  if (max =? 0) || (Z.of_nat (length l) <? max) then l else end_first l.

Definition spec_op (max : Z) (o : op) (s : abs_tunnel) : abs_tunnel :=
  let l := at_set s in
  match o with
  | OAccept err (Some a) _ => if (err =? ERR_OK) && at_run s then AbsTunnel true (spec_start max a l) else s
  | OUdp dns v4 faddr fport addr port _ (Some a) _ =>
    if at_run s && negb (dns && v4 && ((fport =? port) && (faddr =? addr))) then AbsTunnel true (spec_start max a l) else s
  | ODone a => AbsTunnel (at_run s) (filter (fun e => e.1 <> a) l)
  | OActive a => if max =? 0 then s else AbsTunnel (at_run s) (filter (fun e => e.1 <> a) l ++ filter (fun e => e.1 = a) l)
  | OTimeout a t => AbsTunnel (at_run s) ((fun e => if decide (e.1 = a) then give_timeout t e else e) <$> l)
  | OStop => AbsTunnel false (give_timeout 0 <$> l)
  | _ => s
  end.

(** A new object is none of those alive, and memory has room for fewer than 2^31 of them. *)
Definition new_object (a : Z) (s : abs_tunnel) : Prop := a <> NULL /\ (a ∉ (at_set s).*1) /\ Z.of_nat (length (at_set s)) < 2147483647.

(** What may be asked in a state: objects are new, and a session that is made finds memory for its task (without, the
    callback never returns: [session_no_task_hangs]); the others concern a session of the set. *)
Definition allowed (o : op) (s : abs_tunnel) : Prop :=
  match o with
  | OAccept err (Some a) task => new_object a s /\ (err = ERR_OK -> at_run s = true -> task = true)
  | OUdp dns v4 faddr fport addr port _ (Some a) task =>
    new_object a s /\ (at_run s = true -> dns && v4 && ((fport =? port) && (faddr =? addr)) = false -> task = true)
  | ODone a | OActive a | OTimeout a _ | OSleep a | OWake a => a ∈ (at_set s).*1
  | _ => True
  end.

Fixpoint all_allowed (max : Z) (os : list op) (s : abs_tunnel) : Prop :=
  match os with
  | [] => True
  | o :: os => allowed o s /\ all_allowed max os (spec_op max o s)
  end.

#[export] Instance allowed_dec o s : Decision (allowed o s).
Proof. destruct o as [err [a|] task|dns v4 faddr fport addr port type [a|] task|a|a|a t|a|a| | | |]; simpl; unfold new_object; apply _. Defined.

#[export] Instance all_allowed_dec max os s : Decision (all_allowed max os s).
Proof. revert s. induction os as [|o os IH]; intros s; simpl; apply _. Defined.

Definition spec_run (max : Z) (os : list op) (s : abs_tunnel) : abs_tunnel := foldl (fun s o => spec_op max o s) s os.

(** ** The invariant *)

(** A session that is alive: its object with its timeout, and a task that was started
    and has not ended; only that of a session about to start ([pend]) may be
    stopped. *)
Definition alive (pend : option Z) (s : tunnel) (e : Z * Z) : Prop :=
  exists o t, tn_objs s !! e.1 = Some o /\ s5_timeout o = e.2 /\ tn_tasks s !! e.1 = Some t /\ (t = TASK_STOPPED -> pend = Some e.1).

(** The set, its count, the objects and the tasks are those of the abstract set, and
    nothing else is alive; while there are sessions the timers do not wait without
    end. *)
Record tunnel_inv (pend : option Z) (s : tunnel) (l : abs_tunnel) : Prop := {
  ti_run : tn_run s = at_run l;
  ti_list : list_rep (tn_set s) (at_set l).*1;
  ti_count : tn_count s = Z.of_nat (length (at_set l));
  ti_alive : Forall (alive pend s) (at_set l);
  ti_objs : dom (tn_objs s) = list_to_set (at_set l).*1;
  ti_tasks : dom (tn_tasks s) = list_to_set (at_set l).*1;
  ti_nodes : dom (l_nodes (tn_set s)) = list_to_set (at_set l).*1;
  ti_timer : at_run l = true -> tn_timer s <> TASK_STOPPED;
  ti_alarm : pend = None -> at_set l <> [] -> tn_timer s = TASK_WAITING -> tn_alarm s = true
}.

(** ** Each operation keeps it *)

Lemma on_set_run {A} (c : LM A) s a m : c (tn_set s) = Some (a, m) -> on_set c s = Some (a, up_set m s).
Proof. intros H. unfold on_set, zoom. by rewrite H. Qed.

Lemma inv_nodup pend s l : tunnel_inv pend s l -> NoDup (at_set l).*1 /\ NULL ∉ (at_set l).*1.
Proof.
  intros Hi. destruct (ti_list _ _ _ Hi) as (_ & _ & _ & Hn & Hz). split; [done|]. intros H. rewrite Forall_forall in Hz. by apply (Hz NULL H).
Qed.

Lemma inv_entry pend s l a : tunnel_inv pend s l -> a ∈ (at_set l).*1 -> exists t, (a, t) ∈ at_set l /\ alive pend s (a, t).
Proof.
  intros Hi Ha. apply list_elem_of_fmap in Ha as ([a' t] & -> & Hin). exists t. split; [done|].
  pose proof (ti_alive _ _ _ Hi) as Hal. rewrite Forall_forall in Hal. by apply Hal.
Qed.

Lemma give_fst t (l : list (Z * Z)) : (give_timeout t <$> l).*1 = l.*1.
Proof. by rewrite <-list_fmap_compose. Qed.

Lemma give_one_fst a t (l : list (Z * Z)) : ((fun e => if decide (e.1 = a) then give_timeout t e else e) <$> l).*1 = l.*1.
Proof. rewrite <-list_fmap_compose. apply list_fmap_ext. intros i e _. simpl. by destruct (decide (e.1 = a)). Qed.

(** A session gets a timeout, zero being kept. *)
Definition give_one (a t : Z) (l : list (Z * Z)) : list (Z * Z) := (fun e => if decide (e.1 = a) then give_timeout t e else e) <$> l.

Lemma set_timeout_value t o : s5_timeout (hev_socks5_set_timeout t o) = if s5_timeout o =? 0 then 0 else t.
Proof. unfold hev_socks5_set_timeout. destruct (Z.eqb_spec (s5_timeout o) 0) as [E|]; [exact E|done]. Qed.

Lemma dom_insert_same {A} (m : gmap Z A) a x (ks : list Z) : dom m = list_to_set ks -> a ∈ ks -> dom (<[a := x]> m) = list_to_set ks.
Proof. intros H Ha. rewrite dom_insert_L, H. set_solver. Qed.

Lemma inv_timeout pend s r l a t o :
  tunnel_inv pend s (AbsTunnel r l) -> a ∈ l.*1 -> tn_objs s !! a = Some o ->
  tunnel_inv pend (up_objs (<[a := hev_socks5_set_timeout t o]> (tn_objs s)) s) (AbsTunnel r (give_one a t l)).
Proof.
  intros [H1 H2 H3 H4 H5 H6 H7 H8 H9] Ha Ho. unfold give_one. split; simpl in *; rewrite ?give_one_fst, ?length_fmap; try done.
  - rewrite Forall_fmap. eapply Forall_impl; [exact H4|]. intros [b tb] (ob & st & Hob & Ht & Hst & Hp). simpl in *. unfold alive. simpl.
    destruct (decide (b = a)) as [->|Hne]; simpl.
    + rewrite lookup_insert_eq. eexists _, st. split_and!; try done. rewrite set_timeout_value. assert (o = ob) as -> by congruence. by rewrite Ht.
    + rewrite lookup_insert_ne by done. by exists ob, st.
  - by apply dom_insert_same.
  - intros Hp Hl. apply H9; [done|]. by destruct l.
Qed.

Lemma inv_task pend pend' s l a st :
  tunnel_inv pend s l -> a ∈ (at_set l).*1 -> st <> TASK_STOPPED ->
  (forall b, pend = Some b -> pend' = Some b \/ b = a) -> (pend' = None -> pend = None) ->
  tunnel_inv pend' (up_tasks (<[a := st]> (tn_tasks s)) s) l.
Proof.
  intros [H1 H2 H3 H4 H5 H6 H7 H8 H9] Ha Hst Hp Hn. split; simpl in *; try done.
  - eapply Forall_impl; [exact H4|]. intros [b tb] (ob & st' & Hob & Ht & Hst' & Hp'). simpl in *. unfold alive. simpl.
    destruct (decide (b = a)) as [->|Hne].
    + rewrite lookup_insert_eq. by exists ob, st.
    + rewrite lookup_insert_ne by done. exists ob, st'. split_and!; try done. intros E. by destruct (Hp b (Hp' E)).
  - by apply dom_insert_same.
  - auto.
Qed.

Lemma terminate_ok pend s r l a :
  tunnel_inv pend s (AbsTunnel r l) -> a ∈ l.*1 -> pend <> Some a ->
  exists s', hev_socks5_session_terminate a s = Some (tt, s') /\ tunnel_inv pend s' (AbsTunnel r (give_one a 0 l)) /\
    tn_set s' = tn_set s /\ tn_locked s' = tn_locked s /\ tn_timer s' = tn_timer s /\ tn_alarm s' = tn_alarm s.
Proof.
  intros Hi Ha Hp. destruct (inv_entry _ _ _ _ Hi Ha) as (t & Hin & o & st & Ho & Ht & Hst & Hpe). simpl in *.
  unfold hev_socks5_session_terminate, load_obj, load_task. rewrite bind_assoc.
  erewrite bind_Some by reflexivity. unfold lift_opt at 1. rewrite Ho. erewrite bind_Some by reflexivity. erewrite bind_Some by reflexivity.
  rewrite bind_assoc. erewrite bind_Some by reflexivity. cbn [tn_tasks up_objs]. unfold lift_opt at 1. rewrite Hst. erewrite bind_Some by reflexivity.
  assert (hev_task_wakeup st = Some TASK_RUNNING) as -> by (destruct st; [by destruct Hp; rewrite Hpe|done|done]).
  erewrite bind_Some by reflexivity. eexists. split; [reflexivity|]. split; [|done].
  apply inv_task with (pend := pend) (st := TASK_RUNNING); [by apply inv_timeout| |done|auto|done].
  simpl. unfold give_one. by rewrite give_one_fst.
Qed.

(** Waking a task that is not started aborts. *)
Lemma terminate_stopped s a o :
  tn_objs s !! a = Some o -> tn_tasks s !! a = Some TASK_STOPPED -> hev_socks5_session_terminate a s = None.
Proof.
  intros Ho Ht. unfold hev_socks5_session_terminate, load_obj, load_task, bind, gets, lift_opt, modify. rewrite Ho. simpl. by rewrite Ht.
Qed.

Lemma give_one_other a t l : a ∉ l.*1 -> give_one a t l = l.
Proof.
  intros Ha. induction l as [|[b tb] l IH]; [done|]. unfold give_one. cbn [fmap list_fmap fst]. apply not_elem_of_cons in Ha as [Hne Ha].
  rewrite decide_False by done. f_equal. by apply IH.
Qed.

Lemma give_one_first a t t0 l : a ∉ l.*1 -> give_one a t ((a, t0) :: l) = give_timeout t (a, t0) :: l.
Proof. intros Ha. unfold give_one. simpl. rewrite decide_True by done. f_equal. by apply give_one_other. Qed.

(** A new object with a task that is not started. *)
Definition fresh (a : Z) (type : socks5_type) (s : tunnel) : tunnel :=
  up_tasks (<[a := TASK_STOPPED]> (tn_tasks s))
    (up_set (LMem (l_head (tn_set s)) (l_tail (tn_set s)) (<[a := LNode NULL NULL]> (l_nodes (tn_set s))))
      (up_objs (<[a := hev_socks5_construct type]> (tn_objs s)) s)).

(** It is linked behind the others. *)
Lemma link_ok s r l a type :
  tunnel_inv None s (AbsTunnel r l) -> a <> NULL -> a ∉ l.*1 ->
  exists m, hev_list_add_tail a (tn_set (fresh a type s)) = Some (tt, m) /\
    tunnel_inv (Some a) (up_count (Z.of_nat (S (length l))) (up_set m (fresh a type s))) (AbsTunnel r (l ++ [(a, -1)])).
Proof.
  intros [H1 H2 H3 H4 H5 H6 H7 H8 H9] Hz Ha. simpl in *.
  assert (list_rep (tn_set (fresh a type s)) l.*1) as Hm.
  { apply (list_rep_frame (tn_set s)); try done. intros y Hy. simpl. rewrite lookup_insert_ne; [done|]. by intros ->. }
  destruct (list_add_tail_dom _ _ a Hm Hz Ha) as (m & E & Hm' & Hd); [simpl; rewrite lookup_insert_eq; by eexists|].
  exists m. split; [done|]. split; simpl; rewrite ?fmap_app; simpl; try done.
  - rewrite length_app. simpl. lia.
  - apply Forall_app. split; [|apply Forall_singleton; eexists _, TASK_STOPPED; simpl; rewrite !lookup_insert_eq; by split_and!].
    rewrite Forall_forall in H4. apply Forall_forall. intros [b t] Hb. destruct (H4 _ Hb) as (o & st & Ho & Ht & Hst & Hp). simpl in *.
    assert (b <> a) as Hne by (intros ->; apply Ha, list_elem_of_fmap; by exists (a, t)).
    exists o, st. simpl. rewrite !lookup_insert_ne by done. split_and!; try done. intros E0. by specialize (Hp E0).
  - rewrite dom_insert_L, H5. set_solver.
  - rewrite dom_insert_L, H6. set_solver.
  - rewrite Hd. simpl. rewrite dom_insert_L, H7. set_solver.
Qed.

Lemma insert_ok max s r l a type :
  tunnel_inv None s (AbsTunnel r l) -> a <> NULL -> a ∉ l.*1 -> Z.of_nat (length l) < 2147483647 -> max = 0 \/ 2 <= max ->
  exists s', hev_socks5_tunnel_insert_session max a (fresh a type s) = Some (tt, s') /\
    tunnel_inv (Some a) s' (AbsTunnel r (spec_start max a l)) /\ tn_locked s' = tn_locked s /\ tn_timer s' = tn_timer s.
Proof.
  intros Hi Hz Ha Hlen Hmax. destruct (link_ok s r l a type Hi Hz Ha) as (m & E & Hi1).
  unfold hev_socks5_tunnel_insert_session. rewrite (bind_Some _ _ _ _ _ (on_set_run _ _ _ _ E)).
  erewrite bind_Some by reflexivity. cbn [tn_count up_set up_tasks up_objs fresh].
  assert (count_up (tn_count s) = Some (Z.of_nat (S (length l)))) as Hc.
  { unfold count_up. rewrite (ti_count _ _ _ Hi). simpl at_set. rewrite (proj2 (Z.ltb_lt _ _)) by lia. f_equal. lia. }
  erewrite bind_Some by (unfold lift_opt; rewrite Hc; reflexivity). erewrite bind_Some by reflexivity. unfold spec_start.
  assert (length (l ++ [(a, -1)]) = S (length l)) as -> by (rewrite length_app; simpl; lia).
  destruct ((max =? 0) || (Z.of_nat (S (length l)) <? max)) eqn:Ecap; [eexists; split; [reflexivity|]; by split_and!|].
  apply orb_false_iff in Ecap as [Hm0%Z.eqb_neq Hcap%Z.ltb_ge]. destruct l as [|[f t] l]; [simpl in Hcap; lia|].
  set (s1 := up_count _ _) in *. pose proof (list_rep_first _ _ (ti_list _ _ _ Hi1)) as Hf. simpl in Hf.
  rewrite (bind_Some _ _ _ _ _ (on_set_run hev_list_first s1 _ m Hf)).
  destruct (inv_nodup _ _ _ Hi1) as [Hnd _]. simpl in Hnd. apply NoDup_cons in Hnd as [Hfn _].
  destruct (terminate_ok (Some a) s1 r ((f, t) :: l ++ [(a, -1)]) f) as (s' & E' & Hi' & _ & Hl & Ht & _).
  - destruct Hi1; by split.
  - by left.
  - intros [= ->]. apply Ha. by left.
  - exists s'. split; [exact E'|]. split; [|done]. rewrite give_one_first in Hi' by done. exact Hi'.
Qed.

Lemma start_ok max s l a type :
  tunnel_inv None s (AbsTunnel true l) -> a <> NULL -> a ∉ l.*1 -> Z.of_nat (length l) < 2147483647 -> max = 0 \/ 2 <= max ->
  exists s', session_start max a (up_set (tn_set (fresh a type s)) (up_objs (tn_objs (fresh a type s)) s)) = Some (tt, s') /\
    tunnel_inv None s' (AbsTunnel true (spec_start max a l)) /\ tn_locked s' = tn_locked s.
Proof.
  intros Hi Hz Ha Hlen Hmax. destruct (insert_ok max s true l a type Hi Hz Ha Hlen Hmax) as (s1 & E1 & Hi1 & Hl1 & Ht1).
  unfold session_start. erewrite bind_Some by reflexivity. rewrite (bind_Some _ _ _ _ _ E1). erewrite bind_Some by reflexivity.
  assert (a ∈ (spec_start max a l).*1) as Hin.
  { unfold spec_start. assert (a ∈ (l ++ [(a, -1)]).*1) by (rewrite fmap_app; set_solver).
    case_match; [done|]. destruct (l ++ [(a, -1)]) as [|e l']; [done|]. by destruct e. }
  assert (tunnel_inv None (up_timer TASK_RUNNING false (up_tasks (<[a := TASK_RUNNING]> (tn_tasks s1)) s1)) (AbsTunnel true (spec_start max a l))) as Hi2.
  { assert (tunnel_inv (Some a) s1 (AbsTunnel true (spec_start max a l))) as Hi1' by done.
    destruct Hi1 as [H1 H2 H3 H4 H5 H6 H7 H8 H9]. split; simpl in *; try done.
    - eapply Forall_impl; [exact H4|]. intros [b tb] (ob & st & Hob & Ht & Hst & Hp). unfold alive. simpl in *.
      destruct (decide (b = a)) as [->|Hne]; [rewrite lookup_insert_eq; by exists ob, TASK_RUNNING|].
      rewrite lookup_insert_ne by done. exists ob, st. split_and!; try done. intros E. specialize (Hp E). congruence.
    - by apply dom_insert_same. }
  unfold wakeup_timer. erewrite bind_Some by reflexivity. cbn [tn_timer up_tasks]. rewrite Ht1.
  assert (hev_task_wakeup (tn_timer s) = Some TASK_RUNNING) as Hw.
  { pose proof (ti_timer _ _ _ Hi eq_refl). by destruct (tn_timer s). }
  erewrite bind_Some by (unfold lift_opt; rewrite Hw; reflexivity). eexists. split; [reflexivity|]. by split.
Qed.

Lemma inv_locked pend s l b : tunnel_inv pend s l -> tunnel_inv pend (up_locked b s) l.
Proof. intros [H1 H2 H3 H4 H5 H6 H7 H8 H9]. by split. Qed.

Lemma with_lock_ok {A} (c : TN A) s a s' :
  tn_locked s = false -> c (up_locked true s) = Some (a, s') -> with_lock c s = Some (a, up_locked false s').
Proof.
  intros Hl E. unfold with_lock, hev_task_mutex_lock. rewrite bind_assoc. erewrite bind_Some by reflexivity. rewrite Hl.
  erewrite bind_Some by reflexivity. by rewrite (bind_Some _ _ _ _ _ E).
Qed.

Lemma session_new_fresh a type s :
  session_new (Some a) type s = Some (a, up_set (tn_set (fresh a type s)) (up_objs (tn_objs (fresh a type s)) s)).
Proof. done. Qed.

(** The end of a session: it is taken out and nothing of it is left. *)
Lemma done_ok s r l a :
  tunnel_inv None s (AbsTunnel r l) -> tn_locked s = false -> a ∈ l.*1 ->
  exists s', hev_socks5_session_task_entry a s = Some (tt, s') /\
    tunnel_inv None s' (AbsTunnel r (filter (fun e => e.1 <> a) l)) /\ tn_locked s' = false.
Proof.
  intros Hi Hl Ha. destruct (inv_nodup _ _ _ Hi) as [Hnd Hnz]. destruct (inv_entry _ _ _ _ Hi Ha) as (t & Hin & o & st & Ho & _).
  simpl in Hin, Hnd, Ho. apply list_elem_of_split in Hin as (l1 & l2 & ->).
  rewrite fmap_app in Hnd. apply NoDup_app in Hnd as (_ & Hd & Hn2). simpl in Hn2. apply NoDup_cons in Hn2 as [Hn2 _].
  assert (a ∉ l1.*1) as Hn1 by (intros H; apply (Hd a H); by left).
  assert (filter (fun e => e.1 <> a) (l1 ++ (a, t) :: l2) = l1 ++ l2) as ->.
  { rewrite filter_app, filter_cons_False by (simpl; tauto). f_equal; apply filter_all, Forall_forall;
      intros e He Heq; subst a; [apply Hn1|apply Hn2]; apply list_elem_of_fmap; by exists e. }
  destruct Hi as [H1 H2 H3 H4 H5 H6 H7 H8 H9]. simpl in *. rewrite fmap_app in H2. simpl in H2.
  destruct (list_del_dom _ _ _ _ H2) as (m & E & Hm & Hdm).
  unfold hev_socks5_session_task_entry, hev_socks5_tunnel_delete_session. rewrite ?bind_assoc.
  rewrite (bind_Some _ _ _ _ _ (on_set_run _ _ _ _ E)). erewrite bind_Some by reflexivity.
  unfold session_unref, load_obj. rewrite ?bind_assoc. erewrite bind_Some by reflexivity. cbn [tn_objs up_set up_count].
  rewrite ?bind_assoc. erewrite bind_Some by (unfold lift_opt; rewrite Ho; reflexivity).
  unfold hev_task_mutex_lock. rewrite ?bind_assoc. erewrite bind_Some by reflexivity. cbn [tn_locked up_count up_set]. rewrite Hl.
  erewrite bind_Some by reflexivity. rewrite ?bind_assoc. erewrite bind_Some by reflexivity. rewrite ?bind_assoc. erewrite bind_Some by reflexivity.
  erewrite bind_Some by reflexivity. eexists. split; [reflexivity|]. split; [|done].
  assert (forall b, b ∈ (l1 ++ l2).*1 -> b <> a) as Hne.
  { intros b Hb ->. rewrite fmap_app in Hb. apply elem_of_app in Hb as [Hb|Hb]; [by apply Hn1|by apply Hn2]. }
  assert (list_to_set (l1 ++ (a, t) :: l2).*1 ∖ {[a]} =@{gset Z} list_to_set (l1 ++ l2).*1) as Hset.
  { rewrite !fmap_app. simpl. apply set_eq. intros x. set_unfold. pose proof (Hne x) as Hx. set_unfold. naive_solver. }
  split; simpl; try done.
  - rewrite fmap_app. apply (list_rep_frame m); [exact Hm|done|done|]. intros y Hy. simpl. rewrite lookup_delete_ne; [done|].
    intros <-. apply (Hne a); [by rewrite fmap_app|done].
  - rewrite H3, !length_app. simpl. lia.
  - apply Forall_app in H4 as [H41 H42]. apply Forall_cons in H42 as [_ H42].
    assert (Forall (alive None s) (l1 ++ l2)) as H4' by (by apply Forall_app). rewrite Forall_forall in H4'. apply Forall_forall.
    intros [b tb] Hb. destruct (H4' _ Hb) as (ob & st' & Hob & Ht & Hst & Hp). exists ob, st'. simpl in *.
    assert (a <> b) by (intros <-; apply (Hne a); [apply list_elem_of_fmap; by exists (a, tb)|done]). by rewrite !lookup_delete_ne.
  - by rewrite dom_delete_L, H5.
  - by rewrite dom_delete_L, H6.
  - by rewrite dom_delete_L, Hdm, H7.
  - intros Hp Hn. apply H9; [done|]. by destruct l1, l2.
Qed.

(** Activity moves a session to the end. *)
Lemma active_ok max s r l a :
  tunnel_inv None s (AbsTunnel r l) -> a ∈ l.*1 ->
  exists s', hev_socks5_tunnel_update_session max a s = Some (tt, s') /\
    tunnel_inv None s' (spec_op max (OActive a) (AbsTunnel r l)) /\ tn_locked s' = tn_locked s.
Proof.
  intros Hi Ha. unfold hev_socks5_tunnel_update_session, spec_op. cbn [at_set at_run]. destruct (max =? 0); [by exists s|].
  destruct (inv_nodup _ _ _ Hi) as [Hnd _]. destruct (inv_entry _ _ _ _ Hi Ha) as (t & Hin & _). simpl in Hnd, Hin.
  apply list_elem_of_split in Hin as (l1 & l2 & ->). rewrite fmap_app in Hnd. apply NoDup_app in Hnd as (_ & Hd & Hn2).
  simpl in Hn2. apply NoDup_cons in Hn2 as [Hn2 _]. assert (a ∉ l1.*1) as Hn1 by (intros H; apply (Hd a H); by left).
  assert (forall l', a ∉ l'.*1 -> Forall (fun e : Z * Z => e.1 <> a) l') as Hall.
  { intros l' H. apply Forall_forall. intros e He Heq. apply H, list_elem_of_fmap. by exists e. }
  assert (forall l' : list (Z * Z), a ∉ l'.*1 -> filter (fun e => e.1 = a) l' = []) as Hnone.
  { intros l' H. specialize (Hall _ H). clear -Hall. induction Hall as [|e l' He _ IH]; [done|]. by rewrite filter_cons_False. }
  assert (filter (fun e => e.1 <> a) (l1 ++ (a, t) :: l2) ++ filter (fun e => e.1 = a) (l1 ++ (a, t) :: l2) = l1 ++ l2 ++ [(a, t)]) as ->.
  { rewrite !filter_app, filter_cons_False, filter_cons_True by (simpl; tauto). rewrite !(Hnone l1), !(Hnone l2) by done.
    rewrite (filter_all _ l1), (filter_all _ l2) by (by apply Hall). by rewrite <-app_assoc. }
  destruct Hi as [H1 H2 H3 H4 H5 H6 H7 H8 H9]. simpl in *. rewrite fmap_app in H2. simpl in H2.
  destruct (list_move_dom _ _ _ _ H2) as (m & E & Hm & Hdm). apply bind_Some_inv in E as ([] & m1 & E1 & E2).
  rewrite (bind_Some _ _ _ _ _ (on_set_run _ s _ _ E1)), (on_set_run _ (up_set m1 s) _ _ E2).
  eexists. split; [reflexivity|]. split; [|done].
  assert (list_to_set (l1 ++ (a, t) :: l2).*1 =@{gset Z} list_to_set (l1 ++ l2 ++ [(a, t)]).*1) as Hset.
  { rewrite !fmap_app. simpl. set_solver. }
  split; simpl; try done.
  - rewrite !fmap_app. exact Hm.
  - rewrite H3, !length_app. simpl. lia.
  - apply Forall_app in H4 as [H41 H42]. apply Forall_cons in H42 as [H4a H42]. repeat (apply Forall_app; split; [done|]). by apply Forall_singleton.
  - by rewrite <-Hset.
  - by rewrite <-Hset.
  - by rewrite Hdm, <-Hset.
  - intros Hp _. apply H9; [done|]. by destruct l1.
Qed.

(** The end of the tunnel terminates every session. *)
Lemma terminate_loop_ok fuel s r l1 l2 :
  tunnel_inv None s (AbsTunnel r (l1 ++ l2)) -> (length l2 < fuel)%nat ->
  exists s', terminate_loop fuel (first_or l2.*1 NULL) s = Some (tt, s') /\
    tunnel_inv None s' (AbsTunnel r (l1 ++ (give_timeout 0 <$> l2))) /\ tn_locked s' = tn_locked s.
Proof.
  revert s l1 l2. induction fuel as [|fuel IH]; intros s l1 l2 Hi Hfuel; [lia|]. cbn [terminate_loop].
  destruct l2 as [|[a t] l2]; [by exists s|]. change (first_or ((a, t) :: l2).*1 NULL) with a. simpl in Hfuel.
  destruct (inv_nodup _ _ _ Hi) as [Hnd Hnz]. simpl in Hnd, Hnz.
  assert (a ∈ (l1 ++ (a, t) :: l2).*1) as Ha by (rewrite fmap_app; set_solver).
  destruct (Z.eqb_spec a NULL) as [->|_]; [done|].
  destruct (terminate_ok None s r _ a Hi Ha) as (s1 & E1 & Hi1 & Hs1 & Hl1 & _); [done|]. rewrite (bind_Some _ _ _ _ _ E1).
  rewrite fmap_app in Hnd. apply NoDup_app in Hnd as (_ & Hd & Hn2). simpl in Hn2. apply NoDup_cons in Hn2 as [Hn2 _].
  assert (a ∉ l1.*1) as Hn1 by (intros H; apply (Hd a H); by left).
  assert (give_one a 0 (l1 ++ (a, t) :: l2) = (l1 ++ [give_timeout 0 (a, t)]) ++ l2) as Heq.
  { transitivity (give_one a 0 l1 ++ give_one a 0 ((a, t) :: l2)); [apply fmap_app|].
    rewrite give_one_other, give_one_first by done. by rewrite <-app_assoc. }
  rewrite Heq in Hi1. pose proof (ti_list _ _ _ Hi1) as Hm. simpl in Hm. rewrite <-app_assoc, fmap_app in Hm. simpl in Hm.
  assert (hev_list_node_next a (tn_set s1) = Some (first_or l2.*1 NULL, tn_set s1)) as Hnx.
  { unfold hev_list_node_next, bind, lload. by rewrite (list_node_links _ _ _ _ Hm). }
  rewrite (bind_Some _ _ _ _ _ (on_set_run _ _ _ _ Hnx)).
  replace (up_set (tn_set s1) s1) with s1 by (by destruct s1).
  destruct (IH s1 (l1 ++ [give_timeout 0 (a, t)]) l2 Hi1) as (s2 & E2 & Hi2 & Hl2); [lia|].
  exists s2. rewrite E2. split; [done|]. split; [|congruence]. rewrite <-app_assoc in Hi2. exact Hi2.
Qed.

Lemma stop_ok s r l :
  tunnel_inv None s (AbsTunnel r l) ->
  exists s', event_task_entry s = Some (tt, s') /\ tunnel_inv None s' (AbsTunnel false (give_timeout 0 <$> l)) /\ tn_locked s' = tn_locked s.
Proof.
  intros Hi. assert (tunnel_inv None (up_run false s) (AbsTunnel false ([] ++ l))) as Hi0.
  { destruct Hi as [H1 H2 H3 H4 H5 H6 H7 H8 H9]. by split. }
  unfold event_task_entry. erewrite bind_Some by reflexivity. erewrite bind_Some by reflexivity.
  pose proof (list_rep_first _ _ (ti_list _ _ _ Hi0)) as Hf.
  rewrite (bind_Some _ _ _ _ _ (on_set_run hev_list_first (up_run false s) _ _ Hf)).
  apply (terminate_loop_ok _ (up_run false s) false [] l Hi0). simpl.
  rewrite <-size_dom, (ti_nodes _ _ _ Hi). simpl. destruct (inv_nodup _ _ _ Hi) as [Hn _]. simpl in Hn.
  rewrite size_list_to_set by done. rewrite length_fmap. lia.
Qed.

Lemma accept_ok max s l err alloc task :
  tunnel_inv None s l -> allowed (OAccept err alloc task) l -> max = 0 \/ 2 <= max ->
  exists r s', tcp_accept_handler max err alloc task s = Some (r, s') /\ tunnel_inv None s' (spec_op max (OAccept err alloc task) l) /\
    tn_locked s' = tn_locked s.
Proof.
  intros Hi Hal Hmax. destruct l as [r l]. unfold tcp_accept_handler. cbn [spec_op at_run at_set].
  destruct (Z.eqb_spec err ERR_OK) as [->|He]; cbn [negb andb]; [|by destruct alloc; eexists _, _].
  erewrite bind_Some by reflexivity. rewrite (ti_run _ _ _ Hi). cbn [at_run]. destruct r; [|by destruct alloc; eexists _, _]. cbn [negb].
  destruct alloc as [a|]; [|by eexists _, _]. destruct Hal as [(Hz & Ha & Hlen) Htask]. simpl in Ha, Hlen, Htask. rewrite Htask by done.
  rewrite (bind_Some _ _ _ _ _ (session_new_fresh a TYPE_TCP s)). destruct (Z.eqb_spec a NULL) as [->|_]; [done|].
  destruct (start_ok max s l a TYPE_TCP Hi Hz Ha Hlen Hmax) as (s' & E & Hi' & Hl). cbn [negb].
  rewrite (bind_Some _ _ _ _ _ E). by eexists _, _.
Qed.

Lemma udp_ok max s l dns v4 faddr fport addr port type alloc task :
  tunnel_inv None s l -> allowed (OUdp dns v4 faddr fport addr port type alloc task) l -> max = 0 \/ 2 <= max ->
  exists r s', udp_recv_handler max dns v4 faddr fport addr port type alloc task s = Some (r, s') /\
    tunnel_inv None s' (spec_op max (OUdp dns v4 faddr fport addr port type alloc task) l) /\ tn_locked s' = tn_locked s.
Proof.
  intros Hi Hal Hmax. destruct l as [r l]. unfold udp_recv_handler. cbn [spec_op at_run at_set].
  erewrite bind_Some by reflexivity. rewrite (ti_run _ _ _ Hi). cbn [at_run]. destruct r; [|by destruct alloc; eexists _, _]. cbn [negb andb].
  destruct (dns && v4 && ((fport =? port) && (faddr =? addr))) eqn:Edns; cbn [negb]; [by destruct alloc; eexists _, _|].
  destruct alloc as [a|]; [|by eexists _, _]. destruct Hal as [(Hz & Ha & Hlen) Htask]. simpl in Ha, Hlen. rewrite Htask by done.
  rewrite (bind_Some _ _ _ _ _ (session_new_fresh a type s)). destruct (Z.eqb_spec a NULL) as [->|_]; [done|].
  destruct (start_ok max s l a type Hi Hz Ha Hlen Hmax) as (s' & E & Hi' & Hl). cbn [negb].
  rewrite (bind_Some _ _ _ _ _ E). by eexists _, _.
Qed.

Lemma inv_timer s l t a :
  tunnel_inv None s l -> (at_run l = true -> t <> TASK_STOPPED) -> (at_set l <> [] -> t = TASK_WAITING -> a = true) ->
  tunnel_inv None (up_timer t a s) l.
Proof. intros [H1 H2 H3 H4 H5 H6 H7 H8 H9] Ht Ha. split; simpl; done. Qed.

Lemma timer_ok s l :
  tunnel_inv None s l -> tn_locked s = false ->
  exists s', lwip_timer_task_entry s = Some (tt, s') /\ tunnel_inv None s' l /\ tn_locked s' = false.
Proof.
  intros Hi Hl. unfold lwip_timer_task_entry. erewrite bind_Some by reflexivity. rewrite (ti_run _ _ _ Hi).
  destruct (at_run l) eqn:Er; cbn [negb].
  - unfold hev_task_mutex_lock. rewrite bind_assoc. erewrite bind_Some by reflexivity. rewrite Hl.
    erewrite bind_Some by reflexivity. erewrite bind_Some by reflexivity. cbn [up_locked].
    pose proof (list_rep_first _ _ (ti_list _ _ _ Hi)) as Hf.
    erewrite bind_Some by (apply on_set_run; exact Hf). eexists. split; [reflexivity|]. split; [|done].
    apply (inv_timer (up_set _ _)); [by destruct Hi; split|done|]. intros Hn _.
    destruct (inv_nodup _ _ _ Hi) as [_ Hz]. destruct (at_set l) as [|[a t] l']; [done|]. simpl in Hz |- *. unfold first_or. simpl.
    destruct (Z.eqb_spec a NULL) as [->|]; [|done]. destruct Hz. by left.
  - eexists. split; [reflexivity|]. split; [|done]. apply inv_timer; [done|by rewrite Er|done].
Qed.

Lemma wakeup_timer_ok s l :
  tunnel_inv None s l -> tn_timer s <> TASK_STOPPED ->
  exists s', wakeup_timer s = Some (tt, s') /\ tunnel_inv None s' l /\ tn_locked s' = tn_locked s.
Proof.
  intros Hi Ht. unfold wakeup_timer. erewrite bind_Some by reflexivity.
  assert (hev_task_wakeup (tn_timer s) = Some TASK_RUNNING) as Hw by (by destruct (tn_timer s)).
  erewrite bind_Some by (unfold lift_opt; rewrite Hw; reflexivity). eexists. split; [reflexivity|]. split; [|done]. by apply inv_timer.
Qed.

Lemma run_op_ok max o s l :
  tunnel_inv None s l -> tn_locked s = false -> allowed o l -> max = 0 \/ 2 <= max ->
  exists s', run_op max o s = Some (tt, s') /\ tunnel_inv None s' (spec_op max o l) /\ tn_locked s' = false.
Proof.
  intros Hi Hl Hal Hmax. destruct o as [err alloc task|dns v4 faddr fport addr port type alloc task|a|a|a t|a|a| | | |]; cbn [run_op].
  - destruct (accept_ok max (up_locked true s) l err alloc task (inv_locked _ _ _ _ Hi) Hal Hmax) as (r & s' & E & Hi' & _).
    rewrite (bind_Some _ _ _ _ _ (with_lock_ok _ _ _ _ Hl E)). eexists. split; [reflexivity|]. split; [by apply inv_locked|done].
  - destruct (udp_ok max (up_locked true s) l dns v4 faddr fport addr port type alloc task (inv_locked _ _ _ _ Hi) Hal Hmax) as (r & s' & E & Hi' & _).
    rewrite (bind_Some _ _ _ _ _ (with_lock_ok _ _ _ _ Hl E)). eexists. split; [reflexivity|]. split; [by apply inv_locked|done].
  - destruct l as [r l]. by apply done_ok.
  - destruct l as [r l]. destruct (active_ok max s r l a Hi Hal) as (s' & E & Hi' & Hl'). exists s'. by rewrite Hl'.
  - destruct (inv_entry _ _ _ _ Hi Hal) as (t0 & _ & o & st & Ho & _). simpl in Ho. unfold load_obj. rewrite bind_assoc.
    erewrite bind_Some by reflexivity. erewrite bind_Some by (unfold lift_opt; rewrite Ho; reflexivity).
    eexists. split; [reflexivity|]. split; [|done]. destruct l as [r l]. by apply inv_timeout.
  - destruct (inv_entry _ _ _ _ Hi Hal) as (t0 & _ & o & st & _ & _ & Hst & _). simpl in Hst. unfold load_task. rewrite bind_assoc.
    erewrite bind_Some by reflexivity. erewrite bind_Some by (unfold lift_opt; rewrite Hst; reflexivity).
    eexists. split; [reflexivity|]. split; [|done]. by apply (inv_task None None).
  - destruct (inv_entry _ _ _ _ Hi Hal) as (t0 & _ & o & st & _ & _ & Hst & Hp). simpl in Hst, Hp. unfold load_task. rewrite bind_assoc.
    erewrite bind_Some by reflexivity. erewrite bind_Some by (unfold lift_opt; rewrite Hst; reflexivity).
    assert (hev_task_wakeup st = Some TASK_RUNNING) as Hw by (destruct st; [by specialize (Hp eq_refl)|done..]).
    erewrite bind_Some by (unfold lift_opt; rewrite Hw; reflexivity).
    eexists. split; [reflexivity|]. split; [|done]. by apply (inv_task None None).
  - erewrite bind_Some by reflexivity. destruct (tn_timer s); [by exists s|by apply timer_ok|by exists s].
  - erewrite bind_Some by reflexivity. erewrite bind_Some by reflexivity. destruct (tn_timer s) eqn:Et; [by exists s|by exists s|].
    destruct (tn_alarm s); [|by exists s]. destruct (wakeup_timer_ok s l Hi) as (s' & E & Hi' & Hl'); [by rewrite Et|]. exists s'. by rewrite Hl'.
  - destruct l as [r l]. destruct (stop_ok s r l Hi) as (s' & E & Hi' & Hl'). exists s'. by rewrite Hl'.
  - unfold hev_task_join. erewrite bind_Some by reflexivity.
    destruct (tn_timer s) eqn:Et; [by exists s|destruct (wakeup_timer_ok s l Hi) as (s' & E & Hi' & Hl'); [by rewrite Et|]; exists s'; by rewrite Hl'..].
Qed.

Lemma run_ops_ok max os s l :
  tunnel_inv None s l -> tn_locked s = false -> all_allowed max os l -> max = 0 \/ 2 <= max ->
  exists s', run_ops max os s = Some (tt, s') /\ tunnel_inv None s' (spec_run max os l) /\ tn_locked s' = false.
Proof.
  intros Hi Hl Hal Hmax. revert s l Hi Hl Hal. induction os as [|o os IH]; intros s l Hi Hl Hal; [by exists s|].
  destruct Hal as [Ho Hos]. destruct (run_op_ok max o s l Hi Hl Ho Hmax) as (s1 & E1 & Hi1 & Hl1).
  destruct (IH s1 _ Hi1 Hl1 Hos) as (s2 & E2 & Hi2 & Hl2). exists s2. cbn [run_ops]. by rewrite (bind_Some _ _ _ _ _ E1).
Qed.

(** ** After the stop *)

Lemma filter_keeps {A} (P Q : A -> Prop) `{!forall x, Decision (P x)} (l : list A) : Forall Q l -> Forall Q (filter P l).
Proof. rewrite !Forall_forall. intros Hl x [_ Hx]%list_elem_of_filter. by apply Hl. Qed.

(** A stopped set: every session is terminated, and comes from [ks]. *)
Definition stopped (ks : list Z) (l : abs_tunnel) : Prop :=
  at_run l = false /\ Forall (fun e => e.2 = 0 /\ e.1 ∈ ks) (at_set l).

Lemma stopped_op max o l ks : stopped ks l -> stopped ks (spec_op max o l) /\ (length (at_set (spec_op max o l)) <= length (at_set l))%nat.
Proof.
  intros [Hr Hall]. destruct l as [r l]. simpl in *. subst r.
  destruct o as [err [a|] task|dns v4 faddr fport addr port type [a|] task|a|a|a t|a|a| | | |]; simpl; try (by repeat split).
  - rewrite andb_false_r. by repeat split.
  - repeat split; [by apply filter_keeps|apply length_filter].
  - destruct (max =? 0); [by repeat split|]. repeat split; [apply Forall_app; split; by apply filter_keeps|].
    simpl. rewrite length_app. clear. induction l as [|e l IH]; [done|]. rewrite !filter_cons.
    repeat case_decide; simpl in *; try done; lia.
  - repeat split; simpl; [|by rewrite length_fmap]. rewrite Forall_fmap. eapply Forall_impl; [exact Hall|]. intros [b tb] [Hb Hin]. simpl in *.
    subst tb. by case_decide.
  - repeat split; simpl; [|by rewrite length_fmap]. rewrite Forall_fmap. eapply Forall_impl; [exact Hall|]. intros [b tb] [Hb Hin]. simpl in *.
    by subst tb.
Qed.

Lemma stopped_run max os l ks :
  stopped ks l -> stopped ks (spec_run max os l) /\ (length (at_set (spec_run max os l)) <= length (at_set l))%nat /\
    forall a, ODone a ∈ os -> a ∉ (at_set (spec_run max os l)).*1.
Proof.
  revert l. induction os as [|o os IH]; intros l Hs; [split_and!; [done|done|by intros a Ha%elem_of_nil]|].
  destruct (stopped_op max o l ks Hs) as [Hs1 Hl1]. destruct (IH _ Hs1) as (Hs2 & Hl2 & Hd). simpl. split_and!; [done|lia|].
  intros a [<-|Ha]%elem_of_cons; [|by apply Hd].
  assert (stopped ((at_set (spec_op max (ODone a) l)).*1) (spec_op max (ODone a) l)) as Hs3.
  { destruct Hs1 as [Hr1 Hall1]. split; [done|]. rewrite Forall_forall in Hall1. apply Forall_forall. intros e He. split; [by apply Hall1|].
    apply list_elem_of_fmap. by exists e. }
  assert (stopped (at_set (spec_op max (ODone a) l)).*1 (spec_run max os (spec_op max (ODone a) l))) as [_ Hall].
  { clear -Hs3. revert Hs3. generalize ((at_set (spec_op max (ODone a) l)).*1) as ks. generalize (spec_op max (ODone a) l) as l0.
    induction os as [|o os IH]; intros l0 ks Hs; [done|]. simpl. apply IH. by apply stopped_op. }
  intros Hin. apply list_elem_of_fmap in Hin as ([b tb] & -> & Hin). rewrite Forall_forall in Hall. destruct (Hall _ Hin) as [_ Hk].
  simpl in Hk. apply list_elem_of_fmap in Hk as ([c tc] & -> & Hk). apply list_elem_of_filter in Hk as [Hk _]. by simpl in Hk.
Qed.
