(* ===== verification/SessionSetTheorems.v ===== *)
(** * Theorems on the sessions of the tunnel (hev-socks5-tunnel.c)

    The set of sessions implements an abstract list ordered by activity, its
    operations never touch a freed session or wake an ended task, a stop ends every
    session for good, and what a cap, a cap of one session or the lack of memory for a task
    do instead. *)

From S2P Require Import Prelude RBTree HevList Socks5Client TunnelSessions.

(** C6: The session set implements its abstract specification.  With no cap or one of at least two, any sequence of
    connections, datagrams, ends and activity of sessions, timeouts, sleeps, wakeups,
    timer turns and stops, in which a session that is made finds memory for its task, runs without touching a freed session and without waking a
    task that has ended; afterwards the set holds exactly the live sessions, least
    recently active first, with their count and their timeouts as the specification
    says, nothing else is allocated, and while
    there are sessions the timers of the TCP/IP stack do not wait without end.  The specification does not bound the
    set: a session that comes when there are as many as the cap gives the first of the set a timeout of zero, and that
    one stays until its task has ended ([session_cap_is_no_bound]). *)
Theorem session_set_refines max os s l :
  max = 0 \/ 2 <= max -> tunnel_inv None s l -> tn_locked s = false -> all_allowed max os l ->
  exists s', run_ops max os s = Some (tt, s') /\ tunnel_inv None s' (spec_run max os l) /\ tn_locked s' = false.
Proof. intros Hmax Hi Hl Hal. by apply run_ops_ok. Qed.

(** The tunnel at its start, with the task of the timers running. *)
Definition new_tunnel : tunnel := Tunnel true (LMem NULL NULL ∅) 0 ∅ ∅ TASK_RUNNING false false.

Lemma new_tunnel_inv : tunnel_inv None new_tunnel (AbsTunnel true []).
Proof. by split; try apply list_rep_empty. Qed.

(** Three connections on a tunnel for two sessions. *)
Definition busy_day : list op :=
  [OTimer; OAccept 0 (Some 16) true; OTimer; OUdp true true 1 53 1 53 TYPE_UDP_IN_UDP (Some 48) false; OAccept 0 (Some 32) true; OActive 16;
   OTimeout 32 60000; OSleep 32; OWake 16; ODone 16; OAccept 0 (Some 16) true; OAlarm].

Lemma busy_day_allowed : all_allowed 2 busy_day (AbsTunnel true []).
Proof. by apply (bool_decide_unpack _). Qed.

Lemma session_set_refines_witness :
  exists s', run_ops 2 busy_day new_tunnel = Some (tt, s') /\ tunnel_inv None s' (AbsTunnel true [(32, 0); (16, -1)]).
Proof.
  destruct (session_set_refines 2 busy_day new_tunnel (AbsTunnel true [])) as (s' & E & Hi & _).
  - right. lia.
  - exact new_tunnel_inv.
  - reflexivity.
  - exact busy_day_allowed.
  - exists s'. split; [exact E|exact Hi].
Defined.

(** C15: A stop ends every session for good.  Whatever happens after the event task
    has stopped the tunnel, no session is added, the timeout of every session that is
    left is zero and stays so (its next wait ends it), and once their tasks are done
    nothing is left.  Neither allocation of an object nor of a task matters then. *)
Theorem session_stop_is_final max os s r l :
  max = 0 \/ 2 <= max -> tunnel_inv None s (AbsTunnel r l) -> tn_locked s = false ->
  all_allowed max (OStop :: os) (AbsTunnel r l) ->
  exists s', run_ops max (OStop :: os) s = Some (tt, s') /\ tn_run s' = false /\ tn_count s' <= tn_count s /\
    (forall a o, tn_objs s' !! a = Some o -> s5_timeout o = 0 /\ is_Some (tn_objs s !! a)) /\
    ((forall a, a ∈ l.*1 -> ODone a ∈ os) -> tn_objs s' = ∅ /\ tn_tasks s' = ∅ /\ tn_count s' = 0).
Proof.
  intros Hmax Hi Hl Hal. destruct (run_ops_ok max (OStop :: os) s _ Hi Hl Hal Hmax) as (s' & E & Hi' & _). exists s'. split; [done|].
  simpl in Hi'. assert (stopped l.*1 (AbsTunnel false (give_timeout 0 <$> l))) as Hs0.
  { split; [done|]. simpl. rewrite Forall_fmap. apply Forall_forall. intros [b tb] Hb. simpl. split; [by case_match|].
    apply list_elem_of_fmap. by exists (b, tb). }
  destruct (stopped_run max os _ _ Hs0) as ([Hr Hall] & Hlen & Hdone). simpl in Hlen. rewrite length_fmap in Hlen.
  set (l' := spec_run max os (AbsTunnel false (give_timeout 0 <$> l))) in *.
  assert (forall a o, tn_objs s' !! a = Some o -> exists t, (a, t) ∈ at_set l' /\ s5_timeout o = t) as Hobj.
  { intros a o Ho. assert (a ∈ (at_set l').*1) as Ha.
    { assert (a ∈ dom (tn_objs s')) as Hd by (apply elem_of_dom; by eexists). rewrite (ti_objs _ _ _ Hi') in Hd. by apply elem_of_list_to_set in Hd. }
    destruct (inv_entry _ _ _ _ Hi' Ha) as (t & Hin & o' & st & Ho' & Ht & _). simpl in *. exists t. split; [done|]. congruence. }
  rewrite Forall_forall in Hall. split_and!.
  - by rewrite (ti_run _ _ _ Hi').
  - rewrite (ti_count _ _ _ Hi'), (ti_count _ _ _ Hi). simpl. lia.
  - intros a o Ho. destruct (Hobj a o Ho) as (t & Hin & Ht). destruct (Hall _ Hin) as [Hz Hk]. simpl in *. split; [congruence|].
    apply elem_of_dom. rewrite (ti_objs _ _ _ Hi). simpl. by apply elem_of_list_to_set.
  - intros Hd. assert (at_set l' = []) as Hnil.
    { destruct (at_set l') as [|[a t] l2] eqn:El; [done|]. destruct (Hall (a, t)) as [_ Hk]; [by left|]. simpl in Hk.
      destruct (Hdone a (Hd a Hk)). simpl. by left. }
    split_and!; [apply dom_empty_inv_L; by rewrite (ti_objs _ _ _ Hi'), Hnil|apply dom_empty_inv_L; by rewrite (ti_tasks _ _ _ Hi'), Hnil|].
    by rewrite (ti_count _ _ _ Hi'), Hnil.
Qed.

Lemma session_stop_is_final_witness :
  exists s', run_ops 0 [OStop; OTimeout 16 300000; ODone 16; OAccept 0 (Some 64) false; ODone 32]
      (match run_ops 0 [OAccept 0 (Some 16) true; OAccept 0 (Some 32) true] new_tunnel with Some (_, s) => s | None => new_tunnel end) = Some (tt, s') /\
    tn_objs s' = ∅ /\ tn_count s' = 0.
Proof.
  destruct (session_set_refines 0 [OAccept 0 (Some 16) true; OAccept 0 (Some 32) true] new_tunnel (AbsTunnel true [])) as (s & Es & Hs & Hls).
  - by left.
  - exact new_tunnel_inv.
  - reflexivity.
  - by apply (bool_decide_unpack _).
  - rewrite Es. destruct (session_stop_is_final 0 [OTimeout 16 300000; ODone 16; OAccept 0 (Some 64) false; ODone 32] s true [(16, -1); (32, -1)])
      as (s' & E & _ & _ & _ & Hd).
    + by left.
    + exact Hs.
    + exact Hls.
    + by apply (bool_decide_unpack _).
    + exists s'. split; [exact E|]. destruct Hd as (H1 & _ & H3); [|split; [exact H1|exact H3]].
      intros a Ha. apply list_elem_of_In in Ha. simpl in Ha. destruct Ha as [<-|[<-|[]]]; apply list_elem_of_In; simpl; tauto.
Defined.

(** The cap is no bound.  With a cap of two or more any number of connections can be accepted before a session ends:
    each beyond the cap terminates the first session of the set, which is the same one each time, and all others go on. *)
Definition accepts (n : nat) : list op := (fun i => OAccept ERR_OK (Some (Z.of_nat i)) true) <$> seq 1 n.

Lemma accepts_spec max n :
  exists t, spec_run max (accepts n) (AbsTunnel true []) = AbsTunnel true (match n with O => [] | S m => (1, t) :: ((fun i => (Z.of_nat i, -1)) <$> seq 2 m) end) /\
    (max <> 0 -> (2 <= n)%nat -> max <= Z.of_nat n -> t = 0).
Proof.
  induction n as [|n (t & IH & Ht)]; [exists 0; by split; [|lia]|]. unfold accepts in *. rewrite seq_S, fmap_app. unfold spec_run in *. rewrite foldl_app, IH.
  cbn [fmap list_fmap foldl spec_op at_run at_set]. rewrite Z.eqb_refl. cbn [andb]. unfold spec_start.
  destruct n as [|n].
  { exists (if (max =? 0) || (1 <? max) then -1 else 0). split; [|lia]. change (Z.of_nat (length ([] ++ [(Z.of_nat (1 + 0), -1)]))) with 1. by destruct (_ || _). }
  rewrite seq_S, fmap_app. cbn [fmap list_fmap app length]. rewrite length_app, length_fmap, length_seq. cbn [length].
  replace (Z.of_nat (S (n + 1))) with (Z.of_nat (S (S n))) by lia. destruct ((max =? 0) || (Z.of_nat (S (S n)) <? max)) eqn:E.
  - exists t. split; [done|]. intros. apply orb_prop in E as [E%Z.eqb_eq|E%Z.ltb_lt]; lia.
  - exists 0. split; [|done]. assert (give_timeout 0 (1, t) = (1, 0)) as Hg by (unfold give_timeout; simpl; by destruct (t =? 0)). simpl. by rewrite Hg.
Qed.

Lemma accepts_allowed max n : Z.of_nat n < 2147483647 -> all_allowed max (accepts n) (AbsTunnel true []).
Proof.
  assert (forall os1 os2 l, all_allowed max os1 l -> all_allowed max os2 (spec_run max os1 l) -> all_allowed max (os1 ++ os2) l) as Happ.
  { induction os1 as [|o os1 IH]; [done|]. intros os2 l [Ho H1] H2. split; [done|]. by apply IH. }
  induction n as [|n IH]; [done|]. intros Hn. unfold accepts in *. rewrite seq_S, fmap_app. apply Happ; [apply IH; lia|]. split; [|done].
  destruct (accepts_spec max n) as (t & Hs & _). unfold accepts in Hs. rewrite Hs. split; [|done]. unfold new_object. simpl at_set. destruct n as [|n]; [split_and!; [done|apply not_elem_of_nil|simpl; lia]|].
  split_and!; [unfold NULL; lia| |simpl; rewrite length_fmap, length_seq; lia]. csimpl. rewrite <-list_fmap_compose.
  intros [E|(i & E & Hi%elem_of_seq)%list_elem_of_fmap]%elem_of_cons; simpl in *; lia.
Qed.

Theorem session_cap_is_no_bound max n :
  2 <= max -> max <= Z.of_nat n < 2147483647 ->
  exists s', run_ops max (accepts n) new_tunnel = Some (tt, s') /\ tn_count s' = Z.of_nat n /\
    forall i, (1 <= i <= n)%nat -> exists o, tn_objs s' !! Z.of_nat i = Some o /\ s5_timeout o = if (i =? 1)%nat then 0 else -1.
Proof.
  intros Hmax Hn. destruct (run_ops_ok max (accepts n) new_tunnel (AbsTunnel true [])) as (s' & E & Hi & _); [exact new_tunnel_inv|done|apply accepts_allowed; lia|by right|].
  destruct (accepts_spec max n) as (t & Hs & Ht). rewrite Hs in Hi. rewrite Ht in Hi by lia. exists s'. split; [done|].
  destruct n as [|n]; [lia|]. split; [rewrite (ti_count _ _ _ Hi); simpl; rewrite length_fmap, length_seq; lia|]. intros i Hir.
  pose proof (ti_alive _ _ _ Hi) as Hal. rewrite Forall_forall in Hal.
  destruct (Hal (Z.of_nat i, if (i =? 1)%nat then 0 else -1)) as (o & st & Ho & Hto & _); [|by exists o].
  simpl. destruct (Nat.eqb_spec i 1) as [->|]; [by left|]. right. apply list_elem_of_fmap. exists i. split; [done|]. apply elem_of_seq. lia.
Qed.

Lemma session_cap_is_no_bound_witness : exists s', run_ops 2 (accepts 5) new_tunnel = Some (tt, s') /\ tn_count s' = 5.
Proof. destruct (session_cap_is_no_bound 2 5) as (s' & E & H & _); [lia..|]. exists s'. split; [exact E|exact H]. Defined.

(** A cap of one session aborts the process.  With the option for the number of
    sessions at one (or a negative number), the first connection terminates itself:
    it is the oldest session of the set before its task is started, and waking a task
    that is not started aborts. *)
Theorem session_cap_one_aborts max s a :
  max <> 0 -> max <= 1 -> tunnel_inv None s (AbsTunnel true []) -> a <> NULL ->
  tcp_accept_handler max ERR_OK (Some a) true s = None.
Proof.
  intros H0 H1 Hi Hz. destruct (link_ok s true [] a TYPE_TCP Hi Hz) as (m & E & Hi1); [by intros ?%elem_of_nil|].
  unfold tcp_accept_handler. rewrite Z.eqb_refl. cbn [negb]. erewrite bind_Some by reflexivity. rewrite (ti_run _ _ _ Hi). cbn [at_run negb].
  rewrite (bind_Some _ _ _ _ _ (session_new_fresh a TYPE_TCP s)). destruct (Z.eqb_spec a NULL) as [->|_]; [done|]. cbn [negb].
  unfold session_start, hev_socks5_tunnel_insert_session. rewrite ?bind_assoc. erewrite bind_Some by reflexivity.
  rewrite ?bind_assoc. erewrite bind_Some by (apply on_set_run; exact E). rewrite ?bind_assoc. erewrite bind_Some by reflexivity.
  cbn [tn_count up_set up_tasks up_objs]. rewrite (ti_count _ _ _ Hi). cbn [at_set length].
  rewrite ?bind_assoc. erewrite bind_Some by reflexivity. rewrite ?bind_assoc. erewrite bind_Some by reflexivity.
  rewrite (proj2 (Z.eqb_neq max 0)) by done. cbn [orb]. rewrite (proj2 (Z.ltb_ge _ max)) by lia.
  pose proof (list_rep_first _ _ (ti_list _ _ _ Hi1)) as Hf.
  rewrite ?bind_assoc. erewrite bind_Some by (apply on_set_run; exact Hf). change (first_or _ NULL) with a.
  unfold bind at 1. by erewrite terminate_stopped by (simpl; by rewrite lookup_insert_eq).
Qed.

Lemma session_cap_one_aborts_witness : tcp_accept_handler 1 0 (Some 16) true new_tunnel = None.
Proof.
  apply (session_cap_one_aborts 1 new_tunnel 16).
  - lia.
  - lia.
  - exact new_tunnel_inv.
  - discriminate.
Defined.

(** Without memory for a task the tunnel hangs.  When a session was made and no
    task can be, the callback drops the session; its destructor takes the lock that
    the task calling back from the stack holds already, and never gets it. *)
Theorem session_no_task_hangs max s a dns v4 faddr fport addr port type :
  tn_run s = true -> a <> NULL -> dns && v4 && ((fport =? port) && (faddr =? addr)) = false ->
  with_lock (tcp_accept_handler max ERR_OK (Some a) false) s = None /\
  with_lock (udp_recv_handler max dns v4 faddr fport addr port type (Some a) false) s = None.
Proof.
  intros Hr Hz Hdns. unfold with_lock. destruct (tn_locked s) eqn:Hl; [by split; unfold hev_task_mutex_lock, bind, gets; rewrite Hl|].
  assert (forall A B (c : TN A) (k : A -> TN B), c (up_locked true s) = None ->
    (hev_task_mutex_lock;; bind c k) s = None) as Hlock.
  { intros A B c k Hc. unfold hev_task_mutex_lock, bind, gets, modify. rewrite Hl. by rewrite Hc. }
  assert (forall ty, session_unref a (up_set (tn_set (fresh a ty (up_locked true s))) (up_objs (tn_objs (fresh a ty (up_locked true s))) (up_locked true s))) = None) as Hu.
  { intros ty. unfold session_unref, load_obj, hev_task_mutex_lock, bind, gets, lift_opt. simpl. by rewrite lookup_insert_eq. }
  split; apply Hlock.
  - unfold tcp_accept_handler. rewrite Z.eqb_refl. cbn [negb]. erewrite bind_Some by reflexivity. cbn [tn_run up_locked]. rewrite Hr. cbn [negb].
    rewrite (bind_Some _ _ _ _ _ (session_new_fresh a TYPE_TCP _)). destruct (Z.eqb_spec a NULL) as [->|_]; [done|]. cbn [negb].
    unfold bind. by rewrite Hu.
  - unfold udp_recv_handler. erewrite bind_Some by reflexivity. cbn [tn_run up_locked]. rewrite Hr, Hdns. cbn [negb].
    rewrite (bind_Some _ _ _ _ _ (session_new_fresh a type _)). destruct (Z.eqb_spec a NULL) as [->|_]; [done|]. cbn [negb].
    unfold bind. by rewrite Hu.
Qed.

Lemma session_no_task_hangs_witness : with_lock (tcp_accept_handler 0 0 (Some 16) false) new_tunnel = None.
Proof.
  apply (session_no_task_hangs 0 new_tunnel 16 false false 0 0 0 0 TYPE_UDP_IN_TCP).
  - reflexivity.
  - discriminate.
  - reflexivity.
Defined.
