(* ===== verification/TunnelInit.v ===== *)
(** * Setting the tunnel up and taking it down (hev-socks5-tunnel.c)

    The handles that [hev_socks5_tunnel_init] fills step by step and
    [hev_socks5_tunnel_fini] empties, also after a failure in the middle.  Every
    resource that is open is in a ledger; releasing one that is not open is a
    fault. *)

From S2P Require Import Prelude RBTree MappedDNS Config ConfigWf.

(** ** State *)

(** What is acquired and released: descriptors, the network interface, the pcbs of
    lwip and the tasks by their addresses, and the cache of names. *)
Inductive resource := RFd (fd : Z) | RNetif | RPcb (p : Z) | RTask (p : Z) | RDns.

#[export] Instance resource_eq_dec : EqDecision resource.
Proof. solve_decision. Defined.

(** The static variables; NULL pointers are [None].  [tn_scripts]: what was run, and
    whether for the end. *)
Record handles := Handles {
  tn_fd : Z; tn_fd_local : bool; tn_netif : bool; tn_tcp : option Z; tn_udp : option Z; tn_event_fds : Z * Z;
  tn_task_event : option Z; tn_task_io : option Z; tn_task_timer : option Z; tn_dns : option mdns;
  tn_open : list resource; tn_scripts : list (list Z * bool)
}.

Abbreviation HM := (M handles).

Definition up_fd v s := Handles v (tn_fd_local s) (tn_netif s) (tn_tcp s) (tn_udp s) (tn_event_fds s) (tn_task_event s) (tn_task_io s) (tn_task_timer s) (tn_dns s) (tn_open s) (tn_scripts s).
Definition up_fd_local v s := Handles (tn_fd s) v (tn_netif s) (tn_tcp s) (tn_udp s) (tn_event_fds s) (tn_task_event s) (tn_task_io s) (tn_task_timer s) (tn_dns s) (tn_open s) (tn_scripts s).
Definition up_netif v s := Handles (tn_fd s) (tn_fd_local s) v (tn_tcp s) (tn_udp s) (tn_event_fds s) (tn_task_event s) (tn_task_io s) (tn_task_timer s) (tn_dns s) (tn_open s) (tn_scripts s).
Definition up_tcp v s := Handles (tn_fd s) (tn_fd_local s) (tn_netif s) v (tn_udp s) (tn_event_fds s) (tn_task_event s) (tn_task_io s) (tn_task_timer s) (tn_dns s) (tn_open s) (tn_scripts s).
Definition up_udp v s := Handles (tn_fd s) (tn_fd_local s) (tn_netif s) (tn_tcp s) v (tn_event_fds s) (tn_task_event s) (tn_task_io s) (tn_task_timer s) (tn_dns s) (tn_open s) (tn_scripts s).
Definition up_event_fds v s := Handles (tn_fd s) (tn_fd_local s) (tn_netif s) (tn_tcp s) (tn_udp s) v (tn_task_event s) (tn_task_io s) (tn_task_timer s) (tn_dns s) (tn_open s) (tn_scripts s).
Definition up_task_event v s := Handles (tn_fd s) (tn_fd_local s) (tn_netif s) (tn_tcp s) (tn_udp s) (tn_event_fds s) v (tn_task_io s) (tn_task_timer s) (tn_dns s) (tn_open s) (tn_scripts s).
Definition up_task_io v s := Handles (tn_fd s) (tn_fd_local s) (tn_netif s) (tn_tcp s) (tn_udp s) (tn_event_fds s) (tn_task_event s) v (tn_task_timer s) (tn_dns s) (tn_open s) (tn_scripts s).
Definition up_task_timer v s := Handles (tn_fd s) (tn_fd_local s) (tn_netif s) (tn_tcp s) (tn_udp s) (tn_event_fds s) (tn_task_event s) (tn_task_io s) v (tn_dns s) (tn_open s) (tn_scripts s).
Definition up_dns v s := Handles (tn_fd s) (tn_fd_local s) (tn_netif s) (tn_tcp s) (tn_udp s) (tn_event_fds s) (tn_task_event s) (tn_task_io s) (tn_task_timer s) v (tn_open s) (tn_scripts s).
Definition up_open v s := Handles (tn_fd s) (tn_fd_local s) (tn_netif s) (tn_tcp s) (tn_udp s) (tn_event_fds s) (tn_task_event s) (tn_task_io s) (tn_task_timer s) (tn_dns s) v (tn_scripts s).
Definition up_scripts v s := Handles (tn_fd s) (tn_fd_local s) (tn_netif s) (tn_tcp s) (tn_udp s) (tn_event_fds s) (tn_task_event s) (tn_task_io s) (tn_task_timer s) (tn_dns s) (tn_open s) v.

(** Opening gives a resource that is not open; releasing needs one that is. *)
Definition acquire (r : resource) : HM unit := modify (fun s => up_open (r :: tn_open s) s).
Definition release (r : resource) : HM unit :=
  let* l := gets tn_open in
  if decide (r ∈ l) then modify (up_open (filter (.≠ r) l)) else fail.

(** ** The answers of the system *)

(** Of every call of the initialisation: whether it succeeds, and the handle it gives. *)
Record init_env := {
  ie_nonblock : bool; ie_tunnel : option Z; ie_mtu : bool; ie_ipv4 : bool; ie_ipv6 : bool; ie_state : bool;
  ie_netif : bool; ie_tcp : option Z; ie_listen : option Z; ie_udp : option Z;
  ie_pair : option (Z * Z); ie_event_nonblock : bool;
  ie_task_event : option Z; ie_task_io : option Z; ie_task_timer : option Z; ie_dns : bool
}.

Section init.
Context (e : init_env) (c : config).

(** A call that returns a negative number on failure, on a setting that may be absent. *)
Definition set_address (get : config -> option (option (list Z))) (ok : bool) : HM Z :=
  let* v := lift_opt (get c) in
  match v with Some _ => ret (if ok then 0 else -1) | None => ret 0 end.

Definition run_script (get : config -> option (option (list Z))) (down : bool) : HM unit :=
  let* p := lift_opt (get c) in
  match p with Some p => modify (fun s => up_scripts (tn_scripts s ++ [(p, down)]) s) | None => ret tt end.

Definition tunnel_init (extern_tun_fd : Z) : HM Z :=
  if 0 <=? extern_tun_fd then
    if negb (ie_nonblock e) then ret (-1) else
    modify (up_fd extern_tun_fd);;
    ret 0
  else
  modify (up_fd_local true);;
  let* _ := lift_opt (hev_config_get_tunnel_name c) in
  match ie_tunnel e with
  | None => modify (up_fd (-1));; ret (-1)
  | Some fd =>
    acquire (RFd fd);;
    modify (up_fd fd);;
    if negb (ie_mtu e) then ret (-1) else
    let* res := set_address hev_config_get_tunnel_ipv4_address (ie_ipv4 e) in
    if res <? 0 then ret (-1) else
    let* res := set_address hev_config_get_tunnel_ipv6_address (ie_ipv6 e) in
    if res <? 0 then ret (-1) else
    if negb (ie_state e) then ret (-1) else
    run_script hev_config_get_tunnel_post_up_script false;;
    ret 0
  end.

Definition tunnel_fini : HM unit :=
  let* l := gets tn_fd_local in
  if negb l then ret tt else
  run_script hev_config_get_tunnel_pre_down_script true;;
  let* fd := gets tn_fd in
  if 0 <=? fd then
    release (RFd fd);;
    modify (up_fd_local false);;
    modify (up_fd (-1))
  else ret tt.

(** [tcp_listen] gives a new, smaller pcb and frees the old one, unless there is no
    memory; its result is not checked. *)
Definition gateway_init : HM Z :=
  if negb (ie_netif e) then modify (up_netif false);; ret (-1) else
  acquire RNetif;;
  modify (up_netif true);;
  match ie_tcp e with
  | None => modify (up_tcp None);; ret (-1)
  | Some p =>
    acquire (RPcb p);;
    modify (up_tcp (Some p));;
    (match ie_listen e with
     | Some q => release (RPcb p);; acquire (RPcb q);; modify (up_tcp (Some q))
     | None => modify (up_tcp None)
     end);;
    match ie_udp e with
    | None => modify (up_udp None);; ret (-1)
    | Some u => acquire (RPcb u);; modify (up_udp (Some u));; ret 0
    end
  end.

Definition gateway_fini : HM unit :=
  let* u := gets tn_udp in
  (match u with Some u => release (RPcb u);; modify (up_udp None) | None => ret tt end);;
  let* t := gets tn_tcp in
  (match t with Some t => release (RPcb t);; modify (up_tcp None) | None => ret tt end);;
  let* n := gets tn_netif in
  if n : bool then release RNetif;; modify (up_netif false) else ret tt.

Definition event_task_init : HM Z :=
  match ie_pair e with
  | None => ret (-1)
  | Some (a, b) =>
    acquire (RFd a);; acquire (RFd b);;
    modify (up_event_fds (a, b));;
    if negb (ie_event_nonblock e) then ret (-1) else
    match ie_task_event e with
    | None => modify (up_task_event None);; ret (-1)
    | Some t => acquire (RTask t);; modify (up_task_event (Some t));; ret 0
    end
  end.

Definition event_task_fini : HM unit :=
  let* t := gets tn_task_event in
  (match t with Some t => release (RTask t);; modify (up_task_event None) | None => ret tt end);;
  let* p := gets tn_event_fds in
  (if 0 <=? p.1 then release (RFd p.1);; modify (fun s => up_event_fds (-1, (tn_event_fds s).2) s) else ret tt);;
  if 0 <=? p.2 then release (RFd p.2);; modify (fun s => up_event_fds ((tn_event_fds s).1, -1) s) else ret tt.

Definition lwip_io_task_init : HM Z :=
  match ie_task_io e with
  | None => modify (up_task_io None);; ret (-1)
  | Some t => acquire (RTask t);; modify (up_task_io (Some t));; ret 0
  end.

Definition lwip_io_task_fini : HM unit :=
  let* t := gets tn_task_io in
  match t with Some t => release (RTask t);; modify (up_task_io None) | None => ret tt end.

Definition lwip_timer_task_init : HM Z :=
  match ie_task_timer e with
  | None => modify (up_task_timer None);; ret (-1)
  | Some t => acquire (RTask t);; modify (up_task_timer (Some t));; ret 0
  end.

Definition lwip_timer_task_fini : HM unit :=
  let* t := gets tn_task_timer in
  match t with Some t => release (RTask t);; modify (up_task_timer None) | None => ret tt end.

(** [hev_mapped_dns_new] on [ie_dns]: whether there is memory for the cache. *)
Definition mapped_dns_init : HM Z :=
  let network := hev_config_get_mapdns_network c in
  let netmask := hev_config_get_mapdns_netmask c in
  let cache_size := hev_config_get_mapdns_cache_size c in
  if cache_size =? 0 then ret 0 else
  match (if ie_dns e then hev_mapped_dns_construct network netmask cache_size else None) with
  | None => ret (-1)
  | Some dns => acquire RDns;; modify (up_dns (Some dns));; ret 0
  end.

Definition mapped_dns_fini : HM unit :=
  let* d := gets tn_dns in
  match d with
  | Some dns =>
    let* _ := lift_opt (hev_mapped_dns_destruct dns) in
    release RDns;;
    modify (up_dns None)
  | None => ret tt
  end.

(** Behind the wait for the threads that stop the tunnel. *)
Definition hev_socks5_tunnel_fini : HM unit :=
  mapped_dns_fini;;
  lwip_timer_task_fini;;
  lwip_io_task_fini;;
  event_task_fini;;
  gateway_fini;;
  tunnel_fini.

(** The steps in order, up to the first that fails. *)
Fixpoint init_steps (steps : list (HM Z)) : HM bool :=
  match steps with
  | [] => ret true
  | step :: steps =>
    let* res := step in
    if res <? 0 then ret false else init_steps steps
  end.

Definition hev_socks5_tunnel_init (tun_fd : Z) : HM Z :=
  let* ok := init_steps [tunnel_init tun_fd; gateway_init; event_task_init; lwip_io_task_init; lwip_timer_task_init; mapped_dns_init] in
  if ok : bool then ret 0 else
  hev_socks5_tunnel_fini;;
  ret (-1).
End init.

(** ** What the handles own *)

Definition own {A} (f : A -> resource) (o : option A) : list resource := match o with Some x => [f x] | None => [] end.
Definition own_fd (fd : Z) : list resource := if 0 <=? fd then [RFd fd] else [].

(** Latest first.  [K] is what no handle owns any more: the pcb that [tcp_listen] could not replace. *)
Definition owned (K : list resource) (s : handles) : list resource :=
  own (fun _ => RDns) (tn_dns s) ++ own RTask (tn_task_timer s) ++ own RTask (tn_task_io s) ++ own RTask (tn_task_event s) ++
  own_fd (tn_event_fds s).2 ++ own_fd (tn_event_fds s).1 ++ own RPcb (tn_udp s) ++ K ++ own RPcb (tn_tcp s) ++
  (if tn_netif s then [RNetif] else []) ++ (if tn_fd_local s then own_fd (tn_fd s) else []).

(** The ledger holds what the handles own, once, [K] and [L]. *)
Definition balanced (K L : list resource) (s : handles) : Prop := tn_open s = owned K s ++ L /\ NoDup (owned K s ++ L).

(** The pcb that is lost when there is no memory for the one that listens. *)
Definition lost_pcb (e : init_env) : list resource := match ie_listen e with Some _ => [] | None => own RPcb (ie_tcp e) end.

(** The cache can be destroyed. *)
Definition dns_sound (s : handles) : Prop := forall d, tn_dns s = Some d -> exists lru, md_inv d lru.

(** Nothing is held, except that the mark of an own device may be left. *)
Record closed (s : handles) : Prop := {
  cl_netif : tn_netif s = false; cl_tcp : tn_tcp s = None; cl_udp : tn_udp s = None; cl_fds : tn_event_fds s = (-1, -1);
  cl_event : tn_task_event s = None; cl_io : tn_task_io s = None; cl_timer : tn_task_timer s = None; cl_dns : tn_dns s = None;
  cl_fd : tn_fd_local s = true -> tn_fd s < 0
}.
