(* ===== verification/TunnelInitTheorems.v ===== *)
(** * What is set up is taken down (hev-socks5-tunnel.c)

    One equation per step of the taking down, and for each step of the setting up
    what it adds to the ledger; from these the theorem that the two balance,
    whatever the system answers, but for the pcb that a failing [tcp_listen] loses. *)

From S2P Require Import Prelude RBTree DnsMessage MappedDNS Config ConfigWf ConfigTheorems TunnelInit.

(** ** The ledger *)

Lemma release_in K r l s : tn_open s = K ++ r :: l -> NoDup (K ++ r :: l) -> release r s = Some (tt, up_open (K ++ l) s).
Proof.
  intros Ho Hnd. apply NoDup_app in Hnd as (_ & Hk & [Hr _]%NoDup_cons). unfold release. erewrite bind_Some by reflexivity.
  rewrite Ho, decide_True by (apply elem_of_app; right; by left). rewrite filter_app, filter_cons_False by tauto.
  rewrite !filter_all; [done|..]; apply Forall_forall; [by intros x Hx ->|]. intros x Hx ->. apply (Hk r Hx). by left.
Qed.

Lemma release_head r l s : tn_open s = r :: l -> r ∉ l -> release r s = Some (tt, up_open l s).
Proof.
  intros Ho Hr. unfold release. erewrite bind_Some by reflexivity. rewrite Ho, decide_True by (by left).
  rewrite filter_cons_False by tauto. rewrite filter_all; [done|]. apply Forall_forall. by intros x Hx ->.
Qed.

(** The settings can be read. *)
Lemma string_readable n b : blk_ok n b -> (0 < n)%nat -> exists v, string_or_null b = Some v.
Proof.
  intros (Hl & Hb & Hz) Hn. unfold string_or_null.
  destruct (c_str_found b (n - 1)) as (v & Hv & _); [done|lia|by apply nth_lookup_Some|].
  destruct b as [|x b]; [simpl in Hl; lia|]. rewrite Hv. rewrite (peek1_at (x :: b) 0 x [] b) by done. cbn [mbind option_bind]. destruct (x =? 0); by eexists.
Qed.

(** ** Taking down, step by step

    A step removes what its handles own from the head of the ledger. *)

Ltac drops := intros; repeat match goal with H : NoDup (_ :: _) |- _ => apply NoDup_cons in H as [? H] end.

Section fini.
Context (c : config) (Hc : config_wf c).

Lemma mapped_dns_fini_ok fd l n t u p te ti tm d X sc :
  (forall m, d = Some m -> exists lru, md_inv m lru) -> NoDup (own (fun _ => RDns) d ++ X) ->
  mapped_dns_fini (Handles fd l n t u p te ti tm d (own (fun _ => RDns) d ++ X) sc) = Some (tt, Handles fd l n t u p te ti tm None X sc).
Proof.
  intros Hd Hnd. destruct d as [m|]; [|done]. destruct (Hd m eq_refl) as [lru Hi]. destruct (destruct_ok m lru Hi) as (m' & Hm & _).
  unfold mapped_dns_fini. erewrite bind_Some by reflexivity. cbn [tn_dns]. rewrite Hm. erewrite bind_Some by reflexivity.
  apply NoDup_cons in Hnd as [Hr _]. erewrite bind_Some by (by eapply release_head). done.
Qed.

Lemma lwip_timer_task_fini_ok fd l n t u p te ti tm d X sc :
  NoDup (own RTask tm ++ X) ->
  lwip_timer_task_fini (Handles fd l n t u p te ti tm d (own RTask tm ++ X) sc) = Some (tt, Handles fd l n t u p te ti None d X sc).
Proof.
  intros Hnd. destruct tm as [q|]; [|done]. apply NoDup_cons in Hnd as [Hr _].
  unfold lwip_timer_task_fini. erewrite bind_Some by reflexivity. cbn [tn_task_timer]. by erewrite bind_Some by (by eapply release_head).
Qed.

Lemma lwip_io_task_fini_ok fd l n t u p te ti tm d X sc :
  NoDup (own RTask ti ++ X) ->
  lwip_io_task_fini (Handles fd l n t u p te ti tm d (own RTask ti ++ X) sc) = Some (tt, Handles fd l n t u p te None tm d X sc).
Proof.
  intros Hnd. destruct ti as [q|]; [|done]. apply NoDup_cons in Hnd as [Hr _].
  unfold lwip_io_task_fini. erewrite bind_Some by reflexivity. cbn [tn_task_io]. by erewrite bind_Some by (by eapply release_head).
Qed.

Lemma event_task_fini_ok fd l n t u a b te ti tm d X sc :
  NoDup (own RTask te ++ own_fd b ++ own_fd a ++ X) -> (a < 0 -> a = -1) -> (b < 0 -> b = -1) ->
  event_task_fini (Handles fd l n t u (a, b) te ti tm d (own RTask te ++ own_fd b ++ own_fd a ++ X) sc) =
    Some (tt, Handles fd l n t u (-1, -1) None ti tm d X sc).
Proof.
  intros Hnd Ha Hb. unfold event_task_fini. erewrite bind_Some by reflexivity. cbn [tn_task_event].
  erewrite (bind_Some _ _ _ tt (Handles fd l n t u (a, b) None ti tm d (own_fd b ++ own_fd a ++ X) sc)).
  2: { destruct te as [q|]; [|done]. apply NoDup_cons in Hnd as [Hr _]. by erewrite bind_Some by (by eapply release_head). }
  apply NoDup_app in Hnd as (_ & _ & Hnd). erewrite bind_Some by reflexivity. cbn [tn_event_fds fst snd].
  erewrite (bind_Some _ _ _ tt (Handles fd l n t u (-1, b) None ti tm d (own_fd b ++ X) sc)).
  - unfold own_fd in *. destruct (Z.leb_spec 0 b); [|by rewrite Hb].
    apply NoDup_app in Hnd as (_ & Hrb & _). assert (RFd b ∉ X) by (intros Hin; apply (Hrb (RFd b)); [by left|apply elem_of_app; by right]).
    by erewrite bind_Some by (by eapply release_head).
  - unfold own_fd in *. destruct (Z.leb_spec 0 a); [|by rewrite Ha]. destruct (0 <=? b).
    + erewrite bind_Some by (by eapply (release_in [RFd b])). done.
    + apply NoDup_cons in Hnd as [Hr _]. erewrite bind_Some by (by eapply release_head). done.
Qed.

Lemma gateway_fini_ok K fd l (n : bool) t u p te ti tm d X sc :
  NoDup (own RPcb u ++ K ++ own RPcb t ++ (if n then [RNetif] else []) ++ X) ->
  gateway_fini (Handles fd l n t u p te ti tm d (own RPcb u ++ K ++ own RPcb t ++ (if n then [RNetif] else []) ++ X) sc) =
    Some (tt, Handles fd l false None None p te ti tm d (K ++ X) sc).
Proof.
  intros Hnd. unfold gateway_fini. erewrite bind_Some by reflexivity. cbn [tn_udp].
  erewrite (bind_Some _ _ _ tt (Handles fd l n t None p te ti tm d (K ++ own RPcb t ++ (if n then [RNetif] else []) ++ X) sc)).
  2: { destruct u as [q|]; [|done]. apply NoDup_cons in Hnd as [Hr _]. by erewrite bind_Some by (by eapply release_head). }
  apply NoDup_app in Hnd as (_ & _ & Hnd). erewrite bind_Some by reflexivity. cbn [tn_tcp].
  erewrite (bind_Some _ _ _ tt (Handles fd l n None None p te ti tm d (K ++ (if n then [RNetif] else []) ++ X) sc)).
  2: { destruct t as [q|]; [|done]. by erewrite bind_Some by (by eapply release_in). }
  assert (NoDup (K ++ (if n then [RNetif] else []) ++ X)) as Hnd2.
  { eapply sublist_NoDup; [exact Hnd|]. apply sublist_app; [done|]. by apply sublist_inserts_l. }
  erewrite bind_Some by reflexivity. cbn [tn_netif].
  destruct n; [|done]. by erewrite bind_Some by (by eapply release_in).
Qed.

Lemma run_script_ok (get : config -> option (option (list Z))) down v s :
  get c = Some v -> exists sc, run_script c get down s = Some (tt, up_scripts sc s).
Proof.
  intros Hg. unfold run_script. rewrite Hg. erewrite bind_Some by reflexivity. destruct v as [v|]; [by eexists|].
  exists (tn_scripts s). by destruct s.
Qed.

Lemma tunnel_fini_ok K fd (l : bool) t u p te ti tm d X sc n :
  NoDup (K ++ (if l then own_fd fd else []) ++ X) ->
  exists fd' l' sc', (l' = true -> fd' < 0) /\
    tunnel_fini c (Handles fd l n t u p te ti tm d (K ++ (if l then own_fd fd else []) ++ X) sc) = Some (tt, Handles fd' l' n t u p te ti tm d (K ++ X) sc').
Proof.
  intros Hnd. destruct l; [|by exists fd, false, sc].
  destruct (string_readable 1024 _ (tw_down _ (cw_tun _ Hc)) ltac:(lia)) as [v Hv].
  unfold tunnel_fini. erewrite bind_Some by reflexivity. cbn [negb tn_fd_local].
  edestruct (run_script_ok hev_config_get_tunnel_pre_down_script true v) as [sc' Hs]; [exact Hv|].
  erewrite bind_Some by exact Hs. clear Hs. erewrite bind_Some by reflexivity. cbn [tn_fd up_scripts]. unfold own_fd in *.
  destruct (Z.leb_spec 0 fd).
  - exists (-1), false, sc'. split; [done|]. by erewrite bind_Some by (by eapply release_in).
  - by exists fd, true, sc'.
Qed.

(** All of it: from a balanced ledger nothing is left but what was there before. *)
Lemma tunnel_down_ok K L s :
  balanced K L s -> dns_sound s -> (forall fd, fd = (tn_event_fds s).1 \/ fd = (tn_event_fds s).2 -> fd < 0 -> fd = -1) ->
  exists s', hev_socks5_tunnel_fini c s = Some (tt, s') /\ tn_open s' = K ++ L /\ closed s'.
Proof.
  destruct s as [fd l n t u [a b] te ti tm d op sc]. unfold balanced, dns_sound, owned. cbn [tn_event_fds tn_fd tn_fd_local tn_netif tn_tcp tn_udp tn_task_event tn_task_io tn_task_timer tn_dns tn_open tn_scripts fst snd].
  rewrite <-!app_assoc. intros [-> Hnd] Hd Hfd. unfold hev_socks5_tunnel_fini.
  erewrite bind_Some by (by apply mapped_dns_fini_ok). apply NoDup_app in Hnd as (_ & _ & Hnd).
  erewrite bind_Some by (by apply lwip_timer_task_fini_ok). apply NoDup_app in Hnd as (_ & _ & Hnd).
  erewrite bind_Some by (by apply lwip_io_task_fini_ok). apply NoDup_app in Hnd as (_ & _ & Hnd).
  erewrite bind_Some by (apply event_task_fini_ok; auto). do 3 apply NoDup_app in Hnd as (_ & _ & Hnd).
  erewrite bind_Some by (by apply gateway_fini_ok). apply NoDup_app in Hnd as (_ & _ & Hnd).
  assert (NoDup (K ++ (if l then own_fd fd else []) ++ L)) as Hnd2.
  { eapply sublist_NoDup; [exact Hnd|]. apply sublist_app; [done|]. by do 2 apply sublist_inserts_l. }
  edestruct (tunnel_fini_ok K fd l) as (fd' & l' & sc' & Hl' & ->); [done|]. eexists. split; [done|]. by split.
Qed.
End fini.

(** ** Setting up, step by step

    A step adds what its handles own at the head of the ledger, whether it fails or
    not. *)

(** What the answers of the system can give, latest first. *)
Definition res_tunnel (e : init_env) := own RFd (ie_tunnel e).
Definition res_gateway (e : init_env) := own RPcb (ie_udp e) ++ own RPcb (ie_listen e) ++ own RPcb (ie_tcp e) ++ [RNetif].
Definition res_event (e : init_env) :=
  own RTask (ie_task_event e) ++ match ie_pair e with Some (a, b) => [RFd b; RFd a] | None => [] end.
Definition resources (e : init_env) : list resource :=
  [RDns] ++ own RTask (ie_task_timer e) ++ own RTask (ie_task_io e) ++ res_event e ++ res_gateway e ++ res_tunnel e.

(** The system's answers: descriptors are not negative, and every handle is new. *)
Record env_ok (e : init_env) (L : list resource) : Prop := {
  eo_tunnel fd : ie_tunnel e = Some fd -> 0 <= fd;
  eo_pair a b : ie_pair e = Some (a, b) -> 0 <= a /\ 0 <= b;
  eo_fresh : NoDup (resources e ++ L)
}.

(** Everything is there; what listens is what [tcp_listen] gave, nothing when there was no memory for it. *)
Record up (e : init_env) (c : config) (s : handles) : Prop := {
  up_has_fd : 0 <= tn_fd s; up_has_netif : tn_netif s = true; up_has_tcp : tn_tcp s = ie_listen e; up_has_udp : is_Some (tn_udp s);
  up_has_fds : 0 <= (tn_event_fds s).1 /\ 0 <= (tn_event_fds s).2;
  up_has_tasks : is_Some (tn_task_event s) /\ is_Some (tn_task_io s) /\ is_Some (tn_task_timer s);
  up_has_dns : is_Some (tn_dns s) <-> hev_config_get_mapdns_cache_size c <> 0
}.

Definition result (z : Z) : Prop := z = 0 \/ z = -1.

Section init.
Context (e : init_env) (c : config) (L : list resource) (Hc : config_wf c) (He : env_ok e L).

Lemma set_address_ok get ok s v : get c = Some v -> exists z, set_address c get ok s = Some (z, s) /\ result z.
Proof.
  intros Hg. unfold set_address. rewrite Hg. erewrite bind_Some by reflexivity.
  destruct v, ok; eexists; (split; [reflexivity|]); by (left + right).
Qed.

Lemma tunnel_init_ok ext fd l sc :
  (l = true -> fd < 0 /\ ext < 0) ->
  exists z fd' l' sc' (own_tun := if l' : bool then own_fd fd' else []),
    tunnel_init e c ext (Handles fd l false None None (-1, -1) None None None None L sc) =
      Some (z, Handles fd' l' false None None (-1, -1) None None None None (own_tun ++ L) sc') /\
    result z /\ own_tun `sublist_of` res_tunnel e /\ (z = 0 -> 0 <= fd').
Proof.
  intros Hl. unfold tunnel_init. destruct (Z.leb_spec 0 ext).
  - destruct l; [lia|]. destruct (ie_nonblock e); [exists 0, ext, false, sc|exists (-1), fd, false, sc];
      (split_and!; [done|by (left + right)|apply sublist_nil_l|lia]).
  - pose proof (cw_tun _ Hc) as Ht. erewrite bind_Some by reflexivity.
    destruct (string_readable 64 _ (tw_name _ Ht) ltac:(lia)) as [nm Hnm]. unfold hev_config_get_tunnel_name. rewrite Hnm.
    erewrite bind_Some by reflexivity.
    destruct (ie_tunnel e) as [nfd|] eqn:Hfd.
    2: { exists (-1), (-1), true, sc. split_and!; [done|by right|apply sublist_nil_l|lia]. }
    pose proof (eo_tunnel _ _ He _ Hfd) as Hpos.
    assert (own_fd nfd = [RFd nfd]) as Hown by (unfold own_fd; by rewrite (proj2 (Z.leb_le 0 nfd))).
    assert (forall z sc', result z ->
      exists z' fd' l' sc'' (own_tun := if l' : bool then own_fd fd' else []),
        Some (z, Handles nfd true false None None (-1, -1) None None None None (RFd nfd :: L) sc') =
          Some (z', Handles fd' l' false None None (-1, -1) None None None None (own_tun ++ L) sc'') /\
        result z' /\ own_tun `sublist_of` res_tunnel e /\ (z' = 0 -> 0 <= fd')) as Hdone.
    { intros z sc' Hz. exists z, nfd, true, sc'. rewrite Hown. unfold res_tunnel. rewrite Hfd. done. }
    erewrite bind_Some by reflexivity. erewrite bind_Some by reflexivity.
    destruct (ie_mtu e); [|apply Hdone; by right]. cbn [negb].
    destruct (string_readable 16 _ (tw_ipv4 _ Ht) ltac:(lia)) as [v4 Hv4].
    destruct (string_readable 64 _ (tw_ipv6 _ Ht) ltac:(lia)) as [v6 Hv6].
    destruct (string_readable 1024 _ (tw_up _ Ht) ltac:(lia)) as [vu Hvu].
    edestruct (set_address_ok hev_config_get_tunnel_ipv4_address (ie_ipv4 e)) as (z4 & Hz4 & [-> | ->]); [exact Hv4| |];
      (erewrite bind_Some by exact Hz4); clear Hz4; [cbn [Z.ltb Z.compare]|apply Hdone; by right].
    edestruct (set_address_ok hev_config_get_tunnel_ipv6_address (ie_ipv6 e)) as (z6 & Hz6 & [-> | ->]); [exact Hv6| |];
      (erewrite bind_Some by exact Hz6); clear Hz6; [cbn [Z.ltb Z.compare]|apply Hdone; by right].
    destruct (ie_state e); [|apply Hdone; by right]. cbn [negb].
    edestruct (run_script_ok c hev_config_get_tunnel_post_up_script false) as [sc' Hs]; [exact Hvu|].
    erewrite bind_Some by exact Hs. apply Hdone. by left.
Qed.

Lemma gateway_init_ok fd l X sc :
  NoDup (res_gateway e ++ X) ->
  exists K z n t u (new := own RPcb u ++ K ++ own RPcb t ++ (if n : bool then [RNetif] else [])),
    gateway_init e (Handles fd l false None None (-1, -1) None None None None X sc) =
      Some (z, Handles fd l n t u (-1, -1) None None None None (new ++ X) sc) /\
    result z /\ new `sublist_of` res_gateway e /\ (z = -1 /\ K = [] \/ K = lost_pcb e) /\ (z = 0 -> n = true /\ t = ie_listen e /\ is_Some u).
Proof.
  unfold gateway_init, res_gateway, lost_pcb. intros Hnd. destruct (ie_netif e); cbn [negb].
  2: { exists [], (-1), false, None, None. split_and!; [done|by right|apply sublist_nil_l|by left|lia]. }
  erewrite bind_Some by reflexivity. erewrite bind_Some by reflexivity.
  destruct (ie_tcp e) as [p|].
  2: { exists [], (-1), true, None, None. split_and!; [done|by right| |by left|lia]. simpl. by repeat apply sublist_inserts_l. }
  erewrite bind_Some by reflexivity. erewrite bind_Some by reflexivity.
  destruct (ie_listen e) as [q|].
  - erewrite (bind_Some _ _ _ tt (Handles fd l true (Some q) None (-1, -1) None None None None (RPcb q :: RNetif :: X) sc)).
    2: { rewrite <-!app_assoc in Hnd. apply NoDup_app in Hnd as (_ & _ & Hnd). apply NoDup_cons in Hnd as [_ Hnd].
         apply NoDup_cons in Hnd as [Hr _]. by erewrite bind_Some by (by eapply release_head). }
    destruct (ie_udp e) as [u|].
    + exists [], 0, true, (Some q), (Some u). split_and!; [done|by left| |by right|done]. simpl. by repeat constructor.
    + exists [], (-1), true, (Some q), None. split_and!; [done|by right| |by left|lia]. simpl. by repeat constructor.
  - erewrite bind_Some by reflexivity. destruct (ie_udp e) as [u|].
    + exists [RPcb p], 0, true, None, (Some u). split_and!; [done|by left|done|by right|done].
    + exists [RPcb p], (-1), true, None, None. split_and!; [done|by right|done|by right|lia].
Qed.

Lemma event_task_init_ok fd l n t u X sc :
  exists z te a b (new := own RTask te ++ own_fd b ++ own_fd a),
    event_task_init e (Handles fd l n t u (-1, -1) None None None None X sc) =
      Some (z, Handles fd l n t u (a, b) te None None None (new ++ X) sc) /\
    result z /\ new `sublist_of` res_event e /\ (a < 0 -> a = -1) /\ (b < 0 -> b = -1) /\ (z = 0 -> is_Some te /\ 0 <= a /\ 0 <= b).
Proof.
  unfold event_task_init, res_event. destruct (ie_pair e) as [[a b]|] eqn:Hp.
  2: { exists (-1), None, (-1), (-1). split_and!; [done|by right|apply sublist_nil_l|lia..]. }
  destruct (eo_pair _ _ He _ _ Hp) as [Ha Hb].
  assert (own_fd b ++ own_fd a = [RFd b; RFd a]) as Hown.
  { unfold own_fd. by rewrite (proj2 (Z.leb_le 0 a)), (proj2 (Z.leb_le 0 b)). }
  do 3 erewrite bind_Some by reflexivity. destruct (ie_event_nonblock e); cbn [negb]; [destruct (ie_task_event e) as [q|]|].
  - exists 0, (Some q), a, b. rewrite Hown. split_and!; [done|by left|done|lia|lia|done].
  - exists (-1), None, a, b. rewrite Hown. split_and!; [done|by right|done|lia|lia|lia].
  - exists (-1), None, a, b. rewrite Hown. split_and!; [done|by right| |lia..]. simpl. by apply sublist_inserts_l.
Qed.

Lemma lwip_io_task_init_ok fd l n t u p te X sc :
  exists z ti, lwip_io_task_init e (Handles fd l n t u p te None None None X sc) =
      Some (z, Handles fd l n t u p te ti None None (own RTask ti ++ X) sc) /\
    result z /\ own RTask ti `sublist_of` own RTask (ie_task_io e) /\ (z = 0 -> is_Some ti).
Proof.
  unfold lwip_io_task_init. destruct (ie_task_io e) as [q|]; [exists 0, (Some q)|exists (-1), None]; by (split_and!; [|by (left + right)|..]).
Qed.

Lemma lwip_timer_task_init_ok fd l n t u p te ti X sc :
  exists z tm, lwip_timer_task_init e (Handles fd l n t u p te ti None None X sc) =
      Some (z, Handles fd l n t u p te ti tm None (own RTask tm ++ X) sc) /\
    result z /\ own RTask tm `sublist_of` own RTask (ie_task_timer e) /\ (z = 0 -> is_Some tm).
Proof.
  unfold lwip_timer_task_init. destruct (ie_task_timer e) as [q|]; [exists 0, (Some q)|exists (-1), None]; by (split_and!; [|by (left + right)|..]).
Qed.

Lemma mapped_dns_init_ok fd l n t u p te ti tm X sc :
  0 <= hev_config_get_mapdns_cache_size c ->
  exists z d, mapped_dns_init e c (Handles fd l n t u p te ti tm None X sc) =
      Some (z, Handles fd l n t u p te ti tm d (own (fun _ => RDns) d ++ X) sc) /\
    result z /\ own (fun _ => RDns) d `sublist_of` [RDns] /\ (forall m, d = Some m -> exists lru, md_inv m lru) /\
    (z = 0 -> is_Some d <-> hev_config_get_mapdns_cache_size c <> 0).
Proof.
  intros Hs. unfold mapped_dns_init. destruct (Z.eqb_spec (hev_config_get_mapdns_cache_size c) 0) as [H0|H0].
  { exists 0, None. split_and!; [done|by left|apply sublist_nil_l|done|]. intros _. split; [by intros [? ?]|done]. }
  destruct (if ie_dns e then _ else None) as [m|] eqn:Hm.
  - exists 0, (Some m). destruct (ie_dns e); [|done]. apply construct_ok in Hm as [Hm _]; [|lia].
    split_and!; [done|by left|done|by intros ? [= <-]; eexists|done].
  - exists (-1), None. by (split_and!; [|right|apply sublist_nil_l|..]).
Qed.

(** *** All the steps *)

(** Whatever was reached: the ledger balances, and on success everything is up.  [K] is lost. *)
Definition init_settled (K : list resource) (ok : bool) (s : handles) : Prop :=
  balanced K L s /\ (ok = false /\ K = [] \/ K = lost_pcb e) /\ dns_sound s /\ (forall fd, fd = (tn_event_fds s).1 \/ fd = (tn_event_fds s).2 -> fd < 0 -> fd = -1) /\
  (ok = true -> up e c s).

Lemma settle K ok fd l n t u a b te ti tm d X sc :
  X = owned K (Handles fd l n t u (a, b) te ti tm d X sc) ++ L -> X `sublist_of` resources e ++ L ->
  (forall m, d = Some m -> exists lru, md_inv m lru) -> (a < 0 -> a = -1) -> (b < 0 -> b = -1) ->
  (ok = false /\ K = [] \/ K = lost_pcb e) -> (ok = true -> up e c (Handles fd l n t u (a, b) te ti tm d X sc)) ->
  exists K, init_settled K ok (Handles fd l n t u (a, b) te ti tm d X sc).
Proof.
  intros HX Hsub Hd Ha Hb HK Hup. exists K. split_and!; [|done|done|by intros x [-> | ->]|done]. split; [done|]. simpl in HX. rewrite <-HX.
  eapply sublist_NoDup; [apply (eo_fresh _ _ He)|done].
Qed.

Lemma init_steps_cons step steps s z s' (Q : bool -> handles -> Prop) :
  step s = Some (z, s') -> result z -> (z = -1 -> Q false s') -> (z = 0 -> wp (init_steps steps) Q s') ->
  wp (init_steps (step :: steps)) Q s.
Proof. intros Hs Hz Hf Ht. cbn [init_steps]. unfold wp. erewrite bind_Some by done. destruct Hz as [-> | ->]; simpl; [by apply Ht|by apply Hf]. Qed.

Lemma init_settles ext fd l sc :
  (l = true -> fd < 0 /\ ext < 0) -> 0 <= hev_config_get_mapdns_cache_size c ->
  wp (init_steps [tunnel_init e c ext; gateway_init e; event_task_init e; lwip_io_task_init e; lwip_timer_task_init e; mapped_dns_init e c])
    (fun ok s => exists K, init_settled K ok s) (Handles fd l false None None (-1, -1) None None None None L sc).
Proof.
  intros Hl Hcs. pose proof (eo_fresh _ _ He) as Hnd. unfold resources in Hnd. rewrite <-!app_assoc in Hnd.
  assert (resources e ++ L = [RDns] ++ own RTask (ie_task_timer e) ++ own RTask (ie_task_io e) ++ res_event e ++ res_gateway e ++ res_tunnel e ++ L)
    as Hres by (unfold resources; by rewrite <-!app_assoc).
  assert (forall R1 R2 k : list resource, R1 `sublist_of` R2 -> R1 `sublist_of` k ++ R2) as Hin by (intros; by apply sublist_inserts_l).
  destruct (tunnel_init_ok ext fd l sc Hl) as (z1 & fd' & l' & sc' & H1 & Hz1 & S1 & U1).
  pose proof (sublist_app _ _ _ _ S1 (reflexivity L)) as T1.
  eapply init_steps_cons; [exact H1|done|intros -> |intros ->].
  { apply (settle []); try done; [|by left]. rewrite Hres. auto 10. }
  edestruct gateway_init_ok as (K & z2 & n & t & u & H2 & Hz2 & S2 & HK & U2).
  { do 4 apply NoDup_app in Hnd as (_ & _ & Hnd). eapply sublist_NoDup; [exact Hnd|]. apply sublist_app; [done|exact T1]. }
  pose proof (sublist_app _ _ _ _ S2 T1) as T2.
  eapply init_steps_cons; [exact H2|done|intros -> |intros ->].
  { apply (settle K); try done; [unfold owned; simpl; by rewrite <-!app_assoc| |tauto]. rewrite Hres. auto 10. }
  edestruct event_task_init_ok as (z3 & te & a & b & H3 & Hz3 & S3 & Ha & Hb & U3).
  pose proof (sublist_app _ _ _ _ S3 T2) as T3.
  eapply init_steps_cons; [exact H3|done|intros -> |intros ->].
  { apply (settle K); try done; [unfold owned; simpl; by rewrite <-!app_assoc| |tauto]. rewrite Hres. auto 10. }
  edestruct lwip_io_task_init_ok as (z4 & ti & H4 & Hz4 & S4 & U4).
  pose proof (sublist_app _ _ _ _ S4 T3) as T4.
  eapply init_steps_cons; [exact H4|done|intros -> |intros ->].
  { apply (settle K); try done; [unfold owned; simpl; by rewrite <-!app_assoc| |tauto]. rewrite Hres. auto 10. }
  edestruct lwip_timer_task_init_ok as (z5 & tm & H5 & Hz5 & S5 & U5).
  pose proof (sublist_app _ _ _ _ S5 T4) as T5.
  eapply init_steps_cons; [exact H5|done|intros -> |intros ->].
  { apply (settle K); try done; [unfold owned; simpl; by rewrite <-!app_assoc| |tauto]. rewrite Hres. auto 10. }
  edestruct mapped_dns_init_ok as (z6 & d & H6 & Hz6 & S6 & Hd & U6); [done|].
  pose proof (sublist_app _ _ _ _ S6 T5) as T6.
  eapply init_steps_cons; [exact H6|done|intros -> |intros ->].
  { apply (settle K); try done; [unfold owned; simpl; by rewrite <-!app_assoc|by rewrite Hres|tauto]. }
  apply wp_ret, (settle K); try done; [unfold owned; simpl; by rewrite <-!app_assoc|by rewrite Hres|right; destruct HK as [[? _]|]; done|].
  intros _. destruct (U2 eq_refl) as (? & ? & ?), (U3 eq_refl) as (? & ? & ?). split; simpl; auto.
Qed.
End init.

(** ** The theorem *)

(** C16: Setting the tunnel up and taking it down balance, but for the pcb that is lost without memory to listen.
    From a state in which nothing is held, with a descriptor of the caller only when no mark of an own device was left, with
    a proper configuration and a cache size that is not negative, and whatever of the calls of the system fails,
    [hev_socks5_tunnel_init] ends: either with -1, nothing held and
    the ledger as before (but for the pcb below), or with 0, everything up and the ledger being
    what was open before and what the handles own, no resource released twice on the way.  The result of [tcp_listen] is not checked:
    when only this call fails the start succeeds too, without a listener, and the pcb it was given ([lost_pcb]) stays in the
    ledger, whatever comes after; nothing else is ever lost.  After a success,
    [hev_socks5_tunnel_fini] (with the cache of names as the run left it) gives
    every other resource back exactly once. *)
Theorem tunnel_init_balanced e c L s ext :
  config_wf c -> 0 <= hev_config_get_mapdns_cache_size c -> closed s -> tn_open s = L -> (tn_fd_local s = true -> ext < 0) -> env_ok e L ->
  exists z s' K, hev_socks5_tunnel_init e c ext s = Some (z, s') /\
    ((z = -1 /\ (K = [] \/ K = lost_pcb e) /\ closed s' /\ tn_open s' = K ++ L) \/
     (z = 0 /\ K = lost_pcb e /\ up e c s' /\ balanced K L s' /\ dns_sound s' /\
      forall d, is_Some d <-> is_Some (tn_dns s') -> dns_sound (up_dns d s') ->
        exists s'', hev_socks5_tunnel_fini c (up_dns d s') = Some (tt, s'') /\ closed s'' /\ tn_open s'' = K ++ L)).
Proof.
  intros Hc Hcs Hcl <- Hl He. destruct s as [fd l n t u p te ti tm d op sc], Hcl as [? ? ? ? ? ? ? ? Hfd]. simpl in *. subst.
  destruct (wp_elim _ _ _ (init_settles e c op Hc He ext fd l sc ltac:(auto) Hcs)) as (ok & s' & Hi & K & Hbal & HK & Hd & Hfds & Hup).
  unfold hev_socks5_tunnel_init. erewrite bind_Some by exact Hi. destruct ok.
  - exists 0, s', K. split; [done|]. right. destruct HK as [[? _]|HK]; [done|]. split_and!; auto. intros d Hiff Hm.
    edestruct (tunnel_down_ok c Hc K op (up_dns d s')) as (s'' & H1 & H2 & H3); [| | |by eexists].
    + destruct Hbal as [Ho Hnd]. assert (owned K (up_dns d s') = owned K s') as Heq.
      { unfold owned. simpl. f_equal. destruct d, (tn_dns s'); try done; [destruct Hiff as [[x Hx] _]|destruct Hiff as [_ [x Hx]]]; (by eexists) || done. }
      unfold balanced. by rewrite Heq.
    + exact Hm.
    + exact Hfds.
  - destruct (tunnel_down_ok c Hc K op s' Hbal Hd Hfds) as (s'' & H1 & H2 & H3). erewrite bind_Some by exact H1. exists (-1), s'', K.
    split; [done|]. left. split_and!; try done. by destruct HK as [[_ ?]|?]; [left|right].
Qed.

(** The handles as the program starts, and a system in which every call succeeds. *)
Definition cold_handles : handles := Handles (-1) false false None None (-1, -1) None None None None [RFd 3] [].

Definition all_well : init_env :=
  {| ie_nonblock := true; ie_tunnel := Some 5; ie_mtu := true; ie_ipv4 := true; ie_ipv6 := true; ie_state := true;
     ie_netif := true; ie_tcp := Some 100; ie_listen := Some 101; ie_udp := Some 102; ie_pair := Some (6, 7);
     ie_event_nonblock := true; ie_task_event := Some 200; ie_task_io := Some 201; ie_task_timer := Some 202; ie_dns := true |}.

(** With a cache of four names in 198.18.0.0/24. *)
Definition dns_config : config := set_mp_cache_size 4 (set_mp_netmask (-256) (set_mp_network (-971898880) cold_config)).

Lemma dns_config_wf : config_wf dns_config.
Proof. assert (config_wf cold_config) as [] by (apply reset_wf; split; apply blk_zero; lia). by split. Qed.

(** Without memory for the pcb that listens. *)
Definition no_listen : init_env :=
  {| ie_nonblock := true; ie_tunnel := Some 5; ie_mtu := true; ie_ipv4 := true; ie_ipv6 := true; ie_state := true;
     ie_netif := true; ie_tcp := Some 100; ie_listen := None; ie_udp := Some 102; ie_pair := Some (6, 7);
     ie_event_nonblock := true; ie_task_event := Some 200; ie_task_io := Some 201; ie_task_timer := Some 202; ie_dns := true |}.

Lemma tunnel_init_balanced_witness :
  (exists s', hev_socks5_tunnel_init all_well dns_config (-1) cold_handles = Some (0, s') /\ up all_well dns_config s' /\
    length (tn_open s') = 11%nat /\
    exists s'', hev_socks5_tunnel_fini dns_config s' = Some (tt, s'') /\ closed s'' /\ tn_open s'' = [RFd 3]) /\
  exists s', hev_socks5_tunnel_init no_listen dns_config (-1) cold_handles = Some (0, s') /\ up no_listen dns_config s' /\
    exists s'', hev_socks5_tunnel_fini dns_config s' = Some (tt, s'') /\ closed s'' /\ tn_open s'' = [RPcb 100; RFd 3].
Proof.
  assert (forall e, env_ok e [RFd 3] -> (hev_socks5_tunnel_init e dns_config (-1) cold_handles ≫= fun r => Some r.1) = Some 0 ->
    exists s', hev_socks5_tunnel_init e dns_config (-1) cold_handles = Some (0, s') /\ up e dns_config s' /\
      exists s'', hev_socks5_tunnel_fini dns_config s' = Some (tt, s'') /\ closed s'' /\ tn_open s'' = lost_pcb e ++ [RFd 3]) as H.
  { intros e He H0. destruct (tunnel_init_balanced e dns_config [RFd 3] cold_handles (-1)) as (z & s' & K & Hi & Ho).
    - exact dns_config_wf.
    - vm_compute. discriminate.
    - by split.
    - done.
    - done.
    - exact He.
    - rewrite Hi in H0. injection H0 as ->. destruct Ho as [[? _]|(_ & -> & Hup & _ & Hd & Hf)]; [done|].
      destruct (Hf (tn_dns s')) as (s'' & H2 & Hcl & Hl); [done|by destruct s'|]. exists s'. split_and!; [done|done|]. exists s''.
      split_and!; [|done|done]. by destruct s'. }
  split.
  - destruct (H all_well) as (s' & Hi & Hup & s'' & Hf & Hcl & Ho).
    + split; [by intros ? [= <-]|by intros ? ? [= <- <-]|]. apply (bool_decide_unpack _). by vm_compute.
    + by vm_compute.
    + exists s'. split_and!; [done|done| |by exists s'']. vm_compute in Hi. by injection Hi as <-.
  - destruct (H no_listen) as (s' & Hi & Hup & s'' & Hf & Hcl & Ho).
    + split; [by intros ? [= <-]|by intros ? ? [= <- <-]|]. apply (bool_decide_unpack _). by vm_compute.
    + by vm_compute.
    + exists s'. split_and!; [done|done|by exists s''].
Defined.

(** *** Where they do not balance *)

(** A device that cannot be opened leaves the mark of an own device; a next start on
    a descriptor of the caller succeeds, and the taking down closes that one. *)
Definition no_device : init_env :=
  {| ie_nonblock := true; ie_tunnel := None; ie_mtu := true; ie_ipv4 := true; ie_ipv6 := true; ie_state := true;
     ie_netif := true; ie_tcp := Some 100; ie_listen := Some 101; ie_udp := Some 102; ie_pair := Some (6, 7);
     ie_event_nonblock := true; ie_task_event := Some 200; ie_task_io := Some 201; ie_task_timer := Some 202; ie_dns := true |}.

Lemma failed_open_closes_foreign_fd :
  exists s1 s2, hev_socks5_tunnel_init no_device dns_config (-1) cold_handles = Some (-1, s1) /\
    hev_socks5_tunnel_init all_well dns_config 9 s1 = Some (0, s2) /\ tn_fd s2 = 9 /\ tn_fd_local s2 = true /\
    hev_socks5_tunnel_fini dns_config s2 = None.
Proof. do 2 eexists. split; [vm_compute; reflexivity|]. split; [vm_compute; reflexivity|]. by vm_compute. Qed.
