(* ===== verification/SessionUdp.v ===== *)
(** * A UDP session of the tunnel (hev-socks5-session-udp.c)

    One end of the session is a flow of the TCP/IP stack (lwip), whose datagrams
    arrive through a callback and are queued as frames in an intrusive list; the
    other the association with the SOCKS5 server.  Frames and packet buffers are
    objects of a heap, so that a leak, a double free and a use after free can be
    told.  What lwip answers and when its callback runs is an oracle. *)

From S2P Require Import Prelude RBTree HevList MappedDNS SocksAddr TaskSocket TaskMsg Socks5Client Socks5Udp.

Definition UDP_POOL_SIZE : Z := 512.

(** ** State *)

(** [struct _HevSocks5UDPFrame]: the node is in the list; the memory of the address,
    and the packet buffer [data] points to. *)
Record uframe := UFrame { uf_addr : list Z; uf_data : Z }.

(** [HevSocks5SessionUDP] with its sockets and what it reaches: the frames and the
    packet buffers by address (a chain is the list of its payloads), the cache of
    mapped names, the coming answers of lwip (whether [pbuf_alloc_reference] finds
    memory, and the result of [udp_sendfrom]; all well when there are no more) and
    the datagrams it took.  [us_addr]: the bytes of the [int].  [us_got]: the frames that
    were queued so far, as address block and payload. *)
Record usession := USession {
  us_udp : udp; us_list : lmem; us_frames : Z; us_mem : gmap Z uframe; us_pbufs : gmap Z (list (list Z));
  us_addr : list Z; us_port : Z; us_pcb : bool; us_names : mdns; us_lwip : list (bool * Z); us_sent : list (ip_addr * Z * list Z);
  us_got : list (list Z * list Z)
}.

Abbreviation US := (M usession).

Definition up_uudp v s := USession v (us_list s) (us_frames s) (us_mem s) (us_pbufs s) (us_addr s) (us_port s) (us_pcb s) (us_names s) (us_lwip s) (us_sent s) (us_got s).
Definition up_ulist v s := USession (us_udp s) v (us_frames s) (us_mem s) (us_pbufs s) (us_addr s) (us_port s) (us_pcb s) (us_names s) (us_lwip s) (us_sent s) (us_got s).
Definition up_uframes v s := USession (us_udp s) (us_list s) v (us_mem s) (us_pbufs s) (us_addr s) (us_port s) (us_pcb s) (us_names s) (us_lwip s) (us_sent s) (us_got s).
Definition up_umem v s := USession (us_udp s) (us_list s) (us_frames s) v (us_pbufs s) (us_addr s) (us_port s) (us_pcb s) (us_names s) (us_lwip s) (us_sent s) (us_got s).
Definition up_upbufs v s := USession (us_udp s) (us_list s) (us_frames s) (us_mem s) v (us_addr s) (us_port s) (us_pcb s) (us_names s) (us_lwip s) (us_sent s) (us_got s).
Definition up_uaddr a p s := USession (us_udp s) (us_list s) (us_frames s) (us_mem s) (us_pbufs s) a p (us_pcb s) (us_names s) (us_lwip s) (us_sent s) (us_got s).
Definition up_upcb v s := USession (us_udp s) (us_list s) (us_frames s) (us_mem s) (us_pbufs s) (us_addr s) (us_port s) v (us_names s) (us_lwip s) (us_sent s) (us_got s).
Definition up_unames v s := USession (us_udp s) (us_list s) (us_frames s) (us_mem s) (us_pbufs s) (us_addr s) (us_port s) (us_pcb s) v (us_lwip s) (us_sent s) (us_got s).
Definition up_ulwip v o s := USession (us_udp s) (us_list s) (us_frames s) (us_mem s) (us_pbufs s) (us_addr s) (us_port s) (us_pcb s) (us_names s) v (us_sent s ++ o) (us_got s).
Definition up_ugot r s := USession (us_udp s) (us_list s) (us_frames s) (us_mem s) (us_pbufs s) (us_addr s) (us_port s) (us_pcb s) (us_names s) (us_lwip s) (us_sent s) (us_got s ++ [r]).

Definition on_udp {A} (c : UM A) : US A := zoom us_udp up_uudp c.
Definition on_flist {A} (c : LM A) : US A := zoom us_list up_ulist c.
Definition on_names {A} (c : M mdns A) : US A := zoom us_names up_unames c.

Definition load_frame (a : Z) : US uframe := let* f := gets (fun s => us_mem s !! a) in lift_opt f.

(** [hev_malloc] of a frame, the list node cleared, and [hev_free] of one. *)
Definition new_frame (a : Z) (f : uframe) : US unit :=
  modify (fun s => up_ulist (LMem (l_head (us_list s)) (l_tail (us_list s)) (<[a := LNode NULL NULL]> (l_nodes (us_list s)))) s);;
  modify (fun s => up_umem (<[a := f]> (us_mem s)) s).
Definition free_frame (a : Z) : US unit :=
  let* _ := load_frame a in
  modify (fun s => up_ulist (LMem (l_head (us_list s)) (l_tail (us_list s)) (delete a (l_nodes (us_list s)))) s);;
  modify (fun s => up_umem (delete a (us_mem s)) s).

(** The first buffer of a chain. *)
Definition load_payload (p : Z) : US (list Z) :=
  let* c := gets (fun s => us_pbufs s !! p) in
  let* c := lift_opt c in
  lift_opt (head c).

(** The last reference is dropped. *)
Definition pbuf_free (p : Z) : US unit :=
  let* c := gets (fun s => us_pbufs s !! p) in
  let* _ := lift_opt c in
  modify (fun s => up_upbufs (delete p (us_pbufs s)) s).

Definition hev_socks5_session_terminate : US unit :=
  modify (fun s => up_uudp (up_base (hev_socks5_set_timeout 0) (us_udp s)) s).

(** ** The callback *)

(** [dns]: whether there is a cache of mapped names.  [alloc]: the frame that
    [hev_malloc] gives, with what its address holds at first.  [p]: NULL when the
    flow is removed. *)
Definition udp_recv_handler (dns : bool) (alloc : option (Z * list Z)) (p : option Z) (local_ip : ip_addr) (local_port : Z) : US unit :=
  match p with
  | None => hev_socks5_session_terminate
  | Some p =>
    let* n := gets us_frames in
    if UDP_POOL_SIZE <? n then pbuf_free p else
    match alloc with
    | None => pbuf_free p
    | Some (frame, mem) =>
      let* (addr, _) := on_names (hev_socks5_addr_from_lwip dns mem local_ip local_port) in
      new_frame frame (UFrame addr p);;
      let* buf := load_payload p in
      modify (up_ugot (addr, buf));;
      let* atype := lift_opt (peek1 addr 0) in
      (if atype =? HEV_SOCKS5_ADDR_TYPE_NAME then
         let* a := lift_opt (peek (ip_bytes local_ip) 0 4) in modify (up_uaddr a local_port)
       else ret tt);;
      modify (up_uframes (n + 1));;
      on_flist (hev_list_add_tail frame)
    end
  end.

(** What lwip does while the session sleeps: a datagram for the flow, in a new chain
    of buffers, or the end of the flow. *)
Inductive udp_event := UvData (p : Z) (chain : list (list Z)) (alloc : option (Z * list Z)) (ip : ip_addr) (port : Z) | UvGone.

Definition run_uevent (dns : bool) (e : udp_event) : US unit :=
  match e with
  | UvData p chain alloc ip port =>
    modify (fun s => up_upbufs (<[p := chain]> (us_pbufs s)) s);;
    udp_recv_handler dns alloc (Some p) ip port
  | UvGone => udp_recv_handler dns None None (IpAddr [] IPADDR_TYPE_V4) 0
  end.

Fixpoint run_uevents (dns : bool) (es : list udp_event) : US unit :=
  match es with
  | [] => ret tt
  | e :: es => run_uevent dns e;; run_uevents dns es
  end.

(** What happens during a call may depend on all that happened before. *)
Definition uenvironment : Type := usession -> list udp_event.

(** ** From the application to the server *)

(** The loop that fills the vector of messages. *)
Fixpoint fill_msgv (n : nat) (node : Z) : US (list send_msg) :=
  match n with
  | O => ret []
  | S n =>
    let* frame := load_frame node in
    let* next := on_flist (hev_list_node_next node) in
    let* buf := load_payload (uf_data frame) in
    let* rest := fill_msgv n next in
    ret (SendMsg (uf_addr frame) buf (Z.of_nat (length buf)) :: rest)
  end.

(** The loop that frees what was sent. *)
Fixpoint drop_frames (n : nat) : US unit :=
  match n with
  | O => ret tt
  | S n =>
    let* node := on_flist hev_list_first in
    let* frame := load_frame node in
    on_flist (hev_list_del node);;
    free_frame node;;
    pbuf_free (uf_data frame);;
    modify (fun s => up_uframes (us_frames s - 1) s);;
    drop_frames n
  end.

(** [es]: what lwip does while the sending call sleeps.  It appends frames and does
    not touch those that are being sent. *)
Definition hev_socks5_session_udp_fwd_f (dns : bool) (num : Z) (es : uenvironment) : US Z :=
  let* res := gets us_frames in
  if res <=? 0 then ret 0 else
  let res := if num <? res then num else res in
  let* node := on_flist hev_list_first in
  let* msgv := fill_msgv (Z.to_nat res) node in
  let* res := on_udp (hev_socks5_udp_sendmmsg msgv) in
  let* es := gets es in
  run_uevents dns es;;
  if res <=? 0 then ret (-1) else
  drop_frames (Z.to_nat res);;
  ret 1.

(** ** From the server to the application *)

(** [self->addr && self->port] *)
Definition is_mapped (addr : list Z) (port : Z) : bool := negb (bool_decide (addr = [0; 0; 0; 0])) && negb (port =? 0).

(** The source of a datagram for the application; [saddr]: what the variable on the
    stack holds. *)
Definition source_of (saddr : ip_addr) (a : list Z) : US (option (ip_addr * Z)) :=
  let* addr := gets us_addr in
  let* port := gets us_port in
  if is_mapped addr port then
    let* b := lift_opt (poke (ip_bytes saddr) 0 addr) in
    ret (Some (IpAddr b IPADDR_TYPE_V4, port))
  else
    let* (ip, port, ret_) := lift_opt (hev_socks5_addr_into_lwip a saddr 0) in
    ret (if ret_ <? 0 then None else Some (ip, port)).

(** [pbuf_alloc_reference] and [udp_sendfrom] *)
Definition send_up (d : list Z) (ip : ip_addr) (port : Z) : US bool :=
  let* ans := gets us_lwip in
  let '(mem, err) := hd (true, 0) ans in
  if negb mem then modify (up_ulwip (tl ans) []);; ret false else
  if negb (err =? 0) then modify (up_ulwip (tl ans) []);; ret false else
  modify (up_ulwip (tl ans) [(ip, port, d)]);; ret true.

(** The loop over the first [n] messages. *)
Fixpoint deliver (saddr : ip_addr) (n : nat) (msgv : list recv_msg) : US Z :=
  match n, msgv with
  | O, _ => ret 1
  | S _, [] => fail
  | S n, m :: msgv =>
    let* a := lift_opt (msg_addr m) in
    match a with
    | None => deliver saddr n msgv
    | Some a =>
      if rm_len m =? 0 then deliver saddr n msgv else
      let* to := source_of saddr a in
      match to with
      | None => ret (-1)
      | Some (ip, port) =>
        let* d := lift_opt (peek (rm_block m) (rm_off m) (rm_len m)) in
        let* ok := send_up d ip port in
        if ok : bool then deliver saddr n msgv else ret (-1)
      end
    end
  end.

(** [es]: what lwip does when the receiving call has to sleep in the middle of a
    frame. *)
Definition hev_socks5_session_udp_fwd_b (dns : bool) (e : uenv) (blks : list (list Z)) (saddr : ip_addr) (es : uenvironment) : US Z :=
  let* again := gets (fun s => recv_again (us_udp s) (ue_stale e)) in
  let* (res, msgv) := on_udp (hev_socks5_udp_recvmmsg (ue_conn e) true (fresh_msgs blks)) in
  let* es := gets es in
  run_uevents dns es;;
  if res <=? 0 then ret (if (res =? -1) && again then 0 else -1) else
  deliver saddr (Z.to_nat res) msgv.

(** ** The session *)

(** One turn of the splice: what happens in each of its calls and during its sleep,
    the answers of the system, the memory of the buffers, and what the yielder
    finds on the socket of a datagram association. *)
Record uround := URound {
  ur_send : uenvironment; ur_env : uenv; ur_blks : list (list Z); ur_saddr : ip_addr; ur_recv : uenvironment;
  ur_ctl : ctl_state; ur_nap : uenvironment; ur_slept : Z
}.

(** The yielder of this file, without the place in the list of sessions. *)
Definition udp_session_yielder (dns : bool) (type : yield_type) (r : uround) : US Z :=
  let* base := gets (fun s => ud_base (us_udp s)) in
  match s5_type base, ur_ctl r with
  | TYPE_UDP_IN_UDP, CtlClosed | TYPE_UDP_IN_UDP, CtlErr => hev_socks5_session_terminate;; ret (-1)
  | _, _ =>
    let* es := gets (ur_nap r) in
    run_uevents dns es;;
    ret (hev_socks5_task_io_yielder type (ur_slept r) base)
  end.

(** The loop over the turns that happen. *)
Fixpoint udp_session_loop (dns : bool) (rounds : list uround) (res_f res_b : Z) : US unit :=
  match rounds with
  | [] => ret tt
  | r :: rounds =>
    let num := Z.of_nat (length (ur_blks r)) in
    let* res_f := (if 0 <=? res_f then hev_socks5_session_udp_fwd_f dns num (ur_send r) else ret res_f) in
    let* res_b := (if 0 <=? res_b then hev_socks5_session_udp_fwd_b dns (ur_env r) (ur_blks r) (ur_saddr r) (ur_recv r) else ret res_b) in
    let next (type : yield_type) : US unit :=
      let* y := udp_session_yielder dns type r in
      if negb (y =? 0) then ret tt else udp_session_loop dns rounds res_f res_b in
    if (0 <? res_f) || (0 <? res_b) then next HEV_TASK_YIELD
    else if Z.land res_f res_b =? 0 then next HEV_TASK_WAITIO
    else ret tt
  end.

Definition hev_socks5_session_udp_splice (dns : bool) (rounds : list uround) : US unit := udp_session_loop dns rounds 1 1.

(** The loop of the destructor; [fuel]: the frames there are. *)
Fixpoint free_frames (fuel : nat) (node : Z) : US unit :=
  if node =? NULL then ret tt else
  match fuel with
  | O => fail
  | S fuel =>
    let* frame := load_frame node in
    let* next := on_flist (hev_list_node_next node) in
    pbuf_free (uf_data frame);;
    free_frame node;;
    free_frames fuel next
  end.

Definition hev_socks5_session_udp_destruct : US unit :=
  let* fuel := gets (fun s => size (us_mem s)) in
  let* node := on_flist hev_list_first in
  free_frames fuel node;;
  modify (up_upcb false).

(** ** Where the session goes to *)

(** The port as it is stored; of other types 0. *)
Definition hev_socks5_addr_get_port (addr : list Z) : option Z :=
  atype ← peek1 addr 0;
  if atype =? HEV_SOCKS5_ADDR_TYPE_IPV4 then peek16 addr 5
  else if atype =? HEV_SOCKS5_ADDR_TYPE_IPV6 then peek16 addr 17
  else if atype =? HEV_SOCKS5_ADDR_TYPE_NAME then
    len ← peek1 addr 1;
    peek16 addr (2 + len)
  else Some 0.

(** The address that the server returned for the association, with the host replaced
    by the configured one; [udp_addr] is the string of the configuration. *)
Definition hev_socks5_session_udp_set_upstream_addr (udp_in_udp : bool) (udp_addr addr : list Z) : option (list Z) :=
  b ← peek1 udp_addr 0;
  if udp_in_udp && negb (b =? 0) then
    port ← hev_socks5_addr_get_port addr;
    name ← c_str udp_addr;
    r ← hev_socks5_addr_from_name addr name port;
    Some r.1
  else Some addr.

(** [hev_socks5_session_udp_construct] on a zeroed block. *)
Definition hev_socks5_session_udp_construct (udp_in_udp : bool) (names : mdns) (lwip : list (bool * Z)) (stream : sock) (dgram : dsock sockaddr_in6) : usession :=
  USession (Udp (hev_socks5_construct (if udp_in_udp then TYPE_UDP_IN_UDP else TYPE_UDP_IN_TCP)) stream dgram (DSock [] [] []) false)
    (LMem NULL NULL ∅) 0 ∅ ∅ [0; 0; 0; 0] 0 true names lwip [] [].
