(* ===== verification/SessionUdpInv.v ===== *)
(** * The invariant of a UDP session

    The frames in the list, the objects of the heap and the packet buffers are the
    same ones, each owned once; what is queued are the last of the messages that
    were accepted.  Every operation keeps this. *)

From S2P Require Import Prelude RBTree KeyedTree HevList MappedDNS SocksAddr AddrTheorems TaskSocket TaskMsg Socks5Client Socks5Udp Handshake UdpFrames UdpDatagrams SessionUdp.

(** ** Addresses *)

(** The destination of a flow as it goes to the server: by name when the address is
    a mapped one. *)
Definition wire_of (name : option (list Z)) (ip : ip_addr) (port : Z) : list Z :=
  match name with
  | Some n => enc_name n (htons port)
  | None =>
    if ip_type ip =? IPADDR_TYPE_V4 then enc_ipv4 (take 4 (ip_bytes ip)) (htons port)
    else enc_ipv6 (take 16 (ip_bytes ip)) (htons port)
  end.

(** What lwip gives: an address of one of the two families. *)
Definition ip_ok (ip : ip_addr) : Prop :=
  bytes_ok (ip_bytes ip) /\
  (ip_type ip = IPADDR_TYPE_V4 /\ (4 <= length (ip_bytes ip))%nat \/ ip_type ip = IPADDR_TYPE_V6 /\ (16 <= length (ip_bytes ip))%nat).

Definition name_ok (n : list Z) : Prop := cstr n /\ (length n <= 255)%nat.

(** The cache of names, when there is one. *)
Definition names_ok (dns : bool) (d : mdns) : Prop :=
  dns = true -> exists lru, md_inv d lru /\ md_max d <= Z.lnot (md_mask d) /\ Forall (fun e => name_ok e.1) (abs d lru).

Lemma name_bytes n : cstr n -> bytes_ok n.
Proof. intros H. eapply Forall_impl; [exact H|]. intros x Hx. unfold byte_ok. simpl in Hx. lia. Qed.

Lemma st16_ok p : 0 <= p < 65536 -> bytes_ok (st16 p).
Proof.
  intros Hp. unfold st16. change 255 with (Z.ones 8). rewrite Z.land_ones, Z.shiftr_div_pow2 by lia.
  repeat apply Forall_cons_2; try apply Forall_nil_2; unfold byte_ok; [apply Z.mod_pos_bound; lia|].
  split; [apply Z.div_pos; lia|apply Z.div_lt_upper_bound; lia].
Qed.

Lemma addr_len_v4 a port rest : hev_socks5_addr_len (enc_ipv4 a port ++ rest) = Some 7.
Proof. unfold hev_socks5_addr_len. by erewrite (peek1_at _ 0 HEV_SOCKS5_ADDR_TYPE_IPV4 []) by done. Qed.

Lemma addr_len_v6 a port rest : hev_socks5_addr_len (enc_ipv6 a port ++ rest) = Some 19.
Proof. unfold hev_socks5_addr_len. by erewrite (peek1_at _ 0 HEV_SOCKS5_ADDR_TYPE_IPV6 []) by done. Qed.

Lemma wire_wf name ip port :
  ip_ok ip -> (forall n, name = Some n -> name_ok n) -> addr_wf (wire_of name ip port).
Proof.
  intros [Hb Hip] Hn. pose proof (st16_ok _ (htons_bound port)) as Hst. unfold wire_of.
  assert (forall a, bytes_ok a -> hev_socks5_addr_len (a ++ []) = Some (Z.of_nat (length a)) -> a <> [] -> addr_wf a) as Hwf.
  { intros a Ha Hl Hne. rewrite app_nil_r in Hl. by split. }
  destruct name as [n|]; [|destruct Hip as [[-> Hl]|[-> Hl]]].
  - destruct (Hn n eq_refl) as [Hc Hl]. pose proof (name_bytes _ Hc). apply Hwf; [|rewrite addr_len_name; f_equal|done].
    + unfold enc_name, bytes_ok in *. rewrite !Forall_app. split_and!; try done.
      repeat apply Forall_cons_2; try apply Forall_nil_2; unfold byte_ok, HEV_SOCKS5_ADDR_TYPE_NAME; lia.
    + unfold enc_name. rewrite !length_app. simpl. lia.
  - rewrite Z.eqb_refl. apply Hwf; [|rewrite addr_len_v4; f_equal|done].
    + unfold enc_ipv4, bytes_ok in *. rewrite !Forall_app. split_and!; try done; [by apply (bool_decide_unpack _)|by apply Forall_take].
    + unfold enc_ipv4. rewrite !length_app, length_take, st16_length, Nat.min_l by done. done.
  - change (IPADDR_TYPE_V6 =? IPADDR_TYPE_V4) with false. cbv iota. apply Hwf; [|rewrite addr_len_v6; f_equal|done].
    + unfold enc_ipv6, bytes_ok in *. rewrite !Forall_app. split_and!; try done; [by apply (bool_decide_unpack _)|by apply Forall_take].
    + unfold enc_ipv6. rewrite !length_app, length_take, st16_length, Nat.min_l by done. done.
Qed.

(** A lookup in the cache ends and keeps it; names come from the cache. *)
Lemma names_lookup d ip :
  names_ok true d -> exists r d', hev_mapped_dns_lookup ip d = Some (r, d') /\ names_ok true d' /\ forall n, r = Some n -> name_ok n.
Proof.
  intros H. destruct (H eq_refl) as (lru & Hi & Hm & Hn). destruct (lookup_ok d lru ip Hi Hm) as (r & d' & lru' & E & Hi' & Hsp & Hsame).
  exists r, d'. split; [done|]. unfold spec_lookup in Hsp. destruct Hsame as (_ & Emax & _ & Emask & _).
  destruct (entry_name _ (abs d lru)) as [n|] eqn:En.
  - injection Hsp as <- Hab.
    assert (name_ok n) as Hok.
    { clear -En Hn. induction Hn as [|[m j] es Hx _ IH]; [done|]. simpl in En. case_decide; [by simplify_eq|by apply IH]. }
    split; [|by intros ? [= <-]]. intros _. exists lru'. rewrite <-Hab, Emax, Emask. split_and!; try done.
    apply Forall_app. split; [|by apply Forall_singleton]. unfold drop_name. apply Forall_forall. intros e [_ He]%list_elem_of_filter.
    rewrite Forall_forall in Hn. by apply Hn.
  - injection Hsp as <- Hab. split; [|done]. intros _. exists lru'. by rewrite <-Hab, Emax, Emask.
Qed.

(** The address of a flow is written into its block; the type says whether it is a
    name. *)
Lemma from_lwip_ok dns mem ip port d :
  length mem = sizeof_addr -> ip_ok ip -> names_ok dns d ->
  exists name tail d', hev_socks5_addr_from_lwip dns mem ip port d = Some ((wire_of name ip port ++ tail, 0), d') /\
    names_ok dns d' /\ addr_wf (wire_of name ip port) /\ (name <> None -> ip_type ip = IPADDR_TYPE_V4) /\ (forall n, name = Some n -> name_ok n) /\
    peek1 (wire_of name ip port ++ tail) 0 = Some (if name is Some _ then HEV_SOCKS5_ADDR_TYPE_NAME
      else if ip_type ip =? IPADDR_TYPE_V4 then HEV_SOCKS5_ADDR_TYPE_IPV4 else HEV_SOCKS5_ADDR_TYPE_IPV6).
Proof.
  intros Hmem Hip Hd. pose proof (htons_bound port) as Hp. pose proof Hip as [Hb Hfam]. unfold sizeof_addr in Hmem.
  unfold hev_socks5_addr_from_lwip. destruct Hfam as [[Ht Hl]|[Ht Hl]]; rewrite Ht.
  - rewrite Z.eqb_refl.
    assert (exists name d', (if dns then let* a := lift_opt (ntohl_bytes (ip_bytes ip)) in hev_mapped_dns_lookup a else ret None) d = Some (name, d') /\
      names_ok dns d' /\ forall n, name = Some n -> name_ok n) as (name & d' & E & Hd' & Hn).
    { destruct dns; [|by exists None, d]. destruct (block_split (ip_bytes ip) 4 Hl) as (a & b & Eab & Ha & _).
      destruct a as [|b0 [|b1 [|b2 [|b3 [|]]]]]; try done.
      destruct (names_lookup d (i32 (((b0 * 256 + b1) * 256 + b2) * 256 + b3)) Hd) as (r & d' & E & ? & ?).
      exists r, d'. split; [|done]. erewrite bind_Some; [exact E|]. unfold lift_opt, ntohl_bytes. rewrite Eab.
      by rewrite (peek_at _ _ _ [] [b0; b1; b2; b3] b) by done. }
    erewrite bind_Some by exact E. pose proof (wire_wf name ip port Hip Hn) as Hwf. destruct name as [n|].
    + destruct (Hn n eq_refl) as [Hc Hlen]. destruct (from_name_ok mem n (htons port)) as (tail & Ef & _); try done.
      exists (Some n), tail, d'. split; [by erewrite bind_Some by (unfold lift_opt; by rewrite Ef)|]. split_and!; try done. by eapply (peek1_at _ 0 _ []).
    + exists None, (drop 7 mem), d'. unfold wire_of in *. rewrite Ht, Z.eqb_refl in *.
      split; [by erewrite bind_Some by (unfold lift_opt; rewrite from_ipv4_ok by (done || lia); done)|].
      split_and!; try done. by eapply (peek1_at _ 0 _ []).
  - change (IPADDR_TYPE_V6 =? IPADDR_TYPE_V4) with false. rewrite Z.eqb_refl. cbv iota.
    pose proof (wire_wf None ip port Hip ltac:(done)) as Hwf.
    exists None, (drop 19 mem), d. unfold wire_of in *. rewrite Ht in *. change (IPADDR_TYPE_V6 =? IPADDR_TYPE_V4) with false in *. cbv iota in *.
    split; [by erewrite bind_Some by (unfold lift_opt; rewrite from_ipv6_ok by (done || lia); done)|].
    split_and!; try done. by eapply (peek1_at _ 0 _ []).
Qed.

(** ** The invariant *)

(** A frame holds a message: the address block, and the first buffer of the chain. *)
Definition frame_holds (pb : gmap Z (list (list Z))) (e : Z * uframe) (r : list Z * list Z) : Prop :=
  uf_addr e.2 = r.1 /\ exists rest, pb !! uf_data e.2 = Some (r.2 :: rest).

(** A message goes to the destination of the flow, by name or by address. *)
Definition to_flow (fl : ip_addr * Z) (r : list Z * list Z) : Prop :=
  exists name, (forall n, name = Some n -> name_ok n) /\ (msg_of r).1 = wire_of name fl.1 fl.2.

(** The frames [q] are queued; the first [k] accepted messages are gone. *)
Record us_inv (fl : ip_addr * Z) (dns : bool) (k : nat) (q : list (Z * uframe)) (s : usession) : Prop := {
  ui_list : list_rep (us_list s) q.*1;
  ui_frames : us_frames s = Z.of_nat (length q);
  ui_pool : Z.of_nat (length q) <= UDP_POOL_SIZE + 1;
  ui_mem : us_mem s = list_to_map q;
  ui_nodes : dom (l_nodes (us_list s)) = list_to_set q.*1;
  ui_data : NoDup (uf_data <$> q.*2);
  ui_pbufs : dom (us_pbufs s) = list_to_set (uf_data <$> q.*2);
  ui_msgs : Forall2 (frame_holds (us_pbufs s)) q (drop k (us_got s));
  ui_le : (k <= length (us_got s))%nat;
  ui_raw : Forall raw_ok (us_got s);
  ui_addr : length (us_addr s) = 4%nat;
  ui_names : names_ok dns (us_names s);
  ui_flow : is_mapped (us_addr s) (us_port s) = true -> us_addr s = take 4 (ip_bytes fl.1) /\ us_port s = fl.2;
  ui_dest : Forall (to_flow fl) (us_got s)
}.

(** What the operations on the queue leave alone: the sockets, the type, and what
    lwip took. *)
Definition same_io (s s' : usession) : Prop :=
  ud_stream (us_udp s') = ud_stream (us_udp s) /\ ud_dgram (us_udp s') = ud_dgram (us_udp s) /\
  s5_type (ud_base (us_udp s')) = s5_type (ud_base (us_udp s)) /\
  s5_udp_associated (ud_base (us_udp s')) = s5_udp_associated (ud_base (us_udp s)) /\
  us_sent s' = us_sent s /\ us_lwip s' = us_lwip s.

Lemma same_io_refl s : same_io s s.
Proof. by split_and!. Qed.

Lemma same_io_trans s1 s2 s3 : same_io s1 s2 -> same_io s2 s3 -> same_io s1 s3.
Proof. intros (?&?&?&?&?&?) (?&?&?&?&?&?). split_and!; congruence. Qed.

(** What can happen: the objects are new, the addresses of lwip proper. *)
Definition uev_ok (fl : ip_addr * Z) (s : usession) (e : udp_event) : Prop :=
  match e with
  | UvData p chain alloc ip port =>
    us_pbufs s !! p = None /\ chain <> [] /\ ip_ok ip /\ (ip, port) = fl /\
    match alloc with Some (a, mem) => a <> NULL /\ us_mem s !! a = None /\ length mem = sizeof_addr | None => True end
  | UvGone => True
  end.

Fixpoint uevs_ok (fl : ip_addr * Z) (dns : bool) (s : usession) (es : list udp_event) : Prop :=
  match es with
  | [] => True
  | e :: es => uev_ok fl s e /\ forall s', run_uevent dns e s = Some (tt, s') -> uevs_ok fl dns s' es
  end.

Lemma inv_fresh fl dns k q s a : us_inv fl dns k q s -> us_mem s !! a = None -> a ∉ q.*1.
Proof. intros Hi Ha Hin. rewrite (ui_mem _ _ _ _ _ Hi) in Ha. by apply not_elem_of_list_to_map_2 in Ha. Qed.

Lemma inv_fresh_pbuf fl dns k q s p : us_inv fl dns k q s -> us_pbufs s !! p = None -> p ∉ uf_data <$> q.*2.
Proof. intros Hi Hp Hin. apply not_elem_of_dom in Hp. rewrite (ui_pbufs _ _ _ _ _ Hi) in Hp. set_solver. Qed.

Lemma us_nodup fl dns k q s : us_inv fl dns k q s -> NoDup q.*1 /\ NULL ∉ q.*1.
Proof.
  intros Hi. destruct (ui_list _ _ _ _ _ Hi) as (_ & _ & _ & Hn & Hz). split; [done|]. intros H. rewrite Forall_forall in Hz. by apply (Hz NULL H).
Qed.

Lemma holds_insert pb e r p c : uf_data e.2 <> p -> frame_holds pb e r -> frame_holds (<[p := c]> pb) e r.
Proof. intros Hne (H1 & rest & H2). split; [done|]. exists rest. by rewrite lookup_insert_ne. Qed.

Lemma holds_delete pb e r p : uf_data e.2 <> p -> frame_holds pb e r -> frame_holds (delete p pb) e r.
Proof. intros Hne (H1 & rest & H2). split; [done|]. exists rest. by rewrite lookup_delete_ne. Qed.

Lemma terminate_keeps fl dns k q s :
  us_inv fl dns k q s -> exists s', hev_socks5_session_terminate s = Some (tt, s') /\ us_inv fl dns k q s' /\ same_io s s' /\ us_got s' = us_got s.
Proof.
  intros [H1 H2 H3 H4 H5 H6 H7 H8 H9 H10 H11 H12 H13 H14]. eexists. split; [reflexivity|]. split; [by split|]. split; [|done].
  unfold hev_socks5_set_timeout. split_and!; simpl; try done; by case_match.
Qed.

(** A datagram is queued, unless the queue is full or there is no memory. *)
Definition grown (fl : ip_addr * Z) (dns : bool) (k : nat) (q : list (Z * uframe)) (s s' : usession) : Prop :=
  exists q' got, us_inv fl dns k (q ++ q') s' /\ same_io s s' /\ us_got s' = us_got s ++ got.

Lemma pbuf_freed p c Q s :
  us_pbufs s !! p = None -> Q tt s -> wp (pbuf_free p) Q (up_upbufs (<[p := c]> (us_pbufs s)) s).
Proof.
  intros Hp HQ. apply wp_bind, wp_gets, wp_bind. eapply wp_lift_opt; [apply lookup_insert_eq|]. apply wp_modify.
  cbn [us_pbufs up_upbufs]. rewrite delete_insert_id by done. by destruct s.
Qed.

(** The new frame in the list, once everything it refers to is there. *)
Lemma queue_ok fl dns k q s a addr p b chain d' m' ua up :
  us_inv fl dns k q s -> us_pbufs s !! p = None -> a ∉ q.*1 -> Z.of_nat (length q) <= UDP_POOL_SIZE ->
  raw_ok (addr, b) -> to_flow fl (addr, b) -> length ua = 4%nat -> names_ok dns d' ->
  (is_mapped ua up = true -> ua = take 4 (ip_bytes fl.1) /\ up = fl.2) ->
  list_rep m' (q.*1 ++ [a]) -> dom (l_nodes m') = {[a]} ∪ dom (l_nodes (us_list s)) ->
  us_inv fl dns k (q ++ [(a, UFrame addr p)])
    (USession (us_udp s) m' (us_frames s + 1) (<[a := UFrame addr p]> (us_mem s)) (<[p := b :: chain]> (us_pbufs s)) ua up
       (us_pcb s) d' (us_lwip s) (us_sent s) (us_got s ++ [(addr, b)])).
Proof.
  intros Hi Hp Ha Hroom Hraw Hto Hua Hd' Hfl Hm Hdom. pose proof (inv_fresh_pbuf _ _ _ _ _ _ Hi Hp) as Hpq.
  destruct Hi as [H1 H2 H3 H4 H5 H6 H7 H8 H9 H10 H11 H12 H13 H14]. split; simpl; rewrite ?fmap_app, ?length_app; simpl; try done.
  - lia.
  - lia.
  - rewrite H4. by rewrite list_to_map_snoc.
  - rewrite Hdom, H5. clear; set_solver.
  - apply NoDup_app. split_and!; [done|by intros x Hx ->%list_elem_of_singleton|apply NoDup_singleton].
  - rewrite dom_insert_L, H7. clear; set_solver.
  - rewrite drop_app_le by done. apply Forall2_app.
    + apply Forall2_same_length_lookup_2. { by eapply Forall2_length. }
      intros i e r He Hr. eapply holds_insert; [|by eapply Forall2_lookup_lr].
      intros Heq. apply Hpq. rewrite <-Heq. apply list_elem_of_fmap. exists e.2. split; [done|]. apply list_elem_of_fmap. exists e. split; [done|].
      by eapply list_elem_of_lookup_2.
    + apply Forall2_cons. split; [|constructor]. split; [done|]. exists chain. by rewrite lookup_insert_eq.
  - lia.
  - apply Forall_app. split; [done|by apply Forall_singleton].
  - apply Forall_app. split; [done|by apply Forall_singleton].
Qed.

(** What of a datagram is taken: its first buffer, when there is room in the queue and
    memory for a frame. *)
Definition taken (e : udp_event) (s : usession) : list (list Z) :=
  match e with
  | UvData _ (b :: _) (Some _) _ _ => if UDP_POOL_SIZE <? us_frames s then [] else [b]
  | _ => []
  end.

Definition event_post (fl : ip_addr * Z) (dns : bool) (k : nat) (q : list (Z * uframe)) (e : udp_event) (s s' : usession) : Prop :=
  grown fl dns k q s s' /\ (us_got s').*2 = (us_got s).*2 ++ taken e s /\ (e <> UvGone -> taken e s = [] -> s' = s).

Lemma uevent_keeps fl dns k q s e :
  us_inv fl dns k q s -> uev_ok fl s e -> wp (run_uevent dns e) (fun _ => event_post fl dns k q e s) s.
Proof.
  intros Hi He. destruct e as [p chain alloc ip port|].
  2: { destruct (terminate_keeps fl dns k q s Hi) as (s' & E & Hi' & Hio & Hg). eapply wp_intro; [exact E|].
    split_and!; [exists [], []; by rewrite !app_nil_r|by rewrite Hg, app_nil_r|done]. }
  destruct He as (Hp & Hch & Hip & Hfl & Hal). assert (grown fl dns k q s s) as Hsame by (exists [], []; rewrite !app_nil_r; by split_and!).
  unfold event_post, taken. destruct chain as [|b chain]; [done|].
  cbn [run_uevent]. apply wp_bind, wp_modify. unfold udp_recv_handler. apply wp_bind, wp_gets. cbn [us_frames up_upbufs].
  destruct (Z.ltb_spec UDP_POOL_SIZE (us_frames s)) as [Hfull|Hroom]; [apply pbuf_freed; [done|]; split_and!; [done|by case_match; rewrite app_nil_r|done]|].
  destruct alloc as [[a mem]|]; [|apply pbuf_freed; [done|]; split_and!; [done|by rewrite app_nil_r|done]]. destruct Hal as (Ha0 & Ha & Hmem). pose proof (inv_fresh _ _ _ _ _ _ Hi Ha) as Haq.
  destruct (from_lwip_ok dns mem ip port (us_names s) Hmem Hip (ui_names _ _ _ _ _ Hi)) as (name & tail & d' & El & Hd' & Hwf & Hnm & Hok & Hty).
  apply wp_bind. eapply wp_intro; [unfold on_names, zoom; cbn [us_names up_upbufs]; rewrite El; reflexivity|]. cbv beta iota.
  apply wp_bind, wp_bind, wp_modify, wp_modify. apply wp_bind, wp_bind, wp_gets, wp_bind.
  eapply wp_lift_opt; [apply lookup_insert_eq|]. eapply wp_lift_opt; [reflexivity|]. apply wp_bind, wp_modify. apply wp_bind.
  eapply wp_lift_opt; [exact Hty|]. apply wp_bind.
  destruct (list_add_tail_dom (LMem (l_head (us_list s)) (l_tail (us_list s)) (<[a := LNode NULL NULL]> (l_nodes (us_list s)))) q.*1 a)
    as (m' & Em & Hm' & Hdm); [|done|done|simpl; rewrite lookup_insert_eq; by eexists|].
  { apply (list_rep_frame (us_list s)); [apply Hi|done|done|]. intros y Hy. simpl. rewrite lookup_insert_ne; [done|]. by intros ->. }
  simpl in Hdm. rewrite dom_insert_L in Hdm.
  destruct (raw_tail (wire_of name ip port, b) tail Hwf) as [Hraw Hmsg].
  pose proof (ui_frames _ _ _ _ _ Hi) as Hfr.
  assert (forall ua up, length ua = 4%nat -> (is_mapped ua up = true -> ua = take 4 (ip_bytes fl.1) /\ up = fl.2) ->
    wp (modify (up_uframes (us_frames s + 1));; on_flist (hev_list_add_tail a)) (fun _ s' => grown fl dns k q s s' /\ (us_got s').*2 = (us_got s).*2 ++ [b] /\ (UvData p (b :: chain) (Some (a, mem)) ip port <> UvGone -> [b] = [] -> s' = s))
      (USession (us_udp s) (LMem (l_head (us_list s)) (l_tail (us_list s)) (<[a := LNode NULL NULL]> (l_nodes (us_list s)))) (us_frames s)
        (<[a := UFrame (wire_of name ip port ++ tail) p]> (us_mem s)) (<[p := b :: chain]> (us_pbufs s)) ua up (us_pcb s) d' (us_lwip s) (us_sent s)
        (us_got s ++ [(wire_of name ip port ++ tail, b)]))) as Hgo.
  { intros ua up Hua Hflow. apply wp_bind, wp_modify. eapply wp_intro; [unfold on_flist, zoom; cbn [us_list up_uframes]; rewrite Em; reflexivity|].
    split; [|split; [simpl; by rewrite fmap_app|done]]. exists [(a, UFrame (wire_of name ip port ++ tail) p)], [(wire_of name ip port ++ tail, b)]. split; [|split; [|done]]; [|by split_and!]. apply (queue_ok fl dns k q s a (wire_of name ip port ++ tail) p b chain d' m' ua up); try done; [lia|].
    exists name. cbn [fst snd] in Hmsg. rewrite Hmsg, <-Hfl. by split. }
  destruct name as [n|].
  - rewrite Z.eqb_refl. destruct Hip as [_ [[_ Hl]|[Ht _]]]; [|by rewrite Hnm in Ht].
    destruct (block_split (ip_bytes ip) 4 Hl) as (x & y & Exy & Hx & _).
    apply wp_bind. eapply wp_lift_opt; [rewrite Exy; apply (peek_at _ _ _ [] x y); [done|done|by rewrite Hx]|]. apply wp_modify. apply Hgo; [done|]. intros _. rewrite <-Hfl. cbn [fst snd]. by rewrite Exy, <-Hx, take_app_length.
  - rewrite (proj2 (Z.eqb_neq _ _)) by (by case_match). apply wp_ret. apply Hgo; apply Hi.
Qed.

Lemma uevents_keep fl dns k q s es :
  us_inv fl dns k q s -> uevs_ok fl dns s es -> wp (run_uevents dns es) (fun _ => grown fl dns k q s) s.
Proof.
  revert q s. induction es as [|e es IH]; intros q s Hi He; cbn [run_uevents].
  { apply wp_ret. exists [], []. rewrite !app_nil_r. by split_and!. }
  destruct He as [He Hes]. destruct (wp_elim _ _ _ (uevent_keeps fl dns k q s e Hi He)) as ([] & s1 & E1 & (q1 & g1 & Hi1 & Hio1 & Hg1) & _).
  apply wp_bind. eapply wp_intro; [exact E1|].
  eapply wp_conseq; [apply (IH _ s1 Hi1 (Hes s1 E1))|]. intros [] s2 (q2 & g2 & Hi2 & Hio2 & Hg2).
  exists (q1 ++ q2), (g1 ++ g2). rewrite app_assoc. split_and!; [done|by eapply same_io_trans|]. by rewrite Hg2, Hg1, app_assoc.
Qed.

(** ** Sending and freeing *)

Lemma list_rep_next m xs1 n xs2 : list_rep m (xs1 ++ n :: xs2) -> hev_list_node_next n m = Some (first_or xs2 NULL, m).
Proof. intros Hm. unfold hev_list_node_next, bind, lload. by rewrite (list_node_links _ _ _ _ Hm). Qed.

Lemma inv_lookup fl dns k q s e : us_inv fl dns k q s -> e ∈ q -> us_mem s !! e.1 = Some e.2.
Proof.
  intros Hi He. rewrite (ui_mem _ _ _ _ _ Hi). apply elem_of_list_to_map_1; [by eapply us_nodup|]. by destruct e.
Qed.

(** The vector of messages is the first of the queue. *)
Lemma fill_ok fl dns k pre mid s n :
  us_inv fl dns k (pre ++ mid) s -> (n <= length mid)%nat ->
  fill_msgv n (first_or mid.*1 NULL) s = Some (to_send <$> take n (drop (k + length pre) (us_got s)), s).
Proof.
  revert pre mid. induction n as [|n IH]; intros pre mid Hi Hn; [done|].
  destruct mid as [|[a f] mid]; [simpl in Hn; lia|]. simpl in Hn. cbn [fill_msgv]. change (first_or ((a, f) :: mid).*1 NULL) with a.
  pose proof (inv_lookup _ _ _ _ _ (a, f) Hi ltac:(set_solver)) as Hl. simpl in Hl.
  pose proof (ui_list _ _ _ _ _ Hi) as Hm. rewrite fmap_app in Hm. simpl in Hm.
  destruct (proj1 (Forall2_app_inv_l _ _ _ _) (ui_msgs _ _ _ _ _ Hi)) as (l1 & l2 & H1 & H2 & Hd).
  apply Forall2_length in H1. apply Forall2_cons_inv_l in H2 as (r & rs & (Ha & rest & Hpb) & _ & ->). simpl in Ha, Hpb.
  assert (drop (k + length pre) (us_got s) = r :: rs) as Hdr by (by rewrite <-drop_drop, Hd, H1, drop_app_length).
  erewrite bind_Some by (unfold load_frame, bind, gets, lift_opt; rewrite Hl; reflexivity).
  assert (on_flist (hev_list_node_next a) s = Some (first_or mid.*1 NULL, s)) as Hx.
  { unfold on_flist, zoom. rewrite (list_rep_next _ _ _ _ Hm). by destruct s. }
  erewrite bind_Some by exact Hx.
  erewrite bind_Some by (unfold load_payload, bind, gets, lift_opt; rewrite Hpb; reflexivity).
  specialize (IH (pre ++ [(a, f)]) mid). rewrite <-app_assoc in IH. specialize (IH Hi ltac:(lia)).
  erewrite bind_Some by exact IH. rewrite length_app, Hdr. simpl. unfold ret. do 2 f_equal. f_equal; [by rewrite Ha|].
  do 2 f_equal. replace (k + (length pre + 1))%nat with ((k + length pre) + 1)%nat by lia. by rewrite <-drop_drop, Hdr.
Qed.

(** The frame that was sent first is unlinked and freed, with its buffers. *)
Lemma drop_step n fl dns k e q s Q :
  us_inv fl dns k (e :: q) s ->
  (forall s', us_inv fl dns (S k) q s' -> same_io s s' -> us_got s' = us_got s -> wp (drop_frames n) Q s') ->
  wp (drop_frames (S n)) Q s.
Proof.
  intros Hi HQ. pose proof (inv_lookup _ _ _ _ _ e Hi ltac:(set_solver)) as Hl. destruct e as [a f]. simpl in Hl.
  destruct (us_nodup _ _ _ _ _ Hi) as [Hnd _]. csimpl in Hnd. apply NoDup_cons in Hnd as [Han Hnd].
  destruct Hi as [H1 H2 H3 H4 H5 H6 H7 H8 H9 H10 H11 H12 H13 H14]. csimpl in *. apply NoDup_cons in H6 as [Hfn H6].
  apply Forall2_cons_inv_l in H8 as (r & rs & (Ha & rest & Hpb) & Hms & Hdr). simpl in Hpb.
  destruct (list_del_dom _ [] a q.*1 H1) as (m' & Ed & Hm' & Hdm). simpl in Hm'.
  cbn [drop_frames]. apply wp_bind. eapply wp_intro; [unfold on_flist, zoom; rewrite (list_rep_first _ _ H1); reflexivity|].
  change (first_or (a :: q.*1) NULL) with a. replace (up_ulist (us_list s) s) with s by (by destruct s).
  apply wp_bind, wp_bind, wp_gets. eapply wp_lift_opt; [exact Hl|]. apply wp_bind.
  eapply wp_intro; [unfold on_flist, zoom; rewrite Ed; reflexivity|].
  apply wp_bind, wp_bind, wp_bind, wp_gets. eapply wp_lift_opt; [exact Hl|]. apply wp_bind, wp_modify, wp_modify.
  apply wp_bind, wp_bind, wp_gets, wp_bind. eapply wp_lift_opt; [exact Hpb|]. apply wp_modify. apply wp_bind, wp_modify.
  apply HQ; [|by split_and!|done]. split; simpl; try done.
  - apply (list_rep_frame m'); [done..|]. intros y Hy. simpl. rewrite lookup_delete_ne; [done|]. by intros ->.
  - rewrite H2. lia.
  - lia.
  - rewrite H4. simpl. apply delete_insert_id. by apply not_elem_of_list_to_map_1.
  - rewrite dom_delete_L, Hdm, H5. clear -Han; set_solver.
  - rewrite dom_delete_L, H7. clear -Hfn; set_solver.
  - assert (drop (S k) (us_got s) = rs) as ->.
    { replace (S k) with (k + 1)%nat by lia. by rewrite <-drop_drop, Hdr. }
    apply Forall2_same_length_lookup_2. { by eapply Forall2_length. }
    intros i e' r' He' Hr'. eapply holds_delete; [|by eapply Forall2_lookup_lr].
    intros Heq. apply Hfn. rewrite <-Heq. apply list_elem_of_fmap. exists e'.2. split; [done|]. apply list_elem_of_fmap. exists e'. split; [done|].
    by eapply list_elem_of_lookup_2.
  - assert (length (drop k (us_got s)) <> 0%nat) as Hne by (by rewrite Hdr). rewrite length_drop in Hne. lia.
Qed.

Lemma drop_ok fl dns k q1 q2 s :
  us_inv fl dns k (q1 ++ q2) s ->
  wp (drop_frames (length q1)) (fun _ s' => us_inv fl dns (k + length q1) q2 s' /\ same_io s s' /\ us_got s' = us_got s) s.
Proof.
  revert k s. induction q1 as [|e q1 IH]; intros k s Hi; cbn [length].
  { apply wp_ret. rewrite Nat.add_0_r. split; [done|]. split; [apply same_io_refl|done]. }
  apply (drop_step _ _ _ _ _ _ _ _ Hi). intros s' Hi' Hio Hg. replace (k + S (length q1))%nat with (S k + length q1)%nat by lia.
  eapply wp_conseq; [by apply IH|]. intros [] s2 (? & ? & ?). split_and!; try done; [by eapply same_io_trans|congruence].
Qed.

(** The destructor frees every frame and its buffers, once. *)
Lemma free_ok q fuel pv s :
  (length q <= fuel)%nat -> NoDup q.*1 -> NULL ∉ q.*1 -> us_mem s = list_to_map q ->
  lseg (l_nodes (us_list s)) pv q.*1 NULL ->
  dom (l_nodes (us_list s)) = list_to_set q.*1 -> NoDup (uf_data <$> q.*2) -> dom (us_pbufs s) = list_to_set (uf_data <$> q.*2) ->
  wp (free_frames fuel (first_or q.*1 NULL)) (fun _ s' => us_mem s' = ∅ /\ us_pbufs s' = ∅ /\ l_nodes (us_list s') = ∅ /\ same_io s s') s.
Proof.
  revert q pv s. induction fuel as [|fuel IH]; intros [|[a f] q] pv s Hf Hnd Hz Hm Hseg Hdn Hdd Hdp; try (simpl in Hf; lia).
  1, 2: cbn [free_frames]; change (first_or [].*1 NULL) with NULL; rewrite Z.eqb_refl; apply wp_ret; csimpl in *;
    apply dom_empty_inv_L in Hdn, Hdp; split_and!; done.
  cbn [free_frames]. change (first_or ((a, f) :: q).*1 NULL) with a. csimpl in *. destruct Hseg as [Hx Hseg].
  apply NoDup_cons in Hnd as [Han Hnd]. apply NoDup_cons in Hdd as [Hfn Hdd]. apply not_elem_of_cons in Hz as [Hz0 Hz].
  rewrite (proj2 (Z.eqb_neq a NULL)) by done. assert (us_mem s !! a = Some f) as Hl by (rewrite Hm; simpl; apply lookup_insert_eq).
  assert (is_Some (us_pbufs s !! uf_data f)) as [c Hc] by (apply elem_of_dom; rewrite Hdp; set_solver).
  apply wp_bind, wp_bind, wp_gets. eapply wp_lift_opt; [exact Hl|]. apply wp_bind.
  eapply wp_intro; [unfold on_flist, zoom, hev_list_node_next, bind, lload; rewrite Hx; reflexivity|].
  replace (up_ulist (us_list s) s) with s by (by destruct s). cbn [ln_next].
  apply wp_bind, wp_bind, wp_gets, wp_bind. eapply wp_lift_opt; [exact Hc|]. apply wp_modify.
  apply wp_bind, wp_bind, wp_bind, wp_gets. eapply wp_lift_opt; [exact Hl|]. apply wp_bind, wp_modify, wp_modify.
  eapply wp_conseq; [apply (IH q a); try done; simpl|].
  - lia.
  - rewrite Hm. simpl. apply delete_insert_id. by apply not_elem_of_list_to_map_1.
  - eapply lseg_same; [|exact Hseg]. intros y Hy. rewrite lookup_delete_ne; [done|]. by intros ->.
  - rewrite dom_delete_L, Hdn. clear -Han; set_solver.
  - rewrite dom_delete_L, Hdp. clear -Hfn; set_solver.
  - intros [] s' (? & ? & ? & Hio). split_and!; try done; apply Hio.
Qed.

Lemma destruct_frees fl dns k q s :
  us_inv fl dns k q s ->
  wp hev_socks5_session_udp_destruct (fun _ s' => us_mem s' = ∅ /\ us_pbufs s' = ∅ /\ l_nodes (us_list s') = ∅ /\ us_pcb s' = false /\ same_io s s') s.
Proof.
  intros Hi. destruct (us_nodup _ _ _ _ _ Hi) as [Hnd Hz]. unfold hev_socks5_session_udp_destruct. apply wp_bind, wp_gets, wp_bind.
  eapply wp_intro; [unfold on_flist, zoom; rewrite (list_rep_first _ _ (ui_list _ _ _ _ _ Hi)); reflexivity|].
  replace (up_ulist (us_list s) s) with s by (by destruct s). apply wp_bind. eapply wp_conseq; [apply (free_ok q _ NULL); try apply Hi; try done|].
  - rewrite (ui_mem _ _ _ _ _ Hi). rewrite map_size_list_to_map by exact Hnd. lia.
  - intros [] s' (? & ? & ? & Hio). apply wp_modify. by split_and!; try apply Hio.
Qed.
