(* ===== verification/SessionUdpFlow.v ===== *)
(** * The two directions of a UDP session

    What a turn sends to the server is the front of the queue, message by message;
    what it delivers to the application are the payloads in the order in which the
    server sent them. *)

From S2P Require Import Prelude RBTree HevList MappedDNS SocksAddr AddrTheorems TaskSocket TaskMsg Socks5Client Socks5Udp Handshake HandshakeSafe UdpFrames UdpDatagrams SessionUdp SessionUdpInv.

(** ** Towards the server *)

(** [ms] went out, as frames or as datagrams.  A stream is only followed while its
    socket accepts what it is given. *)
Definition out_ok (u u' : udp) (ms : list (list Z * list Z)) : Prop :=
  match s5_type (ud_base u) with
  | TYPE_UDP_IN_UDP => dk_out (ud_dgram u') = dk_out (ud_dgram u) ++ ((fun m => (None, dgram m)) <$> ms)
  | TYPE_UDP_IN_TCP => tx_ok (sk_tx (ud_stream u)) -> tx_ok (sk_tx (ud_stream u')) /\ sk_out (ud_stream u') = sk_out (ud_stream u) ++ frames ms
  | _ => True
  end.

Lemma out_ok_refl u u' : ud_stream u' = ud_stream u -> ud_dgram u' = ud_dgram u -> out_ok u u' [].
Proof. intros Hs Hd. unfold out_ok. rewrite Hs, Hd. destruct (s5_type _); try done; unfold frames; simpl; by rewrite ?app_nil_r. Qed.

Lemma out_ok_trans u1 u2 u3 ms1 ms2 :
  s5_type (ud_base u2) = s5_type (ud_base u1) -> out_ok u1 u2 ms1 -> out_ok u2 u3 ms2 -> out_ok u1 u3 (ms1 ++ ms2).
Proof.
  unfold out_ok. intros ->. destruct (s5_type (ud_base u1)); try done.
  - intros H1 H2 Ht. destruct (H1 Ht) as [Ht2 E1]. destruct (H2 Ht2) as [Ht3 E2]. split; [done|].
    unfold frames in *. by rewrite E2, E1, fmap_app, concat_app, app_assoc.
  - intros H1 H2. by rewrite H2, H1, fmap_app, app_assoc.
Qed.

(** What sending leaves alone. *)
Definition same_rx (u u' : udp) : Prop :=
  sk_rx (ud_stream u') = sk_rx (ud_stream u) /\ dk_rx (ud_dgram u') = dk_rx (ud_dgram u) /\
  s5_type (ud_base u') = s5_type (ud_base u) /\ s5_udp_associated (ud_base u') = s5_udp_associated (ud_base u).

Lemma send_dgrams rs d :
  Forall raw_ok rs ->
  exists r d' j, hev_socks5_udp_sendmmsg_udp (to_send <$> rs) d = Some (r, d') /\ dk_rx d' = dk_rx d /\
    (0 < r -> r = Z.of_nat (length (take j rs))) /\ dk_out d' = dk_out d ++ ((fun m => (None, dgram (msg_of m))) <$> take j rs).
Proof.
  intros Hrs. destruct (udp_iov_raw rs Hrs) as (mv & vs & E1 & E2 & E3).
  unfold hev_socks5_udp_sendmmsg_udp. erewrite bind_Some by (unfold lift_opt; by rewrite E1). cbv beta iota.
  erewrite bind_Some by (unfold lift_opt; by rewrite E2).
  unfold hev_task_io_socket_sendmmsg. destruct (sendmmsg_loop _ _ _ _ _ _) as [[r out] evs'] eqn:El.
  apply sendmmsg_loop_prefix in El as (j & -> & Hr); [|done]. eexists r, _, j. split; [reflexivity|]. split; [done|].
  assert ((fun iov : list (list Z) => (@None sockaddr_in6, concat iov)) <$> vs = (fun m => (None, dgram (msg_of m))) <$> rs) as Ev.
  { trans ((fun d : list Z => (@None sockaddr_in6, d)) <$> ((@concat Z) <$> vs)); [by rewrite <-list_fmap_compose|].
    by rewrite E3, <-list_fmap_compose. }
  rewrite Ev, <-fmap_take, length_fmap in Hr. split; [intros Hp; rewrite Hr by done; lia|]. simpl. by rewrite Ev, <-fmap_take.
Qed.

Lemma send_frames rs k :
  Forall raw_ok rs -> rs <> [] -> rx_ok (sk_rx k) ->
  exists r k', hev_socks5_udp_sendmmsg_tcp (to_send <$> rs) k = Some (r, k') /\ sk_rx k' = sk_rx k /\
    (0 < r -> r = Z.of_nat (length rs)) /\
    (tx_ok (sk_tx k) -> tx_ok (sk_tx k') /\ sk_out k' = sk_out k ++ frames (msg_of <$> rs)).
Proof.
  intros Hrs Hne Hrx. destruct (tcp_iov_raw rs Hrs) as (iov & vs & E1 & E2 & E3).
  assert (exists r k', hev_socks5_udp_sendmmsg_tcp (to_send <$> rs) k = Some (r, k') /\ sk_rx k' = sk_rx k /\ (0 < r -> r = Z.of_nat (length rs))) as (r & k' & E & Hx & Hr).
  { unfold hev_socks5_udp_sendmmsg_tcp. erewrite bind_Some by (unfold lift_opt; by rewrite E1). cbv beta iota.
    erewrite bind_Some by (unfold lift_opt; by rewrite E2). unfold hev_task_io_socket_sendmsg.
    destruct (sendmsg_loop MSG_WAITALL vs (Z.of_nat (length (concat vs))) 0 (sk_out k) (sk_tx k)) as [[r out] evs] eqn:El. erewrite bind_Some by (rewrite El; reflexivity).
    rewrite length_fmap. destruct (r <=? 0); eexists _, _; (split; [reflexivity|]); (split; [done|]); [lia|done]. }
  exists r, k'. split_and!; try done. intros Htx.
  destruct (sendmmsg_tcp_raw rs k (conj Hrx Htx) Hrs Hne) as (k2 & E4 & [_ Ht2] & Ho & _). rewrite E in E4. injection E4 as _ ->. done.
Qed.

Lemma udp_send_ok rs u :
  Forall raw_ok rs -> rs <> [] -> (s5_type (ud_base u) = TYPE_UDP_IN_TCP -> rx_ok (sk_rx (ud_stream u))) ->
  exists r u' j, hev_socks5_udp_sendmmsg (to_send <$> rs) u = Some (r, u') /\ same_rx u u' /\ (j <= length rs)%nat /\
    (0 < r -> r = Z.of_nat j) /\ out_ok u u' (msg_of <$> take j rs).
Proof.
  intros Hrs Hne Hrx. unfold hev_socks5_udp_sendmmsg. erewrite bind_Some by reflexivity. unfold out_ok.
  destruct (s5_type (ud_base u)) eqn:Et; try (exists (-1), u, 0%nat; split; [reflexivity|]; split_and!; done || lia).
  - destruct (send_frames rs (ud_stream u) Hrs Hne (Hrx eq_refl)) as (r & k & E & Hx & Hr & Ho).
    exists r, (up_stream k u), (length rs). split; [unfold on_stream, zoom; by rewrite E|]. split_and!; try done; [by rewrite firstn_all].
  - destruct (send_dgrams rs (ud_dgram u) Hrs) as (r & d & j & E & Hx & Hr & Ho).
    exists r, (up_dgram d u), (length (take j rs)). split; [unfold on_dgram, zoom; by rewrite E|]. split_and!; try done.
    + rewrite length_take. lia.
    + rewrite length_take. replace (take (j `min` length rs) rs) with (take j rs).
      2: { destruct (decide (j <= length rs)%nat); [by rewrite Nat.min_l|]. rewrite Nat.min_r, firstn_all by lia. apply take_ge. lia. }
      simpl. by rewrite <-list_fmap_compose.
Qed.

(** The state without its sockets. *)
Lemma inv_udp fl dns k q s u : us_inv fl dns k q s -> us_inv fl dns k q (up_uudp u s).
Proof. intros [H1 H2 H3 H4 H5 H6 H7 H8 H9 H10 H11 H12 H13 H14]. by split. Qed.

(** What happens in lwip is proper at any time. *)
Definition lwip_good (fl : ip_addr * Z) (dns : bool) (es : uenvironment) : Prop := forall s, uevs_ok fl dns s (es s).

(** What sending and the callback leave alone. *)
Definition same_in (s s' : usession) : Prop := same_rx (us_udp s) (us_udp s') /\ us_sent s' = us_sent s /\ us_lwip s' = us_lwip s.

Lemma same_io_in s s' : same_io s s' -> same_in s s'.
Proof. intros (Hs & Hd & Ht & Ha & H1 & H2). unfold same_in, same_rx. by rewrite Hs, Hd. Qed.

Lemma same_in_trans s1 s2 s3 : same_in s1 s2 -> same_in s2 s3 -> same_in s1 s3.
Proof. intros ((?&?&?&?)&?&?) ((?&?&?&?)&?&?). repeat split; congruence. Qed.

Lemma same_io_out s s' : same_io s s' -> out_ok (us_udp s) (us_udp s') [].
Proof. intros (Hs & Hd & _). by apply out_ok_refl. Qed.

Lemma fwd_f_ok fl dns num es k q s :
  us_inv fl dns k q s -> 0 < num -> lwip_good fl dns es -> (s5_type (ud_base (us_udp s)) = TYPE_UDP_IN_TCP -> rx_ok (sk_rx (ud_stream (us_udp s)))) ->
  wp (hev_socks5_session_udp_fwd_f dns num es) (fun r s' => exists k' q' j got,
    us_inv fl dns k' q' s' /\ us_got s' = us_got s ++ got /\ same_in s s' /\ -1 <= r <= 1 /\
    (k + j <= length (us_got s))%nat /\ (0 <= r -> k' = (k + j)%nat) /\ (r = 1 -> j <> 0%nat) /\
    out_ok (us_udp s) (us_udp s') (msg_of <$> take j (drop k (us_got s)))) s.
Proof.
  intros Hi Hnum Hes Hrx. pose proof (ui_frames _ _ _ _ _ Hi) as Hfr.
  assert (length q = length (drop k (us_got s))) as Hlq by (eapply Forall2_length, Hi).
  pose proof (ui_le _ _ _ _ _ Hi) as Hle. rewrite length_drop in Hlq.
  unfold hev_socks5_session_udp_fwd_f. apply wp_bind, wp_gets. wp_case.
  { apply wp_ret. exists k, q, 0%nat, []. rewrite !app_nil_r, take_0. split_and!; try done; try lia. by apply out_ok_refl. }
  apply wp_bind. eapply wp_intro; [unfold on_flist, zoom; rewrite (list_rep_first _ _ (ui_list _ _ _ _ _ Hi)); reflexivity|].
  replace (up_ulist (us_list s) s) with s by (by destruct s). cbv zeta.
  set (n := Z.to_nat (if num <? us_frames s then num else us_frames s)).
  assert (0 < n <= length q)%nat as Hn by (unfold n; destruct (Z.ltb_spec num (us_frames s)); lia).
  apply wp_bind. eapply wp_intro; [exact (fill_ok fl dns k [] q s n Hi ltac:(lia))|]. simpl length. rewrite Nat.add_0_r.
  set (rs := take n (drop k (us_got s))).
  assert (length rs = n) as Hrs by (unfold rs; rewrite length_take, length_drop; lia).
  destruct (udp_send_ok rs (us_udp s)) as (r & u & j & E & Hsame & Hj & Hr & Ho); [|intros Hnil; rewrite Hnil in Hrs; simpl in Hrs; lia|done|].
  { apply Forall_take, Forall_drop, Hi. }
  apply wp_bind. eapply wp_intro; [unfold on_udp, zoom; rewrite E; reflexivity|].
  apply wp_bind, wp_gets, wp_bind. eapply wp_conseq; [apply (uevents_keep fl dns k q); [by apply inv_udp|apply Hes]|].
  intros [] s1 (q1 & g1 & Hi1 & Hio1 & Hg1). simpl in Hg1.
  assert (out_ok (us_udp s) (us_udp s1) (msg_of <$> take j rs)) as Ho1.
  { rewrite <-(app_nil_r (msg_of <$> take j rs)). eapply out_ok_trans; [|exact Ho|exact (same_io_out _ _ Hio1)]. apply Hsame. }
  assert (same_in s s1) as Hin1.
  { eapply (same_in_trans _ (up_uudp u s)); [by split_and!; [exact Hsame|..]|by apply same_io_in]. }
  assert (take j rs = take j (drop k (us_got s))) as Htj by (unfold rs; rewrite take_take; f_equal; lia). rewrite Htj in Ho1.
  wp_case.
  { apply wp_ret. exists k, (q ++ q1), j, g1. split_and!; try done; try lia. }
  assert (r = Z.of_nat j) as -> by (apply Hr; lia). rewrite Nat2Z.id.
  assert (j = length (take j q)) as Hjq by (rewrite length_take; lia).
  apply wp_bind. rewrite Hjq at 1. eapply wp_conseq; [apply (drop_ok fl dns k (take j q) (drop j q ++ q1)); by rewrite app_assoc, take_drop|].
  intros [] s2 (Hi2 & Hio2 & Hg2). apply wp_ret. rewrite <-Hjq in Hi2.
  exists (k + j)%nat, (drop j q ++ q1), j, g1. split_and!; try done; try lia; [congruence|by eapply same_in_trans; [|apply same_io_in]|].
  rewrite <-(app_nil_r (msg_of <$> take j _)). eapply out_ok_trans; [|exact Ho1|exact (same_io_out _ _ Hio2)]. apply Hin1.
Qed.

(** ** Towards the application *)

(** The source of a datagram for the application, as a function of the state. *)
Definition source_spec (addr : list Z) (port : Z) (saddr : ip_addr) (a : list Z) : option (option (ip_addr * Z)) :=
  if is_mapped addr port then b ← poke (ip_bytes saddr) 0 addr; Some (Some (IpAddr b IPADDR_TYPE_V4, port))
  else '(ip, port, r) ← hev_socks5_addr_into_lwip a saddr 0; Some (if r <? 0 then None else Some (ip, port)).

Lemma source_run saddr a s : source_of saddr a s = (o ← source_spec (us_addr s) (us_port s) saddr a; Some (o, s)).
Proof.
  unfold source_of, source_spec. erewrite bind_Some by reflexivity. erewrite bind_Some by reflexivity.
  destruct (is_mapped _ _).
  - unfold lift_opt, bind. by destruct (poke _ 0 _).
  - unfold lift_opt, bind. by destruct (hev_socks5_addr_into_lwip a saddr 0) as [[[ip port] r]|].
Qed.

Lemma peek_more l t off n b : peek l off n = Some b -> peek (l ++ t) off n = Some b.
Proof.
  unfold peek. intros H. case_match eqn:E; [|done]. apply andb_prop in E as [E1 E2]. apply andb_prop in E1 as [E0 E1].
  apply Z.leb_le in E0, E1, E2. rewrite length_app, !(proj2 (Z.leb_le _ _)) by lia. cbn [andb].
  rewrite <-H. f_equal. rewrite drop_app_le by lia. rewrite take_app_le; [done|]. rewrite length_drop. lia.
Qed.

Lemma peek16_app l t off p : peek16 l off = Some p -> peek16 (l ++ t) off = Some p.
Proof. unfold peek16. intros H. apply option.bind_Some in H as (b & E & H). by rewrite (peek_more _ t _ _ _ E). Qed.

(** Only the first bytes of a block are looked at. *)
Lemma into_lwip_app a t ip port r : hev_socks5_addr_into_lwip a ip port = Some r -> hev_socks5_addr_into_lwip (a ++ t) ip port = Some r.
Proof.
  unfold hev_socks5_addr_into_lwip. intros H. apply option.bind_Some in H as (ty & E & H). rewrite (peek1_app _ t _ _ E). cbn [mbind option_bind].
  destruct (ty =? HEV_SOCKS5_ADDR_TYPE_IPV4); [|destruct (ty =? HEV_SOCKS5_ADDR_TYPE_IPV6); [|done]];
    apply option.bind_Some in H as (b & Eb & H); rewrite (peek_more _ t _ _ _ Eb); cbn [mbind option_bind];
    apply option.bind_Some in H as (l & El & H); rewrite El; cbn [mbind option_bind];
    apply option.bind_Some in H as (p & Ep & H); by rewrite (peek16_app _ t _ _ Ep).
Qed.

(** An address that is there as a whole can be converted, or is refused. *)
Definition addr_good (a : list Z) : Prop :=
  forall ip port, (16 <= length (ip_bytes ip))%nat -> exists r, hev_socks5_addr_into_lwip a ip port = Some r.

Lemma addr_len_good a n : hev_socks5_addr_len a = Some n -> 0 < n -> n <= Z.of_nat (length a) -> addr_good a.
Proof.
  unfold hev_socks5_addr_len. intros H Hp Hn ip port Hi. apply option.bind_Some in H as (ty & E & H). unfold hev_socks5_addr_into_lwip.
  rewrite E. cbn [mbind option_bind].
  assert (forall off k, 0 <= off -> 0 <= k -> off + k <= n -> exists b, peek a off k = Some b /\ length b = Z.to_nat k) as Hpeek.
  { intros off k H1 H2 H3. unfold peek. rewrite !(proj2 (Z.leb_le _ _)) by lia. cbn [andb]. eexists. split; [done|]. rewrite length_take, length_drop. lia. }
  assert (forall off, 0 <= off -> off + 2 <= n -> exists p, peek16 a off = Some p) as H16.
  { intros off H1 H2. unfold peek16. destruct (Hpeek off 2) as (b & -> & Hb); [lia..|]. cbn [mbind option_bind].
    destruct b as [|x [|y [|]]]; try done. by eexists. }
  destruct (ty =? HEV_SOCKS5_ADDR_TYPE_IPV4); [|destruct (ty =? HEV_SOCKS5_ADDR_TYPE_IPV6); [|by eexists]]; injection H as <-.
  - destruct (Hpeek 1 4) as (b & -> & Hb); [lia..|]. cbn [mbind option_bind].
    destruct (poke_fits (ip_bytes ip) 0 b) as (l & -> & _); [lia..|]. cbn [mbind option_bind].
    destruct (H16 5) as (p & ->); [lia..|]. by eexists.
  - destruct (Hpeek 1 16) as (b & -> & Hb); [lia..|]. cbn [mbind option_bind].
    destruct (poke_fits (ip_bytes ip) 0 b) as (l & -> & _); [lia..|]. cbn [mbind option_bind].
    destruct (H16 17) as (p & ->); [lia..|]. by eexists.
Qed.

Lemma source_app addr port saddr a t :
  length addr = 4%nat -> (16 <= length (ip_bytes saddr))%nat -> addr_good a ->
  exists o, source_spec addr port saddr a = Some o /\ source_spec addr port saddr (a ++ t) = Some o.
Proof.
  intros Ha Hs Hg. unfold source_spec. destruct (is_mapped _ _).
  - destruct (poke_fits (ip_bytes saddr) 0 addr) as (l & -> & _); [lia..|]. by eexists.
  - destruct (Hg saddr 0 Hs) as [[[ip p] r] E]. rewrite (into_lwip_app _ t _ _ _ E), E. by eexists.
Qed.

(** A message that can be delivered: the memory at its address, and its payload. *)
Definition ready (m : recv_msg) (x : list Z * list Z) : Prop :=
  rm_addr m = AddrNull /\ x.2 = [] \/
  (exists off t, rm_addr m = AddrAt off /\ drop (Z.to_nat off) (rm_block m) = x.1 ++ t) /\ addr_good x.1 /\
  rm_len m = Z.of_nat (length x.2) /\ (x.2 <> [] -> peek (rm_block m) (rm_off m) (rm_len m) = Some x.2).

(** What is delivered: everything but empty payloads. *)
Definition solid (xs : list (list Z * list Z)) : list (list Z * list Z) := filter (fun x => x.2 <> []) xs.

Definition sent_as (s : usession) (saddr : ip_addr) (o : ip_addr * Z * list Z) (x : list Z * list Z) : Prop :=
  source_spec (us_addr s) (us_port s) saddr x.1 = Some (Some o.1) /\ o.2 = x.2.

Ltac ends := split_and!; solve [done | by left | by right | constructor].

Lemma deliver_ok saddr msgs xs rest s :
  Forall2 ready msgs xs -> (16 <= length (ip_bytes saddr))%nat -> length (us_addr s) = 4%nat ->
  exists r ans out, deliver saddr (length msgs) (msgs ++ rest) s = Some (r, up_ulwip ans out s) /\ (r = -1 \/ r = 1) /\
    Forall2 (sent_as s saddr) out (take (length out) (solid xs)) /\ (r = 1 -> length out = length (solid xs)).
Proof.
  intros HF Hsa Hua. revert s Hua. induction HF as [|m x msgs xs Hm HF IH]; intros s Hua.
  { exists 1, (us_lwip s), []. split; [unfold up_ulwip; rewrite app_nil_r; by destruct s|]. ends. }
  cbn [deliver length app]. unfold msg_addr. destruct Hm as [(Ha & Hx)|((off & t & Ha & Hx1) & Hgood & Hl & Hpk)]; rewrite Ha.
  { erewrite bind_Some by reflexivity. destruct (IH s Hua) as (r & ans & out & E & Hr & Ho & Hd). exists r, ans, out.
    split; [exact E|]. unfold solid in *. rewrite filter_cons_False by (by rewrite Hx; intros []). done. }
  erewrite bind_Some by reflexivity. rewrite Hx1, Hl. unfold solid in *. destruct (decide (x.2 = [])) as [Hnil|Hne].
  { rewrite Hnil. cbn [length]. rewrite Z.eqb_refl. destruct (IH s Hua) as (r & ans & out & E & Hr & Ho & Hd). exists r, ans, out.
    split; [exact E|]. rewrite filter_cons_False by tauto. done. }
  rewrite (proj2 (Z.eqb_neq _ 0)) by (destruct (x.2); [done|simpl; lia]). rewrite filter_cons_True by done.
  destruct (source_app (us_addr s) (us_port s) saddr x.1 t Hua Hsa Hgood) as (o & Ho & Hot).
  erewrite bind_Some by (rewrite source_run, Hot; reflexivity). destruct o as [[ip port]|].
  2: { exists (-1), (us_lwip s), []. split; [unfold up_ulwip; rewrite app_nil_r; by destruct s|]. ends. }
  erewrite bind_Some by (unfold lift_opt; rewrite <-Hl, (Hpk Hne); reflexivity).
  unfold send_up. rewrite bind_assoc. erewrite bind_Some by reflexivity. destruct (hd (true, 0) (us_lwip s)) as [mem err].
  destruct mem; cbn [negb].
  2: { rewrite bind_assoc. do 2 (erewrite bind_Some by reflexivity). eexists (-1), _, []. split; [reflexivity|]. ends. }
  destruct (negb (err =? 0)).
  { rewrite bind_assoc. do 2 (erewrite bind_Some by reflexivity). eexists (-1), _, []. split; [reflexivity|]. ends. }
  rewrite bind_assoc. do 2 (erewrite bind_Some by reflexivity).
  destruct (IH (up_ulwip (tl (us_lwip s)) [(ip, port, x.2)] s) Hua) as (r & ans & out & E & Hr & HF2 & Hd).
  exists r, ans, ((ip, port, x.2) :: out). split; [rewrite E; unfold up_ulwip; simpl; by rewrite <-app_assoc|].
  split; [done|]. cbn [length take]. split; [|intros H1; by rewrite (Hd H1)]. constructor; [by split|]. exact HF2.
Qed.

(** ** Receiving *)

(** The address block and the payload of a datagram. *)
Definition payload_at (d : list Z) : list Z * list Z :=
  (drop 3 (stored d),
   if decide (length d < 4)%nat then [] else drop (Z.to_nat (3 + default 0 (hev_socks5_addr_len (drop 3 (stored d))))) (stored d)).

Fixpoint dgrams_in (evs : list (drx_event sockaddr_in6)) : list (list Z) :=
  match evs with
  | [] => []
  | DrBatch ds :: evs => (snd <$> ds) ++ dgrams_in evs
  | _ :: evs => dgrams_in evs
  end.

(** What the server still sends: in a stream whole frames, with anything between them, or datagrams of any content. *)
Definition rx_has (u : udp) (xs : list (list Z * list Z)) : Prop :=
  match s5_type (ud_base u) with
  | TYPE_UDP_IN_TCP => rx_whole (sk_rx (ud_stream u)) xs
  | TYPE_UDP_IN_UDP => drx_ok (dk_rx (ud_dgram u)) /\ xs = payload_at <$> dgrams_in (dk_rx (ud_dgram u))
  | _ => True
  end.

Lemma rx_has_same u u' xs : same_rx u u' -> rx_has u xs -> rx_has u' xs.
Proof. intros (E1 & E2 & E3 & _). unfold rx_has. by rewrite E1, E2, E3. Qed.

Lemma rx_has_ok u xs : rx_has u xs -> s5_type (ud_base u) = TYPE_UDP_IN_TCP -> rx_ok (sk_rx (ud_stream u)).
Proof. unfold rx_has. intros H Ht. rewrite Ht in H. by eapply rx_whole_ok. Qed.

(** The length of an address is found in its first two bytes. *)
Lemma addr_len_front a b l t n : hev_socks5_addr_len ((a :: b :: l) ++ t) = Some n -> hev_socks5_addr_len (a :: b :: l) = Some n.
Proof.
  unfold hev_socks5_addr_len. cbn [app]. rewrite !(peek1_at _ 0 a [] _) by done. cbn [mbind option_bind].
  by rewrite !(peek1_at _ 1 b [a] _) by done.
Qed.

Lemma parsed_ready m d : parsed m d -> ready m (payload_at d).
Proof.
  intros ([Hbl Hbb] & Htk & [(Ha & _ & Hl)|(n & Hn & Hp & Ha & Ho & Hlen & Hge)]); unfold ready, payload_at; cbn [fst snd].
  { left. by rewrite decide_True. }
  right. unfold UDP_BUF_SIZE in Hbl.
  assert (rm_block m = stored d ++ drop (length (stored d)) (rm_block m)) as Eb by (by rewrite <-Htk at 1; rewrite take_drop).
  set (tail := drop (length (stored d)) (rm_block m)) in Eb. clearbody tail.
  assert (2 <= n) as Hn2.
  { destruct (drop 3 (rm_block m)) as [|x [|y l]] eqn:E; [apply (f_equal length) in E; rewrite length_drop in E; simpl in E; lia..|].
    assert (byte_ok y) as Hy.
    { assert (bytes_ok (x :: y :: l)) as Hbs by (rewrite <-E; by apply Forall_drop). by apply Forall_cons in Hbs as [_ [? _]%Forall_cons]. }
    destruct (addr_len_inv _ _ _ _ Hn Hp Hy). lia. }
  assert (length (stored d) <= length d)%nat as Hsd by (unfold stored; rewrite length_take; lia).
  assert (drop 3 (rm_block m) = drop 3 (stored d) ++ tail) as E3 by (rewrite Eb; apply drop_app_le; lia).
  assert (hev_socks5_addr_len (drop 3 (stored d)) = Some n) as Hal.
  { rewrite E3 in Hn. destruct (drop 3 (stored d)) as [|x [|y l]] eqn:E; [apply (f_equal length) in E; rewrite length_drop in E; simpl in E; lia..|].
    by eapply addr_len_front. }
  rewrite Hal. simpl default. rewrite decide_False by lia. split; [|split; [|split]].
  - exists 3, tail. split; [done|]. exact E3.
  - eapply addr_len_good; [exact Hal|done|]. rewrite length_drop. lia.
  - rewrite Hlen, length_drop. lia.
  - intros _. apply (peek_at _ _ _ (take (Z.to_nat (3 + n)) (stored d)) _ tail).
    + rewrite app_assoc, take_drop. exact Eb.
    + rewrite Ho, length_take. lia.
    + rewrite Hlen, length_drop. lia.
Qed.

Lemma delivered_ready m x : fits x -> delivered m x -> ready m x.
Proof.
  intros ((_ & Hal & Hne) & _) (tail & Eb & Ho & Hl & Ha & _). right. split; [|split; [|split]].
  - exists 0, (x.2 ++ tail). by rewrite Ha, Eb.
  - eapply addr_len_good; [exact Hal| |done]. destruct x.1; [done|simpl; lia].
  - done.
  - intros _. by apply (peek_at _ _ _ x.1 x.2 tail).
Qed.

(** What receiving leaves alone. *)
Definition same_tx (u u' : udp) : Prop :=
  sk_tx (ud_stream u') = sk_tx (ud_stream u) /\ sk_out (ud_stream u') = sk_out (ud_stream u) /\
  dk_out (ud_dgram u') = dk_out (ud_dgram u) /\ s5_type (ud_base u') = s5_type (ud_base u).

Lemma same_tx_out u u' : same_tx u u' -> out_ok u u' [].
Proof.
  intros (E1 & E2 & E3 & _). unfold out_ok. rewrite E1, E2, E3. destruct (s5_type _); try done; unfold frames; simpl; by rewrite app_nil_r.
Qed.

Lemma lift_opt_same {S A} (o : option A) (s s' : S) a : lift_opt o s = Some (a, s') -> s' = s.
Proof. unfold lift_opt. destruct o; [by intros [= _ <-]|done]. Qed.

Lemma recv_udp_same conn nb msgs u r u' :
  hev_socks5_udp_recvmmsg_udp conn nb msgs u = Some (r, u') -> same_tx u u'.
Proof.
  unfold hev_socks5_udp_recvmmsg_udp. intros H. apply bind_Some_inv in H as ([r1 ds] & u1 & H1 & H).
  assert (same_tx u u1) as Hs.
  { unfold on_dgram, zoom, hev_task_io_socket_recvmmsg in H1. destruct (recvmmsg_loop _ _ _ _ _) as [[? ?] ?]. by injection H1 as <- <- <-. }
  destruct (r1 <=? 0); [by injection H as <- <-|]. apply bind_Some_inv in H as ([m1 l1] & u2 & H2 & H).
  apply lift_opt_same in H2 as ->. apply bind_Some_inv in H as (as_ & u3 & H3 & H). injection H3 as <- <-.
  destruct (_ && _); [by injection H as <- <-|]. apply bind_Some_inv in H as ([] & u4 & H4 & H). injection H4 as <-.
  apply bind_Some_inv in H as ([ok m2] & u5 & H5 & H). apply lift_opt_same in H5 as ->. injection H as <- <-. exact Hs.
Qed.

(** A receiving call takes the next messages, and a positive result is their
    number. *)
Lemma recv_ok_all conn u xs blks :
  rx_has u xs -> Forall block_ok blks ->
  exists r msgs u' j, hev_socks5_udp_recvmmsg conn true (fresh_msgs blks) u = Some ((r, msgs), u') /\ same_tx u u' /\ rx_has u' (drop j xs) /\
    (r <= 0 -> s5_type (ud_base u) = TYPE_UDP_IN_TCP -> j = 0%nat) /\
    (0 < r -> exists ms rest, msgs = ms ++ rest /\ r = Z.of_nat (length ms) /\ Forall2 ready ms (take j xs)).
Proof.
  intros Hrx Hb. unfold hev_socks5_udp_recvmmsg. erewrite bind_Some by reflexivity. unfold rx_has in *.
  destruct (s5_type (ud_base u)) eqn:Et; try (exists (-1), (fresh_msgs blks), u, 0%nat; split; [reflexivity|]; split_and!; solve [done | by rewrite Et | lia]).
  - destruct (recv_whole blks xs 0 [] (ud_stream u) Hrx) as (j & got & s' & z & Hj & Hg & E & Hd & Hft & Hw' & Ho & Htx & Hz); try done;
      [by eapply Forall_impl; [exact Hb|intros ? []]|].
    unfold on_stream, zoom, hev_socks5_udp_recvmmsg_tcp. rewrite E. eexists _, _, (up_stream s' u), j. split; [reflexivity|].
    split; [by split_and!|]. cbn [ud_base up_stream]. rewrite Et. split; [done|].
    split; [intros Hp _; revert Hp; case_decide; [lia|]; destruct (Z.ltb_spec 0 (0 + Z.of_nat j)); lia|].
    intros Hp. exists got, (fresh_msgs (drop j blks)). split; [done|]. split.
    { case_decide; [lia|]. destruct (Z.ltb_spec 0 (0 + Z.of_nat j)); lia. }
    clear -Hd Hft. induction Hd; [constructor|]. apply Forall_cons in Hft as [? ?]. constructor; [by apply delivered_ready|auto].
  - destruct Hrx as (Hev & ->).
    assert (exists r msgs u' j, hev_socks5_udp_recvmmsg_udp conn true (fresh_msgs blks) u = Some ((r, msgs), u') /\
      drx_ok (dk_rx (ud_dgram u')) /\ dgrams_in (dk_rx (ud_dgram u')) = drop j (dgrams_in (dk_rx (ud_dgram u))) /\
      (0 < r -> exists ms rest, msgs = ms ++ rest /\ r = Z.of_nat (length ms) /\ Forall2 parsed ms (take j (dgrams_in (dk_rx (ud_dgram u))))))
      as (r & msgs & u' & j & E & Hev' & Hin & Hp).
    { destruct (dk_rx (ud_dgram u)) as [|[ds| | |] evs] eqn:Erx.
      2: { apply Forall_cons in Hev as [Hds Hev].
           destruct (recv_batch conn u blks ds evs Erx Hds Hb) as (r & msgs & u' & E & Hr & _ & Hd').
           exists r, msgs, u', (Nat.min (length blks) (length ds)). split; [exact E|].
           assert (drop (Nat.min (length blks) (length ds)) ds = drop (length blks) ds) as Hdm.
           { destruct (decide (length blks <= length ds)%nat); [by rewrite Nat.min_l|]. rewrite Nat.min_r, !drop_ge by lia. done. }
           rewrite Hd'. cbn [dgrams_in]. rewrite drop_app_le by (rewrite length_fmap; lia). rewrite <-fmap_drop, Hdm. split_and!.
           - destruct (drop (length blks) ds) eqn:Ed; [done|]. apply Forall_cons. split; [|done]. rewrite <-Ed. by apply Forall_drop.
           - destruct (drop (length blks) ds); [done|]. reflexivity.
           - intros Hp. destruct (Hr Hp) as (ms & rest & -> & HF & Hrr). exists ms, (fresh_msgs rest). split; [done|].
             assert (Z.to_nat r = Nat.min (length blks) (length ds)) as Hrn by lia. rewrite Hrn in HF. rewrite take_app_le by (rewrite length_fmap; lia).
             split; [|done]. apply Forall2_length in HF. rewrite length_take, length_fmap in HF. lia. }
      all: eexists (-1), _, _, 0%nat; split; [unfold hev_socks5_udp_recvmmsg_udp;
        erewrite bind_Some by (unfold on_dgram, zoom, hev_task_io_socket_recvmmsg; rewrite Erx; reflexivity); reflexivity|]; try apply Forall_cons in Hev as [_ Hev]; done. }
    pose proof (recv_udp_same _ _ _ _ _ _ E) as Hsame. exists r, msgs, u', j. split; [exact E|]. split; [done|].
    destruct Hsame as (_ & _ & _ & ->). rewrite Et. split; [by rewrite <-fmap_drop, Hin|]. split; [done|].
    intros Hr. destruct (Hp Hr) as (ms & rest & -> & -> & HF). exists ms, rest. split_and!; try done.
    rewrite <-fmap_take. clear -HF. induction HF; [constructor|]. csimpl. constructor; [by apply parsed_ready|done].
Qed.

(** ** A receiving turn *)

(** An answer [x] of the server as the application gets it: from the destination of
    the flow, or from the address the server gave. *)
Definition answer_for (fl : ip_addr * Z) (o : ip_addr * Z * list Z) (x : list Z * list Z) : Prop :=
  o.2 = x.2 /\
  (ip_type o.1.1 = IPADDR_TYPE_V4 /\ take 4 (ip_bytes o.1.1) = take 4 (ip_bytes fl.1) /\ o.1.2 = fl.2 \/
   exists saddr r, hev_socks5_addr_into_lwip x.1 saddr 0 = Some (o.1, r) /\ 0 <= r).

Lemma sent_answers fl dns k q s saddr o x :
  us_inv fl dns k q s -> sent_as s saddr o x -> answer_for fl o x.
Proof.
  intros Hi [Hs Hp]. split; [done|]. unfold source_spec in Hs. destruct (is_mapped (us_addr s) (us_port s)) eqn:Em.
  - left. destruct (ui_flow _ _ _ _ _ Hi Em) as [Ea Ep]. pose proof (ui_addr _ _ _ _ _ Hi) as Hl.
    apply option.bind_Some in Hs as (b & Hb & Hs). injection Hs as <-. cbn [fst snd ip_type ip_bytes]. split_and!; [done| |done].
    rewrite <-Ea. unfold poke in Hb. case_match; [|done]. injection Hb as <-. simpl. by rewrite <-Hl, take_app_length.
  - right. apply option.bind_Some in Hs as ([[ip port] r] & Hs & Hr). injection Hr as Hr. exists saddr, r.
    destruct (Z.ltb_spec r 0); [done|]. by injection Hr as <-.
Qed.

Lemma inv_lwip fl dns k q s ans out : us_inv fl dns k q s -> us_inv fl dns k q (up_ulwip ans out s).
Proof. intros [H1 H2 H3 H4 H5 H6 H7 H8 H9 H10 H11 H12 H13 H14]. by split. Qed.

Lemma fwd_b_ok fl dns e blks saddr es k q s xs :
  us_inv fl dns k q s -> lwip_good fl dns es -> rx_has (us_udp s) xs -> Forall block_ok blks -> (16 <= length (ip_bytes saddr))%nat ->
  wp (hev_socks5_session_udp_fwd_b dns e blks saddr es) (fun r s' => exists q' got j out ys,
    us_inv fl dns k q' s' /\ us_got s' = us_got s ++ got /\ same_tx (us_udp s) (us_udp s') /\ -1 <= r <= 1 /\
    rx_has (us_udp s') (drop j xs) /\ us_sent s' = us_sent s ++ out /\ Forall2 (answer_for fl) out ys /\
    ys `prefix_of` solid (take j xs) /\
    (s5_type (ud_base (us_udp s)) = TYPE_UDP_IN_TCP -> 0 <= r -> ys = solid (take j xs))) s.
Proof.
  intros Hi Hes Hrx Hb Hsa. unfold hev_socks5_session_udp_fwd_b. apply wp_bind, wp_gets.
  destruct (recv_ok_all (ue_conn e) (us_udp s) xs blks Hrx Hb) as (r & msgs & u & j & E & Hsame & Hrx' & Hz & Hp).
  apply wp_bind. eapply wp_intro; [unfold on_udp, zoom; rewrite E; reflexivity|]. apply wp_bind, wp_gets, wp_bind.
  eapply wp_conseq; [apply (uevents_keep fl dns k q); [by apply inv_udp|apply Hes]|].
  intros [] s1 (q1 & g1 & Hi1 & (Hst & Hdg & Hty & Has & Hsent & Hlw) & Hg1). simpl in Hst, Hdg, Hty, Hg1, Hsent.
  assert (same_tx (us_udp s) (us_udp s1)) as Hsame1 by (unfold same_tx in *; by rewrite Hst, Hdg, Hty).
  assert (rx_has (us_udp s1) (drop j xs)) as Hrx1 by (unfold rx_has in *; by rewrite Hst, Hdg, Hty).
  wp_case.
  { apply wp_ret. exists (q ++ q1), g1, j, [], []. rewrite app_nil_r. split_and!; try done; try (by case_match); [apply prefix_nil|].
    intros Ht _. by rewrite (Hz ltac:(lia) Ht). }
  destruct (Hp ltac:(lia)) as (ms & rest & -> & -> & HF). rewrite Nat2Z.id.
  destruct (deliver_ok saddr ms (take j xs) rest s1 HF Hsa (ui_addr _ _ _ _ _ Hi1)) as (r & ans & out & Ed & Hr & Ho & Hall).
  eapply wp_intro; [exact Ed|]. exists (q ++ q1), g1, j, out, (take (length out) (solid (take j xs))).
  split_and!; try done; try lia; [by apply inv_lwip|simpl; by rewrite Hsent| |exists (drop (length out) (solid (take j xs))); by rewrite take_drop|].
  - eapply Forall2_impl; [exact Ho|]. intros o x. by apply (sent_answers fl dns k (q ++ q1) s1).
  - intros _ H0. apply take_ge. rewrite Hall by lia. done.
Qed.

(** ** The turns of the splice *)

(** A turn as it can happen: buffers of their size, lwip as it should be. *)
Record uround_ok (fl : ip_addr * Z) (dns : bool) (r : uround) : Prop := {
  uo_send : lwip_good fl dns (ur_send r);
  uo_recv : lwip_good fl dns (ur_recv r);
  uo_nap : lwip_good fl dns (ur_nap r);
  uo_blks : Forall block_ok (ur_blks r);
  uo_some : ur_blks r <> [];
  uo_saddr : (16 <= length (ip_bytes (ur_saddr r)))%nat
}.

(** Between the turns, with [n] messages sent, [j] received and [ys] of these
    delivered; [res_f] and [res_b] are the results so far.  [u0]: the sockets at
    the start, [xs]: what the server sends. *)
Record relay_inv (fl : ip_addr * Z) (dns : bool) (u0 : udp) (xs : list (list Z * list Z)) (res_f res_b : Z) (k n j : nat)
    (q : list (Z * uframe)) (ys : list (list Z * list Z)) (s : usession) : Prop := {
  rl_inv : us_inv fl dns k q s;
  rl_type : s5_type (ud_base (us_udp s)) = s5_type (ud_base u0);
  rl_le : (n <= length (us_got s))%nat;
  rl_n : 0 <= res_f -> n = k;
  rl_out : out_ok u0 (us_udp s) (msg_of <$> take n (us_got s));
  rl_rx : rx_has (us_udp s) (drop j xs);
  rl_ans : Forall2 (answer_for fl) (us_sent s) ys;
  rl_sub : ys `sublist_of` solid (take j xs);
  rl_prefix : s5_type (ud_base u0) = TYPE_UDP_IN_TCP -> ys `prefix_of` solid xs;
  rl_all : s5_type (ud_base u0) = TYPE_UDP_IN_TCP -> 0 <= res_b -> ys = solid (take j xs)
}.

Definition relaying (fl : ip_addr * Z) (dns : bool) (u0 : udp) (xs : list (list Z * list Z)) (res_f res_b : Z) (s : usession) : Prop :=
  exists k n j q ys, relay_inv fl dns u0 xs res_f res_b k n j q ys s.

Lemma solid_app xs ys : solid (xs ++ ys) = solid xs ++ solid ys.
Proof. apply filter_app. Qed.

(** What lwip does meanwhile changes nothing of this. *)
Lemma relay_keeps fl dns u0 xs rf rb k n j q ys s s' :
  relay_inv fl dns u0 xs rf rb k n j q ys s -> grown fl dns k q s s' -> relaying fl dns u0 xs rf rb s'.
Proof.
  intros [Hi Ht Hle Hn Ho Hrx Ha Hs Hpre Hall] (q' & got & Hi' & Hio & Hgot).
  pose proof (same_io_in _ _ Hio) as (Hrxs & Hsent & _). pose proof (same_io_out _ _ Hio) as Ho'.
  exists k, n, j, (q ++ q'), ys. split; try done.
  - destruct Hrxs as (_ & _ & -> & _). done.
  - rewrite Hgot, length_app. lia.
  - rewrite Hgot, take_app_le by done. rewrite <-(app_nil_r (msg_of <$> _)). eapply out_ok_trans; [|exact Ho|exact Ho']. done.
  - by eapply rx_has_same.
  - by rewrite Hsent.
Qed.

Lemma relay_f fl dns u0 xs num es rf rb s :
  relaying fl dns u0 xs rf rb s -> 0 <= rf -> 0 < num -> lwip_good fl dns es ->
  wp (hev_socks5_session_udp_fwd_f dns num es) (fun r s' => -1 <= r <= 1 /\ relaying fl dns u0 xs r rb s') s.
Proof.
  intros (k & n & j & q & ys & [Hi Ht Hle Hn Ho Hrx Ha Hs Hpre Hall]) H0 Hnum Hes.
  eapply wp_conseq; [apply (fwd_f_ok fl dns num es k q s Hi Hnum Hes); intros ?; by eapply rx_has_ok|].
  intros r s' (k' & q' & m & got & Hi' & Hg & (Hrxs & Hsent & _) & Hr & Hkm & Hk' & _ & Ho'). split; [done|].
  rewrite (Hn H0) in *. exists k', (k + m)%nat, j, q', ys. split; try done.
  - destruct Hrxs as (_ & _ & -> & _). done.
  - rewrite Hg, length_app. lia.
  - intros ?. symmetry. by apply Hk'.
  - rewrite Hg, take_app_le, <-take_take_drop, fmap_app by lia. by eapply out_ok_trans.
  - by eapply rx_has_same.
  - by rewrite Hsent.
Qed.

Lemma relay_b fl dns u0 xs e blks saddr es rf rb s :
  relaying fl dns u0 xs rf rb s -> 0 <= rb -> lwip_good fl dns es -> Forall block_ok blks -> (16 <= length (ip_bytes saddr))%nat ->
  wp (hev_socks5_session_udp_fwd_b dns e blks saddr es) (fun r s' => -1 <= r <= 1 /\ relaying fl dns u0 xs rf r s') s.
Proof.
  intros (k & n & j & q & ys & [Hi Ht Hle Hn Ho Hrx Ha Hs Hpre Hall]) H0 Hes Hb Hsa.
  eapply wp_conseq; [by apply (fwd_b_ok fl dns e blks saddr es k q s (drop j xs))|].
  intros r s' (q' & got & m & out & zs & Hi' & Hg & Htx & Hr & Hrx' & Hsent & Ha' & Hp & Hd). split; [done|].
  assert (solid (take (j + m) xs) = solid (take j xs) ++ solid (take m (drop j xs))) as E by (by rewrite <-take_take_drop, solid_app).
  pose proof (same_tx_out _ _ Htx) as Ho'.
  exists k, n, (j + m)%nat, q', (ys ++ zs). split; try done.
  - destruct Htx as (_ & _ & _ & ->). done.
  - rewrite Hg, length_app. lia.
  - rewrite Hg, take_app_le by done. rewrite <-(app_nil_r (msg_of <$> _)). by eapply out_ok_trans.
  - by rewrite <-drop_drop.
  - rewrite Hsent. by apply Forall2_app.
  - rewrite E. apply sublist_app; [done|]. destruct Hp as [t ->]. by apply sublist_inserts_r.
  - intros HT. rewrite (Hall HT H0). trans (solid (take (j + m) xs)); [rewrite E; by apply prefix_app|].
    exists (solid (drop (j + m) xs)). by rewrite <-solid_app, take_drop.
  - intros HT Hr0. rewrite (Hall HT H0), E. f_equal. apply Hd; [by rewrite Ht|done].
Qed.

Lemma yielder_relays fl dns u0 xs rf rb ty r s :
  relaying fl dns u0 xs rf rb s -> lwip_good fl dns (ur_nap r) ->
  wp (udp_session_yielder dns ty r) (fun _ s' => relaying fl dns u0 xs rf rb s') s.
Proof.
  intros (k & n & j & q & ys & Hri) Hnap. unfold udp_session_yielder. apply wp_bind, wp_gets.
  assert (forall y, wp (let* es := gets (ur_nap r) in run_uevents dns es;; ret y) (fun (_ : Z) s' => relaying fl dns u0 xs rf rb s') s) as Hgo.
  { intros y. apply wp_bind, wp_gets, wp_bind. eapply wp_conseq; [apply (uevents_keep fl dns k q); [apply Hri|apply Hnap]|].
    intros [] s' Hg. apply wp_ret. by eapply relay_keeps. }
  assert (wp (hev_socks5_session_terminate;; ret (-1)) (fun _ s' => relaying fl dns u0 xs rf rb s') s) as Hend.
  { destruct (terminate_keeps fl dns k q s (rl_inv _ _ _ _ _ _ _ _ _ _ _ _ Hri)) as (s' & E & Hi' & Hio & Hg).
    apply wp_bind. eapply wp_intro; [exact E|]. apply wp_ret. eapply relay_keeps; [exact Hri|].
    exists [], []. by rewrite !app_nil_r. }
  destruct (s5_type (ud_base (us_udp s))); try apply Hgo; destruct (ur_ctl r); by try apply Hgo.
Qed.

Lemma udp_loop_ok fl dns u0 xs rounds rf rb s :
  relaying fl dns u0 xs rf rb s -> Forall (uround_ok fl dns) rounds ->
  wp (udp_session_loop dns rounds rf rb) (fun _ s' => exists rf' rb', relaying fl dns u0 xs rf' rb' s') s.
Proof.
  revert rf rb s. induction rounds as [|r rounds IH]; intros rf rb s Hrel HF; cbn [udp_session_loop].
  { apply wp_ret. by exists rf, rb. }
  apply Forall_cons in HF as [[Hs Hr Hn Hb Hne Hsa] HF]. cbv zeta.
  assert (0 < Z.of_nat (length (ur_blks r))) as Hnum by (destruct (ur_blks r); [done|simpl; lia]).
  apply wp_bind. eapply (wp_conseq _ (fun rf' s' => relaying fl dns u0 xs rf' rb s')).
  { destruct (Z.leb_spec 0 rf); [|by apply wp_ret]. eapply wp_conseq; [by eapply relay_f|]. by intros ? ? []. }
  intros rf1 s1 H1. apply wp_bind. eapply (wp_conseq _ (fun rb' s' => relaying fl dns u0 xs rf1 rb' s')).
  { destruct (Z.leb_spec 0 rb); [|by apply wp_ret]. eapply wp_conseq; [by eapply relay_b|]. by intros ? ? []. }
  intros rb1 s2 H2.
  assert (forall ty, wp (let* y := udp_session_yielder dns ty r in if negb (y =? 0) then ret tt else udp_session_loop dns rounds rf1 rb1)
    (fun _ s' => exists rf' rb', relaying fl dns u0 xs rf' rb' s') s2) as Hnext.
  { intros ty. apply wp_bind. eapply wp_conseq; [by apply yielder_relays|]. intros y s3 H3. cbv beta.
    destruct (negb (y =? 0)); [apply wp_ret; by exists rf1, rb1|by apply IH]. }
  destruct (_ || _); [apply Hnext|]. destruct (_ =? 0); [apply Hnext|]. apply wp_ret. by exists rf1, rb1.
Qed.
