(* ===== verification/SessionUdpTheorems.v ===== *)
(** * Theorems on a UDP session (hev-socks5-session-udp.c)

    A session relays the datagrams of its flow in both directions, in order and
    unchanged, and gives back all it took; the callback takes what there is room
    for, and of a chain of buffers only the first. *)

From S2P Require Import Prelude RBTree HevList MappedDNS SocksAddr AddrTheorems TaskSocket TaskMsg Socks5Client Socks5Udp Handshake HandshakeSafe UdpFrames UdpDatagrams SessionUdp SessionUdpInv SessionUdpFlow.

Lemma construct_inv fl dns in_udp names lwip stream dgram_sock :
  names_ok dns names -> us_inv fl dns 0 [] (hev_socks5_session_udp_construct in_udp names lwip stream dgram_sock).
Proof. intros Hn. split; simpl; try done; try constructor; repeat split; constructor. Qed.

(** C3: A UDP session relays its flow in both directions and leaks nothing, as long as no frame of the
    server is cut.  From its construction, whatever datagrams of the flow arrive while the association is
    being made and during the turns, and whatever lwip and the system answer: a server of datagrams
    may send anything; over a stream ([rx_has], [rx_whole]) it sends frames of complete addresses that fit the buffers,
    in any pieces, and between two frames, but not inside one, a call may fail, a wait may
    run out and the stream may end (what a cut frame does is [udp_truncated_frame_faults]).  Then no
    operation reads or frees an object that is not there; what goes out to the
    server are the first of the accepted messages, in order, each once, as datagrams, or as frames while the
    stream takes what it is given; what the application gets are payloads of the server in the
    order of the server, none empty and none twice, and in a stream none is left
    out before the last; each comes from the destination of the flow or from the address the
    server gave.  The queue never holds more than the pool and one, and the
    destructor frees every frame and every packet buffer. *)
Theorem session_udp_relays fl dns in_udp names lwip stream dgram_sock pre u xs rounds :
  let s0 := hev_socks5_session_udp_construct in_udp names lwip stream dgram_sock in
  names_ok dns names -> uevs_ok fl dns s0 pre -> rx_has u xs -> Forall (uround_ok fl dns) rounds ->
  exists s1 s2 s3, run_uevents dns pre s0 = Some (tt, s1) /\
    hev_socks5_session_udp_splice dns rounds (up_uudp u s1) = Some (tt, s2) /\
    hev_socks5_session_udp_destruct s2 = Some (tt, s3) /\
    Forall (to_flow fl) (us_got s2) /\
    (exists n, (n <= length (us_got s2))%nat /\ out_ok u (us_udp s3) (msg_of <$> take n (us_got s2))) /\
    (exists ys, Forall2 (answer_for fl) (us_sent s3) ys /\ ys `sublist_of` solid xs /\
      (s5_type (ud_base u) = TYPE_UDP_IN_TCP -> ys `prefix_of` solid xs)) /\
    us_frames s2 = Z.of_nat (size (us_mem s2)) /\ us_frames s2 <= UDP_POOL_SIZE + 1 /\
    us_mem s3 = ∅ /\ us_pbufs s3 = ∅ /\ l_nodes (us_list s3) = ∅ /\ us_pcb s3 = false.
Proof.
  intros s0 Hn Hpre Hrx HF.
  destruct (wp_elim _ _ _ (uevents_keep fl dns 0 [] s0 pre (construct_inv fl dns in_udp names lwip stream dgram_sock Hn) Hpre))
    as ([] & s1 & E1 & q1 & got & Hi1 & (_ & _ & _ & _ & Hsent & _) & _).
  assert (relaying fl dns u xs 1 1 (up_uudp u s1)) as Hrel.
  { exists 0%nat, 0%nat, 0%nat, q1, []. split; try done; try (by apply inv_udp); try lia; try apply prefix_nil; simpl.
    - by apply out_ok_refl.
    - rewrite Hsent. constructor.
    - intros _. apply prefix_nil. }
  destruct (wp_elim _ _ _ (udp_loop_ok fl dns u xs rounds 1 1 _ Hrel HF)) as ([] & s2 & E2 & rf & rb & k & n & j & q & ys & [Hi Ht Hle Hnk Ho Hrx2 Ha Hs Hp _]).
  destruct (wp_elim _ _ _ (destruct_frees _ _ _ _ _ Hi)) as ([] & s3 & E3 & Hm & Hpb & Hl & Hpc & Hio).
  exists s1, s2, s3. split_and!; try done.
  - apply Hi.
  - exists n. split; [done|]. rewrite <-(app_nil_r (msg_of <$> _)). eapply out_ok_trans; [|exact Ho|exact (same_io_out _ _ Hio)]. done.
  - exists ys. destruct Hio as (_ & _ & _ & _ & -> & _). split_and!; [done| |done]. etrans; [exact Hs|].
    rewrite <-(take_drop j xs) at 2. rewrite solid_app. by apply sublist_inserts_r.
  - rewrite (ui_frames _ _ _ _ _ Hi), (ui_mem _ _ _ _ _ Hi), map_size_list_to_map by (by eapply us_nodup). done.
  - rewrite (ui_frames _ _ _ _ _ Hi). apply Hi.
Qed.

(** Datagrams that arrive whenever their objects are new. *)
Definition arrives (n : Z) (chain : list (list Z)) (s : usession) : list udp_event :=
  match us_pbufs s !! n, us_mem s !! n with
  | None, None => [UvData n chain (Some (n, replicate sizeof_addr 170)) (IpAddr [10; 0; 0; 1] IPADDR_TYPE_V4) 53]
  | _, _ => []
  end.

Definition no_cache : mdns := MDns 0 0 0 0 (LMem NULL NULL ∅) (RBMem NULL ∅) ∅ [].
Definition sample_fl : ip_addr * Z := (IpAddr [10; 0; 0; 1] IPADDR_TYPE_V4, 53).

Lemma arrives_good dns n chain : n <> NULL -> chain <> [] -> lwip_good sample_fl dns (arrives n chain).
Proof.
  intros Hn Hc s. unfold arrives. destruct (us_pbufs s !! n) eqn:E1; [done|]. destruct (us_mem s !! n) eqn:E2; [done|].
  split; [|done]. split_and!; try done. split; [by apply (bool_decide_unpack _)|left; simpl; split; [done|lia]].
Qed.

Definition sample_uround (n : Z) : uround :=
  URound (arrives n [[1; 2]; [3]]) (UEnv 0 0 false (fun _ => None) (fun _ => None) (fun _ _ => None)) [replicate 1500 0; replicate 1500 0]
    (IpAddr (replicate 16 0) 0) (arrives (n + 1) [[4; 5]]) CtlAgain (arrives (n + 2) [[6]]) 1.

Definition sample_udp : udp :=
  Udp (Socks5 3 1000 TYPE_UDP_IN_TCP false 0)
    (Sock [RxTimeout; RxData [0; 3; 10; 1; 8; 8; 8; 8; 0]; RxAgain; RxData [53; 1; 2; 3]; RxEof] [TxSome 1; TxAgain] []) (DSock [] [] []) (DSock [] [] []) false.

Lemma sample_has : rx_has sample_udp [([1; 8; 8; 8; 8; 0; 53], [1; 2; 3])].
Proof.
  apply whole_pause; [tauto|]. apply (whole_frames [RxData [0; 3; 10; 1; 8; 8; 8; 8; 0]; RxAgain; RxData [53; 1; 2; 3]] [([1; 8; 8; 8; 8; 0; 53], [1; 2; 3])] [RxEof] []); [|reflexivity| |done|by repeat constructor].
  all: repeat constructor; cbn; try lia; try (by apply (bool_decide_unpack _)); done.
Qed.

Lemma sample_uround_ok n : 0 < n -> uround_ok sample_fl false (sample_uround n).
Proof. intros Hn. split; try (apply arrives_good; [unfold NULL; lia|done]); try done. repeat constructor; by apply (bool_decide_unpack _). Qed.

Lemma session_udp_relays_witness :
  let s0 := hev_socks5_session_udp_construct false no_cache [] (Sock [] [] []) (DSock [] [] []) in
  exists s1 s2 s3, run_uevents false (arrives 1 [[7; 8]] s0) s0 = Some (tt, s1) /\
    hev_socks5_session_udp_splice false [sample_uround 10; sample_uround 20; sample_uround 30] (up_uudp sample_udp s1) = Some (tt, s2) /\
    hev_socks5_session_udp_destruct s2 = Some (tt, s3) /\ us_mem s3 = ∅ /\ us_pbufs s3 = ∅.
Proof.
  intros s0. destruct (session_udp_relays sample_fl false false no_cache [] (Sock [] [] []) (DSock [] [] [])
    (arrives 1 [[7; 8]] s0) sample_udp [([1; 8; 8; 8; 8; 0; 53], [1; 2; 3])] [sample_uround 10; sample_uround 20; sample_uround 30])
    as (s1 & s2 & s3 & E1 & E2 & E3 & _ & _ & _ & _ & _ & Hm & Hp & _).
  - done.
  - by apply arrives_good.
  - apply sample_has.
  - repeat apply Forall_cons_2; try apply Forall_nil_2; apply sample_uround_ok; lia.
  - by exists s1, s2, s3.
Defined.

(** C34: The callback takes a datagram when there is room.  In any state of a session a
    datagram of its flow is taken exactly when at most a pool of frames is queued and
    there is memory: then one message is appended, whose payload is the first buffer
    of the chain (what lwip put into further buffers is lost), and it is queued last;
    otherwise its buffers are freed and the session is as before. *)
Theorem session_udp_callback fl dns k q s p b chain alloc :
  us_inv fl dns k q s -> uev_ok fl s (UvData p (b :: chain) alloc fl.1 fl.2) ->
  exists s', run_uevent dns (UvData p (b :: chain) alloc fl.1 fl.2) s = Some (tt, s') /\
    (us_frames s <= UDP_POOL_SIZE /\ alloc <> None ->
      (us_got s').*2 = (us_got s).*2 ++ [b] /\ us_frames s' = us_frames s + 1 /\
      exists e, us_inv fl dns k (q ++ [e]) s') /\
    (UDP_POOL_SIZE < us_frames s \/ alloc = None -> s' = s).
Proof.
  intros Hi He. destruct (wp_elim _ _ _ (uevent_keeps fl dns k q s _ Hi He)) as ([] & s' & E & (q' & got & Hi' & Hio & Hg) & Ht & Hsame).
  exists s'. split; [done|]. cbn [taken] in Ht, Hsame. split.
  - intros [Hroom Hal]. destruct alloc as [[a mem]|]; [|done]. rewrite (proj2 (Z.ltb_ge _ _)) in Ht by done. split; [done|].
    apply (f_equal length) in Ht. rewrite length_app, !length_fmap in Ht. simpl in Ht.
    pose proof (Forall2_length _ _ _ (ui_msgs _ _ _ _ _ Hi)) as L1. pose proof (Forall2_length _ _ _ (ui_msgs _ _ _ _ _ Hi')) as L2.
    pose proof (ui_le _ _ _ _ _ Hi). rewrite length_drop in L1. rewrite length_app, length_drop in L2.
    destruct q' as [|e [|]]; [simpl in L2; lia| |simpl in L2; lia]. split; [|by exists e].
    rewrite (ui_frames _ _ _ _ _ Hi'), (ui_frames _ _ _ _ _ Hi), length_app. simpl. lia.
  - intros Hno. apply Hsame; [done|]. destruct alloc as [[a mem]|]; [|done]. destruct Hno as [Hf|]; [|done]. by rewrite (proj2 (Z.ltb_lt _ _)).
Qed.

Lemma session_udp_callback_witness :
  let s := hev_socks5_session_udp_construct true no_cache [] (Sock [] [] []) (DSock [] [] []) in
  exists s', run_uevent false (UvData 9 [[1; 2]; [3; 4]] (Some (8, replicate sizeof_addr 170)) sample_fl.1 sample_fl.2) s = Some (tt, s') /\
    (us_got s').*2 = [[1; 2]] /\ us_frames s' = 1.
Proof.
  intros s. destruct (session_udp_callback sample_fl false 0 [] s 9 [1; 2] [[3; 4]] (Some (8, replicate sizeof_addr 170))) as (s' & E & H & _).
  - by apply construct_inv.
  - split_and!; try done. split; [by apply (bool_decide_unpack _)|left; simpl; split; [done|lia]].
  - exists s'. destruct H as (Hg & Hf & _); [by vm_compute|]. split_and!; [exact E|exact Hg|exact Hf].
Defined.
