(* ===== verification/SliceAlloc.v ===== *)
(** * The slice allocator (hev-task-system: mem/slice, mem/api)

    Freed blocks of small sizes are kept in one chain per size; when too many are
    kept, one of the size that was not used for the longest time goes back to
    [malloc].  Blocks are objects of a heap: a header, whose fields may not have been
    assigned yet, and the room behind it.  The answers of [malloc] and [realloc] are
    arguments, [None] for no memory. *)

From S2P Require Import Prelude RBTree HevList.

(** ** Sizes (configs.mk) *)

Definition CACHED_SLICE_ALIGN : Z := 16.
Definition MAX_CACHED_SLICE_SIZE : Z := 4096.
Definition MAX_CACHED_SLICE_COUNT : Z := 1000.
Definition MAX_CACHED_SLICE_INDEX : Z := MAX_CACHED_SLICE_SIZE / CACHED_SLICE_ALIGN.

(** [sizeof (HevMemorySlice)]: a pointer and an [int]. *)
Definition sizeof_slice : Z := 16.

(** In the width of [size_t]. *)
Definition align_up (addr align : Z) : Z := Z.land (u64 (addr + align - 1)) (u64 (Z.lnot (align - 1))).

(** ** State *)

(** A block of [malloc]: the header, and the bytes that it has behind the header. *)
Record mslice := MSlice { ms_next : option Z; ms_index : option Z; ms_room : Z }.

(** [HevMemoryAllocatorSlice] with the blocks of the process that it gave out or
    keeps.  The address of [lru_nodes[i]] is [i + 1]. *)
Record salloc := SAlloc { sa_lru : lmem; sa_count : Z; sa_cached : list Z; sa_heap : gmap Z mslice }.

Abbreviation SA := (M salloc).

Definition up_lru v s := SAlloc v (sa_count s) (sa_cached s) (sa_heap s).
Definition up_scount v s := SAlloc (sa_lru s) v (sa_cached s) (sa_heap s).
Definition up_cached v s := SAlloc (sa_lru s) (sa_count s) v (sa_heap s).
Definition up_sheap v s := SAlloc (sa_lru s) (sa_count s) (sa_cached s) v.

Definition on_lru {A} (c : LM A) : SA A := zoom sa_lru up_lru c.

Definition lru_node (index : Z) : Z := index + 1.
Definition lru_index (node : Z) : Z := node - 1.

Definition hev_memory_allocator_slice_new : salloc :=
  SAlloc (LMem NULL NULL ∅) 0 (replicate (Z.to_nat MAX_CACHED_SLICE_INDEX) NULL) ∅.

(** Access to a header; a block that is shorter has none. *)
Definition load_slice (a : Z) : SA mslice :=
  let* b := gets (fun s => sa_heap s !! a) in
  let* b := lift_opt b in
  if ms_room b <? 0 then fail else ret b.
Definition slice_next (a : Z) : SA Z := let* b := load_slice a in lift_opt (ms_next b).
Definition slice_index (a : Z) : SA Z := let* b := load_slice a in lift_opt (ms_index b).
Definition set_slice_next (a v : Z) : SA unit :=
  let* b := load_slice a in modify (fun s => up_sheap (<[a := MSlice (Some v) (ms_index b) (ms_room b)]> (sa_heap s)) s).
Definition set_slice_index (a v : Z) : SA unit :=
  let* b := load_slice a in modify (fun s => up_sheap (<[a := MSlice (ms_next b) (Some v) (ms_room b)]> (sa_heap s)) s).

(** [cached_mslices[index]] *)
Definition load_cached (index : Z) : SA Z :=
  if index <? 0 then fail else let* o := gets (fun s => sa_cached s !! Z.to_nat index) in lift_opt o.
Definition set_cached (index v : Z) : SA unit :=
  let* _ := load_cached index in modify (fun s => up_cached (<[Z.to_nat index := v]> (sa_cached s)) s).

(** [malloc], [realloc] and [free] of the C library. *)
Definition malloc (mem : option Z) (bytes : Z) : SA Z :=
  match mem with
  | None => ret NULL
  | Some a => modify (fun s => up_sheap (<[a := MSlice None None (bytes - sizeof_slice)]> (sa_heap s)) s);; ret a
  end.
Definition realloc (mem : option Z) (a bytes : Z) : SA Z :=
  let* b := gets (fun s => sa_heap s !! a) in
  let* b := lift_opt b in
  match mem with
  | None => ret NULL
  | Some a' => modify (fun s => up_sheap (<[a' := MSlice (ms_next b) (ms_index b) (bytes - sizeof_slice)]> (delete a (sa_heap s))) s);; ret a'
  end.
Definition free (a : Z) : SA unit :=
  let* b := gets (fun s => sa_heap s !! a) in
  let* _ := lift_opt b in
  modify (fun s => up_sheap (delete a (sa_heap s)) s).

(** ** The list of sizes in the order of their use *)

Definition _hev_memory_allocator_lru_insert (node : Z) : LM unit :=
  let store nd := modify (fun m => LMem (l_head m) (l_tail m) (<[node := nd]> (l_nodes m))) in
  let* head := gets l_head in
  (if negb (head =? NULL) then store (LNode head NULL);; lset_prev head node else store (LNode NULL NULL));;
  lset_head node;;
  let* tail := gets l_tail in
  if tail =? NULL then lset_tail node else ret tt.

Definition _hev_memory_allocator_lru_remove (node : Z) : LM unit :=
  let* prev := hev_list_node_prev node in
  (if negb (prev =? NULL) then let* next := hev_list_node_next node in lset_next prev next else ret tt);;
  let* next := hev_list_node_next node in
  (if negb (next =? NULL) then let* prev := hev_list_node_prev node in lset_prev next prev else ret tt);;
  let* head := gets l_head in
  (if head =? node then let* next := hev_list_node_next node in lset_head next else ret tt);;
  let* tail := gets l_tail in
  if tail =? node then let* prev := hev_list_node_prev node in lset_tail prev else ret tt.

(** ** Allocation and release *)

Definition set_count (f : Z -> Z) : SA unit := modify (fun s => up_scount (u32 (f (sa_count s))) s).

Definition _hev_memory_allocator_alloc (mem : option Z) (size : Z) : SA Z :=
  let size := align_up size CACHED_SLICE_ALIGN in
  let index := i32 (size / CACHED_SLICE_ALIGN) in
  if index =? 0 then ret NULL else
  if (1 <=? index) && (index <=? MAX_CACHED_SLICE_INDEX) then
    let* owner := load_cached (index - 1) in
    if negb (owner =? NULL) then
      let* next := slice_next owner in
      set_cached (index - 1) next;;
      set_count (fun c => c - 1);;
      on_lru (_hev_memory_allocator_lru_remove (lru_node (index - 1)));;
      let* rest := load_cached (index - 1) in
      (if negb (rest =? NULL) then on_lru (_hev_memory_allocator_lru_insert (lru_node (index - 1))) else ret tt);;
      ret (owner + sizeof_slice)
    else
      let* slice := malloc mem (u64 (sizeof_slice + size)) in
      if slice =? NULL then ret NULL else
      set_slice_index slice (index - 1);;
      ret (slice + sizeof_slice)
  else
    let* slice := malloc mem (u64 (sizeof_slice + size)) in
    if slice =? NULL then ret NULL else
    set_slice_index slice (-1);;
    ret (slice + sizeof_slice).

(** One of the size at the end of the list goes. *)
Definition evict : SA unit :=
  let* node := gets (fun s => l_tail (sa_lru s)) in
  let* free_slice := load_cached (lru_index node) in
  let* next := slice_next free_slice in
  set_cached (lru_index node) next;;
  set_count (fun c => c - 1);;
  let* owner := load_cached (lru_index node) in
  (if owner =? NULL then on_lru (_hev_memory_allocator_lru_remove node) else ret tt);;
  free free_slice.

Definition _hev_memory_allocator_free (ptr : Z) : SA unit :=
  let slice := ptr - sizeof_slice in
  let* index := slice_index slice in
  if index <? 0 then free slice else
  let* count := gets sa_count in
  (if MAX_CACHED_SLICE_COUNT <=? count then evict else ret tt);;
  let* next := load_cached index in
  set_slice_next slice next;;
  set_cached index slice;;
  set_count (fun c => c + 1);;
  let* next := slice_next slice in
  if next =? NULL then on_lru (_hev_memory_allocator_lru_insert (lru_node index)) else ret tt.

Definition _hev_memory_allocator_realloc (mem : option Z) (ptr size : Z) : SA Z :=
  if 0 =? size then _hev_memory_allocator_free ptr;; ret NULL else
  let slice := ptr - sizeof_slice in
  let size := align_up size CACHED_SLICE_ALIGN in
  let index := i32 (size / CACHED_SLICE_ALIGN) in
  let* slice := realloc mem slice (u64 (sizeof_slice + size)) in
  if slice =? NULL then ret NULL else
  (if (1 <=? index) && (index <=? MAX_CACHED_SLICE_INDEX) then set_slice_index slice (index - 1)
   else set_slice_index slice (-1));;
  ret (slice + sizeof_slice).

(** The loops of the destructor; [fuel]: the blocks, and the sizes, that there are. *)
Fixpoint free_chain (fuel : nat) (iter : Z) : SA unit :=
  if iter =? NULL then ret tt else
  match fuel with
  | O => fail
  | S fuel => let* next := slice_next iter in free iter;; free_chain fuel next
  end.

Fixpoint destroy_loop (fuel : nat) (node : Z) : SA unit :=
  if node =? NULL then ret tt else
  match fuel with
  | O => fail
  | S fuel =>
    let* iter := load_cached (lru_index node) in
    let* blocks := gets (fun s => size (sa_heap s)) in
    free_chain blocks iter;;
    let* next := on_lru (hev_list_node_next node) in
    destroy_loop fuel next
  end.

Definition _hev_memory_allocator_destroy : SA unit :=
  let* node := gets (fun s => l_head (sa_lru s)) in
  destroy_loop (Z.to_nat MAX_CACHED_SLICE_INDEX) node.

(** ** The interface (mem/api) *)

Definition hev_malloc (mem : option Z) (size : Z) : SA Z := _hev_memory_allocator_alloc mem size.

(** [memset] to zero of the bytes behind a header. *)
Definition clear (data size : Z) : SA unit :=
  let* b := load_slice (data - sizeof_slice) in
  if ms_room b <? size then fail else ret tt.

Definition hev_malloc0 (mem : option Z) (size : Z) : SA Z :=
  let* data := _hev_memory_allocator_alloc mem size in
  (if negb (data =? NULL) then clear data size else ret tt);;
  ret data.

Definition hev_calloc (mem : option Z) (nmemb size : Z) : SA Z :=
  if (nmemb =? 0) || (size =? 0) then ret NULL else
  let size := u64 (size * nmemb) in
  let* data := _hev_memory_allocator_alloc mem size in
  (if negb (data =? NULL) then clear data size else ret tt);;
  ret data.

Definition hev_realloc (mem : option Z) (ptr size : Z) : SA Z := _hev_memory_allocator_realloc mem ptr size.
Definition hev_free (ptr : Z) : SA unit := _hev_memory_allocator_free ptr.
