(* ===== verification/SliceInv.v ===== *)
(** * The invariant of the slice allocator

    Every block is either in use or in exactly one chain; the list of sizes has
    those whose chain is not empty.  The operations are proved against an abstract
    allocator, a finite map from the pointers in use to the room behind them. *)

From S2P Require Import Prelude RBTree HevList SliceAlloc.

(** ** Sizes *)

Lemma align_up_spec size : 0 <= size <= 18446744073709551600 -> align_up size CACHED_SLICE_ALIGN = (size + 15) / 16 * 16.
Proof.
  intros H. unfold align_up, CACHED_SLICE_ALIGN. replace (size + 16 - 1) with (size + 15) by lia.
  unfold u64 at 1. rewrite Z.mod_small by lia.
  change (u64 (Z.lnot (16 - 1))) with (Z.shiftl (Z.ones 60) 4). rewrite <-Z.shiftl_mul_pow2 with (n := 4) by lia.
  rewrite <-(Z.shiftr_div_pow2 _ 4) by lia. apply Z.bits_inj'. intros n Hn. rewrite Z.land_spec, !Z.shiftl_spec by lia.
  destruct (Z.ltb_spec n 4) as [Hlt|Hge].
  { rewrite !(Z.testbit_neg_r _ (n - 4)) by lia. apply andb_false_r. }
  rewrite Z.shiftr_spec by lia. replace (n - 4 + 4) with n by lia.
  destruct (Z.ltb_spec (n - 4) 60) as [H60|H60]; [by rewrite Z.ones_spec_low, andb_true_r by lia|].
  rewrite Z.ones_spec_high, andb_false_r by lia. symmetry. destruct (decide (size + 15 = 0)) as [->|]; [apply Z.bits_0|].
  apply Z.bits_above_log2; [lia|]. apply Z.log2_lt_pow2; [lia|]. apply (Z.lt_le_trans _ (2 ^ 64)); [lia|]. apply Z.pow_le_mono_r; lia.
Qed.

(** Sizes up to which the index of a size is an [int]. *)
Definition size_ok (size : Z) : Prop := 0 <= size <= (2147483647 * 16).

Definition class_of (size : Z) : Z := (size + 15) / 16.

Lemma class_index size : size_ok size ->
  align_up size CACHED_SLICE_ALIGN = class_of size * 16 /\ i32 (align_up size CACHED_SLICE_ALIGN / CACHED_SLICE_ALIGN) = class_of size /\
  0 <= class_of size < 2147483648 /\ size <= class_of size * 16.
Proof.
  unfold size_ok. intros H. rewrite align_up_spec by lia. unfold class_of, CACHED_SLICE_ALIGN. rewrite Z.div_mul by lia.
  pose proof (Z.div_mod (size + 15) 16 ltac:(lia)). pose proof (Z.mod_pos_bound (size + 15) 16 ltac:(lia)).
  split; [done|]. split; [|lia]. unfold i32. rewrite Z.mod_small by lia. lia.
Qed.

(** ** The list of sizes *)

(** Putting a node in front; its own memory may hold anything. *)
Lemma lru_insert_ok m xs n :
  list_rep m xs -> n <> NULL -> n ∉ xs ->
  exists m', _hev_memory_allocator_lru_insert n m = Some (tt, m') /\ list_rep m' (n :: xs).
Proof.
  intros (Hh & Ht & Hs & Hnd & Hnz) Hn0 Hnx. destruct m as [hd tl h]. simpl in *. subst hd tl.
  assert (NoDup (n :: xs)) as Hnd' by (by apply NoDup_cons). assert (Forall (fun x => x <> NULL) (n :: xs)) as Hnz' by (by constructor).
  unfold _hev_memory_allocator_lru_insert, lset_prev, lload, lstore, lset_head, lset_tail, bind, gets, modify, ret. simpl.
  destruct xs as [|x xs].
  - simpl. eexists. split; [done|]. split_and!; try done. simpl. by rewrite lookup_insert_eq.
  - change (first_or (x :: xs) NULL) with x. apply Forall_cons in Hnz as [Hx0 Hnz]. apply NoDup_cons in Hnd as [Hxx Hnd].
    apply not_elem_of_cons in Hnx as [Hnx Hnxs]. destruct Hs as [Hx Hs].
    rewrite (proj2 (Z.eqb_neq x NULL)) by done. simpl. rewrite lookup_insert_ne, Hx by done. simpl.
    rewrite lookup_insert_ne, Hx by done. simpl.
    assert (last_or (x :: xs) NULL <> NULL) as Hl.
    { pose proof (last_or_in (x :: xs) NULL ltac:(done)) as Hin. rewrite Forall_forall in Hnz.
      apply elem_of_cons in Hin as [->|Hin]; [done|by apply Hnz]. }
    rewrite (proj2 (Z.eqb_neq _ NULL)) by done. eexists. split; [done|]. split_and!; try done; simpl. split_and!.
    + rewrite lookup_insert_ne by done. by rewrite lookup_insert_eq.
    + by rewrite lookup_insert_eq.
    + by do 2 (apply lseg_insert; [done|]).
Qed.

Lemma wp_lload n nd (Q : lnode -> lmem -> Prop) m : l_nodes m !! n = Some nd -> Q nd m -> wp (lload n) Q m.
Proof. intros E H. unfold wp, lload. by rewrite E. Qed.

Lemma wp_lstore n nd nd0 (Q : unit -> lmem -> Prop) m :
  l_nodes m !! n = Some nd0 -> Q tt (LMem (l_head m) (l_tail m) (<[n := nd]> (l_nodes m))) -> wp (lstore n nd) Q m.
Proof. intros E H. unfold wp, lstore. by rewrite E. Qed.

Ltac lru_lookup := simpl; rewrite ?lookup_insert_ne by congruence; rewrite ?lookup_insert_eq; solve [eassumption | reflexivity].
Ltac lru_steps := repeat (cbn [ln_next ln_prev l_head l_tail l_nodes]; first
  [wp_step | eapply wp_lload; [lru_lookup|] | eapply wp_lstore; [lru_lookup|] | wp_case; try congruence | reflexivity]).

(** Unlinking is what the intrusive list does, although written differently. *)
Lemma lru_remove_del m xs n :
  list_rep m xs -> n ∈ xs -> _hev_memory_allocator_lru_remove n m = hev_list_del n m.
Proof.
  intros Hm Hin. apply list_elem_of_split in Hin as (xs1 & xs2 & ->). pose proof (list_node_links _ _ _ _ Hm) as Hn.
  destruct Hm as (Hh & Ht & Hs & Hnd & Hnz). destruct m as [hd tl h]. simpl in Hn, Hh, Ht, Hs.
  apply NoDup_app in Hnd as (_ & Hd & Hnd2). apply NoDup_cons in Hnd2 as [Hn2 _].
  apply Forall_app in Hnz as [Hz1 Hz2]. apply Forall_cons in Hz2 as [Hn0 Hz2]. apply lseg_app in Hs as [Hs1 [_ Hs2]].
  rewrite first_or_app in Hh. rewrite last_or_app, last_or_cons in Ht. rewrite !Forall_forall in *.
  assert (xs1 <> [] -> exists nd, last_or xs1 NULL <> NULL /\ last_or xs1 NULL <> n /\ hd <> n /\ h !! last_or xs1 NULL = Some nd) as H1.
  { intros Hne. pose proof (last_or_in xs1 NULL Hne) as Hin. assert (first_or xs1 n ∈ xs1) as Hfi by (destruct xs1; [done|set_solver]).
    assert (is_Some (h !! last_or xs1 NULL)) as [nd E]; [|exists nd; split_and!; try done].
    - destruct xs1 as [|x l _] using rev_ind; [done|]. rewrite last_or_app. apply lseg_app in Hs1 as [_ [Hx _]]. by eexists.
    - by apply Hz1.
    - intros E'. apply (Hd _ Hin). rewrite E'. by left.
    - rewrite Hh. simpl. intros E'. change (first_or (n :: xs2) NULL) with n in E'. apply (Hd _ Hfi). rewrite E'. by left. }
  assert (xs2 <> [] -> exists nd, first_or xs2 NULL <> NULL /\ first_or xs2 NULL <> n /\ tl <> n /\ h !! first_or xs2 NULL = Some nd /\
    (xs1 <> [] -> first_or xs2 NULL <> last_or xs1 NULL)) as H2.
  { intros Hne. pose proof (last_or_in xs2 n Hne) as Hin. destruct xs2 as [|q xs2]; [done|]. change (first_or (q :: xs2) NULL) with q.
    destruct Hs2 as [Hq _]. eexists. split_and!; [apply Hz2; by left|by intros ->; apply Hn2; left|by rewrite Ht; intros E; rewrite E in Hin|exact Hq|].
    intros Hne1 E. apply (Hd q); [rewrite E; by apply last_or_in|]. right. by left. }
  assert (xs1 = [] -> hd = n) as H3 by (intros ->; exact Hh). assert (xs2 = [] -> tl = n) as H4 by (intros ->; exact Ht).
  set (m := LMem hd tl h). assert (exists m', wp (_hev_memory_allocator_lru_remove n) (fun _ x => x = m') m /\ wp (hev_list_del n) (fun _ x => x = m') m)
    as (m' & W1 & W2).
  2: { apply wp_elim in W1 as ([] & ? & E1 & ->). apply wp_elim in W2 as ([] & ? & E2 & ->). by rewrite E1, E2. }
  unfold m. destruct (decide (xs1 = [])) as [Hx1|Hx1], (decide (xs2 = [])) as [Hx2|Hx2];
    try (destruct (H1 Hx1) as (np & Hp0 & Hpn & Hhn & Hp)); try (destruct (H2 Hx2) as (nq & Hq0 & Hqn & Htn & Hq & Hqp)); try specialize (Hqp Hx1);
    try specialize (H3 Hx1); try specialize (H4 Hx2);
    [assert (last_or xs1 NULL = NULL) as Ep by (by rewrite Hx1); assert (first_or xs2 NULL = NULL) as Eq by (by rewrite Hx2)
    |assert (last_or xs1 NULL = NULL) as Ep by (by rewrite Hx1)
    |assert (first_or xs2 NULL = NULL) as Eq by (by rewrite Hx2)|];
    clear Hd Hn2 Hz1 Hz2 Hs1 Hs2 Hh Ht H1 H2 m Hx1 Hx2; eexists; split;
    unfold _hev_memory_allocator_lru_remove, hev_list_del, hev_list_node_prev, hev_list_node_next, lset_next, lset_prev, lset_head, lset_tail; lru_steps.
Qed.

Lemma lru_remove_ok m xs1 n xs2 :
  list_rep m (xs1 ++ n :: xs2) ->
  exists m', _hev_memory_allocator_lru_remove n m = Some (tt, m') /\ list_rep m' (xs1 ++ xs2).
Proof.
  intros Hm. rewrite (lru_remove_del m _ n Hm) by set_solver. destruct (list_del m xs1 n xs2 Hm) as (m' & E & Hm' & _). by exists m'.
Qed.

(** ** The invariant *)

(** A chain of free blocks of one size. *)
Fixpoint chain (h : gmap Z mslice) (i : Z) (cs : list Z) : Prop :=
  match cs with
  | [] => True
  | a :: cs => 0 < a /\ (exists room, h !! a = Some (MSlice (Some (first_or cs NULL)) (Some i) room) /\ (i + 1) * 16 <= room) /\ chain h i cs
  end.

Definition cached (css : list (list Z)) (a : Z) : Prop := exists i cs, css !! i = Some cs /\ a ∈ cs.

(** A block in use: it knows the size it belongs to, or that it belongs to none. *)
Definition in_use (h : gmap Z mslice) (p room : Z) : Prop :=
  0 < p - sizeof_slice /\ exists next i, h !! (p - sizeof_slice) = Some (MSlice next (Some i) room) /\ 0 <= room /\
    (i = -1 \/ 0 <= i < MAX_CACHED_SLICE_INDEX /\ (i + 1) * 16 <= room).

Definition chains (h : gmap Z mslice) (css : list (list Z)) : Prop :=
  forall i cs, css !! i = Some cs -> chain h (Z.of_nat i) cs /\ NoDup cs.

(** The list has the sizes whose chain is not empty. *)
Definition lru_ok (css : list (list Z)) (xs : list Z) : Prop :=
  (forall i, lru_node (Z.of_nat i) ∈ xs <-> exists a cs, css !! i = Some (a :: cs)) /\ (forall x, x ∈ xs -> exists i, x = lru_node (Z.of_nat i)).

(** [css]: the chains; [live]: the pointers in use with the room behind them; [xs]: the
    sizes in the order of their use. *)
Record sa_rep (s : salloc) (css : list (list Z)) (xs : list Z) (live : gmap Z Z) : Prop := {
  sr_len : length css = Z.to_nat MAX_CACHED_SLICE_INDEX;
  sr_cached : sa_cached s = (fun cs => first_or cs NULL) <$> css;
  sr_chain : chains (sa_heap s) css;
  sr_lru : list_rep (sa_lru s) xs;
  sr_in : lru_ok css xs;
  sr_count : sa_count s = Z.of_nat (sum_list (length <$> css));
  sr_max : sa_count s <= MAX_CACHED_SLICE_COUNT;
  sr_live : forall p room, live !! p = Some room -> in_use (sa_heap s) p room /\ ~ cached css (p - sizeof_slice);
  sr_dom : forall a, is_Some (sa_heap s !! a) -> is_Some (live !! (a + sizeof_slice)) \/ cached css a
}.

Lemma chain_same h h' i cs : (forall a, a ∈ cs -> h' !! a = h !! a) -> chain h i cs -> chain h' i cs.
Proof.
  induction cs as [|a cs IH]; intros Hs; [done|]. intros (H0 & (room & E & Hr) & H). split; [done|]. split.
  - exists room. rewrite Hs by set_solver. done.
  - apply IH; [set_solver|done].
Qed.

Lemma chain_pos h i cs : chain h i cs -> first_or cs NULL = NULL -> cs = [].
Proof. destruct cs as [|a cs]; [done|]. intros (H0 & _) H. change (a = NULL) in H. unfold NULL in H. lia. Qed.

Lemma chain_live h i cs a : chain h i cs -> a ∈ cs -> exists next room, h !! a = Some (MSlice next (Some i) room).
Proof.
  induction cs as [|b cs IH]; [by intros _ ?%elem_of_nil|]. intros (H0 & (room & E & Hr) & H) [->|Hin]%elem_of_cons; [by eexists _, _|by apply IH].
Qed.

(** A block is in one chain only. *)
Lemma cached_class s css xs live a i j cs cs' :
  sa_rep s css xs live -> css !! i = Some cs -> a ∈ cs -> css !! j = Some cs' -> a ∈ cs' -> i = j.
Proof.
  intros Hr Hi Ha Hj Hb. destruct (chain_live _ _ _ a (proj1 (sr_chain _ _ _ _ Hr i cs Hi)) Ha) as (n1 & r1 & E1).
  destruct (chain_live _ _ _ a (proj1 (sr_chain _ _ _ _ Hr j cs' Hj)) Hb) as (n2 & r2 & E2). rewrite E1 in E2. injection E2 as _ E2 _. lia.
Qed.

Lemma sum_insert (css : list (list Z)) i cs cs' :
  css !! i = Some cs -> (sum_list (length <$> <[i := cs']> css) + length cs = sum_list (length <$> css) + length cs')%nat.
Proof.
  revert i. induction css as [|c css IH]; intros [|i] H; csimpl in *; [done..| |].
  - injection H as ->. lia.
  - specialize (IH i H). lia.
Qed.

Lemma sum_ge (css : list (list Z)) i cs : css !! i = Some cs -> (length cs <= sum_list (length <$> css))%nat.
Proof. intros H. pose proof (sum_insert css i cs [] H) as E. cbn [length] in E. lia. Qed.

Lemma class_chain s css xs live i :
  sa_rep s css xs live -> 0 <= i < MAX_CACHED_SLICE_INDEX -> exists cs, css !! Z.to_nat i = Some cs.
Proof. intros Hr Hi. apply lookup_lt_is_Some_2. rewrite (sr_len _ _ _ _ Hr). unfold MAX_CACHED_SLICE_INDEX, MAX_CACHED_SLICE_SIZE, CACHED_SLICE_ALIGN in *. lia. Qed.

Lemma cached_load s css xs live i cs (Q : Z -> salloc -> Prop) :
  sa_rep s css xs live -> 0 <= i -> css !! Z.to_nat i = Some cs -> Q (first_or cs NULL) s -> wp (load_cached i) Q s.
Proof.
  intros Hr H0 Hi HQ. unfold load_cached. rewrite (proj2 (Z.ltb_ge i 0)) by done. apply wp_bind, wp_gets.
  eapply wp_lift_opt; [|exact HQ]. by rewrite (sr_cached _ _ _ _ Hr), list_lookup_fmap, Hi.
Qed.

Lemma chains_set h h' css i c c' :
  chains h css -> css !! i = Some c -> chain h' (Z.of_nat i) c' -> NoDup c' ->
  (forall j cs b, j <> i -> css !! j = Some cs -> b ∈ cs -> h' !! b = h !! b) -> chains h' (<[i := c']> css).
Proof.
  intros Hc Hi H1 H2 Hsame j cs Hj. destruct (decide (j = i)) as [->|Hne].
  - rewrite list_lookup_insert_eq in Hj by (by eapply lookup_lt_Some). by injection Hj as <-.
  - rewrite list_lookup_insert_ne in Hj by done. destruct (Hc j cs Hj) as [H3 H4]. split; [|done].
    eapply chain_same; [|exact H3]. intros b Hb. by eapply Hsame.
Qed.

Lemma cached_insert css i c c' a : css !! i = Some c -> (cached (<[i := c']> css) a -> a ∈ c' \/ cached css a).
Proof.
  intros Hi (j & cs & Hj & Ha). destruct (decide (j = i)) as [->|Hne].
  - rewrite list_lookup_insert_eq in Hj by (by eapply lookup_lt_Some). injection Hj as <-. by left.
  - rewrite list_lookup_insert_ne in Hj by done. right. by exists j, cs.
Qed.

Lemma cached_keep css i c c' a : css !! i = Some c -> cached css a -> (a ∈ c -> a ∈ c') -> cached (<[i := c']> css) a.
Proof.
  intros Hi (j & cs & Hj & Ha) Hk. destruct (decide (j = i)) as [->|Hne].
  - exists i, c'. rewrite list_lookup_insert_eq by (by eapply lookup_lt_Some). split; [done|]. rewrite Hi in Hj. injection Hj as <-. auto.
  - exists j, cs. by rewrite list_lookup_insert_ne by done.
Qed.

Lemma lru_ok_perm css xs ys : xs ≡ₚ ys -> lru_ok css xs -> lru_ok css ys.
Proof. intros Hp [H1 H2]. split; [intros i; by rewrite <-Hp|intros x; rewrite <-Hp; apply H2]. Qed.

Lemma lru_ok_same css xs i a cs b cs' : lru_ok css xs -> css !! i = Some (a :: cs) -> lru_ok (<[i := b :: cs']> css) xs.
Proof.
  intros [H1 H2] Hi. split; [|done]. intros j. rewrite H1. destruct (decide (j = i)) as [->|Hne].
  - rewrite list_lookup_insert_eq by (by eapply lookup_lt_Some). split; intros _; [by eexists _, _|by exists a, cs].
  - by rewrite list_lookup_insert_ne by done.
Qed.

Lemma lru_node_inj i j : lru_node (Z.of_nat i) = lru_node (Z.of_nat j) -> i = j.
Proof. unfold lru_node. lia. Qed.

Lemma lru_ok_out css xs i a cs ys :
  lru_ok css xs -> NoDup xs -> xs ≡ₚ lru_node (Z.of_nat i) :: ys -> css !! i = Some (a :: cs) -> lru_ok (<[i := []]> css) ys.
Proof.
  intros [H1 H2] Hnd Hp Hi. rewrite Hp in Hnd. apply NoDup_cons in Hnd as [Hni _]. split.
  - intros j. destruct (decide (j = i)) as [->|Hne].
    + rewrite list_lookup_insert_eq by (by eapply lookup_lt_Some). split; [done|by intros (? & ? & ?)].
    + rewrite list_lookup_insert_ne by done. rewrite <-H1, Hp, elem_of_cons. split; [by right|]. intros [E|]; [|done]. by apply lru_node_inj in E.
  - intros x Hx. apply H2. rewrite Hp. by right.
Qed.

Lemma lru_ok_in css xs i a : lru_ok css xs -> css !! i = Some [] -> lru_ok (<[i := [a]]> css) (lru_node (Z.of_nat i) :: xs).
Proof.
  intros [H1 H2] Hi. split.
  - intros j. rewrite elem_of_cons. destruct (decide (j = i)) as [->|Hne].
    + rewrite list_lookup_insert_eq by (by eapply lookup_lt_Some). split; [by eexists _, _|by left].
    + rewrite list_lookup_insert_ne by done. rewrite <-H1. split; [|by right]. intros [E|]; [|done]. by apply lru_node_inj in E.
  - intros x [->|Hx]%elem_of_cons; [by exists i|by apply H2].
Qed.

Lemma lru_out css xs i : lru_ok css xs -> css !! i = Some [] -> lru_node (Z.of_nat i) ∉ xs.
Proof. intros [H1 _] Hi Hin. apply H1 in Hin as (a & cs & E). by rewrite Hi in E. Qed.

Lemma lru_split css xs i a cs :
  lru_ok css xs -> css !! i = Some (a :: cs) -> exists xs1 xs2, xs = xs1 ++ lru_node (Z.of_nat i) :: xs2.
Proof. intros [H1 _] Hi. apply list_elem_of_split, H1. by exists a, cs. Qed.

(** ** Blocks that change hands *)

Lemma in_use_same h h' p room : h' !! (p - sizeof_slice) = h !! (p - sizeof_slice) -> in_use h p room -> in_use h' p room.
Proof. unfold in_use. by intros ->. Qed.

Lemma in_use_live h p room : in_use h p room -> is_Some (h !! (p - sizeof_slice)).
Proof. intros (_ & next & i & E & _). by eexists. Qed.

Lemma cached_live s css xs live a : sa_rep s css xs live -> cached css a -> is_Some (sa_heap s !! a) /\ live !! (a + sizeof_slice) = None /\ 0 < a.
Proof.
  intros Hr Hc. split; [|split].
  - destruct Hc as (i & cs & Hi & Ha). destruct (chain_live _ _ _ a (proj1 (sr_chain _ _ _ _ Hr i cs Hi)) Ha) as (? & ? & ->). by eexists.
  - destruct (live !! (a + sizeof_slice)) as [room|] eqn:E; [|done]. destruct (sr_live _ _ _ _ Hr _ _ E) as [_ Hn].
    by rewrite Z.add_simpl_r in Hn.
  - destruct Hc as (i & cs & Hi & Ha). pose proof (proj1 (sr_chain _ _ _ _ Hr i cs Hi)) as Hch. clear -Ha Hch.
    induction cs as [|b cs IH]; [by apply elem_of_nil in Ha|]. destruct Hch as (H0 & _ & Hch). apply elem_of_cons in Ha as [->|]; auto.
Qed.

Lemma rep_new s css xs live a next i room :
  sa_rep s css xs live -> sa_heap s !! a = None -> 0 < a -> 0 <= room ->
  i = -1 \/ 0 <= i < MAX_CACHED_SLICE_INDEX /\ (i + 1) * 16 <= room ->
  sa_rep (up_sheap (<[a := MSlice next (Some i) room]> (sa_heap s)) s) css xs (<[a + sizeof_slice := room]> live).
Proof.
  intros Hr Ha H0 Hroom Hi.
  assert (forall b, is_Some (sa_heap s !! b) -> <[a := MSlice next (Some i) room]> (sa_heap s) !! b = sa_heap s !! b) as Hsame.
  { intros b Hb. rewrite lookup_insert_ne; [done|]. intros ->. rewrite Ha in Hb. by destruct Hb. }
  assert (~ cached css a) as Hnc by (intros Hc; destruct (cached_live _ _ _ _ _ Hr Hc) as [Hs _]; rewrite Ha in Hs; by destruct Hs).
  pose proof (cached_live s css xs live) as Hcl. destruct Hr as [H1 H2 H3 H4 H5 H6 H7 H8 H9]. split; simpl; try done.
  - intros j cs Hj. destruct (H3 j cs Hj) as [Hch Hnd]. split; [|done]. eapply chain_same; [|exact Hch]. intros b Hb. apply Hsame.
    destruct (chain_live _ _ _ b Hch Hb) as (? & ? & ->). by eexists.
  - intros p r Hp. destruct (decide (p = a + sizeof_slice)) as [->|Hne].
    + rewrite lookup_insert_eq in Hp. injection Hp as <-. rewrite Z.add_simpl_r. split; [|done]. split; [by rewrite Z.add_simpl_r|].
      exists next, i. rewrite Z.add_simpl_r, lookup_insert_eq. by split_and!.
    + rewrite lookup_insert_ne in Hp by done. destruct (H8 p r Hp) as [Hu Hn]. split; [|done].
      eapply in_use_same; [|exact Hu]. by eapply Hsame, in_use_live.
  - intros b Hb. destruct (decide (b = a)) as [->|Hne]; [left; rewrite lookup_insert_eq; by eexists|].
    rewrite lookup_insert_ne in Hb by done. destruct (H9 b Hb) as [Hl|Hc]; [left|by right].
    rewrite lookup_insert_ne; [done|]. unfold sizeof_slice. lia.
Qed.

(** The first block of a chain is taken, to be used or to be freed. *)
Lemma rep_pop s s' css xs xs' live i a cs next room :
  sa_rep s css xs live -> css !! i = Some (a :: cs) -> sa_heap s !! a = Some (MSlice next (Some (Z.of_nat i)) room) ->
  sa_heap s' = sa_heap s -> sa_cached s' = <[i := first_or cs NULL]> (sa_cached s) -> sa_count s' = sa_count s - 1 ->
  list_rep (sa_lru s') xs' -> lru_ok (<[i := cs]> css) xs' ->
  sa_rep s' (<[i := cs]> css) xs' (<[a + sizeof_slice := room]> live) /\ (i < 256)%nat /\ live !! (a + sizeof_slice) = None /\
  sa_rep (up_sheap (delete a (sa_heap s')) s') (<[i := cs]> css) xs' live.
Proof.
  intros Hr Hi Ea Hh Hc Hn Hlr Hlo. pose proof (cached_live s css xs live a Hr ltac:(exists i, (a :: cs); split; [done|by left])) as (_ & Hla & H0).
  pose proof (cached_class s css xs live a) as Hcl. pose proof (sum_insert css i _ cs Hi) as Hsum.
  assert (i < 256)%nat as Hib by (apply lookup_lt_Some in Hi; rewrite (sr_len _ _ _ _ Hr) in Hi; exact Hi).
  destruct (sr_chain _ _ _ _ Hr i _ Hi) as [(_ & (room' & Ea' & Hroom) & Hch) Hnd]. apply NoDup_cons in Hnd as [Hna Hnd].
  rewrite Ea in Ea'. injection Ea' as _ <-.
  assert (~ cached (<[i := cs]> css) a) as Hnc.
  { intros (j & cs' & Hj & Ha). destruct (decide (j = i)) as [->|Hne].
    - rewrite list_lookup_insert_eq in Hj by (by eapply lookup_lt_Some). by injection Hj as <-.
    - rewrite list_lookup_insert_ne in Hj by done. apply Hne. eapply (Hcl j i cs' (a :: cs)); try done. by left. }
  assert (forall b, b <> a -> cached css b <-> cached (<[i := cs]> css) b) as Hcb.
  { intros b Hb. split; [intros Hc'; eapply cached_keep; [done|done|set_solver]|intros Hc']. destruct (cached_insert _ _ _ _ _ Hi Hc') as [Hin|]; [|done].
    exists i, (a :: cs). split; [done|by right]. }
  assert (forall h', (forall b, b <> a -> h' !! b = sa_heap s !! b) -> chains h' (<[i := cs]> css)) as Hchs.
  { intros h' Hs. eapply (chains_set (sa_heap s)); [apply Hr|done| |done|].
    - eapply chain_same; [|exact Hch]. intros b Hb. apply Hs. by intros ->.
    - intros j cs' b Hne Hj Hb. apply Hs. intros ->. apply Hne. eapply (Hcl j i cs' (a :: cs)); try done. by left. }
  destruct Hr as [H1 H2 H3 H4 H5 H6 H7 H8 H9]. split; [|split; [done|split; [done|]]]; split; simpl; try done.
  - by rewrite length_insert.
  - by rewrite Hc, H2, list_fmap_insert.
  - rewrite Hh. by apply Hchs.
  - rewrite Hn, H6. simpl in Hsum. lia.
  - lia.
  - intros p r Hp. rewrite Hh. destruct (decide (p = a + sizeof_slice)) as [->|Hne].
    + rewrite lookup_insert_eq in Hp. injection Hp as <-. rewrite Z.add_simpl_r. split; [|done]. split; [by rewrite Z.add_simpl_r|].
      exists next, (Z.of_nat i). rewrite Z.add_simpl_r. split; [done|]. split; [lia|]. right. split; [|done].
      change MAX_CACHED_SLICE_INDEX with 256. lia.
    + rewrite lookup_insert_ne in Hp by done. destruct (H8 p r Hp) as [Hu Hn']. split; [done|]. rewrite <-Hcb; [done|]. unfold sizeof_slice in *. lia.
  - intros b Hb. rewrite Hh in Hb. destruct (decide (b = a)) as [->|Hne]; [left; rewrite lookup_insert_eq; by eexists|].
    destruct (H9 b Hb) as [Hl|Hc']; [left|right; by apply Hcb]. rewrite lookup_insert_ne; [done|]. unfold sizeof_slice. lia.
  - by rewrite length_insert.
  - by rewrite Hc, H2, list_fmap_insert.
  - rewrite Hh. apply Hchs. intros b Hb. by rewrite lookup_delete_ne.
  - rewrite Hn, H6. simpl in Hsum. lia.
  - lia.
  - intros p r Hp. rewrite Hh. destruct (H8 p r Hp) as [Hu Hn']. assert (p - sizeof_slice <> a) as Hpa.
    { intros <-. rewrite Z.sub_add in Hla. by rewrite Hp in Hla. }
    split; [|by rewrite <-Hcb]. eapply in_use_same; [|exact Hu]. by rewrite lookup_delete_ne.
  - intros b Hb. rewrite Hh in Hb. destruct (decide (b = a)) as [->|Hne]; [rewrite lookup_delete_eq in Hb; by destruct Hb|].
    rewrite lookup_delete_ne in Hb by done. destruct (H9 b Hb) as [|Hc']; [by left|right; by apply Hcb].
Qed.

(** A block in use is put in front of its chain. *)
Lemma rep_put s s' css xs xs' live i cs p room :
  sa_rep s css xs live -> live !! p = Some room -> css !! i = Some cs -> (exists next, sa_heap s !! (p - sizeof_slice) = Some (MSlice next (Some (Z.of_nat i)) room)) ->
  sa_heap s' = <[p - sizeof_slice := MSlice (Some (first_or cs NULL)) (Some (Z.of_nat i)) room]> (sa_heap s) ->
  sa_cached s' = <[i := p - sizeof_slice]> (sa_cached s) -> sa_count s' = sa_count s + 1 -> sa_count s < MAX_CACHED_SLICE_COUNT ->
  list_rep (sa_lru s') xs' -> lru_ok (<[i := (p - sizeof_slice) :: cs]> css) xs' ->
  sa_rep s' (<[i := (p - sizeof_slice) :: cs]> css) xs' (delete p live).
Proof.
  intros Hr Hp Hi (next & Ea) Hh Hc Hn Hmax Hlr Hlo. set (a := p - sizeof_slice) in *.
  destruct (sr_live _ _ _ _ Hr p room Hp) as [(H0 & next' & i' & Ea' & Hroom & Hcl) Hnc]. fold a in H0, Ea', Hnc.
  rewrite Ea in Ea'. injection Ea' as <- <-. destruct Hcl as [?|[_ Hcl]]; [lia|].
  pose proof (sum_insert css i cs (a :: cs) Hi) as Hsum.
  assert (forall b, cached css b -> b <> a) as Hba by (by intros b Hb ->).
  destruct (sr_chain _ _ _ _ Hr i _ Hi) as [Hch Hnd].
  destruct Hr as [H1 H2 H3 H4 H5 H6 H7 H8 H9]. split; simpl; try done.
  - by rewrite length_insert.
  - by rewrite Hc, H2, list_fmap_insert.
  - rewrite Hh. eapply (chains_set (sa_heap s)); [done|exact Hi| | |].
    + split; [done|]. split; [exists room; by rewrite lookup_insert_eq|]. eapply chain_same; [|exact Hch].
      intros b Hb. rewrite lookup_insert_ne; [done|]. intros <-. apply Hnc. by exists i, cs.
    + apply NoDup_cons. split; [|done]. intros Hin. apply Hnc. by exists i, cs.
    + intros j cs' b _ Hj Hb. rewrite lookup_insert_ne; [done|]. intros <-. apply Hnc. by exists j, cs'.
  - rewrite Hn, H6. simpl in Hsum. lia.
  - lia.
  - intros q r Hq. apply lookup_delete_Some in Hq as [Hne Hq]. destruct (H8 q r Hq) as [Hu Hn']. assert (q - sizeof_slice <> a) as Hqa by (unfold a; lia).
    split; [rewrite Hh; eapply in_use_same; [|exact Hu]; by rewrite lookup_insert_ne|].
    intros Hc'. apply (cached_insert _ _ _ _ _ Hi) in Hc' as [[|Hc']%elem_of_cons|]; [done| |done]. apply Hn'. by exists i, cs.
  - intros b Hb. rewrite Hh in Hb. destruct (decide (b = a)) as [->|Hne].
    { right. exists i, (a :: cs). rewrite list_lookup_insert_eq by (by eapply lookup_lt_Some). split; [done|by left]. }
    rewrite lookup_insert_ne in Hb by done. destruct (H9 b Hb) as [Hl|Hc']; [left|right].
    + rewrite lookup_delete_ne; [done|]. unfold a in Hne. lia.
    + eapply cached_keep; [done|done|by right].
Qed.

(** A block in use goes back to the system. *)
Lemma rep_release s css xs live p :
  sa_rep s css xs live -> is_Some (live !! p) -> sa_rep (up_sheap (delete (p - sizeof_slice) (sa_heap s)) s) css xs (delete p live).
Proof.
  intros Hr [room Hp]. destruct (sr_live _ _ _ _ Hr p room Hp) as [_ Hnc]. destruct Hr as [H1 H2 H3 H4 H5 H6 H7 H8 H9]. split; simpl; try done.
  - intros j cs Hj. destruct (H3 j cs Hj) as [Hch Hnd]. split; [|done]. eapply chain_same; [|exact Hch].
    intros b Hb. rewrite lookup_delete_ne; [done|]. intros <-. apply Hnc. by exists j, cs.
  - intros q r Hq. apply lookup_delete_Some in Hq as [Hne Hq]. destruct (H8 q r Hq) as [Hu Hn']. split; [|done].
    eapply in_use_same; [|exact Hu]. rewrite lookup_delete_ne by lia. done.
  - intros b Hb. destruct (decide (b = p - sizeof_slice)) as [->|Hne]; [rewrite lookup_delete_eq in Hb; by destruct Hb|].
    rewrite lookup_delete_ne in Hb by done. destruct (H9 b Hb) as [Hl|Hc']; [left|by right]. rewrite lookup_delete_ne; [done|]. lia.
Qed.

(** ** The operations *)

Lemma slice_load a b (Q : mslice -> salloc -> Prop) s : sa_heap s !! a = Some b -> 0 <= ms_room b -> Q b s -> wp (load_slice a) Q s.
Proof.
  intros E H HQ. unfold load_slice. apply wp_bind, wp_gets, wp_bind. eapply wp_lift_opt; [exact E|]. by rewrite (proj2 (Z.ltb_ge _ _)).
Qed.

Lemma next_load a v i room (Q : Z -> salloc -> Prop) s : sa_heap s !! a = Some (MSlice (Some v) i room) -> 0 <= room -> Q v s -> wp (slice_next a) Q s.
Proof. intros E H HQ. apply wp_bind. eapply slice_load; [exact E|done|]. by eapply wp_lift_opt. Qed.

Lemma cached_store s css i cs v (Q : unit -> salloc -> Prop) :
  sa_cached s = (fun cs => first_or cs NULL) <$> css -> 0 <= i -> css !! Z.to_nat i = Some cs ->
  Q tt (up_cached (<[Z.to_nat i := v]> (sa_cached s)) s) -> wp (set_cached i v) Q s.
Proof.
  intros Hc H0 Hi HQ. apply wp_bind. unfold load_cached. rewrite (proj2 (Z.ltb_ge i 0)) by done. apply wp_bind, wp_gets.
  eapply wp_lift_opt; [by rewrite Hc, list_lookup_fmap, Hi|]. by apply wp_modify.
Qed.

Lemma wp_lru {A} (c : LM A) a m (Q : A -> salloc -> Prop) s : c (sa_lru s) = Some (a, m) -> Q a (up_lru m s) -> wp (on_lru c) Q s.
Proof. intros E H. unfold wp, on_lru, zoom. by rewrite E. Qed.

(** After the first block of a size was taken the size is the last used, or gone. *)
Lemma lru_after m css xs i a cs :
  list_rep m xs -> lru_ok css xs -> css !! i = Some (a :: cs) ->
  exists m1 ys, _hev_memory_allocator_lru_remove (lru_node (Z.of_nat i)) m = Some (tt, m1) /\ list_rep m1 ys /\
    (lru_node (Z.of_nat i) ∉ ys) /\ xs ≡ₚ (lru_node (Z.of_nat i) :: ys) /\ (cs = [] -> lru_ok (<[i := cs]> css) ys) /\
    (cs <> [] -> lru_ok (<[i := cs]> css) (lru_node (Z.of_nat i) :: ys)).
Proof.
  intros Hm Hl Hi. destruct (lru_split _ _ _ _ _ Hl Hi) as (xs1 & xs2 & ->). destruct (lru_remove_ok _ _ _ _ Hm) as (m1 & E & Hm1).
  destruct Hm as (_ & _ & _ & Hnd & _). assert (xs1 ++ lru_node (Z.of_nat i) :: xs2 ≡ₚ lru_node (Z.of_nat i) :: (xs1 ++ xs2)) as Hp
    by (symmetry; apply Permutation_middle).
  exists m1, (xs1 ++ xs2). split_and!; try done.
  - rewrite Hp in Hnd. by apply NoDup_cons in Hnd as [? _].
  - intros ->. by eapply lru_ok_out.
  - intros Hne. destruct cs as [|b cs]; [done|]. eapply lru_ok_perm; [exact Hp|]. by eapply lru_ok_same.
Qed.

Definition answer_ok (s : salloc) (mem : option Z) : Prop := forall a, mem = Some a -> 0 < a /\ sa_heap s !! a = None.

(** What [malloc] gave is used. *)
Lemma use_new s css xs live mem size idx :
  sa_rep s css xs live -> size_ok size -> size <> 0 -> answer_ok s mem -> idx = -1 \/ idx = class_of size - 1 /\ 0 <= idx < MAX_CACHED_SLICE_INDEX ->
  wp (let* slice := malloc mem (u64 (sizeof_slice + align_up size CACHED_SLICE_ALIGN)) in
      if slice =? NULL then ret NULL else (set_slice_index slice idx;; ret (slice + sizeof_slice)))
    (fun r s' => r = NULL /\ s' = s /\ mem = None \/
      r <> NULL /\ live !! r = None /\ exists room, size <= room /\ sa_rep s' css xs (<[r := room]> live)) s.
Proof.
  intros Hr Hs Hs0 Hmem Hidx. destruct (class_index size Hs) as (Ea & _ & Hc & Hle). rewrite Ea.
  assert (u64 (sizeof_slice + class_of size * 16) = sizeof_slice + class_of size * 16) as Eu by (unfold u64, sizeof_slice; rewrite Z.mod_small; lia).
  rewrite Eu. apply wp_bind. destruct mem as [a|]; [|apply wp_ret; left; by split_and!]. destruct (Hmem a eq_refl) as [H0 Ha].
  apply wp_bind, wp_modify, wp_ret. rewrite (proj2 (Z.eqb_neq a NULL)) by (unfold NULL; lia).
  replace (sizeof_slice + class_of size * 16 - sizeof_slice) with (class_of size * 16) by lia.
  apply wp_bind, wp_bind. eapply slice_load; [apply lookup_insert_eq|simpl; lia|]. apply wp_modify. apply wp_ret. right.
  split; [unfold NULL, sizeof_slice; lia|]. split.
  { destruct (live !! (a + sizeof_slice)) as [r|] eqn:E; [|done]. destruct (sr_live _ _ _ _ Hr _ _ E) as [Hu _].
    apply in_use_live in Hu. rewrite Z.add_simpl_r, Ha in Hu. by destruct Hu. }
  exists (class_of size * 16). split; [done|]. simpl. unfold up_sheap. simpl. rewrite insert_insert_eq.
  apply (rep_new s); try done; [lia|]. destruct Hidx as [->|[-> Hb]]; [by left|right]. split; [done|lia].
Qed.

(** Allocation gives nothing, and then there was no memory, or a block that is not in
    use and has room. *)
Definition given (live : gmap Z Z) (size r : Z) (s' : salloc) : Prop :=
  r <> NULL /\ live !! r = None /\ exists room css xs, size <= room /\ sa_rep s' css xs (<[r := room]> live).

Lemma alloc_ok s css xs live mem size :
  sa_rep s css xs live -> size_ok size -> answer_ok s mem ->
  wp (_hev_memory_allocator_alloc mem size) (fun r s' => r = NULL /\ s' = s /\ (size = 0 \/ mem = None) \/ given live size r s') s.
Proof.
  intros Hr Hs Hmem. destruct (class_index size Hs) as (Ea & Ei & Hc & Hle). unfold _hev_memory_allocator_alloc. rewrite Ei.
  assert (class_of size = 0 <-> size = 0) as Hz.
  { destruct Hs as [Hs _]. unfold class_of in *. split; [|by intros ->]. intros H. rewrite H in Hle. lia. }
  wp_case. { apply wp_ret. left. split_and!; try done. left. by apply Hz. }
  assert (size <> 0) as Hs0 by tauto.
  assert (forall idx, idx = -1 \/ idx = class_of size - 1 /\ 0 <= idx < MAX_CACHED_SLICE_INDEX ->
    wp (let* slice := malloc mem (u64 (sizeof_slice + align_up size CACHED_SLICE_ALIGN)) in
        if slice =? NULL then ret NULL else (set_slice_index slice idx;; ret (slice + sizeof_slice)))
      (fun r s' => r = NULL /\ s' = s /\ (size = 0 \/ mem = None) \/ given live size r s') s) as Hnew.
  { intros idx Hidx. eapply wp_conseq; [by eapply use_new|]. intros r s' [(-> & -> & ->)|(H1 & H2 & room & H3 & H4)]; [left; by auto|right].
    split_and!; try done. by exists room, css, xs. }
  destruct (Z.leb_spec 1 (class_of size)); [|apply Hnew; by left]. cbn [andb].
  destruct (Z.leb_spec (class_of size) MAX_CACHED_SLICE_INDEX); [|apply Hnew; by left].
  destruct (class_chain s css xs live (class_of size - 1) Hr ltac:(lia)) as [cs Hcs].
  apply wp_bind. eapply cached_load; [exact Hr|lia|exact Hcs|]. destruct cs as [|a cs].
  { change (first_or [] NULL =? NULL) with true. apply Hnew. right. lia. }
  change (first_or (a :: cs) NULL) with a. set (i := Z.to_nat (class_of size - 1)) in *.
  assert (class_of size - 1 = Z.of_nat i) as Eci by lia. rewrite Eci.
  destruct (sr_chain _ _ _ _ Hr i _ Hcs) as [(Ha0 & (room & Eh & Hroom) & Hch) _].
  rewrite (proj2 (Z.eqb_neq a NULL)) by (unfold NULL; lia). cbn [negb].
  apply wp_bind. eapply next_load; [exact Eh|lia|].
  apply wp_bind. eapply cached_store; [apply Hr|lia|by rewrite Nat2Z.id|]. rewrite Nat2Z.id.
  apply wp_bind, wp_modify. destruct (lru_after _ _ _ _ _ _ (sr_lru _ _ _ _ Hr) (sr_in _ _ _ _ Hr) Hcs) as (m1 & ys & E1 & Hm1 & Hni & Hp & Hl0 & Hl1).
  pose proof (sum_ge css i _ Hcs) as Hge. simpl in Hge. pose proof (sr_count _ _ _ _ Hr) as Hcnt. pose proof (sr_max _ _ _ _ Hr) as Hmax.
  assert (u32 (sa_count s - 1) = sa_count s - 1) as Eu.
  { unfold u32. rewrite Z.mod_small; [done|]. unfold MAX_CACHED_SLICE_COUNT in Hmax. lia. }
  apply wp_bind. eapply wp_lru; [exact E1|]. cbn [sa_count up_cached]. rewrite Eu.
  apply wp_bind. unfold load_cached. rewrite (proj2 (Z.ltb_ge _ 0)) by lia. apply wp_bind, wp_gets. rewrite Nat2Z.id.
  eapply wp_lift_opt; [simpl; rewrite list_lookup_insert_eq; [done|]; rewrite (sr_cached _ _ _ _ Hr), length_fmap; by eapply lookup_lt_Some|].
  assert (forall xs' m', list_rep m' xs' -> lru_ok (<[i := cs]> css) xs' ->
    given live size (a + sizeof_slice) (SAlloc m' (sa_count s - 1) (<[i := first_or cs NULL]> (sa_cached s)) (sa_heap s))) as Hend.
  { intros xs' m' Hm' Hl'. destruct (rep_pop s (SAlloc m' (sa_count s - 1) (<[i := first_or cs NULL]> (sa_cached s)) (sa_heap s)) css xs xs' live i a cs _ room
      Hr Hcs Eh) as (Hr' & _ & Hla & _); try done. split; [unfold NULL, sizeof_slice; lia|]. split; [done|].
    exists room, (<[i := cs]> css), xs'. split; [|done]. lia. }
  apply wp_bind. destruct cs as [|b cs].
  - change (first_or [] NULL =? NULL) with true. cbn [negb]. apply wp_ret, wp_ret. right. by apply (Hend ys), Hl0.
  - change (first_or (b :: cs) NULL) with b. destruct Hch as (Hb & _). rewrite (proj2 (Z.eqb_neq b NULL)) by (unfold NULL; lia). cbn [negb].
    destruct (lru_insert_ok m1 ys (lru_node (Z.of_nat i)) Hm1) as (m2 & E2 & Hm2); [unfold lru_node, NULL; lia|done|].
    eapply wp_lru; [exact E2|]. apply wp_ret. right. by apply (Hend _ m2 Hm2), Hl1.
Qed.

Lemma evict_ok s css xs live :
  sa_rep s css xs live -> MAX_CACHED_SLICE_COUNT <= sa_count s ->
  wp evict (fun _ s' => exists css' xs', sa_rep s' css' xs' live /\ sa_count s' = sa_count s - 1 /\
    forall a, is_Some (live !! (a + sizeof_slice)) -> sa_heap s' !! a = sa_heap s !! a) s.
Proof.
  intros Hr Hfull. pose proof (sr_count _ _ _ _ Hr) as Hcnt. pose proof (sr_lru _ _ _ _ Hr) as Hm.
  assert (xs <> []) as Hne.
  { intros ->. destruct (sr_in _ _ _ _ Hr) as [Hin _]. assert (sum_list (length <$> css) = 0%nat) as E; [|unfold MAX_CACHED_SLICE_COUNT in Hfull; lia].
    assert (forall i cs, css !! i = Some cs -> cs = []) as Hall.
    { intros i [|a cs] Hi; [done|]. specialize (proj2 (Hin i)) as H. apply elem_of_nil in H; [done|]. by exists a, cs. }
    clear -Hall. induction css as [|c css IH]; [done|]. csimpl. rewrite (Hall 0%nat c eq_refl). simpl. apply IH. intros i cs Hi. by apply (Hall (S i)). }
  destruct (sr_in _ _ _ _ Hr) as [Hin Hall]. pose proof (last_or_in xs NULL Hne) as Hl. destruct (Hall _ Hl) as [i Ei]. rewrite Ei in Hl.
  apply Hin in Hl as (a & cs & Hcs). unfold evict. apply wp_bind, wp_gets. replace (l_tail (sa_lru s)) with (lru_node (Z.of_nat i)) by (rewrite <-Ei; symmetry; apply Hm).
  assert (lru_index (lru_node (Z.of_nat i)) = Z.of_nat i) as -> by (unfold lru_index, lru_node; lia).
  destruct (sr_chain _ _ _ _ Hr i _ Hcs) as [(Ha0 & (room & Eh & Hroom) & Hch) _].
  apply wp_bind. eapply cached_load; [exact Hr|lia|rewrite Nat2Z.id; exact Hcs|]. change (first_or (a :: cs) NULL) with a.
  apply wp_bind. eapply next_load; [exact Eh|lia|]. apply wp_bind. eapply cached_store; [apply Hr|lia|rewrite Nat2Z.id; exact Hcs|]. rewrite Nat2Z.id.
  apply wp_bind, wp_modify. cbn [sa_count up_cached].
  pose proof (sum_ge css i _ Hcs) as Hge. simpl in Hge. pose proof (sr_max _ _ _ _ Hr) as Hmax.
  assert (u32 (sa_count s - 1) = sa_count s - 1) as -> by (unfold u32; rewrite Z.mod_small; [done|]; unfold MAX_CACHED_SLICE_COUNT in Hmax; lia).
  apply wp_bind. unfold load_cached. rewrite (proj2 (Z.ltb_ge _ 0)) by lia. apply wp_bind, wp_gets. rewrite Nat2Z.id.
  eapply wp_lift_opt; [simpl; rewrite list_lookup_insert_eq; [done|]; rewrite (sr_cached _ _ _ _ Hr), length_fmap; by eapply lookup_lt_Some|].
  destruct (lru_after _ _ _ _ _ _ Hm (sr_in _ _ _ _ Hr) Hcs) as (m1 & ys & E1 & Hm1 & Hni & Hp & Hl0 & Hl1).
  assert (forall xs' m', list_rep m' xs' -> lru_ok (<[i := cs]> css) xs' ->
    wp (free a) (fun _ s' => exists css' xs', sa_rep s' css' xs' live /\ sa_count s' = sa_count s - 1 /\
      forall a, is_Some (live !! (a + sizeof_slice)) -> sa_heap s' !! a = sa_heap s !! a)
      (SAlloc m' (sa_count s - 1) (<[i := first_or cs NULL]> (sa_cached s)) (sa_heap s))) as Hend.
  { intros xs' m' Hm' Hl'. destruct (rep_pop s (SAlloc m' (sa_count s - 1) (<[i := first_or cs NULL]> (sa_cached s)) (sa_heap s)) css xs xs' live i a cs _ room
      Hr Hcs Eh) as (_ & _ & Hla & Hr'); try done.
    apply wp_bind, wp_gets, wp_bind. eapply wp_lift_opt; [exact Eh|]. apply wp_modify. exists (<[i := cs]> css), xs'. split_and!; [done|done|].
    intros b Hb. simpl. rewrite lookup_delete_ne; [done|]. intros <-. rewrite Hla in Hb. by destruct Hb. }
  apply wp_bind. destruct cs as [|b cs].
  - change (first_or [] NULL =? NULL) with true. cbv iota. eapply wp_lru; [exact E1|]. by apply (Hend ys), Hl0.
  - change (first_or (b :: cs) NULL) with b. destruct Hch as (Hb & _). rewrite (proj2 (Z.eqb_neq b NULL)) by (unfold NULL; lia). apply wp_ret.
    apply (Hend xs); [done|]. eapply lru_ok_perm; [symmetry; exact Hp|]. by apply Hl1.
Qed.

Definition kept (live : gmap Z Z) (s' : salloc) : Prop := exists css xs, sa_rep s' css xs live.

Lemma slice_free_ok s css xs live p :
  sa_rep s css xs live -> is_Some (live !! p) -> wp (_hev_memory_allocator_free p) (fun _ s' => kept (delete p live) s') s.
Proof.
  intros Hr [room Hp]. destruct (sr_live _ _ _ _ Hr p room Hp) as [(H0 & next & idx & Eh & Hroom & Hidx) Hnc].
  unfold _hev_memory_allocator_free, slice_index. apply wp_bind, wp_bind. eapply slice_load; [exact Eh|done|]. eapply wp_lift_opt; [reflexivity|].
  wp_case.
  { apply wp_bind, wp_gets, wp_bind. eapply wp_lift_opt; [exact Eh|]. apply wp_modify. exists css, xs. apply rep_release; [done|by eexists]. }
  destruct Hidx as [->|[Hidx Hroom']]; [lia|]. apply wp_bind, wp_gets.
  assert (wp (if MAX_CACHED_SLICE_COUNT <=? sa_count s then evict else ret tt)
    (fun _ s' => exists css' xs', sa_rep s' css' xs' live /\ sa_count s' < MAX_CACHED_SLICE_COUNT /\
      sa_heap s' !! (p - sizeof_slice) = sa_heap s !! (p - sizeof_slice)) s) as Hev.
  { wp_case; [|apply wp_ret; by exists css, xs]. eapply wp_conseq; [by eapply evict_ok|]. intros [] s' (css' & xs' & Hr' & Hn & Hsame).
    exists css', xs'. split; [done|]. split; [pose proof (sr_max _ _ _ _ Hr); lia|]. apply Hsame. rewrite Z.sub_add. by eexists. }
  apply wp_bind. eapply wp_conseq; [exact Hev|]. clear Hev. intros [] s1 (css1 & xs1 & Hr1 & Hlt & Hsame). rewrite Eh in Hsame.
  destruct (class_chain _ _ _ _ idx Hr1 Hidx) as [cs Hcs]. assert (exists i, idx = Z.of_nat i) as [i ->] by (exists (Z.to_nat idx); lia). rewrite Nat2Z.id in Hcs.
  apply wp_bind. eapply cached_load; [exact Hr1|lia|by rewrite Nat2Z.id|]. set (a := p - sizeof_slice) in *.
  apply wp_bind, wp_bind. eapply slice_load; [exact Hsame|done|]. apply wp_modify.
  apply wp_bind. eapply cached_store; [apply Hr1|lia|by rewrite Nat2Z.id|]. rewrite Nat2Z.id. apply wp_bind, wp_modify. simpl.
  pose proof (sr_count _ _ _ _ Hr1) as Hcnt.
  assert (u32 (sa_count s1 + 1) = sa_count s1 + 1) as -> by (unfold u32; rewrite Z.mod_small; [done|]; unfold MAX_CACHED_SLICE_COUNT in Hlt; lia).
  apply wp_bind. eapply next_load; [apply lookup_insert_eq|done|].
  assert (forall xs' m', list_rep m' xs' -> lru_ok (<[i := a :: cs]> css1) xs' ->
    kept (delete p live) (SAlloc m' (sa_count s1 + 1) (<[i := a]> (sa_cached s1))
      (<[a := MSlice (Some (first_or cs NULL)) (Some (Z.of_nat i)) room]> (sa_heap s1)))) as Hend.
  { intros xs' m' Hm' Hl'. exists (<[i := a :: cs]> css1), xs'. eapply (rep_put s1); try done; try lia. by exists next. }
  destruct (sr_chain _ _ _ _ Hr1 i _ Hcs) as [Hch _]. destruct cs as [|b cs].
  - change (first_or [] NULL =? NULL) with true. cbv iota.
    destruct (lru_insert_ok (sa_lru s1) xs1 (lru_node (Z.of_nat i)) (sr_lru _ _ _ _ Hr1)) as (m2 & E2 & Hm2); [unfold lru_node, NULL; lia| |].
    { eapply lru_out; [apply Hr1|done]. }
    eapply wp_lru; [exact E2|]. apply (Hend _ m2 Hm2). apply lru_ok_in; [apply Hr1|done].
  - change (first_or (b :: cs) NULL) with b. destruct Hch as (Hb & _). rewrite (proj2 (Z.eqb_neq b NULL)) by (unfold NULL; lia).
    apply wp_ret. apply (Hend xs1); [apply Hr1|]. eapply lru_ok_same; [apply Hr1|done].
Qed.

Lemma wp_unbind {S A B} (m : M S A) (f : A -> M S B) Q s : wp (bind m f) Q s -> wp m (fun a s' => wp (f a) Q s') s.
Proof. unfold wp, bind. by destruct (m s) as [[a s']|]. Qed.

(** A block may grow where it is, or move to an address that is not in use. *)
Definition remem_ok (s : salloc) (p : Z) (mem : option Z) : Prop :=
  forall a, mem = Some a -> 0 < a /\ (a = p - sizeof_slice \/ sa_heap s !! a = None).

Lemma realloc_ok s css xs live mem p size :
  sa_rep s css xs live -> is_Some (live !! p) -> size_ok size -> remem_ok s p mem ->
  wp (_hev_memory_allocator_realloc mem p size) (fun r s' =>
    size = 0 /\ r = NULL /\ kept (delete p live) s' \/ size <> 0 /\ r = NULL /\ s' = s /\ mem = None \/ given (delete p live) size r s') s.
Proof.
  intros Hr Hp Hs Hmem. destruct (class_index size Hs) as (Ea & Ei & Hc & Hle). unfold _hev_memory_allocator_realloc. wp_case.
  { apply wp_bind. eapply wp_conseq; [by eapply slice_free_ok|]. intros [] s' Hk. apply wp_ret. left. by split_and!. }
  rewrite Ei, Ea. destruct Hp as [room Hp]. destruct (sr_live _ _ _ _ Hr p room Hp) as [(H0 & next & idx & Eh & Hroom & Hidx) Hnc].
  assert (u64 (sizeof_slice + class_of size * 16) = sizeof_slice + class_of size * 16) as Eu by (unfold u64, sizeof_slice; rewrite Z.mod_small; lia).
  rewrite Eu. unfold realloc. apply wp_bind, wp_bind, wp_gets, wp_bind. eapply wp_lift_opt; [exact Eh|].
  destruct mem as [a|]; [|apply wp_ret; right; left; split_and!; done || lia]. destruct (Hmem a eq_refl) as [Ha0 Ha].
  apply wp_bind, wp_modify, wp_ret. rewrite (proj2 (Z.eqb_neq a NULL)) by (unfold NULL; lia).
  pose proof (rep_release s css xs live p Hr ltac:(by eexists)) as Hr1. set (s1 := up_sheap (delete (p - sizeof_slice) (sa_heap s)) s) in *.
  assert (sa_heap s1 !! a = None) as Ha1.
  { simpl. destruct (decide (a = p - sizeof_slice)) as [->|Hne]; [apply lookup_delete_eq|]. rewrite lookup_delete_ne by done. by destruct Ha. }
  replace (sizeof_slice + class_of size * 16 - sizeof_slice) with (class_of size * 16) by lia. cbn [ms_next ms_index].
  assert (forall i, i = -1 \/ 0 <= i < MAX_CACHED_SLICE_INDEX /\ (i + 1) * 16 <= class_of size * 16 ->
    wp (set_slice_index a i;; ret (a + sizeof_slice)) (fun r s' => size = 0 /\ r = NULL /\ kept (delete p live) s' \/ size <> 0 /\ r = NULL /\ s' = s /\ Some a = None \/ given (delete p live) size r s')
      (up_sheap (<[a := MSlice next (Some idx) (class_of size * 16)]> (delete (p - sizeof_slice) (sa_heap s))) s)) as Hset.
  { intros i Hi. apply wp_bind, wp_bind. eapply slice_load; [apply lookup_insert_eq|simpl; lia|]. apply wp_modify, wp_ret. right. right.
    split; [unfold NULL, sizeof_slice; lia|]. split.
    - destruct (delete p live !! (a + sizeof_slice)) as [r|] eqn:E; [|done]. destruct (sr_live _ _ _ _ Hr1 _ _ E) as [Hu _].
      apply in_use_live in Hu. rewrite Z.add_simpl_r, Ha1 in Hu. by destruct Hu.
    - exists (class_of size * 16), css, xs. split; [done|]. simpl. unfold up_sheap. simpl. rewrite insert_insert_eq.
      apply (rep_new s1 css xs (delete p live) a next i); try done. lia. }
  apply wp_bind. destruct (Z.leb_spec 1 (class_of size)); [destruct (Z.leb_spec (class_of size) MAX_CACHED_SLICE_INDEX)|]; cbn [andb].
  - apply wp_unbind, Hset. right. lia.
  - apply wp_unbind, Hset. by left.
  - apply wp_unbind, Hset. by left.
Qed.

(** ** The end *)

(** The blocks [bs] are gone, and nothing else changed. *)
Definition freed (bs : list Z) (s s' : salloc) : Prop :=
  sa_lru s' = sa_lru s /\ sa_cached s' = sa_cached s /\ forall b, sa_heap s' !! b = if decide (b ∈ bs) then None else sa_heap s !! b.

Lemma freed_app bs1 bs2 s1 s2 s3 : freed bs1 s1 s2 -> freed bs2 s2 s3 -> freed (bs1 ++ bs2) s1 s3.
Proof.
  intros (H1 & H2 & H3) (H4 & H5 & H6). split_and!; [congruence..|]. intros b. rewrite H6, H3.
  destruct (decide (b ∈ bs2)), (decide (b ∈ bs1)), (decide (b ∈ bs1 ++ bs2)); set_solver.
Qed.

Lemma free_chain_ok fuel i cs s :
  chain (sa_heap s) i cs -> 0 <= i -> NoDup cs -> (length cs <= fuel)%nat -> wp (free_chain fuel (first_or cs NULL)) (fun _ s' => freed cs s s') s.
Proof.
  revert cs s. induction fuel as [|fuel IH]; intros [|a cs] s Hch Hi Hnd Hf; try (simpl in Hf; lia).
  1, 2: cbn [free_chain]; change (first_or [] NULL) with NULL; rewrite Z.eqb_refl; apply wp_ret; split_and!; try done;
    intros b; by rewrite decide_False by apply not_elem_of_nil.
  cbn [free_chain]. change (first_or (a :: cs) NULL) with a. destruct Hch as (H0 & (room & Eh & Hroom) & Hch). apply NoDup_cons in Hnd as [Ha Hnd].
  rewrite (proj2 (Z.eqb_neq a NULL)) by (unfold NULL; lia). apply wp_bind. eapply next_load; [exact Eh|lia|].
  apply wp_bind, wp_bind, wp_gets, wp_bind. eapply wp_lift_opt; [exact Eh|]. apply wp_modify. simpl in Hf.
  eapply wp_conseq; [apply (IH cs); try done; [|lia]; eapply chain_same; [|exact Hch]; intros b Hb; simpl; rewrite lookup_delete_ne; [done|by intros ->]|].
  intros [] s' (H1 & H2 & H3). split_and!; try done. intros b. rewrite H3. simpl.
  destruct (decide (b = a)) as [->|Hne].
  - rewrite decide_False by done. by rewrite lookup_delete_eq, decide_True by left.
  - rewrite lookup_delete_ne by done. destruct (decide (b ∈ cs)), (decide (b ∈ a :: cs)); set_solver.
Qed.

(** The chains of the sizes [xs]. *)
Definition blocks_of (css : list (list Z)) (xs : list Z) : list Z := mjoin ((fun x => default [] (css !! Z.to_nat (lru_index x))) <$> xs).

Lemma destroy_loop_ok fuel css pre xs s :
  (forall i cs, lru_node (Z.of_nat i) ∈ xs -> css !! i = Some cs -> chain (sa_heap s) (Z.of_nat i) cs /\ NoDup cs) ->
  (forall i j cs cs' b, css !! i = Some cs -> b ∈ cs -> css !! j = Some cs' -> b ∈ cs' -> i = j) ->
  sa_cached s = (fun cs => first_or cs NULL) <$> css -> list_rep (sa_lru s) (pre ++ xs) ->
  (forall x, x ∈ xs -> exists i cs, x = lru_node (Z.of_nat i) /\ css !! i = Some cs) -> (length xs <= fuel)%nat ->
  wp (destroy_loop fuel (first_or xs NULL)) (fun _ s' => freed (blocks_of css xs) s s') s.
Proof.
  revert pre xs s. induction fuel as [|fuel IH]; intros pre [|x xs] s Hch Hdis Hc Hl Hx Hf; try (simpl in Hf; lia).
  1, 2: cbn [destroy_loop]; change (first_or [] NULL) with NULL; rewrite Z.eqb_refl; apply wp_ret; split_and!; try done;
    intros b; by rewrite decide_False by apply not_elem_of_nil.
  cbn [destroy_loop]. change (first_or (x :: xs) NULL) with x. destruct (Hx x ltac:(by left)) as (i & cs & -> & Hcs).
  rewrite (proj2 (Z.eqb_neq _ NULL)) by (unfold lru_node, NULL; lia).
  assert (lru_index (lru_node (Z.of_nat i)) = Z.of_nat i) as Ei by (unfold lru_index, lru_node; lia). rewrite Ei.
  destruct (Hch i cs ltac:(by left) Hcs) as [Hci Hnd].
  apply wp_bind. unfold load_cached. rewrite (proj2 (Z.ltb_ge _ 0)) by lia. apply wp_bind, wp_gets. rewrite Nat2Z.id.
  eapply wp_lift_opt; [by rewrite Hc, list_lookup_fmap, Hcs|]. apply wp_bind, wp_gets, wp_bind.
  eapply wp_conseq; [apply (free_chain_ok _ (Z.of_nat i) cs s Hci ltac:(lia) Hnd)|].
  { rewrite <-(size_list_to_set (C := gset Z) cs Hnd), <-size_dom. apply subseteq_size. intros b Hb%elem_of_list_to_set. apply elem_of_dom.
    destruct (chain_live _ _ _ b Hci Hb) as (? & ? & ->). by eexists. }
  intros [] s1 Hf1. pose proof Hf1 as (H1 & H2 & H3). pose proof (list_node_links _ _ _ _ Hl) as Hnx.
  apply wp_bind. eapply wp_lru; [unfold hev_list_node_next, bind, lload; rewrite H1, Hnx; reflexivity|]. cbn [ln_next].
  replace (up_lru (sa_lru s) s1) with s1 by (rewrite <-H1; by destruct s1). simpl in Hf. destruct Hl as (Hl1 & Hl2 & Hl3 & Hndl & Hl5).
  eapply wp_conseq; [apply (IH (pre ++ [lru_node (Z.of_nat i)]) xs)|].
  - intros j cs' Hj Hcs'. destruct (Hch j cs' ltac:(by right) Hcs') as [Hcj Hndj]. split; [|done]. eapply chain_same; [|exact Hcj].
    intros b Hb. rewrite H3, decide_False; [done|]. intros Hb'. assert (i = j) as -> by (by eapply Hdis).
    apply NoDup_app in Hndl as (_ & _ & Hndl). by apply NoDup_cons in Hndl as [? _].
  - done.
  - by rewrite H2.
  - rewrite H1, <-app_assoc. by split_and!.
  - intros y Hy. apply Hx. by right.
  - lia.
  - intros [] s' Hf2. unfold blocks_of in *. csimpl. rewrite Ei, Nat2Z.id, Hcs. simpl. by eapply freed_app.
Qed.

Lemma destroy_ok s css xs live :
  sa_rep s css xs live ->
  wp _hev_memory_allocator_destroy (fun _ s' => forall a, is_Some (sa_heap s' !! a) <-> is_Some (live !! (a + sizeof_slice))) s.
Proof.
  intros Hr. pose proof (sr_in _ _ _ _ Hr) as [Hin Hall]. pose proof (sr_lru _ _ _ _ Hr) as Hl.
  assert (forall x, x ∈ xs -> exists i cs, x = lru_node (Z.of_nat i) /\ css !! i = Some cs) as Hx.
  { intros x Hx. destruct (Hall x Hx) as [i ->]. apply Hin in Hx as (a & cs & E). by eexists _, _. }
  unfold _hev_memory_allocator_destroy. apply wp_bind, wp_gets. destruct Hl as (Eh & Hl'). rewrite Eh.
  eapply wp_conseq; [apply (destroy_loop_ok _ css [] xs)|].
  - intros i cs _ Hcs. by apply (sr_chain _ _ _ _ Hr).
  - intros i j cs cs' b Hi Hb Hj Hb'. by eapply (cached_class _ _ _ _ b i j).
  - apply Hr.
  - by split.
  - exact Hx.
  - destruct Hl' as (_ & _ & Hnd & _). assert (xs ⊆+ (fun i => lru_node (Z.of_nat i)) <$> seq 0 (Z.to_nat MAX_CACHED_SLICE_INDEX)) as Hsub.
    { apply NoDup_submseteq; [done|]. intros x Hxx. destruct (Hx x Hxx) as (i & cs & -> & Hcs). apply list_elem_of_fmap. exists i. split; [done|].
      apply elem_of_seq. apply lookup_lt_Some in Hcs. rewrite (sr_len _ _ _ _ Hr) in Hcs. lia. }
    apply submseteq_length in Hsub. by rewrite length_fmap, length_seq in Hsub.
  - intros [] s' (_ & _ & Hh) a. rewrite Hh.
    assert (a ∈ blocks_of css xs <-> cached css a) as Hb.
    { unfold blocks_of. split.
      - intros (l & Hal & Hl2)%list_elem_of_join. apply list_elem_of_fmap in Hl2 as (x & -> & Hxx). destruct (Hx x Hxx) as (i & cs & -> & Hcs).
        unfold lru_index, lru_node in Hal. rewrite Z.add_simpl_r, Nat2Z.id, Hcs in Hal. by exists i, cs.
      - intros (i & cs & Hcs & Ha). apply list_elem_of_join. exists cs. split; [done|]. apply list_elem_of_fmap. exists (lru_node (Z.of_nat i)). split.
        + unfold lru_index, lru_node. by rewrite Z.add_simpl_r, Nat2Z.id, Hcs.
        + apply Hin. destruct cs as [|b cs]; [by apply elem_of_nil in Ha|]. by eexists _, _. }
    destruct (decide (a ∈ blocks_of css xs)) as [Hd|Hd].
    + apply Hb in Hd. destruct (cached_live _ _ _ _ _ Hr Hd) as (_ & -> & _). split; by intros [? ?].
    + split; [intros Hs; destruct (sr_dom _ _ _ _ Hr a Hs) as [|Hc]; [done|by apply Hb in Hc]|].
      intros [room E]. destruct (sr_live _ _ _ _ Hr _ _ E) as [Hu _]. apply in_use_live in Hu. by rewrite Z.add_simpl_r in Hu.
Qed.

Lemma new_ok : sa_rep hev_memory_allocator_slice_new (replicate (Z.to_nat MAX_CACHED_SLICE_INDEX) []) [] ∅.
Proof.
  assert (forall i cs, replicate (Z.to_nat MAX_CACHED_SLICE_INDEX) (@nil Z) !! i = Some cs -> cs = []) as Hr by (intros i cs [-> _]%lookup_replicate; done).
  split; simpl; try done.
  - intros i cs Hi. rewrite (Hr i cs Hi). split; [done|constructor].
  - apply list_rep_empty.
  - split; [|by intros ? ?%elem_of_nil]. intros i. split; [by intros ?%elem_of_nil|]. intros (a & cs & E). by apply Hr in E.
  - intros a. rewrite lookup_empty. by intros [? ?].
Qed.
