(* ===== verification/SliceTheorems.v ===== *)
(** * Theorems on the slice allocator (hev-task-system: mem/slice, mem/api)

    To its clients the allocator is [malloc], [realloc] and [free]: blocks with room
    that are not in use elsewhere.  It keeps a bounded number of free blocks and its
    destructor gives all of them back.  Sizes that do not fit an [int] as a class
    are served with blocks that are too small. *)

From S2P Require Import Prelude RBTree HevList SliceAlloc SliceInv.

(** ** The abstract allocator *)

Inductive aop := OAlloc (size : Z) (mem : option Z) | ORealloc (p size : Z) (mem : option Z) | OFree (p : Z).

Definition run_aop (op : aop) : SA Z :=
  match op with
  | OAlloc size mem => hev_malloc mem size
  | ORealloc p size mem => hev_realloc mem p size
  | OFree p => hev_free p;; ret NULL
  end.

(** The map of the pointers in use after an operation that returned [r]. *)
Definition gives (s : salloc) (live : gmap Z Z) (r : Z) : gmap Z Z :=
  if r =? NULL then live else <[r := default 0 (ms_room <$> sa_heap s !! (r - sizeof_slice))]> live.

Definition live_after (s : salloc) (live : gmap Z Z) (op : aop) (r : Z) : gmap Z Z :=
  match op with
  | OAlloc _ _ => gives s live r
  | ORealloc p size _ => if (size =? 0) || negb (r =? NULL) then gives s (delete p live) r else live
  | OFree p => delete p live
  end.

(** What a client may ask, and what the system may answer. *)
Definition op_ok (s : salloc) (live : gmap Z Z) (op : aop) : Prop :=
  match op with
  | OAlloc size mem => size_ok size /\ answer_ok s mem
  | ORealloc p size mem => is_Some (live !! p) /\ size_ok size /\ remem_ok s p mem
  | OFree p => is_Some (live !! p)
  end.

(** A block with room that nobody else has. *)
Definition fresh_block (live live' : gmap Z Z) (size r : Z) : Prop :=
  r <> NULL /\ live !! r = None /\ exists room, size <= room /\ live' = <[r := room]> live.

Definition aspec (e : gmap Z Z * aop * Z * gmap Z Z) : Prop :=
  let '(live, op, r, live') := e in
  match op with
  | OAlloc size mem => r = NULL /\ live' = live /\ (size = 0 \/ mem = None) \/ fresh_block live live' size r
  | ORealloc p size mem =>
    size = 0 /\ r = NULL /\ live' = delete p live \/ r = NULL /\ live' = live /\ mem = None \/ fresh_block (delete p live) live' size r
  | OFree p => live' = delete p live
  end.

(** A client that may choose by all that is there. *)
Fixpoint play (client : salloc -> gmap Z Z -> aop) (n : nat) (s : salloc) (live : gmap Z Z) :
    option (salloc * gmap Z Z * list (gmap Z Z * aop * Z * gmap Z Z)) :=
  match n with
  | O => Some (s, live, [])
  | S n =>
    let op := client s live in
    '(r, s1) ← run_aop op s;
    let live1 := live_after s1 live op r in
    '(s2, live2, log) ← play client n s1 live1;
    Some (s2, live2, (live, op, r, live1) :: log)
  end.

Lemma given_gives live size r s' :
  given live size r s' -> fresh_block live (gives s' live r) size r /\ kept (gives s' live r) s'.
Proof.
  intros (H0 & Hl & room & css & xs & Hroom & Hr). unfold gives. rewrite (proj2 (Z.eqb_neq _ _)) by done.
  destruct (sr_live _ _ _ _ Hr r room (lookup_insert_eq _ _ _)) as [(_ & next & i & E & _) _]. rewrite E. cbn [fmap option_fmap option_map ms_room default].
  split; [|by exists css, xs]. split_and!; [done|done|]. by exists room.
Qed.

Lemma aop_ok s live op :
  kept live s -> op_ok s live op ->
  exists r s', run_aop op s = Some (r, s') /\ kept (live_after s' live op r) s' /\ aspec (live, op, r, live_after s' live op r).
Proof.
  intros (css & xs & Hr) Ho. destruct op as [size mem|p size mem|p]; cbn [run_aop live_after aspec op_ok] in *.
  - destruct Ho as [Hs Hm]. destruct (wp_elim _ _ _ (alloc_ok s css xs live mem size Hr Hs Hm)) as (r & s' & E & H).
    exists r, s'. split; [done|]. destruct H as [(-> & -> & H)|H]; [split; [by exists css, xs|by left]|].
    destruct (given_gives _ _ _ _ H) as [H1 H2]. split; [done|by right].
  - destruct Ho as (Hp & Hs & Hm). destruct (wp_elim _ _ _ (realloc_ok s css xs live mem p size Hr Hp Hs Hm)) as (r & s' & E & H).
    exists r, s'. split; [done|]. destruct H as [(-> & -> & Hk)|[(Hs0 & -> & -> & ->)|H]].
    + cbn [Z.eqb orb]. split; [done|by left].
    + change (NULL =? NULL) with true. rewrite (proj2 (Z.eqb_neq size 0)) by done. split; [by exists css, xs|by right; left].
    + destruct (given_gives _ _ _ _ H) as [H1 H2]. destruct H as (H0 & _). rewrite (proj2 (Z.eqb_neq r NULL)) by done. rewrite orb_true_r.
      split; [done|by right; right].
  - destruct (wp_elim _ _ _ (slice_free_ok s css xs live p Hr Ho)) as ([] & s' & E & Hk). exists NULL, s'. unfold hev_free.
    erewrite bind_Some by exact E. by split_and!.
Qed.

(** C22: To its clients the slice allocator is [malloc] and [free].  Whatever a client
    asks for (sizes up to 32 GiB, blocks it has), as often as it likes, and whatever
    the system answers: no operation faults; an allocation returns NULL only for no
    bytes or without memory, else a block with room for what was asked that is not in
    use; a reallocation gives the old block up exactly when it succeeds; a release ends
    the use; at most 1000 free blocks are kept; and the destructor gives back exactly
    the blocks that are not in use. *)
Theorem slice_alloc_refines client n :
  (forall s live, op_ok s live (client s live)) ->
  exists s live log, play client n hev_memory_allocator_slice_new ∅ = Some (s, live, log) /\ length log = n /\ Forall aspec log /\
    sa_count s <= MAX_CACHED_SLICE_COUNT /\
    exists s', _hev_memory_allocator_destroy s = Some (tt, s') /\
      forall a, is_Some (sa_heap s' !! a) <-> is_Some (live !! (a + sizeof_slice)).
Proof.
  intros Hc.
  assert (forall s live, kept live s -> exists s' live' log, play client n s live = Some (s', live', log) /\ length log = n /\ Forall aspec log /\ kept live' s')
    as Hplay.
  { induction n as [|n IH]; intros s live Hk; cbn [play]; [by exists s, live, []|].
    destruct (aop_ok s live (client s live) Hk (Hc s live)) as (r & s1 & E & Hk1 & Hsp). rewrite E. cbn [mbind option_bind].
    destruct (IH _ _ Hk1) as (s2 & live2 & log & E2 & Hl & HF & Hk2). rewrite E2. cbn [mbind option_bind].
    eexists s2, live2, _. split; [reflexivity|]. split; [simpl; by rewrite Hl|]. split; [by constructor|done]. }
  destruct (Hplay hev_memory_allocator_slice_new ∅) as (s & live & log & E & Hl & HF & css & xs & Hr); [eexists _, _; apply new_ok|].
  exists s, live, log. split_and!; try done; [apply Hr|]. destruct (wp_elim _ _ _ (destroy_ok _ _ _ _ Hr)) as ([] & s' & Ed & Hd). by exists s'.
Qed.

(** An address that is not in use. *)
Definition unused (s : salloc) : Z := 1 + foldr Z.max 0 (map_to_list (sa_heap s)).*1.

Definition slice_client (s : salloc) (live : gmap Z Z) : aop :=
  match (map_to_list live).*1 with
  | p :: _ :: _ => OFree p
  | [p] => if decide (sa_count s = 0) then OAlloc 100 (Some (unused s)) else ORealloc p 5000 (Some (unused s))
  | [] => OAlloc 20 (Some (unused s))
  end.

Lemma max_above ks : 0 <= foldr Z.max 0 ks /\ forall k, k ∈ ks -> k <= foldr Z.max 0 ks.
Proof.
  induction ks as [|k ks [IH0 IH]]; simpl; [split; [done|by intros k ?%elem_of_nil]|]. split; [lia|].
  intros j [->|Hj]%elem_of_cons; [lia|]. specialize (IH j Hj). lia.
Qed.

Lemma unused_ok s : answer_ok s (Some (unused s)).
Proof.
  intros a [= <-]. destruct (max_above (map_to_list (sa_heap s)).*1) as [H0 H]. unfold unused. split; [lia|].
  destruct (sa_heap s !! _) as [b|] eqn:E; [|done]. apply elem_of_map_to_list in E.
  specialize (H _ (list_elem_of_fmap_2 fst _ _ E)). simpl in H. lia.
Qed.

Lemma slice_client_ok s live : op_ok s live (slice_client s live).
Proof.
  assert (forall p ps, (map_to_list live).*1 = p :: ps -> is_Some (live !! p)) as Hl.
  { intros p ps E. assert (p ∈ (map_to_list live).*1) as Hin by (rewrite E; by left).
    apply list_elem_of_fmap in Hin as ([p' r] & -> & Hin). apply elem_of_map_to_list in Hin. by eexists. }
  unfold slice_client. destruct ((map_to_list live).*1) as [|p [|q ps]] eqn:E; [| |by eapply Hl].
  - split; [unfold size_ok; lia|apply unused_ok].
  - case_decide; [split; [unfold size_ok; lia|apply unused_ok]|]. split; [by eapply Hl|]. split; [unfold size_ok; lia|].
    intros a Ha. destruct (unused_ok s a Ha). auto.
Qed.

Lemma slice_alloc_refines_witness :
  exists s live log, play slice_client 12 hev_memory_allocator_slice_new ∅ = Some (s, live, log) /\ length log = 12%nat /\ Forall aspec log.
Proof.
  destruct (slice_alloc_refines slice_client 12 slice_client_ok) as (s & live & log & E & Hl & HF & _).
  exists s, live, log. split; [exact E|split; [exact Hl|exact HF]].
Defined.

(** The class of a size, computed in an [int], is that of the size 2^36 bytes larger. *)
Lemma class_wraps size :
  0 < size <= MAX_CACHED_SLICE_SIZE ->
  size <= class_of size * 16 < size + 16 /\ align_up size CACHED_SLICE_ALIGN = class_of size * 16 /\
  i32 (align_up size CACHED_SLICE_ALIGN / CACHED_SLICE_ALIGN) = class_of size /\
  i32 (align_up (2 ^ 36 + size) CACHED_SLICE_ALIGN / CACHED_SLICE_ALIGN) = class_of size.
Proof.
  unfold MAX_CACHED_SLICE_SIZE. intros Hs. set (c := class_of size).
  assert (size <= c * 16 < size + 16) as Hc.
  { unfold c, class_of. pose proof (Z.div_mod (size + 15) 16 ltac:(lia)). pose proof (Z.mod_pos_bound (size + 15) 16 ltac:(lia)). lia. }
  destruct (class_index size) as (E1 & E2 & _); [unfold size_ok; lia|]. split; [exact Hc|]. split; [exact E1|]. split; [exact E2|].
  rewrite align_up_spec by lia. unfold CACHED_SLICE_ALIGN. rewrite Z.div_mul by lia.
  replace (2 ^ 36 + size + 15) with (size + 15 + 2 ^ 32 * 16) by lia. rewrite Z.div_add by lia. fold (class_of size). fold c.
  unfold i32. replace (c + 2 ^ 32 + 2147483648) with (c + 2147483648 + 1 * 4294967296) by lia. rewrite Z.mod_add, Z.mod_small; lia.
Qed.

Lemma wp_load_cached s i x : sa_cached s !! i = Some x -> wp (load_cached (Z.of_nat i)) (fun r s' => r = x /\ s' = s) s.
Proof. intros Hx. unfold load_cached. rewrite (proj2 (Z.ltb_ge _ 0)) by lia. apply wp_bind, wp_gets. rewrite Nat2Z.id. by eapply wp_lift_opt. Qed.

(** A class that does not fit an [int] is served with a block that is too small.
    After any block of at most a class of bytes was allocated and released, a request
    for 2^36 bytes more than that gets the same block, with room for the small
    request only, and without asking the system. *)
Theorem slice_alloc_truncates a size mem :
  0 < a -> 0 < size <= MAX_CACHED_SLICE_SIZE ->
  exists s, (let* p := hev_malloc (Some a) size in hev_free p;; hev_malloc mem (2 ^ 36 + size)) hev_memory_allocator_slice_new = Some (a + sizeof_slice, s) /\
    exists b, sa_heap s !! a = Some b /\ ms_room b < size + 16 /\ ms_room b < 2 ^ 36 + size.
Proof.
  intros Ha Hs. destruct (class_wraps size Hs) as (Hc & Ea & Ei & Ei2). set (c := class_of size) in *. unfold MAX_CACHED_SLICE_SIZE in Hs.
  set (i := Z.to_nat (c - 1)). assert (c - 1 = Z.of_nat i) as Eci by lia. assert (i < 256)%nat as Hi by lia.
  assert (replicate (Z.to_nat MAX_CACHED_SLICE_INDEX) NULL !! i = Some NULL) as Hnil by (by apply lookup_replicate_2).
  assert (a <> NULL) as Ha0 by (unfold NULL; lia).
  assert (u64 (sizeof_slice + c * 16) = sizeof_slice + c * 16) as Eu by (unfold u64, sizeof_slice; rewrite Z.mod_small; lia).
  enough (wp (let* p := hev_malloc (Some a) size in hev_free p;; hev_malloc mem (2 ^ 36 + size))
    (fun r s => r = a + sizeof_slice /\ exists b, sa_heap s !! a = Some b /\ ms_room b < size + 16 /\ ms_room b < 2 ^ 36 + size) hev_memory_allocator_slice_new)
    as (r & s & E & -> & H)%wp_elim by (by exists s).
  unfold hev_memory_allocator_slice_new. pose proof (length_replicate (Z.to_nat MAX_CACHED_SLICE_INDEX) NULL) as Hl0. revert Hnil Hl0.
  generalize (replicate (Z.to_nat MAX_CACHED_SLICE_INDEX) NULL). change (Z.to_nat MAX_CACHED_SLICE_INDEX) with 256%nat. intros l0 Hnil Hl0.
  unfold hev_malloc, hev_free, _hev_memory_allocator_alloc. rewrite Ei, Ei2, Ea, Eu, Eci.
  rewrite (proj2 (Z.eqb_neq c 0)), (proj2 (Z.leb_le 1 c)), (proj2 (Z.leb_le c MAX_CACHED_SLICE_INDEX)) by (change MAX_CACHED_SLICE_INDEX with 256; lia).
  cbn [andb].
  apply wp_bind, wp_bind. eapply wp_conseq; [by apply wp_load_cached|]. intros ? ? [-> ->]. cbn [negb Z.eqb NULL].
  apply wp_bind, wp_bind, wp_modify, wp_ret. rewrite (proj2 (Z.eqb_neq a NULL)) by done.
  apply wp_bind, wp_bind. eapply slice_load; [apply lookup_insert_eq|simpl; lia|]. apply wp_modify, wp_ret.
  apply wp_bind. unfold _hev_memory_allocator_free, slice_index. rewrite Z.add_simpl_r.
  apply wp_bind, wp_bind. eapply slice_load; [apply lookup_insert_eq|simpl; lia|]. eapply wp_lift_opt; [reflexivity|].
  rewrite (proj2 (Z.ltb_ge _ 0)) by lia. apply wp_bind, wp_gets. change (MAX_CACHED_SLICE_COUNT <=? _) with false. cbv iota. apply wp_bind, wp_ret.
  apply wp_bind. eapply wp_conseq; [by apply wp_load_cached|]. intros ? ? [-> ->].
  apply wp_bind, wp_bind. eapply slice_load; [apply lookup_insert_eq|simpl; lia|]. apply wp_modify.
  apply wp_bind, wp_bind. eapply wp_conseq; [by apply wp_load_cached|]. intros ? ? [-> ->]. apply wp_modify. rewrite Nat2Z.id.
  apply wp_bind, wp_modify. apply wp_bind. eapply next_load; [apply lookup_insert_eq|simpl; lia|].
  change (NULL =? NULL) with true. cbv iota.
  destruct (lru_insert_ok (LMem NULL NULL ∅) [] (lru_node (Z.of_nat i)) (list_rep_empty _)) as (m1 & E1 & Hm1); [unfold lru_node, NULL; lia|apply not_elem_of_nil|].
  eapply wp_lru; [exact E1|].
  apply wp_bind. eapply wp_conseq; [apply wp_load_cached; simpl; apply list_lookup_insert_eq; lia|]. intros ? ? [-> ->].
  rewrite (proj2 (Z.eqb_neq a NULL)) by done. cbn [negb].
  apply wp_bind. eapply next_load; [apply lookup_insert_eq|simpl; lia|].
  apply wp_bind, wp_bind. eapply wp_conseq; [apply wp_load_cached; simpl; apply list_lookup_insert_eq; lia|]. intros ? ? [-> ->].
  apply wp_modify. rewrite Nat2Z.id. apply wp_bind, wp_modify.
  destruct (lru_remove_ok m1 [] _ [] Hm1) as (m2 & E2 & _). apply wp_bind. eapply wp_lru; [exact E2|].
  apply wp_bind. eapply wp_conseq; [apply wp_load_cached; cbn [sa_cached up_cached up_lru up_scount up_sheap]; apply list_lookup_insert_eq; rewrite length_insert; lia|].
  intros ? ? [-> ->]. change (NULL =? NULL) with true. cbn [negb]. apply wp_bind, wp_ret, wp_ret. split; [done|].
  eexists. split; [apply lookup_insert_eq|]. cbn [ms_room]. lia.
Qed.

Lemma slice_alloc_truncates_witness :
  exists s, (let* p := hev_malloc (Some 4096) 20 in hev_free p;; hev_malloc None (2 ^ 36 + 20)) hev_memory_allocator_slice_new = Some (4096 + 16, s) /\
    exists b, sa_heap s !! 4096 = Some b /\ ms_room b < 36 /\ ms_room b < 2 ^ 36 + 20.
Proof. apply (slice_alloc_truncates 4096 20 None); [lia|unfold MAX_CACHED_SLICE_SIZE; lia]. Defined.

(** C36: Unlinking a size does what the intrusive list does.  The routine of the slice
    allocator, which tests all four ends, computes the same memory as [hev_list_del] on
    every list and every node of it, and what is left is the list without the node. *)
Theorem lru_remove_equiv m xs1 n xs2 :
  list_rep m (xs1 ++ n :: xs2) ->
  _hev_memory_allocator_lru_remove n m = hev_list_del n m /\
  exists m', _hev_memory_allocator_lru_remove n m = Some (tt, m') /\ list_rep m' (xs1 ++ xs2).
Proof. intros Hm. split; [eapply lru_remove_del; [exact Hm|set_solver]|by apply lru_remove_ok]. Qed.

Definition three_nodes : lmem := LMem 1 3 {[1 := LNode 2 NULL; 2 := LNode 3 1; 3 := LNode NULL 2]}.

Lemma lru_remove_equiv_witness :
  _hev_memory_allocator_lru_remove 2 three_nodes = hev_list_del 2 three_nodes /\
  exists m', _hev_memory_allocator_lru_remove 2 three_nodes = Some (tt, m') /\ list_rep m' [1; 3].
Proof.
  apply (lru_remove_equiv three_nodes [1] 2 [3]). split_and!; try done; [|by apply (bool_decide_unpack _)].
  repeat constructor; set_solver.
Defined.
