(* ===== verification/CachedTree.v ===== *)
(** * Red-black trees that know their first node (hev-task-system: lib/rbtree/hev-rbtree-cached.c)

    The queues of the task system: a red-black tree (lib/rbtree/hev-rbtree.c is the
    same file as src/core/src/hev-rbtree.c) with a pointer to its leftmost node, and
    the loop with which the scheduler and the timers insert.  Towards its clients it
    is a sorted list: [queue_insert] is the reference. *)

From stdpp Require Import sorting.
From S2P Require Import Prelude RBTree RBModel RBRep RBSpec.

(** ** Operations *)

(** [HevRBTreeCached] *)
Record ctree := CTree { ct_tree : rbmem; ct_left : Z }.

Abbreviation CT := (M ctree).

Definition up_ctree v c := CTree v (ct_left c).
Definition up_cleft v c := CTree (ct_tree c) v.
Definition on_tree {A} (c : RB A) : CT A := zoom ct_tree up_ctree c.

Definition hev_rbtree_cached_first : CT Z := gets ct_left.

Definition hev_rbtree_cached_insert_color (node : Z) (leftmost : bool) : CT unit :=
  (if leftmost then modify (up_cleft node) else ret tt);;
  on_tree (hev_rbtree_insert_color node).

Definition hev_rbtree_cached_replace (victim new : Z) : CT unit :=
  on_tree (hev_rbtree_replace victim new);;
  let* first := gets ct_left in
  if first =? victim then modify (up_cleft new) else ret tt.

Definition hev_rbtree_cached_erase (node : Z) : CT unit :=
  let* first := gets ct_left in
  (if node =? first then let* next := on_tree (hev_rbtree_node_next node) in modify (up_cleft next) else ret tt);;
  on_tree (hev_rbtree_erase node).

(** The loop that looks for the place of a new node: [less cur] says whether the new
    one goes before [cur]; it fails where the object of [cur] is gone. *)
Fixpoint cached_search (less : Z -> option bool) (fuel : nat) (new : rblink) (parent : Z) (leftmost : bool) : RB (Z * rblink * bool) :=
  match fuel with
  | O => fail
  | S fuel =>
    let* cur := read_link new in
    if cur =? NULL then ret (parent, new, leftmost) else
    let* before := lift_opt (less cur) in
    if before : bool then cached_search less fuel (LinkLeft cur) cur leftmost
    else cached_search less fuel (LinkRight cur) cur false
  end.

(** Tells whether the node is the first. *)
Definition cached_insert (less : Z -> option bool) (node : Z) : CT bool :=
  let* fuel := gets (fun c => rb_fuel (ct_tree c)) in
  let* (parent, new, leftmost) := on_tree (cached_search less fuel LinkRoot NULL true) in
  on_tree (hev_rbtree_node_link node parent new);;
  hev_rbtree_cached_insert_color node leftmost;;
  ret leftmost.

(** ** The sorted list *)

(** A node goes in front of the first that it is less than. *)
Fixpoint queue_insert (lt : Z -> bool) (n : Z) (xs : list Z) : list Z :=
  match xs with
  | [] => [n]
  | x :: xs => if lt x then n :: x :: xs else x :: queue_insert lt n xs
  end.

Lemma queue_insert_at lt n xs1 xs2 :
  Forall (fun x => lt x = false) xs1 -> Forall (fun x => lt x = true) xs2 -> queue_insert lt n (xs1 ++ xs2) = xs1 ++ n :: xs2.
Proof.
  intros H1 H2. induction H1 as [|x xs1 Hx _ IH]; simpl.
  - destruct H2 as [|x xs2 Hx _]; [done|]. simpl. by rewrite Hx.
  - by rewrite Hx, IH.
Qed.

Lemma queue_insert_perm lt n xs : queue_insert lt n xs ≡ₚ n :: xs.
Proof.
  induction xs as [|x xs IH]; simpl; [done|]. destruct (lt x); [done|]. rewrite IH. apply Permutation_swap.
Qed.

(** ** Representation *)

Definition cached_rep (c : ctree) (xs : list Z) : Prop := rb_tree (ct_tree c) xs /\ ct_left c = edge L xs.

Definition nodes_kept (c c' : ctree) : Prop := forall y, is_Some (rb_nodes (ct_tree c) !! y) -> is_Some (rb_nodes (ct_tree c') !! y).

Lemma rb_tree_live m xs y : rb_tree m xs -> y ∈ xs -> is_Some (rb_nodes m !! y).
Proof.
  intros (t & [_ Hr] & _ & _ & <-) Hy. revert Hr. generalize (NULL) as p. induction t as [|c l IHl x r IHr]; simpl in Hy; [by apply elem_of_nil in Hy|].
  intros p (Hx & Hl & Hr). apply elem_of_app in Hy as [Hy|[->|Hy]%elem_of_cons]; [by eapply IHl|by eexists|by eapply IHr].
Qed.

Lemma cached_empty h : cached_rep (CTree (RBMem NULL h) NULL) [].
Proof. split; [apply rb_tree_empty|done]. Qed.

Lemma cached_first c xs : cached_rep c xs -> hev_rbtree_cached_first c = Some (edge L xs, c).
Proof. intros [_ <-]. done. Qed.

(** The routines of the tree only write nodes that are there. *)
Definition keeps {A} (c : RB A) : Prop := forall m a m', c m = Some (a, m') -> forall y, is_Some (rb_nodes m !! y) -> is_Some (rb_nodes m' !! y).

Lemma keeps_pure {A} (c : RB A) : (forall m a m', c m = Some (a, m') -> rb_nodes m' = rb_nodes m) -> keeps c.
Proof. intros H m a m' E y. by rewrite (H m a m' E). Qed.

Lemma keeps_seq {A B} (c : RB A) (f : A -> RB B) : keeps c -> (forall a, keeps (f a)) -> keeps (bind c f).
Proof. intros H1 H2 m b m' E y Hy. apply bind_Some_inv in E as (a & m1 & E1 & E2). eapply H2; [exact E2|]. by eapply H1. Qed.

Lemma keeps_store n nd : keeps (store n nd).
Proof.
  intros m [] m' E y Hy. unfold store in E. case_match; [|done]. injection E as <-. simpl.
  destruct (decide (y = n)) as [->|]; [rewrite lookup_insert_eq; by eexists|by rewrite lookup_insert_ne].
Qed.

Lemma keeps_load n : keeps (load n).
Proof. apply keeps_pure. intros m a m' E. unfold load in E. case_match; [|done]. by injection E as _ <-. Qed.

Ltac head_of c := lazymatch c with ?f _ => head_of f | _ => c end.

Ltac keeps_tac :=
  lazymatch goal with
  | |- keeps (bind _ _) => apply keeps_seq; [keeps_tac|intros ?; keeps_tac]
  | |- keeps (ret _) => apply keeps_pure; by intros ? ? ? [= _ <-]
  | |- keeps fail => by intros ? ? ?
  | |- keeps (gets _) => apply keeps_pure; by intros ? ? ? [= _ <-]
  | |- keeps (modify _) => apply keeps_pure; by intros ? ? ? [= _ <-]
  | |- keeps (store _ _) => apply keeps_store
  | |- keeps (load _) => apply keeps_load
  | |- keeps (match ?x with _ => _ end) => destruct x; keeps_tac
  | |- keeps ?c => first [solve [eauto] | let h := head_of c in unfold h; cbv beta zeta; keeps_tac]
  end.

Lemma insert_color_keeps n : keeps (hev_rbtree_insert_color n).
Proof.
  assert (forall fuel a b, keeps (insert_color_loop fuel a b)) as H by (induction fuel as [|fuel IH]; intros a b; cbn [insert_color_loop]; keeps_tac).
  keeps_tac.
Qed.

Lemma node_link_keeps n parent link : keeps (hev_rbtree_node_link n parent link).
Proof. keeps_tac. Qed.

Lemma erase_keeps n : keeps (hev_rbtree_erase n).
Proof.
  assert (forall fuel a b, keeps (erase_successor fuel a b)) as H1 by (induction fuel as [|fuel IH]; intros a b; cbn [erase_successor]; keeps_tac).
  assert (forall fuel a b, keeps (erase_color_loop fuel a b)) as H2 by (induction fuel as [|fuel IH]; intros a b; cbn [erase_color_loop]; keeps_tac).
  keeps_tac.
Qed.

Section search.
Context (less : Z -> option bool) (lt : Z -> bool).

Definition less_mono (xs : list Z) : Prop :=
  Forall (fun x => less x = Some (lt x)) xs /\ StronglySorted (fun a b => lt a = true -> lt b = true) xs.

Definition less_split (xs1 xs2 : list Z) : Prop := Forall (fun x => lt x = false) xs1 /\ Forall (fun x => lt x = true) xs2.

Lemma cached_search_zip root h fuel k t :
  (height t < fuel)%nat -> rep h (par k) t -> repc root h k (ptr t) -> addrs_ok (inorder (plug k t)) ->
  less_mono (inorder t) -> less_split (before k) (after k) ->
  exists k', cached_search less fuel (link_of k) (par k) (bool_decide (before k = [])) (RBMem root h) =
      Some ((par k', link_of k', bool_decide (before k' = [])), RBMem root h) /\
    plug k' E = plug k t /\ less_split (before k') (after k').
Proof.
  revert fuel k. induction t as [|c l IHl x r IHr]; intros [|fuel] k Hf Ht Hk Ha [Hc Hs] [Hb Haf];
    try (simpl in Hf; lia); cbn [cached_search]; erewrite bind_Some by (by eapply read_link_eq).
  - exists k. by split_and!.
  - change (ptr (T c l x r)) with x. pose proof Ha as Ha'. revert Ha'. addrs_split. intros Ha'. simpl in Hc, Hs, Hf.
    apply Forall_app in Hc as [Hcl [Hcx Hcr]%Forall_cons]. apply StronglySorted_app in Hs as (Hlx & Hsl & [Hxr Hsr]%StronglySorted_cons).
    rewrite okp_eqb by done. erewrite bind_Some by (unfold lift_opt; by rewrite Hcx). destruct Ht as (Hx & Hl & Hr).
    rewrite Forall_forall in Hxr. destruct (lt x) eqn:Elt.
    + apply (IHl fuel (Fr L c x r :: k)); try done; [lia|]. split; simpl; [done|]. apply Forall_cons. split; [done|].
      apply Forall_app. split; [|done]. apply Forall_forall. auto.
    + destruct (IHr fuel (Fr R c x l :: k)) as (k' & E & Hp & Hsp); try done; [lia| |].
      { split; simpl; [|done]. rewrite !Forall_app, Forall_singleton. split_and!; [done| |done]. apply Forall_forall. intros y Hy.
        destruct (lt y) eqn:Ey; [|done]. rewrite (Hlx y x Hy ltac:(by left) Ey) in Elt. done. }
      exists k'. split; [|done]. rewrite bool_decide_false in E; [exact E|]. simpl. intros Hnil. apply (f_equal length) in Hnil.
      rewrite !length_app in Hnil. simpl in Hnil. lia.
Qed.

Lemma cached_search_ok m xs :
  rb_tree m xs -> less_mono xs ->
  exists xs1 xs2 parent link, cached_search less (rb_fuel m) LinkRoot NULL true m = Some ((parent, link, bool_decide (xs1 = [])), m) /\
    xs = xs1 ++ xs2 /\ less_split xs1 xs2 /\ insert_point m xs1 xs2 parent link.
Proof.
  intros (t & Hm & HR & Ha & <-) Hc. destruct m as [root h]. pose proof Hm as [Hroot Ht].
  destruct (cached_search_zip root h (rb_fuel (RBMem root h)) [] t) as (k & E & Hp & Hs); try done.
  - pose proof (rep_size _ _ _ Ht (proj1 Ha)). pose proof (height_inorder t). unfold rb_fuel. simpl in *. lia.
  - exists (before k), (after k), (par k), (link_of k). split; [exact E|]. simpl in Hp. subst t.
    split; [by rewrite inorder_plug|]. split; [exact Hs|]. rewrite inorder_plug in Ha. exists k. by split_and!.
Qed.

(** The loop and the linking are insertion into the sorted list. *)
Lemma cached_insert_ok c xs n :
  cached_rep c xs -> less_mono xs -> okp n -> n ∉ xs -> is_Some (rb_nodes (ct_tree c) !! n) ->
  exists c', cached_insert less n c = Some (bool_decide (head (queue_insert lt n xs) = Some n), c') /\
    cached_rep c' (queue_insert lt n xs) /\ nodes_kept c c'.
Proof.
  intros [Hm Hl] Hmono Hok Hn Hnd. destruct (cached_search_ok _ _ Hm Hmono) as (xs1 & xs2 & parent & link & E & -> & Hs & Hip).
  destruct (rb_insert _ _ _ _ _ n Hip Hok Hn Hnd) as (m' & Ei & Hm' & Hoff). rewrite queue_insert_at by apply Hs.
  apply bind_Some_inv in Ei as ([] & m1 & E1 & E2). destruct c as [m first]. cbn [ct_tree ct_left] in *. subst first.
  unfold cached_insert. erewrite bind_Some by reflexivity. cbn [ct_tree]. erewrite bind_Some by (unfold on_tree, zoom; cbn [ct_tree up_ctree]; rewrite E; reflexivity).
  cbv beta iota. erewrite bind_Some by (unfold on_tree, zoom; cbn [ct_tree up_ctree]; rewrite E1; reflexivity).
  assert (bool_decide (xs1 = []) = bool_decide (head (xs1 ++ n :: xs2) = Some n)) as Hb.
  { apply bool_decide_ext. split; [by intros ->|]. destruct xs1 as [|x xs1]; [done|]. intros [= ->]. exfalso. apply Hn. by left. }
  exists (CTree m' (if bool_decide (xs1 = []) then n else edge L (xs1 ++ xs2))). split; [|split].
  - rewrite <-Hb. unfold hev_rbtree_cached_insert_color. destruct (bool_decide (xs1 = [])); rewrite bind_assoc;
      (erewrite bind_Some by reflexivity); (erewrite bind_Some by (unfold on_tree, zoom; cbn [ct_tree up_cleft up_ctree]; rewrite E2; reflexivity)); reflexivity.
  - split; [done|]. cbn [ct_left]. case_bool_decide as H1; [by rewrite H1|]. by destruct xs1.
  - intros y Hy. eapply insert_color_keeps; [exact E2|]. by eapply node_link_keeps.
Qed.
End search.

Lemma cached_erase_ok c xs1 z xs2 :
  cached_rep c (xs1 ++ z :: xs2) -> exists c', hev_rbtree_cached_erase z c = Some (tt, c') /\ cached_rep c' (xs1 ++ xs2) /\ nodes_kept c c'.
Proof.
  intros [Hm Hl]. destruct (rb_erase _ _ _ _ Hm) as (m' & E & Hm' & Hoff). pose proof (rb_next _ _ _ _ Hm) as En.
  pose proof (rb_tree_nodup _ _ Hm) as Hnd. destruct c as [m first]. simpl in *. subst first.
  unfold hev_rbtree_cached_erase. erewrite bind_Some by reflexivity. cbn [ct_left].
  exists (CTree m' (edge L (xs1 ++ xs2))). split; [|split; [done|]].
  - destruct xs1 as [|x xs1].
    + change (edge L ([] ++ z :: xs2)) with z. rewrite Z.eqb_refl. erewrite bind_Some.
      2: { erewrite bind_Some by (unfold on_tree, zoom; cbn [ct_tree]; rewrite En; reflexivity). reflexivity. }
      unfold on_tree, zoom. cbn [ct_tree up_cleft up_ctree]. by rewrite E.
    + change (edge L ((x :: xs1) ++ z :: xs2)) with x. rewrite (proj2 (Z.eqb_neq z x)).
      2: { intros ->. simpl in Hnd. apply NoDup_cons in Hnd as [Hx _]. apply Hx. set_solver. }
      erewrite bind_Some by reflexivity. unfold on_tree, zoom. cbn [ct_tree up_ctree]. by rewrite E.
  - intros y Hy. by eapply erase_keeps.
Qed.
