(* ===== verification/Sched.v ===== *)
(** * The scheduler (hev-task-system: kern/core/hev-task-system-schedule.c, kern/task/hev-task.c)

    Tasks that can run are in a tree sorted by a key that grows, at every switch, by
    the priority of the task; the first one runs.  The build has no clock for it
    (CONFIG_SCHED_CLOCK is CLOCK_NONE in configs.mk).  Switching stacks is the return of
    [hev_task_system_schedule]: it says which task runs next.  What the reactor and the
    timers wake is an oracle, and so is what a task does in its turn. *)

From S2P Require Import Prelude RBTree HevList CachedTree.

Definition HEV_TASK_PRIORITY_MIN : Z := 0.
Definition HEV_TASK_PRIORITY_MAX : Z := 15.
Definition HEV_TASK_PRIORITY_DEFAULT : Z := 8.

(** ** State *)

(** [HevTaskState] *)
Inductive run_state := HEV_TASK_STOPPED | HEV_TASK_RUNNING | HEV_TASK_WAITING.

#[global] Instance run_state_eq_dec : EqDecision run_state.
Proof. solve_decision. Defined.

(** [struct _HevTask]; the address of its tree node and list node is its own. *)
Record task := Task { tk_key : Z; tk_prio : Z; tk_next : Z; tk_state : run_state; tk_ref : Z }.

(** [HevTaskSystemContext] with the tasks there are. *)
Record sched := Sched {
  sc_tree : ctree; sc_total : Z; sc_running : Z; sc_current : Z; sc_all : lmem; sc_tasks : gmap Z task
}.

Abbreviation SC := (M sched).

Definition up_sctree v s := Sched v (sc_total s) (sc_running s) (sc_current s) (sc_all s) (sc_tasks s).
Definition up_total v s := Sched (sc_tree s) v (sc_running s) (sc_current s) (sc_all s) (sc_tasks s).
Definition up_running v s := Sched (sc_tree s) (sc_total s) v (sc_current s) (sc_all s) (sc_tasks s).
Definition up_current v s := Sched (sc_tree s) (sc_total s) (sc_running s) v (sc_all s) (sc_tasks s).
Definition up_all v s := Sched (sc_tree s) (sc_total s) (sc_running s) (sc_current s) v (sc_tasks s).
Definition up_stasks v s := Sched (sc_tree s) (sc_total s) (sc_running s) (sc_current s) (sc_all s) v.

Definition on_running {A} (c : CT A) : SC A := zoom sc_tree up_sctree c.
Definition on_all {A} (c : LM A) : SC A := zoom sc_all up_all c.

Definition load_task (t : Z) : SC task := let* o := gets (fun s => sc_tasks s !! t) in lift_opt o.
Definition store_task (t : Z) (tk : task) : SC unit := let* _ := load_task t in modify (fun s => up_stasks (<[t := tk]> (sc_tasks s)) s).

Definition set_key v tk := Task v (tk_prio tk) (tk_next tk) (tk_state tk) (tk_ref tk).
Definition set_prio v tk := Task (tk_key tk) v (tk_next tk) (tk_state tk) (tk_ref tk).
Definition set_next v tk := Task (tk_key tk) (tk_prio tk) v (tk_state tk) (tk_ref tk).
Definition set_state v tk := Task (tk_key tk) (tk_prio tk) (tk_next tk) v (tk_ref tk).
Definition set_ref v tk := Task (tk_key tk) (tk_prio tk) (tk_next tk) (tk_state tk) v.

(** ** Tasks (hev-task.c) *)

(** [mem]: the memory that is found, [stack]: whether there is a stack too. *)
Definition hev_task_new (mem : option Z) (stack : bool) : SC Z :=
  match mem with
  | Some self =>
    if stack then
      modify (fun s => up_stasks (<[self := Task 0 0 HEV_TASK_PRIORITY_DEFAULT HEV_TASK_STOPPED 1]> (sc_tasks s)) s);;
      modify (fun s => up_sctree (CTree (RBMem (rb_root (ct_tree (sc_tree s))) (<[self := RBNode 0 0 0]> (rb_nodes (ct_tree (sc_tree s))))) (ct_left (sc_tree s))) s);;
      modify (fun s => up_all (LMem (l_head (sc_all s)) (l_tail (sc_all s)) (<[self := LNode NULL NULL]> (l_nodes (sc_all s)))) s);;
      on_all (hev_list_add_tail self);;
      ret self
    else ret NULL
  | None => ret NULL
  end.

(** The count is an [int]. *)
Definition hev_task_ref (self : Z) : SC Z :=
  let* tk := load_task self in
  if 2147483647 <=? tk_ref tk then fail else
  store_task self (set_ref (tk_ref tk + 1) tk);; ret self.

Definition hev_task_unref (self : Z) : SC unit :=
  let* tk := load_task self in
  store_task self (set_ref (tk_ref tk - 1) tk);;
  if negb (tk_ref tk - 1 =? 0) then ret tt else
  on_all (hev_list_del self);;
  modify (fun s => up_stasks (delete self (sc_tasks s)) s).

Definition hev_task_set_priority (self priority : Z) : SC unit :=
  let priority := if priority <? HEV_TASK_PRIORITY_MIN then HEV_TASK_PRIORITY_MIN
                  else if HEV_TASK_PRIORITY_MAX <? priority then HEV_TASK_PRIORITY_MAX else priority in
  let* tk := load_task self in store_task self (set_next priority tk).

(** ** The queue *)

(** [runtime] is 1; the product has the width of the key. *)
Definition hev_task_system_update_sched_key : SC unit :=
  let* t := gets sc_current in
  let* tk := load_task t in
  store_task t (set_key (u64 (tk_key tk + u64 (1 * tk_prio tk))) tk).

Definition hev_task_system_get_min_sched_key : SC Z :=
  let* node := on_running hev_rbtree_cached_first in
  if negb (node =? NULL) then let* tk := load_task node in ret (tk_key tk) else ret 0.

Definition _hev_task_system_insert_task (t : Z) : SC unit :=
  let* tk := load_task t in
  let* tasks := gets sc_tasks in
  on_running (cached_insert (fun cur => this ← tasks !! cur; Some (tk_key tk <? tk_key this)) t);;
  ret tt.

Definition hev_task_system_insert_task (t : Z) : SC unit :=
  let* tk := load_task t in
  store_task t (set_prio (tk_next tk) (set_state HEV_TASK_RUNNING tk));;
  _hev_task_system_insert_task t;;
  modify (fun s => up_running (u32 (sc_running s + 1)) s).

Definition hev_task_system_reinsert_current_task : SC unit :=
  let* t := gets sc_current in
  let* tk := load_task t in
  store_task t (set_prio (tk_next tk) tk);;
  on_running (hev_rbtree_cached_erase t);;
  _hev_task_system_insert_task t.

Definition hev_task_system_remove_current_task (state : run_state) : SC unit :=
  let* t := gets sc_current in
  let* tk := load_task t in
  store_task t (set_state state tk);;
  on_running (hev_rbtree_cached_erase t);;
  modify (fun s => up_running (u32 (sc_running s - 1)) s);;
  if bool_decide (state = HEV_TASK_STOPPED) then
    modify (fun s => up_total (u32 (sc_total s - 1)) s);;
    hev_task_unref t
  else
    let* tk := load_task t in
    store_task t (set_key (tk_next tk) tk).

(** [abort] is a fault. *)
Definition hev_task_system_wakeup_task_with_context (t : Z) : SC unit :=
  let* tk := load_task t in
  match tk_state tk with
  | HEV_TASK_RUNNING => ret tt
  | HEV_TASK_STOPPED => fail
  | HEV_TASK_WAITING =>
    let* min := hev_task_system_get_min_sched_key in
    store_task t (set_key (u64 (tk_key tk + min)) tk);;
    hev_task_system_insert_task t
  end.

Definition hev_task_wakeup (t : Z) : SC unit := hev_task_system_wakeup_task_with_context t.

Definition hev_task_system_run_new_task (t : Z) : SC unit :=
  let* current := gets sc_current in
  (if negb (current =? NULL) then
     let* min := hev_task_system_get_min_sched_key in
     let* tk := load_task t in
     store_task t (set_key (u64 (tk_key tk + min)) tk)
   else ret tt);;
  hev_task_system_insert_task t;;
  modify (fun s => up_total (u32 (sc_total s + 1)) s).

Definition hev_task_run (self : Z) : SC unit :=
  let* tk := load_task self in
  if bool_decide (tk_state tk <> HEV_TASK_STOPPED) then ret tt else
  store_task self (set_key (tk_next tk) (set_prio (tk_next tk) tk));;
  hev_task_system_run_new_task self.

(** ** Switching *)

(** The tasks that the reactor and the timer wake in one call. *)
Fixpoint hev_task_system_io_poll (woken : list Z) : SC unit :=
  match woken with
  | [] => ret tt
  | t :: woken => hev_task_system_wakeup_task_with_context t;; hev_task_system_io_poll woken
  end.

(** The loop that waits until a task can run; [false]: it still waits. *)
Fixpoint poll_loop (polls : list (list Z)) : SC bool :=
  match polls with
  | [] => ret false
  | woken :: polls =>
    hev_task_system_io_poll woken;;
    let* running := gets sc_running in
    if running =? 0 then poll_loop polls else ret true
  end.

Definition hev_task_system_pick_current_task (polls : list (list Z)) : SC bool :=
  let* running := gets sc_running in
  let* total := gets sc_total in
  let* go := (if running <? total then
                if negb (running =? 0) then hev_task_system_io_poll (hd [] polls);; ret true
                else poll_loop polls
              else ret true) in
  if negb go then ret false else
  let* node := on_running hev_rbtree_cached_first in
  if node =? NULL then fail else
  modify (up_current node);; ret true.

(** [HevTaskYieldType]; [HEV_TASK_YIELD_COUNT] is the value of [HEV_TASK_RUN_SCHEDULER],
    with which the scheduler starts, and of [HEV_TASK_SCHED_REMOVE], with which a task
    ends. *)
Inductive HevTaskYieldType := HEV_TASK_YIELD | HEV_TASK_WAITIO | HEV_TASK_YIELD_COUNT.

(** The task that runs next; NULL when all have exited, or while none can run.  Without
    a current task the kernel must be entered by [hev_task_system_run], or there is no
    context to come back to. *)
Definition hev_task_system_schedule (type : HevTaskYieldType) (polls : list (list Z)) : SC Z :=
  let* current := gets sc_current in
  (if negb (current =? NULL) then
     match type with
     | HEV_TASK_YIELD => hev_task_system_update_sched_key;; hev_task_system_reinsert_current_task
     | HEV_TASK_WAITIO => hev_task_system_update_sched_key;; hev_task_system_remove_current_task HEV_TASK_WAITING
     | HEV_TASK_YIELD_COUNT => hev_task_system_remove_current_task HEV_TASK_STOPPED
     end
   else match type with HEV_TASK_YIELD_COUNT => ret tt | _ => fail end);;
  let* total := gets sc_total in
  if total =? 0 then modify (up_current NULL);; ret NULL else
  let* picked := hev_task_system_pick_current_task polls in
  if picked : bool then gets sc_current else ret NULL.

(** hev-task.c, hev-task-system.c *)
Definition hev_task_yield (type : HevTaskYieldType) (polls : list (list Z)) : SC Z := hev_task_system_schedule type polls.
Definition hev_task_exit (polls : list (list Z)) : SC Z := hev_task_system_schedule HEV_TASK_YIELD_COUNT polls.
Definition hev_task_system_run (polls : list (list Z)) : SC Z := hev_task_system_schedule HEV_TASK_YIELD_COUNT polls.

(** ** Runs *)

(** What the running task does with others before it gives up the processor. *)
Inductive act :=
  | ANew (mem : option Z) (stack : bool) | ARun (t : Z) | AWake (t : Z)
  | APrio (t p : Z) | ARef (t : Z) | AUnref (t : Z).

Definition run_act (a : act) : SC unit :=
  match a with
  | ANew mem stack => hev_task_new mem stack;; ret tt
  | ARun t => hev_task_run t
  | AWake t => hev_task_wakeup t
  | APrio t p => hev_task_set_priority t p
  | ARef t => hev_task_ref t;; ret tt
  | AUnref t => hev_task_unref t
  end.

Fixpoint run_acts (acts : list act) : SC unit :=
  match acts with
  | [] => ret tt
  | a :: acts => run_act a;; run_acts acts
  end.

(** A turn of the processor, and a run: the tasks that are picked. *)
Record turn := Turn { tu_acts : list act; tu_type : HevTaskYieldType; tu_polls : list (list Z) }.

Definition run_turn (u : turn) : SC Z := run_acts (tu_acts u);; hev_task_system_schedule (tu_type u) (tu_polls u).

Fixpoint run_turns (us : list turn) : SC (list Z) :=
  match us with
  | [] => ret []
  | u :: us => let* t := run_turn u in let* ts := run_turns us in ret (t :: ts)
  end.
