(* ===== verification/SchedSpec.v ===== *)
(** * The scheduler as a sorted list of tasks

    What the scheduler promises: tasks that can run wait in a list sorted by their
    key, first come first served among equals, and the first one runs.  Here are this
    machine, its invariant, and why a task that can run is not passed over for ever
    when no task has priority 0. *)

From stdpp Require Import sorting.
From S2P Require Import Prelude RBTree RBModel HevList CachedTree Sched.

(** ** The machine *)

Record machine := Machine { mc_tasks : gmap Z task; mc_queue : list Z; mc_current : Z }.

Definition key_of (tasks : gmap Z task) (t : Z) : Z := default 0 (tk_key <$> tasks !! t).

Definition mc_min (m : machine) : Z := match mc_queue m with [] => 0 | x :: _ => key_of (mc_tasks m) x end.

Definition enqueue (tasks : gmap Z task) (t : Z) (q : list Z) : list Z := queue_insert (fun x => key_of tasks t <? key_of tasks x) t q.

Definition spec_insert (t : Z) (tk : task) (m : machine) : machine :=
  let tasks := <[t := set_prio (tk_next tk) (set_state HEV_TASK_RUNNING tk)]> (mc_tasks m) in
  Machine tasks (enqueue tasks t (mc_queue m)) (mc_current m).

Definition spec_wake (m : machine) (t : Z) : machine :=
  match mc_tasks m !! t with
  | Some tk => if decide (tk_state tk = HEV_TASK_WAITING) then spec_insert t (set_key (tk_key tk + mc_min m) tk) m else m
  | None => m
  end.

Definition spec_run (m : machine) (t : Z) : machine :=
  match mc_tasks m !! t with
  | Some tk =>
    if decide (tk_state tk = HEV_TASK_STOPPED) then
      spec_insert t (set_key (tk_next tk + (if mc_current m =? NULL then 0 else mc_min m)) tk) m
    else m
  | None => m
  end.

Definition put_task (t : Z) (tk : task) (m : machine) : machine := Machine (<[t := tk]> (mc_tasks m)) (mc_queue m) (mc_current m).

Definition drop_ref (t : Z) (tk : task) (tasks : gmap Z task) : gmap Z task :=
  if decide (tk_ref tk = 1) then delete t tasks else <[t := set_ref (tk_ref tk - 1) tk]> tasks.

Definition clamp (p : Z) : Z := Z.max HEV_TASK_PRIORITY_MIN (Z.min p HEV_TASK_PRIORITY_MAX).

Definition spec_act (m : machine) (a : act) : machine :=
  match a with
  | ANew (Some t) true => put_task t (Task 0 0 HEV_TASK_PRIORITY_DEFAULT HEV_TASK_STOPPED 1) m
  | ANew _ _ => m
  | ARun t => spec_run m t
  | AWake t => spec_wake m t
  | APrio t p => match mc_tasks m !! t with Some tk => put_task t (set_next (clamp p) tk) m | None => m end
  | ARef t => match mc_tasks m !! t with Some tk => put_task t (set_ref (tk_ref tk + 1) tk) m | None => m end
  | AUnref t => match mc_tasks m !! t with Some tk => Machine (drop_ref t tk (mc_tasks m)) (mc_queue m) (mc_current m) | None => m end
  end.

Definition without (t : Z) (q : list Z) : list Z := filter (fun x => x <> t) q.

(** The running task gives the processor up. *)
Definition spec_leave (type : HevTaskYieldType) (m : machine) : machine :=
  let t := mc_current m in
  match mc_tasks m !! t with
  | None => m
  | Some tk =>
    let m1 := Machine (delete t (mc_tasks m)) (without t (mc_queue m)) t in
    match type with
    | HEV_TASK_YIELD => spec_insert t (set_key (tk_key tk + tk_prio tk) tk) m1
    | HEV_TASK_WAITIO => put_task t (set_key (tk_next tk) (set_state HEV_TASK_WAITING tk)) m1
    | HEV_TASK_YIELD_COUNT => if decide (tk_ref tk = 1) then m1 else put_task t (set_ref (tk_ref tk - 1) (set_state HEV_TASK_STOPPED tk)) m1
    end
  end.

Definition waiting (tasks : gmap Z task) : nat := size (filter (fun x : Z * task => tk_state x.2 = HEV_TASK_WAITING) tasks).

Fixpoint spec_poll (polls : list (list Z)) (m : machine) : option machine :=
  match polls with
  | [] => None
  | woken :: polls =>
    let m := foldl spec_wake m woken in
    if decide (mc_queue m = []) then spec_poll polls m else Some m
  end.

Definition spec_pick (polls : list (list Z)) (m : machine) : option machine :=
  if decide (waiting (mc_tasks m) = 0%nat) then Some m
  else if decide (mc_queue m = []) then spec_poll polls m
  else Some (foldl spec_wake m (hd [] polls)).

(** The task that runs next, or NULL. *)
Definition spec_schedule (type : HevTaskYieldType) (polls : list (list Z)) (m : machine) : Z * machine :=
  let m := if mc_current m =? NULL then m else spec_leave type m in
  if decide (mc_queue m = [] /\ waiting (mc_tasks m) = 0%nat) then (NULL, Machine (mc_tasks m) [] NULL) else
  match spec_pick polls m with
  | None => (NULL, m)
  | Some m => let next := default NULL (head (mc_queue m)) in (next, Machine (mc_tasks m) (mc_queue m) next)
  end.

Definition spec_turn (m : machine) (u : turn) : Z * machine := spec_schedule (tu_type u) (tu_polls u) (foldl spec_act m (tu_acts u)).

Fixpoint spec_turns (m : machine) (us : list turn) : list Z * machine :=
  match us with
  | [] => ([], m)
  | u :: us => let x := spec_turn m u in let y := spec_turns x.2 us in (x.1 :: y.1, y.2)
  end.

(** ** What the tasks must not do *)

Definition alive (m : machine) (t : Z) : Prop := exists tk, mc_tasks m !! t = Some tk /\ tk_state tk <> HEV_TASK_STOPPED.

Definition act_ok (m : machine) (a : act) : Prop :=
  match a with
  | ANew (Some t) _ => okp t /\ mc_tasks m !! t = None /\ Z.of_nat (size (mc_tasks m)) + 1 < 4294967296
  | ANew None _ => True
  | ARun t | APrio t _ => is_Some (mc_tasks m !! t)
  | AWake t => alive m t
  | ARef t => exists tk, mc_tasks m !! t = Some tk /\ tk_ref tk < 2147483647
  | AUnref t => exists tk, mc_tasks m !! t = Some tk /\ (tk_ref tk = 1 -> tk_state tk = HEV_TASK_STOPPED)
  end.

Fixpoint acts_ok (m : machine) (acts : list act) : Prop :=
  match acts with
  | [] => True
  | a :: acts => act_ok m a /\ acts_ok (spec_act m a) acts
  end.

Definition polls_ok (m : machine) (polls : list (list Z)) : Prop := Forall (Forall (alive m)) polls.

Definition turn_ok (m : machine) (u : turn) : Prop :=
  let m1 := foldl spec_act m (tu_acts u) in
  acts_ok m (tu_acts u) /\ (mc_current m = NULL -> tu_type u = HEV_TASK_YIELD_COUNT) /\
  polls_ok (if mc_current m1 =? NULL then m1 else spec_leave (tu_type u) m1) (tu_polls u).

(** There is a next turn where a task was picked, or all have exited. *)
Fixpoint turns_ok (m : machine) (us : list turn) : Prop :=
  match us with
  | [] => True
  | u :: us => turn_ok m u /\ (us = [] \/ mc_current (spec_turn m u).2 = (spec_turn m u).1) /\ turns_ok (spec_turn m u).2 us
  end.

(** ** The invariant *)

(** What a task of the machine must be. *)
Definition task_ok (t : Z) (tk : task) : Prop :=
  okp t /\ 0 <= tk_prio tk <= HEV_TASK_PRIORITY_MAX /\ 0 <= tk_next tk <= HEV_TASK_PRIORITY_MAX /\ 1 <= tk_ref tk <= 2147483647 /\
  (tk_state tk = HEV_TASK_WAITING -> 0 <= tk_key tk <= HEV_TASK_PRIORITY_MAX).

Record mc_inv (m : machine) : Prop := {
  mi_nodup : NoDup (mc_queue m);
  mi_run : forall t, t ∈ mc_queue m <-> exists tk, mc_tasks m !! t = Some tk /\ tk_state tk = HEV_TASK_RUNNING;
  mi_sorted : StronglySorted (fun a b => key_of (mc_tasks m) a <= key_of (mc_tasks m) b) (mc_queue m);
  mi_range : forall a b, a ∈ mc_queue m -> b ∈ mc_queue m -> 0 <= key_of (mc_tasks m) a <= key_of (mc_tasks m) b + HEV_TASK_PRIORITY_MAX;
  mi_task : forall t tk, mc_tasks m !! t = Some tk -> task_ok t tk;
  mi_start : mc_current m = NULL -> forall t tk, mc_tasks m !! t = Some tk ->
    tk_state tk <> HEV_TASK_WAITING /\ (tk_state tk = HEV_TASK_RUNNING -> tk_key tk <= HEV_TASK_PRIORITY_MAX);
  mi_count : Z.of_nat (size (mc_tasks m)) < 4294967296
}.

(** The running task is the first. *)
Definition ready (m : machine) : Prop := mc_current m = NULL \/ head (mc_queue m) = Some (mc_current m).

Lemma without_notin t q : t ∉ q -> without t q = q.
Proof. intros H. apply filter_all, Forall_forall. by intros x Hx ->. Qed.

Lemma without_in x t q : x ∈ without t q <-> x <> t /\ x ∈ q.
Proof. unfold without. rewrite list_elem_of_filter. tauto. Qed.

Lemma key_other t tk tasks x : x <> t -> key_of (<[t := tk]> tasks) x = key_of tasks x.
Proof. intros H. unfold key_of. by rewrite lookup_insert_ne. Qed.

Lemma key_drop t tasks x : x <> t -> key_of (delete t tasks) x = key_of tasks x.
Proof. intros H. unfold key_of. by rewrite lookup_delete_ne. Qed.

Lemma key_here t tk tasks : key_of (<[t := tk]> tasks) t = tk_key tk.
Proof. unfold key_of. by rewrite lookup_insert_eq. Qed.

Lemma key_put t tk tasks tk' x : tasks !! t = Some tk -> tk_key tk' = tk_key tk -> key_of (<[t := tk']> tasks) x = key_of tasks x.
Proof. intros E Hk. destruct (decide (x = t)) as [->|]; [|by apply key_other]. rewrite key_here. unfold key_of. by rewrite E. Qed.

Lemma sorted_filter {A} (R : A -> A -> Prop) (P : A -> Prop) `{!forall x, Decision (P x)} xs : StronglySorted R xs -> StronglySorted R (filter P xs).
Proof.
  induction 1 as [|x xs Hs IH HF]; [constructor|]. rewrite filter_cons. destruct (decide (P x)); [|exact IH]. constructor; [done|].
  rewrite Forall_forall in HF |- *. intros y [_ Hy]%list_elem_of_filter. by apply HF.
Qed.

Lemma sorted_weaken {A} (R R' : A -> A -> Prop) xs : (forall a b, R a b -> R' a b) -> StronglySorted R xs -> StronglySorted R' xs.
Proof. intros HR. induction 1 as [|x xs Hs IH HF]; constructor; [done|]. eapply Forall_impl; [exact HF|]. auto. Qed.

Lemma sorted_keys (f g : Z -> Z) q : (forall x, x ∈ q -> g x = f x) -> StronglySorted (fun a b => f a <= f b) q -> StronglySorted (fun a b => g a <= g b) q.
Proof.
  intros He Hs. induction Hs as [|x q Hs IH HF]; constructor; [apply IH; set_solver|].
  rewrite Forall_forall in HF |- *. intros y Hy. rewrite !He by set_solver. by apply HF.
Qed.

Lemma not_queued t m : mc_inv m -> (forall tk, mc_tasks m !! t = Some tk -> tk_state tk <> HEV_TASK_RUNNING) -> t ∉ mc_queue m.
Proof. intros Hm Ht (tk & E & Hs)%(mi_run _ Hm). by apply (Ht tk E). Qed.

(** A task is taken out of the machine. *)
Definition take_task (t : Z) (m : machine) : machine := Machine (delete t (mc_tasks m)) (without t (mc_queue m)) (mc_current m).

Lemma take_inv t m : mc_inv m -> mc_inv (take_task t m).
Proof.
  intros [H1 H2 H3 H4 H5 H6 H7].
  assert (forall x, x ∈ without t (mc_queue m) -> key_of (delete t (mc_tasks m)) x = key_of (mc_tasks m) x) as Hk
    by (intros x [Hx _]%without_in; by apply key_drop).
  split; simpl.
  - by apply NoDup_filter.
  - intros x. rewrite without_in, H2. split.
    + intros (Hx & tk & E & Hr). exists tk. by rewrite lookup_delete_ne.
    + intros (tk & [Hx E]%lookup_delete_Some & Hr). split; [done|by exists tk].
  - eapply sorted_keys; [exact Hk|]. by apply sorted_filter.
  - intros a b Ha Hb. rewrite (Hk a Ha), (Hk b Hb). apply without_in in Ha as [_ Ha]. apply without_in in Hb as [_ Hb]. by apply H4.
  - intros x tk [_ E]%lookup_delete_Some. by apply H5.
  - intros Hc x tk [_ E]%lookup_delete_Some. by eapply H6.
  - rewrite map_size_delete. destruct (mc_tasks m !! t); simpl; lia.
Qed.

Lemma take_room t tk m : mc_inv m -> mc_tasks m !! t = Some tk -> Z.of_nat (size (mc_tasks (take_task t m))) + 1 < 4294967296.
Proof.
  intros Hm E. pose proof (mi_count _ Hm). simpl. rewrite map_size_delete_Some by (by eexists).
  assert (size (mc_tasks m) <> 0%nat); [|lia]. intros H0%map_size_empty_inv. by rewrite H0 in E.
Qed.

(** A task that does not run comes in. *)
Lemma add_inv t tk m :
  mc_inv m -> mc_tasks m !! t = None -> Z.of_nat (size (mc_tasks m)) + 1 < 4294967296 -> task_ok t tk ->
  tk_state tk <> HEV_TASK_RUNNING -> (mc_current m = NULL -> tk_state tk = HEV_TASK_STOPPED) -> mc_inv (put_task t tk m).
Proof.
  intros Hm Ht Hsz Hok Hst Hcur. assert (t ∉ mc_queue m) as Hni by (apply not_queued; [done|by rewrite Ht]).
  destruct Hm as [H1 H2 H3 H4 H5 H6 H7].
  assert (forall x, x ∈ mc_queue m -> key_of (<[t := tk]> (mc_tasks m)) x = key_of (mc_tasks m) x) as Hk.
  { intros x Hx. apply key_other. by intros ->. }
  split; simpl; try done.
  - intros x. rewrite H2. split.
    + intros (tk' & E & Hr). exists tk'. rewrite lookup_insert_ne; [done|]. intros ->. by rewrite Ht in E.
    + intros (tk' & E & Hr). apply lookup_insert_Some in E as [[<- <-]|[_ E]]; [done|by exists tk'].
  - by eapply sorted_keys.
  - intros a b Ha Hb. rewrite !Hk by done. by apply H4.
  - intros x tk' [[<- <-]|[_ E]]%lookup_insert_Some; [exact Hok|by apply H5].
  - intros Hc x tk' [[<- <-]|[_ E]]%lookup_insert_Some; [by rewrite (Hcur Hc)|by eapply H6].
  - rewrite map_size_insert_None by done. lia.
Qed.

Lemma enqueue_sorted tasks t q :
  StronglySorted (fun a b => key_of tasks a <= key_of tasks b) q -> StronglySorted (fun a b => key_of tasks a <= key_of tasks b) (enqueue tasks t q).
Proof.
  unfold enqueue. induction 1 as [|x q Hs IH HF]; simpl; [repeat constructor|]. destruct (Z.ltb_spec (key_of tasks t) (key_of tasks x)).
  - constructor; [by constructor|]. constructor; [lia|]. eapply Forall_impl; [exact HF|]. simpl. lia.
  - constructor; [done|]. rewrite queue_insert_perm. by constructor.
Qed.

(** A task comes in that runs; its key is not far from the others. *)
Definition key_near (k : Z) (m : machine) : Prop :=
  0 <= k /\ (forall x, x ∈ mc_queue m -> k <= key_of (mc_tasks m) x + HEV_TASK_PRIORITY_MAX /\ key_of (mc_tasks m) x <= k + HEV_TASK_PRIORITY_MAX) /\
  (mc_current m = NULL -> k <= HEV_TASK_PRIORITY_MAX).

Lemma insert_inv t tk m :
  mc_inv m -> mc_tasks m !! t = None -> Z.of_nat (size (mc_tasks m)) + 1 < 4294967296 -> task_ok t (set_state HEV_TASK_RUNNING tk) ->
  key_near (tk_key tk) m -> mc_inv (spec_insert t tk m).
Proof.
  intros Hm Ht Hsz (Hok & Hp & Hn & Hrf & _) (H0 & Hr & Hc). unfold spec_insert. set (tk' := set_prio (tk_next tk) (set_state HEV_TASK_RUNNING tk)).
  assert (t ∉ mc_queue m) as Hni by (apply not_queued; [done|by rewrite Ht]). destruct Hm as [H1 H2 H3 H4 H5 H6 H7].
  assert (forall x, x ∈ mc_queue m -> key_of (<[t := tk']> (mc_tasks m)) x = key_of (mc_tasks m) x) as Hk.
  { intros x Hx. apply key_other. by intros ->. }
  assert (key_of (<[t := tk']> (mc_tasks m)) t = tk_key tk) as Hkt by (by rewrite key_here).
  assert (forall x, x ∈ enqueue (<[t := tk']> (mc_tasks m)) t (mc_queue m) <-> x = t \/ x ∈ mc_queue m) as Hin.
  { intros x. unfold enqueue. by rewrite queue_insert_perm, elem_of_cons. }
  split; cbn [mc_tasks mc_queue mc_current].
  - unfold enqueue. rewrite queue_insert_perm. by apply NoDup_cons.
  - intros x. rewrite Hin, H2. split.
    + intros [->|(tk2 & E & Hx)]; [exists tk'; by rewrite lookup_insert_eq|]. exists tk2. rewrite lookup_insert_ne; [done|]. intros ->. by rewrite Ht in E.
    + intros (tk2 & E & Hx). apply lookup_insert_Some in E as [[<- <-]|[_ E]]; [by left|right; by exists tk2].
  - apply enqueue_sorted. by eapply sorted_keys.
  - intros a b [->|Ha]%Hin [->|Hb]%Hin; rewrite ?Hkt, ?Hk by done; [unfold HEV_TASK_PRIORITY_MAX; lia|destruct (Hr b Hb); lia| |by apply H4].
    destruct (Hr a Ha), (H4 a a Ha Ha). lia.
  - intros x tk2 [[<- <-]|[_ E]]%lookup_insert_Some; [|by apply H5]. do 2 (split; [assumption|]). split; [exact Hn|]. by split.
  - intros Hcur x tk2 [[<- <-]|[_ E]]%lookup_insert_Some; [|by eapply H6]. split; [done|]. intros _. simpl. auto.
  - rewrite map_size_insert_None by done. lia.
Qed.

Lemma insert_take t tk m : spec_insert t tk (take_task t m) = spec_insert t tk (Machine (mc_tasks m) (without t (mc_queue m)) (mc_current m)).
Proof. unfold spec_insert. simpl. by rewrite insert_delete_eq. Qed.

Lemma put_take t tk m : put_task t tk (take_task t m) = Machine (<[t := tk]> (mc_tasks m)) (without t (mc_queue m)) (mc_current m).
Proof. unfold put_task. simpl. by rewrite insert_delete_eq. Qed.

Lemma insert_idle t tk tk' m :
  mc_inv m -> mc_tasks m !! t = Some tk' -> tk_state tk' <> HEV_TASK_RUNNING -> spec_insert t tk (take_task t m) = spec_insert t tk m.
Proof. intros Hm E Hs. rewrite insert_take, without_notin; [by destruct m|]. apply not_queued; [done|]. rewrite E. by intros ? [= <-]. Qed.

(** ** The smallest key *)

Lemma min_first m x : mc_inv m -> x ∈ mc_queue m -> mc_min m <= key_of (mc_tasks m) x <= mc_min m + HEV_TASK_PRIORITY_MAX.
Proof.
  intros [H1 H2 H3 H4 _ _ _] Hx. unfold mc_min. destruct (mc_queue m) as [|y q] eqn:Eq; [by apply elem_of_nil in Hx|].
  destruct (H4 x y Hx ltac:(by left)) as [_ ?]. apply StronglySorted_cons in H3 as [H3 _]. rewrite Forall_forall in H3.
  apply elem_of_cons in Hx as [->|Hx]; [split; [done|unfold HEV_TASK_PRIORITY_MAX; lia]|]. split; [by apply H3|done].
Qed.

Lemma min_pos m : mc_inv m -> 0 <= mc_min m.
Proof.
  intros [_ _ _ H4 _ _ _]. unfold mc_min. destruct (mc_queue m) as [|y q]; [done|]. by apply (H4 y y); left.
Qed.

Lemma min_start m : mc_inv m -> mc_current m = NULL -> mc_min m <= HEV_TASK_PRIORITY_MAX.
Proof.
  intros Hm Hc. unfold mc_min. destruct (mc_queue m) as [|y q] eqn:Eq; [done|]. destruct (proj1 (mi_run _ Hm y)) as (tk & E & Hs); [rewrite Eq; by left|].
  unfold key_of. rewrite E. simpl. by eapply (mi_start _ Hm).
Qed.

Lemma near_min k m : mc_inv m -> mc_min m <= k <= mc_min m + HEV_TASK_PRIORITY_MAX -> (mc_current m = NULL -> k <= HEV_TASK_PRIORITY_MAX) -> key_near k m.
Proof.
  intros Hm Hk Hc. pose proof (min_pos _ Hm). split; [lia|]. split; [|done]. intros x Hx%(min_first _ _ Hm). lia.
Qed.

Lemma insert_min t tk m :
  t ∉ mc_queue m -> mc_min (spec_insert t tk m) = match mc_queue m with [] => tk_key tk | _ => Z.min (tk_key tk) (mc_min m) end.
Proof.
  intros Hni. unfold mc_min, spec_insert, enqueue.
  cbn [mc_tasks mc_queue]. destruct (mc_queue m) as [|x q]; simpl; [by rewrite key_here|].
  rewrite key_here, (key_other _ _ _ x) by set_solver. cbn [tk_key set_prio set_state].
  destruct (Z.ltb_spec (tk_key tk) (key_of (mc_tasks m) x)); [rewrite key_here; simpl; lia|]. rewrite key_other by set_solver. lia.
Qed.
