(* ===== verification/SchedInv.v ===== *)
(** * The invariant of the scheduler

    Every operation of the machine of [SchedSpec] keeps its invariant, and the smallest
    key grows by at most one priority in a turn. *)

From stdpp Require Import sorting.
From S2P Require Import Prelude RBTree RBModel HevList CachedTree Sched SchedSpec.

(** ** Between two switches *)

Lemma wake_inv m t : mc_inv m -> mc_inv (spec_wake m t).
Proof.
  intros Hm. unfold spec_wake. destruct (mc_tasks m !! t) as [tk|] eqn:E; [|done]. destruct (decide _) as [Hw|]; [|done].
  destruct (mi_task _ Hm _ _ E) as (? & ? & ? & ? & Hk). specialize (Hk Hw). pose proof (min_pos _ Hm).
  erewrite <-insert_idle by (try done; by rewrite Hw). apply insert_inv; [by apply take_inv|apply lookup_delete_eq|by eapply take_room|by split_and!; try tauto|].
  assert (key_near (tk_key tk + mc_min m) m) as (? & Hx & ?).
  { apply near_min; [done|lia|]. intros Hc. by destruct (mi_start _ Hm Hc _ _ E). }
  split; [done|]. split; [|done]. intros x [Hne Hq]%without_in. simpl. rewrite key_drop by done. by apply Hx.
Qed.

Lemma run_key m tk :
  mc_inv m -> 0 <= tk_next tk <= HEV_TASK_PRIORITY_MAX -> key_near (tk_next tk + (if mc_current m =? NULL then 0 else mc_min m)) m.
Proof.
  intros Hm Hk. pose proof (min_pos _ Hm). destruct (Z.eqb_spec (mc_current m) NULL) as [Hc|Hc].
  - split; [lia|]. split; [|lia]. intros x Hx. pose proof (min_first _ _ Hm Hx). destruct (proj1 (mi_run _ Hm x) Hx) as (tkx & E & Hs).
    destruct (mi_start _ Hm Hc _ _ E) as [_ Hk']. specialize (Hk' Hs). unfold key_of in *. rewrite E in *. simpl in *. lia.
  - apply near_min; [done|lia|done].
Qed.

Lemma run_inv m t : mc_inv m -> mc_inv (spec_run m t).
Proof.
  intros Hm. unfold spec_run. destruct (mc_tasks m !! t) as [tk|] eqn:E; [|done]. destruct (decide _) as [Hw|]; [|done].
  destruct (mi_task _ Hm _ _ E) as (? & ? & ? & ? & _).
  erewrite <-insert_idle by (try done; by rewrite Hw). apply insert_inv; [by apply take_inv|apply lookup_delete_eq|by eapply take_room|by split_and!; try tauto|].
  destruct (run_key m tk Hm) as (? & Hx & ?); [done|].
  split; [done|]. split; [|done]. intros x [Hne Hq]%without_in. simpl. rewrite key_drop by done. by apply Hx.
Qed.

(** What the queue does not depend on may change. *)
Lemma touch_inv t tk tk' m :
  mc_inv m -> mc_tasks m !! t = Some tk -> task_ok t tk' -> tk_key tk' = tk_key tk -> tk_state tk' = tk_state tk -> mc_inv (put_task t tk' m).
Proof.
  intros Hm E Hok Hk Hs. assert (forall x, key_of (<[t := tk']> (mc_tasks m)) x = key_of (mc_tasks m) x) as Hkey.
  { intros x. by apply (key_put t tk). }
  destruct Hm as [H1 H2 H3 H4 H5 H6 H7]. split; simpl; try done.
  - intros x. rewrite H2. split.
    + intros (tkx & Ex & Hr). destruct (decide (x = t)) as [->|]; [|exists tkx; by rewrite lookup_insert_ne].
      exists tk'. rewrite lookup_insert_eq. split; [done|]. rewrite E in Ex. injection Ex as <-. congruence.
    + intros (tkx & [[<- <-]|[_ Ex]]%lookup_insert_Some & Hr); [|by exists tkx]. exists tk. split; [done|congruence].
  - eapply sorted_keys; [|exact H3]. auto.
  - intros a b Ha Hb. rewrite !Hkey. by apply H4.
  - intros x tkx [[<- <-]|[_ Ex]]%lookup_insert_Some; [done|by apply H5].
  - intros Hc x tkx [[<- <-]|[_ Ex]]%lookup_insert_Some; [|by eapply H6]. rewrite Hs, Hk. by eapply H6.
  - rewrite map_size_insert, E. done.
Qed.

Lemma clamp_range p : 0 <= clamp p <= HEV_TASK_PRIORITY_MAX.
Proof. unfold clamp, HEV_TASK_PRIORITY_MIN, HEV_TASK_PRIORITY_MAX. lia. Qed.

Lemma act_inv m a : mc_inv m -> act_ok m a -> mc_inv (spec_act m a).
Proof.
  intros Hm Ha. destruct a as [[t|] []|t|t|t p|t|t]; simpl in *; try done.
  - destruct Ha as (Hok & Hn & Hsz). by apply add_inv.
  - by apply run_inv.
  - by apply wake_inv.
  - destruct (mc_tasks m !! t) as [tk|] eqn:E; [|done]. eapply touch_inv; try done.
    destruct (mi_task _ Hm _ _ E) as (? & ? & ? & ? & Hk). split; [done|]. pose proof (clamp_range p). by split_and!; try tauto.
  - destruct Ha as (tk & E & Hr). rewrite E. eapply touch_inv; try done.
    destruct (mi_task _ Hm _ _ E) as (? & ? & ? & ? & Hk). split; [done|]. simpl. split_and!; try tauto; lia.
  - destruct Ha as (tk & E & Hr). rewrite E. destruct (mi_task _ Hm _ _ E) as (? & ? & ? & ? & Hk). unfold drop_ref. destruct (decide _) as [Hd|Hd].
    + pose proof (take_inv t m Hm) as Ht. unfold take_task in Ht. rewrite without_notin in Ht; [done|]. apply not_queued; [done|].
      rewrite E. intros ? [= <-]. by rewrite Hr.
    + eapply (touch_inv t tk (set_ref _ tk)); try done. split; [done|]. simpl. split_and!; try tauto; lia.
Qed.

(** ** The first task stays the first *)

(** The smallest key does not change while there is a current task, and else stays small. *)
Record same_first (m m' : machine) : Prop := {
  sf_current : mc_current m' = mc_current m;
  sf_first : forall c, mc_current m <> NULL -> head (mc_queue m) = Some c -> head (mc_queue m') = Some c /\ mc_min m' = mc_min m;
  sf_min : mc_min m' <= Z.max (mc_min m) HEV_TASK_PRIORITY_MAX
}.

#[global] Instance same_first_preorder : PreOrder same_first.
Proof.
  split; [split; [done|done|lia]|]. intros m1 m2 m3 [H1 H2 H3] [H4 H5 H6]. split; [congruence| |lia].
  intros c Hc Hh. destruct (H2 c Hc Hh) as [Hh' <-]. apply H5; [by rewrite H1|done].
Qed.

Lemma same_first_ready m m' : same_first m m' -> ready m -> ready m'.
Proof.
  intros [Hc Hf _] Hr. unfold ready. rewrite Hc. destruct (decide (mc_current m = NULL)); [by left|]. destruct Hr as [|Hr]; [done|]. right. by apply Hf.
Qed.

Lemma insert_same_first t tk m :
  t ∉ mc_queue m -> (mc_queue m = [] -> tk_key tk <= HEV_TASK_PRIORITY_MAX) -> (mc_current m <> NULL -> mc_min m <= tk_key tk) ->
  same_first m (spec_insert t tk m).
Proof.
  intros Hq Hn Hk. pose proof (insert_min t tk m Hq) as Hmin. split; [done| |rewrite Hmin; destruct (mc_queue m); [specialize (Hn eq_refl)|]; lia].
  intros c Hc Hh. specialize (Hk Hc). destruct (mc_queue m) as [|x q] eqn:Eq; [done|]. injection Hh as ->. split; [|lia].
  revert Hmin Hk. unfold spec_insert, mc_min, enqueue. rewrite Eq. simpl. rewrite key_here, key_other by set_solver. cbn [tk_key set_prio set_state].
  intros _ Hk. destruct (Z.ltb_spec (tk_key tk) (key_of (mc_tasks m) c)); [lia|done].
Qed.

Lemma wake_same_first m t : mc_inv m -> same_first m (spec_wake m t).
Proof.
  intros Hm. unfold spec_wake. destruct (mc_tasks m !! t) as [tk|] eqn:E; [|done]. destruct (decide _) as [Hw|]; [|done].
  destruct (mi_task _ Hm _ _ E) as (_ & _ & _ & _ & Hk). specialize (Hk Hw). apply insert_same_first; simpl; [|unfold mc_min; intros ->; lia|lia].
  apply not_queued; [done|]. rewrite E. intros ? [= <-]. by rewrite Hw.
Qed.

Lemma run_same_first m t : mc_inv m -> same_first m (spec_run m t).
Proof.
  intros Hm. unfold spec_run. destruct (mc_tasks m !! t) as [tk|] eqn:E; [|done]. destruct (decide _) as [Hw|]; [|done].
  destruct (mi_task _ Hm _ _ E) as (_ & _ & Hk & _). apply insert_same_first; simpl.
  - apply not_queued; [done|]. rewrite E. intros ? [= <-]. by rewrite Hw.
  - unfold mc_min. intros ->. case_match; lia.
  - intros Hc. rewrite (proj2 (Z.eqb_neq _ _)) by done. lia.
Qed.

(** A change that leaves the queue and its keys. *)
Lemma same_queue_first m m' :
  mc_current m' = mc_current m -> mc_queue m' = mc_queue m -> (forall x, x ∈ mc_queue m -> key_of (mc_tasks m') x = key_of (mc_tasks m) x) -> same_first m m'.
Proof.
  intros Hc Hq Hk. assert (mc_min m' = mc_min m) as Hmin.
  { unfold mc_min. rewrite Hq. destruct (mc_queue m) as [|x q]; [done|]. apply Hk. by left. }
  split; [done| |lia]. intros c _ Hh. by rewrite Hq.
Qed.

Lemma act_same_first m a : mc_inv m -> act_ok m a -> same_first m (spec_act m a).
Proof.
  intros Hm Ha. destruct a as [[t|] []|t|t|t p|t|t]; simpl in *; try done; [| |by apply wake_same_first| | |].
  - destruct Ha as (_ & Hn & _). apply same_queue_first; try done. intros x (tk & E & _)%(mi_run _ Hm). simpl. apply key_other. congruence.
  - by apply run_same_first.
  - destruct (mc_tasks m !! t) as [tk|] eqn:E; [|done]. apply same_queue_first; try done. intros x _. by apply (key_put t tk).
  - destruct Ha as (tk & E & _). rewrite E. apply same_queue_first; try done. intros x _. by apply (key_put t tk).
  - destruct Ha as (tk & E & Hr). rewrite E. apply same_queue_first; try done. simpl. intros x Hx. unfold drop_ref. destruct (decide _) as [Hd|_].
    + apply key_drop. apply (mi_run _ Hm) in Hx as (tkx & Ex & Hs). intros ->. rewrite E in Ex. injection Ex as <-. by rewrite Hr in Hs.
    + by apply (key_put t tk).
Qed.

Lemma acts_inv m acts : mc_inv m -> acts_ok m acts -> mc_inv (foldl spec_act m acts) /\ same_first m (foldl spec_act m acts).
Proof.
  revert m. induction acts as [|a acts IH]; intros m Hm; simpl; [done|]. intros [Ha Hacts].
  destruct (IH _ (act_inv m a Hm Ha) Hacts) as [H1 H2]. split; [done|]. etransitivity; [by apply act_same_first|exact H2].
Qed.

Lemma wakes_inv m woken : mc_inv m -> mc_inv (foldl spec_wake m woken) /\ same_first m (foldl spec_wake m woken).
Proof.
  revert m. induction woken as [|t woken IH]; intros m Hm; simpl; [done|].
  destruct (IH _ (wake_inv m t Hm)) as [H1 H2]. split; [done|]. etransitivity; [by apply wake_same_first|exact H2].
Qed.

Lemma wakes_queue m woken x : x ∈ mc_queue m -> x ∈ mc_queue (foldl spec_wake m woken).
Proof.
  revert m. induction woken as [|t woken IH]; intros m Hx; simpl; [done|]. apply IH. unfold spec_wake. repeat case_match; try done.
  unfold spec_insert, enqueue. cbn [mc_queue]. rewrite queue_insert_perm. by right.
Qed.

(** ** Giving the processor up *)

Lemma min_below m b : 0 <= b -> (forall x, x ∈ mc_queue m -> key_of (mc_tasks m) x <= b) -> mc_min m <= b.
Proof. unfold mc_min. intros Hb H. destruct (mc_queue m) as [|x q]; [done|]. apply H. by left. Qed.

Lemma take_min t m : mc_inv m -> mc_min (take_task t m) <= mc_min m + HEV_TASK_PRIORITY_MAX.
Proof.
  intros Hm. pose proof (min_pos _ Hm). apply min_below; [unfold HEV_TASK_PRIORITY_MAX; lia|]. simpl. intros x [Hx Hq]%without_in.
  rewrite key_drop by done. by apply min_first.
Qed.

Lemma put_min t tk m : t ∉ mc_queue m -> mc_min (put_task t tk m) = mc_min m.
Proof. unfold mc_min. simpl. destruct (mc_queue m) as [|x q]; [done|]. intros Ht. apply key_other. set_solver. Qed.

Lemma first_key m c tk : head (mc_queue m) = Some c -> mc_tasks m !! c = Some tk -> mc_min m = tk_key tk.
Proof. unfold mc_min. destruct (mc_queue m) as [|x q]; [done|]. intros [= ->] E. unfold key_of. by rewrite E. Qed.

Lemma current_task m : mc_inv m -> head (mc_queue m) = Some (mc_current m) ->
  exists tk, mc_tasks m !! mc_current m = Some tk /\ tk_state tk = HEV_TASK_RUNNING.
Proof. intros Hm Hh. apply (mi_run _ Hm). destruct (mc_queue m); [done|]. injection Hh as ->. by left. Qed.

Lemma leave_inv type m :
  mc_inv m -> mc_current m <> NULL -> head (mc_queue m) = Some (mc_current m) ->
  mc_inv (spec_leave type m) /\ mc_current (spec_leave type m) = mc_current m /\ mc_min (spec_leave type m) <= mc_min m + HEV_TASK_PRIORITY_MAX.
Proof.
  intros Hm Hc Hh. destruct (current_task m Hm Hh) as (tk & E & Hs). unfold spec_leave. rewrite E. set (t := mc_current m) in *.
  fold (take_task t m). pose proof (take_inv t m Hm) as Ht. pose proof (take_min t m Hm) as Hmin. pose proof (take_room t tk m Hm E) as Hroom.
  destruct (mi_task _ Hm _ _ E) as (Hok & Hp & Hn & Hr & _). pose proof (first_key _ _ _ Hh E) as Hk. pose proof (min_pos _ Hm) as H0.
  assert (mc_tasks (take_task t m) !! t = None) as Hno by apply lookup_delete_eq.
  assert (t ∉ mc_queue (take_task t m)) as Hq by (intros [? _]%without_in; done).
  destruct type; [| |destruct (decide (tk_ref tk = 1)) as [Hr1|Hr1]].
  - split; [|split; [done|]].
    + apply insert_inv; try done. split; [simpl; lia|]. split; [|done]. intros x [Hx Hxq]%without_in. simpl. rewrite key_drop by done.
      pose proof (min_first _ _ Hm Hxq). lia.
    + rewrite insert_min by done. simpl in Hmin |- *. destruct (without t (mc_queue m)); lia.
  - split; [apply add_inv; try done; by split_and!|split; [done|]]. by rewrite put_min.
  - done.
  - split; [apply add_inv; try done; split; [done|]; simpl; split_and!; try tauto; [lia..|done]|split; [done|]]. by rewrite put_min.
Qed.

Lemma poll_inv polls m m' : mc_inv m -> spec_poll polls m = Some m' -> mc_inv m' /\ same_first m m' /\ mc_queue m' <> [].
Proof.
  revert m. induction polls as [|woken polls IH]; intros m Hm; simpl; [done|]. destruct (wakes_inv m woken Hm) as [H1 H2].
  destruct (decide _) as [Hq|Hq]; [|by intros [= <-]]. intros E. destruct (IH _ H1 E) as (? & ? & ?). split_and!; try done. by etransitivity.
Qed.

Lemma pick_inv polls m m' :
  mc_inv m -> ~ (mc_queue m = [] /\ waiting (mc_tasks m) = 0%nat) -> spec_pick polls m = Some m' ->
  mc_inv m' /\ same_first m m' /\ mc_queue m' <> [].
Proof.
  intros Hm Hne. unfold spec_pick. destruct (decide _) as [Hw|Hw]; [intros [= <-]; split_and!; [done|done|tauto]|].
  destruct (decide _) as [Hq|Hq]; [by apply poll_inv|]. intros [= <-]. destruct (wakes_inv m (hd [] polls) Hm). split_and!; [done..|].
  destruct (mc_queue m) as [|x q] eqn:Eq; [done|]. intros Hnil. apply (elem_of_nil x). rewrite <-Hnil. apply wakes_queue. rewrite Eq. by left.
Qed.

Lemma set_current_inv c m : mc_inv m -> c <> NULL -> mc_inv (Machine (mc_tasks m) (mc_queue m) c).
Proof. intros [H1 H2 H3 H4 H5 H6 H7] Hc. by split. Qed.

Lemma no_waiting tasks : waiting tasks = 0%nat -> forall t tk, tasks !! t = Some tk -> tk_state tk <> HEV_TASK_WAITING.
Proof.
  intros Hw%map_size_empty_inv t tk E Hs. eapply (map_filter_empty_not_lookup (fun x : Z * task => tk_state x.2 = HEV_TASK_WAITING)); [exact Hw|exact Hs|exact E].
Qed.

Lemma all_waiting tasks : (forall t tk, tasks !! t = Some tk -> tk_state tk <> HEV_TASK_WAITING) -> waiting tasks = 0%nat.
Proof. intros H. apply map_size_empty_iff, map_empty. intros t. apply map_lookup_filter_None. right. intros tk E Hs. by apply (H t tk). Qed.

(** What a switch leaves. *)
Record switched (m : machine) (r : Z * machine) : Prop := {
  sw_inv : mc_inv r.2;
  sw_min : mc_min r.2 <= Z.max (mc_min m) HEV_TASK_PRIORITY_MAX + HEV_TASK_PRIORITY_MAX;
  sw_next : mc_current r.2 = r.1 -> r.1 = NULL /\ mc_queue r.2 = [] \/ r.1 <> NULL /\ head (mc_queue r.2) = Some r.1
}.

Lemma schedule_inv type polls m : mc_inv m -> ready m -> switched m (spec_schedule type polls m).
Proof.
  intros Hm Hready. unfold spec_schedule. set (m1 := if mc_current m =? NULL then m else spec_leave type m).
  assert (mc_inv m1 /\ mc_current m1 = mc_current m /\ mc_min m1 <= mc_min m + HEV_TASK_PRIORITY_MAX) as (H1 & Hc1 & Hmin1).
  { unfold m1. destruct (Z.eqb_spec (mc_current m) NULL); [split_and!; [done..|unfold HEV_TASK_PRIORITY_MAX; lia]|].
    destruct Hready; [done|]. by apply leave_inv. }
  clearbody m1. destruct (decide _) as [[Hq Hw]|Hne].
  - split; simpl; [|unfold HEV_TASK_PRIORITY_MAX; unfold mc_min; simpl; lia|by left].
    destruct H1 as [? ? ? ? ? ? ?]. rewrite Hq in *. split; simpl; try done. intros _ t tk E. split; [by eapply no_waiting|].
    intros Hs. assert (t ∈ []) as Ht%elem_of_nil; [|done]. apply mi_run. by exists tk.
  - destruct (spec_pick polls m1) as [m2|] eqn:E.
    + destruct (pick_inv _ _ _ H1 Hne E) as (H2 & Hsf & Hq). destruct (mc_queue m2) as [|c q] eqn:Eq; [done|]. simpl.
      assert (c <> NULL) as Hc. { destruct (proj1 (mi_run _ H2 c)) as (tk & Et & _); [rewrite Eq; by left|]. by destruct (mi_task _ H2 _ _ Et) as ([] & _); unfold NULL; lia. }
      rewrite <-Eq. split; simpl; [by apply set_current_inv| |right; split; [done|by rewrite Eq]].
      pose proof (sf_min _ _ Hsf). change (mc_min (Machine (mc_tasks m2) (mc_queue m2) c)) with (mc_min m2). unfold HEV_TASK_PRIORITY_MAX in *. lia.
    + split; simpl; [done|lia|]. rewrite Hc1. intros Hc. exfalso. unfold spec_pick in E.
      rewrite decide_True in E; [done|]. apply all_waiting. intros t tk Et. apply (mi_start _ H1 ltac:(by rewrite Hc1) t tk Et).
Qed.

Lemma turn_inv m u : mc_inv m -> ready m -> turn_ok m u -> switched m (spec_turn m u).
Proof.
  intros Hm Hr (Ha & _ & _). destruct (acts_inv m _ Hm Ha) as [H1 Hsf]. unfold spec_turn.
  pose proof (same_first_ready _ _ Hsf Hr) as Hr1.
  destruct (schedule_inv (tu_type u) (tu_polls u) _ H1 Hr1) as [Hi Hmin Hn]. split; [done| |done]. pose proof (sf_min _ _ Hsf). lia.
Qed.

Lemma switched_ready m r : switched m r -> mc_current r.2 = r.1 -> ready r.2.
Proof. intros [_ _ Hn] Hc. unfold ready. rewrite Hc. destruct (Hn Hc) as [[-> _]|[_ ->]]; auto. Qed.

(** A task that yields is followed by one. *)
Lemma yield_runs polls m :
  mc_inv m -> mc_current m <> NULL -> head (mc_queue m) = Some (mc_current m) ->
  let r := spec_schedule HEV_TASK_YIELD polls m in mc_current r.2 = r.1 /\ r.1 <> NULL /\ head (mc_queue r.2) = Some r.1.
Proof.
  intros Hm Hc Hh. pose proof (schedule_inv HEV_TASK_YIELD polls m Hm (or_intror Hh)) as Hsw. revert Hsw. unfold spec_schedule.
  rewrite (proj2 (Z.eqb_neq _ _)) by done. destruct (current_task m Hm Hh) as (tk & E & _).
  assert (mc_current m ∈ mc_queue (spec_leave HEV_TASK_YIELD m)) as Hin.
  { unfold spec_leave. rewrite E. unfold spec_insert, enqueue. simpl. rewrite queue_insert_perm. by left. }
  set (m1 := spec_leave HEV_TASK_YIELD m) in *. assert (mc_queue m1 <> []) as Hq by (intros Hnil; rewrite Hnil in Hin; by apply elem_of_nil in Hin).
  rewrite decide_False by tauto. assert (exists m2, spec_pick polls m1 = Some m2 /\ mc_current m ∈ mc_queue m2) as (m2 & -> & Hin2).
  { unfold spec_pick. destruct (decide _); [by exists m1|]. rewrite decide_False by done. eexists. split; [reflexivity|]. by apply wakes_queue. }
  intros [_ _ Hn]. split; [done|]. destruct (Hn eq_refl) as [[_ Hnil]|[H1 H2]]; [|done]. simpl in Hnil. rewrite Hnil in Hin2. by apply elem_of_nil in Hin2.
Qed.

(** ** Tasks that are alive *)

Lemma put_alive tasks t tk q c x : tk_state tk <> HEV_TASK_STOPPED \/ t <> x -> (t <> x -> alive (Machine tasks q c) x) -> alive (Machine (<[t := tk]> tasks) q c) x.
Proof.
  unfold alive. simpl. intros H Hx. destruct (decide (t = x)) as [->|Hne]; [rewrite lookup_insert_eq; exists tk; naive_solver|].
  rewrite lookup_insert_ne by done. auto.
Qed.

Lemma wake_alive m t x : alive m x -> alive (spec_wake m t) x.
Proof. intros Hx. unfold spec_wake. repeat case_match; try done. apply put_alive; [by left|done]. Qed.

Lemma wakes_alive m woken x : alive m x -> alive (foldl spec_wake m woken) x.
Proof. revert m. induction woken as [|t woken IH]; intros m H; simpl; [done|]. by apply IH, wake_alive. Qed.

Lemma act_alive m a x : act_ok m a -> alive m x -> alive (spec_act m a) x.
Proof.
  intros Ha Hx. destruct a as [[t|] []|t|t|t p|t|t]; simpl in *; try done; [| |by apply wake_alive| | |].
  - destruct Ha as (_ & Hn & _). apply put_alive; [right|done]. intros ->. destruct Hx as (tk & E & _). by rewrite Hn in E.
  - unfold spec_run. destruct (mc_tasks m !! t); [|done]. destruct (decide _); [|done]. apply put_alive; [by left|done].
  - destruct (mc_tasks m !! t) as [tk|] eqn:E; [|done]. apply put_alive; [|done]. destruct (decide (t = x)) as [->|]; [left|by right].
    destruct Hx as (tk' & E' & Hs). rewrite E in E'. by injection E' as <-.
  - destruct (mc_tasks m !! t) as [tk|] eqn:E; [|done]. apply put_alive; [|done]. destruct (decide (t = x)) as [->|]; [left|by right].
    destruct Hx as (tk' & E' & Hs). rewrite E in E'. by injection E' as <-.
  - destruct Ha as (tk & E & Hr). rewrite E. unfold drop_ref. destruct (decide (t = x)) as [->|Hne].
    + destruct Hx as (tk' & E' & Hs). rewrite E in E'. injection E' as <-. rewrite decide_False by auto. apply put_alive; [by left|done].
    + destruct (decide _); [|apply put_alive; [by right|done]]. destruct Hx as (tk' & E' & Hs). exists tk'. simpl. by rewrite lookup_delete_ne.
Qed.

Lemma acts_alive m acts x : acts_ok m acts -> alive m x -> alive (foldl spec_act m acts) x.
Proof. revert m. induction acts as [|a acts IH]; intros m; simpl; [done|]. intros [Ha Hacts] Hx. apply IH; [done|by apply act_alive]. Qed.

Lemma leave_alive type m x : alive m x -> x <> mc_current m \/ type <> HEV_TASK_YIELD_COUNT -> alive (spec_leave type m) x.
Proof.
  intros Hx Hor. unfold spec_leave. destruct (mc_tasks m !! mc_current m) as [tk|] eqn:E; [|done].
  assert (mc_current m <> x -> alive (take_task (mc_current m) m) x) as Htake.
  { intros Hne. destruct Hx as (tk' & E' & Hs). exists tk'. simpl. by rewrite lookup_delete_ne. }
  destruct type; [apply put_alive; [by left|done]..|]. destruct Hor as [Hne|]; [|done]. destruct (decide _); [auto|]. apply put_alive; auto.
Qed.

Lemma poll_alive polls m m' x : spec_poll polls m = Some m' -> alive m x -> alive m' x.
Proof.
  revert m. induction polls as [|woken polls IH]; intros m; simpl; [done|]. destruct (decide _); [|intros [= <-]; by apply wakes_alive].
  intros E Hx. by apply (IH _ E), wakes_alive.
Qed.

Lemma schedule_alive type polls m x :
  alive m x -> x <> mc_current m \/ type <> HEV_TASK_YIELD_COUNT -> alive (spec_schedule type polls m).2 x.
Proof.
  intros Hx Hor. unfold spec_schedule. set (m1 := if mc_current m =? NULL then m else spec_leave type m).
  assert (alive m1 x) as H1 by (unfold m1; destruct (_ =? _); [done|by apply leave_alive]). destruct (decide _); [done|].
  destruct (spec_pick polls m1) as [m2|] eqn:E; [|done]. assert (alive m2 x) as H2; [|done]. revert E. unfold spec_pick.
  destruct (decide _); [by intros [= <-]|]. destruct (decide _); [intros E; by eapply poll_alive|]. intros [= <-]. by apply wakes_alive.
Qed.
