(* ===== verification/SchedRep.v ===== *)
(** * The scheduler implements the machine

    [sc_rep s m]: the tree of running tasks holds the queue, the list of all tasks the
    addresses there are, and the counters count.  Each operation of [Sched] does on [s]
    what the one of [SchedSpec] does on [m], and does not fault. *)

From stdpp Require Import sorting.
From S2P Require Import Prelude RBTree RBModel RBRep RBSpec HevList CachedTree Sched SchedSpec SchedInv.

(** ** Counting *)

Definition is_waiting (tk : task) : nat := if decide (tk_state tk = HEV_TASK_WAITING) then 1%nat else 0%nat.

Lemma waiting_new t tk tasks : tasks !! t = None -> waiting (<[t := tk]> tasks) = (is_waiting tk + waiting tasks)%nat.
Proof.
  intros Ht. unfold waiting, is_waiting. destruct (decide _) as [Hd|Hd].
  - rewrite map_filter_insert_True by done. rewrite map_size_insert_None; [done|]. apply map_lookup_filter_None. by left.
  - rewrite map_filter_insert_not' by (try done; intros y; by rewrite Ht). done.
Qed.

Lemma waiting_take t tk tasks : tasks !! t = Some tk -> waiting tasks = (is_waiting tk + waiting (delete t tasks))%nat.
Proof. intros E. rewrite <-(waiting_new t) by apply lookup_delete_eq. by rewrite insert_delete_id. Qed.

Lemma waiting_put t tk tk' tasks : tasks !! t = Some tk' -> (waiting (<[t := tk]> tasks) + is_waiting tk' = is_waiting tk + waiting tasks)%nat.
Proof.
  intros E. rewrite (waiting_take t tk' tasks E), <-(insert_delete_eq tasks t tk), waiting_new by apply lookup_delete_eq. lia.
Qed.

Lemma queue_waiting m : mc_inv m -> (length (mc_queue m) + waiting (mc_tasks m) <= size (mc_tasks m))%nat.
Proof.
  intros Hm. set (W := dom (filter (fun x : Z * task => tk_state x.2 = HEV_TASK_WAITING) (mc_tasks m))).
  assert (forall x, x ∈ W -> exists tk, mc_tasks m !! x = Some tk /\ tk_state tk = HEV_TASK_WAITING) as HW.
  { intros x [tk [E Hs]%map_lookup_filter_Some]%elem_of_dom. by exists tk. }
  unfold waiting. rewrite <-!size_dom. fold W. change (size W) with (length (elements W)). rewrite <-length_app.
  change (size (dom (mc_tasks m))) with (length (elements (dom (mc_tasks m)))). apply submseteq_length, NoDup_submseteq.
  - apply NoDup_app. split_and!; [apply (mi_nodup _ Hm)| |apply NoDup_elements]. intros x (tk & E & Hs)%(mi_run _ Hm) (tk' & E' & Hs')%elem_of_elements%HW.
    congruence.
  - intros x [(tk & E & _)%(mi_run _ Hm)|(tk & E & _)%elem_of_elements%HW]%elem_of_app; apply elem_of_elements, elem_of_dom; by exists tk.
Qed.

(** ** Representation *)

(** All but the count of tasks that have not ended. *)
Record sc_rep0 (s : sched) (m : machine) : Prop := {
  sr_queue : cached_rep (sc_tree s) (mc_queue m);
  sr_tasks : sc_tasks s = mc_tasks m;
  sr_current : sc_current s = mc_current m;
  sr_running : sc_running s = Z.of_nat (length (mc_queue m));
  sr_nodes : forall t, is_Some (mc_tasks m !! t) -> is_Some (rb_nodes (ct_tree (sc_tree s)) !! t);
  sr_all : exists ts, list_rep (sc_all s) ts /\ forall t, t ∈ ts <-> is_Some (mc_tasks m !! t)
}.

Definition unfinished (m : machine) : Z := Z.of_nat (length (mc_queue m)) + Z.of_nat (waiting (mc_tasks m)).

Definition sc_rep (s : sched) (m : machine) : Prop := sc_rep0 s m /\ sc_total s = unfinished m.

Lemma unfinished_range m : mc_inv m -> 0 <= Z.of_nat (length (mc_queue m)) <= unfinished m /\ unfinished m < 4294967296.
Proof. intros Hm. pose proof (queue_waiting m Hm). pose proof (mi_count _ Hm). unfold unfinished. lia. Qed.

Lemma u32_id x : 0 <= x < 4294967296 -> u32 x = x.
Proof. apply Z.mod_small. Qed.

Lemma u64_id x : 0 <= x < 18446744073709551616 -> u64 x = x.
Proof. apply Z.mod_small. Qed.

Lemma put_dom {t} {tk tk0 : task} {tasks : gmap Z task} x : tasks !! t = Some tk0 -> is_Some (<[t := tk]> tasks !! x) <-> is_Some (tasks !! x).
Proof. intros E. rewrite lookup_insert_is_Some'. split; [intros [<-|?]; [by exists tk0|done]|by right]. Qed.

(** ** Steps *)

Lemma load_task_ok s t tk : sc_tasks s !! t = Some tk -> load_task t s = Some (tk, s).
Proof. intros E. unfold load_task, bind, gets, lift_opt. by rewrite E. Qed.

Lemma store_task_ok s t tk tk' : sc_tasks s !! t = Some tk' -> store_task t tk s = Some (tt, up_stasks (<[t := tk]> (sc_tasks s)) s).
Proof. intros E. unfold store_task. by rewrite (bind_Some _ _ _ _ _ (load_task_ok s t tk' E)). Qed.

Lemma on_running_ok {A} (c : CT A) s a c' : c (sc_tree s) = Some (a, c') -> on_running c s = Some (a, up_sctree c' s).
Proof. intros E. unfold on_running, zoom. by rewrite E. Qed.

Lemma on_all_ok {A} (c : LM A) s a l' : c (sc_all s) = Some (a, l') -> on_all c s = Some (a, up_all l' s).
Proof. intros E. unfold on_all, zoom. by rewrite E. Qed.

Lemma min_key_ok s q c :
  cached_rep (sc_tree s) q -> (forall x, x ∈ q -> okp x /\ is_Some (sc_tasks s !! x)) ->
  hev_task_system_get_min_sched_key s = Some (mc_min (Machine (sc_tasks s) q c), s).
Proof.
  intros Hq Hx. unfold hev_task_system_get_min_sched_key. erewrite bind_Some by (apply on_running_ok, (cached_first _ _ Hq)).
  replace (up_sctree (sc_tree s) s) with s by (by destruct s). unfold edge, mc_min. destruct q as [|x q]; [done|]. simpl.
  destruct (Hx x) as [Hok [tk E]]; [by left|]. rewrite okp_eqb by done. simpl. erewrite bind_Some by (by apply load_task_ok).
  unfold key_of. by rewrite E.
Qed.

(** The comparison of keys is the one of the sorted list. *)
Lemma sched_less_mono tasks t tk q :
  tasks !! t = Some tk -> (forall x, x ∈ q -> is_Some (tasks !! x)) -> StronglySorted (fun a b => key_of tasks a <= key_of tasks b) q ->
  less_mono (fun cur => this ← tasks !! cur; Some (tk_key tk <? tk_key this)) (fun x => key_of tasks t <? key_of tasks x) q.
Proof.
  intros E Hx Hs. split.
  - apply Forall_forall. intros x Hq. destruct (Hx x Hq) as [tkx Ex]. unfold key_of. by rewrite E, Ex.
  - eapply sorted_weaken; [|exact Hs]. simpl. intros a b Hab Ha%Z.ltb_lt. apply Z.ltb_lt. lia.
Qed.

Lemma insert_tree_ok s t tk q :
  sc_tasks s !! t = Some tk -> cached_rep (sc_tree s) q -> (forall x, x ∈ q -> is_Some (sc_tasks s !! x)) ->
  StronglySorted (fun a b => key_of (sc_tasks s) a <= key_of (sc_tasks s) b) q -> okp t -> t ∉ q -> is_Some (rb_nodes (ct_tree (sc_tree s)) !! t) ->
  exists c', _hev_task_system_insert_task t s = Some (tt, up_sctree c' s) /\ cached_rep c' (enqueue (sc_tasks s) t q) /\ nodes_kept (sc_tree s) c'.
Proof.
  intros E Hq Hx Hs Hok Hni Hnd. destruct (cached_insert_ok _ _ _ _ t Hq (sched_less_mono _ t tk q E Hx Hs) Hok Hni Hnd) as (c' & Ec & Hr & Hk).
  exists c'. split; [|done]. unfold _hev_task_system_insert_task. erewrite bind_Some by (by apply load_task_ok).
  erewrite bind_Some by reflexivity. by erewrite bind_Some by (apply on_running_ok; exact Ec).
Qed.

(** ** A task that comes in *)

Lemma rep_queue_tasks s m x : mc_inv m -> sc_rep0 s m -> x ∈ mc_queue m -> okp x /\ is_Some (sc_tasks s !! x).
Proof.
  intros Hm Hs (tk & E & _)%(mi_run _ Hm). rewrite (sr_tasks _ _ Hs). split; [|by exists tk]. by destruct (mi_task _ Hm _ _ E).
Qed.

Lemma min_key_rep s m : mc_inv m -> sc_rep0 s m -> hev_task_system_get_min_sched_key s = Some (mc_min m, s).
Proof.
  intros Hm Hs. rewrite (min_key_ok s (mc_queue m) (mc_current m)); [rewrite (sr_tasks _ _ Hs); by destruct m|apply Hs|].
  intros x. by apply (rep_queue_tasks s m).
Qed.

Lemma insert_task_ok s m t tk tk0 :
  mc_inv m -> sc_rep0 s m -> Z.of_nat (length (mc_queue m)) + 1 < 4294967296 -> mc_tasks m !! t = Some tk0 -> tk_state tk0 <> HEV_TASK_RUNNING ->
  exists s', hev_task_system_insert_task t (up_stasks (<[t := tk]> (sc_tasks s)) s) = Some (tt, s') /\
    sc_total s' = sc_total s /\ sc_rep0 s' (spec_insert t tk m).
Proof.
  intros Hm Hs Hlen E Hst. assert (t ∉ mc_queue m) as Hni by (apply not_queued; [done|rewrite E; by intros ? [= <-]]).
  set (tk' := set_prio (tk_next tk) (set_state HEV_TASK_RUNNING tk)). set (tasks := <[t := tk']> (mc_tasks m)).
  set (s1 := up_stasks tasks s).
  destruct (insert_tree_ok s1 t tk' (mc_queue m)) as (c' & Ec & Hr & Hk).
  - apply lookup_insert_eq.
  - apply Hs.
  - intros x Hx. destruct (rep_queue_tasks s m x Hm Hs Hx) as [_ Hx']. rewrite (sr_tasks _ _ Hs) in Hx'. simpl. unfold tasks.
    by apply (put_dom x E).
  - eapply sorted_keys; [|apply (mi_sorted _ Hm)]. intros x Hx. apply key_other. by intros ->.
  - by destruct (mi_task _ Hm _ _ E).
  - done.
  - apply (sr_nodes _ _ Hs). by exists tk0.
  - eexists. split; [|split; [|split]].
    + unfold hev_task_system_insert_task. erewrite bind_Some by (apply load_task_ok, lookup_insert_eq).
      erewrite bind_Some by (eapply store_task_ok, lookup_insert_eq). cbn [sc_tasks up_stasks]. rewrite insert_insert_eq, (sr_tasks _ _ Hs).
      change (up_stasks _ (up_stasks _ s)) with s1. erewrite bind_Some by exact Ec. reflexivity.
    + done.
    + exact Hr.
    + done.
    + apply (sr_current _ _ Hs).
    + unfold spec_insert, enqueue. cbn. rewrite queue_insert_perm, (sr_running _ _ Hs), u32_id by lia. simpl. lia.
    + intros x Hx. apply Hk, (sr_nodes _ _ Hs). revert Hx. simpl. by rewrite (put_dom x E).
    + destruct (sr_all _ _ Hs) as (ts & Hl & Hts). exists ts. split; [done|]. intros x. rewrite Hts. simpl. by rewrite (put_dom x E).
Qed.

Lemma put_unfinished t tk tk0 m :
  mc_tasks m !! t = Some tk0 ->
  Z.of_nat (length (mc_queue (spec_insert t tk m))) + Z.of_nat (waiting (mc_tasks (spec_insert t tk m))) + Z.of_nat (is_waiting tk0) =
  Z.of_nat (length (mc_queue m)) + 1 + Z.of_nat (waiting (mc_tasks m)).
Proof.
  intros E. unfold spec_insert, enqueue. cbn [mc_queue mc_tasks]. rewrite queue_insert_perm.
  pose proof (waiting_put t (set_prio (tk_next tk) (set_state HEV_TASK_RUNNING tk)) tk0 (mc_tasks m) E) as Hw.
  unfold is_waiting at 2 in Hw. rewrite decide_False in Hw by done. simpl. lia.
Qed.

Lemma idle_room m t tk : mc_inv m -> mc_tasks m !! t = Some tk -> tk_state tk <> HEV_TASK_RUNNING -> Z.of_nat (length (mc_queue m)) + 1 < 4294967296.
Proof.
  intros Hm E Hs. pose proof (queue_waiting _ (take_inv t m Hm)) as H1. pose proof (take_room t tk m Hm E) as H2. simpl in *.
  rewrite without_notin in H1; [lia|]. apply not_queued; [done|rewrite E; by intros ? [= <-]].
Qed.

(** No key overflows. *)
Definition keys_fit (m : machine) : Prop := mc_min m + HEV_TASK_PRIORITY_MAX < 18446744073709551616.

Lemma keys_fit_first m m' : same_first m m' -> keys_fit m -> keys_fit m'.
Proof. intros [_ _ H]. unfold keys_fit, HEV_TASK_PRIORITY_MAX in *. lia. Qed.

Lemma wakeup_ok s m t :
  mc_inv m -> keys_fit m -> sc_rep s m -> alive m t ->
  exists s', hev_task_system_wakeup_task_with_context t s = Some (tt, s') /\ sc_rep s' (spec_wake m t).
Proof.
  intros Hm Hfit [Hs Htot] (tk & E & Hst). unfold hev_task_system_wakeup_task_with_context, spec_wake. rewrite E.
  pose proof E as E'. rewrite <-(sr_tasks _ _ Hs) in E'. erewrite bind_Some by (by apply load_task_ok).
  destruct (mi_task _ Hm _ _ E) as (_ & _ & _ & _ & Hk). pose proof (min_pos _ Hm). unfold keys_fit, HEV_TASK_PRIORITY_MAX in *.
  destruct (tk_state tk) eqn:Est; [done|by exists s|]. rewrite decide_True by done. specialize (Hk eq_refl).
  erewrite bind_Some by (by apply min_key_rep).
  rewrite u64_id by lia. erewrite bind_Some by (by eapply store_task_ok).
  destruct (insert_task_ok s m t (set_key (tk_key tk + mc_min m) tk) tk) as (s' & Ei & Ht & Hs'); try done; [by eapply idle_room; [done..|rewrite Est]|by rewrite Est|].
  exists s'. split; [exact Ei|]. split; [done|]. rewrite Ht, Htot. unfold unfinished.
  pose proof (put_unfinished t (set_key (tk_key tk + mc_min m) tk) tk m E) as Hp. unfold is_waiting in Hp. rewrite decide_True in Hp by done. lia.
Qed.

Lemma run_ok s m t :
  mc_inv m -> keys_fit m -> sc_rep s m -> is_Some (mc_tasks m !! t) -> exists s', hev_task_run t s = Some (tt, s') /\ sc_rep s' (spec_run m t).
Proof.
  intros Hm Hfit [Hs Htot] [tk E]. unfold hev_task_run, spec_run. rewrite E.
  pose proof E as E'. rewrite <-(sr_tasks _ _ Hs) in E'. erewrite bind_Some by (by apply load_task_ok).
  destruct (mi_task _ Hm _ _ E) as (_ & _ & Hk & _). pose proof (min_pos _ Hm). unfold keys_fit, HEV_TASK_PRIORITY_MAX in *.
  destruct (decide (tk_state tk = HEV_TASK_STOPPED)) as [Hst|Hst]; [rewrite bool_decide_false by tauto|rewrite bool_decide_true by done; by exists s].
  erewrite bind_Some by (by eapply store_task_ok). set (tk1 := set_key (tk_next tk) (set_prio (tk_next tk) tk)).
  assert (t ∉ mc_queue m) as Hni by (apply not_queued; [done|rewrite E; intros ? [= <-]; by rewrite Hst]).
  set (tk2 := set_key (tk_next tk + (if mc_current m =? NULL then 0 else mc_min m)) tk1).
  destruct (insert_task_ok s m t tk2 tk) as (s' & Ei & Ht & Hs'); try done; [by eapply idle_room; [done..|rewrite Hst]|by rewrite Hst|].
  pose proof (put_unfinished t tk2 tk m E) as Hp. unfold is_waiting in Hp. rewrite decide_False in Hp by (by rewrite Hst).
  exists (up_total (u32 (sc_total s' + 1)) s'). split.
  - unfold hev_task_system_run_new_task. erewrite bind_Some by reflexivity. cbn [sc_current up_stasks]. rewrite (sr_current _ _ Hs).
    assert (forall (c : SC unit) a, c (up_stasks (<[t := tk1]> (sc_tasks s)) s) = Some (a, up_stasks (<[t := tk2]> (sc_tasks s)) s) ->
      (c;; hev_task_system_insert_task t;; modify (fun s => up_total (u32 (sc_total s + 1)) s)) (up_stasks (<[t := tk1]> (sc_tasks s)) s) =
      Some (tt, up_total (u32 (sc_total s' + 1)) s')) as Hend.
    { intros c a Ec. erewrite bind_Some by exact Ec. erewrite bind_Some by exact Ei. done. }
    destruct (Z.eqb_spec (mc_current m) NULL) as [Hc|Hc]; cbn [negb]; eapply Hend.
    + unfold ret, tk2. by rewrite Z.add_0_r.
    + erewrite bind_Some.
      2: { eapply (min_key_ok _ (mc_queue m) (mc_current m)); [apply Hs|]. intros x Hx. destruct (rep_queue_tasks s m x Hm Hs Hx). split; [done|].
           by apply (put_dom x E'). }
      erewrite bind_Some by (apply load_task_ok, lookup_insert_eq). cbn [sc_tasks up_stasks]. rewrite (sr_tasks _ _ Hs).
      change (Machine (<[t:=tk1]> (mc_tasks m)) (mc_queue m) (mc_current m)) with (put_task t tk1 m). rewrite put_min by done.
      rewrite u64_id by (simpl; lia). erewrite store_task_ok by apply lookup_insert_eq. cbn [sc_tasks up_stasks]. by rewrite insert_insert_eq.
  - assert (spec_insert t tk2 m = spec_insert t (set_key (tk_next tk + (if mc_current m =? NULL then 0 else mc_min m)) tk) m) as Heq by done.
    rewrite <-Heq. split; [destruct Hs'; by split|]. simpl. rewrite Ht, Htot. pose proof (unfinished_range _ (run_inv m t Hm)) as Hr.
    unfold spec_run in Hr. rewrite E, decide_True, <-Heq in Hr by done. rewrite u32_id; unfold unfinished in *; lia.
Qed.

(** ** What a task does in its turn *)

Lemma put_rep s m t tk tk0 :
  mc_tasks m !! t = Some tk0 -> tk_state tk = tk_state tk0 -> sc_rep s m -> sc_rep (up_stasks (<[t := tk]> (sc_tasks s)) s) (put_task t tk m).
Proof.
  intros E Hst [[Hq Ht Hc Hr Hn (ts & Hl & Hts)] Htot]. split; [split; simpl; try done|].
  - by rewrite Ht.
  - intros x. rewrite (put_dom x E). apply Hn.
  - exists ts. split; [done|]. intros x. by rewrite (put_dom x E).
  - simpl. rewrite Htot. unfold unfinished. simpl. pose proof (waiting_put t tk tk0 _ E) as Hw.
    assert (is_waiting tk = is_waiting tk0) by (unfold is_waiting; by rewrite Hst). lia.
Qed.

Lemma new_rep s m t :
  sc_rep s m -> mc_inv m -> okp t -> mc_tasks m !! t = None ->
  exists s', hev_task_new (Some t) true s = Some (t, s') /\ sc_rep s' (spec_act m (ANew (Some t) true)).
Proof.
  intros [[[Hq Hl] Ht Hc Hr Hn (ts & Hts & Hin)] Htot] Hm Hok Hnone.
  assert (t ∉ mc_queue m) as Hni by (apply not_queued; [done|by rewrite Hnone]).
  assert (t ∉ ts) as Hnts by (rewrite Hin, Hnone; by intros [? [=]]).
  destruct (list_add_tail (LMem (l_head (sc_all s)) (l_tail (sc_all s)) (<[t := LNode NULL NULL]> (l_nodes (sc_all s)))) ts t) as (l' & El & Hl' & _).
  - eapply list_rep_frame; [exact Hts|done..|]. intros y Hy. simpl. apply lookup_insert_ne. by intros ->.
  - destruct Hok. unfold NULL. lia.
  - done.
  - simpl. rewrite lookup_insert_eq. by eexists.
  - eexists. split.
    + unfold hev_task_new. do 3 (erewrite bind_Some by reflexivity). erewrite bind_Some by (apply on_all_ok; exact El). reflexivity.
    + split; [split; simpl; try done|].
      * split; [|done]. simpl. eapply rb_tree_frame; [exact Hq|done|]. intros y Hy. simpl. apply lookup_insert_ne. by intros ->.
      * by rewrite Ht.
      * intros x. simpl. rewrite !lookup_insert_is_Some'. intros [->|Hx]; [by left|right; auto].
      * exists (ts ++ [t]). split; [done|]. intros x. rewrite elem_of_app, list_elem_of_singleton, Hin, lookup_insert_is_Some'. naive_solver.
      * simpl. rewrite Htot. unfold unfinished. simpl. rewrite waiting_new by done. done.
Qed.

Lemma unref_ok s m t tk :
  sc_rep s m -> mc_tasks m !! t = Some tk -> (tk_ref tk = 1 -> tk_state tk = HEV_TASK_STOPPED) -> 1 <= tk_ref tk ->
  exists s', hev_task_unref t s = Some (tt, s') /\ sc_rep s' (Machine (drop_ref t tk (mc_tasks m)) (mc_queue m) (mc_current m)).
Proof.
  intros Hrep E Hst Hr1. pose proof Hrep as [[Hq Ht Hc Hr Hn (ts & Hl & Hts)] Htot]. pose proof E as E'. rewrite <-Ht in E'.
  unfold hev_task_unref, drop_ref. erewrite bind_Some by (by apply load_task_ok). erewrite bind_Some by (by eapply store_task_ok).
  destruct (decide (tk_ref tk = 1)) as [H1|H1].
  - rewrite H1. simpl. destruct (list_elem_of_split ts t) as (ts1 & ts2 & ->); [apply Hts; by eexists|].
    destruct (list_del _ _ _ _ Hl) as (l' & El & Hl' & _). assert (NoDup (ts1 ++ t :: ts2)) as Hnd by apply Hl.
    erewrite bind_Some by (apply on_all_ok; exact El). eexists. split; [reflexivity|].
    split; [split; simpl; try done|].
    + rewrite Ht. apply delete_insert_eq.
    + intros x [Hx Hx2]%lookup_delete_is_Some. by apply Hn.
    + exists (ts1 ++ ts2). split; [done|]. intros x. rewrite lookup_delete_is_Some, <-Hts. apply NoDup_app in Hnd as (_ & Hd & [Hd2 _]%NoDup_cons).
      rewrite !elem_of_app, elem_of_cons. split; [|naive_solver]. intros Hx. split; [|tauto]. intros <-. destruct Hx as [Hx|Hx]; [|done].
      apply (Hd t Hx). by left.
    + simpl. rewrite Htot. unfold unfinished. simpl. rewrite (waiting_take t tk) by done. unfold is_waiting. by rewrite decide_False by (by rewrite Hst).
  - rewrite (proj2 (Z.eqb_neq _ _)) by lia. simpl. eexists. split; [reflexivity|]. by apply (put_rep s m t _ tk).
Qed.

Lemma act_ok_rep s m a :
  mc_inv m -> keys_fit m -> sc_rep s m -> act_ok m a -> exists s', run_act a s = Some (tt, s') /\ sc_rep s' (spec_act m a).
Proof.
  intros Hm Hfit Hs Ha. pose proof Hs as [Hs0 _]. pose proof (sr_tasks _ _ Hs0) as Ht. destruct a as [[t|] []|t|t|t p|t|t]; simpl in Ha |- *; try by exists s.
  - destruct Ha as (Hok & Hn & _). destruct (new_rep s m t) as (s' & E & Hs'); try done. exists s'. split; [by erewrite bind_Some by exact E|done].
  - by apply run_ok.
  - by apply wakeup_ok.
  - destruct Ha as [tk E]. rewrite E. rewrite <-Ht in E. unfold hev_task_set_priority. erewrite bind_Some by (by apply load_task_ok).
    erewrite store_task_ok by done. eexists. split; [reflexivity|]. rewrite Ht in E.
    replace (clamp p) with (if p <? HEV_TASK_PRIORITY_MIN then HEV_TASK_PRIORITY_MIN else if HEV_TASK_PRIORITY_MAX <? p then HEV_TASK_PRIORITY_MAX else p).
    2: { unfold clamp, HEV_TASK_PRIORITY_MIN, HEV_TASK_PRIORITY_MAX. destruct (Z.ltb_spec p 0); [lia|]. destruct (Z.ltb_spec 15 p); lia. }
    by apply (put_rep s m t _ tk).
  - destruct Ha as (tk & E & Hr). rewrite E. pose proof E as E'. rewrite <-Ht in E'. unfold hev_task_ref. rewrite bind_assoc. erewrite bind_Some by (by apply load_task_ok).
    rewrite (proj2 (Z.leb_gt _ _)) by done. rewrite bind_assoc. erewrite bind_Some by (by eapply store_task_ok). eexists. split; [reflexivity|].
    by apply (put_rep s m t _ tk).
  - destruct Ha as (tk & E & Hr). rewrite E. apply unref_ok; try done. by destruct (mi_task _ Hm _ _ E) as (_ & _ & _ & [? _] & _).
Qed.

Lemma acts_ok_rep s m acts :
  mc_inv m -> keys_fit m -> sc_rep s m -> acts_ok m acts -> exists s', run_acts acts s = Some (tt, s') /\ sc_rep s' (foldl spec_act m acts).
Proof.
  revert s m. induction acts as [|a acts IH]; intros s m Hm Hfit Hs; simpl; [by exists s|]. intros [Ha Hacts].
  destruct (act_ok_rep s m a) as (s1 & E & Hs1); try done.
  destruct (IH s1 (spec_act m a)) as (s' & E' & Hs'); try done; [by apply act_inv|eapply keys_fit_first; [by apply act_same_first|done]|].
  exists s'. split; [by erewrite bind_Some by exact E|done].
Qed.

(** ** Switching *)

Lemma erase_current_ok s m t :
  sc_rep0 s m -> head (mc_queue m) = Some t -> NoDup (mc_queue m) ->
  exists c', hev_rbtree_cached_erase t (sc_tree s) = Some (tt, c') /\ cached_rep c' (without t (mc_queue m)) /\ nodes_kept (sc_tree s) c' /\
    S (length (without t (mc_queue m))) = length (mc_queue m).
Proof.
  intros Hs Hh Hnd. pose proof (sr_queue _ _ Hs) as Hq. destruct (mc_queue m) as [|x q]; [done|]. injection Hh as ->.
  apply NoDup_cons in Hnd as [Hx _]. assert (without t (t :: q) = q) as ->.
  { unfold without. rewrite filter_cons_False by (by intros []). by apply without_notin. }
  destruct (cached_erase_ok _ [] t q Hq) as (c' & E & Hr & Hk). by exists c'.
Qed.

(** The current task is out of the tree. *)
Lemma left_rep s m t tk tk0 c' :
  mc_inv m -> sc_rep s m -> mc_tasks m !! t = Some tk0 -> tk_state tk0 = HEV_TASK_RUNNING ->
  cached_rep c' (without t (mc_queue m)) -> nodes_kept (sc_tree s) c' -> S (length (without t (mc_queue m))) = length (mc_queue m) ->
  sc_rep (Sched c' (sc_total s - 1 + Z.of_nat (is_waiting tk)) (u32 (sc_running s - 1)) (sc_current s) (sc_all s) (<[t := tk]> (sc_tasks s)))
    (put_task t tk (take_task t m)).
Proof.
  intros Hm [[Hq Ht Hc Hr Hn (ts & Hl & Hts)] Htot] E Hst Hq' Hk Hlen. pose proof (unfinished_range m Hm) as Hrange.
  rewrite put_take. split; [split; simpl; try done|].
  - by rewrite Ht.
  - rewrite Hr, u32_id by lia. lia.
  - intros x. rewrite (put_dom x E). intros Hx. by apply Hk, Hn.
  - exists ts. split; [done|]. intros x. by rewrite (put_dom x E).
  - simpl. rewrite Htot. unfold unfinished. simpl. pose proof (waiting_put t tk tk0 (mc_tasks m) E) as Hw.
    assert (is_waiting tk0 = 0%nat) as H0 by (unfold is_waiting; by rewrite decide_False by (by rewrite Hst)). lia.
Qed.

Lemma update_key_ok s m tk :
  mc_inv m -> keys_fit m -> sc_rep0 s m -> head (mc_queue m) = Some (mc_current m) -> mc_tasks m !! mc_current m = Some tk ->
  hev_task_system_update_sched_key s = Some (tt, up_stasks (<[mc_current m := set_key (tk_key tk + tk_prio tk) tk]> (sc_tasks s)) s).
Proof.
  intros Hm Hfit Hs Hh E. destruct (mi_task _ Hm _ _ E) as (_ & Hp & _). pose proof (first_key _ _ _ Hh E). pose proof (min_pos _ Hm).
  assert (E' : sc_tasks s !! mc_current m = Some tk) by (by rewrite (sr_tasks _ _ Hs)). unfold keys_fit, HEV_TASK_PRIORITY_MAX in *.
  unfold hev_task_system_update_sched_key. erewrite bind_Some by reflexivity. rewrite (sr_current _ _ Hs).
  erewrite bind_Some by (by apply load_task_ok). rewrite Z.mul_1_l, !u64_id by (rewrite ?u64_id; lia). by eapply store_task_ok.
Qed.

Lemma yield_ok s m :
  mc_inv m -> keys_fit m -> sc_rep s m -> mc_current m <> NULL -> head (mc_queue m) = Some (mc_current m) ->
  exists s', (hev_task_system_update_sched_key;; hev_task_system_reinsert_current_task) s = Some (tt, s') /\ sc_rep s' (spec_leave HEV_TASK_YIELD m).
Proof.
  intros Hm Hfit Hs Hc Hh. destruct (current_task m Hm Hh) as (tk & E & Hst). unfold spec_leave. rewrite E. fold (take_task (mc_current m) m). set (t := mc_current m) in *.
  destruct Hs as [Hs Htot]. destruct (mi_task _ Hm _ _ E) as (Hok & _).
  destruct (erase_current_ok s m t Hs Hh (mi_nodup _ Hm)) as (c1 & Ec & Hq1 & Hkept & Hlen).
  set (tk' := set_prio (tk_next tk) (set_key (tk_key tk + tk_prio tk) tk)). set (tasks := <[t := tk']> (mc_tasks m)).
  set (s1 := up_sctree c1 (up_stasks tasks s)).
  destruct (insert_tree_ok s1 t tk' (without t (mc_queue m))) as (c2 & Ei & Hq2 & Hkept2).
  - apply lookup_insert_eq.
  - done.
  - intros x [_ Hx]%without_in. simpl. apply (put_dom x E). apply (mi_run _ Hm) in Hx as (tkx & Ex & _). by exists tkx.
  - eapply sorted_keys; [|apply sorted_filter, (mi_sorted _ Hm)]. intros x [Hx _]%without_in. by apply key_other.
  - done.
  - intros [? _]%without_in. done.
  - apply Hkept, (sr_nodes _ _ Hs). by exists tk.
  - exists (up_sctree c2 s1). split.
    + erewrite bind_Some by (by eapply update_key_ok). unfold hev_task_system_reinsert_current_task. erewrite bind_Some by reflexivity.
      cbn [sc_current up_stasks]. rewrite (sr_current _ _ Hs). fold t. erewrite bind_Some by (apply load_task_ok, lookup_insert_eq).
      erewrite bind_Some by (eapply store_task_ok, lookup_insert_eq). erewrite bind_Some by (apply on_running_ok; exact Ec).
      cbn [sc_tasks up_stasks]. rewrite insert_insert_eq, (sr_tasks _ _ Hs). exact Ei.
    + rewrite insert_take. assert (set_prio (tk_next tk) (set_state HEV_TASK_RUNNING (set_key (tk_key tk + tk_prio tk) tk)) = tk') as Heq
        by (unfold tk'; destruct tk; simpl in Hst; by subst).
      unfold spec_insert. cbn [tk_next set_key mc_tasks mc_queue mc_current]. rewrite Heq. fold tasks.
      assert (length (enqueue tasks t (without t (mc_queue m))) = length (mc_queue m)) as Hlen2 by (unfold enqueue; rewrite queue_insert_perm; simpl; lia).
      destruct Hs as [Hq Ht Hcur Hr Hn (ts & Hl & Hts)]. split; [split; simpl; try done|].
      * by rewrite Hlen2.
      * intros x. unfold tasks. rewrite (put_dom x E). intros Hx. by apply Hkept2, Hkept, Hn.
      * exists ts. split; [done|]. intros x. unfold tasks. by rewrite (put_dom x E).
      * simpl. rewrite Htot. unfold unfinished. simpl. rewrite Hlen2. pose proof (waiting_put t tk' tk _ E) as Hw. unfold tasks. simpl in Hw.
        assert (is_waiting tk' = is_waiting tk) by done. lia.
Qed.

Lemma waitio_ok s m :
  mc_inv m -> keys_fit m -> sc_rep s m -> mc_current m <> NULL -> head (mc_queue m) = Some (mc_current m) ->
  exists s', (hev_task_system_update_sched_key;; hev_task_system_remove_current_task HEV_TASK_WAITING) s = Some (tt, s') /\ sc_rep s' (spec_leave HEV_TASK_WAITIO m).
Proof.
  intros Hm Hfit Hs Hc Hh. destruct (current_task m Hm Hh) as (tk & E & Hst). unfold spec_leave. rewrite E. fold (take_task (mc_current m) m).
  pose proof Hs as [Hs0 Htot]. destruct (erase_current_ok s m _ Hs0 Hh (mi_nodup _ Hm)) as (c1 & Ec & Hq1 & Hkept & Hlen).
  pose proof (left_rep s m (mc_current m) (set_key (tk_next tk) (set_state HEV_TASK_WAITING tk)) tk c1 Hm Hs E Hst Hq1 Hkept Hlen) as Hl.
  eexists. split; [|exact Hl]. erewrite bind_Some by (by eapply update_key_ok). unfold hev_task_system_remove_current_task.
  erewrite bind_Some by reflexivity. cbn [sc_current up_stasks]. rewrite (sr_current _ _ Hs0). erewrite bind_Some by (apply load_task_ok, lookup_insert_eq).
  erewrite bind_Some by (eapply store_task_ok, lookup_insert_eq). erewrite bind_Some by (apply on_running_ok; exact Ec).
  erewrite bind_Some by reflexivity. rewrite bool_decide_false by done. erewrite bind_Some by (apply load_task_ok; apply lookup_insert_eq).
  erewrite store_task_ok by apply lookup_insert_eq. cbn [sc_tasks up_stasks up_running up_sctree]. rewrite !insert_insert_eq.
  f_equal. f_equal. unfold up_stasks, up_running, up_sctree. simpl.
  rewrite (sr_current _ _ Hs0). f_equal. change (is_waiting _) with 1%nat. lia.
Qed.

Lemma remove_ok s m :
  mc_inv m -> sc_rep s m -> mc_current m <> NULL -> head (mc_queue m) = Some (mc_current m) ->
  exists s', hev_task_system_remove_current_task HEV_TASK_STOPPED s = Some (tt, s') /\ sc_rep s' (spec_leave HEV_TASK_YIELD_COUNT m).
Proof.
  intros Hm Hs Hc Hh. destruct (current_task m Hm Hh) as (tk & E & Hst). unfold spec_leave. rewrite E. fold (take_task (mc_current m) m).
  pose proof Hs as [Hs0 Htot]. destruct (erase_current_ok s m _ Hs0 Hh (mi_nodup _ Hm)) as (c1 & Ec & Hq1 & Hkept & Hlen).
  set (t := mc_current m) in *. set (tk' := set_state HEV_TASK_STOPPED tk). pose proof (unfinished_range m Hm) as Hrange.
  pose proof (left_rep s m t tk' tk c1 Hm Hs E Hst Hq1 Hkept Hlen) as Hl.
  destruct (mi_task _ Hm _ _ E) as (_ & _ & _ & [Hr1 _] & _).
  destruct (unref_ok _ _ t tk' Hl) as (s' & Eu & Hs'); [apply lookup_insert_eq|done|done|]. exists s'. split.
  - unfold hev_task_system_remove_current_task. erewrite bind_Some by reflexivity. rewrite (sr_current _ _ Hs0). fold t.
    erewrite bind_Some by (apply load_task_ok; by rewrite (sr_tasks _ _ Hs0)). erewrite bind_Some by (eapply store_task_ok; by rewrite (sr_tasks _ _ Hs0)).
    erewrite bind_Some by (apply on_running_ok; exact Ec). erewrite bind_Some by reflexivity. rewrite bool_decide_true by done.
    erewrite bind_Some by reflexivity. rewrite <-Eu. f_equal. unfold up_stasks, up_running, up_total, up_sctree. simpl. f_equal.
    rewrite u32_id by lia. change (is_waiting _) with 0%nat. lia.
  - simpl in Hs'. unfold drop_ref in Hs'. change (tk_ref tk') with (tk_ref tk) in Hs'. destruct (decide (tk_ref tk = 1)).
    + rewrite delete_insert_eq, delete_delete_eq in Hs'. exact Hs'.
    + rewrite insert_insert_eq in Hs'. exact Hs'.
Qed.

Lemma wakes_ok s m woken :
  mc_inv m -> keys_fit m -> sc_rep s m -> Forall (alive m) woken ->
  exists s', hev_task_system_io_poll woken s = Some (tt, s') /\ sc_rep s' (foldl spec_wake m woken).
Proof.
  revert s m. induction woken as [|t woken IH]; intros s m Hm Hfit Hs; simpl; [by exists s|]. intros [Ht Hw]%Forall_cons.
  destruct (wakeup_ok s m t) as (s1 & E & Hs1); try done.
  destruct (IH s1 (spec_wake m t)) as (s' & E' & Hs'); try done.
  - by apply wake_inv.
  - eapply keys_fit_first; [by apply wake_same_first|done].
  - eapply Forall_impl; [exact Hw|]. intros x. apply wake_alive.
  - exists s'. split; [by erewrite bind_Some by exact E|done].
Qed.

Lemma wakes_none m woken : mc_queue (foldl spec_wake m woken) = [] -> foldl spec_wake m woken = m.
Proof.
  revert m. induction woken as [|t woken IH]; intros m; simpl; [done|]. intros Hq. rewrite (IH _ Hq).
  destruct (mc_queue (spec_wake m t)) as [|x q] eqn:E.
  - revert E. unfold spec_wake. repeat case_match; try done. unfold spec_insert, enqueue. simpl. intros Hnil.
    assert (t ∈ []) as []%elem_of_nil. rewrite <-Hnil, queue_insert_perm. by left.
  - assert (x ∈ []) as []%elem_of_nil. rewrite <-Hq. apply wakes_queue. rewrite E. by left.
Qed.

Lemma poll_ok s m polls :
  mc_inv m -> keys_fit m -> sc_rep s m -> polls_ok m polls ->
  exists s', poll_loop polls s = Some (bool_decide (is_Some (spec_poll polls m)), s') /\ sc_rep s' (default m (spec_poll polls m)).
Proof.
  revert s. induction polls as [|woken polls IH]; intros s Hm Hfit Hs Hp; [by exists s|]. apply Forall_cons in Hp as [Hw Hp].
  destruct (wakes_ok s m woken) as (s1 & E & Hs1); try done.
  cbn [poll_loop spec_poll]. erewrite bind_Some by exact E. erewrite bind_Some by reflexivity. rewrite (sr_running _ _ (proj1 Hs1)).
  destruct (decide _) as [Hq|Hq].
  - rewrite Hq. rewrite (wakes_none _ _ Hq) in *. by apply IH.
  - rewrite (proj2 (Z.eqb_neq _ _)) by (destruct (mc_queue (foldl spec_wake m woken)); [done|simpl; lia]). by exists s1.
Qed.

Lemma set_current_rep s m c : sc_rep s m -> sc_rep (up_current c s) (Machine (mc_tasks m) (mc_queue m) c).
Proof. by intros [[] ?]. Qed.

Lemma pick_ok s m polls :
  mc_inv m -> keys_fit m -> sc_rep s m -> polls_ok m polls -> ~ (mc_queue m = [] /\ waiting (mc_tasks m) = 0%nat) ->
  exists s', hev_task_system_pick_current_task polls s = Some (bool_decide (is_Some (spec_pick polls m)), s') /\
    sc_rep s' match spec_pick polls m with Some m' => Machine (mc_tasks m') (mc_queue m') (default NULL (head (mc_queue m'))) | None => m end.
Proof.
  intros Hm Hfit Hs Hp Hne. unfold hev_task_system_pick_current_task. erewrite bind_Some by reflexivity. erewrite bind_Some by reflexivity.
  assert (exists s1, (if sc_running s <? sc_total s then
      if negb (sc_running s =? 0) then hev_task_system_io_poll (hd [] polls);; ret true else poll_loop polls else ret true) s =
      Some (bool_decide (is_Some (spec_pick polls m)), s1) /\ sc_rep s1 (default m (spec_pick polls m))) as (s1 & E & Hs1).
  { rewrite (proj2 Hs), (sr_running _ _ (proj1 Hs)). unfold spec_pick, unfinished. destruct (decide (waiting _ = 0%nat)) as [Hw|Hw].
    - rewrite Hw, (proj2 (Z.ltb_ge _ _)) by lia. by exists s.
    - rewrite (proj2 (Z.ltb_lt _ _)) by lia. destruct (decide _) as [Hq|Hq].
      + rewrite Hq. by apply poll_ok.
      + rewrite (proj2 (Z.eqb_neq _ _)) by (destruct (mc_queue m); [done|simpl; lia]). simpl.
        destruct (wakes_ok s m (hd [] polls)) as (s1 & E & Hs1); try done; [by destruct Hp|].
        exists s1. split; [by erewrite bind_Some by exact E|done]. }
  erewrite bind_Some by exact E. destruct (spec_pick polls m) as [m'|] eqn:Ep; [|by exists s1].
  destruct (pick_inv _ _ _ Hm Hne Ep) as (Hm' & _ & Hq'). simpl in Hs1 |- *.
  erewrite bind_Some by (apply on_running_ok, cached_first, Hs1). destruct (mc_queue m') as [|x q] eqn:Eq; [done|].
  unfold edge. simpl. assert (okp x) as Hok.
  { destruct (proj1 (mi_run _ Hm' x)) as (tk & Et & _); [rewrite Eq; by left|]. by destruct (mi_task _ Hm' _ _ Et). }
  rewrite okp_eqb by done. eexists. split; [reflexivity|]. rewrite <-Eq.
  replace (up_sctree (sc_tree s1) s1) with s1 by (by destruct s1). by apply set_current_rep.
Qed.

(** ** Turns *)

Lemma schedule_ok type polls s m :
  mc_inv m -> ready m -> mc_min m + 2 * HEV_TASK_PRIORITY_MAX < 18446744073709551616 -> sc_rep s m ->
  (mc_current m = NULL -> type = HEV_TASK_YIELD_COUNT) -> polls_ok (if mc_current m =? NULL then m else spec_leave type m) polls ->
  exists s', hev_task_system_schedule type polls s = Some ((spec_schedule type polls m).1, s') /\ sc_rep s' (spec_schedule type polls m).2.
Proof.
  intros Hm Hready Hfit Hs Htype. unfold hev_task_system_schedule, spec_schedule. erewrite bind_Some by reflexivity. rewrite (sr_current _ _ (proj1 Hs)).
  set (m1 := if mc_current m =? NULL then m else spec_leave type m). intros Hp.
  assert (keys_fit m) as Hfit0 by (unfold keys_fit, HEV_TASK_PRIORITY_MAX in *; lia).
  assert (mc_inv m1 /\ keys_fit m1 /\ exists s1, (if negb (mc_current m =? NULL) then
     match type with
     | HEV_TASK_YIELD => hev_task_system_update_sched_key;; hev_task_system_reinsert_current_task
     | HEV_TASK_WAITIO => hev_task_system_update_sched_key;; hev_task_system_remove_current_task HEV_TASK_WAITING
     | HEV_TASK_YIELD_COUNT => hev_task_system_remove_current_task HEV_TASK_STOPPED
     end
   else match type with HEV_TASK_YIELD_COUNT => ret tt | _ => fail end) s = Some (tt, s1) /\ sc_rep s1 m1) as (Hm1 & Hfit1 & s1 & E & Hs1).
  { unfold m1. destruct (Z.eqb_spec (mc_current m) NULL) as [Hc|Hc]; cbn [negb].
    - rewrite (Htype Hc). split_and!; [done..|by exists s].
    - destruct Hready as [|Hh]; [done|]. destruct (leave_inv type m Hm Hc Hh) as (? & _ & ?). split_and!; [done|unfold keys_fit; lia|].
      destruct type; [by apply yield_ok|by apply waitio_ok|by apply remove_ok]. }
  erewrite bind_Some by exact E. erewrite bind_Some by reflexivity. rewrite (proj2 Hs1). pose proof (unfinished_range m1 Hm1).
  destruct (decide _) as [[Hq Hw]|Hne].
  - unfold unfinished. rewrite Hq, Hw. simpl. eexists. split; [reflexivity|]. pose proof (set_current_rep _ _ NULL Hs1) as Hc. by rewrite Hq in Hc.
  - rewrite (proj2 (Z.eqb_neq _ _)).
    2: { intros H0. apply Hne. unfold unfinished in H0. split; [|lia]. destruct (mc_queue m1); [done|]. simpl in H0. lia. }
    destruct (pick_ok s1 m1 polls) as (s2 & E2 & Hs2); try done. erewrite bind_Some by exact E2. destruct (spec_pick polls m1); [|by exists s2].
    simpl. exists s2. split; [|done]. unfold gets. by rewrite (sr_current _ _ (proj1 Hs2)).
Qed.

Lemma turn_ok_rep s m u :
  mc_inv m -> ready m -> Z.max (mc_min m) HEV_TASK_PRIORITY_MAX + 2 * HEV_TASK_PRIORITY_MAX < 18446744073709551616 -> sc_rep s m -> turn_ok m u ->
  exists s', run_turn u s = Some ((spec_turn m u).1, s') /\ sc_rep s' (spec_turn m u).2.
Proof.
  intros Hm Hready Hfit Hs (Ha & Htype & Hp). destruct (acts_inv m _ Hm Ha) as [Hm1 Hsf].
  destruct (acts_ok_rep s m (tu_acts u)) as (s1 & E & Hs1); try done; [unfold keys_fit, HEV_TASK_PRIORITY_MAX in *; lia|].
  unfold run_turn, spec_turn. erewrite bind_Some by exact E. apply schedule_ok; try done.
  - by eapply same_first_ready.
  - pose proof (sf_min _ _ Hsf). unfold HEV_TASK_PRIORITY_MAX in *. lia.
  - by rewrite (sf_current _ _ Hsf).
Qed.

(** A run of [n] turns keeps the keys below [15 * (n + 1)] above the first. *)
Lemma turns_ok_rep s m us :
  mc_inv m -> ready m -> sc_rep s m -> turns_ok m us ->
  Z.max (mc_min m) HEV_TASK_PRIORITY_MAX + HEV_TASK_PRIORITY_MAX * (Z.of_nat (length us) + 1) < 18446744073709551616 ->
  exists s', run_turns us s = Some ((spec_turns m us).1, s') /\ sc_rep s' (spec_turns m us).2 /\ mc_inv (spec_turns m us).2.
Proof.
  revert s m. induction us as [|u us IH]; intros s m Hm Hready Hs; simpl; [by exists s|]. intros (Hu & Hnext & Hus) Hlen.
  destruct (turn_ok_rep s m u) as (s1 & E & Hs1); try done; [unfold HEV_TASK_PRIORITY_MAX in *; lia|]. erewrite bind_Some by exact E.
  pose proof (turn_inv m u Hm Hready Hu) as Hsw. destruct us as [|u' us].
  - exists s1. split; [done|]. split; [done|]. apply Hsw.
  - destruct Hnext as [|Hnext]; [done|]. destruct (IH s1 (spec_turn m u).2) as (s' & E' & Hs' & Hi); try done.
    + apply Hsw.
    + by eapply switched_ready.
    + pose proof (sw_min _ _ Hsw). unfold HEV_TASK_PRIORITY_MAX in *. cbn [length] in *. lia.
    + exists s'. split; [by erewrite bind_Some by exact E'|]. done.
Qed.
