(* ===== verification/SchedLive.v ===== *)
(** * No task that can run waits for ever

    Where every priority is at least 1, a task that waits in the queue of the machine
    of [SchedSpec] gets nearer to its head with every turn.  [weight] bounds how often
    another task can still run before it; each turn lowers the sum of the weights. *)

From stdpp Require Import sorting.
From S2P Require Import Prelude RBTree RBModel HevList CachedTree Sched SchedSpec SchedInv.

(** ** Those that are ahead *)

Fixpoint ahead (t : Z) (q : list Z) : list Z :=
  match q with
  | [] => []
  | x :: q => if decide (x = t) then [] else x :: ahead t q
  end.

Lemma ahead_in t q x : x ∈ ahead t q -> x ∈ q.
Proof. induction q as [|y q IH]; simpl; [done|]. destruct (decide _); [by intros ?%elem_of_nil|]. rewrite !elem_of_cons. tauto. Qed.

Lemma ahead_length t q : (length (ahead t q) <= length q)%nat.
Proof. induction q as [|y q IH]; simpl; [done|]. destruct (decide _); simpl; lia. Qed.

Lemma ahead_sorted key t q x :
  StronglySorted (fun a b : Z => key a <= key b) q -> t ∈ q -> x ∈ ahead t q -> key x <= key t.
Proof.
  induction 1 as [|y q Hs IH HF]; simpl; [by intros ?%elem_of_nil|]. destruct (decide (y = t)) as [->|Hne]; [by intros _ ?%elem_of_nil|].
  rewrite !elem_of_cons. intros [->|Ht] [->|Hx]; [lia|done| |auto]. rewrite Forall_forall in HF. by apply HF.
Qed.

Lemma ahead_insert lt t y q x : y <> t -> x <> y -> x ∈ ahead t (queue_insert lt y q) <-> x ∈ ahead t q.
Proof.
  intros Hy Hx. induction q as [|z q IH]; simpl; [rewrite decide_False by done; set_solver|].
  destruct (lt z); simpl; [rewrite (decide_False (P := y = t)) by done; set_solver|].
  destruct (decide (z = t)); [done|]. rewrite !elem_of_cons, IH. done.
Qed.

Lemma ahead_enqueue tasks t y q :
  StronglySorted (fun a b => key_of tasks a <= key_of tasks b) q -> t ∈ q -> y ∉ q -> y ∈ ahead t (enqueue tasks y q) -> key_of tasks y < key_of tasks t.
Proof.
  unfold enqueue. induction 1 as [|z q Hs IH HF]; simpl; [by intros ?%elem_of_nil|]. intros Ht [Hyz Hyq]%not_elem_of_cons.
  destruct (Z.ltb_spec (key_of tasks y) (key_of tasks z)) as [Hlt|Hge]; simpl.
  - intros _. apply elem_of_cons in Ht as [->|Ht]; [done|]. rewrite Forall_forall in HF. specialize (HF t Ht). lia.
  - destruct (decide (z = t)); [by intros ?%elem_of_nil|]. rewrite elem_of_cons. intros [?|Hy]; [done|]. apply IH; [|done|done].
    apply elem_of_cons in Ht as [?|?]; [done|done].
Qed.

(** ** Weights *)

(** How often [x] can run before [t], at most: its key grows by 1 or more each time. *)
Definition weight (t : Z) (m : machine) (x : Z) : Z :=
  let k := key_of (mc_tasks m) t in
  if decide (x ∈ ahead t (mc_queue m)) then k - key_of (mc_tasks m) x + 1 else if decide (x ∈ mc_queue m) then 0 else k - mc_min m.

Lemma weight_range t m x : mc_inv m -> t ∈ mc_queue m -> 0 <= weight t m x <= 16.
Proof.
  intros Hm Ht. unfold weight. pose proof (min_first _ _ Hm Ht) as Hk. unfold HEV_TASK_PRIORITY_MAX in Hk. destruct (decide _) as [Ha|_]; [|destruct (decide _); lia].
  pose proof (ahead_sorted _ t _ x (mi_sorted _ Hm) Ht Ha). pose proof (min_first _ _ Hm (ahead_in _ _ _ Ha)). lia.
Qed.

(** The wait of [t] does not get longer. *)
Record closer (t : Z) (m m' : machine) : Prop := {
  cl_queued : t ∈ mc_queue m -> t ∈ mc_queue m';
  cl_weight : t ∈ mc_queue m -> forall x, x <> t -> weight t m' x <= weight t m x
}.

#[global] Instance closer_preorder t : PreOrder (closer t).
Proof. split; [by split|]. intros m1 m2 m3 [H1 H2] [H3 H4]. split; [auto|]. intros Ht x Hx. etransitivity; [by apply H4; auto|by apply H2]. Qed.

(** All but one task stay where they are. *)
Lemma weight_others t y m m' x :
  key_of (mc_tasks m') t = key_of (mc_tasks m) t -> (x ∈ mc_queue m -> key_of (mc_tasks m') x = key_of (mc_tasks m) x) -> mc_min m <= mc_min m' ->
  (x <> y -> (x ∈ ahead t (mc_queue m') <-> x ∈ ahead t (mc_queue m)) /\ (x ∈ mc_queue m' <-> x ∈ mc_queue m)) -> x <> y ->
  weight t m' x <= weight t m x.
Proof.
  intros Ht Hk Hmin Hq Hx. destruct (Hq Hx) as [Ha Hin]. unfold weight. rewrite Ht.
  rewrite (decide_ext _ _ _ _ Ha), (decide_ext _ _ _ _ Hin). destruct (decide (x ∈ ahead _ _)) as [H|_]; [rewrite Hk by (by eapply ahead_in); lia|].
  destruct (decide _); lia.
Qed.

Lemma same_queue_closer t m m' :
  mc_queue m' = mc_queue m -> (forall x, x ∈ mc_queue m -> key_of (mc_tasks m') x = key_of (mc_tasks m) x) -> closer t m m'.
Proof.
  intros Hq Hk. split; [by rewrite Hq|]. intros Ht x Hx. assert (mc_min m' = mc_min m) as Hmin.
  { unfold mc_min. rewrite Hq. destruct (mc_queue m) as [|y q]; [done|]. apply Hk. by left. }
  eapply (weight_others t t); try done; [by apply Hk|by apply Hk|lia|]. by rewrite Hq.
Qed.

(** A task comes in behind those with the smallest key. *)
Lemma insert_closer t y tk m :
  mc_inv m -> y ∉ mc_queue m -> mc_min m + 1 <= tk_key tk -> closer t m (spec_insert y tk m).
Proof.
  intros Hm Hy Hk. split; [intros Ht; unfold spec_insert, enqueue; simpl; rewrite queue_insert_perm; by right|]. intros Ht x Hx.
  assert (y <> t) as Hyt by (by intros ->). pose proof (insert_min y tk m Hy) as Hmin. pose proof (min_first _ _ Hm Ht).
  assert (mc_min (spec_insert y tk m) = mc_min m) as Hmin' by (rewrite Hmin; destruct (mc_queue m); [by apply elem_of_nil in Ht|lia]). clear Hmin.
  assert (forall z, z <> y -> key_of (mc_tasks (spec_insert y tk m)) z = key_of (mc_tasks m) z) as Hkey by (intros z Hz; by apply key_other).
  destruct (decide (x = y)) as [->|Hxy].
  - unfold weight. rewrite Hkey by done. rewrite (decide_False (P := y ∈ ahead t (mc_queue m))) by (intros Hin%ahead_in; done).
    rewrite (decide_False (P := y ∈ mc_queue m)) by done. destruct (decide _) as [Ha|_]; [|destruct (decide _); lia].
    simpl. rewrite key_here. cbn [tk_key set_prio set_state]. lia.
  - apply (weight_others t y); [by apply Hkey|intros _; by apply Hkey|lia| |done]. intros _. unfold spec_insert, enqueue. simpl.
    rewrite ahead_insert, queue_insert_perm, elem_of_cons by done. tauto.
Qed.

Lemma min_above m b : mc_queue m <> [] -> (forall x, x ∈ mc_queue m -> b <= key_of (mc_tasks m) x) -> b <= mc_min m.
Proof. unfold mc_min. intros Hq H. destruct (mc_queue m) as [|x q]; [done|]. apply H. by left. Qed.

(** The first task goes, or comes back further behind. *)
Section first.
Context (t c : Z) (m m' : machine) (rest : list Z) (Hm : mc_inv m) (Hq : mc_queue m = c :: rest) (Hct : c <> t) (Ht : t ∈ mc_queue m)
  (Hkey : forall x, x <> c -> key_of (mc_tasks m') x = key_of (mc_tasks m) x)
  (Hq' : mc_queue m' = rest \/ mc_queue m' = enqueue (mc_tasks m') c rest /\ mc_min m + 1 <= key_of (mc_tasks m') c).

Lemma first_rest : t ∈ rest /\ c ∉ rest.
Proof. pose proof (mi_nodup _ Hm) as Hnd. rewrite Hq in Hnd, Ht. apply NoDup_cons in Hnd as [? _]. by apply elem_of_cons in Ht as [?|?]. Qed.

Lemma first_queue x : x <> c -> x ∈ mc_queue m' <-> x ∈ rest.
Proof. intros Hx. destruct Hq' as [->|[-> _]]; [done|]. unfold enqueue. rewrite queue_insert_perm, elem_of_cons. tauto. Qed.

Lemma first_min : mc_min m <= mc_min m'.
Proof.
  destruct first_rest as [Htr Hc]. assert (t ∈ mc_queue m') as Ht' by (by apply first_queue).
  apply min_above; [intros Hnil; by rewrite Hnil in Ht'; apply elem_of_nil in Ht'|]. intros x Hx. destruct (decide (x = c)) as [->|Hxc].
  - destruct Hq' as [Hr|[_ ?]]; [by rewrite Hr in Hx|lia].
  - rewrite Hkey by done. apply min_first; [done|]. rewrite Hq. right. by apply first_queue.
Qed.

Lemma first_weight : weight t m' c + 1 <= weight t m c.
Proof.
  destruct first_rest as [Htr Hc]. pose proof (min_first _ _ Hm Ht) as Hkt. pose proof first_min as Hmin.
  assert (mc_min m = key_of (mc_tasks m) c) as Hmc by (unfold mc_min; by rewrite Hq).
  assert (weight t m c = key_of (mc_tasks m) t - mc_min m + 1) as ->.
  { unfold weight. rewrite Hq. simpl. rewrite (decide_False (P := c = t)), decide_True by first [done|by left]. lia. }
  unfold weight. rewrite Hkey by done. destruct (decide _) as [Ha|_]; [|destruct (decide _); lia].
  destruct Hq' as [Hr|[Hr Hk]]; [|lia]. by rewrite Hr in Ha; apply ahead_in in Ha.
Qed.

Lemma first_closer : closer t m m'.
Proof.
  destruct first_rest as [Htr Hc]. split; [intros _; by apply first_queue|]. intros _ x Hx.
  destruct (decide (x = c)) as [->|Hxc]; [pose proof first_weight; lia|].
  apply (weight_others t c); [by apply Hkey|intros _; by apply Hkey|apply first_min| |done]. intros _. rewrite first_queue, Hq by done. simpl.
  rewrite decide_False, !elem_of_cons by done. destruct Hq' as [->|[-> _]]; [tauto|]. unfold enqueue. rewrite ahead_insert by done. tauto.
Qed.
End first.

(** ** Priorities of at least 1 *)

Section lively.
Context (U : list Z).

(** The tasks there are, all in [U], grow their keys when they run. *)
Definition task_lively (x : Z) (tk : task) : Prop :=
  x ∈ U /\ 1 <= tk_next tk /\ (tk_state tk = HEV_TASK_RUNNING -> 1 <= tk_prio tk) /\ (tk_state tk = HEV_TASK_WAITING -> 1 <= tk_key tk).

Definition lively (m : machine) : Prop := map_Forall task_lively (mc_tasks m).

Definition act_lively (a : act) : Prop :=
  match a with
  | ANew (Some x) _ => x ∈ U
  | APrio _ p => 1 <= p
  | _ => True
  end.

Definition turn_lively (u : turn) : Prop := Forall act_lively (tu_acts u).

Lemma lively_insert t tk m : lively m -> t ∈ U -> 1 <= tk_next tk -> lively (spec_insert t tk m).
Proof. intros H Ht Hn. by apply map_Forall_insert_2. Qed.

Lemma wake_lively m t : lively m -> lively (spec_wake m t).
Proof.
  intros H. unfold spec_wake. destruct (mc_tasks m !! t) as [tk|] eqn:E; [|done]. destruct (decide _); [|done].
  destruct (H _ _ E) as (? & ? & _). by apply lively_insert.
Qed.

Lemma wakes_lively m woken : lively m -> lively (foldl spec_wake m woken).
Proof. revert m. induction woken as [|t woken IH]; intros m H; simpl; [done|]. by apply IH, wake_lively. Qed.

Lemma leave_lively type m : lively m -> lively (spec_leave type m).
Proof.
  intros H. unfold spec_leave. destruct (mc_tasks m !! mc_current m) as [tk|] eqn:E; [|done]. fold (take_task (mc_current m) m).
  destruct (H _ _ E) as (? & ? & ? & ?). assert (lively (take_task (mc_current m) m)) as Ht by (by apply map_Forall_delete).
  destruct type; [by apply lively_insert|by apply map_Forall_insert_2|destruct (decide _); [done|by apply map_Forall_insert_2]].
Qed.

Lemma schedule_lively type polls m : lively m -> lively (spec_schedule type polls m).2.
Proof.
  intros H. unfold spec_schedule. set (m1 := if mc_current m =? NULL then m else spec_leave type m).
  assert (lively m1) as H1 by (unfold m1; destruct (_ =? _); [done|by apply leave_lively]). clearbody m1. destruct (decide _); [done|].
  assert (forall m2, spec_pick polls m1 = Some m2 -> lively m2) as Hp; [|destruct (spec_pick polls m1) as [m2|]; [by apply (Hp m2)|done]].
  unfold spec_pick. destruct (decide _); [by intros ? [= <-]|]. destruct (decide _); [|intros ? [= <-]; by apply wakes_lively].
  revert H1. clear. revert m1. induction polls as [|woken polls IH]; intros m1 H1 m2; simpl; [done|]. pose proof (wakes_lively m1 woken H1).
  destruct (decide _); [by apply IH|by intros [= <-]].
Qed.

Lemma act_lively_ok m a : lively m -> act_lively a -> lively (spec_act m a).
Proof.
  intros H Ha. destruct a as [[t|] []|t|t|t p|t|t]; simpl in *; try done.
  - by apply map_Forall_insert_2.
  - unfold spec_run. destruct (mc_tasks m !! t) as [tk|] eqn:E; [|done]. destruct (decide _); [|done]. destruct (H _ _ E) as (? & ? & _). by apply lively_insert.
  - by apply wake_lively.
  - destruct (mc_tasks m !! t) as [tk|] eqn:E; [|done]. destruct (H _ _ E) as (? & ? & ? & ?). apply map_Forall_insert_2; [|done]. split_and!; try done. simpl.
    unfold clamp, HEV_TASK_PRIORITY_MIN, HEV_TASK_PRIORITY_MAX. lia.
  - destruct (mc_tasks m !! t) as [tk|] eqn:E; [|done]. destruct (H _ _ E) as (? & ? & ? & ?). by apply map_Forall_insert_2.
  - destruct (mc_tasks m !! t) as [tk|] eqn:E; [|done]. destruct (H _ _ E) as (? & ? & ? & ?). unfold drop_ref. destruct (decide _).
    + by apply map_Forall_delete.
    + by apply map_Forall_insert_2.
Qed.

Lemma acts_lively_ok m acts : lively m -> Forall act_lively acts -> lively (foldl spec_act m acts).
Proof. revert m. induction acts as [|a acts IH]; intros m Hl; simpl; [done|]. intros [Ha Hacts]%Forall_cons. by apply IH; [apply act_lively_ok|]. Qed.

Lemma turn_stays_lively m u : lively m -> turn_lively u -> lively (spec_turn m u).2.
Proof. intros Hl Hu. by apply schedule_lively, acts_lively_ok. Qed.

(** ** What happens in a turn *)

Context (t : Z).

Lemma wake_closer m x : mc_inv m -> lively m -> closer t m (spec_wake m x).
Proof.
  intros Hm Hl. unfold spec_wake. destruct (mc_tasks m !! x) as [tk|] eqn:E; [|done]. destruct (decide _) as [Hw|]; [|done].
  destruct (Hl _ _ E) as (_ & _ & _ & Hk). specialize (Hk Hw). apply insert_closer; [done| |simpl; lia].
  apply not_queued; [done|]. rewrite E. intros ? [= <-]. by rewrite Hw.
Qed.

Lemma wakes_closer m woken : mc_inv m -> lively m -> closer t m (foldl spec_wake m woken).
Proof.
  revert m. induction woken as [|x woken IH]; intros m Hm Hl; simpl; [done|]. etransitivity; [by apply wake_closer|].
  apply IH; [by apply wake_inv|by apply wake_lively].
Qed.

Lemma act_closer m a : mc_inv m -> lively m -> mc_current m <> NULL -> act_ok m a -> closer t m (spec_act m a).
Proof.
  intros Hm Hl Hc Ha. destruct a as [[x|] []|x|x|x p|x|x]; simpl in *; try done; [| |by apply wake_closer| | |].
  - destruct Ha as (_ & Hn & _). apply same_queue_closer; [done|]. intros y (tk & E & _)%(mi_run _ Hm). simpl. apply key_other. congruence.
  - unfold spec_run. destruct (mc_tasks m !! x) as [tk|] eqn:E; [|done]. destruct (decide _) as [Hw|]; [|done]. rewrite (proj2 (Z.eqb_neq _ _)) by done.
    destruct (Hl _ _ E) as (_ & Hk & _). apply insert_closer; [done| |simpl; lia].
    apply not_queued; [done|]. rewrite E. intros ? [= <-]. by rewrite Hw.
  - destruct (mc_tasks m !! x) as [tk|] eqn:E; [|done]. apply same_queue_closer; [done|]. intros y _. simpl. by rewrite (key_put x tk).
  - destruct (mc_tasks m !! x) as [tk|] eqn:E; [|done]. apply same_queue_closer; [done|]. intros y _. simpl. by rewrite (key_put x tk).
  - destruct Ha as (tk & E & Hr). rewrite E. apply same_queue_closer; [done|]. simpl. intros y Hy. unfold drop_ref. destruct (decide _) as [Hd|_].
    + apply key_drop. apply (mi_run _ Hm) in Hy as (tkx & Ex & Hs). intros ->. rewrite E in Ex. injection Ex as <-. by rewrite Hr in Hs.
    + by rewrite (key_put x tk).
Qed.

Lemma acts_closer m acts :
  mc_inv m -> lively m -> mc_current m <> NULL -> acts_ok m acts -> Forall act_lively acts ->
  closer t m (foldl spec_act m acts) /\ lively (foldl spec_act m acts).
Proof.
  revert m. induction acts as [|a acts IH]; intros m Hm Hl Hc; simpl; [done|]. intros [Ha Hacts] [Hla Hlacts]%Forall_cons.
  destruct (IH (spec_act m a)) as [H1 H2]; try done; [by apply act_inv|by apply act_lively_ok|by rewrite (sf_current _ _ (act_same_first _ _ Hm Ha))|].
  split; [|done]. etransitivity; [by apply act_closer|done].
Qed.

Lemma poll_closer polls m m' : mc_inv m -> lively m -> spec_poll polls m = Some m' -> closer t m m' /\ lively m'.
Proof.
  revert m. induction polls as [|woken polls IH]; intros m Hm Hl; simpl; [done|]. destruct (wakes_inv m woken Hm) as [H1 _].
  pose proof (wakes_closer m woken Hm Hl). pose proof (wakes_lively m woken Hl).
  destruct (decide _) as [Hq|Hq]; [|by intros [= <-]]. intros E. destruct (IH _ H1) as [? ?]; try done. split; [by etransitivity|done].
Qed.

Lemma pick_closer polls m m' : mc_inv m -> lively m -> spec_pick polls m = Some m' -> closer t m m' /\ lively m'.
Proof.
  intros Hm Hl. unfold spec_pick. destruct (decide _); [by intros [= <-]|]. destruct (decide _); [by apply poll_closer|].
  intros [= <-]. split; [by apply wakes_closer|by apply wakes_lively].
Qed.

Lemma leave_closer type m :
  mc_inv m -> lively m -> head (mc_queue m) = Some (mc_current m) -> mc_current m <> t -> t ∈ mc_queue m ->
  (closer t m (spec_leave type m) /\ weight t (spec_leave type m) (mc_current m) + 1 <= weight t m (mc_current m)) /\ mc_current m ∈ U.
Proof.
  intros Hm Hl Hh Hct Ht. destruct (current_task m Hm Hh) as (tk & E & Hs). destruct (Hl _ _ E) as (HU & _ & Hp & _). split; [|done]. specialize (Hp Hs).
  assert (exists rest, mc_queue m = mc_current m :: rest) as [rest Hq] by (destruct (mc_queue m) as [|c rest]; [done|]; injection Hh as ->; by exists rest).
  set (c := mc_current m) in *.
  assert (without c (mc_queue m) = rest) as Hrest.
  { rewrite Hq. unfold without. rewrite filter_cons_False by (by intros []). apply without_notin.
    pose proof (mi_nodup _ Hm) as Hnd. rewrite Hq in Hnd. by apply NoDup_cons in Hnd as [? _]. }
  assert (forall m', (forall x, x <> c -> key_of (mc_tasks m') x = key_of (mc_tasks m) x) ->
    mc_queue m' = rest \/ mc_queue m' = enqueue (mc_tasks m') c rest /\ mc_min m + 1 <= key_of (mc_tasks m') c ->
    closer t m m' /\ weight t m' c + 1 <= weight t m c) as Hfirst.
  { intros m' Hk Hq'. split; [by eapply first_closer|by eapply first_weight]. }
  unfold spec_leave. fold c. rewrite E. fold (take_task (mc_current m) m). fold c.
  destruct type; [| |destruct (decide _)]; apply Hfirst; simpl; try (by left); try (intros x Hx; rewrite ?key_other by done; by apply key_drop).
  right. rewrite Hrest, key_here. split; [done|]. cbn [tk_key set_prio set_state set_key]. rewrite (first_key m c tk Hh E). lia.
Qed.

(** ** The sum *)

(** How many turns [t] waits, at most. *)
Fixpoint wait (m : machine) (xs : list Z) : Z :=
  match xs with
  | [] => 0
  | x :: xs => (if decide (x = t) then 0 else weight t m x) + wait m xs
  end.

Lemma wait_range m xs : mc_inv m -> t ∈ mc_queue m -> 0 <= wait m xs <= 16 * Z.of_nat (length xs).
Proof.
  intros Hm Ht. induction xs as [|x xs IH]; simpl; [lia|]. pose proof (weight_range t m x Hm Ht). destruct (decide _); lia.
Qed.

Lemma wait_closer m m' xs : closer t m m' -> t ∈ mc_queue m -> wait m' xs <= wait m xs.
Proof.
  intros [_ Hw] Ht. specialize (Hw Ht). induction xs as [|x xs IH]; simpl; [lia|]. destruct (decide (x = t)); [lia|]. specialize (Hw x). lia.
Qed.

Lemma wait_less m m' xs c :
  closer t m m' -> t ∈ mc_queue m -> c <> t -> weight t m' c + 1 <= weight t m c -> c ∈ xs -> wait m' xs + 1 <= wait m xs.
Proof.
  intros Hcl Ht Hc Hw. induction xs as [|x xs IH]; simpl; [by intros ?%elem_of_nil|]. intros [->|Hx]%elem_of_cons.
  - rewrite !decide_False by done. pose proof (wait_closer m m' xs Hcl Ht). lia.
  - specialize (IH Hx). destruct Hcl as [_ Hcw]. specialize (Hcw Ht x). destruct (decide (x = t)); [lia|]. specialize (Hcw ltac:(done)). lia.
Qed.

Lemma turn_closer m u :
  mc_inv m -> lively m -> head (mc_queue m) = Some (mc_current m) -> mc_current m <> NULL -> mc_current m <> t -> t ∈ mc_queue m ->
  turn_ok m u -> turn_lively u ->
  let r := spec_turn m u in
  mc_inv r.2 /\ lively r.2 /\ t ∈ mc_queue r.2 /\ mc_current r.2 = r.1 /\ r.1 <> NULL /\ head (mc_queue r.2) = Some r.1 /\ wait r.2 U + 1 <= wait m U.
Proof.
  intros Hm Hl Hh Hc Hct Ht Hu Hlu. pose proof (turn_inv m u Hm (or_intror Hh) Hu) as Hsw. destruct Hu as (Ha & _ & _).
  destruct (acts_inv m _ Hm Ha) as [Hm1 Hsf]. destruct (acts_closer m (tu_acts u)) as [Hcl1 Hl1]; try done.
  unfold spec_turn, spec_schedule in *. set (m1 := foldl spec_act m (tu_acts u)) in *. pose proof (sf_current _ _ Hsf) as Hc1.
  destruct (sf_first _ _ Hsf _ Hc Hh) as [Hh1 _]. pose proof (cl_queued _ _ _ Hcl1 Ht) as Ht1. rewrite (proj2 (Z.eqb_neq _ _)) in * by (by rewrite Hc1).
  destruct (leave_closer (tu_type u) m1) as [[Hcl2 Hw] HU]; try done; [by rewrite Hc1..|].
  destruct (leave_inv (tu_type u) m1) as (Hm2 & _ & _); try done; [by rewrite Hc1..|].
  pose proof (cl_queued _ _ _ Hcl2 Ht1) as Ht2. pose proof (leave_lively (tu_type u) m1 Hl1) as Hl2. set (m2 := spec_leave (tu_type u) m1) in *.
  clearbody m1 m2.
  destruct (decide _) as [[Hnil _]|Hne]; [by rewrite Hnil in Ht2; apply elem_of_nil in Ht2|].
  destruct (spec_pick (tu_polls u) m2) as [m3|] eqn:E.
  - destruct (pick_closer _ _ _ Hm2 Hl2 E) as [Hcl3 Hl3]. pose proof (cl_queued _ _ _ Hcl3 Ht2) as Ht3. simpl in *.
    destruct (sw_next _ _ Hsw eq_refl) as [[_ Hnil]|[Hn Hh3]]; simpl in *; [by rewrite Hnil in Ht3; apply elem_of_nil in Ht3|].
    split_and!; try done; [apply Hsw|].
    match goal with |- wait ?m' U + 1 <= _ => assert (wait m' U <= wait m3 U) by (apply wait_closer; [by apply same_queue_closer|done]) end.
    pose proof (wait_closer _ _ U Hcl1 Ht). pose proof (wait_closer _ _ U Hcl3 Ht2). rewrite Hc1 in *.
    pose proof (wait_less _ _ U _ Hcl2 Ht1 Hct Hw HU). lia.
  - exfalso. unfold spec_pick in E. destruct (decide _); [done|]. destruct (decide _) as [Hnil|]; [|done]. by rewrite Hnil in Ht2; apply elem_of_nil in Ht2.
Qed.

(** A queued task is picked within [wait] turns. *)
Lemma picked_soon m us :
  mc_inv m -> lively m -> head (mc_queue m) = Some (mc_current m) -> mc_current m <> NULL -> mc_current m <> t -> t ∈ mc_queue m ->
  turns_ok m us -> Forall turn_lively us -> wait m U < Z.of_nat (length us) -> t ∈ (spec_turns m us).1.
Proof.
  revert m. induction us as [|u us IH]; intros m Hm Hl Hh Hc Hct Ht; simpl.
  - pose proof (wait_range m U Hm Ht). lia.
  - intros (Hu & _ & Hus) [Hlu Hlus]%Forall_cons Hlen. destruct (turn_closer m u) as (Hm' & Hl' & Ht' & Hcur & Hn & Hh' & Hw); try done.
    destruct (decide ((spec_turn m u).1 = t)) as [Hp|Hp]; [rewrite Hp; by left|]. right. apply IH; try done; rewrite ?Hcur; try done. lia.
Qed.
End lively.
