(* ===== verification/SchedTheorems.v ===== *)
(** * What the scheduler promises

    Every run does what the sorted list of tasks does, no task with a priority of at
    least 1 starves another, and a task of priority 0 does. *)

From S2P Require Import Prelude RBTree RBModel RBRep RBSpec HevList CachedTree Sched SchedSpec SchedInv SchedRep SchedLive.

(** C17: a run of the scheduler, whatever the tasks do in their turns (creating, starting
    and waking others, changing priorities, taking and dropping references) and whatever
    the reactor wakes, does not fault as long as nobody wakes a task that has ended, frees
    one that has not, or uses one that is gone.  It picks the tasks that the sorted list of
    [SchedSpec] picks: the first of those with the smallest key, in the order in which they
    got in line.  The tree, the list of all tasks and the two counters describe that
    machine when it ends, and its invariant holds; no key overflows in 10^18 turns. *)
Theorem sched_refines s m us :
  mc_inv m -> ready m -> sc_rep s m -> turns_ok m us ->
  Z.max (mc_min m) HEV_TASK_PRIORITY_MAX + HEV_TASK_PRIORITY_MAX * (Z.of_nat (length us) + 1) < 18446744073709551616 ->
  exists s', run_turns us s = Some ((spec_turns m us).1, s') /\ sc_rep s' (spec_turns m us).2 /\ mc_inv (spec_turns m us).2.
Proof. apply turns_ok_rep. Qed.

(** C18: a task that can run does run: if every priority is at least 1 (as all are that
    [hev_task_new] sets), a task in the queue is picked within 16 turns for each task that
    can exist meanwhile, whatever these do and whichever of them are woken. *)
Theorem sched_no_starvation s m us U t :
  mc_inv m -> sc_rep s m -> mc_current m <> NULL -> head (mc_queue m) = Some (mc_current m) -> t ∈ mc_queue m ->
  lively U m -> turns_ok m us -> Forall (turn_lively U) us -> 16 * Z.of_nat (length U) < Z.of_nat (length us) ->
  mc_min m + HEV_TASK_PRIORITY_MAX * (Z.of_nat (length us) + 2) < 18446744073709551616 ->
  exists picks s', run_turns us s = Some (picks, s') /\ (t = sc_current s \/ t ∈ picks).
Proof.
  intros Hm Hs Hc Hh Ht Hl Hus Hlus Hlen Hfit. pose proof (min_pos _ Hm).
  destruct (turns_ok_rep s m us) as (s' & E & _ & _); try done; [by right|unfold HEV_TASK_PRIORITY_MAX in *; lia|].
  exists (spec_turns m us).1, s'. split; [done|]. rewrite (sr_current _ _ (proj1 Hs)).
  destruct (decide (t = mc_current m)) as [->|Hne]; [by left|right]. apply (picked_soon U); try done.
  pose proof (wait_range t m U Hm Ht). lia.
Qed.

(** A task of priority 0 that yields, with all others behind it, changes nothing. *)
Lemma yield_realtime m tk :
  mc_inv m -> head (mc_queue m) = Some (mc_current m) -> mc_tasks m !! mc_current m = Some tk -> tk_prio tk = 0 -> tk_next tk = 0 ->
  (forall x, x ∈ mc_queue m -> x <> mc_current m -> tk_key tk < key_of (mc_tasks m) x) ->
  spec_turn m (Turn [] HEV_TASK_YIELD []) = (mc_current m, m).
Proof.
  intros Hm Hh E Hp Hn Hbehind. destruct (current_task m Hm Hh) as (tk' & E' & Hs). rewrite E in E'. injection E' as <-.
  destruct m as [tasks q c]. cbn [mc_tasks mc_queue mc_current] in *. destruct q as [|c' rest]; [done|]. injection Hh as ->.
  assert (c <> NULL) as Hc by (destruct (mi_task _ Hm _ _ E) as ([Hc _] & _); unfold NULL; lia).
  assert (spec_leave HEV_TASK_YIELD (Machine tasks (c :: rest) c) = Machine tasks (c :: rest) c) as Hleave.
  { unfold spec_leave. cbn [mc_tasks mc_queue mc_current]. rewrite E. unfold spec_insert. cbn [mc_tasks mc_queue mc_current].
    assert (set_prio (tk_next (set_key (tk_key tk + tk_prio tk) tk)) (set_state HEV_TASK_RUNNING (set_key (tk_key tk + tk_prio tk) tk)) = tk) as ->.
    { destruct tk. simpl in *. subst. by rewrite Z.add_0_r. }
    rewrite insert_delete_id by done. unfold without. rewrite filter_cons_False by (by intros []).
    pose proof (mi_nodup _ Hm) as [Hcr _]%NoDup_cons. fold (without c rest). rewrite without_notin by done. f_equal.
    unfold enqueue. destruct rest as [|x rest]; [done|]. simpl. rewrite (proj2 (Z.ltb_lt _ _)); [done|].
    unfold key_of at 1. rewrite E. simpl. apply Hbehind; [by right; left|]. intros ->. apply Hcr. by left. }
  unfold spec_turn, spec_schedule. cbn [tu_acts tu_type tu_polls foldl mc_current]. rewrite (proj2 (Z.eqb_neq _ _)), Hleave by done.
  rewrite decide_False by (by intros []). assert (spec_pick [] (Machine tasks (c :: rest) c) = Some (Machine tasks (c :: rest) c)) as ->; [|done].
  unfold spec_pick. destruct (decide _); [done|]. by rewrite decide_False.
Qed.

(** Priority 0 is not shared fairly: while a task of priority 0 only yields, and
    all others in the queue are behind its key, no other task runs, for any number of
    turns. *)
Theorem sched_realtime_starves s m tk n :
  mc_inv m -> sc_rep s m -> head (mc_queue m) = Some (mc_current m) -> mc_tasks m !! mc_current m = Some tk ->
  tk_prio tk = 0 -> tk_next tk = 0 -> (forall x, x ∈ mc_queue m -> x <> mc_current m -> tk_key tk < key_of (mc_tasks m) x) ->
  tk_key tk + 3 * HEV_TASK_PRIORITY_MAX < 18446744073709551616 ->
  exists s', run_turns (replicate n (Turn [] HEV_TASK_YIELD [])) s = Some (replicate n (mc_current m), s') /\ sc_rep s' m.
Proof.
  intros Hm Hs Hh E Hp Hn Hbehind Hfit. revert s Hs. induction n as [|n IH]; intros s Hs; [by exists s|].
  pose proof (yield_realtime m tk Hm Hh E Hp Hn Hbehind) as Hy. pose proof (first_key _ _ _ Hh E) as Hk. pose proof (min_pos _ Hm).
  destruct (turn_ok_rep s m (Turn [] HEV_TASK_YIELD [])) as (s1 & E1 & Hs1); try done.
  - by right.
  - unfold HEV_TASK_PRIORITY_MAX in *. lia.
  - split; [done|]. split; [|constructor]. intros Hc. exfalso. destruct (mi_task _ Hm _ _ E) as ([Hok _] & _). rewrite Hc in Hok. done.
  - rewrite Hy in E1, Hs1. destruct (IH s1 Hs1) as (s' & E' & Hs'). exists s'. split; [|done]. simpl.
    erewrite bind_Some by exact E1. by erewrite bind_Some by exact E'.
Qed.

(** ** Witnesses *)

Definition sched0 : sched := Sched (CTree (RBMem NULL ∅) NULL) 0 0 NULL (LMem NULL NULL ∅) ∅.
Definition machine0 : machine := Machine ∅ [] NULL.

Lemma machine0_inv : mc_inv machine0.
Proof.
  split; simpl; try done; try constructor; try (by intros ? ? ?%elem_of_nil).
  - by intros ?%elem_of_nil.
  - by intros (? & ? & _).
Qed.

Lemma sched0_rep : sc_rep sched0 machine0.
Proof.
  split; [split; simpl; try done|done]; [apply cached_empty|by intros t [? ?]|]. exists []. split; [apply list_rep_empty|].
  intros t. split; [by intros ?%elem_of_nil|by intros [? ?]].
Qed.

Definition yields (n : nat) : list turn := replicate n (Turn [] HEV_TASK_YIELD []).
Definition life : list turn :=
  [Turn [ANew (Some 64) true; ANew (Some 128) true; APrio 128 5; ARun 64; ARun 128] HEV_TASK_YIELD_COUNT [];
   Turn [ARef 128] HEV_TASK_YIELD []; Turn [AUnref 128] HEV_TASK_WAITIO []; Turn [] HEV_TASK_WAITIO [[]; [128]];
   Turn [AWake 64] HEV_TASK_YIELD_COUNT []; Turn [ANew None false] HEV_TASK_YIELD_COUNT []].

Ltac norm_next :=
  lazymatch goal with |- context [spec_turn ?m ?u] => let v := eval vm_compute in (spec_turn m u) in replace (spec_turn m u) with v by (vm_compute; reflexivity) end.

(** Go through the turns, computing the machine between them. *)
Ltac run_ok :=
  lazymatch goal with
  | |- turns_ok _ (_ :: _) => split; [split; [|split]|norm_next; split]; cbn [fst snd tu_acts tu_polls]; run_ok
  | |- turns_ok _ [] => exact I
  | |- acts_ok _ [] => exact I
  | |- acts_ok _ (_ :: _) => split; run_ok
  | |- act_ok _ (ANew (Some _) _) => split; [by split|split; reflexivity]
  | |- act_ok _ (ANew None _) => exact I
  | |- act_ok _ (ARun _) => by eexists
  | |- act_ok _ (APrio _ _) => by eexists
  | |- act_ok _ _ => eexists; split; [reflexivity|done]
  | |- polls_ok _ _ => repeat first [apply Forall_nil_2|apply Forall_cons; split]; (eexists; split; [reflexivity|done])
  | |- _ \/ _ => right; reflexivity
  | |- _ -> _ => done
  end.

Lemma life_ok : turns_ok machine0 life.
Proof. unfold life. run_ok. Qed.

(** Two tasks that yield, wait, wake each other and end. *)
Lemma sched_refines_witness :
  turns_ok machine0 life /\ exists s', run_turns life sched0 = Some ([128; 64; 128; 128; 64; NULL], s') /\ sc_total s' = 0.
Proof.
  split; [apply life_ok|]. destruct (sched_refines sched0 machine0 life) as (s' & E & [_ Ht] & _).
  - apply machine0_inv.
  - by left.
  - apply sched0_rep.
  - apply life_ok.
  - vm_compute. reflexivity.
  - exists s'. split; [exact E|exact Ht].
Defined.

(** Two tasks of which the one with the smaller priority runs first. *)
Definition start_with (p : Z) : turn := Turn [ANew (Some 64) true; ANew (Some 128) true; APrio 128 p; ARun 64; ARun 128] HEV_TASK_YIELD_COUNT [].
Definition started (p : Z) : machine := Machine (<[64 := Task 8 8 8 HEV_TASK_RUNNING 1]> (<[128 := Task p p p HEV_TASK_RUNNING 1]> ∅)) [128; 64] 128.

Lemma started_rep p : p = 0 \/ p = 5 -> mc_inv (started p) /\ exists s, sc_rep s (started p).
Proof.
  intros Hp. assert (turns_ok machine0 [start_with p]) as (Hs & _) by (destruct Hp as [-> | ->]; unfold start_with; run_ok).
  assert (spec_turn machine0 (start_with p) = (128, started p)) as Heq by (destruct Hp as [-> | ->]; vm_compute; reflexivity).
  destruct (turn_ok_rep sched0 machine0 (start_with p)) as (s & E & Hr); [apply machine0_inv|by left|vm_compute; reflexivity|apply sched0_rep|exact Hs|].
  pose proof (turn_inv machine0 (start_with p) machine0_inv (or_introl eq_refl) Hs) as [Hi _ _]. rewrite Heq in *. split; [exact Hi|by exists s].
Qed.

Lemma yields_ok m n : mc_inv m -> mc_current m <> NULL -> head (mc_queue m) = Some (mc_current m) -> turns_ok m (yields n).
Proof.
  intros Hm Hc Hh. revert m Hm Hc Hh. induction n as [|n IH]; intros m Hm Hc Hh; [done|]. destruct (yield_runs [] m Hm Hc Hh) as (Hcur & Hn & Hh').
  assert (turn_ok m (Turn [] HEV_TASK_YIELD [])) as Hok by (split; [done|]; split; [done|constructor]).
  split; [done|]. split; [by right|].
  apply IH; [apply (turn_inv m _ Hm (or_intror Hh) Hok)|..]; change (spec_turn m (Turn [] HEV_TASK_YIELD [])) with (spec_schedule HEV_TASK_YIELD [] m); by rewrite Hcur.
Qed.

Lemma started_yields : turns_ok (started 5) (yields 33).
Proof. by apply yields_ok; [apply started_rep; right| |]. Qed.

Lemma started_lively : lively [64; 128] (started 5).
Proof. apply map_Forall_insert_2; [|apply map_Forall_insert_2; [|apply map_Forall_empty]]; (split; [set_solver|]); by vm_compute. Qed.

(** A task that is behind another runs within 33 turns. *)
Lemma sched_no_starvation_witness :
  exists s picks s', run_turns (yields 33) s = Some (picks, s') /\ sc_current s = 128 /\ 64 ∈ picks.
Proof.
  destruct (started_rep 5 (or_intror eq_refl)) as (Hm & s & Hs).
  destruct (sched_no_starvation s (started 5) (yields 33) [64; 128] 64) as (picks & s' & E & H).
  - exact Hm.
  - exact Hs.
  - discriminate.
  - reflexivity.
  - right. left.
  - apply started_lively.
  - apply started_yields.
  - apply Forall_replicate. constructor.
  - vm_compute. reflexivity.
  - vm_compute. reflexivity.
  - exists s, picks, s'. pose proof (sr_current _ _ (proj1 Hs)) as Hc. split; [exact E|]. split; [exact Hc|]. destruct H as [H|H]; [|exact H].
    rewrite Hc in H. discriminate H.
Defined.

(** A task of priority 0 that yields runs again and again. *)
Lemma sched_realtime_starves_witness :
  exists s s', run_turns (yields 1000) s = Some (replicate 1000 128, s') /\ sc_rep s' (started 0) /\ 64 ∈ mc_queue (started 0).
Proof.
  destruct (started_rep 0 (or_introl eq_refl)) as (Hm & s & Hs).
  destruct (sched_realtime_starves s (started 0) (Task 0 0 0 HEV_TASK_RUNNING 1) 1000) as (s' & E & Hr).
  - exact Hm.
  - exact Hs.
  - reflexivity.
  - reflexivity.
  - reflexivity.
  - reflexivity.
  - intros x Hx Hne. apply elem_of_cons in Hx as [->|Hx]; [by destruct Hne|]. apply list_elem_of_singleton in Hx as ->. vm_compute. reflexivity.
  - vm_compute. reflexivity.
  - exists s, s'. split; [exact E|]. split; [exact Hr|]. right. left.
Defined.
