(* ===== verification/Timer.v ===== *)
(** * Timers (hev-task-system: kern/time/hev-task-timer.c)

    A task that sleeps puts a node with its expiry, an object on its own stack, into a
    tree sorted by expiry and address, and waits; the scheduler wakes the task of the
    first node where it polls.  [hev_task_timer_wait] suspends the task in the middle: it is
    cut into [timer_wait_begin] and [timer_wait_end]; the local variables that live in
    between, the node and [leftmost], are in [ty_frames].  What the clock says is an oracle. *)

From S2P Require Import Prelude RBTree HevList CachedTree Sched.

(** ** Times *)

(** [struct timespec] *)
Record timespec := Timespec { tv_sec : Z; tv_nsec : Z }.

Definition hev_task_timer_cmp (a b : timespec) : Z :=
  if tv_sec a <? tv_sec b then -1 else
  if tv_sec b <? tv_sec a then 1 else
  if tv_nsec a <? tv_nsec b then -1 else
  if tv_nsec b <? tv_nsec a then 1 else 0.

(** [HevTaskTimerNode]; its address is its key in [ty_nodes]. *)
Record tnode := TNode { tn_expire : timespec; tn_task : Z }.

Definition hev_task_timer_node_cmp (a : Z) (na : tnode) (b : Z) (nb : tnode) : Z :=
  let res := hev_task_timer_cmp (tn_expire na) (tn_expire nb) in
  if negb (res =? 0) then res else
  if a <? b then -1 else
  if b <? a then 1 else 0.

Definition hev_task_timer_get_expire (expire : timespec) (milliseconds : Z) : timespec :=
  let sec := tv_sec expire + milliseconds / 1000 in
  let nsec := tv_nsec expire + (milliseconds mod 1000) * 1000000 in
  if 1000000000 <? nsec then Timespec (sec + 1) (nsec - 1000000000) else Timespec sec nsec.

(** The division of C truncates towards zero.  [time_t] has 64 bits here, in which nothing overflows; the result is
    an [unsigned int]. *)
Definition hev_task_timer_get_time (curr expire : timespec) : Z :=
  let sec := tv_sec expire - tv_sec curr in
  let nsec := tv_nsec expire - tv_nsec curr in
  let (sec, nsec) := if nsec <? 0 then (sec - 1, nsec + 1000000000) else (sec, nsec) in
  if sec <? 0 then 0 else u32 (sec * 1000 + Z.quot (nsec + 999999) 1000000).

(** ** State *)

(** The scheduler, its [HevTaskTimer], and the calls of [hev_task_timer_wait] that are
    suspended: the task, its node and [leftmost]. *)
Record tsys := TSys { ty_sched : sched; ty_tree : ctree; ty_nodes : gmap Z tnode; ty_frames : gmap Z (Z * bool) }.

Abbreviation TS := (M tsys).

Definition up_tsched v y := TSys v (ty_tree y) (ty_nodes y) (ty_frames y).
Definition up_ttree v y := TSys (ty_sched y) v (ty_nodes y) (ty_frames y).
Definition up_tnodes v y := TSys (ty_sched y) (ty_tree y) v (ty_frames y).
Definition up_frames v y := TSys (ty_sched y) (ty_tree y) (ty_nodes y) v.

Definition on_sched {A} (c : SC A) : TS A := zoom ty_sched up_tsched c.
Definition on_timer {A} (c : CT A) : TS A := zoom ty_tree up_ttree c.

Definition load_tnode (n : Z) : TS tnode := let* o := gets (fun y => ty_nodes y !! n) in lift_opt o.

(** ** Operations *)

(** An [int]. *)
Definition hev_task_timer_get_timeout (curr : timespec) : TS Z :=
  let* node := on_timer hev_rbtree_cached_first in
  if node =? NULL then ret (-1) else
  let* this := load_tnode node in
  ret (i32 (hev_task_timer_get_time curr (tn_expire this))).

Definition hev_task_timer_wakeup (curr : timespec) : TS unit :=
  let* node := on_timer hev_rbtree_cached_first in
  if node =? NULL then ret tt else
  let* this := load_tnode node in
  if hev_task_timer_cmp curr (tn_expire this) <? 0 then ret tt else
  on_sched (hev_task_system_wakeup_task_with_context (tn_task this)).

Definition hev_task_timer_wake (curr : timespec) : TS unit :=
  let* node := on_timer hev_rbtree_cached_first in
  if node =? NULL then ret tt else
  hev_task_timer_wakeup curr.

(** Up to the call of [hev_task_yield]; the node is a fresh object. *)
Definition timer_wait_begin (node milliseconds task : Z) (curr : timespec) : TS bool :=
  let this := TNode (hev_task_timer_get_expire curr milliseconds) task in
  modify (fun y => up_tnodes (<[node := this]> (ty_nodes y)) y);;
  modify (fun y => up_ttree (CTree (RBMem (rb_root (ct_tree (ty_tree y))) (<[node := RBNode 0 0 0]> (rb_nodes (ct_tree (ty_tree y))))) (ct_left (ty_tree y))) y);;
  let* nodes := gets ty_nodes in
  let less cur := that ← nodes !! cur; Some (hev_task_timer_node_cmp node this cur that <? 0) in
  on_timer (cached_insert less node).

(** Behind it; with the return the node is gone. *)
Definition timer_wait_end (node : Z) (leftmost : bool) (curr : timespec) : TS Z :=
  let* first := on_timer hev_rbtree_cached_first in
  let leftmost := if node =? first then true else leftmost in
  on_timer (hev_rbtree_cached_erase node);;
  (if leftmost : bool then hev_task_timer_wakeup curr else ret tt);;
  let* this := load_tnode node in
  modify (fun y => up_tnodes (delete node (ty_nodes y)) y);;
  ret (hev_task_timer_get_time curr (tn_expire this)).

(** [hev_task_system_io_poll]: the events of the reactor, then the timers. *)
Definition io_poll_timer (woken : list Z) (curr : timespec) : TS unit :=
  on_sched (hev_task_system_io_poll woken);; hev_task_timer_wake curr.

(** ** Turns *)

(** The task that [hev_task_timer_wake] wakes, if any.  The tree does not change while
    the scheduler polls, so this can be read before. *)
Definition timer_due (y : tsys) (curr : timespec) : option (list Z) :=
  let node := ct_left (ty_tree y) in
  if node =? NULL then Some [] else
  this ← ty_nodes y !! node;
  Some (if hev_task_timer_cmp curr (tn_expire this) <? 0 then [] else [tn_task this]).

Fixpoint due_polls (y : tsys) (polls : list (list Z * timespec)) : option (list (list Z)) :=
  match polls with
  | [] => Some []
  | (woken, curr) :: polls => due ← timer_due y curr; rest ← due_polls y polls; Some ((woken ++ due) :: rest)
  end.

(** What the current task does until the processor is given to another: it returns from
    its sleep, acts, and either gives up the processor as in [Sched] or sleeps, for a
    time that is not 0 ([hev_task_sleep]). *)
Record sturn := STurn {
  st_now : timespec;
  st_acts : list act;
  st_end : HevTaskYieldType + (Z * Z * timespec);
  st_polls : list (list Z * timespec)
}.

Definition resume (curr : timespec) : TS unit :=
  let* t := gets (fun y => sc_current (ty_sched y)) in
  let* o := gets (fun y => ty_frames y !! t) in
  match o with
  | Some (node, leftmost) => timer_wait_end node leftmost curr;; modify (fun y => up_frames (delete t (ty_frames y)) y)
  | None => ret tt
  end.

Definition suspend (e : HevTaskYieldType + (Z * Z * timespec)) : TS HevTaskYieldType :=
  match e with
  | inl type => ret type
  | inr (node, milliseconds, curr) =>
    let* t := gets (fun y => sc_current (ty_sched y)) in
    if t =? NULL then fail else
    let* leftmost := timer_wait_begin node milliseconds t curr in
    modify (fun y => up_frames (<[t := (node, leftmost)]> (ty_frames y)) y);;
    ret HEV_TASK_WAITIO
  end.

Definition run_sturn (u : sturn) : TS Z :=
  resume (st_now u);;
  on_sched (run_acts (st_acts u));;
  let* type := suspend (st_end u) in
  let* o := gets (fun y => due_polls y (st_polls u)) in
  let* polls := lift_opt o in
  on_sched (hev_task_system_schedule type polls).

Fixpoint run_sturns (us : list sturn) : TS (list Z) :=
  match us with
  | [] => ret []
  | u :: us => let* t := run_sturn u in let* ts := run_sturns us in ret (t :: ts)
  end.
