(* ===== verification/TimerSpec.v ===== *)
(** * Timers as a sorted list

    Times in nanoseconds, and the machine of [SchedSpec] with the list of sleeping
    tasks in the order in which they are due. *)

From stdpp Require Import sorting.
From S2P Require Import Prelude RBTree RBModel HevList CachedTree Sched SchedSpec SchedInv Timer.

(** ** Times *)

Definition ns (t : timespec) : Z := tv_sec t * 1000000000 + tv_nsec t.

(** What the clock says, and what [hev_task_timer_get_expire] makes of it: the
    nanoseconds of an expiry may be a whole second. *)
Definition clock_ok (t : timespec) : Prop := 0 <= tv_nsec t < 1000000000.
Definition expire_ok (t : timespec) : Prop := 0 <= tv_nsec t <= 1000000000.

Lemma cmp_range a b : hev_task_timer_cmp a b = -1 \/ hev_task_timer_cmp a b = 0 \/ hev_task_timer_cmp a b = 1.
Proof. unfold hev_task_timer_cmp. repeat case_match; auto. Qed.

Lemma cmp_spec a b :
  (hev_task_timer_cmp a b < 0 <-> tv_sec a < tv_sec b \/ tv_sec a = tv_sec b /\ tv_nsec a < tv_nsec b) /\
  (hev_task_timer_cmp a b = 0 <-> tv_sec a = tv_sec b /\ tv_nsec a = tv_nsec b).
Proof.
  unfold hev_task_timer_cmp. destruct (Z.ltb_spec (tv_sec a) (tv_sec b)), (Z.ltb_spec (tv_sec b) (tv_sec a)), (Z.ltb_spec (tv_nsec a) (tv_nsec b)), (Z.ltb_spec (tv_nsec b) (tv_nsec a)); lia.
Qed.

(** An expiry that is not normalised does not matter. *)
Lemma cmp_clock curr expire : clock_ok curr -> expire_ok expire -> hev_task_timer_cmp curr expire < 0 <-> ns curr < ns expire.
Proof. intros H1 H2. rewrite (proj1 (cmp_spec _ _)). unfold clock_ok, expire_ok, ns in *. lia. Qed.

Lemma get_expire_ok curr milliseconds :
  clock_ok curr -> 0 <= milliseconds ->
  expire_ok (hev_task_timer_get_expire curr milliseconds) /\ ns (hev_task_timer_get_expire curr milliseconds) = ns curr + milliseconds * 1000000.
Proof.
  unfold clock_ok, expire_ok, hev_task_timer_get_expire, ns. intros Hc Hm. pose proof (Z.div_mod milliseconds 1000). pose proof (Z.mod_pos_bound milliseconds 1000).
  destruct (Z.ltb_spec 1000000000 (tv_nsec curr + milliseconds mod 1000 * 1000000)); simpl; lia.
Qed.

Definition ceil_ms (d : Z) : Z := (d + 999999) / 1000000.

(** The time that is left, rounded up, in an [unsigned int]. *)
Lemma get_time_ok curr expire :
  clock_ok curr -> expire_ok expire -> hev_task_timer_get_time curr expire = if ns expire <=? ns curr then 0 else u32 (ceil_ms (ns expire - ns curr)).
Proof.
  unfold clock_ok, expire_ok, hev_task_timer_get_time, ns, ceil_ms. intros Hc He.
  set (sec := tv_sec expire - tv_sec curr). set (nsec := tv_nsec expire - tv_nsec curr).
  assert (forall s n, 0 <= n <= 1000000000 -> s * 1000000000 + n = sec * 1000000000 + nsec ->
    (if s <? 0 then 0 else u32 (s * 1000 + Z.quot (n + 999999) 1000000)) =
    if tv_sec expire * 1000000000 + tv_nsec expire <=? tv_sec curr * 1000000000 + tv_nsec curr then 0
    else u32 ((tv_sec expire * 1000000000 + tv_nsec expire - (tv_sec curr * 1000000000 + tv_nsec curr) + 999999) / 1000000)) as H.
  { intros s n Hn Heq. unfold sec, nsec in Heq. replace (tv_sec expire * 1000000000 + tv_nsec expire - (tv_sec curr * 1000000000 + tv_nsec curr) + 999999)
      with (n + 999999 + s * 1000 * 1000000) by lia. rewrite Z.div_add, Z.quot_div_nonneg by lia.
    destruct (Z.ltb_spec s 0), (Z.leb_spec (tv_sec expire * 1000000000 + tv_nsec expire) (tv_sec curr * 1000000000 + tv_nsec curr)); try lia.
    - assert (s = 0 /\ n = 0) as [-> ->] by lia. done.
    - f_equal. lia. }
  destruct (Z.ltb_spec nsec 0); apply H; lia.
Qed.

(** ** The order of the nodes *)

Lemma node_cmp_spec a na b nb :
  hev_task_timer_node_cmp a na b nb < 0 <->
  tv_sec (tn_expire na) < tv_sec (tn_expire nb) \/ tv_sec (tn_expire na) = tv_sec (tn_expire nb) /\
    (tv_nsec (tn_expire na) < tv_nsec (tn_expire nb) \/ tv_nsec (tn_expire na) = tv_nsec (tn_expire nb) /\ a < b).
Proof.
  unfold hev_task_timer_node_cmp. destruct (cmp_spec (tn_expire na) (tn_expire nb)) as [H1 H2]. destruct (Z.eqb_spec (hev_task_timer_cmp (tn_expire na) (tn_expire nb)) 0) as [E|E]; cbn [negb].
  - destruct (Z.ltb_spec a b), (Z.ltb_spec b a); lia.
  - lia.
Qed.

(** [a] is due before [b]. *)
Definition sooner (nodes : gmap Z tnode) (a b : Z) : Prop :=
  match nodes !! a, nodes !! b with
  | Some na, Some nb => hev_task_timer_node_cmp a na b nb < 0
  | _, _ => False
  end.

#[global] Instance sooner_dec nodes a b : Decision (sooner nodes a b).
Proof. unfold sooner. destruct (nodes !! a), (nodes !! b); apply _. Defined.

Lemma sooner_trans nodes a b c : sooner nodes a b -> sooner nodes b c -> sooner nodes a c.
Proof.
  unfold sooner. destruct (nodes !! a) as [na|], (nodes !! b) as [nb|], (nodes !! c) as [nc|]; try done. rewrite !node_cmp_spec. lia.
Qed.

Lemma sooner_irrefl nodes a : ~ sooner nodes a a.
Proof. unfold sooner. destruct (nodes !! a); [|tauto]. rewrite node_cmp_spec. lia. Qed.

Lemma sooner_same nodes nodes' a b : nodes' !! a = nodes !! a -> nodes' !! b = nodes !! b -> sooner nodes a b -> sooner nodes' a b.
Proof. unfold sooner. by intros -> ->. Qed.

Lemma sooner_ns nodes a b na nb :
  nodes !! a = Some na -> nodes !! b = Some nb -> expire_ok (tn_expire na) -> expire_ok (tn_expire nb) -> sooner nodes a b -> ns (tn_expire na) <= ns (tn_expire nb).
Proof. unfold sooner. intros -> -> Ha Hb. rewrite node_cmp_spec. unfold expire_ok, ns in *. lia. Qed.

(** ** The machine with timers *)

(** [ck_queue] are the nodes in order, [ck_frames] the sleeping tasks with their node
    and [leftmost]. *)
Record clocked := Clocked { ck_machine : machine; ck_queue : list Z; ck_nodes : gmap Z tnode; ck_frames : gmap Z (Z * bool) }.

Definition spec_due (k : clocked) (curr : timespec) : list Z :=
  match ck_queue k with
  | [] => []
  | n :: _ => match ck_nodes k !! n with
              | Some x => if decide (hev_task_timer_cmp curr (tn_expire x) < 0) then [] else [tn_task x]
              | None => []
              end
  end.

(** The tasks that a task which returns from its sleep wakes. *)
Definition spec_chain (curr : timespec) (k : clocked) : list Z :=
  match ck_frames k !! mc_current (ck_machine k) with
  | Some (n, leftmost) =>
    if decide (head (ck_queue k) = Some n \/ leftmost = true) then spec_due (Clocked (ck_machine k) (without n (ck_queue k)) (ck_nodes k) (ck_frames k)) curr else []
  | None => []
  end.

Definition spec_resume (curr : timespec) (k : clocked) : clocked :=
  let m := ck_machine k in
  match ck_frames k !! mc_current m with
  | Some (n, _) => Clocked (foldl spec_wake m (spec_chain curr k)) (without n (ck_queue k)) (delete n (ck_nodes k)) (delete (mc_current m) (ck_frames k))
  | None => k
  end.

Definition with_machine (m : machine) (k : clocked) : clocked := Clocked m (ck_queue k) (ck_nodes k) (ck_frames k).

Definition enlist (nodes : gmap Z tnode) (n : Z) (q : list Z) : list Z := queue_insert (fun x => bool_decide (sooner nodes n x)) n q.

Definition spec_suspend (e : HevTaskYieldType + (Z * Z * timespec)) (k : clocked) : HevTaskYieldType * clocked :=
  match e with
  | inl type => (type, k)
  | inr (n, milliseconds, curr) =>
    let t := mc_current (ck_machine k) in
    let nodes := <[n := TNode (hev_task_timer_get_expire curr milliseconds) t]> (ck_nodes k) in
    let q := enlist nodes n (ck_queue k) in
    (HEV_TASK_WAITIO, Clocked (ck_machine k) q nodes (<[t := (n, bool_decide (head q = Some n))]> (ck_frames k)))
  end.

Definition spec_polls (k : clocked) (polls : list (list Z * timespec)) : list (list Z) := (fun p => p.1 ++ spec_due k p.2) <$> polls.

(** What the task does before it gives up the processor. *)
Definition spec_busy (k : clocked) (u : sturn) : clocked :=
  let k1 := spec_resume (st_now u) k in with_machine (foldl spec_act (ck_machine k1) (st_acts u)) k1.

Definition spec_sturn (k : clocked) (u : sturn) : Z * clocked :=
  let x := spec_suspend (st_end u) (spec_busy k u) in
  let r := spec_schedule x.1 (spec_polls x.2 (st_polls u)) (ck_machine x.2) in
  (r.1, with_machine r.2 x.2).

Fixpoint spec_sturns (k : clocked) (us : list sturn) : list Z * clocked :=
  match us with
  | [] => ([], k)
  | u :: us => let x := spec_sturn k u in let y := spec_sturns x.2 us in (x.1 :: y.1, y.2)
  end.

(** It is a turn of the machine without timers. *)
Definition plain_turn (k : clocked) (u : sturn) : turn :=
  let x := spec_suspend (st_end u) (spec_busy k u) in
  Turn ((AWake <$> spec_chain (st_now u) k) ++ st_acts u) x.1 (spec_polls x.2 (st_polls u)).

Lemma foldl_wakes m ts : foldl spec_act m (AWake <$> ts) = foldl spec_wake m ts.
Proof. revert m. induction ts as [|t ts IH]; intros m; simpl; auto. Qed.

Lemma chain_machine curr k : ck_machine (spec_resume curr k) = foldl spec_wake (ck_machine k) (spec_chain curr k).
Proof. unfold spec_resume, spec_chain. by destruct (ck_frames k !! mc_current (ck_machine k)) as [[n l]|]. Qed.

Lemma suspend_machine e k : ck_machine (spec_suspend e k).2 = ck_machine k.
Proof. by destruct e as [type|[[n ms] curr]]. Qed.

Lemma busy_machine k u : ck_machine (spec_busy k u) = foldl spec_act (ck_machine k) (tu_acts (plain_turn k u)).
Proof. unfold spec_busy, plain_turn. simpl. by rewrite foldl_app, foldl_wakes, chain_machine. Qed.

Lemma sturn_plain k u :
  spec_sturn k u = ((spec_turn (ck_machine k) (plain_turn k u)).1, with_machine (spec_turn (ck_machine k) (plain_turn k u)).2 (spec_suspend (st_end u) (spec_busy k u)).2).
Proof. unfold spec_sturn, spec_turn. rewrite <-busy_machine, suspend_machine. done. Qed.

(** ** The invariant *)

(** Of the timers. *)
Record timers_inv (k : clocked) : Prop := {
  ti_sorted : StronglySorted (sooner (ck_nodes k)) (ck_queue k);
  ti_nodes : forall n, n ∈ ck_queue k <-> is_Some (ck_nodes k !! n);
  ti_node : forall n x, ck_nodes k !! n = Some x -> okp n /\ expire_ok (tn_expire x) /\ exists l, ck_frames k !! tn_task x = Some (n, l);
  ti_frame : forall t n l, ck_frames k !! t = Some (n, l) -> exists x, ck_nodes k !! n = Some x /\ tn_task x = t
}.

(** Of the whole: nobody ends a task that sleeps. *)
Record ck_inv (k : clocked) : Prop := {
  ki_machine : mc_inv (ck_machine k);
  ki_timers : timers_inv k;
  ki_alive : forall t, is_Some (ck_frames k !! t) -> alive (ck_machine k) t
}.

(** What a task does in its turn. *)
Definition sturn_ok (k : clocked) (u : sturn) : Prop :=
  let k1 := spec_resume (st_now u) k in
  let x := spec_suspend (st_end u) (spec_busy k u) in
  clock_ok (st_now u) /\ acts_ok (ck_machine k1) (st_acts u) /\ st_polls u <> [] /\
  match st_end u with
  | inl type => mc_current (ck_machine k) = NULL -> type = HEV_TASK_YIELD_COUNT
  | inr (n, milliseconds, curr) =>
    mc_current (ck_machine k) <> NULL /\ okp n /\ ck_nodes k1 !! n = None /\ 0 < milliseconds /\ clock_ok curr
  end /\
  Forall (fun p => Forall (alive (if mc_current (ck_machine x.2) =? NULL then ck_machine x.2 else spec_leave x.1 (ck_machine x.2))) p.1 /\ clock_ok p.2) (st_polls u).

Fixpoint sturns_ok (k : clocked) (us : list sturn) : Prop :=
  match us with
  | [] => True
  | u :: us => sturn_ok k u /\ (us = [] \/ mc_current (ck_machine (spec_sturn k u).2) = (spec_sturn k u).1) /\ sturns_ok (spec_sturn k u).2 us
  end.

Lemma sooner_nodup nodes q : StronglySorted (sooner nodes) q -> NoDup q.
Proof.
  induction 1 as [|x q Hs IH HF]; constructor; [|done]. intros Hx. rewrite Forall_forall in HF. by apply (sooner_irrefl nodes x), HF.
Qed.

Lemma sorted_nodes nodes nodes' q : (forall x, x ∈ q -> nodes' !! x = nodes !! x) -> StronglySorted (sooner nodes) q -> StronglySorted (sooner nodes') q.
Proof.
  intros He Hs. induction Hs as [|x q Hs IH HF]; constructor; [apply IH; set_solver|].
  rewrite Forall_forall in HF |- *. intros y Hy. eapply sooner_same; [apply He; set_solver..|by apply HF].
Qed.

Lemma sooner_total nodes a b na nb : nodes !! a = Some na -> nodes !! b = Some nb -> a <> b -> sooner nodes a b \/ sooner nodes b a.
Proof. unfold sooner. intros -> ->. rewrite !node_cmp_spec. lia. Qed.

Lemma enlist_sorted nodes n q :
  StronglySorted (sooner nodes) q -> (forall x, x ∈ q -> x <> n /\ is_Some (nodes !! x)) -> is_Some (nodes !! n) -> StronglySorted (sooner nodes) (enlist nodes n q).
Proof.
  unfold enlist. intros Hs Hq [nn Hn]. induction Hs as [|x q Hs IH HF]; simpl; [repeat constructor|]. case_bool_decide as Hx.
  - constructor; [by constructor|]. constructor; [done|]. eapply Forall_impl; [exact HF|]. intros y. by apply sooner_trans.
  - constructor; [apply IH; set_solver|]. rewrite queue_insert_perm. constructor; [|done].
    destruct (Hq x) as [Hxn [nx Ex]]; [by left|]. by destruct (sooner_total nodes n x nn nx).
Qed.

(** *** Resuming *)

Lemma due_spec k curr t :
  t ∈ spec_due k curr <-> exists n x, head (ck_queue k) = Some n /\ ck_nodes k !! n = Some x /\ tn_task x = t /\ ~ hev_task_timer_cmp curr (tn_expire x) < 0.
Proof.
  unfold spec_due. destruct (ck_queue k) as [|n q]; simpl; [rewrite elem_of_nil; naive_solver|].
  destruct (ck_nodes k !! n) as [x|] eqn:E; [|rewrite elem_of_nil; naive_solver].
  destruct (decide _); [rewrite elem_of_nil|rewrite list_elem_of_singleton]; naive_solver.
Qed.

Lemma node_alive k n x : ck_inv k -> ck_nodes k !! n = Some x -> alive (ck_machine k) (tn_task x).
Proof. intros Hk E. destruct (ti_node _ (ki_timers _ Hk) _ _ E) as (_ & _ & l & Hl). apply (ki_alive _ Hk). by eexists. Qed.

Lemma due_alive k curr : ck_inv k -> Forall (alive (ck_machine k)) (spec_due k curr).
Proof. intros Hk. apply Forall_forall. intros t (n & x & _ & E & <- & _)%due_spec. by eapply node_alive. Qed.

Lemma chain_alive k curr : ck_inv k -> Forall (alive (ck_machine k)) (spec_chain curr k).
Proof.
  intros Hk. unfold spec_chain. destruct (ck_frames k !! _) as [[n l]|]; [|done]. destruct (decide _); [|done].
  apply Forall_forall. intros t (n' & x & _ & E & <- & _)%due_spec. by eapply (node_alive k).
Qed.

Lemma chain_acts m ts : Forall (alive m) ts -> acts_ok m (AWake <$> ts).
Proof.
  revert m. induction ts as [|t ts IH]; intros m; simpl; [done|]. intros [Ht Hts]%Forall_cons. split; [done|]. apply IH.
  eapply Forall_impl; [exact Hts|]. intros x. apply wake_alive.
Qed.

(** *** The list of timers *)

Lemma resume_timers curr k :
  timers_inv k -> timers_inv (spec_resume curr k) /\ ck_frames (spec_resume curr k) = delete (mc_current (ck_machine k)) (ck_frames k).
Proof.
  intros [H1 H2 H3 H4]. unfold spec_resume. set (c := mc_current (ck_machine k)). destruct (ck_frames k !! c) as [[n l]|] eqn:E.
  2: { split; [by split|]. by rewrite delete_id. }
  destruct (H4 _ _ _ E) as (x & Ex & Hx). split; [|done]. split; simpl.
  - eapply sorted_nodes; [|by apply sorted_filter]. intros y [Hy _]%without_in. by rewrite lookup_delete_ne.
  - intros y. rewrite without_in, H2, lookup_delete_is_Some. naive_solver.
  - intros y x' [Hy Ey]%lookup_delete_Some. destruct (H3 _ _ Ey) as (? & ? & l' & Hl'). split_and!; [done..|]. exists l'.
    rewrite lookup_delete_ne; [done|]. intros Hc. rewrite <-Hc, E in Hl'. congruence.
  - intros t y l' [Ht Et]%lookup_delete_Some. destruct (H4 _ _ _ Et) as (x' & Ex' & Hx'). exists x'. rewrite lookup_delete_ne; [done|].
    intros Hny. rewrite <-Hny, Ex in Ex'. congruence.
Qed.

Lemma suspend_timers e k :
  timers_inv k -> ck_frames k !! mc_current (ck_machine k) = None ->
  match e with inr (n, ms, curr) => okp n /\ ck_nodes k !! n = None /\ 0 < ms /\ clock_ok curr | inl _ => True end ->
  timers_inv (spec_suspend e k).2.
Proof.
  intros [H1 H2 H3 H4] Hf. destruct e as [type|[[n ms] curr]]; [by split|]. intros (Hok & Hn & Hms & Hcl). simpl. set (c := mc_current (ck_machine k)) in *.
  set (x := TNode (hev_task_timer_get_expire curr ms) c). destruct (get_expire_ok curr ms Hcl ltac:(lia)) as [He _].
  assert (n ∉ ck_queue k) as Hnq by (rewrite H2, Hn; by intros [? [=]]). split; simpl.
  - apply enlist_sorted; [|intros y Hy; split; [by intros ->|apply lookup_insert_is_Some'; right; by apply H2]|rewrite lookup_insert_eq; by eexists].
    eapply sorted_nodes; [|exact H1]. intros y Hy. rewrite lookup_insert_ne; [done|]. by intros ->.
  - intros y. unfold enlist. rewrite queue_insert_perm, elem_of_cons, H2, lookup_insert_is_Some'. naive_solver.
  - intros y x' [[<- <-]|[Hy Ey]]%lookup_insert_Some; [split_and!; [done..|]; eexists; apply lookup_insert_eq|].
    destruct (H3 _ _ Ey) as (? & ? & l' & Hl'). split_and!; [done..|]. exists l'. rewrite lookup_insert_ne; [done|]. intros Hc. by rewrite <-Hc, Hf in Hl'.
  - intros t y l' [[<- [= <- _]]|[Ht Et]]%lookup_insert_Some; [exists x; by rewrite lookup_insert_eq|].
    destruct (H4 _ _ _ Et) as (x' & Ex' & Hx'). exists x'. rewrite lookup_insert_ne; [done|]. intros ->. by rewrite Hn in Ex'.
Qed.

(** *** Turns *)

Lemma acts_app m a b : acts_ok m (a ++ b) <-> acts_ok m a /\ acts_ok (foldl spec_act m a) b.
Proof. revert m. induction a as [|x a IH]; intros m; simpl; [tauto|]. rewrite IH. tauto. Qed.

Lemma plain_acts_ok k u : ck_inv k -> sturn_ok k u -> acts_ok (ck_machine k) (tu_acts (plain_turn k u)).
Proof.
  intros Hk (_ & Ha & _). simpl. apply acts_app. split; [by apply chain_acts, chain_alive|]. by rewrite foldl_wakes, <-chain_machine.
Qed.

Lemma busy_inv k u :
  ck_inv k -> sturn_ok k u ->
  let k1 := spec_busy k u in
  ck_inv k1 /\ same_first (ck_machine k) (ck_machine k1) /\ ck_frames k1 = delete (mc_current (ck_machine k)) (ck_frames k).
Proof.
  intros Hk Hu k1. destruct (acts_inv _ _ (ki_machine _ Hk) (plain_acts_ok k u Hk Hu)) as [Hm Hsf]. rewrite <-busy_machine in Hm, Hsf. fold k1 in Hm, Hsf.
  destruct (resume_timers (st_now u) k (ki_timers _ Hk)) as [Ht Hf]. split; [split; [done| |]|done].
  - unfold k1, spec_busy. by destruct Ht.
  - intros t Hft. unfold k1. rewrite busy_machine. apply acts_alive; [by apply plain_acts_ok|]. apply (ki_alive _ Hk).
    unfold k1, spec_busy in Hft. simpl in Hft. rewrite Hf in Hft. by apply lookup_delete_is_Some in Hft as [_ ?].
Qed.

Lemma suspend_inv e k :
  ck_inv k -> ready (ck_machine k) -> ck_frames k !! mc_current (ck_machine k) = None ->
  match e with inr (n, ms, curr) => mc_current (ck_machine k) <> NULL /\ okp n /\ ck_nodes k !! n = None /\ 0 < ms /\ clock_ok curr | inl _ => True end ->
  ck_inv (spec_suspend e k).2 /\
  (forall t, is_Some (ck_frames (spec_suspend e k).2 !! t) -> t <> mc_current (ck_machine k) \/ (spec_suspend e k).1 <> HEV_TASK_YIELD_COUNT).
Proof.
  intros Hk Hr Hf He. split; [split|].
  - rewrite suspend_machine. apply Hk.
  - apply suspend_timers; [apply Hk|done|]. destruct e as [|[[n ms] curr]]; [done|tauto].
  - rewrite suspend_machine. destruct e as [type|[[n ms] curr]]; [apply Hk|]. simpl. intros t [<-|Ht]%lookup_insert_is_Some'; [|by apply (ki_alive _ Hk)].
    destruct Hr as [Hr|Hr]; [tauto|]. destruct (current_task _ (ki_machine _ Hk) Hr) as (tk & E & Hs). exists tk. split; [done|by rewrite Hs].
  - intros t. destruct e as [type|[[n ms] curr]]; simpl; [|by right]. intros Ht. left. intros ->. rewrite Hf in Ht. by destruct Ht.
Qed.

Lemma sturn_inv k u :
  ck_inv k -> ready (ck_machine k) -> sturn_ok k u ->
  turn_ok (ck_machine k) (plain_turn k u) /\ ck_inv (spec_sturn k u).2.
Proof.
  intros Hk Hr Hu. destruct (busy_inv k u Hk Hu) as (Hb & Hsf & Hf). pose proof (same_first_ready _ _ Hsf Hr) as Hrb.
  pose proof (sf_current _ _ Hsf) as Hcur. pose proof Hu as (_ & _ & _ & He & Hp).
  destruct (suspend_inv (st_end u) (spec_busy k u) Hb Hrb) as [Hs Ht].
  { rewrite Hf, Hcur. apply lookup_delete_eq. }
  { rewrite Hcur. by destruct (st_end u) as [|[[n ms] curr]]. }
  assert (turn_ok (ck_machine k) (plain_turn k u)) as Hto.
  { split; [by apply plain_acts_ok|]. split; [simpl; destruct (st_end u) as [|[[n ms] curr]]; [done|tauto]|].
    rewrite <-busy_machine. simpl. unfold polls_ok, spec_polls. apply Forall_fmap. eapply Forall_impl; [exact Hp|]. intros [woken curr] [Hw _].
    rewrite suspend_machine in Hw. simpl. apply Forall_app. split; [exact Hw|]. apply Forall_forall. intros t Hd.
    assert (alive (ck_machine (spec_busy k u)) t /\ (t <> mc_current (ck_machine (spec_busy k u)) \/ (spec_suspend (st_end u) (spec_busy k u)).1 <> HEV_TASK_YIELD_COUNT)) as [Hat Hor].
    { apply due_spec in Hd as (n & x & _ & E & <- & _). destruct (ti_node _ (ki_timers _ Hs) _ _ E) as (_ & _ & l & Hl).
      split; [rewrite <-(suspend_machine (st_end u)); apply (ki_alive _ Hs); by eexists|apply Ht; by eexists]. }
    change (foldl spec_act _ (st_acts u)) with (ck_machine (spec_busy k u)).
    destruct (mc_current (ck_machine (spec_busy k u)) =? NULL); [done|by apply leave_alive]. }
  split; [done|]. pose proof (turn_inv _ _ (ki_machine _ Hk) Hr Hto) as [Hi _ _]. rewrite sturn_plain. split; [exact Hi|by destruct (ki_timers _ Hs)|].
  intros t Hft. simpl in *. pose proof (ki_alive _ Hs t Hft) as Hat. rewrite suspend_machine in Hat.
  unfold spec_turn. rewrite <-busy_machine. by apply schedule_alive; [|apply Ht].
Qed.
