(* ===== verification/TimerRep.v ===== *)
(** * The timers implement the sorted list

    [ty_rep y k]: the tree of timers holds the nodes of [k] in order, beside the
    scheduler.  Each turn on [y] does what the one of [TimerSpec] does on [k]. *)

From stdpp Require Import sorting.
From S2P Require Import Prelude RBTree RBModel RBRep RBSpec HevList CachedTree Sched SchedSpec SchedInv SchedRep Timer TimerSpec.

Record ty_rep (y : tsys) (k : clocked) : Prop := {
  yr_sched : sc_rep (ty_sched y) (ck_machine k);
  yr_tree : cached_rep (ty_tree y) (ck_queue k);
  yr_nodes : ty_nodes y = ck_nodes k;
  yr_frames : ty_frames y = ck_frames k
}.

(** ** Steps *)

Lemma on_sched_ok {A} (c : SC A) y a s' : c (ty_sched y) = Some (a, s') -> on_sched c y = Some (a, up_tsched s' y).
Proof. intros E. unfold on_sched, zoom. by rewrite E. Qed.

Lemma on_timer_ok {A} (c : CT A) y a c' : c (ty_tree y) = Some (a, c') -> on_timer c y = Some (a, up_ttree c' y).
Proof. intros E. unfold on_timer, zoom. by rewrite E. Qed.

Lemma load_tnode_ok y n x : ty_nodes y !! n = Some x -> load_tnode n y = Some (x, y).
Proof. intros E. unfold load_tnode, bind, gets, lift_opt. by rewrite E. Qed.

Lemma timer_first_ok y q : cached_rep (ty_tree y) q -> on_timer hev_rbtree_cached_first y = Some (edge L q, y).
Proof. intros H. erewrite on_timer_ok by (by apply cached_first). by destruct y. Qed.

(** The first node, in the three places that look at it. *)
Lemma timer_wakeup_ok y k curr :
  mc_inv (ck_machine k) -> keys_fit (ck_machine k) -> ty_rep y k -> Forall okp (ck_queue k) -> (forall n, n ∈ ck_queue k -> is_Some (ck_nodes k !! n)) ->
  Forall (alive (ck_machine k)) (spec_due k curr) ->
  exists s', hev_task_timer_wakeup curr y = Some (tt, up_tsched s' y) /\ sc_rep s' (foldl spec_wake (ck_machine k) (spec_due k curr)).
Proof.
  intros Hm Hfit [Hs Ht Hn Hf] Hok Hex Hal. unfold hev_task_timer_wakeup. erewrite bind_Some by (by eapply timer_first_ok). revert Hal. unfold spec_due.
  assert (exists s', ret tt y = Some (tt, up_tsched s' y) /\ sc_rep s' (ck_machine k)) as Hnone by (exists (ty_sched y); split; [by destruct y|done]).
  unfold edge. destruct (ck_queue k) as [|n q]; [done|]. simpl. apply Forall_cons in Hok as [Hok _]. rewrite okp_eqb by done.
  destruct (Hex n) as [x E]; [by left|]. rewrite E. erewrite bind_Some by (apply load_tnode_ok; by rewrite Hn).
  destruct (decide _) as [Hlt|Hge]; [by rewrite (proj2 (Z.ltb_lt _ _))|]. rewrite (proj2 (Z.ltb_ge _ _)) by lia.
  intros [Hal _]%Forall_cons. destruct (wakeup_ok (ty_sched y) (ck_machine k) (tn_task x)) as (s' & Ew & Hs'); try done.
  exists s'. split; [by apply on_sched_ok|done].
Qed.

Lemma io_poll_app a b s : hev_task_system_io_poll (a ++ b) s = (hev_task_system_io_poll a;; hev_task_system_io_poll b) s.
Proof.
  revert s. induction a as [|t a IH]; intros s; simpl; [done|]. unfold bind in *.
  destruct (hev_task_system_wakeup_task_with_context t s) as [[? s1]|]; [apply IH|done].
Qed.

Lemma queue_nodes k : timers_inv k -> Forall okp (ck_queue k) /\ (forall n, n ∈ ck_queue k -> is_Some (ck_nodes k !! n)).
Proof.
  intros Hk. split; [|intros n; apply (ti_nodes _ Hk)]. apply Forall_forall. intros n [x E]%(ti_nodes _ Hk). by destruct (ti_node _ Hk _ _ E).
Qed.

Lemma timer_due_ok y k curr : timers_inv k -> ty_rep y k -> timer_due y curr = Some (spec_due k curr).
Proof.
  intros Hk [_ [_ Hl] Hn _]. destruct (queue_nodes k Hk) as [Hok Hex]. unfold timer_due, spec_due. rewrite Hl. unfold edge.
  destruct (ck_queue k) as [|n q]; [done|]. simpl. apply Forall_cons in Hok as [Hok _]. rewrite okp_eqb, Hn by done.
  destruct (Hex n) as [x ->]; [by left|]. simpl. destruct (decide _); [by rewrite (proj2 (Z.ltb_lt _ _))|]. by rewrite (proj2 (Z.ltb_ge _ _)) by lia.
Qed.

(** The poll of the reactor and the timers is a poll of [Sched] that also wakes the
    task that is due. *)
Lemma io_poll_timer_ok y k woken curr :
  ck_inv k -> ty_rep y k -> keys_fit (ck_machine k) -> Forall (alive (ck_machine k)) woken ->
  exists s', io_poll_timer woken curr y = Some (tt, up_tsched s' y) /\ hev_task_system_io_poll (woken ++ spec_due k curr) (ty_sched y) = Some (tt, s').
Proof.
  intros Hk Hy Hfit Hw. destruct (wakes_ok (ty_sched y) (ck_machine k) woken) as (s1 & E1 & Hs1); [apply Hk|done|apply Hy|done|].
  set (k1 := with_machine (foldl spec_wake (ck_machine k) woken) k). destruct (wakes_inv _ woken (ki_machine _ Hk)) as [Hm1 Hsf].
  destruct (queue_nodes k (ki_timers _ Hk)) as [Hok Hex].
  assert (ty_rep (up_tsched s1 y) k1) as Hy1 by (destruct Hy; by split).
  destruct (timer_wakeup_ok (up_tsched s1 y) k1 curr) as (s' & E & Hs'); try done.
  - by eapply keys_fit_first.
  - change (spec_due k1 curr) with (spec_due k curr). eapply Forall_impl; [by apply due_alive|]. intros x. apply wakes_alive.
  - exists s'. assert (hev_task_timer_wake curr (up_tsched s1 y) = Some (tt, up_tsched s' (up_tsched s1 y)) /\ hev_task_system_io_poll (spec_due k curr) s1 = Some (tt, s')) as [Ew Ep].
    { unfold hev_task_timer_wake. erewrite bind_Some by (eapply (timer_first_ok _ (ck_queue k)), Hy). split.
      - destruct (Z.eqb_spec (edge L (ck_queue k)) NULL) as [Hz|Hz]; [|exact E]. revert E. unfold hev_task_timer_wakeup.
        erewrite bind_Some by (eapply (timer_first_ok _ (ck_queue k)), Hy). by rewrite Hz.
      - revert E. unfold hev_task_timer_wakeup. erewrite bind_Some by (eapply (timer_first_ok _ (ck_queue k)), Hy). unfold spec_due, edge.
        destruct (ck_queue k) as [|n q]; simpl; [by intros [= ->]|]. apply Forall_cons in Hok as [Hok _]. rewrite okp_eqb by done.
        destruct (Hex n) as [x Ex]; [by left|]. rewrite Ex. erewrite bind_Some by (apply load_tnode_ok; simpl; by rewrite (yr_nodes _ _ Hy)).
        destruct (decide _); [rewrite (proj2 (Z.ltb_lt _ _)) by done; by intros [= ->]|]. rewrite (proj2 (Z.ltb_ge _ _)) by lia. simpl.
        unfold on_sched, zoom. simpl. unfold bind. destruct (hev_task_system_wakeup_task_with_context (tn_task x) s1) as [[[] s2]|]; [|done].
        by intros [= ->]. }
    split; [unfold io_poll_timer; by erewrite bind_Some by (by apply on_sched_ok)|]. rewrite io_poll_app. by erewrite bind_Some by exact E1.
Qed.

(** ** Going to sleep *)

Lemma sooner_less_mono nodes n this q :
  nodes !! n = Some this -> (forall x, x ∈ q -> is_Some (nodes !! x)) -> StronglySorted (sooner nodes) q ->
  less_mono (fun cur => that ← nodes !! cur; Some (hev_task_timer_node_cmp n this cur that <? 0)) (fun x => bool_decide (sooner nodes n x)) q.
Proof.
  intros E Hx Hs. split.
  - apply Forall_forall. intros x Hq. destruct (Hx x Hq) as [that Ex]. rewrite Ex. simpl. f_equal. apply eq_bool_prop_intro.
    rewrite bool_decide_spec, Is_true_true, Z.ltb_lt. unfold sooner. by rewrite E, Ex.
  - eapply sorted_weaken; [|exact Hs]. intros a b Hab Ha%bool_decide_eq_true. apply bool_decide_eq_true. by eapply sooner_trans.
Qed.

Lemma wait_begin_ok y k n ms curr :
  timers_inv k -> ty_rep y k -> okp n -> ck_nodes k !! n = None ->
  let t := mc_current (ck_machine k) in
  let nodes := <[n := TNode (hev_task_timer_get_expire curr ms) t]> (ck_nodes k) in
  exists c', timer_wait_begin n ms t curr y = Some (bool_decide (head (enlist nodes n (ck_queue k)) = Some n), up_ttree c' (up_tnodes nodes y)) /\
    cached_rep c' (enlist nodes n (ck_queue k)).
Proof.
  intros Hk [_ [Hq Hl] Hn _] Hok Hnone t nodes. set (this := TNode (hev_task_timer_get_expire curr ms) t).
  assert (n ∉ ck_queue k) as Hni by (rewrite (ti_nodes _ Hk), Hnone; by intros [? [=]]).
  set (c0 := CTree (RBMem (rb_root (ct_tree (ty_tree y))) (<[n := RBNode 0 0 0]> (rb_nodes (ct_tree (ty_tree y))))) (ct_left (ty_tree y))).
  assert (cached_rep c0 (ck_queue k)) as Hc0.
  { split; [|done]. eapply rb_tree_frame; [exact Hq|done|]. intros x Hx. simpl. apply lookup_insert_ne. by intros ->. }
  destruct (cached_insert_ok (fun cur => that ← nodes !! cur; Some (hev_task_timer_node_cmp n this cur that <? 0)) (fun x => bool_decide (sooner nodes n x)) c0 (ck_queue k) n)
    as (c' & E & Hc' & _); try done.
  - apply sooner_less_mono; [apply lookup_insert_eq|intros x Hx; apply lookup_insert_is_Some'; right; by apply (ti_nodes _ Hk)|].
    eapply sorted_nodes; [|apply (ti_sorted _ Hk)]. intros x Hx. apply lookup_insert_ne. by intros ->.
  - simpl. rewrite lookup_insert_eq. by eexists.
  - exists c'. split; [|done]. unfold timer_wait_begin. fold this. erewrite bind_Some by reflexivity. erewrite bind_Some by reflexivity.
    erewrite bind_Some by reflexivity. cbn [ty_nodes up_tnodes up_ttree]. rewrite Hn. by erewrite on_timer_ok by exact E.
Qed.

(** ** Waking up *)

Lemma wait_end_ok y k n l curr x :
  ck_inv k -> ty_rep y k -> keys_fit (ck_machine k) -> ck_frames k !! mc_current (ck_machine k) = Some (n, l) -> ck_nodes k !! n = Some x ->
  exists c' s', timer_wait_end n l curr y = Some (hev_task_timer_get_time curr (tn_expire x), TSys s' c' (delete n (ty_nodes y)) (ty_frames y)) /\
    cached_rep c' (without n (ck_queue k)) /\ sc_rep s' (foldl spec_wake (ck_machine k) (spec_chain curr k)).
Proof.
  intros Hk Hy Hfit Ef Ex. pose proof (chain_alive k curr Hk) as Hal. unfold spec_chain in *. rewrite Ef in *. pose proof (ki_timers _ Hk) as Ht.
  assert (n ∈ ck_queue k) as (q1 & q2 & Hq)%list_elem_of_split by (apply (ti_nodes _ Ht); by eexists).
  pose proof (sooner_nodup _ _ (ti_sorted _ Ht)) as Hnd. destruct (queue_nodes k Ht) as [Hok Hex].
  assert (without n (ck_queue k) = q1 ++ q2) as Hw.
  { rewrite Hq in Hnd |- *. apply NoDup_app in Hnd as (_ & Hd & [Hn2 _]%NoDup_cons). unfold without. rewrite filter_app, filter_cons_False by (by intros []).
    fold (without n q1) (without n q2). rewrite !without_notin; [done|done|]. intros Hn1. apply (Hd n Hn1). by left. }
  destruct (cached_erase_ok (ty_tree y) q1 n q2) as (c' & Ec & Hc' & _); [rewrite <-Hq; apply Hy|].
  set (k1 := Clocked (ck_machine k) (without n (ck_queue k)) (ck_nodes k) (ck_frames k)) in *.
  assert (ty_rep (up_ttree c' y) k1) as Hy1 by (destruct Hy; split; try done; simpl; by rewrite Hw).
  exists c'. unfold timer_wait_end. erewrite bind_Some by (eapply timer_first_ok, Hy). erewrite bind_Some by (by apply on_timer_ok).
  assert ((if n =? edge L (ck_queue k) then true else l) = bool_decide (head (ck_queue k) = Some n \/ l = true)) as Hb.
  { unfold edge. destruct (ck_queue k) as [|f q]; [by destruct q1|]. simpl. destruct (Z.eqb_spec n f) as [->|Hne].
    - by rewrite bool_decide_true by (by left).
    - destruct l; [by rewrite bool_decide_true by (by right)|]. rewrite bool_decide_false; [done|]. intros [[= ->]|]; done. }
  rewrite Hb. assert (exists s', (if bool_decide (head (ck_queue k) = Some n \/ l = true) then hev_task_timer_wakeup curr else ret tt) (up_ttree c' y) =
      Some (tt, up_tsched s' (up_ttree c' y)) /\ sc_rep s' (foldl spec_wake (ck_machine k) (if decide (head (ck_queue k) = Some n \/ l = true) then spec_due k1 curr else []))) as (s' & E & Hs').
  { destruct (decide (head (ck_queue k) = Some n \/ l = true)) as [Hd|Hd]; [rewrite bool_decide_true by done|rewrite bool_decide_false by done].
    - apply (timer_wakeup_ok (up_ttree c' y) k1 curr); try done; [apply Hk| |intros z Hz; apply Hex; by apply without_in in Hz as [_ ?]].
      simpl. apply Forall_forall. intros z [_ Hz]%without_in. rewrite Forall_forall in Hok. by apply Hok.
    - exists (ty_sched y). split; [by destruct y|apply Hy]. }
  exists s'. erewrite bind_Some by exact E. erewrite bind_Some by (apply load_tnode_ok; simpl; by rewrite (yr_nodes _ _ Hy)).
  rewrite Hw. split; [by erewrite bind_Some by reflexivity|done].
Qed.

(** ** Turns *)

Lemma resume_ok y k curr :
  ck_inv k -> ty_rep y k -> keys_fit (ck_machine k) -> exists y', resume curr y = Some (tt, y') /\ ty_rep y' (spec_resume curr k).
Proof.
  intros Hk Hy Hfit. unfold resume, spec_resume. erewrite bind_Some by reflexivity. erewrite bind_Some by reflexivity.
  rewrite (sr_current _ _ (proj1 (yr_sched _ _ Hy))), (yr_frames _ _ Hy). destruct (ck_frames k !! _) as [[n l]|] eqn:Ef; [|by exists y].
  destruct (ti_frame _ (ki_timers _ Hk) _ _ _ Ef) as (x & Ex & _). destruct (wait_end_ok y k n l curr x) as (c' & s' & E & Hc' & Hs'); try done.
  eexists. split; [by erewrite bind_Some by exact E|]. split; try done; simpl; by rewrite ?(yr_nodes _ _ Hy), ?(yr_frames _ _ Hy).
Qed.

Lemma suspend_ok e y k :
  ck_inv k -> ty_rep y k -> (match e with inr (n, ms, curr) => mc_current (ck_machine k) <> NULL /\ okp n /\ ck_nodes k !! n = None | inl _ => True end) ->
  exists y', suspend e y = Some ((spec_suspend e k).1, y') /\ ty_rep y' (spec_suspend e k).2.
Proof.
  intros Hk Hy He. destruct e as [type|[[n ms] curr]]; [by exists y|]. destruct He as (Hc & Hok & Hn). simpl.
  erewrite bind_Some by reflexivity. rewrite (sr_current _ _ (proj1 (yr_sched _ _ Hy))), (proj2 (Z.eqb_neq _ _)) by done.
  destruct (wait_begin_ok y k n ms curr) as (c' & E & Hc'); try done; [apply Hk|]. erewrite bind_Some by exact E. eexists. split; [reflexivity|].
  destruct Hy. split; try done. simpl. by rewrite yr_frames0.
Qed.

Lemma due_polls_ok y k polls : timers_inv k -> ty_rep y k -> due_polls y polls = Some (spec_polls k polls).
Proof.
  intros Hk Hy. induction polls as [|[woken curr] polls IH]; simpl; [done|]. by rewrite (timer_due_ok y k curr Hk Hy), IH.
Qed.

Lemma sturn_ok_rep y k u :
  ck_inv k -> ready (ck_machine k) -> Z.max (mc_min (ck_machine k)) HEV_TASK_PRIORITY_MAX + 2 * HEV_TASK_PRIORITY_MAX < 18446744073709551616 ->
  ty_rep y k -> sturn_ok k u -> exists y', run_sturn u y = Some ((spec_sturn k u).1, y') /\ ty_rep y' (spec_sturn k u).2.
Proof.
  intros Hk Hr Hfit Hy Hu. destruct (sturn_inv k u Hk Hr Hu) as [Hto _]. destruct (busy_inv k u Hk Hu) as (Hb & Hsf & Hf).
  pose proof (same_first_ready _ _ Hsf Hr) as Hrb. pose proof (sf_current _ _ Hsf) as Hcur. pose proof Hu as (_ & Ha & _ & He & _).
  assert (keys_fit (ck_machine k)) as Hfit0 by (unfold keys_fit, HEV_TASK_PRIORITY_MAX in *; lia).
  destruct (resume_ok y k (st_now u) Hk Hy Hfit0) as (y1 & E1 & Hy1). unfold run_sturn. erewrite bind_Some by exact E1.
  set (k1 := spec_resume (st_now u) k) in *. assert (mc_inv (ck_machine k1) /\ same_first (ck_machine k) (ck_machine k1)) as [Hm1 Hsf1].
  { unfold k1. rewrite chain_machine. apply wakes_inv, Hk. }
  destruct (acts_ok_rep (ty_sched y1) (ck_machine k1) (st_acts u)) as (s2 & E2 & Hs2); try done; [by eapply keys_fit_first|apply Hy1|].
  erewrite bind_Some by (apply on_sched_ok; exact E2). set (kb := spec_busy k u) in *.
  assert (ty_rep (up_tsched s2 y1) kb) as Hy2 by (destruct Hy1; by split).
  destruct (suspend_ok (st_end u) (up_tsched s2 y1) kb Hb Hy2) as (y3 & E3 & Hy3).
  { destruct (st_end u) as [|[[n ms] curr]]; [done|]. rewrite Hcur. tauto. }
  erewrite bind_Some by exact E3. destruct (suspend_inv (st_end u) kb Hb Hrb) as [Hk3 _].
  { rewrite Hf, Hcur. apply lookup_delete_eq. }
  { rewrite Hcur. by destruct (st_end u) as [|[[n ms] curr]]. }
  erewrite bind_Some by reflexivity. rewrite (due_polls_ok _ _ _ (ki_timers _ Hk3) Hy3). erewrite bind_Some by reflexivity.
  pose proof (suspend_machine (st_end u) kb) as Hsm. destruct Hto as (_ & Htype & Hp). rewrite <-busy_machine in Hp. cbn [tu_type tu_polls plain_turn] in *. fold kb in Hp, Htype.
  destruct (schedule_ok (spec_suspend (st_end u) kb).1 (spec_polls (spec_suspend (st_end u) kb).2 (st_polls u)) (ty_sched y3) (ck_machine (spec_suspend (st_end u) kb).2)) as (s' & E & Hs').
  - apply Hk3.
  - by rewrite Hsm.
  - rewrite Hsm. pose proof (sf_min _ _ Hsf). unfold HEV_TASK_PRIORITY_MAX in *. lia.
  - apply Hy3.
  - rewrite Hsm. intros Hc. apply Htype. by rewrite <-Hcur.
  - by rewrite Hsm.
  - exists (up_tsched s' y3). split; [by apply on_sched_ok|]. destruct Hy3. by split.
Qed.

Lemma sturns_ok_rep y k us :
  ck_inv k -> ready (ck_machine k) -> ty_rep y k -> sturns_ok k us ->
  Z.max (mc_min (ck_machine k)) HEV_TASK_PRIORITY_MAX + HEV_TASK_PRIORITY_MAX * (Z.of_nat (length us) + 1) < 18446744073709551616 ->
  exists y', run_sturns us y = Some ((spec_sturns k us).1, y') /\ ty_rep y' (spec_sturns k us).2 /\ ck_inv (spec_sturns k us).2.
Proof.
  revert y k. induction us as [|u us IH]; intros y k Hk Hready Hy; cbn [spec_sturns sturns_ok run_sturns]; [by exists y|].
  intros (Hu & Hnext & Hus) Hlen. cbn [length] in Hlen.
  destruct (sturn_ok_rep y k u) as (y1 & E & Hy1); try done; [unfold HEV_TASK_PRIORITY_MAX in *; lia|]. erewrite bind_Some by exact E.
  destruct (sturn_inv k u Hk Hready Hu) as [Hto Hk1]. pose proof (turn_inv _ _ (ki_machine _ Hk) Hready Hto) as Hsw. destruct us as [|u' us].
  - by exists y1.
  - destruct Hnext as [|Hnext]; [done|]. destruct (IH y1 (spec_sturn k u).2) as (y' & E' & Hy' & Hi); try done.
    + rewrite sturn_plain in Hnext |- *. by eapply switched_ready.
    + pose proof (sw_min _ _ Hsw). rewrite sturn_plain. cbn [fst snd with_machine ck_machine] in *. unfold HEV_TASK_PRIORITY_MAX in *. cbn [length] in *. lia.
    + exists y'. split; [by erewrite bind_Some by exact E'|]. done.
Qed.
