(* ===== verification/TimerLive.v ===== *)
(** * A sleep ends

    Once the clock is past the expiry of a sleeping task, no node comes before its own
    any more, the first of those that are there is woken at the next poll, and the
    scheduler runs it within a bounded number of turns, with which its node goes. *)

From stdpp Require Import sorting.
From S2P Require Import Prelude RBTree RBModel HevList CachedTree Sched SchedSpec SchedInv SchedLive Timer TimerSpec.

(** ** The list of timers *)

Lemma ns_sooner nodes a b na nb :
  nodes !! a = Some na -> nodes !! b = Some nb -> expire_ok (tn_expire na) -> expire_ok (tn_expire nb) -> ns (tn_expire na) < ns (tn_expire nb) -> sooner nodes a b.
Proof. unfold sooner. intros -> -> Ha Hb. rewrite node_cmp_spec. unfold expire_ok, ns in *. lia. Qed.

Lemma ahead_without n c q : c <> n -> (length (ahead n (without c q)) <= length (ahead n q))%nat.
Proof.
  intros Hc. unfold without. induction q as [|x q IH]; [done|]. simpl. destruct (decide (x = n)) as [->|Hx].
  - rewrite filter_cons_True by done. simpl. by rewrite decide_True.
  - destruct (decide (x = c)) as [->|Hxc]; [rewrite filter_cons_False by (by intros []); simpl; lia|].
    rewrite filter_cons_True by done. simpl. rewrite decide_False by done. simpl. lia.
Qed.

(** A node that is due later does not change what is ahead. *)
Lemma ahead_enlist nodes n n' q :
  StronglySorted (sooner nodes) q -> n ∈ q -> sooner nodes n n' -> ahead n (enlist nodes n' q) = ahead n q /\ head (enlist nodes n' q) = head q.
Proof.
  intros Hs Hn Hnn. unfold enlist. induction Hs as [|x q Hs IH HF]; [by apply elem_of_nil in Hn|]. simpl.
  assert (~ sooner nodes n' x) as Hx.
  { intros Hx. apply (sooner_irrefl nodes n'). apply elem_of_cons in Hn as [->|Hn]; [by eapply sooner_trans|].
    rewrite Forall_forall in HF. eapply sooner_trans; [exact Hx|]. eapply sooner_trans; [by apply HF|done]. }
  rewrite bool_decide_false by done. split; [|done]. simpl. destruct (decide (x = n)) as [|Hxn]; [done|]. f_equal. apply IH.
  by apply elem_of_cons in Hn as [->|].
Qed.

(** ** Being woken *)

Lemma wake_in m t : alive m t -> mc_inv m -> t ∈ mc_queue (spec_wake m t).
Proof.
  intros (tk & E & Hs) Hm. unfold spec_wake. rewrite E. destruct (decide _) as [Hw|Hw].
  - unfold spec_insert, enqueue. simpl. rewrite queue_insert_perm. by left.
  - apply (mi_run _ Hm). exists tk. split; [done|]. by destruct (tk_state tk).
Qed.

Lemma wakes_in m woken t : mc_inv m -> alive m t -> t ∈ woken -> t ∈ mc_queue (foldl spec_wake m woken).
Proof.
  revert m. induction woken as [|x woken IH]; intros m Hm Ht; simpl; [by intros ?%elem_of_nil|]. intros [->|Hx]%elem_of_cons.
  - by apply wakes_queue, wake_in.
  - apply IH; [by apply wake_inv|by apply wake_alive|done].
Qed.

(** A task that the first poll wakes, or that was queued, is queued afterwards. *)
Lemma pick_in polls woken m t :
  mc_inv m -> alive m t -> t ∈ woken -> exists m', spec_pick (woken :: polls) m = Some m' /\ t ∈ mc_queue m'.
Proof.
  intros Hm Ht Hw. pose proof (wakes_in m woken t Hm Ht Hw) as Hin. unfold spec_pick. simpl. destruct (decide (waiting _ = 0%nat)) as [H0|H0].
  - exists m. split; [done|]. destruct Ht as (tk & E & Hs). apply (mi_run _ Hm). exists tk. split; [done|].
    pose proof (no_waiting _ H0 _ _ E). by destruct (tk_state tk).
  - destruct (decide _); [|by eexists]. rewrite decide_False; [by eexists|]. intros Hnil. rewrite Hnil in Hin. by apply elem_of_nil in Hin.
Qed.

Lemma schedule_in type polls woken m t :
  mc_inv m -> ready m -> mc_current m <> NULL -> t <> mc_current m -> alive m t -> t ∈ woken ->
  t ∈ mc_queue (spec_schedule type (woken :: polls) m).2 /\ mc_current (spec_schedule type (woken :: polls) m).2 = (spec_schedule type (woken :: polls) m).1.
Proof.
  intros Hm Hr Hc Ht Hal Hw. unfold spec_schedule. rewrite (proj2 (Z.eqb_neq _ _)) by done. destruct Hr as [|Hh]; [done|].
  destruct (leave_inv type m Hm Hc Hh) as (Hm1 & _ & _). assert (alive (spec_leave type m) t) as Hal1 by (apply leave_alive; auto).
  destruct (pick_in polls woken _ t Hm1 Hal1 Hw) as (m' & E & Hin). rewrite E. destruct (decide _) as [[Hq H0]|_]; [|done].
  exfalso. destruct Hal1 as (tk & Et & Hs). assert (t ∈ mc_queue (spec_leave type m)) as Hnil; [|rewrite Hq in Hnil; by apply elem_of_nil in Hnil].
  apply (mi_run _ Hm1). exists tk. split; [done|]. pose proof (no_waiting _ H0 _ _ Et). by destruct (tk_state tk).
Qed.

(** ** A turn *)

(** The task of the node that is due first. *)
Definition front (k : clocked) : Z :=
  match ck_queue k with
  | n :: _ => match ck_nodes k !! n with Some x => tn_task x | None => NULL end
  | [] => NULL
  end.

Section sleeper.
Context (t n : Z) (x : tnode).

(** [t] sleeps. *)
Definition sleeps (k : clocked) : Prop := (exists l, ck_frames k !! t = Some (n, l)) /\ ck_nodes k !! n = Some x.

(** The clock is past its expiry. *)
Definition expired (u : sturn) : Prop :=
  Forall (fun p => ns (tn_expire x) <= ns p.2) (st_polls u) /\ match st_end u with inr (_, _, curr) => ns (tn_expire x) <= ns curr | inl _ => True end.

Definition before_it (k : clocked) : nat := length (ahead n (ck_queue k)).

Lemma sleeps_in k : timers_inv k -> sleeps k -> n ∈ ck_queue k.
Proof. intros Hk [_ E]. apply (ti_nodes _ Hk). by eexists. Qed.

Lemma front_node k f q : timers_inv k -> ck_queue k = f :: q -> exists y l, ck_nodes k !! f = Some y /\ front k = tn_task y /\ ck_frames k !! front k = Some (f, l).
Proof.
  intros Hk Hq. assert (is_Some (ck_nodes k !! f)) as [y E] by (apply (ti_nodes _ Hk); rewrite Hq; by left).
  destruct (ti_node _ Hk _ _ E) as (_ & _ & l & Hl). exists y, l. unfold front. rewrite Hq, E. done.
Qed.

Lemma resume_before curr k :
  timers_inv k -> sleeps k -> t <> mc_current (ck_machine k) ->
  sleeps (spec_resume curr k) /\ (before_it (spec_resume curr k) <= before_it k)%nat /\
  (front k = mc_current (ck_machine k) -> before_it (spec_resume curr k) < before_it k)%nat /\
  (front k <> mc_current (ck_machine k) -> front (spec_resume curr k) = front k).
Proof.
  intros Hk Hs Hc. pose proof (sleeps_in k Hk Hs) as Hn. destruct Hs as [[l Hl] Ex]. unfold spec_resume. set (c := mc_current (ck_machine k)) in *.
  assert (exists f q, ck_queue k = f :: q) as (f & q & Hq) by (destruct (ck_queue k); [by apply elem_of_nil in Hn|by eexists _, _]).
  destruct (front_node k f q Hk Hq) as (y & lf & Ef & Hf & Hlf).
  destruct (ck_frames k !! c) as [[nc lc]|] eqn:Ec.
  2: { split_and!; [by split; [exists l|]|done| |done]. intros Hfc. by rewrite Hfc, Ec in Hlf. }
  destruct (ti_frame _ Hk _ _ _ Ec) as (xc & Exc & Hxc).
  assert (nc <> n) as Hncn by (intros ->; rewrite Ex in Exc; injection Exc as <-; destruct (ti_frame _ Hk _ _ _ Hl) as (? & E & ?); rewrite Ex in E; congruence).
  unfold before_it, front, sleeps. simpl. split_and!.
  - exists l. by rewrite lookup_delete_ne by done.
  - by rewrite lookup_delete_ne by done.
  - by apply ahead_without.
  - intros Hfc. fold (front k) in Hfc. rewrite Hq. assert (nc = f) as -> by (rewrite Hfc, Ec in Hlf; congruence).
    pose proof (sooner_nodup _ _ (ti_sorted _ Hk)) as Hnd. rewrite Hq in Hnd. apply NoDup_cons in Hnd as [Hfq _].
    unfold without. rewrite filter_cons_False by (by intros []). fold (without f q). rewrite without_notin by done. simpl. rewrite decide_False by done. simpl. lia.
  - rewrite Hq, Ef. intros Hfc. assert (nc <> f) as Hne by (intros ->; rewrite Ef in Exc; congruence).
    unfold without. rewrite filter_cons_True by done. by rewrite lookup_delete_ne, Ef by done.
Qed.

Lemma suspend_before e k :
  timers_inv k -> sleeps k -> t <> mc_current (ck_machine k) ->
  match e with inr (n', ms, curr) => ck_nodes k !! n' = None /\ 0 < ms /\ clock_ok curr /\ ns (tn_expire x) <= ns curr | inl _ => True end ->
  sleeps (spec_suspend e k).2 /\ before_it (spec_suspend e k).2 = before_it k /\ front (spec_suspend e k).2 = front k.
Proof.
  intros Hk Hs Hc. pose proof (sleeps_in k Hk Hs) as Hn. destruct Hs as [[l Hl] Ex]. destruct e as [type|[[n' ms] curr]]; [intros _; split_and!; try done; by split; [exists l|]|].
  intros (Hnone & Hms & Hcl & He). destruct (get_expire_ok curr ms Hcl ltac:(lia)) as [Heok Hns]. assert (n' <> n) as Hnn by (intros ->; by rewrite Ex in Hnone).
  destruct (ti_node _ Hk _ _ Ex) as (_ & Hxok & _). simpl. set (nodes := <[n' := _]> (ck_nodes k)).
  assert (StronglySorted (sooner nodes) (ck_queue k)) as Hsort.
  { eapply sorted_nodes; [|apply (ti_sorted _ Hk)]. intros y Hy. apply lookup_insert_ne. intros <-. apply (ti_nodes _ Hk) in Hy. rewrite Hnone in Hy. by destruct Hy. }
  assert (sooner nodes n n') as Hsoon.
  { eapply (ns_sooner nodes); [unfold nodes; by rewrite lookup_insert_ne|apply lookup_insert_eq|done|done|simpl; lia]. }
  destruct (ahead_enlist nodes n n' (ck_queue k) Hsort Hn Hsoon) as [Ha Hh]. unfold before_it, front, sleeps. simpl. split_and!.
  - exists l. by rewrite lookup_insert_ne.
  - unfold nodes. by rewrite lookup_insert_ne.
  - by rewrite Ha.
  - destruct (ck_queue k) as [|f q] eqn:Hq; [by apply elem_of_nil in Hn|]. destruct (enlist nodes n' (f :: q)) as [|f' q']; [done|]. injection Hh as ->.
    unfold nodes. rewrite lookup_insert_ne; [done|]. intros ->. assert (f ∈ ck_queue k) as Hf by (rewrite Hq; by left). apply (ti_nodes _ Hk) in Hf.
    rewrite Hnone in Hf. by destruct Hf.
Qed.

(** The first node is due when the clock is past the expiry of [n]. *)
Lemma front_due k curr :
  timers_inv k -> sleeps k -> clock_ok curr -> ns (tn_expire x) <= ns curr -> front k ∈ spec_due k curr.
Proof.
  intros Hk Hs Hcl He. pose proof (sleeps_in k Hk Hs) as Hn. destruct Hs as [_ Ex].
  assert (exists f q, ck_queue k = f :: q) as (f & q & Hq) by (destruct (ck_queue k); [by apply elem_of_nil in Hn|by eexists _, _]).
  destruct (front_node k f q Hk Hq) as (y & lf & Ef & Hf & _). apply due_spec. exists f, y. rewrite Hq. split_and!; try done.
  destruct (ti_node _ Hk _ _ Ex) as (_ & Hxok & _). destruct (ti_node _ Hk _ _ Ef) as (_ & Hyok & _). rewrite cmp_clock by done.
  assert (ns (tn_expire y) <= ns (tn_expire x)); [|lia]. pose proof (ti_sorted _ Hk) as Hs. rewrite Hq in Hs, Hn.
  apply elem_of_cons in Hn as [->|Hn]; [rewrite Ex in Ef; injection Ef as ->; done|].
  apply StronglySorted_cons in Hs as [Hs _]. rewrite Forall_forall in Hs. eapply sooner_ns; [exact Ef|exact Ex|done|done|by apply Hs].
Qed.

(** ** How long it takes *)

Context (U : list Z).

(** A node that is due first is gone after so many turns. *)
Definition round : Z := 16 * Z.of_nat (length U) + 3.

Definition front_wait (k : clocked) : Z :=
  if decide (front k = mc_current (ck_machine k)) then 0
  else if decide (front k ∈ mc_queue (ck_machine k)) then 1 + wait (front k) (ck_machine k) U
  else round - 1.

Definition sleep_wait (k : clocked) : Z := Z.of_nat (before_it k) * round + front_wait k.

Lemma front_wait_range k : mc_inv (ck_machine k) -> 0 <= front_wait k <= round - 1.
Proof.
  intros Hm. unfold front_wait, round. destruct (decide _); [lia|]. destruct (decide _) as [Hq|]; [|lia]. pose proof (wait_range (front k) _ U Hm Hq). lia.
Qed.

Lemma sturn_sleep k u :
  ck_inv k -> lively U (ck_machine k) -> head (mc_queue (ck_machine k)) = Some (mc_current (ck_machine k)) -> mc_current (ck_machine k) <> NULL ->
  sleeps k -> t <> mc_current (ck_machine k) -> sturn_ok k u -> Forall (act_lively U) (st_acts u) -> expired u ->
  let r := spec_sturn k u in
  ck_inv r.2 /\ lively U (ck_machine r.2) /\ sleeps r.2 /\ mc_current (ck_machine r.2) = r.1 /\ r.1 <> NULL /\
  head (mc_queue (ck_machine r.2)) = Some r.1 /\ sleep_wait r.2 + 1 <= sleep_wait k.
Proof.
  intros Hk Hl Hh Hc Hs Ht Hu Hlu [Hep Hee]. destruct (sturn_inv k u Hk (or_intror Hh) Hu) as [Hto Hk']. pose proof (turn_inv _ _ (ki_machine _ Hk) (or_intror Hh) Hto) as Hsw.
  destruct (busy_inv k u Hk Hu) as (Hb & Hsf & Hf). pose proof (sf_current _ _ Hsf) as Hcur. pose proof Hu as (_ & _ & Hne & He & Hp).
  destruct (resume_before (st_now u) k (ki_timers _ Hk) Hs Ht) as (Hs1 & Hb1 & Hb2 & Hf1). set (k1 := spec_resume (st_now u) k) in *. set (kb := spec_busy k u) in *.
  destruct (suspend_before (st_end u) kb (ki_timers _ Hb) Hs1) as (Hs3 & Hb3 & Hf3); [by rewrite Hcur| |].
  { destruct (st_end u) as [|[[n' ms] curr]]; [done|]. destruct He as (_ & _ & ? & ? & ?). by split_and!. }
  destruct (suspend_inv (st_end u) kb Hb) as [Hk3 _].
  { by eapply same_first_ready; [|right]. }
  { rewrite Hf, Hcur. apply lookup_delete_eq. }
  { rewrite Hcur. by destruct (st_end u) as [|[[n' ms] curr]]. }
  set (x3 := spec_suspend (st_end u) kb) in *. change (before_it kb) with (before_it k1) in Hb3. change (front kb) with (front k1) in Hf3.
  assert (front x3.2 <> mc_current (ck_machine k)) as Hfc.
  { rewrite Hf3. intros Hfc. pose proof (sleeps_in kb (ki_timers _ Hb) Hs1) as Hn1.
    assert (exists f q, ck_queue kb = f :: q) as (f & q & Hq) by (destruct (ck_queue kb); [by apply elem_of_nil in Hn1|by eexists _, _]).
    destruct (front_node kb f q (ki_timers _ Hb) Hq) as (y & lf & _ & _ & Hlf). change (front kb) with (front k1) in Hlf. rewrite Hf, Hfc, lookup_delete_eq in Hlf. done. }
  destruct (st_polls u) as [|[woken curr] polls] eqn:Epolls; [done|]. apply Forall_cons in Hep as [Hep _]. apply Forall_cons in Hp as [[_ Hcl] _]. simpl in Hep, Hcl.
  pose proof (front_due x3.2 curr (ki_timers _ Hk3) Hs3 Hcl Hep) as Hdue.
  assert (turn_lively U (plain_turn k u)) as Hlp by (apply Forall_app; split; [|done]; apply Forall_fmap, Forall_forall; done).
  pose proof (turn_stays_lively U _ _ Hl Hlp) as Hl'. rewrite sturn_plain in *. cbn [fst snd with_machine ck_machine] in *. fold kb in Hk' |- *. fold x3 in Hk' |- *.
  assert (alive (ck_machine kb) (front x3.2)) as Hal.
  { apply due_spec in Hdue as (f & y & _ & Ey & <- & _). assert (ck_machine x3.2 = ck_machine kb) as <- by apply suspend_machine. by eapply node_alive. }
  destruct (schedule_in x3.1 (spec_polls x3.2 polls) (woken ++ spec_due x3.2 curr) (ck_machine kb) (front x3.2)) as [Hin Hcr]; try done.
  { apply Hb. }
  { by eapply same_first_ready; [|right]. }
  { by rewrite Hcur. }
  { by rewrite Hcur. }
  { apply elem_of_app. by right. }
  assert (spec_turn (ck_machine k) (plain_turn k u) = spec_schedule x3.1 ((woken ++ spec_due x3.2 curr) :: spec_polls x3.2 polls) (ck_machine kb)) as Heq.
  { unfold spec_turn. rewrite <-busy_machine. fold kb. unfold plain_turn. simpl. fold kb. fold x3. by rewrite Epolls. }
  rewrite <-Heq in Hin, Hcr. set (r := spec_turn (ck_machine k) (plain_turn k u)) in *.
  destruct (sw_next _ _ Hsw Hcr) as [[_ Hnil]|[Hn Hh']]; [rewrite Hnil in Hin; by apply elem_of_nil in Hin|].
  split_and!; try done.
  unfold sleep_wait. change (before_it (with_machine r.2 x3.2)) with (before_it x3.2). rewrite Hb3.
  assert (front_wait (with_machine r.2 x3.2) + 1 <= front_wait k \/ (before_it k1 < before_it k)%nat) as Hor.
  { unfold front_wait. change (front (with_machine r.2 x3.2)) with (front x3.2). cbn [ck_machine with_machine].
    destruct (decide (front k = mc_current (ck_machine k))) as [Hfk|Hfk]; [right; auto|left]. rewrite Hf3, (Hf1 Hfk) in *.
    destruct (decide (front k ∈ mc_queue (ck_machine k))) as [Hq|Hq].
    - destruct (turn_closer U (front k) _ _ (ki_machine _ Hk) Hl Hh Hc ltac:(done) Hq Hto Hlp) as (_ & _ & _ & _ & _ & _ & Hw). fold r in Hw.
      pose proof (wait_range (front k) r.2 U (sw_inv _ _ Hsw) Hin). destruct (decide _); [lia|]. rewrite decide_True by done. lia.
    - pose proof (wait_range (front k) r.2 U (sw_inv _ _ Hsw) Hin). unfold round. destruct (decide _); [lia|]. rewrite decide_True by done. lia. }
  pose proof (front_wait_range k (ki_machine _ Hk)) as R1. pose proof (front_wait_range (with_machine r.2 x3.2) (sw_inv _ _ Hsw)) as R2. unfold with_machine in *.
  assert (0 < round) as R0 by (unfold round; lia). destruct Hor as [Hor|Hor]; nia.
Qed.

(** The sleeper is picked before that many turns have passed. *)
Lemma sleep_ends_spec k us :
  ck_inv k -> lively U (ck_machine k) -> head (mc_queue (ck_machine k)) = Some (mc_current (ck_machine k)) -> mc_current (ck_machine k) <> NULL ->
  sleeps k -> t <> mc_current (ck_machine k) -> sturns_ok k us -> Forall (fun u => Forall (act_lively U) (st_acts u) /\ expired u) us ->
  sleep_wait k < Z.of_nat (length us) -> t ∈ (spec_sturns k us).1.
Proof.
  revert k. induction us as [|u us IH]; intros k Hk Hl Hh Hc Hs Ht.
  - pose proof (front_wait_range k (ki_machine _ Hk)). unfold sleep_wait, round in *. intros _ _. simpl. lia.
  - intros (Hu & _ & Hus) [[Hlu Hex] Hrest]%Forall_cons Hlen. destruct (sturn_sleep k u) as (Hk' & Hl' & Hs' & Hcur & Hn & Hh' & Hw); try done.
    cbn [spec_sturns fst]. destruct (decide ((spec_sturn k u).1 = t)) as [Hp|Hp]; [rewrite Hp; by left|]. right. cbn [length] in Hlen. apply IH; try done; rewrite ?Hcur; try done. lia.
Qed.
End sleeper.
