(* ===== verification/TimerTheorems.v ===== *)
(** * What the timers promise

    A sleep ends, not before its time unless the task is woken, and says how much of it
    is left. *)

From S2P Require Import Prelude RBTree RBModel RBRep RBSpec HevList CachedTree Sched SchedSpec SchedInv SchedRep SchedLive SchedTheorems Timer TimerSpec TimerRep TimerLive.

(** C19: a sleep ends.  Scheduler and timers together, on any admissible run: when the
    clock has passed the expiry of a sleeping task and every priority is at least 1, the
    task runs again within 16 turns for each task there can be and three more, for each
    node in the tree of timers and one more, whatever the other tasks do meanwhile,
    including to sleep, and however many of them are due at once, although a poll wakes
    only the first of these. *)
Theorem sleep_ends y k us U t n l x :
  ck_inv k -> ty_rep y k -> mc_current (ck_machine k) <> NULL -> head (mc_queue (ck_machine k)) = Some (mc_current (ck_machine k)) ->
  ck_frames k !! t = Some (n, l) -> ck_nodes k !! n = Some x ->
  lively U (ck_machine k) -> sturns_ok k us -> Forall (fun u => Forall (act_lively U) (st_acts u) /\ expired x u) us ->
  (Z.of_nat (length (ck_queue k)) + 1) * (16 * Z.of_nat (length U) + 3) <= Z.of_nat (length us) ->
  mc_min (ck_machine k) + HEV_TASK_PRIORITY_MAX * (Z.of_nat (length us) + 2) < 18446744073709551616 ->
  exists picks y', run_sturns us y = Some (picks, y') /\ (t = sc_current (ty_sched y) \/ t ∈ picks).
Proof.
  intros Hk Hy Hc Hh Hl Hx Hlv Hus Hex Hlen Hfit. pose proof (min_pos _ (ki_machine _ Hk)).
  destruct (sturns_ok_rep y k us) as (y' & E & _ & _); try done; [by right|unfold HEV_TASK_PRIORITY_MAX in *; lia|].
  exists (spec_sturns k us).1, y'. split; [done|]. rewrite (sr_current _ _ (proj1 (yr_sched _ _ Hy))).
  destruct (decide (t = mc_current (ck_machine k))) as [->|Hne]; [by left|right]. apply (sleep_ends_spec t n x U); try done.
  - split; [by exists l|done].
  - pose proof (front_wait_range U k (ki_machine _ Hk)). pose proof (ahead_length n (ck_queue k)). unfold sleep_wait, before_it, round in *. nia.
Qed.

(** C35: what [hev_task_sleep] returns.  A task that went to sleep at [c0] for [ms]
    milliseconds and runs again at [c1], woken by the timer or by another task, gets 0
    exactly if that time has passed, and else what is left of it, rounded up to a
    millisecond. *)
Theorem sleep_remaining y k n l c0 c1 ms t :
  ck_inv k -> ty_rep y k -> keys_fit (ck_machine k) ->
  ck_frames k !! mc_current (ck_machine k) = Some (n, l) -> ck_nodes k !! n = Some (TNode (hev_task_timer_get_expire c0 ms) t) ->
  clock_ok c0 -> clock_ok c1 -> ns c0 <= ns c1 -> 0 <= ms < 4294967296 ->
  exists left y', timer_wait_end n l c1 y = Some (left, y') /\
    (left = 0 <-> ns c0 + ms * 1000000 <= ns c1) /\
    (left <> 0 -> (left - 1) * 1000000 < ns c0 + ms * 1000000 - ns c1 <= left * 1000000) /\ 0 <= left <= ms.
Proof.
  intros Hk Hy Hfit Hf Hn H0 H1 Hle Hms. destruct (wait_end_ok y k n l c1 _ Hk Hy Hfit Hf Hn) as (c' & s' & E & _). eexists _, _. split; [exact E|].
  destruct (get_expire_ok c0 ms H0 ltac:(lia)) as [He Hns]. cbn [tn_expire]. rewrite get_time_ok, Hns by done. unfold ceil_ms.
  set (d := ns c0 + ms * 1000000 - ns c1). destruct (Z.leb_spec (ns c0 + ms * 1000000) (ns c1)); [lia|].
  pose proof (Z.div_mod (d + 999999) 1000000 ltac:(lia)). pose proof (Z.mod_pos_bound (d + 999999) 1000000 ltac:(lia)). rewrite u32_id by lia. lia.
Qed.


(** ** Witnesses *)

Definition tsys0 : tsys := TSys sched0 (CTree (RBMem NULL ∅) NULL) ∅ ∅.
Definition clocked0 : clocked := Clocked machine0 [] ∅ ∅.

Lemma clocked0_inv : ck_inv clocked0.
Proof.
  split; [apply machine0_inv| |by intros t [? ?]]. split; simpl; [constructor|by intros n; split; [intros ?%elem_of_nil|intros [? ?]]|done|done].
Qed.

Lemma tsys0_rep : ty_rep tsys0 clocked0.
Proof. split; try done; [apply sched0_rep|apply cached_empty]. Qed.

(** Two tasks, of which the first goes to sleep for 1.5 seconds. *)
Definition bedtime (ms : Z) : list sturn :=
  [STurn (Timespec 0 0) [ANew (Some 64) true; ANew (Some 128) true; APrio 128 5; ARun 64; ARun 128] (inl HEV_TASK_YIELD_COUNT) [([], Timespec 0 0)];
   STurn (Timespec 1 0) [] (inr (4096, ms, Timespec 1 0)) [([], Timespec 1 0)]].

Definition asleep (ms : Z) : clocked :=
  Clocked (Machine (<[64 := Task 8 8 8 HEV_TASK_RUNNING 1]> (<[128 := Task 5 5 5 HEV_TASK_WAITING 1]> ∅)) [64] 64)
    [4096] (<[4096 := TNode (hev_task_timer_get_expire (Timespec 1 0) ms) 128]> ∅) (<[128 := (4096, true)]> ∅).

Ltac norm_snext :=
  lazymatch goal with |- context [spec_sturn ?k ?u] => let v := eval vm_compute in (spec_sturn k u) in replace (spec_sturn k u) with v by (vm_compute; reflexivity) end.

Ltac srun_ok :=
  lazymatch goal with
  | |- sturns_ok _ (_ :: _) => split; [split; [by split|split; [|split; [done|split]]]|norm_snext; split]; cbn [fst snd st_acts st_end st_polls]; srun_ok
  | |- sturns_ok _ [] => exact I
  | |- Forall _ _ => repeat constructor; done
  | |- _ <> _ /\ _ => split; [discriminate|split; [by split|split; [reflexivity|split; [lia|by split]]]]
  | |- acts_ok _ _ => run_ok
  | |- _ \/ _ => right; reflexivity
  | |- _ -> _ => intros; (discriminate || reflexivity)
  end.

Lemma bedtime_ok ms : ms = 1500 \/ ms = 3000000000 -> sturns_ok clocked0 (bedtime ms).
Proof. intros [-> | ->]; unfold bedtime; srun_ok. Qed.

Lemma asleep_rep ms : ms = 1500 \/ ms = 3000000000 -> ck_inv (asleep ms) /\ exists y, ty_rep y (asleep ms).
Proof.
  intros Hms. pose proof (bedtime_ok ms Hms) as Hok.
  assert ((spec_sturns clocked0 (bedtime ms)).2 = asleep ms) as Heq by (destruct Hms as [-> | ->]; vm_compute; reflexivity).
  destruct (sturns_ok_rep tsys0 clocked0 (bedtime ms) clocked0_inv (or_introl eq_refl) tsys0_rep Hok) as (y & _ & Hy & Hi); [vm_compute; reflexivity|].
  rewrite Heq in Hy, Hi. split; [exact Hi|by exists y].
Qed.

(** The other task yields; the clock says 3 seconds. *)
Definition nights : list sturn := replicate 70 (STurn (Timespec 3 0) [] (inl HEV_TASK_YIELD) [([], Timespec 3 0)]).

Lemma nights_ok k n :
  ck_inv k -> mc_current (ck_machine k) <> NULL -> head (mc_queue (ck_machine k)) = Some (mc_current (ck_machine k)) ->
  sturns_ok k (replicate n (STurn (Timespec 3 0) [] (inl HEV_TASK_YIELD) [([], Timespec 3 0)])).
Proof.
  revert k. induction n as [|n IH]; intros k Hk Hc Hh; [done|]. set (u := STurn _ _ _ _).
  assert (sturn_ok k u) as Hu.
  { split; [by split|]. split; [exact I|]. split; [discriminate|]. split; [intros H; by destruct Hc|]. repeat constructor; done. }
  destruct (busy_inv k u Hk Hu) as (Hb & Hsf & _). pose proof (sf_current _ _ Hsf) as Hcur. destruct (sf_first _ _ Hsf _ Hc Hh) as [Hh1 _].
  destruct (yield_runs (spec_polls (spec_busy k u) (st_polls u)) (ck_machine (spec_busy k u))) as (Hcr & Hn & Hh'); [apply Hb|by rewrite Hcur|by rewrite Hcur|].
  destruct (sturn_inv k u Hk (or_intror Hh) Hu) as [_ Hk']. split; [done|]. split; [by right|]. apply IH; [done|..]; unfold spec_sturn; cbn [fst snd ck_machine with_machine st_end u spec_suspend] in *;
    by rewrite Hcr.
Qed.

Lemma asleep_lively : lively [64; 128] (ck_machine (asleep 1500)).
Proof. apply map_Forall_insert_2; [|apply map_Forall_insert_2; [|apply map_Forall_empty]]; (split; [set_solver|]); by vm_compute. Qed.

Lemma sleep_ends_witness : exists y picks y', run_sturns nights y = Some (picks, y') /\ sc_current (ty_sched y) = 64 /\ 128 ∈ picks.
Proof.
  destruct (asleep_rep 1500 (or_introl eq_refl)) as (Hk & y & Hy).
  destruct (sleep_ends y (asleep 1500) nights [64; 128] 128 4096 true (TNode (hev_task_timer_get_expire (Timespec 1 0) 1500) 128)) as (picks & y' & E & H).
  - exact Hk.
  - exact Hy.
  - discriminate.
  - reflexivity.
  - reflexivity.
  - reflexivity.
  - exact asleep_lively.
  - apply nights_ok; [exact Hk|discriminate|reflexivity].
  - apply Forall_replicate. split; [constructor|]. split; [|exact I]. apply Forall_singleton. vm_compute. discriminate.
  - vm_compute. discriminate.
  - vm_compute. reflexivity.
  - exists y, picks, y'. pose proof (sr_current _ _ (proj1 (yr_sched _ _ Hy))) as Hc. split; [exact E|]. split; [exact Hc|]. destruct H as [H|H]; [|exact H].
    rewrite Hc in H. discriminate H.
Defined.

(** Half a second later, awake again. *)
Definition early : list sturn := bedtime 1500 ++ [STurn (Timespec 1 500000000) [AWake 128] (inl HEV_TASK_WAITIO) [([], Timespec 1 500000000)]].

Lemma sleep_remaining_witness :
  exists y left y', timer_wait_end 4096 true (Timespec 1 500000001) y = Some (left, y') /\ left = 1000.
Proof.
  assert (sturns_ok clocked0 early) as Hok by (unfold early, bedtime; cbn [app]; srun_ok).
  destruct (sturns_ok_rep tsys0 clocked0 early clocked0_inv (or_introl eq_refl) tsys0_rep Hok) as (y & _ & Hy & Hi); [vm_compute; reflexivity|].
  destruct (sleep_remaining y (spec_sturns clocked0 early).2 4096 true (Timespec 1 0) (Timespec 1 500000001) 1500 128 Hi Hy) as (left & y' & E & H0 & Hl & _).
  - vm_compute. reflexivity.
  - vm_compute. reflexivity.
  - vm_compute. reflexivity.
  - split; [discriminate|reflexivity].
  - split; [discriminate|reflexivity].
  - vm_compute. discriminate.
  - split; [discriminate|reflexivity].
  - exists y, left, y'. split; [exact E|]. unfold ns in *. cbn [tv_sec tv_nsec] in *. assert (left <> 0) as Hne by (intros Hz; apply H0 in Hz; lia). specialize (Hl Hne). lia.
Defined.

