(* ===== verification/TaskMutex.v ===== *)
(** * The mutex of the tasks (hev-task-system: kern/sync/hev-task-mutex.c)

    A flag and a line of waiting tasks, whose nodes are objects on their own stacks.  A
    call that has to wait suspends its task: [hev_task_mutex_lock] is cut into
    [mutex_lock_begin] and [mutex_lock_resume], which is one turn of its loop.  Which
    tasks can run is [sy_awake]; which of them does is up to the scheduler. *)

From S2P Require Import Prelude RBTree.

(** ** State *)

(** [HevTaskMutexNode] *)
Record mnode := MNode { mn_next : Z; mn_task : Z }.

(** [HevTaskMutex], the nodes of the suspended calls, and the tasks that can run. *)
Record sync := Sync { sy_locker : Z; sy_waiters : Z; sy_nodes : gmap Z mnode; sy_awake : gset Z }.

Abbreviation SY := (M sync).

Definition up_locker v s := Sync v (sy_waiters s) (sy_nodes s) (sy_awake s).
Definition up_waiters v s := Sync (sy_locker s) v (sy_nodes s) (sy_awake s).
Definition up_mnodes v s := Sync (sy_locker s) (sy_waiters s) v (sy_awake s).
Definition up_awake v s := Sync (sy_locker s) (sy_waiters s) (sy_nodes s) v.

Definition load_mnode (n : Z) : SY mnode := let* o := gets (fun s => sy_nodes s !! n) in lift_opt o.

(** [hev_task_yield (HEV_TASK_WAITIO)] of task [t], and [hev_task_wakeup]. *)
Definition task_wait (t : Z) : SY unit := modify (fun s => up_awake (sy_awake s ∖ {[t]}) s).
Definition task_wake (t : Z) : SY unit := modify (fun s => up_awake ({[t]} ∪ sy_awake s) s).

(** ** Operations *)

Definition hev_task_mutex_init : sync := Sync 0 NULL ∅ ∅.

(** By task [t] with [node] on its stack; [false]: it waits. *)
Definition mutex_lock_begin (node t : Z) : SY bool :=
  let* locker := gets sy_locker in
  if negb (locker =? 0) then
    let* waiters := gets sy_waiters in
    modify (fun s => up_mnodes (<[node := MNode waiters t]> (sy_nodes s)) s);;
    modify (up_waiters node);;
    task_wait t;;
    ret false
  else
    modify (up_locker 1);;
    ret true.

Definition mutex_lock_resume (node t : Z) : SY bool :=
  let* locker := gets sy_locker in
  let* waiters := gets sy_waiters in
  if negb (locker =? 0) || negb (waiters =? node) then task_wait t;; ret false else
  let* nd := load_mnode node in
  modify (up_waiters (mn_next nd));;
  modify (up_locker 1);;
  modify (fun s => up_mnodes (delete node (sy_nodes s)) s);;
  ret true.

Definition hev_task_mutex_trylock : SY Z :=
  let* locker := gets sy_locker in
  if negb (locker =? 0) then ret (-1) else modify (up_locker 1);; ret 0.

Definition hev_task_mutex_unlock : SY Z :=
  modify (up_locker 0);;
  let* waiters := gets sy_waiters in
  (if negb (waiters =? NULL) then let* nd := load_mnode waiters in task_wake (mn_task nd) else ret tt);;
  ret 0.

(** ** The line *)

(** The nodes and tasks that wait, the last that came first. *)
Fixpoint line (nodes : gmap Z mnode) (p : Z) (ws : list (Z * Z)) : Prop :=
  match ws with
  | [] => p = NULL
  | (n, t) :: ws => p = n /\ n <> NULL /\ exists next, nodes !! n = Some (MNode next t) /\ line nodes next ws
  end.

(** Who holds the lock and who waits; if nobody holds it, the first that waits can run. *)
Record mutex_rep (s : sync) (owner : option Z) (ws : list (Z * Z)) : Prop := {
  mr_locker : sy_locker s = if owner is Some _ then 1 else 0;
  mr_line : line (sy_nodes s) (sy_waiters s) ws;
  mr_nodes : NoDup ws.*1;
  mr_tasks : NoDup ws.*2;
  mr_owner : forall t, owner = Some t -> t ∉ ws.*2;
  mr_awake : owner = None -> forall n t, head ws = Some (n, t) -> t ∈ sy_awake s
}.

Lemma line_same nodes nodes' p ws : (forall n, n ∈ ws.*1 -> nodes' !! n = nodes !! n) -> line nodes p ws -> line nodes' p ws.
Proof.
  revert p. induction ws as [|[n t] ws IH]; intros p Hs; simpl in *; [done|]. intros (-> & Hn & next & E & Hl). split_and!; [done..|].
  exists next. split; [by rewrite Hs by (by left)|]. apply IH; [|done]. intros x Hx. apply Hs. by right.
Qed.

Lemma mutex_init_rep : mutex_rep hev_task_mutex_init None [].
Proof. split; try done; constructor. Qed.

Lemma owner_flag (owner : option Z) : ((if owner is Some _ then 1 else 0) =? 0) = bool_decide (owner = None).
Proof. by destruct owner. Qed.

(** More tasks that can run do no harm, nor does one less that is not the first. *)
Lemma rep_awake s owner ws awake :
  mutex_rep s owner ws -> (owner = None -> forall n t, head ws = Some (n, t) -> t ∈ awake) -> mutex_rep (up_awake awake s) owner ws.
Proof. intros [] H. by split. Qed.

Lemma wake_rep s owner ws t : mutex_rep s owner ws -> mutex_rep (up_awake ({[t]} ∪ sy_awake s) s) owner ws.
Proof. intros H. apply rep_awake; [done|]. intros Ho n t' Hh. apply elem_of_union. right. by eapply (mr_awake _ _ _ H). Qed.

Lemma wait_rep s owner ws t :
  mutex_rep s owner ws -> (owner = None -> forall n, head ws <> Some (n, t)) -> mutex_rep (up_awake (sy_awake s ∖ {[t]}) s) owner ws.
Proof.
  intros H Ht. apply rep_awake; [done|]. intros Ho n t' Hh. apply elem_of_difference. split; [by eapply (mr_awake _ _ _ H)|].
  intros ->%elem_of_singleton. by apply (Ht Ho n).
Qed.

(** ** What the operations do *)

Lemma lock_begin_ok s owner ws n t :
  mutex_rep s owner ws -> n <> NULL -> n ∉ ws.*1 -> t ∉ ws.*2 -> owner <> Some t ->
  exists s', mutex_lock_begin n t s = Some (bool_decide (owner = None), s') /\
    mutex_rep s' (Some (default t owner)) (if owner is Some _ then (n, t) :: ws else ws) /\
    sy_awake s' = if owner is Some _ then sy_awake s ∖ {[t]} else sy_awake s.
Proof.
  intros Hs Hn Hni Hti Ho. pose proof Hs as [Hl Hline Hnd Hnt Hown Haw]. unfold mutex_lock_begin. erewrite bind_Some by reflexivity. rewrite Hl, owner_flag.
  destruct owner as [o|]; simpl.
  - eexists. split; [reflexivity|]. split; [|done]. split; try done; simpl.
    + split_and!; [done..|]. exists (sy_waiters s). split; [apply lookup_insert_eq|]. eapply line_same; [|exact Hline].
      intros x Hx. apply lookup_insert_ne. by intros ->.
    + by apply NoDup_cons.
    + by apply NoDup_cons.
    + intros t' [= <-] [->|Hin]%elem_of_cons; [done|by apply (Hown o)].
  - eexists. split; [reflexivity|]. split; [|done]. split; try done. by intros t' [= <-].
Qed.

(** The lock goes to the first of the line, when nobody holds it. *)
Lemma lock_resume_ok s owner ws n t :
  mutex_rep s owner ws -> (n, t) ∈ ws ->
  let got := bool_decide (owner = None /\ head ws = Some (n, t)) in
  exists s', mutex_lock_resume n t s = Some (got, s') /\
    mutex_rep s' (if got then Some t else owner) (if got then tail ws else ws) /\
    sy_awake s' = if got then sy_awake s else sy_awake s ∖ {[t]}.
Proof.
  intros Hs Hin got. pose proof Hs as [Hl Hline Hnd Hnt Hown Haw]. unfold mutex_lock_resume. do 2 (erewrite bind_Some by reflexivity). rewrite Hl, owner_flag.
  assert ((sy_waiters s =? n) = bool_decide (head ws = Some (n, t))) as ->.
  { destruct ws as [|[n' t'] ws]; [by apply elem_of_nil in Hin|]. destruct Hline as (-> & _). simpl.
    destruct (Z.eqb_spec n' n) as [->|Hne]; [|rewrite bool_decide_false; [done|congruence]]. rewrite bool_decide_true; [done|].
    apply elem_of_cons in Hin as [[= ->]|Hin]; [done|]. apply NoDup_cons in Hnd as [Hnd _]. exfalso. apply Hnd. by apply (list_elem_of_fmap_2 fst ws (n, t)). }
  assert (negb (bool_decide (owner = None)) || negb (bool_decide (head ws = Some (n, t))) = negb got) as ->.
  { unfold got. rewrite bool_decide_and. by destruct (bool_decide _), (bool_decide _). }
  assert (Is_true got <-> owner = None /\ head ws = Some (n, t)) as Hgot by (unfold got; apply bool_decide_spec). destruct got; simpl.
  - destruct (proj1 Hgot I) as [-> Hh]. destruct ws as [|[n' t'] ws]; [done|]. injection Hh as -> ->. destruct Hline as (Hw & Hnn & next & E & Hline).
    erewrite bind_Some by (unfold load_mnode, bind, gets, lift_opt; rewrite E; reflexivity). eexists. split; [reflexivity|]. split; [|done].
    apply NoDup_cons in Hnd as [Hni Hnd]. apply NoDup_cons in Hnt as [Hti Hnt]. split; try done; simpl.
    + eapply line_same; [|exact Hline]. intros x Hx. apply lookup_delete_ne. by intros ->.
    + by intros x [= <-].
  - eexists. split; [reflexivity|]. split; [|done]. apply wait_rep; [done|]. intros -> n' Hh. apply Hgot. split; [done|].
    destruct ws as [|[n2 t2] ws]; [done|]. injection Hh as -> ->. apply elem_of_cons in Hin as [[= ->]|Hin]; [done|].
    apply NoDup_cons in Hnt as [Hnt _]. exfalso. apply Hnt. by apply (list_elem_of_fmap_2 snd ws (n, t)).
Qed.

Lemma trylock_ok s owner ws t :
  mutex_rep s owner ws -> t ∉ ws.*2 ->
  exists s', hev_task_mutex_trylock s = Some (if owner is Some _ then -1 else 0, s') /\ mutex_rep s' (Some (default t owner)) ws /\ sy_awake s' = sy_awake s.
Proof.
  intros Hs Ht. pose proof Hs as [Hl Hline Hnd Hnt Hown Haw]. unfold hev_task_mutex_trylock. erewrite bind_Some by reflexivity. rewrite Hl, owner_flag.
  destruct owner as [o|]; simpl; eexists; (split; [reflexivity|]); (split; [|done]); [done|]. split; try done. by intros t' [= <-].
Qed.

(** The first of the line is woken. *)
Lemma unlock_ok s owner ws :
  mutex_rep s owner ws ->
  exists s', hev_task_mutex_unlock s = Some (0, s') /\ mutex_rep s' None ws /\
    sy_awake s' = match ws with [] => sy_awake s | (_, t) :: _ => {[t]} ∪ sy_awake s end.
Proof.
  intros [Hl Hline Hnd Hnt Hown Haw]. unfold hev_task_mutex_unlock. erewrite bind_Some by reflexivity. erewrite bind_Some by reflexivity. cbn [sy_waiters up_locker].
  destruct ws as [|[n t] ws].
  - simpl in Hline. rewrite Hline. eexists. split; [reflexivity|]. split; [|done]. by split.
  - destruct Hline as (Hw & Hn & next & E & Hline). rewrite Hw, (proj2 (Z.eqb_neq n NULL)) by done. simpl.
    erewrite bind_Some.
    2: { erewrite bind_Some by (unfold load_mnode, bind, gets, lift_opt; simpl; rewrite E; reflexivity). reflexivity. }
    eexists. split; [reflexivity|]. split; [|done]. split; try done; simpl.
    + split_and!; [done..|]. by exists next.
    + intros _ n' t' [= <- <-]. apply elem_of_union. left. by apply elem_of_singleton.
Qed.
