(* ===== verification/TaskCond.v ===== *)
(** * Conditions of tasks (third-part/hev-task-system: kern/sync/hev-task-cond.c)

    The tasks that wait for a condition are a list of nodes on their stacks, the latest first; a node
    whose task was taken out of it has been woken.  A wait is cut where the task sleeps.  Between the
    calls of others a waiting task does nothing but look at its own node. *)

From S2P Require Import Prelude RBTree RBModel RBRep RBSpec.

(** ** State and operations *)

Record cnode := CNode { cn_prev : Z; cn_next : Z; cn_task : Z }.

(** [cd_woken]: the tasks that were woken so far. *)
Record cond := Cond { cd_waiters : Z; cd_nodes : gmap Z cnode; cd_woken : list Z }.

Abbreviation CD := (M cond).

Definition load_cnode (a : Z) : CD cnode := let* n := gets (fun s => cd_nodes s !! a) in lift_opt n.
Definition store_cnode (a : Z) (n : cnode) : CD unit := modify (fun s => Cond (cd_waiters s) (<[a := n]> (cd_nodes s)) (cd_woken s)).
Definition set_waiters (a : Z) : CD unit := modify (fun s => Cond a (cd_nodes s) (cd_woken s)).
Definition set_cprev (a v : Z) : CD unit := let* n := load_cnode a in store_cnode a (CNode v (cn_next n) (cn_task n)).
Definition set_cnext (a v : Z) : CD unit := let* n := load_cnode a in store_cnode a (CNode (cn_prev n) v (cn_task n)).
Definition set_ctask (a v : Z) : CD unit := let* n := load_cnode a in store_cnode a (CNode (cn_prev n) (cn_next n) v).
Definition wake (t : Z) : CD unit := modify (fun s => Cond (cd_waiters s) (cd_nodes s) (cd_woken s ++ [t])).
(** The frame of a call ends. *)
Definition drop_cnode (a : Z) : CD unit := let* _ := load_cnode a in modify (fun s => Cond (cd_waiters s) (delete a (cd_nodes s)) (cd_woken s)).

Definition hev_task_cond_init : CD unit := set_waiters NULL.

(** The call of [hev_task_cond_wait] or [hev_task_cond_timedwait] by task [t], with its node at [a], until the task sleeps. *)
Definition cond_wait_begin (a t : Z) : CD unit :=
  let* w := gets cd_waiters in
  store_cnode a (CNode NULL w t);;
  (when (negb (w =? NULL)) do set_cprev w a);;
  set_waiters a.

(** [hev_task_cond_wait] when the task runs again: whether it returns. *)
Definition cond_wait_resume (a : Z) : CD bool :=
  let* n := load_cnode a in
  if negb (cn_task n =? NULL) then ret false else drop_cnode a;; ret true.

(** The end of [hev_task_cond_timedwait], when it was woken or its time is up. *)
Definition cond_timedwait_end (a : Z) : CD Z :=
  let* n := load_cnode a in
  if negb (cn_task n =? NULL) then
    (when (negb (cn_prev n =? NULL)) do set_cnext (cn_prev n) (cn_next n));;
    (when (negb (cn_next n =? NULL)) do set_cprev (cn_next n) (cn_prev n));;
    let* w := gets cd_waiters in
    (when (w =? a) do set_waiters NULL);;
    drop_cnode a;;
    ret (-1)
  else drop_cnode a;; ret 0.

Definition hev_task_cond_signal : CD unit :=
  let* w := gets cd_waiters in
  if w =? NULL then ret tt else
  let* n := load_cnode w in
  wake (cn_task n);;
  set_ctask w NULL;;
  set_waiters (cn_next n);;
  when (negb (cn_next n =? NULL)) do set_cprev (cn_next n) NULL.

Fixpoint cond_broadcast_loop (fuel : nat) : CD unit :=
  match fuel with
  | O => fail
  | S fuel =>
    let* w := gets cd_waiters in
    if w =? NULL then ret tt else
    let* n := load_cnode w in
    wake (cn_task n);;
    set_ctask w NULL;;
    set_waiters (cn_next n);;
    cond_broadcast_loop fuel
  end.

(** One more turn than there are nodes. *)
Definition hev_task_cond_broadcast : CD unit :=
  let* n := gets (fun s => size (cd_nodes s)) in cond_broadcast_loop (S n).

(** ** The waiting tasks *)

Definition head_or (ws : list (Z * Z)) (n : Z) : Z := match ws with [] => n | (a, _) :: _ => a end.
Definition end_or (p : Z) (ws : list (Z * Z)) : Z := match last ws with Some (a, _) => a | None => p end.

(** The nodes of [ws], with their tasks, linked in this order between [p] and [n]. *)
Fixpoint linked (ns : gmap Z cnode) (p : Z) (ws : list (Z * Z)) (n : Z) : Prop :=
  match ws with
  | [] => True
  | (a, t) :: ws => a <> NULL /\ t <> NULL /\ ns !! a = Some (CNode p (head_or ws n) t) /\ linked ns a ws n
  end.

(** [ws] waits; every other node was woken. *)
Record cond_rep (s : cond) (ws : list (Z * Z)) : Prop := {
  cr_head : cd_waiters s = head_or ws NULL;
  cr_links : linked (cd_nodes s) NULL ws NULL;
  cr_nodup : NoDup ws.*1;
  cr_woken a n : cd_nodes s !! a = Some n -> a ∉ ws.*1 -> cn_task n = NULL
}.

Lemma linked_frame ns ns' p ws n : (forall a, a ∈ ws.*1 -> ns' !! a = ns !! a) -> linked ns p ws n -> linked ns' p ws n.
Proof.
  revert p. induction ws as [|[a t] ws IH]; intros p H; [done|]. intros (Ha & Ht & E & Hl). simpl. split_and!; try done.
  - rewrite H; [done|]. simpl. apply elem_of_cons. by left.
  - apply IH; [|done]. intros b Hb. apply H. simpl. apply elem_of_cons. by right.
Qed.

Lemma linked_insert ns p ws n a v : a ∉ ws.*1 -> linked ns p ws n -> linked (<[a := v]> ns) p ws n.
Proof. intros Ha. apply linked_frame. intros b Hb. apply lookup_insert_ne. by intros ->. Qed.
Lemma linked_delete ns p ws n a : a ∉ ws.*1 -> linked ns p ws n -> linked (delete a ns) p ws n.
Proof. intros Ha. apply linked_frame. intros b Hb. apply lookup_delete_ne. by intros ->. Qed.

Lemma end_or_cons p a t ws : end_or p ((a, t) :: ws) = end_or a ws.
Proof. unfold end_or. rewrite last_cons. by destruct (last ws). Qed.

Lemma linked_app ns p l r n : linked ns p (l ++ r) n <-> linked ns p l (head_or r n) /\ linked ns (end_or p l) r n.
Proof.
  revert p. induction l as [|[a t] l IH]; intros p; simpl; [tauto|]. rewrite IH, end_or_cons.
  assert (head_or (l ++ r) n = head_or l (head_or r n)) as -> by (by destruct l as [|[? ?] ?]). tauto.
Qed.

Lemma linked_in ns p ws n a : linked ns p ws n -> a ∈ ws.*1 -> exists nd, ns !! a = Some nd /\ a <> NULL /\ cn_task nd <> NULL.
Proof.
  revert p. induction ws as [|[b t] ws IH]; intros p; simpl; [by intros _ ?%elem_of_nil|]. intros (Hb & Ht & E & Hl) [->|Ha]%elem_of_cons; [by eexists|by eapply IH].
Qed.

(** ** Each operation *)

Lemma load_cnode_ok a n s : cd_nodes s !! a = Some n -> load_cnode a s = Some (n, s).
Proof. intros E. unfold load_cnode, bind, gets, lift_opt. by rewrite E. Qed.

Lemma set_cprev_ok a v n s : cd_nodes s !! a = Some n -> set_cprev a v s = Some (tt, Cond (cd_waiters s) (<[a := CNode v (cn_next n) (cn_task n)]> (cd_nodes s)) (cd_woken s)).
Proof. intros E. unfold set_cprev. by rewrite (bind_Some _ _ _ _ _ (load_cnode_ok a n s E)). Qed.
Lemma set_cnext_ok a v n s : cd_nodes s !! a = Some n -> set_cnext a v s = Some (tt, Cond (cd_waiters s) (<[a := CNode (cn_prev n) v (cn_task n)]> (cd_nodes s)) (cd_woken s)).
Proof. intros E. unfold set_cnext. by rewrite (bind_Some _ _ _ _ _ (load_cnode_ok a n s E)). Qed.
Lemma set_ctask_ok a v n s : cd_nodes s !! a = Some n -> set_ctask a v s = Some (tt, Cond (cd_waiters s) (<[a := CNode (cn_prev n) (cn_next n) v]> (cd_nodes s)) (cd_woken s)).
Proof. intros E. unfold set_ctask. by rewrite (bind_Some _ _ _ _ _ (load_cnode_ok a n s E)). Qed.
Lemma drop_cnode_ok a n s : cd_nodes s !! a = Some n -> drop_cnode a s = Some (tt, Cond (cd_waiters s) (delete a (cd_nodes s)) (cd_woken s)).
Proof. intros E. unfold drop_cnode. by rewrite (bind_Some _ _ _ _ _ (load_cnode_ok a n s E)). Qed.

(** What the node behind the first has before it. *)
Definition relink (p : Z) (ws : list (Z * Z)) (ns : gmap Z cnode) : gmap Z cnode :=
  match ws with
  | [] => ns
  | (a, t) :: ws => <[a := CNode p (head_or ws NULL) t]> ns
  end.

Lemma relink_ok ns p q ws : linked ns q ws NULL -> NoDup ws.*1 -> linked (relink p ws ns) p ws NULL.
Proof.
  destruct ws as [|[a t] ws]; [done|]. simpl. intros (Ha & Ht & E & Hl) [Hn _]%NoDup_cons. split_and!; [done|done|by rewrite lookup_insert_eq|by apply linked_insert].
Qed.

Lemma relink_run ns p q ws w k : linked ns q ws NULL ->
  (when (negb (head_or ws NULL =? NULL)) do set_cprev (head_or ws NULL) p) (Cond w ns k) = Some (tt, Cond w (relink p ws ns) k).
Proof.
  destruct ws as [|[a t] ws]; [done|]. simpl. intros (Ha & Ht & E & Hl). rewrite (proj2 (Z.eqb_neq a NULL) Ha). cbn [negb]. exact (set_cprev_ok a p _ (Cond w ns k) E).
Qed.

Lemma relink_other ns p ws a : a ∉ ws.*1 -> relink p ws ns !! a = ns !! a.
Proof. destruct ws as [|[b t] ws]; [done|]. simpl. intros Ha. apply lookup_insert_ne. intros ->. apply Ha. apply elem_of_cons. by left. Qed.

Lemma cond_wait_begin_ok s ws a t : cond_rep s ws -> cd_nodes s !! a = None -> a <> NULL -> t <> NULL ->
  exists s', cond_wait_begin a t s = Some (tt, s') /\ cond_rep s' ((a, t) :: ws) /\ cd_woken s' = cd_woken s.
Proof.
  intros [Hh Hl Hn Hw] Hf Ha Ht. assert (a ∉ ws.*1) as Hna by (intros Hi; destruct (linked_in _ _ _ _ _ Hl Hi) as (nd & E & _); congruence).
  unfold cond_wait_begin. erewrite bind_Some by reflexivity. rewrite Hh. erewrite bind_Some by reflexivity.
  erewrite bind_Some by (apply (relink_run _ a NULL); simpl; by apply linked_insert). eexists. split; [reflexivity|]. split; [|done]. split; simpl; [done| |by apply NoDup_cons|].
  - split; [done|]. split; [done|]. split; [rewrite relink_other by done; apply lookup_insert_eq|]. apply (relink_ok _ _ NULL); [by apply linked_insert|done].
  - intros b n E [Hb1 Hb2]%not_elem_of_cons. rewrite relink_other in E by done. rewrite lookup_insert_ne in E by done. by eapply Hw.
Qed.

Lemma signal_ok s ws : cond_rep s ws ->
  exists s', hev_task_cond_signal s = Some (tt, s') /\ cond_rep s' (tail ws) /\ cd_woken s' = cd_woken s ++ take 1 ws.*2.
Proof.
  intros [Hh Hl Hn Hw]. unfold hev_task_cond_signal. erewrite bind_Some by reflexivity. rewrite Hh. destruct ws as [|[a t] ws]; simpl.
  - exists s. by rewrite app_nil_r.
  - destruct Hl as (Ha & Ht & E & Hl). apply NoDup_cons in Hn as [Hna Hn]. rewrite (proj2 (Z.eqb_neq a NULL) Ha).
    erewrite bind_Some by (by apply load_cnode_ok). erewrite bind_Some by reflexivity. erewrite bind_Some by (by apply set_ctask_ok). erewrite bind_Some by reflexivity. cbn [cn_next cn_prev cn_task].
    erewrite (relink_run _ NULL a) by (by apply linked_insert). eexists. split; [reflexivity|]. split; [|done]. split; simpl; [done| |done|].
    + apply (relink_ok _ _ a); [by apply linked_insert|done].
    + intros b n Eb Hb. rewrite relink_other in Eb by done. destruct (decide (b = a)) as [->|Hba].
      * rewrite lookup_insert_eq in Eb. by injection Eb as <-.
      * rewrite lookup_insert_ne in Eb by done. eapply Hw; [done|]. simpl. by apply not_elem_of_cons.
Qed.

Lemma broadcast_loop_ok fuel s ws p :
  cd_waiters s = head_or ws NULL -> linked (cd_nodes s) p ws NULL -> NoDup ws.*1 -> (forall a n, cd_nodes s !! a = Some n -> a ∉ ws.*1 -> cn_task n = NULL) ->
  (length ws < fuel)%nat ->
  exists s', cond_broadcast_loop fuel s = Some (tt, s') /\ cond_rep s' [] /\ cd_woken s' = cd_woken s ++ ws.*2.
Proof.
  revert s ws p. induction fuel as [|fuel IH]; intros s ws p Hh Hl Hn Hw Hf; [lia|]. simpl. erewrite bind_Some by reflexivity. rewrite Hh. destruct ws as [|[a t] ws]; simpl.
  - exists s. rewrite app_nil_r. split; [done|]. split; [|done]. split; [done|done|constructor|done].
  - destruct Hl as (Ha & Ht & E & Hl). apply NoDup_cons in Hn as [Hna Hn]. rewrite (proj2 (Z.eqb_neq a NULL) Ha).
    erewrite bind_Some by (by apply load_cnode_ok). erewrite bind_Some by reflexivity. erewrite bind_Some by (by apply set_ctask_ok). erewrite bind_Some by reflexivity. cbn [cn_next cn_prev cn_task].
    match goal with |- exists s', cond_broadcast_loop fuel ?st = _ /\ _ => destruct (IH st ws a) as (s' & E' & Hr & Hk) end; simpl; [done|by apply linked_insert|done| |simpl in Hf; lia|].
    + intros b n Eb Hb. destruct (decide (b = a)) as [->|Hba]; [rewrite lookup_insert_eq in Eb; by injection Eb as <-|].
      rewrite lookup_insert_ne in Eb by done. eapply Hw; [done|]. simpl. by apply not_elem_of_cons.
    + exists s'. split; [done|]. split; [done|]. rewrite Hk. simpl. by rewrite <-app_assoc.
Qed.

Lemma linked_length ns p ws n : linked ns p ws n -> NoDup ws.*1 -> (length ws <= size ns)%nat.
Proof.
  intros Hl Hn. rewrite <-(length_fmap fst). rewrite <-(size_list_to_set (C := gset Z)) by done. rewrite <-size_dom. apply subseteq_size.
  intros a Ha. apply elem_of_list_to_set in Ha. destruct (linked_in _ _ _ _ _ Hl Ha) as (nd & E & _). by apply elem_of_dom_2 in E.
Qed.

Lemma broadcast_ok s ws : cond_rep s ws -> exists s', hev_task_cond_broadcast s = Some (tt, s') /\ cond_rep s' [] /\ cd_woken s' = cd_woken s ++ ws.*2.
Proof.
  intros [Hh Hl Hn Hw]. unfold hev_task_cond_broadcast. erewrite bind_Some by reflexivity. apply (broadcast_loop_ok _ _ ws NULL); try done.
  pose proof (linked_length _ _ _ _ Hl Hn). lia.
Qed.

(** A call that was woken returns. *)
Lemma woken_leaves s ws a n : cond_rep s ws -> cd_nodes s !! a = Some n -> a ∉ ws.*1 ->
  cond_rep (Cond (cd_waiters s) (delete a (cd_nodes s)) (cd_woken s)) ws.
Proof.
  intros [Hh Hl Hn Hw] E Ha. split; simpl; [done|by apply linked_delete|done|]. intros b m Eb Hb. eapply Hw; [|done]. by apply lookup_delete_Some in Eb as [_ Eb].
Qed.

Lemma end_or_app p l b u : end_or p (l ++ [(b, u)]) = b.
Proof. unfold end_or. by rewrite last_snoc. Qed.

(** Unlinking a node that is the only one or not the first. *)
Lemma cond_unlink_ok s l a t r : cond_rep s (l ++ (a, t) :: r) -> l <> [] \/ r = [] ->
  exists s', cond_timedwait_end a s = Some (-1, s') /\ cond_rep s' (l ++ r) /\ cd_woken s' = cd_woken s.
Proof.
  intros [Hh Hl Hn Hw] Hor. pose proof Hl as (Hl1 & Ha & Ht & E & Hl2)%linked_app.
  rewrite fmap_app in Hn. simpl in Hn. apply NoDup_app in Hn as (Hnl & Hnr & [Har Hn]%NoDup_cons).
  assert (a ∉ l.*1) as Hal by (intros Hi; apply (Hnr a Hi); apply elem_of_cons; by left).
  unfold cond_timedwait_end. rewrite (bind_Some _ _ _ _ _ (load_cnode_ok a _ s E)). cbn [cn_task cn_prev cn_next]. rewrite (proj2 (Z.eqb_neq t NULL) Ht). cbn [negb].
  destruct l as [|w l _] using rev_ind.
  - destruct Hor as [? | ->]; [done|]. simpl in Hh. do 2 erewrite bind_Some by reflexivity. erewrite bind_Some by reflexivity. rewrite Hh, Z.eqb_refl. erewrite bind_Some by reflexivity.
    erewrite bind_Some by (apply drop_cnode_ok with (n := CNode NULL NULL t); exact E). eexists. split; [reflexivity|]. split; [|done]. split; simpl; [done|done|constructor|].
    intros c m [Hca Ec]%lookup_delete_Some _. eapply Hw; [exact Ec|]. simpl. rewrite list_elem_of_singleton. congruence.
  - destruct w as [b u]. rewrite end_or_app in *. apply linked_app in Hl1 as (Hl0 & Hb & Hu & Eb & _). simpl head_or in Eb, Hl0.
    rewrite fmap_app in Hnl, Hal, Hnr. simpl in Hnl, Hal, Hnr. apply NoDup_app in Hnl as (Hnl & Hbl & _).
    assert (b ∉ (a :: r.*1)) as Hbr by (apply Hnr, elem_of_app; right; by apply list_elem_of_singleton).
    assert (b ∉ l.*1) as Hbl' by (intros Hi; apply (Hbl b Hi); by apply list_elem_of_singleton).
    apply not_elem_of_cons in Hbr as [Hba Hbr]. apply not_elem_of_app in Hal as [Hal _].
    rewrite (proj2 (Z.eqb_neq b NULL) Hb). cbn [negb]. erewrite bind_Some by (by apply set_cnext_ok). cbn [cn_prev cn_task].
    set (ns1 := <[b := CNode (end_or NULL l) (head_or r NULL) u]> (cd_nodes s)).
    erewrite bind_Some by (apply (relink_run ns1 b a); by apply linked_insert). erewrite bind_Some by reflexivity. simpl cd_waiters.
    assert ((cd_waiters s =? a) = false) as ->.
    { apply Z.eqb_neq. rewrite Hh. intros Ha'. destruct l as [|[c v] l]; simpl in Ha'; [congruence|]. apply Hal. rewrite <-Ha'. simpl. apply elem_of_cons. by left. }
    erewrite bind_Some by reflexivity.
    assert (relink b r ns1 !! a = Some (CNode b (head_or r NULL) t)) as Ea by (rewrite relink_other by done; unfold ns1; by rewrite lookup_insert_ne).
    erewrite bind_Some by (apply drop_cnode_ok with (n := CNode b (head_or r NULL) t); exact Ea). eexists. split; [reflexivity|]. split; [|done]. split; simpl.
    + rewrite Hh. by destruct l as [|[c v] l].
    + assert (forall c, c <> a -> c ∉ r.*1 -> c <> b -> delete a (relink b r ns1) !! c = cd_nodes s !! c) as Hsame.
      { intros c H1 H2 H3. rewrite lookup_delete_ne, relink_other by done. unfold ns1. by rewrite lookup_insert_ne. }
      apply linked_app. rewrite end_or_app. split; [apply linked_app; split; [|split_and!; try done]|].
      * eapply linked_frame; [|exact Hl0]. intros c Hc. apply Hsame; [by intros ->|intros Hi; apply (Hnr c); [apply elem_of_app; by left|apply elem_of_cons; by right]|by intros ->].
      * rewrite lookup_delete_ne, relink_other by done. apply lookup_insert_eq.
      * apply linked_delete; [done|]. apply (relink_ok _ _ a); [by apply linked_insert|done].
    + rewrite !fmap_app. simpl. rewrite <-app_assoc. apply NoDup_app. split; [done|]. split; [|by apply NoDup_cons].
      intros c Hc [->|Hi]%elem_of_cons; [done|]. apply (Hnr c); [apply elem_of_app; by left|apply elem_of_cons; by right].
    + intros c m [Hca Ec]%lookup_delete_Some Hc. rewrite !fmap_app in Hc. apply not_elem_of_app in Hc as [[Hc1 Hc2]%not_elem_of_app Hc3]. simpl in Hc2. apply not_elem_of_cons in Hc2 as [Hc2 _].
      rewrite relink_other in Ec by done. unfold ns1 in Ec. rewrite lookup_insert_ne in Ec by done. eapply Hw; [exact Ec|]. rewrite !fmap_app. simpl.
      apply not_elem_of_app. split; [apply not_elem_of_app; split; [done|by apply not_elem_of_cons; split; [|apply not_elem_of_nil]]|]. apply not_elem_of_cons. split; [congruence|done].
Qed.

(** ** Runs *)

(** What the tasks can do with a condition: call it, look at the own node after a wake-up, give up
    or return after a timed wait, signal and broadcast. *)
Inductive cond_op := OpWait (a t : Z) | OpResume (a : Z) | OpTimed (a : Z) | OpSignal | OpBroadcast.

Definition cond_step (o : cond_op) : CD unit :=
  match o with
  | OpWait a t => cond_wait_begin a t
  | OpResume a => let* _ := cond_wait_resume a in ret tt
  | OpTimed a => let* _ := cond_timedwait_end a in ret tt
  | OpSignal => hev_task_cond_signal
  | OpBroadcast => hev_task_cond_broadcast
  end.

(** The specification: the tasks that wait, the latest first, and those that were woken. *)
Definition cond_spec (o : cond_op) (ws : list (Z * Z)) : list (Z * Z) * list Z :=
  match o with
  | OpWait a t => ((a, t) :: ws, [])
  | OpResume a => (ws, [])
  | OpTimed a => (filter (fun w => w.1 <> a) ws, [])
  | OpSignal => (tail ws, take 1 ws.*2)
  | OpBroadcast => ([], ws.*2)
  end.

(** Which operations can come: new nodes are new, only calls that have not returned look at their nodes, and the first
    of several waiting tasks does not give up. *)
Definition cond_can (s : cond) (ws : list (Z * Z)) (o : cond_op) : Prop :=
  match o with
  | OpWait a t => cd_nodes s !! a = None /\ a <> NULL /\ t <> NULL
  | OpResume a => is_Some (cd_nodes s !! a)
  | OpTimed a => is_Some (cd_nodes s !! a) /\ (head_or ws NULL = a -> length ws = 1%nat \/ a = NULL)
  | _ => True
  end.

(** Each operation does what the specification says; in particular a task is woken exactly by the signal or broadcast that takes
    it out of the waiting ones, and one that gives up takes only itself out. *)
Theorem cond_refines s ws o : cond_rep s ws -> cond_can s ws o ->
  exists s', cond_step o s = Some (tt, s') /\ cond_rep s' (cond_spec o ws).1 /\ cd_woken s' = cd_woken s ++ (cond_spec o ws).2.
Proof.
  intros Hr Hc. pose proof Hr as [Hh Hl Hn Hw]. destruct o as [a t|a|a| |]; simpl in *.
  - destruct Hc as (Hf & Ha & Ht). rewrite app_nil_r. by apply cond_wait_begin_ok.
  - destruct Hc as [n E]. rewrite app_nil_r.
    destruct (Z.eqb_spec (cn_task n) NULL) as [Hz|Hz].
    + assert (a ∉ ws.*1) as Ha by (intros Hi; destruct (linked_in _ _ _ _ _ Hl Hi) as (nd & E2 & _ & Hnz); congruence).
      assert (cond_wait_resume a s = Some (true, Cond (cd_waiters s) (delete a (cd_nodes s)) (cd_woken s))) as E2.
      { unfold cond_wait_resume. rewrite (bind_Some _ _ _ _ _ (load_cnode_ok a n s E)), Hz, Z.eqb_refl. cbn [negb]. by rewrite (bind_Some _ _ _ _ _ (drop_cnode_ok a n s E)). }
      eexists. split; [by rewrite (bind_Some _ _ _ _ _ E2)|]. split; [by eapply woken_leaves|done].
    + assert (cond_wait_resume a s = Some (false, s)) as E2.
      { unfold cond_wait_resume. rewrite (bind_Some _ _ _ _ _ (load_cnode_ok a n s E)). by rewrite (proj2 (Z.eqb_neq _ _) Hz). }
      exists s. split; [by rewrite (bind_Some _ _ _ _ _ E2)|done].
  - destruct Hc as [[n E] Hfirst]. rewrite app_nil_r. destruct (decide (a ∈ ws.*1)) as [Hi|Ha].
    + apply list_elem_of_fmap in Hi as ([a' t] & -> & Hi). simpl in *. apply list_elem_of_split in Hi as (l & r & ->).
      assert (l <> [] \/ r = []) as Hor.
      { destruct l as [|w l]; [right|by left]. simpl in Hfirst. destruct (Hfirst eq_refl) as [Hlen | ->]; [by destruct r|]. by destruct Hl. }
      destruct (cond_unlink_ok s l a' t r Hr Hor) as (s' & E' & Hr' & Hk). exists s'. split; [by rewrite (bind_Some _ _ _ _ _ E')|]. split; [|done].
      assert (filter (fun w => w.1 <> a') (l ++ (a', t) :: r) = l ++ r) as ->; [|done].
      rewrite fmap_app in Hn. simpl in Hn. apply NoDup_app in Hn as (_ & Hnr & [Har _]%NoDup_cons).
      rewrite filter_app, filter_cons_False by (simpl; tauto). f_equal; apply filter_all.
      all: apply list.Forall_forall; intros [c v] Hc; simpl; intros ->.
      * apply (Hnr a'); [apply list_elem_of_fmap; by exists (a', v)|apply elem_of_cons; by left].
      * apply Har. apply list_elem_of_fmap. by exists (a', v).
    + pose proof (Hw a n E Ha) as Hz.
      assert (cond_timedwait_end a s = Some (0, Cond (cd_waiters s) (delete a (cd_nodes s)) (cd_woken s))) as E2.
      { unfold cond_timedwait_end. rewrite (bind_Some _ _ _ _ _ (load_cnode_ok a n s E)), Hz, Z.eqb_refl. cbn [negb]. by rewrite (bind_Some _ _ _ _ _ (drop_cnode_ok a n s E)). }
      eexists. split; [by rewrite (bind_Some _ _ _ _ _ E2)|]. split; [|done].
      assert (filter (fun w => w.1 <> a) ws = ws) as ->; [|by eapply woken_leaves]. apply filter_all. apply list.Forall_forall. intros [c v] Hc. simpl. intros ->.
      apply Ha. apply list_elem_of_fmap. by exists (a, v).
  - by apply signal_ok.
  - by apply broadcast_ok.
Qed.

(** When the latest of several waiting tasks gives up, the others are lost: they still wait on their nodes, but no signal or
    broadcast wakes any of them. *)
Theorem cond_timeout_loses s a t b u ws : cond_rep s ((a, t) :: (b, u) :: ws) ->
  exists s', cond_timedwait_end a s = Some (-1, s') /\
    hev_task_cond_signal s' = Some (tt, s') /\ hev_task_cond_broadcast s' = Some (tt, s') /\
    exists n, cd_nodes s' !! b = Some n /\ cn_task n = u /\ u <> NULL.
Proof.
  intros [Hh (Ha & Ht & E & Hb & Hu & Eb & Hl) Hn Hw]. apply NoDup_cons in Hn as [Hna Hn]. simpl in Hna. apply not_elem_of_cons in Hna as [Hab Hna].
  unfold cond_timedwait_end. rewrite (bind_Some _ _ _ _ _ (load_cnode_ok a _ s E)). cbn [cn_task cn_prev cn_next head_or]. rewrite (proj2 (Z.eqb_neq t NULL) Ht). cbn [negb].
  erewrite bind_Some by reflexivity. rewrite (proj2 (Z.eqb_neq b NULL) Hb). cbn [negb]. erewrite bind_Some by (by apply set_cprev_ok). erewrite bind_Some by reflexivity. simpl cd_waiters.
  rewrite Hh. simpl head_or. rewrite Z.eqb_refl. erewrite bind_Some by reflexivity.
  erewrite bind_Some by (eapply drop_cnode_ok; simpl; by rewrite lookup_insert_ne). eexists. split; [reflexivity|]. split; [reflexivity|]. split; [reflexivity|].
  eexists. split; [simpl; rewrite lookup_delete_ne by done; apply lookup_insert_eq|]. done.
Qed.

(** *** Examples *)

Lemma cond_init_rep : cond_rep (Cond NULL ∅ []) [].
Proof. split; [done|done|constructor|by intros a n]. Qed.

Definition two_waiting : cond := Cond 128 {[64 := CNode 128 NULL 1; 128 := CNode NULL 64 2]} [].

Lemma two_waiting_rep : cond_rep two_waiting [(128, 2); (64, 1)].
Proof.
  split; [done|by split_and!|by apply (bool_decide_unpack _)|].
  intros a n E Ha. simpl in E, Ha. apply lookup_insert_Some in E as [[<- _]|[_ E]]; [destruct Ha; set_solver|].
  apply lookup_singleton_Some in E as [<- _]. destruct Ha. set_solver.
Qed.

Lemma cond_refines_witness : exists s', cond_step OpSignal two_waiting = Some (tt, s') /\ cond_rep s' [(64, 1)] /\ cd_woken s' = [2].
Proof. apply (cond_refines two_waiting [(128, 2); (64, 1)] OpSignal); [exact two_waiting_rep|exact I]. Defined.

Lemma cond_timeout_loses_witness : exists s', cond_timedwait_end 128 two_waiting = Some (-1, s') /\ hev_task_cond_broadcast s' = Some (tt, s').
Proof. destruct (cond_timeout_loses two_waiting 128 2 64 1 [] two_waiting_rep) as (s' & E & _ & H & _). exists s'. split; [exact E|exact H]. Defined.
