(* ===== verification/DnsProxy.v ===== *)
(** * The DNS proxy of the task system (hev-task-system: lib/dns, kern/aide)

    Tasks that need an address call the proxy.  A call holds the proxy's mutex, leaves its
    arguments, an object on the stack of its task, in [call], sends a byte to the aide thread
    and waits for a byte back.  The thread reads the byte, asks the resolver of the C library
    with the arguments it finds behind [call], stores the answer there and sends the byte
    back.  The scheduler runs one task at a time, and the aide thread runs beside it: a
    step is what a task or the thread does between two points where the other side can see
    the difference, so a sequence of [label]s is an interleaving of all of them.  The kernel
    says what read and write return, the C library what the resolver answers. *)

From S2P Require Import Prelude RBTree TaskMutex.

(** ** Data *)

(** The arguments of the two resolver functions; the pointers are only passed on. *)
Inductive query :=
| GetAddrInfo (node service hints res : Z)
| GetNameInfo (addr addrlen node nodelen service servicelen flags : Z).

(** [HevTaskDNSCallGetAddrInfo] and [HevTaskDNSCallGetNameInfo]: the type and the arguments
    are [c_query]; [err] is not initialised. *)
Record dcall := DCall { c_query : query; c_err : option Z; c_ret : Z }.

(** What a task is about to do in [hev_task_dns_proxy_call], with its call object and the
    node of the mutex on its stack. *)
Inductive pc := PLock | PWait | PSet | PWrite | PRead | PEnd.

#[export] Instance pc_eq_dec : EqDecision pc.
Proof. solve_decision. Defined.

Record frame := Frame { fr_call : Z; fr_node : Z; fr_pc : pc }.

(** The aide thread: in its reactor, about to read, with the byte, in the resolver, with the
    answer. *)
Inductive server := SIdle | SLoop | SGot | SBusy (p : Z) | SDone.

(** Of [HevTaskSystemContext] and [HevTaskDNSProxy]: [dn_up] is [dns_proxy != NULL], [dn_task]
    is [sched_entity.task]; [dn_req] and [dn_rep] count the bytes in the socket pair, [dn_edge]
    and [dn_aedge] tell that a reactor has a readable end to report. *)
Record dns := Dns {
  dn_sync : sync; dn_live : gset Z; dn_run : option Z;
  dn_aide : bool; dn_fds : Z; dn_allocs : Z; dn_up : bool;
  dn_call : Z; dn_task : Z; dn_req : Z; dn_rep : Z; dn_edge : bool; dn_aedge : bool;
  dn_calls : gmap Z dcall; dn_frames : gmap Z frame; dn_server : server
}.

Abbreviation DN := (M dns).

Definition up_sync v s := Dns v (dn_live s) (dn_run s) (dn_aide s) (dn_fds s) (dn_allocs s) (dn_up s) (dn_call s) (dn_task s) (dn_req s) (dn_rep s) (dn_edge s) (dn_aedge s) (dn_calls s) (dn_frames s) (dn_server s).
Definition up_live v s := Dns (dn_sync s) v (dn_run s) (dn_aide s) (dn_fds s) (dn_allocs s) (dn_up s) (dn_call s) (dn_task s) (dn_req s) (dn_rep s) (dn_edge s) (dn_aedge s) (dn_calls s) (dn_frames s) (dn_server s).
Definition up_run v s := Dns (dn_sync s) (dn_live s) v (dn_aide s) (dn_fds s) (dn_allocs s) (dn_up s) (dn_call s) (dn_task s) (dn_req s) (dn_rep s) (dn_edge s) (dn_aedge s) (dn_calls s) (dn_frames s) (dn_server s).
Definition up_aide v s := Dns (dn_sync s) (dn_live s) (dn_run s) v (dn_fds s) (dn_allocs s) (dn_up s) (dn_call s) (dn_task s) (dn_req s) (dn_rep s) (dn_edge s) (dn_aedge s) (dn_calls s) (dn_frames s) (dn_server s).
Definition up_res f a s := Dns (dn_sync s) (dn_live s) (dn_run s) (dn_aide s) f a (dn_up s) (dn_call s) (dn_task s) (dn_req s) (dn_rep s) (dn_edge s) (dn_aedge s) (dn_calls s) (dn_frames s) (dn_server s).
Definition up_up v s := Dns (dn_sync s) (dn_live s) (dn_run s) (dn_aide s) (dn_fds s) (dn_allocs s) v (dn_call s) (dn_task s) (dn_req s) (dn_rep s) (dn_edge s) (dn_aedge s) (dn_calls s) (dn_frames s) (dn_server s).
Definition up_call v s := Dns (dn_sync s) (dn_live s) (dn_run s) (dn_aide s) (dn_fds s) (dn_allocs s) (dn_up s) v (dn_task s) (dn_req s) (dn_rep s) (dn_edge s) (dn_aedge s) (dn_calls s) (dn_frames s) (dn_server s).
Definition up_ptask v s := Dns (dn_sync s) (dn_live s) (dn_run s) (dn_aide s) (dn_fds s) (dn_allocs s) (dn_up s) (dn_call s) v (dn_req s) (dn_rep s) (dn_edge s) (dn_aedge s) (dn_calls s) (dn_frames s) (dn_server s).
Definition up_req v e s := Dns (dn_sync s) (dn_live s) (dn_run s) (dn_aide s) (dn_fds s) (dn_allocs s) (dn_up s) (dn_call s) (dn_task s) v (dn_rep s) (dn_edge s) e (dn_calls s) (dn_frames s) (dn_server s).
Definition up_rep v e s := Dns (dn_sync s) (dn_live s) (dn_run s) (dn_aide s) (dn_fds s) (dn_allocs s) (dn_up s) (dn_call s) (dn_task s) (dn_req s) v e (dn_aedge s) (dn_calls s) (dn_frames s) (dn_server s).
Definition up_dcalls v s := Dns (dn_sync s) (dn_live s) (dn_run s) (dn_aide s) (dn_fds s) (dn_allocs s) (dn_up s) (dn_call s) (dn_task s) (dn_req s) (dn_rep s) (dn_edge s) (dn_aedge s) v (dn_frames s) (dn_server s).
Definition up_frames v s := Dns (dn_sync s) (dn_live s) (dn_run s) (dn_aide s) (dn_fds s) (dn_allocs s) (dn_up s) (dn_call s) (dn_task s) (dn_req s) (dn_rep s) (dn_edge s) (dn_aedge s) (dn_calls s) v (dn_server s).
Definition up_server v s := Dns (dn_sync s) (dn_live s) (dn_run s) (dn_aide s) (dn_fds s) (dn_allocs s) (dn_up s) (dn_call s) (dn_task s) (dn_req s) (dn_rep s) (dn_edge s) (dn_aedge s) (dn_calls s) (dn_frames s) v.

Definition on_sync {A} (m : SY A) : DN A := zoom dn_sync up_sync m.

Definition load_dcall (p : Z) : DN dcall := let* o := gets (fun s => dn_calls s !! p) in lift_opt o.
Definition store_dcall (p : Z) (c : dcall) : DN unit := modify (fun s => up_dcalls (<[p := c]> (dn_calls s)) s).

(** The static [dummy_task]. *)
Definition DUMMY : Z := -1.

Definition EIO : Z := 5.
Definition EAGAIN : Z := 11.
Definition EAI_SYSTEM : Z := -11.

(** What a system call of one byte gives. *)
Inductive sysret := Ok1 | Err (errno : Z).

(** [(0 <= res) || (EAGAIN != errno)] *)
Definition sys_over (r : sysret) : bool := match r with Ok1 => true | Err e => negb (e =? EAGAIN) end.

(** What can be seen of the proxy: calls, the questions to the resolver with their answers,
    and what the calls return, [None] when there is no proxy. *)
Inductive obs :=
| OCall (t : Z) (q : query)
| OAnswer (q : query) (ret err : Z)
| OReturn (t : Z) (ret err : Z)
| ONoProxy (t : Z) (ret err : Z).

(** ** Creating the proxy *)

(** Which of the system's functions succeed. *)
Record env := Env { e_reactor : bool; e_thread : bool; e_malloc : bool; e_pair : bool; e_setup : bool; e_add : bool }.

Definition hev_task_aide_init (e : env) : DN Z :=
  let* aide := gets dn_aide in
  if aide : bool then ret 0 else
  if negb (e_reactor e) then ret (-1) else
  if negb (e_thread e) then ret (-1) else
  modify (up_aide true);; ret 0.

Definition hev_task_dns_proxy_new (e : env) : DN bool :=
  let* res := hev_task_aide_init e in
  if res <? 0 then ret false else
  if negb (e_malloc e) then ret false else
  modify (fun s => up_res (dn_fds s) (dn_allocs s + 1) s);;
  let* ok :=
    if negb (e_pair e) then ret false else
    modify (fun s => up_res (dn_fds s + 2) (dn_allocs s) s);;
    if negb (e_setup e) || negb (e_add e) then modify (fun s => up_res (dn_fds s - 2) (dn_allocs s) s);; ret false
    else ret true in
  if ok : bool then
    modify (fun s => up_call NULL (up_ptask NULL (up_req 0 false (up_rep 0 false s))));;
    modify (fun s => up_sync (up_locker 0 (up_waiters NULL (dn_sync s))) s);;
    ret true
  else
    modify (fun s => up_res (dn_fds s) (dn_allocs s - 1) s);;
    ret false.

Definition hev_task_dns_proxy_get (e : env) : DN bool :=
  let* up := gets dn_up in
  (if negb up then let* ok := hev_task_dns_proxy_new e in modify (up_up ok) else ret tt);;
  gets dn_up.

Definition hev_task_dns_proxy_destroy : DN unit :=
  modify (fun s => up_res (dn_fds s - 2) (dn_allocs s - 1) s);;
  modify (up_up false).

(** ** The tasks *)

(** Task [t] fills the call object on its stack and enters [hev_task_dns_proxy_call]. *)
Definition dns_enter_call (t p n : Z) (q : query) : DN (list obs) :=
  store_dcall p (DCall q None (-1));;
  modify (fun s => up_frames (<[t := Frame p n PLock]> (dn_frames s)) s);;
  ret [OCall t q].

Definition hev_task_dns_proxy_getaddrinfo (t p n node service hints res : Z) : DN (list obs) :=
  dns_enter_call t p n (GetAddrInfo node service hints res).

Definition hev_task_dns_proxy_getnameinfo (t p n addr addrlen node nodelen service servicelen flags : Z) : DN (list obs) :=
  dns_enter_call t p n (GetNameInfo addr addrlen node nodelen service servicelen flags).

Definition hev_task_dns_getaddrinfo (t p n node service hints res : Z) (e : env) : DN (list obs) :=
  let* proxy := hev_task_dns_proxy_get e in
  if negb proxy then ret [ONoProxy t EAI_SYSTEM EIO] else
  hev_task_dns_proxy_getaddrinfo t p n node service hints res.

Definition hev_task_dns_getnameinfo (t p n addr addrlen node nodelen service servicelen flags : Z) (e : env) : DN (list obs) :=
  let* proxy := hev_task_dns_proxy_get e in
  if negb proxy then ret [ONoProxy t EAI_SYSTEM EIO] else
  hev_task_dns_proxy_getnameinfo t p n addr addrlen node nodelen service servicelen flags.

(** Either of the two, up to the call. *)
Definition hev_task_dns_call (t p n : Z) (q : query) (e : env) : DN (list obs) :=
  match q with
  | GetAddrInfo node service hints res => hev_task_dns_getaddrinfo t p n node service hints res e
  | GetNameInfo addr addrlen node nodelen service servicelen flags => hev_task_dns_getnameinfo t p n addr addrlen node nodelen service servicelen flags e
  end.

(** The end of the call and of the two functions. *)
Definition dns_return (t p : Z) : DN (list obs) :=
  let* c := load_dcall p in
  let* err := lift_opt (c_err c) in
  modify (fun s => up_dcalls (delete p (dn_calls s)) s);;
  modify (fun s => up_frames (delete t (dn_frames s)) s);;
  ret [OReturn t (c_ret c) err].

Definition goto (t : Z) (f : frame) (a : pc) : DN unit :=
  modify (fun s => up_frames (<[t := Frame (fr_call f) (fr_node f) a]> (dn_frames s)) s).

(** [hev_task_yield (HEV_TASK_WAITIO)] *)
Definition dns_yield (t : Z) : DN unit := on_sync (task_wait t);; modify (up_run None).

(** [hev_task_dns_proxy_call], from one point where it can be overtaken to the next; [r] is
    what its read or write gives. *)
Definition hev_task_dns_proxy_call (t : Z) (f : frame) (r : sysret) : DN (list obs) :=
  match fr_pc f with
  | PLock =>
      let* got := on_sync (mutex_lock_begin (fr_node f) t) in
      (if got : bool then goto t f PSet else goto t f PWait;; modify (up_run None));;
      ret []
  | PWait =>
      let* got := on_sync (mutex_lock_resume (fr_node f) t) in
      (if got : bool then goto t f PSet else modify (up_run None));;
      ret []
  | PSet =>
      modify (up_call (fr_call f));;
      modify (up_ptask t);;
      goto t f PWrite;;
      ret []
  | PWrite =>
      (match r with Ok1 => modify (fun s => up_req (dn_req s + 1) true s) | Err _ => ret tt end);;
      (if sys_over r then goto t f PRead else dns_yield t);;
      ret []
  | PRead =>
      (match r with Ok1 => modify (fun s => up_rep (dn_rep s - 1) (dn_edge s) s) | Err _ => ret tt end);;
      (if sys_over r then goto t f PEnd else dns_yield t);;
      ret []
  | PEnd =>
      modify (up_ptask DUMMY);;
      on_sync hev_task_mutex_unlock;;
      dns_return t (fr_call f)
  end.

(** ** The aide thread *)

(** The work's memory is the proxy's: it must not be freed. *)
Definition load_proxy : DN unit := let* up := gets dn_up in if up : bool then ret tt else fail.

(** The resolver answers [a.1] and leaves [a.2] in the errno of the thread. *)
Definition hev_task_dns_server_getaddrinfo (p : Z) (a : Z * Z) : DN (list obs) :=
  let* gai := load_dcall p in
  store_dcall p (DCall (c_query gai) (Some a.2) a.1);;
  ret [OAnswer (c_query gai) a.1 a.2].

Definition hev_task_dns_server_getnameinfo (p : Z) (a : Z * Z) : DN (list obs) :=
  let* gni := load_dcall p in
  store_dcall p (DCall (c_query gni) (Some a.2) a.1);;
  ret [OAnswer (c_query gni) a.1 a.2].

(** [hev_task_aide_entry] and [hev_task_dns_server_handler], a step at a time; [a] is what the
    resolver returns, with its errno.  The C reads [proxy->call] for the type and again for the argument: only the
    task that holds the mutex writes it, before it sends the byte, so both are the one read of [SGot]. *)
Definition hev_task_dns_server (r : sysret) (a : Z * Z) : DN (list obs) :=
  let* st := gets dn_server in
  match st with
  | SIdle => load_proxy;; modify (fun s => up_req (dn_req s) false s);; modify (up_server SLoop);; ret []
  | SLoop =>
      load_proxy;;
      match r with
      | Ok1 => modify (fun s => up_req (dn_req s - 1) (dn_aedge s) s);; modify (up_server SGot);; ret []
      | Err _ => modify (up_server SIdle);; ret []
      end
  | SGot =>
      load_proxy;;
      let* p := gets dn_call in
      load_dcall p;;
      modify (up_server (SBusy p));; ret []
  | SBusy p =>
      let* c := load_dcall p in
      let* o :=
        match c_query c with
        | GetAddrInfo _ _ _ _ => hev_task_dns_server_getaddrinfo p a
        | GetNameInfo _ _ _ _ _ _ _ => hev_task_dns_server_getnameinfo p a
        end in
      modify (up_server SDone);;
      ret o
  | SDone =>
      load_proxy;;
      (match r with Ok1 => modify (fun s => up_rep (dn_rep s + 1) true s) | Err _ => ret tt end);;
      (if sys_over r then modify (up_server SLoop) else ret tt);;
      ret []
  end.

(** ** Steps *)

Inductive label :=
| LSpawn (t : Z)                             (** a task starts *)
| LSwitch (t : Z)                            (** the scheduler gives it the CPU *)
| LWake (t : Z)                              (** something else wakes it *)
| LCall (p n : Z) (q : query) (e : env)      (** the running task calls the proxy *)
| LTask (r : sysret)                         (** a step of its call *)
| LYield                                     (** it lets go of the CPU, outside of a call *)
| LExit                                      (** it ends *)
| LEvent                                     (** the reactor reports the proxy's end *)
| LServer (r : sysret) (a : Z * Z).          (** a step of the aide thread *)

(** The reactor's event of the proxy ([hev_task_system_io_poll]): a task that has ended must not
    be woken. *)
Definition dns_event : DN unit :=
  modify (fun s => up_rep (dn_rep s) false s);;
  let* t := gets dn_task in
  let* live := gets dn_live in
  if t =? DUMMY then ret tt else
  if bool_decide (t ∈ live) then on_sync (task_wake t) else fail.

Definition dns_step (l : label) : DN (list obs) :=
  match l with
  | LSpawn t => modify (fun s => up_live ({[t]} ∪ dn_live s) s);; on_sync (task_wake t);; ret []
  | LSwitch t => modify (up_run (Some t));; ret []
  | LWake t => on_sync (task_wake t);; ret []
  | LCall p n q e => let* run := gets dn_run in let* t := lift_opt run in hev_task_dns_call t p n q e
  | LTask r =>
      let* run := gets dn_run in
      let* t := lift_opt run in
      let* o := gets (fun s => dn_frames s !! t) in
      let* f := lift_opt o in
      hev_task_dns_proxy_call t f r
  | LYield => modify (up_run None);; ret []
  | LExit =>
      let* run := gets dn_run in
      let* t := lift_opt run in
      modify (fun s => up_live (dn_live s ∖ {[t]}) s);; modify (up_run None);; ret []
  | LEvent => dns_event;; ret []
  | LServer r a => hev_task_dns_server r a
  end.

(** The kernel's side of a read of a pair whose ends are both open, and of a write of one byte
    when the pair is empty: it is EAGAIN when there is nothing to read, and no other error. *)
Definition read_fits (r : sysret) (bytes : Z) : bool := match r with Ok1 => 0 <? bytes | Err e => (e =? EAGAIN) && (bytes <=? 0) end.
Definition write_fits (r : sysret) (bytes : Z) : bool := match r with Ok1 => true | Err e => (e =? EAGAIN) && (0 <? bytes) end.

Definition in_call (s : dns) (t : Z) : bool := bool_decide (is_Some (dn_frames s !! t)).

(** When a step can be taken: the scheduler runs one task, which is not waiting; a new object is
    not on a stack already; reactors report what there is. *)
Definition enabled (l : label) (s : dns) : bool :=
  match l with
  | LSpawn t => (0 <? t) && bool_decide (t ∉ dn_live s)
  | LSwitch t => bool_decide (dn_run s = None) && bool_decide (t ∈ dn_live s) && bool_decide (t ∈ sy_awake (dn_sync s))
  | LWake t => bool_decide (t ∈ dn_live s)
  | LCall p n q e =>
      match dn_run s with
      | Some t => negb (in_call s t) && (0 <? p) && bool_decide (dn_calls s !! p = None) &&
          (0 <? n) && bool_decide (map_Forall (fun _ f => fr_node f <> n) (dn_frames s))
      | None => false
      end
  | LTask r =>
      match dn_run s ≫= fun t => dn_frames s !! t with
      | Some f =>
          match fr_pc f with PWrite => write_fits r (dn_req s) | PRead => read_fits r (dn_rep s) | _ => true end
      | None => false
      end
  | LYield | LExit => match dn_run s with Some t => negb (in_call s t) | None => false end
  | LEvent => bool_decide (dn_run s = None) && dn_up s
  | LServer r a =>
      dn_aide s &&
      match dn_server s with SIdle => dn_aedge s | SLoop => read_fits r (dn_req s) | SDone => write_fits r (dn_rep s) | _ => true end
  end.

(** A task system without a proxy. *)
Definition dns_init : dns := Dns hev_task_mutex_init ∅ None false 0 0 false NULL NULL 0 0 false false ∅ ∅ SIdle.

(** The states that are reached, with what was seen on the way. *)
Inductive dns_runs : list obs -> dns -> Prop :=
| runs_init : dns_runs [] dns_init
| runs_step tr s l o s' : dns_runs tr s -> enabled l s = true -> dns_step l s = Some (o, s') -> dns_runs (tr ++ o) s'.
