(* ===== verification/DnsProxyInv.v ===== *)
(** * The DNS proxy: specification and invariant

    The specification is a set of calls, each with its question and, once the resolver gave
    it, its answer.  The invariant of [DnsProxy] says who holds the mutex and who waits for it
    ([mutex_rep]), where each call stands, where the one byte is that the task that holds the
    mutex and the aide thread pass to each other, and whom the reactor wakes. *)

From S2P Require Import Prelude RBTree TaskMutex DnsProxy.

(** ** Specification *)

Abbreviation calls := (gmap Z (query * option (Z * Z))).

(** A call returns what the resolver answered to its own question. *)
Inductive dns_spec (m : calls) : obs -> calls -> Prop :=
| sp_call t q : m !! t = None -> dns_spec m (OCall t q) (<[t := (q, None)]> m)
| sp_answer t q r e : m !! t = Some (q, None) -> dns_spec m (OAnswer q r e) (<[t := (q, Some (r, e))]> m)
| sp_return t q r e : m !! t = Some (q, Some (r, e)) -> dns_spec m (OReturn t r e) (delete t m)
| sp_none t : m !! t = None -> dns_spec m (ONoProxy t EAI_SYSTEM EIO) m.

Inductive dns_specs (m : calls) : list obs -> calls -> Prop :=
| sps_nil : dns_specs m [] m
| sps_snoc tr m1 o m2 : dns_specs m tr m1 -> dns_spec m1 o m2 -> dns_specs m (tr ++ [o]) m2.

Lemma dns_specs_app m tr m1 tr' m2 : dns_specs m tr m1 -> dns_specs m1 tr' m2 -> dns_specs m (tr ++ tr') m2.
Proof.
  intros H. induction 1 as [|tr' m3 o m4 H1 IH H2]; [by rewrite app_nil_r|]. rewrite app_assoc. by econstructor.
Qed.

Lemma dns_specs_one m o m' : dns_spec m o m' -> dns_specs m [o] m'.
Proof. apply (sps_snoc m [] m o m'), sps_nil. Qed.

(** ** Invariant *)

(** The object of a call holds its question and, once it was given, the answer. *)
Definition call_ok (o : option dcall) (a : option (query * option (Z * Z))) : Prop :=
  exists c q ans, o = Some c /\ a = Some (q, ans) /\ c_query c = q /\
    match ans with Some (r, e) => c_ret c = r /\ c_err c = Some e | None => True end.

Definition asked (m : calls) (t : Z) : Prop := exists q, m !! t = Some (q, None).
Definition answered (m : calls) (t : Z) : Prop := exists q a, m !! t = Some (q, Some a).

Definition pc_ok (owner : option Z) (ws : list (Z * Z)) (m : calls) (s : dns) (t : Z) (f : frame) : Prop :=
  match fr_pc f with
  | PLock => dn_run s = Some t /\ owner <> Some t /\ asked m t
  | PWait => owner <> Some t /\ (fr_node f, t) ∈ ws /\ asked m t
  | PSet => owner = Some t /\ dn_run s = Some t /\ asked m t
  | PWrite => owner = Some t /\ dn_run s = Some t /\ dn_call s = fr_call f /\ dn_task s = t /\ asked m t
  | PRead => owner = Some t /\ dn_call s = fr_call f /\ dn_task s = t
  | PEnd => owner = Some t /\ dn_run s = Some t /\ answered m t
  end.

Record frame_ok (owner : option Z) (ws : list (Z * Z)) (m : calls) (s : dns) (t : Z) (f : frame) : Prop := {
  fo_live : t ∈ dn_live s;
  fo_pos : 0 < fr_call f /\ 0 < fr_node f;
  fo_call : call_ok (dn_calls s !! fr_call f) (m !! t);
  fo_pc : pc_ok owner ws m s t f
}.

(** The byte: nowhere, or at one of the stations of a question and its answer. *)
Definition listens (s : dns) : Prop := dn_server s = SIdle \/ dn_server s = SLoop.

Definition quiet (s : dns) : Prop := dn_req s = 0 /\ dn_rep s = 0 /\ listens s.

Definition talking (s : dns) (t p : Z) (ans : option (Z * Z)) : Prop :=
  (dn_req s = 1 /\ dn_rep s = 0 /\ (dn_server s = SIdle /\ dn_aedge s = true \/ dn_server s = SLoop) /\ ans = None) \/
  (dn_req s = 0 /\ dn_rep s = 0 /\ (dn_server s = SGot \/ dn_server s = SBusy p) /\ ans = None) \/
  (dn_req s = 0 /\ dn_rep s = 0 /\ dn_server s = SDone /\ ans <> None) \/
  (dn_req s = 0 /\ dn_rep s = 1 /\ listens s /\ ans <> None /\ (dn_edge s = true \/ t ∈ sy_awake (dn_sync s))).

Definition talk (owner : option Z) (m : calls) (s : dns) : Prop :=
  match owner with
  | None => quiet s
  | Some t => exists f, dn_frames s !! t = Some f /\ fr_pc f <> PLock /\ fr_pc f <> PWait /\
      match fr_pc f with PRead => exists q ans, m !! t = Some (q, ans) /\ talking s t (fr_call f) ans | _ => quiet s end
  end.

(** Before the first call of a new proxy has come to set [sched_entity.task], it is NULL. *)
Definition task_ok (owner : option Z) (s : dns) : Prop :=
  dn_task s = DUMMY \/ owner = Some (dn_task s) \/
  exists t f, dn_run s = Some t /\ dn_frames s !! t = Some f /\ (fr_pc f = PSet \/ fr_pc f = PLock /\ owner = None).

Record dns_inv (owner : option Z) (ws : list (Z * Z)) (m : calls) (s : dns) : Prop := {
  di_mutex : mutex_rep (dn_sync s) owner ws;
  di_run : forall t, dn_run s = Some t -> t ∈ dn_live s /\ t ∈ sy_awake (dn_sync s);
  di_live : forall t, t ∈ dn_live s -> 0 < t;
  di_frames : forall t f, dn_frames s !! t = Some f -> frame_ok owner ws m s t f;
  di_inj : forall t t' f f', dn_frames s !! t = Some f -> dn_frames s !! t' = Some f' -> t <> t' -> fr_call f <> fr_call f' /\ fr_node f <> fr_node f';
  di_line : forall n t, (n, t) ∈ ws -> exists f, dn_frames s !! t = Some f /\ fr_pc f = PWait /\ fr_node f = n;
  di_dom : forall t, dn_frames s !! t = None -> m !! t = None;
  di_talk : talk owner m s;
  di_up : if dn_up s then task_ok owner s /\ dn_aide s = true /\ dn_fds s = 2 /\ dn_allocs s = 1
          else dn_frames s = ∅ /\ dn_fds s = 0 /\ dn_allocs s = 0 /\ dn_server s = SIdle /\ dn_aedge s = false
}.

Lemma dns_init_inv : dns_inv None [] ∅ dns_init.
Proof.
  split; try done; simpl.
  - apply mutex_init_rep.
  - by intros n t Hin%elem_of_nil.
  - split_and!; [done..|]. by left.
Qed.

(** *** Facts *)

Lemma inv_owner owner ws m s t : dns_inv owner ws m s -> owner = Some t -> exists f, dn_frames s !! t = Some f /\ fr_pc f <> PLock /\ fr_pc f <> PWait.
Proof. intros Hi ->. destruct (di_talk _ _ _ _ Hi) as (f & ? & ? & ? & _). by exists f. Qed.

Lemma inv_up owner ws m s t f : dns_inv owner ws m s -> dn_frames s !! t = Some f -> dn_up s = true.
Proof.
  intros Hi Hf. destruct (dn_up s) eqn:E; [done|]. pose proof (di_up _ _ _ _ Hi) as H. rewrite E in H. destruct H as [H _]. rewrite H in Hf. by apply lookup_empty_Some in Hf.
Qed.

Lemma inv_node_new owner ws m s n : dns_inv owner ws m s -> (forall t f, dn_frames s !! t = Some f -> fr_pc f = PWait -> fr_node f <> n) -> n ∉ ws.*1.
Proof.
  intros Hi Hn ([n' t] & -> & Hin)%list_elem_of_fmap. destruct (di_line _ _ _ _ Hi _ _ Hin) as (f & Hf & Hpc & E). by apply (Hn _ _ Hf Hpc).
Qed.

Lemma inv_task_new owner ws m s t : dns_inv owner ws m s -> (forall f, dn_frames s !! t = Some f -> fr_pc f <> PWait) -> t ∉ ws.*2.
Proof.
  intros Hi Hn ([n t'] & -> & Hin)%list_elem_of_fmap. destruct (di_line _ _ _ _ Hi _ _ Hin) as (f & Hf & Hpc & E). by apply (Hn _ Hf).
Qed.

(** Nobody but the running task is anywhere else than waiting or reading. *)
Lemma frame_other owner ws m s t f :
  frame_ok owner ws m s t f -> dn_run s <> Some t -> fr_pc f = PWait /\ owner <> Some t \/ fr_pc f = PRead /\ owner = Some t.
Proof. intros [_ _ _ H] Hr. unfold pc_ok in H. destruct (fr_pc f); naive_solver. Qed.

(** The frame of another task is as it was. *)
Lemma frame_keep owner ws m s owner' ws' m' s' t f :
  frame_ok owner ws m s t f -> dn_run s <> Some t ->
  dn_live s ⊆ dn_live s' -> dn_calls s' !! fr_call f = dn_calls s !! fr_call f -> m' !! t = m !! t ->
  (owner = Some t -> owner' = Some t /\ dn_call s' = dn_call s /\ dn_task s' = dn_task s) ->
  (owner <> Some t -> owner' <> Some t) ->
  (forall n, (n, t) ∈ ws -> (n, t) ∈ ws') ->
  frame_ok owner' ws' m' s' t f.
Proof.
  intros Hf Hr Hl Hc Hm Ho1 Ho2 Hw. destruct (frame_other _ _ _ _ _ _ Hf Hr) as [[E Ho]|[E Ho]]; destruct Hf as [H1 H2 H3 H4].
  - split; [set_solver|done|by rewrite Hc, Hm|]. unfold pc_ok in *. rewrite E in *. destruct H4 as (_ & H & H'). split_and!; [by apply Ho2|by apply Hw|].
    unfold asked. by rewrite Hm.
  - split; [set_solver|done|by rewrite Hc, Hm|]. unfold pc_ok in *. rewrite E in *. destruct H4 as (_ & H & H'). destruct (Ho1 Ho) as (? & -> & ->). done.
Qed.
