(* ===== verification/DnsProxySteps.v ===== *)
(** * The DNS proxy: every step keeps the invariant

    One lemma for the steps of the scheduler, the reactor and the other code of the tasks, one
    for each station of a call and one for each station of the aide thread. *)

From S2P Require Import Prelude RBTree TaskMutex DnsProxy DnsProxyInv.

#[local] Arguments talk : simpl never.

Ltac inv_open Hi := pose proof Hi as [Hmx Hrun Hlive Hfr Hinj Hline Hdom Htalk Hup].

(** A step does not fault, is a step of the specification and keeps the invariant. *)
Definition step_ok (m : calls) (r : option (list obs * dns)) : Prop :=
  exists o s' owner ws m', r = Some (o, s') /\ dns_specs m o m' /\ dns_inv owner ws m' s'.

Lemma step_quiet m o s' owner ws m' r : r = Some (o, s') -> dns_specs m o m' -> dns_inv owner ws m' s' -> step_ok m r.
Proof. intros -> H1 H2. by exists o, s', owner, ws, m'. Qed.

(** ** Outside of the calls *)

(** Another task runs, wakes, starts or ends; no call moves. *)
Lemma inv_sched owner ws m s sy live run edge :
  dns_inv owner ws m s -> mutex_rep sy owner ws ->
  (forall t, run = Some t -> t ∈ live /\ t ∈ sy_awake sy) ->
  (forall t, t ∈ live -> 0 < t) ->
  (forall t f, dn_frames s !! t = Some f -> t ∈ live /\ (dn_run s = Some t -> run = Some t)) ->
  (forall t, owner = Some t -> t ∈ sy_awake (dn_sync s) -> t ∈ sy_awake sy) ->
  (dn_edge s = true -> edge = true \/ dn_task s ∈ sy_awake sy \/ dn_task s = DUMMY) ->
  dns_inv owner ws m (up_rep (dn_rep s) edge (up_run run (up_live live (up_sync sy s)))).
Proof.
  intros Hi Hsy Hr Hl Hf Hwake He. inv_open Hi. split; try done; simpl.
  - intros t f E. destruct (Hf _ _ E) as [Hfl Hfr']. destruct (Hfr _ _ E) as [H1 H2 H3 H4]. split; try done.
    unfold pc_ok in *. simpl. destruct (fr_pc f); naive_solver.
  - unfold talk in *. destruct owner as [t|]; [|done]. destruct Htalk as (f & E & Hp1 & Hp2 & H). exists f. split_and!; [done..|].
    destruct (Hfr _ _ E) as [Hin _ _ H4]. unfold pc_ok in H4.
    destruct (fr_pc f); try done. destruct H as (q & ans & Em & H). exists q, ans. split; [done|]. destruct H4 as (_ & _ & Ht).
    destruct H as [H|[H|[H|H]]]; [by left|right; by left|do 2 right; by left|].
    do 3 right. destruct H as (? & ? & ? & ? & H). split_and!; [done..|]. simpl. destruct H as [H|H]; [|right; by apply Hwake].
    rewrite Ht in He. destruct (He H) as [?|[?|Hd]]; [by left|by right|].
    subst t. specialize (Hlive _ Hin). unfold DUMMY in *. lia.
  - destruct (dn_up s) eqn:Eu; [|done]. destruct Hup as [Ht Hup]. split; [|done]. destruct Ht as [Ht|[Ht|(t & f & Et & Ef & Hp)]]; [by left|right; by left|].
    right. right. exists t, f. split_and!; [by apply (Hf t f)|done..].
Qed.

Lemma in_call_false s t : in_call s t = false -> dn_frames s !! t = None.
Proof. unfold in_call. intros H%bool_decide_eq_false. by apply eq_None_not_Some. Qed.

Lemma dns_eta s : s = up_rep (dn_rep s) (dn_edge s) (up_run (dn_run s) (up_live (dn_live s) (up_sync (dn_sync s) s))).
Proof. by destruct s. Qed.

Lemma step_spawn owner ws m s t : dns_inv owner ws m s -> enabled (LSpawn t) s = true -> step_ok m (dns_step (LSpawn t) s).
Proof.
  intros Hi [Ht Hn]%andb_prop. apply Z.ltb_lt in Ht. inv_open Hi. eapply step_quiet; [reflexivity|apply sps_nil|]. rewrite (dns_eta s). simpl.
  apply (inv_sched owner ws m s (up_awake ({[t]} ∪ sy_awake (dn_sync s)) (dn_sync s)) ({[t]} ∪ dn_live s) (dn_run s) (dn_edge s)); try done; simpl.
  - by apply wake_rep.
  - set_solver.
  - intros t' [->%elem_of_singleton|H]%elem_of_union; [done|by apply Hlive].
  - intros t' f E. split; [|done]. apply elem_of_union. right. apply (Hfr _ _ E).
  - set_solver.
  - by left.
Qed.

Lemma step_wake owner ws m s t : dns_inv owner ws m s -> enabled (LWake t) s = true -> step_ok m (dns_step (LWake t) s).
Proof.
  intros Hi Ht. apply bool_decide_eq_true in Ht. inv_open Hi. eapply step_quiet; [reflexivity|apply sps_nil|]. rewrite (dns_eta s). simpl.
  apply (inv_sched owner ws m s (up_awake ({[t]} ∪ sy_awake (dn_sync s)) (dn_sync s)) (dn_live s) (dn_run s) (dn_edge s)); try done; simpl.
  - by apply wake_rep.
  - set_solver.
  - intros t' f E. split; [|done]. apply (Hfr _ _ E).
  - set_solver.
  - by left.
Qed.

Lemma step_switch owner ws m s t : dns_inv owner ws m s -> enabled (LSwitch t) s = true -> step_ok m (dns_step (LSwitch t) s).
Proof.
  intros Hi [[Hr%bool_decide_eq_true Hl%bool_decide_eq_true]%andb_prop Ha%bool_decide_eq_true]%andb_prop. inv_open Hi.
  eapply step_quiet; [reflexivity|apply sps_nil|]. rewrite (dns_eta s). simpl.
  apply (inv_sched owner ws m s (dn_sync s) (dn_live s) (Some t) (dn_edge s)); try done; simpl.
  - by intros t' [= <-].
  - intros t' f E. split; [apply (Hfr _ _ E)|]. by rewrite Hr.
  - by left.
Qed.

Lemma step_yield owner ws m s : dns_inv owner ws m s -> enabled LYield s = true -> step_ok m (dns_step LYield s).
Proof.
  simpl. intros Hi He. inv_open Hi. destruct (dn_run s) as [t|] eqn:Et; [|done]. apply negb_true_iff, in_call_false in He.
  eapply step_quiet; [reflexivity|apply sps_nil|]. rewrite (dns_eta s). simpl.
  apply (inv_sched owner ws m s (dn_sync s) (dn_live s) None (dn_edge s)); try done; simpl.
  - intros t' f E. split; [apply (Hfr _ _ E)|]. rewrite Et. intros [= ->]. congruence.
  - by left.
Qed.

Lemma step_exit owner ws m s : dns_inv owner ws m s -> enabled LExit s = true -> step_ok m (dns_step LExit s).
Proof.
  simpl. intros Hi He. inv_open Hi. destruct (dn_run s) as [t|] eqn:Et; [|done]. apply negb_true_iff, in_call_false in He.
  unfold bind, gets. rewrite Et. eapply step_quiet; [reflexivity|apply sps_nil|]. rewrite (dns_eta s). simpl.
  apply (inv_sched owner ws m s (dn_sync s) (dn_live s ∖ {[t]}) None (dn_edge s)); try done; simpl.
  - intros t' H. apply Hlive. set_solver.
  - intros t' f E. rewrite Et. split; [|intros [= ->]; congruence]. apply elem_of_difference. split; [apply (Hfr _ _ E)|].
    intros ->%elem_of_singleton. congruence.
  - by left.
Qed.

(** The reactor finds the dummy, or the task that holds the mutex, which is there. *)
Lemma step_event owner ws m s : dns_inv owner ws m s -> enabled LEvent s = true -> step_ok m (dns_step LEvent s).
Proof.
  intros Hi [Hr%bool_decide_eq_true Hu]%andb_prop. inv_open Hi. rewrite Hu in Hup. destruct Hup as [Ht _]. simpl.
  unfold dns_event, bind, modify, gets. simpl. destruct (Z.eqb_spec (dn_task s) DUMMY) as [Hd|Hd].
  - eapply step_quiet; [reflexivity|apply sps_nil|]. rewrite (dns_eta s). simpl.
    apply (inv_sched owner ws m s (dn_sync s) (dn_live s) (dn_run s) false); try done; simpl.
    + intros t f E. split; [apply (Hfr _ _ E)|done].
    + by do 2 right.
  - destruct Ht as [Ht|[Ht|(t & f & Et & _)]]; [done| |congruence].
    destruct (inv_owner _ _ _ _ _ Hi Ht) as (f & Ef & _). rewrite bool_decide_true by apply (Hfr _ _ Ef).
    eapply step_quiet; [reflexivity|apply sps_nil|]. rewrite (dns_eta s). simpl.
    apply (inv_sched owner ws m s (up_awake ({[dn_task s]} ∪ sy_awake (dn_sync s)) (dn_sync s)) (dn_live s) (dn_run s) false); try done; simpl.
    + by apply wake_rep.
    + set_solver.
    + intros t' f' E. split; [apply (Hfr _ _ E)|done].
    + set_solver.
    + set_solver.
Qed.

(** ** Entering a call *)

Definition env_ok (aide : bool) (e : env) : bool :=
  (aide || (e_reactor e && e_thread e)) && e_malloc e && e_pair e && e_setup e && e_add e.

(** A proxy that cannot be made takes nothing with it; a new one has nothing to do. *)
Lemma proxy_new_eq e s :
  exists a, (dn_aide s = true -> a = true) /\ (env_ok (dn_aide s) e = true -> a = true) /\
  hev_task_dns_proxy_new e s = Some (env_ok (dn_aide s) e,
    if env_ok (dn_aide s) e
    then Dns (up_locker 0 (up_waiters NULL (dn_sync s))) (dn_live s) (dn_run s) a (dn_fds s + 2) (dn_allocs s + 1) (dn_up s) NULL NULL 0 0 false false
           (dn_calls s) (dn_frames s) (dn_server s)
    else up_aide a s).
Proof.
  destruct s as [sy li ru ai fds al u c t rq rp ed ae ca fr sv], e as [e1 e2 e3 e4 e5 e6]. unfold hev_task_dns_proxy_new, hev_task_aide_init, env_ok, bind, gets, ret, modify. simpl.
  exists (ai || (e1 && e2)). destruct ai, e1, e2; simpl; (destruct e3; simpl; [|done]); (destruct e4; simpl; [|by rewrite ?Z.add_simpl_r]);
    destruct e5; simpl; try (by rewrite ?Z.add_simpl_r); destruct e6; simpl; try done; by rewrite ?Z.add_simpl_r.
Qed.

Definition dns_enter (t p n : Z) (q : query) (s : dns) : dns :=
  up_frames (<[t := Frame p n PLock]> (dn_frames s)) (up_dcalls (<[p := DCall q None (-1)]> (dn_calls s)) s).

Lemma inv_enter owner ws m s t p n q v :
  dns_inv owner ws m s -> dn_up s = true -> dn_run s = Some t -> dn_frames s !! t = None -> v = dn_task s \/ owner = None ->
  0 < p -> dn_calls s !! p = None -> 0 < n -> map_Forall (fun _ f => fr_node f <> n) (dn_frames s) ->
  dns_inv owner ws (<[t := (q, None)]> m) (dns_enter t p n q (up_ptask v s)).
Proof.
  intros Hi Hu Hr Ht Hv Hp Hpc Hn Hnn. inv_open Hi. assert (Hto : owner <> Some t).
  { intros Ho. destruct (inv_owner _ _ _ _ _ Hi Ho) as (f & Hf & _). congruence. }
  assert (Hcall : forall t' f, dn_frames s !! t' = Some f -> fr_call f <> p).
  { intros t' f E Heq. destruct (Hfr _ _ E) as [_ _ (c & _ & _ & Hc & _) _]. congruence. }
  split; try done; simpl.
  - intros t' f. destruct (decide (t' = t)) as [->|Hne].
    + rewrite lookup_insert_eq. intros [= <-]. split; simpl; [by apply Hrun|done| |].
      * exists (DCall q None (-1)), q, None. by rewrite !lookup_insert_eq.
      * unfold pc_ok. simpl. split_and!; [done..|]. exists q. apply lookup_insert_eq.
    + rewrite lookup_insert_ne by done. intros E. apply (frame_keep owner ws m s); try done.
      * by apply Hfr.
      * congruence.
      * simpl. apply lookup_insert_ne. intros Heq. by apply (Hcall _ _ E).
      * by apply lookup_insert_ne.
      * intros Ho. split_and!; [done..|]. destruct Hv as [->|Hv]; [done|congruence].
  - intros t1 t2 f1 f2. rewrite !lookup_insert_Some. intros [[<- <-]|[_ E1]] [[<- <-]|[_ E2]] Hne; simpl.
    + done.
    + split; [intros Heq; by apply (Hcall _ _ E2)|]. intros Heq. by apply (Hnn _ _ E2).
    + split; [by apply (Hcall _ _ E1)|by apply (Hnn _ _ E1)].
    + by apply (Hinj t1 t2).
  - intros n' t' Hin. destruct (Hline _ _ Hin) as (f & E & Hf). exists f. split; [|done]. rewrite lookup_insert_ne; [done|congruence].
  - intros t'. rewrite lookup_insert_None. intros [E Hne]. rewrite lookup_insert_ne by done. by apply Hdom.
  - unfold talk in *. destruct owner as [o|]; [|done]. destruct Htalk as (f & E & H). exists f. simpl. rewrite !lookup_insert_ne by congruence. done.
  - rewrite Hu in Hup |- *. destruct Hup as [Htask Hup]. split; [|done]. unfold task_ok. simpl.
    destruct (decide (owner = None)) as [->|Ho].
    + right. right. exists t, (Frame p n PLock). rewrite lookup_insert_eq. naive_solver.
    + destruct Hv as [->|]; [|done]. destruct Htask as [H|[H|(t' & f & Et & E & _)]]; [by left|by right; left|]. congruence.
Qed.

Lemma dns_call_eq t p n q e :
  hev_task_dns_call t p n q e = let* proxy := hev_task_dns_proxy_get e in if negb proxy then ret [ONoProxy t EAI_SYSTEM EIO] else dns_enter_call t p n q.
Proof. by destruct q. Qed.

Lemma step_call owner ws m s p n q e : dns_inv owner ws m s -> enabled (LCall p n q e) s = true -> step_ok m (dns_step (LCall p n q e) s).
Proof.
  simpl. intros Hi He. inv_open Hi. unfold bind at 1 2, gets, lift_opt. destruct (dn_run s) as [t|] eqn:Er; [|done].
  apply andb_prop in He as [[[[Ht%negb_true_iff%in_call_false Hp%Z.ltb_lt]%andb_prop Hc%bool_decide_eq_true]%andb_prop Hn%Z.ltb_lt]%andb_prop Hnn%bool_decide_eq_true].
  rewrite dns_call_eq. unfold dns_enter_call, hev_task_dns_proxy_get. pose proof (Hdom _ Ht) as Hm.
  destruct (dn_up s) eqn:Eu.
  - unfold bind, gets. simpl. rewrite !Eu. simpl. rewrite Eu. simpl. eapply step_quiet; [reflexivity|by apply dns_specs_one, sp_call|].
    pose proof (inv_enter owner ws m s t p n q (dn_task s) Hi Eu Er Ht (or_introl eq_refl) Hp Hc Hn Hnn) as H. by destruct s.
  - destruct Hup as (Hf0 & Hfds & Hal & Hidle & Haed).
    assert (owner = None) as ->.
    { destruct owner as [o|]; [|done]. destruct (inv_owner _ _ _ _ o Hi eq_refl) as (f & E & _). rewrite Hf0 in E. by apply lookup_empty_Some in E. }
    assert (ws = []) as ->.
    { destruct ws as [|[n' t'] ws]; [done|]. destruct (Hline n' t') as (f & E & _); [by left|]. rewrite Hf0 in E. by apply lookup_empty_Some in E. }
    destruct (proxy_new_eq e s) as (a & Ha1 & Ha2 & Hnew). unfold bind, gets. rewrite Eu. simpl. rewrite Hnew. simpl.
    destruct (env_ok (dn_aide s) e); simpl.
    + eapply step_quiet; [reflexivity|by apply dns_specs_one, sp_call|].
      set (s1 := Dns (dn_sync s) (dn_live s) (dn_run s) a 2 1 true NULL DUMMY 0 0 false false (dn_calls s) (dn_frames s) (dn_server s)).
      assert (Hi1 : dns_inv None [] m s1).
      { split; try done; simpl.
        - by rewrite Er.
        - intros t' f E. rewrite Hf0 in E. by apply lookup_empty_Some in E.
        - by destruct Htalk as (_ & _ & ?).
        - split_and!; [by left|by apply Ha2|done..]. }
      pose proof (inv_enter None [] m s1 t p n q NULL Hi1 eq_refl Er Ht (or_intror eq_refl) Hp Hc Hn Hnn) as H. rewrite Hfds, Hal.
      destruct Hmx as [Hml Hmw _ _ _ _]. replace (up_locker 0 (up_waiters NULL (dn_sync s))) with (dn_sync s); [exact H|].
      clear -Hml Hmw. destruct (dn_sync s). simpl in *. by subst.
    + eapply step_quiet; [reflexivity|by apply dns_specs_one, sp_none|].
      instantiate (1 := []). instantiate (1 := None). split; try done; simpl.
      * by rewrite Er.
      * intros t' f E. rewrite Hf0 in E. by apply lookup_empty_Some in E.
Qed.

(** ** The stations of a call *)

(** The running task moves on in its call; nobody else does. *)
Lemma inv_move owner ws m s t f a owner' ws' s' :
  dns_inv owner ws m s -> dn_frames s !! t = Some f -> dn_run s = Some t ->
  dn_frames s' = <[t := Frame (fr_call f) (fr_node f) a]> (dn_frames s) ->
  dn_live s' = dn_live s -> dn_calls s' = dn_calls s -> (dn_up s', dn_aide s', dn_fds s', dn_allocs s') = (dn_up s, dn_aide s, dn_fds s, dn_allocs s) ->
  mutex_rep (dn_sync s') owner' ws' ->
  dn_run s' = None \/ dn_run s' = Some t /\ t ∈ sy_awake (dn_sync s') ->
  pc_ok owner' ws' m s' t (Frame (fr_call f) (fr_node f) a) ->
  (forall t', t' <> t -> owner = Some t' -> owner' = Some t' /\ dn_call s' = dn_call s /\ dn_task s' = dn_task s) ->
  (forall t', t' <> t -> owner' = Some t' -> owner = Some t') ->
  (forall n t', t' <> t -> (n, t') ∈ ws <-> (n, t') ∈ ws') ->
  (forall n, (n, t) ∈ ws' -> a = PWait /\ n = fr_node f) ->
  talk owner' m s' -> task_ok owner' s' ->
  dns_inv owner' ws' m s'.
Proof.
  intros Hi Ef Hr Efr Eli Eca Eup Hmx' Hrun' Hpc Ho1 Ho2 Hw Hwt Htalk' Htask'. inv_open Hi. pose proof (Hfr _ _ Ef) as [Hfl Hfp Hfc _].
  pose proof (inv_up _ _ _ _ _ _ Hi Ef) as Hu. split; try done.
  - intros t' E. rewrite Eli. destruct Hrun' as [Hn|[E' Ha]]; [congruence|]. rewrite E' in E. by injection E as <-.
  - by rewrite Eli.
  - intros t' f'. rewrite Efr. destruct (decide (t' = t)) as [->|Hne].
    + rewrite lookup_insert_eq. intros [= <-]. split; [by rewrite Eli|done|by rewrite Eca|done].
    + rewrite lookup_insert_ne by done. intros E. apply (frame_keep owner ws m s); try done.
      * by apply Hfr.
      * congruence.
      * by rewrite Eli.
      * by rewrite Eca.
      * by apply Ho1.
      * intros H1 H2. by apply H1, Ho2.
      * intros n. by apply Hw.
  - intros t1 t2 f1 f2. rewrite Efr, !lookup_insert_Some. intros [[<- <-]|[_ E1]] [[<- <-]|[_ E2]] Hne; simpl; [done|by apply (Hinj t t2)|by apply (Hinj t1 t)|by apply (Hinj t1 t2)].
  - intros n t' Hin. rewrite Efr. destruct (decide (t' = t)) as [->|Hne].
    + destruct (Hwt _ Hin) as [-> ->]. eexists. by rewrite lookup_insert_eq.
    + rewrite lookup_insert_ne by done. by apply Hline, Hw.
  - intros t'. rewrite Efr, lookup_insert_None. intros [E _]. by apply Hdom.
  - injection Eup as -> -> -> ->. rewrite Hu in Hup |- *. by destruct Hup as [_ ?].
Qed.

Lemma on_sync_eq {A} (c : SY A) s a sy : c (dn_sync s) = Some (a, sy) -> on_sync c s = Some (a, up_sync sy s).
Proof. unfold on_sync, zoom. by intros ->. Qed.

(** The byte is where it was, if its holder is still awake or was not. *)
Lemma talk_keep owner m s s' :
  talk owner m s -> (forall t, owner = Some t -> dn_frames s' !! t = dn_frames s !! t) ->
  (dn_req s', dn_rep s', dn_server s', dn_edge s', dn_aedge s') = (dn_req s, dn_rep s, dn_server s, dn_edge s, dn_aedge s) ->
  (forall t, owner = Some t -> t ∈ sy_awake (dn_sync s) -> t ∈ sy_awake (dn_sync s')) -> talk owner m s'.
Proof.
  unfold talk, talking, quiet, listens. intros H Hf [= -> -> -> -> ->] Ha. destruct owner as [t|]; [|done].
  destruct H as (f & E & H1 & H2 & H). exists f. rewrite Hf by done. split_and!; [done..|]. destruct (fr_pc f); try done.
  destruct H as (q & ans & Em & H). exists q, ans. naive_solver.
Qed.

Section task.
Context (owner : option Z) (ws : list (Z * Z)) (m : calls) (s : dns) (t : Z) (f : frame) (r : sysret).
Context (Hi : dns_inv owner ws m s) (Hr : dn_run s = Some t) (Ef : dn_frames s !! t = Some f).

Lemma step_lock : fr_pc f = PLock -> step_ok m (hev_task_dns_proxy_call t f r s).
Proof.
  intros Hp. inv_open Hi. pose proof (Hfr _ _ Ef) as [_ [_ Hn] _ Hpc]. unfold pc_ok in Hpc. rewrite Hp in Hpc. destruct Hpc as (_ & Ho & Hask).
  assert (fr_node f ∉ ws.*1) as Hnn.
  { apply (inv_node_new _ _ _ _ _ Hi). intros t' f' E Hp'. assert (t' <> t) by congruence. apply (Hinj t' t f' f); done. }
  assert (t ∉ ws.*2) as Hnt by (apply (inv_task_new _ _ _ _ _ Hi); congruence).
  destruct (lock_begin_ok (dn_sync s) owner ws (fr_node f) t Hmx) as (sy & E & Hsy & Haw); [unfold NULL; lia|done..|].
  unfold hev_task_dns_proxy_call. rewrite Hp. erewrite bind_Some by (apply on_sync_eq, E).
  assert (forall n, (n, t) ∈ ws -> False) as Hno by (intros n Hin; apply Hnt, list_elem_of_fmap; by exists (n, t)).
  pose proof (inv_up _ _ _ _ _ _ Hi Ef) as Hu. rewrite Hu in Hup. destruct Hup as [Htask _].
  destruct owner as [o|]; simpl in *.
  - eapply step_quiet; [reflexivity|apply sps_nil|]. eapply (inv_move (Some o) ws m s t f PWait (Some o) ((fr_node f, t) :: ws)); try done; simpl.
    + by left.
    + unfold pc_ok. simpl. split_and!; [done|by left|done].
    + intros n t' Hne. rewrite elem_of_cons. split; [by right|]. by intros [[= -> ->]|?].
    + intros n. rewrite elem_of_cons. intros [[= ->]|Hin]; [done|by apply Hno in Hin].
    + apply (talk_keep _ _ s); try done; simpl.
      * intros t' [= ->]. apply lookup_insert_ne. congruence.
      * intros t' [= ->]. rewrite Haw. set_solver.
    + destruct Htask as [H|[H|(t' & g & Et & Eg & H)]]; [by left|by right; left|]. exfalso. rewrite Hr in Et. injection Et as <-. rewrite Ef in Eg. injection Eg as <-.
      rewrite Hp in H. naive_solver.
  - eapply step_quiet; [reflexivity|apply sps_nil|]. eapply (inv_move None ws m s t f PSet (Some t) ws); try done; simpl.
    + right. split; [done|]. rewrite Haw. by apply Hrun.
    + intros t' Hne [= ->]. done.
    + intros n Hin. by apply Hno in Hin.
    + eexists. simpl. rewrite lookup_insert_eq. split_and!; try done.
    + right. right. exists t. eexists. simpl. rewrite lookup_insert_eq. split_and!; [done..|]. by left.
Qed.

(** A task that was woken takes the lock if it is free and it is the first of the line. *)
Lemma step_wait : fr_pc f = PWait -> step_ok m (hev_task_dns_proxy_call t f r s).
Proof.
  intros Hp. inv_open Hi. pose proof (Hfr _ _ Ef) as [_ _ _ Hpc]. unfold pc_ok in Hpc. rewrite Hp in Hpc. destruct Hpc as (Ho & Hin & Hask).
  destruct (lock_resume_ok (dn_sync s) owner ws (fr_node f) t Hmx Hin) as (sy & E & Hsy & Haw).
  unfold hev_task_dns_proxy_call. rewrite Hp. erewrite bind_Some by (apply on_sync_eq, E).
  pose proof (inv_up _ _ _ _ _ _ Hi Ef) as Hu. rewrite Hu in Hup. destruct Hup as [Htask _].
  case_bool_decide as Hgot; simpl in *.
  - destruct Hgot as [-> Hh]. destruct ws as [|[n' t'] ws']; [done|]. simpl in Hh. injection Hh as -> ->. simpl in Hsy.
    pose proof (mr_nodes _ _ _ Hmx) as [Hnn _]%NoDup_cons. pose proof (mr_tasks _ _ _ Hmx) as [Hnt _]%NoDup_cons.
    eapply step_quiet; [reflexivity|apply sps_nil|]. eapply (inv_move None _ m s t f PSet (Some t) ws'); try done; simpl.
    + right. split; [done|]. rewrite Haw. by apply Hrun.
    + intros t' Hne [= ->]. done.
    + intros n t' Hne. rewrite elem_of_cons. split; [|by right]. by intros [[= -> ->]|?].
    + intros n Hin'. exfalso. apply Hnt, list_elem_of_fmap. by exists (n, t).
    + eexists. simpl. by rewrite lookup_insert_eq.
    + right. right. exists t. eexists. simpl. rewrite lookup_insert_eq. split_and!; [done..|]. by left.
  - eapply step_quiet; [reflexivity|apply sps_nil|].
    assert (dn_frames s = <[t := Frame (fr_call f) (fr_node f) PWait]> (dn_frames s)) as Eid.
    { symmetry. apply insert_id. rewrite Ef. destruct f. simpl in *. by subst. }
    eapply (inv_move owner ws m s t f PWait owner ws); try done; simpl.
    + by left.
    + intros n Hin'. destruct (Hline _ _ Hin') as (g & Eg & _ & Hn). split; [done|]. rewrite Ef in Eg. by injection Eg as <-.
    + apply (talk_keep _ _ s); try done; simpl. intros t' ->. rewrite Haw. set_solver.
    + destruct Htask as [H|[H|(t' & g & Et & Eg & H)]]; [by left|by right; left|]. exfalso. rewrite Hr in Et. injection Et as <-. rewrite Ef in Eg. injection Eg as <-.
      rewrite Hp in H. naive_solver.
Qed.

Lemma step_set : fr_pc f = PSet -> step_ok m (hev_task_dns_proxy_call t f r s).
Proof.
  intros Hp. inv_open Hi. pose proof (Hfr _ _ Ef) as [_ _ _ Hpc]. unfold pc_ok in Hpc. rewrite Hp in Hpc. destruct Hpc as (Ho & _ & Hask).
  unfold hev_task_dns_proxy_call. rewrite Hp. unfold bind, modify, goto, ret. simpl. eapply step_quiet; [reflexivity|apply sps_nil|].
  eapply (inv_move owner ws m s t f PWrite owner ws); try done; simpl.
  - right. split; [done|]. by apply Hrun.
  - congruence.
  - intros n Hin. destruct (Hline _ _ Hin) as (g & Eg & Hg & _). congruence.
  - rewrite Ho in Htalk |- *. destruct Htalk as (g & Eg & _ & _ & Hg). rewrite Ef in Eg. injection Eg as <-. rewrite Hp in Hg.
    eexists. simpl. by rewrite lookup_insert_eq.
  - by right; left.
Qed.

(** The pair is empty, so there is room for the byte. *)
Lemma step_write : fr_pc f = PWrite -> write_fits r (dn_req s) = true -> step_ok m (hev_task_dns_proxy_call t f r s).
Proof.
  intros Hp Hk. inv_open Hi. pose proof (Hfr _ _ Ef) as [_ _ _ Hpc]. unfold pc_ok in Hpc. rewrite Hp in Hpc. destruct Hpc as (Ho & _ & Hcall & Htask & q & Hask).
  rewrite Ho in Htalk. destruct Htalk as (g & Eg & _ & _ & Hg). rewrite Ef in Eg. injection Eg as <-. rewrite Hp in Hg. destruct Hg as (Hq & Hq' & Hl).
  unfold hev_task_dns_proxy_call. rewrite Hp. destruct r as [|e]; simpl in Hk.
  2: { rewrite Hq, andb_false_r in Hk. done. }
  unfold bind, modify, goto, ret. simpl. eapply step_quiet; [reflexivity|apply sps_nil|].
  eapply (inv_move owner ws m s t f PRead owner ws); try done; simpl.
  - right. split; [done|]. by apply Hrun.
  - intros n Hin. destruct (Hline _ _ Hin) as (g & Eg & Hg & _). congruence.
  - rewrite Ho. eexists. simpl. rewrite lookup_insert_eq. split_and!; [done..|]. exists q, None. split; [done|]. left. simpl. rewrite Hq. split_and!; try done.
    destruct Hl; [by left|by right].
  - right. left. simpl. by rewrite Htask.
Qed.

(** The byte is read when the answer was given; until then the task waits. *)
Lemma step_read : fr_pc f = PRead -> read_fits r (dn_rep s) = true -> step_ok m (hev_task_dns_proxy_call t f r s).
Proof.
  intros Hp Hk. inv_open Hi. pose proof (Hfr _ _ Ef) as [_ _ _ Hpc]. unfold pc_ok in Hpc. rewrite Hp in Hpc. destruct Hpc as (Ho & Hcall & Htask).
  rewrite Ho in Htalk. destruct Htalk as (g & Eg & _ & _ & Hg). rewrite Ef in Eg. injection Eg as <-. rewrite Hp in Hg. destruct Hg as (q & ans & Em & Hg).
  assert (Hno : forall n a, (n, t) ∈ ws -> a = PWait /\ n = fr_node f).
  { intros n a Hin. destruct (Hline _ _ Hin) as (g & Eg & Hpw & _). congruence. }
  unfold hev_task_dns_proxy_call. rewrite Hp. destruct r as [|e]; simpl in Hk.
  - apply Z.ltb_lt in Hk. unfold talking in Hg. assert (dn_req s = 0 /\ dn_rep s = 1 /\ listens s /\ ans <> None) as (Hq & Hq' & Hl & Ha) by (clear -Hg Hk; naive_solver lia).
    destruct ans as [a|]; [|done]. unfold bind, modify, goto, ret. simpl. eapply step_quiet; [reflexivity|apply sps_nil|].
    eapply (inv_move owner ws m s t f PEnd owner ws); try done; simpl.
    + right. split; [done|]. by apply Hrun.
    + unfold pc_ok. simpl. split_and!; [done..|]. by exists q, a.
    + by intros n [? ?]%(Hno _ PWrite).
    + rewrite Ho. eexists. simpl. rewrite lookup_insert_eq. split_and!; [done..|]. unfold quiet, listens. simpl. rewrite Hq'. done.
    + right. left. simpl. by rewrite Htask.
  - apply andb_prop in Hk as [->%Z.eqb_eq Hk%Z.leb_le]. simpl. unfold dns_yield, bind, modify, on_sync, zoom, task_wait, ret. simpl.
    eapply step_quiet; [reflexivity|apply sps_nil|].
    assert (dn_frames s = <[t := Frame (fr_call f) (fr_node f) PRead]> (dn_frames s)) as Eid.
    { symmetry. apply insert_id. rewrite Ef. destruct f. simpl in *. by subst. }
    eapply (inv_move owner ws m s t f PRead owner ws); try done; simpl.
    + apply wait_rep; [done|]. by rewrite Ho.
    + by left.
    + by intros n [? ?]%(Hno _ PWrite).
    + rewrite Ho. eexists. simpl. rewrite Ef. split; [done|]. rewrite Hp. split_and!; [done..|]. exists q, ans. split; [done|].
      destruct Hg as [Hg|[Hg|[Hg|Hg]]]; [by left|by right; left|by right; right; left|]. lia.
    + right. left. simpl. by rewrite Htask.
Qed.

Lemma step_end : fr_pc f = PEnd -> step_ok m (hev_task_dns_proxy_call t f r s).
Proof.
  intros Hp. inv_open Hi. pose proof (Hfr _ _ Ef) as [_ _ Hc Hpc]. unfold pc_ok in Hpc. rewrite Hp in Hpc. destruct Hpc as (Ho & _ & q & [r0 e0] & Em).
  destruct Hc as (c & q' & ans & Ec & Em' & Hcq & Hans). rewrite Em in Em'. injection Em' as <- <-. destruct Hans as [Hret Herr].
  pose proof Htalk as Ht. rewrite Ho in Ht. destruct Ht as (g & Eg & _ & _ & Hg). rewrite Ef in Eg. injection Eg as <-. rewrite Hp in Hg.
  pose proof (inv_up _ _ _ _ _ _ Hi Ef) as Hu. rewrite Hu in Hup. destruct Hup as [_ Hup].
  destruct (unlock_ok _ _ _ Hmx) as (sy & E & Hsy & Haw).
  unfold hev_task_dns_proxy_call. rewrite Hp. erewrite bind_Some by reflexivity. erewrite bind_Some by (apply on_sync_eq, E).
  unfold dns_return, load_dcall, bind, gets, lift_opt, modify, ret. simpl. rewrite Ec, Herr.
  eapply step_quiet; [reflexivity|eapply dns_specs_one, sp_return; rewrite Hret; apply Em|].
  assert (Hother : forall t', t' <> t -> dn_run s <> Some t') by congruence.
  assert (Hawake : forall x, x ∈ sy_awake (dn_sync s) -> x ∈ sy_awake sy) by (intros x Hx; rewrite Haw; destruct ws as [|[? ?] ?]; set_solver).
  split; simpl; try done.
  - intros t' E'. destruct (Hrun _ E') as [? ?]. split; [done|by apply Hawake].
  - intros t' f'. rewrite lookup_delete_Some. intros [Hne E']. assert (fr_call f' <> fr_call f) as Hcc by (by apply (Hinj t' t)).
    apply (frame_keep owner ws m s); try done; simpl.
    + by apply Hfr.
    + by apply Hother.
    + by rewrite lookup_delete_ne.
    + by rewrite lookup_delete_ne.
    + congruence.
  - intros t1 t2 f1 f2. rewrite !lookup_delete_Some. intros [_ E1] [_ E2]. by apply Hinj.
  - intros n t' Hin. destruct (Hline _ _ Hin) as (g & E' & Hg'). exists g. split; [|done]. rewrite lookup_delete_ne; [done|]. intros <-. rewrite Ef in E'. injection E' as <-. destruct Hg' as [Hg' _]. congruence.
  - intros t'. rewrite !lookup_delete_None. intros [->|E']; [by left|right; by apply Hdom].
  - rewrite Hu. split; [by left|done].
Qed.

End task.

Lemma step_task owner ws m s r : dns_inv owner ws m s -> enabled (LTask r) s = true -> step_ok m (dns_step (LTask r) s).
Proof.
  simpl. intros Hi He. unfold bind at 1 2 3 4, gets, lift_opt. destruct (dn_run s) as [t|] eqn:Hr; [|done]. simpl in He.
  destruct (dn_frames s !! t) as [f|] eqn:Ef; [|done]. destruct (fr_pc f) eqn:Hp.
  - by eapply step_lock.
  - by eapply step_wait.
  - by eapply step_set.
  - by eapply step_write.
  - by eapply step_read.
  - by eapply step_end.
Qed.

(** ** The stations of the aide thread *)

Lemma server_quiet owner ws m s : dns_inv owner ws m s -> quiet s \/ exists t f q ans, owner = Some t /\ dn_frames s !! t = Some f /\ fr_pc f = PRead /\ dn_call s = fr_call f /\
  m !! t = Some (q, ans) /\ talking s t (fr_call f) ans.
Proof.
  intros Hi. inv_open Hi. unfold talk in Htalk. destruct owner as [t|]; [|by left]. destruct Htalk as (f & Ef & _ & _ & H).
  pose proof (Hfr _ _ Ef) as [_ _ _ Hpc]. unfold pc_ok in Hpc. destruct (fr_pc f) eqn:Hp; try by left. right. destruct H as (q & ans & Em & H).
  exists t, f, q, ans. by destruct Hpc as (_ & ? & _).
Qed.

(** The thread moves; the tasks do not. *)
Lemma inv_server owner ws m s m' s' :
  dns_inv owner ws m s ->
  (dn_sync s', dn_live s', dn_run s', dn_aide s', dn_fds s', dn_allocs s', dn_up s', dn_call s', dn_task s', dn_frames s') =
  (dn_sync s, dn_live s, dn_run s, dn_aide s, dn_fds s, dn_allocs s, dn_up s, dn_call s, dn_task s, dn_frames s) ->
  (forall t f, dn_frames s !! t = Some f -> call_ok (dn_calls s !! fr_call f) (m !! t) -> call_ok (dn_calls s' !! fr_call f) (m' !! t)) ->
  (forall t, owner <> Some t -> m' !! t = m !! t) ->
  (forall t f, owner = Some t -> dn_frames s !! t = Some f -> fr_pc f = PRead \/ m' !! t = m !! t) ->
  talk owner m' s' -> dn_up s = true -> dns_inv owner ws m' s'.
Proof.
  intros Hi Heq Hcall Hm1 Hm2 Htalk' Hu. inv_open Hi. destruct s'. simpl in *. injection Heq as -> -> -> -> -> -> -> -> -> ->. split; try done; simpl.
  - intros t f E. destruct (Hfr _ _ E) as [H1 H2 H3 H4]. split; [done|done|by apply Hcall|]. unfold pc_ok, asked, answered in *. simpl.
    destruct (fr_pc f) eqn:Ep; destruct (decide (owner = Some t)) as [Ho|Ho];
      try (destruct (Hm2 t f Ho E) as [Hx|Hx]; [congruence|]; rewrite Hx); rewrite ?Hm1 by done; try done; naive_solver.
  - intros t E. rewrite Hm1; [by apply Hdom|]. intros Ho. destruct (inv_owner _ _ _ _ _ Hi Ho) as (f & Ef & _). congruence.
  - by rewrite Hu in Hup |- *.
Qed.

Lemma inv_server_talk owner ws m s s' :
  dns_inv owner ws m s ->
  (dn_sync s', dn_live s', dn_run s', dn_aide s', dn_fds s', dn_allocs s', dn_up s', dn_call s', dn_task s', dn_frames s', dn_calls s') =
  (dn_sync s, dn_live s, dn_run s, dn_aide s, dn_fds s, dn_allocs s, dn_up s, dn_call s, dn_task s, dn_frames s, dn_calls s) ->
  (quiet s -> quiet s') -> (forall t p ans, dn_call s = p -> talking s t p ans -> talking s' t p ans) -> dn_up s = true -> dns_inv owner ws m s'.
Proof.
  intros Hi [= H1 H2 H3 H4 H5 H6 H7 H8 H9 H10 H11] Hq Ht Hu. apply (inv_server owner ws m s); try done.
  - congruence.
  - by rewrite H11.
  - by right.
  - pose proof (di_talk _ _ _ _ Hi) as H. unfold talk in *. destruct owner as [t|]; [|by apply Hq]. destruct H as (f & Ef & Hp1 & Hp2 & H).
    exists f. rewrite H10. split_and!; [done..|]. pose proof (di_frames _ _ _ _ Hi _ _ Ef) as [_ _ _ Hpc]. unfold pc_ok in Hpc.
    destruct (fr_pc f); try (by apply Hq). destruct H as (q & ans & Em & H). destruct Hpc as (_ & Hc & _). exists q, ans. split; [done|]. by apply Ht.
Qed.

(** The next station of the byte. *)
Ltac byte_at := split_and!; solve [lia | congruence | auto | left; congruence | right; congruence].

Ltac server_move := eapply step_quiet; [reflexivity|apply sps_nil|eapply inv_server_talk; [eassumption|reflexivity| | |done]];
  unfold quiet, talking, listens; simpl; intros; destruct_and?; destruct_or?; destruct_and?; destruct_or?; destruct_and?; try (exfalso; (congruence || lia));
  first [byte_at | left; byte_at | right; left; byte_at | do 2 right; left; byte_at | do 3 right; byte_at].

(** The thread stores the answer in the call, whatever its type. *)
Lemma server_answer_eq p r a s :
  dn_server s = SBusy p ->
  hev_task_dns_server r a s =
  match dn_calls s !! p with
  | Some c => Some ([OAnswer (c_query c) a.1 a.2], up_server SDone (up_dcalls (<[p := DCall (c_query c) (Some a.2) a.1]> (dn_calls s)) s))
  | None => None
  end.
Proof.
  intros Es. unfold hev_task_dns_server, hev_task_dns_server_getaddrinfo, hev_task_dns_server_getnameinfo, load_dcall, store_dcall, lift_opt, bind, gets, modify, ret.
  rewrite Es. destruct (dn_calls s !! p) as [c|] eqn:Ec; [|done]. by destruct (c_query c) eqn:Eq; simpl; rewrite Ec, Eq.
Qed.

Lemma step_server owner ws m s r a : dns_inv owner ws m s -> enabled (LServer r a) s = true -> step_ok m (dns_step (LServer r a) s).
Proof.
  intros Hi He. assert (dn_up s = true) as Hu.
  { pose proof (di_up _ _ _ _ Hi) as H. simpl in He. destruct (dn_up s); [done|]. destruct H as (_ & _ & _ & Es & Ea). rewrite Es, Ea, andb_false_r in He. done. }
  assert (load_proxy s = Some (tt, s)) as Hl by (unfold load_proxy, bind, gets; by rewrite Hu).
  apply andb_prop in He as [_ He]. simpl. pose proof (server_quiet _ _ _ _ Hi) as Hq.
  destruct (dn_server s) as [| | |p|] eqn:Es; cycle 3; [|unfold hev_task_dns_server; erewrite bind_Some by reflexivity; rewrite Es..].
  - destruct Hq as [(_ & _ & [?|?])|(t & f & q & ans & Ho & Ef & Hp & Hc & Em & Ht)]; [congruence..|].
    assert (dn_req s = 0 /\ dn_rep s = 0 /\ p = fr_call f /\ ans = None) as (Hrq & Hrp & -> & ->) by (unfold talking, listens in Ht; rewrite Es in Ht; naive_solver).
    destruct (fo_call _ _ _ _ _ _ (di_frames _ _ _ _ Hi _ _ Ef)) as (c & q' & ans & Ec & Em' & Hcq & _). rewrite Em in Em'. injection Em' as <- <-.
    rewrite (server_answer_eq (fr_call f)), Ec by done. simpl.
    eapply step_quiet; [reflexivity|eapply dns_specs_one, sp_answer; rewrite Hcq; exact Em|]. apply (inv_server owner ws m s); try done; simpl.
    + intros t' f' E Hok. destruct (decide (t' = t)) as [->|Hne].
      * rewrite Ef in E. injection E as <-. exists (DCall (c_query c) (Some a.2) a.1), q, (Some (a.1, a.2)). rewrite !lookup_insert_eq. split_and!; simpl; congruence.
      * rewrite !lookup_insert_ne; [done|congruence|]. intros Heq. by destruct (di_inj _ _ _ _ Hi t t' f f' Ef E).
    + intros t' Hne. rewrite lookup_insert_ne; [done|congruence].
    + intros t' f' Ho' E. left. rewrite Ho in Ho'. injection Ho' as <-. congruence.
    + rewrite Ho. exists f. simpl. split_and!; [done|congruence..|]. rewrite Hp. exists q, (Some (a.1, a.2)). rewrite lookup_insert_eq. split; [congruence|].
      do 2 right. left. by simpl.
  - erewrite bind_Some by exact Hl. destruct r as [|e]; simpl in He.
    + unfold bind, modify, ret. simpl. server_move.
    + apply andb_prop in He as [_ He%Z.ltb_lt]. exfalso. destruct Hq as [(? & ? & _)|(t & f & q & ans & _ & _ & _ & _ & _ & Ht)]; [lia|].
      unfold talking, listens in Ht. rewrite Es in Ht. naive_solver lia.
  - erewrite bind_Some by exact Hl. unfold bind, modify, ret. simpl. server_move.
  - erewrite bind_Some by exact Hl. destruct r as [|e]; simpl in He.
    + apply Z.ltb_lt in He. unfold bind, modify, ret. simpl. server_move.
    + apply andb_prop in He as [_ He%Z.leb_le]. unfold bind, modify, ret. simpl. server_move.
  - erewrite bind_Some by exact Hl. erewrite bind_Some by reflexivity. destruct Hq as [(_ & _ & [?|?])|(t & f & q & ans & Ho & Ef & Hp & Hc & _)]; [congruence..|].
    destruct (fo_call _ _ _ _ _ _ (di_frames _ _ _ _ Hi _ _ Ef)) as (c & _ & _ & Ec & _). rewrite <-Hc in Ec.
    unfold load_dcall, lift_opt, bind, gets, modify, ret. rewrite Ec. server_move.
Qed.

(** ** Any step *)

Theorem dns_step_ok owner ws m s l : dns_inv owner ws m s -> enabled l s = true -> step_ok m (dns_step l s).
Proof.
  destruct l; eauto using step_spawn, step_switch, step_wake, step_call, step_task, step_yield, step_exit, step_event, step_server.
Qed.

Theorem dns_runs_inv tr s : dns_runs tr s -> exists owner ws m, dns_specs ∅ tr m /\ dns_inv owner ws m s.
Proof.
  induction 1 as [|tr s l o s' _ (owner & ws & m & Hs & Hi) He E].
  - exists None, [], ∅. split; [apply sps_nil|apply dns_init_inv].
  - destruct (dns_step_ok _ _ _ _ _ Hi He) as (o' & s1 & owner' & ws' & m' & E' & Hs' & Hi'). rewrite E in E'. injection E' as <- <-.
    exists owner', ws', m'. split; [by eapply dns_specs_app|done].
Qed.
