(* ===== verification/DnsProxyLive.v ===== *)
(** * The DNS proxy: calls return

    A weight of a state that every step of a call, of the aide thread, of the scheduler and of the
    reactor towards the end of the calls makes smaller, and that one of these steps can be taken
    while there is a call. *)

From S2P Require Import Prelude RBTree TaskMutex DnsProxy DnsProxyInv DnsProxySteps.

(** ** Weight *)

Definition pc_weight (a : pc) : nat :=
  match a with PLock => 18 | PWait => 17 | PSet => 16 | PWrite => 15 | PRead => 4 | PEnd => 3 end.

Definition frame_weight (aw : gset Z) (t : Z) (f : frame) : nat := pc_weight (fr_pc f) + if decide (t ∈ aw) then 2 else 0.

Definition frames_weight (aw : gset Z) (fr : gmap Z frame) : nat := sum_list_with (fun x => frame_weight aw x.1 x.2) (map_to_list fr).

Definition server_weight (s : dns) : nat :=
  match dn_server s with SIdle => 0 | SLoop => 1 | SGot => 7 | SBusy _ => 6 | SDone => 5 end +
  8 * Z.to_nat (dn_req s) + (if dn_aedge s then 2 else 0) + (if dn_edge s then 3 else 0).

Definition run_weight (s : dns) : nat :=
  match dn_run s with None => 1 | Some t => if in_call s t then 0 else 2 end.

Definition dns_weight (s : dns) : nat := frames_weight (sy_awake (dn_sync s)) (dn_frames s) + server_weight s + run_weight s.

(** The steps that bring the calls further: what else the tasks do, and events with nothing
    to report, are not among them. *)
Definition forward (l : label) (s : dns) : bool :=
  enabled l s && match l with LTask _ | LServer _ _ | LYield => true | LSwitch t => in_call s t | LEvent => dn_edge s | _ => false end.

(** *** The sum over the calls *)

Lemma weight_delete aw fr t f : fr !! t = Some f -> frames_weight aw fr = (frame_weight aw t f + frames_weight aw (delete t fr))%nat.
Proof. intros H. unfold frames_weight. by rewrite <-(map_to_list_delete fr t f H). Qed.

Lemma weight_insert aw fr t f : frames_weight aw (<[t := f]> fr) = (frame_weight aw t f + frames_weight aw (delete t fr))%nat.
Proof. rewrite (weight_delete _ _ t f) by apply lookup_insert_eq. by rewrite delete_insert_eq. Qed.

(** Tasks that sleep, except for one that is woken. *)
Lemma weight_awake aw aw' fr : (forall t, is_Some (fr !! t) -> t ∈ aw' -> t ∈ aw) -> (frames_weight aw' fr <= frames_weight aw fr)%nat.
Proof.
  unfold frames_weight. intros H. assert (Hl : forall t f, (t, f) ∈ map_to_list fr -> t ∈ aw' -> t ∈ aw) by (intros t f Hin%elem_of_map_to_list; by apply H).
  induction (map_to_list fr) as [|[t f] l IH]; simpl; [done|]. pose proof (IH (fun t f Hin => Hl t f (list_elem_of_further _ _ _ Hin))). pose proof (Hl t f (list_elem_of_here _ _)).
  assert (frame_weight aw' t f <= frame_weight aw t f)%nat; [|lia]. unfold frame_weight. repeat case_decide; first [lia|tauto].
Qed.

Lemma weight_wake aw fr t : (frames_weight ({[t]} ∪ aw) fr <= frames_weight aw fr + 2)%nat.
Proof.
  destruct (fr !! t) as [f|] eqn:E.
  - rewrite !(weight_delete _ fr t f) by done. assert (frames_weight ({[t]} ∪ aw) (delete t fr) <= frames_weight aw (delete t fr))%nat; [|unfold frame_weight; repeat case_decide; lia].
    apply weight_awake. intros t' [f' [Hne _]%lookup_delete_Some]. set_solver.
  - assert (frames_weight ({[t]} ∪ aw) fr <= frames_weight aw fr)%nat; [|lia]. apply weight_awake. intros t' [f' E']. set_solver.
Qed.

(** The call of a task moves, and maybe it sleeps. *)
Lemma weight_move aw aw' fr t f f' :
  fr !! t = Some f -> aw' ⊆ aw ->
  (frames_weight aw' (<[t := f']> fr) + frame_weight aw t f <= frames_weight aw fr + frame_weight aw' t f')%nat.
Proof.
  intros E Ha. rewrite weight_insert, (weight_delete aw fr t f) by done.
  assert (frames_weight aw' (delete t fr) <= frames_weight aw (delete t fr))%nat; [|lia]. apply weight_awake. set_solver.
Qed.

(** ** Every step forward is one less *)

Lemma frame_pos aw t f : (3 <= frame_weight aw t f)%nat.
Proof. unfold frame_weight, pc_weight. destruct (fr_pc f); lia. Qed.

Lemma run_weight_in s t f : dn_run s = Some t -> dn_frames s !! t = Some f -> run_weight s = 0%nat.
Proof. intros E Ef. unfold run_weight, in_call. by rewrite E, Ef. Qed.

Lemma weight_switch s t : dn_run s = None -> in_call s t = true -> (dns_weight (up_run (Some t) s) < dns_weight s)%nat.
Proof. unfold dns_weight, server_weight, run_weight, in_call. simpl. intros -> ->. lia. Qed.

Lemma weight_yield s t : dn_run s = Some t -> in_call s t = false -> (dns_weight (up_run None s) < dns_weight s)%nat.
Proof. unfold dns_weight, server_weight, run_weight, in_call. simpl. intros -> ->. lia. Qed.

Lemma weight_event s o s' : dn_edge s = true -> dns_step LEvent s = Some (o, s') -> (dns_weight s' < dns_weight s)%nat.
Proof.
  intros He. unfold dns_step, dns_event, bind, modify, gets. simpl. destruct (_ =? _); [|case_bool_decide as Hl].
  - intros [= <- <-]. unfold dns_weight, server_weight, run_weight, in_call. simpl. rewrite He. lia.
  - intros [= <- <-]. unfold dns_weight, server_weight, run_weight, in_call. simpl. rewrite He.
    pose proof (weight_wake (sy_awake (dn_sync s)) (dn_frames s) (dn_task s)). lia.
  - done.
Qed.

(** The running task, from one station to another, or back to sleep. *)
Lemma weight_task s s' t f a :
  dn_run s = Some t -> dn_frames s !! t = Some f -> t ∈ sy_awake (dn_sync s) ->
  dn_frames s' = <[t := Frame (fr_call f) (fr_node f) a]> (dn_frames s) ->
  sy_awake (dn_sync s') ⊆ sy_awake (dn_sync s) ->
  (dn_run s' = Some t /\ (pc_weight a + server_weight s' < pc_weight (fr_pc f) + server_weight s)%nat) \/
  (dn_run s' = None /\ (t ∉ sy_awake (dn_sync s')) /\ (pc_weight a + server_weight s' <= pc_weight (fr_pc f) + server_weight s)%nat) ->
  (dns_weight s' < dns_weight s)%nat.
Proof.
  intros Hr Ef Ht Efr Haw H. unfold dns_weight. rewrite (run_weight_in s t f), Efr by done.
  pose proof (weight_move (sy_awake (dn_sync s)) (sy_awake (dn_sync s')) (dn_frames s) t f (Frame (fr_call f) (fr_node f) a) Ef Haw) as Hm.
  unfold frame_weight in Hm. simpl in Hm. rewrite decide_True in Hm by done. destruct H as [[Hr' H]|(Hr' & Hn & H)].
  - rewrite (run_weight_in s' t (Frame (fr_call f) (fr_node f) a)); [|done|rewrite Efr; apply lookup_insert_eq]. case_decide; lia.
  - rewrite decide_False in Hm by done. unfold run_weight. rewrite Hr'. simpl. lia.
Qed.

Section task.
Context (owner : option Z) (ws : list (Z * Z)) (m : calls) (s : dns) (t : Z) (f : frame) (r : sysret) (o : list obs) (s' : dns).
Context (Hi : dns_inv owner ws m s) (Hr : dn_run s = Some t) (Ef : dn_frames s !! t = Some f).
Context (He : enabled (LTask r) s = true) (E : hev_task_dns_proxy_call t f r s = Some (o, s')).

Lemma weight_lock : fr_pc f = PLock -> (dns_weight s' < dns_weight s)%nat.
Proof.
  intros Hp. inv_open Hi. destruct (Hrun _ Hr) as [_ Ha]. pose proof (Hfr _ _ Ef) as [_ [_ Hn] _ Hpc]. unfold pc_ok in Hpc. rewrite Hp in Hpc. destruct Hpc as (_ & Ho & _).
  destruct (lock_begin_ok (dn_sync s) owner ws (fr_node f) t Hmx) as (sy & E' & _ & Haw); [unfold NULL; lia| | |done|].
  { apply (inv_node_new _ _ _ _ _ Hi). intros t' f' E' Hp'. assert (t' <> t) by congruence. apply (Hinj t' t f' f); done. }
  { apply (inv_task_new _ _ _ _ _ Hi). congruence. }
  revert E. unfold hev_task_dns_proxy_call. rewrite Hp. erewrite bind_Some by (apply on_sync_eq, E').
  destruct owner as [x|]; intros [= <- <-]; simpl in Haw.
  - apply (weight_task _ _ t f PWait); try done; simpl; rewrite Haw; [set_solver|]. right. rewrite Hp. split_and!; [done|set_solver|]. unfold server_weight. simpl. lia.
  - apply (weight_task _ _ t f PSet); try done; simpl; rewrite Haw; [done|]. left. rewrite Hp. split; [done|]. unfold server_weight. simpl. lia.
Qed.

Lemma weight_wait : fr_pc f = PWait -> (dns_weight s' < dns_weight s)%nat.
Proof.
  intros Hp. inv_open Hi. destruct (Hrun _ Hr) as [_ Ha]. pose proof (Hfr _ _ Ef) as [_ _ _ Hpc]. unfold pc_ok in Hpc. rewrite Hp in Hpc. destruct Hpc as (_ & Hin & _).
  destruct (lock_resume_ok (dn_sync s) owner ws (fr_node f) t Hmx Hin) as (sy & E' & _ & Haw).
  revert E. unfold hev_task_dns_proxy_call. rewrite Hp. erewrite bind_Some by (apply on_sync_eq, E').
  case_bool_decide; intros [= <- <-]; simpl in Haw.
  - apply (weight_task _ _ t f PSet); try done; simpl; rewrite Haw; [done|]. left. rewrite Hp. split; [done|]. unfold server_weight. simpl. lia.
  - apply (weight_task _ _ t f PWait); try done; simpl.
    + symmetry. apply insert_id. rewrite Ef. destruct f. simpl in *. by subst.
    + rewrite Haw. set_solver.
    + right. rewrite Hp, Haw. split_and!; [done|set_solver|]. unfold server_weight. simpl. lia.
Qed.

Lemma weight_step_task : (dns_weight s' < dns_weight s)%nat.
Proof.
  inv_open Hi. destruct (Hrun _ Hr) as [_ Ha]. pose proof (Hfr _ _ Ef) as [_ _ Hc Hpc]. pose proof He as Hk. simpl in Hk. rewrite Hr in Hk. simpl in Hk. rewrite Ef in Hk.
  destruct (fr_pc f) eqn:Hp; [by apply weight_lock|by apply weight_wait|..]; unfold pc_ok in Hpc; rewrite Hp in Hpc; revert E; unfold hev_task_dns_proxy_call; rewrite Hp.
  - intros [= <- <-]. apply (weight_task _ _ t f PWrite); try done; simpl. left. rewrite Hp. split; [done|]. unfold server_weight. simpl. lia.
  - destruct Hpc as (Ho & _). rewrite Ho in Htalk. destruct Htalk as (g & Eg & _ & _ & Hg). rewrite Ef in Eg. injection Eg as <-. rewrite Hp in Hg. destruct Hg as (Hq & _).
    destruct r as [|e]; simpl in Hk; [|rewrite Hq, andb_false_r in Hk; done].
    intros [= <- <-]. apply (weight_task _ _ t f PRead); try done; simpl. left. rewrite Hp. split; [done|]. unfold server_weight. simpl. rewrite Hq. destruct (dn_aedge s); lia.
  - destruct r as [|e]; simpl in Hk.
    + intros [= <- <-]. apply (weight_task _ _ t f PEnd); try done; simpl. left. rewrite Hp. split; [done|]. unfold server_weight. simpl. lia.
    + apply andb_prop in Hk as [->%Z.eqb_eq _]. intros [= <- <-]. apply (weight_task _ _ t f PRead); try done; simpl.
      * symmetry. apply insert_id. rewrite Ef. destruct f. simpl in *. by subst.
      * set_solver.
      * right. rewrite Hp. split_and!; [done|set_solver|]. unfold server_weight. simpl. lia.
  - destruct (unlock_ok _ _ _ Hmx) as (sy & E' & _ & Haw). erewrite bind_Some by reflexivity. erewrite bind_Some by (apply on_sync_eq, E').
    destruct Hc as (c & _ & _ & Ec & _). unfold dns_return, load_dcall, bind, gets, lift_opt, modify, ret. simpl. rewrite Ec. destruct (c_err c); [|done].
    intros [= <- <-]. unfold dns_weight. rewrite (run_weight_in s t f) by done. rewrite (weight_delete _ (dn_frames s) t f) by done.
    unfold run_weight, in_call, server_weight. simpl. rewrite Hr, lookup_delete_eq. simpl. unfold frame_weight. rewrite Hp, decide_True by done. simpl.
    assert (frames_weight (sy_awake sy) (delete t (dn_frames s)) <= frames_weight (sy_awake (dn_sync s)) (delete t (dn_frames s)) + 2)%nat; [|lia].
    rewrite Haw. destruct ws as [|[n t'] ws']; [lia|apply weight_wake].
Qed.

End task.

Lemma weight_server owner ws m s r a o s' :
  dns_inv owner ws m s -> enabled (LServer r a) s = true -> hev_task_dns_server r a s = Some (o, s') -> (dns_weight s' < dns_weight s)%nat.
Proof.
  intros Hi He. apply andb_prop in He as [_ He]. pose proof (server_quiet _ _ _ _ Hi) as Hq.
  destruct (dn_server s) as [| | |p|] eqn:Es; simpl in He;
    [..|rewrite (server_answer_eq p) by done|]; unfold hev_task_dns_server, load_proxy, load_dcall, bind, gets, modify, lift_opt, ret; rewrite ?Es.
  - destruct (dn_up s); [|done]. intros [= <- <-]. unfold dns_weight, server_weight, run_weight, in_call. simpl. rewrite Es, He. lia.
  - destruct (dn_up s); [|done]. destruct r as [|e]; simpl in He; intros [= <- <-]; unfold dns_weight, server_weight, run_weight, in_call; simpl; rewrite Es; [|lia].
    apply Z.ltb_lt in He. replace (Z.to_nat (dn_req s)) with (S (Z.to_nat (dn_req s - 1))) by lia. lia.
  - destruct (dn_up s); [|done]. destruct (dn_calls s !! dn_call s); [|done]. intros [= <- <-]. unfold dns_weight, server_weight, run_weight, in_call. simpl. rewrite Es. lia.
  - destruct (dn_calls s !! p); [|done]. intros [= <- <-]. unfold dns_weight, server_weight, run_weight, in_call. simpl. rewrite Es. lia.
  - destruct (dn_up s); [|done]. destruct r as [|e]; simpl in He.
    + intros [= <- <-]. unfold dns_weight, server_weight, run_weight, in_call. simpl. rewrite Es. destruct (dn_edge s); lia.
    + apply andb_prop in He as [_ He%Z.ltb_lt]. exfalso. destruct Hq as [(? & ? & _)|(t & f & q & ans & _ & _ & _ & _ & _ & Ht)]; [lia|].
      unfold talking, listens in Ht. rewrite Es in Ht. naive_solver lia.
Qed.

Lemma forward_less owner ws m s l o s' :
  dns_inv owner ws m s -> forward l s = true -> dns_step l s = Some (o, s') -> (dns_weight s' < dns_weight s)%nat.
Proof.
  intros Hi [He Hf]%andb_prop E. destruct l as [t|t|t|p n q e|r| | | |r a]; try done.
  - simpl in E. injection E as <- <-. apply andb_prop in He as [[He%bool_decide_eq_true _]%andb_prop _]. by apply weight_switch.
  - simpl in E, He. unfold bind at 1 2 3 4, gets, lift_opt in E. destruct (dn_run s) as [t|] eqn:Hr; [|done]. simpl in He. destruct (dn_frames s !! t) as [f|] eqn:Ef; [|done].
    apply (weight_step_task owner ws m s t f r o); try done. simpl. rewrite Hr. simpl. by rewrite Ef.
  - simpl in E, He. injection E as <- <-. destruct (dn_run s) as [t|] eqn:Hr; [|done]. apply negb_true_iff in He. by apply (weight_yield s t).
  - by apply (weight_event s o).
  - by apply (weight_server owner ws m s r a o).
Qed.

(** ** There is a step forward *)

Lemma forward_exists owner ws m s : dns_inv owner ws m s -> dn_frames s <> ∅ -> exists l, forward l s = true.
Proof.
  intros Hi Hne. inv_open Hi. destruct (map_choose _ Hne) as (t0 & f0 & E0). pose proof (inv_up _ _ _ _ _ _ Hi E0) as Hu. rewrite Hu in Hup. destruct Hup as (_ & Haide & _).
  destruct (dn_run s) as [t|] eqn:Hr.
  { destruct (in_call s t) eqn:Ei.
    - destruct (proj1 (bool_decide_eq_true _) Ei) as [f Ef]. unfold forward. destruct (decide (fr_pc f = PRead)) as [Hp|Hp].
      + exists (LTask (if 0 <? dn_rep s then Ok1 else Err EAGAIN)). simpl. rewrite Hr. simpl. rewrite Ef, Hp. destruct (Z.ltb_spec 0 (dn_rep s)) as [H|H]; simpl.
        * by rewrite (proj2 (Z.ltb_lt _ _) H).
        * by rewrite (proj2 (Z.leb_le _ _) H).
      + exists (LTask Ok1). simpl. rewrite Hr. simpl. rewrite Ef. by destruct (fr_pc f).
    - exists LYield. unfold forward. simpl. by rewrite Hr, Ei. }
  assert (Hsw : forall t f, dn_frames s !! t = Some f -> t ∈ sy_awake (dn_sync s) -> forward (LSwitch t) s = true).
  { intros t f Ef Ha. unfold forward, enabled, in_call. rewrite !bool_decide_true; [done|by rewrite Ef|done|apply (Hfr _ _ Ef)|done]. }
  assert (Hsrv : forall r a, enabled (LServer r a) s = true -> exists l, forward l s = true).
  { intros r a He. exists (LServer r a). unfold forward. by rewrite He. }
  destruct owner as [t|].
  - destruct (inv_owner _ _ _ _ t Hi eq_refl) as (f & Ef & Hn1 & Hn2). destruct (decide (t ∈ sy_awake (dn_sync s))) as [Ha|Ha]; [by exists (LSwitch t); eapply Hsw|].
    destruct Htalk as (g & Eg & _ & _ & Hg). rewrite Ef in Eg. injection Eg as <-. pose proof (Hfr _ _ Ef) as [_ _ _ Hpc]. unfold pc_ok in Hpc. rewrite Hr in Hpc.
    destruct (fr_pc f); try done; try (by destruct Hpc as (_ & ? & _)). destruct Hg as (q & ans & _ & Ht). unfold enabled in Hsrv. rewrite Haide in Hsrv.
    destruct Ht as [(Hq & _ & Hs & _)|[(_ & _ & Hs & _)|[(_ & _ & Hs & _)|(_ & _ & _ & _ & Hedge)]]].
    + destruct Hs as [[Hs Hae]|Hs]; rewrite Hs in Hsrv; [by apply (Hsrv Ok1 (0, 0))|]. apply (Hsrv Ok1 (0, 0)). simpl. by rewrite Hq.
    + destruct Hs as [Hs|Hs]; rewrite Hs in Hsrv; by apply (Hsrv Ok1 (0, 0)).
    + rewrite Hs in Hsrv. by apply (Hsrv Ok1 (0, 0)).
    + destruct Hedge as [Hedge|]; [|done]. exists LEvent. unfold forward. simpl. by rewrite Hr, Hu, Hedge.
  - destruct ws as [|[n t] ws'].
    + exfalso. destruct (Hfr _ _ E0) as [_ _ _ Hpc]. unfold pc_ok in Hpc. rewrite Hr in Hpc. destruct (fr_pc f0); try (by destruct Hpc as (? & _)).
      destruct Hpc as (_ & Hin & _). by apply elem_of_nil in Hin.
    + destruct (Hline n t) as (f & Ef & _); [by left|]. exists (LSwitch t). apply (Hsw _ _ Ef). by apply (mr_awake _ _ _ Hmx eq_refl n t).
Qed.
