(* ===== verification/DnsProxyTheorems.v ===== *)
(** * The DNS proxy: theorems

    What any interleaving of the tasks that call the proxy, of the aide thread and of the
    reactor comes to. *)

From S2P Require Import Prelude RBTree TaskMutex DnsProxy DnsProxyInv DnsProxySteps DnsProxyLive.

(** A run given by its steps. *)
Fixpoint run_labels (ls : list label) (s : dns) : option (list obs * dns) :=
  match ls with
  | [] => Some ([], s)
  | l :: ls =>
      if enabled l s then
        match dns_step l s with
        | Some (o, s') => match run_labels ls s' with Some (tr, s'') => Some (o ++ tr, s'') | None => None end
        | None => None
        end
      else None
  end.

Lemma run_labels_runs ls tr0 s tr s' : dns_runs tr0 s -> run_labels ls s = Some (tr, s') -> dns_runs (tr0 ++ tr) s'.
Proof.
  revert tr0 s tr. induction ls as [|l ls IH]; intros tr0 s tr Hr; simpl.
  - intros [= <- <-]. by rewrite app_nil_r.
  - destruct (enabled l s) eqn:El; [|done]. destruct (dns_step l s) as [[o s1]|] eqn:E; [|done].
    destruct (run_labels ls s1) as [[tr1 s2]|] eqn:E'; [|done]. intros [= <- <-]. rewrite app_assoc. apply (IH _ s1); [|done]. by econstructor.
Qed.

(** Steps towards the end of the calls, and how many. *)
Inductive forward_run : nat -> dns -> dns -> Prop :=
| fr_nil s : forward_run 0 s s
| fr_step k s l o s1 s' : forward l s = true -> dns_step l s = Some (o, s1) -> forward_run k s1 s' -> forward_run (S k) s s'.

Lemma forward_run_weight k s s' : forward_run k s s' -> forall tr, dns_runs tr s -> (k + dns_weight s' <= dns_weight s)%nat /\ exists tr', dns_runs tr' s'.
Proof.
  induction 1 as [s|k s l o s1 s' Hf E _ IH]; intros tr Hr; [split; [done|by exists tr]|].
  destruct (dns_runs_inv _ _ Hr) as (owner & ws & m & _ & Hi). pose proof (forward_less _ _ _ _ _ _ _ Hi Hf E).
  destruct (IH (tr ++ o)) as [? ?]; [|split; [lia|done]]. apply (runs_step _ s l); [done| |done]. by apply andb_prop in Hf as [? _].
Qed.

(** Two tasks, whose calls overlap: the second waits for the mutex. *)
Definition demo_q1 : query := GetAddrInfo 1001 0 1002 1003.
Definition demo_q2 : query := GetNameInfo 2001 16 2002 64 0 0 8.
Definition demo_env : env := Env true true true true true true.

Definition demo_labels : list label :=
  [LSpawn 1; LSpawn 2; LSwitch 1; LCall 10 11 demo_q1 demo_env; LTask Ok1; LTask Ok1; LTask Ok1; LTask (Err EAGAIN);
   LSwitch 2; LCall 20 21 demo_q2 demo_env; LTask Ok1; LServer Ok1 (0, 0); LServer Ok1 (0, 0); LServer Ok1 (0, 0); LServer Ok1 (0, 7)].

Definition demo_run : option (list obs * dns) := run_labels demo_labels dns_init.

Definition demo_state : dns := match demo_run with Some (_, s) => s | None => dns_init end.

Lemma demo_runs : dns_runs [OCall 1 demo_q1; OCall 2 demo_q2; OAnswer demo_q1 0 7] demo_state.
Proof. apply (run_labels_runs demo_labels [] dns_init); [constructor|]. vm_compute. reflexivity. Qed.

(** From there both calls return. *)
Definition demo_rest : list label :=
  [LServer Ok1 (0, 0); LServer (Err EAGAIN) (0, 0); LEvent; LSwitch 1; LTask Ok1; LTask Ok1; LYield;
   LSwitch 2; LTask Ok1; LTask Ok1; LTask Ok1; LTask (Err EAGAIN);
   LServer Ok1 (0, 0); LServer Ok1 (0, 0); LServer Ok1 (0, 0); LServer Ok1 (-2, 0); LServer Ok1 (0, 0); LServer (Err EAGAIN) (0, 0);
   LEvent; LSwitch 2; LTask Ok1; LTask Ok1; LYield].

Fixpoint run_forward (ls : list label) (s : dns) : option (nat * dns) :=
  match ls with
  | [] => Some (0%nat, s)
  | l :: ls =>
      if forward l s then
        match dns_step l s with
        | Some (_, s1) => match run_forward ls s1 with Some (k, s') => Some (S k, s') | None => None end
        | None => None
        end
      else None
  end.

Lemma run_forward_run ls s k s' : run_forward ls s = Some (k, s') -> forward_run k s s'.
Proof.
  revert s k. induction ls as [|l ls IH]; intros s k; simpl; [intros [= <- <-]; constructor|].
  destruct (forward l s) eqn:Ef; [|done]. destruct (dns_step l s) as [[o s1]|] eqn:E; [|done].
  destruct (run_forward ls s1) as [[k1 s2]|] eqn:E'; [|done]. intros [= <- <-]. econstructor; [done..|]. by apply IH.
Qed.

(** Nothing is left to be done in a state without calls whose server and reactors are idle. *)
Lemma still_end s : dn_frames s = ∅ -> dn_run s = None -> dn_server s = SIdle -> dn_edge s = false -> dn_aedge s = false -> forall l, forward l s = false.
Proof.
  intros H1 H2 H3 H4 H5 l. unfold forward, enabled, in_call. rewrite H1, H2, H3, H4, H5.
  destruct l; rewrite ?andb_false_r, ?lookup_empty; simpl; rewrite ?andb_false_r; done.
Qed.

(** C20: however the tasks that call the proxy, the aide thread and the reactor are interleaved, no
    step reads a call, a node or a task that is gone, and what is seen is what the
    specification allows: the resolver is asked the question of a call that waits, once, and
    the call returns the answer to it, with its errno, to the task that made it.  The calls
    that wait are those of the specification. *)
Theorem dns_proxy_refines tr s :
  dns_runs tr s ->
  (exists m, dns_specs ∅ tr m /\ forall t, in_call s t = true <-> is_Some (m !! t)) /\
  forall l, enabled l s = true -> exists o s', dns_step l s = Some (o, s').
Proof.
  intros (owner & ws & m & Hs & Hi)%dns_runs_inv. split.
  - exists m. split; [done|]. intros t. unfold in_call. rewrite bool_decide_eq_true. split.
    + intros [f Ef]. destruct (fo_call _ _ _ _ _ _ (di_frames _ _ _ _ Hi _ _ Ef)) as (c & q & ans & _ & Em & _). by rewrite Em.
    + intros Hm. apply not_eq_None_Some. intros E. rewrite (di_dom _ _ _ _ Hi _ E) in Hm. by destruct Hm.
  - intros l He. destruct (dns_step_ok _ _ _ _ _ Hi He) as (o & s' & _ & _ & _ & E & _). by exists o, s'.
Qed.

Lemma dns_proxy_refines_witness : exists m, dns_specs ∅ [OCall 1 demo_q1; OCall 2 demo_q2; OAnswer demo_q1 0 7] m.
Proof. destruct (dns_proxy_refines _ _ demo_runs) as [[m [H _]] _]. exists m. exact H. Defined.

(** C21: no call is left behind.  From any state that is reached, only so many steps
    bring the calls further - the scheduler running a task in a call, a step of a call or of the aide
    thread, an event with something to report, the running task letting go of the CPU -,
    and when none can be taken any more all calls have returned: no wake-up is lost, neither
    by the mutex nor between the aide thread and the task that waits for it. *)
Theorem dns_calls_return tr s k s' :
  dns_runs tr s -> forward_run k s s' ->
  (k <= dns_weight s)%nat /\ ((forall l, forward l s' = false) -> forall t, in_call s' t = false).
Proof.
  intros Hr Hf. destruct (forward_run_weight _ _ _ Hf _ Hr) as [Hk [tr' Hr']]. split; [lia|]. intros Hend t.
  destruct (dns_runs_inv _ _ Hr') as (owner & ws & m & _ & Hi). destruct (decide (dn_frames s' = ∅)) as [E|Hne].
  - unfold in_call. by rewrite E.
  - destruct (forward_exists _ _ _ _ Hi Hne) as [l Hl]. by rewrite Hend in Hl.
Qed.

Lemma dns_calls_return_witness : exists k s', (0 < k <= dns_weight demo_state)%nat /\ forward_run k demo_state s' /\ forall t, in_call s' t = false.
Proof.
  destruct (run_forward demo_rest demo_state) as [[k s']|] eqn:E; [|vm_compute in E; discriminate E].
  pose proof (run_forward_run _ _ _ _ E) as Hf. exists k, s'. destruct (dns_calls_return _ demo_state k s' demo_runs Hf) as [Hk Hend]. vm_compute in E. injection E as <- <-.
  split; [split; [lia|exact Hk]|]. split; [exact Hf|]. apply Hend. by apply still_end.
Defined.

(** When the proxy cannot be made, whichever of its parts fails, the call returns EAI_SYSTEM with
    EIO at once, and no memory or descriptor is left; the next call tries again. *)
Theorem dns_no_proxy tr s t p n q e :
  dns_runs tr s -> dn_run s = Some t -> enabled (LCall p n q e) s = true -> dn_up s = false -> env_ok (dn_aide s) e = false ->
  exists s', dns_step (LCall p n q e) s = Some ([ONoProxy t EAI_SYSTEM EIO], s') /\
    dn_up s' = false /\ dn_fds s' = 0 /\ dn_allocs s' = 0 /\ dn_frames s' = ∅ /\ dn_run s' = Some t.
Proof.
  intros (owner & ws & m & _ & Hi)%dns_runs_inv Hr He Hu Hno. pose proof (di_up _ _ _ _ Hi) as H. rewrite Hu in H. destruct H as (Hf & Hfd & Hal & _).
  destruct (proxy_new_eq e s) as (a & _ & _ & Hnew). rewrite Hno in Hnew.
  exists (up_up false (up_aide a s)). split; [|by split_and!].
  simpl. unfold bind at 1 2, gets, lift_opt. rewrite Hr, dns_call_eq. unfold hev_task_dns_proxy_get, bind, gets, modify. rewrite Hu. simpl. rewrite Hnew. simpl. reflexivity.
Qed.

Lemma dns_no_proxy_witness : exists s', dns_step (LCall 10 11 demo_q1 (Env true true true true true false)) (up_run (Some 1) (up_sync (Sync 0 NULL ∅ {[1]}) (up_live {[1]} dns_init))) =
  Some ([ONoProxy 1 EAI_SYSTEM EIO], s').
Proof.
  destruct (dns_no_proxy [] (up_run (Some 1) (up_sync (Sync 0 NULL ∅ {[1]}) (up_live {[1]} dns_init))) 1 10 11 demo_q1 (Env true true true true true false)) as (s' & H & _);
    [|reflexivity..|by exists s'].
  apply (run_labels_runs [LSpawn 1; LSwitch 1] [] dns_init []); [constructor|]. vm_compute. reflexivity.
Defined.

(** The end of the task system frees the proxy when the last task has ended; the aide thread, which has
    sent the last byte, then still has to read from the descriptor it finds in the proxy. *)
Lemma destroy_races :
  exists tr s, dns_runs tr s /\ dn_live s = ∅ /\ dn_frames s = ∅ /\ enabled (LServer (Err EAGAIN) (0, 0)) s = true /\
  exists s', hev_task_dns_proxy_destroy s = Some (tt, s') /\ dns_step (LServer (Err EAGAIN) (0, 0)) s' = None.
Proof.
  pose (ls := [LSpawn 1; LSwitch 1; LCall 10 11 demo_q1 demo_env; LTask Ok1; LTask Ok1; LTask Ok1; LServer Ok1 (0, 0); LServer Ok1 (0, 0); LServer Ok1 (0, 0);
    LServer Ok1 (0, 0); LServer Ok1 (0, 0); LTask Ok1; LTask Ok1; LExit]).
  destruct (run_labels ls dns_init) as [[tr s]|] eqn:E; [|vm_compute in E; discriminate E].
  exists tr, s. split; [by apply (run_labels_runs ls [] dns_init); [constructor|]|]. vm_compute in E. injection E as <- <-.
  split_and!; try reflexivity. eexists. split; reflexivity.
Qed.
