(* ===== verification/SessionRun.v ===== *)
(** * The life of a session (hev-socks5-session.c)

    A session object is a SOCKS5 client and what its class adds to it.  Its task connects to the
    server of the configuration, logs in and sends its request, and then hands over to the
    splicer of its class.  For TCP the two models are put together: the splicer of
    [SessionTcp] finds the socket as the handshake of [Socks5Client] left it, and the queue
    as lwip has filled it until then - the handshake does not look at it. *)

From S2P Require Import Prelude KeyedTree SocksAddr AddrTheorems TaskSocket Socks5Client Handshake HandshakeSafe ClientSafe Socks5Udp SpliceLoop Config SessionTcp SessionTcpInv SessionTcpLive SessionTcpTheorems.

(** ** Operations *)

(** What [hev_socks5_session_run] needs of the class of a session: its client, and the splicer. *)
Record session_iface (S : Type) := SessionIface {
  si_client : S -> client;
  si_set_client : client -> S -> S;
  si_splicer : M S unit
}.
Arguments si_client {S}.
Arguments si_set_client {S}.
Arguments si_splicer {S}.

(** The binder of a session: [mark_res] is what [set_sock_mark] gives. *)
Definition hev_socks5_session_bind (srv : server_conf) (mark_res : Z) : Z :=
  if negb (sv_mark srv =? 0) then if mark_res <? 0 then -1 else 0 else 0.

Definition with_binder (srv : server_conf) (mark_res : Z) (e : cenv) : cenv :=
  CEnv (e_times e) (e_malloc e) (e_socket e) (hev_socks5_session_bind srv mark_res) (e_connect e) (e_pton4 e) (e_pton6 e) (e_gai e).

Section run.
Context {S : Type} (I : session_iface S).

Definition on_client {A} (m : M client A) : M S A := zoom (si_client I) (si_set_client I) m.

Definition hev_socks5_session_run (srv : server_conf) (mark_res : Z) (e : cenv) : M S unit :=
  let e := with_binder srv mark_res e in
  let* addr := lift_opt (c_str (sv_addr srv)) in
  let* res := on_client (hev_socks5_client_connect e addr (sv_port srv)) in
  if res <? 0 then ret tt else
  (if sv_user srv && sv_pass srv then
     let* user := lift_opt (c_str (sv_blk_user srv)) in
     let* pass := lift_opt (c_str (sv_blk_pass srv)) in
     on_client (hev_socks5_client_set_auth (Some user) (Some pass))
   else ret tt);;
  let* res := on_client (hev_socks5_client_handshake e (negb (sv_pipeline srv =? 0))) in
  if res <? 0 then ret tt else
  si_splicer I.

End run.

(** *** TCP *)

(** [HevSocks5SessionTCP]: the parts it shares with its client are the client's. *)
Record tsession := TSession { tn_client : client; tn_tcp : session }.

Definition tcp_view (s : tsession) : session :=
  let c := tn_client s in
  Session (cl_base c) (ss_pcb (tn_tcp s)) (ss_queue (tn_tcp s)) (ss_eof (tn_tcp s)) (ss_buffer (tn_tcp s))
    (sk_rx (cl_sock c)) (sk_tx (cl_sock c)) (sk_out (cl_sock c)) (ss_shut (tn_tcp s)) (ss_got (tn_tcp s)).

Definition set_tcp_view (t : session) (s : tsession) : tsession :=
  TSession (with_base (fun _ => ss_base t) (with_sock (Sock (ss_rx t) (ss_tx t) (ss_out t)) (tn_client s))) t.

Definition tcp_iface (fuel : nat) (size : Z) (mem : list Z) (env : environment) : session_iface tsession :=
  SessionIface tsession tn_client (fun c s => TSession c (tn_tcp s)) (zoom tcp_view set_tcp_view (hev_socks5_session_tcp_splice fuel size mem env)).

(** ** What a handshake leaves of the socket *)

(** A socket that gives something or makes its reader wait until the end of the stream,
    and takes something or makes its writer wait. *)
Definition rx_steady (evs : list rx_event) : Prop := Forall (fun e => match e with RxData bs => bs <> [] | RxAgain => True | _ => False end) evs.

Definition steady (k : sock) : Prop := rx_steady (sk_rx k) /\ tx_ok (sk_tx k).

Lemma rx_steady_stream evs : rx_steady evs -> rx_stream evs = rx_bytes evs /\ rx_calm evs.
Proof.
  intros H. induction H as [|e evs He H [IH1 IH2]]; [split; [done|constructor]|]. destruct e; try done; simpl.
  - unfold rx_bytes. simpl. split; [by rewrite IH1|by constructor].
  - split; [done|by constructor].
Qed.

Lemma tx_ok_calm evs : tx_ok evs -> tx_calm evs.
Proof. intros H. eapply Forall_impl; [exact H|]. by intros []. Qed.

Lemma recv_loop_steady fl len size buf evs r buf' evs' :
  recv_loop fl len size buf evs = (r, buf', evs') -> rx_steady evs -> rx_steady evs'.
Proof.
  revert size buf. induction evs as [|e evs IH]; intros size buf; simpl; [by intros [= <- <- <-]|].
  intros E [He H]%Forall_cons. destruct e as [bs| | | |]; try done.
  - assert (rx_steady (match drop (Z.to_nat (Z.min (len - size) (Z.of_nat (length bs)))) bs with [] => evs | rest => RxData rest :: evs end)) as Hd.
    { destruct (drop _ bs) eqn:Ed; [done|]. by constructor. }
    destruct (negb _); [by injection E as <- <- <-|]. destruct (_ <=? 0); [by injection E as <- <- <-|].
    destruct (_ <? len); [by eapply IH|by injection E as <- <- <-].
  - destruct (f_dontwait fl); [by injection E as <- <- <-|by eapply IH].
Qed.

Lemma recv_loop_left fl len size buf evs r buf' evs' :
  recv_loop fl len size buf evs = (r, buf', evs') -> (length (rx_bytes evs') + length evs' <= length (rx_bytes evs) + length evs)%nat.
Proof.
  revert size buf. induction evs as [|e evs IH]; intros size buf; simpl; [by intros [= <- <- <-]|]. unfold rx_bytes. intros E.
  destruct e as [bs| | | |]; try (injection E as <- <- <-; simpl; lia);
    try (destruct (f_dontwait fl); [injection E as <- <- <-; simpl; lia|]; try (injection E as <- <- <-; simpl; lia); apply IH in E; unfold rx_bytes in E; simpl; lia).
  set (n := Z.to_nat (Z.min (len - size) (Z.of_nat (length bs)))) in *.
  assert (length (rx_bytes (match drop n bs with [] => evs | rest => RxData rest :: evs end)) + length (match drop n bs with [] => evs | rest => RxData rest :: evs end) <= length (rx_bytes (RxData bs :: evs)) + S (length evs))%nat as Hd.
  { unfold rx_bytes. simpl. rewrite length_app. pose proof (length_drop bs n) as Hl. destruct (drop n bs) as [|b l]; simpl in *; rewrite ?length_app; lia. }
  destruct (negb _); [by injection E as <- <- <-|]. destruct (_ <=? 0); [by injection E as <- <- <-|].
  destruct (_ <? len); [|by injection E as <- <- <-]. apply IH in E. unfold rx_bytes in E |- *. simpl. rewrite length_app. lia.
Qed.

Lemma send_loop_tx fl buf len size out evs r out' evs' :
  send_loop fl buf len size out evs = (r, out', evs') -> (tx_ok evs -> tx_ok evs') /\ (length evs' <= length evs)%nat.
Proof.
  revert buf size out. induction evs as [|e evs IH]; intros buf size out; simpl; [by intros [= <- <- <-]|].
  assert ((tx_ok evs -> tx_ok evs') /\ (length evs' <= length evs)%nat -> (tx_ok (e :: evs) -> tx_ok evs') /\ (length evs' <= S (length evs))%nat) as Hd.
  { intros [H1 H2]. split; [|lia]. intros [_ H]%Forall_cons. by apply H1. }
  intros E. apply Hd. destruct e as [k| | |]; try (by injection E as <- <- <-).
  - destruct (negb _); [by injection E as <- <- <-|]. destruct (_ <=? 0); [by injection E as <- <- <-|].
    destruct (_ <? len); [by eapply IH|by injection E as <- <- <-].
  - destruct (f_dontwait fl); [by injection E as <- <- <-|by eapply IH].
  - destruct (f_dontwait fl); by injection E as <- <- <-.
Qed.

Lemma sendmsg_loop_tx fl iov len size out evs r out' evs' :
  sendmsg_loop fl iov len size out evs = (r, out', evs') -> (tx_ok evs -> tx_ok evs') /\ (length evs' <= length evs)%nat.
Proof.
  revert iov size out. induction evs as [|e evs IH]; intros iov size out; simpl; [by intros [= <- <- <-]|].
  assert ((tx_ok evs -> tx_ok evs') /\ (length evs' <= length evs)%nat -> (tx_ok (e :: evs) -> tx_ok evs') /\ (length evs' <= S (length evs))%nat) as Hd.
  { intros [H1 H2]. split; [|lia]. intros [_ H]%Forall_cons. by apply H1. }
  intros E. apply Hd. destruct e as [k| | |]; try (by injection E as <- <- <-).
  - destruct (negb _); [by injection E as <- <- <-|]. destruct (_ <=? 0); [by injection E as <- <- <-|].
    destruct (_ <? len); [by eapply IH|by injection E as <- <- <-].
  - destruct (f_dontwait fl); [by injection E as <- <- <-|by eapply IH].
  - destruct (f_dontwait fl); by injection E as <- <- <-.
Qed.

(** What is left to do with a socket. *)
Definition sock_left (k : sock) : nat := length (rx_bytes (sk_rx k)) + length (sk_rx k) + length (sk_tx k).

(** Routines of the client that keep its socket steady, its timeout and its type, and may
    read from it. *)
Definition calmly {A} (m : M client A) : Prop := forall c r c', m c = Some (r, c') ->
  (steady (cl_sock c) -> steady (cl_sock c')) /\ (sock_left (cl_sock c') <= sock_left (cl_sock c))%nat /\ s5_timeout (cl_base c') = s5_timeout (cl_base c) /\ s5_type (cl_base c') = s5_type (cl_base c).

Lemma calmly_ret {A} (a : A) : calmly (ret a).
Proof. by intros c r c' [= <- <-]. Qed.
Lemma calmly_gets {A} (f : client -> A) : calmly (gets f).
Proof. by intros c r c' [= <- <-]. Qed.
Lemma calmly_lift {A} (o : option A) : calmly (lift_opt o).
Proof. intros c r c'. unfold lift_opt. destruct o; [|done]. by intros [= <- <-]. Qed.
Lemma calmly_modify (f : client -> client) :
  (forall c, cl_sock (f c) = cl_sock c /\ s5_timeout (cl_base (f c)) = s5_timeout (cl_base c) /\ s5_type (cl_base (f c)) = s5_type (cl_base c)) -> calmly (modify f).
Proof. intros Hf c r c' [= <- <-]. by destruct (Hf c) as (-> & -> & ->). Qed.
Lemma calmly_bind {A B} (m : M client A) (f : A -> M client B) : calmly m -> (forall a, calmly (f a)) -> calmly (bind m f).
Proof.
  intros Hm Hf c r c' (a & s1 & E1 & E2)%bind_Some_inv. destruct (Hm _ _ _ E1) as (H1 & H2 & H3 & H4), (Hf _ _ _ _ E2) as (H5 & H6 & H7 & H8).
  split_and!; [auto|lia|congruence..].
Qed.
Lemma calmly_on_sock {A} (m : SK A) : (forall k a k', m k = Some (a, k') -> (steady k -> steady k') /\ (sock_left k' <= sock_left k)%nat) -> calmly (on_sock m).
Proof.
  intros Hm c r c'. unfold on_sock, zoom. destruct (m (cl_sock c)) as [[a k]|] eqn:E; [|done]. intros [= <- <-]. simpl. destruct (Hm _ _ _ E). done.
Qed.
Lemma calmly_recv n fl : calmly (on_sock (hev_task_io_socket_recv n fl)).
Proof.
  apply calmly_on_sock. intros k a k' E. unfold hev_task_io_socket_recv in E. destruct (recv_loop fl n 0 [] (sk_rx k)) as [[x y] evs] eqn:El.
  injection E as <- <-. apply recv_loop_left in El as Hl. unfold sock_left. simpl. split; [|lia]. intros [H1 H2]. split; [|done]. by eapply recv_loop_steady.
Qed.
Lemma calmly_send buf fl : calmly (on_sock (hev_task_io_socket_send buf fl)).
Proof.
  apply calmly_on_sock. intros k a k' E. unfold hev_task_io_socket_send in E. destruct (send_loop _ _ _ _ _ _) as [[x y] evs] eqn:El.
  injection E as <- <-. destruct (send_loop_tx _ _ _ _ _ _ _ _ _ El) as [H1 H2]. unfold sock_left. simpl. split; [|lia]. intros [? ?]. split; [done|by apply H1].
Qed.
Lemma calmly_sendmsg iov fl : calmly (on_sock (hev_task_io_socket_sendmsg iov fl)).
Proof.
  apply calmly_on_sock. intros k a k' E. unfold hev_task_io_socket_sendmsg in E. destruct (sendmsg_loop _ _ _ _ _ _) as [[x y] evs] eqn:El.
  injection E as <- <-. destruct (sendmsg_loop_tx _ _ _ _ _ _ _ _ _ El) as [H1 H2]. unfold sock_left. simpl. split; [|lia]. intros [? ?]. split; [done|by apply H1].
Qed.

Create HintDb calmly.
#[export] Hint Resolve calmly_ret calmly_gets calmly_lift calmly_recv calmly_send calmly_sendmsg : calmly.

Ltac calmly_step :=
  first [ solve [eauto with calmly]
        | apply calmly_bind; [|intros]
        | apply calmly_modify; by intros
        | match goal with
          | |- calmly (let '(_, _) := ?x in _) => destruct x
          | |- calmly (match ?x with _ => _ end) => destruct x
          end ].

Ltac calmly_auto := repeat calmly_step.

Lemma calmly_write_request e : calmly (hev_socks5_client_write_request e).
Proof.
  unfold hev_socks5_client_write_request, get_upstream_addr, hev_socks5_client_tcp_get_upstream_addr, hev_socks5_client_udp_get_upstream_addr, free_addr. calmly_auto.
Qed.

Lemma calmly_read_response e : calmly (hev_socks5_client_read_response e).
Proof.
  unfold hev_socks5_client_read_response, set_upstream_addr, hev_socks5_client_tcp_set_upstream_addr, hev_socks5_client_udp_set_upstream_addr, close_fd. calmly_auto.
Qed.

#[export] Hint Resolve calmly_write_request calmly_read_response : calmly.

Lemma calmly_standard e : calmly (hev_socks5_client_handshake_standard e).
Proof.
  unfold hev_socks5_client_handshake_standard, hev_socks5_client_write_auth_methods, hev_socks5_client_write_auth_creds,
    hev_socks5_client_read_auth_method, hev_socks5_client_read_auth_creds. calmly_auto.
Qed.

Lemma calmly_pipeline e : calmly (hev_socks5_client_handshake_pipeline e).
Proof.
  unfold hev_socks5_client_handshake_pipeline, hev_socks5_client_write_auth_methods, hev_socks5_client_write_auth_creds,
    hev_socks5_client_read_auth_method, hev_socks5_client_read_auth_creds. calmly_auto.
Qed.

(** A handshake of a TCP client leaves a steady socket steady, and its timeout is the TCP
    timeout, unless the session was terminated. *)
Lemma handshake_keeps e pipeline c r c' :
  hev_socks5_client_handshake e pipeline c = Some (r, c') -> s5_type (cl_base c) = TYPE_TCP ->
  (steady (cl_sock c) -> steady (cl_sock c')) /\ (sock_left (cl_sock c') <= sock_left (cl_sock c))%nat /\ s5_type (cl_base c') = TYPE_TCP /\
  s5_timeout (cl_base c') = if s5_timeout (cl_base c) =? 0 then 0 else tcp_timeout (e_times e).
Proof.
  unfold hev_socks5_client_handshake. intros E Ht. apply bind_Some_inv in E as ([] & c0 & [= <-] & E).
  apply bind_Some_inv in E as (r1 & c1 & E1 & E).
  assert (calmly (if pipeline then hev_socks5_client_handshake_pipeline e else hev_socks5_client_handshake_standard e)) as Hk by (destruct pipeline; [apply calmly_pipeline|apply calmly_standard]).
  destruct (Hk _ _ _ E1) as (H1 & H2 & H3 & H4). unfold with_base, hev_socks5_set_timeout in H1, H2, H3, H4. simpl in *.
  assert (s5_type (cl_base c1) = TYPE_TCP) as H5 by (rewrite H4, <-Ht; by destruct (negb _)).
  apply bind_Some_inv in E as (ty & c2 & [= <- <-] & E). rewrite H5 in E. apply bind_Some_inv in E as ([] & c3 & [= <-] & [= <- <-]).
  split_and!; [done..|]. rewrite H3. destruct (Z.eqb_spec (s5_timeout (cl_base c)) 0); done.
Qed.

(** Whether the server can be reached. *)
Definition reachable (e : cenv) (addr : list Z) (c : client) : bool :=
  bool_decide (is_Some (resolve_spec (e_pton4 e) (e_pton6 e) (e_gai e) addr (s5_addr_family (cl_base c)))) &&
  (0 <=? e_socket e) && (0 <=? e_bind e) && (0 <=? hev_task_io_socket_connect (e_connect e)).

(** The descriptor that connecting opens. *)
Definition opened (e : cenv) (addr : list Z) (c : client) : list Z :=
  if bool_decide (is_Some (resolve_spec (e_pton4 e) (e_pton6 e) (e_gai e) addr (s5_addr_family (cl_base c)))) && (0 <=? e_socket e) then [e_socket e] else [].

(** Connecting leaves everything but the base and the closed descriptors alone: what it opens is
    the descriptor of the client, or closed again. *)
Record connected (e : cenv) (addr : list Z) (c : client) (b : socks5) (fds : list Z) : Prop := {
  cn_type : s5_type b = s5_type (cl_base c);
  cn_timeout : s5_timeout b = if s5_timeout (cl_base c) =? 0 then 0 else connect_timeout (e_times e);
  cn_fd : s5_fd b = (if reachable e addr c then e_socket e else s5_fd (cl_base c));
  cn_closed : fds = cl_closed c ++ (if reachable e addr c then [] else opened e addr c);
  cn_opened : reachable e addr c = true -> opened e addr c = [e_socket e] /\ 0 <= e_socket e
}.

Lemma connect_ends e addr port c :
  resolver_ok (e_pton4 e) (e_pton6 e) (e_gai e) ->
  exists b fds, hev_socks5_client_connect e addr port c =
      Some (if reachable e addr c then 0 else -1, with_closed fds (with_base (fun _ => b) c)) /\ connected e addr c b fds.
Proof.
  intros Hres. unfold hev_socks5_client_connect, bind, modify, gets, lift_opt, close_fd, ret. simpl.
  set (b0 := hev_socks5_set_timeout (connect_timeout (e_times e)) (cl_base c)).
  assert (s5_type b0 = s5_type (cl_base c) /\ s5_addr_family b0 = s5_addr_family (cl_base c) /\ s5_fd b0 = s5_fd (cl_base c) /\
    s5_timeout b0 = if s5_timeout (cl_base c) =? 0 then 0 else connect_timeout (e_times e)) as (Hty & Hfam & Hfd & Hti).
  { unfold b0, hev_socks5_set_timeout. destruct (Z.eqb_spec (s5_timeout (cl_base c)) 0); simpl; done. }
  change (with_base (hev_socks5_set_timeout (connect_timeout (e_times e))) c) with (with_base (fun _ => b0) c).
  clearbody b0. destruct (name_into_ok _ _ _ addr port sockaddr_zero (s5_addr_family b0) Hres) as (a & _ & Hn); [done|].
  unfold hev_socks5_get_addr_family. rewrite Hn, Hfam. clear Hn.
  assert (forall b fds, s5_type b = s5_type b0 /\ s5_timeout b = s5_timeout b0 ->
    (if reachable e addr c then s5_fd b = e_socket e /\ fds = cl_closed c else s5_fd b = s5_fd b0 /\ fds = cl_closed c ++ opened e addr c) -> connected e addr c b fds) as Hcn.
  { intros b fds [Eb1 Eb2] Hb. split; [congruence..| | |]; [| |clear; unfold reachable, opened].
    - destruct (reachable e addr c); [apply Hb|]. rewrite <-Hfd. apply Hb.
    - destruct (reachable e addr c); [rewrite app_nil_r|]; apply Hb.
    - destruct (bool_decide _); simpl; [|done]. destruct (Z.leb_spec 0 (e_socket e)); done. }
  unfold reachable, opened in *. clear Hty Hfam Hfd Hti. rewrite !Z.ltb_antisym in *.
  destruct (resolve_spec _ _ _ addr _) as [[bs g]|]; [rewrite bool_decide_true in * by (by eexists)|rewrite bool_decide_false in * by (by intros [? ?])]; simpl in *.
  2: { exists b0, (cl_closed c). split; [by destruct c|]. apply Hcn; [done|]. by rewrite app_nil_r. }
  destruct (0 <=? e_socket e); simpl in *; [|exists b0, (cl_closed c); split; [by destruct c|apply Hcn; [done|by rewrite app_nil_r]]].
  destruct (0 <=? e_bind e); simpl in *; [|eexists b0, _; split; [by destruct c|by apply Hcn]].
  destruct (0 <=? hev_task_io_socket_connect (e_connect e)); simpl in *; [|eexists b0, _; split; [by destruct c|by apply Hcn]].
  exists (hev_socks5_set_addr_family g (Socks5 (e_socket e) (s5_timeout b0) (s5_type b0) (s5_udp_associated b0) (s5_addr_family b0))), (cl_closed c).
  split; [by destruct c|by apply Hcn].
Qed.
