(* ===== verification/SessionRunTheorems.v ===== *)
(** * Theorems on the life of a session (hev-socks5-session.c)

    A TCP session from the connection to the server to its end: it never faults, sends nothing
    of the application before the server has accepted its request, and with a server that
    accepts and a TCP/IP stack that takes every write delivers every byte both ways. *)

From S2P Require Import Prelude KeyedTree Buffers SocksAddr AddrTheorems TaskSocket Socks5Client Handshake HandshakeSafe ClientSafe HandshakeTheorems Socks5Udp SpliceLoop Config SessionTcp SessionTcpInv SessionTcpLive SessionTcpTheorems SessionRun.

(** The server's name in the configuration, and what to log in with. *)
Definition srv_reads (srv : server_conf) (addr : list Z) (auth : option (list Z * list Z)) : Prop :=
  c_str (sv_addr srv) = Some addr /\
  match auth with
  | Some (u, p) => sv_user srv && sv_pass srv = true /\ c_str (sv_blk_user srv) = Some u /\ c_str (sv_blk_pass srv) = Some p
  | None => sv_user srv && sv_pass srv = false
  end.

Definition login (auth : option (list Z * list Z)) (c : client) : client :=
  match auth with
  | Some (u, p) => Client (cl_base c) (cl_class c) (Some u) (Some p) (cl_addr c) (cl_ufd c) (cl_sock c) (cl_live c) (cl_closed c)
  | None => c
  end.

(** [c0] is the client [c] once it is connected and has its credentials. *)
Definition dialled (e : cenv) (addr : list Z) (auth : option (list Z * list Z)) (c c0 : client) : Prop :=
  reachable e addr c = true /\ exists b fds, connected e addr c b fds /\ c0 = login auth (with_closed fds (with_base (fun _ => b) c)).

(** A session for a destination that has not been run: it holds the address, and lwip has handed it a
    connection on which nothing was sent, and which may have failed since. *)
Record tcp_fresh (s : tsession) (a : list Z) (p : pcb) : Prop := {
  tf_class : cl_class (tn_client s) = ClientTCP;
  tf_type : s5_type (cl_base (tn_client s)) = TYPE_TCP;
  tf_addr : cl_addr (tn_client s) = Some a /\ addr_wf a /\ cl_live (tn_client s) = 1;
  tf_auth : cl_user (tn_client s) = None /\ cl_pass (tn_client s) = None;
  tf_pcb : (ss_pcb (tn_tcp s) = Some p \/ ss_pcb (tn_tcp s) = None) /\ pb_sent p = [] /\ pb_acked p = 0%nat /\ pb_shut p = false;
  tf_queue : Forall (.≠ []) (ss_queue (tn_tcp s)) /\ Z.of_nat (length (concat (ss_queue (tn_tcp s)))) <= TCP_WND;
  tf_shut : ss_shut (tn_tcp s) = false
}.

Lemma fresh_ready s a p c : tcp_fresh s a p -> ss_pcb (tn_tcp s) = Some p -> 0 <= s5_timeout (cl_base c) -> session_ready (tcp_view (TSession c (tn_tcp s))) p.
Proof. intros [_ _ _ _ (_ & H2 & H3 & H4) H6 H7] H1 Ht. by split. Qed.

(** What lwip does to the connection while its session connects and logs in.  These do not look at it, so it
    can as well happen before them; that a failure ends their waits is up to the socket in any case. *)
Definition lwip_meanwhile (pre : list pcb_event) : M tsession unit := zoom tcp_view set_tcp_view (run_events pre).

(** Nothing was sent, so nothing is acknowledged. *)
Definition pre_ok (s : tsession) (pre : list pcb_event) : Prop :=
  events_ok (tcp_view s) pre /\ Forall (fun e => match e with EvAcked _ => False | _ => True end) pre.

Lemma events_fresh_view pre t s a p :
  tcp_fresh (set_tcp_view t s) a p -> events_ok t pre -> Forall (fun e => match e with EvAcked _ => False | _ => True end) pre ->
  exists t', run_events pre t = Some (tt, t') /\ tcp_fresh (set_tcp_view t' s) a p /\ ss_rx t' = ss_rx t /\ ss_tx t' = ss_tx t /\ ss_out t' = ss_out t /\
    s5_fd (ss_base t') = s5_fd (ss_base t) /\ exists g, ss_got t' = ss_got t ++ g /\ concat (ss_queue t') = concat (ss_queue t) ++ g.
Proof.
  revert t. induction pre as [|e pre IH]; intros t Hf Hev Hna; [exists t; split_and!; try done; exists []; by rewrite !app_nil_r|].
  destruct Hev as [He Hev]. apply Forall_cons in Hna as [Hn Hna]. simpl.
  assert (exists t1, run_event e t = Some (tt, t1) /\ tcp_fresh (set_tcp_view t1 s) a p /\ ss_rx t1 = ss_rx t /\ ss_tx t1 = ss_tx t /\ ss_out t1 = ss_out t /\
    s5_fd (ss_base t1) = s5_fd (ss_base t) /\ exists g, ss_got t1 = ss_got t ++ g /\ concat (ss_queue t1) = concat (ss_queue t) ++ g) as (t1 & E & Hf1 & H1 & H2 & H3 & H4 & g & H5 & H6).
  { unfold event_ok in He. destruct Hf as [F1 F2 F3 F4 (F5 & F6) F7 F8]. simpl in *. destruct e as [bufs| |n|]; [| |done|]; (eexists; split; [reflexivity|]).
    - assert (Forall (.≠ []) bufs /\ Z.of_nat (length (concat (ss_queue t ++ bufs))) <= TCP_WND) as [Hne Hw] by (destruct (ss_pcb t); [tauto|done]). split; [|simpl; do 4 (split; [done|]); exists (concat bufs); by rewrite concat_app].
      split; simpl; try done. split; [apply Forall_app; split; [apply F7|done]|done].
    - split; [by split|]. simpl. split_and!; try done. exists []. by rewrite !app_nil_r.
    - split; [split; simpl; try done|simpl; split_and!; try done].
      + unfold hev_socks5_set_timeout. by destruct (negb _).
      + split; [by right|done].
      + unfold hev_socks5_set_timeout. by destruct (negb _).
      + exists []. by rewrite !app_nil_r. }
  rewrite (bind_Some _ _ _ _ _ E). destruct (IH t1 Hf1 (Hev t1 E) Hna) as (t2 & E2 & Hf2 & K1 & K2 & K3 & K4 & g' & K5 & K6).
  exists t2. split_and!; try done; try congruence. exists (g ++ g'). by rewrite K5, K6, H5, H6, !app_assoc.
Qed.

Lemma meanwhile_fresh s a p pre : tcp_fresh s a p -> pre_ok s pre ->
  exists s', lwip_meanwhile pre s = Some (tt, s') /\ tcp_fresh s' a p /\ cl_sock (tn_client s') = cl_sock (tn_client s) /\ cl_closed (tn_client s') = cl_closed (tn_client s) /\
    s5_fd (cl_base (tn_client s')) = s5_fd (cl_base (tn_client s)) /\
    exists g, ss_got (tn_tcp s') = ss_got (tn_tcp s) ++ g /\ concat (ss_queue (tn_tcp s')) = concat (ss_queue (tn_tcp s)) ++ g.
Proof.
  intros Hf [Hev Hna]. destruct (events_fresh_view pre (tcp_view s) s a p) as (t' & E & Hf' & H1 & H2 & H3 & H4 & H5); try done.
  { destruct Hf as [F1 F2 F3 F4 F5 F6 F7]. by split. }
  unfold lwip_meanwhile, zoom. rewrite E. eexists. split; [reflexivity|]. split; [done|]. simpl in *. rewrite H1, H2, H3. split; [by destruct (cl_sock (tn_client s))|]. done.
Qed.

(** The run of a session up to its splicer. *)
Lemma run_cases fuel size mem env srv mr e s addr auth :
  srv_reads srv addr auth -> resolver_ok (e_pton4 e) (e_pton6 e) (e_gai e) ->
  exists b fds, connected (with_binder srv mr e) addr (tn_client s) b fds /\
    let e' := with_binder srv mr e in
    let c0 := with_closed fds (with_base (fun _ => b) (tn_client s)) in
    hev_socks5_session_run (tcp_iface fuel size mem env) srv mr e s =
    if negb (reachable e' addr (tn_client s)) then Some (tt, TSession c0 (tn_tcp s)) else
    match hev_socks5_client_handshake e' (negb (sv_pipeline srv =? 0)) (login auth c0) with
    | Some (r, c2) =>
        if r <? 0 then Some (tt, TSession c2 (tn_tcp s)) else
        match hev_socks5_session_tcp_splice fuel size mem env (tcp_view (TSession c2 (tn_tcp s))) with
        | Some (_, t) => Some (tt, set_tcp_view t (TSession c2 (tn_tcp s)))
        | None => None
        end
    | None => None
    end.
Proof.
  intros [Haddr Hauth] Hres. destruct (connect_ends (with_binder srv mr e) addr (sv_port srv) (tn_client s) Hres) as (b & fds & E & Hcn).
  exists b, fds. split; [done|]. cbv zeta. unfold hev_socks5_session_run. erewrite bind_Some by (unfold lift_opt; rewrite Haddr; reflexivity).
  erewrite bind_Some by (unfold on_client, zoom; simpl si_client; rewrite E; reflexivity).
  destruct (reachable _ addr (tn_client s)); [|reflexivity]. change (0 <? 0) with false. cbv iota. cbn [negb].
  set (c0 := with_closed fds (with_base (fun _ => b) (tn_client s))).
  erewrite bind_Some.
  2: { instantiate (1 := TSession (login auth c0) (tn_tcp s)). instantiate (1 := tt). destruct auth as [[u p]|].
    - destruct Hauth as (-> & Hu & Hp). unfold bind, lift_opt. rewrite Hu, Hp. reflexivity.
    - rewrite Hauth. reflexivity. }
  unfold bind at 1, on_client at 1, zoom at 1. simpl si_client. destruct (hev_socks5_client_handshake _ _ _) as [[r c2]|]; [|done].
  simpl si_set_client. destruct (r <? 0); [done|]. simpl si_splicer. unfold zoom. by destruct (hev_socks5_session_tcp_splice _ _ _ _ _) as [[[] t]|].
Qed.

(** *** The connected client *)

Lemma login_fresh auth fds b c : let c0 := login auth (with_closed fds (with_base (fun _ => b) c)) in
  cl_base c0 = b /\ cl_class c0 = cl_class c /\ cl_addr c0 = cl_addr c /\ cl_live c0 = cl_live c /\ cl_sock c0 = cl_sock c.
Proof. by destruct auth as [[u p]|]. Qed.

(** Whatever happens in the handshake, it ends; when it succeeds its socket, timeout and blocks are
    as the splicer needs them. *)
Lemma handshake_run s a p e pipeline auth fds b :
  tcp_fresh s a p -> resolver_ok (e_pton4 e) (e_pton6 e) (e_gai e) -> rx_ok (sk_rx (cl_sock (tn_client s))) ->
  0 <= tcp_timeout (e_times e) -> s5_type b = TYPE_TCP ->
  exists r c2, hev_socks5_client_handshake e pipeline (login auth (with_closed fds (with_base (fun _ => b) (tn_client s)))) = Some (r, c2) /\
    (0 <= r -> balance c2 = 0) /\ (ss_pcb (tn_tcp s) = Some p -> session_ready (tcp_view (TSession c2 (tn_tcp s))) p) /\
    (steady (cl_sock (tn_client s)) -> steady (cl_sock c2)) /\ (sock_left (cl_sock c2) <= sock_left (cl_sock (tn_client s)))%nat.
Proof.
  intros Hf Hres Hrx Ht Hb. set (c0 := login _ _). destruct (login_fresh auth fds b (tn_client s)) as (Eb & Ec & Ea & El & Es). fold c0 in Eb, Ec, Ea, El, Es.
  destruct (tf_addr _ _ _ Hf) as (Ha & Hwf & Hl). pose proof (tf_class _ _ _ Hf) as Hc.
  destruct (wp_elim _ _ _ (client_handshake_ends e c0 pipeline ltac:(unfold cl_rx; by rewrite Es) ltac:(unfold can_request; rewrite Ec, Hc, Ea; by eauto) Hres)) as (r & c2 & E & _ & Hbal).
  exists r, c2. split; [done|]. split; [intros H0; rewrite (Hbal H0); unfold balance, owned; by rewrite Ea, El, Ha, Hl|].
  destruct (handshake_keeps _ _ _ _ _ E) as (H1 & H2 & _ & H4); [by rewrite Eb|]. rewrite Es in H1, H2. split; [|done].
  intros Hp. apply (fresh_ready s a p); [done|done|]. rewrite H4. by destruct (_ =? 0).
Qed.

(** A session whose connection has failed does nothing. *)
Lemma splice_gone fuel size mem env s : ss_pcb s = None -> hev_socks5_session_tcp_splice fuel size mem env s = Some (tt, s).
Proof. intros E. unfold hev_socks5_session_tcp_splice, bind, gets. by rewrite E. Qed.

(** C2: A TCP session runs from its first connection to its end without a fault, whatever the server, the
    resolver and the sockets do and whatever the TCP/IP stack delivers, acknowledges or refuses, also when the connection has failed
    before; after [N] sleeps nothing happens any more and the next wait runs out.  Either it ends before its splicer, and
    then nothing of the connection of the application was read, acknowledged or sent; or
    the handshake of the connected client has succeeded and left no address block, and from the socket as the handshake left
    it both streams are relayed: what went out to the server and what is still queued are, in order,
    what was queued and what lwip delivered, and the sending side was shut down only behind
    all of it; what the connection was offered, [h], is what came from the socket, in order; the connection took all
    of it when lwip refuses no [tcp_write] or [tcp_output], and in any case all but one piece; the offered bytes
    behind those acknowledged are still intact in the ring, and the receive window was opened for exactly the bytes that went out. *)
Theorem session_run_relays fuel size mem env N srv mr e s a p addr auth :
  srv_reads srv addr auth -> resolver_ok (e_pton4 e) (e_pton6 e) (e_gai e) -> tcp_fresh s a p ->
  rx_ok (sk_rx (cl_sock (tn_client s))) -> 0 <= tcp_timeout (e_times e) ->
  ring_ok size mem -> lwip_ok env -> quiet_after N env ->
  (1 + N + sock_left (cl_sock (tn_client s)) + Z.to_nat TCP_WND < fuel)%nat ->
  exists s', hev_socks5_session_run (tcp_iface fuel size mem env) srv mr e s = Some (tt, s') /\
    (tn_tcp s' = tn_tcp s \/
     exists c0 c r w g, dialled (with_binder srv mr e) addr auth (tn_client s) c0 /\
       hev_socks5_client_handshake (with_binder srv mr e) (negb (sv_pipeline srv =? 0)) c0 = Some (r, c) /\ 0 <= r /\ balance c = 0 /\
       sk_out (cl_sock (tn_client s')) = sk_out (cl_sock c) ++ w /\ ss_got (tn_tcp s') = ss_got (tn_tcp s) ++ g /\
       concat (ss_queue (tn_tcp s)) ++ g = w ++ concat (ss_queue (tn_tcp s')) /\
       (ss_shut (tn_tcp s') = true -> ss_queue (tn_tcp s') = [] /\ ss_eof (tn_tcp s') = true) /\
       forall p', ss_pcb (tn_tcp s') = Some p' -> exists h,
         h ++ rx_bytes (sk_rx (cl_sock (tn_client s'))) = rx_bytes (sk_rx (cl_sock c)) /\
         one_gap h (pb_sent p') /\ (takes_all p -> pb_sent p' = h) /\
         pb_recved p' = pb_recved p + Z.of_nat (length w) /\
         exists ring, ss_buffer (tn_tcp s') = Some ring /\ ring_rep ring (drop (pb_acked p') h) []).
Proof.
  intros Hsrv Hres Hf Hrx Ht Hring Hlwip Hquiet Hfuel.
  destruct (run_cases fuel size mem env srv mr e s addr auth Hsrv Hres) as (b & fds & Hcn & E). pose proof (cn_type _ _ _ _ _ Hcn) as Hty. rewrite E. clear E.
  destruct (reachable _ addr _) eqn:Hreach; [|by eexists; split; [reflexivity|by left]]. cbn [negb].
  destruct (handshake_run s a p (with_binder srv mr e) (negb (sv_pipeline srv =? 0)) auth fds b Hf Hres Hrx Ht) as (r & c2 & E & Hbal & Hready & _ & Hleft).
  { by rewrite Hty, (tf_type _ _ _ Hf). }
  rewrite E. destruct (Z.ltb_spec r 0); [by eexists; split; [reflexivity|by left]|].
  destruct (tf_pcb _ _ _ Hf) as [[Hp|Hp] _].
  2: { rewrite splice_gone by done. eexists. split; [reflexivity|]. right. eexists _, c2, r, [], []. split; [split; [done|by exists b, fds]|]. split; [exact E|].
       simpl. rewrite !app_nil_r. split_and!; try done; [by apply Hbal|by rewrite (tf_shut _ _ _ Hf)|congruence]. }
  destruct (session_tcp_relays fuel size mem env N (tcp_view (TSession c2 (tn_tcp s))) p Hring (Hready Hp) Hlwip Hquiet) as (t & w & g & Et & H1 & H2 & H3 & H4 & H5).
  { unfold sock_left in Hleft, Hfuel. simpl. lia. }
  rewrite Et. eexists. split; [reflexivity|]. right. eexists _, c2, r, w, g. split; [split; [done|by exists b, fds]|]. split; [exact E|]. split_and!; try done. by apply Hbal.
Qed.

(** C9: End to end, a TCP session delivers everything.  When the server can be reached, answers the
    handshake with what it is promised and sends [down] behind it, in any chunks and with any delays, lwip takes every write and output, and
    the application reads, acknowledges and ends its stream, then the session ends having sent the
    server exactly the messages of the handshake and, behind them, every byte the
    application sent before and during the session; the application has received, and
    acknowledged, exactly [down]; both sides were shut down, and the address block is freed. *)
Theorem session_run_delivers_all fuel size mem env N srv mr e s a p addr auth sa down :
  srv_reads srv addr auth -> resolver_ok (e_pton4 e) (e_pton6 e) (e_gai e) -> tcp_fresh s a p -> ss_pcb (tn_tcp s) = Some p -> takes_all p ->
  reachable (with_binder srv mr e) addr (tn_client s) = true ->
  rx_ok (sk_rx (cl_sock (tn_client s))) -> steady (cl_sock (tn_client s)) ->
  creds_fit (fst <$> auth) (snd <$> auth) -> sockaddr_ok sa ->
  stream_of (cl_sock (tn_client s)) = server_sent (fst <$> auth) (snd <$> auth) sa ++ down ->
  0 <= tcp_timeout (e_times e) -> ring_ok size mem -> lwip_ok env -> attentive N env ->
  (2 + N + sock_left (cl_sock (tn_client s)) + Z.to_nat TCP_WND < fuel)%nat ->
  exists s' p' g, hev_socks5_session_run (tcp_iface fuel size mem env) srv mr e s = Some (tt, s') /\
    sk_out (cl_sock (tn_client s')) = sk_out (cl_sock (tn_client s)) ++
      client_sent (login auth (tn_client s)) a ++ concat (ss_queue (tn_tcp s)) ++ g /\
    ss_got (tn_tcp s') = ss_got (tn_tcp s) ++ g /\ ss_shut (tn_tcp s') = true /\
    ss_pcb (tn_tcp s') = Some p' /\ pb_sent p' = down /\ pb_acked p' = length down /\ pb_shut p' = true /\
    cl_live (tn_client s') = 0.
Proof.
  intros Hsrv Hres Hf Hp Hacc Hreach Hrx Hst Hfit Hsa Hstream Ht Hring Hlwip Hat Hfuel.
  destruct (run_cases fuel size mem env srv mr e s addr auth Hsrv Hres) as (b & fds & Hcn & E). pose proof (cn_type _ _ _ _ _ Hcn) as Hty. rewrite E, Hreach. clear E. cbn [negb].
  pose proof (tf_type _ _ _ Hf) as Htt. destruct (tf_addr _ _ _ Hf) as (Ha & Hwf & Hl). destruct (tf_auth _ _ _ Hf) as [Hu Hpw].
  destruct (handshake_run s a p (with_binder srv mr e) (negb (sv_pipeline srv =? 0)) auth fds b Hf Hres Hrx Ht) as (r & c2 & E & _ & Hready & Hst2 & Hleft); [congruence|].
  set (c0 := login auth (with_closed fds (with_base (fun _ => b) (tn_client s)))) in *.
  destruct (login_fresh auth fds b (tn_client s)) as (Eb & Ec & Ea & El & Es). fold c0 in Eb, Ec, Ea, El, Es.
  assert (cl_user c0 = fst <$> auth /\ cl_pass c0 = snd <$> auth) as [Eu Ep] by (unfold c0; destruct auth as [[u pw]|]; simpl; by rewrite ?Hu, ?Hpw).
  destruct (client_run_ok (with_binder srv mr e) c0 a sa down (negb (sv_pipeline srv =? 0))) as (k & Ek & Ok & Sk); try done.
  { rewrite Es. split; [done|]. apply Hst. }
  { by rewrite Ec, (tf_class _ _ _ Hf). }
  { congruence. }
  { congruence. }
  { by rewrite Eu, Ep. }
  { apply Hsa. }
  { rewrite Es, Eu, Ep, Hstream. unfold server_sent. by rewrite <-!app_assoc. }
  rewrite Ek in E |- *. injection E as <- <-. change (0 <? 0) with false. cbv iota.
  destruct (rx_steady_stream (sk_rx k)) as [Hby Hcalm]; [apply (Hst2 Hst)|].
  destruct (session_tcp_delivers_all fuel size mem env N (tcp_view (TSession (client_done (with_binder srv mr e) k c0) (tn_tcp s))) p Hring (Hready Hp) Hacc Hlwip Hat) as (t & p' & g & Et & H1 & H2 & H3 & H4 & H5 & H6 & H7).
  { apply tx_ok_calm. apply (Hst2 Hst). }
  { done. }
  { unfold sock_left in Hleft, Hfuel. simpl in *. lia. }
  rewrite Et. exists (set_tcp_view t (TSession (client_done (with_binder srv mr e) k c0) (tn_tcp s))), p', g.
  assert (client_sent c0 a = client_sent (login auth (tn_client s)) a) as Ecs by (unfold c0, client_sent; by destruct auth as [[u pw]|]).
  assert (pb_sent p' = down) as Hdown by (rewrite H5; simpl; by rewrite <-Hby).
  split; [done|]. simpl. split_and!; try done.
  - rewrite H2. simpl. by rewrite Ok, Es, Ecs, <-app_assoc.
  - by rewrite H6, Hdown.
  - by rewrite El, Hl.
Qed.

(** *** Examples *)

Definition demo_srv : server_conf := Srv [49; 0] [] true true [97; 108; 0] [112; 119; 0] 0 0 1080 1 0.
Definition demo_cenv : cenv := CEnv sample_times true 7 0 [CxInProgress; CxIsConn] (fun _ => Some [10; 0; 0; 9]) no_resolver4 no_gai.
Definition demo_on (p : pcb) : tsession :=
  TSession (Client (hev_socks5_construct TYPE_TCP) ClientTCP None None (Some sample_dest) (-1)
      (Sock [RxData [5]; RxAgain; RxData [2; 1; 0; 5; 0; 0]; RxData [1; 10; 0; 0; 1; 0; 80; 72]; RxAgain; RxData [105]] [TxSome 2; TxAgain; TxSome 3] []) 1 [])
    (Session (Socks5 (-1) (-1) TYPE_TCP false 0) (Some p) [[1]; [2; 3]] false None [] [] [] false []).
Definition demo_session : tsession := demo_on sample_pcb.

(** A connection whose first write lwip refuses. *)
Definition busy_pcb : pcb := Pcb [-1] [] 0 0 false.

Lemma demo_srv_reads : srv_reads demo_srv [49] (Some ([97; 108], [112; 119])).
Proof. by split_and!. Qed.

Lemma demo_resolver_ok : resolver_ok (e_pton4 demo_cenv) (e_pton6 demo_cenv) (e_gai demo_cenv).
Proof. split_and!; [by intros n b [= <-]|done..]. Qed.

Lemma demo_fresh res : tcp_fresh (demo_on (Pcb res [] 0 0 false)) sample_dest (Pcb res [] 0 0 false).
Proof.
  constructor; [done..| | | | |done].
  - split; [done|]. split; [apply sample_dest_wf|done].
  - done.
  - split; [by left|done].
  - split; [by repeat first [apply Forall_nil_2 | apply Forall_cons_2]|done].
Qed.

Lemma demo_rx_ok : rx_ok (sk_rx (cl_sock (tn_client demo_session))).
Proof. repeat constructor; try done; by apply (bool_decide_unpack _). Qed.

Lemma demo_steady : steady (cl_sock (tn_client demo_session)).
Proof. split; by repeat first [apply Forall_nil_2 | apply Forall_cons_2]. Qed.

Lemma session_run_relays_witness :
  exists s', hev_socks5_session_run (tcp_iface (Z.to_nat 70000) 3 [0; 0; 0] tired_env) demo_srv 0 demo_cenv (demo_on busy_pcb) = Some (tt, s').
Proof.
  destruct (session_run_relays (Z.to_nat 70000) 3 [0; 0; 0] tired_env 9 demo_srv 0 demo_cenv (demo_on busy_pcb) sample_dest busy_pcb [49] (Some ([97; 108], [112; 119])))
    as (s' & E & _).
  - exact demo_srv_reads.
  - exact demo_resolver_ok.
  - exact (demo_fresh _).
  - exact demo_rx_ok.
  - simpl. lia.
  - split; [unfold TCP_WND; lia|reflexivity].
  - exact tired_env_ok.
  - intros k s Hk. unfold tired_env. by rewrite (proj2 (Nat.ltb_ge _ _)).
  - unfold TCP_WND, sock_left. simpl length. lia.
  - exists s'. exact E.
Defined.

Lemma session_run_delivers_all_witness :
  exists s' p' g, hev_socks5_session_run (tcp_iface (Z.to_nat 70000) 3 [0; 0; 0] sample_env) demo_srv 0 demo_cenv demo_session = Some (tt, s') /\
    sk_out (cl_sock (tn_client s')) = client_sent (login (Some ([97; 108], [112; 119])) (tn_client demo_session)) sample_dest ++ [1; 2; 3] ++ g /\
    ss_pcb (tn_tcp s') = Some p' /\ pb_sent p' = [72; 105].
Proof.
  destruct (session_run_delivers_all (Z.to_nat 70000) 3 [0; 0; 0] sample_env 2 demo_srv 0 demo_cenv demo_session sample_dest sample_pcb [49] (Some ([97; 108], [112; 119]))
    (SockAddr6 10 20480 (v4mapped_prefix ++ [10; 0; 0; 1])) [72; 105]) as (s' & p' & g & E & H1 & _ & _ & H2 & H3 & _).
  - exact demo_srv_reads.
  - exact demo_resolver_ok.
  - exact (demo_fresh _).
  - reflexivity.
  - constructor.
  - reflexivity.
  - exact demo_rx_ok.
  - exact demo_steady.
  - simpl. lia.
  - split; [reflexivity|done].
  - reflexivity.
  - simpl. lia.
  - split; [unfold TCP_WND; lia|reflexivity].
  - exact sample_env_ok.
  - exact sample_env_attentive.
  - unfold TCP_WND, sock_left. simpl length. lia.
  - exists s', p', g. split; [exact E|]. split; [exact H1|]. split; [exact H2|exact H3].
Defined.
