(* ===== verification/SessionLife.v ===== *)
(** * Birth and end of a TCP session (hev-socks5-session-tcp.c, hev-socks5-tunnel.c)

    A session object is made from the connection lwip has accepted: its destination is the
    local address of that connection, turned back into a name when the mapped DNS knows it.
    Its task runs it and then drops it, which aborts what is left of the connection, frees the queue and
    the address block, and closes the socket. *)

From S2P Require Import Prelude KeyedTree MappedDNS DnsTheorems Buffers SocksAddr AddrTheorems TaskSocket Socks5Client Handshake HandshakeSafe ClientSafe HandshakeTheorems Socks5Udp SpliceLoop Config SessionTcp SessionTcpInv SessionTcpLive SessionTcpTheorems SessionRun SessionRunTheorems.

(** ** Operations *)

(** [stack] is what the variable for the address holds at first, [m_addr] whether its copy can
    be allocated; the socket does not exist yet, [k] is what it will do.  [None] is a
    construction that failed.  Which callbacks lwip has from now on is what [SessionTcp.run_event] says. *)
Definition hev_socks5_session_tcp_construct (m_addr dns : bool) (stack : list Z) (k : sock) (p : pcb) (local_ip : ip_addr) (local_port : Z) : MD (option tsession) :=
  let* (addr, res) := hev_socks5_addr_from_lwip dns stack local_ip local_port in
  if res <? 0 then ret None else
  let* c := lift_opt (hev_socks5_client_tcp_construct m_addr k addr) in
  match c with
  | None => ret None
  | Some c => ret (Some (TSession c (Session (cl_base c) (Some p) [] false None [] [] [] false [])))
  end.

(** [m_obj]: whether the object can be allocated. *)
Definition hev_socks5_session_tcp_new (m_obj m_addr dns : bool) (stack : list Z) (k : sock) (p : pcb) (local_ip : ip_addr) (local_port : Z) : MD (option tsession) :=
  if negb m_obj then ret None else
  hev_socks5_session_tcp_construct m_addr dns stack k p local_ip local_port.

(** The destructor, down the classes. *)
Definition tsession_destruct : M tsession unit :=
  zoom tcp_view set_tcp_view hev_socks5_session_tcp_destruct;;
  zoom tn_client (fun c s => TSession c (tn_tcp s)) hev_socks5_client_tcp_destruct.

(** The entry of the task of a session, without its place in the set of sessions; the
    reference it drops is the last one. *)
Definition session_task_entry (fuel : nat) (size : Z) (mem : list Z) (env : environment) (srv : server_conf) (mark_res : Z) (e : cenv) : M tsession unit :=
  hev_socks5_session_run (tcp_iface fuel size mem env) srv mark_res e;;
  tsession_destruct.

(** ** Construction *)

(** The cache of the mapped DNS holds names that fit an address. *)
Definition names_fit (es : entries) : Prop := Forall (fun e => cstr e.1 /\ (length e.1 <= 255)%nat) es.

Record dns_ready (d : mdns) (lru : list Z) : Prop := {
  dr_inv : md_inv d lru;
  dr_mask : md_max d <= Z.lnot (md_mask d);
  dr_names : names_fit (abs d lru)
}.

Definition ip_ok (ip : ip_addr) : Prop := bytes_ok (ip_bytes ip) /\ (16 <= length (ip_bytes ip))%nat.

(** The name behind a mapped address. *)
Definition mapped_name (dns : bool) (ip : ip_addr) (d : mdns) (lru : list Z) : option (list Z) :=
  if dns && (ip_type ip =? IPADDR_TYPE_V4) then a ← ntohl_bytes (ip_bytes ip); (spec_lookup (Z.land a (Z.lnot (md_mask d))) (abs d lru)).1 else None.

(** The destination of a session: the name behind a mapped address, or the address. *)
Definition destination (name : option (list Z)) (ip : ip_addr) (port : Z) : list Z :=
  match name with
  | Some name => enc_name name (htons port)
  | None => if ip_type ip =? IPADDR_TYPE_V4 then enc_ipv4 (take 4 (ip_bytes ip)) (htons port) else enc_ipv6 (take 16 (ip_bytes ip)) (htons port)
  end.

Definition ip_known (ip : ip_addr) : bool := (ip_type ip =? IPADDR_TYPE_V4) || (ip_type ip =? IPADDR_TYPE_V6).

Lemma entry_name_fit i es name : entry_name i es = Some name -> names_fit es -> cstr name /\ (length name <= 255)%nat.
Proof.
  induction es as [|[n j] es IH]; [done|]. simpl. intros E [H Hs]%Forall_cons. destruct (decide (j = i)); [by injection E as <-|by apply IH].
Qed.

Lemma names_fit_lookup i es : names_fit es -> names_fit (spec_lookup i es).2.
Proof.
  intros H. unfold spec_lookup. destruct (entry_name i es) as [n|] eqn:E; [|done]. simpl. apply Forall_app. split.
  - apply list.Forall_forall. intros e [_ He]%list_elem_of_filter. revert e He. by apply list.Forall_forall.
  - constructor; [|constructor]. by eapply entry_name_fit.
Qed.

Lemma st16_bytes_ok v : 0 <= v < 65536 -> bytes_ok (st16 v).
Proof.
  intros Hv. destruct (st16_bytes v Hv) as (_ & _ & E1 & E2). unfold st16. rewrite E1, E2. repeat constructor; try apply Z.mod_pos_bound; try lia.
  - apply Z.div_pos; lia.
  - apply Z.div_lt_upper_bound; lia.
Qed.

Lemma name_wf n port : cstr n -> (length n <= 255)%nat -> addr_wf (enc_name n (htons port)).
Proof.
  intros Hc Hle. split; [|split; [|done]].
  - constructor; [done|]. constructor; [unfold byte_ok; lia|]. apply Forall_app. split; [|apply st16_bytes_ok, htons_bound]. eapply Forall_impl; [exact Hc|]. unfold byte_ok. lia.
  - rewrite <-(app_nil_r (enc_name n (htons port))) at 1. rewrite addr_len_name. f_equal. unfold enc_name. rewrite !length_app, st16_length. simpl. lia.
Qed.

Lemma destination_wf name ip port :
  ip_ok ip -> (forall n, name = Some n -> cstr n /\ (length n <= 255)%nat) -> addr_wf (destination name ip port).
Proof.
  intros [Hb Hl] Hn. unfold destination, addr_wf. destruct name as [n|].
  - destruct (Hn n eq_refl). by apply name_wf.
  - assert (forall m, bytes_ok (take m (ip_bytes ip))) as Ht by (intros m; by apply Forall_take).
    destruct (ip_type ip =? IPADDR_TYPE_V4); (split; [|split; [|done]]).
    1,3: constructor; [done|]; apply Forall_app; split; [apply Ht|apply st16_bytes_ok, htons_bound].
    + unfold enc_ipv4. cbn [app]. unfold hev_socks5_addr_len. rewrite (peek1_at _ 0 HEV_SOCKS5_ADDR_TYPE_IPV4 [] _) by done. cbn [mbind option_bind].
      rewrite Z.eqb_refl. f_equal. simpl length. rewrite length_app, st16_length, length_take. lia.
    + unfold enc_ipv6. cbn [app]. unfold hev_socks5_addr_len. rewrite (peek1_at _ 0 HEV_SOCKS5_ADDR_TYPE_IPV6 [] _) by done. cbn [mbind option_bind].
      change (HEV_SOCKS5_ADDR_TYPE_IPV6 =? HEV_SOCKS5_ADDR_TYPE_IPV4) with false. rewrite Z.eqb_refl. f_equal. simpl length. rewrite length_app, st16_length, length_take. lia.
Qed.

Lemma ntohl_some l : (16 <= length l)%nat -> exists a, ntohl_bytes l = Some a.
Proof.
  intros H. destruct l as [|b0 [|b1 [|b2 [|b3 l]]]]; try (simpl in H; lia). unfold ntohl_bytes.
  rewrite (peek_at _ 0 4 [] [b0; b1; b2; b3] l) by done. by eexists.
Qed.

Lemma destination_lwip dns stack ip port d lru :
  length stack = sizeof_addr -> ip_ok ip -> (dns = true -> dns_ready d lru) ->
  exists addr res d' lru', hev_socks5_addr_from_lwip dns stack ip port d = Some ((addr, res), d') /\ (dns = true -> dns_ready d' lru') /\
    if ip_known ip then res = 0 /\ addr_wf (destination (mapped_name dns ip d lru) ip port) /\ exists rest, addr = destination (mapped_name dns ip d lru) ip port ++ rest
    else res = -1.
Proof.
  intros Hs Hip Hd. pose proof (htons_bound port) as Hh. destruct Hip as [Hb Hl]. unfold hev_socks5_addr_from_lwip, ip_known, mapped_name.
  destruct (Z.eqb_spec (ip_type ip) IPADDR_TYPE_V4) as [Ht|Ht]; cbn [orb].
  - destruct (ntohl_some _ Hl) as [a Ea]. rewrite Ea. cbn [mbind option_bind].
    destruct dns; cbn [andb].
    + destruct (Hd eq_refl) as [Hi Hm Hn]. destruct (lookup_ok d lru a Hi Hm) as (r & d' & lru' & E & Hi' & Hsp & Hsame).
      erewrite bind_Some by (erewrite bind_Some by reflexivity; exact E).
      rewrite Hsp. cbn [fst]. assert (dns_ready d' lru') as Hd'.
      { split; [done| |]. { by destruct Hsame as (_ & -> & _ & -> & _). }
        pose proof (names_fit_lookup (Z.land a (Z.lnot (md_mask d))) _ Hn) as Hn'. by rewrite Hsp in Hn'. }
      assert (forall n, r = Some n -> cstr n /\ (length n <= 255)%nat) as Hr.
      { intros n ->. unfold spec_lookup in Hsp. destruct (entry_name _ _) as [n'|] eqn:En; [|done]. injection Hsp as <- _. by eapply entry_name_fit. }
      pose proof (destination_wf r ip port (conj Hb Hl) Hr) as Hwf. destruct r as [n|].
      * destruct (Hr n eq_refl) as [Hc Hle]. destruct (from_name_ok stack n (htons port)) as (rest & -> & _); [done..|].
        eexists _, 0, d', lru'. split; [reflexivity|]. split; [done|]. split_and!; [done..|by exists rest].
      * rewrite from_ipv4_ok; [|unfold sizeof_addr in *; lia|lia|done]. eexists _, 0, d', lru'. split; [reflexivity|]. split; [done|]. split_and!; [done..|].
        exists (drop 7 stack). unfold destination. by rewrite Ht.
    + erewrite bind_Some by done. rewrite from_ipv4_ok; [|unfold sizeof_addr in *; lia|lia|done]. eexists _, 0, d, lru. split; [reflexivity|]. split; [done|].
      split_and!; [done|by apply destination_wf|]. exists (drop 7 stack). unfold destination. by rewrite Ht.
  - rewrite andb_false_r. destruct (Z.eqb_spec (ip_type ip) IPADDR_TYPE_V6) as [H6|H6].
    + rewrite from_ipv6_ok; [|unfold sizeof_addr in *; lia|lia|done]. eexists _, 0, d, lru. split; [reflexivity|]. split; [done|].
      split_and!; [done|by apply destination_wf|]. exists (drop 19 stack). unfold destination. by rewrite (proj2 (Z.eqb_neq _ _) Ht).
    + eexists _, (-1), d, lru. by split.
Qed.

Lemma addr_wf_app a rest : addr_wf a -> hev_socks5_addr_len (a ++ rest) = Some (Z.of_nat (length a)).
Proof.
  intros (_ & H & Hne). destruct a as [|x [|y a]]; [done| |].
  - unfold hev_socks5_addr_len in H. rewrite (peek1_at _ 0 x [] []) in H by done. cbn [mbind option_bind] in H. simpl in H.
    repeat case_match; simplify_eq.
  - unfold hev_socks5_addr_len in *. cbn [app]. rewrite !(peek1_at _ 0 x [] _) in * by done. cbn [mbind option_bind] in *.
    by rewrite !(peek1_at _ 1 y [x] _) in * by done.
Qed.

Lemma client_for m k a rest : addr_wf a ->
  hev_socks5_client_tcp_construct m k (a ++ rest) = Some (if m then Some (Client (hev_socks5_construct TYPE_TCP) ClientTCP None None (Some a) (-1) k 1 []) else None).
Proof.
  intros Ha. unfold hev_socks5_client_tcp_construct. rewrite addr_wf_app by done. cbn [mbind option_bind].
  rewrite (proj2 (Z.ltb_ge _ _)) by lia. destruct m; [|done]. cbn [negb orb]. by rewrite (peek_at _ 0 _ [] a rest).
Qed.

Definition new_session (k : sock) (p : pcb) (a : list Z) : tsession :=
  TSession (Client (hev_socks5_construct TYPE_TCP) ClientTCP None None (Some a) (-1) k 1 [])
    (Session (hev_socks5_construct TYPE_TCP) (Some p) [] false None [] [] [] false []).

Lemma session_new_ok m_obj m_addr dns stack k p ip port d lru :
  length stack = sizeof_addr -> ip_ok ip -> (dns = true -> dns_ready d lru) ->
  exists d' lru', hev_socks5_session_tcp_new m_obj m_addr dns stack k p ip port d =
    Some (if m_obj && m_addr && ip_known ip then Some (new_session k p (destination (mapped_name dns ip d lru) ip port)) else None, d') /\
    (dns = true -> dns_ready d' lru') /\ (ip_known ip = true -> addr_wf (destination (mapped_name dns ip d lru) ip port)).
Proof.
  intros Hs Hip Hd. destruct (destination_lwip dns stack ip port d lru Hs Hip Hd) as (addr & res & d' & lru' & E & Hd' & Hk).
  assert (ip_known ip = true -> addr_wf (destination (mapped_name dns ip d lru) ip port)) as Hwf by (intros Hkn; rewrite Hkn in Hk; apply Hk).
  unfold hev_socks5_session_tcp_new. destruct m_obj; [|by exists d, lru]. cbn [negb andb]. exists d', lru'. split; [|done].
  unfold hev_socks5_session_tcp_construct. rewrite (bind_Some _ _ _ _ _ E). destruct (ip_known ip); [|rewrite Hk, andb_false_r; done].
  destruct Hk as (-> & Ha & rest & ->). change (0 <? 0) with false. cbv iota. rewrite andb_true_r.
  rewrite client_for by done. by destruct m_addr.
Qed.

Definition pcb_fresh (p : pcb) : Prop := pb_sent p = [] /\ pb_acked p = 0%nat /\ pb_shut p = false.

Lemma new_fresh k p a : pcb_fresh p -> addr_wf a -> tcp_fresh (new_session k p a) a p.
Proof.
  intros Hp Ha. constructor; try done. split; [by left|done].
Qed.

(** ** What the run leaves alone *)

Definition fds_of (c : client) : client_class * Z * list Z := (cl_class c, s5_fd (cl_base c), cl_closed c).

Lemma timeout_fd t b : s5_fd (hev_socks5_set_timeout t b) = s5_fd b.
Proof. unfold hev_socks5_set_timeout. by destruct (negb _). Qed.

Lemma handshake_fds fd cs e pipeline : leaves fds_of (ClientTCP, fd, cs) (hev_socks5_client_handshake e pipeline).
Proof.
  assert (forall A (m : SK A), leaves fds_of (ClientTCP, fd, cs) (on_sock m)) as Hs by (intros A m; by apply leaves_zoom).
  assert (forall t, leaves fds_of (ClientTCP, fd, cs) (modify (with_base (hev_socks5_set_timeout t)))) as Ht.
  { intros t. apply leaves_modify. intros c. unfold fds_of. simpl. by rewrite timeout_fd. }
  assert (leaves fds_of (ClientTCP, fd, cs) (get_upstream_addr e)) as Hg.
  { apply leaves_bind_gets. intros c Hc. injection Hc as -> _ _. unfold hev_socks5_client_tcp_get_upstream_addr. leaves_auto. }
  assert (forall a, leaves fds_of (ClientTCP, fd, cs) (set_upstream_addr e a)) as Hu.
  { intros a. apply leaves_bind_gets. intros c Hc. injection Hc as -> _ _. unfold hev_socks5_client_tcp_set_upstream_addr. leaves_auto. }
  assert (leaves fds_of (ClientTCP, fd, cs) (hev_socks5_client_write_request e)) as Hw by (unfold hev_socks5_client_write_request, free_addr; leaves_auto).
  assert (leaves fds_of (ClientTCP, fd, cs) (hev_socks5_client_read_response e)) as Hr by (unfold hev_socks5_client_read_response; leaves_auto).
  unfold hev_socks5_client_handshake, hev_socks5_client_handshake_standard, hev_socks5_client_handshake_pipeline, hev_socks5_client_write_auth_methods,
    hev_socks5_client_write_auth_creds, hev_socks5_client_read_auth_method, hev_socks5_client_read_auth_creds. leaves_auto.
Qed.

Abbreviation sess_fd := (fun s => s5_fd (ss_base s)).

Lemma run_events_fd es fd : leaves sess_fd fd (run_events es).
Proof.
  induction es as [|e es IH]; simpl; [leaves_auto|]. apply leaves_bind; [|done].
  destruct e; unfold run_event, tcp_recv_handler, tcp_sent_handler, tcp_err_handler, hev_socks5_session_terminate, deref_ring, pcb_acked; leaves_auto.
  - apply leaves_modify. intros s. by destruct (ss_pcb s).
  - apply leaves_modify. intros s. simpl. by rewrite timeout_fd.
Qed.

Lemma session_fd fuel size mem env fd : leaves sess_fd fd (hev_socks5_session_tcp_splice fuel size mem env).
Proof.
  assert (forall type n, leaves sess_fd fd (session_yielder type n)) as Hy.
  { intros type n. unfold session_yielder. pose proof run_events_fd. leaves_auto. }
  assert (leaves sess_fd fd tcp_splice_f) as Hf by (unfold tcp_splice_f; leaves_auto).
  assert (leaves sess_fd fd tcp_splice_b) as Hb by (unfold tcp_splice_b, tcp_read, tcp_handover, deref_ring; leaves_auto).
  assert (forall k f b, leaves sess_fd fd (tcp_splice_loop fuel env k f b)) as Hl.
  { induction fuel as [|n IH]; intros k f b; simpl; leaves_auto. }
  assert (forall k, leaves sess_fd fd (tcp_drain_loop fuel env k)) as Hd.
  { clear Hl. induction fuel as [|n IH]; intros k; simpl; unfold deref_ring; leaves_auto. }
  unfold hev_socks5_session_tcp_splice. leaves_auto.
Qed.

Lemma destruct_run s : exists s', tsession_destruct s = Some (tt, s') /\ ss_pcb (tn_tcp s') = None /\ ss_queue (tn_tcp s') = [] /\
  cl_live (tn_client s') = balance (tn_client s) /\
  cl_closed (tn_client s') = cl_closed (tn_client s) ++ (if 0 <=? s5_fd (cl_base (tn_client s)) then [s5_fd (cl_base (tn_client s))] else []).
Proof.
  destruct s as [[b cls u pw [a|] ufd k live cs] t]; (eexists; split; [reflexivity|]); unfold balance, owned; simpl; rewrite ?Z.sub_0_r; done.
Qed.

(** The run closes what it opened or leaves it to the client, and leaves no block behind
    unless the handshake has failed. *)
Lemma run_settles fuel size mem env N srv mr e addr auth s p a :
  srv_reads srv addr auth -> resolver_ok (e_pton4 e) (e_pton6 e) (e_gai e) -> 0 <= tcp_timeout (e_times e) ->
  ring_ok size mem -> lwip_ok env -> quiet_after N env -> rx_ok (sk_rx (cl_sock (tn_client s))) -> (1 + N + sock_left (cl_sock (tn_client s)) + Z.to_nat TCP_WND < fuel)%nat ->
  tcp_fresh s a p -> s5_fd (cl_base (tn_client s)) = -1 -> cl_closed (tn_client s) = [] ->
  exists s1, hev_socks5_session_run (tcp_iface fuel size mem env) srv mr e s = Some (tt, s1) /\
  cl_closed (tn_client s1) ++ (if 0 <=? s5_fd (cl_base (tn_client s1)) then [s5_fd (cl_base (tn_client s1))] else []) = opened (with_binder srv mr e) addr (tn_client s) /\
  (balance (tn_client s1) = 0 \/
   exists c0 c res, dialled (with_binder srv mr e) addr auth (tn_client s) c0 /\
     hev_socks5_client_handshake (with_binder srv mr e) (negb (sv_pipeline srv =? 0)) c0 = Some (res, c) /\ res < 0).
Proof.
  intros Hsrv Hres Ht Hring Hlwip Hquiet Hrx Hfuel Hf Hfd0 Hcl0. destruct (tf_addr _ _ _ Hf) as (Haddr & _ & Hlive).
  destruct (run_cases fuel size mem env srv mr e s addr auth Hsrv Hres) as (b & fds & Hcn & E). rewrite E. clear E.
  pose proof Hcn as [Hty _ Hfd Hcl Hop]. rewrite Hcl0 in Hcl. destruct (reachable _ addr _) eqn:Hr.
  2: { eexists. split; [reflexivity|]. simpl. rewrite Hfd, Hcl, Hfd0. simpl. rewrite app_nil_r. split; [done|left]. unfold balance, owned. simpl. by rewrite Haddr, Hlive. }
  cbn [negb]. destruct (Hop eq_refl) as [-> Hpos].
  destruct (handshake_run s a p (with_binder srv mr e) (negb (sv_pipeline srv =? 0)) auth fds b Hf Hres Hrx Ht) as (r & c2 & E & Hbal & Hready & _ & Hleft); [by rewrite Hty, (tf_type _ _ _ Hf)|].
  assert (fds_of c2 = (ClientTCP, e_socket e, [])) as Hfds.
  { eapply handshake_fds; [|exact E]. destruct auth as [[u pw]|]; unfold fds_of; simpl; by rewrite Hfd, Hcl, (tf_class _ _ _ Hf). }
  injection Hfds as _ Hfd2 Hcl2. rewrite E. destruct (Z.ltb_spec r 0).
  { eexists. split; [reflexivity|]. simpl. rewrite Hfd2, Hcl2, (proj2 (Z.leb_le 0 (e_socket e))) by done. split; [done|]. right.
    eexists _, c2, r. split; [split; [exact Hr|by exists b, fds]|]. split; [exact E|done]. }
  assert (exists t, hev_socks5_session_tcp_splice fuel size mem env (tcp_view (TSession c2 (tn_tcp s))) = Some (tt, t)) as [t Et].
  { destruct (tf_pcb _ _ _ Hf) as [[Hp|Hp] _]; [|eexists; by apply splice_gone].
    destruct (session_tcp_relays fuel size mem env N (tcp_view (TSession c2 (tn_tcp s))) p Hring (Hready Hp) Hlwip Hquiet) as (t & w & g & Et & _); [|by exists t].
    unfold sock_left in Hleft, Hfuel. simpl in *. lia. }
  pose proof (session_fd fuel size mem env (e_socket e) (tcp_view (TSession c2 (tn_tcp s))) _ _ Hfd2 Et) as Hfd3. simpl in Hfd3.
  rewrite Et. eexists. split; [reflexivity|]. simpl. rewrite Hfd3, Hcl2, (proj2 (Z.leb_le 0 (e_socket e))) by done. split; [done|]. left. by apply Hbal.
Qed.

(** C10: From birth to end.  A connection that lwip has accepted becomes a session exactly if both blocks can be allocated
    and its address is of a known family, and a construction that fails has only moved the looked-up name in
    the cache.  The session is for the name that the mapped DNS has given this address to, or else for the
    address itself, as a complete address of the protocol.  Whatever then happens to the connection before its task
    gets to it, and whatever the server, the sockets and lwip do and refuse afterwards (after [N] sleeps nothing happens any more), the task ends without a fault; the descriptor it opened, if any, has been closed, once, and no other; the connection is let go of
    and nothing stays queued; and the address block is freed, unless the handshake of the connected client has failed. *)
Theorem session_tcp_life fuel size mem env N srv mr e addr auth m_obj m_addr dns d lru stack k p ip port :
  srv_reads srv addr auth -> resolver_ok (e_pton4 e) (e_pton6 e) (e_gai e) -> 0 <= tcp_timeout (e_times e) ->
  ring_ok size mem -> lwip_ok env -> quiet_after N env -> rx_ok (sk_rx k) -> (1 + N + sock_left k + Z.to_nat TCP_WND < fuel)%nat ->
  pcb_fresh p -> length stack = sizeof_addr -> ip_ok ip -> (dns = true -> dns_ready d lru) ->
  exists r d' lru', hev_socks5_session_tcp_new m_obj m_addr dns stack k p ip port d = Some (r, d') /\ (dns = true -> dns_ready d' lru') /\
    (is_Some r <-> m_obj = true /\ m_addr = true /\ ip_known ip = true) /\
    forall s, r = Some s ->
      cl_addr (tn_client s) = Some (destination (mapped_name dns ip d lru) ip port) /\ addr_wf (destination (mapped_name dns ip d lru) ip port) /\
      forall pre, pre_ok s pre -> exists s1 s', lwip_meanwhile pre s = Some (tt, s1) /\ session_task_entry fuel size mem env srv mr e s1 = Some (tt, s') /\
        cl_closed (tn_client s') = opened (with_binder srv mr e) addr (tn_client s1) /\
        ss_pcb (tn_tcp s') = None /\ ss_queue (tn_tcp s') = [] /\
        (cl_live (tn_client s') = 0 \/
         exists c0 c res, dialled (with_binder srv mr e) addr auth (tn_client s1) c0 /\
           hev_socks5_client_handshake (with_binder srv mr e) (negb (sv_pipeline srv =? 0)) c0 = Some (res, c) /\ res < 0).
Proof.
  intros Hsrv Hres Ht Hring Hlwip Hquiet Hrx Hfuel Hp Hst Hip Hd.
  destruct (session_new_ok m_obj m_addr dns stack k p ip port d lru Hst Hip Hd) as (d' & lru' & E & Hd' & Hwf).
  eexists _, d', lru'. split; [exact E|]. split; [done|]. split.
  { destruct m_obj, m_addr, (ip_known ip); simpl; split; try (by intros [? ?]); try (by intros (? & ? & ?)); done. }
  intros s Es. set (a := destination (mapped_name dns ip d lru) ip port) in *.
  assert (ip_known ip = true /\ s = new_session k p a) as [Hkn ->] by (destruct m_obj, m_addr, (ip_known ip); simpl in Es; by simplify_eq).
  split; [done|]. split; [by apply Hwf|]. intros pre Hpre. clear E Es.
  destruct (meanwhile_fresh (new_session k p a) a p pre (new_fresh k p a Hp (Hwf Hkn)) Hpre) as (s0 & E0 & Hf & Hk & Hcl & Hfd & _). simpl in Hk, Hcl, Hfd.
  destruct (run_settles fuel size mem env N srv mr e addr auth s0 p a) as (s1 & E1 & H1 & H2); try done; [by rewrite Hk..|].
  destruct (destruct_run s1) as (s' & E2 & H3 & H4 & H5 & H6). exists s0, s'. split; [exact E0|]. unfold session_task_entry. rewrite (bind_Some _ _ _ _ _ E1).
  split; [exact E2|]. rewrite H6, H5. done.
Qed.

(** *** Example *)

Definition demo_ip : ip_addr := IpAddr ([10; 1; 2; 3] ++ replicate 16 0) IPADDR_TYPE_V4.

Lemma demo_dns_ready : dns_ready sample_dns [].
Proof. split; [apply sample_dns_inv|by vm_compute|constructor]. Qed.

Lemma demo_ip_ok : ip_ok demo_ip.
Proof. split; [by apply (bool_decide_unpack _)|simpl; lia]. Qed.

(** The application sends something while the session connects, and then the connection fails. *)
Definition demo_pre : list pcb_event := [EvData [[1; 2]; [3]]; EvErr].

Lemma demo_pre_ok k a : pre_ok (new_session k sample_pcb a) demo_pre.
Proof.
  split; [|by repeat first [apply Forall_nil_2 | apply Forall_cons_2]]. split; [|intros s' [= <-]; split; [exact I|by intros s' _]].
  simpl. split; [done|]. split; [by repeat first [apply Forall_nil_2 | apply Forall_cons_2]|by vm_compute].
Qed.

Lemma session_tcp_life_witness :
  exists d' s1 s', hev_socks5_session_tcp_new true true true (replicate 260 9) (cl_sock (tn_client demo_session)) sample_pcb demo_ip 443 sample_dns =
      Some (Some (new_session (cl_sock (tn_client demo_session)) sample_pcb (enc_ipv4 [10; 1; 2; 3] (htons 443))), d') /\
    lwip_meanwhile demo_pre (new_session (cl_sock (tn_client demo_session)) sample_pcb (enc_ipv4 [10; 1; 2; 3] (htons 443))) = Some (tt, s1) /\
    session_task_entry (Z.to_nat 70000) 3 [0; 0; 0] tired_env demo_srv 0 demo_cenv s1 = Some (tt, s') /\
    cl_closed (tn_client s') = opened (with_binder demo_srv 0 demo_cenv) [49] (tn_client s1) /\ ss_pcb (tn_tcp s') = None.
Proof.
  destruct (session_tcp_life (Z.to_nat 70000) 3 [0; 0; 0] tired_env 9 demo_srv 0 demo_cenv [49] (Some ([97; 108], [112; 119])) true true true sample_dns []
    (replicate 260 9) (cl_sock (tn_client demo_session)) sample_pcb demo_ip 443) as (r & d' & lru' & E & _ & _ & H).
  - exact demo_srv_reads.
  - exact demo_resolver_ok.
  - simpl. lia.
  - split; [unfold TCP_WND; lia|reflexivity].
  - exact tired_env_ok.
  - intros k s Hk. unfold tired_env. by rewrite (proj2 (Nat.ltb_ge _ _)).
  - exact demo_rx_ok.
  - unfold TCP_WND, sock_left. simpl length. lia.
  - by split_and!.
  - reflexivity.
  - exact demo_ip_ok.
  - intros _. exact demo_dns_ready.
  - assert (E' := E). vm_compute in E'. injection E' as <- _.
    destruct (H _ eq_refl) as (_ & _ & H'). destruct (H' demo_pre (demo_pre_ok _ _)) as (s1 & s' & E1 & E2 & H1 & H2 & _).
    exists d', s1, s'. split; [exact E|]. split; [exact E1|]. split; [exact E2|]. split; [exact H1|exact H2].
Defined.
