(* ===== verification/TunnelIO.v ===== *)
(** * Packets between the device and the TCP/IP stack (hev-tunnel.h, hev-socks5-tunnel.c)

    The task that reads packets from the device and hands them to lwip, the callback through which
    lwip sends packets, the counters of both, and the task of lwip's timers.  What the device,
    the allocator and lwip do is an oracle; while the task waits for the device others run, make
    lwip send, and may stop the tunnel. *)

From S2P Require Import Prelude RBTree.

(** ** State *)

Definition ERR_OK : Z := 0.
Definition ERR_WOULDBLOCK : Z := -7.
Definition ERR_IF : Z := -12.

(** A buffer of lwip in one piece: the memory it has, and the length that is in use. *)
Record pbuf := Pbuf { p_payload : list Z; p_len : Z; p_tot_len : Z }.

(** What the next call of [read] or [readv] finds: a packet (its rest is lost when there is no room),
    nothing yet, or a failure.  When there is nothing the task waits; meanwhile others make lwip send the
    chains [outs], and [run] is whether the tunnel still runs afterwards. *)
Inductive dev_event := DvPacket (bs : list Z) | DvAgain (run : bool) (outs : list (list (list Z))) | DvError.

(** What a write does: take everything, take [n] bytes, or fail.  After a write that takes something [errno] is what
    it was before; [stale] says whether that is EAGAIN. *)
Inductive dev_answer := DwAll | DwSome (n : Z) (stale : bool) | DwAgain | DwError.

(** The static variables that these routines use, the buffers that the task holds, the device
    (after the listed events the tunnel is stopped, after the listed answers it takes every packet), what was written to it, what
    was handed to lwip with lwip's answers, and for each wait whether the lock was held then. *)
Record io := Io {
  io_run : bool; io_locked : bool; io_pbufs : gmap Z pbuf;
  io_rx : list dev_event; io_tx : list dev_answer; io_written : list (list Z); io_input : list (list Z * Z); io_waits : list bool;
  stat_tx_packets : Z; stat_rx_packets : Z; stat_tx_bytes : Z; stat_rx_bytes : Z
}.

Abbreviation IO := (M io).

Definition up_run v s := Io v (io_locked s) (io_pbufs s) (io_rx s) (io_tx s) (io_written s) (io_input s) (io_waits s) (stat_tx_packets s) (stat_rx_packets s) (stat_tx_bytes s) (stat_rx_bytes s).
Definition up_lock v s := Io (io_run s) v (io_pbufs s) (io_rx s) (io_tx s) (io_written s) (io_input s) (io_waits s) (stat_tx_packets s) (stat_rx_packets s) (stat_tx_bytes s) (stat_rx_bytes s).
Definition up_pbufs v s := Io (io_run s) (io_locked s) v (io_rx s) (io_tx s) (io_written s) (io_input s) (io_waits s) (stat_tx_packets s) (stat_rx_packets s) (stat_tx_bytes s) (stat_rx_bytes s).
Definition up_rx v s := Io (io_run s) (io_locked s) (io_pbufs s) v (io_tx s) (io_written s) (io_input s) (io_waits s) (stat_tx_packets s) (stat_rx_packets s) (stat_tx_bytes s) (stat_rx_bytes s).
Definition up_tx v w s := Io (io_run s) (io_locked s) (io_pbufs s) (io_rx s) v (io_written s ++ w) (io_input s) (io_waits s) (stat_tx_packets s) (stat_rx_packets s) (stat_tx_bytes s) (stat_rx_bytes s).
Definition up_input v s := Io (io_run s) (io_locked s) (io_pbufs s) (io_rx s) (io_tx s) (io_written s) (io_input s ++ [v]) (io_waits s) (stat_tx_packets s) (stat_rx_packets s) (stat_tx_bytes s) (stat_rx_bytes s).
Definition up_wait s := Io (io_run s) (io_locked s) (io_pbufs s) (io_rx s) (io_tx s) (io_written s) (io_input s) (io_waits s ++ [io_locked s]) (stat_tx_packets s) (stat_rx_packets s) (stat_tx_bytes s) (stat_rx_bytes s).
Definition up_stat_tx n b s := Io (io_run s) (io_locked s) (io_pbufs s) (io_rx s) (io_tx s) (io_written s) (io_input s) (io_waits s) n (stat_rx_packets s) b (stat_rx_bytes s).
Definition up_stat_rx n b s := Io (io_run s) (io_locked s) (io_pbufs s) (io_rx s) (io_tx s) (io_written s) (io_input s) (io_waits s) (stat_tx_packets s) n (stat_tx_bytes s) b.

Definition load_pbuf (a : Z) : IO pbuf := let* b := gets (fun s => io_pbufs s !! a) in lift_opt b.
Definition pbuf_free (a : Z) : IO unit := let* _ := load_pbuf a in modify (fun s => up_pbufs (delete a (io_pbufs s)) s).

(** [hev_task_mutex_lock] in a task that may hold the lock itself. *)
Definition hev_task_mutex_lock : IO unit := let* l := gets io_locked in if l : bool then fail else modify (up_lock true).
Definition hev_task_mutex_unlock : IO unit := modify (up_lock false).

(** The build: whether the device puts a header of four bytes before a packet, the number it has for IPv6 there,
    and the width of a [size_t]. *)
Record build := Build { b_head : bool; b_inet6 : Z; b_size_bits : Z }.

Definition AF_INET : Z := 2.
Definition sizeof_type (bd : build) : Z := if b_head bd then 4 else 0.
Definition size_add (bd : build) (a b : Z) : Z := (a + b) mod 2 ^ b_size_bits bd.

(** ** To the device *)

(** [write] and [writev]: the result, and whether [errno] is EAGAIN. *)
Definition dev_write (bs : list Z) : IO (Z * bool) :=
  let* tx := gets io_tx in
  match tx with
  | [] => modify (up_tx [] [bs]);; ret (Z.of_nat (length bs), false)
  | DwAll :: tx => modify (up_tx tx [bs]);; ret (Z.of_nat (length bs), false)
  | DwSome n stale :: tx => modify (up_tx tx [take (Z.to_nat n) bs]);; ret (Z.max 0 (Z.min n (Z.of_nat (length bs))), stale)
  | DwAgain :: tx => modify (up_tx tx []);; ret (-1, true)
  | DwError :: tx => modify (up_tx tx []);; ret (-1, false)
  end.

(** The header: [htonl] of a family, from the first byte of the packet. *)
Fixpoint type_of (bd : build) (p : list (list Z)) : list Z :=
  match p with
  | [] => [0; 0; 0; 0]
  | [] :: p => type_of bd p
  | (b :: _) :: _ => [0; 0; 0; if Z.land (Z.shiftr b 4) 15 =? 4 then AF_INET else b_inet6 bd]
  end.

(** [p] are the payloads of a chain; only so many vectors fit the array. *)
Definition hev_tunnel_write (bd : build) (p : list (list Z)) : IO (Z * bool) :=
  match p with
  | [] => fail
  | b :: next =>
    if b_head bd then
      let* (res, again) := dev_write (type_of bd (take 511 p) ++ concat (take 511 p)) in
      ret (if res <=? 4 then -1 else res, again)
    else match next with
    | [] => dev_write b
    | _ => dev_write (concat (take 512 p))
    end
  end.

Definition netif_output_handler (bd : build) (p : list (list Z)) : IO Z :=
  let* (s, again) := hev_tunnel_write bd p in
  if s <=? 0 then ret (if again : bool then ERR_WOULDBLOCK else ERR_IF) else
  let* n := gets stat_rx_packets in
  let* b := gets stat_rx_bytes in
  modify (up_stat_rx (size_add bd n 1) (size_add bd b s));;
  ret ERR_OK.

(** lwip sends some chains. *)
Fixpoint outputs (bd : build) (ps : list (list (list Z))) : IO unit :=
  match ps with
  | [] => ret tt
  | p :: ps => let* _ := netif_output_handler bd p in outputs bd ps
  end.

(** ** From the device *)

Definition task_io_yielder (bd : build) (run : bool) (outs : list (list (list Z))) : IO Z :=
  modify up_wait;;
  outputs bd outs;;
  modify (fun s => up_run (io_run s && run) s);;
  let* r := gets io_run in
  ret (if r : bool then 0 else -1).

(** [hev_task_io_read] and [hev_task_io_readv] with room for [count] bytes, and the bytes stored. *)
Fixpoint task_io_read (bd : build) (count : Z) (rx : list dev_event) : IO (Z * list Z) :=
  match rx with
  | [] =>
    let* _ := task_io_yielder bd false [] in ret (-2, [])
  | DvPacket bs :: rx =>
    modify (up_rx rx);;
    ret (Z.min count (Z.of_nat (length bs)), take (Z.to_nat count) bs)
  | DvError :: rx => modify (up_rx rx);; ret (-1, [])
  | DvAgain run outs :: rx =>
    modify (up_rx rx);;
    let* y := task_io_yielder bd run outs in
    if negb (y =? 0) then ret (-2, []) else task_io_read bd count rx
  end.

Definition hev_task_io_read (bd : build) (count : Z) : IO (Z * list Z) :=
  let* rx := gets io_rx in task_io_read bd count rx.

(** [pbuf_alloc]: a new object with memory that holds anything, or nothing; the length is a 16-bit number. *)
Definition pbuf_alloc (alloc : option (Z * list Z)) (len : Z) : IO Z :=
  match alloc with
  | None => ret NULL
  | Some (a, mem) => modify (fun s => up_pbufs (<[a := Pbuf mem (u16 len) (u16 len)]> (io_pbufs s)) s);; ret a
  end.

Definition hev_tunnel_read (bd : build) (alloc : option (Z * list Z)) (mtu : Z) : IO Z :=
  let* buf := pbuf_alloc alloc mtu in
  if buf =? NULL then ret NULL else
  let* b := load_pbuf buf in
  let* (s, bs) := hev_task_io_read bd (sizeof_type bd + p_len b) in
  if s <=? sizeof_type bd then pbuf_free buf;; ret NULL else
  let data := drop (Z.to_nat (sizeof_type bd)) bs in
  modify (fun s' => up_pbufs (<[buf := Pbuf (data ++ drop (length data) (p_payload b)) (u16 (s - sizeof_type bd)) (u16 (s - sizeof_type bd))]> (io_pbufs s')) s');;
  ret buf.

(** ** The task *)

(** One turn: the allocation, lwip's answer to the packet, and what it sends while it handles it. *)
Record turn := Turn { t_alloc : option (Z * list Z); t_err : Z; t_outs : list (list (list Z)) }.

(** [netif->input]: lwip takes the packet over, or refuses it. *)
Definition netif_input (bd : build) (t : turn) (buf : Z) : IO Z :=
  let* b := load_pbuf buf in
  modify (up_input (take (Z.to_nat (p_len b)) (p_payload b), t_err t));;
  outputs bd (t_outs t);;
  (when (t_err t =? ERR_OK) do modify (fun s => up_pbufs (delete buf (io_pbufs s)) s));;
  ret (t_err t).

Definition lwip_io_turn (bd : build) (mtu : Z) (t : turn) : IO unit :=
  let* buf := hev_tunnel_read bd (t_alloc t) mtu in
  if buf =? NULL then ret tt else
  let* b := load_pbuf buf in
  let* n := gets stat_tx_packets in
  let* l := gets stat_tx_bytes in
  modify (up_stat_tx (size_add bd n 1) (size_add bd l (p_tot_len b)));;
  hev_task_mutex_lock;;
  let* err := netif_input bd t buf in
  (when (negb (err =? ERR_OK)) do pbuf_free buf);;
  hev_task_mutex_unlock.

(** [turns]: what each turn meets may depend on all that happened. *)
Fixpoint lwip_io_loop (fuel : nat) (bd : build) (mtu : Z) (turns : nat -> io -> turn) (k : nat) : IO unit :=
  match fuel with
  | O => fail
  | S fuel =>
    let* run := gets io_run in
    if negb run then ret tt else
    let* t := gets (turns k) in
    lwip_io_turn bd mtu t;;
    lwip_io_loop fuel bd mtu turns (S k)
  end.

Definition lwip_io_task_entry (fuel : nat) (bd : build) (mtu : Z) (turns : nat -> io -> turn) : IO unit :=
  lwip_io_loop fuel bd mtu turns 0.

(** [hev_socks5_tunnel_stats]; a NULL pointer is [false]. *)
Definition hev_socks5_tunnel_stats (ptrs : bool * bool * bool * bool) (s : io) : option Z * option Z * option Z * option Z :=
  let '(tp, tb, rp, rb) := ptrs in
  ((if tp then Some (stat_tx_packets s) else None), (if tb then Some (stat_tx_bytes s) else None),
   (if rp then Some (stat_rx_packets s) else None), (if rb then Some (stat_rx_bytes s) else None)).

(** ** The timers *)

Inductive lwip_timer := TcpTmr | IpReassTmr | Nd6Tmr | Ip6ReassTmr.
Inductive timer_nap := NapSleep | NapWait.

(** The calls so far, how each turn slept, and whether the lock was held then. *)
Record timers := Timers { tm_run : bool; tm_locked : bool; tm_calls : list (list lwip_timer); tm_naps : list (timer_nap * bool) }.

Definition tm_lock : M timers unit :=
  let* l := gets tm_locked in if l : bool then fail else modify (fun s => Timers (tm_run s) true (tm_calls s) (tm_naps s)).
Definition tm_unlock : M timers unit := modify (fun s => Timers (tm_run s) false (tm_calls s) (tm_naps s)).

(** One turn per nap; for each whether there are sessions before it, and whether the tunnel runs after it.  [i] is an [unsigned int]. *)
Fixpoint lwip_timer_loop (naps : list (bool * bool)) (i : Z) : M timers unit :=
  let* run := gets tm_run in
  if negb run then ret tt else
  match naps with
  | [] => fail
  | (sessions, run') :: naps =>
    tm_lock;;
    modify (fun s => Timers (tm_run s) (tm_locked s)
      (tm_calls s ++ [TcpTmr :: if Z.land i 3 =? 0 then [IpReassTmr; Nd6Tmr; Ip6ReassTmr] else []]) (tm_naps s));;
    tm_unlock;;
    modify (fun s => Timers (tm_run s && run') (tm_locked s) (tm_calls s) (tm_naps s ++ [(if sessions : bool then NapSleep else NapWait, tm_locked s)]));;
    lwip_timer_loop naps (u32 (i + 1))
  end.

Definition lwip_timer_task_entry (naps : list (bool * bool)) : M timers unit := lwip_timer_loop naps 1.
