(* ===== verification/TunnelIOTheorems.v ===== *)
(** * Theorems on the packets between device and stack (hev-tunnel.h, hev-socks5-tunnel.c)

    Every packet the device gives before the stop reaches lwip once, in order and cut to the MTU, no
    buffer is lost, and the lock is never held across a wait; what lwip sends is written in one
    piece; and two ways in which the task never waits. *)

From S2P Require Import Prelude RBTree TunnelIO.

(** ** What lwip sends *)

(** The variables of the task, which sending leaves alone. *)
Definition task_part (s : io) := (io_run s, io_locked s, io_pbufs s, io_rx s, io_input s, io_waits s, stat_tx_packets s, stat_tx_bytes s).

Lemma dev_write_ok bs s : exists r again s', dev_write bs s = Some ((r, again), s') /\ task_part s' = task_part s /\
  (stat_rx_packets s', stat_rx_bytes s') = (stat_rx_packets s, stat_rx_bytes s).
Proof. unfold dev_write, bind, gets. destruct (io_tx s) as [|[] tx]; by eexists _, _, _. Qed.

Lemma output_ok bd p s : p <> [] -> exists err s', netif_output_handler bd p s = Some (err, s') /\ task_part s' = task_part s.
Proof.
  intros Hp. unfold netif_output_handler.
  assert (exists r again s', hev_tunnel_write bd p s = Some ((r, again), s') /\ task_part s' = task_part s) as (r & again & s' & E & Ht).
  { destruct p as [|b next]; [done|]. unfold hev_tunnel_write. destruct (b_head bd).
    - destruct (dev_write_ok (type_of bd (take 511 (b :: next)) ++ concat (take 511 (b :: next))) s) as (r & again & s' & E & Ht & _).
      erewrite bind_Some by exact E. by eexists _, _, _.
    - destruct next; [destruct (dev_write_ok b s) as (r & again & s' & E & Ht & _)|
        destruct (dev_write_ok (concat (take 512 (b :: l :: next))) s) as (r & again & s' & E & Ht & _)]; by eexists _, _, _. }
  rewrite (bind_Some _ _ _ _ _ E). destruct (r <=? 0); [by eexists _, _|]. by eexists _, _.
Qed.

Lemma outputs_ok bd ps s : Forall (.≠ []) ps -> exists s', outputs bd ps s = Some (tt, s') /\ task_part s' = task_part s.
Proof.
  intros H. revert s. induction H as [|p ps Hp H IH]; intros s; [by exists s|]. simpl.
  destruct (output_ok bd p s Hp) as (err & s1 & E & Ht). rewrite (bind_Some _ _ _ _ _ E).
  destruct (IH s1) as (s2 & E2 & Ht2). exists s2. by rewrite E2, Ht2.
Qed.

(** ** What the device gives *)

(** The packets up to the stop. *)
Fixpoint packets (rx : list dev_event) : list (list Z) :=
  match rx with
  | [] => []
  | DvPacket bs :: rx => bs :: packets rx
  | DvError :: rx | DvAgain true _ :: rx => packets rx
  | DvAgain false _ :: _ => []
  end.

(** What lwip gets of a packet: without the header, cut to the MTU, and nothing if that is empty. *)
Definition passed (bd : build) (mtu : Z) (bs : list Z) : option (list Z) :=
  match take (Z.to_nat (u16 mtu)) (drop (Z.to_nat (sizeof_type bd)) bs) with [] => None | d => Some d end.

Definition event_ok (e : dev_event) : Prop := match e with DvAgain _ outs => Forall (.≠ []) outs | _ => True end.

(** What the read leaves alone, apart from [run], the device and the waits. *)
Definition read_part (s : io) := (io_locked s, io_pbufs s, io_input s, stat_tx_packets s, stat_tx_bytes s).

Definition unlocked_waits (s s' : io) : Prop := io_locked s = false -> Forall (.= false) (io_waits s) -> Forall (.= false) (io_waits s').

Lemma unlocked_same s s' : io_waits s' = io_waits s -> unlocked_waits s s'.
Proof. unfold unlocked_waits. by intros ->. Qed.

Lemma yielder_ok bd run outs s : Forall (.≠ []) outs -> io_run s = true ->
  exists s', task_io_yielder bd run outs s = Some (if run then 0 else -1, s') /\ io_run s' = run /\ io_rx s' = io_rx s /\ read_part s' = read_part s /\ unlocked_waits s s'.
Proof.
  intros Ho Hr. unfold task_io_yielder. erewrite bind_Some by reflexivity.
  destruct (outputs_ok bd outs (up_wait s) Ho) as (s1 & E & Ht). rewrite (bind_Some _ _ _ _ _ E). injection Ht as E1 E2 E3 E4 E5 E6 E7 E8. simpl in *.
  unfold bind, modify, gets, ret. simpl. rewrite E1, Hr. eexists. split; [reflexivity|]. unfold read_part, unlocked_waits. simpl. split_and!; [done|done|by rewrite E2, E3, E5, E7, E8|].
  intros Hl Hw. rewrite E6. apply Forall_app. split; [done|]. by constructor.
Qed.

Lemma dev_read_ok bd count s : io_run s = true -> Forall event_ok (io_rx s) ->
  exists r bs s', hev_task_io_read bd count s = Some ((r, bs), s') /\ read_part s' = read_part s /\ unlocked_waits s s' /\ Forall event_ok (io_rx s') /\
    ((exists pk, r = Z.min count (Z.of_nat (length pk)) /\ bs = take (Z.to_nat count) pk /\ io_run s' = true /\
        (length (io_rx s') < length (io_rx s))%nat /\ packets (io_rx s) = pk :: packets (io_rx s')) \/
     (r = -1 /\ io_run s' = true /\ (length (io_rx s') < length (io_rx s))%nat /\ packets (io_rx s) = packets (io_rx s')) \/
     (r = -2 /\ io_run s' = false /\ packets (io_rx s) = [])).
Proof.
  unfold hev_task_io_read. intros Hr Hev. erewrite bind_Some by reflexivity. remember (io_rx s) as rx eqn:Erx. revert s Hr Erx.
  induction Hev as [|e rx He Hev IH]; intros s Hr Erx; simpl.
  - destruct (yielder_ok bd false [] s) as (s1 & E & H1 & H2 & H3 & H4); [done..|]. rewrite (bind_Some _ _ _ _ _ E).
    eexists _, _, s1. split; [reflexivity|]. rewrite H2, <-Erx. split_and!; try done. by right; right.
  - destruct e as [bs|run outs|].
    + eexists _, _, _. split; [reflexivity|]. split; [done|]. split; [by apply unlocked_same|]. split; [done|]. left. exists bs. split_and!; try done. simpl. lia.
    + erewrite bind_Some by reflexivity. destruct (yielder_ok bd run outs (TunnelIO.up_rx rx s)) as (s1 & E & H1 & H2 & H3 & H4); [done..|].
      rewrite (bind_Some _ _ _ _ _ E). destruct run; simpl.
      * destruct (IH s1 H1) as (r & bs & s2 & E2 & H5 & H6 & H7 & H8); [by rewrite H2|]. exists r, bs, s2. split; [done|]. split; [by rewrite H5, H3|].
        split; [|split; [done|]]. { intros Hl Hw. apply H6; [|by apply H4]. injection H3 as -> _. done. }
        destruct H8 as [(pk & ? & ? & ? & ? & ?)|[(? & ? & ? & ?)|(? & ? & ?)]]; [left; exists pk|right; left|by right; right]; split_and!; try done; lia.
      * eexists _, _, s1. split; [reflexivity|]. rewrite H2. split_and!; try done. by right; right.
    + eexists _, _, _. split; [reflexivity|]. split; [done|]. split; [by apply unlocked_same|]. split; [done|]. right. left. split_and!; try done. simpl. lia.
Qed.

(** ** One turn *)

(** The counters after some packets. *)
Definition counted (bd : build) (st : Z * Z) (ds : list (list Z)) : Z * Z :=
  foldl (fun st d => (size_add bd st.1 1, size_add bd st.2 (Z.of_nat (length d)))) st ds.

Lemma counted_app bd st ds es : counted bd st (ds ++ es) = counted bd (counted bd st ds) es.
Proof. apply foldl_app. Qed.

Lemma counted_total bd n b ds : 0 < b_size_bits bd -> 0 <= n < 2 ^ b_size_bits bd -> 0 <= b < 2 ^ b_size_bits bd ->
  counted bd (n, b) ds = ((n + Z.of_nat (length ds)) mod 2 ^ b_size_bits bd, (b + Z.of_nat (length (concat ds))) mod 2 ^ b_size_bits bd).
Proof.
  intros Hw. set (m := 2 ^ b_size_bits bd). assert (0 < m) as Hm by (by apply Z.pow_pos_nonneg; lia).
  revert n b. induction ds as [|d ds IH]; intros n b Hn Hb; simpl; [by rewrite !Z.add_0_r, !Z.mod_small|].
  change (counted bd (size_add bd n 1, size_add bd b (Z.of_nat (length d))) ds = ((n + Z.of_nat (S (length ds))) mod m, (b + Z.of_nat (length (d ++ concat ds))) mod m)).
  rewrite IH by (by apply Z.mod_pos_bound). unfold size_add. fold m. rewrite !Zplus_mod_idemp_l, length_app. f_equal; f_equal; lia.
Qed.

(** What the allocator and lwip promise: a new object of the length asked for, and chains that are not empty. *)
Definition turn_good (mtu : Z) (s : io) (t : turn) : Prop :=
  Forall (.≠ []) (t_outs t) /\
  match t_alloc t with
  | Some (a, mem) => a <> NULL /\ io_pbufs s !! a = None /\ length mem = Z.to_nat (u16 mtu)
  | None => True
  end.

Lemma u16_bounds n : 0 <= u16 n < 65536.
Proof. apply Z.mod_pos_bound. lia. Qed.

(** The packet that is left in the buffer. *)
Lemma passed_data bd mtu pk r : let count := sizeof_type bd + u16 mtu in let bs := take (Z.to_nat count) pk in
  r = Z.min count (Z.of_nat (length pk)) ->
  if r <=? sizeof_type bd then passed bd mtu pk = None
  else passed bd mtu pk = Some (drop (Z.to_nat (sizeof_type bd)) bs) /\ Z.of_nat (length (drop (Z.to_nat (sizeof_type bd)) bs)) = r - sizeof_type bd.
Proof.
  intros count bs ->. pose proof (u16_bounds mtu). assert (0 <= sizeof_type bd) as Hh by (unfold sizeof_type; by destruct (b_head bd)).
  assert (drop (Z.to_nat (sizeof_type bd)) bs = take (Z.to_nat (u16 mtu)) (drop (Z.to_nat (sizeof_type bd)) pk)) as Hd.
  { unfold bs, count. rewrite skipn_firstn_comm. f_equal. lia. }
  unfold passed. rewrite Hd. pose proof (length_take (drop (Z.to_nat (sizeof_type bd)) pk) (Z.to_nat (u16 mtu))) as Hl. rewrite length_drop in Hl.
  destruct (Z.leb_spec (Z.min count (Z.of_nat (length pk))) (sizeof_type bd)); destruct (take (Z.to_nat (u16 mtu)) _) as [|x l] eqn:E; simpl in Hl |- *; unfold count in *; try done; try lia.
  split; [done|]. lia.
Qed.

(** What a read leaves: nothing of a packet, or one that is passed on, in the buffer. *)
Lemma tunnel_read_ok bd mtu a mem s :
  io_run s = true -> Forall event_ok (io_rx s) -> a <> NULL -> io_pbufs s !! a = None -> length mem = Z.to_nat (u16 mtu) ->
  exists buf s2, hev_tunnel_read bd (Some (a, mem)) mtu s = Some (buf, s2) /\ Forall event_ok (io_rx s2) /\ unlocked_waits s s2 /\
    io_locked s2 = io_locked s /\ io_input s2 = io_input s /\ stat_tx_packets s2 = stat_tx_packets s /\ stat_tx_bytes s2 = stat_tx_bytes s /\
    (io_run s2 = true -> (length (io_rx s2) < length (io_rx s))%nat) /\
    exists ps, packets (io_rx s) = ps ++ (if io_run s2 then packets (io_rx s2) else []) /\
      ((buf = NULL /\ io_pbufs s2 = io_pbufs s /\ omap (passed bd mtu) ps = []) \/
       (exists d rest, buf = a /\ io_pbufs s2 = <[a := Pbuf (d ++ rest) (Z.of_nat (length d)) (Z.of_nat (length d))]> (io_pbufs s) /\ omap (passed bd mtu) ps = [d])).
Proof.
  intros Hr Hev Hna Hfr Hlm. pose proof (u16_bounds mtu) as Hu. set (b := Pbuf mem (u16 mtu) (u16 mtu)).
  set (s1 := up_pbufs (<[a := b]> (io_pbufs s)) s). assert (delete a (<[a := b]> (io_pbufs s)) = io_pbufs s) as Hdel by (by apply delete_insert_id).
  destruct (dev_read_ok bd (sizeof_type bd + u16 mtu) s1 Hr Hev) as (r & bs & s2 & E & Hp & Hw & Hev2 & Hcase). injection Hp as P1 P2 P3 P4 P5. simpl in P1, P2, P3, P4, P5.
  assert (io_pbufs s2 !! a = Some b) as Hb by (rewrite P2; apply lookup_insert_eq).
  unfold hev_tunnel_read. erewrite bind_Some by reflexivity. fold b s1. rewrite (proj2 (Z.eqb_neq a NULL) Hna).
  erewrite bind_Some by (unfold load_pbuf, bind, gets, lift_opt, s1; simpl; rewrite lookup_insert_eq; reflexivity).
  erewrite bind_Some by exact E. assert (pbuf_free a s2 = Some (tt, up_pbufs (io_pbufs s) s2)) as Efree.
  { unfold pbuf_free, load_pbuf, bind, gets, lift_opt. rewrite Hb. unfold modify. by rewrite P2, Hdel. }
  assert (0 <= sizeof_type bd) as Hh by (unfold sizeof_type; by destruct (b_head bd)).
  destruct Hcase as [(pk & Hrr & -> & Hrun & Hlen & Hpk)|Hcase].
  - pose proof (passed_data bd mtu pk r Hrr) as Hd. cbv zeta in Hd. destruct (Z.leb_spec r (sizeof_type bd)) as [Hle|Hle].
    + erewrite bind_Some by exact Efree. eexists NULL, _. split; [reflexivity|]. simpl. split_and!; try done. exists [pk]. rewrite Hrun. split; [done|]. left. simpl. by rewrite Hd.
    + destruct Hd as [Hd Hdl]. set (d := drop _ (take _ pk)) in *. erewrite bind_Some by reflexivity. eexists a, _. split; [reflexivity|]. simpl. split_and!; try done.
      exists [pk]. rewrite Hrun. split; [done|]. right. exists d, (drop (length d) mem). split; [done|]. simpl. rewrite Hd. split; [|done].
      rewrite P2, insert_insert_eq, <-Hdl, u16_small; [done|]. rewrite Hdl. lia.
  - assert ((r <=? sizeof_type bd) = true) as -> by (apply Z.leb_le; destruct Hcase as [[-> _]|[-> _]]; lia). erewrite bind_Some by exact Efree.
    eexists NULL, _. split; [reflexivity|]. simpl. destruct Hcase as [(_ & Hrun & Hlen & Hpk)|(_ & Hrun & Hpk)]; (split_and!; [done..| |]).
    + done.
    + exists []. rewrite Hrun. split; [done|]. by left.
    + by rewrite Hrun.
    + exists []. rewrite Hrun. split; [done|]. by left.
Qed.

Lemma netif_input_ok bd t a b s : Forall (.≠ []) (t_outs t) -> io_pbufs s !! a = Some b ->
  exists s', netif_input bd t a s = Some (t_err t, s') /\
    task_part s' = task_part (up_input (take (Z.to_nat (p_len b)) (p_payload b), t_err t) (up_pbufs (if t_err t =? ERR_OK then delete a (io_pbufs s) else io_pbufs s) s)).
Proof.
  intros Ho Hb. unfold netif_input. erewrite bind_Some by (unfold load_pbuf, bind, gets, lift_opt; rewrite Hb; reflexivity).
  erewrite bind_Some by reflexivity.
  destruct (outputs_ok bd (t_outs t) (up_input (take (Z.to_nat (p_len b)) (p_payload b), t_err t) s) Ho) as (s3 & E & Ht).
  rewrite (bind_Some _ _ _ _ _ E). injection Ht as T1 T2 T3 T4 T5 T6 T7 T8. simpl in *.
  destruct (t_err t =? ERR_OK); (eexists; split; [reflexivity|]); unfold task_part; simpl; congruence.
Qed.

Lemma io_turn_ok bd mtu t s :
  io_run s = true -> io_locked s = false -> Forall event_ok (io_rx s) -> turn_good mtu s t ->
  exists s' ps, lwip_io_turn bd mtu t s = Some (tt, s') /\ io_locked s' = false /\ io_pbufs s' = io_pbufs s /\ Forall event_ok (io_rx s') /\ unlocked_waits s s' /\
    (fst <$> io_input s') = (fst <$> io_input s) ++ omap (passed bd mtu) ps /\
    (stat_tx_packets s', stat_tx_bytes s') = counted bd (stat_tx_packets s, stat_tx_bytes s) (omap (passed bd mtu) ps) /\
    packets (io_rx s) = ps ++ (if io_run s' then packets (io_rx s') else []) /\
    (io_run s' = true -> (length (io_rx s') <= length (io_rx s))%nat /\ (is_Some (t_alloc t) -> length (io_rx s') < length (io_rx s))%nat).
Proof.
  intros Hr Hl Hev [Ho Ha]. unfold lwip_io_turn, hev_tunnel_read. destruct (t_alloc t) as [[a mem]|] eqn:Et.
  2: { exists s, []. split; [reflexivity|]. cbn [omap list_omap]. rewrite Hr, app_nil_r.
       split; [done|]. split; [done|]. split; [done|]. split; [by apply unlocked_same|]. split; [done|]. split; [done|]. split; [done|].
       intros _. split; [done|]. by intros [? ?]. }
  destruct Ha as (Hna & Hfr & Hlm).
  destruct (tunnel_read_ok bd mtu a mem s Hr Hev Hna Hfr Hlm) as (buf & s2 & E & Hev2 & Hw & E1 & E2 & E3 & E4 & Hlen & ps & Hps & Hcase).
  unfold hev_tunnel_read in E. rewrite (bind_Some _ _ _ _ _ E). destruct Hcase as [(-> & Hpb & Hom)|(d & rest & -> & Hpb & Hom)].
  { exists s2, ps. rewrite Hom, app_nil_r, E2, E3, E4. split; [reflexivity|]. split_and!; try done; [congruence|]. intros Hrun. split; [|intros _]; [apply Nat.lt_le_incl|]; by apply Hlen. }
  rewrite (proj2 (Z.eqb_neq a NULL) Hna).
  erewrite bind_Some by (unfold load_pbuf, bind, gets, lift_opt; rewrite Hpb, lookup_insert_eq; reflexivity). cbn [p_tot_len].
  do 3 erewrite bind_Some by reflexivity.
  erewrite bind_Some by (unfold hev_task_mutex_lock, bind, gets; simpl; rewrite E1, Hl; reflexivity).
  match goal with |- bind (netif_input _ _ _) _ ?st = _ => idtac | |- exists s' ps, bind (netif_input _ _ _) _ ?st = _ /\ _ => set (s3 := st) end.
  destruct (netif_input_ok bd t a (Pbuf (d ++ rest) (Z.of_nat (length d)) (Z.of_nat (length d))) s3 Ho) as (s4 & E5 & Ht); [by unfold s3; simpl; rewrite Hpb, lookup_insert_eq|].
  rewrite (bind_Some _ _ _ _ _ E5). injection Ht as T1 T2 T3 T4 T5 T6 T7 T8. unfold s3 in *. simpl in *. rewrite Nat2Z.id, take_app_length in T5.
  exists (up_lock false (up_pbufs (io_pbufs s) s4)), ps. split.
  { destruct (Z.eqb_spec (t_err t) ERR_OK) as [He|He]; cbn [negb].
    - erewrite bind_Some by reflexivity. unfold hev_task_mutex_unlock, modify. rewrite Hpb, delete_insert_id in T3 by done. by destruct s4; simpl in *; subst.
    - erewrite bind_Some by (unfold pbuf_free, load_pbuf, bind, gets, lift_opt; rewrite T3, Hpb, lookup_insert_eq; reflexivity).
      unfold hev_task_mutex_unlock, modify. by rewrite T3, Hpb, delete_insert_id. }
  simpl. rewrite T1, T4, T5, T7, T8, Hom, E2. split_and!; try done.
  - unfold unlocked_waits. simpl. rewrite T6. exact Hw.
  - by rewrite fmap_app.
  - unfold counted. simpl. by rewrite E3, E4.
  - intros Hrun. split; [apply Nat.lt_le_incl|intros _]; by apply Hlen.
Qed.

(** ** The task *)

Definition turns_good (mtu : Z) (turns : nat -> io -> turn) : Prop := forall k s, turn_good mtu s (turns k s).

(** From the [N]-th turn on there is memory. *)
Definition memory_after (N : nat) (turns : nat -> io -> turn) : Prop := forall k s, (N <= k)%nat -> is_Some (t_alloc (turns k s)).

Lemma io_loop_ok bd mtu turns N fuel k s :
  turns_good mtu turns -> memory_after N turns -> io_locked s = false -> Forall event_ok (io_rx s) ->
  (if io_run s then (N - k) + length (io_rx s) + 2 <= fuel else 1 <= fuel)%nat ->
  exists s', lwip_io_loop fuel bd mtu turns k s = Some (tt, s') /\ io_run s' = false /\ io_locked s' = false /\ io_pbufs s' = io_pbufs s /\ unlocked_waits s s' /\
    let ds := omap (passed bd mtu) (if io_run s then packets (io_rx s) else []) in
    fst <$> io_input s' = (fst <$> io_input s) ++ ds /\ (stat_tx_packets s', stat_tx_bytes s') = counted bd (stat_tx_packets s, stat_tx_bytes s) ds.
Proof.
  intros Hg Hm. revert k s. induction fuel as [|fuel IH]; intros k s Hl Hev Hfuel; [destruct (io_run s); lia|]. simpl. erewrite bind_Some by reflexivity.
  destruct (io_run s) eqn:Hr; cbn [negb].
  2: { exists s. split_and!; try done; [by apply unlocked_same|]. by rewrite app_nil_r. }
  erewrite bind_Some by reflexivity.
  destruct (io_turn_ok bd mtu (turns k s) s Hr Hl Hev (Hg k s)) as (s1 & ps & E & Hl1 & Hp1 & Hev1 & Hw1 & Hi1 & Hs1 & Hps & Hlen).
  rewrite (bind_Some _ _ _ _ _ E). destruct (IH (S k) s1 Hl1 Hev1) as (s2 & E2 & Hr2 & Hl2 & Hp2 & Hw2 & Hi2 & Hs2).
  { destruct (io_run s1); [|lia]. destruct (Hlen eq_refl) as [Hle Hlt]. destruct (decide (N <= k)%nat) as [HN|HN]; [specialize (Hlt (Hm k s HN)); lia|lia]. }
  exists s2. split; [done|]. split; [done|]. split; [done|]. split; [congruence|]. split; [intros H1 H2; apply Hw2; [done|by apply Hw1]|].
  rewrite Hi2, Hs2, Hi1, Hs1, Hps, omap_app, counted_app, <-app_assoc. done.
Qed.

(** C11: Every packet gets through.  Whatever the device, the allocator and lwip do, and whatever the other tasks let
    lwip send while it waits, the task that reads the device ends after the stop without a fault; lwip was handed every packet that
    came before it, once and in order, without the header of the device and cut to the length of a buffer, except
    those that are empty then; the counters have counted them, modulo the width of a [size_t]; every buffer was handed
    over or freed; and the lock was never held while the task waited, nor is it held in the end. *)
Theorem tunnel_io_delivers fuel bd mtu turns N s :
  turns_good mtu turns -> memory_after N turns -> io_run s = true -> io_locked s = false -> Forall (.= false) (io_waits s) -> Forall event_ok (io_rx s) ->
  0 < b_size_bits bd -> 0 <= stat_tx_packets s < 2 ^ b_size_bits bd -> 0 <= stat_tx_bytes s < 2 ^ b_size_bits bd ->
  (N + length (io_rx s) + 2 <= fuel)%nat ->
  let ds := omap (passed bd mtu) (packets (io_rx s)) in
  exists s', lwip_io_task_entry fuel bd mtu turns s = Some (tt, s') /\ io_run s' = false /\
    fst <$> io_input s' = (fst <$> io_input s) ++ ds /\
    stat_tx_packets s' = (stat_tx_packets s + Z.of_nat (length ds)) mod 2 ^ b_size_bits bd /\
    stat_tx_bytes s' = (stat_tx_bytes s + Z.of_nat (length (concat ds))) mod 2 ^ b_size_bits bd /\
    io_pbufs s' = io_pbufs s /\ io_locked s' = false /\ Forall (.= false) (io_waits s').
Proof.
  intros Hg Hm Hr Hl Hw Hev Hb Hn Hby Hfuel ds.
  destruct (io_loop_ok bd mtu turns N fuel 0 s Hg Hm Hl Hev) as (s' & E & Hr' & Hl' & Hp' & Hw' & Hi & Hs); [rewrite Hr; lia|].
  rewrite Hr in Hi, Hs. cbv zeta in Hi, Hs. rewrite counted_total in Hs by done. injection Hs as Hs1 Hs2. exists s'. split_and!; try done. by apply Hw'.
Qed.

(** C38: A task that never waits.  While no buffer can be allocated a turn changes nothing and does not wait, and a failure of the device
    only uses itself up and does not wait either: the loop goes on without letting any other task run, so nobody can
    stop the tunnel either. *)
Theorem tunnel_io_spins bd mtu t s :
  (t_alloc t = None -> lwip_io_turn bd mtu t s = Some (tt, s)) /\
  (forall a mem rx, t_alloc t = Some (a, mem) -> a <> NULL -> io_pbufs s !! a = None -> io_rx s = DvError :: rx ->
     lwip_io_turn bd mtu t s = Some (tt, TunnelIO.up_rx rx s)).
Proof.
  split; [by intros H; unfold lwip_io_turn, hev_tunnel_read; rewrite H|]. intros a mem rx Ht Ha Hf Hrx. unfold lwip_io_turn, hev_tunnel_read. rewrite Ht.
  pose proof (proj2 (Z.eqb_neq a NULL) Ha) as Hn. erewrite bind_Some; [by rewrite Z.eqb_refl|].
  erewrite bind_Some by reflexivity. rewrite Hn. erewrite bind_Some by (unfold load_pbuf, bind, gets, lift_opt; simpl; rewrite lookup_insert_eq; reflexivity).
  erewrite bind_Some by (unfold hev_task_io_read, bind, gets; simpl; rewrite Hrx; reflexivity).
  cbv beta iota. assert ((-1 <=? sizeof_type bd) = true) as -> by (unfold sizeof_type; by destruct (b_head bd)).
  unfold pbuf_free, load_pbuf, bind, gets, lift_opt. simpl. rewrite lookup_insert_eq. unfold modify. simpl. rewrite delete_insert_id by done. by destruct s.
Qed.

(** ** To the device *)

(** What is written of a chain: the header and as many buffers as there are vectors. *)
Definition image (bd : build) (p : list (list Z)) : list Z :=
  if b_head bd then type_of bd (take 511 p) ++ concat (take 511 p) else concat (take 512 p).

Lemma type_of_length bd p : length (type_of bd p) = 4%nat.
Proof. induction p as [|[|b l] p IH]; done. Qed.

Lemma tunnel_write_eq bd p s : p <> [] -> hev_tunnel_write bd p s =
  match dev_write (image bd p) s with Some ((r, again), s') => Some ((if b_head bd && (r <=? 4) then -1 else r, again), s') | None => None end.
Proof.
  intros Hp. destruct p as [|b next]; [done|]. unfold hev_tunnel_write, image. destruct (b_head bd).
  - unfold bind at 1. by destruct (dev_write _ s) as [[[r again] s']|].
  - destruct next as [|c next]; [cbn [take concat]; rewrite app_nil_r; simpl firstn; simpl; rewrite ?app_nil_r|]; by destruct (dev_write _ s) as [[[r again] s']|].
Qed.

(** The answer of the device to a write of [bs]: the result, whether [errno] is EAGAIN, and what was written. *)
Definition device (tx : list dev_answer) (bs : list Z) : Z * bool * list (list Z) :=
  match tx with
  | [] | DwAll :: _ => (Z.of_nat (length bs), false, [bs])
  | DwSome n stale :: _ => (Z.max 0 (Z.min n (Z.of_nat (length bs))), stale, [take (Z.to_nat n) bs])
  | DwAgain :: _ => (-1, true, [])
  | DwError :: _ => (-1, false, [])
  end.

Lemma image_some bd p : concat (take 511 p) <> [] -> sizeof_type bd < Z.of_nat (length (image bd p)).
Proof.
  intros Hc. assert (0 < length (concat (take 511 p)))%nat by (destruct (concat (take 511 p)); simpl; [done|lia]).
  assert (length (concat (take 511 p)) <= length (concat (take 512 p)))%nat.
  { replace (take 511 p) with (take 511 (take 512 p)) by (by rewrite take_take). rewrite <-(take_drop 511 (take 512 p)) at 2. rewrite concat_app, length_app. lia. }
  unfold image, sizeof_type. destruct (b_head bd); [rewrite length_app, type_of_length|]; lia.
Qed.

Lemma concat_some (p : list (list Z)) n : concat (take n p) <> [] -> concat p <> [].
Proof. intros H E. rewrite <-(take_drop n p), concat_app in E. by apply app_eq_nil in E as [? _]. Qed.

(** The read of a block that the device has: the buffer holds what is passed on of it. *)
Lemma tunnel_read_block bd mtu a mem pk d rx s :
  io_rx s = DvPacket pk :: rx -> a <> NULL -> length mem = Z.to_nat (u16 mtu) -> passed bd mtu pk = Some d ->
  hev_tunnel_read bd (Some (a, mem)) mtu s =
  Some (a, up_pbufs (<[a := Pbuf (d ++ drop (length d) mem) (Z.of_nat (length d)) (Z.of_nat (length d))]> (io_pbufs s)) (TunnelIO.up_rx rx s)).
Proof.
  intros Hrx Ha Hl Hd. pose proof (u16_bounds mtu) as Hu. set (b := Pbuf mem (u16 mtu) (u16 mtu)).
  unfold hev_tunnel_read. erewrite bind_Some by reflexivity. fold b. rewrite (proj2 (Z.eqb_neq a NULL) Ha).
  erewrite bind_Some by (unfold load_pbuf, bind, gets, lift_opt; simpl; rewrite lookup_insert_eq; reflexivity).
  erewrite bind_Some by (unfold hev_task_io_read, bind, gets; simpl; rewrite Hrx; reflexivity). cbn [p_len b].
  pose proof (passed_data bd mtu pk _ eq_refl) as Hp. cbv zeta in Hp. destruct (Z.leb_spec (Z.min (sizeof_type bd + u16 mtu) (Z.of_nat (length pk))) (sizeof_type bd)); [congruence|].
  destruct Hp as [Hp Hlen]. rewrite Hd in Hp. injection Hp as Hp. rewrite <-Hp in Hlen |- *.
  rewrite <-Hlen, u16_small; [unfold bind, modify, ret; simpl; by rewrite insert_insert_eq|].
  split; [lia|]. assert (0 <= sizeof_type bd) by (unfold sizeof_type; by destruct (b_head bd)). lia.
Qed.

(** C24: Sending.  Of a packet of lwip one block is written to the device: the buffers of the chain, at most 512 (511 and a header
    that says which protocol it is where the device wants one).  If the device takes something of the
    packet, it is counted with all that was taken, and lwip is told that it was sent; else nothing is
    counted and lwip is told to try again or that the device has failed.  A chain of so
    many buffers, with no more bytes than a buffer of the MTU holds, arrives whole: where a device of the same kind
    gives this block, [hev_tunnel_read] returns the buffer it has allocated with exactly the packet in it, the header
    taken off and both lengths set. *)
Theorem netif_output_writes bd p s mtu :
  concat (take 511 p) <> [] ->
  (let '(r, again, w) := device (io_tx s) (image bd p) in
   let sent := sizeof_type bd <? r in
   exists s', netif_output_handler bd p s = Some (if sent then ERR_OK else if again then ERR_WOULDBLOCK else ERR_IF, s') /\
     io_written s' = io_written s ++ w /\ task_part s' = task_part s /\
     (stat_rx_packets s', stat_rx_bytes s') = if sent then (size_add bd (stat_rx_packets s) 1, size_add bd (stat_rx_bytes s) r) else (stat_rx_packets s, stat_rx_bytes s)) /\
  sizeof_type bd < Z.of_nat (length (image bd p)) /\
  ((length p <= if b_head bd then 511 else 512)%nat -> Z.of_nat (length (concat p)) <= u16 mtu ->
    passed bd mtu (image bd p) = Some (concat p) /\
    forall t rx a mem, io_rx t = DvPacket (image bd p) :: rx -> a <> NULL -> length mem = Z.to_nat (u16 mtu) ->
      let n := Z.of_nat (length (concat p)) in
      hev_tunnel_read bd (Some (a, mem)) mtu t =
      Some (a, up_pbufs (<[a := Pbuf (concat p ++ drop (length (concat p)) mem) n n]> (io_pbufs t)) (TunnelIO.up_rx rx t))).
Proof.
  intros Hc. assert (p <> []) as Hp by (by intros ->). pose proof (image_some bd p Hc) as Hi. pose proof (concat_some p 511 Hc) as Hc'. split; [|split; [done|]].
  - unfold netif_output_handler, bind at 1. rewrite tunnel_write_eq by done. unfold dev_write, bind, gets, device, sizeof_type in *.
    destruct (io_tx s) as [|[|n st| |] tx]; unfold modify, ret; simpl.
    all: destruct (b_head bd); simpl; rewrite ?(proj2 (Z.leb_gt (Z.of_nat _) _)) by lia; rewrite ?(proj2 (Z.ltb_lt _ (Z.of_nat _))) by lia; rewrite ?(proj2 (Z.leb_gt (Z.of_nat _) 0)) by lia.
    all: try (eexists; split; [reflexivity|]; simpl; rewrite ?app_nil_r; done).
    + destruct (Z.leb_spec (Z.max 0 (Z.min n (Z.of_nat (length (image bd p))))) 4), (Z.ltb_spec 4 (Z.max 0 (Z.min n (Z.of_nat (length (image bd p)))))); try lia; simpl.
      * by eexists.
      * rewrite (proj2 (Z.leb_gt _ _)) by lia. by eexists.
    + destruct (Z.leb_spec (Z.max 0 (Z.min n (Z.of_nat (length (image bd p))))) 0), (Z.ltb_spec 0 (Z.max 0 (Z.min n (Z.of_nat (length (image bd p)))))); try lia; by eexists.
  - intros Hl Hm. assert (passed bd mtu (image bd p) = Some (concat p)) as Hpa; [|split; [done|]; intros t rx a mem Hrx Ha Hmem; by apply tunnel_read_block with (pk := image bd p)].
    unfold passed, image, sizeof_type. destruct (b_head bd).
    + rewrite !(take_ge p) by lia. rewrite drop_app_length' by (by rewrite type_of_length). rewrite take_ge by lia. by destruct (concat p).
    + rewrite drop_0, (take_ge p) by lia. rewrite take_ge by lia. by destruct (concat p).
Qed.

(** ** The timers *)

Lemma land_3 i : Z.land (u32 i) 3 = i mod 4.
Proof. unfold u32. change 3 with (Z.ones 2). rewrite Z.land_ones by lia. change (2 ^ 2) with 4. rewrite Z.mod_mod_divide; [done|by exists 1073741824]. Qed.

Definition timers_due (i : Z) : list lwip_timer := TcpTmr :: if i mod 4 =? 0 then [IpReassTmr; Nd6Tmr; Ip6ReassTmr] else [].
Definition nap_of (n : bool * bool) : timer_nap * bool := (if n.1 then NapSleep else NapWait, false).

(** The timers called in [n] turns from turn [i] on. *)
Definition timers_from (i : Z) (n : nat) : list (list lwip_timer) := (fun k => timers_due (i + Z.of_nat k)) <$> seq 0 n.

Lemma timers_from_S i n : timers_from i (S n) = timers_due i :: timers_from (i + 1) n.
Proof.
  unfold timers_from. cbn [seq fmap list_fmap]. rewrite Z.add_0_r. f_equal. rewrite <-seq_shift, <-list_fmap_compose. apply list_fmap_ext. intros j k _. simpl. f_equal. lia.
Qed.

Lemma timer_loop_ok naps b rest i s :
  Forall (fun n => n.2 = true) naps -> tm_run s = true -> tm_locked s = false ->
  lwip_timer_loop (naps ++ (b, false) :: rest) (u32 i) s =
  Some (tt, Timers false false (tm_calls s ++ timers_from i (S (length naps))) (tm_naps s ++ (nap_of <$> naps ++ [(b, false)]))).
Proof.
  intros H. revert i s. induction H as [|[ss r] naps Hr H IH]; intros i s Hrun Hl.
  - simpl. unfold bind, gets. rewrite Hrun. cbn [negb]. unfold tm_lock, bind, gets. rewrite Hl. unfold modify, tm_unlock. simpl.
    rewrite timers_from_S. destruct rest; simpl; unfold bind, gets; simpl; rewrite Hrun; simpl; rewrite land_3; by destruct b.
  - simpl in Hr. subst r. cbn [length]. rewrite timers_from_S. simpl. unfold bind at 1, gets at 1. rewrite Hrun. cbn [negb].
    erewrite bind_Some by (unfold tm_lock, bind, gets; rewrite Hl; reflexivity). do 3 erewrite bind_Some by reflexivity. simpl.
    replace (u32 (u32 i + 1)) with (u32 (i + 1)) by (unfold u32; by rewrite Zplus_mod_idemp_l).
    rewrite IH by (simpl; by rewrite ?Hrun). cbn [tm_calls tm_naps tm_run tm_locked]. rewrite land_3, <-!app_assoc. cbn [app fmap list_fmap]. by destruct ss.
Qed.

(** The timers of lwip keep their periods.  The timer of TCP runs in every turn and the slow ones in exactly every fourth, also
    after the counter of turns has wrapped around; the task sleeps for one period when there are sessions and else until it is
    woken, never with the lock held, and ends with the first turn after the stop. *)
Theorem lwip_timers_periodic naps b rest :
  Forall (fun n => n.2 = true) naps ->
  lwip_timer_task_entry (naps ++ (b, false) :: rest) (Timers true false [] []) =
  Some (tt, Timers false false (timers_from 1 (S (length naps))) (nap_of <$> naps ++ [(b, false)])).
Proof. intros H. by apply (timer_loop_ok naps b rest 1). Qed.

(** *** Examples *)

Definition mac_build : build := Build true 30 64.

(** Out of memory at first, then new buffers; lwip refuses every other packet and answers each. *)
Definition demo_turns (k : nat) (s : io) : turn :=
  let a := fresh (dom (io_pbufs s) ∪ {[NULL]} : gset Z) in
  Turn (if (k <? 2)%nat then None else Some (a, replicate 1500 0)) (if Nat.even k then ERR_OK else -1) [[[69; 0]; [1]]].

Lemma demo_turns_good : turns_good 1500 demo_turns.
Proof.
  intros k s. split; [by apply list.Forall_forall; intros p ->%list_elem_of_singleton|]. unfold demo_turns. simpl t_alloc. destruct (k <? 2)%nat; [done|].
  pose proof (is_fresh (dom (io_pbufs s) ∪ {[NULL]} : gset Z)) as Hf. apply not_elem_of_union in Hf as [Hf1 Hf2].
  split; [intros E; apply Hf2; by apply elem_of_singleton|]. split; [by apply not_elem_of_dom|reflexivity].
Qed.

Definition demo_io : io :=
  Io true false ∅ [DvPacket [0; 0; 0; 2; 69; 0; 7]; DvAgain true [[[96]]]; DvError; DvPacket [0; 0]; DvPacket [0; 0; 0; 30; 96; 5]; DvAgain false []; DvPacket [0; 0; 0; 2; 69]] [DwAgain] [] [] [] 0 0 (2 ^ 64 - 1) 0.

Lemma tunnel_io_delivers_witness :
  exists s', lwip_io_task_entry 12 mac_build 1500 demo_turns demo_io = Some (tt, s') /\ io_run s' = false /\
    fst <$> io_input s' = [[69; 0; 7]; [96; 5]] /\ stat_tx_packets s' = 2 /\ stat_tx_bytes s' = 4 /\ io_pbufs s' = ∅.
Proof.
  destruct (tunnel_io_delivers 12 mac_build 1500 demo_turns 2 demo_io) as (s' & E & Hr & Hi & Hp & Hb & Hpb & _).
  - exact demo_turns_good.
  - intros k s Hk. unfold demo_turns. simpl. rewrite (proj2 (Nat.ltb_ge _ _)) by lia. by eexists.
  - reflexivity.
  - reflexivity.
  - constructor.
  - repeat first [apply Forall_nil_2 | apply Forall_cons_2]; simpl; try exact I; repeat first [apply Forall_nil_2 | apply Forall_cons_2]; done.
  - simpl. lia.
  - simpl. lia.
  - simpl. lia.
  - simpl. lia.
  - exists s'. split; [exact E|]. split; [exact Hr|]. split; [exact Hi|]. split; [exact Hp|]. split; [exact Hb|exact Hpb].
Defined.

Lemma tunnel_io_spins_witness : lwip_io_turn mac_build 1500 (Turn (Some (64, replicate 1500 0)) 0 []) (Io true false ∅ [DvError; DvError] [] [] [] [] 0 0 0 0) =
  Some (tt, Io true false ∅ [DvError] [] [] [] [] 0 0 0 0).
Proof. apply (proj2 (tunnel_io_spins mac_build 1500 (Turn (Some (64, replicate 1500 0)) 0 []) (Io true false ∅ [DvError; DvError] [] [] [] [] 0 0 0 0)) 64 (replicate 1500 0)); done. Defined.

Lemma netif_output_writes_witness :
  exists s', netif_output_handler mac_build [[]; [69]; [1; 2]] demo_io = Some (ERR_WOULDBLOCK, s') /\ io_written s' = [] /\
    let t := Io true false ∅ [DvPacket [0; 0; 0; 2; 69; 1; 2]; DvError] [] [] [] [] 0 0 0 0 in
    hev_tunnel_read mac_build (Some (64, replicate 5 0)) 5 t =
    Some (64, Io true false {[64 := Pbuf [69; 1; 2; 0; 0] 3 3]} [DvError] [] [] [] [] 0 0 0 0).
Proof.
  destruct (netif_output_writes mac_build [[]; [69]; [1; 2]] demo_io 5) as ((s' & E & Hw & _) & _ & Hrt); [discriminate|].
  exists s'. split; [exact E|]. split; [exact Hw|]. intros t. destruct Hrt as [_ Hrt]; [simpl; lia|vm_compute; discriminate|].
  apply (Hrt t [DvError] 64 (replicate 5 0)); [reflexivity|discriminate|reflexivity].
Defined.
