(* ===== verification/TunnelDns.v ===== *)
(** * Datagrams to the mapped DNS (dns_recv_handler of hev-socks5-tunnel.c)

    The callback of lwip for a datagram to the port of the mapped DNS: it answers it from a new
    buffer and lets go of both buffers and of the one-shot connection.  With the session that
    a later connection to the answer becomes, the way of a name through the tunnel is complete. *)

From S2P Require Import Prelude RBTree RBModel RBRep RBSpec KeyedTree HevList MappedDNS DnsMessage DnsTheorems SocksAddr AddrTheorems Config TaskSocket Socks5Client Handshake SessionTcp SessionRun SessionRunTheorems SessionLife.

(** ** The callback *)

(** The buffers of lwip by address, as the payloads of their chains; the cache and the allocations to come; the
    connections; and what was sent. *)
Record dns_io := DnsIo { di_pbufs : gmap Z (list (list Z)); di_dns : mdns; di_mem : list (Z * bool); di_pcbs : gset Z; di_sent : list (list Z) }.

Abbreviation DI := (M dns_io).

Definition up_dpbufs v s := DnsIo v (di_dns s) (di_mem s) (di_pcbs s) (di_sent s).

(** The payload of the first buffer of a chain. *)
Definition dpayload (p : Z) : DI (list Z) :=
  let* c := gets (fun s => di_pbufs s !! p) in
  let* c := lift_opt c in
  lift_opt (head c).

Definition set_dpayload (p : Z) (bs : list Z) : DI unit :=
  let* c := gets (fun s => di_pbufs s !! p) in
  let* c := lift_opt c in
  modify (fun s => up_dpbufs (<[p := bs :: tail c]> (di_pbufs s)) s).

Definition dns_pbuf_free (p : Z) : DI unit :=
  let* c := gets (fun s => di_pbufs s !! p) in
  let* _ := lift_opt c in
  modify (fun s => up_dpbufs (delete p (di_pbufs s)) s).

Definition udp_remove (pcb : Z) : DI unit :=
  let* pcbs := gets di_pcbs in
  if bool_decide (pcb ∈ pcbs) then modify (fun s => DnsIo (di_pbufs s) (di_dns s) (di_mem s) (di_pcbs s ∖ {[pcb]}) (di_sent s)) else fail.

Definition udp_sendfrom (b : Z) : DI unit :=
  let* bs := dpayload b in
  modify (fun s => DnsIo (di_pbufs s) (di_dns s) (di_mem s) (di_pcbs s) (di_sent s ++ [bs])).

(** The handler of messages on the two buffers; it works in place on the query. *)
Definition handle_message (p b : Z) : DI Z :=
  let* req := dpayload p in
  let* res := dpayload b in
  let* dns := gets di_dns in
  let* mem := gets di_mem in
  let* (r, h) := lift_opt (hev_mapped_dns_handle (Z.of_nat (length req)) (Z.of_nat (length res)) (HSt req res dns mem)) in
  modify (fun s => DnsIo (di_pbufs s) (h_dns h) (h_mem h) (di_pcbs s) (di_sent s));;
  set_dpayload p (h_req h);;
  set_dpayload b (h_res h);;
  ret r.

(** [alloc]: the new buffer with [UDP_BUF_SIZE] bytes of anything, or nothing.  That the callback of the connection is
    cleared before it is removed makes no difference here. *)
Definition dns_recv_handler (alloc : option (Z * list Z)) (pcb p : Z) : DI unit :=
  (match alloc with
   | None => ret tt
   | Some (b, mem) =>
     modify (fun s => up_dpbufs (<[b := [mem]]> (di_pbufs s)) s);;
     let* res := handle_message p b in
     (if res <? 0 then ret tt else
        let* bs := dpayload b in
        set_dpayload b (take (Z.to_nat (u16 res)) bs);;
        udp_sendfrom b);;
     dns_pbuf_free b
   end);;
  dns_pbuf_free p;;
  udp_remove pcb.

(** ** Theorems *)

Lemma dpayload_ok p s c : di_pbufs s !! p = Some c -> c <> [] -> dpayload p s = Some (hd [] c, s).
Proof. intros E Hc. unfold dpayload, bind, gets, lift_opt. rewrite E. by destruct c. Qed.

Lemma set_dpayload_ok p bs s c : di_pbufs s !! p = Some c -> set_dpayload p bs s = Some (tt, up_dpbufs (<[p := bs :: tail c]> (di_pbufs s)) s).
Proof. intros E. unfold set_dpayload, bind, gets, lift_opt. by rewrite E. Qed.

Lemma dns_pbuf_free_ok p s c : di_pbufs s !! p = Some c -> dns_pbuf_free p s = Some (tt, up_dpbufs (delete p (di_pbufs s)) s).
Proof. intros E. unfold dns_pbuf_free, bind, gets, lift_opt. by rewrite E. Qed.

Lemma udp_remove_ok pcb s : pcb ∈ di_pcbs s -> udp_remove pcb s = Some (tt, DnsIo (di_pbufs s) (di_dns s) (di_mem s) (di_pcbs s ∖ {[pcb]}) (di_sent s)).
Proof. intros H. unfold udp_remove, bind, gets. by rewrite bool_decide_true. Qed.

(** What the callback does when the handler of messages gives [r] and [h]. *)
Lemma recv_run s b mem pcb p req next r h :
  di_pbufs s !! p = Some (req :: next) -> di_pbufs s !! b = None -> pcb ∈ di_pcbs s ->
  hev_mapped_dns_handle (Z.of_nat (length req)) (Z.of_nat (length mem)) (HSt req mem (di_dns s) (di_mem s)) = Some (r, h) ->
  dns_recv_handler (Some (b, mem)) pcb p s =
  Some (tt, DnsIo (delete p (di_pbufs s)) (h_dns h) (h_mem h) (di_pcbs s ∖ {[pcb]}) (di_sent s ++ (if r <? 0 then [] else [take (Z.to_nat (u16 r)) (h_res h)]))).
Proof.
  intros Hp Hb Hpcb Hh. assert (b <> p) as Hne by congruence. unfold dns_recv_handler.
  set (s1 := up_dpbufs (<[b := [mem]]> (di_pbufs s)) s).
  set (s2 := DnsIo (<[b := [h_res h]]> (<[p := h_req h :: next]> (<[b := [mem]]> (di_pbufs s)))) (h_dns h) (h_mem h) (di_pcbs s) (di_sent s)).
  assert (handle_message p b s1 = Some (r, s2)) as Em.
  { unfold handle_message. erewrite bind_Some by (apply dpayload_ok with (c := req :: next); [by unfold s1; simpl; rewrite lookup_insert_ne|done]).
    erewrite bind_Some by (apply dpayload_ok with (c := [mem]); [by unfold s1; simpl; rewrite lookup_insert_eq|done]).
    do 2 erewrite bind_Some by reflexivity. unfold s1. simpl hd. simpl di_dns. simpl di_mem. erewrite bind_Some by (unfold lift_opt; rewrite Hh; reflexivity). cbv beta iota.
    erewrite bind_Some by reflexivity. erewrite bind_Some by (apply set_dpayload_ok with (c := req :: next); simpl; by rewrite lookup_insert_ne).
    erewrite bind_Some by (apply set_dpayload_ok with (c := [mem]); simpl; rewrite lookup_insert_ne by done; apply lookup_insert_eq). done. }
  assert (delete b (di_pbufs s2) = <[p := h_req h :: next]> (di_pbufs s)) as Hd.
  { unfold s2. simpl. rewrite delete_insert_eq, (delete_insert_ne _ b p) by done. by rewrite delete_insert_id. }
  erewrite bind_Some.
  2: { erewrite bind_Some by reflexivity. fold s1. rewrite (bind_Some _ _ _ _ _ Em). instantiate (1 := DnsIo (<[p := h_req h :: next]> (di_pbufs s)) (h_dns h) (h_mem h) (di_pcbs s) (di_sent s ++ (if r <? 0 then [] else [take (Z.to_nat (u16 r)) (h_res h)]))).
       instantiate (1 := tt). destruct (r <? 0).
       - erewrite bind_Some by reflexivity. rewrite (dns_pbuf_free_ok b s2 [h_res h]) by (unfold s2; simpl; apply lookup_insert_eq). rewrite Hd, app_nil_r. done.
       - erewrite bind_Some.
         2: { erewrite bind_Some by (apply dpayload_ok with (c := [h_res h]); [unfold s2; simpl; apply lookup_insert_eq|done]).
              erewrite bind_Some by (apply set_dpayload_ok with (c := [h_res h]); unfold s2; simpl; apply lookup_insert_eq).
              unfold udp_sendfrom. erewrite bind_Some by (eapply dpayload_ok; [simpl; apply lookup_insert_eq|done]). reflexivity. }
         erewrite dns_pbuf_free_ok by (simpl; apply lookup_insert_eq). simpl. rewrite delete_insert_eq. unfold s2 in Hd. simpl in Hd. by rewrite Hd. }
  erewrite bind_Some by (apply dns_pbuf_free_ok with (c := h_req h :: next); simpl; apply lookup_insert_eq).
  rewrite udp_remove_ok by done. simpl. by rewrite delete_insert_eq.
Qed.

(** Whatever the datagram, the callback lets go of both buffers and the connection, keeps the cache sound,
    and sends at most one message, of at least a header and within the new buffer; without a buffer it sends
    nothing. *)
Theorem dns_recv_safe alloc pcb p req next s lru :
  di_pbufs s !! p = Some (req :: next) -> pcb ∈ di_pcbs s -> bytes_ok req -> Z.of_nat (length req) < 65536 ->
  match alloc with Some (b, mem) => di_pbufs s !! b = None /\ Z.of_nat (length mem) < 65536 | None => True end ->
  md_inv (di_dns s) lru -> NoDup (di_mem s).*1 -> Forall (fun q => okp q.1 /\ q.1 ∉ lru) (di_mem s) ->
  exists s' lru', dns_recv_handler alloc pcb p s = Some (tt, s') /\ di_pbufs s' = delete p (di_pbufs s) /\ di_pcbs s' = di_pcbs s ∖ {[pcb]} /\ md_inv (di_dns s') lru' /\
    (di_sent s' = di_sent s \/ exists m b mem, alloc = Some (b, mem) /\ di_sent s' = di_sent s ++ [m] /\ (12 <= length m <= length mem)%nat).
Proof.
  intros Hp Hpcb Hb Hl Ha Hi Hnd Hm. destruct alloc as [[b mem]|].
  - destruct Ha as [Hf Hlm]. destruct (handle_safe (Z.of_nat (length req)) (Z.of_nat (length mem)) (HSt req mem (di_dns s) (di_mem s))) as (r & h & E & [H1 H2 H3 (lru' & H4 & _)] & Hr); [lia| |].
    { split; try done. by exists lru. }
    rewrite (recv_run s b mem pcb p req next r h) by done. eexists _, lru'. split; [reflexivity|]. simpl. split_and!; try done.
    destruct Hr as [->|Hr]; [left; by rewrite app_nil_r|right]. rewrite (proj2 (Z.ltb_ge r 0)) by lia. eexists _, b, mem. split; [done|]. split; [done|].
    rewrite u16_small, length_take by lia. lia.
  - unfold dns_recv_handler. erewrite bind_Some by reflexivity. erewrite bind_Some by (by apply dns_pbuf_free_ok with (c := req :: next)). rewrite udp_remove_ok by done.
    eexists _, lru. split; [reflexivity|]. simpl. split_and!; try done. by left.
Qed.

Lemma dns_reply_length i0 i1 f0 f1 cs ls ip : length cs = 6%nat -> length (dns_reply i0 i1 f0 f1 ls ip) = (length (dns_query i0 i1 f0 f1 cs ls) + 16)%nat.
Proof. intros H. unfold dns_reply, dns_query. cbv zeta. repeat (rewrite length_app || simpl). rewrite H. lia. Qed.

(** C32: A name goes through the tunnel.  A datagram that asks the mapped DNS for a name is answered with one
    datagram, the reply that carries a mapped address, and all that the question took is given back; and a connection
    that the application then makes to the four bytes of that address, at any port, becomes a session
    whose destination at the SOCKS5 server is exactly the name that was asked for and that port. *)
Theorem dns_datagram_connects_by_name i0 i1 f0 f1 c0 c1 c2 c3 c4 c5 ls next s lru a k b mem pcb p tl port stack sk tcp :
  let q := dns_query i0 i1 f0 f1 [c0; c1; c2; c3; c4; c5] ls in
  Forall label_ok ls -> ls <> [] -> (length (dotted ls) <= 255)%nat -> byte_ok f0 -> byte_ok f1 ->
  md_inv (di_dns s) lru -> di_mem s = [(a, true)] -> okp a -> a ∉ lru ->
  di_pbufs s !! p = Some (q :: next) -> di_pbufs s !! b = None -> pcb ∈ di_pcbs s ->
  (length q + 16 <= length mem)%nat -> Z.of_nat (length mem) < 65536 ->
  Z.lnot (md_mask (di_dns s)) = 2 ^ k - 1 -> 0 <= k -> md_max (di_dns s) <= 2 ^ k - 1 -> Z.land (md_net (di_dns s)) (2 ^ k - 1) = 0 ->
  -2147483648 <= md_net (di_dns s) -> md_net (di_dns s) + 2 ^ k <= 2147483648 -> length stack = sizeof_addr ->
  exists ip s' d'', dns_recv_handler (Some (b, mem)) pcb p s = Some (tt, s') /\
    di_sent s' = di_sent s ++ [dns_reply i0 i1 f0 f1 ls ip] /\ di_pbufs s' = delete p (di_pbufs s) /\ di_pcbs s' = di_pcbs s ∖ {[pcb]} /\
    hev_socks5_session_tcp_new true true true stack sk tcp (IpAddr (be32 ip ++ tl) IPADDR_TYPE_V4) port (di_dns s') =
    Some (Some (new_session sk tcp (enc_name (dotted ls) (htons port))), d'').
Proof.
  intros q Hls Hne Hdl Hf0 Hf1 Hi Hmem Hok Ha Hp Hb Hpcb Hlen Hmax Hmask Hk Hmx Hnet Hlo Hhi Hst. set (d := di_dns s) in *.
  destruct (handle_reply i0 i1 f0 f1 c0 c1 c2 c3 c4 c5 ls mem d lru a) as (i & d' & lru' & q' & rest & Hh & Hf & Hi' & Hsp); [done..|fold q; lia|].
  assert (cstr (dotted ls)) as Hcs.
  { destruct ls as [|l ls]; [done|]. apply Forall_cons in Hls as [(_ & _ & ?) ?]. apply Forall_app. split; [done|]. by apply cstr_dot_labels. }
  destruct (find_ok d lru a (dotted ls)) as (i2 & d2 & lru2 & Hf2 & _ & _ & _ & Hm & Hn & Hmk); try done.
  rewrite Hf in Hf2. symmetry in Hf2. simplify_eq.
  assert (0 <= i < md_max d) as Hir by (eapply (spec_find_range (md_max d) (dotted ls) (abs d lru)); [apply Hi|by apply abs_range|exact Hsp]).
  destruct (lookup_mapped d' lru' (dotted ls) i (md_net d) k) as (d'' & lru'' & Hl & _); try done; [congruence|lia| |].
  { change (abs d' lru') with (spec_finds (md_max d) [] (abs d' lru')). eapply spec_finds_lookup; [apply Hi|exact Hsp|]. apply Hi. }
  destruct (from_lwip_name d' d'' stack (Z.lor (md_net d) i) tl port (dotted ls)) as (rest' & Heq); try done; [rewrite (lor_host _ _ k) by lia; lia|].
  exists (Z.lor (md_net d) i). eexists _, d''. split; [eapply recv_run; [done..|]; rewrite Hmem; exact Hh|].
  rewrite (proj2 (Z.ltb_ge _ _)) by lia. cbn [di_sent di_pbufs di_pcbs di_dns h_res h_dns]. split; [|split; [done|split; [done|]]].
  - f_equal. f_equal. pose proof (dns_reply_length i0 i1 f0 f1 [c0; c1; c2; c3; c4; c5] ls (Z.lor (md_net d) i) eq_refl) as Hrl. fold q in Hrl.
    fold q. rewrite u16_small by lia. replace (Z.to_nat (Z.of_nat (length q) + 16)) with (length (dns_reply i0 i1 f0 f1 ls (Z.lor (md_net d) i))) by lia. by rewrite take_app_length.
  - unfold hev_socks5_session_tcp_new, hev_socks5_session_tcp_construct. cbn [negb]. rewrite (bind_Some _ _ _ _ _ Heq). change (0 <? 0) with false. cbv iota.
    rewrite client_for by (by apply name_wf). done.
Qed.

Lemma dns_datagram_connects_by_name_witness :
  exists ip s' d'', dns_recv_handler (Some (8, replicate 1500 7)) 3 4 (DnsIo {[4 := [dns_query 18 52 1 0 [0; 0; 0; 0; 0; 0] [[97; 98]; [99]]]]} sample_dns [(64, true)] {[3]} []) = Some (tt, s') /\
    di_sent s' = [dns_reply 18 52 1 0 [[97; 98]; [99]] ip] /\
    hev_socks5_session_tcp_new true true true (replicate 260 7) (Sock [] [] []) (Pcb [] [] 0 0 false) (IpAddr (be32 ip ++ replicate 12 0) IPADDR_TYPE_V4) 443 (di_dns s') =
    Some (Some (new_session (Sock [] [] []) (Pcb [] [] 0 0 false) (enc_name [97; 98; 46; 99] (htons 443))), d'').
Proof.
  destruct (dns_datagram_connects_by_name 18 52 1 0 0 0 0 0 0 0 [[97; 98]; [99]] [] (DnsIo {[4 := [dns_query 18 52 1 0 [0; 0; 0; 0; 0; 0] [[97; 98]; [99]]]]} sample_dns [(64, true)] {[3]} [])
    [] 64 8 8 (replicate 1500 7) 3 4 (replicate 12 0) 443 (replicate 260 7) (Sock [] [] []) (Pcb [] [] 0 0 false)) as (ip & s' & d'' & E & H1 & _ & _ & H2).
  - by repeat constructor.
  - discriminate.
  - simpl. lia.
  - done.
  - done.
  - exact sample_dns_inv.
  - reflexivity.
  - done.
  - apply not_elem_of_nil.
  - reflexivity.
  - reflexivity.
  - by apply (bool_decide_unpack _).
  - rewrite length_replicate. simpl. lia.
  - rewrite length_replicate. lia.
  - reflexivity.
  - lia.
  - vm_compute. discriminate.
  - reflexivity.
  - vm_compute. discriminate.
  - vm_compute. discriminate.
  - reflexivity.
  - exists ip, s', d''. split; [exact E|]. split; [exact H1|exact H2].
Defined.
